(* ===== verification/_CoqProject ===== *)
-Q . S2P
Prelude.v
Strings.v
Badge.v
Registry.v
LinkedList.v
CapTracking.v
State.v
ResourceTypes.v
ModelExport.v
Component.v
PdResources.v
Resspc.v
Mo.v
Ads.v
AdsRequests.v
Elf.v
Cpu.v
PdObj.v
Dump.v
PdComponent.v
Ep.v
Server.v
Invariant.v
Preservation.v
Reachable.v
DumpSpec.v
Client.v
EndToEnd.v
PdUtils.v
ResourceServer.v
Ramdisk.v
Xv6Bio.v
Xv6Fs.v
Xv6Paths.v
Xv6Content.v
Xv6Mkfs.v
Xv6Sys.v
Xv6Dirs.v
Xv6Session.v
Xv6Files.v
FsServer.v
FsClient.v
FdTable.v
KvStore.v
KvTables.v
FsOnRamdisk.v
PdCreation.v
StartServer.v
KvClient.v
KvModes.v
SampleServer.v
GuestFault.v
Vgic.v
VgicSpec.v
VgicDelivery.v
VgicRegisters.v
GuestExceptions.v
Vmm.v
VmmLoop.v
