(* ===== verification/Prelude.v ===== *)
(** * The GPI server: verification development

    ** The program

    GPI is an isolation framework on seL4.  Its root task runs one server thread,
    the GPI server (src/libsel4gpi), which owns the memory objects, address spaces,
    CPUs, protection domains (PDs), endpoints and resource spaces of the system.  A
    client holds badged endpoint capabilities to the server; the badge of a message
    says which type of object it is about, in which resource space, which object,
    and which client sent it.  The main loop receives a message, picks the component
    of the badge's type, decodes the message, runs the component's handler and
    replies.  Every component keeps its objects in a registry of reference-counted
    nodes with a deletion callback; the callbacks of one registry drop references
    in others (deleting a PD drops what it holds, deleting the last reference to a
    memory object makes every PD forget it), so that the handlers of one component
    run code of all others.  Resource servers, which are PDs, create resource spaces
    of their own and fetch the work that a termination leaves to them from queues.

    This development models the server, everything under src/libsel4gpi/src that
    runs in the root task, the library that PDs use to call it, the resource servers
    under src/apps: the RAM disk, the file server (xv6fs), whose disk is the RAM disk, the
    key-value store, whose files are on the file server, and the template of a server; and
    the virtual machine monitor (src/apps/vmm), a PD whose guests are PDs with virtual CPUs
    and which emulates their interrupt controller; what is left out is listed at the end.

    ** Files

    - Prelude: outcomes of C code, the state monad, machine integers, tactics.
    - Strings: strncpy, snprintf and its formats on arrays of characters; numbers can be
      read back from what is printed.
    - Badge: badge_usage.c.  Bit fields, getters, setters, gpi_new_badge and
      compact_res_id.
    - Registry: resource_registry.c, generic in the payload and in the state that
      holds the registry; the abstract view [reg_abs] (identifier to count and
      payload), the invariant [wf_registry], the search for a free identifier and
      HASH_ITER.
    - LinkedList: linked_list.c on an explicit heap of list headers and nodes.
    - CapTracking: cap_tracking.c on its own heap of records.
    - State: the structs of the server ([server] is gpi_server_context_t), the
      pointers to its registries, and the calls to code outside the repository.
    - ResourceTypes: resource_types.c.
    - ModelExport: model_exporting.c, the graph of the system that is extracted for
      inspection, in the server or in the shared memory of a resource server.
    - Component: the part of resource_component_utils.c and gpi_rpc.c that every
      component uses: counting references, badged endpoints, moving capabilities.
    - PdResources: what a PD holds, its resource directory, its links, its queues of
      pending work (pd_obj.c, pd_component.c), and resource_component_allocate.
    - Resspc: resource_space_component.c: spaces, map edges, cleanup policies.
    - Mo: mo_obj.c and mo_component.c.
    - Ads, AdsRequests: ads_obj.c and ads_component.c.
    - Elf: gpi_elf.c and the functions of ads_obj.c that write the first stack of a PD.
    - Cpu: cpu_obj.c, cpu_component.c and vcpu.c.
    - PdObj, PdComponent: the life of a PD (pd_obj.c), the requests to it
      (pd_component.c), with the interrupt handlers of gpi_server.c.
    - Dump, DumpSpec: the dump functions of all objects and the walk over the PDs that
      builds the graph (pd_dump), with its theorems.
    - Ep: endpoint_component.c.
    - Server: gpi_server.c and resource_component_handle: boot, dispatch, replies, and
      the knot of the callbacks.
    - Invariant: the consistency of all registries of the server, those inside PDs and
      address spaces included, and the rules for operations on registries, for any
      registry pointer ([Tracked], [Closed]).
    - Preservation: every operation and request keeps it, in the order of the files.
    - Reachable: boot establishes it, and the theorem on all reachable states.
    - Client: gpi_rpc.c and the clientapi files, the stubs of the requests, in a
      process that runs on an abstract kernel.
    - EndToEnd: a process whose calls are handled by the model of the server.
    - PdUtils: pd_utils.c, what a PD knows of itself.
    - ResourceServer: resource_server_utils.c, the skeleton of resource servers.
    - Ramdisk: apps/ramdisk, the RAM disk and its clients.
    - Xv6Bio: bio.c of apps/xv6fs, the cache of blocks in a list of 30 buffers, over any
      disk (the class [Disk]), the structures on the disk, and the state of the file system.
    - Xv6Fs, Xv6Paths, Xv6Content, Xv6Dirs: fs.c, inodes, the blocks and bytes of files,
      directories and paths; splitting a path; the bytes of a file through its blocks and
      the cache; the entries of a directory as a finite map, and the inode table.
    - Xv6Mkfs: mkfs.c, the file system that the server makes when it starts.
    - Xv6Sys, Xv6Files: file.c and sysfile.c, open files and the calls on them.
    - Xv6Session: a file system from mkfs on, and programs that are run on it.
    - FsServer: fs_server.c, the requests to the file server, its work, namespaces.
    - FsClient, FdTable: fs_client.c, what the C library of a PD calls, and its table of
      open files.
    - FsOnRamdisk: the file system, the disk of the file server, and the RAM disk with its
      loop as another process, put together.
    - PdCreation: pd_creation.c, the assembly of a PD from a configuration.
    - StartServer: resource_server_clientapi.c, how a parent starts a resource server.
    - KvStore, KvTables: apps/kvstore, the server; its statements read back, and its stores
      as finite maps over a SQLite that does what its statements say.
    - KvClient, KvModes: the client library of the key-value store, with a store in the
      caller, in a second address space of the caller, in a thread or in another process.
    - SampleServer: apps/sample-resource-server, the template of a server.
    - GuestFault: the state of the virtual machine monitor, the interface to a guest, and
      the decoding and emulation of accesses (the first half of fault.c).
    - Vgic: vdist.h, virq.h, vgic.c, vgic_v2.c, virq.c, the interrupt controller of a guest.
    - VgicSpec: its specification, a queue of interrupts behind list registers, the events
      that can happen, and the refinement of each.
    - VgicDelivery, VgicRegisters: the theorems on sequences of events from the start of the
      monitor, and on what the guest stores to the registers.
    - GuestExceptions: the handlers of fault.c, smc.c, psci.c.
    - Vmm, VmmLoop: osm-vmm/vmm.c, vmm_helpers.c, linux.c, the monitor as a PD; and its loop,
      from the messages it receives to its requests to the server.

    ** How the code is represented

    A C function is a computation in the monad [M server]: it returns a value, stops
    the server (a failed assertion or gpi_panic), executes undefined behaviour the
    model can see (a NULL or freed pointer is followed, an array is left, an
    uninitialized variable is read), or is out of fuel; the state is explicit.  A
    pointer to an object is the address of the registry node that contains it, an
    address is a number that is never used twice, and following one whose node was
    freed is the fault [UseAfterFree]: aliasing between handlers is that of the
    code.  A registry inside an object (what a PD holds, the reservations of an
    address space) is reached through the object's node ([hold_p], [attach_p]).
    Integers are [Z] with their wrap-around written out ([u16], [u32], [u64], [i32]),
    bit operations are those of [Z].  Error codes are returned as in the code;
    SERVER_GOTO_IF_ERR and its variants are early returns; debug printing and
    benchmark points are dropped.

    A PD is a computation in [M (process K A)]: the state of the kernel it calls
    (an interface, the class [Kernel]; an instance in EndToEnd is the server), the
    data that the server shares with it, its memory, and the state of its program.
    The file system is a computation in [M (S * xv6_t)], where [S] is what has the disk:
    a plain map from blocks to bytes, or the process of the file server.  Inodes, buffers
    and open files are places of arrays, as in the code.  A panic of the file system
    prints and loops for ever, the fault [Spin].
    The monitor is a computation in [M (W * vmm_t)], where [W] is what the operations on a
    guest act on (the class [VmOps]; its instance in Vmm are requests to the GPI server);
    the registers of the distributor are a function from the words of their struct.
    A thread that moves between address spaces (KvClient) takes with it the memory that both
    share and finds the rest as it was left: that nothing else is mapped in two address spaces
    is assumed of the kernel.
    A graph in shared memory (ModelExport) has the bytes that are left between mem_ptr and
    mem_end as a part of its state.

    Code outside the repository is a parameter:
    - seL4, the allocators (vka, allocman), sel4utils and calloc are the oracle
      [sys]: the calls made so far and the call with its arguments give an error code
      and a value, and every call is recorded in [log].  A theorem that needs a
      successful call says so of [sys].
    - uthash is the class [UTHash]: what its macros do to the chain of nodes that the
      source itself follows is written out, the result of a lookup follows from it.
    - the record [platform] has the options of the build, the constants of the
      architecture, nanopb's decoder, libelf and the initial memory; [extraction_env]
      has what the extraction of graphs reads of other files of the build, and the
      contents of the memory that resource servers share.

    ** Loops and fuel

    Loops over arrays and lists are structural.  HASH_ITER follows pointers that the
    loop body may change; [hash_iter_loop] has as much fuel as the table has nodes,
    which is enough because the loop visits a node at most once unless the body adds
    nodes.  The search for an identifier has fuel 2 + the number of nodes:
    [Registry.registry_insert_new_id_fresh] proves that it ends within it.  The
    recursion between deletion callbacks is [call_cb], with the depth of nested
    callbacks as its fuel; releasing a memory object needs a depth of 3
    ([Server.mo_disconnect_releases] holds for every depth from there on), deeper
    chains come from PDs that are destroyed by the destruction of others.  The walk of
    pd_dump has the number of PDs as fuel; [DumpSpec.pd_dump_terminates] proves that it
    never runs out.  The loops of the file system over the blocks of a file and the entries
    of a directory have fuel computed from the sizes; the theorems on them state results
    from states in which they run, so the fuel is enough.
    The loop over the bits that a guest stores to a register has fuel for its 32 bits, which
    [VgicRegisters.bits_loop_run] proves to be enough; the loops of the servers and of the
    monitor, which never end, have a number of rounds as an argument.

    ** Theorems

    - The whole server: in every reachable state all registries are consistent, up to
      three kinds in which identifiers may repeat ([Reachable.reachable_consistent],
      proved from one lemma per operation, for any platform and any messages); what a
      request to give back or to allocate a memory object does, through dispatch,
      registries, callbacks and the hold records of the two PDs involved, down to the
      calls to the kernel; requests that have no effect; messages that stop the server.
    - Registries: insertion, reference counting and deletion refine a finite map from
      identifiers to counted payloads; identifier allocation terminates, fresh.
    - Badges: packing and unpacking are inverse within the widths of the fields, but for
      permissions, which end up in the type; compact identifiers are unique.
    - The file server: through the cache the disk is a map of blocks, as long as at most
      30 blocks are used; within this limit, writing to a file changes its bytes, and
      reading returns what was written, down to the pages that the RAM disk copies; a
      directory is a finite map, in which dirlink inserts and dirlookup finds; the inode
      table counts references; mkfs makes a file system in which all of this holds (and a
      file is made, written, read and removed in it); the table of open files of a client
      is well formed whatever the server answers, until a call does not return, as when
      the server claims to have read more bytes than were asked for.
    - PDs: what a PD holds is a multiset of resources; the resource directory finds
      what was added; pending work is a queue; a termination that waits is answered
      exactly once.
    - Resource spaces: cleanup marks exactly the spaces mapped to the deleted one.
    - Address spaces: a reservation is found again by identifier and by address.
    - Images and stacks: the reservations of an image cover its segments, what is
      copied to a region is the segment with its rest zeroed, the first stack is
      aligned; segments that share a page leave a hole.
    - Assembling a PD: where the thread-local storage and the stack are placed, which
      directory entries a child gets, errors that a configuration hides.
    - Linked lists and capability records: refinement of mathematical lists, on a
      heap, including what is freed; type codes: unique and stable.
    - Extraction: different entities get different identifiers, merging a graph is union
      and idempotent, the memory it is built in is never exceeded by any sequence of
      operations, the walk over the PDs ends although they may hold each other, and what
      it leaves in the graph of what a PD holds.
    - Clients: a call returns what the handler of the component answers, whatever the
      component, and the stubs make their results of it; a memory object that a client asks for and gives back
      leaves the server as it was; a PD and the server agree on its directory.
    - The key-value store: what the server prints as statements parses back within its
      buffer; through messages and the loop of the server, or through moves of the thread
      between address spaces, sets and gets of values that an int can hold are those of
      finite maps; other values are lost.
    - The virtual machine monitor: its interrupt controller refines a queue behind four list
      registers for any sequence of events that can happen; unless the guest clears pending bits no interrupt
      is lost, doubled or stuck, and the queue never overflows; what waits is delivered in
      order; the loop of the monitor refines the queue through the faults it receives, loads and
      stores of words to the registers of the distributor among them, and its requests to the
      server; a guest that clears pending bits can stop the monitor, and so can other messages,
      of which nothing else is shown.
    - The RAM disk: its list of free ranges on the heap refines the list of free
      blocks, and what is written to a block is read from it.
    - Errors and defects: theorems that name the inputs with which an assertion of
      the server fails, freed memory is read, an array is left, or a table is
      corrupted.  They are stated for the code as it is.

    ** Not modelled

    - Printing, benchmarks (bench_utils.c), the sizes of blocks of the heap.
    - Of the file server: the locks of the original code, which do nothing here, and
      installing the system calls of the C library.
    - SQLite, which is a parameter (the class [Sqlite]), the demonstrations under src/apps,
      and the tests with their variant of the monitor (sel4test-vmm/vmm.c), which runs guests
      without the server.
    - Of the monitor: smoldtb.c, a third-party parser that it does not call.  Its two
      threads are modelled one by one: each function is run by one of them. *)

From stdpp Require Import base numbers list gmap strings.
#[global] Open Scope Z_scope.

(** ** Outcomes of C code

    A C function either returns, stops the server (a failed [assert], a
    [gpi_panic]), executes undefined behaviour that the model can see (a null
    or dangling pointer is followed, an array is left), or, when it loops, may
    need more iterations than the fuel it was given. *)
Inductive fault :=
| AssertFail      (* assert(...) of <assert.h>, and gpi_panic() *)
| NullDeref
| UseAfterFree
| OutOfBounds
| Uninitialized   (* an indeterminate automatic variable is read *)
| InvalidShift    (* a shift by the width of the type or more *)
| OtherMember     (* a member of a union is read that was not the one stored *)
| IntOverflow     (* the result of a signed conversion does not fit its type *)
| Spin.           (* a loop that does nothing is entered and never left *)

#[export] Instance fault_eq_dec : EqDecision fault.
Proof. solve_decision. Defined.

Inductive result (A : Type) :=
| Ok (a : A)
| Crash (f : fault)
| NoFuel.
Arguments Ok {A} a.
Arguments Crash {A} f.
Arguments NoFuel {A}.

(** The state monad with outcomes: the state is kept when a run crashes, so a
    theorem can speak about the state in which the server stopped. *)
Definition M (S A : Type) : Type := S -> result A * S.

#[export] Instance M_ret {S} : MRet (M S) := fun _ a s => (Ok a, s).
#[export] Instance M_bind {S} : MBind (M S) := fun _ _ k m s =>
  match m s with
  | (Ok a, s') => k a s'
  | (Crash f, s') => (Crash f, s')
  | (NoFuel, s') => (NoFuel, s')
  end.

Section Primitives.
Context {S : Type}.

Definition crash {A} (f : fault) : M S A := fun s => (Crash f, s).
Definition no_fuel {A} : M S A := fun s => (NoFuel, s).
Definition get_state : M S S := fun s => (Ok s, s).
Definition gets {A} (f : S -> A) : M S A := fun s => (Ok (f s), s).
Definition modify (f : S -> S) : M S unit := fun s => (Ok tt, f s).
Definition assert_ (b : bool) : M S unit :=
  if b then mret tt else crash AssertFail.
Definition when (b : bool) (m : M S unit) : M S unit :=
  if b then m else mret tt.
(** follow a pointer that may be NULL *)
Definition deref {A} (o : option A) : M S A :=
  match o with Some a => mret a | None => crash NullDeref end.

(** SIZE_BITS_TO_BYTES: a shift of a 64-bit one *)
Definition size_bits_to_bytes (bits : Z) : M S Z :=
  if bits <? 64 then mret (2 ^ bits) else crash InvalidShift.

(** [for] over a list computed before the loop *)
Fixpoint for_each {A} (l : list A) (body : A -> M S unit) : M S unit :=
  match l with
  | [] => mret tt
  | x :: l' => body x ;; for_each l' body
  end.
End Primitives.

(** ** Running a computation *)

(** [returns m s Q]: from [s] the computation [m] terminates without a fault
    and its result and final state satisfy [Q] (total correctness). *)
Definition returns {S A} (m : M S A) (s : S) (Q : A -> S -> Prop) : Prop :=
  exists a s', m s = (Ok a, s') /\ Q a s'.

(** [stops m s f]: from [s] the computation ends in the fault [f]. *)
Definition stops {S A} (m : M S A) (s : S) (f : fault) : Prop :=
  exists s', m s = (Crash f, s').

Section Rules.
Context {S : Type}.

Lemma bind_ok {A B} (m : M S A) (k : A -> M S B) s a s' :
  m s = (Ok a, s') -> (m ≫= k) s = k a s'.
Proof. intros H. unfold mbind, M_bind. by rewrite H. Qed.

Lemma bind_crash {A B} (m : M S A) (k : A -> M S B) s f s' :
  m s = (Crash f, s') -> (m ≫= k) s = (Crash f, s').
Proof. intros H. unfold mbind, M_bind. by rewrite H. Qed.

(** inversion of a bind that returned *)
Lemma bind_inv_ok {A B} (m : M S A) (k : A -> M S B) s b s' :
  (m ≫= k) s = (Ok b, s') ->
  exists a s1, m s = (Ok a, s1) /\ k a s1 = (Ok b, s').
Proof.
  unfold mbind, M_bind. destruct (m s) as [[a|f|] s1]; [eauto| |]; discriminate.
Qed.

Lemma returns_ret {A} (a : A) s (Q : A -> S -> Prop) :
  Q a s -> returns (mret a) s Q.
Proof. intros. by exists a, s. Qed.

Lemma returns_bind {A B} (m : M S A) (k : A -> M S B) s Q :
  returns m s (fun a s' => returns (k a) s' Q) -> returns (m ≫= k) s Q.
Proof.
  intros (a & s1 & Hm & b & s2 & Hk & HQ). exists b, s2. split; [|done].
  by rewrite (bind_ok _ _ _ _ _ Hm).
Qed.

Lemma returns_mono {A} (m : M S A) s (Q Q' : A -> S -> Prop) :
  returns m s Q -> (forall a s', Q a s' -> Q' a s') -> returns m s Q'.
Proof. intros (a & s' & Hm & HQ) Himp. exists a, s'. auto. Qed.

Lemma returns_det {A} (m : M S A) s a s' Q :
  m s = (Ok a, s') -> returns m s Q -> Q a s'.
Proof. intros Hm (b & t & Hm' & HQ). congruence. Qed.

Lemma bind_assoc {A B C} (m : M S A) (k : A -> M S B) (h : B -> M S C) s :
  ((m ≫= k) ≫= h) s = (m ≫= (fun a => k a ≫= h)) s.
Proof. unfold mbind, M_bind. by destruct (m s) as [[]]. Qed.
End Rules.

(** Invariants: [preserves I m] when every run of [m] from a state in [I],
    whatever its outcome, ends in [I]. *)
Definition preserves {S A} (I : S -> Prop) (m : M S A) : Prop :=
  forall s, I s -> I (m s).2.

Section Preserves.
Context {S : Type} (I : S -> Prop).

Lemma preserves_ret {A} (a : A) : preserves I (mret a : M S A).
Proof. by intros s. Qed.

Lemma preserves_crash {A} f : preserves I (crash f : M S A).
Proof. by intros s. Qed.

Lemma preserves_no_fuel {A} : preserves I (no_fuel : M S A).
Proof. by intros s. Qed.

Lemma preserves_gets {A} (f : S -> A) : preserves I (gets f).
Proof. by intros s. Qed.

Lemma preserves_assert b : preserves I (assert_ b : M S unit).
Proof. by destruct b; intros s. Qed.

Lemma preserves_deref {A} (o : option A) : preserves I (deref o : M S A).
Proof. by destruct o; intros s. Qed.

Lemma preserves_bind {A B} (m : M S A) (k : A -> M S B) :
  preserves I m -> (forall a, preserves I (k a)) -> preserves I (m ≫= k).
Proof.
  intros Hm Hk s HI. specialize (Hm s HI). unfold mbind, M_bind.
  destruct (m s) as [[a|f|] s'] eqn:E; simpl in *; [by apply Hk|done..].
Qed.

Lemma preserves_modify f : (forall s, I s -> I (f s)) -> preserves I (modify f).
Proof. intros Hf s HI. by apply Hf. Qed.

Lemma preserves_if {A} (b : bool) (m1 m2 : M S A) :
  preserves I m1 -> preserves I m2 -> preserves I (if b then m1 else m2).
Proof. by destruct b. Qed.

Lemma preserves_when b m : preserves I m -> preserves I (when b m).
Proof. destruct b; [done|]. intros _. apply preserves_ret. Qed.

Lemma preserves_for_each {A} (l : list A) (body : A -> M S unit) :
  (forall a, preserves I (body a)) -> preserves I (for_each l body).
Proof.
  intros Hb. induction l as [|x l IH]; simpl; [apply preserves_ret|].
  by apply preserves_bind.
Qed.
End Preserves.

Create HintDb gpi discriminated.
#[export] Hint Constants Opaque : gpi.
#[export] Hint Resolve preserves_ret preserves_crash preserves_no_fuel
  preserves_gets preserves_assert preserves_deref : gpi.

(** [pres] walks through the binds and cases of a computation; what is left is
    closed with the hints of [gpi] *)
Ltac pres_leaf := solve [eauto with gpi nocore | auto with gpi].
Ltac pres_step :=
  lazymatch goal with
  | |- preserves _ (mbind _ _) => apply preserves_bind; [|intros ?]
  | |- preserves _ (when _ _) => apply preserves_when
  | |- preserves _ (for_each _ _) => apply preserves_for_each; intros ?
  | |- preserves _ (if ?b then _ else _) => destruct b
  | |- preserves _ (match ?x with _ => _ end) => destruct x
  | |- preserves _ (modify _) => first [pres_leaf | apply preserves_modify; intros ? ?; assumption]
  | |- preserves _ _ => pres_leaf
  end.
Ltac pres := repeat (cbv beta zeta; pres_step).

(** ** Tactics *)

(** one step of a run: [inv_bind H as a s1 H1 H2] splits a run that returned *)
Tactic Notation "inv_bind" hyp(H) "as" ident(a) ident(s1) ident(H1) :=
  apply bind_inv_ok in H; destruct H as (a & s1 & H1 & H).

(** evaluate the conditionals of a goal *)
Ltac case_bool :=
  match goal with
  | |- context [if ?b then _ else _] => destruct b eqn:?
  | H : context [if ?b then _ else _] |- _ => destruct b eqn:?
  end.

(** boolean comparisons on [Z] to propositions, everywhere *)
Ltac zify_bool :=
  repeat match goal with
  | H : _ && _ = true |- _ => apply andb_true_iff in H as [? ?]
  | H : _ || _ = false |- _ => apply orb_false_iff in H as [? ?]
  | H : (_ =? _)%Z = true |- _ => apply Z.eqb_eq in H
  | H : (_ =? _)%Z = false |- _ => apply Z.eqb_neq in H
  | H : (_ <? _)%Z = true |- _ => apply Z.ltb_lt in H
  | H : (_ <? _)%Z = false |- _ => apply Z.ltb_ge in H
  | H : (_ <=? _)%Z = true |- _ => apply Z.leb_le in H
  | H : (_ <=? _)%Z = false |- _ => apply Z.leb_gt in H
  end.

(** ** Memory: a byte for each address *)

(** after memcpy(dst, src, n) of ranges that do not overlap, and memset(dst, 0, n) *)
Definition copied (f : Z -> Z) (dst src n : Z) : Z -> Z := fun a =>
  if (dst <=? a) && (a <? dst + n) then f (src + (a - dst)) else f a.
Definition zeroed (f : Z -> Z) (dst n : Z) : Z -> Z := fun a =>
  if (dst <=? a) && (a <? dst + n) then 0 else f a.
(** the 64-bit word at an address, the lowest byte first *)
Definition load_word (f : Z -> Z) (a : Z) : Z :=
  fold_right (fun i acc => f (a + Z.of_nat i) + 256 * acc) 0 (seq 0 8).

(** ** Machine integers: unsigned arithmetic wraps modulo [2^w] *)
Definition wrap (w z : Z) : Z := z mod 2 ^ w.
Definition u16 (z : Z) : Z := wrap 16 z.
Definition u32 (z : Z) : Z := wrap 32 z.
Definition u64 (z : Z) : Z := wrap 64 z.

Lemma wrap_small w z : 0 <= z < 2 ^ w -> wrap w z = z.
Proof. apply Z.mod_small. Qed.

Lemma wrap_range w z : 0 <= w -> 0 <= wrap w z < 2 ^ w.
Proof. intros. apply Z.mod_pos_bound. by apply Z.pow_pos_nonneg. Qed.

(** [int] is 32 bits, two's complement *)
Definition i32 (z : Z) : Z :=
  let u := wrap 32 z in if u <? 2 ^ 31 then u else u - 2 ^ 32.

(** [short] is 16 bits *)
Definition i16 (z : Z) : Z :=
  let u := wrap 16 z in if u <? 2 ^ 15 then u else u - 2 ^ 16.

Lemma i32_small z : - 2 ^ 31 <= z < 2 ^ 31 -> i32 z = z.
Proof.
  intros H. unfold i32, wrap. destruct (decide (0 <= z)).
  - rewrite Z.mod_small by lia. case_bool; zify_bool; lia.
  - replace (z mod 2 ^ 32) with (z + 2 ^ 32).
    + case_bool; zify_bool; lia.
    + apply Z.mod_unique_pos with (-1); lia.
Qed.

(** ** Lists *)

Lemma NoDup_filter_fmap {A B} (f : A -> B) (P : A -> Prop) `{forall x, Decision (P x)} (l : list A) :
  NoDup (f <$> l) -> NoDup (f <$> filter P l).
Proof.
  induction l as [|x l IH]; [done|]. csimpl. intros [Hx Hl]%NoDup_cons.
  rewrite filter_cons. destruct (decide (P x)); [|auto].
  csimpl. apply NoDup_cons. split; [|auto].
  intros (y & E & Hy)%list_elem_of_fmap. apply Hx.
  apply list_elem_of_filter in Hy as [_ Hy]. rewrite E. by apply list_elem_of_fmap_2.
Qed.

Lemma list_filter_all {A} (P : A -> Prop) `{forall x, Decision (P x)} (l : list A) :
  (forall x, x ∈ l -> P x) -> filter P l = l.
Proof.
  induction l as [|x l IH]; intros Hl; [done|]. rewrite filter_cons_True by (apply Hl; by left).
  rewrite IH; [done|]. intros y Hy. apply Hl. by right.
Qed.
Lemma list_filter_none {A} (P : A -> Prop) `{forall x, Decision (P x)} (l : list A) :
  (forall x, x ∈ l -> ~ P x) -> filter P l = [].
Proof.
  induction l as [|x l IH]; intros Hl; [done|]. rewrite filter_cons_False by (apply Hl; by left).
  apply IH. intros y Hy. apply Hl. by right.
Qed.
