(* ===== verification/Strings.v ===== *)
(** * C strings

    The functions of string.h and the conversions of stdio.h that the program
    uses.  A C string is the list of its characters before the NUL, an array of
    characters the list of its cells.  Reading a string from an array without a
    terminator leaves the array, which is the fault [OutOfBounds].  The numbers
    that [%x] and [%u] print can be read back, so that names made of them do not
    collide. *)

From stdpp Require Import base numbers list strings.
From S2P Require Import Prelude.

(** ** string.h *)

(** strncpy(dst, src, n): at most [n] characters, padded with zeros *)
Definition strncpy (src : list Z) (n : nat) : list Z :=
  take n src ++ repeat 0 (n - length src).

(** strcmp(s, array) = 0: compares up to the first difference or the NUL *)
Fixpoint strcmp_eq (s : list Z) (array : list Z) : result bool :=
  match s, array with
  | _, [] => Crash OutOfBounds
  | [], c :: _ => Ok (c =? 0)
  | x :: s', c :: array' => if x =? c then strcmp_eq s' array' else Ok false
  end.

(** the string that starts at an array, read by a function that stops at its end *)
Fixpoint cstring (array : list Z) : list Z :=
  match array with
  | [] => []
  | c :: array' => if c =? 0 then [] else c :: cstring array'
  end.

Definition lift_result {S A} (r : result A) : M S A := fun s => (r, s).

(** the string in an array, read up to its terminator (strlen, strcpy, [%s]) *)
Definition read_str {S} (array : list Z) : M S (list Z) :=
  if bool_decide (0 ∈ array) then mret (cstring array) else crash OutOfBounds.

(** a string literal *)
Definition chars (s : string) : list Z :=
  (fun c => Z.of_nat (Ascii.nat_of_ascii c)) <$> String.list_ascii_of_string s.

(** ** stdio.h *)

(** the digits of a number in a base of at most 16, the last one first computed *)
Definition digit (d : Z) : Z := if d <? 10 then 48 + d else 87 + d.
Fixpoint number (fuel : nat) (base v : Z) : list Z :=
  match fuel with
  | O => []
  | S fuel => (if v / base =? 0 then [] else number fuel base (v / base)) ++ [digit (v mod base)]
  end.

(** [%x], [%u] and [%zu], of numbers of at most 64 bits, and [%p] *)
Definition fmt_x (v : Z) : list Z := number 64 16 v.
Definition fmt_u (v : Z) : list Z := number 64 10 v.
Definition fmt_p (v : Z) : list Z := chars "0x" ++ fmt_x v.

(** snprintf(str, n, ...): the string that is stored, given the whole text *)
Definition snprintf (n : nat) (text : list Z) : list Z := take (n - 1) text.

(** ** Names that fit an array *)
Section NameLemmas.
Implicit Types (s name : list Z).

(** a C string: without NUL *)
Definition no_nul s : Prop := Forall (fun c => c <> 0) s.

Lemma strcmp_eq_strncpy s name n :
  Forall (fun c => c <> 0) s -> Forall (fun c => c <> 0) name -> (length name < n)%nat ->
  strcmp_eq s (strncpy name n) = Ok (bool_decide (s = name)).
Proof.
  revert name n. induction s as [|x s IH]; intros name n Hs Hname Hn.
  - destruct name as [|c name]; unfold strncpy; simpl.
    + replace (n - 0)%nat with (S (n - 1)) by (simpl in Hn; lia). rewrite take_nil. done.
    + destruct n as [|n]; [simpl in Hn; lia|]. simpl. inversion_clear Hname.
      by rewrite (proj2 (Z.eqb_neq _ _)) by done.
  - apply Forall_cons in Hs as [Hx Hs].
    destruct name as [|c name]; unfold strncpy.
    + rewrite take_nil. simpl in *. destruct n as [|n]; [lia|]. simpl.
      by rewrite (proj2 (Z.eqb_neq _ _) Hx).
    + destruct n as [|n]; [simpl in Hn; lia|]. simpl in *. inversion_clear Hname.
      destruct (Z.eqb_spec x c) as [->|Hne].
      * change (strcmp_eq s (strncpy name n) = Ok (bool_decide (c :: s = c :: name))).
        rewrite IH by (done || lia). f_equal. apply bool_decide_ext.
        split; [by intros ->|by intros [= ->]].
      * by rewrite bool_decide_eq_false_2 by congruence.
Qed.

Lemma strncpy_inj s s' n : Forall (fun c => c <> 0) s -> Forall (fun c => c <> 0) s' ->
  (length s < n)%nat -> (length s' < n)%nat -> strncpy s n = strncpy s' n -> s = s'.
Proof.
  intros Hs Hs' Hn Hn' E. pose proof (strcmp_eq_strncpy s s n Hs Hs Hn) as H1.
  rewrite E, strcmp_eq_strncpy in H1 by done. injection H1 as H1.
  by rewrite (bool_decide_eq_true_2 (s = s)), bool_decide_eq_true in H1.
Qed.

(** comparing with a name whose first 16 characters match leaves the array *)
Lemma strcmp_eq_overrun s n : (n <= length s)%nat -> Forall (fun c => c <> 0) s ->
  strcmp_eq s (strncpy s n) = Crash OutOfBounds.
Proof.
  revert s. induction n as [|n IH]; intros s Hn Hs; unfold strncpy.
  - simpl. by destruct s.
  - destruct s as [|x s]; simpl in *; [lia|]. rewrite Z.eqb_refl.
    apply Forall_cons in Hs as [_ Hs]. apply IH; [lia|done].
Qed.

Lemma strncpy_length s n : length (strncpy s n) = n.
Proof. unfold strncpy. rewrite length_app, length_take, repeat_length. lia. Qed.

(** a string that leaves room for its terminator is read back from the array *)
Lemma cstring_strncpy s n : no_nul s -> (length s < n)%nat -> cstring (strncpy s n) = s.
Proof.
  unfold strncpy. revert n. induction s as [|c s IH]; intros n Hs Hn; simpl in *.
  - rewrite take_nil. simpl. replace (n - 0)%nat with (S (n - 1)) by lia. done.
  - destruct n as [|n]; [lia|]. simpl. apply Forall_cons in Hs as [Hc Hs].
    rewrite (proj2 (Z.eqb_neq _ _) Hc). f_equal. apply IH; [done|lia].
Qed.
Lemma strncpy_terminated s n : (length s < n)%nat -> 0 ∈ strncpy s n.
Proof.
  intros Hn. unfold strncpy. apply elem_of_app. right.
  replace (n - length s)%nat with (S (n - length s - 1)) by lia. apply elem_of_cons. by left.
Qed.
Lemma strncpy_run {S} s n (t : S) : no_nul s -> (length s < n)%nat ->
  read_str (strncpy s n) t = (Ok s, t).
Proof.
  intros Hs Hn. unfold read_str. rewrite bool_decide_eq_true_2 by by apply strncpy_terminated.
  by rewrite cstring_strncpy.
Qed.

Lemma cstring_no_nul l : no_nul (cstring l).
Proof.
  induction l as [|c l IH]; simpl; [constructor|].
  destruct (Z.eqb_spec c 0); [constructor|by constructor].
Qed.
Lemma cstring_length l : 0 ∈ l -> (length (cstring l) < length l)%nat.
Proof.
  induction l as [|c l IH]; simpl; [by intros ?%elem_of_nil|].
  intros [<-|Hin]%elem_of_cons; [simpl; lia|]. destruct (c =? 0); simpl; [lia|].
  by apply -> Nat.succ_lt_mono; apply IH.
Qed.
Lemma no_nul_app s t : no_nul (s ++ t) <-> no_nul s /\ no_nul t.
Proof. apply Forall_app. Qed.
Lemma no_nul_take k s : no_nul s -> no_nul (take k s).
Proof. apply Forall_take. Qed.
End NameLemmas.

(** ** Numbers *)
Section Numbers.
Context (base : Z) (Hbase : 2 <= base <= 16).

(** reading the digits back *)
Definition digit_value (c : Z) : Z := if c <? 58 then c - 48 else c - 87.
Definition value (l : list Z) : Z := fold_left (fun v c => base * v + digit_value c) l 0.

(** a digit of a lower-case hexadecimal number *)
Definition is_digit (c : Z) : Prop := 48 <= c < 58 \/ 97 <= c < 103.

Lemma value_snoc l c : value (l ++ [c]) = base * value l + digit_value c.
Proof. unfold value. by rewrite fold_left_app. Qed.
Lemma digit_value_digit d : 0 <= d < 16 -> digit_value (digit d) = d.
Proof. intros Hd. unfold digit, digit_value. destruct (Z.ltb_spec d 10); case_bool; zify_bool; lia. Qed.
Lemma digit_is_digit d : 0 <= d < 16 -> is_digit (digit d).
Proof. intros Hd. unfold digit, is_digit. destruct (Z.ltb_spec d 10); lia. Qed.

Lemma value_number fuel : forall v, 0 <= v < base ^ Z.of_nat fuel -> value (number fuel base v) = v.
Proof.
  induction fuel as [|fuel IH]; intros v Hv.
  { change (Z.of_nat 0) with 0 in Hv. rewrite Z.pow_0_r in Hv. simpl. unfold value. simpl. lia. }
  cbn [number]. pose proof (Z.mod_pos_bound v base ltac:(lia)). pose proof (Z.div_mod v base ltac:(lia)).
  rewrite value_snoc, digit_value_digit by lia.
  destruct (Z.eqb_spec (v / base) 0) as [E|E]; [unfold value; simpl; lia|].
  rewrite IH; [lia|]. split; [apply Z.div_pos; lia|].
  apply Z.div_lt_upper_bound; [lia|]. rewrite Nat2Z.inj_succ, Z.pow_succ_r in Hv by lia. lia.
Qed.

Lemma number_digits fuel : forall v, Forall is_digit (number fuel base v).
Proof.
  induction fuel as [|fuel IH]; intros v; [constructor|]. cbn [number]. apply Forall_app. split.
  - destruct (_ =? 0); [constructor|]. apply IH.
  - apply Forall_singleton, digit_is_digit. pose proof (Z.mod_pos_bound v base ltac:(lia)). lia.
Qed.

(** a number below [base ^ k] has at most [k] digits *)
Lemma number_length k : forall fuel v, 0 <= v < base ^ Z.of_nat (S k) -> (length (number fuel base v) <= S k)%nat.
Proof.
  induction k as [|k IH]; intros [|fuel] v Hv; cbn [number length]; try lia.
  - change (Z.of_nat 1) with 1 in Hv. rewrite Z.pow_1_r in Hv.
    rewrite length_app, (Z.div_small v base), Z.eqb_refl by lia. simpl. lia.
  - rewrite length_app. simpl. destruct (_ =? 0); [simpl; lia|].
    enough (length (number fuel base (v / base)) <= S k)%nat by lia. apply IH.
    split; [apply Z.div_pos; lia|]. apply Z.div_lt_upper_bound; [lia|].
    rewrite (Nat2Z.inj_succ (S k)), Z.pow_succ_r in Hv by lia. lia.
Qed.

Lemma number_inj fuel v v' : 0 <= v < base ^ Z.of_nat fuel -> 0 <= v' < base ^ Z.of_nat fuel ->
  number fuel base v = number fuel base v' -> v = v'.
Proof. intros Hv Hv' E. by rewrite <- (value_number fuel v), <- (value_number fuel v'), E. Qed.
End Numbers.

Lemma is_digit_no_nul l : Forall is_digit l -> no_nul l.
Proof. intros Hl. apply (Forall_impl _ _ _ Hl). unfold is_digit. lia. Qed.

(** 95 is the underscore *)
Lemma is_digit_no_underscore l : Forall is_digit l -> 95 ∉ l.
Proof. intros Hl Hin. apply (proj1 (Forall_forall _ _) Hl) in Hin. unfold is_digit in Hin. lia. Qed.

Lemma fmt_x_digits v : Forall is_digit (fmt_x v).
Proof. apply number_digits. lia. Qed.
Lemma fmt_x_length v : 0 <= v < 2 ^ 32 -> (length (fmt_x v) <= 8)%nat.
Proof. intros Hv. apply (number_length 16 ltac:(lia) 7). change (16 ^ Z.of_nat 8) with (2 ^ 32). lia. Qed.
Lemma fmt_x_inj v v' : 0 <= v < 2 ^ 64 -> 0 <= v' < 2 ^ 64 -> fmt_x v = fmt_x v' -> v = v'.
Proof.
  assert (2 ^ 64 <= 16 ^ Z.of_nat 64) by (vm_compute; discriminate).
  intros. apply (number_inj 16 ltac:(lia) 64); [lia..|done].
Qed.

(** two texts agree on what is before their last underscore, and after it *)
Lemma split_last_underscore a a' d d' : 95 ∉ d -> 95 ∉ d' ->
  a ++ 95 :: d = a' ++ 95 :: d' -> a = a' /\ d = d'.
Proof.
  intros Hd Hd' E. revert a' E. induction a as [|x a IH]; intros [|y a'] E; simpl in E.
  - by injection E.
  - injection E as _ E. exfalso. apply Hd. rewrite E. apply elem_of_app. right. by apply elem_of_cons; left.
  - injection E as _ E. exfalso. apply Hd'. rewrite <- E. apply elem_of_app. right. by apply elem_of_cons; left.
  - injection E as -> E. by destruct (IH a' E) as [-> ->].
Qed.

(** the array that holds a string with its terminator *)
Definition holds (n : nat) (array : list Z) : Prop :=
  exists s, no_nul s /\ (length s < n)%nat /\ array = strncpy s n.

Lemma holds_strncpy n s : no_nul s -> (length s < n)%nat -> holds n (strncpy s n).
Proof. intros. by exists s. Qed.
Lemma holds_read {S} n array (t : S) : holds n array -> read_str array t = (Ok (cstring array), t).
Proof. intros (s & Hs & Hn & ->). by rewrite strncpy_run, cstring_strncpy. Qed.
Lemma holds_cstring n array : holds n array -> strncpy (cstring array) n = array.
Proof. intros (s & Hs & Hn & ->). by rewrite cstring_strncpy. Qed.
Lemma holds_length n array : holds n array -> (length (cstring array) < n)%nat.
Proof. intros (s & Hs & Hn & ->). by rewrite cstring_strncpy. Qed.
Lemma holds_nil n : (0 < n)%nat -> holds n (strncpy [] n).
Proof. intros. by apply holds_strncpy; [constructor|]. Qed.
#[export] Hint Resolve holds_strncpy holds_nil cstring_no_nul holds_length : gpi.

Example fmt_x_test : fmt_x 48879 = chars "beef" /\ fmt_x 0 = chars "0" /\ fmt_u 1024 = chars "1024".
Proof. vm_compute. done. Qed.
