(* ===== verification/Badge.v ===== *)
(** * Badges

    Model of [libsel4gpi/src/badge_usage.c] and the constants of its header: a
    64-bit badge packs a capability type (bits 63:56), permissions (55:48), a
    resource space (47:40), a client (39:20) and an object (19:0).  The first
    section treats bit fields in general, the second translates the C
    functions, the third proves what they pack and unpack. *)

From stdpp Require Import base numbers list.
From S2P Require Import Prelude.

(** ** Bit fields *)
Section Fields.

(** the [w] bits of [b] above bit [lo], and [b] with them replaced by [v] *)
Definition field (lo w b : Z) : Z := Z.land (Z.shiftr b lo) (Z.ones w).
Definition clear_mask (lo w : Z) : Z := Z.ldiff (Z.ones 64) (Z.shiftl (Z.ones w) lo).
Definition with_field (lo w b v : Z) : Z :=
  Z.lor (Z.land b (clear_mask lo w)) (Z.shiftl v lo).

Lemma testbit_field lo w b i :
  0 <= lo -> 0 <= w -> 0 <= i ->
  Z.testbit (field lo w b) i = (i <? w) && Z.testbit b (i + lo).
Proof.
  intros. unfold field. rewrite Z.land_spec, Z.shiftr_spec, Z.testbit_ones_nonneg by lia.
  apply andb_comm.
Qed.

Lemma testbit_above w v i : 0 <= v < 2 ^ w -> w <= i -> Z.testbit v i = false.
Proof.
  intros Hv Hi. destruct (decide (v = 0)) as [->|]; [apply Z.bits_0|].
  apply Z.bits_above_log2; [lia|]. apply Z.lt_le_trans with w; [|done].
  apply Z.log2_lt_pow2; lia.
Qed.

Lemma testbit_clear_mask lo w i :
  0 <= lo -> 0 <= w -> 0 <= i ->
  Z.testbit (clear_mask lo w) i = (i <? 64) && negb ((lo <=? i) && (i <? lo + w)).
Proof.
  intros. unfold clear_mask.
  rewrite Z.ldiff_spec, Z.testbit_ones_nonneg by lia. f_equal. f_equal.
  rewrite Z.shiftl_spec by lia.
  destruct (Z.leb_spec lo i); simpl.
  - rewrite Z.testbit_ones_nonneg by lia.
    destruct (Z.ltb_spec (i - lo) w), (Z.ltb_spec i (lo + w)); try done; lia.
  - by apply Z.testbit_neg_r; lia.
Qed.

Lemma testbit_with_field lo w b v i :
  0 <= lo -> 0 <= w -> lo + w <= 64 -> 0 <= v < 2 ^ w -> 0 <= i ->
  Z.testbit (with_field lo w b v) i =
    if (lo <=? i) && (i <? lo + w) then Z.testbit v (i - lo)
    else (i <? 64) && Z.testbit b i.
Proof.
  intros. unfold with_field.
  rewrite Z.lor_spec, Z.land_spec, testbit_clear_mask, Z.shiftl_spec by lia.
  destruct (Z.leb_spec lo i), (Z.ltb_spec i (lo + w)); simpl;
    rewrite ?andb_false_r, ?andb_true_r; simpl; try done.
  - rewrite (testbit_above w v (i - lo)) by lia. by rewrite orb_false_r, andb_comm.
  - rewrite (Z.testbit_neg_r v (i - lo)) by lia. by rewrite orb_false_r, andb_comm.
  - lia.
Qed.

(** the value of a field that was just written *)
Lemma field_with_field_same lo w b v :
  0 <= lo -> 0 <= w -> lo + w <= 64 -> 0 <= v < 2 ^ w ->
  field lo w (with_field lo w b v) = v.
Proof.
  intros. apply Z.bits_inj'. intros i Hi.
  rewrite testbit_field, testbit_with_field by lia.
  destruct (Z.ltb_spec i w).
  - destruct (Z.leb_spec lo (i + lo)), (Z.ltb_spec (i + lo) (lo + w)); try lia.
    simpl. f_equal. lia.
  - simpl. by rewrite (testbit_above w v i).
Qed.

(** a field outside the bits written keeps its value *)
Lemma field_with_field_other lo w lo' w' b v :
  0 <= lo -> 0 <= w -> lo + w <= 64 -> 0 <= lo' -> 0 <= w' -> lo' + w' <= 64 ->
  0 <= v < 2 ^ w -> lo' + w' <= lo \/ lo + w <= lo' ->
  field lo' w' (with_field lo w b v) = field lo' w' b.
Proof.
  intros. apply Z.bits_inj'. intros i Hi.
  rewrite !testbit_field, testbit_with_field by lia.
  destruct (Z.ltb_spec i w'); [|done]. simpl.
  destruct (Z.leb_spec lo (i + lo')), (Z.ltb_spec (i + lo') (lo + w)); simpl; try lia;
    destruct (Z.ltb_spec (i + lo') 64); try lia; done.
Qed.

Lemma field_0 lo w : field lo w 0 = 0.
Proof. unfold field. by rewrite Z.shiftr_0_l, Z.land_0_l. Qed.

Lemma field_range lo w b : 0 <= w -> 0 <= field lo w b < 2 ^ w.
Proof.
  intros. unfold field. rewrite Z.land_ones by lia.
  apply Z.mod_pos_bound. by apply Z.pow_pos_nonneg.
Qed.
End Fields.

(** ** badge_usage.h *)
Definition BADGE_MAX_CAP_TYPE : Z := 0xFF.
Definition BADGE_MAX_SPACE_ID : Z := 0xFF.
Definition BADGE_MAX_OBJ_ID : Z := 0xFFFFF.
Definition BADGE_MAX_CLIENT_ID : Z := 0xFFFFF.
Definition BADGE_MAX : Z := 0xFFFFFFFFFFFFFFFF.
Definition NOTIF_BADGE : Z := BADGE_MAX.
Definition BADGE_OBJ_ID_NULL : Z := BADGE_MAX_OBJ_ID.
Definition BADGE_SPACE_ID_NULL : Z := BADGE_MAX_SPACE_ID.

(** ** badge_usage.c *)
Definition get_cap_type_from_badge (badge : Z) : Z := Z.land (Z.shiftr badge 56) 0xFF.
Definition get_perms_from_badge (badge : Z) : Z := Z.land (Z.shiftr badge 48) 0xFF.
Definition get_space_id_from_badge (badge : Z) : Z := Z.land (Z.shiftr badge 40) 0xFF.
Definition get_client_id_from_badge (badge : Z) : Z := Z.land (Z.shiftr badge 20) 0xFFFFF.
Definition get_object_id_from_badge (badge : Z) : Z := Z.land badge 0xFFFFF.

Section Setters.
Context {S : Type}.

Definition set_cap_type_to_badge (badge type : Z) : M S Z :=
  assert_ (type <=? 0xFF) ;;
  let shifted_type := u64 (Z.shiftl type 56) in
  mret (Z.lor (Z.land badge 0x00FFFFFFFFFFFFFF) shifted_type).

(** the shift is by 56, as in the source: see [set_perms_clobbers_type] *)
Definition set_perms_to_badge (badge perms : Z) : M S Z :=
  assert_ (perms <=? 0xFF) ;;
  let shifted_perms := u64 (Z.shiftl perms 56) in
  mret (Z.lor (Z.land badge 0xFF00FFFFFFFFFFFF) shifted_perms).

Definition set_space_id_to_badge (badge space_id : Z) : M S Z :=
  assert_ (space_id <=? 0xFF) ;;
  let shifted_space_id := u64 (Z.shiftl space_id 40) in
  mret (Z.lor (Z.land badge 0xFFFF00FFFFFFFFFF) shifted_space_id).

Definition set_client_id_to_badge (badge client_id : Z) : M S Z :=
  assert_ (client_id <=? 0xFFFFF) ;;
  let shifted_client_id := u64 (Z.shiftl client_id 20) in
  mret (Z.lor (Z.land badge 0xFFFFFF00000FFFFF) shifted_client_id).

Definition set_object_id_to_badge (badge object_id : Z) : M S Z :=
  assert_ (object_id <=? 0xFFFFF) ;;
  mret (Z.lor (Z.land badge 0xFFFFFFFFFFF00000) object_id).

Definition gpi_new_badge (cap_type perms client_id space_id object_id : Z) : M S Z :=
  badge_value ← set_cap_type_to_badge 0 cap_type;
  badge_value ← set_perms_to_badge badge_value perms;
  badge_value ← set_object_id_to_badge badge_value object_id;
  badge_value ← set_client_id_to_badge badge_value client_id;
  badge_value ← set_space_id_to_badge badge_value space_id;
  assert_ (negb (badge_value =? NOTIF_BADGE)) ;;
  mret badge_value.

Definition compact_res_id (type space_id object_id : Z) : M S Z :=
  gpi_new_badge type 0 0 space_id object_id.
End Setters.

(** ** Lemmas *)
Section BadgeLemmas.
Context {S : Type}.
Implicit Types (s : S).

(** identifiers that fit their field *)
Definition type_ok (t : Z) : Prop := 0 <= t <= 0xFF.
Definition space_ok (t : Z) : Prop := 0 <= t <= 0xFF.
Definition obj_ok (t : Z) : Prop := 0 <= t <= 0xFFFFF.

Lemma shift_fits lo w v : 0 <= lo -> 0 <= w -> lo + w <= 64 -> 0 <= v < 2 ^ w ->
  u64 (Z.shiftl v lo) = Z.shiftl v lo.
Proof.
  intros. apply wrap_small. rewrite Z.shiftl_mul_pow2 by lia. split; [nia|].
  apply Z.lt_le_trans with (2 ^ w * 2 ^ lo); [nia|].
  rewrite <- Z.pow_add_r by lia. apply Z.pow_le_mono_r; lia.
Qed.

Ltac setter lo w :=
  intros; unfold set_cap_type_to_badge, set_perms_to_badge, set_space_id_to_badge,
    set_client_id_to_badge, set_object_id_to_badge;
  match goal with |- mbind _ _ ?s = _ => rewrite (bind_ok _ _ s tt s) end;
  [cbv zeta; rewrite ?(shift_fits lo w) by lia; reflexivity
  |unfold assert_; case_bool; [done|zify_bool; lia]].

Lemma set_cap_type_run b t s : 0 <= t < 2 ^ 8 ->
  set_cap_type_to_badge b t s = (Ok (with_field 56 8 b t), s).
Proof. setter 56 8. Qed.
Lemma set_space_id_run b t s : 0 <= t < 2 ^ 8 ->
  set_space_id_to_badge b t s = (Ok (with_field 40 8 b t), s).
Proof. setter 40 8. Qed.
Lemma set_client_id_run b t s : 0 <= t < 2 ^ 20 ->
  set_client_id_to_badge b t s = (Ok (with_field 20 20 b t), s).
Proof. setter 20 20. Qed.
Lemma set_object_id_run b t s : 0 <= t < 2 ^ 20 ->
  set_object_id_to_badge b t s = (Ok (with_field 0 20 b t), s).
Proof.
  intros. replace (with_field 0 20 b t) with (Z.lor (Z.land b 0xFFFFFFFFFFF00000) t).
  - setter 0 20.
  - unfold with_field. by rewrite Z.shiftl_0_r.
Qed.
(** what the permissions setter really does: it clears the permissions and
    ORs its argument into the type *)
Lemma set_perms_run b p s : 0 <= p < 2 ^ 8 ->
  set_perms_to_badge b p s
  = (Ok (Z.lor (with_field 48 8 b 0) (Z.shiftl p 56)), s).
Proof.
  intros. replace (with_field 48 8 b 0) with (Z.land b 0xFF00FFFFFFFFFFFF).
  - setter 56 8.
  - unfold with_field. rewrite Z.shiftl_0_l, Z.lor_0_r. done.
Qed.

(** the badge of in-range identifiers, as a composition of field writes *)
Definition badge_of (t c sp o : Z) : Z :=
  with_field 40 8 (with_field 20 20 (with_field 0 20
    (with_field 48 8 (with_field 56 8 0 t) 0) o) c) sp.

Lemma get_fields_def b :
  (get_cap_type_from_badge b = field 56 8 b) /\ get_perms_from_badge b = field 48 8 b /\
  get_space_id_from_badge b = field 40 8 b /\ get_client_id_from_badge b = field 20 20 b /\
  get_object_id_from_badge b = field 0 20 b.
Proof.
  repeat split; reflexivity.
Qed.

Lemma badge_of_fields t c sp o : type_ok t -> obj_ok c -> space_ok sp -> obj_ok o ->
  get_cap_type_from_badge (badge_of t c sp o) = t /\
  get_perms_from_badge (badge_of t c sp o) = 0 /\
  get_space_id_from_badge (badge_of t c sp o) = sp /\
  get_client_id_from_badge (badge_of t c sp o) = c /\
  get_object_id_from_badge (badge_of t c sp o) = o.
Proof.
  unfold type_ok, obj_ok, space_ok. intros.
  destruct (get_fields_def (badge_of t c sp o)) as (-> & -> & -> & -> & ->).
  unfold badge_of.
  repeat split;
    repeat first [rewrite field_with_field_same by lia; reflexivity
                 |rewrite field_with_field_other by lia]; done.
Qed.

Lemma badge_of_not_notif t c sp o : type_ok t -> obj_ok c -> space_ok sp -> obj_ok o ->
  badge_of t c sp o <> NOTIF_BADGE.
Proof.
  intros Ht Hc Hs Ho E. destruct (badge_of_fields t c sp o) as (_ & H & _); try done.
  rewrite E in H. done.
Qed.

Lemma badge_of_range t c sp o : type_ok t -> obj_ok c -> space_ok sp -> obj_ok o ->
  0 <= badge_of t c sp o < BADGE_MAX.
Proof.
  intros Ht Hc Hs Ho. pose proof (badge_of_not_notif t c sp o Ht Hc Hs Ho).
  unfold type_ok, obj_ok, space_ok in *.
  assert (badge_of t c sp o = field 0 64 (badge_of t c sp o)) as E.
  { apply Z.bits_inj'. intros i Hi. rewrite testbit_field, Z.add_0_r by lia.
    destruct (Z.ltb_spec i 64); [done|]. unfold badge_of.
    rewrite !testbit_with_field by lia.
    destruct (Z.ltb_spec i 64); [lia|]. simpl.
    repeat match goal with |- context [?a <? ?b] => destruct (Z.ltb_spec a b); try lia end.
    rewrite ?andb_false_r. done. }
  pose proof (field_range 0 64 (badge_of t c sp o)).
  unfold NOTIF_BADGE, BADGE_MAX in *. lia.
Qed.

Lemma badge_of_inj t c sp o t' c' sp' o' :
  type_ok t -> obj_ok c -> space_ok sp -> obj_ok o ->
  type_ok t' -> obj_ok c' -> space_ok sp' -> obj_ok o' ->
  badge_of t c sp o = badge_of t' c' sp' o' -> t = t' /\ c = c' /\ sp = sp' /\ o = o'.
Proof.
  intros Ht Hc Hs Ho Ht' Hc' Hs' Ho' E.
  destruct (badge_of_fields t c sp o) as (? & _ & ? & ? & ?); try done.
  destruct (badge_of_fields t' c' sp' o') as (? & _ & ? & ? & ?); try done.
  rewrite E in *. repeat split; congruence.
Qed.

(** the type and the permissions land in the same bits *)
Lemma type_field t : 0 <= t < 2 ^ 8 -> with_field 48 8 (with_field 56 8 0 t) 0 = Z.shiftl t 56.
Proof.
  intros Ht. apply Z.bits_inj'. intros i Hi.
  rewrite !testbit_with_field, Z.shiftl_spec, !Z.bits_0, andb_false_r by lia.
  destruct (Z.leb_spec 48 i), (Z.ltb_spec i (48 + 8)), (Z.leb_spec 56 i), (Z.ltb_spec i (56 + 8)),
    (Z.ltb_spec i 64); simpl; try done; try lia; symmetry;
    (apply Z.testbit_neg_r; lia) || (apply (testbit_above 8); lia).
Qed.

Lemma type_perms_ok t q : type_ok t -> 0 <= q <= 0xFF -> type_ok (Z.lor t q).
Proof.
  unfold type_ok. intros Ht Hq. split; [by apply Z.lor_nonneg; lia|].
  assert (Z.lor t q < 2 ^ 8); [|lia]. destruct (decide (Z.lor t q = 0)) as [->|]; [done|].
  apply Z.log2_lt_pow2; [by pose proof (proj2 (Z.lor_nonneg t q)); lia|].
  rewrite Z.log2_lor by lia. apply Z.max_lub_lt.
  - destruct (decide (t = 0)) as [->|]; [done|apply Z.log2_lt_pow2; lia].
  - destruct (decide (q = 0)) as [->|]; [done|apply Z.log2_lt_pow2; lia].
Qed.

(** a badge is made as if the permissions were part of the type *)
Lemma gpi_new_badge_perms_run t q c sp o s : type_ok t -> 0 <= q <= 0xFF -> obj_ok c -> space_ok sp -> obj_ok o ->
  gpi_new_badge t q c sp o s = (Ok (badge_of (Z.lor t q) c sp o), s).
Proof.
  intros Ht Hq Hc Hs Ho. pose proof (type_perms_ok t q Ht Hq) as Htq.
  pose proof (badge_of_not_notif (Z.lor t q) c sp o Htq Hc Hs Ho) as Hn.
  unfold type_ok, obj_ok, space_ok in *. unfold gpi_new_badge.
  rewrite (bind_ok _ _ _ _ _ (set_cap_type_run 0 t s ltac:(lia))).
  rewrite (bind_ok _ _ _ _ _ (set_perms_run _ q s ltac:(lia))).
  rewrite type_field, <- Z.shiftl_lor, <- type_field by lia.
  rewrite (bind_ok _ _ _ _ _ (set_object_id_run _ o s ltac:(lia))).
  rewrite (bind_ok _ _ _ _ _ (set_client_id_run _ c s ltac:(lia))).
  rewrite (bind_ok _ _ _ _ _ (set_space_id_run _ sp s ltac:(lia))).
  fold (badge_of (Z.lor t q) c sp o). unfold assert_.
  by rewrite (proj2 (Z.eqb_neq _ _) Hn).
Qed.
Lemma gpi_new_badge_run t c sp o s : type_ok t -> obj_ok c -> space_ok sp -> obj_ok o ->
  gpi_new_badge t 0 c sp o s = (Ok (badge_of t c sp o), s).
Proof. intros. rewrite gpi_new_badge_perms_run, Z.lor_0_r; done. Qed.

Lemma compact_res_id_run t sp o s : type_ok t -> space_ok sp -> obj_ok o ->
  compact_res_id t sp o s = (Ok (badge_of t 0 sp o), s).
Proof. intros. apply gpi_new_badge_run; done. Qed.

(** an identifier that does not fit stops the server *)
Lemma compact_res_id_stops t sp o s : type_ok t -> 0xFFFFF < o ->
  stops (compact_res_id t sp o) s AssertFail.
Proof.
  intros Ht Ho. unfold type_ok in Ht. exists s. unfold compact_res_id, gpi_new_badge.
  rewrite (bind_ok _ _ _ _ _ (set_cap_type_run 0 t s ltac:(lia))).
  rewrite (bind_ok _ _ _ _ _ (set_perms_run _ 0 s ltac:(lia))).
  apply bind_crash. unfold set_object_id_to_badge. apply bind_crash.
  unfold assert_. case_bool; [zify_bool; lia|done].
Qed.
End BadgeLemmas.

(** ** Properties *)
Section BadgeProperties.
Context {S : Type}.
Implicit Types (s : S).

(** C40: a badge built from identifiers and permissions that fit their fields is
    produced without a fault and is not the notification badge, and the getters read
    back the client, the space and the object that were packed.  The type and the
    permissions are not kept apart, because the setter of permissions shifts them
    into the type: the getter of the type reads the two ORed together, and the getter
    of permissions reads 0.  With no permissions, all that is packed is read back. *)
Theorem badge_roundtrip t q c sp o s
  (Ht : 0 <= t <= BADGE_MAX_CAP_TYPE) (Hq : 0 <= q <= 0xFF) (Hc : 0 <= c <= BADGE_MAX_CLIENT_ID)
  (Hsp : 0 <= sp <= BADGE_MAX_SPACE_ID) (Ho : 0 <= o <= BADGE_MAX_OBJ_ID) :
  exists b, gpi_new_badge t q c sp o s = (Ok b, s) /\ 0 <= b < NOTIF_BADGE /\
    get_client_id_from_badge b = c /\ get_space_id_from_badge b = sp /\ get_object_id_from_badge b = o /\
    get_cap_type_from_badge b = Z.lor t q /\ get_perms_from_badge b = 0 /\
    (q = 0 -> get_cap_type_from_badge b = t /\ get_perms_from_badge b = q).
Proof.
  pose proof (type_perms_ok t q Ht Hq) as Htq.
  exists (badge_of (Z.lor t q) c sp o). split; [by apply gpi_new_badge_perms_run|].
  split; [by apply badge_of_range|].
  destruct (badge_of_fields (Z.lor t q) c sp o Htq Hc Hsp Ho) as (Et & Eq & ? & ? & ?).
  rewrite Et, Eq. split_and!; try done. intros ->. by rewrite Z.lor_0_r.
Qed.

(** the compact identifier of a resource is unique: two in-range resources
    with the same compact identifier have the same type, space and object. *)
Theorem compact_res_id_injective t sp o t' sp' o' b s
  (H1 : type_ok t /\ space_ok sp /\ obj_ok o) (H2 : type_ok t' /\ space_ok sp' /\ obj_ok o')
  (E1 : compact_res_id t sp o s = (Ok b, s)) (E2 : compact_res_id t' sp' o' s = (Ok b, s)) :
  t = t' /\ sp = sp' /\ o = o'.
Proof.
  destruct H1 as (? & ? & ?), H2 as (? & ? & ?).
  rewrite compact_res_id_run in E1, E2 by done. injection E1 as <-. injection E2 as E2.
  apply badge_of_inj in E2 as (? & _ & ? & ?); done.
Qed.

(** the permissions setter shifts by the position of the type: it leaves the
    permissions field empty and ORs the permissions into the capability type. *)
Theorem set_perms_clobbers_type b p s (Hp : 0 <= p <= 0xFF) :
  exists b', set_perms_to_badge b p s = (Ok b', s) /\ get_perms_from_badge b' = 0 /\
    get_cap_type_from_badge b' = Z.lor (get_cap_type_from_badge b) p.
Proof.
  eexists. split; [apply set_perms_run; lia|].
  destruct (get_fields_def (Z.lor (with_field 48 8 b 0) (p ≪ 56))) as (-> & -> & _).
  destruct (get_fields_def b) as (-> & _).
  assert (forall lo, 0 <= lo -> forall x y, field lo 8 (Z.lor x y) = Z.lor (field lo 8 x) (field lo 8 y))
    as Hlor.
  { intros lo Hlo x y. unfold field. by rewrite Z.shiftr_lor, Z.land_lor_distr_l. }
  rewrite !Hlor by lia. split.
  - rewrite field_with_field_same by lia. apply Z.bits_inj'. intros i Hi.
    rewrite Z.lor_0_l, testbit_field, Z.shiftl_spec, Z.bits_0 by lia.
    destruct (Z.ltb_spec i 8); [|done]. simpl. apply Z.testbit_neg_r. lia.
  - rewrite field_with_field_other by lia. f_equal. apply Z.bits_inj'. intros i Hi.
    rewrite testbit_field, Z.shiftl_spec by lia. replace (i + 56 - 56) with i by lia.
    destruct (Z.ltb_spec i 8); [done|]. simpl. symmetry. apply (testbit_above 8); lia.
Qed.

(** an object or client identifier past its 20 bits stops the server. *)
Theorem gpi_new_badge_overflow_stops t c sp o s (Ht : type_ok t)
  (Hbad : BADGE_MAX_OBJ_ID < o \/ BADGE_MAX_CLIENT_ID < c) :
  stops (gpi_new_badge t 0 c sp o) s AssertFail.
Proof.
  unfold type_ok, BADGE_MAX_OBJ_ID, BADGE_MAX_CLIENT_ID in *.
  exists s. unfold gpi_new_badge.
  rewrite (bind_ok _ _ _ _ _ (set_cap_type_run 0 t s ltac:(lia))).
  rewrite (bind_ok _ _ _ _ _ (set_perms_run _ 0 s ltac:(lia))).
  destruct (Z.leb_spec o 0xFFFFF).
  - erewrite (bind_ok (set_object_id_to_badge _ o)); last first.
    { unfold set_object_id_to_badge, assert_.
      rewrite (proj2 (Z.leb_le o _)) by lia. reflexivity. }
    apply bind_crash. unfold set_client_id_to_badge. apply bind_crash.
    unfold assert_. by rewrite (proj2 (Z.leb_gt c _)) by lia.
  - apply bind_crash. unfold set_object_id_to_badge. apply bind_crash.
    unfold assert_. by rewrite (proj2 (Z.leb_gt o _)) by lia.
Qed.
End BadgeProperties.

Section BadgeWitnesses.
Lemma badge_roundtrip_witness :
  exists b, gpi_new_badge 6 1 7 1 42 tt = (Ok b, tt) /\ b = 0x070001000070002A /\
    get_object_id_from_badge b = 42 /\ get_cap_type_from_badge b = 7.
Proof.
  destruct (badge_roundtrip 6 1 7 1 42 tt) as (b & Hb & _ & _ & _ & Ho & Ht & _);
    [unfold BADGE_MAX_CAP_TYPE; lia|lia|unfold BADGE_MAX_CLIENT_ID; lia
    |unfold BADGE_MAX_SPACE_ID; lia|unfold BADGE_MAX_OBJ_ID; lia|].
  exists b. split; [exact Hb|]. split; [vm_compute in Hb; congruence|]. by split.
Defined.

Lemma compact_res_id_injective_witness :
  compact_res_id 3 1 9 tt = (Ok 0x0300010000000009, tt) /\ 3 = 3 /\ 1 = 1 /\ 9 = 9.
Proof.
  assert (E : compact_res_id 3 1 9 tt = (Ok 0x0300010000000009, tt)) by (vm_compute; reflexivity).
  split; [exact E|].
  apply (compact_res_id_injective 3 1 9 3 1 9 0x0300010000000009 tt); [| |exact E|exact E];
    unfold type_ok, space_ok, obj_ok; lia.
Defined.

Lemma set_perms_clobbers_type_witness :
  exists b, set_perms_to_badge 0x0300000000000000 0x04 tt = (Ok b, tt) /\
    get_cap_type_from_badge b = 7.
Proof.
  destruct (set_perms_clobbers_type 0x0300000000000000 0x04 tt) as (b & Hb & _ & Ht); [lia|].
  exists b. split; [exact Hb|]. rewrite Ht. reflexivity.
Defined.

Lemma gpi_new_badge_overflow_stops_witness :
  stops (gpi_new_badge 3 0 0 1 0x100000) tt AssertFail.
Proof.
  apply gpi_new_badge_overflow_stops; [unfold type_ok; lia|left; unfold BADGE_MAX_OBJ_ID; lia].
Defined.
End BadgeWitnesses.
