(* ===== verification/Registry.v ===== *)
(** * Resource registries

    Model of [libsel4gpi/src/resource_registry.c]: a table of reference-counted
    nodes keyed by a 64-bit identifier, with a deletion callback.  Everything is
    generic in the payload [A] of a node (the C code "subclasses" the node
    struct), in the server state [S] that holds the registry, and in the type
    [CB] of callbacks; a [resource_registry_t *] is a [regptr], a way to read
    and write one registry of the state.

    The table is [utils/uthash.h], which is not part of the repository.  What
    its [HASH_ADD], [HASH_DEL] and [HASH_ITER] do to the chain of [hh.next]
    pointers that the source itself follows is written out ([head] is that
    chain, in insertion order); which node [HASH_FIND] picks is left to the
    class [UTHash]. *)

From stdpp Require Import base numbers list gmap.
From S2P Require Import Prelude Badge.

(** resource_registry_node_t; [n_addr] is the address of the node *)
Record node (A : Type) := Node {
  n_addr : nat;
  object_id : Z;      (* uint64_t *)
  count : Z;          (* uint32_t *)
  payload : A
}.
Arguments Node {A}. Arguments n_addr {A}. Arguments object_id {A}.
Arguments count {A}. Arguments payload {A}.

(** resource_registry_t *)
Record registry (A CB : Type) := Registry {
  head : list (node A);
  max_object_id : Z;
  id_counter : Z;
  on_delete : option CB;
  on_delete_arg : nat
}.
Arguments Registry {A CB}. Arguments head {A CB}. Arguments max_object_id {A CB}.
Arguments id_counter {A CB}. Arguments on_delete {A CB}. Arguments on_delete_arg {A CB}.

(** [HASH_FIND]: some node with the key, if there is one; [hash_find_key] is for the
    tables whose keys are not the identifiers of nodes, with the comparison of keys *)
Class UTHash := {
  hash_find : forall {A}, list (node A) -> Z -> option (node A);
  hash_find_sound : forall A (l : list (node A)) k n,
    hash_find l k = Some n -> n ∈ l /\ object_id n = k;
  hash_find_complete : forall A (l : list (node A)) k,
    hash_find l k = None -> forall n, n ∈ l -> object_id n <> k;
  hash_find_key : forall {A}, (A -> bool) -> list A -> option A;
  hash_find_key_sound : forall A (p : A -> bool) l x, hash_find_key p l = Some x -> x ∈ l /\ p x = true;
  hash_find_key_complete : forall A (p : A -> bool) l,
    hash_find_key p l = None -> forall x, x ∈ l -> p x = false
}.

(** a pointer to a registry *)
Record regptr (S A CB : Type) := RegPtr {
  rget : S -> option (registry A CB);
  rput : registry A CB -> S -> S
}.
Arguments RegPtr {S A CB}. Arguments rget {S A CB}. Arguments rput {S A CB}.

(** what the lemmas need of a pointer: writing then reading, and the last
    write wins *)
Class LawfulPtr {S A CB} (p : regptr S A CB) := {
  rget_rput : forall r s r0, rget p s = Some r0 -> rget p (rput p r s) = Some r;
  rput_rput : forall r r' s, rput p r (rput p r' s) = rput p r s
}.

Section Tables.
Context {A CB : Type}.
Implicit Types (r : registry A CB) (n : node A) (l : list (node A)).

Definition with_head (l : list (node A)) (r : registry A CB) : registry A CB :=
  Registry l (max_object_id r) (id_counter r) (on_delete r) (on_delete_arg r).
Definition with_id_counter (c : Z) (r : registry A CB) : registry A CB :=
  Registry (head r) (max_object_id r) c (on_delete r) (on_delete_arg r).

Definition with_count (c : Z) (n : node A) : node A :=
  Node (n_addr n) (object_id n) c (payload n).
Definition with_object_id (i : Z) (n : node A) : node A :=
  Node (n_addr n) i (count n) (payload n).
Definition with_payload (a : A) (n : node A) : node A :=
  Node (n_addr n) (object_id n) (count n) a.

(** the node stored at an address *)
Definition node_at (a : nat) (l : list (node A)) : option (node A) :=
  List.find (fun n => Nat.eqb (n_addr n) a) l.

(** HASH_ADD appends to the chain, HASH_DEL unlinks one node, and a write
    through a node pointer changes the node in place *)
Definition hash_add (l : list (node A)) (n : node A) : list (node A) := l ++ [n].
Definition hash_del (l : list (node A)) (a : nat) : list (node A) :=
  filter (fun n => n_addr n <> a) l.
Definition hash_upd (l : list (node A)) (a : nat) (f : node A -> node A) : list (node A) :=
  (fun n => if Nat.eqb (n_addr n) a then f n else n) <$> l.

(** [hh.next] of the node at an address: [None] when no such node is in the
    chain, [Some None] when it is the last *)
Fixpoint next_of (a : nat) (l : list (node A)) : option (option nat) :=
  match l with
  | [] => None
  | n :: l' =>
      if Nat.eqb (n_addr n) a then Some (n_addr <$> List.head l') else next_of a l'
  end.

(** one pass of the loop of resource_registry_insert_new_id, repeated: the
    counter to store and the identifier found *)
Fixpoint find_new_id `{UTHash} (fuel : nat) (r : registry A CB) (start_id counter : Z)
  : result Z :=
  match fuel with
  | O => NoFuel
  | S fuel =>
      let counter := u64 (counter + 1) in
      if max_object_id r <? counter then
        (* reached the maximum: wrap around, with no check against start_id *)
        let counter := 1 in
        match hash_find (head r) counter with
        | Some _ => find_new_id fuel r start_id counter
        | None => Ok counter
        end
      else if counter =? start_id then Crash AssertFail   (* gpi_panic: id_counter is what it was *)
      else
        match hash_find (head r) counter with
        | Some _ => find_new_id fuel r start_id counter
        | None => Ok counter
        end
  end.
End Tables.

(** ** resource_registry.c *)
Section Registry.
Context {S A CB : Type} `{UTHash}.
(** running a callback: the callback, the node's address, the registry's
    [on_delete_arg] *)
Context (run_cb : CB -> nat -> nat -> M S unit).
Implicit Types (p : regptr S A CB).

(** dereferences *)
Definition reg_load (p : regptr S A CB) : M S (registry A CB) := fun s =>
  match rget p s with
  | Some r => (Ok r, s)
  | None => (Crash UseAfterFree, s)
  end.
Definition reg_store (p : regptr S A CB) (r : registry A CB) : M S unit :=
  modify (rput p r).
Definition node_load (p : regptr S A CB) (a : nat) : M S (node A) :=
  r ← reg_load p;
  match node_at a (head r) with
  | Some n => mret n
  | None => crash UseAfterFree
  end.
Definition node_store (p : regptr S A CB) (a : nat) (f : node A -> node A) : M S unit :=
  n ← node_load p a;
  r ← reg_load p;
  reg_store p (with_head (hash_upd (head r) a f) r).

Definition resource_registry_initialize (cb : option CB) (arg : nat) (max_id : Z)
  : registry A CB :=
  Registry [] max_id 0 cb arg.

Definition resource_registry_insert (p : regptr S A CB) (n : node A) : M S unit :=
  r ← reg_load p;
  let n := with_count 1 n in
  assert_ (object_id n <=? max_object_id r) ;;
  reg_store p (with_head (hash_add (head r) n) r).

Definition resource_registry_get_by_id (p : regptr S A CB) (id : Z)
  : M S (option nat) :=
  r ← reg_load p;
  mret (n_addr <$> hash_find (head r) id).

(** the C function has no return statement: its callers use the value that the
    call it ends with leaves in the return register *)
Definition resource_registry_get_by_badge (p : regptr S A CB) (badge : Z)
  : M S (option nat) :=
  resource_registry_get_by_id p (get_object_id_from_badge badge).

Definition resource_registry_delete (p : regptr S A CB) (a : nat) : M S unit :=
  r ← reg_load p;
  n ← node_load p a;
  match on_delete r with
  | Some cb => run_cb cb a (on_delete_arg r)
  | None => mret tt
  end ;;
  r ← reg_load p;
  n ← node_load p a;
  reg_store p (with_head (hash_del (head r) a) r).

Definition resource_registry_inc (p : regptr S A CB) (a : nat) : M S unit :=
  node_store p a (fun n => with_count (u32 (count n + 1)) n).

Definition resource_registry_dec (p : regptr S A CB) (a : nat) : M S unit :=
  node_store p a (fun n => with_count (u32 (count n - 1)) n) ;;
  n ← node_load p a;
  if count n =? 0 then resource_registry_delete p a else mret tt.

(** the loop of resource_registry_insert_new_id ends within one more pass
    than there are nodes, or never: see [find_new_id_fuel].  When it panics the
    counter has come back to the [start_id] it was read as, so that the registry at
    the panic is the registry as it was: there is nothing to store. *)
Definition resource_registry_insert_new_id (p : regptr S A CB) (n : node A) : M S Z :=
  r ← reg_load p;
  match find_new_id (2 + length (head r)) r (id_counter r) (id_counter r) with
  | Ok new_id =>
      reg_store p (with_id_counter new_id r) ;;
      resource_registry_insert p (with_object_id new_id n) ;;
      mret new_id
  | Crash f => crash f
  | NoFuel => no_fuel
  end.

(** HASH_ITER(hh, head, el, tmp): [tmp] is read when [el] is visited, before
    the body, and the successor of [tmp] after the body; a body may free [el]
    but a [tmp] that it freed is followed all the same.  [body] returns
    [Some b] to leave the loop with [b]. *)
Fixpoint hash_iter_loop {B} (fuel : nat) (p : regptr S A CB)
    (body : nat -> M S (option B)) (el tmp : option nat) : M S (option B) :=
  match el with
  | None => mret None
  | Some e =>
      match fuel with
      | O => no_fuel
      | Datatypes.S fuel =>
          o ← body e;
          match o with
          | Some b => mret (Some b)
          | None =>
              match tmp with
              | None => mret None
              | Some t =>
                  r ← reg_load p;
                  match next_of t (head r) with
                  | None => crash UseAfterFree
                  | Some nxt => hash_iter_loop fuel p body (Some t) nxt
                  end
              end
          end
      end
  end.

Definition hash_iter_until {B} (p : regptr S A CB) (body : nat -> M S (option B))
  : M S (option B) :=
  r ← reg_load p;
  match head r with
  | [] => mret None
  | n :: l => hash_iter_loop (length (head r)) p body (Some (n_addr n)) (n_addr <$> List.head l)
  end.

Definition hash_iter (p : regptr S A CB) (body : nat -> M S unit) : M S unit :=
  _ ← hash_iter_until (B := unit) p (fun a => body a ;; mret None);
  mret tt.
End Registry.

(** the order-of-insertion instance: HASH_FIND returns the first match *)
#[export] Instance list_uthash : UTHash.
Proof.
  refine {| hash_find := fun A l k => List.find (fun n => object_id n =? k) l;
             hash_find_key := fun A => @List.find A |}.
  - intros A l k n [Hin Hk]%List.find_some.
    apply Z.eqb_eq in Hk. by apply list_elem_of_In in Hin.
  - intros A l k Hnone n Hin E. apply list_elem_of_In in Hin.
    apply (List.find_none _ _ Hnone) in Hin. by apply Z.eqb_neq in Hin.
  - intros A p l x [Hin Hp]%List.find_some. by apply list_elem_of_In in Hin.
  - intros A p l Hnone x Hin%list_elem_of_In. by apply (List.find_none _ _ Hnone).
Defined.

(** ** Well-formed registries and their abstraction *)
Section Abstraction.
Context {A CB : Type}.
Implicit Types (r : registry A CB) (n : node A) (l : list (node A)).

Definition node_ok (max_id : Z) (n : node A) : Prop :=
  1 <= count n < 2 ^ 32 /\ 0 <= object_id n <= max_id.

(** one node per address and per identifier, no dead node, no identifier past
    the maximum *)
Record wf_registry (r : registry A CB) : Prop := {
  wf_addr : NoDup (n_addr <$> head r);
  wf_id : NoDup (object_id <$> head r);
  wf_nodes : Forall (node_ok (max_object_id r)) (head r)
}.

(** the abstract registry: identifier to reference count and payload *)
Definition reg_entry (n : node A) : Z * (Z * A) := (object_id n, (count n, payload n)).
Definition reg_abs (r : registry A CB) : gmap Z (Z * A) :=
  list_to_map (reg_entry <$> head r).

Lemma reg_entry_keys l : (reg_entry <$> l).*1 = object_id <$> l.
Proof. induction l; csimpl; congruence. Qed.

Lemma reg_abs_lookup r k v : wf_registry r ->
  reg_abs r !! k = Some v <->
  exists n, n ∈ head r /\ object_id n = k /\ (count n, payload n) = v.
Proof.
  intros [_ Hid _]. unfold reg_abs.
  rewrite <- elem_of_list_to_map by (by rewrite reg_entry_keys).
  rewrite list_elem_of_fmap. unfold reg_entry. split.
  - intros (n & E & Hn). injection E as E1 E2. by exists n.
  - intros (n & Hn & <- & <-). by exists n.
Qed.

Lemma reg_abs_None r k : wf_registry r ->
  reg_abs r !! k = None <-> forall n, n ∈ head r -> object_id n <> k.
Proof.
  intros Hwf. rewrite eq_None_not_Some. split.
  - intros Hn n Hin <-. apply Hn. eexists. apply reg_abs_lookup; eauto.
  - intros Hn (v & Hv). apply reg_abs_lookup in Hv as (n & Hin & E & _); [|done].
    by apply (Hn n).
Qed.

Lemma elem_of_inj {B} (f : node A -> B) l n n' :
  NoDup (f <$> l) -> n ∈ l -> n' ∈ l -> f n = f n' -> n = n'.
Proof.
  induction l as [|m l IH]; [by intros _ ?%elem_of_nil|]. csimpl.
  intros [Hm Hl]%NoDup_cons Hn Hn' E.
  apply elem_of_cons in Hn as [->|Hn], Hn' as [->|Hn']; try done.
  - exfalso. apply Hm. rewrite E. by apply list_elem_of_fmap_2.
  - exfalso. apply Hm. rewrite <- E. by apply list_elem_of_fmap_2.
  - by apply IH.
Qed.

Lemma node_at_Some l a n : node_at a l = Some n -> n ∈ l /\ n_addr n = a.
Proof.
  intros [Hin E]%List.find_some. apply Nat.eqb_eq in E.
  by apply list_elem_of_In in Hin.
Qed.

Lemma node_at_elem l n : NoDup (n_addr <$> l) -> n ∈ l -> node_at (n_addr n) l = Some n.
Proof.
  intros Hnd Hin. destruct (node_at (n_addr n) l) as [m|] eqn:E.
  - apply node_at_Some in E as [Hm E]. f_equal. by apply (elem_of_inj n_addr l).
  - exfalso. apply list_elem_of_In in Hin.
    apply (List.find_none _ _ E) in Hin. by rewrite Nat.eqb_refl in Hin.
Qed.

Lemma node_at_None l a : node_at a l = None <-> a ∉ n_addr <$> l.
Proof.
  split.
  - intros Hf (n & -> & Hn)%list_elem_of_fmap. apply list_elem_of_In in Hn.
    apply (List.find_none _ _ Hf) in Hn. by rewrite Nat.eqb_refl in Hn.
  - intros Hn. destruct (node_at a l) as [m|] eqn:E; [|done].
    apply node_at_Some in E as [Hm <-]. exfalso. apply Hn. by apply list_elem_of_fmap_2.
Qed.

(** with unique identifiers HASH_FIND has no choice *)
Lemma hash_find_Some `{UTHash} l n :
  NoDup (object_id <$> l) -> n ∈ l -> hash_find l (object_id n) = Some n.
Proof.
  intros Hnd Hin. destruct (hash_find l (object_id n)) as [m|] eqn:E.
  - apply hash_find_sound in E as [Hm E]. f_equal. by apply (elem_of_inj object_id l).
  - by destruct (hash_find_complete _ _ _ E n Hin).
Qed.

Lemma hash_find_None `{UTHash} l k :
  (forall n, n ∈ l -> object_id n <> k) -> hash_find l k = None.
Proof.
  intros Hn. destruct (hash_find l k) as [m|] eqn:E; [|done].
  apply hash_find_sound in E as [Hm E]. by destruct (Hn m).
Qed.

(** changing one node in place *)
Lemma hash_upd_proj {B} (g : node A -> B) l a f :
  (forall n, g (f n) = g n) -> g <$> hash_upd l a f = g <$> l.
Proof.
  intros Hg. unfold hash_upd. rewrite <- list_fmap_compose. apply list_fmap_ext.
  intros i n _. simpl. by destruct (Nat.eqb _ _).
Qed.

Lemma hash_upd_elem l a f n :
  n ∈ hash_upd l a f <->
  exists m, m ∈ l /\ n = (if Nat.eqb (n_addr m) a then f m else m).
Proof.
  unfold hash_upd. rewrite list_elem_of_fmap. split.
  - intros (m & E & Hm). by exists m.
  - intros (m & Hm & E). by exists m.
Qed.

Lemma hash_del_elem l a n : n ∈ hash_del l a <-> n ∈ l /\ n_addr n <> a.
Proof. unfold hash_del. rewrite list_elem_of_filter. tauto. Qed.

Lemma hash_del_upd l a f : (forall n, n_addr (f n) = n_addr n) ->
  hash_del (hash_upd l a f) a = hash_del l a.
Proof.
  intros Hf. unfold hash_del, hash_upd. induction l as [|m l IH]; [done|].
  rewrite fmap_cons, !filter_cons, IH.
  destruct (Nat.eqb_spec (n_addr m) a); simpl; rewrite ?Hf; by repeat case_decide.
Qed.

Lemma wf_hash_del r a : wf_registry r -> wf_registry (with_head (hash_del (head r) a) r).
Proof.
  intros [Ha Hi Hn]. split; simpl; [by apply NoDup_filter_fmap..|].
  apply Forall_forall. intros n [Hin _]%hash_del_elem.
  by apply (proj1 (Forall_forall _ _) Hn).
Qed.

Lemma wf_hash_add r n : wf_registry r -> node_ok (max_object_id r) n ->
  n_addr n ∉ n_addr <$> head r -> reg_abs r !! object_id n = None ->
  wf_registry (with_head (hash_add (head r) n) r).
Proof.
  intros Hwf Hok Ha Hk. rewrite reg_abs_None in Hk by done. destruct Hwf as [Hna Hni Hn].
  unfold hash_add. split; simpl.
  - rewrite fmap_app. apply NoDup_app. split; [done|]. csimpl. split; [|apply NoDup_singleton].
    intros x Hx ->%list_elem_of_singleton. done.
  - rewrite fmap_app. apply NoDup_app. split; [done|]. csimpl. split; [|apply NoDup_singleton].
    intros x (m & -> & Hm)%list_elem_of_fmap E%list_elem_of_singleton. by apply (Hk m).
  - apply Forall_app. split; [done|]. by apply Forall_singleton.
Qed.

Lemma wf_hash_upd r a c : wf_registry r -> 1 <= c < 2 ^ 32 ->
  wf_registry (with_head (hash_upd (head r) a (with_count c)) r).
Proof.
  intros [Ha Hi Hn] Hc. split; simpl; [by rewrite hash_upd_proj..|].
  apply Forall_forall. intros n (m & Hm & ->)%hash_upd_elem.
  apply (proj1 (Forall_forall _ _) Hn) in Hm as [? ?].
  destruct (Nat.eqb _ _); by split.
Qed.

Lemma wf_with_payload r a f : wf_registry r ->
  wf_registry (with_head (hash_upd (head r) a (fun n => with_payload (f (payload n)) n)) r).
Proof.
  intros [Ha Hi Hn]. split; simpl; [by rewrite hash_upd_proj..|].
  apply Forall_forall. intros n (m & Hm & ->)%hash_upd_elem.
  apply (proj1 (Forall_forall _ _) Hn) in Hm as [? ?].
  destruct (Nat.eqb _ _); by split.
Qed.

(** the chain operations are the map operations *)
Lemma reg_abs_add r n : wf_registry r -> node_ok (max_object_id r) n ->
  n_addr n ∉ n_addr <$> head r -> reg_abs r !! object_id n = None ->
  reg_abs (with_head (hash_add (head r) n) r) = <[object_id n := (count n, payload n)]> (reg_abs r).
Proof.
  intros Hwf Hok Ha Hk. unfold reg_abs, hash_add. simpl.
  rewrite fmap_app, list_to_map_app. csimpl.
  apply map_eq. intros k. rewrite lookup_union.
  destruct (decide (k = object_id n)) as [->|Hne].
  - rewrite lookup_insert_eq. fold (reg_abs r). rewrite Hk. simpl.
    by rewrite lookup_insert_eq.
  - rewrite !lookup_insert_ne, lookup_empty by done. fold (reg_abs r).
    by destruct (_ !! k).
Qed.

Lemma reg_abs_del r n : wf_registry r -> n ∈ head r ->
  reg_abs (with_head (hash_del (head r) (n_addr n)) r) = delete (object_id n) (reg_abs r).
Proof.
  intros Hwf Hin. pose proof (wf_hash_del r (n_addr n) Hwf) as Hwf'.
  apply map_eq. intros k. apply option_eq. intros v.
  rewrite reg_abs_lookup by done. simpl.
  destruct (decide (k = object_id n)) as [->|Hne].
  - rewrite lookup_delete_eq. split; [|done].
    intros (m & [Hm Hna]%hash_del_elem & E & _). destruct Hna.
    f_equal. by apply (elem_of_inj object_id (head r)); [apply Hwf|..].
  - rewrite lookup_delete_ne, reg_abs_lookup by done. split.
    + intros (m & [Hm _]%hash_del_elem & ?). by exists m.
    + intros (m & Hm & Ek & Ev). exists m. split; [|done]. apply hash_del_elem.
      split; [done|]. intros Ea. destruct Hne. rewrite <- Ek. f_equal.
      by apply (elem_of_inj n_addr (head r)); [apply Hwf|..].
Qed.

Lemma reg_abs_upd r n f : wf_registry r -> n ∈ head r ->
  (forall m, object_id (f m) = object_id m) ->
  wf_registry (with_head (hash_upd (head r) (n_addr n) f) r) ->
  reg_abs (with_head (hash_upd (head r) (n_addr n) f) r)
  = <[object_id n := (count (f n), payload (f n))]> (reg_abs r).
Proof.
  intros Hwf Hin Hid Hwf'. apply map_eq. intros k. apply option_eq. intros v.
  rewrite reg_abs_lookup by done. simpl.
  assert (forall m, m ∈ head r -> n_addr m = n_addr n -> m = n) as Huniq.
  { intros m Hm E. by apply (elem_of_inj n_addr (head r)); [apply Hwf|..]. }
  destruct (decide (k = object_id n)) as [->|Hne].
  - rewrite lookup_insert_eq. split.
    + intros (m' & (m & Hm & ->)%hash_upd_elem & Ek & Ev).
      destruct (Nat.eqb_spec (n_addr m) (n_addr n)) as [E|E].
      * by rewrite (Huniq m Hm E) in Ev; rewrite <- Ev.
      * destruct E. f_equal. by apply (elem_of_inj object_id (head r)); [apply Hwf|..].
    + injection 1 as <-. exists (f n). split; [|by rewrite Hid].
      apply hash_upd_elem. exists n. by rewrite Nat.eqb_refl.
  - rewrite lookup_insert_ne, reg_abs_lookup by done. split.
    + intros (m' & (m & Hm & ->)%hash_upd_elem & Ek & Ev).
      destruct (Nat.eqb_spec (n_addr m) (n_addr n)) as [E|E].
      * destruct Hne. by rewrite <- Ek, Hid, (Huniq m Hm E).
      * by exists m.
    + intros (m & Hm & Ek & Ev). exists m. split; [|done]. apply hash_upd_elem.
      exists m. split; [done|].
      destruct (Nat.eqb_spec (n_addr m) (n_addr n)) as [E|E]; [|done].
      destruct Hne. by rewrite <- Ek, (Huniq m Hm E).
Qed.
End Abstraction.

(** ** The search for a free identifier *)
Section FreshId.
Context {A CB : Type} `{UTHash}.
Implicit Types (r : registry A CB).

Definition occupied (r : registry A CB) (k : Z) : Prop :=
  exists n, n ∈ head r /\ object_id n = k.

Lemma hash_find_occupied r k n : hash_find (head r) k = Some n -> occupied r k.
Proof. intros [Hin E]%hash_find_sound. by exists n. Qed.

Lemma hash_find_free r k : hash_find (head r) k = None -> ~ occupied r k.
Proof. intros Hn (n & Hin & E). by apply (hash_find_complete _ _ _ Hn n). Qed.

(** identifier tried after [i] more passes from counter [c], for [i >= 1] *)
Definition cyc (mx c i : Z) : Z := (c + i - 1) mod mx + 1.

Lemma cyc_range mx c i : 1 <= mx -> 1 <= cyc mx c i <= mx.
Proof. intros. unfold cyc. pose proof (Z.mod_pos_bound (c + i - 1) mx). lia. Qed.

Lemma cyc_first mx c : 1 <= mx -> 0 <= c <= mx ->
  cyc mx c 1 = if mx <? c + 1 then 1 else c + 1.
Proof.
  intros. unfold cyc. replace (c + 1 - 1) with c by lia. case_bool; zify_bool.
  - replace c with mx by lia. by rewrite Z.mod_same by lia.
  - rewrite Z.mod_small; lia.
Qed.

Lemma cyc_shift mx c i : 1 <= mx -> cyc mx (cyc mx c 1) i = cyc mx c (i + 1).
Proof.
  intros. unfold cyc. replace (c + 1 - 1) with c by lia.
  replace (c mod mx + 1 + i - 1) with (c mod mx + i) by lia.
  rewrite Z.add_mod_idemp_l by lia. do 2 f_equal. lia.
Qed.

Lemma cyc_inj mx c i j : 1 <= i <= mx -> 1 <= j <= mx -> cyc mx c i = cyc mx c j -> i = j.
Proof.
  unfold cyc. intros Hi Hj E.
  assert ((i - j) mod mx = 0) as Hd.
  { replace (i - j) with ((c + i - 1) - (c + j - 1)) by lia.
    rewrite Zminus_mod. replace ((c + i - 1) mod mx) with ((c + j - 1) mod mx) by lia.
    rewrite Z.sub_diag. by apply Z.mod_0_l; lia. }
  clear E. apply Z.mod_divide in Hd as [q Hq]; [|lia].
  destruct (Z.lt_trichotomy q 0) as [|[->|]]; nia.
Qed.

Lemma cyc_surj mx c k : 1 <= mx -> 1 <= k <= mx -> exists i, 1 <= i <= mx /\ cyc mx c i = k.
Proof.
  intros. exists ((k - 1 - c) mod mx + 1).
  pose proof (Z.mod_pos_bound (k - 1 - c) mx). split; [lia|]. unfold cyc.
  replace (c + ((k - 1 - c) mod mx + 1) - 1) with (c + (k - 1 - c) mod mx) by lia.
  rewrite Z.add_mod_idemp_r by lia. replace (c + (k - 1 - c)) with (k - 1) by lia.
  rewrite Z.mod_small; lia.
Qed.

Lemma cyc_self mx c i : 1 <= c <= mx -> 1 <= i -> cyc mx c i = c -> mx <= i.
Proof.
  unfold cyc. intros Hc Hi E.
  assert ((c + i - 1) mod mx = (c - 1) mod mx) as E' by (rewrite (Z.mod_small (c - 1)); lia).
  assert (i mod mx = 0) as Hd.
  { replace i with ((c + i - 1) - (c - 1)) by lia. rewrite Zminus_mod, E', Z.sub_diag.
    by apply Z.mod_0_l; lia. }
  clear E E'. apply Z.mod_divide in Hd as [q Hq]; [|lia].
  destruct (Z.lt_trichotomy q 0) as [|[->|]]; nia.
Qed.

(** one pass of the loop *)
Lemma find_new_id_step fuel r start c mx :
  mx = max_object_id r -> 1 <= mx < 2 ^ 64 - 1 -> 0 <= c <= mx ->
  find_new_id (S fuel) r start c =
    if (c <? mx) && (cyc mx c 1 =? start) then Crash AssertFail
    else match hash_find (head r) (cyc mx c 1) with
         | Some _ => find_new_id fuel r start (cyc mx c 1)
         | None => Ok (cyc mx c 1)
         end.
Proof.
  intros -> Hm Hc. simpl. unfold u64. rewrite wrap_small, cyc_first by lia.
  destruct (Z.ltb_spec (max_object_id r) (c + 1)), (Z.ltb_spec c (max_object_id r)); try lia;
    done.
Qed.

Section Search.
Variables (r : registry A CB) (start : Z).
Let mx := max_object_id r.
Hypothesis (Hmx : 1 <= mx < 2 ^ 64 - 1).

Ltac pass :=
  match goal with
  | Hf : find_new_id (S ?n) r start ?c = _ |- _ =>
      rewrite (find_new_id_step n r start c mx) in Hf by (done || lia)
  end.

Lemma find_new_id_Ok fuel : forall c id, 0 <= c <= mx ->
  find_new_id fuel r start c = Ok id -> 1 <= id <= mx /\ ~ occupied r id /\ (id = start -> id = 1).
Proof.
  induction fuel as [|fuel IH]; intros c id Hc Hf; [done|].
  pose proof (cyc_range mx c 1 ltac:(lia)) as Hr.
  pass. destruct (_ && _) eqn:Eg; [done|].
  destruct (hash_find _ _) eqn:Ef.
  - apply IH in Hf; [done|lia].
  - injection Hf as <-. split; [done|]. split; [by apply hash_find_free|].
    intros Es. rewrite cyc_first in * by lia. destruct (Z.ltb_spec mx (c + 1)); [done|].
    rewrite Es, Z.eqb_refl, andb_true_r in Eg. zify_bool. lia.
Qed.

Lemma find_new_id_Crash fuel : forall c f, 0 <= c <= mx ->
  find_new_id fuel r start c = Crash f ->
  f = AssertFail /\ exists j, 1 <= j /\ cyc mx c j = start /\
    forall i, 1 <= i < j -> occupied r (cyc mx c i).
Proof.
  induction fuel as [|fuel IH]; intros c f Hc Hf; [done|].
  pose proof (cyc_range mx c 1 ltac:(lia)) as Hr.
  pass. destruct (_ && _) eqn:Eg.
  - injection Hf as <-. split; [done|]. exists 1. zify_bool. split; [lia|].
    split; [done|]. intros; lia.
  - destruct (hash_find _ _) eqn:Ef; [|done].
    apply IH in Hf as (-> & j & Hj & Es & Hocc); [|lia]. split; [done|].
    exists (j + 1). split; [lia|]. rewrite <- cyc_shift by lia. split; [done|].
    intros i Hi. destruct (decide (i = 1)) as [->|].
    + by apply hash_find_occupied in Ef.
    + replace i with ((i - 1) + 1) by lia. rewrite <- cyc_shift by lia. apply Hocc. lia.
Qed.

Lemma find_new_id_NoFuel fuel : forall c, 0 <= c <= mx ->
  find_new_id fuel r start c = NoFuel ->
  forall i, 1 <= i <= Z.of_nat fuel ->
    occupied r (cyc mx c i) /\ (cyc mx c i = start -> start = 1).
Proof.
  induction fuel as [|fuel IH]; intros c Hc Hf i Hi; [lia|].
  pose proof (cyc_range mx c 1 ltac:(lia)) as Hr.
  pass. destruct (_ && _) eqn:Eg; [done|].
  destruct (hash_find _ _) eqn:Ef; [|done].
  destruct (decide (i = 1)) as [->|].
  - split; [by apply hash_find_occupied in Ef|]. intros Es.
    rewrite cyc_first in * by lia. destruct (Z.ltb_spec mx (c + 1)); [done|].
    rewrite Es, Z.eqb_refl, andb_true_r in Eg. zify_bool. lia.
  - replace i with ((i - 1) + 1) by lia. rewrite <- cyc_shift by lia. apply IH; [lia|done|lia].
Qed.

Lemma find_new_id_low_start fuel : forall c f, start <= 1 -> start <= c <= mx -> 0 <= c ->
  find_new_id fuel r start c <> Crash f.
Proof.
  induction fuel as [|fuel IH]; intros c f Hs Hc Hc0 Hf; [done|].
  pose proof (cyc_range mx c 1 ltac:(lia)) as Hr.
  pass. destruct (_ && _) eqn:Eg.
  - zify_bool. rewrite cyc_first in * by lia.
    destruct (Z.ltb_spec mx (c + 1)); lia.
  - destruct (hash_find _ _) eqn:Ef; [|done]. apply IH in Hf; [done|lia..].
Qed.

(** with every identifier taken and a counter that started at 0 or 1, no
    number of passes is enough *)
Lemma find_new_id_diverges fuel : forall c, start <= 1 -> start <= c <= mx -> 0 <= c ->
  (forall k, 1 <= k <= mx -> occupied r k) ->
  find_new_id fuel r start c = NoFuel.
Proof.
  induction fuel as [|fuel IH]; intros c Hs Hc Hc0 Hocc; [done|].
  pose proof (cyc_range mx c 1 ltac:(lia)) as Hr.
  rewrite (find_new_id_step fuel r start c mx) by (done || lia).
  destruct (_ && _) eqn:Eg.
  - zify_bool. rewrite cyc_first in * by lia.
    destruct (Z.ltb_spec mx (c + 1)); lia.
  - destruct (hash_find _ _) eqn:Ef.
    + apply IH; [done|lia|lia|done].
    + exfalso. apply hash_find_free in Ef. by apply Ef, Hocc.
Qed.
End Search.

(** fuel: at most one pass per occupied identifier before a free one *)
Lemma occupied_length r c k :
  1 <= max_object_id r ->
  (forall i, 1 <= i <= Z.of_nat k -> occupied r (cyc (max_object_id r) c i)) ->
  Z.of_nat k <= max_object_id r -> (k <= length (head r))%nat.
Proof.
  intros Hm Hocc Hk.
  assert (NoDup ((fun i => cyc (max_object_id r) c (Z.of_nat i)) <$> seq 1 k)) as Hnd.
  { apply NoDup_fmap_2_strong; [|apply NoDup_seq].
    intros i j Hi Hj E. apply elem_of_seq in Hi, Hj. apply cyc_inj in E; lia. }
  rewrite <- (length_seq k 1), <- (length_fmap (fun i => cyc (max_object_id r) c (Z.of_nat i))).
  rewrite <- (length_fmap object_id (head r)).
  apply submseteq_length, NoDup_submseteq; [done|].
  intros x (i & -> & Hi%elem_of_seq)%list_elem_of_fmap.
  destruct (Hocc (Z.of_nat i)) as (n & Hn & <-); [lia|]. by apply list_elem_of_fmap_2.
Qed.

Lemma find_new_id_NoFuel_full r start c :
  1 <= max_object_id r < 2 ^ 64 - 1 -> 0 <= c <= max_object_id r ->
  find_new_id (2 + length (head r)) r start c = NoFuel ->
  (forall k, 1 <= k <= max_object_id r -> occupied r k) /\ (1 <= start <= max_object_id r -> start = 1).
Proof.
  intros Hm Hc Hf. pose proof (find_new_id_NoFuel r start Hm _ c Hc Hf) as Hv.
  assert (max_object_id r <= Z.of_nat (length (head r))) as Hlen.
  { destruct (Z_le_gt_dec (max_object_id r) (Z.of_nat (length (head r)))) as [|Hgt]; [done|].
    assert (S (length (head r)) <= length (head r))%nat; [|lia].
    apply (occupied_length r c); [lia| |lia]. intros i Hi. apply Hv. lia. }
  split.
  - intros k Hk. destruct (cyc_surj (max_object_id r) c k) as (i & Hi & <-); [lia..|].
    apply Hv. lia.
  - intros Hs. destruct (cyc_surj (max_object_id r) c start) as (i & Hi & E); [lia..|].
    apply (Hv i); [lia|done].
Qed.

Lemma find_new_id_Crash_full r c f :
  1 <= max_object_id r < 2 ^ 64 - 1 -> 0 <= c <= max_object_id r ->
  find_new_id (2 + length (head r)) r c c = Crash f ->
  forall k, 1 <= k <= max_object_id r -> k <> c -> occupied r k.
Proof.
  intros Hm Hc Hf k Hk Hne.
  apply find_new_id_Crash in Hf as (_ & j & Hj & Es & Hocc); [|done..].
  pose proof (cyc_range (max_object_id r) c j ltac:(lia)).
  assert (max_object_id r <= j) by (apply (cyc_self _ c); lia).
  destruct (cyc_surj (max_object_id r) c k) as (i & Hi & <-); [lia..|].
  apply Hocc. split; [lia|]. destruct (decide (i = j)) as [->|]; [done|lia].
Qed.
End FreshId.

(** ** What each operation does to the state, and to the abstract registry *)
Section Refinement.
Context {S A CB : Type} `{UTHash}.
Context (run_cb : CB -> nat -> nat -> M S unit).
Context (p : regptr S A CB) `{!LawfulPtr p}.
Implicit Types (r : registry A CB) (s : S).

Lemma reg_load_run s r : rget p s = Some r -> reg_load p s = (Ok r, s).
Proof. intros Hr. unfold reg_load. by rewrite Hr. Qed.

Lemma node_load_run s r n : rget p s = Some r -> wf_registry r -> n ∈ head r ->
  node_load p (n_addr n) s = (Ok n, s).
Proof.
  intros Hr Hwf Hin. unfold node_load. rewrite (bind_ok _ _ _ _ _ (reg_load_run s r Hr)).
  by rewrite node_at_elem by (done || apply Hwf).
Qed.

Lemma node_store_run s r n f : rget p s = Some r -> wf_registry r -> n ∈ head r ->
  node_store p (n_addr n) f s
  = (Ok tt, rput p (with_head (hash_upd (head r) (n_addr n) f) r) s).
Proof.
  intros Hr Hwf Hin. unfold node_store.
  rewrite (bind_ok _ _ _ _ _ (node_load_run s r n Hr Hwf Hin)).
  by rewrite (bind_ok _ _ _ _ _ (reg_load_run s r Hr)).
Qed.

Lemma insert_run s r n : rget p s = Some r -> object_id n <= max_object_id r ->
  resource_registry_insert p n s
  = (Ok tt, rput p (with_head (hash_add (head r) (with_count 1 n)) r) s).
Proof.
  intros Hr Hid. unfold resource_registry_insert.
  rewrite (bind_ok _ _ _ _ _ (reg_load_run s r Hr)). unfold assert_. simpl.
  by rewrite (proj2 (Z.leb_le _ _) Hid).
Qed.

Lemma get_by_id_run s r k : rget p s = Some r -> wf_registry r ->
  resource_registry_get_by_id p k s
  = (Ok (n_addr <$> List.find (fun n => object_id n =? k) (head r)), s).
Proof.
  intros Hr Hwf. unfold resource_registry_get_by_id.
  rewrite (bind_ok _ _ _ _ _ (reg_load_run s r Hr)).
  destruct (List.find _ _) as [n|] eqn:E.
  - apply List.find_some in E as [Hin E]. apply Z.eqb_eq in E. subst k.
    rewrite hash_find_Some; [done|apply Hwf|by apply list_elem_of_In].
  - rewrite hash_find_None; [done|]. intros n Hin <-. apply list_elem_of_In in Hin.
    apply (List.find_none _ _ E) in Hin. by rewrite Z.eqb_refl in Hin.
Qed.

Lemma inc_run s r n : rget p s = Some r -> wf_registry r -> n ∈ head r ->
  resource_registry_inc p (n_addr n) s
  = (Ok tt, rput p (with_head (hash_upd (head r) (n_addr n)
              (fun n => with_count (u32 (count n + 1)) n)) r) s).
Proof. apply node_store_run. Qed.

(** the callback of a registry runs to completion and leaves the registry
    itself as it was; [s'] is the state after it *)
Definition cb_done (r : registry A CB) (a : nat) (s s' : S) : Prop :=
  match on_delete r with
  | Some cb => run_cb cb a (on_delete_arg r) s = (Ok tt, s') /\ rget p s' = Some r
  | None => s' = s
  end.

Lemma delete_run s s' r n : rget p s = Some r -> wf_registry r -> n ∈ head r ->
  cb_done r (n_addr n) s s' ->
  resource_registry_delete run_cb p (n_addr n) s
  = (Ok tt, rput p (with_head (hash_del (head r) (n_addr n)) r) s').
Proof.
  intros Hr Hwf Hin Hcb. unfold resource_registry_delete, cb_done in *.
  rewrite (bind_ok _ _ _ _ _ (reg_load_run s r Hr)).
  rewrite (bind_ok _ _ _ _ _ (node_load_run s r n Hr Hwf Hin)).
  assert (rget p s' = Some r) as Hr' by (destruct (on_delete r); [apply Hcb|by subst]).
  rewrite (bind_ok _ _ s tt s') by (destruct (on_delete r); [apply Hcb|by subst]).
  rewrite (bind_ok _ _ _ _ _ (reg_load_run s' r Hr')).
  by rewrite (bind_ok _ _ _ _ _ (node_load_run s' r n Hr' Hwf Hin)).
Qed.

(** the state of the registry after a store through its pointer *)
Lemma rget_with r r0 s : rget p s = Some r0 -> rget p (rput p r s) = Some r.
Proof. apply rget_rput. Qed.

Lemma dec_run_many s r n : rget p s = Some r -> wf_registry r -> n ∈ head r ->
  1 < count n ->
  resource_registry_dec run_cb p (n_addr n) s
  = (Ok tt, rput p (with_head (hash_upd (head r) (n_addr n) (with_count (count n - 1))) r) s).
Proof.
  intros Hr Hwf Hin Hc. unfold resource_registry_dec.
  rewrite (bind_ok _ _ _ _ _ (node_store_run s r n _ Hr Hwf Hin)).
  assert (1 <= count n < 2 ^ 32) as Hn.
  { by apply (proj1 (Forall_forall _ _) (wf_nodes _ Hwf) n) in Hin as [? _]. }
  assert (hash_upd (head r) (n_addr n) (fun n0 => with_count (u32 (count n0 - 1)) n0)
          = hash_upd (head r) (n_addr n) (with_count (count n - 1))) as Eu.
  { unfold hash_upd. apply list_fmap_ext. intros i m Hm%list_elem_of_lookup_2.
    destruct (Nat.eqb_spec (n_addr m) (n_addr n)) as [E|]; [|done].
    assert (m = n) as -> by (by apply (elem_of_inj n_addr (head r)); [apply Hwf|..]).
    unfold u32. by rewrite wrap_small by lia. }
  rewrite Eu. set (n' := with_count (count n - 1) n).
  set (r' := with_head _ r).
  assert (wf_registry r') as Hwf' by (apply wf_hash_upd; [done|lia]).
  assert (n' ∈ head r') as Hin'.
  { apply hash_upd_elem. exists n. by rewrite Nat.eqb_refl. }
  rewrite (bind_ok _ _ _ _ _ (node_load_run _ r' n' (rget_with r' r s Hr) Hwf' Hin')).
  simpl. by rewrite (proj2 (Z.eqb_neq (count n - 1) 0)) by lia.
Qed.

(** the last reference: the node is marked with count 0, its callback runs,
    and it is removed *)
Lemma dec_run_last s s' r n : rget p s = Some r -> wf_registry r -> n ∈ head r ->
  count n = 1 ->
  let r0 := with_head (hash_upd (head r) (n_addr n) (with_count 0)) r in
  cb_done r0 (n_addr n) (rput p r0 s) s' ->
  resource_registry_dec run_cb p (n_addr n) s
  = (Ok tt, rput p (with_head (hash_del (head r) (n_addr n)) r) s').
Proof.
  intros Hr Hwf Hin Hc r0 Hcb. unfold resource_registry_dec.
  rewrite (bind_ok _ _ _ _ _ (node_store_run s r n _ Hr Hwf Hin)).
  assert (hash_upd (head r) (n_addr n) (fun n0 => with_count (u32 (count n0 - 1)) n0)
          = head r0) as ->.
  { unfold r0, hash_upd. simpl. apply list_fmap_ext. intros i m Hm%list_elem_of_lookup_2.
    destruct (Nat.eqb_spec (n_addr m) (n_addr n)) as [E|]; [|done].
    assert (m = n) as -> by (by apply (elem_of_inj n_addr (head r)); [apply Hwf|..]).
    by rewrite Hc. }
  change (with_head (head r0) r) with r0.
  assert (NoDup (n_addr <$> head r0)) as Hnd by (unfold r0; simpl; rewrite hash_upd_proj; [apply Hwf|done]).
  set (n0 := with_count 0 n).
  assert (n0 ∈ head r0) as Hin0.
  { apply hash_upd_elem. exists n. by rewrite Nat.eqb_refl. }
  assert (forall t, rget p t = Some r0 -> node_load p (n_addr n) t = (Ok n0, t)) as Hload.
  { intros t Ht. unfold node_load. rewrite (bind_ok _ _ _ _ _ (reg_load_run t r0 Ht)).
    change (n_addr n) with (n_addr n0). by rewrite node_at_elem. }
  pose proof (rget_with r0 r s Hr) as Hr0.
  rewrite (bind_ok _ _ _ _ _ (Hload _ Hr0)). simpl.
  unfold resource_registry_delete, cb_done in *.
  rewrite (bind_ok _ _ _ _ _ (reg_load_run _ r0 Hr0)).
  rewrite (bind_ok _ _ _ _ _ (Hload _ Hr0)).
  assert (rget p s' = Some r0) as Hr' by (destruct (on_delete r0); [apply Hcb|by subst]).
  rewrite (bind_ok _ _ _ tt s') by (destruct (on_delete r0); [apply Hcb|by subst]).
  rewrite (bind_ok _ _ _ _ _ (reg_load_run s' r0 Hr')).
  rewrite (bind_ok _ _ _ _ _ (Hload _ Hr')).
  unfold reg_store, modify, with_head, r0. simpl. by rewrite hash_del_upd.
Qed.

(** the two operations on the abstract registry *)
Definition same_frame (r' r : registry A CB) : Prop :=
  max_object_id r' = max_object_id r /\ on_delete r' = on_delete r /\ on_delete_arg r' = on_delete_arg r.

Lemma insert_spec s r n : rget p s = Some r -> wf_registry r ->
  n_addr n ∉ n_addr <$> head r -> 0 <= object_id n <= max_object_id r ->
  reg_abs r !! object_id n = None ->
  exists r', resource_registry_insert p n s = (Ok tt, rput p r' s) /\ wf_registry r' /\
    same_frame r' r /\
    reg_abs r' = <[object_id n := (1, payload n)]> (reg_abs r).
Proof.
  intros Hr Hwf Ha Hid Hnew. eexists. split; [apply insert_run; [done..|lia]|].
  assert (node_ok (max_object_id r) (with_count 1 n)) by (split; simpl; lia).
  split; [by apply wf_hash_add|]. split; [done|by rewrite reg_abs_add].
Qed.

Lemma dec_spec s s' r n : rget p s = Some r -> wf_registry r -> n ∈ head r ->
  (let r0 := with_head (hash_upd (head r) (n_addr n) (with_count 0)) r in
   count n = 1 -> cb_done r0 (n_addr n) (rput p r0 s) s') ->
  exists r', wf_registry r' /\ same_frame r' r /\
    if count n =? 1 then
      resource_registry_dec run_cb p (n_addr n) s = (Ok tt, rput p r' s') /\
      reg_abs r' = delete (object_id n) (reg_abs r)
    else
      resource_registry_dec run_cb p (n_addr n) s = (Ok tt, rput p r' s) /\
      reg_abs r' = <[object_id n := (count n - 1, payload n)]> (reg_abs r).
Proof.
  intros Hr Hwf Hin Hcb.
  pose proof (proj1 (Forall_forall _ _) (wf_nodes _ Hwf) n Hin) as [Hc _].
  destruct (Z.eqb_spec (count n) 1) as [E|E].
  - eexists. split; [by apply wf_hash_del|]. split; [done|].
    split; [by apply dec_run_last; auto|by apply reg_abs_del].
  - assert (wf_registry (with_head (hash_upd (head r) (n_addr n) (with_count (count n - 1))) r))
      by (apply wf_hash_upd; [done|lia]).
    eexists. split; [done|]. split; [done|]. split; [apply dec_run_many; [done..|lia]|].
    by rewrite reg_abs_upd.
Qed.
End Refinement.

(** ** Properties *)
Section Properties.
Context {S A CB : Type} `{UTHash}.
Context (run_cb : CB -> nat -> nat -> M S unit).
Context (p : regptr S A CB) `{!LawfulPtr p}.

(** inserting a node with a new identifier is the insertion, with
    reference count 1, into the abstract registry; the registry stays well
    formed and nothing else of the state changes. *)
Theorem registry_insert_refines (r : registry A CB) (s : S) (n : node A)
  (Hr : rget p s = Some r) (Hwf : wf_registry r)
  (Ha : n_addr n ∉ n_addr <$> head r)
  (Hid : 0 <= object_id n <= max_object_id r)
  (Hnew : reg_abs r !! object_id n = None) :
  exists r', resource_registry_insert p n s = (Ok tt, rput p r' s) /\
    wf_registry r' /\ reg_abs r' = <[object_id n := (1, payload n)]> (reg_abs r).
Proof.
  destruct (insert_spec p s r n) as (r' & Hrun & Hwf' & _ & Habs); try done.
  by exists r'.
Qed.

(** C28: dropping a reference decrements the count while other references
    remain; the last reference runs the deletion callback and then removes the
    identifier.  The registry stays well formed in both cases. *)
Theorem registry_dec_refines (r : registry A CB) (s s' : S) (n : node A)
  (Hr : rget p s = Some r) (Hwf : wf_registry r) (Hin : n ∈ head r)
  (Hcb : let r0 := with_head (hash_upd (head r) (n_addr n) (with_count 0)) r in
         count n = 1 -> cb_done run_cb p r0 (n_addr n) (rput p r0 s) s') :
  exists r', wf_registry r' /\
    if count n =? 1 then
      resource_registry_dec run_cb p (n_addr n) s = (Ok tt, rput p r' s') /\
      reg_abs r' = delete (object_id n) (reg_abs r)
    else
      resource_registry_dec run_cb p (n_addr n) s = (Ok tt, rput p r' s) /\
      reg_abs r' = <[object_id n := (count n - 1, payload n)]> (reg_abs r).
Proof.
  destruct (dec_spec run_cb p s s' r n) as (r' & Hwf' & _ & Hd); try done. by exists r'.
Qed.

(** the registry after a node was inserted under a new identifier *)
Definition with_new (r : registry A CB) (n : node A) (id : Z) : registry A CB :=
  with_head (hash_add (head r) (with_count 1 (with_object_id id n))) (with_id_counter id r).

Lemma insert_new_id_run (r : registry A CB) (s : S) (n : node A) (free : Z)
  (Hr : rget p s = Some r) (Hwf : wf_registry r)
  (Ha : n_addr n ∉ n_addr <$> head r)
  (Hmax : 1 <= max_object_id r < 2 ^ 64 - 1)
  (Hctr : 0 <= id_counter r <= max_object_id r)
  (Hfree : 1 <= free <= max_object_id r /\ reg_abs r !! free = None)
  (Hne : id_counter r <= 1 \/ free <> id_counter r) :
  exists id, resource_registry_insert_new_id p n s = (Ok id, rput p (with_new r n id) s) /\
    1 <= id <= max_object_id r /\ reg_abs r !! id = None /\ wf_registry (with_new r n id) /\
    reg_abs (with_new r n id) = <[id := (1, payload n)]> (reg_abs r).
Proof.
  destruct Hfree as [Hf Hnone]. rewrite reg_abs_None in Hnone by done.
  unfold resource_registry_insert_new_id.
  rewrite (bind_ok _ _ _ _ _ (reg_load_run p s r Hr)).
  destruct (find_new_id _ r _ _) as [id|f|] eqn:E.
  - pose proof (find_new_id_Ok r (id_counter r) Hmax _ _ _ Hctr E) as (Hid & Hnocc & _).
    assert (reg_abs r !! id = None) as Hnew.
    { apply reg_abs_None; [done|]. intros m Hm Em. apply Hnocc. by exists m. }
    set (r1 := with_id_counter id r).
    assert (wf_registry r1) as Hwf1 by (destruct Hwf; by split).
    rewrite (bind_ok _ _ s tt (rput p r1 s)) by done.
    pose proof (rget_with p r1 r s Hr) as Hr1.
    rewrite (bind_ok _ _ _ _ _ (insert_run p _ r1 (with_object_id id n) Hr1 ltac:(simpl; lia))).
    rewrite rput_rput. exists id. split; [reflexivity|].
    assert (node_ok (max_object_id r1) (with_count 1 (with_object_id id n)))
      by (split; simpl; lia).
    repeat (split; [done || lia|]). split; [by apply (wf_hash_add r1)|].
    by apply (reg_abs_add r1 (with_count 1 (with_object_id id n))).
  - exfalso. destruct Hne as [Hle|Hne].
    + by apply (find_new_id_low_start r (id_counter r) Hmax) in E; [|lia..].
    + destruct (find_new_id_Crash_full r _ _ Hmax Hctr E free Hf Hne) as (m & Hm & Em).
      by apply (Hnone m Hm).
  - exfalso. destruct (find_new_id_NoFuel_full r _ _ Hmax Hctr E) as [Hocc _].
    destruct (Hocc free Hf) as (m & Hm & Em). by apply (Hnone m Hm).
Qed.

(** C27: allocating an identifier ends, within one more test than there are
    nodes, with an identifier that was free, between 1 and the maximum, as
    soon as one is free other than the one the counter stands at (a counter of
    0 or 1 excludes none). *)
Theorem registry_insert_new_id_fresh (r : registry A CB) (s : S) (n : node A) (free : Z)
  (Hr : rget p s = Some r) (Hwf : wf_registry r)
  (Ha : n_addr n ∉ n_addr <$> head r)
  (Hmax : 1 <= max_object_id r < 2 ^ 64 - 1)
  (Hctr : 0 <= id_counter r <= max_object_id r)
  (Hfree : 1 <= free <= max_object_id r /\ reg_abs r !! free = None)
  (Hne : id_counter r <= 1 \/ free <> id_counter r) :
  exists id r', resource_registry_insert_new_id p n s = (Ok id, rput p r' s) /\
    1 <= id <= max_object_id r /\ reg_abs r !! id = None /\ wf_registry r' /\
    id_counter r' = id /\ reg_abs r' = <[id := (1, payload n)]> (reg_abs r).
Proof.
  destruct (insert_new_id_run r s n free) as (id & Hrun & Hid & Hnew & Hwf' & Habs); try done.
  by exists id, (with_new r n id).
Qed.

(** the search gives up although an identifier is free: when the only free
    identifier is the one the counter stands at (the node allocated last was
    the one deleted), allocation stops the server with the panic "Out of IDs". *)
Theorem registry_insert_new_id_panics (r : registry A CB) (s : S) (n : node A)
  (Hr : rget p s = Some r) (Hwf : wf_registry r)
  (Hmax : 1 <= max_object_id r < 2 ^ 64 - 1)
  (Hctr : 2 <= id_counter r <= max_object_id r)
  (Hfree : reg_abs r !! id_counter r = None)
  (Hfull : forall k, 1 <= k <= max_object_id r -> k <> id_counter r -> is_Some (reg_abs r !! k)) :
  stops (resource_registry_insert_new_id p n) s AssertFail.
Proof.
  exists s. unfold resource_registry_insert_new_id.
  rewrite (bind_ok _ _ _ _ _ (reg_load_run p s r Hr)).
  destruct (find_new_id _ r _ _) as [id|f|] eqn:E.
  - exfalso. apply find_new_id_Ok in E as (Hid & Hnocc & Hst); [|lia..].
    destruct (decide (id = id_counter r)) as [->|Hne]; [lia|].
    destruct (Hfull id Hid Hne) as (v & Hv). apply Hnocc.
    apply reg_abs_lookup in Hv as (m & Hm & Em & _); [|done]. by exists m.
  - by apply find_new_id_Crash in E as [-> _]; [|lia..].
  - exfalso. apply find_new_id_NoFuel_full in E as [_ Hs]; lia.
Qed.

(** when every identifier is taken, a counter that never advanced past 1
    makes the search run for ever: no number of passes ends it. *)
Theorem registry_insert_new_id_diverges (r : registry A CB) (fuel : nat)
  (Hwf : wf_registry r) (Hmax : 1 <= max_object_id r < 2 ^ 64 - 1)
  (Hctr : 0 <= id_counter r <= 1)
  (Hfull : forall k, 1 <= k <= max_object_id r -> is_Some (reg_abs r !! k)) :
  find_new_id fuel r (id_counter r) (id_counter r) = NoFuel.
Proof.
  apply find_new_id_diverges; [done|lia..|].
  intros k Hk. destruct (Hfull k Hk) as (v & Hv).
  apply reg_abs_lookup in Hv as (m & Hm & Em & _); [|done]. by exists m.
Qed.
End Properties.

(** ** Witnesses: a state that is one registry *)
Section Witnesses.
Definition self_ptr : regptr (registry Z unit) Z unit := RegPtr Some (fun r _ => r).
#[local] Instance self_ptr_lawful : LawfulPtr self_ptr.
Proof. by split. Qed.
Definition no_cb : unit -> nat -> nat -> M (registry Z unit) unit := fun _ _ _ => mret tt.

(** three nodes out of three identifiers, then the last one deleted *)
Definition reg_demo (l : list Z) (ctr : Z) : registry Z unit :=
  Registry ((fun i => Node (Z.to_nat i) i 1 (10 * i)) <$> l) 3 ctr None 0.

Lemma reg_demo_wf l ctr : NoDup l -> Forall (fun i => 0 <= i <= 3) l ->
  wf_registry (reg_demo l ctr).
Proof.
  intros Hnd Hl. split; simpl.
  - rewrite <- list_fmap_compose. apply NoDup_fmap_2_strong; [|done].
    intros x y Hx Hy E. unfold compose in E. simpl in E.
    apply (proj1 (Forall_forall _ _) Hl) in Hx, Hy. lia.
  - rewrite <- list_fmap_compose. apply NoDup_fmap_2_strong; [|done]. done.
  - apply Forall_fmap. eapply Forall_impl; [done|]. intros x Hx. cbv [compose node_ok]; simpl in *; lia.
Qed.

Lemma registry_insert_refines_witness :
  exists r', resource_registry_insert self_ptr (Node 9 3 0 42) (reg_demo [1; 2] 2)
               = (Ok tt, r') /\ reg_abs r' !! 3 = Some (1, 42).
Proof.
  destruct (registry_insert_refines self_ptr (reg_demo [1; 2] 2) (reg_demo [1; 2] 2)
              (Node 9 3 0 42)) as (r' & Hrun & _ & Habs).
  - reflexivity.
  - apply reg_demo_wf; [apply (bool_decide_unpack _); reflexivity|apply (bool_decide_unpack _); reflexivity].
  - apply (bool_decide_unpack _). reflexivity.
  - simpl. lia.
  - reflexivity.
  - exists r'. split; [exact Hrun|]. rewrite Habs. reflexivity.
Defined.

Lemma registry_dec_refines_witness :
  exists r', resource_registry_dec no_cb self_ptr 2 (reg_demo [1; 2] 2) = (Ok tt, r') /\
    reg_abs r' !! 2 = None.
Proof.
  destruct (registry_dec_refines no_cb self_ptr (reg_demo [1; 2] 2) (reg_demo [1; 2] 2)
              (with_head (hash_upd (head (reg_demo [1; 2] 2)) 2 (with_count 0)) (reg_demo [1; 2] 2))
              (Node 2 2 1 20)) as (r' & Hwf & Hres).
  - reflexivity.
  - apply reg_demo_wf; [apply (bool_decide_unpack _); reflexivity|apply (bool_decide_unpack _); reflexivity].
  - apply list_elem_of_In. simpl. tauto.
  - intros r0 _. reflexivity.
  - destruct Hres as [Hrun Habs]. exists r'. split; [exact Hrun|]. rewrite Habs. reflexivity.
Defined.

Lemma registry_insert_new_id_fresh_witness :
  exists id r', resource_registry_insert_new_id self_ptr (Node 9 0 0 42) (reg_demo [1; 3] 3)
                  = (Ok id, r') /\ reg_abs r' !! id = Some (1, 42).
Proof.
  destruct (registry_insert_new_id_fresh self_ptr (reg_demo [1; 3] 3) (reg_demo [1; 3] 3)
              (Node 9 0 0 42) 2) as (id & r' & Hrun & _ & _ & _ & _ & Habs).
  - reflexivity.
  - apply reg_demo_wf; [apply (bool_decide_unpack _); reflexivity|apply (bool_decide_unpack _); reflexivity].
  - apply (bool_decide_unpack _). reflexivity.
  - simpl. lia.
  - simpl. lia.
  - split; [simpl; lia|reflexivity].
  - right. discriminate.
  - exists id, r'. split; [exact Hrun|]. rewrite Habs. apply lookup_insert_eq.
Defined.

Lemma full_demo l ctr c : (forall k, In k [1; 2; 3] -> k <> c -> is_Some (reg_abs (reg_demo l ctr) !! k)) ->
  forall k, 1 <= k <= 3 -> k <> c -> is_Some (reg_abs (reg_demo l ctr) !! k).
Proof. intros H k Hk. apply H. simpl. lia. Qed.

Lemma registry_insert_new_id_panics_witness :
  stops (resource_registry_insert_new_id self_ptr (Node 9 0 0 42)) (reg_demo [1; 2] 3) AssertFail.
Proof.
  apply (registry_insert_new_id_panics self_ptr (reg_demo [1; 2] 3)).
  - reflexivity.
  - apply reg_demo_wf; [apply (bool_decide_unpack _); reflexivity|apply (bool_decide_unpack _); reflexivity].
  - simpl. lia.
  - simpl. lia.
  - reflexivity.
  - apply full_demo. simpl. intros k [<-|[<-|[<-|[]]]] Hne; [eexists; reflexivity..|done].
Defined.

Lemma registry_insert_new_id_diverges_witness :
  find_new_id 1000 (reg_demo [1; 2; 3] 1) 1 1 = NoFuel.
Proof.
  apply (registry_insert_new_id_diverges (reg_demo [1; 2; 3] 1) 1000).
  - apply reg_demo_wf; [apply (bool_decide_unpack _); reflexivity|apply (bool_decide_unpack _); reflexivity].
  - simpl. lia.
  - simpl. lia.
  - intros k Hk. apply (full_demo [1; 2; 3] 1 0); [|done|lia].
    simpl. intros k' [<-|[<-|[<-|[]]]] Hne; eexists; reflexivity.
Defined.
End Witnesses.

(** ** HASH_ITER with a body that keeps the table *)
Section HashIter.
Context {S A CB : Type}.
Context (p : regptr S A CB).

Lemma elem_mid {B} (pre : list B) x rest : x ∈ pre ++ x :: rest.
Proof. apply list_elem_of_In, in_or_app. right. by left. Qed.

Lemma next_of_split (l : list (node A)) pre t rest : n_addr <$> l = pre ++ t :: rest ->
  NoDup (n_addr <$> l) -> next_of t l = Some (List.head rest).
Proof.
  revert pre. induction l as [|n l IH]; intros pre E Hnd; [by destruct pre|].
  simpl in *. apply NoDup_cons in Hnd as [Hn Hnd]. destruct pre as [|x pre].
  - injection E as -> E. rewrite Nat.eqb_refl. f_equal. rewrite <- E. by destruct l.
  - injection E as _ E. destruct (Nat.eqb_spec (n_addr n) t) as [Et|]; [|by apply (IH pre)].
    exfalso. apply Hn. change (n_addr n ∉ n_addr <$> l) in Hn. rewrite Et, E in *. apply elem_mid.
Qed.

Lemma hash_upd_mid (l1 l2 : list (node A)) (n : node A) f :
  NoDup (n_addr <$> l1 ++ n :: l2) -> hash_upd (l1 ++ n :: l2) (n_addr n) f = l1 ++ f n :: l2.
Proof.
  intros Hnd. unfold hash_upd. rewrite fmap_app. simpl. rewrite Nat.eqb_refl.
  rewrite fmap_app in Hnd. simpl in Hnd. apply NoDup_app in Hnd as (_ & Hd & Hnd).
  apply NoDup_cons in Hnd as [Hn _].
  assert (forall l : list (node A), n_addr n ∉ n_addr <$> l ->
    (fun x => if (n_addr x =? n_addr n)%nat then f x else x) <$> l = l) as Hid.
  { intros l Hl. induction l as [|x l IH]; [done|]. csimpl in *.
    apply not_elem_of_cons in Hl as [Hne Hl]. rewrite IH by done.
    destruct (Nat.eqb_spec (n_addr x) (n_addr n)); congruence. }
  f_equal; [|f_equal]; apply Hid; [|done].
  intros Hin. apply (Hd _ Hin). apply list_elem_of_In. by left.
Qed.

(** if the body keeps the addresses of the table in every state of [I], and ends in
    a state of [I], the loop runs the body once on each element, in order *)
Lemma hash_iter_stable (I : S -> Prop) (addrs : list nat) (body : nat -> M S unit) :
  NoDup addrs ->
  (forall s, I s -> exists r, rget p s = Some r /\ n_addr <$> head r = addrs) ->
  (forall s a, I s -> a ∈ addrs -> exists s', body a s = (Ok tt, s') /\ I s') ->
  forall s, I s -> exists s', I s' /\ hash_iter p body s = (Ok tt, s') /\
    for_each addrs body s = (Ok tt, s').
Proof.
  intros Hnd Htab Hbody.
  assert (forall rest pre e fuel s, addrs = pre ++ e :: rest -> I s -> (length rest < fuel)%nat ->
    exists s', I s' /\
      hash_iter_loop fuel p (fun a => body a ;; mret (None : option unit)) (Some e) (List.head rest) s
        = (Ok None, s') /\ for_each (e :: rest) body s = (Ok tt, s')) as Hloop.
  { induction rest as [|t rest IH]; intros pre e fuel s E HI Hfuel;
      (destruct fuel as [|fuel]; [simpl in Hfuel; lia|]);
      (destruct (Hbody s e HI ltac:(rewrite E; apply elem_mid)) as (s1 & Hrun & HI1)).
    - exists s1. split; [done|]. simpl. rewrite bind_assoc, !(bind_ok _ _ _ _ _ Hrun).
      split; [by erewrite bind_ok by reflexivity|done].
    - destruct (Htab s1 HI1) as (r & Hr & Hads).
      destruct (IH (pre ++ [e]) t fuel s1) as (s2 & HI2 & Hl & Hf);
        [by rewrite <- app_assoc|done|simpl in Hfuel; lia|].
      exists s2. split; [done|]. split.
      + simpl. rewrite bind_assoc, (bind_ok _ _ _ _ _ Hrun). erewrite bind_ok by reflexivity.
        cbv iota. erewrite (bind_ok (reg_load p)) by (by unfold reg_load; rewrite Hr).
        rewrite (next_of_split (head r) (pre ++ [e]) t rest); [exact Hl| |by rewrite Hads].
        by rewrite Hads, <- app_assoc.
      + simpl in *. by rewrite (bind_ok _ _ _ _ _ Hrun). }
  intros s HI. destruct (Htab s HI) as (r & Hr & Hads).
  unfold hash_iter, hash_iter_until.
  destruct (head r) as [|n l] eqn:El.
  - exists s. split; [done|]. simpl in Hads. subst addrs. split; [|done].
    rewrite bind_assoc. erewrite (bind_ok (reg_load p)) by (by unfold reg_load; rewrite Hr).
    rewrite El. by erewrite bind_ok by reflexivity.
  - simpl in Hads. destruct (Hloop (n_addr <$> l) [] (n_addr n) (length (n :: l)) s)
      as (s' & HI' & Hl & Hf); [by rewrite <- Hads|done|rewrite length_fmap; simpl; lia|].
    exists s'. split; [done|]. split; [|by rewrite <- Hads].
    rewrite bind_assoc. erewrite (bind_ok (reg_load p)) by (by unfold reg_load; rewrite Hr).
    rewrite El.
    replace (n_addr <$> List.head l) with (List.head (n_addr <$> l)) by (by destruct l).
    by rewrite (bind_ok _ _ _ _ _ Hl).
Qed.

(** if the body replaces the element it is given by [f] of it, whatever elements
    before it have become, the loop maps [f] over the table *)
Lemma hash_iter_map `{!LawfulPtr p} (r : registry A CB) (s : S) (f : node A -> node A)
    (body : nat -> M S unit) :
  NoDup (n_addr <$> head r) -> (forall n, n_addr (f n) = n_addr n) -> is_Some (rget p s) ->
  (forall pre n post, head r = pre ++ n :: post ->
     body (n_addr n) (rput p (with_head ((f <$> pre) ++ n :: post) r) s)
     = (Ok tt, rput p (with_head ((f <$> pre) ++ f n :: post) r) s)) ->
  hash_iter p body (rput p r s) = (Ok tt, rput p (with_head (f <$> head r) r) s).
Proof.
  intros Hnd Hf [r0 Hr0] Hbody.
  assert (forall l, reg_load p (rput p l s) = (Ok l, rput p l s)) as Hload.
  { intros l. unfold reg_load. by rewrite (rget_rput _ _ _ Hr0). }
  assert (forall post pre n fuel, head r = pre ++ n :: post -> (length post < fuel)%nat ->
    hash_iter_loop fuel p (fun a => body a ;; mret (None : option unit)) (Some (n_addr n))
      (List.head (n_addr <$> post)) (rput p (with_head ((f <$> pre) ++ n :: post) r) s)
      = (Ok None, rput p (with_head (f <$> head r) r) s)) as Hloop.
  { induction post as [|m post IH]; intros pre n fuel E Hfuel;
      (destruct fuel as [|fuel]; [simpl in Hfuel; lia|]); simpl;
      rewrite bind_assoc, (bind_ok _ _ _ _ _ (Hbody pre n _ E)); erewrite bind_ok by reflexivity;
      cbv iota.
    - by rewrite E, fmap_app.
    - rewrite (bind_ok _ _ _ _ _ (Hload _)).
      rewrite (next_of_split _ (n_addr <$> pre ++ [n]) (n_addr m) (n_addr <$> post)).
      + replace ((f <$> pre) ++ f n :: m :: post) with ((f <$> pre ++ [n]) ++ m :: post)
          by (by rewrite fmap_app, <- app_assoc).
        apply IH; [by rewrite <- app_assoc|simpl in Hfuel; lia].
      + simpl. rewrite fmap_app, <- list_fmap_compose.
        rewrite (list_fmap_ext (n_addr ∘ f) n_addr pre) by (intros; apply Hf).
        simpl. rewrite Hf, fmap_app, <- app_assoc. done.
      + simpl. rewrite fmap_app, <- list_fmap_compose.
        rewrite (list_fmap_ext (n_addr ∘ f) n_addr pre) by (intros; apply Hf).
        simpl. rewrite Hf. rewrite E, fmap_app in Hnd. exact Hnd. }
  unfold hash_iter, hash_iter_until. rewrite bind_assoc, (bind_ok _ _ _ _ _ (Hload r)).
  destruct (head r) as [|n l] eqn:El.
  - erewrite bind_ok by reflexivity. destruct r. simpl in El. by subst.
  - replace (n_addr <$> List.head l) with (List.head (n_addr <$> l)) by (by destruct l).
    pose proof (Hloop l [] n (length (n :: l)) eq_refl ltac:(simpl; lia)) as Hl.
    simpl app in Hl. replace (with_head (n :: l) r) with r in Hl by (destruct r; simpl in El; by subst).
    by rewrite (bind_ok _ _ _ _ _ Hl).
Qed.
End HashIter.
