(* ===== verification/LinkedList.v ===== *)
(** * Linked lists

    Model of [libsel4gpi/src/linked_list.c]: doubly linked lists with a count,
    on a heap of nodes and list headers addressed by numbers (a NULL pointer is
    [None]).  The theorems show that a well-formed list is a FIFO queue of its
    data and that the operations on one list leave the others alone; the work
    queues of the PD component rely on this and are modelled as plain lists. *)

From stdpp Require Import base numbers list gmap.
From S2P Require Import Prelude.

(** linked_list_node_t and linked_list_t; data is a [void *] *)
Record ll_node := LLNode {
  ll_data : option nat;
  ll_next : option nat;
  ll_prev : option nat
}.
Record linked_list := LList {
  ll_head : option nat;
  ll_tail : option nat;
  ll_count : Z           (* size_t *)
}.

(** the C heap as these functions see it: nodes, headers, the other blocks that
    data points to, and the next address [calloc] returns *)
Record ll_heap := LLHeap {
  h_nodes : gmap nat ll_node;
  h_lists : gmap nat linked_list;
  h_blocks : gset nat;
  h_next : nat
}.

Definition with_nodes (f : gmap nat ll_node -> gmap nat ll_node) (h : ll_heap) : ll_heap :=
  LLHeap (f (h_nodes h)) (h_lists h) (h_blocks h) (h_next h).
Definition with_lists (f : gmap nat linked_list -> gmap nat linked_list) (h : ll_heap) : ll_heap :=
  LLHeap (h_nodes h) (f (h_lists h)) (h_blocks h) (h_next h).

(** ** Memory accesses *)
Section Heap.
(** whether the allocation with a given number succeeds *)
Context (calloc_ok : nat -> bool).

(** calloc: the address, or NULL *)
Definition ll_calloc : M ll_heap (option nat) := fun h =>
  let a := h_next h in
  (Ok (if calloc_ok a then Some a else None),
   LLHeap (h_nodes h) (h_lists h) (h_blocks h) (S a)).

Definition ll_node_load (a : nat) : M ll_heap ll_node := fun h =>
  match h_nodes h !! a with Some n => (Ok n, h) | None => (Crash UseAfterFree, h) end.
Definition ll_node_store (a : nat) (f : ll_node -> ll_node) : M ll_heap unit :=
  n ← ll_node_load a; modify (with_nodes (insert a (f n))).
Definition ll_list_load (l : nat) : M ll_heap linked_list := fun h =>
  match h_lists h !! l with Some r => (Ok r, h) | None => (Crash UseAfterFree, h) end.
Definition ll_list_store (l : nat) (f : linked_list -> linked_list) : M ll_heap unit :=
  r ← ll_list_load l; modify (with_lists (insert l (f r))).
Definition ll_free_node (a : nat) : M ll_heap unit :=
  _ ← ll_node_load a; modify (with_nodes (delete a)).
Definition ll_free_list (l : nat) : M ll_heap unit :=
  _ ← ll_list_load l; modify (with_lists (delete l)).
(** free of a data pointer; free(NULL) does nothing *)
Definition ll_free_data (d : option nat) : M ll_heap unit := fun h =>
  match d with
  | None => (Ok tt, h)
  | Some a =>
      if decide (a ∈ h_blocks h) then
        (Ok tt, LLHeap (h_nodes h) (h_lists h) (h_blocks h ∖ {[a]}) (h_next h))
      else (Crash UseAfterFree, h)
  end.

(** ** linked_list.c *)
Definition linked_list_new : M ll_heap nat :=
  list ← ll_calloc;
  assert_ (bool_decide (is_Some list)) ;;
  l ← deref list;
  modify (with_lists (insert l (LList None None 0))) ;;
  mret l.

Definition linked_list_insert (list : option nat) (data : option nat) : M ll_heap unit :=
  match list with
  | None => mret tt
  | Some l =>
      new_node ← ll_calloc;
      assert_ (bool_decide (is_Some new_node)) ;;
      new_node ← deref new_node;
      modify (with_nodes (insert new_node (LLNode data None None))) ;;
      r ← ll_list_load l;
      match ll_head r with
      | None => ll_list_store l (fun r => LList (Some new_node) (ll_tail r) (ll_count r))
      | Some _ => mret tt
      end ;;
      r ← ll_list_load l;
      match ll_tail r with
      | Some t =>
          ll_node_store t (fun n => LLNode (ll_data n) (Some new_node) (ll_prev n)) ;;
          ll_node_store new_node (fun n => LLNode (ll_data n) (ll_next n) (Some t))
      | None => mret tt
      end ;;
      ll_list_store l (fun r => LList (ll_head r) (Some new_node) (ll_count r)) ;;
      ll_list_store l (fun r => LList (ll_head r) (ll_tail r) (u64 (ll_count r + 1)))
  end.

Definition linked_list_insert_many (l : option nat) (args : list (option nat)) : M ll_heap unit :=
  for_each args (fun varg => linked_list_insert l varg).

(** returns what is stored to [*data] *)
Definition linked_list_pop_head (list : option nat) : M ll_heap (option nat) :=
  match list with
  | None => mret None
  | Some l =>
      r ← ll_list_load l;
      match ll_head r with
      | None => mret None
      | Some node =>
          n ← ll_node_load node;
          ll_list_store l (fun r => LList (ll_next n) (ll_tail r) (ll_count r)) ;;
          ll_list_store l (fun r => LList (ll_head r) (ll_tail r) (u64 (ll_count r - 1))) ;;
          match ll_next n with
          | Some h' => ll_node_store h' (fun n => LLNode (ll_data n) (ll_next n) None)
          | None => ll_list_store l (fun r => LList (ll_head r) None (ll_count r))
          end ;;
          ll_free_node node ;;
          mret (ll_data n)
      end
  end.

(** [while (curr_idx < idx && curr != NULL)]; the loop runs at most [idx] times *)
Fixpoint ll_walk (steps : nat) (curr : option nat) : M ll_heap (option nat) :=
  match steps, curr with
  | S steps, Some a => n ← ll_node_load a; ll_walk steps (ll_next n)
  | _, _ => mret curr
  end.

Definition linked_list_get_at_idx (list : option nat) (idx : nat) : M ll_heap (option nat) :=
  match list with
  | None => mret None
  | Some l =>
      r ← ll_list_load l;
      if bool_decide (is_Some (ll_head r)) && (Z.of_nat idx <? ll_count r) then
        curr ← ll_walk idx (ll_head r);
        match curr with
        | Some c => n ← ll_node_load c; mret (ll_data n)
        | None => mret None
        end
      else mret None
  end.

Fixpoint ll_destroy_loop (fuel : nat) (free_data : bool) (curr : option nat) : M ll_heap unit :=
  match curr with
  | None => mret tt
  | Some a =>
      match fuel with
      | O => no_fuel
      | S fuel =>
          n ← ll_node_load a;
          when free_data (ll_free_data (ll_data n)) ;;
          ll_free_node a ;;
          ll_destroy_loop fuel free_data (ll_next n)
      end
  end.

(** every pass frees a node of the heap: their number is enough fuel *)
Definition linked_list_destroy (list : option nat) (free_data : bool) : M ll_heap unit :=
  match list with
  | None => mret tt
  | Some l =>
      r ← ll_list_load l;
      h ← get_state;
      ll_destroy_loop (size (h_nodes h)) free_data (ll_head r) ;;
      ll_free_list l
  end.
End Heap.

(** ** Well-formed lists *)
Section Segments.
Implicit Types (m : gmap nat ll_node) (p q : option nat) (l : list nat) (xs : list (option nat)).

(** a doubly linked segment: its addresses, their data, what its first node's
    [prev] and its last node's [next] hold *)
Fixpoint dll_seg (m : gmap nat ll_node) (p : option nat) (l : list nat)
    (xs : list (option nat)) (q : option nat) : Prop :=
  match l, xs with
  | [], [] => True
  | a :: l', x :: xs' =>
      m !! a = Some (LLNode x (match l' with [] => q | b :: _ => Some b end) p) /\
      dll_seg m (Some a) l' xs' q
  | _, _ => False
  end.

Definition first_or (l : list nat) (q : option nat) : option nat :=
  match l with [] => q | b :: _ => Some b end.
Definition last_or (p : option nat) (l : list nat) : option nat :=
  match last l with None => p | Some b => Some b end.

Lemma dll_seg_length m p l xs q : dll_seg m p l xs q -> length l = length xs.
Proof.
  revert p xs. induction l as [|a l IH]; intros p [|x xs]; simpl; try done.
  intros [_ H%IH]. by rewrite H.
Qed.

Lemma dll_seg_ext m m' p l xs q :
  (forall a, a ∈ l -> m !! a = m' !! a) -> dll_seg m p l xs q -> dll_seg m' p l xs q.
Proof.
  revert p xs. induction l as [|a l IH]; intros p [|x xs] Hext; simpl; try done.
  intros [Ha Hl]. split; [by rewrite <- Hext by (constructor)|].
  apply IH; [|done]. intros b Hb. apply Hext. by constructor.
Qed.

Lemma last_or_cons p a l : last_or p (a :: l) = last_or (Some a) l.
Proof. unfold last_or. rewrite last_cons. by destruct (last l). Qed.

Lemma dll_seg_app m p l1 l2 xs1 xs2 q : length l1 = length xs1 ->
  dll_seg m p (l1 ++ l2) (xs1 ++ xs2) q <->
  dll_seg m p l1 xs1 (first_or l2 q) /\ dll_seg m (last_or p l1) l2 xs2 q.
Proof.
  revert p xs1. induction l1 as [|a l IH]; intros p [|x xs]; simpl; try done; [tauto|].
  intros [= Hlen]. rewrite (IH (Some a) xs Hlen), last_or_cons.
  destruct l as [|b l]; simpl; tauto.
Qed.
End Segments.

(** the list header at [l] holds the data [xs], in nodes at [addrs] *)
Record dll (h : ll_heap) (l : nat) (addrs : list nat) (xs : list (option nat)) : Prop := {
  dll_header : h_lists h !! l =
    Some (LList (List.head addrs) (last addrs) (Z.of_nat (length xs)));
  dll_body : dll_seg (h_nodes h) None addrs xs None;
  dll_nodup : NoDup addrs;
  dll_alloc : Forall (fun a => (a < h_next h)%nat) addrs;
  dll_size : Z.of_nat (length xs) < 2 ^ 64
}.

Section ListLemmas.
Context (calloc_ok : nat -> bool).

Lemma ll_node_load_run a n h : h_nodes h !! a = Some n -> ll_node_load a h = (Ok n, h).
Proof. intros H. unfold ll_node_load. by rewrite H. Qed.

Lemma ll_list_load_run l r h : h_lists h !! l = Some r -> ll_list_load l h = (Ok r, h).
Proof. intros H. unfold ll_list_load. by rewrite H. Qed.

Lemma ll_node_store_run a n f h : h_nodes h !! a = Some n ->
  ll_node_store a f h = (Ok tt, with_nodes (insert a (f n)) h).
Proof. intros H. unfold ll_node_store. by rewrite (bind_ok _ _ _ _ _ (ll_node_load_run a n h H)). Qed.

Lemma ll_list_store_run l r f h : h_lists h !! l = Some r ->
  ll_list_store l f h = (Ok tt, with_lists (insert l (f r)) h).
Proof. intros H. unfold ll_list_store. by rewrite (bind_ok _ _ _ _ _ (ll_list_load_run l r h H)). Qed.

Lemma ll_free_node_run a n h : h_nodes h !! a = Some n ->
  ll_free_node a h = (Ok tt, with_nodes (delete a) h).
Proof. intros H. unfold ll_free_node. by rewrite (bind_ok _ _ _ _ _ (ll_node_load_run a n h H)). Qed.

Lemma last_snoc_or {A} (addrs : list A) : addrs = [] \/ exists l a, addrs = l ++ [a].
Proof. destruct addrs as [|a l _] using rev_ind; eauto. Qed.

Lemma dll_frame h h' l addrs xs :
  h_lists h' !! l = h_lists h !! l -> (forall a, a ∈ addrs -> h_nodes h' !! a = h_nodes h !! a) ->
  (h_next h <= h_next h')%nat -> dll h l addrs xs -> dll h' l addrs xs.
Proof.
  intros Hl Hn Hnext [H1 H2 H3 H4 H5]. split; [by rewrite Hl| |done| |done].
  - eapply dll_seg_ext; [|done]. intros a Ha. by rewrite Hn.
  - eapply Forall_impl; [done|]. simpl. lia.
Qed.
End ListLemmas.

Section Properties.
Context (calloc_ok : nat -> bool).

(** run a straight-line list operation on a concrete heap *)
Ltac ll_run :=
  repeat first
    [ progress (unfold ll_list_store, ll_node_store, ll_list_load, ll_node_load, ll_free_node,
        with_lists, with_nodes, mbind, M_bind, modify, mret, M_ret, assert_, deref, get_state; cbn)
    | rewrite lookup_insert_eq
    | rewrite lookup_insert_ne by congruence
    | match goal with H : ?m !! ?k = _ |- context [?m !! ?k] => rewrite H end ].

Lemma linked_list_insert_run h l addrs xs data :
  dll h l addrs xs -> calloc_ok (h_next h) = true -> Z.of_nat (length xs) + 1 < 2 ^ 64 ->
  exists N', linked_list_insert calloc_ok (Some l) data h
    = (Ok tt, LLHeap N' (<[l := LList (List.head (addrs ++ [h_next h])) (Some (h_next h))
         (Z.of_nat (length (xs ++ [data])))]> (h_lists h)) (h_blocks h) (S (h_next h))) /\
    dll_seg N' None (addrs ++ [h_next h]) (xs ++ [data]) None /\
    (forall a, a ∉ addrs -> a <> h_next h -> N' !! a = h_nodes h !! a).
Proof.
  intros Hl Hok Hsize.
  destruct h as [N L B nx]. destruct Hl as [Hh Hb Hnd Ha _]; simpl in *.
  assert (nx ∉ addrs) as Hnew.
  { intros H. apply (proj1 (Forall_forall _ _) Ha) in H. lia. }
  assert (u64 (Z.of_nat (length xs) + 1) = Z.of_nat (length (xs ++ [data]))) as Hc.
  { unfold u64. rewrite wrap_small, length_app by lia. simpl. lia. }
  pose proof (dll_seg_length _ _ _ _ _ Hb) as Hlen.
  unfold linked_list_insert, ll_calloc.
  destruct (last_snoc_or addrs) as [->|(l0 & t & ->)].
  - destruct xs; [|done]. ll_run. rewrite Hok. ll_run. rewrite !insert_insert_eq.
    eexists. split; [reflexivity|]. split.
    + split; [by rewrite lookup_insert_eq|done].
    + intros a _ Hne. by rewrite lookup_insert_ne.
  - destruct (last_snoc_or xs) as [->|(xs0 & x & ->)];
      [exfalso; rewrite length_app in Hlen; simpl in Hlen; lia|].
    rewrite !length_app in Hlen; simpl in Hlen.
    apply dll_seg_app in Hb as [Hb [Ht _]]; [|lia]. simpl in Ht.
    rewrite last_snoc in Hh.
    assert (t <> nx) by (intros ->; apply Hnew, elem_of_app; right; by constructor).
    destruct (List.head (l0 ++ [t])) as [hd|] eqn:Ehd; [|by destruct l0].
    ll_run. rewrite Hok. ll_run. rewrite Hc.
    rewrite !insert_insert_eq, (insert_insert_ne _ t nx), insert_insert_eq by done.
    eexists. split; [|split].
    + assert (List.head ((l0 ++ [t]) ++ [nx]) = Some hd) as -> by (destruct l0; done). reflexivity.
    + rewrite <- !app_assoc. apply dll_seg_app; [lia|].
      apply NoDup_app in Hnd as (_ & Hd & _).
      split; [|simpl; rewrite lookup_insert_ne, !lookup_insert_eq by done; tauto].
      eapply dll_seg_ext; [|exact Hb]. intros a Hin.
      rewrite !lookup_insert_ne; [done| |].
      * intros <-. apply (Hd t Hin). by constructor.
      * intros <-. apply Hnew, elem_of_app. by left.
    + intros a Hna Hne. rewrite !lookup_insert_ne; try done.
      intros <-. apply Hna, elem_of_app. right. by constructor.
Qed.

Lemma linked_list_pop_run h l a addrs x xs :
  dll h l (a :: addrs) (x :: xs) ->
  exists N', linked_list_pop_head (Some l) h
    = (Ok x, LLHeap (delete a N') (<[l := LList (List.head addrs) (last addrs)
         (Z.of_nat (length xs))]> (h_lists h)) (h_blocks h) (h_next h)) /\
    dll_seg N' None addrs xs None /\
    (forall b, b ∉ addrs -> N' !! b = h_nodes h !! b).
Proof.
  destruct h as [N L B nx]. intros [Hh [Ha Hb] Hnd Hal Hsz]; simpl in *.
  assert (u64 (Z.of_nat (S (length xs)) - 1) = Z.of_nat (length xs)) as Hc.
  { unfold u64. rewrite wrap_small; lia. }
  unfold linked_list_pop_head. destruct addrs as [|b addrs], xs as [|y xs]; try done.
  - ll_run. rewrite !insert_insert_eq. by exists N.
  - destruct Hb as [Hb Hrest]. apply NoDup_cons in Hnd as [Hna Hnd].
    assert (a <> b) by (intros ->; apply Hna; by constructor).
    ll_run. cbn in Hc. rewrite Hc, !insert_insert_eq. eexists. split; [reflexivity|]. split.
    + split; [by rewrite lookup_insert_eq|]. eapply dll_seg_ext; [|exact Hrest].
      intros c Hc'. rewrite lookup_insert_ne; [done|]. intros <-.
      by apply NoDup_cons in Hnd as [? _].
    + intros c Hc'. rewrite lookup_insert_ne; [done|]. intros <-. apply Hc'. by constructor.
Qed.

(** on a well-formed list, inserting appends to the data of the list, at a
    fresh node, and leaves every other list as it was. *)
Theorem linked_list_insert_refines h l addrs xs data
  (Hl : dll h l addrs xs) (Hok : calloc_ok (h_next h) = true)
  (Hsize : Z.of_nat (length xs) + 1 < 2 ^ 64) :
  exists h', linked_list_insert calloc_ok (Some l) data h = (Ok tt, h') /\
    dll h' l (addrs ++ [h_next h]) (xs ++ [data]) /\
    forall l' addrs' xs', l' <> l -> addrs' ## addrs ->
      dll h l' addrs' xs' -> dll h' l' addrs' xs'.
Proof.
  destruct (linked_list_insert_run h l addrs xs data Hl Hok Hsize) as (N' & Hrun & Hseg & Hfr).
  eexists. split; [exact Hrun|]. destruct Hl as [_ _ Hnd Ha _]. split.
  - split; simpl; [by rewrite lookup_insert_eq, last_snoc|done| | |].
    + apply NoDup_app. split; [done|]. split; [|apply NoDup_singleton].
      intros b Hb ->%list_elem_of_singleton. apply (proj1 (Forall_forall _ _) Ha) in Hb. lia.
    + apply Forall_app. split; [eapply Forall_impl; [done|]; simpl; lia|].
      constructor; [lia|constructor].
    + rewrite length_app. simpl. lia.
  - intros l' addrs' xs' Hne Hdis Hl'. eapply dll_frame; [..|exact Hl']; simpl; [| |lia].
    + by rewrite lookup_insert_ne.
    + intros b Hb. apply Hfr; [by intros ?; apply (Hdis b)|].
      intros ->. destruct Hl' as [_ _ _ Hb' _].
      apply (proj1 (Forall_forall _ _) Hb') in Hb. lia.
Qed.

(** popping returns and removes the oldest data of the list (NULL when it is
    empty), frees its node, and leaves every other list as it was: with insertion
    at the tail the list is a FIFO queue. *)
Theorem linked_list_pop_refines h l addrs xs (Hl : dll h l addrs xs) :
  exists h', linked_list_pop_head (Some l) h = (Ok (mjoin (List.head xs)), h') /\
    dll h' l (tail addrs) (tail xs) /\
    (forall a, List.head addrs = Some a -> h_nodes h' !! a = None) /\
    forall l' addrs' xs', l' <> l -> addrs' ## addrs ->
      dll h l' addrs' xs' -> dll h' l' addrs' xs'.
Proof.
  pose proof (dll_seg_length _ _ _ _ _ (dll_body _ _ _ _ Hl)) as Hlen.
  destruct addrs as [|a addrs], xs as [|x xs]; try done.
  - exists h. split; [|done]. destruct h as [N L B nx], Hl as [Hh _ _ _ _]. simpl in *.
    unfold linked_list_pop_head. ll_run. done.
  - destruct (linked_list_pop_run h l a addrs x xs Hl) as (N' & Hrun & Hseg & Hfr).
    eexists. split; [exact Hrun|]. destruct Hl as [_ _ Hnd Ha Hsz].
    apply NoDup_cons in Hnd as [Hna Hnd]. split; [|split].
    + split; simpl in *; [by rewrite lookup_insert_eq| |done| |lia].
      * eapply dll_seg_ext; [|exact Hseg]. intros b Hb. rewrite lookup_delete_ne; [done|].
        by intros <-.
      * by apply Forall_cons in Ha as [_ Ha].
    + intros ? [= <-]. simpl. by rewrite lookup_delete_eq.
    + intros l' addrs' xs' Hne Hdis Hl'. eapply dll_frame; [..|exact Hl']; simpl; [| |done].
      * by rewrite lookup_insert_ne.
      * intros b Hb. rewrite lookup_delete_ne.
        -- apply Hfr. intros ?. apply (Hdis b); [done|by constructor].
        -- intros <-. apply (Hdis a); [done|by constructor].
Qed.

Lemma ll_walk_run h p addrs xs i :
  dll_seg (h_nodes h) p addrs xs None -> (i <= length addrs)%nat ->
  ll_walk i (List.head addrs) h = (Ok (addrs !! i), h).
Proof.
  revert p addrs xs. induction i as [|i IH]; intros p [|a addrs] [|x xs] Hs Hi; try done.
  simpl in *.
  destruct Hs as [Ha Hs]. rewrite (bind_ok _ _ _ _ _ (ll_node_load_run a _ h Ha)). simpl.
  rewrite <- (IH (Some a) addrs xs Hs) by lia. by destruct addrs.
Qed.

Lemma dll_seg_lookup m p addrs xs q i a : dll_seg m p addrs xs q -> addrs !! i = Some a ->
  exists n x, m !! a = Some n /\ xs !! i = Some x /\ ll_data n = x.
Proof.
  revert p xs i. induction addrs as [|b addrs IH]; intros p [|x xs] [|i] Hs Hi; try done;
    simpl in *; destruct Hs as [Hb Hs].
  - injection Hi as ->. eauto.
  - by eapply IH.
Qed.

(** reading by index returns the data at that position, NULL past the end,
    and changes nothing. *)
Theorem linked_list_get_at_idx_spec h l addrs xs i (Hl : dll h l addrs xs) :
  linked_list_get_at_idx (Some l) i h = (Ok (mjoin (xs !! i)), h).
Proof.
  destruct Hl as [Hh Hb Hnd Ha Hsz]. unfold linked_list_get_at_idx.
  pose proof (dll_seg_length _ _ _ _ _ Hb) as Hlen.
  rewrite (bind_ok _ _ _ _ _ (ll_list_load_run l _ h Hh)). simpl.
  destruct (decide (i < length xs)%nat) as [Hi|Hi].
  - destruct (lookup_lt_is_Some_2 addrs i ltac:(lia)) as [a Hai].
    destruct (dll_seg_lookup _ _ _ _ _ i a Hb Hai) as (n & x & Hn & Hx & <-).
    rewrite bool_decide_eq_true_2 by (destruct addrs; [done|eauto]).
    rewrite (proj2 (Z.ltb_lt _ _)) by lia. simpl.
    rewrite (bind_ok _ _ _ _ _ (ll_walk_run h None addrs xs i Hb ltac:(lia))), Hai.
    rewrite (bind_ok _ _ _ _ _ (ll_node_load_run a n h Hn)). by rewrite Hx.
  - rewrite (proj2 (Z.ltb_ge _ _)) by lia. rewrite andb_false_r.
    rewrite lookup_ge_None_2 by lia. done.
Qed.

Lemma foldr_delete_lookup {V} (m : gmap nat V) (l : list nat) a :
  foldr delete m l !! a = if decide (a ∈ l) then None else m !! a.
Proof.
  induction l as [|b l IH]; simpl; [done|].
  destruct (decide (a = b)) as [->|Hne].
  - rewrite lookup_delete_eq, decide_True by (by constructor). done.
  - rewrite lookup_delete_ne, IH by done.
    destruct (decide (a ∈ l)) as [Hin|Hin].
    + rewrite decide_True by (by constructor). done.
    + rewrite decide_False; [done|]. by intros [?|?]%elem_of_cons.
Qed.

(** destroying the nodes of a segment *)
Lemma ll_destroy_loop_run fd p addrs : forall xs h fuel,
  dll_seg (h_nodes h) p addrs xs None -> NoDup addrs -> (length addrs <= fuel)%nat ->
  (fd = true -> NoDup (omap id xs) /\ forall d, Some d ∈ xs -> d ∈ h_blocks h) ->
  ll_destroy_loop fuel fd (List.head addrs) h =
    (Ok tt, LLHeap (foldr delete (h_nodes h) (rev addrs)) (h_lists h)
       (if fd then h_blocks h ∖ list_to_set (omap id xs) else h_blocks h) (h_next h)).
Proof.
  revert p. induction addrs as [|a addrs IH]; intros p [|x xs] h fuel Hs Hnd Hf Hfd; try done.
  - destruct h as [N L B nx]. destruct fuel, fd; simpl; by rewrite ?difference_empty_L.
  - destruct fuel as [|fuel]; simpl in *; [lia|]. destruct Hs as [Ha Hs].
    apply NoDup_cons in Hnd as [Hna Hnd].
    rewrite (bind_ok _ _ _ _ _ (ll_node_load_run a _ h Ha)). simpl.
    set (B' := if fd then h_blocks h ∖ list_to_set (omap id [x]) else h_blocks h).
    assert (when fd (ll_free_data x) h = (Ok tt, LLHeap (h_nodes h) (h_lists h) B' (h_next h))) as E.
    { destruct h as [N L B nx], fd, x as [d|]; simpl in *; try done.
      - rewrite decide_True by (apply Hfd; [done|by constructor]).
        subst B'. simpl. by rewrite union_empty_r_L.
      - subst B'. simpl. by rewrite difference_empty_L. }
    rewrite (bind_ok _ _ _ _ _ E). erewrite bind_ok by (eapply ll_free_node_run; exact Ha).
    transitivity (ll_destroy_loop fuel fd (List.head addrs)
      (LLHeap (delete a (h_nodes h)) (h_lists h) B' (h_next h))).
    { by destruct addrs. }
    rewrite (IH (Some a) xs); simpl; [|eapply dll_seg_ext; [|exact Hs]|done|lia|].
    + rewrite foldr_app. simpl. repeat f_equal. subst B'. destruct fd, x; simpl; set_solver +.
    + intros b Hb. rewrite lookup_delete_ne; [done|]. by intros <-.
    + intros ->. destruct (Hfd eq_refl) as [Hd Hal]. subst B'.
      destruct x as [d|]; simpl in *.
      * apply NoDup_cons in Hd as [Hd1 Hd2]. split; [done|]. intros c Hc.
        apply elem_of_difference. split; [apply Hal; by constructor|].
        intros Hc'. apply Hd1, list_elem_of_omap. exists (Some c). split; [done|]. set_solver +Hc'.
      * split; [done|]. intros c Hc. rewrite difference_empty_L. apply Hal. by constructor.
Qed.

(** destroying a list frees its header, every node of it and, on request, its
    data, each once; nothing else is freed. *)
Theorem linked_list_destroy_frees h l addrs xs (fd : bool) (Hl : dll h l addrs xs)
  (Hfd : fd = true -> NoDup (omap id xs) /\ forall d, Some d ∈ xs -> d ∈ h_blocks h) :
  exists h', linked_list_destroy (Some l) fd h = (Ok tt, h') /\
    h_lists h' = delete l (h_lists h) /\
    (forall a, h_nodes h' !! a = if decide (a ∈ addrs) then None else h_nodes h !! a) /\
    h_blocks h' = if fd then h_blocks h ∖ list_to_set (omap id xs) else h_blocks h.
Proof.
  destruct Hl as [Hh Hb Hnd Ha Hsz]. unfold linked_list_destroy.
  rewrite (bind_ok _ _ _ _ _ (ll_list_load_run l _ h Hh)).
  rewrite (bind_ok _ _ h h h) by done. simpl.
  assert (length addrs <= size (h_nodes h))%nat as Hsize.
  { rewrite <- size_dom, <- (size_list_to_set (C := gset nat) addrs) by done.
    apply subseteq_size. intros a Hin. apply elem_of_list_to_set in Hin.
    apply list_elem_of_lookup in Hin as [i Hi].
    destruct (dll_seg_lookup _ _ _ _ _ i a Hb Hi) as (n & ? & Hn & _).
    by apply elem_of_dom_2 in Hn. }
  rewrite (bind_ok _ _ _ _ _ (ll_destroy_loop_run fd None addrs xs h _ Hb Hnd Hsize Hfd)).
  unfold ll_free_list. erewrite bind_ok by (apply (ll_list_load_run l); exact Hh).
  eexists. split; [reflexivity|]. split; [done|]. split; [|done].
  intros a. simpl. rewrite foldr_delete_lookup.
  destruct (decide (a ∈ rev addrs)) as [Hin|Hin], (decide (a ∈ addrs)) as [Hin'|Hin']; try done;
    rewrite list_elem_of_In, <- in_rev, <- list_elem_of_In in Hin; done.
Qed.

(** creating a list: empty, at a fresh address *)
Lemma linked_list_new_run h : calloc_ok (h_next h) = true ->
  exists h', linked_list_new calloc_ok h = (Ok (h_next h), h') /\
    dll h' (h_next h) [] [] /\ h_nodes h' = h_nodes h /\ h_next h' = S (h_next h).
Proof.
  intros Hok. destruct h as [N L B nx]. unfold linked_list_new, ll_calloc. simpl in *.
  ll_run. rewrite Hok. ll_run. eexists. split; [reflexivity|]. split; [|done].
  split; simpl; [by rewrite lookup_insert_eq|done|constructor|constructor|done].
Qed.
End Properties.

(** ** Witnesses: two lists on one heap *)
Section Witnesses.
Definition ll_demo : ll_heap :=
  snd ((l ← linked_list_new (fun _ => true);
        l' ← linked_list_new (fun _ => true);
        linked_list_insert_many (fun _ => true) (Some l) [Some 101; Some 102]%nat ;;
        linked_list_insert_many (fun _ => true) (Some l') [Some 103]%nat)
       (LLHeap ∅ ∅ {[101; 102; 103]}%nat 1)).

Lemma ll_demo_dll : dll ll_demo 1 [3; 4]%nat [Some 101; Some 102]%nat /\
  dll ll_demo 2 [5]%nat [Some 103]%nat.
Proof.
  split; (split; [vm_compute; reflexivity|vm_compute; repeat split; reflexivity| | |done]);
    apply (bool_decide_unpack _); vm_compute; exact I.
Qed.

Lemma linked_list_insert_refines_witness :
  exists h', linked_list_insert (fun _ => true) (Some 1%nat) (Some 104%nat) ll_demo = (Ok tt, h') /\
    dll h' 1 [3; 4; 6]%nat [Some 101; Some 102; Some 104]%nat /\ dll h' 2 [5]%nat [Some 103]%nat.
Proof.
  destruct (linked_list_insert_refines (fun _ => true) ll_demo 1 [3; 4]%nat
    [Some 101; Some 102]%nat (Some 104%nat)) as (h' & Hrun & Hl & Hfr).
  - apply ll_demo_dll.
  - reflexivity.
  - simpl. lia.
  - exists h'. split; [exact Hrun|].
    rewrite (ltac:(vm_compute; reflexivity) : h_next ll_demo = 6%nat) in Hl. split; [exact Hl|].
    apply Hfr; [done|set_solver +|apply ll_demo_dll].
Defined.

Lemma linked_list_pop_refines_witness :
  exists h', linked_list_pop_head (Some 1%nat) ll_demo = (Ok (Some 101%nat), h') /\
    dll h' 1 [4]%nat [Some 102]%nat.
Proof.
  destruct (linked_list_pop_refines ll_demo 1 [3; 4]%nat [Some 101; Some 102]%nat)
    as (h' & Hrun & Hl & _); [apply ll_demo_dll|]. exists h'. exact (conj Hrun Hl).
Defined.

Lemma linked_list_get_at_idx_spec_witness :
  linked_list_get_at_idx (Some 1%nat) 1 ll_demo = (Ok (Some 102%nat), ll_demo) /\
  linked_list_get_at_idx (Some 1%nat) 2 ll_demo = (Ok None, ll_demo).
Proof.
  split; apply (linked_list_get_at_idx_spec ll_demo 1 [3; 4]%nat [Some 101; Some 102]%nat);
    apply ll_demo_dll.
Defined.

Lemma linked_list_destroy_frees_witness :
  exists h', linked_list_destroy (Some 1%nat) true ll_demo = (Ok tt, h') /\
    h_blocks h' = {[103%nat]} /\ h_nodes h' !! 3%nat = None /\ dll ll_demo 2 [5]%nat [Some 103]%nat.
Proof.
  destruct (linked_list_destroy_frees ll_demo 1 [3; 4]%nat [Some 101; Some 102]%nat true)
    as (h' & Hrun & _ & Hn & Hb).
  - apply ll_demo_dll.
  - intros _. split; [apply (bool_decide_unpack _); vm_compute; exact I|].
    intros d Hd. apply list_elem_of_In in Hd. simpl in Hd.
    destruct Hd as [[= <-]|[[= <-]|[]]]; apply (bool_decide_unpack _); vm_compute; exact I.
  - exists h'. split; [exact Hrun|]. split; [rewrite Hb; vm_compute; reflexivity|].
    split; [rewrite Hn; vm_compute; reflexivity|apply ll_demo_dll].
Defined.
End Witnesses.
