(* ===== verification/CapTracking.v ===== *)
(** * Cap tracking

    Model of [libsel4gpi/src/cap_tracking.c]: a doubly linked list of records
    about the capabilities of the root task, reached from two pointers of the
    server context, [osm_caps] and [osm_caps_tail].  No other file of the
    repository calls these functions.  The theorems show that a lookup finds the
    oldest record for a slot, and that removal, which never updates the two
    pointers, leaves them dangling when it frees the first or the last record. *)

From stdpp Require Import base numbers list gmap.
From S2P Require Import Prelude.

Definition GPICAP_TYPE_MAX : Z := 9 + 8.

(** the fields of osmosis_cap_t that the functions copy, and its links *)
Record osm_data := OsmData {
  slot_in_rt : Z;
  osm_type : Z;
  isUntyped : bool;
  paddr : Z;
  isMinted : bool;
  minted_from : Z
}.
Record osmosis_cap_t := OsmCap {
  osm : osm_data;
  osm_prev : option nat;
  osm_next : option nat
}.
Definition osm_zero : osm_data := OsmData 0 0 false 0 false 0.

(** the records in memory and the pointers of gpi_server_context_t *)
Record ct_state := CTState {
  ct_heap : gmap nat osmosis_cap_t;
  osm_caps : option nat;
  osm_caps_tail : option nat;
  ct_next : nat     (* next address returned by calloc *)
}.

Definition ct_load (a : nat) : M ct_state osmosis_cap_t := fun s =>
  match ct_heap s !! a with Some c => (Ok c, s) | None => (Crash UseAfterFree, s) end.
Definition ct_put (h : gmap nat osmosis_cap_t -> gmap nat osmosis_cap_t) : M ct_state unit :=
  modify (fun s => CTState (h (ct_heap s)) (osm_caps s) (osm_caps_tail s) (ct_next s)).
Definition ct_store (a : nat) (f : osmosis_cap_t -> osmosis_cap_t) : M ct_state unit :=
  c ← ct_load a; ct_put (insert a (f c)).
Definition ct_free (a : nat) : M ct_state unit := _ ← ct_load a; ct_put (delete a).

Section CapTracking.
Context (calloc_ok : nat -> bool).

(** the address returned may be NULL: it is not checked *)
Definition new_osm_cap : M ct_state (option nat) :=
  new ← (fun s => (Ok (if calloc_ok (ct_next s) then Some (ct_next s) else None),
            CTState (if calloc_ok (ct_next s) then <[ct_next s := OsmCap osm_zero None None]> (ct_heap s)
                     else ct_heap s) (osm_caps s) (osm_caps_tail s) (S (ct_next s))));
  env ← get_state;
  match osm_caps env with
  | None => modify (fun s => CTState (ct_heap s) new (osm_caps_tail s) (ct_next s))
  | Some _ => mret tt
  end ;;
  env ← get_state;
  match osm_caps_tail env with
  | Some t =>
      n ← deref new;
      ct_store n (fun c => OsmCap (osm c) (Some t) (osm_next c)) ;;
      ct_store t (fun c => OsmCap (osm c) (osm_prev c) new)
  | None => mret tt
  end ;;
  modify (fun s => CTState (ct_heap s) (osm_caps s) new (ct_next s)) ;;
  mret new.

Definition gpi_add_cap_data (new_cap_data : osm_data) : M ct_state Z :=
  new ← new_osm_cap;
  n ← deref new;
  ct_store n (fun c => OsmCap new_cap_data (osm_prev c) (osm_next c)) ;;
  mret 0.

Definition remove_osm_cap (to_remove : nat) : M ct_state unit :=
  c ← ct_load to_remove;
  match osm_prev c with
  | Some p => ct_store p (fun d => OsmCap (osm d) (osm_prev d) (osm_next c))
  | None => mret tt
  end ;;
  c ← ct_load to_remove;
  match osm_next c with
  | Some n => ct_store n (fun d => OsmCap (osm d) (osm_prev c) (osm_next d))
  | None => mret tt
  end ;;
  ct_free to_remove.

Fixpoint gpi_remove_loop (fuel : nat) (cap_to_remove : Z) (curr : option nat) (found_cap : bool)
  : M ct_state bool :=
  match curr with
  | None => mret found_cap
  | Some a =>
      match fuel with
      | O => no_fuel
      | S fuel =>
          c ← ct_load a;
          if (slot_in_rt (osm c) =? cap_to_remove) || (minted_from (osm c) =? cap_to_remove) then
            remove_osm_cap a ;;
            gpi_remove_loop fuel cap_to_remove (osm_next c) true
          else gpi_remove_loop fuel cap_to_remove (osm_next c) found_cap
      end
  end.

(** the list visits a record of the heap at most once: one pass per
    record, and one that finds the end or a freed record *)
Definition gpi_remove_cap_data (cap_to_remove : Z) : M ct_state Z :=
  env ← get_state;
  found_cap ← gpi_remove_loop (S (size (ct_heap env))) cap_to_remove (osm_caps env) false;
  mret (if (found_cap : bool) then 0 else 1).

Fixpoint gpi_retrieve_loop (fuel : nat) (cap_to_find : Z) (curr : option nat)
  : M ct_state (option osm_data) :=
  match curr with
  | None => mret None
  | Some a =>
      match fuel with
      | O => no_fuel
      | S fuel =>
          c ← ct_load a;
          if slot_in_rt (osm c) =? cap_to_find then
            assert_ (negb (osm_type (osm c) =? GPICAP_TYPE_MAX)) ;;
            mret (Some (osm c))
          else gpi_retrieve_loop fuel cap_to_find (osm_next c)
      end
  end.

(** returns 0 and the data, or 1 *)
Definition gpi_retrieve_cap_data (cap_to_find : Z) : M ct_state (Z * option osm_data) :=
  env ← get_state;
  o ← gpi_retrieve_loop (S (size (ct_heap env))) cap_to_find (osm_caps env);
  match o with Some d => mret (0, Some d) | None => mret (1, None) end.
End CapTracking.

(** ** Well-formed lists of records *)
Fixpoint osm_seg (m : gmap nat osmosis_cap_t) (p : option nat) (l : list nat) (ds : list osm_data)
  : Prop :=
  match l, ds with
  | [], [] => True
  | a :: l', d :: ds' =>
      m !! a = Some (OsmCap d p (List.head l')) /\ osm_seg m (Some a) l' ds'
  | _, _ => False
  end.

(** the records [ds], oldest first, at the addresses [l] *)
Record tracks (s : ct_state) (l : list nat) (ds : list osm_data) : Prop := {
  tr_head : osm_caps s = List.head l;
  tr_tail : osm_caps_tail s = last l;
  tr_seg : osm_seg (ct_heap s) None l ds;
  tr_nodup : NoDup l;
  tr_alloc : Forall (fun a => (a < ct_next s)%nat) l
}.

Section Lemmas.

Lemma ct_load_run a c s : ct_heap s !! a = Some c -> ct_load a s = (Ok c, s).
Proof. intros H. unfold ct_load. by rewrite H. Qed.

Lemma osm_seg_ext m m' p l ds : (forall a, a ∈ l -> m' !! a = m !! a) ->
  osm_seg m p l ds -> osm_seg m' p l ds.
Proof.
  revert p ds. induction l as [|a l IH]; intros p [|d ds] He; simpl; try done.
  intros [Ha Hl]. split; [by rewrite He by constructor|].
  apply IH; [|done]. intros b Hb. apply He. by constructor.
Qed.

Lemma osm_seg_length m p l ds : osm_seg m p l ds -> length l = length ds.
Proof.
  revert p ds. induction l as [|a l IH]; intros p [|d ds]; simpl; try done.
  intros [_ H%IH]. by rewrite H.
Qed.

(** appending a record after the last of a segment *)
Lemma osm_seg_snoc m p l t d ds n c : n ∉ l -> n <> t -> NoDup (l ++ [t]) ->
  osm_seg m p (l ++ [t]) ds -> m !! t = Some c ->
  osm_seg (<[t := OsmCap (osm c) (osm_prev c) (Some n)]> (<[n := OsmCap d (Some t) None]> m))
    p (l ++ [t; n]) (ds ++ [d]).
Proof.
  revert p ds. induction l as [|a l IH]; intros p [|e ds] Hn Hnt Hnd Hs Ht; simpl in *;
    try done.
  - destruct Hs as [Ht' Hs], ds; [|done]. rewrite Ht in Ht'. injection Ht' as ->. simpl.
    split; [by rewrite lookup_insert_eq|]. split; [|done].
    by rewrite lookup_insert_ne, lookup_insert_eq by done.
  - destruct Hs as [Ha Hs]. apply NoDup_cons in Hnd as [Hna Hnd].
    apply not_elem_of_cons in Hn as [Hn1 Hn2]. split.
    + rewrite !lookup_insert_ne; [rewrite Ha; by destruct l|done|].
      intros <-. apply Hna, elem_of_app. right. by constructor.
    + by apply IH.
Qed.

Lemma osm_seg_last m p l t ds : osm_seg m p (l ++ [t]) ds -> exists c, m !! t = Some c.
Proof.
  revert p ds. induction l as [|a l IH]; intros p [|d ds]; simpl; try done.
  - intros [H _]. eauto.
  - intros [_ H]. by apply IH in H.
Qed.

Lemma gpi_retrieve_loop_run cap l ds s : forall fuel p, osm_seg (ct_heap s) p l ds ->
  (length l <= fuel)%nat -> (forall d, d ∈ ds -> osm_type d <> GPICAP_TYPE_MAX) ->
  gpi_retrieve_loop fuel cap (List.head l) s
  = (Ok (List.find (fun d => slot_in_rt d =? cap) ds), s).
Proof.
  revert ds. induction l as [|a l IH]; intros [|d ds] fuel p Hs Hf Ht; try done.
  - by destruct fuel.
  - destruct fuel as [|fuel]; simpl in *; [lia|]. destruct Hs as [Ha Hs].
    rewrite (bind_ok _ _ _ _ _ (ct_load_run a _ s Ha)). simpl. case_bool.
    + unfold assert_. rewrite (proj2 (Z.eqb_neq _ _)) by (apply Ht; by constructor). done.
    + eapply IH; [exact Hs|lia|]. intros e He. apply Ht. by constructor.
Qed.

Lemma gpi_remove_loop_none cap l ds s found : forall fuel p, osm_seg (ct_heap s) p l ds ->
  (length l <= fuel)%nat ->
  (forall e, e ∈ ds -> slot_in_rt e <> cap /\ minted_from e <> cap) ->
  gpi_remove_loop fuel cap (List.head l) found s = (Ok found, s).
Proof.
  revert ds. induction l as [|a l IH]; intros [|d ds] fuel p Hs Hf Hne; try done.
  - by destruct fuel.
  - destruct fuel as [|fuel]; simpl in *; [lia|]. destruct Hs as [Ha Hs].
    rewrite (bind_ok _ _ _ _ _ (ct_load_run a _ s Ha)). simpl.
    destruct (Hne d) as [H1 H2]; [by constructor|].
    rewrite (proj2 (Z.eqb_neq _ _) H1), (proj2 (Z.eqb_neq _ _) H2). simpl.
    eapply IH; [exact Hs|lia|]. intros e He. apply Hne. by constructor.
Qed.

Lemma osm_seg_size m p l ds : osm_seg m p l ds -> NoDup l -> (length l <= size m)%nat.
Proof.
  intros Hs Hnd. rewrite <- size_dom, <- (size_list_to_set (C := gset nat) l) by done.
  apply subseteq_size. intros a Ha%elem_of_list_to_set.
  clear Hnd. revert p ds Hs Ha. induction l as [|b l IH]; intros p [|d ds] Hs Ha; try done.
  - by apply not_elem_of_nil in Ha.
  - destruct Hs as [Hb Hs]. apply elem_of_cons in Ha as [->|Ha]; [by apply elem_of_dom_2 in Hb|].
    by eapply IH.
Qed.
End Lemmas.

Section Properties.

Ltac ct_run :=
  repeat first
    [ progress (unfold ct_store, ct_free, ct_put, ct_load, mbind, M_bind, modify, mret, M_ret,
        assert_, deref, get_state; cbn)
    | rewrite lookup_insert_eq
    | rewrite lookup_insert_ne by congruence
    | match goal with H : ?m !! ?k = _ |- context [?m !! ?k] => rewrite H end ].

(** recording a capability appends its data to the tracked records. *)
Theorem gpi_add_cap_data_appends calloc_ok s l ds d
  (Hs : tracks s l ds) (Hok : calloc_ok (ct_next s) = true) :
  exists s', gpi_add_cap_data calloc_ok d s = (Ok 0, s') /\
    tracks s' (l ++ [ct_next s]) (ds ++ [d]).
Proof.
  destruct s as [m hd tl nx], Hs as [Hh Htl Hseg Hnd Ha]; simpl in *. subst hd tl.
  assert (nx ∉ l) as Hnew.
  { intros H. apply (proj1 (Forall_forall _ _) Ha) in H. lia. }
  assert (NoDup (l ++ [nx])) as Hnd'.
  { apply NoDup_app. split; [done|]. split; [|apply NoDup_singleton].
    intros b Hb ->%list_elem_of_singleton. done. }
  assert (Forall (fun a => (a < S nx)%nat) (l ++ [nx])) as Ha'.
  { apply Forall_app. split; [eapply Forall_impl; [done|]; simpl; lia|].
    constructor; [lia|constructor]. }
  unfold gpi_add_cap_data, new_osm_cap.
  destruct l as [|t l0 _] using rev_ind.
  - destruct ds; [|done]. ct_run. rewrite Hok. ct_run. eexists. split; [reflexivity|].
    split; simpl; [done..| |done|done]. by rewrite lookup_insert_eq.
  - destruct (osm_seg_last _ _ _ _ _ Hseg) as [c Hc].
    assert (t <> nx) as Htn by (intros ->; apply Hnew, elem_of_app; right; by constructor).
    assert (exists hd, List.head (l0 ++ [t]) = Some hd) as [hd Ehd] by (destruct l0; eauto).
    rewrite Ehd, last_snoc. ct_run. rewrite Hok. ct_run. eexists. split; [reflexivity|].
    split; simpl; [by rewrite <- app_assoc; destruct l0|by rewrite last_snoc| |done|done].
    rewrite <- app_assoc. rewrite (insert_insert_ne _ nx t), !insert_insert_eq by done.
    apply osm_seg_snoc; [|done..]. intros H. apply Hnew, elem_of_app. by left.
Qed.

(** a lookup returns the data of the oldest record of a slot, and fails with
    1 when there is none; it changes nothing. *)
Theorem gpi_retrieve_cap_data_finds s l ds cap
  (Hs : tracks s l ds) (Ht : forall d, d ∈ ds -> osm_type d <> GPICAP_TYPE_MAX) :
  gpi_retrieve_cap_data cap s =
    (Ok match List.find (fun d => slot_in_rt d =? cap) ds with
        | Some d => (0, Some d)
        | None => (1, None)
        end, s).
Proof.
  destruct Hs as [Hh _ Hseg Hnd _]. unfold gpi_retrieve_cap_data.
  rewrite (bind_ok _ _ s s s) by done. rewrite Hh.
  erewrite bind_ok; [|apply (gpi_retrieve_loop_run cap l ds s _ None Hseg); [|done]].
  - by destruct (List.find _ _).
  - by apply Nat.le_le_succ_r, (osm_seg_size _ None l ds).
Qed.

(** removal never updates the server's pointer to the first record: after the
    first record's capability is removed, every further lookup reads freed memory. *)
Theorem gpi_remove_cap_data_dangles s a l d ds
  (Hs : tracks s (a :: l) (d :: ds))
  (Hkeep : forall e, e ∈ ds -> slot_in_rt e <> slot_in_rt d /\ minted_from e <> slot_in_rt d) :
  exists s', gpi_remove_cap_data (slot_in_rt d) s = (Ok 0, s') /\
    forall cap, stops (gpi_retrieve_cap_data cap) s' UseAfterFree.
Proof.
  destruct s as [m hd tl nx], Hs as [Hh Htl [Ha Hseg] Hnd _]; simpl in *. subst hd tl.
  pose proof (osm_seg_size _ _ _ _ (conj Ha Hseg : osm_seg m None (a :: l) (d :: ds)) Hnd) as Hsz.
  apply NoDup_cons in Hnd as [Hna Hnd].
  assert (exists m', remove_osm_cap a (CTState m (Some a) (last (a :: l)) nx)
    = (Ok tt, CTState (delete a m') (Some a) (last (a :: l)) nx) /\
    osm_seg (delete a m') None l ds) as (m' & Hrun & Hseg').
  { unfold remove_osm_cap. destruct l as [|b l].
    - ct_run. exists m. split; [reflexivity|]. by destruct ds.
    - destruct ds as [|e ds]; [done|]. destruct Hseg as [Hb Hseg].
      assert (a <> b) by (intros ->; apply Hna; by constructor).
      ct_run. eexists. split; [reflexivity|]. split.
      + by rewrite lookup_delete_ne, lookup_insert_eq.
      + eapply osm_seg_ext; [|exact Hseg]. intros c Hc.
        rewrite lookup_delete_ne, lookup_insert_ne; [done|..]; intros <-.
        * by apply NoDup_cons in Hnd as [? _].
        * apply Hna. by constructor. }
  exists (CTState (delete a m') (Some a) (last (a :: l)) nx). split.
  - unfold gpi_remove_cap_data. erewrite (bind_ok get_state) by reflexivity.
    erewrite (bind_ok _ _ _ true); [reflexivity|]. simpl. erewrite bind_ok by (by apply ct_load_run).
    simpl. rewrite Z.eqb_refl. simpl. erewrite bind_ok by exact Hrun.
    eapply gpi_remove_loop_none; [exact Hseg'|simpl in *; lia|done].
  - intros cap. exists (CTState (delete a m') (Some a) (last (a :: l)) nx).
    unfold gpi_retrieve_cap_data. erewrite (bind_ok get_state) by reflexivity.
    apply bind_crash. simpl. apply bind_crash. unfold ct_load. simpl.
    by rewrite lookup_delete_eq.
Qed.
End Properties.

(** ** Witnesses: two records *)
Section Witnesses.
Definition osm_demo (slot : Z) : osm_data := OsmData slot 3 false 0x1000 false 0.
Definition ct_demo : ct_state :=
  CTState {[1%nat := OsmCap (osm_demo 7) None (Some 2%nat); 2%nat := OsmCap (osm_demo 8) (Some 1%nat) None]}
    (Some 1%nat) (Some 2%nat) 3.

Lemma ct_demo_tracks : tracks ct_demo [1; 2]%nat [osm_demo 7; osm_demo 8].
Proof.
  split; [done|done|by vm_compute|..]; apply (bool_decide_unpack _); vm_compute; exact I.
Qed.

Lemma gpi_add_cap_data_appends_witness :
  exists s', gpi_add_cap_data (fun _ => true) (osm_demo 9) ct_demo = (Ok 0, s') /\
    tracks s' [1; 2; 3]%nat [osm_demo 7; osm_demo 8; osm_demo 9].
Proof.
  destruct (gpi_add_cap_data_appends (fun _ => true) ct_demo [1; 2]%nat
    [osm_demo 7; osm_demo 8] (osm_demo 9)) as (s' & Hrun & Ht).
  - apply ct_demo_tracks.
  - reflexivity.
  - exists s'. exact (conj Hrun Ht).
Defined.

Lemma gpi_retrieve_cap_data_finds_witness :
  gpi_retrieve_cap_data 8 ct_demo = (Ok (0, Some (osm_demo 8)), ct_demo).
Proof.
  apply (gpi_retrieve_cap_data_finds ct_demo [1; 2]%nat [osm_demo 7; osm_demo 8]).
  - apply ct_demo_tracks.
  - intros d Hd. apply list_elem_of_In in Hd. simpl in Hd.
    destruct Hd as [<-|[<-|[]]]; discriminate.
Defined.

Lemma gpi_remove_cap_data_dangles_witness :
  exists s', gpi_remove_cap_data 7 ct_demo = (Ok 0, s') /\
    stops (gpi_retrieve_cap_data 8) s' UseAfterFree.
Proof.
  destruct (gpi_remove_cap_data_dangles ct_demo 1 [2]%nat (osm_demo 7) [osm_demo 8])
    as (s' & Hrun & Hstop).
  - apply ct_demo_tracks.
  - intros e He. apply list_elem_of_In in He. simpl in He.
    destruct He as [<-|[]]. split; discriminate.
  - exists s'. exact (conj Hrun (Hstop 8)).
Defined.
End Witnesses.
