(* ===== verification/State.v ===== *)
(** * The state of the GPI server

    The data of [gpi_server_context_t] and of the objects its six components
    keep in their registries, with the structs' names and fields, their setters,
    the pointers to the registries, and the calls the server makes to code outside
    the repository.

    A pointer to an object is the address of the registry node that contains it:
    following it after the node was freed is the fault [UseAfterFree].  A NULL
    capability slot, virtual address or handle is 0.  The kernel, the allocator
    (vka), the vspace library and malloc are external: every call to them is
    recorded in [log], and its error code and result come from the oracle [sys],
    a function of the calls made before. *)

From stdpp Require Import base numbers list gmap.
From S2P Require Import Prelude Badge Registry.

(** ** resource_types.h *)
Definition GPICAP_TYPE_NONE : Z := 0.
Definition GPICAP_TYPE_ADS : Z := 1.
Definition GPICAP_TYPE_VMR : Z := 2.
Definition GPICAP_TYPE_MO : Z := 3.
Definition GPICAP_TYPE_CPU : Z := 4.
Definition GPICAP_TYPE_PCPU : Z := 5.
Definition GPICAP_TYPE_PD : Z := 6.
Definition GPICAP_TYPE_EP : Z := 7.
Definition GPICAP_TYPE_RESSPC : Z := 8.
Definition GPICAP_TYPE_seL4 : Z := 9.
Definition GPICAP_TYPE_MAX : Z := GPICAP_TYPE_seL4 + 8.
Definition RESOURCE_TYPE_MAX_STRING_SIZE : nat := 16.

(** seL4_CapNull *)
Definition CapNull : Z := 0.

(** the callbacks that registries are initialized with *)
Inductive CB :=
| CbMo | CbAds | CbCpu | CbPd | CbResspc | CbEp    (* on_*_registry_delete *)
| CbAttach                                         (* on_attach_registry_delete *)
| CbHeld                                           (* pd_held_resource_on_delete *)
| CbLink.                                          (* pd_linkage_on_delete *)

#[export] Instance CB_eq_dec : EqDecision CB.
Proof. solve_decision. Defined.

(** ** Objects *)

(** gpi_res_id_t *)
Record gpi_res_id_t := ResId {
  rid_type : Z;
  rid_space : Z;
  rid_object : Z
}.
#[export] Instance gpi_res_id_eq_dec : EqDecision gpi_res_id_t.
Proof. solve_decision. Defined.
Definition make_res_id (type space_id object_id : Z) : gpi_res_id_t :=
  ResId type space_id object_id.

(** mo_t: the arrays may be NULL *)
Record mo_t := Mo {
  mo_id : Z;
  frame_caps_in_root_task : option (list Z);
  vka_objects : option (list Z);
  frame_paddrs : option (list Z);
  num_pages : Z;
  mo_page_bits : Z
}.
Definition set_mo_id (v : Z) (x : mo_t) : mo_t :=
  Mo v (frame_caps_in_root_task x) (vka_objects x) (frame_paddrs x) (num_pages x) (mo_page_bits x).
Definition set_frame_caps_in_root_task (v : option (list Z)) (x : mo_t) : mo_t :=
  Mo (mo_id x) v (vka_objects x) (frame_paddrs x) (num_pages x) (mo_page_bits x).
Definition set_vka_objects (v : option (list Z)) (x : mo_t) : mo_t :=
  Mo (mo_id x) (frame_caps_in_root_task x) v (frame_paddrs x) (num_pages x) (mo_page_bits x).
Definition set_frame_paddrs (v : option (list Z)) (x : mo_t) : mo_t :=
  Mo (mo_id x) (frame_caps_in_root_task x) (vka_objects x) v (num_pages x) (mo_page_bits x).
Definition set_num_pages (v : Z) (x : mo_t) : mo_t :=
  Mo (mo_id x) (frame_caps_in_root_task x) (vka_objects x) (frame_paddrs x) v (mo_page_bits x).
Definition set_mo_page_bits (v : Z) (x : mo_t) : mo_t :=
  Mo (mo_id x) (frame_caps_in_root_task x) (vka_objects x) (frame_paddrs x) (num_pages x) v.

(** attach_node_t, keyed by its virtual address; [map_entry] is the address of its node in the identifier map *)
Record attach_node_t := AttachNode {
  att_vaddr : Z;
  map_entry : nat;
  res : Z;
  vmr_type : Z;
  n_pages : Z;
  page_bits : Z;
  cacheable : bool;
  rights : Z;
  mo_attached : bool;
  mo_offset : Z;
  att_mo_id : Z;
  frame_caps : option (list Z);
  n_frames : Z
}.
Definition set_att_vaddr (v : Z) (x : attach_node_t) : attach_node_t :=
  AttachNode v (map_entry x) (res x) (vmr_type x) (n_pages x) (page_bits x) (cacheable x)
    (rights x) (mo_attached x) (mo_offset x) (att_mo_id x) (frame_caps x) (n_frames x).
Definition set_map_entry (v : nat) (x : attach_node_t) : attach_node_t :=
  AttachNode (att_vaddr x) v (res x) (vmr_type x) (n_pages x) (page_bits x) (cacheable x)
    (rights x) (mo_attached x) (mo_offset x) (att_mo_id x) (frame_caps x) (n_frames x).
Definition set_res (v : Z) (x : attach_node_t) : attach_node_t :=
  AttachNode (att_vaddr x) (map_entry x) v (vmr_type x) (n_pages x) (page_bits x) (cacheable x)
    (rights x) (mo_attached x) (mo_offset x) (att_mo_id x) (frame_caps x) (n_frames x).
Definition set_vmr_type (v : Z) (x : attach_node_t) : attach_node_t :=
  AttachNode (att_vaddr x) (map_entry x) (res x) v (n_pages x) (page_bits x) (cacheable x)
    (rights x) (mo_attached x) (mo_offset x) (att_mo_id x) (frame_caps x) (n_frames x).
Definition set_n_pages (v : Z) (x : attach_node_t) : attach_node_t :=
  AttachNode (att_vaddr x) (map_entry x) (res x) (vmr_type x) v (page_bits x) (cacheable x)
    (rights x) (mo_attached x) (mo_offset x) (att_mo_id x) (frame_caps x) (n_frames x).
Definition set_page_bits (v : Z) (x : attach_node_t) : attach_node_t :=
  AttachNode (att_vaddr x) (map_entry x) (res x) (vmr_type x) (n_pages x) v (cacheable x)
    (rights x) (mo_attached x) (mo_offset x) (att_mo_id x) (frame_caps x) (n_frames x).
Definition set_cacheable (v : bool) (x : attach_node_t) : attach_node_t :=
  AttachNode (att_vaddr x) (map_entry x) (res x) (vmr_type x) (n_pages x) (page_bits x) v
    (rights x) (mo_attached x) (mo_offset x) (att_mo_id x) (frame_caps x) (n_frames x).
Definition set_rights (v : Z) (x : attach_node_t) : attach_node_t :=
  AttachNode (att_vaddr x) (map_entry x) (res x) (vmr_type x) (n_pages x) (page_bits x)
    (cacheable x) v (mo_attached x) (mo_offset x) (att_mo_id x) (frame_caps x) (n_frames x).
Definition set_mo_attached (v : bool) (x : attach_node_t) : attach_node_t :=
  AttachNode (att_vaddr x) (map_entry x) (res x) (vmr_type x) (n_pages x) (page_bits x)
    (cacheable x) (rights x) v (mo_offset x) (att_mo_id x) (frame_caps x) (n_frames x).
Definition set_mo_offset (v : Z) (x : attach_node_t) : attach_node_t :=
  AttachNode (att_vaddr x) (map_entry x) (res x) (vmr_type x) (n_pages x) (page_bits x)
    (cacheable x) (rights x) (mo_attached x) v (att_mo_id x) (frame_caps x) (n_frames x).
Definition set_att_mo_id (v : Z) (x : attach_node_t) : attach_node_t :=
  AttachNode (att_vaddr x) (map_entry x) (res x) (vmr_type x) (n_pages x) (page_bits x)
    (cacheable x) (rights x) (mo_attached x) (mo_offset x) v (frame_caps x) (n_frames x).
Definition set_frame_caps (v : option (list Z)) (x : attach_node_t) : attach_node_t :=
  AttachNode (att_vaddr x) (map_entry x) (res x) (vmr_type x) (n_pages x) (page_bits x)
    (cacheable x) (rights x) (mo_attached x) (mo_offset x) (att_mo_id x) v (n_frames x).
Definition set_n_frames (v : Z) (x : attach_node_t) : attach_node_t :=
  AttachNode (att_vaddr x) (map_entry x) (res x) (vmr_type x) (n_pages x) (page_bits x)
    (cacheable x) (rights x) (mo_attached x) (mo_offset x) (att_mo_id x) (frame_caps x) v.

(** attach_node_map_t *)
Record attach_node_map_t := AttachMap { map_vaddr : Z }.

(** ads_t *)
Record ads_t := Ads {
  ads_id : Z;
  vspace : Z;
  root_page_dir : Z;
  process_for_cookies : Z;
  attach_registry : registry attach_node_t CB;
  attach_id_to_vaddr_map : registry attach_node_map_t CB
}.
Definition set_ads_id (v : Z) (x : ads_t) : ads_t :=
  Ads v (vspace x) (root_page_dir x) (process_for_cookies x) (attach_registry x)
    (attach_id_to_vaddr_map x).
Definition set_vspace (v : Z) (x : ads_t) : ads_t :=
  Ads (ads_id x) v (root_page_dir x) (process_for_cookies x) (attach_registry x)
    (attach_id_to_vaddr_map x).
Definition set_root_page_dir (v : Z) (x : ads_t) : ads_t :=
  Ads (ads_id x) (vspace x) v (process_for_cookies x) (attach_registry x)
    (attach_id_to_vaddr_map x).
Definition set_process_for_cookies (v : Z) (x : ads_t) : ads_t :=
  Ads (ads_id x) (vspace x) (root_page_dir x) v (attach_registry x) (attach_id_to_vaddr_map x).
Definition set_attach_registry (v : registry attach_node_t CB) (x : ads_t) : ads_t :=
  Ads (ads_id x) (vspace x) (root_page_dir x) (process_for_cookies x) v (attach_id_to_vaddr_map x).
Definition set_attach_id_to_vaddr_map (v : registry attach_node_map_t CB) (x : ads_t) : ads_t :=
  Ads (ads_id x) (vspace x) (root_page_dir x) (process_for_cookies x) (attach_registry x) v.

(** cpu_t; an object is its capability *)
Record cpu_t := Cpu {
  cpu_id : Z;
  tcb : Z;
  ipc_buf_addr : Z;
  ipc_buf_mo : Z;
  ipc_frame_cap : Z;
  binded_ads_id : Z;
  tls_base : Z;
  cspace_root_cap : Z;
  cspace_guard : Z;
  fault_ep : Z;
  reg_ctx : Z;
  vcpu : Z
}.
Definition set_cpu_id (v : Z) (x : cpu_t) : cpu_t :=
  Cpu v (tcb x) (ipc_buf_addr x) (ipc_buf_mo x) (ipc_frame_cap x) (binded_ads_id x) (tls_base x)
    (cspace_root_cap x) (cspace_guard x) (fault_ep x) (reg_ctx x) (vcpu x).
Definition set_tcb (v : Z) (x : cpu_t) : cpu_t :=
  Cpu (cpu_id x) v (ipc_buf_addr x) (ipc_buf_mo x) (ipc_frame_cap x) (binded_ads_id x)
    (tls_base x) (cspace_root_cap x) (cspace_guard x) (fault_ep x) (reg_ctx x) (vcpu x).
Definition set_ipc_buf_addr (v : Z) (x : cpu_t) : cpu_t :=
  Cpu (cpu_id x) (tcb x) v (ipc_buf_mo x) (ipc_frame_cap x) (binded_ads_id x) (tls_base x)
    (cspace_root_cap x) (cspace_guard x) (fault_ep x) (reg_ctx x) (vcpu x).
Definition set_ipc_buf_mo (v : Z) (x : cpu_t) : cpu_t :=
  Cpu (cpu_id x) (tcb x) (ipc_buf_addr x) v (ipc_frame_cap x) (binded_ads_id x) (tls_base x)
    (cspace_root_cap x) (cspace_guard x) (fault_ep x) (reg_ctx x) (vcpu x).
Definition set_ipc_frame_cap (v : Z) (x : cpu_t) : cpu_t :=
  Cpu (cpu_id x) (tcb x) (ipc_buf_addr x) (ipc_buf_mo x) v (binded_ads_id x) (tls_base x)
    (cspace_root_cap x) (cspace_guard x) (fault_ep x) (reg_ctx x) (vcpu x).
Definition set_binded_ads_id (v : Z) (x : cpu_t) : cpu_t :=
  Cpu (cpu_id x) (tcb x) (ipc_buf_addr x) (ipc_buf_mo x) (ipc_frame_cap x) v (tls_base x)
    (cspace_root_cap x) (cspace_guard x) (fault_ep x) (reg_ctx x) (vcpu x).
Definition set_tls_base (v : Z) (x : cpu_t) : cpu_t :=
  Cpu (cpu_id x) (tcb x) (ipc_buf_addr x) (ipc_buf_mo x) (ipc_frame_cap x) (binded_ads_id x) v
    (cspace_root_cap x) (cspace_guard x) (fault_ep x) (reg_ctx x) (vcpu x).
Definition set_cspace_root_cap (v : Z) (x : cpu_t) : cpu_t :=
  Cpu (cpu_id x) (tcb x) (ipc_buf_addr x) (ipc_buf_mo x) (ipc_frame_cap x) (binded_ads_id x)
    (tls_base x) v (cspace_guard x) (fault_ep x) (reg_ctx x) (vcpu x).
Definition set_cspace_guard (v : Z) (x : cpu_t) : cpu_t :=
  Cpu (cpu_id x) (tcb x) (ipc_buf_addr x) (ipc_buf_mo x) (ipc_frame_cap x) (binded_ads_id x)
    (tls_base x) (cspace_root_cap x) v (fault_ep x) (reg_ctx x) (vcpu x).
Definition set_fault_ep (v : Z) (x : cpu_t) : cpu_t :=
  Cpu (cpu_id x) (tcb x) (ipc_buf_addr x) (ipc_buf_mo x) (ipc_frame_cap x) (binded_ads_id x)
    (tls_base x) (cspace_root_cap x) (cspace_guard x) v (reg_ctx x) (vcpu x).
Definition set_reg_ctx (v : Z) (x : cpu_t) : cpu_t :=
  Cpu (cpu_id x) (tcb x) (ipc_buf_addr x) (ipc_buf_mo x) (ipc_frame_cap x) (binded_ads_id x)
    (tls_base x) (cspace_root_cap x) (cspace_guard x) (fault_ep x) v (vcpu x).
Definition set_vcpu (v : Z) (x : cpu_t) : cpu_t :=
  Cpu (cpu_id x) (tcb x) (ipc_buf_addr x) (ipc_buf_mo x) (ipc_frame_cap x) (binded_ads_id x)
    (tls_base x) (cspace_root_cap x) (cspace_guard x) (fault_ep x) (reg_ctx x) v.

(** ep_t *)
Record ep_t := Ep {
  ep_id : Z;
  endpoint_in_RT : Z
}.
Definition set_ep_id (v : Z) (x : ep_t) : ep_t :=
  Ep v (endpoint_in_RT x).
Definition set_endpoint_in_RT (v : Z) (x : ep_t) : ep_t :=
  Ep (ep_id x) v.

(** res_space_t; [map_spaces] are pointers to other spaces *)
Record res_space_t := ResSpace {
  spc_id : Z;
  spc_resource_type : Z;
  spc_server_ep : Z;
  map_spaces : list nat;
  spc_pd_id : Z;
  spc_to_delete : bool;
  cleanup_policy : bool;
  spc_deleting : bool;
  spc_deletion_depth : Z;
  dont_notify : bool
}.
Definition set_spc_id (v : Z) (x : res_space_t) : res_space_t :=
  ResSpace v (spc_resource_type x) (spc_server_ep x) (map_spaces x) (spc_pd_id x)
    (spc_to_delete x) (cleanup_policy x) (spc_deleting x) (spc_deletion_depth x) (dont_notify x).
Definition set_spc_resource_type (v : Z) (x : res_space_t) : res_space_t :=
  ResSpace (spc_id x) v (spc_server_ep x) (map_spaces x) (spc_pd_id x) (spc_to_delete x)
    (cleanup_policy x) (spc_deleting x) (spc_deletion_depth x) (dont_notify x).
Definition set_spc_server_ep (v : Z) (x : res_space_t) : res_space_t :=
  ResSpace (spc_id x) (spc_resource_type x) v (map_spaces x) (spc_pd_id x) (spc_to_delete x)
    (cleanup_policy x) (spc_deleting x) (spc_deletion_depth x) (dont_notify x).
Definition set_map_spaces (v : list nat) (x : res_space_t) : res_space_t :=
  ResSpace (spc_id x) (spc_resource_type x) (spc_server_ep x) v (spc_pd_id x) (spc_to_delete x)
    (cleanup_policy x) (spc_deleting x) (spc_deletion_depth x) (dont_notify x).
Definition set_spc_pd_id (v : Z) (x : res_space_t) : res_space_t :=
  ResSpace (spc_id x) (spc_resource_type x) (spc_server_ep x) (map_spaces x) v (spc_to_delete x)
    (cleanup_policy x) (spc_deleting x) (spc_deletion_depth x) (dont_notify x).
Definition set_spc_to_delete (v : bool) (x : res_space_t) : res_space_t :=
  ResSpace (spc_id x) (spc_resource_type x) (spc_server_ep x) (map_spaces x) (spc_pd_id x) v
    (cleanup_policy x) (spc_deleting x) (spc_deletion_depth x) (dont_notify x).
Definition set_cleanup_policy (v : bool) (x : res_space_t) : res_space_t :=
  ResSpace (spc_id x) (spc_resource_type x) (spc_server_ep x) (map_spaces x) (spc_pd_id x)
    (spc_to_delete x) v (spc_deleting x) (spc_deletion_depth x) (dont_notify x).
Definition set_spc_deleting (v : bool) (x : res_space_t) : res_space_t :=
  ResSpace (spc_id x) (spc_resource_type x) (spc_server_ep x) (map_spaces x) (spc_pd_id x)
    (spc_to_delete x) (cleanup_policy x) v (spc_deletion_depth x) (dont_notify x).
Definition set_spc_deletion_depth (v : Z) (x : res_space_t) : res_space_t :=
  ResSpace (spc_id x) (spc_resource_type x) (spc_server_ep x) (map_spaces x) (spc_pd_id x)
    (spc_to_delete x) (cleanup_policy x) (spc_deleting x) v (dont_notify x).
Definition set_dont_notify (v : bool) (x : res_space_t) : res_space_t :=
  ResSpace (spc_id x) (spc_resource_type x) (spc_server_ep x) (map_spaces x) (spc_pd_id x)
    (spc_to_delete x) (cleanup_policy x) (spc_deleting x) (spc_deletion_depth x) v.

(** pd_hold_node_t *)
Record pd_hold_node_t := HoldNode {
  slot_in_PD_Debug : Z;
  slot_in_RT_Debug : Z;
  slot_in_ServerPD_Debug : Z;
  hold_res_id : gpi_res_id_t
}.


(** pd_link_node_t *)
Record pd_link_node_t := LinkNode { linked_pd_id : Z }.

(** osmosis_rde_t *)
Record osmosis_rde_t := Rde {
  rde_slot_in_RT : Z;
  rde_slot_in_PD : Z;
  rde_type : Z;
  rde_space_id : Z
}.
Definition set_rde_slot_in_RT (v : Z) (x : osmosis_rde_t) : osmosis_rde_t :=
  Rde v (rde_slot_in_PD x) (rde_type x) (rde_space_id x).
Definition set_rde_slot_in_PD (v : Z) (x : osmosis_rde_t) : osmosis_rde_t :=
  Rde (rde_slot_in_RT x) v (rde_type x) (rde_space_id x).
Definition set_rde_type (v : Z) (x : osmosis_rde_t) : osmosis_rde_t :=
  Rde (rde_slot_in_RT x) (rde_slot_in_PD x) v (rde_space_id x).
Definition set_rde_space_id (v : Z) (x : osmosis_rde_t) : osmosis_rde_t :=
  Rde (rde_slot_in_RT x) (rde_slot_in_PD x) (rde_type x) v.

Definition rde_zero : osmosis_rde_t := Rde 0 0 0 0.
Definition MAX_NS_PER_RDE : nat := 8.

(** a client context: the object's identifier and the slot of its endpoint *)
Record conn_t := Conn { conn_id : Z; conn_ep : Z }.
Definition conn_zero : conn_t := Conn 0 0.

(** osm_pd_shared_data_t: shared with the PD; [type_names] has 17 rows of 16 characters, [rde] 17 rows of 8 entries *)
Record osm_pd_shared_data_t := Shared {
  pd_conn : conn_t;
  ads_conn : conn_t;
  cpu_conn : conn_t;
  fault_ep_conn : conn_t;
  sd_cspace_root : Z;
  type_names : list (list Z);
  rde : list (list osmosis_rde_t);
  rde_count : Z;
  reply_cap : Z
}.
Definition set_pd_conn (v : conn_t) (x : osm_pd_shared_data_t) : osm_pd_shared_data_t :=
  Shared v (ads_conn x) (cpu_conn x) (fault_ep_conn x) (sd_cspace_root x) (type_names x) (rde x)
    (rde_count x) (reply_cap x).
Definition set_ads_conn (v : conn_t) (x : osm_pd_shared_data_t) : osm_pd_shared_data_t :=
  Shared (pd_conn x) v (cpu_conn x) (fault_ep_conn x) (sd_cspace_root x) (type_names x) (rde x)
    (rde_count x) (reply_cap x).
Definition set_cpu_conn (v : conn_t) (x : osm_pd_shared_data_t) : osm_pd_shared_data_t :=
  Shared (pd_conn x) (ads_conn x) v (fault_ep_conn x) (sd_cspace_root x) (type_names x) (rde x)
    (rde_count x) (reply_cap x).
Definition set_fault_ep_conn (v : conn_t) (x : osm_pd_shared_data_t) : osm_pd_shared_data_t :=
  Shared (pd_conn x) (ads_conn x) (cpu_conn x) v (sd_cspace_root x) (type_names x) (rde x)
    (rde_count x) (reply_cap x).
Definition set_sd_cspace_root (v : Z) (x : osm_pd_shared_data_t) : osm_pd_shared_data_t :=
  Shared (pd_conn x) (ads_conn x) (cpu_conn x) (fault_ep_conn x) v (type_names x) (rde x)
    (rde_count x) (reply_cap x).
Definition set_type_names (v : list (list Z)) (x : osm_pd_shared_data_t) : osm_pd_shared_data_t :=
  Shared (pd_conn x) (ads_conn x) (cpu_conn x) (fault_ep_conn x) (sd_cspace_root x) v (rde x)
    (rde_count x) (reply_cap x).
Definition set_rde (v : list (list osmosis_rde_t)) (x : osm_pd_shared_data_t) : osm_pd_shared_data_t :=
  Shared (pd_conn x) (ads_conn x) (cpu_conn x) (fault_ep_conn x) (sd_cspace_root x) (type_names x)
    v (rde_count x) (reply_cap x).
Definition set_rde_count (v : Z) (x : osm_pd_shared_data_t) : osm_pd_shared_data_t :=
  Shared (pd_conn x) (ads_conn x) (cpu_conn x) (fault_ep_conn x) (sd_cspace_root x) (type_names x)
    (rde x) v (reply_cap x).
Definition set_reply_cap (v : Z) (x : osm_pd_shared_data_t) : osm_pd_shared_data_t :=
  Shared (pd_conn x) (ads_conn x) (cpu_conn x) (fault_ep_conn x) (sd_cspace_root x) (type_names x)
    (rde x) (rde_count x) v.

Definition rde_zeroes : list (list osmosis_rde_t) :=
  repeat (repeat rde_zero MAX_NS_PER_RDE) (Z.to_nat GPICAP_TYPE_MAX).
Definition names_zeroes : list (list Z) :=
  repeat (repeat 0 RESOURCE_TYPE_MAX_STRING_SIZE) (Z.to_nat GPICAP_TYPE_MAX).
Definition shared_zero : osm_pd_shared_data_t :=
  Shared conn_zero conn_zero conn_zero conn_zero 0 names_zeroes rde_zeroes 0 0.

(** a program header, as the server reads it from an ELF file *)
Record Elf_Phdr := ElfPhdr {
  p_type : Z;
  p_offset : Z;
  p_vaddr : Z;
  p_paddr : Z;
  p_filesz : Z;
  p_memsz : Z;
  p_flags : Z;
  p_align : Z
}.

(** pd_t; [elf_phdrs] is the address of [elf_phdr_array]; [shared_data] is the virtual address in the root task of the shared data and [shared] what is stored there *)
Record pd_t := Pd {
  pd_id : Z;
  elf_phdrs : Z;
  num_elf_phdrs : Z;
  cspace : Z;
  allocman_cspace : Z;
  notification : Z;
  badged_notification : Z;
  badged_irq_ntfn : Z;
  bound_irq : Z;
  cspace_size : Z;
  pd_name : list Z;
  cnode_guard : Z;
  pd_vka : Z;
  hold_registry : registry pd_hold_node_t CB;
  linked_registry : registry pd_link_node_t CB;
  shared_data_mo_id : Z;
  shared_data : Z;
  shared : osm_pd_shared_data_t;
  shared_data_in_PD : Z;
  exit_code : Z;
  deleting : bool;
  to_delete : bool;
  deletion_depth : Z;
  sysinfo : Z;
  pagesz : Z;
  elf_phdr_array : list Elf_Phdr
}.
Definition set_pd_id (v : Z) (x : pd_t) : pd_t :=
  Pd v (elf_phdrs x) (num_elf_phdrs x) (cspace x) (allocman_cspace x) (notification x)
    (badged_notification x) (badged_irq_ntfn x) (bound_irq x) (cspace_size x) (pd_name x)
    (cnode_guard x) (pd_vka x) (hold_registry x) (linked_registry x) (shared_data_mo_id x)
    (shared_data x) (shared x) (shared_data_in_PD x) (exit_code x) (deleting x) (to_delete x)
    (deletion_depth x) (sysinfo x) (pagesz x) (elf_phdr_array x).
Definition set_elf_phdrs (v : Z) (x : pd_t) : pd_t :=
  Pd (pd_id x) v (num_elf_phdrs x) (cspace x) (allocman_cspace x) (notification x)
    (badged_notification x) (badged_irq_ntfn x) (bound_irq x) (cspace_size x) (pd_name x)
    (cnode_guard x) (pd_vka x) (hold_registry x) (linked_registry x) (shared_data_mo_id x)
    (shared_data x) (shared x) (shared_data_in_PD x) (exit_code x) (deleting x) (to_delete x)
    (deletion_depth x) (sysinfo x) (pagesz x) (elf_phdr_array x).
Definition set_num_elf_phdrs (v : Z) (x : pd_t) : pd_t :=
  Pd (pd_id x) (elf_phdrs x) v (cspace x) (allocman_cspace x) (notification x)
    (badged_notification x) (badged_irq_ntfn x) (bound_irq x) (cspace_size x) (pd_name x)
    (cnode_guard x) (pd_vka x) (hold_registry x) (linked_registry x) (shared_data_mo_id x)
    (shared_data x) (shared x) (shared_data_in_PD x) (exit_code x) (deleting x) (to_delete x)
    (deletion_depth x) (sysinfo x) (pagesz x) (elf_phdr_array x).
Definition set_cspace (v : Z) (x : pd_t) : pd_t :=
  Pd (pd_id x) (elf_phdrs x) (num_elf_phdrs x) v (allocman_cspace x) (notification x)
    (badged_notification x) (badged_irq_ntfn x) (bound_irq x) (cspace_size x) (pd_name x)
    (cnode_guard x) (pd_vka x) (hold_registry x) (linked_registry x) (shared_data_mo_id x)
    (shared_data x) (shared x) (shared_data_in_PD x) (exit_code x) (deleting x) (to_delete x)
    (deletion_depth x) (sysinfo x) (pagesz x) (elf_phdr_array x).
Definition set_allocman_cspace (v : Z) (x : pd_t) : pd_t :=
  Pd (pd_id x) (elf_phdrs x) (num_elf_phdrs x) (cspace x) v (notification x) (badged_notification x)
    (badged_irq_ntfn x) (bound_irq x) (cspace_size x) (pd_name x) (cnode_guard x) (pd_vka x)
    (hold_registry x) (linked_registry x) (shared_data_mo_id x) (shared_data x) (shared x)
    (shared_data_in_PD x) (exit_code x) (deleting x) (to_delete x) (deletion_depth x) (sysinfo x)
    (pagesz x) (elf_phdr_array x).
Definition set_notification (v : Z) (x : pd_t) : pd_t :=
  Pd (pd_id x) (elf_phdrs x) (num_elf_phdrs x) (cspace x) (allocman_cspace x) v
    (badged_notification x) (badged_irq_ntfn x) (bound_irq x) (cspace_size x) (pd_name x)
    (cnode_guard x) (pd_vka x) (hold_registry x) (linked_registry x) (shared_data_mo_id x)
    (shared_data x) (shared x) (shared_data_in_PD x) (exit_code x) (deleting x) (to_delete x)
    (deletion_depth x) (sysinfo x) (pagesz x) (elf_phdr_array x).
Definition set_badged_notification (v : Z) (x : pd_t) : pd_t :=
  Pd (pd_id x) (elf_phdrs x) (num_elf_phdrs x) (cspace x) (allocman_cspace x) (notification x) v
    (badged_irq_ntfn x) (bound_irq x) (cspace_size x) (pd_name x) (cnode_guard x) (pd_vka x)
    (hold_registry x) (linked_registry x) (shared_data_mo_id x) (shared_data x) (shared x)
    (shared_data_in_PD x) (exit_code x) (deleting x) (to_delete x) (deletion_depth x) (sysinfo x)
    (pagesz x) (elf_phdr_array x).
Definition set_badged_irq_ntfn (v : Z) (x : pd_t) : pd_t :=
  Pd (pd_id x) (elf_phdrs x) (num_elf_phdrs x) (cspace x) (allocman_cspace x) (notification x)
    (badged_notification x) v (bound_irq x) (cspace_size x) (pd_name x) (cnode_guard x) (pd_vka x)
    (hold_registry x) (linked_registry x) (shared_data_mo_id x) (shared_data x) (shared x)
    (shared_data_in_PD x) (exit_code x) (deleting x) (to_delete x) (deletion_depth x) (sysinfo x)
    (pagesz x) (elf_phdr_array x).
Definition set_bound_irq (v : Z) (x : pd_t) : pd_t :=
  Pd (pd_id x) (elf_phdrs x) (num_elf_phdrs x) (cspace x) (allocman_cspace x) (notification x)
    (badged_notification x) (badged_irq_ntfn x) v (cspace_size x) (pd_name x) (cnode_guard x)
    (pd_vka x) (hold_registry x) (linked_registry x) (shared_data_mo_id x) (shared_data x)
    (shared x) (shared_data_in_PD x) (exit_code x) (deleting x) (to_delete x) (deletion_depth x)
    (sysinfo x) (pagesz x) (elf_phdr_array x).
Definition set_cspace_size (v : Z) (x : pd_t) : pd_t :=
  Pd (pd_id x) (elf_phdrs x) (num_elf_phdrs x) (cspace x) (allocman_cspace x) (notification x)
    (badged_notification x) (badged_irq_ntfn x) (bound_irq x) v (pd_name x) (cnode_guard x)
    (pd_vka x) (hold_registry x) (linked_registry x) (shared_data_mo_id x) (shared_data x)
    (shared x) (shared_data_in_PD x) (exit_code x) (deleting x) (to_delete x) (deletion_depth x)
    (sysinfo x) (pagesz x) (elf_phdr_array x).
Definition set_pd_name (v : list Z) (x : pd_t) : pd_t :=
  Pd (pd_id x) (elf_phdrs x) (num_elf_phdrs x) (cspace x) (allocman_cspace x) (notification x)
    (badged_notification x) (badged_irq_ntfn x) (bound_irq x) (cspace_size x) v (cnode_guard x)
    (pd_vka x) (hold_registry x) (linked_registry x) (shared_data_mo_id x) (shared_data x)
    (shared x) (shared_data_in_PD x) (exit_code x) (deleting x) (to_delete x) (deletion_depth x)
    (sysinfo x) (pagesz x) (elf_phdr_array x).
Definition set_cnode_guard (v : Z) (x : pd_t) : pd_t :=
  Pd (pd_id x) (elf_phdrs x) (num_elf_phdrs x) (cspace x) (allocman_cspace x) (notification x)
    (badged_notification x) (badged_irq_ntfn x) (bound_irq x) (cspace_size x) (pd_name x) v
    (pd_vka x) (hold_registry x) (linked_registry x) (shared_data_mo_id x) (shared_data x)
    (shared x) (shared_data_in_PD x) (exit_code x) (deleting x) (to_delete x) (deletion_depth x)
    (sysinfo x) (pagesz x) (elf_phdr_array x).
Definition set_pd_vka (v : Z) (x : pd_t) : pd_t :=
  Pd (pd_id x) (elf_phdrs x) (num_elf_phdrs x) (cspace x) (allocman_cspace x) (notification x)
    (badged_notification x) (badged_irq_ntfn x) (bound_irq x) (cspace_size x) (pd_name x)
    (cnode_guard x) v (hold_registry x) (linked_registry x) (shared_data_mo_id x) (shared_data x)
    (shared x) (shared_data_in_PD x) (exit_code x) (deleting x) (to_delete x) (deletion_depth x)
    (sysinfo x) (pagesz x) (elf_phdr_array x).
Definition set_hold_registry (v : registry pd_hold_node_t CB) (x : pd_t) : pd_t :=
  Pd (pd_id x) (elf_phdrs x) (num_elf_phdrs x) (cspace x) (allocman_cspace x) (notification x)
    (badged_notification x) (badged_irq_ntfn x) (bound_irq x) (cspace_size x) (pd_name x)
    (cnode_guard x) (pd_vka x) v (linked_registry x) (shared_data_mo_id x) (shared_data x)
    (shared x) (shared_data_in_PD x) (exit_code x) (deleting x) (to_delete x) (deletion_depth x)
    (sysinfo x) (pagesz x) (elf_phdr_array x).
Definition set_linked_registry (v : registry pd_link_node_t CB) (x : pd_t) : pd_t :=
  Pd (pd_id x) (elf_phdrs x) (num_elf_phdrs x) (cspace x) (allocman_cspace x) (notification x)
    (badged_notification x) (badged_irq_ntfn x) (bound_irq x) (cspace_size x) (pd_name x)
    (cnode_guard x) (pd_vka x) (hold_registry x) v (shared_data_mo_id x) (shared_data x) (shared x)
    (shared_data_in_PD x) (exit_code x) (deleting x) (to_delete x) (deletion_depth x) (sysinfo x)
    (pagesz x) (elf_phdr_array x).
Definition set_shared_data_mo_id (v : Z) (x : pd_t) : pd_t :=
  Pd (pd_id x) (elf_phdrs x) (num_elf_phdrs x) (cspace x) (allocman_cspace x) (notification x)
    (badged_notification x) (badged_irq_ntfn x) (bound_irq x) (cspace_size x) (pd_name x)
    (cnode_guard x) (pd_vka x) (hold_registry x) (linked_registry x) v (shared_data x) (shared x)
    (shared_data_in_PD x) (exit_code x) (deleting x) (to_delete x) (deletion_depth x) (sysinfo x)
    (pagesz x) (elf_phdr_array x).
Definition set_shared_data (v : Z) (x : pd_t) : pd_t :=
  Pd (pd_id x) (elf_phdrs x) (num_elf_phdrs x) (cspace x) (allocman_cspace x) (notification x)
    (badged_notification x) (badged_irq_ntfn x) (bound_irq x) (cspace_size x) (pd_name x)
    (cnode_guard x) (pd_vka x) (hold_registry x) (linked_registry x) (shared_data_mo_id x) v
    (shared x) (shared_data_in_PD x) (exit_code x) (deleting x) (to_delete x) (deletion_depth x)
    (sysinfo x) (pagesz x) (elf_phdr_array x).
Definition set_shared (v : osm_pd_shared_data_t) (x : pd_t) : pd_t :=
  Pd (pd_id x) (elf_phdrs x) (num_elf_phdrs x) (cspace x) (allocman_cspace x) (notification x)
    (badged_notification x) (badged_irq_ntfn x) (bound_irq x) (cspace_size x) (pd_name x)
    (cnode_guard x) (pd_vka x) (hold_registry x) (linked_registry x) (shared_data_mo_id x)
    (shared_data x) v (shared_data_in_PD x) (exit_code x) (deleting x) (to_delete x)
    (deletion_depth x) (sysinfo x) (pagesz x) (elf_phdr_array x).
Definition set_shared_data_in_PD (v : Z) (x : pd_t) : pd_t :=
  Pd (pd_id x) (elf_phdrs x) (num_elf_phdrs x) (cspace x) (allocman_cspace x) (notification x)
    (badged_notification x) (badged_irq_ntfn x) (bound_irq x) (cspace_size x) (pd_name x)
    (cnode_guard x) (pd_vka x) (hold_registry x) (linked_registry x) (shared_data_mo_id x)
    (shared_data x) (shared x) v (exit_code x) (deleting x) (to_delete x) (deletion_depth x)
    (sysinfo x) (pagesz x) (elf_phdr_array x).
Definition set_exit_code (v : Z) (x : pd_t) : pd_t :=
  Pd (pd_id x) (elf_phdrs x) (num_elf_phdrs x) (cspace x) (allocman_cspace x) (notification x)
    (badged_notification x) (badged_irq_ntfn x) (bound_irq x) (cspace_size x) (pd_name x)
    (cnode_guard x) (pd_vka x) (hold_registry x) (linked_registry x) (shared_data_mo_id x)
    (shared_data x) (shared x) (shared_data_in_PD x) v (deleting x) (to_delete x) (deletion_depth x)
    (sysinfo x) (pagesz x) (elf_phdr_array x).
Definition set_deleting (v : bool) (x : pd_t) : pd_t :=
  Pd (pd_id x) (elf_phdrs x) (num_elf_phdrs x) (cspace x) (allocman_cspace x) (notification x)
    (badged_notification x) (badged_irq_ntfn x) (bound_irq x) (cspace_size x) (pd_name x)
    (cnode_guard x) (pd_vka x) (hold_registry x) (linked_registry x) (shared_data_mo_id x)
    (shared_data x) (shared x) (shared_data_in_PD x) (exit_code x) v (to_delete x)
    (deletion_depth x) (sysinfo x) (pagesz x) (elf_phdr_array x).
Definition set_to_delete (v : bool) (x : pd_t) : pd_t :=
  Pd (pd_id x) (elf_phdrs x) (num_elf_phdrs x) (cspace x) (allocman_cspace x) (notification x)
    (badged_notification x) (badged_irq_ntfn x) (bound_irq x) (cspace_size x) (pd_name x)
    (cnode_guard x) (pd_vka x) (hold_registry x) (linked_registry x) (shared_data_mo_id x)
    (shared_data x) (shared x) (shared_data_in_PD x) (exit_code x) (deleting x) v (deletion_depth x)
    (sysinfo x) (pagesz x) (elf_phdr_array x).
Definition set_deletion_depth (v : Z) (x : pd_t) : pd_t :=
  Pd (pd_id x) (elf_phdrs x) (num_elf_phdrs x) (cspace x) (allocman_cspace x) (notification x)
    (badged_notification x) (badged_irq_ntfn x) (bound_irq x) (cspace_size x) (pd_name x)
    (cnode_guard x) (pd_vka x) (hold_registry x) (linked_registry x) (shared_data_mo_id x)
    (shared_data x) (shared x) (shared_data_in_PD x) (exit_code x) (deleting x) (to_delete x) v
    (sysinfo x) (pagesz x) (elf_phdr_array x).
Definition set_sysinfo (v : Z) (x : pd_t) : pd_t :=
  Pd (pd_id x) (elf_phdrs x) (num_elf_phdrs x) (cspace x) (allocman_cspace x) (notification x)
    (badged_notification x) (badged_irq_ntfn x) (bound_irq x) (cspace_size x) (pd_name x)
    (cnode_guard x) (pd_vka x) (hold_registry x) (linked_registry x) (shared_data_mo_id x)
    (shared_data x) (shared x) (shared_data_in_PD x) (exit_code x) (deleting x) (to_delete x)
    (deletion_depth x) v (pagesz x) (elf_phdr_array x).
Definition set_pagesz (v : Z) (x : pd_t) : pd_t :=
  Pd (pd_id x) (elf_phdrs x) (num_elf_phdrs x) (cspace x) (allocman_cspace x) (notification x)
    (badged_notification x) (badged_irq_ntfn x) (bound_irq x) (cspace_size x) (pd_name x)
    (cnode_guard x) (pd_vka x) (hold_registry x) (linked_registry x) (shared_data_mo_id x)
    (shared_data x) (shared x) (shared_data_in_PD x) (exit_code x) (deleting x) (to_delete x)
    (deletion_depth x) (sysinfo x) v (elf_phdr_array x).
Definition set_elf_phdr_array (v : list Elf_Phdr) (x : pd_t) : pd_t :=
  Pd (pd_id x) (elf_phdrs x) (num_elf_phdrs x) (cspace x) (allocman_cspace x) (notification x)
    (badged_notification x) (badged_irq_ntfn x) (bound_irq x) (cspace_size x) (pd_name x)
    (cnode_guard x) (pd_vka x) (hold_registry x) (linked_registry x) (shared_data_mo_id x)
    (shared_data x) (shared x) (shared_data_in_PD x) (exit_code x) (deleting x) (to_delete x)
    (deletion_depth x) (sysinfo x) (pagesz x) v.

(** pd_work_entry_t *)
Record pd_work_entry_t := WorkEntry {
  work_res_id : gpi_res_id_t;
  client_pd_id : Z;
  is_critical : bool
}.

(** PdWorkAction of the RPC definitions *)
Definition PdWorkAction_EXTRACT : nat := 0.
Definition PdWorkAction_SEND : nat := 1.
Definition PdWorkAction_FREE : nat := 2.
Definition PdWorkAction_DESTROY : nat := 3.
Definition PdWorkAction_MAX : nat := 4.
Definition PdWorkAction_NO_WORK : nat := 5.

(** pd_component_registry_entry_t; a work list is a FIFO queue (see LinkedList), or a NULL pointer *)
Record pd_entry_t := PdEntry {
  pd : pd_t;
  pending_work : list (option (list pd_work_entry_t))
}.
Definition set_pd (v : pd_t) (x : pd_entry_t) : pd_entry_t :=
  PdEntry v (pending_work x).
Definition set_pending_work (v : list (option (list pd_work_entry_t))) (x : pd_entry_t) : pd_entry_t :=
  PdEntry (pd x) v.

(** what calloc leaves in a registry entry *)
Definition registry_zero {A} : registry A CB := Registry [] 0 0 None 0.
Definition mo_zero : mo_t := Mo 0 None None None 0 0.
Definition ads_zero : ads_t := Ads 0 0 0 0 registry_zero registry_zero.
Definition cpu_zero : cpu_t := Cpu 0 0 0 0 0 0 0 0 0 0 0 0.
Definition ep_zero : ep_t := Ep 0 0.
Definition res_space_zero : res_space_t := ResSpace 0 0 0 [] 0 false false false 0 false.
Definition pd_zero : pd_t :=
  Pd 0 0 0 0 0 0 0 0 0 0 [] 0 0 registry_zero registry_zero 0 0 shared_zero 0 0 false false 0 0 0 [].
Definition pd_entry_zero : pd_entry_t := PdEntry pd_zero (repeat None PdWorkAction_MAX).

(** ** model_exporting.h: the graph that an extraction builds *)
Definition CSV_MAX_STRING_SIZE : nat := 100.
Definition GPI_NODE_TYPE_PD : Z := 0.
Definition GPI_NODE_TYPE_RESOURCE : Z := 1.
Definition GPI_NODE_TYPE_SPACE : Z := 2.
Definition GPI_EDGE_TYPE_SUBSET : Z := 0.
Definition GPI_EDGE_TYPE_MAP : Z := 1.
Definition GPI_EDGE_TYPE_REQUEST : Z := 2.
Definition GPI_EDGE_TYPE_HOLD : Z := 3.

(** gpi_model_node_t; the strings are arrays of [CSV_MAX_STRING_SIZE] characters *)
Record gpi_model_node_t := ModelNode {
  nd_type : Z;
  nd_id : list Z;
  nd_data : list Z;
  nd_data2 : list Z;
  nd_extracted : bool
}.
Definition set_nd_data (v : list Z) (x : gpi_model_node_t) : gpi_model_node_t :=
  ModelNode (nd_type x) (nd_id x) v (nd_data2 x) (nd_extracted x).
Definition set_nd_data2 (v : list Z) (x : gpi_model_node_t) : gpi_model_node_t :=
  ModelNode (nd_type x) (nd_id x) (nd_data x) v (nd_extracted x).
Definition set_nd_extracted (v : bool) (x : gpi_model_node_t) : gpi_model_node_t :=
  ModelNode (nd_type x) (nd_id x) (nd_data x) (nd_data2 x) v.

(** gpi_model_edge_key_t: all that an edge holds *)
Record gpi_model_edge_key_t := EdgeKey {
  ek_type : Z;
  ek_req_type : Z;
  ek_from : list Z;
  ek_to : list Z
}.
#[export] Instance gpi_model_edge_key_eq_dec : EqDecision gpi_model_edge_key_t.
Proof. solve_decision. Defined.

(** gpi_model_state_component_t: the tag and the member of the union *)
Inductive gpi_model_state_component_t :=
| GPI_MODEL_NODE (n : gpi_model_node_t)
| GPI_MODEL_EDGE (k : gpi_model_edge_key_t)
| NO_COMPONENT.                              (* memory that holds neither *)

(** model_state_t: [ms_nodes] and [ms_edges] are the chains of the two hash tables, of
    addresses in [ms_mem].  With [ms_free = Some rest] the components are in a block:
    [ms_mem] is its part from [mem_start] to [mem_ptr], and [rest] bytes of it are left
    from [mem_ptr] to [mem_end].  With [None], [mem_start] is NULL: every component has
    a block from calloc, and [ms_mem] lists the blocks *)
Record model_state_t := ModelState {
  ms_nodes : list nat;
  ms_edges : list nat;
  ms_mem : list gpi_model_state_component_t;
  ms_free : option Z
}.

(** ** resource_component_context_t *)
Record rcc (A : Type) := Rcc {
  resource_type : Z;
  space_id : Z;
  rc_registry : registry A CB;
  pool : Z;
  server_ep : Z
}.
Arguments Rcc {A}. Arguments resource_type {A}. Arguments space_id {A}.
Arguments rc_registry {A}. Arguments pool {A}. Arguments server_ep {A}.
Definition set_rc_registry {A} (r : registry A CB) (c : rcc A) : rcc A :=
  Rcc (resource_type c) (space_id c) r (pool c) (server_ep c).
Definition set_pool {A} (v : Z) (c : rcc A) : rcc A :=
  Rcc (resource_type c) (space_id c) (rc_registry c) v (server_ep c).
Definition rcc_zero {A} : rcc A := Rcc 0 0 registry_zero 0 0.

(** ** Calls to code outside the repository *)
Inductive extfn :=
(* stdlib *)
| Calloc | Free
(* vka and the seL4 cnode operations *)
| VkaCspaceAlloc | VkaCspaceFree | VkaCnodeMint | VkaCnodeCopy | VkaCnodeMove | VkaCnodeRevoke
| VkaCnodeDelete | VkaAllocFrame | VkaAllocFrameAt | VkaObjectPaddr | VkaFreeObject
| VkaAllocEndpoint | VkaAllocNotification | VkaAllocTcb | VkaAllocCnode | VkaAllocVcpu
| VkaAllocVspaceRoot | VkaAllocUntyped
(* sel4utils vspaces *)
| ReserveRangeAligned | ReserveRangeAt | FreeReservation | SetReservationType | MapPages | UnmapPages
| GetVspace | VspaceTearDown | VspaceGetCap | VspaceGetRoot | StackWrite | StackWriteConstant
| StackCopyArgs | PageUnify
(* kernel objects *)
| Signal | Send | SaveCaller | AsidAssign | MakePool | TcbResume | TcbSuspend | TcbConfigure
| TcbSetPriority | TcbBindNotification | TcbSetTLSBase | TcbReadRegisters | TcbWriteRegisters
| TcbGetAffinity | VcpuSetTCB | VcpuInjectIRQ | VcpuAckVPPI | VcpuReadRegs | InitContext | InitContextTls
| InitContextGuest | SetArg1 | GetCapPaddr | IrqHandlerClear | IrqHandlerSetNotification | CopyIrqCap
| CspaceCreate | AttachCspace | BootstrapAllocman | MakeVka | MintObject | ConfigureThread | StartThread
(* threads and messages *)
| Recv | Call | MutexLock | MutexUnlock | PbDecode | PbEncode | ApiReply | SetReceivePath.

(** the function and its arguments *)
Definition xcall : Type := extfn * list Z.

(** gpi_server_context_t, with the addresses handed out by calloc and the log of external calls, last one first; [gen_irqs] pairs interrupt numbers with handler slots *)
Record server := Server {
  ads_component : rcc ads_t;
  mo_component : rcc mo_t;
  cpu_component : rcc cpu_t;
  pd_component : rcc pd_entry_t;
  resspc_component : rcc res_space_t;
  ep_component : rcc ep_t;
  resource_types : registry (list Z) CB;
  server_ep_obj : Z;
  rt_pd_id : Z;
  rt_ads_id : Z;
  pending_extraction : bool;
  model_extraction_reply : Z;
  model_state : option model_state_t;
  model_extraction_n_missing : Z;
  starting_termination : bool;
  pending_termination : bool;
  pd_termination_reply : Z;
  pd_termination_n_missing : Z;
  pending_send_resource : bool;
  send_resource_reply : Z;
  test_proc_id : Z;
  gen_irqs : list (Z * Z);
  next_addr : nat;
  log : list xcall
}.
Definition set_ads_component (v : rcc ads_t) (x : server) : server :=
  Server v (mo_component x) (cpu_component x) (pd_component x) (resspc_component x) (ep_component x)
    (resource_types x) (server_ep_obj x) (rt_pd_id x) (rt_ads_id x) (pending_extraction x)
    (model_extraction_reply x) (model_state x) (model_extraction_n_missing x)
    (starting_termination x) (pending_termination x) (pd_termination_reply x)
    (pd_termination_n_missing x) (pending_send_resource x) (send_resource_reply x) (test_proc_id x)
    (gen_irqs x) (next_addr x) (log x).
Definition set_mo_component (v : rcc mo_t) (x : server) : server :=
  Server (ads_component x) v (cpu_component x) (pd_component x) (resspc_component x)
    (ep_component x) (resource_types x) (server_ep_obj x) (rt_pd_id x) (rt_ads_id x)
    (pending_extraction x) (model_extraction_reply x) (model_state x) (model_extraction_n_missing x)
    (starting_termination x) (pending_termination x) (pd_termination_reply x)
    (pd_termination_n_missing x) (pending_send_resource x) (send_resource_reply x) (test_proc_id x)
    (gen_irqs x) (next_addr x) (log x).
Definition set_cpu_component (v : rcc cpu_t) (x : server) : server :=
  Server (ads_component x) (mo_component x) v (pd_component x) (resspc_component x) (ep_component x)
    (resource_types x) (server_ep_obj x) (rt_pd_id x) (rt_ads_id x) (pending_extraction x)
    (model_extraction_reply x) (model_state x) (model_extraction_n_missing x)
    (starting_termination x) (pending_termination x) (pd_termination_reply x)
    (pd_termination_n_missing x) (pending_send_resource x) (send_resource_reply x) (test_proc_id x)
    (gen_irqs x) (next_addr x) (log x).
Definition set_pd_component (v : rcc pd_entry_t) (x : server) : server :=
  Server (ads_component x) (mo_component x) (cpu_component x) v (resspc_component x)
    (ep_component x) (resource_types x) (server_ep_obj x) (rt_pd_id x) (rt_ads_id x)
    (pending_extraction x) (model_extraction_reply x) (model_state x) (model_extraction_n_missing x)
    (starting_termination x) (pending_termination x) (pd_termination_reply x)
    (pd_termination_n_missing x) (pending_send_resource x) (send_resource_reply x) (test_proc_id x)
    (gen_irqs x) (next_addr x) (log x).
Definition set_resspc_component (v : rcc res_space_t) (x : server) : server :=
  Server (ads_component x) (mo_component x) (cpu_component x) (pd_component x) v (ep_component x)
    (resource_types x) (server_ep_obj x) (rt_pd_id x) (rt_ads_id x) (pending_extraction x)
    (model_extraction_reply x) (model_state x) (model_extraction_n_missing x)
    (starting_termination x) (pending_termination x) (pd_termination_reply x)
    (pd_termination_n_missing x) (pending_send_resource x) (send_resource_reply x) (test_proc_id x)
    (gen_irqs x) (next_addr x) (log x).
Definition set_ep_component (v : rcc ep_t) (x : server) : server :=
  Server (ads_component x) (mo_component x) (cpu_component x) (pd_component x) (resspc_component x)
    v (resource_types x) (server_ep_obj x) (rt_pd_id x) (rt_ads_id x) (pending_extraction x)
    (model_extraction_reply x) (model_state x) (model_extraction_n_missing x)
    (starting_termination x) (pending_termination x) (pd_termination_reply x)
    (pd_termination_n_missing x) (pending_send_resource x) (send_resource_reply x) (test_proc_id x)
    (gen_irqs x) (next_addr x) (log x).
Definition set_resource_types (v : registry (list Z) CB) (x : server) : server :=
  Server (ads_component x) (mo_component x) (cpu_component x) (pd_component x) (resspc_component x)
    (ep_component x) v (server_ep_obj x) (rt_pd_id x) (rt_ads_id x) (pending_extraction x)
    (model_extraction_reply x) (model_state x) (model_extraction_n_missing x)
    (starting_termination x) (pending_termination x) (pd_termination_reply x)
    (pd_termination_n_missing x) (pending_send_resource x) (send_resource_reply x) (test_proc_id x)
    (gen_irqs x) (next_addr x) (log x).
Definition set_server_ep_obj (v : Z) (x : server) : server :=
  Server (ads_component x) (mo_component x) (cpu_component x) (pd_component x) (resspc_component x)
    (ep_component x) (resource_types x) v (rt_pd_id x) (rt_ads_id x) (pending_extraction x)
    (model_extraction_reply x) (model_state x) (model_extraction_n_missing x)
    (starting_termination x) (pending_termination x) (pd_termination_reply x)
    (pd_termination_n_missing x) (pending_send_resource x) (send_resource_reply x) (test_proc_id x)
    (gen_irqs x) (next_addr x) (log x).
Definition set_rt_pd_id (v : Z) (x : server) : server :=
  Server (ads_component x) (mo_component x) (cpu_component x) (pd_component x) (resspc_component x)
    (ep_component x) (resource_types x) (server_ep_obj x) v (rt_ads_id x) (pending_extraction x)
    (model_extraction_reply x) (model_state x) (model_extraction_n_missing x)
    (starting_termination x) (pending_termination x) (pd_termination_reply x)
    (pd_termination_n_missing x) (pending_send_resource x) (send_resource_reply x) (test_proc_id x)
    (gen_irqs x) (next_addr x) (log x).
Definition set_rt_ads_id (v : Z) (x : server) : server :=
  Server (ads_component x) (mo_component x) (cpu_component x) (pd_component x) (resspc_component x)
    (ep_component x) (resource_types x) (server_ep_obj x) (rt_pd_id x) v (pending_extraction x)
    (model_extraction_reply x) (model_state x) (model_extraction_n_missing x)
    (starting_termination x) (pending_termination x) (pd_termination_reply x)
    (pd_termination_n_missing x) (pending_send_resource x) (send_resource_reply x) (test_proc_id x)
    (gen_irqs x) (next_addr x) (log x).
Definition set_pending_extraction (v : bool) (x : server) : server :=
  Server (ads_component x) (mo_component x) (cpu_component x) (pd_component x) (resspc_component x)
    (ep_component x) (resource_types x) (server_ep_obj x) (rt_pd_id x) (rt_ads_id x) v
    (model_extraction_reply x) (model_state x) (model_extraction_n_missing x)
    (starting_termination x) (pending_termination x) (pd_termination_reply x)
    (pd_termination_n_missing x) (pending_send_resource x) (send_resource_reply x) (test_proc_id x)
    (gen_irqs x) (next_addr x) (log x).
Definition set_model_extraction_reply (v : Z) (x : server) : server :=
  Server (ads_component x) (mo_component x) (cpu_component x) (pd_component x) (resspc_component x)
    (ep_component x) (resource_types x) (server_ep_obj x) (rt_pd_id x) (rt_ads_id x)
    (pending_extraction x) v (model_state x) (model_extraction_n_missing x) (starting_termination x)
    (pending_termination x) (pd_termination_reply x) (pd_termination_n_missing x)
    (pending_send_resource x) (send_resource_reply x) (test_proc_id x) (gen_irqs x) (next_addr x)
    (log x).
Definition set_model_extraction_n_missing (v : Z) (x : server) : server :=
  Server (ads_component x) (mo_component x) (cpu_component x) (pd_component x) (resspc_component x)
    (ep_component x) (resource_types x) (server_ep_obj x) (rt_pd_id x) (rt_ads_id x)
    (pending_extraction x) (model_extraction_reply x) (model_state x) v (starting_termination x)
    (pending_termination x) (pd_termination_reply x) (pd_termination_n_missing x)
    (pending_send_resource x) (send_resource_reply x) (test_proc_id x) (gen_irqs x) (next_addr x)
    (log x).
Definition set_model_state (v : option model_state_t) (x : server) : server :=
  Server (ads_component x) (mo_component x) (cpu_component x) (pd_component x) (resspc_component x)
    (ep_component x) (resource_types x) (server_ep_obj x) (rt_pd_id x) (rt_ads_id x)
    (pending_extraction x) (model_extraction_reply x) v (model_extraction_n_missing x)
    (starting_termination x) (pending_termination x) (pd_termination_reply x)
    (pd_termination_n_missing x) (pending_send_resource x) (send_resource_reply x) (test_proc_id x)
    (gen_irqs x) (next_addr x) (log x).
Definition set_starting_termination (v : bool) (x : server) : server :=
  Server (ads_component x) (mo_component x) (cpu_component x) (pd_component x) (resspc_component x)
    (ep_component x) (resource_types x) (server_ep_obj x) (rt_pd_id x) (rt_ads_id x)
    (pending_extraction x) (model_extraction_reply x) (model_state x) (model_extraction_n_missing x)
    v (pending_termination x) (pd_termination_reply x) (pd_termination_n_missing x)
    (pending_send_resource x) (send_resource_reply x) (test_proc_id x) (gen_irqs x) (next_addr x)
    (log x).
Definition set_pending_termination (v : bool) (x : server) : server :=
  Server (ads_component x) (mo_component x) (cpu_component x) (pd_component x) (resspc_component x)
    (ep_component x) (resource_types x) (server_ep_obj x) (rt_pd_id x) (rt_ads_id x)
    (pending_extraction x) (model_extraction_reply x) (model_state x) (model_extraction_n_missing x)
    (starting_termination x) v (pd_termination_reply x) (pd_termination_n_missing x)
    (pending_send_resource x) (send_resource_reply x) (test_proc_id x) (gen_irqs x) (next_addr x)
    (log x).
Definition set_pd_termination_reply (v : Z) (x : server) : server :=
  Server (ads_component x) (mo_component x) (cpu_component x) (pd_component x) (resspc_component x)
    (ep_component x) (resource_types x) (server_ep_obj x) (rt_pd_id x) (rt_ads_id x)
    (pending_extraction x) (model_extraction_reply x) (model_state x) (model_extraction_n_missing x)
    (starting_termination x) (pending_termination x) v (pd_termination_n_missing x)
    (pending_send_resource x) (send_resource_reply x) (test_proc_id x) (gen_irqs x) (next_addr x)
    (log x).
Definition set_pd_termination_n_missing (v : Z) (x : server) : server :=
  Server (ads_component x) (mo_component x) (cpu_component x) (pd_component x) (resspc_component x)
    (ep_component x) (resource_types x) (server_ep_obj x) (rt_pd_id x) (rt_ads_id x)
    (pending_extraction x) (model_extraction_reply x) (model_state x) (model_extraction_n_missing x)
    (starting_termination x) (pending_termination x) (pd_termination_reply x) v
    (pending_send_resource x) (send_resource_reply x) (test_proc_id x) (gen_irqs x) (next_addr x)
    (log x).
Definition set_pending_send_resource (v : bool) (x : server) : server :=
  Server (ads_component x) (mo_component x) (cpu_component x) (pd_component x) (resspc_component x)
    (ep_component x) (resource_types x) (server_ep_obj x) (rt_pd_id x) (rt_ads_id x)
    (pending_extraction x) (model_extraction_reply x) (model_state x) (model_extraction_n_missing x)
    (starting_termination x) (pending_termination x) (pd_termination_reply x)
    (pd_termination_n_missing x) v (send_resource_reply x) (test_proc_id x) (gen_irqs x)
    (next_addr x) (log x).
Definition set_send_resource_reply (v : Z) (x : server) : server :=
  Server (ads_component x) (mo_component x) (cpu_component x) (pd_component x) (resspc_component x)
    (ep_component x) (resource_types x) (server_ep_obj x) (rt_pd_id x) (rt_ads_id x)
    (pending_extraction x) (model_extraction_reply x) (model_state x) (model_extraction_n_missing x)
    (starting_termination x) (pending_termination x) (pd_termination_reply x)
    (pd_termination_n_missing x) (pending_send_resource x) v (test_proc_id x) (gen_irqs x)
    (next_addr x) (log x).
Definition set_test_proc_id (v : Z) (x : server) : server :=
  Server (ads_component x) (mo_component x) (cpu_component x) (pd_component x) (resspc_component x)
    (ep_component x) (resource_types x) (server_ep_obj x) (rt_pd_id x) (rt_ads_id x)
    (pending_extraction x) (model_extraction_reply x) (model_state x) (model_extraction_n_missing x)
    (starting_termination x) (pending_termination x) (pd_termination_reply x)
    (pd_termination_n_missing x) (pending_send_resource x) (send_resource_reply x) v (gen_irqs x)
    (next_addr x) (log x).
Definition set_gen_irqs (v : list (Z * Z)) (x : server) : server :=
  Server (ads_component x) (mo_component x) (cpu_component x) (pd_component x) (resspc_component x)
    (ep_component x) (resource_types x) (server_ep_obj x) (rt_pd_id x) (rt_ads_id x)
    (pending_extraction x) (model_extraction_reply x) (model_state x) (model_extraction_n_missing x)
    (starting_termination x) (pending_termination x) (pd_termination_reply x)
    (pd_termination_n_missing x) (pending_send_resource x) (send_resource_reply x) (test_proc_id x)
    v (next_addr x) (log x).
Definition set_next_addr (v : nat) (x : server) : server :=
  Server (ads_component x) (mo_component x) (cpu_component x) (pd_component x) (resspc_component x)
    (ep_component x) (resource_types x) (server_ep_obj x) (rt_pd_id x) (rt_ads_id x)
    (pending_extraction x) (model_extraction_reply x) (model_state x) (model_extraction_n_missing x)
    (starting_termination x) (pending_termination x) (pd_termination_reply x)
    (pd_termination_n_missing x) (pending_send_resource x) (send_resource_reply x) (test_proc_id x)
    (gen_irqs x) v (log x).
Definition set_log (v : list xcall) (x : server) : server :=
  Server (ads_component x) (mo_component x) (cpu_component x) (pd_component x) (resspc_component x)
    (ep_component x) (resource_types x) (server_ep_obj x) (rt_pd_id x) (rt_ads_id x)
    (pending_extraction x) (model_extraction_reply x) (model_state x) (model_extraction_n_missing x)
    (starting_termination x) (pending_termination x) (pd_termination_reply x)
    (pd_termination_n_missing x) (pending_send_resource x) (send_resource_reply x) (test_proc_id x)
    (gen_irqs x) (next_addr x) v.

Definition server_zero : server :=
  Server rcc_zero rcc_zero rcc_zero rcc_zero rcc_zero rcc_zero registry_zero 0 0 0 false 0 None
    0 false false 0 0 false 0 0 [] 2 [].

(** vka handles: NULL is 0, the server's own allocator is 1 *)
Definition server_vka : Z := 1.

(** ** Pointers to the registries *)
Definition comp_ptr {A} (get : server -> rcc A) (put : rcc A -> server -> server)
  : regptr server A CB :=
  RegPtr (fun s => Some (rc_registry (get s)))
         (fun r s => put (set_rc_registry r (get s)) s).
Definition ads_p := comp_ptr ads_component set_ads_component.
Definition mo_p := comp_ptr mo_component set_mo_component.
Definition cpu_p := comp_ptr cpu_component set_cpu_component.
Definition pd_p := comp_ptr pd_component set_pd_component.
Definition resspc_p := comp_ptr resspc_component set_resspc_component.
Definition ep_p := comp_ptr ep_component set_ep_component.
Definition types_p : regptr server (list Z) CB :=
  RegPtr (fun s => Some (resource_types s)) set_resource_types.

(** a registry inside the payload of the node at an address *)
Definition nested_ptr {A B} (outer : regptr server A CB) (a : nat)
    (get : A -> registry B CB) (put : registry B CB -> A -> A) : regptr server B CB :=
  RegPtr
    (fun s => r ← rget outer s; n ← node_at a (head r); Some (get (payload n)))
    (fun r' s => match rget outer s with
                 | Some r => rput outer (with_head (hash_upd (head r) a
                               (fun n => with_payload (put r' (payload n)) n)) r) s
                 | None => s
                 end).
Definition on_pd (f : pd_t -> pd_t) (e : pd_entry_t) : pd_entry_t := set_pd (f (pd e)) e.
Definition on_shared (f : osm_pd_shared_data_t -> osm_pd_shared_data_t) (p : pd_t) : pd_t :=
  set_shared (f (shared p)) p.
Definition hold_p (a : nat) : regptr server pd_hold_node_t CB :=
  nested_ptr pd_p a (fun e => hold_registry (pd e)) (fun r => on_pd (set_hold_registry r)).
Definition linked_p (a : nat) : regptr server pd_link_node_t CB :=
  nested_ptr pd_p a (fun e => linked_registry (pd e)) (fun r => on_pd (set_linked_registry r)).
Definition attach_p (a : nat) : regptr server attach_node_t CB :=
  nested_ptr ads_p a attach_registry set_attach_registry.
Definition attach_map_p (a : nat) : regptr server attach_node_map_t CB :=
  nested_ptr ads_p a attach_id_to_vaddr_map set_attach_id_to_vaddr_map.

(** ** Accessing objects through their pointers *)
Section Access.
Context {A : Type} (p : regptr server A CB).

Definition obj_load (a : nat) : M server A := n ← node_load p a; mret (payload n).
Definition obj_store (a : nat) (f : A -> A) : M server unit :=
  node_store p a (fun n => with_payload (f (payload n)) n).
End Access.

Definition pd_load (a : nat) : M server pd_t := e ← obj_load pd_p a; mret (pd e).
Definition pd_store (a : nat) (f : pd_t -> pd_t) : M server unit := obj_store pd_p a (on_pd f).

(** [pd->shared_data->...] : NULL until the shared data is attached *)
Definition shared_load (a : nat) : M server osm_pd_shared_data_t :=
  p ← pd_load a;
  if shared_data p =? 0 then crash NullDeref else mret (shared p).
Definition shared_store (a : nat) (f : osm_pd_shared_data_t -> osm_pd_shared_data_t)
  : M server unit :=
  _ ← shared_load a; pd_store a (on_shared f).

(** ** External calls *)
Section External.
Context (sys : list xcall -> xcall -> Z * Z).

Definition ext (f : extfn) (args : list Z) : M server (Z * Z) := fun s =>
  (Ok (sys (log s) (f, args)), set_log ((f, args) :: log s) s).
(** its error code, or its value *)
Definition ext_err (f : extfn) (args : list Z) : M server Z := r ← ext f args; mret (fst r).
Definition ext_val (f : extfn) (args : list Z) : M server Z := r ← ext f args; mret (snd r).
Definition ext_ (f : extfn) (args : list Z) : M server unit := _ ← ext f args; mret tt.

(** calloc: a fresh address, or NULL when the allocator answers with an error *)
Definition calloc : M server (option nat) :=
  e ← ext_err Calloc [];
  s ← get_state;
  if e =? 0 then modify (set_next_addr (S (next_addr s))) ;; mret (Some (next_addr s))
  else mret None.

(** calloc of a struct known only by its address: 0 is NULL *)
Definition calloc_handle : M server Z :=
  a ← calloc; mret (match a with Some a => Z.of_nat a | None => 0 end).
End External.

(** [error = e; SERVER_GOTO_IF_ERR(error, ...); k; err_goto: return error] *)
Definition try_ {S} (e : M S Z) (k : M S Z) : M S Z :=
  err ← e; if err =? 0 then k else mret err.

(** ** The pointers are lawful *)
Section Lawful.

Lemma node_at_upd {A} (l : list (node A)) a b (f : node A -> node A) :
  (forall n, n_addr (f n) = n_addr n) ->
  node_at b (hash_upd l a f) =
    (fun n => if Nat.eqb (n_addr n) a then f n else n) <$> node_at b l.
Proof.
  intros Hf. unfold node_at, hash_upd. induction l as [|n l IH]; [done|]. csimpl.
  replace (n_addr (if Nat.eqb (n_addr n) a then f n else n)) with (n_addr n)
    by (by destruct (Nat.eqb _ _)).
  by destruct (Nat.eqb (n_addr n) b).
Qed.

Lemma node_at_upd_same {A} (l : list (node A)) a (f : node A -> node A) :
  (forall n, n_addr (f n) = n_addr n) -> node_at a (hash_upd l a f) = f <$> node_at a l.
Proof.
  intros Hf. rewrite node_at_upd by done. destruct (node_at a l) as [n|] eqn:E; [|done].
  apply node_at_Some in E as [_ <-]. csimpl. by rewrite Nat.eqb_refl.
Qed.

Lemma node_at_upd_ne {A} (l : list (node A)) a b (f : node A -> node A) :
  (forall n, n_addr (f n) = n_addr n) -> a <> b -> node_at b (hash_upd l a f) = node_at b l.
Proof.
  intros Hf Hne. rewrite node_at_upd by done. destruct (node_at b l) as [n|] eqn:E; [|done].
  apply node_at_Some in E as [_ <-]. csimpl. destruct (Nat.eqb_spec (n_addr n) a); [congruence|done].
Qed.

Lemma hash_upd_upd {A} (l : list (node A)) a (f g : node A -> node A) :
  (forall n, n_addr (g n) = n_addr n) -> (forall n, f (g n) = f n) ->
  hash_upd (hash_upd l a g) a f = hash_upd l a f.
Proof.
  intros Hg Hfg. unfold hash_upd. rewrite <- list_fmap_compose. apply list_fmap_ext.
  intros i n _. simpl. destruct (Nat.eqb (n_addr n) a) eqn:E.
  - by rewrite Hg, E, Hfg.
  - by rewrite E.
Qed.

#[export] Instance ads_p_lawful : LawfulPtr ads_p.
Proof. by split. Qed.
#[export] Instance mo_p_lawful : LawfulPtr mo_p.
Proof. by split. Qed.
#[export] Instance cpu_p_lawful : LawfulPtr cpu_p.
Proof. by split. Qed.
#[export] Instance pd_p_lawful : LawfulPtr pd_p.
Proof. by split. Qed.
#[export] Instance resspc_p_lawful : LawfulPtr resspc_p.
Proof. by split. Qed.
#[export] Instance ep_p_lawful : LawfulPtr ep_p.
Proof. by split. Qed.
#[export] Instance types_p_lawful : LawfulPtr types_p.
Proof. by split. Qed.

Lemma nested_ptr_lawful {A B} (outer : regptr server A CB) a
    (get : A -> registry B CB) (put : registry B CB -> A -> A) :
  LawfulPtr outer -> (forall r x, get (put r x) = r) ->
  (forall r r' x, put r (put r' x) = put r x) ->
  (forall s, is_Some (rget outer s)) -> LawfulPtr (nested_ptr outer a get put).
Proof.
  intros Hout Hgp Hpp Htot. split.
  - intros r s r0. simpl. destruct (rget outer s) as [ro|] eqn:Eo; [|done]. simpl.
    destruct (node_at a (head ro)) as [n|] eqn:En; [|done]. intros _.
    rewrite (rget_rput _ _ _ Eo). simpl. rewrite node_at_upd_same by done. rewrite En. simpl.
    by rewrite Hgp.
  - intros r r' s. simpl. destruct (rget outer s) as [ro|] eqn:Eo; [|by rewrite Eo].
    rewrite (rget_rput _ _ _ Eo), rput_rput. f_equal. unfold with_head. simpl. f_equal.
    apply hash_upd_upd; [done|]. intros n. unfold with_payload. simpl. by rewrite Hpp.
Qed.

#[export] Instance hold_p_lawful a : LawfulPtr (hold_p a).
Proof. apply nested_ptr_lawful; try done; apply _. Qed.
#[export] Instance linked_p_lawful a : LawfulPtr (linked_p a).
Proof. apply nested_ptr_lawful; try done; apply _. Qed.
#[export] Instance attach_p_lawful a : LawfulPtr (attach_p a).
Proof. apply nested_ptr_lawful; try done; apply _. Qed.
#[export] Instance attach_map_p_lawful a : LawfulPtr (attach_map_p a).
Proof. apply nested_ptr_lawful; try done; apply _. Qed.

(** reading and writing an object that is in its registry *)
Lemma obj_load_run {A} (p : regptr server A CB) a r n s :
  rget p s = Some r -> node_at a (head r) = Some n -> obj_load p a s = (Ok (payload n), s).
Proof.
  intros Hr Hn. unfold obj_load. erewrite bind_ok; [reflexivity|].
  unfold node_load. erewrite bind_ok by (by unfold reg_load; rewrite Hr). by rewrite Hn.
Qed.

Lemma obj_store_run {A} (p : regptr server A CB) a r n f s :
  rget p s = Some r -> node_at a (head r) = Some n ->
  obj_store p a f s =
    (Ok tt, rput p (with_head (hash_upd (head r) a (fun n => with_payload (f (payload n)) n)) r) s).
Proof.
  intros Hr Hn. unfold obj_store, node_store.
  erewrite bind_ok; last first.
  { unfold node_load. erewrite bind_ok by (by unfold reg_load; rewrite Hr). by rewrite Hn. }
  erewrite bind_ok by (by unfold reg_load; rewrite Hr). done.
Qed.

(** a node that is not in the registry was freed *)
Lemma obj_load_stops {A} (p : regptr server A CB) a r s :
  rget p s = Some r -> node_at a (head r) = None -> obj_load p a s = (Crash UseAfterFree, s).
Proof.
  intros Hr Hn. unfold obj_load. erewrite bind_crash; [reflexivity|].
  unfold node_load. erewrite bind_ok by (by unfold reg_load; rewrite Hr). by rewrite Hn.
Qed.
End Lawful.

(** ** Running external calls *)
Section ExternalRuns.
Context (sys : list xcall -> xcall -> Z * Z).

(** the server after an external call was made *)
Definition called (c : xcall) (s : server) : server := set_log (c :: log s) s.
Definition after_calloc (s : server) : server :=
  set_next_addr (S (next_addr s)) (called (Calloc, []) s).

Lemma ext_run f args s : ext sys f args s = (Ok (sys (log s) (f, args)), called (f, args) s).
Proof. done. Qed.

Lemma ext_err_run f args s :
  ext_err sys f args s = (Ok (fst (sys (log s) (f, args))), called (f, args) s).
Proof. done. Qed.

Lemma calloc_run s : fst (sys (log s) (Calloc, [])) = 0 ->
  calloc sys s = (Ok (Some (next_addr s)), after_calloc s).
Proof.
  intros Hok. unfold calloc. rewrite (bind_ok _ _ _ _ _ (ext_err_run _ _ s)).
  erewrite (bind_ok get_state) by reflexivity. by rewrite Hok.
Qed.

Lemma calloc_fails s : fst (sys (log s) (Calloc, [])) <> 0 ->
  calloc sys s = (Ok None, called (Calloc, []) s).
Proof.
  intros Hok. unfold calloc. rewrite (bind_ok _ _ _ _ _ (ext_err_run _ _ s)).
  erewrite (bind_ok get_state) by reflexivity. by rewrite (proj2 (Z.eqb_neq _ _) Hok).
Qed.
End ExternalRuns.

(** ** The entry of a protection domain *)

(** [e] is the entry of the PD at address [a] *)
Definition pd_at (s : server) (a : nat) (e : pd_entry_t) : Prop :=
  exists n, node_at a (head (rc_registry (pd_component s))) = Some n /\ payload n = e.

(** the server after the entry at [a] was changed by [f] *)
Definition upd_entry (a : nat) (f : pd_entry_t -> pd_entry_t) (s : server) : server :=
  rput pd_p (with_head (hash_upd (head (rc_registry (pd_component s))) a
               (fun n => with_payload (f (payload n)) n)) (rc_registry (pd_component s))) s.

Section Entries.
Implicit Types (s : server) (e : pd_entry_t) (p : pd_t) (sh : osm_pd_shared_data_t).

Lemma head_upd_entry s a f : head (rc_registry (pd_component (upd_entry a f s))) =
  hash_upd (head (rc_registry (pd_component s))) a (fun n => with_payload (f (payload n)) n).
Proof. by destruct s. Qed.

Lemma head_hold_rput s a r n : node_at a (head (rc_registry (pd_component s))) = Some n ->
  head (rc_registry (pd_component (rput (hold_p a) r s))) =
  hash_upd (head (rc_registry (pd_component s))) a
    (fun n => with_payload (on_pd (set_hold_registry r) (payload n)) n).
Proof. by destruct s. Qed.

Lemma pd_at_upd_same s a e f : pd_at s a e -> pd_at (upd_entry a f s) a (f e).
Proof.
  intros (n & Hn & <-). exists (with_payload (f (payload n)) n). split; [|done].
  by rewrite head_upd_entry, node_at_upd_same, Hn.
Qed.

Lemma pd_at_upd_other s a b e f : pd_at s b e -> a <> b -> pd_at (upd_entry a f s) b e.
Proof.
  intros (n & Hn & <-) Hne. exists n. split; [|done].
  by rewrite head_upd_entry, node_at_upd_ne.
Qed.

Lemma pd_at_called s c a e : pd_at s a e -> pd_at (called c s) a e.
Proof. destruct s. done. Qed.
Lemma pd_at_calloc s a e : pd_at s a e -> pd_at (after_calloc s) a e.
Proof. destruct s. done. Qed.

Lemma pd_at_fun s a e e' : pd_at s a e -> pd_at s a e' -> e = e'.
Proof. intros (n & Hn & <-) (n' & Hn' & <-). congruence. Qed.

Lemma log_upd_entry s a f : log (upd_entry a f s) = log s.
Proof. by destruct s. Qed.

Lemma entry_load_run s a e : pd_at s a e -> obj_load pd_p a s = (Ok e, s).
Proof. intros (n & Hn & <-). by apply (obj_load_run pd_p a (rc_registry (pd_component s))). Qed.

Lemma entry_store_run s a e f : pd_at s a e -> obj_store pd_p a f s = (Ok tt, upd_entry a f s).
Proof.
  intros (n & Hn & <-).
  by apply (obj_store_run pd_p a (rc_registry (pd_component s)) n).
Qed.

Lemma pd_load_run s a e : pd_at s a e -> pd_load a s = (Ok (pd e), s).
Proof. intros He. unfold pd_load. by rewrite (bind_ok _ _ _ _ _ (entry_load_run s a e He)). Qed.

Lemma pd_store_run s a e f : pd_at s a e -> pd_store a f s = (Ok tt, upd_entry a (on_pd f) s).
Proof. apply entry_store_run. Qed.

(** the PD has its shared data attached *)
Definition attached e : Prop := shared_data (pd e) <> 0.

Lemma shared_load_run s a e : pd_at s a e -> attached e -> shared_load a s = (Ok (shared (pd e)), s).
Proof.
  intros He Ha. unfold shared_load. rewrite (bind_ok _ _ _ _ _ (pd_load_run s a e He)).
  by rewrite (proj2 (Z.eqb_neq _ _) Ha).
Qed.

Lemma shared_load_null s a e : pd_at s a e -> shared_data (pd e) = 0 ->
  shared_load a s = (Crash NullDeref, s).
Proof.
  intros He Ha. unfold shared_load. rewrite (bind_ok _ _ _ _ _ (pd_load_run s a e He)).
  by rewrite Ha.
Qed.

Lemma shared_store_run s a e f : pd_at s a e -> attached e ->
  shared_store a f s = (Ok tt, upd_entry a (on_pd (on_shared f)) s).
Proof.
  intros He Ha. unfold shared_store.
  rewrite (bind_ok _ _ _ _ _ (shared_load_run s a e He Ha)). by apply (pd_store_run s a e).
Qed.

Lemma hold_rget s a e : pd_at s a e -> rget (hold_p a) s = Some (hold_registry (pd e)).
Proof.
  intros (n & Hn & <-).
  change (rget _ s) with (n ← node_at a (head (rc_registry (pd_component s)));
                          Some (hold_registry (pd (payload n)))).
  by rewrite Hn.
Qed.

Lemma linked_rget s a e : pd_at s a e -> rget (linked_p a) s = Some (linked_registry (pd e)).
Proof.
  intros (n & Hn & <-).
  change (rget _ s) with (n ← node_at a (head (rc_registry (pd_component s)));
                          Some (linked_registry (pd (payload n)))).
  by rewrite Hn.
Qed.

Lemma hold_rput s a e r : pd_at s a e -> pd_at (rput (hold_p a) r s) a (on_pd (set_hold_registry r) e).
Proof.
  intros (n & Hn & <-). exists (with_payload (on_pd (set_hold_registry r) (payload n)) n).
  split; [|done]. by rewrite (head_hold_rput s a r n Hn), node_at_upd_same, Hn.
Qed.
End Entries.
