(* ===== verification/ResourceTypes.v ===== *)
(** * Resource types

    Model of [libsel4gpi/src/resource_types.c], on the registry [resource_types]
    of the server: a type is a name of at most 16 characters, kept in an array
    that [strncpy] fills, and its code is the registry's identifier.  Comparing a
    name with an array that has no terminator leaves the array. *)

From stdpp Require Import base numbers list gmap.
From S2P Require Import Prelude Strings Badge Registry State.

(** ** resource_types.c *)
Section Types.
Context `{UTHash} (sys : list xcall -> xcall -> Z * Z).
Context (run_cb : CB -> nat -> nat -> M server unit).

Definition str (l : list Z) : list Z := l.

(** calloc is not checked: writing to a NULL entry is a fault *)
Definition insert_resource_type (id : Z) (name : list Z) : M server unit :=
  entry ← calloc sys;
  entry ← deref entry;
  resource_registry_insert types_p
    (Node entry id 0 (strncpy name RESOURCE_TYPE_MAX_STRING_SIZE)).

(** "NONE", "ADS", "VMR", "MO", "VCPU", "PCPU", "PD", "RESSPC", "EP", "UNKNOWN" *)
Definition name_NONE : list Z := [78; 79; 78; 69].
Definition name_ADS : list Z := [65; 68; 83].
Definition name_VMR : list Z := [86; 77; 82].
Definition name_MO : list Z := [77; 79].
Definition name_VCPU : list Z := [86; 67; 80; 85].
Definition name_PCPU : list Z := [80; 67; 80; 85].
Definition name_PD : list Z := [80; 68].
Definition name_RESSPC : list Z := [82; 69; 83; 83; 80; 67].
Definition name_EP : list Z := [69; 80].
Definition name_UNKNOWN : list Z := [85; 78; 75; 78; 79; 87; 78].

Definition resource_types_initialize : M server unit :=
  reg_store types_p (resource_registry_initialize None 0 BADGE_MAX_CAP_TYPE) ;;
  insert_resource_type GPICAP_TYPE_NONE name_NONE ;;
  insert_resource_type GPICAP_TYPE_ADS name_ADS ;;
  insert_resource_type GPICAP_TYPE_VMR name_VMR ;;
  insert_resource_type GPICAP_TYPE_MO name_MO ;;
  insert_resource_type GPICAP_TYPE_CPU name_VCPU ;;
  insert_resource_type GPICAP_TYPE_PCPU name_PCPU ;;
  insert_resource_type GPICAP_TYPE_PD name_PD ;;
  insert_resource_type GPICAP_TYPE_RESSPC name_RESSPC ;;
  insert_resource_type GPICAP_TYPE_EP name_EP ;;
  insert_resource_type GPICAP_TYPE_seL4 name_UNKNOWN.

Definition alloc_new_resource_type (name : list Z) : M server Z :=
  entry ← calloc sys;
  entry ← deref entry;
  resource_registry_insert_new_id types_p
    (Node entry 0 0 (strncpy name RESOURCE_TYPE_MAX_STRING_SIZE)).

(** the loop over the chain, from the first node *)
Fixpoint find_type_code (name : list Z) (l : list (node (list Z))) : result (option Z) :=
  match l with
  | [] => Ok None
  | node :: l' =>
      match strcmp_eq name (payload node) with
      | Ok true => Ok (Some (object_id node))
      | Ok false => find_type_code name l'
      | Crash f => Crash f
      | NoFuel => NoFuel
      end
  end.

Definition get_resource_type_code (name : list Z) : M server Z :=
  registry ← reg_load types_p;
  code ← lift_result (find_type_code name (head registry));
  match code with
  | Some code => mret code
  | None => alloc_new_resource_type name
  end.

(** in the root task, where [is_root] holds; an unknown code is a panic *)
Definition cap_type_to_str (cap_type : Z) : M server (list Z) :=
  reg_entry ← resource_registry_get_by_id types_p cap_type;
  match reg_entry with
  | None => crash AssertFail
  | Some a => n ← node_load types_p a; mret (payload n)
  end.
End Types.

(** ** Names that fit *)

(** a string without NUL that leaves room for the terminator *)
Definition name_ok (name : list Z) : Prop :=
  Forall (fun c => c <> 0) name /\ (length name < RESOURCE_TYPE_MAX_STRING_SIZE)%nat.

(** the stored form of some name that fits *)
Definition stored (cells : list Z) : Prop :=
  exists name, name_ok name /\ cells = strncpy name RESOURCE_TYPE_MAX_STRING_SIZE.

Section NameLemmas.

Lemma find_type_code_spec name l : name_ok name -> Forall (fun n => stored (payload n)) l ->
  find_type_code name l =
    Ok (object_id <$> List.find (fun n => bool_decide (payload n =
          strncpy name RESOURCE_TYPE_MAX_STRING_SIZE)) l).
Proof.
  intros [Hnz Hlen] Hl. induction Hl as [|n l (name' & [Hnz' Hlen'] & Hn) Hl IH]; [done|].
  simpl. rewrite Hn, strcmp_eq_strncpy by done.
  destruct (decide (name = name')) as [->|Hne].
  - by rewrite !bool_decide_eq_true_2.
  - rewrite !bool_decide_eq_false_2; [done| |done].
    intros E. by apply Hne, (strncpy_inj _ _ RESOURCE_TYPE_MAX_STRING_SIZE).
Qed.
End NameLemmas.

(** ** Properties *)
Section TypeProperties.
Context `{UTHash} (sys : list xcall -> xcall -> Z * Z).

(** what holds of the registry of types once it is initialized *)
Record types_inv (s : server) : Prop := {
  ti_wf : wf_registry (resource_types s);
  ti_stored : Forall (fun n => stored (payload n)) (head (resource_types s));
  ti_names : NoDup (payload <$> head (resource_types s));
  ti_alloc : Forall (fun n => (n_addr n < next_addr s)%nat) (head (resource_types s));
  ti_max : max_object_id (resource_types s) = BADGE_MAX_CAP_TYPE;
  ti_counter : 0 <= id_counter (resource_types s) <= BADGE_MAX_CAP_TYPE
}.

(** the code that a name is registered under *)
Definition code_of (s : server) (name : list Z) : option Z :=
  object_id <$> List.find (fun n => bool_decide (payload n =
    strncpy name RESOURCE_TYPE_MAX_STRING_SIZE)) (head (resource_types s)).

Lemma get_resource_type_code_run s name : types_inv s -> name_ok name ->
  get_resource_type_code sys name s =
    match code_of s name with
    | Some code => (Ok code, s)
    | None => alloc_new_resource_type sys name s
    end.
Proof.
  intros Hinv Hname. unfold get_resource_type_code, code_of.
  erewrite (bind_ok (reg_load types_p)) by reflexivity. simpl.
  erewrite bind_ok by (unfold lift_result; by rewrite find_type_code_spec by (done || apply Hinv)).
  by destruct (List.find _ _).
Qed.

(** codes are given in the order of insertion *)
Lemma find_snoc {A} (f : A -> bool) l x :
  List.find f (l ++ [x]) = match List.find f l with
                           | Some y => Some y
                           | None => if f x then Some x else None
                           end.
Proof. induction l as [|y l IH]; simpl; [done|]. by destruct (f y). Qed.

(** asking for the code of a type name is stable: a known name keeps its
    code, an unknown one is given a code that no other type has, and from then on
    that code is returned without any further change; the codes of all other
    names stay as they were. *)
Theorem resource_type_code_stable s name
  (Hinv : types_inv s) (Hname : name_ok name)
  (Hmem : forall l, fst (sys l (Calloc, [])) = 0)
  (Hroom : exists k, 1 <= k <= BADGE_MAX_CAP_TYPE /\ reg_abs (resource_types s) !! k = None /\
             (id_counter (resource_types s) <= 1 \/ k <> id_counter (resource_types s))) :
  exists code s', get_resource_type_code sys name s = (Ok code, s') /\
    types_inv s' /\ get_resource_type_code sys name s' = (Ok code, s') /\
    (forall name' code', code_of s name' = Some code' -> code_of s' name' = Some code') /\
    (code_of s name = None -> forall name', code_of s name' <> Some code).
Proof.
  rewrite get_resource_type_code_run by done.
  destruct (code_of s name) as [code|] eqn:Ecode.
  - exists code, s. rewrite get_resource_type_code_run, Ecode by done. done.
  - destruct Hroom as (k & Hk & Hfree & Hne). destruct Hinv as [Hwf Hst Hnm Hal Hmx Hct].
    unfold alloc_new_resource_type. rewrite (bind_ok _ _ _ _ _ (calloc_run sys s (Hmem _))).
    erewrite (bind_ok (deref _)) by reflexivity.
    set (n := Node (next_addr s) 0 0 (strncpy name RESOURCE_TYPE_MAX_STRING_SIZE)).
    destruct (insert_new_id_run types_p (resource_types s) (after_calloc s) n k)
      as (code & -> & Hcode & Hnew & Hwf' & _);
      [done|done| |rewrite Hmx; unfold BADGE_MAX_CAP_TYPE; lia|rewrite Hmx; done|by rewrite Hmx|done|].
    { intros (m & Em & Hm)%list_elem_of_fmap. apply (proj1 (Forall_forall _ _) Hal) in Hm.
      simpl in Em. lia. }
    exists code, (set_resource_types (with_new (resource_types s) n code) (after_calloc s)). split; [done|].
    assert (forall name', code_of (set_resource_types (with_new (resource_types s) n code) (after_calloc s)) name' =
      match code_of s name' with
      | Some c => Some c
      | None => if bool_decide (payload n = strncpy name' RESOURCE_TYPE_MAX_STRING_SIZE)
                then Some code else None
      end) as Hcodes.
    { intros name'. unfold code_of. simpl. unfold hash_add. rewrite find_snoc.
      destruct (List.find _ _); [done|]. simpl. by case_bool_decide. }
    assert (types_inv (set_resource_types (with_new (resource_types s) n code) (after_calloc s))) as Hinv'.
    { split; simpl; [done|..].
      - unfold hash_add. apply Forall_app. split; [done|]. apply Forall_singleton. by exists name.
      - unfold hash_add. rewrite fmap_app. apply NoDup_app. split; [done|]. csimpl.
        split; [|apply NoDup_singleton]. intros cells Hin ->%list_elem_of_singleton.
        apply list_elem_of_fmap in Hin as (m & Em & Hm). unfold code_of in Ecode.
        apply fmap_None in Ecode. apply list_elem_of_In in Hm.
        apply (List.find_none _ _ Ecode) in Hm. by apply bool_decide_eq_false in Hm.
      - unfold hash_add. apply Forall_app. split; [eapply Forall_impl; [exact Hal|]; simpl; lia|].
        apply Forall_singleton. simpl. lia.
      - done.
      - lia. }
    split; [done|]. split; [|split].
    + rewrite get_resource_type_code_run, Hcodes, Ecode by done. by rewrite bool_decide_eq_true_2.
    + intros name' code' Hc. by rewrite Hcodes, Hc.
    + intros _ name' Hc. unfold code_of in Hc.
      apply fmap_Some in Hc as (m & [Hm _]%List.find_some & ->).
      rewrite reg_abs_None in Hnew by done. apply list_elem_of_In in Hm. by apply (Hnew m).
Qed.

(** a type name of 16 characters or more is stored without its terminator:
    the next lookup of that name reads past the end of the entry. *)
Theorem resource_type_name_overrun s n l name
  (Hlong : (RESOURCE_TYPE_MAX_STRING_SIZE <= length name)%nat /\ Forall (fun c => c <> 0) name)
  (Hhead : head (resource_types s) = n :: l)
  (Hn : payload n = strncpy name RESOURCE_TYPE_MAX_STRING_SIZE) :
  stops (get_resource_type_code sys name) s OutOfBounds.
Proof.
  destruct Hlong as [Hlen Hnz]. exists s. unfold get_resource_type_code.
  erewrite (bind_ok (reg_load types_p)) by reflexivity. apply bind_crash.
  unfold lift_result. simpl. rewrite Hhead. simpl. by rewrite Hn, strcmp_eq_overrun.
Qed.

(** the core types in the order of their codes *)
Definition core_types : list (list Z) :=
  [name_NONE; name_ADS; name_VMR; name_MO; name_VCPU; name_PCPU; name_PD; name_EP; name_RESSPC;
   name_UNKNOWN].

Lemma insert_resource_type_run id name s : fst (sys (log s) (Calloc, [])) = 0 ->
  id <= max_object_id (resource_types s) ->
  exists s', insert_resource_type sys id name s = (Ok tt, s') /\
    resource_types s' = with_head (head (resource_types s) ++
        [Node (next_addr s) id 1 (strncpy name RESOURCE_TYPE_MAX_STRING_SIZE)]) (resource_types s) /\
    next_addr s' = S (next_addr s).
Proof.
  intros Hmem Hid. unfold insert_resource_type.
  rewrite (bind_ok _ _ _ _ _ (calloc_run sys s Hmem)).
  erewrite (bind_ok (deref _)) by reflexivity.
  erewrite insert_run by (done || simpl; lia). by eexists.
Qed.

(** inserting the types of a list *)
Definition type_node (addr i : nat) (p : Z * list Z) : node (list Z) :=
  Node (addr + i)%nat (fst p) 1 (strncpy (snd p) RESOURCE_TYPE_MAX_STRING_SIZE).

Lemma insert_types_run ps : forall s, (forall l, fst (sys l (Calloc, [])) = 0) ->
  Forall (fun p => fst p <= max_object_id (resource_types s)) ps ->
  exists s', for_each ps (fun p => insert_resource_type sys (fst p) (snd p)) s = (Ok tt, s') /\
    resource_types s' = with_head (head (resource_types s) ++ imap (type_node (next_addr s)) ps)
                          (resource_types s) /\
    next_addr s' = (next_addr s + length ps)%nat.
Proof.
  induction ps as [|p ps IH]; intros s Hmem Hp.
  - exists s. split; [done|]. simpl. split; [|lia]. rewrite app_nil_r. by destruct (resource_types s).
  - apply Forall_cons in Hp as [Hp Hps].
    destruct (insert_resource_type_run (fst p) (snd p) s (Hmem _) Hp) as (s1 & H1 & Ht1 & Hn1).
    destruct (IH s1 Hmem) as (s2 & H2 & Ht2 & Hn2); [by rewrite Ht1|].
    exists s2. simpl. rewrite (bind_ok _ _ _ _ _ H1). split; [done|]. split; [|rewrite Hn2, Hn1; lia].
    rewrite Ht2, Ht1. unfold with_head. simpl. f_equal. rewrite <- app_assoc. simpl.
    do 2 f_equal; [unfold type_node; f_equal; lia|]. apply imap_ext. intros i x _. simpl.
    unfold type_node. f_equal. lia.
Qed.

(** the order of resource_types_initialize *)
Definition core_pairs : list (Z * list Z) :=
  [(GPICAP_TYPE_NONE, name_NONE); (GPICAP_TYPE_ADS, name_ADS); (GPICAP_TYPE_VMR, name_VMR);
   (GPICAP_TYPE_MO, name_MO); (GPICAP_TYPE_CPU, name_VCPU); (GPICAP_TYPE_PCPU, name_PCPU);
   (GPICAP_TYPE_PD, name_PD); (GPICAP_TYPE_RESSPC, name_RESSPC); (GPICAP_TYPE_EP, name_EP);
   (GPICAP_TYPE_seL4, name_UNKNOWN)].

Lemma resource_types_initialize_for_each s :
  resource_types_initialize sys s =
    (reg_store types_p (resource_registry_initialize None 0 BADGE_MAX_CAP_TYPE) ;;
     for_each core_pairs (fun p => insert_resource_type sys (fst p) (snd p))) s.
Proof.
  unfold resource_types_initialize, core_pairs, for_each, mbind, M_bind. cbn [fst snd].
  destruct (reg_store _ _ s) as [[[]|?|] ?]; [|done..].
  repeat match goal with |- context [insert_resource_type sys ?i ?n ?st] =>
    destruct (insert_resource_type sys i n st) as [[[]|?|] ?]; [|done..] end. done.
Qed.

(** initialization leaves exactly the ten core types, under the codes of
    GPICAP_CORE_TYPE and their names, in a registry that satisfies the invariant of
    the type codes. *)
Theorem resource_types_initialize_ok s (Hmem : forall l, fst (sys l (Calloc, [])) = 0) :
  exists s', resource_types_initialize sys s = (Ok tt, s') /\ types_inv s' /\
    forall i name, core_types !! i = Some name -> code_of s' name = Some (Z.of_nat i).
Proof.
  rewrite resource_types_initialize_for_each.
  erewrite (bind_ok (reg_store _ _)) by reflexivity.
  destruct (insert_types_run core_pairs
    (rput types_p (resource_registry_initialize None 0 BADGE_MAX_CAP_TYPE) s))
    as (s' & Hrun & Ht & Hn); [done|by repeat (constructor; [by vm_compute|])|].
  exists s'. split; [exact Hrun|]. clear Hrun.
  remember (next_addr (rput types_p (resource_registry_initialize None 0 BADGE_MAX_CAP_TYPE) s))
    as k. unfold code_of. split.
  - split; rewrite Ht; cbn [head with_head max_object_id id_counter rput types_p rget resource_types
      set_resource_types resource_registry_initialize app core_pairs].
    + split; cbn [head with_head max_object_id imap].
      * cbn. repeat (apply NoDup_cons; split; [rewrite ?elem_of_cons, elem_of_nil; lia|]).
        apply NoDup_nil_2.
      * apply (bool_decide_unpack _). vm_compute. exact I.
      * cbn. repeat (apply Forall_cons; split; [by vm_compute|]). by apply Forall_nil.
    + repeat (apply Forall_cons; split;
        [eexists; split; [|reflexivity]; split; [apply (bool_decide_unpack _); vm_compute; exact I
          |vm_compute; lia]|]). by apply Forall_nil.
    + apply (bool_decide_unpack _). vm_compute. exact I.
    + rewrite Hn. cbn. repeat (apply Forall_cons; split; [simpl; lia|]). by apply Forall_nil.
    + done.
    + vm_compute. split; discriminate.
  - intros i name Hi. rewrite Ht. do 10 (destruct i as [|i]; [by injection Hi as <-|]). done.
Qed.
End TypeProperties.

(** ** Witnesses *)
Section TypeWitnesses.
(** an allocator that never fails; every other call succeeds too *)
Definition sys_ok : list xcall -> xcall -> Z * Z := fun _ _ => (0, 1).

Lemma resource_types_initialize_ok_witness :
  exists s', resource_types_initialize sys_ok server_zero = (Ok tt, s') /\
    code_of s' name_MO = Some GPICAP_TYPE_MO.
Proof.
  destruct (resource_types_initialize_ok sys_ok server_zero) as (s' & Hrun & _ & Hc);
    [reflexivity|].
  exists s'. split; [exact Hrun|]. exact (Hc 3%nat name_MO eq_refl).
Defined.

(** a server that knows one type *)
Definition types_demo : server :=
  set_next_addr 9 (set_resource_types
    (Registry [Node 3 1 1 (strncpy name_ADS 16)] 255 0 None 0) server_zero).

Lemma resource_type_code_stable_witness :
  exists s', get_resource_type_code sys_ok name_EP types_demo = (Ok 2, s') /\
    get_resource_type_code sys_ok name_EP s' = (Ok 2, s').
Proof.
  destruct (resource_type_code_stable sys_ok types_demo name_EP)
    as (code & s' & Hrun & _ & Hagain & _).
  - split; simpl.
    + split; simpl; [apply NoDup_singleton|apply NoDup_singleton|].
      apply Forall_singleton. by vm_compute.
    + apply Forall_singleton. exists name_ADS. split; [|reflexivity].
      split; [apply (bool_decide_unpack _); vm_compute; exact I|vm_compute; lia].
    + apply NoDup_singleton.
    + apply Forall_singleton. simpl. lia.
    + reflexivity.
    + vm_compute. split; discriminate.
  - split; [apply (bool_decide_unpack _); vm_compute; exact I|vm_compute; lia].
  - reflexivity.
  - exists 2. split; [vm_compute; split; discriminate|]. split; [reflexivity|].
    left. vm_compute. discriminate.
  - assert (code = 2) as ->.
    { vm_compute in Hrun. congruence. }
    exists s'. exact (conj Hrun Hagain).
Defined.

Lemma resource_type_name_overrun_witness :
  stops (get_resource_type_code sys_ok (repeat 65 20))
    (set_resource_types (Registry [Node 3 10 1 (strncpy (repeat 65 20) 16)] 255 0 None 0) server_zero)
    OutOfBounds.
Proof.
  apply (resource_type_name_overrun sys_ok _ (Node 3 10 1 (strncpy (repeat 65 20) 16)) []).
  - split; [vm_compute; lia|apply (bool_decide_unpack _); vm_compute; exact I].
  - reflexivity.
  - reflexivity.
Defined.
End TypeWitnesses.
