(* ===== verification/ModelExport.v ===== *)
(** * The graph of an extraction

    Model of [libsel4gpi/src/model_exporting.c]: the nodes and edges that an
    extraction collects, in two hash tables keyed by strings and by whole edges.
    The components of a portable state are stored in a block that is shared with
    another process; those of other states come from calloc.  A pointer to a node
    is its position in [ms_mem].

    The operations run in a program with a state of its own ([S]: the server, or a
    resource server), whose allocator and type names they use; padding of the
    columns is dropped, since their width is 0. *)

From stdpp Require Import base numbers list strings.
From S2P Require Import Prelude Strings Badge Registry State.

Section Model.
Context `{UTHash} {S : Type}.
(** whether calloc succeeds; free; the array of a type's name; and sizeof(gpi_model_state_component_t) *)
Context (try_calloc : M S bool) (try_free : M S unit) (cap_type_to_str : Z -> M S (list Z)).
Context (sizeof_component : Z).

(** a computation with the state of the program and a model state *)
Abbreviation G := (M (S * model_state_t)).

Definition host {A} (m : M S A) : G A := fun s => let '(r, t) := m (fst s) in (r, (t, snd s)).
Definition ms_gets {A} (f : model_state_t -> A) : G A := gets (fun s => f (snd s)).
Definition ms_modify (f : model_state_t -> model_state_t) : G unit :=
  modify (fun s => (fst s, f (snd s))).

(** ** Nodes and edges *)
Definition node_cell (ms : model_state_t) (a : nat) : option gpi_model_node_t :=
  match ms_mem ms !! a with Some (GPI_MODEL_NODE n) => Some n | _ => None end.
Definition edge_cell (ms : model_state_t) (a : nat) : option gpi_model_edge_key_t :=
  match ms_mem ms !! a with Some (GPI_MODEL_EDGE k) => Some k | _ => None end.

(** the entries of the tables, in the order of the chains *)
Definition node_table (ms : model_state_t) : list (nat * gpi_model_node_t) :=
  omap (fun a => n ← node_cell ms a; Some (a, n)) (ms_nodes ms).
Definition edge_table (ms : model_state_t) : list gpi_model_edge_key_t :=
  omap (edge_cell ms) (ms_edges ms).

Definition with_mem (f : list gpi_model_state_component_t -> list gpi_model_state_component_t)
    (ms : model_state_t) : model_state_t :=
  ModelState (ms_nodes ms) (ms_edges ms) (f (ms_mem ms)) (ms_free ms).
Definition with_free (free : option Z) (ms : model_state_t) : model_state_t :=
  ModelState (ms_nodes ms) (ms_edges ms) (ms_mem ms) free.
Definition with_tables (nodes edges : list nat) (ms : model_state_t) : model_state_t :=
  ModelState nodes edges (ms_mem ms) (ms_free ms).

Definition mnode_load (a : nat) : G gpi_model_node_t :=
  n ← ms_gets (fun ms => node_cell ms a);
  match n with Some n => mret n | None => crash UseAfterFree end.
Definition mnode_store (a : nat) (f : gpi_model_node_t -> gpi_model_node_t) : G unit :=
  n ← mnode_load a;
  ms_modify (with_mem <[a := GPI_MODEL_NODE (f n)]>).

Definition edge_type_to_str (edge_type : Z) : list Z :=
  if edge_type =? GPI_EDGE_TYPE_HOLD then chars "HOLD"
  else if edge_type =? GPI_EDGE_TYPE_MAP then chars "MAP"
  else if edge_type =? GPI_EDGE_TYPE_SUBSET then chars "SUBSET"
  else if edge_type =? GPI_EDGE_TYPE_REQUEST then chars "REQUEST"
  else chars "UNKNOWN".
Definition node_type_to_str (node_type : Z) : list Z :=
  if node_type =? GPI_NODE_TYPE_PD then chars "PD"
  else if node_type =? GPI_NODE_TYPE_RESOURCE then chars "RESOURCE"
  else if node_type =? GPI_NODE_TYPE_SPACE then chars "RESOURCE_SPACE"
  else chars "UNKNOWN".

(** ** Names of nodes *)
Definition make_node_id (prefix : list Z) (id : Z) : list Z :=
  snprintf CSV_MAX_STRING_SIZE (prefix ++ chars "_" ++ fmt_x id).
Definition make_node_id_2 (prefix : list Z) (id1 id2 : Z) : list Z :=
  snprintf CSV_MAX_STRING_SIZE (prefix ++ chars "_" ++ fmt_x id1 ++ chars "_" ++ fmt_x id2).

(** the string of a type's name *)
Definition type_str (cap_type : Z) : G (list Z) :=
  cells ← host (cap_type_to_str cap_type); read_str cells.

Definition get_resource_space_id (resource_type res_space_id : Z) : G (list Z) :=
  name ← type_str resource_type;
  mret (make_node_id (snprintf CSV_MAX_STRING_SIZE (name ++ chars "_SPACE")) res_space_id).
Definition get_resource_id (res_id : gpi_res_id_t) : G (list Z) :=
  name ← type_str (rid_type res_id);
  mret (make_node_id_2 name (rid_space res_id) (rid_object res_id)).
Definition get_pd_id (pd_id : Z) : list Z := make_node_id (chars "PD") pd_id.

(** ** Life of a model state *)
Definition init_model_state (free_size : option Z) : model_state_t := ModelState [] [] [] free_size.
Definition clean_model_state (ms : model_state_t) : model_state_t := with_tables [] [] ms.
Definition destroy_model_state : G unit :=
  ms ← ms_gets id;
  for_each (ms_nodes ms) (fun _ => host try_free) ;;
  for_each (ms_edges ms) (fun _ => host try_free) ;;
  host try_free.

(** ** Adding nodes *)
Definition find_node (ms : model_state_t) (id : list Z) : option (nat * gpi_model_node_t) :=
  hash_find_key (fun p => bool_decide (cstring (nd_id (snd p)) = id)) (node_table ms).

Definition get_node (id : list Z) : G (option nat) := ms_gets (fun ms => fst <$> find_node ms id).

(** data that was empty is overwritten; a new node is a block of its own, or the next
    component of the block with [mem_ptr] moved on; its key is measured by strlen *)
Definition add_node (node_type : Z) (id : list Z) (data : option (list Z)) (extracted : bool) : G nat :=
  node ← get_node id;
  match node with
  | Some a =>
      n ← mnode_load a;
      old ← read_str (nd_data n);
      match data with
      | Some d => when (bool_decide (old = []))
                    (mnode_store a (set_nd_data (strncpy d CSV_MAX_STRING_SIZE)))
      | None => mret tt
      end ;;
      mret a
  | None =>
      let key := strncpy id CSV_MAX_STRING_SIZE in
      ms ← ms_gets (fun ms => ms);
      match ms_free ms with
      | None => ok ← host try_calloc; assert_ ok
      | Some rest =>
          assert_ (sizeof_component <? rest) ;;
          ms_modify (with_free (Some (rest - sizeof_component)))
      end ;;
      let a := length (ms_mem ms) in
      ms_modify (with_mem (fun mem => mem ++ [GPI_MODEL_NODE (ModelNode node_type key
        (strncpy (default [] data) CSV_MAX_STRING_SIZE) (repeat 0 CSV_MAX_STRING_SIZE) extracted)])) ;;
      _ ← read_str key;
      ms_modify (fun ms => with_tables (ms_nodes ms ++ [a]) (ms_edges ms) ms) ;;
      mret a
  end.

Definition set_node_extra (a : nat) (extra : list Z) : G unit :=
  assert_ (length extra <? CSV_MAX_STRING_SIZE)%nat ;;
  mnode_store a (set_nd_data2 (strncpy extra CSV_MAX_STRING_SIZE)).

Definition add_resource_node (res_id : gpi_res_id_t) (extracted : bool) : G nat :=
  node_id ← get_resource_id res_id;
  name ← type_str (rid_type res_id);
  add_node GPI_NODE_TYPE_RESOURCE node_id (Some name) extracted.
Definition get_resource_node (res_id : gpi_res_id_t) : G (option nat) :=
  node_id ← get_resource_id res_id; get_node node_id.

Definition add_resource_space_node (resource_type res_space_id : Z) (extracted : bool) : G nat :=
  node_id ← get_resource_space_id resource_type res_space_id;
  name ← type_str resource_type;
  add_node GPI_NODE_TYPE_SPACE node_id (Some name) extracted.
Definition get_resource_space_node (resource_type res_space_id : Z) : G (option nat) :=
  node_id ← get_resource_space_id resource_type res_space_id; get_node node_id.

Definition add_pd_node (pd_name : option (list Z)) (pd_id : Z) (extracted : bool) : G nat :=
  add_node GPI_NODE_TYPE_PD (get_pd_id pd_id) pd_name extracted.
Definition get_pd_node (pd_id : Z) : G (option nat) := get_node (get_pd_id pd_id).
Definition get_root_node : G nat := add_pd_node (Some (chars "ROOT_TASK")) 0 true.

(** ** Adding edges *)

(** strcpy to an array of the key *)
Definition copy_id (id : list Z) : G (list Z) :=
  if (length id <? CSV_MAX_STRING_SIZE)%nat then mret (strncpy id CSV_MAX_STRING_SIZE)
  else crash OutOfBounds.

Definition internal_add_edge_by_id (type : Z) (from_id to_id : list Z) (req_type : Z) : G unit :=
  from ← copy_id from_id;
  to ← copy_id to_id;
  let k := EdgeKey type req_type from to in
  edge ← ms_gets (fun ms => hash_find_key (fun e => bool_decide (e = k)) (edge_table ms));
  match edge with
  | Some _ => mret tt
  | None =>
      ms ← ms_gets (fun ms => ms);
      match ms_free ms with
      | None => ok ← host try_calloc; assert_ ok
      | Some rest =>
          assert_ (sizeof_component <? rest) ;;
          ms_modify (with_free (Some (rest - sizeof_component)))
      end ;;
      let a := length (ms_mem ms) in
      ms_modify (with_mem (fun mem => mem ++ [GPI_MODEL_EDGE k])) ;;
      ms_modify (fun ms => with_tables (ms_nodes ms) (ms_edges ms ++ [a]) ms)
  end.

Definition node_str (a : nat) : G (list Z) := n ← mnode_load a; read_str (nd_id n).
Definition add_edge_private (type : Z) (from to : nat) (req_type : Z) : G unit :=
  from_id ← node_str from; to_id ← node_str to;
  internal_add_edge_by_id type from_id to_id req_type.
Definition add_edge (type : Z) (from to : nat) : G unit :=
  add_edge_private type from to GPICAP_TYPE_NONE.
Definition add_edge_by_id (type : Z) (from to : list Z) : G unit :=
  internal_add_edge_by_id type from to GPICAP_TYPE_NONE.
Definition add_request_edge (from to : nat) (req_type : Z) : G unit :=
  add_edge_private GPI_EDGE_TYPE_REQUEST from to req_type.
Definition add_request_edge_by_id (from to : list Z) (req_type : Z) : G unit :=
  internal_add_edge_by_id GPI_EDGE_TYPE_REQUEST from to req_type.

(** ** Combination *)
Definition combine_component (item : gpi_model_state_component_t) : G unit :=
  match item with
  | GPI_MODEL_NODE n =>
      id ← read_str (nd_id n);
      _ ← add_node (nd_type n) id (Some (cstring (nd_data n))) true;
      mret tt
  | GPI_MODEL_EDGE k =>
      from ← read_str (ek_from k);
      to ← read_str (ek_to k);
      internal_add_edge_by_id (ek_type k) from to (ek_req_type k)
  | NO_COMPONENT => mret tt
  end.

(** the components of [src] in memory, or along its tables; the destination is the state *)
Definition combine_model_states (src : model_state_t) : G unit :=
  match ms_free src with
  | Some _ => for_each (ms_mem src) combine_component
  | None =>
      for_each (node_table src) (fun p => combine_component (GPI_MODEL_NODE (snd p))) ;;
      for_each (edge_table src) (fun k => combine_component (GPI_MODEL_EDGE k))
  end.

(** ** Export *)
Fixpoint csv (columns : list (list Z)) : list Z :=
  match columns with
  | [] => []
  | [c] => c ++ chars "
"
  | c :: columns => c ++ chars "," ++ csv columns
  end.

Definition csv_header : list Z :=
  csv (chars <$> ["NODE_TYPE"; "NODE_ID"; "DATA"; "EDGE_TYPE"; "EDGE_FROM"; "EDGE_TO"; "EXTRA"]%string).
Definition node_line (n : gpi_model_node_t) : G (list Z) :=
  id ← read_str (nd_id n); data ← read_str (nd_data n); extra ← read_str (nd_data2 n);
  mret (csv [node_type_to_str (nd_type n); id; data; []; []; []; extra]).
Definition edge_line (k : gpi_model_edge_key_t) : G (list Z) :=
  name ← type_str (ek_req_type k);
  from ← read_str (ek_from k); to ← read_str (ek_to k);
  mret (csv [[]; []; name; edge_type_to_str (ek_type k); from; to; []]).

Definition print_model_state : G unit :=
  ms ← ms_gets id;
  for_each (node_table ms) (fun p => _ ← node_line (snd p); mret tt) ;;
  for_each (edge_table ms) (fun k => _ ← edge_line k; mret tt).

(** the buffer's text and [buf_written_total]; after a line that did not fit, the
    space that is left is computed as a huge number *)
Definition put_line (buf_len : Z) (out : list Z * Z) (line : list Z) : G (list Z * Z) :=
  let '(text, total) := out in
  if buf_len <? total then crash OutOfBounds
  else mret (text ++ snprintf (Z.to_nat (buf_len - total)) line, u64 (total + Z.of_nat (length line))).

Fixpoint put_lines {A} (buf_len : Z) (line : A -> G (list Z)) (l : list A) (out : list Z * Z)
  : G (list Z * Z) :=
  match l with
  | [] => mret out
  | x :: l =>
      text ← line x;
      out ← put_line buf_len out text;
      assert_ (snd out <? buf_len) ;;
      put_lines buf_len line l out
  end.

(** the string in the buffer *)
Definition export_model_state (buf_len : Z) : G (list Z) :=
  ms ← ms_gets id;
  out ← put_line buf_len ([], 0) csv_header;
  out ← put_lines buf_len (fun p => node_line (snd p)) (node_table ms) out;
  out ← put_lines buf_len edge_line (edge_table ms) out;
  mret (fst out).
End Model.

(** ** Names of nodes do not collide *)

(** what a node stands for: a PD, a space of a type of the given name, a resource *)
Inductive entity :=
| EntityPd (pd_id : Z)
| EntitySpace (type_name : list Z) (space_id : Z)
| EntityResource (type_name : list Z) (space_id object_id : Z).

Definition entity_id (e : entity) : list Z :=
  match e with
  | EntityPd id => get_pd_id id
  | EntitySpace name id =>
      make_node_id (snprintf CSV_MAX_STRING_SIZE (name ++ chars "_SPACE")) id
  | EntityResource name space object => make_node_id_2 name space object
  end.

(** identifiers are those of gpi_obj_id_t and gpi_space_id_t, names are short *)
Definition id32 (z : Z) : Prop := 0 <= z < 2 ^ 32.
Definition short (name : list Z) : Prop := no_nul name /\ (length name <= 64)%nat.
Definition entity_ok (e : entity) : Prop :=
  match e with
  | EntityPd id => id32 id
  | EntitySpace name id => short name /\ id32 id
  | EntityResource name space object => short name /\ id32 space /\ id32 object
  end.

Section NodeIds.
Lemma make_node_id_eq prefix id : (length prefix <= 80)%nat -> id32 id ->
  make_node_id prefix id = prefix ++ 95 :: fmt_x id.
Proof.
  intros Hp Hid. unfold make_node_id, snprintf. rewrite take_ge; [done|].
  pose proof (fmt_x_length id Hid). rewrite !length_app.
  change (length (chars "_")) with 1%nat. unfold CSV_MAX_STRING_SIZE. lia.
Qed.
Lemma make_node_id_2_eq name a b : short name -> id32 a -> id32 b ->
  make_node_id_2 name a b = (name ++ 95 :: fmt_x a) ++ 95 :: fmt_x b.
Proof.
  intros [_ Hn] Ha Hb. unfold make_node_id_2, snprintf.
  pose proof (fmt_x_length a Ha). pose proof (fmt_x_length b Hb).
  rewrite take_ge; [by rewrite <- app_assoc|]. rewrite !length_app.
  change (length (chars "_")) with 1%nat. unfold CSV_MAX_STRING_SIZE. lia.
Qed.
Lemma space_prefix_eq name : short name ->
  snprintf CSV_MAX_STRING_SIZE (name ++ chars "_SPACE") = name ++ 95 :: chars "SPACE".
Proof.
  intros [_ Hn]. unfold snprintf. rewrite take_ge; [done|]. rewrite length_app. simpl.
  unfold CSV_MAX_STRING_SIZE. lia.
Qed.

Lemma id32_hex z : id32 z -> 95 ∉ fmt_x z.
Proof. intros _. by apply is_digit_no_underscore, fmt_x_digits. Qed.
Lemma id32_hex_inj z z' : id32 z -> id32 z' -> fmt_x z = fmt_x z' -> z = z'.
Proof. unfold id32. intros. apply fmt_x_inj; [lia..|done]. Qed.

(** the part before the last underscore, and the number after it *)
Definition entity_prefix (e : entity) : list Z :=
  match e with
  | EntityPd _ => chars "PD"
  | EntitySpace name _ => name ++ 95 :: chars "SPACE"
  | EntityResource name space _ => name ++ 95 :: fmt_x space
  end.
Definition entity_number (e : entity) : Z :=
  match e with EntityPd z | EntitySpace _ z | EntityResource _ _ z => z end.

Lemma entity_id_eq e : entity_ok e -> entity_id e = entity_prefix e ++ 95 :: fmt_x (entity_number e).
Proof.
  destruct e as [id|name id|name space object]; simpl.
  - intros. by apply make_node_id_eq; [simpl; lia|].
  - intros [Hn Hid]. rewrite space_prefix_eq by done. apply make_node_id_eq; [|done].
    destruct Hn. rewrite length_app. simpl. lia.
  - intros (? & ? & ?). by apply make_node_id_2_eq.
Qed.
Lemma entity_number_ok e : entity_ok e -> id32 (entity_number e).
Proof. destruct e; simpl; tauto. Qed.

Lemma space_not_hex z : id32 z -> chars "SPACE" <> fmt_x z.
Proof.
  intros _ E. pose proof (fmt_x_digits z) as Hd. rewrite <- E in Hd.
  apply Forall_cons in Hd as [Hd _]. assert (~ is_digit 83) as Hs by (unfold is_digit; lia). exact (Hs Hd).
Qed.
Lemma pd_no_underscore : 95 ∉ chars "PD".
Proof. apply (bool_decide_unpack _). by vm_compute. Qed.
Lemma underscore_in a d : 95 ∈ a ++ 95 :: d.
Proof. apply elem_of_app. right. apply elem_of_cons. by left. Qed.
End NodeIds.

(** C32: a node of the graph is known by a string made of a type name and one or two
    hexadecimal numbers; for PDs, resource spaces and resources whose type names have
    at most 64 characters, whatever characters, two of them never have the same
    string. *)
Theorem node_ids_distinct e e' (He : entity_ok e) (He' : entity_ok e')
  (Heq : entity_id e = entity_id e') : e = e'.
Proof.
  rewrite !entity_id_eq in Heq by done. pose proof (entity_number_ok e He) as Hn.
  pose proof (entity_number_ok e' He') as Hn'.
  apply split_last_underscore in Heq as [Ep En%id32_hex_inj]; [|by auto using id32_hex..].
  pose proof pd_no_underscore as Hpd.
  destruct e as [id|name id|name space object], e' as [id'|name' id'|name' space' object'];
    simpl in *; subst; try done; try (rewrite Ep in Hpd; by destruct (Hpd (underscore_in _ _)));
    try (rewrite <- Ep in Hpd; by destruct (Hpd (underscore_in _ _))).
  - apply app_inv_tail in Ep. by subst.
  - destruct He' as (_ & Hs & _).
    apply split_last_underscore in Ep as [_ Es]; [|by apply (bool_decide_unpack _); vm_compute|by apply id32_hex].
    by destruct (space_not_hex space').
  - destruct He as (_ & Hs & _).
    apply split_last_underscore in Ep as [_ Es]; [|by apply id32_hex|by apply (bool_decide_unpack _); vm_compute].
    by destruct (space_not_hex space).
  - destruct He as (_ & Hs & _), He' as (_ & Hs' & _).
    apply split_last_underscore in Ep as [-> Es%id32_hex_inj]; [|by auto using id32_hex..]. by subst.
Qed.

Lemma node_ids_distinct_witness :
  entity_id (EntityResource (chars "A_1") 2 48879) = chars "A_1_2_beef" /\
  EntityPd 7 = EntityPd 7.
Proof. split; [vm_compute; reflexivity|]. apply node_ids_distinct; [by split..|reflexivity]. Defined.

(** ** The graph of a model state *)

(** strings are terminated in their arrays *)
Definition node_fits (n : gpi_model_node_t) : Prop :=
  holds CSV_MAX_STRING_SIZE (nd_id n) /\ holds CSV_MAX_STRING_SIZE (nd_data n) /\
  holds CSV_MAX_STRING_SIZE (nd_data2 n).
Definition edge_fits (k : gpi_model_edge_key_t) : Prop :=
  holds CSV_MAX_STRING_SIZE (ek_from k) /\ holds CSV_MAX_STRING_SIZE (ek_to k).

Definition node_key (n : gpi_model_node_t) : list Z := cstring (nd_id n).

(** the tables hold exactly the components in memory, one for each key *)
Record wf_model (ms : model_state_t) : Prop := {
  wm_chain : NoDup (ms_nodes ms);
  wm_nodes : forall a, a ∈ ms_nodes ms <-> is_Some (node_cell ms a);
  wm_edges : forall a, a ∈ ms_edges ms <-> is_Some (edge_cell ms a);
  wm_fit : forall a n, node_cell ms a = Some n -> node_fits n;
  wm_edge_fit : forall a k, edge_cell ms a = Some k -> edge_fits k;
  wm_ids : forall a b n m, node_cell ms a = Some n -> node_cell ms b = Some m ->
    node_key n = node_key m -> a = b;
  wm_keys : forall a b k, edge_cell ms a = Some k -> edge_cell ms b = Some k -> a = b
}.

(** the node at an address is in the graph, an edge is in the graph *)
Definition has_node (ms : model_state_t) (id : list Z) (n : gpi_model_node_t) : Prop :=
  exists a, node_cell ms a = Some n /\ node_key n = id.
Definition has_edge (ms : model_state_t) (k : gpi_model_edge_key_t) : Prop :=
  exists a, edge_cell ms a = Some k.

Section Graph.
Context `{UTHash}.
Implicit Types (ms : model_state_t) (n : gpi_model_node_t) (k : gpi_model_edge_key_t).

Lemma node_table_elem ms a n : (a, n) ∈ node_table ms <-> a ∈ ms_nodes ms /\ node_cell ms a = Some n.
Proof.
  unfold node_table. rewrite list_elem_of_omap. split.
  - intros (b & Hb & Hn). destruct (node_cell ms b) as [m|] eqn:E; [|done]. by simplify_eq/=.
  - intros [Ha Hn]. exists a. by rewrite Hn.
Qed.
Lemma edge_table_elem ms k : wf_model ms -> k ∈ edge_table ms <-> has_edge ms k.
Proof.
  intros Hwf. unfold edge_table, has_edge. rewrite list_elem_of_omap. split.
  - intros (a & _ & Hk). by exists a.
  - intros [a Hk]. exists a. split; [|done]. by apply (wm_edges _ Hwf).
Qed.

(** what the graph says of an identifier *)
Definition model_node ms (id : list Z) : option gpi_model_node_t := snd <$> find_node ms id.

Lemma find_node_Some ms id a n : wf_model ms ->
  find_node ms id = Some (a, n) <-> node_cell ms a = Some n /\ node_key n = id.
Proof.
  intros Hwf. unfold find_node. split.
  - intros [Hin Hid%bool_decide_eq_true]%hash_find_key_sound.
    by apply node_table_elem in Hin as [_ Hn].
  - intros [Hn Hid].
    destruct (hash_find_key _ _) as [[b m]|] eqn:E.
    + apply hash_find_key_sound in E as [Hin Hm%bool_decide_eq_true].
      apply node_table_elem in Hin as [_ Hb].
      assert (a = b) as <- by (apply (wm_ids _ Hwf a b n m); [done..|]; unfold node_key in *; simpl in *; congruence).
      congruence.
    + exfalso. assert ((a, n) ∈ node_table ms) as Hin.
      { apply node_table_elem. split; [|done]. apply (wm_nodes _ Hwf). by eexists. }
      pose proof (hash_find_key_complete _ _ _ E _ Hin) as Hf. by apply bool_decide_eq_false in Hf.
Qed.
Lemma find_node_None ms id : wf_model ms -> find_node ms id = None ->
  forall a n, node_cell ms a = Some n -> node_key n <> id.
Proof. intros Hwf Hf a n Hn Hid. rewrite (proj2 (find_node_Some ms id a n Hwf)) in Hf; done. Qed.

Lemma model_node_Some ms id n : wf_model ms -> model_node ms id = Some n <-> has_node ms id n.
Proof.
  intros Hwf. unfold model_node. split.
  - destruct (find_node ms id) as [[a m]|] eqn:E; [|done]. intros [= ->]. exists a.
    by apply find_node_Some.
  - intros (a & Hn & Hid). by rewrite (proj2 (find_node_Some ms id a n Hwf)).
Qed.

(** ** Changes of memory *)
Lemma node_cell_snoc ms c a : node_cell (with_mem (fun mem => mem ++ [c]) ms) a =
  if decide (a = length (ms_mem ms)) then match c with GPI_MODEL_NODE n => Some n | _ => None end
  else node_cell ms a.
Proof.
  unfold node_cell. simpl. destruct (decide _) as [->|Hne].
  - by rewrite list_lookup_middle.
  - destruct (decide (a < length (ms_mem ms))%nat); [by rewrite lookup_app_l|].
    rewrite !(lookup_ge_None_2) by (rewrite ?length_app; simpl; lia). done.
Qed.
Lemma edge_cell_snoc ms c a : edge_cell (with_mem (fun mem => mem ++ [c]) ms) a =
  if decide (a = length (ms_mem ms)) then match c with GPI_MODEL_EDGE n => Some n | _ => None end
  else edge_cell ms a.
Proof.
  unfold edge_cell. simpl. destruct (decide _) as [->|Hne].
  - by rewrite list_lookup_middle.
  - destruct (decide (a < length (ms_mem ms))%nat); [by rewrite lookup_app_l|].
    rewrite !(lookup_ge_None_2) by (rewrite ?length_app; simpl; lia). done.
Qed.
Lemma cell_in_memory ms a : is_Some (node_cell ms a) \/ is_Some (edge_cell ms a) ->
  (a < length (ms_mem ms))%nat.
Proof.
  unfold node_cell, edge_cell. intros Ha. apply lookup_lt_is_Some.
  destruct (ms_mem ms !! a); [by eexists|]. by destruct Ha as [[]|[]].
Qed.

(** the state after a new node or edge was linked *)
Definition added_node n free ms : model_state_t :=
  with_tables (ms_nodes ms ++ [length (ms_mem ms)]) (ms_edges ms)
    (with_mem (fun mem => mem ++ [GPI_MODEL_NODE n]) (with_free free ms)).
Definition added_edge k free ms : model_state_t :=
  with_tables (ms_nodes ms) (ms_edges ms ++ [length (ms_mem ms)])
    (with_mem (fun mem => mem ++ [GPI_MODEL_EDGE k]) (with_free free ms)).
Definition stored_node (a : nat) n ms : model_state_t := with_mem <[a := GPI_MODEL_NODE n]> ms.

Lemma node_cell_added n free ms a : node_cell (added_node n free ms) a =
  if decide (a = length (ms_mem ms)) then Some n else node_cell ms a.
Proof. apply (node_cell_snoc ms (GPI_MODEL_NODE n)). Qed.
Lemma edge_cell_added_node n free ms a : edge_cell (added_node n free ms) a = edge_cell ms a.
Proof.
  change (edge_cell (added_node n free ms) a) with
    (edge_cell (with_mem (fun mem => mem ++ [GPI_MODEL_NODE n]) ms) a).
  rewrite edge_cell_snoc. destruct (decide _) as [->|]; [|done]. symmetry.
  unfold edge_cell. by rewrite lookup_ge_None_2.
Qed.
Lemma edge_cell_added k free ms a : edge_cell (added_edge k free ms) a =
  if decide (a = length (ms_mem ms)) then Some k else edge_cell ms a.
Proof. apply (edge_cell_snoc ms (GPI_MODEL_EDGE k)). Qed.
Lemma node_cell_added_edge k free ms a : node_cell (added_edge k free ms) a = node_cell ms a.
Proof.
  change (node_cell (added_edge k free ms) a) with
    (node_cell (with_mem (fun mem => mem ++ [GPI_MODEL_EDGE k]) ms) a).
  rewrite node_cell_snoc. destruct (decide _) as [->|]; [|done]. symmetry.
  unfold node_cell. by rewrite lookup_ge_None_2.
Qed.
Lemma node_cell_stored a n ms b : is_Some (node_cell ms a) -> node_cell (stored_node a n ms) b =
  if decide (b = a) then Some n else node_cell ms b.
Proof.
  intros Ha. unfold node_cell, stored_node. simpl. destruct (decide (b = a)) as [->|Hne].
  - rewrite list_lookup_insert_eq; [done|]. by apply cell_in_memory; left.
  - by rewrite list_lookup_insert_ne.
Qed.
Lemma edge_cell_stored a n ms b : is_Some (node_cell ms a) ->
  edge_cell (stored_node a n ms) b = edge_cell ms b.
Proof.
  intros Ha. pose proof (cell_in_memory ms a (or_introl Ha)). unfold node_cell, edge_cell, stored_node in *.
  simpl. destruct (decide (b = a)) as [->|Hne].
  - rewrite list_lookup_insert_eq by done. destruct Ha as [m Hm]. by destruct (ms_mem ms !! a) as [[]|].
  - by rewrite list_lookup_insert_ne.
Qed.

Lemma old_cell ms a n : node_cell ms a = Some n -> a <> length (ms_mem ms).
Proof. intros Ha. pose proof (cell_in_memory ms a (or_introl (mk_is_Some _ _ Ha))). lia. Qed.
Lemma old_edge ms a k : edge_cell ms a = Some k -> a <> length (ms_mem ms).
Proof. intros Ha. pose proof (cell_in_memory ms a (or_intror (mk_is_Some _ _ Ha))). lia. Qed.

Lemma init_cells size a :
  node_cell (init_model_state size) a = None /\ edge_cell (init_model_state size) a = None.
Proof. by destruct a. Qed.
Lemma wf_init size : wf_model (init_model_state size).
Proof.
  split; [constructor|..]; intros a; destruct (init_cells size a) as [En Ee]; rewrite ?En, ?Ee; try done; simpl.
  - split; [by intros ?%elem_of_nil|by intros []].
  - split; [by intros ?%elem_of_nil|by intros []].
Qed.

Lemma wf_added_node n free ms : wf_model ms -> node_fits n ->
  (forall a m, node_cell ms a = Some m -> node_key m <> node_key n) -> wf_model (added_node n free ms).
Proof.
  intros [Hch Hn He Hf Hef Hi Hk] Hfit Hnew. split; simpl.
  - apply NoDup_app. split; [done|]. split; [|apply NoDup_singleton].
    intros a [m Ha]%Hn ->%list_elem_of_singleton. by apply (old_cell ms _ m) in Ha.
  - intros a. rewrite node_cell_added, elem_of_app, Hn, list_elem_of_singleton.
    destruct (decide _); [by split; eauto|tauto].
  - intros a. by rewrite edge_cell_added_node.
  - intros a m. rewrite node_cell_added. case_decide; [by intros [= <-]|apply Hf].
  - intros a k. rewrite edge_cell_added_node. apply Hef.
  - intros a b m m'. rewrite !node_cell_added. intros Ha Hb E.
    destruct (decide (a = _)), (decide (b = _)); [congruence| | |by apply (Hi a b m m')].
    + injection Ha as <-. by destruct (Hnew b m').
    + injection Hb as <-. by destruct (Hnew a m).
  - intros a b k. rewrite !edge_cell_added_node. apply Hk.
Qed.

Lemma wf_added_edge k free ms : wf_model ms -> edge_fits k -> ~ has_edge ms k -> wf_model (added_edge k free ms).
Proof.
  intros [Hch Hn He Hf Hef Hi Hk] Hfit Hnew. split; simpl; [done|..].
  - intros a. by rewrite node_cell_added_edge.
  - intros a. rewrite edge_cell_added, elem_of_app, He, list_elem_of_singleton.
    destruct (decide _); [by split; eauto|tauto].
  - intros a m. rewrite node_cell_added_edge. apply Hf.
  - intros a k'. rewrite edge_cell_added. case_decide; [by intros [= <-]|apply Hef].
  - intros a b m m'. rewrite !node_cell_added_edge. apply Hi.
  - intros a b k'. rewrite !edge_cell_added. intros Ha Hb.
    destruct (decide (a = _)), (decide (b = _)); [congruence| | |by apply (Hk a b k')];
      destruct Hnew; simplify_eq; by eexists.
Qed.

Lemma wf_stored_node a n m ms : wf_model ms -> node_cell ms a = Some m -> node_fits n ->
  node_key n = node_key m -> wf_model (stored_node a n ms).
Proof.
  intros [Hch Hn He Hf Hef Hi Hk] Ha Hfit Hkey. pose proof (mk_is_Some _ _ Ha) as Ha'.
  split; simpl; [done|..].
  - intros b. rewrite node_cell_stored, Hn by done. case_decide; [subst; by split; eauto|done].
  - intros b. by rewrite edge_cell_stored.
  - intros b m'. rewrite node_cell_stored by done. case_decide; [by intros [= <-]|apply Hf].
  - intros b k. rewrite edge_cell_stored by done. apply Hef.
  - intros b c m1 m2. rewrite !node_cell_stored by done. intros Hb Hc E.
    destruct (decide (b = a)) as [->|], (decide (c = a)) as [->|]; [done| | |by apply (Hi b c m1 m2)].
    + apply (Hi a c m m2); [done..|congruence].
    + apply (Hi b a m1 m); [done..|congruence].
  - intros b c k. rewrite !edge_cell_stored by done. apply Hk.
Qed.

(** what the changes do to the graph *)
Lemma has_node_added n free ms id m : (forall a m, node_cell ms a = Some m -> node_key m <> node_key n) ->
  has_node (added_node n free ms) id m <-> (if decide (id = node_key n) then m = n else has_node ms id m).
Proof.
  intros Hnew. split.
  - intros (a & Ha & <-). rewrite node_cell_added in Ha. case_decide.
    + injection Ha as <-. by rewrite decide_True.
    + rewrite decide_False by by apply (Hnew a). by exists a.
  - case_decide.
    + intros ->. exists (length (ms_mem ms)). rewrite node_cell_added, decide_True by done. done.
    + intros (a & Ha & <-). exists a. rewrite node_cell_added, decide_False by by apply (old_cell ms a m). done.
Qed.
Lemma has_node_stored a n m ms id m' : wf_model ms -> node_cell ms a = Some m -> node_key n = node_key m ->
  has_node (stored_node a n ms) id m' <-> (if decide (id = node_key n) then m' = n else has_node ms id m').
Proof.
  intros Hwf Ha Hkey. pose proof (mk_is_Some _ _ Ha) as Ha'. split.
  - intros (b & Hb & <-). rewrite node_cell_stored in Hb by done. case_decide; subst.
    + injection Hb as <-. by rewrite decide_True.
    + rewrite decide_False; [by exists b|]. intros E.
      assert (b = a) by (apply (wm_ids _ Hwf b a m' m); congruence). done.
  - case_decide.
    + intros ->. exists a. rewrite node_cell_stored, decide_True by done. done.
    + intros (b & Hb & <-). exists b. rewrite node_cell_stored by done.
      rewrite decide_False by (intros ->; congruence). done.
Qed.
Lemma has_edge_added k free ms k' : has_edge (added_edge k free ms) k' <-> k' = k \/ has_edge ms k'.
Proof.
  unfold has_edge. split.
  - intros [a Ha]. rewrite edge_cell_added in Ha. case_decide; [left; congruence|right; by exists a].
  - intros [->|[a Ha]].
    + exists (length (ms_mem ms)). by rewrite edge_cell_added, decide_True.
    + exists a. rewrite edge_cell_added, decide_False; [done|]. by apply (old_edge ms a k').
Qed.
Lemma has_edge_cells ms ms' : (forall a, edge_cell ms' a = edge_cell ms a) ->
  forall k, has_edge ms' k <-> has_edge ms k.
Proof. intros E k. unfold has_edge. by setoid_rewrite E. Qed.
Lemma has_node_cells ms ms' : (forall a, node_cell ms' a = node_cell ms a) ->
  forall id n, has_node ms' id n <-> has_node ms id n.
Proof. intros E id n. unfold has_node. by setoid_rewrite E. Qed.
End Graph.

(** ** Adding to the graph *)

(** what adding a node makes of the node that was there *)
Definition fill_data (data : list Z) (n : gpi_model_node_t) : gpi_model_node_t :=
  if bool_decide (cstring (nd_data n) = []) then set_nd_data (strncpy data CSV_MAX_STRING_SIZE) n else n.
Definition fresh_node (type : Z) (id : list Z) (data : option (list Z)) (extracted : bool)
  : gpi_model_node_t :=
  ModelNode type (strncpy id CSV_MAX_STRING_SIZE) (strncpy (default [] data) CSV_MAX_STRING_SIZE)
    (repeat 0 CSV_MAX_STRING_SIZE) extracted.
Definition node_after (type : Z) (id : list Z) (data : option (list Z)) (extracted : bool)
    (old : option gpi_model_node_t) : gpi_model_node_t :=
  match old, data with
  | Some n, Some d => fill_data d n
  | Some n, None => n
  | None, _ => fresh_node type id data extracted
  end.

(** a string that fits the arrays of the graph *)
Definition fits_csv (s : list Z) : Prop := no_nul s /\ (length s < CSV_MAX_STRING_SIZE)%nat.
Lemma short_fits s : short s -> fits_csv s.
Proof. intros [? ?]. split; [done|]. unfold CSV_MAX_STRING_SIZE. lia. Qed.
Lemma chars_fits_decide s : bool_decide (Forall (fun c => c <> 0) s /\ (length s < CSV_MAX_STRING_SIZE)%nat) = true ->
  fits_csv s.
Proof. by intros ?%bool_decide_eq_true. Qed.

Lemma fmt_x_no_nul v : no_nul (fmt_x v).
Proof. apply is_digit_no_nul, fmt_x_digits. Qed.
Lemma snprintf_fits s : no_nul s -> fits_csv (snprintf CSV_MAX_STRING_SIZE s).
Proof.
  intros Hs. split; [by apply no_nul_take|]. unfold snprintf. rewrite length_take. unfold CSV_MAX_STRING_SIZE. lia.
Qed.
Lemma underscore_no_nul : no_nul (chars "_").
Proof. by constructor. Qed.
#[export] Hint Resolve fmt_x_no_nul underscore_no_nul : gpi.
Lemma make_node_id_fits prefix z : no_nul prefix -> fits_csv (make_node_id prefix z).
Proof. intros Hp. apply snprintf_fits. rewrite !no_nul_app. auto with gpi. Qed.
Lemma make_node_id_2_fits prefix y z : no_nul prefix -> fits_csv (make_node_id_2 prefix y z).
Proof. intros Hp. apply snprintf_fits. rewrite !no_nul_app. auto 10 with gpi. Qed.

Section Adding.
Context `{UTHash} {S : Type}.
Context (try_calloc : M S bool) (sizeof_component : Z).
Context (Hcalloc : forall t, returns try_calloc t (fun ok _ => ok = true)).
Implicit Types (t : S) (ms : model_state_t) (n : gpi_model_node_t) (k : gpi_model_edge_key_t).

Abbreviation add_node := (add_node try_calloc sizeof_component).
Abbreviation add_edge_by_id := (internal_add_edge_by_id try_calloc sizeof_component).
Abbreviation combine_component := (combine_component try_calloc sizeof_component).

(** there is memory for [k] more components *)
Definition room (j : nat) ms : Prop :=
  match ms_free ms with
  | None => True
  | Some rest => Z.of_nat j * sizeof_component < rest
  end.

(** what is left of the memory after [i] more components *)
Definition left_after (i : nat) ms : option Z := (fun rest => rest - Z.of_nat i * sizeof_component) <$> ms_free ms.

(** at most [j] components were added, to the same memory *)
Definition grows (j : nat) ms ms' : Prop :=
  exists i, (i <= j)%nat /\ ms_free ms' = left_after i ms /\ length (ms_mem ms') = (length (ms_mem ms) + i)%nat.

Context (Hsize : 0 < sizeof_component).

Lemma room_le i j ms : (i <= j)%nat -> room j ms -> room i ms.
Proof. unfold room. destruct (ms_free ms); [|done]. nia. Qed.
Lemma room_grows i j ms ms' : grows i ms ms' -> room (i + j) ms -> room j ms'.
Proof.
  intros (n & Hn & Hf & _). unfold room. rewrite Hf. unfold left_after.
  destruct (ms_free ms); simpl; [|done].
  intros Hr. rewrite Nat2Z.inj_add in Hr. assert (Z.of_nat n <= Z.of_nat i) by lia. nia.
Qed.
Lemma left_after_add i j ms ms' : ms_free ms' = left_after i ms -> left_after j ms' = left_after (i + j) ms.
Proof. intros Hf. unfold left_after. rewrite Hf. unfold left_after. destruct (ms_free ms); simpl; [f_equal; lia|done]. Qed.
Lemma left_after_0 ms : left_after 0 ms = ms_free ms.
Proof. unfold left_after. destruct (ms_free ms); simpl; [f_equal; lia|done]. Qed.
Lemma grows_0 j ms ms' : ms_free ms' = ms_free ms -> length (ms_mem ms') = length (ms_mem ms) -> grows j ms ms'.
Proof. intros Hf Hl. exists 0%nat. rewrite left_after_0. split; [lia|]. split; [done|lia]. Qed.
Lemma grows_trans i j ms ms1 ms2 : grows i ms ms1 -> grows j ms1 ms2 -> grows (i + j) ms ms2.
Proof.
  intros (n & Hn & Hf & Hl) (m & Hm & Hf' & Hl'). exists (n + m)%nat. split; [lia|].
  split; [by rewrite Hf'; apply left_after_add|lia].
Qed.

(** memory is taken for a component *)
Definition taken c ms : model_state_t := with_mem (fun mem => mem ++ [c]) (with_free (left_after 1 ms) ms).

Lemma place_run c t ms : room 1 ms -> exists t', forall B (k : M (S * model_state_t) B),
  (match ms_free ms with
   | None => ok ← host try_calloc; assert_ ok
   | Some rest =>
       assert_ (sizeof_component <? rest) ;;
       ms_modify (with_free (Some (rest - sizeof_component)))
   end ;;
   ms_modify (with_mem (fun mem => mem ++ [c])) ;; k) (t, ms) = k (t', taken c ms).
Proof.
  intros Hroom. unfold taken, left_after. destruct ms as [ns es mem [rest|]].
  - exists t. intros B k. unfold room in Hroom. cbn [ms_free fmap option_fmap option_map] in *.
    change (Z.of_nat 1) with 1 in *. rewrite Z.mul_1_l in *. rewrite bind_assoc, (proj2 (Z.ltb_lt _ _) Hroom).
    reflexivity.
  - cbn [ms_free fmap option_fmap option_map] in *. destruct (Hcalloc t) as (ok & t' & Ht & ->). exists t'. intros B k. rewrite bind_assoc.
    rewrite (bind_ok _ _ _ true (t', ModelState ns es mem None)); [reflexivity|].
    unfold host. simpl. by rewrite Ht.
Qed.

Lemma model_node_ext key n ms ms' : wf_model ms -> wf_model ms' ->
  (forall id m, has_node ms' id m <-> (if decide (id = key) then m = n else has_node ms id m)) ->
  forall id, model_node ms' id = if decide (id = key) then Some n else model_node ms id.
Proof.
  intros Hwf Hwf' Hn id. apply option_eq. intros m. rewrite model_node_Some, Hn by done.
  case_decide; [split; [by intros ->|congruence]|]. by rewrite model_node_Some.
Qed.

Lemma fill_data_fits d n : fits_csv d -> node_fits n -> node_fits (fill_data d n).
Proof. intros [? ?] (? & ? & ?). unfold fill_data. case_bool; [|by split]. split; simpl; auto with gpi. Qed.
Lemma fill_data_key d n : node_key (fill_data d n) = node_key n.
Proof. unfold fill_data. by case_bool. Qed.
Lemma fresh_node_fits type id data b : fits_csv id -> (forall d, data = Some d -> fits_csv d) ->
  node_fits (fresh_node type id data b) /\ node_key (fresh_node type id data b) = id.
Proof.
  intros [Hid Hlen] Hd. split; [|by apply cstring_strncpy].
  split; simpl; [auto with gpi|]. split; [|by apply (holds_nil CSV_MAX_STRING_SIZE); unfold CSV_MAX_STRING_SIZE; lia].
  destruct data as [d|]; simpl; [destruct (Hd d eq_refl)|]; auto with gpi.
  apply holds_nil. unfold CSV_MAX_STRING_SIZE. lia.
Qed.

(** the graph after a node was added or found *)
Record node_added (j : nat) (id : list Z) (a : nat) n ms ms' : Prop := {
  na_wf : wf_model ms';
  na_grows : grows j ms ms';
  na_cell : node_cell ms' a = Some n;
  na_nodes : forall id', model_node ms' id' = if decide (id' = id) then Some n else model_node ms id';
  na_edges : forall k, has_edge ms' k <-> has_edge ms k;
  na_stable : forall b m, node_cell ms b = Some m -> exists m', node_cell ms' b = Some m' /\ node_key m' = node_key m
}.

Lemma add_node_run type id data extracted t ms : wf_model ms -> room 1 ms -> fits_csv id ->
  (forall d, data = Some d -> fits_csv d) ->
  exists a t' ms', add_node type id data extracted (t, ms) = (Ok a, (t', ms')) /\
    node_added 1 id a (node_after type id data extracted (model_node ms id)) ms ms'.
Proof.
  intros Hwf Hroom Hid Hdata. unfold ModelExport.add_node, model_node.
  erewrite (bind_ok (get_node id)) by reflexivity. simpl.
  destruct (find_node ms id) as [[a n]|] eqn:Hf; simpl.
  - apply find_node_Some in Hf as Hn; [|done]. destruct Hn as [Hn Hkey].
    destruct (wm_fit _ Hwf _ _ Hn) as (Hfi & Hfd & Hfe).
    erewrite bind_ok by (unfold mnode_load; erewrite bind_ok by reflexivity; simpl; by rewrite Hn).
    rewrite (bind_ok _ _ _ _ _ (holds_read _ _ _ Hfd)).
    assert (forall m, node_fits m -> node_key m = node_key n -> node_added 1 id a m ms (stored_node a m ms)) as Hst.
    { intros m Hm Hk. assert (wf_model (stored_node a m ms)) as Hwf' by by apply (wf_stored_node a m n).
      split; [done| | |apply model_node_ext; [done..|]| |].
      - apply grows_0; [done|]. unfold stored_node. simpl. by rewrite length_insert.
      - by rewrite node_cell_stored, decide_True by eauto.
      - intros id' m'. rewrite <- Hkey, <- Hk. by apply (has_node_stored a m n).
      - apply has_edge_cells. intros b. by apply edge_cell_stored; eauto.
      - intros b m' Hb. rewrite node_cell_stored by eauto. case_decide; [|by exists m'].
        exists m. split; [done|]. congruence. }
    assert (stored_node a n ms = ms) as Hsame.
    { destruct ms as [ns es mem fr]. unfold stored_node, with_mem. simpl. f_equal. apply list_insert_id.
      unfold node_cell in Hn. simpl in Hn. by destruct (mem !! a) as [[]|]; simplify_eq. }
    destruct data as [d|].
    + destruct (Hdata d eq_refl) as [? ?]. unfold when, node_after, fill_data.
      case_bool.
      * exists a, t, (stored_node a (set_nd_data (strncpy d CSV_MAX_STRING_SIZE) n) ms). split.
        -- rewrite (bind_ok _ _ _ tt (t, stored_node a (set_nd_data (strncpy d CSV_MAX_STRING_SIZE) n) ms));
             [reflexivity|]. unfold mnode_store.
           erewrite bind_ok by (unfold mnode_load; erewrite bind_ok by reflexivity; simpl; by rewrite Hn).
           reflexivity.
        -- apply Hst; [split; simpl; auto with gpi|done].
      * exists a, t, ms. split; [done|]. pose proof (Hst n ltac:(done) eq_refl) as Hs. by rewrite Hsame in Hs.
    + exists a, t, ms. split; [done|]. pose proof (Hst n ltac:(done) eq_refl) as Hs. by rewrite Hsame in Hs.
  - destruct (fresh_node_fits type id data extracted Hid Hdata) as [Hfit Hkey].
    set (n := fresh_node type id data extracted) in *.
    erewrite (bind_ok (ms_gets _)) by reflexivity. cbn [snd]. fold (fresh_node type id data extracted). fold n.
    cbv zeta. destruct (place_run (GPI_MODEL_NODE n) t ms Hroom) as [t' Hp]. rewrite Hp.
    rewrite (bind_ok _ _ _ _ _ (holds_read CSV_MAX_STRING_SIZE _ _ (proj1 Hfit))).
    exists (length (ms_mem ms)), t', (added_node n (left_after 1 ms) ms). split; [reflexivity|].
    assert (forall a m, node_cell ms a = Some m -> node_key m <> node_key n) as Hfree.
    { rewrite Hkey. by apply find_node_None. }
    assert (wf_model (added_node n (left_after 1 ms) ms)) as Hwf' by by apply wf_added_node.
    split; [done| | |apply model_node_ext; [done..|]| |].
    + exists 1%nat. split; [lia|]. split; [done|]. simpl. by rewrite length_app.
    + by rewrite node_cell_added, decide_True.
    + intros id' m. rewrite has_node_added, Hkey by done. done.
    + apply has_edge_cells. intros b. by rewrite edge_cell_added_node.
    + intros b m Hb. exists m. rewrite node_cell_added, decide_False; [done|]. by apply (old_cell ms b m).
Qed.

Lemma copy_id_run id t ms : fits_csv id -> copy_id (S := S) id (t, ms) = (Ok (strncpy id CSV_MAX_STRING_SIZE), (t, ms)).
Proof. intros [_ Hid]. unfold copy_id. by rewrite (proj2 (Nat.ltb_lt _ _) Hid). Qed.

(** the graph after an edge was added or found *)
Record edge_added (j : nat) k ms ms' : Prop := {
  ea_wf : wf_model ms';
  ea_grows : grows j ms ms';
  ea_cells : forall a, node_cell ms' a = node_cell ms a;
  ea_nodes : forall id, model_node ms' id = model_node ms id;
  ea_edges : forall k', has_edge ms' k' <-> k' = k \/ has_edge ms k'
}.

Definition edge_key (type : Z) (from to : list Z) (req_type : Z) : gpi_model_edge_key_t :=
  EdgeKey type req_type (strncpy from CSV_MAX_STRING_SIZE) (strncpy to CSV_MAX_STRING_SIZE).

Lemma model_node_cells ms ms' : wf_model ms -> wf_model ms' ->
  (forall a, node_cell ms' a = node_cell ms a) -> forall id, model_node ms' id = model_node ms id.
Proof.
  intros Hwf Hwf' Hc id. apply option_eq. intros n. rewrite !model_node_Some by done.
  by apply has_node_cells.
Qed.

Lemma add_edge_run type from to req t ms : wf_model ms -> room 1 ms -> fits_csv from -> fits_csv to ->
  exists t' ms', add_edge_by_id type from to req (t, ms) = (Ok tt, (t', ms')) /\
    edge_added 1 (edge_key type from to req) ms ms'.
Proof.
  intros Hwf Hroom Hfrom Hto. unfold internal_add_edge_by_id.
  rewrite (bind_ok _ _ _ _ _ (copy_id_run from t ms Hfrom)), (bind_ok _ _ _ _ _ (copy_id_run to t ms Hto)).
  erewrite (bind_ok (ms_gets _)) by reflexivity. cbn [snd]. fold (edge_key type from to req).
  set (k := edge_key type from to req). destruct (hash_find_key _ (edge_table ms)) as [e|] eqn:Hf.
  - apply hash_find_key_sound in Hf as [Hin ->%bool_decide_eq_true].
    apply edge_table_elem in Hin; [|done].
    exists t, ms. split; [done|]. split; [done|by apply grows_0|done|done|].
    intros k'. split; [by right|]. by intros [->|].
  - assert (~ has_edge ms k) as Hnew.
    { intros Hk. apply edge_table_elem in Hk; [|done].
      pose proof (hash_find_key_complete _ _ _ Hf _ Hk) as Hk'. by apply bool_decide_eq_false in Hk'. }
    erewrite (bind_ok (ms_gets _)) by reflexivity. cbn [snd].
    cbv zeta. destruct (place_run (GPI_MODEL_EDGE k) t ms Hroom) as [t' Hp]. rewrite Hp.
    set (ms1 := added_edge k (left_after 1 ms) ms). exists t', ms1. split; [reflexivity|].
    assert (wf_model ms1) as Hwf'.
    { destruct Hfrom, Hto. apply wf_added_edge; [done|split; simpl; auto with gpi|done]. }
    assert (forall a, node_cell ms1 a = node_cell ms a) as Hc.
    { intros a. apply node_cell_added_edge. }
    split; [done| |done|by apply model_node_cells|].
    + exists 1%nat. split; [lia|]. split; [done|]. simpl. by rewrite length_app.
    + intros k'. apply has_edge_added.
Qed.
End Adding.

(** ** Combining graphs *)
Definition comp_node (c : gpi_model_state_component_t) : option gpi_model_node_t :=
  match c with GPI_MODEL_NODE n => Some n | _ => None end.

(** the node with an identifier among components *)
Definition first_node (l : list gpi_model_state_component_t) (id : list Z) : option gpi_model_node_t :=
  List.find (fun n => bool_decide (node_key n = id)) (omap comp_node l).

(** a node of the destination keeps its type, and its data unless it was empty; one that
    only the source has is copied with its data, without its extra *)
Definition combine_at (old src : option gpi_model_node_t) : option gpi_model_node_t :=
  match src with
  | None => old
  | Some m => Some (node_after (nd_type m) (node_key m) (Some (cstring (nd_data m))) true old)
  end.

(** what the process that merges a model state is sent *)
Definition published (ms : model_state_t) : model_state_t :=
  match ms_free ms with Some _ => clean_model_state ms | None => ms end.

Definition component_fits (c : gpi_model_state_component_t) : Prop :=
  match c with
  | GPI_MODEL_NODE n => node_fits n
  | GPI_MODEL_EDGE k => edge_fits k
  | NO_COMPONENT => True
  end.

Lemma combine_at_idem old src : combine_at (combine_at old src) src = combine_at old src.
Proof.
  destruct src as [m|]; [|done]. simpl. f_equal. destruct old as [n|]; simpl; unfold fill_data; simpl.
  - destruct (bool_decide (cstring (nd_data n) = [])) eqn:E; [|by rewrite E]. simpl. by case_bool.
  - by case_bool.
Qed.

Section Combining.
Context `{UTHash} {S : Type}.
Context (try_calloc : M S bool) (sizeof_component : Z).
Context (Hcalloc : forall t, returns try_calloc t (fun ok _ => ok = true)).
Context (Hsize : 0 < sizeof_component).
Implicit Types (t : S) (ms : model_state_t) (n : gpi_model_node_t) (k : gpi_model_edge_key_t)
  (l : list gpi_model_state_component_t).

Abbreviation combine_component := (combine_component try_calloc sizeof_component).
Abbreviation combine_model_states := (combine_model_states try_calloc sizeof_component).
Abbreviation room := (room sizeof_component).

Lemma holds_fits_csv array : holds CSV_MAX_STRING_SIZE array -> fits_csv (cstring array).
Proof. intros Ha. split; auto with gpi. Qed.

(** [ms'] is [ms] with the components of [l] *)
Record combined (j : nat) l ms ms' : Prop := {
  cb_wf : wf_model ms';
  cb_grows : grows sizeof_component j ms ms';
  cb_nodes : forall id, model_node ms' id = combine_at (model_node ms id) (first_node l id);
  cb_edges : forall k, has_edge ms' k <-> has_edge ms k \/ GPI_MODEL_EDGE k ∈ l
}.

Lemma combine_component_run c t ms : wf_model ms -> room 1 ms -> component_fits c ->
  exists t' ms', combine_component c (t, ms) = (Ok tt, (t', ms')) /\ combined 1 [c] ms ms'.
Proof.
  intros Hwf Hroom Hc. destruct c as [n|k|]; simpl.
  - destruct Hc as (Hi & Hd & _). rewrite (bind_ok _ _ _ _ _ (holds_read _ _ _ Hi)).
    destruct (add_node_run try_calloc sizeof_component Hcalloc (nd_type n) (cstring (nd_id n))
      (Some (cstring (nd_data n))) true t ms) as (a & t' & ms' & Hrun & Hadd); [done|done|by apply holds_fits_csv| |].
    { intros d [= <-]. by apply holds_fits_csv. }
    rewrite (bind_ok _ _ _ _ _ Hrun). exists t', ms'. split; [reflexivity|].
    destruct Hadd as [Hwf' Hg _ Hn He]. split; [done|done| |].
    + intros id. rewrite Hn. unfold first_node. simpl. unfold node_key at 1.
      destruct (decide (id = cstring (nd_id n))) as [->|Hne].
      * by rewrite bool_decide_eq_true_2.
      * by rewrite bool_decide_eq_false_2.
    + intros k. rewrite He, list_elem_of_singleton. intuition congruence.
  - destruct Hc as [Hf Ht]. rewrite (bind_ok _ _ _ _ _ (holds_read _ _ _ Hf)),
      (bind_ok _ _ _ _ _ (holds_read _ _ _ Ht)).
    destruct (add_edge_run try_calloc sizeof_component Hcalloc (ek_type k) (cstring (ek_from k))
      (cstring (ek_to k)) (ek_req_type k) t ms) as (t' & ms' & Hrun & Hadd);
      [done|done|by apply holds_fits_csv..|].
    exists t', ms'. split; [done|]. destruct Hadd as [Hwf' Hg _ Hn He].
    assert (edge_key (ek_type k) (cstring (ek_from k)) (cstring (ek_to k)) (ek_req_type k) = k) as Ek.
    { unfold edge_key. rewrite !holds_cstring by done. by destruct k. }
    split; [done|done|done|]. intros k'. rewrite He, Ek, list_elem_of_singleton. intuition congruence.
  - exists t, ms. split; [done|]. split; [done|by apply grows_0|done|].
    intros k. rewrite list_elem_of_singleton. intuition congruence.
Qed.

Lemma first_node_cons c l id : NoDup (node_key <$> omap comp_node (c :: l)) -> forall old,
  combine_at (combine_at old (first_node [c] id)) (first_node l id) = combine_at old (first_node (c :: l) id).
Proof.
  intros Hnd old. unfold first_node. destruct c as [n|k|]; simpl in *; [|done..].
  apply NoDup_cons in Hnd as [Hnew _]. case_bool; simpl; [|done].
  destruct (List.find _ _) as [m|] eqn:E; [|done]. exfalso. apply Hnew.
  apply List.find_some in E as [Hin%list_elem_of_In Hm%bool_decide_eq_true].
  apply bool_decide_eq_true in Heqb. rewrite Heqb, <- Hm. by apply list_elem_of_fmap_2.
Qed.

Lemma combine_list_run l : forall t ms, wf_model ms -> room (length l) ms -> Forall component_fits l ->
  NoDup (node_key <$> omap comp_node l) ->
  exists t' ms', for_each l combine_component (t, ms) = (Ok tt, (t', ms')) /\ combined (length l) l ms ms'.
Proof.
  induction l as [|c l IH]; intros t ms Hwf Hroom Hfit Hnd.
  { exists t, ms. split; [done|]. split; [done|by apply grows_0|done|].
    intros k. rewrite elem_of_nil. tauto. }
  apply Forall_cons in Hfit as [Hc Hfit].
  destruct (combine_component_run c t ms) as (t1 & ms1 & Hrun & Hc1);
    [done|apply (room_le sizeof_component Hsize 1 (length (c :: l))); [simpl; lia|done]|done|].
  cbn [for_each]. rewrite (bind_ok _ _ _ _ _ Hrun).
  destruct (IH t1 ms1) as (t2 & ms2 & Hrun2 & Hc2);
    [by destruct Hc1|by apply (room_grows sizeof_component Hsize 1 (length l) ms); [destruct Hc1|]|done| |].
  { destruct c; simpl in Hnd; [|done..]. by apply NoDup_cons in Hnd as [_ ?]. }
  exists t2, ms2. split; [done|]. destruct Hc1 as [Hw1 Hg1 Hn1 He1], Hc2 as [Hw2 Hg2 Hn2 He2].
  split; [done|by apply (grows_trans sizeof_component 1 (length l) ms ms1)| |].
  - intros id. rewrite Hn2, Hn1. by apply first_node_cons.
  - intros k. rewrite He2, He1, !elem_of_cons, elem_of_nil. tauto.
Qed.

(** ** The components of a well-formed state *)
Lemma omap_NoDup_key {A B K} (f : A -> option B) (g : B -> K) (l : list A) :
  (forall i j x y, l !! i ≫= f = Some x -> l !! j ≫= f = Some y -> g x = g y -> i = j) ->
  NoDup (g <$> omap f l).
Proof.
  induction l as [|a l IH]; intros Hinj; [constructor|]. simpl.
  assert (NoDup (g <$> omap f l)) as Hnd.
  { apply IH. intros i j x y Hi Hj E. specialize (Hinj (Datatypes.S i) (Datatypes.S j) x y Hi Hj E). lia. }
  destruct (f a) as [b|] eqn:Ea; [|done]. csimpl. constructor; [|done].
  intros (y & E & Hy)%list_elem_of_fmap. apply list_elem_of_omap in Hy as (a' & Hin & Hy).
  apply list_elem_of_lookup in Hin as [j Hj].
  specialize (Hinj 0%nat (Datatypes.S j) b y). simpl in Hinj. rewrite Hj in Hinj. simpl in Hinj.
  specialize (Hinj Ea Hy E). lia.
Qed.

Lemma node_cell_bind ms a : node_cell ms a = ms_mem ms !! a ≫= comp_node.
Proof. unfold node_cell. by destruct (ms_mem ms !! a) as [[]|]. Qed.

Lemma mem_keys_NoDup ms : wf_model ms -> NoDup (node_key <$> omap comp_node (ms_mem ms)).
Proof.
  intros Hwf. apply omap_NoDup_key. intros i j x y. rewrite <- !node_cell_bind. apply (wm_ids _ Hwf).
Qed.
Lemma mem_fits ms : wf_model ms -> Forall component_fits (ms_mem ms).
Proof.
  intros Hwf. apply Forall_forall. intros c [a Ha]%list_elem_of_lookup. destruct c as [n|k|]; simpl; [| |done].
  - apply (wm_fit _ Hwf a). unfold node_cell. by rewrite Ha.
  - apply (wm_edge_fit _ Hwf a). unfold edge_cell. by rewrite Ha.
Qed.
Lemma mem_edges ms k : has_edge ms k <-> GPI_MODEL_EDGE k ∈ ms_mem ms.
Proof.
  unfold has_edge, edge_cell. rewrite list_elem_of_lookup. split; intros [a Ha]; exists a.
  - by destruct (ms_mem ms !! a) as [[]|]; simplify_eq.
  - by rewrite Ha.
Qed.

(** components that are exactly the nodes of a state find them *)
Lemma first_node_spec l ms : wf_model ms -> NoDup (node_key <$> omap comp_node l) ->
  (forall n, GPI_MODEL_NODE n ∈ l <-> exists a, node_cell ms a = Some n) ->
  forall id, first_node l id = model_node ms id.
Proof.
  intros Hwf Hnd Hl id. apply option_eq. intros n. rewrite model_node_Some by done. unfold first_node.
  assert (forall m, m ∈ omap comp_node l <-> exists a, node_cell ms a = Some m) as Hm.
  { intros m. rewrite <- Hl, list_elem_of_omap. split.
    - intros (c & Hin & Hc). by destruct c; simplify_eq/=.
    - intros Hin. by exists (GPI_MODEL_NODE m). }
  split.
  - intros [Hin Hid%bool_decide_eq_true]%List.find_some. apply list_elem_of_In, Hm in Hin as [a Ha]. by exists a.
  - intros (a & Ha & <-). destruct (List.find _ _) as [m|] eqn:E.
    + apply List.find_some in E as [Hin%list_elem_of_In Hid%bool_decide_eq_true].
      apply Hm in Hin as [b Hb]. assert (b = a) as -> by (by apply (wm_ids _ Hwf b a m n)). congruence.
    + assert (n ∈ omap comp_node l) as Hin by (apply Hm; by exists a).
      apply list_elem_of_In in Hin. pose proof (List.find_none _ _ E _ Hin) as Hf.
      by apply bool_decide_eq_false in Hf.
Qed.

(** the components along the tables *)
Definition table_components ms : list gpi_model_state_component_t :=
  ((fun p => GPI_MODEL_NODE (snd p)) <$> node_table ms) ++ (GPI_MODEL_EDGE <$> edge_table ms).

Lemma for_each_tables ms s : ms_free ms = None ->
  combine_model_states ms s = for_each (table_components ms) combine_component s.
Proof.
  intros Hf. unfold ModelExport.combine_model_states, table_components. rewrite Hf.
  generalize (node_table ms). intros l. revert s. induction l as [|p l IH]; intros s.
  - cbn [for_each fmap list_fmap app]. rewrite (bind_ok _ _ _ tt s) by reflexivity.
    generalize (edge_table ms). intros l. revert s. induction l as [|k l IH]; intros s; [done|].
    cbn [for_each fmap list_fmap]. unfold mbind, M_bind. destruct (combine_component _ s) as [[[]| |] s1]; [apply IH|done..].
  - cbn [for_each fmap list_fmap app]. rewrite bind_assoc. unfold mbind at 1, M_bind at 1.
    unfold mbind at 2, M_bind at 2. destruct (combine_component _ s) as [[[]| |] s1]; [apply IH|done..].
Qed.

Lemma node_table_cells ms : wf_model ms ->
  omap comp_node (table_components ms) = snd <$> node_table ms.
Proof.
  intros _. unfold table_components. rewrite omap_app.
  assert (omap comp_node (GPI_MODEL_EDGE <$> edge_table ms) = []) as ->.
  { induction (edge_table ms); [done|]. done. }
  rewrite app_nil_r. induction (node_table ms) as [|p l IH]; [done|]. csimpl. by rewrite IH.
Qed.

Lemma table_keys_NoDup ms : wf_model ms -> NoDup (node_key <$> (snd <$> node_table ms)).
Proof.
  intros Hwf. unfold node_table. pose proof (wm_chain _ Hwf) as Hnd.
  induction (ms_nodes ms) as [|a l IH]; [constructor|]. apply NoDup_cons in Hnd as [Hnew Hnd].
  csimpl. destruct (node_cell ms a) as [n|] eqn:Ea; csimpl; [|auto]. constructor; [|auto].
  intros (m & E & Hm)%list_elem_of_fmap. apply list_elem_of_fmap in Hm as ([b m'] & -> & Hb).
  apply list_elem_of_omap in Hb as (c & Hc & Hb). destruct (node_cell ms c) as [n'|] eqn:Ec; simplify_eq/=.
  by rewrite (wm_ids _ Hwf a b n m') in Hnew.
Qed.

Lemma table_components_node ms n : wf_model ms ->
  GPI_MODEL_NODE n ∈ table_components ms <-> exists a, node_cell ms a = Some n.
Proof.
  intros Hwf. unfold table_components. rewrite elem_of_app, !list_elem_of_fmap. split.
  - intros [([a m] & [= ->] & Hin)|(k & ? & _)]; [|done]. apply node_table_elem in Hin as [_ Hn]. by exists a.
  - intros [a Ha]. left. exists (a, n). split; [done|]. apply node_table_elem. split; [|done].
    apply (wm_nodes _ Hwf). by eexists.
Qed.
Lemma table_components_edge ms k : wf_model ms -> GPI_MODEL_EDGE k ∈ table_components ms <-> has_edge ms k.
Proof.
  intros Hwf. rewrite <- edge_table_elem by done. unfold table_components. rewrite elem_of_app, !list_elem_of_fmap.
  split; [intros [(p & ? & _)|(k' & [= ->] & Hin)]; done|]. intros Hin. right. by exists k.
Qed.
Lemma table_components_fit ms : wf_model ms -> Forall component_fits (table_components ms).
Proof.
  intros Hwf. apply Forall_forall. intros [n|k|] Hin; simpl; [| |done].
  - apply table_components_node in Hin as [a Ha]; [|done]. by apply (wm_fit _ Hwf a).
  - apply table_components_edge in Hin as [a Ha]; [|done]. by apply (wm_edge_fit _ Hwf a).
Qed.

(** how much memory merging a state may need *)
Definition combine_size ms : nat :=
  match ms_free ms with Some _ => length (ms_mem ms) | None => length (table_components ms) end.

(** [ms'] is the union of two graphs *)
Record union_graph (dst src ms' : model_state_t) : Prop := {
  ug_wf : wf_model ms';
  ug_nodes : forall id, model_node ms' id = combine_at (model_node dst id) (model_node src id);
  ug_edges : forall k, has_edge ms' k <-> has_edge dst k \/ has_edge src k
}.

Lemma combine_run src dst t : wf_model dst -> wf_model src -> room (combine_size src) dst ->
  exists t' ms', combine_model_states (published src) (t, dst) = (Ok tt, (t', ms')) /\
    union_graph dst src ms' /\ grows sizeof_component (combine_size src) dst ms'.
Proof.
  intros Hd Hs Hroom. unfold published, combine_size in *. destruct (ms_free src) as [size|] eqn:Hf.
  - destruct (combine_list_run (ms_mem src) t dst) as (t' & ms' & Hrun & [Hw Hg Hn He]);
      [done|done|by apply mem_fits|by apply mem_keys_NoDup|].
    exists t', ms'. split; [unfold ModelExport.combine_model_states; simpl; by rewrite Hf|]. split; [|done].
    split; [done| |].
    + intros id. rewrite Hn. f_equal. apply first_node_spec; [done|by apply mem_keys_NoDup|].
      intros n. rewrite list_elem_of_lookup. unfold node_cell. split; intros [a Ha]; exists a.
      * by rewrite Ha.
      * by destruct (ms_mem src !! a) as [[]|]; simplify_eq.
    + intros k. by rewrite He, (mem_edges src).
  - pose proof (table_keys_NoDup src Hs) as Hnd. rewrite <- (node_table_cells src Hs) in Hnd.
    destruct (combine_list_run (table_components src) t dst) as (t' & ms' & Hrun & [Hw Hg Hn He]);
      [done|done|by apply table_components_fit|done|].
    exists t', ms'. split; [by rewrite for_each_tables|]. split; [|done]. split; [done| |].
    + intros id. rewrite Hn. f_equal. apply first_node_spec; [done..|]. intros n. by apply table_components_node.
    + intros k. by rewrite He, (table_components_edge src).
Qed.
End Combining.

Section ExportProperties.
Context `{UTHash} {S : Type}.
Context (try_calloc : M S bool) (sizeof_component : Z).

(** C31: merging a model state into another, from shared memory or along its tables,
    gives the union of the two graphs: no node or edge twice, nodes of the
    destination keep what they hold unless their data was empty; merging the same
    state again changes nothing. *)
Theorem combine_is_union
  (Hcalloc : forall t, returns try_calloc t (fun ok _ => ok = true)) (Hsize : 0 < sizeof_component)
  src dst (t : S) (Hdst : wf_model dst) (Hsrc : wf_model src)
  (Hroom : room sizeof_component (combine_size src + combine_size src) dst) :
  exists t' ms', combine_model_states try_calloc sizeof_component (published src) (t, dst) = (Ok tt, (t', ms')) /\
    union_graph dst src ms' /\
    exists t2 ms2, combine_model_states try_calloc sizeof_component (published src) (t', ms') =
        (Ok tt, (t2, ms2)) /\
      (forall id, model_node ms2 id = model_node ms' id) /\ (forall k, has_edge ms2 k <-> has_edge ms' k).
Proof.
  destruct (combine_run try_calloc sizeof_component Hcalloc Hsize src dst t) as (t1 & ms1 & Hrun & Hu & Hg);
    [done|done|apply (room_le sizeof_component Hsize _ (combine_size src + combine_size src)); [lia|done]|].
  exists t1, ms1. split; [done|]. split; [done|].
  destruct (combine_run try_calloc sizeof_component Hcalloc Hsize src ms1 t1) as (t2 & ms2 & Hrun2 & Hu2 & _);
    [by destruct Hu|done|by apply (room_grows sizeof_component Hsize (combine_size src) _ dst)|].
  exists t2, ms2. split; [done|]. destruct Hu as [_ Hn He], Hu2 as [_ Hn2 He2]. split.
  - intros id. by rewrite Hn2, !Hn, combine_at_idem.
  - intros k. rewrite He2, He. tauto.
Qed.
End ExportProperties.

(** ** A model state in shared memory *)

(** the functions that change a model state, with their arguments *)
Inductive graph_op :=
| OpPdNode (name : option (list Z)) (pd_id : Z) (extracted : bool)
| OpResourceNode (res_id : gpi_res_id_t) (extracted : bool)
| OpSpaceNode (resource_type space_id : Z) (extracted : bool)
| OpRootNode
| OpNodeExtra (a : nat) (extra : list Z)
| OpEdge (type : Z) (from to : nat)
| OpEdgeById (type : Z) (from to : list Z)
| OpRequestEdge (from to : nat) (req_type : Z)
| OpRequestEdgeById (from to : list Z) (req_type : Z)
| OpCombine (src : model_state_t).

Section Portable.
Context `{UTHash} {S : Type}.
Context (try_calloc : M S bool) (cap_type_to_str : Z -> M S (list Z)) (sizeof_component : Z).
Implicit Types (t : S) (ms : model_state_t).

Definition graph_step (o : graph_op) : M (S * model_state_t) unit :=
  match o with
  | OpPdNode name id e => _ ← add_pd_node try_calloc sizeof_component name id e; mret tt
  | OpResourceNode id e => _ ← add_resource_node try_calloc cap_type_to_str sizeof_component id e; mret tt
  | OpSpaceNode ty id e => _ ← add_resource_space_node try_calloc cap_type_to_str sizeof_component ty id e; mret tt
  | OpRootNode => _ ← get_root_node try_calloc sizeof_component; mret tt
  | OpNodeExtra a extra => set_node_extra a extra
  | OpEdge ty a b => add_edge try_calloc sizeof_component ty a b
  | OpEdgeById ty a b => ModelExport.add_edge_by_id try_calloc sizeof_component ty a b
  | OpRequestEdge a b q => add_request_edge try_calloc sizeof_component a b q
  | OpRequestEdgeById a b q => add_request_edge_by_id try_calloc sizeof_component a b q
  | OpCombine src => combine_model_states try_calloc sizeof_component src
  end.

(** the components fill the block of [size] bytes from its start to [mem_ptr], which
    is before its end, and the tables have addresses of these components only *)
Definition in_block (size : Z) ms : Prop :=
  exists rest, ms_free ms = Some rest /\ 0 < rest /\
    Z.of_nat (length (ms_mem ms)) * sizeof_component + rest = size /\
    Forall (fun a => (a < length (ms_mem ms))%nat) (ms_nodes ms ++ ms_edges ms).

Lemma in_block_init size : 0 < size -> in_block size (init_model_state (Some size)).
Proof. intros. by exists size. Qed.

Context (size : Z).
Abbreviation stays_in m := (preserves (fun x : S * model_state_t => in_block size (snd x)) m).

Lemma Forall_lt_app l (a b : nat) : Forall (fun i => (i < a)%nat) l -> (a <= b)%nat -> Forall (fun i => (i < b)%nat) l.
Proof. intros Hl Hab. apply (Forall_impl _ _ _ Hl). lia. Qed.

Lemma host_in_block {A} (m : M S A) : stays_in (host m).
Proof. intros [t ms] Hin. unfold host. simpl. by destruct (m t). Qed.
Lemma ms_gets_in_block {A} (f : model_state_t -> A) : stays_in (ms_gets f).
Proof. by intros [t ms] Hin. Qed.
Lemma read_str_in_block array : stays_in (read_str array).
Proof. intros x Hin. unfold read_str. by case_bool. Qed.
Lemma mnode_load_in_block a : stays_in (mnode_load a).
Proof. unfold mnode_load. pose proof (@ms_gets_in_block). pres. Qed.
Lemma mnode_store_in_block a f : stays_in (mnode_store a f).
Proof.
  unfold mnode_store. apply preserves_bind; [apply mnode_load_in_block|intros n].
  intros [t ms] (rest & Hf & Hr & Hs & Hl). exists rest. simpl. by rewrite length_insert.
Qed.

(** memory is taken only before the end, and a new component is linked after it was placed *)
Lemma place_in_block c {B} (k : model_state_t -> M (S * model_state_t) B) :
  (forall ms, preserves (fun x : S * model_state_t => in_block size (snd x) /\ (length (ms_mem ms) < length (ms_mem (snd x)))%nat) (k ms)) ->
  stays_in (ms ← ms_gets (fun ms => ms);
    match ms_free ms with
    | None => ok ← host try_calloc; assert_ ok
    | Some rest =>
        assert_ (sizeof_component <? rest) ;;
        ms_modify (with_free (Some (rest - sizeof_component)))
    end ;;
    ms_modify (with_mem (fun mem => mem ++ [c])) ;; k ms).
Proof.
  intros Hk [t ms] (rest & Hf & Hr & Hs & Hl). cbn [snd] in *. erewrite (bind_ok (ms_gets _)) by reflexivity. cbn [snd].
  rewrite Hf, bind_assoc. destruct (Z.ltb_spec sizeof_component rest) as [Hlt|Hge]; [|by exists rest].
  erewrite (bind_ok (assert_ true)) by reflexivity. erewrite (bind_ok (ms_modify _)) by reflexivity.
  erewrite (bind_ok (ms_modify _)) by reflexivity. apply Hk. simpl.
  rewrite length_app. simpl. split; [|lia]. exists (rest - sizeof_component). simpl. rewrite length_app. simpl.
  split; [done|]. split; [lia|]. split; [lia|]. apply (Forall_lt_app _ _ _ Hl). lia.
Qed.
Lemma link_in_block (f : model_state_t -> model_state_t) ms :
  (forall ms', ms_mem (f ms') = ms_mem ms' /\ ms_free (f ms') = ms_free ms') ->
  (forall ms' a, a ∈ ms_nodes (f ms') ++ ms_edges (f ms') ->
     a ∈ ms_nodes ms' ++ ms_edges ms' \/ a = length (ms_mem ms)) ->
  preserves (fun x : S * model_state_t => in_block size (snd x) /\ (length (ms_mem ms) < length (ms_mem (snd x)))%nat)
    (ms_modify f : M (S * model_state_t) unit).
Proof.
  intros Hf Hl. apply preserves_modify. intros [t ms'] [(rest & Hr & Hp & Hs & Ha) Hlt]. simpl in *.
  destruct (Hf ms') as [Em Ef]. rewrite Em. split; [|done]. exists rest. rewrite Em, Ef. split_and!; try done.
  apply Forall_forall. intros a Hin. destruct (Hl _ _ Hin) as [Hin'|E]; [|by rewrite E].
  by apply (proj1 (Forall_forall _ _) Ha).
Qed.

#[local] Hint Resolve @host_in_block @ms_gets_in_block read_str_in_block mnode_load_in_block mnode_store_in_block : gpi.

Lemma add_node_in_block type id data extracted : stays_in (add_node try_calloc sizeof_component type id data extracted).
Proof.
  unfold add_node. apply preserves_bind; [apply ms_gets_in_block|]. intros [a|]; [pres|].
  cbv zeta. apply (place_in_block _ (fun ms => _ ← read_str _; ms_modify _ ;; mret _)). intros ms.
  apply preserves_bind; [intros x Hx; unfold read_str; by case_bool|intros _].
  apply preserves_bind; [|intros _ x Hx; exact Hx]. apply link_in_block; [done|].
  intros ms' b. simpl. rewrite !elem_of_app, list_elem_of_singleton. tauto.
Qed.
Lemma add_edge_in_block type from to req :
  stays_in (internal_add_edge_by_id try_calloc sizeof_component type from to req).
Proof.
  unfold internal_add_edge_by_id, copy_id. apply preserves_bind; [pres|intros f]. apply preserves_bind; [pres|intros u].
  cbv zeta. apply preserves_bind; [apply ms_gets_in_block|]. intros [e|]; [pres|].
  apply (place_in_block _ (fun ms => ms_modify _)). intros ms. apply link_in_block; [done|].
  intros ms' b. simpl. rewrite !elem_of_app, list_elem_of_singleton. tauto.
Qed.
#[local] Hint Resolve add_node_in_block add_edge_in_block : gpi.

Lemma combine_component_in_block c : stays_in (combine_component try_calloc sizeof_component c).
Proof. unfold combine_component. pres. Qed.
#[local] Hint Resolve combine_component_in_block : gpi.

Lemma graph_step_in_block o : stays_in (graph_step o).
Proof.
  destruct o; simpl; unfold add_pd_node, add_resource_node, add_resource_space_node, get_root_node, add_pd_node,
    set_node_extra, add_edge, ModelExport.add_edge_by_id, add_request_edge, add_request_edge_by_id, add_edge_private, node_str,
    combine_model_states, get_resource_id, get_resource_space_id, type_str; pres.
Qed.

(** C33: a model state in shared memory stays in its block.  Whatever is added to it
    -- nodes of PDs, resources and spaces, data of nodes, edges of all kinds, other
    model states -- in whatever order, and also when the process is stopped on the
    way: the components lie one after the other from the start of the block up to
    mem_ptr, which stays before the end, and the tables have no other addresses.
    When there is no room for one more, a new node or edge stops the process, and
    nothing has been written. *)
Theorem portable_memory_bounded (ops : list graph_op) t ms (Hin : in_block size ms) :
  in_block size (snd (for_each ops graph_step (t, ms)).2) /\
  forall rest, ms_free ms = Some rest -> rest <= sizeof_component ->
    (forall type id data extracted, find_node ms id = None ->
       add_node try_calloc sizeof_component type id data extracted (t, ms) = (Crash AssertFail, (t, ms))) /\
    (forall type from to req, fits_csv from -> fits_csv to ->
       edge_key type from to req ∉ edge_table ms ->
       internal_add_edge_by_id try_calloc sizeof_component type from to req (t, ms) = (Crash AssertFail, (t, ms))).
Proof.
  split.
  { apply (preserves_for_each (fun x => in_block size (snd x)) ops graph_step graph_step_in_block (t, ms) Hin). }
  intros rest Hf Hle. split.
  - intros type id data extracted Hnew. unfold add_node, get_node. erewrite (bind_ok (ms_gets _)) by reflexivity.
    cbn [snd]. rewrite Hnew. cbn [fmap option_fmap option_map]. erewrite (bind_ok (ms_gets _)) by reflexivity.
    cbn [snd]. rewrite Hf, bind_assoc. by rewrite (proj2 (Z.ltb_ge _ _) Hle).
  - intros type from to req Hfrom Hto Hnew. unfold internal_add_edge_by_id.
    rewrite (bind_ok _ _ _ _ _ (copy_id_run from t ms Hfrom)), (bind_ok _ _ _ _ _ (copy_id_run to t ms Hto)).
    erewrite (bind_ok (ms_gets _)) by reflexivity. cbn [snd]. fold (edge_key type from to req).
    destruct (hash_find_key _ (edge_table ms)) as [e|] eqn:E.
    { apply hash_find_key_sound in E as [Hk ->%bool_decide_eq_true]. done. }
    erewrite (bind_ok (ms_gets _)) by reflexivity. cbn [snd]. rewrite Hf, bind_assoc.
    by rewrite (proj2 (Z.ltb_ge _ _) Hle).
Qed.
End Portable.

(** a resource server's state, with a node, another node and an edge, in a block *)
Definition example_calloc : M unit bool := fun t => (Ok true, t).
Definition example_names : Z -> M unit (list Z) := fun _ t => (Ok (strncpy (chars "FILE") 16), t).
Definition example_graph : M (unit * model_state_t) unit :=
  from ← add_resource_node example_calloc example_names 376 (ResId 11 3 48879) true;
  to ← add_resource_space_node example_calloc example_names 376 11 3 true;
  add_edge example_calloc 376 GPI_EDGE_TYPE_SUBSET from to.
Definition example_portable : model_state_t :=
  snd (snd (example_graph (tt, init_model_state (Some 4096)))).

Lemma example_portable_wf : wf_model example_portable.
Proof.
  assert (example_portable = added_edge (edge_key GPI_EDGE_TYPE_SUBSET (chars "FILE_3_beef")
     (chars "FILE_SPACE_3") 0) (Some (4096 - 376 - 376 - 376))
    (added_node (fresh_node GPI_NODE_TYPE_SPACE (chars "FILE_SPACE_3") (Some (chars "FILE")) true) (Some (4096 - 376 - 376))
    (added_node (fresh_node GPI_NODE_TYPE_RESOURCE (chars "FILE_3_beef") (Some (chars "FILE")) true) (Some (4096 - 376))
    (init_model_state (Some 4096))))) as -> by (by vm_compute).
  apply wf_added_edge; [apply wf_added_node; [apply wf_added_node; [apply wf_init|..]|..]|..].
  - apply fresh_node_fits; [by apply chars_fits_decide|]. intros d [= <-]. by apply chars_fits_decide.
  - intros [|a] m Hm; by vm_compute in Hm.
  - apply fresh_node_fits; [by apply chars_fits_decide|]. intros d [= <-]. by apply chars_fits_decide.
  - intros [|[|a]] m Hm; [|by vm_compute in Hm..]. vm_compute in Hm. injection Hm as <-. by vm_compute.
  - split; apply holds_strncpy; by apply (bool_decide_unpack _); vm_compute.
  - intros [[|[|[|a]]] Ha]; by vm_compute in Ha.
Qed.

Lemma combine_is_union_witness :
  exists t' ms', combine_model_states example_calloc 376 (published example_portable)
      (tt, init_model_state None) = (Ok tt, (t', ms')) /\
    union_graph (init_model_state None) example_portable ms' /\
    exists t2 ms2, combine_model_states example_calloc 376 (published example_portable) (t', ms') =
        (Ok tt, (t2, ms2)) /\
      (forall id, model_node ms2 id = model_node ms' id) /\ (forall k, has_edge ms2 k <-> has_edge ms' k).
Proof.
  apply combine_is_union; [by intros []; exists true, tt|lia|apply wf_init|apply example_portable_wf|exact I].
Defined.

(** a block for ten components takes nine *)
Lemma portable_memory_bounded_witness :
  in_block 376 3760 (snd (for_each (repeat OpRootNode 2 ++ [OpPdNode None 7 true; OpRequestEdgeById (chars "PD_7") (chars "PD_0") 3])
    (graph_step example_calloc example_names 376) (tt, init_model_state (Some 3760))).2).
Proof.
  apply (portable_memory_bounded example_calloc example_names 376 3760). by apply in_block_init.
Defined.
