(* ===== verification/Component.v ===== *)
(** * Resource components: shared operations

    Model of the part of [libsel4gpi/src/resource_component_utils.c] and
    [gpi_rpc.c] that does not depend on protection domains: reference counts of
    the objects of a component, moving capabilities between cspaces, badged
    endpoints, and the checks on received capabilities.  A component is a pointer
    to its registry; [resource_component_allocate] is in PdResources, since it
    adds the object to its client. *)

From stdpp Require Import base numbers list gmap.
From S2P Require Import Prelude Badge Registry State.

(** the components, and resource_component_get_context_from_type *)
Inductive component := AdsComponent | MoComponent | CpuComponent | PdComponent | EpComponent
  | ResspcComponent.

Definition resource_component_get_context_from_type (type : Z) : option component :=
  if (type =? GPICAP_TYPE_ADS) || (type =? GPICAP_TYPE_VMR) then Some AdsComponent
  else if type =? GPICAP_TYPE_MO then Some MoComponent
  else if (type =? GPICAP_TYPE_CPU) || (type =? GPICAP_TYPE_PCPU) then Some CpuComponent
  else if type =? GPICAP_TYPE_PD then Some PdComponent
  else if type =? GPICAP_TYPE_EP then Some EpComponent
  else if type =? GPICAP_TYPE_RESSPC then Some ResspcComponent
  else None.

Section Component.
Context `{UTHash} (sys : list xcall -> xcall -> Z * Z).
Context (run_cb : CB -> nat -> nat -> M server unit).

(** ** Reference counts *)
Section Counts.
Context {A : Type} (p : regptr server A CB).

Definition resource_component_registry_get_by_badge (badge : Z) : M server (option nat) :=
  resource_registry_get_by_badge p badge.

Definition resource_component_registry_get_by_id (object_id : Z) : M server (option nat) :=
  resource_registry_get_by_id p object_id.

Definition resource_component_inc (object_id : Z) : M server Z :=
  reg_entry ← resource_component_registry_get_by_id object_id;
  match reg_entry with
  | None => mret 1
  | Some a => resource_registry_inc p a ;; mret 0
  end.

Definition resource_component_dec (object_id : Z) : M server Z :=
  reg_entry ← resource_component_registry_get_by_id object_id;
  match reg_entry with
  | None => mret 1
  | Some a => resource_registry_dec run_cb p a ;; mret 0
  end.

Definition resource_component_delete (object_id : Z) : M server Z :=
  reg_entry ← resource_component_registry_get_by_id object_id;
  match reg_entry with
  | None => mret 1
  | Some a => resource_registry_delete run_cb p a ;; mret 0
  end.
End Counts.

(** resource_component_inc on the result of
    resource_component_get_context_from_type: there is no check for NULL *)
Definition resource_component_inc_by_type (type object_id : Z) : M server Z :=
  match resource_component_get_context_from_type type with
  | Some AdsComponent => resource_component_inc ads_p object_id
  | Some MoComponent => resource_component_inc mo_p object_id
  | Some CpuComponent => resource_component_inc cpu_p object_id
  | Some PdComponent => resource_component_inc pd_p object_id
  | Some EpComponent => resource_component_inc ep_p object_id
  | Some ResspcComponent => resource_component_inc resspc_p object_id
  | None => crash NullDeref
  end.

(** ** Capabilities *)

(** the error code, and the slot in the destination path, if it was written *)
Definition resource_component_transfer_cap (src_vka dst_vka src_cap : Z) (mint : bool) (badge : Z)
  : M server (Z * option Z) :=
  let vka := if dst_vka =? 0 then src_vka else dst_vka in
  r ← ext sys VkaCspaceAlloc [vka];
  let '(error, dest) := r : Z * Z in
  if negb (error =? 0) then mret (error, None)
  else if mint then
    error ← ext_err sys VkaCnodeMint [vka; dest; src_vka; src_cap; badge];
    mret (error, Some dest)
  else
    error ← ext_err sys VkaCnodeCopy [vka; dest; src_vka; src_cap];
    mret (error, Some dest).

(** the result of the mint is not checked: the slot is returned all the same *)
Definition resource_component_make_badged_ep
    (src_vka dst_vka src_ep resource_type space_id object_id client_id : Z) : M server Z :=
  badge ← gpi_new_badge resource_type 0 client_id space_id object_id;
  if badge =? 0 then mret CapNull
  else
    r ← resource_component_transfer_cap src_vka dst_vka src_ep true badge;
    mret (default CapNull (snd r)).

(** ** gpi_rpc.c: what decoding a request from the IPC buffer returned, and the
    encoding of a reply to it *)
Definition sel4gpi_rpc_recv {B} (decoded : option B) : Z :=
  match decoded with Some _ => 0 | None => 1 end.

(** the words that hold a number of bytes *)
Definition message_words (bytes_written : Z) : Z :=
  bytes_written / 8 + (if bytes_written mod 8 =? 0 then 0 else 1).

(** the error code, and the length of the message [*msg_info] *)
Definition sel4gpi_rpc_reply : M server (Z * option Z) :=
  r ← ext sys PbEncode [];
  let '(error, bytes_written) := r : Z * Z in
  mret (if error =? 0 then (0, Some (message_words bytes_written)) else (1, None)).
End Component.

(** ** gpi_rpc.c: the capabilities that came with a message *)

(** seL4_GetCap(0), and seL4_GetBadge(i) of the capabilities that were unwrapped *)
Record ipc := Ipc { ipc_cap0 : Z; ipc_badges : list Z }.
Definition GetBadge (m : ipc) (i : nat) : Z := default 0 (ipc_badges m !! i).

Definition sel4gpi_rpc_check_cap (m : ipc) (type : Z) : bool :=
  if type =? GPICAP_TYPE_NONE then negb (ipc_cap0 m =? 0)
  else get_cap_type_from_badge (GetBadge m 0) =? type.

Definition sel4gpi_rpc_check_caps_2 (m : ipc) (type1 type2 : Z) : bool :=
  sel4gpi_rpc_check_cap m type1 && (get_cap_type_from_badge (GetBadge m 1) =? type2).

Definition sel4gpi_rpc_check_caps_3 (m : ipc) (type1 type2 type3 : Z) : bool :=
  sel4gpi_rpc_check_caps_2 m type1 type2 && (get_cap_type_from_badge (GetBadge m 2) =? type3).

(** ** Lemmas *)
Section ComponentLemmas.
Context `{UTHash} {A : Type} (p : regptr server A CB) `{!LawfulPtr p}.
Context (run_cb : CB -> nat -> nat -> M server unit).
Implicit Types (r : registry A CB) (s : server).

Lemma get_by_id_present s r n : rget p s = Some r -> wf_registry r -> n ∈ head r ->
  resource_component_registry_get_by_id p (object_id n) s = (Ok (Some (n_addr n)), s).
Proof.
  intros Hr Hwf Hin. unfold resource_component_registry_get_by_id.
  rewrite (get_by_id_run p s r _ Hr Hwf).
  destruct (List.find _ _) as [m|] eqn:E.
  - apply List.find_some in E as [Hm E]. apply Z.eqb_eq in E. apply list_elem_of_In in Hm.
    assert (m = n) as -> by (by apply (elem_of_inj object_id (head r)); [apply Hwf|..]). done.
  - apply list_elem_of_In in Hin. apply (List.find_none _ _ E) in Hin. by rewrite Z.eqb_refl in Hin.
Qed.

Lemma get_by_id_absent s r k : rget p s = Some r -> wf_registry r -> reg_abs r !! k = None ->
  resource_component_registry_get_by_id p k s = (Ok None, s).
Proof.
  intros Hr Hwf Hk. unfold resource_component_registry_get_by_id.
  rewrite (get_by_id_run p s r _ Hr Hwf).
  destruct (List.find _ _) as [m|] eqn:E; [|done].
  apply List.find_some in E as [Hm E]. apply Z.eqb_eq in E. apply list_elem_of_In in Hm.
  rewrite reg_abs_None in Hk by done. by destruct (Hk m Hm).
Qed.

Lemma abs_node r k c x : wf_registry r -> reg_abs r !! k = Some (c, x) ->
  exists n, n ∈ head r /\ object_id n = k /\ count n = c /\ payload n = x.
Proof.
  intros Hwf (n & Hin & Hk & E)%reg_abs_lookup; [|done]. injection E as E1 E2. by exists n.
Qed.

(** the increment of a count that does not overflow *)
Lemma inc_small_run s r n : rget p s = Some r -> wf_registry r -> n ∈ head r ->
  count n < 2 ^ 32 - 1 ->
  exists r', resource_registry_inc p (n_addr n) s = (Ok tt, rput p r' s) /\ wf_registry r' /\
    with_count (count n + 1) n ∈ head r' /\ same_frame r' r /\
    n_addr <$> head r' = n_addr <$> head r /\
    reg_abs r' = <[object_id n := (count n + 1, payload n)]> (reg_abs r).
Proof.
  intros Hr Hwf Hin Hc.
  pose proof (proj1 (Forall_forall _ _) (wf_nodes _ Hwf) n Hin) as [Hn _].
  exists (with_head (hash_upd (head r) (n_addr n) (with_count (count n + 1))) r).
  assert (wf_registry (with_head (hash_upd (head r) (n_addr n) (with_count (count n + 1))) r))
    as Hwf' by (apply wf_hash_upd; [done|lia]).
  split; [|split; [done|split; [|split; [done|split]]]].
  - rewrite (inc_run p s r n Hr Hwf Hin). do 3 f_equal.
    unfold hash_upd. apply list_fmap_ext. intros i m Hm%list_elem_of_lookup_2.
    destruct (Nat.eqb_spec (n_addr m) (n_addr n)) as [E|]; [|done].
    assert (m = n) as -> by (by apply (elem_of_inj n_addr (head r)); [apply Hwf|..]).
    unfold u32. by rewrite wrap_small by lia.
  - apply hash_upd_elem. exists n. by rewrite Nat.eqb_refl.
  - by apply hash_upd_proj.
  - by rewrite reg_abs_upd.
Qed.
End ComponentLemmas.

(** ** Properties *)
Section ComponentProperties.
Context `{UTHash} {A : Type} (p : regptr server A CB) `{!LawfulPtr p}.
Context (run_cb : CB -> nat -> nat -> M server unit).

(** taking a reference to an object by its identifier and dropping it again
    leaves the abstract registry as it was, returns success twice, and runs no
    deletion callback. *)
Theorem component_inc_dec_identity (s : server) (r : registry A CB) (k c : Z) (x : A)
  (Hr : rget p s = Some r) (Hwf : wf_registry r)
  (Hk : reg_abs r !! k = Some (c, x)) (Hc : c < 2 ^ 32 - 1) :
  exists r', (e1 ← resource_component_inc p k; e2 ← resource_component_dec run_cb p k;
              mret (e1, e2)) s = (Ok (0, 0), rput p r' s) /\
    wf_registry r' /\ reg_abs r' = reg_abs r.
Proof.
  destruct (abs_node r k c x Hwf Hk) as (n & Hin & <- & <- & <-).
  pose proof (proj1 (Forall_forall _ _) (wf_nodes _ Hwf) n Hin) as [Hn _].
  destruct (inc_small_run p s r n Hr Hwf Hin Hc) as (r1 & Hrun & Hwf1 & Hin1 & _ & _ & Habs1).
  set (n1 := with_count (count n + 1) n) in *.
  pose proof (rget_with p r1 r s Hr) as Hr1.
  destruct (dec_spec run_cb p (rput p r1 s) (rput p r1 s) r1 n1 Hr1 Hwf1 Hin1)
    as (r2 & Hwf2 & _ & Hdec); [simpl; lia|].
  change (count n1) with (count n + 1) in Hdec. rewrite (proj2 (Z.eqb_neq (count n + 1) 1)) in Hdec by lia.
  destruct Hdec as [Hdec Habs2]. rewrite rput_rput in Hdec.
  exists r2. split; [|split; [done|]].
  - unfold resource_component_inc, resource_component_dec. rewrite !bind_assoc.
    rewrite (bind_ok _ _ _ _ _ (get_by_id_present p s r n Hr Hwf Hin)).
    rewrite bind_assoc, (bind_ok _ _ _ _ _ Hrun).
    erewrite (bind_ok (mret 0)) by reflexivity. rewrite bind_assoc.
    rewrite (bind_ok _ _ _ _ _ (get_by_id_present p _ r1 n1 Hr1 Hwf1 Hin1)).
    by rewrite bind_assoc, (bind_ok _ _ _ _ _ Hdec).
  - rewrite Habs2, Habs1, insert_insert_eq. simpl. replace (count n + 1 - 1) with (count n) by lia.
    apply insert_id. by rewrite Hk.
Qed.

(** Reference operations on an identifier that is not registered return error
    1 and leave the state unchanged. *)
Theorem component_ops_missing (s : server) (r : registry A CB) (k : Z)
  (Hr : rget p s = Some r) (Hwf : wf_registry r) (Hk : reg_abs r !! k = None) :
  resource_component_inc p k s = (Ok 1, s) /\
  resource_component_dec run_cb p k s = (Ok 1, s) /\
  resource_component_delete run_cb p k s = (Ok 1, s).
Proof.
  pose proof (get_by_id_absent p s r k Hr Hwf Hk) as E.
  unfold resource_component_inc, resource_component_dec, resource_component_delete.
  by rewrite !(bind_ok _ _ _ _ _ E).
Qed.

(** the server after a capability was minted with badge [b] into a new slot *)
Definition minted (vka src_vka src_ep dest b : Z) (s : server) : server :=
  called (VkaCnodeMint, [vka; dest; src_vka; src_ep; b]) (called (VkaCspaceAlloc, [vka]) s).

Lemma badge_of_nonzero t c sp o : 1 <= t <= BADGE_MAX_CAP_TYPE -> obj_ok c -> space_ok sp ->
  obj_ok o -> (badge_of t c sp o =? 0) = false.
Proof.
  intros Ht Hc Hsp Ho. apply Z.eqb_neq. intros E.
  assert (type_ok t) as Ht' by (unfold type_ok, BADGE_MAX_CAP_TYPE in *; lia).
  destruct (badge_of_fields t c sp o Ht' Hc Hsp Ho) as (Et & _). rewrite E in Et.
  change (get_cap_type_from_badge 0) with 0 in Et. lia.
Qed.

Lemma make_badged_ep_run (sys : list xcall -> xcall -> Z * Z) (s : server) src_vka dst_vka src_ep t sp o c dest :
  1 <= t <= BADGE_MAX_CAP_TYPE -> space_ok sp -> obj_ok o -> obj_ok c ->
  let vka := if dst_vka =? 0 then src_vka else dst_vka in
  sys (log s) (VkaCspaceAlloc, [vka]) = (0, dest) ->
  resource_component_make_badged_ep sys src_vka dst_vka src_ep t sp o c s =
    (Ok dest, minted vka src_vka src_ep dest (badge_of t c sp o) s).
Proof.
  intros Ht Hsp Ho Hc vka Ha. unfold resource_component_make_badged_ep.
  assert (type_ok t) as Ht' by (unfold type_ok, BADGE_MAX_CAP_TYPE in *; lia).
  rewrite (bind_ok _ _ _ _ _ (gpi_new_badge_run t c sp o s Ht' Hc Hsp Ho)).
  rewrite badge_of_nonzero by done.
  unfold resource_component_transfer_cap. fold vka. rewrite bind_assoc.
  rewrite (bind_ok _ _ _ _ _ (ext_run sys _ _ s)). rewrite Ha. reflexivity.
Qed.

(** a badged endpoint names its resource: when a slot is free, the capability
    minted into the client's cspace has a badge from which every field of the
    resource and its client can be read back, and the slot is returned, whatever
    the kernel answered to the mint; when no slot is free, the result is the null
    slot and nothing is minted. *)
Theorem make_badged_ep_mints (sys : list xcall -> xcall -> Z * Z) (s : server)
  (src_vka dst_vka src_ep t sp o c : Z)
  (Ht : 1 <= t <= BADGE_MAX_CAP_TYPE) (Hsp : 0 <= sp <= BADGE_MAX_SPACE_ID)
  (Ho : 0 <= o <= BADGE_MAX_OBJ_ID) (Hc : 0 <= c <= BADGE_MAX_CLIENT_ID) :
  let vka := if dst_vka =? 0 then src_vka else dst_vka in
  let r := sys (log s) (VkaCspaceAlloc, [vka]) in
  if fst r =? 0 then
    exists b, resource_component_make_badged_ep sys src_vka dst_vka src_ep t sp o c s =
        (Ok (snd r), minted vka src_vka src_ep (snd r) b s) /\
      get_cap_type_from_badge b = t /\ get_space_id_from_badge b = sp /\
      get_object_id_from_badge b = o /\ get_client_id_from_badge b = c
  else
    resource_component_make_badged_ep sys src_vka dst_vka src_ep t sp o c s =
      (Ok CapNull, called (VkaCspaceAlloc, [vka]) s).
Proof.
  intros vka r. destruct r as [e dest] eqn:Er. unfold r in Er. simpl.
  assert (type_ok t) as Ht' by (unfold type_ok, BADGE_MAX_CAP_TYPE in *; lia).
  destruct (Z.eqb_spec e 0) as [->|He].
  - exists (badge_of t c sp o). split; [by apply make_badged_ep_run|].
    destruct (badge_of_fields t c sp o Ht' Hc Hsp Ho) as (? & _ & ? & ? & ?). done.
  - unfold resource_component_make_badged_ep.
    rewrite (bind_ok _ _ _ _ _ (gpi_new_badge_run t c sp o s Ht' Hc Hsp Ho)).
    rewrite badge_of_nonzero by done.
    unfold resource_component_transfer_cap. fold vka. rewrite bind_assoc.
    rewrite (bind_ok _ _ _ _ _ (ext_run sys _ _ s)). rewrite Er.
    by rewrite (proj2 (Z.eqb_neq e 0) He).
Qed.
End ComponentProperties.

Lemma wf_single {A} (n : node A) mx ctr cb arg : node_ok mx n ->
  wf_registry (Registry (CB := CB) [n] mx ctr cb arg).
Proof.
  intros Hn. split; simpl; [apply NoDup_singleton|apply NoDup_singleton|].
  by apply Forall_singleton.
Qed.

(** ** Witnesses: a server with one endpoint, held twice *)
Section ComponentWitnesses.
Definition ep_reg_demo : registry ep_t CB := Registry [Node 5 3 2 ep_zero] 100 3 (Some CbEp) 0.
Definition ep_demo : server := set_ep_component (Rcc GPICAP_TYPE_EP 6 ep_reg_demo 0 9) server_zero.
Definition cb_demo : CB -> nat -> nat -> M server unit := fun _ _ _ => crash NullDeref.
Definition sys_demo (l : list xcall) (c : xcall) : Z * Z := (0, Z.of_nat (length l) + 1).

Lemma ep_reg_demo_wf : wf_registry ep_reg_demo.
Proof. apply wf_single. split; simpl; lia. Qed.

Lemma component_inc_dec_identity_witness :
  exists r', (e1 ← resource_component_inc ep_p 3; e2 ← resource_component_dec cb_demo ep_p 3;
              mret (e1, e2)) ep_demo = (Ok (0, 0), rput ep_p r' ep_demo) /\
    wf_registry r' /\ reg_abs r' = reg_abs ep_reg_demo.
Proof.
  apply (component_inc_dec_identity ep_p cb_demo ep_demo ep_reg_demo 3 2 ep_zero);
    [reflexivity|exact ep_reg_demo_wf|reflexivity|lia].
Defined.

Lemma component_ops_missing_witness :
  resource_component_dec cb_demo ep_p 4 ep_demo = (Ok 1, ep_demo).
Proof.
  apply (component_ops_missing ep_p cb_demo ep_demo ep_reg_demo 4);
    [reflexivity|exact ep_reg_demo_wf|reflexivity].
Defined.

Lemma make_badged_ep_mints_witness :
  exists b, resource_component_make_badged_ep sys_demo 1 0 9 GPICAP_TYPE_EP 6 3 2 ep_demo =
      (Ok 1, minted 1 1 9 1 b ep_demo) /\ get_client_id_from_badge b = 2.
Proof.
  pose proof (make_badged_ep_mints sys_demo ep_demo 1 0 9 GPICAP_TYPE_EP 6 3 2) as Hm.
  destruct Hm as (b & Hb & _ & _ & _ & Hc); [unfold GPICAP_TYPE_EP, BADGE_MAX_CAP_TYPE; lia
    |unfold BADGE_MAX_SPACE_ID; lia|unfold BADGE_MAX_OBJ_ID; lia|unfold BADGE_MAX_CLIENT_ID; lia|].
  exists b. split; [exact Hb|exact Hc].
Defined.
End ComponentWitnesses.
