(* ===== verification/PdResources.v ===== *)
(** * What a protection domain holds

    Model of the part of [libsel4gpi/src/pd_obj.c] and [pd_component.c] that
    manages what a PD has: its held resources (the registry [hold_registry], keyed
    by compact identifiers), its resource directory (the [rde] table of its shared
    data), its linked PDs, its slots and its queues of pending work; and, on top
    of these, resource_component_allocate and resource_component_remove_from_rt of
    [resource_component_utils.c].  A [pd_t *] is the address of the PD's entry in
    the PD registry. *)

From stdpp Require Import base numbers list gmap.
From S2P Require Import Prelude Strings Badge Registry State ResourceTypes Component.

(** PdComponentError_UNKNOWN; the other components use the same value *)
Definition DEFAULT_ERR : Z := 11.
Definition PdComponentError_OPERATION_IN_PROGRESS : Z := 12.

Section PdResources.
Context `{UTHash} (sys : list xcall -> xcall -> Z * Z).
Context (run_cb : CB -> nat -> nat -> M server unit).

(** linked_list_new and linked_list_insert on the data of a list *)
Definition list_new {A} : M server (list A) :=
  a ← calloc sys; assert_ (bool_decide (is_Some a)) ;; mret [].
Definition list_insert {A} (l : list A) (x : A) : M server (list A) :=
  a ← calloc sys; assert_ (bool_decide (is_Some a)) ;; mret (l ++ [x]).

(** ** Lookups *)
Definition pd_component_registry_get_entry_by_id (object_id : Z) : M server (option nat) :=
  resource_component_registry_get_by_id pd_p object_id.
Definition pd_component_registry_get_entry_by_badge (badge : Z) : M server (option nat) :=
  resource_component_registry_get_by_badge pd_p badge.
Definition resource_space_get_entry_by_id (space_id : Z) : M server (option nat) :=
  resource_component_registry_get_by_id resspc_p space_id.

(** ** Held resources *)
Definition res_compact_id (res_id : gpi_res_id_t) : M server Z :=
  compact_res_id (rid_type res_id) (rid_space res_id) (rid_object res_id).

Definition pd_add_resource (pd : nat) (res_id : gpi_res_id_t)
    (slot_in_RT slot_in_PD slot_in_serverPD : Z) : M server Z :=
  compact_id ← res_compact_id res_id;
  node ← resource_registry_get_by_id (hold_p pd) compact_id;
  match node with
  | Some node => resource_registry_inc (hold_p pd) node ;; mret 0
  | None =>
      node ← calloc sys;
      match node with
      | None => mret DEFAULT_ERR
      | Some a =>
          resource_registry_insert (hold_p pd)
            (Node a compact_id 0 (HoldNode slot_in_PD slot_in_RT slot_in_serverPD res_id)) ;;
          mret 0
      end
  end.

Definition pd_get_resource (pd : nat) (res_id : gpi_res_id_t) : M server (option nat) :=
  compact_id ← res_compact_id res_id;
  resource_registry_get_by_id (hold_p pd) compact_id.

(** the error code and [*dest] *)
Definition pd_badge_and_add_resource (pd : nat) (res_id : gpi_res_id_t) (raw_ep : Z)
  : M server (Z * Z) :=
  hold_node ← pd_get_resource pd res_id;
  match hold_node with
  | Some hold_node =>
      n ← obj_load (hold_p pd) hold_node;
      error ← pd_add_resource pd res_id CapNull CapNull CapNull;
      mret (error, slot_in_PD_Debug n)
  | None =>
      p ← pd_load pd;
      dest ← resource_component_make_badged_ep sys server_vka (pd_vka p) raw_ep
               (rid_type res_id) (rid_space res_id) (rid_object res_id) (pd_id p);
      error ← pd_add_resource pd res_id CapNull dest CapNull;
      mret (error, dest)
  end.

Definition pd_remove_resource (pd : nat) (res_id : gpi_res_id_t) : M server Z :=
  res_node_id ← res_compact_id res_id;
  node ← resource_registry_get_by_id (hold_p pd) res_node_id;
  match node with
  | Some node => resource_registry_dec run_cb (hold_p pd) node
  | None => mret tt
  end ;;
  mret 0.

Definition pd_delete_resource (pd : nat) (res_id : gpi_res_id_t) : M server Z :=
  res_node_id ← res_compact_id res_id;
  node ← resource_registry_get_by_id (hold_p pd) res_node_id;
  match node with
  | Some node => resource_registry_delete run_cb (hold_p pd) node
  | None => mret tt
  end ;;
  mret 0.

Definition pd_has_resources_in_space (pd : nat) (space_id : Z) : M server bool :=
  found ← hash_iter_until (hold_p pd) (fun curr =>
    n ← obj_load (hold_p pd) curr;
    mret (if rid_space (hold_res_id n) =? space_id then Some true else None));
  mret (default false found).

Definition pd_remove_resources_in_space (pd : nat) (space_id : Z) : M server Z :=
  hash_iter (hold_p pd) (fun curr =>
    n ← obj_load (hold_p pd) curr;
    when (rid_space (hold_res_id n) =? space_id)
      (resource_registry_delete run_cb (hold_p pd) curr)) ;;
  mret 0.

(** the addresses of the hold nodes of a type *)
Definition pd_get_resources_of_type (pd : nat) (type : Z) : M server (list nat) :=
  found ← list_new;
  registry ← reg_load (hold_p pd);
  (fix loop (l : list (node pd_hold_node_t)) (found : list nat) : M server (list nat) :=
     match l with
     | [] => mret found
     | current_cap :: l =>
         if rid_type (hold_res_id (payload current_cap)) =? type then
           found ← list_insert found (n_addr current_cap); loop l found
         else loop l found
     end) (head registry) found.

(** the list holds hold nodes of the PD [src] *)
Fixpoint pd_bulk_add_resource (pd src : nat) (resources : list nat) (error : Z) : M server Z :=
  match resources with
  | [] => mret error
  | curr :: resources =>
      res ← obj_load (hold_p src) curr;
      let res_id := hold_res_id res in
      resource_space_data ← resource_space_get_entry_by_id (rid_space res_id);
      resource_space_data ← deref resource_space_data;
      space ← obj_load resspc_p resource_space_data;
      r ← pd_badge_and_add_resource pd res_id (spc_server_ep space);
      (if (GPICAP_TYPE_NONE <? rid_type res_id) && (rid_type res_id <? GPICAP_TYPE_MAX) then
         _ ← resource_component_inc_by_type (rid_type res_id) (rid_object res_id); mret tt
       else mret tt) ;;
      pd_bulk_add_resource pd src resources (fst r)
  end.

(** linear search for the hold node of a slot *)
Definition pd_find_hold_node_by_cptr (pd : nat) (cptr : Z) : M server (option nat) :=
  registry ← reg_load (hold_p pd);
  mret (n_addr <$> List.find (fun n => slot_in_PD_Debug (payload n) =? cptr) (head registry)).

(** ** The resource directory *)

(** the row of a type: past the 17 rows, the array is left *)
Definition rde_row (pd : nat) (type : Z) : M server (list osmosis_rde_t) :=
  sh ← shared_load pd;
  match rde sh !! Z.to_nat type with
  | Some row => mret row
  | None => crash OutOfBounds
  end.

Definition rde_store (pd : nat) (type : Z) (idx : nat) (f : osmosis_rde_t -> osmosis_rde_t)
  : M server unit :=
  _ ← rde_row pd type;
  shared_store pd (fun sh => set_rde (alter (alter f idx) (Z.to_nat type) (rde sh)) sh).

Fixpoint rde_find (type space_id : Z) (i : nat) (row : list osmosis_rde_t) : option nat :=
  match row with
  | [] => None
  | r :: row =>
      if (space_id =? BADGE_SPACE_ID_NULL) && (rde_type r =? type) then Some i
      else if rde_space_id r =? space_id then Some i
      else rde_find type space_id (S i) row
  end.

(** -1 is [None] *)
Definition pd_rde_find_idx (pd : nat) (type space_id : Z) : M server (option nat) :=
  row ← rde_row pd type;
  mret (rde_find type space_id 0 row).

(** the entry, or NULL *)
Definition pd_rde_get (pd : nat) (type space_id : Z) : M server (option osmosis_rde_t) :=
  idx ← pd_rde_find_idx pd type space_id;
  match idx with
  | None => mret None
  | Some idx => row ← rde_row pd type; mret (row !! idx)
  end.

Definition pd_add_type_name (pd : nat) (type : Z) (type_name : list Z) : M server unit :=
  sh ← shared_load pd;
  if (Z.to_nat type <? length (type_names sh))%nat then
    shared_store pd (fun sh => set_type_names
      (<[Z.to_nat type := strncpy type_name RESOURCE_TYPE_MAX_STRING_SIZE]> (type_names sh)) sh)
  else crash OutOfBounds.

Fixpoint rde_free (type space_id : Z) (i : nat) (row : list osmosis_rde_t) : option nat :=
  match row with
  | [] => None
  | r :: row =>
      if (rde_space_id r =? space_id) && (rde_type r =? type) then None
      else if rde_type r =? GPICAP_TYPE_NONE then Some i
      else rde_free type space_id (S i) row
  end.

Definition pd_add_rde (pd : nat) (type : Z) (type_name : list Z) (space_id server_ep : Z)
  : M server Z :=
  row ← rde_row pd type;
  match rde_free type space_id 0 row with
  | None => mret 1
  | Some idx =>
      pd_add_type_name pd type type_name ;;
      rde_store pd type idx (set_rde_space_id space_id) ;;
      rde_store pd type idx (set_rde_type type) ;;
      rde_store pd type idx (set_rde_slot_in_RT server_ep) ;;
      p ← pd_load pd;
      r ← ext sys VkaCspaceAlloc [pd_vka p];
      let '(error, dest) := r : Z * Z in
      if negb (error =? 0) then mret error
      else
        badge_val ← gpi_new_badge type 0 (pd_id p) space_id BADGE_OBJ_ID_NULL;
        error ← ext_err sys VkaCnodeMint [pd_vka p; dest; server_vka; server_ep; badge_val];
        if negb (error =? 0) then mret error
        else
          rde_store pd type idx (set_rde_slot_in_PD dest) ;;
          shared_store pd (fun sh => set_rde_count (u64 (rde_count sh + 1)) sh) ;;
          mret 0
  end.

Definition pd_remove_rde_by_idx (pd : nat) (type : Z) (idx : nat) : M server Z :=
  row ← rde_row pd type;
  r ← deref (row !! idx);
  p ← pd_load pd;
  try_ (ext_err sys VkaCnodeRevoke [pd_vka p; rde_slot_in_PD r])
  (try_ (ext_err sys VkaCnodeDelete [pd_vka p; rde_slot_in_PD r])
  (rde_store pd type idx (set_rde_space_id BADGE_SPACE_ID_NULL) ;;
   rde_store pd type idx (set_rde_type GPICAP_TYPE_NONE) ;;
   rde_store pd type idx (set_rde_slot_in_RT CapNull) ;;
   rde_store pd type idx (set_rde_slot_in_PD CapNull) ;;
   shared_store pd (fun sh => set_rde_count (u64 (rde_count sh - 1)) sh) ;;
   mret 0)).

Fixpoint pd_remove_rde_loop (pd : nat) (type space_id : Z) (idxs : list nat) (found_entry : bool)
  : M server Z :=
  match idxs with
  | [] => mret (if found_entry then 0 else 1)
  | i :: idxs =>
      row ← rde_row pd type;
      r ← deref (row !! i);
      if (rde_type r =? type) && ((rde_space_id r =? space_id) || (space_id =? BADGE_SPACE_ID_NULL))
      then
        try_ (pd_remove_rde_by_idx pd type i)
          (if negb (space_id =? BADGE_SPACE_ID_NULL) then mret 0
           else pd_remove_rde_loop pd type space_id idxs true)
      else pd_remove_rde_loop pd type space_id idxs found_entry
  end.

Definition pd_remove_rde (pd : nat) (type space_id : Z) : M server Z :=
  if type =? GPICAP_TYPE_NONE then mret 0
  else
    assert_ ((0 <? type) && (type <? GPICAP_TYPE_MAX)) ;;
    pd_remove_rde_loop pd type space_id (seq 0 MAX_NS_PER_RDE) false.

(** ** Linked PDs *)

(** the node's identifier is left at the 0 of calloc *)
Definition pd_add_linkage (pd : nat) (linked_pd_id : Z) : M server Z :=
  linkage ← resource_registry_get_by_id (linked_p pd) linked_pd_id;
  match linkage with
  | Some _ => mret 0
  | None =>
      linkage ← calloc sys;
      linkage ← deref linkage;
      resource_registry_insert (linked_p pd) (Node linkage 0 0 (LinkNode linked_pd_id)) ;;
      mret 0
  end.

Definition pd_mark_linked_for_deletion (pd : nat) : M server unit :=
  registry ← reg_load (linked_p pd);
  match head registry with
  | [] => mret tt
  | _ => hash_iter (linked_p pd) (fun current => resource_registry_delete run_cb (linked_p pd) current)
  end.

(** ** Slots *)

(** the error code and [*next_free_slot] *)
Definition pd_next_slot (pd : nat) : M server (Z * Z) :=
  p ← pd_load pd;
  r ← ext sys VkaCspaceAlloc [pd_vka p];
  let '(error, slot) := r : Z * Z in
  mret (error, if error =? 0 then slot else CapNull).

Definition pd_clear_slot (pd : nat) (slot : Z) : M server Z :=
  p ← pd_load pd;
  ext_err sys VkaCnodeDelete [pd_vka p; slot].

Definition pd_free_slot (pd : nat) (slot : Z) : M server Z :=
  p ← pd_load pd;
  ext_ sys VkaCspaceFree [pd_vka p; slot] ;;
  mret 0.

Definition pd_set_name (pd : nat) (image_name : list Z) : M server unit :=
  pd_store pd (set_pd_name image_name).

(** ** Pending work *)
Definition work_insert (pd : nat) (action : nat) (work : pd_work_entry_t) : M server unit :=
  e ← obj_load pd_p pd;
  match pending_work e !! action with
  | Some (Some l) =>
      l ← list_insert l work;
      obj_store pd_p pd (fun e => set_pending_work (<[action := Some l]> (pending_work e)) e)
  | Some None => mret tt      (* linked_list_insert on a NULL list does nothing *)
  | None => crash OutOfBounds
  end.

Definition notify (pd : nat) : M server unit :=
  p ← pd_load pd;
  ext_ sys Signal [badged_notification p].

Definition pd_component_queue_model_extraction_work (pd : nat) (work : pd_work_entry_t)
  : M server unit :=
  work_insert pd PdWorkAction_EXTRACT work ;;
  modify (fun s => set_model_extraction_n_missing (i32 (model_extraction_n_missing s + 1)) s) ;;
  notify pd.

(** the critical flag and the termination counter of free and destroy work *)
Definition count_critical (work : pd_work_entry_t) : M server pd_work_entry_t :=
  s ← get_state;
  if starting_termination s then
    modify (fun s => set_pd_termination_n_missing (i32 (pd_termination_n_missing s + 1)) s) ;;
    mret (WorkEntry (work_res_id work) (client_pd_id work) true)
  else mret (WorkEntry (work_res_id work) (client_pd_id work) false).

Definition pd_component_queue_destroy_work (pd : nat) (work : pd_work_entry_t) : M server unit :=
  work ← count_critical work;
  work_insert pd PdWorkAction_DESTROY work ;;
  notify pd.

Definition pd_component_queue_free_work (pd : nat) (work : pd_work_entry_t) : M server unit :=
  work ← count_critical work;
  work_insert pd PdWorkAction_FREE work ;;
  notify pd.

Definition pd_component_queue_notify_send_work (pd : nat) (work : pd_work_entry_t)
  : M server unit :=
  work_insert pd PdWorkAction_SEND work ;;
  notify pd.

(** ** Operations of the PD component on held resources *)
Definition pd_add_resource_by_id (pd_id : Z) (res_id : gpi_res_id_t)
    (slot_in_RT slot_in_PD slot_in_serverPD : Z) : M server Z :=
  client_pd_data ← pd_component_registry_get_entry_by_id pd_id;
  match client_pd_data with
  | None => mret DEFAULT_ERR
  | Some pd => pd_add_resource pd res_id slot_in_RT slot_in_PD slot_in_serverPD
  end.

Definition pd_component_remove_resource_from_rt (res_id : gpi_res_id_t) : M server Z :=
  s ← get_state;
  pd_entry ← pd_component_registry_get_entry_by_id (rt_pd_id s);
  match pd_entry with
  | None => mret DEFAULT_ERR
  | Some pd => pd_delete_resource pd res_id
  end.

(** remove a resource from every live PD but the root task; the first error ends
    the loop *)
Definition pd_component_resource_cleanup (res_id : gpi_res_id_t) : M server Z :=
  r ← hash_iter_until pd_p (fun curr =>
    p ← pd_load curr;
    s ← get_state;
    if (pd_id p =? rt_pd_id s) || to_delete p then mret None
    else
      error ← pd_remove_resource curr res_id;
      mret (if error =? 0 then None else Some error));
  mret (default 0 r).

(** ** resource_component_utils.c, the operations that involve a PD *)
Section Allocate.
Context {A : Type} (get : server -> rcc A) (p : regptr server A CB).
(** the payload calloc leaves, the field [object.id], and the [new_obj] callback *)
Context (zero : A) (set_id : Z -> A -> A) (new_obj : nat -> M server Z).

(** the error code, [*ret_entry] if it was set, and [*ret_cap]; [want_cap] tells
    whether [ret_cap] is not NULL.  The test "ret_cap == seL4_CapNull" of the
    source is on the pointer, which is not NULL there. *)
Definition resource_component_allocate (client_id object_id : Z) (forge want_cap : bool)
  : M server (Z * option nat * Z) :=
  reg_entry ← calloc sys;
  match reg_entry with
  | None => mret (1, None, CapNull)
  | Some a =>
      resource_id ←
        (if object_id =? BADGE_OBJ_ID_NULL then
           id ← resource_registry_insert_new_id p (Node a 0 0 zero); mret (u32 id)
         else resource_registry_insert p (Node a object_id 0 zero) ;; mret object_id);
      obj_store p a (set_id resource_id) ;;
      error ← (if forge then mret 0 else new_obj a);
      if negb (error =? 0) then mret (error, Some a, CapNull)
      else
        r ← (if want_cap : bool then
               pd_data ← pd_component_registry_get_entry_by_id client_id;
               match pd_data with
               | None => mret (1, CapNull)
               | Some pd =>
                   c ← gets get;
                   client ← pd_load pd;
                   cap ← resource_component_make_badged_ep sys server_vka (pd_vka client)
                           (server_ep c) (resource_type c) (space_id c) resource_id client_id;
                   mret (0, cap)
               end
             else mret (0, CapNull));
        let '(error, cap) := r : Z * Z in
        if negb (error =? 0) then mret (error, Some a, cap)
        else
          s ← get_state;
          let c := get s in
          if (client_id =? rt_pd_id s) && (resource_type c =? GPICAP_TYPE_RESSPC)
          then mret (0, Some a, cap)
          else
            let slot_in_rt := if want_cap && (client_id =? rt_pd_id s) then cap else CapNull in
            let slot_in_pd := if want_cap && negb (client_id =? rt_pd_id s) then cap else CapNull in
            error ← pd_add_resource_by_id client_id
                      (make_res_id (resource_type c) (space_id c) resource_id)
                      slot_in_rt slot_in_pd slot_in_rt;
            mret (error, Some a, cap)
  end.

(** a failure is only printed *)
Definition resource_component_remove_from_rt (obj_id : Z) : M server unit :=
  c ← gets get;
  _ ← pd_component_remove_resource_from_rt (make_res_id (resource_type c) (space_id c) obj_id);
  mret tt.

Definition resource_component_initialize (put : rcc A -> server -> server)
    (type space server_ep : Z) (on_registry_delete : CB) : M server unit :=
  let max_obj_id := if type =? GPICAP_TYPE_RESSPC then BADGE_SPACE_ID_NULL - 1
                    else BADGE_OBJ_ID_NULL - 1 in
  modify (fun s => put (Rcc type space
    (resource_registry_initialize (Some on_registry_delete) 0 max_obj_id)
    (pool (get s)) server_ep) s).
End Allocate.
End PdResources.

(** ** Held resources: lemmas and properties *)
Section Holding.
Context `{UTHash} (sys : list xcall -> xcall -> Z * Z).
Context (run_cb : CB -> nat -> nat -> M server unit).
Implicit Types (s : server) (id : gpi_res_id_t).

(** identifiers that fit a badge *)
Definition res_ok id : Prop := type_ok (rid_type id) /\ space_ok (rid_space id) /\ obj_ok (rid_object id).
Definition compact id : Z := badge_of (rid_type id) 0 (rid_space id) (rid_object id).

Lemma res_compact_id_run id s : res_ok id -> res_compact_id id s = (Ok (compact id), s).
Proof. intros (? & ? & ?). by apply compact_res_id_run. Qed.

Lemma compact_inj id id' : res_ok id -> res_ok id' -> compact id = compact id' -> id = id'.
Proof.
  intros (? & ? & ?) (? & ? & ?) E. destruct id, id'. unfold compact in E. simpl in *.
  apply badge_of_inj in E as (-> & _ & -> & ->); done.
Qed.

Lemma compact_range id : res_ok id -> 0 <= compact id <= BADGE_MAX - 1.
Proof.
  intros (? & ? & ?). pose proof (badge_of_range (rid_type id) 0 (rid_space id) (rid_object id)) as Hb.
  unfold compact. unfold obj_ok in Hb at 1. specialize (Hb ltac:(done) ltac:(lia) ltac:(done) ltac:(done)).
  lia.
Qed.

(** the registry of what a PD holds, as pd_initialize_registries makes it *)
Definition hold_ok (e : pd_entry_t) : Prop :=
  wf_registry (hold_registry (pd e)) /\ max_object_id (hold_registry (pd e)) = BADGE_MAX - 1.
Definition holds (e : pd_entry_t) : gmap Z (Z * pd_hold_node_t) := reg_abs (hold_registry (pd e)).

Lemma hold_find_present s a e n : pd_at s a e -> hold_ok e -> n ∈ head (hold_registry (pd e)) ->
  resource_registry_get_by_id (hold_p a) (object_id n) s = (Ok (Some (n_addr n)), s).
Proof. intros He [Hwf _] Hin. by apply (get_by_id_present (hold_p a) s _ n (hold_rget s a e He)). Qed.

Lemma hold_find_absent s a e k : pd_at s a e -> hold_ok e -> holds e !! k = None ->
  resource_registry_get_by_id (hold_p a) k s = (Ok None, s).
Proof. intros He [Hwf _] Hk. by apply (get_by_id_absent (hold_p a) s _ k (hold_rget s a e He)). Qed.

(** adding a resource, in full: [s0] is the server after the calloc, if there was one *)
Lemma pd_add_resource_run s a e id slot_in_RT slot_in_PD slot_in_serverPD :
  pd_at s a e -> hold_ok e -> res_ok id -> fst (sys (log s) (Calloc, [])) = 0 ->
  next_addr s ∉ n_addr <$> head (hold_registry (pd e)) ->
  (forall c x, holds e !! compact id = Some (c, x) -> c < 2 ^ 32 - 1) ->
  let s0 := if holds e !! compact id is Some _ then s else after_calloc s in
  exists r', pd_add_resource sys a id slot_in_RT slot_in_PD slot_in_serverPD s =
      (Ok 0, rput (hold_p a) r' s0) /\ pd_at s0 a e /\
    wf_registry r' /\ same_frame r' (hold_registry (pd e)) /\
    reg_abs r' = match holds e !! compact id with
                 | Some (c, x) => <[compact id := (c + 1, x)]> (holds e)
                 | None => <[compact id := (1, HoldNode slot_in_PD slot_in_RT slot_in_serverPD id)]> (holds e)
                 end.
Proof.
  intros He Hok Hid Hcalloc Hfresh Hcount. destruct Hok as [Hwf Hmax].
  unfold pd_add_resource. rewrite (bind_ok _ _ _ _ _ (res_compact_id_run id s Hid)).
  pose proof (compact_range id Hid) as Hrange.
  destruct (holds e !! compact id) as [[c x]|] eqn:Ek; cbv iota zeta.
  - destruct (abs_node _ _ _ _ Hwf Ek) as (n & Hin & En & Ec & Ex).
    specialize (Hcount c x eq_refl). subst c x. rewrite <- En.
    rewrite (bind_ok _ _ _ _ _ (hold_find_present s a e n He (conj Hwf Hmax) Hin)).
    destruct (inc_small_run (hold_p a) s _ n (hold_rget s a e He) Hwf Hin Hcount)
      as (r' & Hrun & Hwf' & _ & Hframe & _ & Habs).
    rewrite (bind_ok _ _ _ _ _ Hrun). by exists r'.
  - rewrite (bind_ok _ _ _ _ _ (hold_find_absent s a e _ He (conj Hwf Hmax) Ek)).
    rewrite (bind_ok _ _ _ _ _ (calloc_run sys s Hcalloc)).
    set (n := Node (next_addr s) (compact id) 0 (HoldNode slot_in_PD slot_in_RT slot_in_serverPD id)).
    pose proof (pd_at_calloc s a e He) as He'.
    destruct (insert_spec (hold_p a) _ _ n (hold_rget _ a e He') Hwf Hfresh)
      as (r' & Hrun & Hwf' & Hframe & Habs); [simpl; rewrite Hmax; lia|exact Ek|].
    rewrite (bind_ok _ _ _ _ _ Hrun). by exists r'.
Qed.

(** C37: what a PD holds is a multiset of resources: adding a resource it does not
    hold inserts it once, with its slots, and adding one it holds counts one more
    and keeps the slots it had; both return 0 and leave the registry well formed. *)
Theorem pd_add_resource_refines (s : server) (a : nat) (e : pd_entry_t) (id : gpi_res_id_t)
  (slot_in_RT slot_in_PD slot_in_serverPD : Z)
  (He : pd_at s a e) (Hok : hold_ok e) (Hid : res_ok id)
  (Hcalloc : fst (sys (log s) (Calloc, [])) = 0)
  (Hfresh : next_addr s ∉ n_addr <$> head (hold_registry (pd e)))
  (Hcount : forall c x, holds e !! compact id = Some (c, x) -> c < 2 ^ 32 - 1) :
  exists s' e', pd_add_resource sys a id slot_in_RT slot_in_PD slot_in_serverPD s = (Ok 0, s') /\
    pd_at s' a e' /\ hold_ok e' /\
    holds e' = match holds e !! compact id with
               | Some (c, x) => <[compact id := (c + 1, x)]> (holds e)
               | None => <[compact id := (1, HoldNode slot_in_PD slot_in_RT slot_in_serverPD id)]> (holds e)
               end.
Proof.
  destruct (pd_add_resource_run s a e id slot_in_RT slot_in_PD slot_in_serverPD He Hok Hid Hcalloc
    Hfresh Hcount) as (r' & Hrun & He' & Hwf' & (Hmax' & _) & Habs).
  eexists _, _. split; [exact Hrun|]. split; [by apply hold_rput|].
  split; [split; [done|]; change (hold_registry _) with r'; by rewrite Hmax', (proj2 Hok)|exact Habs].
Qed.

(** C38: removing a resource a PD does not hold does nothing; a resource it holds
    more than once is counted one less, without any callback; the last count runs
    the callback of the registry and then forgets the resource.  All three return 0. *)
Theorem pd_remove_resource_spec (s s1 : server) (a : nat) (e : pd_entry_t) (id : gpi_res_id_t)
  (He : pd_at s a e) (Hok : hold_ok e) (Hid : res_ok id)
  (Hcb : forall n, n ∈ head (hold_registry (pd e)) -> object_id n = compact id -> count n = 1 ->
         let r0 := with_head (hash_upd (head (hold_registry (pd e))) (n_addr n) (with_count 0))
                     (hold_registry (pd e)) in
         cb_done run_cb (hold_p a) r0 (n_addr n) (rput (hold_p a) r0 s) s1) :
  match holds e !! compact id with
  | None => pd_remove_resource run_cb a id s = (Ok 0, s)
  | Some (c, x) =>
      exists r', wf_registry r' /\
        if c =? 1 then
          pd_remove_resource run_cb a id s = (Ok 0, rput (hold_p a) r' s1) /\
          reg_abs r' = delete (compact id) (holds e)
        else
          pd_remove_resource run_cb a id s = (Ok 0, rput (hold_p a) r' s) /\
          reg_abs r' = <[compact id := (c - 1, x)]> (holds e)
  end.
Proof.
  unfold pd_remove_resource. pose proof (res_compact_id_run id s Hid) as Eid.
  destruct (holds e !! compact id) as [[c x]|] eqn:Ek.
  - destruct (abs_node _ _ _ _ (proj1 Hok) Ek) as (n & Hin & En & <- & <-).
    pose proof (hold_find_present s a e n He Hok Hin) as Hfind. rewrite En in Hfind.
    destruct (dec_spec run_cb (hold_p a) s s1 _ n (hold_rget s a e He) (proj1 Hok) Hin)
      as (r' & Hwf' & _ & Hd); [by apply Hcb|].
    exists r'. split; [done|]. rewrite En in Hd.
    destruct (count n =? 1); destruct Hd as [Hd Habs]; (split; [|done]);
      rewrite (bind_ok _ _ _ _ _ Eid), (bind_ok _ _ _ _ _ Hfind);
      by rewrite (bind_ok _ _ _ _ _ Hd).
  - rewrite (bind_ok _ _ _ _ _ Eid).
    by rewrite (bind_ok _ _ _ _ _ (hold_find_absent s a e _ He Hok Ek)).
Qed.
End Holding.

(** ** Live protection domains *)
Section LivePds.
Context `{UTHash}.
Implicit Types (s : server) (id : Z) (a : nat) (e : pd_entry_t).

(** the PD [id] has its entry [e] at [a], in a well-formed registry *)
Record pd_node s id a e : Prop := {
  pn_wf : wf_registry (rc_registry (pd_component s));
  pn_in : exists n, n ∈ head (rc_registry (pd_component s)) /\ n_addr n = a /\
                    object_id n = id /\ payload n = e;
  pn_id : pd_id (pd e) = id
}.
(** and its registry of held resources is as pd_initialize_registries leaves it *)
Record live_pd s id a e : Prop := {
  lp_node : pd_node s id a e;
  lp_hold : hold_ok e;
  lp_cb : on_delete (hold_registry (pd e)) = Some CbHeld /\ on_delete_arg (hold_registry (pd e)) = a
}.

Lemma pd_node_at s id a e : pd_node s id a e -> pd_at s a e.
Proof.
  intros [Hwf (n & Hin & <- & _ & <-) _]. exists n. split; [|done].
  by apply node_at_elem; [apply Hwf|].
Qed.

Lemma live_pd_at s id a e : live_pd s id a e -> pd_at s a e.
Proof. intros [Hn _ _]. by apply (pd_node_at s id). Qed.

Lemma pd_node_find s id a e : pd_node s id a e ->
  pd_component_registry_get_entry_by_id id s = (Ok (Some a), s).
Proof.
  intros [Hwf (n & Hin & <- & <- & <-) _].
  by apply (get_by_id_present pd_p s (rc_registry (pd_component s))).
Qed.

Lemma pd_node_same s s' id a e : pd_component s' = pd_component s -> pd_node s id a e ->
  pd_node s' id a e.
Proof. intros E [? ? ?]. split; [by rewrite E|by rewrite E|done..]. Qed.

Lemma live_pd_same s s' id a e : pd_component s' = pd_component s -> live_pd s id a e ->
  live_pd s' id a e.
Proof. intros E [? ? ?]. split; [by apply (pd_node_same s)|done..]. Qed.

Lemma hold_rput_wf s a e r : pd_at s a e -> wf_registry (rc_registry (pd_component s)) ->
  wf_registry (rc_registry (pd_component (rput (hold_p a) r s))).
Proof.
  intros (n & Hn & _) Hwf.
  replace (rc_registry (pd_component (rput (hold_p a) r s))) with
    (with_head (hash_upd (head (rc_registry (pd_component s))) a
      (fun n => with_payload (on_pd (set_hold_registry r) (payload n)) n)) (rc_registry (pd_component s)))
    by (by destruct s).
  by apply (wf_with_payload _ a (on_pd (set_hold_registry r))).
Qed.

(** the PD after the registry of its resources became [r], *)
Lemma pd_node_put s id a e r : pd_node s id a e ->
  pd_node (rput (hold_p a) r s) id a (on_pd (set_hold_registry r) e).
Proof.
  intros Hl. pose proof (pd_node_at _ _ _ _ Hl) as He.
  pose proof (hold_rput_wf s a e r He (pn_wf _ _ _ _ Hl)) as Hwf'. destruct He as (n0 & Hn0 & _).
  pose proof (head_hold_rput s a r n0 Hn0) as Eh.
  destruct Hl as [Hwf (n & Hin & Ea & Eid & Ee) Hpid]. split; [done| |done].
  exists (with_payload (on_pd (set_hold_registry r) e) n). split; [|done].
  rewrite Eh. apply hash_upd_elem. exists n. split; [done|].
  by rewrite Ea, Nat.eqb_refl, Ee.
Qed.

Lemma live_pd_put s id a e r : pd_node s id a e -> wf_registry r ->
  max_object_id r = BADGE_MAX - 1 -> on_delete r = Some CbHeld -> on_delete_arg r = a ->
  live_pd (rput (hold_p a) r s) id a (on_pd (set_hold_registry r) e).
Proof. intros Hl ? ? ? ?. split; [by apply pd_node_put|done|done]. Qed.

(** and every other PD *)
Lemma pd_node_put_other s id a b e e' r : pd_at s a e -> pd_node s id b e' -> a <> b ->
  pd_node (rput (hold_p a) r s) id b e'.
Proof.
  intros He Hl' Hne. pose proof (hold_rput_wf s a e r He (pn_wf _ _ _ _ Hl')) as Hwf'.
  destruct He as (n0 & Hn0 & _). pose proof (head_hold_rput s a r n0 Hn0) as Eh.
  destruct Hl' as [Hwf (n & Hin & Ea & Eid & Ee) Hpid]. split; [done| |done].
  exists n. split; [|done]. rewrite Eh. apply hash_upd_elem. exists n. split; [done|].
  rewrite Ea. by rewrite (proj2 (Nat.eqb_neq _ _)) by done.
Qed.

Lemma live_pd_put_other s id a b e e' r : pd_at s a e -> live_pd s id b e' -> a <> b ->
  live_pd (rput (hold_p a) r s) id b e'.
Proof. intros ? [? ? ?] ?. split; [by eapply pd_node_put_other|done|done]. Qed.
End LivePds.

(** ** Holding something more *)
Section Adding.
Context `{UTHash} (sys : list xcall -> xcall -> Z * Z).
Implicit Types (s : server) (a b : nat) (e : pd_entry_t).

(** the addresses of a table are below the allocator's next one *)
Definition below {A} (k : nat) (r : registry A CB) : Prop := Forall (fun x => (n_addr x < k)%nat) (head r).

Lemma below_fresh {A} k (r : registry A CB) : below k r -> k ∉ n_addr <$> head r.
Proof.
  unfold below. rewrite Forall_forall. intros Hb (x & E & Hn)%list_elem_of_fmap.
  specialize (Hb x Hn). simpl in Hb. lia.
Qed.
Lemma below_mono {A} k k' (r : registry A CB) : below k r -> (k <= k')%nat -> below k' r.
Proof. intros Hb Hk. eapply Forall_impl; [exact Hb|]. simpl. lia. Qed.

(** what stays when a PD holds something more *)
Record holding_added s (pid : Z) a e (rid : gpi_res_id_t) (h : pd_hold_node_t) s' e1 : Prop := {
  ha_live : live_pd s' pid a e1;
  ha_holds : holds e1 = <[compact rid := (1, h)]> (holds e);
  ha_others : forall pid' b e', a <> b -> live_pd s pid' b e' -> live_pd s' pid' b e';
  ha_mo : mo_component s' = mo_component s;
  ha_ads : ads_component s' = ads_component s;
  ha_rt : rt_pd_id s' = rt_pd_id s;
  ha_log : log s' = (Calloc, []) :: log s;
  ha_addr : next_addr s' = S (next_addr s);
  ha_entry : e1 = on_pd (set_hold_registry (hold_registry (pd e1))) e
}.

Lemma holding_added_run s pid a e rid x y z : fst (sys (log s) (Calloc, [])) = 0 -> live_pd s pid a e ->
  below (next_addr s) (hold_registry (pd e)) -> holds e !! compact rid = None -> res_ok rid ->
  exists s' e1, pd_add_resource_by_id sys pid rid x y z s = (Ok 0, s') /\
    holding_added s pid a e rid (HoldNode y x z rid) s' e1.
Proof.
  intros Hcalloc Hl Hb Hnone Hok.
  destruct (pd_add_resource_run sys s a e rid x y z (live_pd_at _ _ _ _ Hl) (lp_hold _ _ _ _ Hl) Hok
    Hcalloc (below_fresh _ _ Hb)) as (r' & Hrun & _ & Hwf' & (Hmax & Hcb & Harg) & Habs).
  { intros c h E. by rewrite Hnone in E. }
  rewrite Hnone in Hrun, Habs. cbv iota in Hrun.
  pose proof (live_pd_same s (after_calloc s) _ _ _ eq_refl Hl) as Hl0.
  exists (rput (hold_p a) r' (after_calloc s)), (on_pd (set_hold_registry r') e). split.
  - unfold pd_add_resource_by_id. by rewrite (bind_ok _ _ _ _ _ (pd_node_find _ _ _ _ (lp_node _ _ _ _ Hl))).
  - split; try done.
    + apply live_pd_put; [apply Hl0|done|by rewrite Hmax; apply Hl|by rewrite Hcb; apply Hl|by rewrite Harg; apply Hl].
    + intros pid' b e' Hne Hl'. apply (live_pd_put_other _ _ a b e); [by apply (live_pd_at _ pid)| |done].
      by apply (live_pd_same s).
Qed.

End Adding.

(** ** The resource directory: lemmas and properties *)
Section Directory.
Context `{UTHash} (sys : list xcall -> xcall -> Z * Z).
Implicit Types (s : server) (e : pd_entry_t) (row : list osmosis_rde_t).

(** the entry after slot [idx] of the row of [type] was changed *)
Definition rde_upd (type : Z) (idx : nat) (f : osmosis_rde_t -> osmosis_rde_t) : pd_entry_t -> pd_entry_t :=
  on_pd (on_shared (fun sh => set_rde (alter (alter f idx) (Z.to_nat type) (rde sh)) sh)).

(** the row of a type *)
Definition row_at (e : pd_entry_t) (type : Z) (row : list osmosis_rde_t) : Prop :=
  rde (shared (pd e)) !! Z.to_nat type = Some row.

Lemma rde_row_run s a e type row : pd_at s a e -> attached e -> row_at e type row ->
  rde_row a type s = (Ok row, s).
Proof.
  intros He Ha Hrow. unfold rde_row. rewrite (bind_ok _ _ _ _ _ (shared_load_run s a e He Ha)).
  by rewrite Hrow.
Qed.

Lemma rde_row_out s a e type : pd_at s a e -> attached e ->
  rde (shared (pd e)) !! Z.to_nat type = None -> rde_row a type s = (Crash OutOfBounds, s).
Proof.
  intros He Ha Hrow. unfold rde_row. rewrite (bind_ok _ _ _ _ _ (shared_load_run s a e He Ha)).
  by rewrite Hrow.
Qed.

Lemma rde_store_run s a e type row idx f : pd_at s a e -> attached e -> row_at e type row ->
  rde_store a type idx f s = (Ok tt, upd_entry a (rde_upd type idx f) s).
Proof.
  intros He Ha Hrow. unfold rde_store. rewrite (bind_ok _ _ _ _ _ (rde_row_run s a e type row He Ha Hrow)).
  by apply (shared_store_run s a e).
Qed.

Lemma row_at_upd e type row idx f : row_at e type row ->
  row_at (rde_upd type idx f e) type (alter f idx row).
Proof. intros Hrow. unfold row_at. cbn. by rewrite list_lookup_alter_eq, Hrow. Qed.

Lemma row_at_upd_other e type type' row idx f : row_at e type' row ->
  Z.to_nat type <> Z.to_nat type' -> row_at (rde_upd type idx f e) type' row.
Proof. intros Hrow Hne. unfold row_at. cbn. by rewrite list_lookup_alter_ne. Qed.

Lemma pd_rde_get_run s a e type sp row : pd_at s a e -> attached e -> row_at e type row ->
  pd_rde_get a type sp s = (Ok (idx ← rde_find type sp 0 row; row !! idx), s).
Proof.
  intros He Ha Hrow. pose proof (rde_row_run s a e type row He Ha Hrow) as Hrun.
  unfold pd_rde_get, pd_rde_find_idx. rewrite bind_assoc, (bind_ok _ _ _ _ _ Hrun).
  erewrite (bind_ok (mret _)) by reflexivity.
  destruct (rde_find type sp 0 row) as [idx|]; [|done].
  by rewrite (bind_ok _ _ _ _ _ Hrun).
Qed.

(** one step of a sequence of stores to the entry at [a] *)
Lemma rde_store_bind {B} (k : unit -> M server B) s a e type row idx f :
  pd_at s a e -> attached e -> row_at e type row ->
  (rde_store a type idx f ≫= k) s = k tt (upd_entry a (rde_upd type idx f) s).
Proof. intros. by rewrite (bind_ok _ _ _ _ _ (rde_store_run s a e type row idx f ltac:(done) ltac:(done) ltac:(done))). Qed.

(** ** What a successful pd_add_rde leaves *)
Definition name_upd (type : Z) (name : list Z) : pd_entry_t -> pd_entry_t :=
  on_pd (on_shared (fun sh => set_type_names
    (<[Z.to_nat type := strncpy name RESOURCE_TYPE_MAX_STRING_SIZE]> (type_names sh)) sh)).
Definition count_upd : pd_entry_t -> pd_entry_t :=
  on_pd (on_shared (fun sh => set_rde_count (u64 (rde_count sh + 1)) sh)).

(** the entry before the slot is allocated: space, type and root task slot are set *)
Definition rde_claimed (type sp ep : Z) (name : list Z) (idx : nat) (e : pd_entry_t) : pd_entry_t :=
  rde_upd type idx (set_rde_slot_in_RT ep) (rde_upd type idx (set_rde_type type)
    (rde_upd type idx (set_rde_space_id sp) (name_upd type name e))).

Definition names_ok (e : pd_entry_t) (type : Z) : Prop :=
  (Z.to_nat type < length (type_names (shared (pd e))))%nat.

(** the run up to the allocation of the slot *)
Lemma pd_add_rde_claims (k : unit -> M server Z) s a e type name sp ep row idx :
  pd_at s a e -> attached e -> row_at e type row -> names_ok e type ->
  exists s1, (pd_add_type_name a type name ;;
     rde_store a type idx (set_rde_space_id sp) ;;
     rde_store a type idx (set_rde_type type) ;;
     rde_store a type idx (set_rde_slot_in_RT ep) ;; k tt) s = k tt s1 /\
    pd_at s1 a (rde_claimed type sp ep name idx e) /\ log s1 = log s /\
    row_at (rde_claimed type sp ep name idx e) type
      (alter (fun r => Rde ep (rde_slot_in_PD r) type sp) idx row).
Proof.
  intros He Ha Hrow Hn.
  exists (upd_entry a (rde_upd type idx (set_rde_slot_in_RT ep))
        (upd_entry a (rde_upd type idx (set_rde_type type))
        (upd_entry a (rde_upd type idx (set_rde_space_id sp)) (upd_entry a (name_upd type name) s)))).
  assert (row_at (name_upd type name e) type row) as Hrow1 by exact Hrow.
  pose proof (pd_at_upd_same s a e (name_upd type name) He) as He1.
  pose proof (row_at_upd _ _ _ idx (set_rde_space_id sp) Hrow1) as Hrow2.
  pose proof (pd_at_upd_same _ _ _ (rde_upd type idx (set_rde_space_id sp)) He1) as He2.
  pose proof (row_at_upd _ _ _ idx (set_rde_type type) Hrow2) as Hrow3.
  pose proof (pd_at_upd_same _ _ _ (rde_upd type idx (set_rde_type type)) He2) as He3.
  split; [|split; [|split]].
  - unfold pd_add_type_name. rewrite bind_assoc.
    rewrite (bind_ok _ _ _ _ _ (shared_load_run s a e He Ha)).
    unfold names_ok in Hn. rewrite (proj2 (Nat.ltb_lt _ _) Hn).
    rewrite (bind_ok _ _ _ _ _ (shared_store_run s a e _ He Ha)).
    rewrite (rde_store_bind _ _ a _ type row idx _ He1 Ha Hrow1).
    rewrite (rde_store_bind _ _ a _ type _ idx _ He2 Ha Hrow2).
    by rewrite (rde_store_bind _ _ a _ type _ idx _ He3 Ha Hrow3).
  - unfold rde_claimed. by apply pd_at_upd_same.
  - by rewrite !log_upd_entry.
  - pose proof (row_at_upd _ _ _ idx (set_rde_slot_in_RT ep) Hrow3) as Hrow4.
    unfold rde_claimed. rewrite !list_alter_alter_eq in Hrow4. exact Hrow4.
Qed.

(** the calls to the kernel: a slot, then the mint of the badged endpoint *)
Definition rde_alloc_call (e : pd_entry_t) : xcall := (VkaCspaceAlloc, [pd_vka (pd e)]).
Definition rde_mint_call (e : pd_entry_t) (dest ep type sp : Z) : xcall :=
  (VkaCnodeMint, [pd_vka (pd e); dest; server_vka; ep;
                  badge_of type (pd_id (pd e)) sp BADGE_OBJ_ID_NULL]).

(** how pd_add_rde ends once it has found a slot *)
Lemma pd_add_rde_run s a e type name sp ep row idx :
  pd_at s a e -> attached e -> row_at e type row -> names_ok e type ->
  type_ok type -> space_ok sp -> obj_ok (pd_id (pd e)) -> rde_free type sp 0 row = Some idx ->
  let r1 := sys (log s) (rde_alloc_call e) in
  let m := rde_mint_call e (snd r1) ep type sp in
  let r2 := sys (rde_alloc_call e :: log s) m in
  let claimed := rde_claimed type sp ep name idx e in
  exists s', if negb (fst r1 =? 0) then
      pd_add_rde sys a type name sp ep s = (Ok (fst r1), s') /\ pd_at s' a claimed
    else if negb (fst r2 =? 0) then
      pd_add_rde sys a type name sp ep s = (Ok (fst r2), s') /\ pd_at s' a claimed
    else
      pd_add_rde sys a type name sp ep s = (Ok 0, s') /\
      pd_at s' a (count_upd (rde_upd type idx (set_rde_slot_in_PD (snd r1)) claimed)) /\
      log s' = m :: rde_alloc_call e :: log s.
Proof.
  intros He Ha Hrow Hn Ht Hsp Hp Hfree r1 m r2 claimed.
  unfold pd_add_rde. rewrite (bind_ok _ _ _ _ _ (rde_row_run s a e type row He Ha Hrow)), Hfree.
  match goal with |- context [rde_store a type idx (set_rde_slot_in_RT ep) ;; ?k] =>
    destruct (pd_add_rde_claims (fun _ => k) s a e type name sp ep row idx) as (s1 & -> & He1 & Hlog & Hrow1);
    [done..|] end.
  fold claimed in He1, Hrow1.
  rewrite (bind_ok _ _ _ _ _ (pd_load_run s1 a _ He1)).
  change (pd_vka (pd claimed)) with (pd_vka (pd e)).
  rewrite (bind_ok _ _ _ _ _ (ext_run sys _ _ s1)), Hlog. fold (rde_alloc_call e). fold r1.
  destruct r1 as [e1 dest] eqn:Er1. cbn [fst snd] in *.
  destruct (negb (e1 =? 0)); [eexists; split; [reflexivity|by apply pd_at_called]|].
  rewrite (bind_ok _ _ _ _ _ (gpi_new_badge_run type (pd_id (pd claimed)) sp BADGE_OBJ_ID_NULL _
            ltac:(done) ltac:(done) ltac:(done) ltac:(unfold obj_ok, BADGE_OBJ_ID_NULL, BADGE_MAX_OBJ_ID; lia))).
  change (pd_id (pd claimed)) with (pd_id (pd e)).
  rewrite (bind_ok _ _ _ _ _ (ext_err_run sys _ _ _)).
  change (log (called _ s1)) with (rde_alloc_call e :: log s1). rewrite Hlog.
  match goal with |- context [if negb (fst (sys ?l ?c) =? 0) then mret _ else _] => change (sys l c) with r2 end.
  destruct (negb (fst r2 =? 0)); [eexists; split; [reflexivity|by do 2 apply pd_at_called]|].
  set (s2 := called _ (called _ s1)).
  assert (pd_at s2 a claimed) as He2 by (by do 2 apply pd_at_called).
  rewrite (rde_store_bind _ s2 a claimed type _ idx _ He2 Ha Hrow1).
  pose proof (pd_at_upd_same _ _ _ (rde_upd type idx (set_rde_slot_in_PD dest)) He2) as He3.
  rewrite (bind_ok _ _ _ _ _ (shared_store_run _ a _ _ He3 Ha)).
  eexists. split; [reflexivity|]. split; [by apply pd_at_upd_same|].
  rewrite !log_upd_entry. unfold s2. cbn. by rewrite Hlog.
Qed.

(** ** Rows *)

(** the rows of a type: live entries of that type, in a space, and cleared ones *)
Definition rde_ok (type : Z) (r : osmosis_rde_t) : Prop :=
  (rde_type r = type /\ 1 <= rde_space_id r < BADGE_SPACE_ID_NULL) \/
  (rde_type r = GPICAP_TYPE_NONE /\ (rde_space_id r = 0 \/ rde_space_id r = BADGE_SPACE_ID_NULL)).
Definition row_ok (type : Z) (row : list osmosis_rde_t) : Prop := Forall (rde_ok type) row.

Lemma rde_free_Some type sp i row idx : rde_free type sp i row = Some idx ->
  exists j r, idx = (i + j)%nat /\ row !! j = Some r /\ rde_type r = GPICAP_TYPE_NONE /\
    forall k r', (k < j)%nat -> row !! k = Some r' ->
      rde_type r' <> GPICAP_TYPE_NONE /\ ~ (rde_space_id r' = sp /\ rde_type r' = type).
Proof.
  revert i. induction row as [|r row IH]; intros i; simpl; [done|].
  destruct ((rde_space_id r =? sp) && (rde_type r =? type)) eqn:E1; [done|].
  destruct (Z.eqb_spec (rde_type r) GPICAP_TYPE_NONE) as [E2|E2].
  - intros [= <-]. exists 0%nat, r. split; [lia|]. split; [done|]. split; [done|]. lia.
  - intros (j & r0 & -> & Hj & Hr0 & Hbefore)%IH. exists (S j), r0.
    split; [lia|]. split; [done|]. split; [done|].
    intros [|k] r' Hk Hr'; simpl in Hr'; [|apply (Hbefore k); [lia|done]].
    injection Hr' as <-. split; [done|]. intros [? ?].
    apply andb_false_iff in E1 as [E1|E1]; apply Z.eqb_neq in E1; done.
Qed.

Lemma rde_find_first type sp i row j r : sp <> BADGE_SPACE_ID_NULL ->
  row !! j = Some r -> rde_space_id r = sp ->
  (forall k r', (k < j)%nat -> row !! k = Some r' -> rde_space_id r' <> sp) ->
  rde_find type sp i row = Some (i + j)%nat.
Proof.
  intros Hsp. revert i j. induction row as [|r0 row IH]; intros i j; [done|].
  destruct j as [|j]; simpl; rewrite (proj2 (Z.eqb_neq sp _) Hsp); simpl.
  - intros [= ->] E _. rewrite (proj2 (Z.eqb_eq _ _) E). f_equal. lia.
  - intros Hj E Hb. rewrite (proj2 (Z.eqb_neq _ _) (Hb 0%nat r0 ltac:(lia) eq_refl)).
    rewrite (IH (S i) j Hj E); [f_equal; lia|]. intros k r' Hk Hr'. apply (Hb (S k)); [lia|done].
Qed.

Lemma row_ok_alter type row idx f : row_ok type row ->
  (forall r, row !! idx = Some r -> rde_ok type (f r)) -> row_ok type (alter f idx row).
Proof. intros Hrow Hf. apply Forall_alter; [done|]. intros r Hr _. by apply Hf. Qed.

(** the position of a claimed slot in its row *)
Lemma claimed_row e type name sp ep row idx : row_at e type row ->
  row_at (rde_claimed type sp ep name idx e) type
    (alter (fun r => Rde ep (rde_slot_in_PD r) type sp) idx row).
Proof.
  intros Hrow. unfold rde_claimed.
  pose proof (row_at_upd _ _ _ idx (set_rde_slot_in_RT ep)
    (row_at_upd _ _ _ idx (set_rde_type type)
      (row_at_upd _ _ _ idx (set_rde_space_id sp) (Hrow : row_at (name_upd type name e) type row)))) as Hr.
  rewrite !list_alter_alter_eq in Hr. exact Hr.
Qed.

(** in a well-formed row no entry before the slot is of the space *)
Lemma free_is_first type sp row idx : row_ok type row -> type <> GPICAP_TYPE_NONE ->
  rde_free type sp 0 row = Some idx ->
  exists r, row !! idx = Some r /\ rde_type r = GPICAP_TYPE_NONE /\
    forall k r', (k < idx)%nat -> row !! k = Some r' -> rde_space_id r' <> sp.
Proof.
  intros Hrow Ht (j & r & -> & Hj & Hr & Hb)%rde_free_Some. simpl. exists r.
  split; [done|]. split; [done|]. intros k r' Hk Hr' E.
  destruct (Hb k r' Hk Hr') as [Hlive Hne].
  destruct (proj1 (Forall_lookup _ _) Hrow k r' Hr') as [[E' _]|[E' _]]; [|done]. by apply Hne.
Qed.

Lemma find_altered type sp row idx f : row_ok type row -> type <> GPICAP_TYPE_NONE ->
  sp <> BADGE_SPACE_ID_NULL -> rde_free type sp 0 row = Some idx ->
  (forall r, rde_space_id (f r) = sp) ->
  rde_find type sp 0 (alter f idx row) = Some idx /\ exists r, row !! idx = Some r /\
    rde_type r = GPICAP_TYPE_NONE /\ alter f idx row !! idx = Some (f r).
Proof.
  intros Hrow Ht Hsp Hfree Hf. destruct (free_is_first type sp row idx) as (r & Hr & Hn & Hb); [done..|].
  assert (alter f idx row !! idx = Some (f r)) as Hr' by (by rewrite list_lookup_alter_eq, Hr).
  split; [|by exists r]. apply (rde_find_first type sp 0 _ idx (f r)); [done|done|done|].
  intros k r' Hk. rewrite list_lookup_alter_ne by lia. by apply Hb.
Qed.

(** what is added to the resource directory of a PD is found there: when the
    row of the type has a free slot and the kernel gives a capability slot and
    mints, pd_add_rde returns 0, looking up the type and the space finds the new
    entry with the PD's slot in it, the row stays well formed, the count of entries
    grows by one, and the rows of the other types are unchanged. *)
Theorem pd_add_rde_get (s : server) (a : nat) (e : pd_entry_t) (type sp ep dest : Z)
  (name : list Z) (row : list osmosis_rde_t) (idx : nat)
  (He : pd_at s a e) (Ha : attached e) (Hrow : row_at e type row) (Hok : row_ok type row)
  (Hn : names_ok e type) (Ht : 1 <= type <= BADGE_MAX_CAP_TYPE)
  (Hsp : 1 <= sp < BADGE_SPACE_ID_NULL) (Hp : obj_ok (pd_id (pd e)))
  (Hfree : rde_free type sp 0 row = Some idx)
  (Halloc : sys (log s) (rde_alloc_call e) = (0, dest))
  (Hmint : fst (sys (rde_alloc_call e :: log s) (rde_mint_call e dest ep type sp)) = 0) :
  exists s' e', pd_add_rde sys a type name sp ep s = (Ok 0, s') /\ pd_at s' a e' /\
    pd_rde_get a type sp s' = (Ok (Some (Rde ep dest type sp)), s') /\
    (exists row', row_at e' type row' /\ row_ok type row') /\
    rde_count (shared (pd e')) = u64 (rde_count (shared (pd e)) + 1) /\
    forall t row', Z.to_nat t <> Z.to_nat type -> row_at e t row' -> row_at e' t row'.
Proof.
  unfold BADGE_MAX_CAP_TYPE, BADGE_SPACE_ID_NULL, BADGE_MAX_SPACE_ID in *.
  destruct (pd_add_rde_run s a e type name sp ep row idx) as (s' & Hrun); try done;
    [unfold type_ok; lia|unfold space_ok; lia|].
  rewrite Halloc in Hrun. cbn [fst snd] in Hrun. rewrite Hmint in Hrun. simpl negb in Hrun.
  destruct Hrun as (Hrun & He' & _).
  pose proof (row_at_upd _ _ _ idx (set_rde_slot_in_PD dest) (claimed_row e type name sp ep row idx Hrow)) as Hrow'.
  rewrite list_alter_alter_eq in Hrow'.
  set (e' := rde_upd type idx (set_rde_slot_in_PD dest) _) in Hrow', He'.
  exists s', (count_upd e'). split; [done|]. split; [done|].
  destruct (find_altered type sp row idx (fun _ => Rde ep dest type sp)) as (Hfind & r & Hr & _ & Hr');
    [done|unfold GPICAP_TYPE_NONE; lia|unfold BADGE_SPACE_ID_NULL, BADGE_MAX_SPACE_ID; lia|done..|].
  split; [|split; [|split; [done|]]].
  - rewrite (pd_rde_get_run s' a _ type sp _ He' Ha Hrow').
    change (alter (set_rde_slot_in_PD dest ∘ _) idx row) with (alter (fun _ : osmosis_rde_t => Rde ep dest type sp) idx row).
    by rewrite Hfind, <- Hr'.
  - eexists. split; [exact Hrow'|]. apply row_ok_alter; [done|]. intros r0 _. left. simpl.
    unfold BADGE_SPACE_ID_NULL, BADGE_MAX_SPACE_ID. lia.
  - intros t row' Hne Hrow2. unfold e', rde_claimed.
    repeat apply row_at_upd_other; try done.
Qed.

(** an entry that could not be given a capability stays in the directory: when
    no slot is free in the PD's cspace, or the mint fails, pd_add_rde returns the
    error, and looking up the type and the space afterwards finds an entry whose
    slot is the one the cleared entry had. *)
Theorem pd_add_rde_failure_keeps_entry (s : server) (a : nat) (e : pd_entry_t) (type sp ep : Z)
  (name : list Z) (row : list osmosis_rde_t) (idx : nat) (r : osmosis_rde_t)
  (He : pd_at s a e) (Ha : attached e) (Hrow : row_at e type row) (Hok : row_ok type row)
  (Hn : names_ok e type) (Ht : 1 <= type <= BADGE_MAX_CAP_TYPE)
  (Hsp : 1 <= sp < BADGE_SPACE_ID_NULL) (Hp : obj_ok (pd_id (pd e)))
  (Hfree : rde_free type sp 0 row = Some idx) (Hr : row !! idx = Some r)
  (Hfail : let r1 := sys (log s) (rde_alloc_call e) in
           fst r1 <> 0 \/ fst (sys (rde_alloc_call e :: log s) (rde_mint_call e (snd r1) ep type sp)) <> 0) :
  exists s' err, err <> 0 /\ pd_add_rde sys a type name sp ep s = (Ok err, s') /\
    pd_rde_get a type sp s' = (Ok (Some (Rde ep (rde_slot_in_PD r) type sp)), s').
Proof.
  unfold BADGE_MAX_CAP_TYPE, BADGE_SPACE_ID_NULL, BADGE_MAX_SPACE_ID in *.
  destruct (pd_add_rde_run s a e type name sp ep row idx) as (s' & Hrun); try done;
    [unfold type_ok; lia|unfold space_ok; lia|].
  pose proof (claimed_row e type name sp ep row idx Hrow) as Hrow'.
  destruct (find_altered type sp row idx (fun r => Rde ep (rde_slot_in_PD r) type sp))
    as (Hfind & r0 & Hr0 & _ & Hr'); [done|unfold GPICAP_TYPE_NONE; lia
    |unfold BADGE_SPACE_ID_NULL, BADGE_MAX_SPACE_ID; lia|done..|].
  assert (r0 = r) as -> by congruence.
  assert (forall err, pd_at s' a (rde_claimed type sp ep name idx e) -> err <> 0 ->
    pd_add_rde sys a type name sp ep s = (Ok err, s') ->
    exists s' err, err <> 0 /\ pd_add_rde sys a type name sp ep s = (Ok err, s') /\
      pd_rde_get a type sp s' = (Ok (Some (Rde ep (rde_slot_in_PD r) type sp)), s')) as Hdone.
  { intros err He' Herr Hr1. exists s', err. split; [done|]. split; [done|].
    rewrite (pd_rde_get_run s' a _ type sp _ He' Ha Hrow'). by rewrite Hfind, <- Hr'. }
  cbv zeta in Hrun, Hfail.
  destruct (Z.eqb_spec (fst (sys (log s) (rde_alloc_call e))) 0) as [E1|E1]; simpl negb in Hrun.
  - destruct Hfail as [Hfail|Hfail]; [done|].
    rewrite (proj2 (Z.eqb_neq _ _) Hfail) in Hrun. simpl negb in Hrun. destruct Hrun. by eapply Hdone.
  - destruct Hrun. by eapply Hdone.
Qed.

(** the search for a slot stops at the first cleared one: when an earlier entry
    of the row was removed, an entry of the directory that comes after it is added a
    second time. *)
Theorem pd_add_rde_duplicates (s : server) (a : nat) (e : pd_entry_t) (type sp ep dest : Z)
  (name : list Z) (row : list osmosis_rde_t) (idx j : nat) (r : osmosis_rde_t)
  (He : pd_at s a e) (Ha : attached e) (Hrow : row_at e type row) (Hok : row_ok type row)
  (Hn : names_ok e type) (Ht : 1 <= type <= BADGE_MAX_CAP_TYPE)
  (Hsp : 1 <= sp < BADGE_SPACE_ID_NULL) (Hp : obj_ok (pd_id (pd e)))
  (Hfree : rde_free type sp 0 row = Some idx)
  (Hlater : (idx < j)%nat /\ row !! j = Some r /\ rde_space_id r = sp /\ rde_type r = type)
  (Halloc : sys (log s) (rde_alloc_call e) = (0, dest))
  (Hmint : fst (sys (rde_alloc_call e :: log s) (rde_mint_call e dest ep type sp)) = 0) :
  exists s' e' row', pd_add_rde sys a type name sp ep s = (Ok 0, s') /\ pd_at s' a e' /\
    row_at e' type row' /\ row' !! idx = Some (Rde ep dest type sp) /\ row' !! j = Some r.
Proof.
  unfold BADGE_MAX_CAP_TYPE, BADGE_SPACE_ID_NULL, BADGE_MAX_SPACE_ID in *.
  destruct (pd_add_rde_run s a e type name sp ep row idx) as (s' & Hrun); try done;
    [unfold type_ok; lia|unfold space_ok; lia|].
  rewrite Halloc in Hrun. cbn [fst snd] in Hrun. rewrite Hmint in Hrun. simpl negb in Hrun.
  destruct Hrun as (Hrun & He' & _), Hlater as (Hj & Hr & Esp & Ety).
  pose proof (row_at_upd _ _ _ idx (set_rde_slot_in_PD dest) (claimed_row e type name sp ep row idx Hrow)) as Hrow'.
  rewrite list_alter_alter_eq in Hrow'.
  eexists s', _, _. split; [done|]. split; [exact He'|]. split; [exact Hrow'|].
  apply rde_free_Some in Hfree as (i & r0 & -> & Hi & _). simpl in *.
  split; [by rewrite list_lookup_alter_eq, Hi|by rewrite list_lookup_alter_ne by lia].
Qed.

(** looking up a type without a space finds removed entries: once the first
    entry of the row was removed, the lookup returns the cleared slot, although a
    live entry of the type follows it. *)
Theorem pd_rde_get_null_finds_cleared (s : server) (a : nat) (e : pd_entry_t) (type : Z)
  (row : list osmosis_rde_t) (r : osmosis_rde_t)
  (He : pd_at s a e) (Ha : attached e) (Hrow : row_at e type row)
  (Hfirst : row !! 0%nat = Some r) (Hcleared : rde_space_id r = BADGE_SPACE_ID_NULL) :
  pd_rde_get a type BADGE_SPACE_ID_NULL s = (Ok (Some r), s).
Proof.
  rewrite (pd_rde_get_run s a e type _ row He Ha Hrow).
  destruct row as [|r0 row]; [done|]. injection Hfirst as ->. simpl.
  rewrite (proj2 (Z.eqb_eq _ _) Hcleared). by destruct (rde_type r =? type).
Qed.

(** the directory has a row for each of the first 17 types only: adding an
    entry of a later type leaves the array, for every table of 17 rows. *)
Theorem pd_add_rde_out_of_bounds (s : server) (a : nat) (e : pd_entry_t) (type sp ep : Z)
  (name : list Z) (He : pd_at s a e) (Ha : attached e)
  (Hrows : length (rde (shared (pd e))) = Z.to_nat GPICAP_TYPE_MAX) (Ht : GPICAP_TYPE_MAX <= type) :
  stops (pd_add_rde sys a type name sp ep) s OutOfBounds.
Proof.
  exists s. unfold pd_add_rde. apply bind_crash. apply (rde_row_out s a e type He Ha).
  apply lookup_ge_None. rewrite Hrows. lia.
Qed.
End Directory.

(** ** Witnesses: a PD with a directory entry and a held memory object *)
Section PdResourcesWitnesses.
Definition mo_id_demo : gpi_res_id_t := ResId GPICAP_TYPE_MO 4 7.
Definition hold_demo : registry pd_hold_node_t CB :=
  Registry [Node 5 (compact mo_id_demo) 2 (HoldNode 30 0 0 mo_id_demo)] (BADGE_MAX - 1) 0 (Some CbHeld) 9.
(** rows of the directory: memory objects (a removed entry, then a live one), and
    nothing else *)
Definition row_demo : list osmosis_rde_t :=
  [Rde 0 0 GPICAP_TYPE_NONE BADGE_SPACE_ID_NULL; Rde 9 31 GPICAP_TYPE_MO 4] ++ repeat rde_zero 6.
Definition shared_demo : osm_pd_shared_data_t :=
  set_rde (<[3%nat := row_demo]> rde_zeroes) shared_zero.
Definition entry_demo : pd_entry_t :=
  PdEntry (set_shared_data 4096 (set_shared shared_demo (set_hold_registry hold_demo
             (set_pd_vka 50 (set_pd_id 1 pd_zero))))) (repeat (Some []) PdWorkAction_MAX).
Definition server_demo : server :=
  set_next_addr 20 (set_pd_component
    (Rcc GPICAP_TYPE_PD 2 (Registry [Node 9 1 1 entry_demo] 100 1 (Some CbPd) 0) 0 9) server_zero).

Lemma mo_id_demo_ok : res_ok mo_id_demo.
Proof. repeat split; unfold type_ok, space_ok, obj_ok, mo_id_demo, GPICAP_TYPE_MO; simpl; lia. Qed.
Lemma pd_at_demo : pd_at server_demo 9 entry_demo.
Proof. eexists. split; reflexivity. Qed.
Lemma hold_demo_ok : hold_ok entry_demo.
Proof. split; [|reflexivity]. apply wf_single. split; [simpl; lia|by vm_compute]. Qed.
Lemma attached_demo : attached entry_demo.
Proof. unfold attached. simpl. lia. Qed.
Lemma row_demo_ok : row_ok GPICAP_TYPE_MO row_demo.
Proof.
  assert (forall r, rde_type r = GPICAP_TYPE_NONE -> rde_space_id r = 0 \/ rde_space_id r = BADGE_SPACE_ID_NULL ->
    rde_ok GPICAP_TYPE_MO r) as Hc by (intros; by right).
  unfold row_ok, row_demo. simpl. repeat apply List.Forall_cons; [| |..|apply List.Forall_nil];
    try (apply Hc; [done|by left]).
  - apply Hc; [done|by right].
  - left. simpl. split; [done|]. unfold BADGE_SPACE_ID_NULL, BADGE_MAX_SPACE_ID. lia.
Qed.
Lemma names_demo_ok type : (Z.to_nat type < 17)%nat -> names_ok entry_demo type.
Proof. intros Ht. unfold names_ok. change (length _) with 17%nat. lia. Qed.

Lemma pd_add_resource_refines_witness :
  exists s' e', pd_add_resource sys_demo 9 mo_id_demo 0 0 0 server_demo = (Ok 0, s') /\
    pd_at s' 9 e' /\ hold_ok e' /\
    holds e' = <[compact mo_id_demo := (3, HoldNode 30 0 0 mo_id_demo)]> (holds entry_demo).
Proof.
  apply (pd_add_resource_refines sys_demo server_demo 9 entry_demo mo_id_demo 0 0 0);
    [exact pd_at_demo|exact hold_demo_ok|exact mo_id_demo_ok
    |reflexivity| |].
  - apply (bool_decide_unpack _). vm_compute. exact I.
  - intros c x Hc. vm_compute in Hc. injection Hc as <- _. lia.
Defined.

Lemma pd_remove_resource_spec_witness :
  exists r', wf_registry r' /\
    pd_remove_resource cb_demo 9 mo_id_demo server_demo = (Ok 0, rput (hold_p 9) r' server_demo) /\
    reg_abs r' = <[compact mo_id_demo := (1, HoldNode 30 0 0 mo_id_demo)]> (holds entry_demo).
Proof.
  apply (pd_remove_resource_spec cb_demo server_demo server_demo 9 entry_demo mo_id_demo);
    [exact pd_at_demo|exact hold_demo_ok|exact mo_id_demo_ok|].
  intros n Hn _ Hc. apply list_elem_of_singleton in Hn as ->. discriminate Hc.
Defined.

Lemma pd_add_rde_get_witness :
  exists s' e', pd_add_rde sys_demo 9 GPICAP_TYPE_MO [77; 79] 8 60 server_demo = (Ok 0, s') /\
    pd_at s' 9 e' /\
    pd_rde_get 9 GPICAP_TYPE_MO 8 s' = (Ok (Some (Rde 60 1 GPICAP_TYPE_MO 8)), s').
Proof.
  destruct (pd_add_rde_get sys_demo server_demo 9 entry_demo GPICAP_TYPE_MO 8 60 1 [77; 79] row_demo 0)
    as (s' & e' & Hrun & He' & Hget & _);
    [exact pd_at_demo|exact attached_demo|reflexivity|exact row_demo_ok|by apply names_demo_ok; vm_compute; lia
    |unfold GPICAP_TYPE_MO, BADGE_MAX_CAP_TYPE; lia|unfold BADGE_SPACE_ID_NULL, BADGE_MAX_SPACE_ID; lia
    |split; simpl; lia|reflexivity|reflexivity|reflexivity|].
  exists s', e'. split; [exact Hrun|]. split; [exact He'|exact Hget].
Defined.

(** a kernel that cannot mint *)
Definition sys_no_mint (l : list xcall) (c : xcall) : Z * Z :=
  match fst c with VkaCnodeMint => (10, 0) | _ => (0, 1) end.

Lemma pd_add_rde_failure_keeps_entry_witness :
  exists s' err, err <> 0 /\
    pd_add_rde sys_no_mint 9 GPICAP_TYPE_MO [77; 79] 8 60 server_demo = (Ok err, s') /\
    pd_rde_get 9 GPICAP_TYPE_MO 8 s' = (Ok (Some (Rde 60 0 GPICAP_TYPE_MO 8)), s').
Proof.
  apply (pd_add_rde_failure_keeps_entry sys_no_mint server_demo 9 entry_demo GPICAP_TYPE_MO 8 60
           [77; 79] row_demo 0 (Rde 0 0 GPICAP_TYPE_NONE BADGE_SPACE_ID_NULL));
    [exact pd_at_demo|exact attached_demo|reflexivity|exact row_demo_ok|by apply names_demo_ok; vm_compute; lia
    |unfold GPICAP_TYPE_MO, BADGE_MAX_CAP_TYPE; lia|unfold BADGE_SPACE_ID_NULL, BADGE_MAX_SPACE_ID; lia
    |split; simpl; lia|reflexivity|reflexivity|].
  right. discriminate.
Defined.

Lemma pd_add_rde_duplicates_witness :
  exists s' e' row', pd_add_rde sys_demo 9 GPICAP_TYPE_MO [77; 79] 4 60 server_demo = (Ok 0, s') /\
    pd_at s' 9 e' /\ row_at e' GPICAP_TYPE_MO row' /\
    row' !! 0%nat = Some (Rde 60 1 GPICAP_TYPE_MO 4) /\ row' !! 1%nat = Some (Rde 9 31 GPICAP_TYPE_MO 4).
Proof.
  apply (pd_add_rde_duplicates sys_demo server_demo 9 entry_demo GPICAP_TYPE_MO 4 60 1 [77; 79] row_demo 0 1);
    [exact pd_at_demo|exact attached_demo|reflexivity|exact row_demo_ok|by apply names_demo_ok; vm_compute; lia
    |unfold GPICAP_TYPE_MO, BADGE_MAX_CAP_TYPE; lia|unfold BADGE_SPACE_ID_NULL, BADGE_MAX_SPACE_ID; lia
    |split; simpl; lia|reflexivity| |reflexivity|reflexivity].
  repeat split; lia.
Defined.

Lemma pd_rde_get_null_finds_cleared_witness :
  pd_rde_get 9 GPICAP_TYPE_MO BADGE_SPACE_ID_NULL server_demo =
    (Ok (Some (Rde 0 0 GPICAP_TYPE_NONE BADGE_SPACE_ID_NULL)), server_demo).
Proof.
  apply (pd_rde_get_null_finds_cleared server_demo 9 entry_demo GPICAP_TYPE_MO row_demo);
    [exact pd_at_demo|exact attached_demo|reflexivity|reflexivity|reflexivity].
Defined.

Lemma pd_add_rde_out_of_bounds_witness :
  stops (pd_add_rde sys_demo 9 17 [66] 8 60) server_demo OutOfBounds.
Proof.
  apply (pd_add_rde_out_of_bounds sys_demo server_demo 9 entry_demo);
    [exact pd_at_demo|exact attached_demo|reflexivity|unfold GPICAP_TYPE_MAX, GPICAP_TYPE_seL4; lia].
Defined.
End PdResourcesWitnesses.
