(* ===== verification/Resspc.v ===== *)
(** * Resource spaces

    Model of [libsel4gpi/src/resource_space_component.c], with
    pd_component_space_cleanup of [pd_component.c]: the registry of resource
    spaces, the map edges between them, their deletion with its cleanup policy and
    its two depth limits, and the requests that resource servers make.

    [GPI_CLEANUP_RS_DEPTH] and [GPI_CLEANUP_PD_DEPTH] are options of the build; -1
    stands for no limit. *)

From stdpp Require Import base numbers list gmap.
From S2P Require Import Prelude Badge Registry State ResourceTypes Component PdResources.

(** ** Messages *)
Definition RESSPC_RPC_MAGIC : Z := 0x535043.
Definition RESSPC_SPACE_ID : Z := 0x1.

(** the outcome of a request handler: the reply's error code and message, and what
    is stored to [*need_new_recv_cap] and [*should_reply] *)
Record handled (B : Type) := Handled {
  errorCode : Z;
  reply_msg : B;
  need_new_recv_cap : bool;
  should_reply : bool
}.
Arguments Handled {B}. Arguments errorCode {B}. Arguments reply_msg {B}.
Arguments need_new_recv_cap {B}. Arguments should_reply {B}.

(** a reply sent at once, the receive slot unused *)
Definition replied {B} (error : Z) (msg : B) : handled B := Handled error msg false true.
Definition used_recv_cap {B} (b : bool) (h : handled B) : handled B :=
  Handled (errorCode h) (reply_msg h) b (should_reply h).

Inductive ResSpcMessage :=
| ResSpcAlloc (type_name : list Z) (client_id : Z)
| ResSpcMap (space_id : Z)
| ResSpcCreateResource (resource_id : Z)
| ResSpcDestroy
| ResSpcDeleteResource (resource_id : Z)
| ResSpcRevokeResource (resource_id target_pd_id : Z)
| ResSpcUnknown.

(** the zeroed buffer, or the message whose tag was set *)
Inductive ResSpcReturnMessage :=
| ResSpcNoReturn
| ResSpcBasicReturn
| ResSpcAllocReturn (id type_code slot : Z).

Section Resspc.
Context `{UTHash} (sys : list xcall -> xcall -> Z * Z).
Context (run_cb : CB -> nat -> nat -> M server unit).
Context (GPI_CLEANUP_RS_DEPTH GPI_CLEANUP_PD_DEPTH : Z).

Definition space_load (a : nat) : M server res_space_t := obj_load resspc_p a.
Definition space_store (a : nat) (f : res_space_t -> res_space_t) : M server unit :=
  obj_store resspc_p a f.

(** ** Creation *)
Record resspc_config_t := ResspcConfig { config_type : Z; config_ep : Z; config_pd_id : Z }.

Definition resspc_new (config : resspc_config_t) (a : nat) : M server Z :=
  space_store a (fun sp =>
    set_map_spaces [] (set_spc_resource_type (config_type config)
      (set_spc_server_ep (config_ep config) (set_spc_pd_id (config_pd_id config)
        (set_spc_to_delete false (set_spc_deleting false
          (set_spc_deletion_depth 0 (set_dont_notify false sp)))))))) ;;
  mret 0.

Definition resspc_allocate (config : resspc_config_t) (client_id object_id : Z) (want_cap : bool)
  : M server (Z * option nat * Z) :=
  resource_component_allocate sys resspc_component resspc_p res_space_zero set_spc_id
    (resspc_new config) client_id object_id false want_cap.

(** ** Map edges *)
Definition resspc_component_map_space (src_spc_id dest_spc_id : Z) : M server Z :=
  src_space_entry ← resource_space_get_entry_by_id src_spc_id;
  match src_space_entry with
  | None => mret DEFAULT_ERR
  | Some src =>
      dst_space_entry ← resource_space_get_entry_by_id dest_spc_id;
      match dst_space_entry with
      | None => mret DEFAULT_ERR
      | Some dst =>
          sp ← space_load src;
          l ← list_insert sys (map_spaces sp) dst;
          space_store src (set_map_spaces l) ;;
          mret 0
      end
  end.

(** follows the pointers of the list until one has the destination's identifier *)
Fixpoint check_map_loop (dest_space_id : Z) (l : list nat) : M server bool :=
  match l with
  | [] => mret false
  | curr :: l =>
      sp ← space_load curr;
      if spc_id sp =? dest_space_id then mret true else check_map_loop dest_space_id l
  end.

Definition resspc_check_map (src_space_id dest_space_id : Z) : M server bool :=
  src_space_entry ← resource_space_get_entry_by_id src_space_id;
  match src_space_entry with
  | None => mret false
  | Some src => sp ← space_load src; check_map_loop dest_space_id (map_spaces sp)
  end.

(** ** Deletion *)
Definition resspc_component_mark_delete (space_id : Z) (execute_cleanup_policy : bool)
  : M server Z :=
  space_entry ← resource_space_get_entry_by_id space_id;
  match space_entry with
  | None => mret DEFAULT_ERR
  | Some a =>
      space_store a (fun sp => set_cleanup_policy execute_cleanup_policy (set_spc_to_delete true sp)) ;;
      mret 0
  end.

(** the body of the cleanup's loop: mark a space that maps to the deleted one, one
    level deeper *)
Definition space_cleanup_visit (node : nat) (depth : Z) (curr : nat) : M server unit :=
  sp ← space_load curr;
  if bool_decide (map_spaces sp = []) || spc_to_delete sp then mret tt
  else if (GPI_CLEANUP_RS_DEPTH =? -1) || (depth + 1 <=? GPI_CLEANUP_RS_DEPTH) then
    deleted ← space_load node;
    maps ← resspc_check_map (spc_id sp) (spc_id deleted);
    when maps (space_store curr (fun sp =>
      set_cleanup_policy true (set_spc_to_delete true (set_spc_deletion_depth (depth + 1) sp))))
  else mret tt.

Definition resspc_component_space_cleanup (node : nat) : M server Z :=
  deleted ← space_load node;
  let depth := spc_deletion_depth deleted in
  if negb (GPI_CLEANUP_RS_DEPTH =? -1) && (GPI_CLEANUP_RS_DEPTH <=? depth) then mret 0
  else hash_iter resspc_p (space_cleanup_visit node depth) ;; mret 0.

(** the PDs to skip: the root task, and a PD already being deleted *)
Definition pd_skipped (p : pd_t) : M server bool :=
  s ← get_state; mret ((pd_id p =? rt_pd_id s) || to_delete p).

(** mark the PDs that request from, or hold something of, the deleted space *)
Definition space_cleanup_mark (depth space_type space_id : Z) : M server unit :=
  hash_iter pd_p (fun curr =>
    p ← pd_load curr;
    skip ← pd_skipped p;
    if skip : bool then mret tt
    else if (GPI_CLEANUP_PD_DEPTH =? -1) || (depth + 1 <=? GPI_CLEANUP_PD_DEPTH) then
      r ← pd_rde_get curr space_type space_id;
      depends ← match r with
                | Some _ => mret true
                | None => pd_has_resources_in_space curr space_id
                end;
      when depends (pd_store curr (fun p => set_to_delete true (set_deletion_depth (depth + 1) p)))
    else mret tt).

(** remove the space's directory entries and resources from the PDs that stay *)
Definition space_cleanup_remove (space_type space_id : Z) : M server Z :=
  r ← hash_iter_until pd_p (fun curr =>
    p ← pd_load curr;
    skip ← pd_skipped p;
    if skip : bool then mret None
    else
      _ ← pd_remove_rde sys curr space_type space_id;
      error ← pd_remove_resources_in_space run_cb curr space_id;
      mret (if error =? 0 then None else Some error));
  mret (default 0 r).

Definition pd_component_space_cleanup (pd_id_ space_type space_id_ : Z)
    (execute_cleanup_policy dont_notify_ : bool) : M server Z :=
  manager_data ← pd_component_registry_get_entry_by_id pd_id_;
  match manager_data with
  | None => mret DEFAULT_ERR
  | Some manager =>
      m ← pd_load manager;
      let depth := deletion_depth m in
      error ←
        (if to_delete m then mret 0
         else
           s ← get_state;
           try_ (pd_remove_resource run_cb manager
                   (make_res_id GPICAP_TYPE_RESSPC (space_id (resspc_component s)) space_id_))
             (m ← pd_load manager;
              s ← get_state;
              if negb dont_notify_ && negb (pd_id m =? rt_pd_id s) then
                work_entry ← calloc sys;
                match work_entry with
                | None => mret DEFAULT_ERR
                | Some _ =>
                    pd_component_queue_destroy_work sys manager
                      (WorkEntry (ResId space_type space_id_ BADGE_OBJ_ID_NULL) 0 false) ;;
                    mret 0
                end
              else mret 0));
      if negb (error =? 0) then mret error
      else
        when execute_cleanup_policy (space_cleanup_mark depth space_type space_id_) ;;
        space_cleanup_remove space_type space_id_
  end.

(** the callback of the registry of spaces *)
Definition on_resspc_registry_delete (node : nat) (arg : nat) : M server unit :=
  space_store node (set_spc_deleting true) ;;
  sp ← space_load node;
  resource_component_remove_from_rt run_cb resspc_component (spc_id sp) ;;
  sp ← space_load node;
  error ← (if cleanup_policy sp then resspc_component_space_cleanup node else mret 0);
  if negb (error =? 0) then mret tt
  else
    sp ← space_load node;
    _ ← pd_component_space_cleanup (spc_pd_id sp) (spc_resource_type sp) (spc_id sp)
          (cleanup_policy sp) (dont_notify sp);
    mret tt.

Definition resspc_component_sweep : M server unit :=
  hash_iter resspc_p (fun curr =>
    sp ← space_load curr;
    when (spc_to_delete sp && negb (spc_deleting sp))
      (resource_registry_delete run_cb resspc_p curr)).

(** ** Requests *)
Definition handle_resspc_allocation_request (m : ipc) (sender_badge : Z) (type_name : list Z)
    (client_id : Z) : M server (handled ResSpcReturnMessage) :=
  let failed error := replied error (ResSpcAllocReturn 0 0 0) in
  let caller_id := get_client_id_from_badge sender_badge in
  if negb (sel4gpi_rpc_check_cap m GPICAP_TYPE_EP) then mret (failed DEFAULT_ERR) else
  server_pd ← pd_component_registry_get_entry_by_id caller_id;
  match server_pd with None => mret (failed DEFAULT_ERR) | Some server_pd =>
  client_pd ← pd_component_registry_get_entry_by_id client_id;
  match client_pd with None => mret (failed DEFAULT_ERR) | Some client_pd =>
  ep_data ← resource_component_registry_get_by_badge ep_p (GetBadge m 0);
  match ep_data with None => mret (failed DEFAULT_ERR) | Some ep_data =>
  type ← get_resource_type_code sys type_name;
  ep ← obj_load ep_p ep_data;
  server ← pd_load server_pd;
  r ← resspc_allocate (ResspcConfig type (endpoint_in_RT ep) (pd_id server)) (pd_id server)
        BADGE_OBJ_ID_NULL true;
  let '(error, space_entry, space_cap) := r : Z * option nat * Z in
  if negb (error =? 0) then mret (failed error) else
  space_entry ← deref space_entry;
  sp ← space_load space_entry;
  ep ← obj_load ep_p ep_data;
  error ← pd_add_rde sys client_pd type type_name (spc_id sp) (endpoint_in_RT ep);
  if negb (error =? 0) then mret (failed error) else
  pd_add_type_name server_pd type type_name ;;
  mret (replied 0 (ResSpcAllocReturn (spc_id sp) type space_cap))
  end end end.

Definition basic (error : Z) : handled ResSpcReturnMessage := replied error ResSpcBasicReturn.

Definition handle_create_resource_request (sender_badge resource_id : Z)
  : M server (handled ResSpcReturnMessage) :=
  space_entry ← resource_space_get_entry_by_id (get_object_id_from_badge sender_badge);
  match space_entry with None => mret (basic DEFAULT_ERR) | Some space_entry =>
  server_pd ← pd_component_registry_get_entry_by_id (get_client_id_from_badge sender_badge);
  match server_pd with None => mret (basic DEFAULT_ERR) | Some server_pd =>
  sp ← space_load space_entry;
  error ← pd_add_resource sys server_pd (make_res_id (spc_resource_type sp) (spc_id sp) resource_id)
            CapNull CapNull CapNull;
  mret (basic error)
  end end.

Definition handle_delete_resource_request (sender_badge resource_id : Z)
  : M server (handled ResSpcReturnMessage) :=
  space_entry ← resource_space_get_entry_by_id (get_object_id_from_badge sender_badge);
  match space_entry with None => mret (basic DEFAULT_ERR) | Some space_entry =>
  sp ← space_load space_entry;
  error ← pd_component_resource_cleanup run_cb
            (make_res_id (spc_resource_type sp) (spc_id sp) resource_id);
  mret (basic error)
  end.

Definition handle_revoke_resource_request (sender_badge resource_id target_pd_id : Z)
  : M server (handled ResSpcReturnMessage) :=
  space_entry ← resource_space_get_entry_by_id (get_object_id_from_badge sender_badge);
  match space_entry with None => mret (basic DEFAULT_ERR) | Some space_entry =>
  sp ← space_load space_entry;
  target_pd ← pd_component_registry_get_entry_by_id target_pd_id;
  match target_pd with None => mret (basic DEFAULT_ERR) | Some target_pd =>
  error ← pd_remove_resource run_cb target_pd
            (make_res_id (spc_resource_type sp) (spc_id sp) resource_id);
  mret (basic error)
  end end.

Definition handle_map_space_request (sender_badge space_id : Z)
  : M server (handled ResSpcReturnMessage) :=
  error ← resspc_component_map_space (get_object_id_from_badge sender_badge) space_id;
  mret (basic error).

Definition handle_destroy_space_request (sender_badge : Z)
  : M server (handled ResSpcReturnMessage) :=
  let spc_id := get_object_id_from_badge sender_badge in
  src_space_entry ← resource_space_get_entry_by_id spc_id;
  match src_space_entry with None => mret (basic DEFAULT_ERR) | Some a =>
  sp ← space_load a;
  if spc_to_delete sp then mret (basic DEFAULT_ERR) else
  space_store a (fun sp => set_dont_notify true (set_cleanup_policy false (set_spc_to_delete true sp))) ;;
  error ← resource_component_delete run_cb resspc_p spc_id;
  mret (basic error)
  end.

Definition resspc_component_handle (m : ipc) (magic : Z) (msg : ResSpcMessage) (sender_badge : Z)
  : M server (handled ResSpcReturnMessage) :=
  let invalid := replied DEFAULT_ERR ResSpcNoReturn in
  if negb (magic =? RESSPC_RPC_MAGIC) then mret invalid
  else if get_object_id_from_badge sender_badge =? BADGE_OBJ_ID_NULL then
    match msg with
    | ResSpcAlloc type_name client_id =>
        h ← handle_resspc_allocation_request m sender_badge type_name client_id;
        mret (used_recv_cap true h)
    | _ => mret invalid
    end
  else
    match msg with
    | ResSpcCreateResource resource_id => handle_create_resource_request sender_badge resource_id
    | ResSpcMap space_id => handle_map_space_request sender_badge space_id
    | ResSpcDestroy => handle_destroy_space_request sender_badge
    | ResSpcDeleteResource resource_id => handle_delete_resource_request sender_badge resource_id
    | ResSpcRevokeResource resource_id target => handle_revoke_resource_request sender_badge resource_id target
    | _ => mret invalid
    end.

(** ** Initialization *)
Definition resspc_component_initialize (server_ep : Z) : M server unit :=
  resource_component_initialize resspc_component set_resspc_component GPICAP_TYPE_RESSPC
    RESSPC_SPACE_ID server_ep CbResspc ;;
  reg_entry ← calloc sys;
  assert_ (bool_decide (is_Some reg_entry)) ;;
  a ← deref reg_entry;
  resource_registry_insert resspc_p
    (Node a RESSPC_SPACE_ID 0 (set_spc_server_ep server_ep (set_spc_id RESSPC_SPACE_ID res_space_zero))).
End Resspc.

(** ** The cleanup policy: lemmas and properties *)
Section Cleanup.
Context `{UTHash} (sys : list xcall -> xcall -> Z * Z).
Context (run_cb : CB -> nat -> nat -> M server unit).
Context (GPI_CLEANUP_RS_DEPTH : Z).
Implicit Types (s : server) (n m : node res_space_t) (r : registry res_space_t CB).

(** does a space have a map edge to the space [tgt], following its pointers in [r]? *)
Definition maps_to (r : registry res_space_t CB) (tgt : Z) (sp : res_space_t) : bool :=
  existsb (fun a => match node_at a (head r) with
                    | Some n => spc_id (payload n) =? tgt
                    | None => false
                    end) (map_spaces sp).

(** what the deletion of [tgt] at depth [d] does to a space *)
Definition mark (r : registry res_space_t CB) (tgt d : Z) (n : node res_space_t) : node res_space_t :=
  if negb (spc_to_delete (payload n)) && maps_to r tgt (payload n) then
    with_payload (set_cleanup_policy true (set_spc_to_delete true
                    (set_spc_deletion_depth (d + 1) (payload n)))) n
  else n.

(** nodes that differ in their marks only *)
Definition same_space (n m : node res_space_t) : Prop :=
  n_addr n = n_addr m /\ object_id n = object_id m /\ count n = count m /\
  spc_id (payload n) = spc_id (payload m) /\ map_spaces (payload n) = map_spaces (payload m).

Lemma same_space_refl n : same_space n n.
Proof. done. Qed.
Lemma same_space_mark r tgt d n : same_space (mark r tgt d n) n.
Proof. unfold mark. by case_bool. Qed.

Lemma same_spaces_partial r tgt d pre post :
  Forall2 same_space ((mark r tgt d <$> pre) ++ post) (pre ++ post).
Proof.
  apply Forall2_app.
  - apply Forall2_fmap_l, Forall_Forall2_diag, Forall_true. intros n. apply same_space_mark.
  - apply Forall_Forall2_diag, Forall_true. intros n. apply same_space_refl.
Qed.

Lemma wf_same_spaces r l : wf_registry r -> Forall2 same_space l (head r) -> wf_registry (with_head l r).
Proof.
  intros [Ha Hi Hn] Hl.
  assert (n_addr <$> l = n_addr <$> head r) as E1
    by (apply list_eq_Forall2, Forall2_fmap; eapply Forall2_impl; [exact Hl|by intros ?? (? & _)]).
  assert (object_id <$> l = object_id <$> head r) as E2
    by (apply list_eq_Forall2, Forall2_fmap; eapply Forall2_impl; [exact Hl|by intros ?? (_ & ? & _)]).
  split; simpl; [by rewrite E1|by rewrite E2|].
  eapply Forall2_Forall_l in Hl; [exact Hl|]. eapply Forall_impl; [exact Hn|].
  intros n Hok m (_ & E & Ec & _). unfold node_ok in *. by rewrite E, Ec.
Qed.

Lemma node_at_same l l0 a n : Forall2 same_space l l0 -> node_at a l0 = Some n ->
  exists n', node_at a l = Some n' /\ same_space n' n.
Proof.
  induction 1 as [|x y l l0 Hxy Hl IH]; [done|]. unfold node_at in *. csimpl.
  destruct Hxy as (Ea & Hrest). rewrite Ea. destruct (Nat.eqb (n_addr y) a).
  - intros [= <-]. exists x. done.
  - exact IH.
Qed.

Lemma rget_resspc s : rget resspc_p s = Some (rc_registry (resspc_component s)).
Proof. done. Qed.
Lemma rput_resspc_id s : rput resspc_p (rc_registry (resspc_component s)) s = s.
Proof. destruct s as [? ? ? ? [] ? ? ? ? ? ? ? ? ? ? ? ? ? ? ? ? ? ?]. done. Qed.

(** the pointers of the map edges of a space are those of live spaces *)
Definition edges_live (r : registry res_space_t CB) (sp : res_space_t) : Prop :=
  Forall (fun a => is_Some (node_at a (head r))) (map_spaces sp).

Lemma check_map_loop_run s r r0 tgt l : rget resspc_p s = Some r -> Forall2 same_space (head r) (head r0) ->
  Forall (fun a => is_Some (node_at a (head r0))) l ->
  check_map_loop tgt l s = (Ok (existsb (fun a => match node_at a (head r0) with
      | Some n => spc_id (payload n) =? tgt | None => false end) l), s).
Proof.
  intros Hr Hsame. induction 1 as [|a l [n Hn] Hl IH]; [done|].
  destruct (node_at_same _ _ a n Hsame Hn) as (n' & Hn' & _ & _ & _ & Eid & _).
  simpl. rewrite Hn. unfold space_load.
  rewrite (bind_ok _ _ _ _ _ (obj_load_run resspc_p a r n' s Hr Hn')). rewrite Eid.
  by destruct (spc_id (payload n) =? tgt).
Qed.

Lemma resspc_check_map_run s r r0 tgt n : rget resspc_p s = Some r -> wf_registry r0 ->
  Forall2 same_space (head r) (head r0) -> max_object_id r = max_object_id r0 ->
  n ∈ head r0 -> object_id n = spc_id (payload n) -> edges_live r0 (payload n) ->
  resspc_check_map (spc_id (payload n)) tgt s = (Ok (maps_to r0 tgt (payload n)), s).
Proof.
  intros Hr Hwf0 Hsame Hmax Hin Eid Hlive.
  assert (wf_registry r) as Hwf.
  { pose proof (wf_same_spaces r0 (head r) Hwf0 Hsame) as [W1 W2 W3]. split; [done|done|].
    simpl in W3. by rewrite Hmax. }
  pose proof (node_at_elem (head r0) n (wf_addr _ Hwf0) Hin) as Hat.
  destruct (node_at_same _ _ _ n Hsame Hat) as (n' & Hn' & (Ea & Eo & _ & _ & Em)).
  apply node_at_Some in Hn' as [Hin' _].
  unfold resspc_check_map, resource_space_get_entry_by_id. rewrite <- Eid, <- Eo.
  rewrite (bind_ok _ _ _ _ _ (get_by_id_present resspc_p s r n' Hr Hwf Hin')).
  unfold space_load.
  rewrite (bind_ok _ _ _ _ _ (obj_load_run resspc_p _ r n' s Hr (node_at_elem _ _ (wf_addr _ Hwf) Hin'))).
  rewrite Em. by apply (check_map_loop_run s r r0).
Qed.

Lemma space_load_run s r n : rget resspc_p s = Some r -> wf_registry r -> n ∈ head r ->
  space_load (n_addr n) s = (Ok (payload n), s).
Proof.
  intros Hr Hwf Hin. apply (obj_load_run resspc_p _ r n s Hr). apply node_at_elem; [apply Hwf|done].
Qed.

Lemma mark_skip r tgt d n : map_spaces (payload n) = [] \/ spc_to_delete (payload n) = true ->
  mark r tgt d n = n.
Proof. intros [E|E]; unfold mark, maps_to; rewrite E; [by rewrite andb_false_r|done]. Qed.

(** one step of the loop, with the nodes before the current one already marked *)
Lemma space_cleanup_visit_run s r n0 d pre n post : wf_registry r -> n0 ∈ head r ->
  Forall (fun n => object_id n = spc_id (payload n)) (head r) ->
  Forall (fun n => edges_live r (payload n)) (head r) ->
  GPI_CLEANUP_RS_DEPTH = -1 \/ d + 1 <= GPI_CLEANUP_RS_DEPTH ->
  head r = pre ++ n :: post ->
  let f := mark r (spc_id (payload n0)) d in
  let at_ l := rput resspc_p (with_head l r) s in
  space_cleanup_visit GPI_CLEANUP_RS_DEPTH (n_addr n0) d (n_addr n) (at_ ((f <$> pre) ++ n :: post)) =
    (Ok tt, at_ ((f <$> pre) ++ f n :: post)).
Proof.
  intros Hwf Hn0 Hids Hlive Hdepth E f at_. set (tgt := spc_id (payload n0)) in f.
  set (cur := (f <$> pre) ++ n :: post). set (sc := at_ cur).
  assert (Forall2 same_space cur (head r)) as Hsame
    by (rewrite E; apply (same_spaces_partial r tgt d pre (n :: post))).
  pose proof (wf_same_spaces r cur Hwf Hsame) as Hwfc.
  assert (rget resspc_p sc = Some (with_head cur r)) as Hrc by done.
  assert (n ∈ head r) as Hin by (rewrite E; apply elem_mid).
  assert (n ∈ cur) as Hinc by apply elem_mid.
  unfold space_cleanup_visit. rewrite (bind_ok _ _ _ _ _ (space_load_run sc _ n Hrc Hwfc Hinc)).
  destruct (bool_decide (map_spaces (payload n) = []) || spc_to_delete (payload n)) eqn:Eskip.
  { unfold f. rewrite mark_skip; [done|]. apply orb_true_iff in Eskip as [Ee|Ed]; [|by right].
    left. by apply bool_decide_eq_true in Ee. }
  apply orb_false_iff in Eskip as [_ Ed].
  assert ((GPI_CLEANUP_RS_DEPTH =? -1) || (d + 1 <=? GPI_CLEANUP_RS_DEPTH) = true) as ->.
  { apply orb_true_iff. destruct Hdepth as [->|Hle]; [by left|right; by apply Z.leb_le]. }
  destruct (node_at_same cur (head r) _ n0 Hsame (node_at_elem _ _ (wf_addr _ Hwf) Hn0))
    as (n0' & Hn0' & _ & _ & _ & Eid & _).
  unfold space_load, space_store.
  rewrite (bind_ok _ _ _ _ _ (obj_load_run resspc_p _ _ n0' sc Hrc Hn0')), Eid. fold tgt.
  rewrite (bind_ok _ _ _ _ _ (resspc_check_map_run sc (with_head cur r) r tgt n Hrc Hwf Hsame
    eq_refl Hin (proj1 (Forall_forall _ _) Hids n Hin) (proj1 (Forall_forall _ _) Hlive n Hin))).
  unfold f, mark. rewrite Ed. simpl negb. rewrite andb_true_l.
  destruct (maps_to r tgt (payload n)); [|done]. simpl when.
  rewrite (obj_store_run resspc_p _ _ n _ sc Hrc (node_at_elem cur n (wf_addr _ Hwfc) Hinc)).
  unfold sc, at_. rewrite rput_rput. change (head (with_head cur r)) with cur. unfold cur at 1.
  rewrite hash_upd_mid by apply Hwfc. done.
Qed.

(** C24: the cleanup policy of a deleted space, in full: past the depth limit nothing
    changes; within it, the loop over the registry marks exactly the live spaces
    that have a map edge to the deleted one, each for deletion with its own cleanup
    policy and one level deeper, so that no mark goes deeper than the limit; no
    other field of any space changes.  The loop terminates without a fault as long
    as every map edge points to a live space. *)
Theorem space_cleanup_marks (s : server) (r : registry res_space_t CB) (n0 : node res_space_t)
  (Hr : rc_registry (resspc_component s) = r) (Hwf : wf_registry r) (Hn0 : n0 ∈ head r)
  (Hids : Forall (fun n => object_id n = spc_id (payload n)) (head r))
  (Hlive : Forall (fun n => edges_live r (payload n)) (head r)) :
  let d := spc_deletion_depth (payload n0) in
  if negb (GPI_CLEANUP_RS_DEPTH =? -1) && (GPI_CLEANUP_RS_DEPTH <=? d) then
    resspc_component_space_cleanup GPI_CLEANUP_RS_DEPTH (n_addr n0) s = (Ok 0, s)
  else
    resspc_component_space_cleanup GPI_CLEANUP_RS_DEPTH (n_addr n0) s =
      (Ok 0, rput resspc_p (with_head (mark r (spc_id (payload n0)) d <$> head r) r) s) /\
    (GPI_CLEANUP_RS_DEPTH = -1 \/ d + 1 <= GPI_CLEANUP_RS_DEPTH).
Proof.
  intros d. unfold resspc_component_space_cleanup.
  assert (rget resspc_p s = Some r) as Hrg by (by rewrite <- Hr).
  rewrite (bind_ok _ _ _ _ _ (space_load_run s r n0 Hrg Hwf Hn0)). fold d.
  destruct (negb (GPI_CLEANUP_RS_DEPTH =? -1) && (GPI_CLEANUP_RS_DEPTH <=? d)) eqn:Elim; [done|].
  assert (GPI_CLEANUP_RS_DEPTH = -1 \/ d + 1 <= GPI_CLEANUP_RS_DEPTH) as Hdepth.
  { apply andb_false_iff in Elim as [E|E]; [left|right]; [|apply Z.leb_gt in E; lia].
    apply negb_false_iff in E. by apply Z.eqb_eq in E. }
  split; [|done].
  assert (s = rput resspc_p r s) as Es by (rewrite <- Hr; by rewrite rput_resspc_id).
  rewrite Es at 1. erewrite bind_ok; [reflexivity|].
  apply (hash_iter_map resspc_p r s (mark r (spc_id (payload n0)) d)); [apply Hwf| |done|].
  - intros n. apply same_space_mark.
  - intros pre n post E. by apply space_cleanup_visit_run.
Qed.

Lemma check_map_loop_true s r tgt l a n : rget resspc_p s = Some r ->
  Forall (fun a => is_Some (node_at a (head r))) l -> node_at a (head r) = Some n ->
  a ∈ l -> spc_id (payload n) = tgt -> check_map_loop tgt l s = (Ok true, s).
Proof.
  intros Hr Hlive Hn Hin Eid.
  rewrite (check_map_loop_run s r r tgt l Hr); [|by apply Forall_Forall2_diag, Forall_true|done].
  do 2 f_equal. apply existsb_exists. exists a. split; [by apply list_elem_of_In|].
  rewrite Hn. by apply Z.eqb_eq.
Qed.

(** a map edge is there once it was made: mapping one live space to another
    returns 0, changes nothing but the source's list of edges, and checking the
    edge afterwards answers yes; when one of the two spaces does not exist the
    request fails and changes nothing. *)
Theorem map_space_then_check (s : server) (r : registry res_space_t CB) (src dst : Z)
  (Hr : rc_registry (resspc_component s) = r) (Hwf : wf_registry r)
  (Hids : Forall (fun n => object_id n = spc_id (payload n)) (head r))
  (Hlive : Forall (fun n => edges_live r (payload n)) (head r))
  (Hcalloc : fst (sys (log s) (Calloc, [])) = 0) :
  match reg_abs r !! src, reg_abs r !! dst with
  | Some _, Some _ =>
      exists s', resspc_component_map_space sys src dst s = (Ok 0, s') /\
        resspc_check_map src dst s' = (Ok true, s') /\
        Forall2 (fun n' n => n_addr n' = n_addr n /\ object_id n' = object_id n /\
                   exists l, payload n' = set_map_spaces l (payload n) /\
                     (l = map_spaces (payload n) \/
                      object_id n = src /\ exists a, l = map_spaces (payload n) ++ [a]))
          (head (rc_registry (resspc_component s'))) (head r)
  | _, _ => resspc_component_map_space sys src dst s = (Ok DEFAULT_ERR, s)
  end.
Proof.
  assert (rget resspc_p s = Some r) as Hrg by (by rewrite <- Hr).
  unfold resspc_component_map_space, resource_space_get_entry_by_id.
  destruct (reg_abs r !! src) as [[c x]|] eqn:Es; last first.
  { by rewrite (bind_ok _ _ _ _ _ (get_by_id_absent resspc_p s r src Hrg Hwf Es)). }
  destruct (abs_node r src c x Hwf Es) as (ns & Hns & Ens & _ & _).
  pose proof (get_by_id_present resspc_p s r ns Hrg Hwf Hns) as Hfs. rewrite Ens in Hfs.
  destruct (reg_abs r !! dst) as [[c' x']|] eqn:Ed; last first.
  { rewrite (bind_ok _ _ _ _ _ Hfs).
    by rewrite (bind_ok _ _ _ _ _ (get_by_id_absent resspc_p s r dst Hrg Hwf Ed)). }
  destruct (abs_node r dst c' x' Hwf Ed) as (nd & Hnd & End & _ & _).
  pose proof (get_by_id_present resspc_p s r nd Hrg Hwf Hnd) as Hfd. rewrite End in Hfd.
  set (f := fun n : node res_space_t =>
              with_payload (set_map_spaces (map_spaces (payload ns) ++ [n_addr nd]) (payload n)) n).
  set (r' := with_head (hash_upd (head r) (n_addr ns) f) r).
  assert (rget resspc_p (after_calloc s) = Some r) as Hrg' by exact Hrg.
  exists (rput resspc_p r' (after_calloc s)).
  assert (wf_registry r') as Hwf'.
  { apply (wf_with_payload r (n_addr ns) (set_map_spaces (map_spaces (payload ns) ++ [n_addr nd])) Hwf). }
  assert (f ns ∈ head r') as Hns' by (apply hash_upd_elem; exists ns; by rewrite Nat.eqb_refl).
  assert (forall a, is_Some (node_at a (head r)) -> is_Some (node_at a (head r'))) as Hmono.
  { intros a [n Hn]. unfold r'. simpl. rewrite node_at_upd by done. by rewrite Hn. }
  split; [|split].
  - rewrite (bind_ok _ _ _ _ _ Hfs), (bind_ok _ _ _ _ _ Hfd).
    rewrite (bind_ok _ _ _ _ _ (space_load_run s r ns Hrg Hwf Hns)).
    unfold list_insert. rewrite bind_assoc, (bind_ok _ _ _ _ _ (calloc_run sys s Hcalloc)).
    rewrite bind_assoc. erewrite bind_ok by reflexivity. erewrite bind_ok by reflexivity.
    unfold space_store.
    by rewrite (bind_ok _ _ _ _ _ (obj_store_run resspc_p _ r ns _ (after_calloc s) Hrg'
      (node_at_elem _ _ (wf_addr _ Hwf) Hns))).
  - set (s' := rput resspc_p r' (after_calloc s)).
    assert (rget resspc_p s' = Some r') as Hrg2 by done.
    unfold resspc_check_map, resource_space_get_entry_by_id.
    pose proof (get_by_id_present resspc_p s' r' (f ns) Hrg2 Hwf' Hns') as Hf2.
    change (object_id (f ns)) with (object_id ns) in Hf2. rewrite Ens in Hf2.
    rewrite (bind_ok _ _ _ _ _ Hf2), (bind_ok _ _ _ _ _ (space_load_run s' r' (f ns) Hrg2 Hwf' Hns')).
    change (map_spaces (payload (f ns))) with (map_spaces (payload ns) ++ [n_addr nd]).
    set (nd' := if (n_addr nd =? n_addr ns)%nat then f nd else nd).
    apply (check_map_loop_true s' r' dst _ (n_addr nd) nd' Hrg2).
    + apply Forall_app. split; [|apply Forall_singleton].
      * eapply Forall_impl; [exact (proj1 (Forall_forall _ _) Hlive ns Hns)|exact Hmono].
      * apply Hmono. exists nd. by apply node_at_elem; [apply Hwf|].
    + unfold r'. simpl. rewrite node_at_upd by done.
      rewrite (node_at_elem _ _ (wf_addr _ Hwf) Hnd). done.
    + apply list_elem_of_In, in_or_app. right. by left.
    + pose proof (proj1 (Forall_forall _ _) Hids nd Hnd) as Eid. simpl in Eid.
      unfold nd'. destruct (n_addr nd =? n_addr ns)%nat; simpl; congruence.
  - change (head (rc_registry (resspc_component _))) with (hash_upd (head r) (n_addr ns) f).
    unfold hash_upd. apply Forall2_fmap_l, Forall_Forall2_diag, Forall_forall. intros n Hn. simpl.
    destruct (Nat.eqb_spec (n_addr n) (n_addr ns)) as [E|E].
    + assert (n = ns) as -> by (by apply (elem_of_inj n_addr (head r)); [apply Hwf|..]).
      split; [done|]. split; [done|]. eexists. split; [reflexivity|]. right. split; [done|]. by eexists.
    + split; [done|]. split; [done|]. exists (map_spaces (payload n)). split; [|by left].
      by destruct (payload n).
Qed.

(** map edges are bare pointers: checking the edges of a space after one of the
    spaces they point to was freed follows the dangling pointer, unless the space
    looked for comes before it. *)
Theorem check_map_dangling (s : server) (r : registry res_space_t CB) (n : node res_space_t)
  (tgt : Z) (pre post : list nat) (a : nat)
  (Hr : rc_registry (resspc_component s) = r) (Hwf : wf_registry r) (Hin : n ∈ head r)
  (Hedges : map_spaces (payload n) = pre ++ a :: post)
  (Hpre : Forall (fun b => exists m, node_at b (head r) = Some m /\ spc_id (payload m) <> tgt) pre)
  (Hfreed : node_at a (head r) = None) :
  stops (resspc_check_map (object_id n) tgt) s UseAfterFree.
Proof.
  assert (rget resspc_p s = Some r) as Hrg by (by rewrite <- Hr).
  exists s. unfold resspc_check_map, resource_space_get_entry_by_id.
  rewrite (bind_ok _ _ _ _ _ (get_by_id_present resspc_p s r n Hrg Hwf Hin)).
  rewrite (bind_ok _ _ _ _ _ (space_load_run s r n Hrg Hwf Hin)), Hedges. clear Hedges.
  induction Hpre as [|b pre (m & Hm & Hne) Hpre IH]; simpl.
  - apply bind_crash. by apply (obj_load_stops resspc_p a r s).
  - unfold space_load. rewrite (bind_ok _ _ _ _ _ (obj_load_run resspc_p b r m s Hrg Hm)).
    by rewrite (proj2 (Z.eqb_neq _ _) Hne).
Qed.

(** a resource server can stop the GPI server: creating a resource with an
    identifier past 20 bits fails the assertion of the badge's field. *)
Theorem create_resource_too_large_stops (s : server) (badge resource_id : Z)
  (sp : node res_space_t) (server_pd : node pd_entry_t)
  (Hwf : wf_registry (rc_registry (resspc_component s)))
  (Hwfp : wf_registry (rc_registry (pd_component s)))
  (Hsp : sp ∈ head (rc_registry (resspc_component s)) /\ object_id sp = get_object_id_from_badge badge)
  (Hpd : server_pd ∈ head (rc_registry (pd_component s)) /\
         object_id server_pd = get_client_id_from_badge badge)
  (Htype : type_ok (spc_resource_type (payload sp))) (Hbig : BADGE_MAX_OBJ_ID < resource_id) :
  stops (handle_create_resource_request sys badge resource_id) s AssertFail.
Proof.
  destruct Hsp as [Hsp Esp], Hpd as [Hpd Epd].
  pose proof (get_by_id_present resspc_p s _ sp eq_refl Hwf Hsp) as Hf1. rewrite Esp in Hf1.
  pose proof (get_by_id_present pd_p s _ server_pd eq_refl Hwfp Hpd) as Hf2. rewrite Epd in Hf2.
  destruct (compact_res_id_stops (spc_resource_type (payload sp)) (spc_id (payload sp)) resource_id s Htype Hbig)
    as (s' & Hstop).
  exists s'. unfold handle_create_resource_request, resource_space_get_entry_by_id,
    pd_component_registry_get_entry_by_id.
  rewrite (bind_ok _ _ _ _ _ Hf1), (bind_ok _ _ _ _ _ Hf2).
  rewrite (bind_ok _ _ _ _ _ (space_load_run s _ sp eq_refl Hwf Hsp)).
  apply bind_crash. unfold pd_add_resource. apply bind_crash. exact Hstop.
Qed.
End Cleanup.

(** ** Witnesses: three spaces; the first two map to the third *)
Section ResspcWitnesses.
Definition space_demo (id : Z) (edges : list nat) : res_space_t :=
  set_map_spaces edges (set_spc_resource_type 10 (set_spc_id id res_space_zero)).
Definition spaces_demo : registry res_space_t CB :=
  Registry [Node 11 1 1 (space_demo 1 [13%nat]); Node 12 2 1 (space_demo 2 [11%nat; 13%nat]);
            Node 13 3 1 (space_demo 3 [])] 254 3 (Some CbResspc) 0.
Definition resspc_server : server :=
  set_resspc_component (Rcc GPICAP_TYPE_RESSPC 1 spaces_demo 0 9) server_demo.
Definition dangling_server : server :=
  set_resspc_component (Rcc GPICAP_TYPE_RESSPC 1
    (with_head (hash_del (head spaces_demo) 13) spaces_demo) 0 9) server_demo.

Lemma spaces_demo_wf : wf_registry spaces_demo.
Proof.
  split; [by apply (bool_decide_unpack _); vm_compute; exact I..|].
  repeat (apply Forall_cons; split); [| | |apply Forall_nil_2]; split; simpl; lia.
Qed.
Lemma spaces_demo_ids : Forall (fun n => object_id n = spc_id (payload n)) (head spaces_demo).
Proof. repeat (apply Forall_cons; split); done. Qed.
Lemma spaces_demo_live : Forall (fun n => edges_live spaces_demo (payload n)) (head spaces_demo).
Proof.
  repeat (apply Forall_cons; split); [..|apply Forall_nil_2]; unfold edges_live; simpl;
    repeat (apply Forall_cons; split); try apply Forall_nil_2; by eexists.
Qed.

Lemma space_cleanup_marks_witness :
  resspc_component_space_cleanup 1 13 resspc_server =
    (Ok 0, rput resspc_p (with_head (mark spaces_demo 3 0 <$> head spaces_demo) spaces_demo) resspc_server).
Proof.
  apply (space_cleanup_marks 1 resspc_server spaces_demo (Node 13 3 1 (space_demo 3 [])));
    [reflexivity|exact spaces_demo_wf|right; right; left|exact spaces_demo_ids|exact spaces_demo_live].
Defined.

Lemma map_space_then_check_witness :
  exists s', resspc_component_map_space sys_demo 3 2 resspc_server = (Ok 0, s') /\
    resspc_check_map 3 2 s' = (Ok true, s').
Proof.
  pose proof (map_space_then_check sys_demo resspc_server spaces_demo 3 2 eq_refl spaces_demo_wf
    spaces_demo_ids spaces_demo_live eq_refl) as Hm.
  destruct Hm as (s' & H1 & H2 & _). exists s'. split; [exact H1|exact H2].
Defined.

Lemma check_map_dangling_witness : stops (resspc_check_map 2 3) dangling_server UseAfterFree.
Proof.
  apply (check_map_dangling dangling_server (rc_registry (resspc_component dangling_server)) (Node 12 2 1 (space_demo 2 [11%nat; 13%nat])) 3 [11%nat] [] 13);
    [reflexivity| |right; left|reflexivity| |reflexivity].
  - split; [by apply (bool_decide_unpack _); vm_compute; exact I..|].
    repeat (apply Forall_cons; split); [| |apply Forall_nil_2]; split; simpl; lia.
  - apply Forall_singleton. eexists. split; [reflexivity|discriminate].
Defined.

Lemma create_resource_too_large_stops_witness :
  stops (handle_create_resource_request sys_demo (badge_of GPICAP_TYPE_RESSPC 1 1 2) 0x100000)
    resspc_server AssertFail.
Proof.
  apply (create_resource_too_large_stops sys_demo resspc_server _ _ (Node 12 2 1 (space_demo 2 [11%nat; 13%nat]))
           (Node 9 1 1 entry_demo)); [exact spaces_demo_wf| | | | |].
  - apply wf_single. split; simpl; lia.
  - split; [right; left|reflexivity].
  - split; [left|reflexivity].
  - unfold type_ok. simpl. lia.
  - unfold BADGE_MAX_OBJ_ID. lia.
Defined.
End ResspcWitnesses.
