(* ===== verification/Mo.v ===== *)
(** * Memory objects

    Model of [libsel4gpi/src/mo_obj.c] and [mo_component.c]: a memory object is an
    array of frames allocated page by page from the server's vka; the requests
    allocate an object and drop a reference to it.  mo_dump_rr is in the file
    Dump. *)

From stdpp Require Import base numbers list gmap.
From S2P Require Import Prelude Badge Registry State Component PdResources Resspc.

Definition MO_RPC_MAGIC : Z := 0x4d4f.
(** seL4_PageBits, the page size of objects made by the root task *)
Definition MO_PAGE_BITS : Z := 12.

(** mo_new_args_t *)
Record mo_new_args_t := MoNewArgs { arg_num_pages : Z; arg_page_bits : Z; arg_paddr : Z }.

Inductive MoMessage :=
| MoAlloc (num_pages page_bits phys_addr : Z)
| MoDisconnect
| MoUnknown.
Inductive MoReturnMessage :=
| MoNoReturn
| MoBasicReturn
| MoAllocReturn (id slot : Z).

Section Mo.
Context `{UTHash} (sys : list xcall -> xcall -> Z * Z).
Context (run_cb : CB -> nat -> nat -> M server unit).

(** ** mo_obj.c *)
Definition mo_load (a : nat) : M server mo_t := obj_load mo_p a.
Definition mo_store (a : nat) (f : mo_t -> mo_t) : M server unit := obj_store mo_p a f.

(** [array[i] = v] through a pointer that may be NULL *)
Definition array_store (o : option (list Z)) (i : nat) (v : Z) : M server (option (list Z)) :=
  match o with
  | None => crash NullDeref
  | Some l => if (i <? length l)%nat then mret (Some (<[i := v]> l)) else crash OutOfBounds
  end.

(** record frame [i], whose capability is [cptr], at physical address [paddr] *)
Definition set_frame (mo : nat) (i : nat) (cptr paddr : Z) : M server unit :=
  m ← mo_load mo;
  o ← array_store (vka_objects m) i cptr;
  c ← array_store (frame_caps_in_root_task m) i cptr;
  p ← array_store (frame_paddrs m) i paddr;
  mo_store mo (fun m => set_vka_objects o (set_frame_caps_in_root_task c (set_frame_paddrs p m))).

(** the loops over the pages; [todo] pages remain from index [i] *)
Fixpoint alloc_frames (mo : nat) (page_bits : Z) (i todo : nat) : M server Z :=
  match todo with
  | O => mret 0
  | S todo =>
      r ← ext sys VkaAllocFrame [page_bits];
      let '(error, cptr) := r : Z * Z in
      if negb (error =? 0) then mret error
      else
        paddr ← ext_val sys VkaObjectPaddr [cptr];
        set_frame mo i cptr paddr ;;
        alloc_frames mo page_bits (S i) todo
  end.

Fixpoint alloc_frames_at_paddr (mo : nat) (page_bits curr : Z) (i todo : nat) : M server Z :=
  match todo with
  | O => mret 0
  | S todo =>
      r ← ext sys VkaAllocFrameAt [page_bits; curr];
      let '(error, cptr) := r : Z * Z in
      if negb (error =? 0) then mret error
      else
        set_frame mo i cptr curr ;;
        size ← size_bits_to_bytes page_bits;
        alloc_frames_at_paddr mo page_bits (u64 (curr + size)) (S i) todo
  end.

(** calloc(n, size): the zeroed array, or NULL *)
Definition calloc_array (n : Z) : M server (option (list Z)) :=
  a ← calloc sys; mret (match a with Some _ => Some (repeat 0 (Z.to_nat n)) | None => None end).

Definition mo_new (alloc_args : mo_new_args_t) (mo : nat) : M server Z :=
  let n := arg_num_pages alloc_args in
  mo_store mo (fun m => set_mo_page_bits (arg_page_bits alloc_args) (set_num_pages n m)) ;;
  caps ← calloc_array n;
  paddrs ← calloc_array n;
  objects ← calloc_array n;
  mo_store mo (fun m => set_vka_objects objects (set_frame_paddrs paddrs
                          (set_frame_caps_in_root_task caps m))) ;;
  if bool_decide (caps = None) || bool_decide (paddrs = None) || bool_decide (objects = None)
  then mret DEFAULT_ERR
  else
    try_ (if negb (arg_paddr alloc_args =? 0)
          then alloc_frames_at_paddr mo (arg_page_bits alloc_args) (arg_paddr alloc_args) 0 (Z.to_nat n)
          else alloc_frames mo (arg_page_bits alloc_args) 0 (Z.to_nat n))
    (m ← mo_load mo;
     s ← get_state;
     pd_add_resource_by_id sys (rt_pd_id s)
       (make_res_id GPICAP_TYPE_MO (space_id (mo_component s)) (mo_id m)) CapNull CapNull CapNull).

Definition mo_destroy (mo : nat) : M server unit :=
  m ← mo_load mo;
  match vka_objects m with
  | None => mret tt
  | Some objects =>
      for_each (seq 0 (Z.to_nat (num_pages m))) (fun i =>
        match objects !! i with
        | Some cptr => ext_ sys VkaFreeObject [cptr]
        | None => crash OutOfBounds
        end) ;;
      ext_ sys Free [] ;; ext_ sys Free [] ;; ext_ sys Free []
  end.

(** ** mo_component.c *)
Definition on_mo_registry_delete (node arg : nat) : M server unit :=
  m ← mo_load node;
  resource_component_remove_from_rt run_cb mo_component (mo_id m) ;;
  mo_destroy node.

Definition mo_allocate (args : mo_new_args_t) (client_id : Z) (forge want_cap : bool)
  : M server (Z * option nat * Z) :=
  resource_component_allocate sys mo_component mo_p mo_zero set_mo_id (mo_new args)
    client_id BADGE_OBJ_ID_NULL forge want_cap.

(** the error code and [*ret_mo] *)
Definition mo_component_allocate_rt (num_pages : Z) : M server (Z * option nat) :=
  s ← get_state;
  r ← mo_allocate (MoNewArgs num_pages MO_PAGE_BITS 0) (rt_pd_id s) false false;
  let '(error, new_entry, _) := r : Z * option nat * Z in
  mret (error, if error =? 0 then new_entry else None).

Definition handle_mo_allocation_request (sender_badge num_pages page_bits paddr : Z)
  : M server (handled MoReturnMessage) :=
  r ← mo_allocate (MoNewArgs num_pages page_bits paddr) (get_client_id_from_badge sender_badge)
        false true;
  let '(error, new_entry, ret_cap) := r : Z * option nat * Z in
  if negb (error =? 0) then mret (replied error (MoAllocReturn 0 0))
  else
    new_entry ← deref new_entry;
    m ← mo_load new_entry;
    mret (replied 0 (MoAllocReturn (mo_id m) ret_cap)).

Definition handle_mo_disconnect_request (sender_badge : Z) : M server (handled MoReturnMessage) :=
  let mo_id := get_object_id_from_badge sender_badge in
  pd_data ← pd_component_registry_get_entry_by_id (get_client_id_from_badge sender_badge);
  match pd_data with
  | None => mret (replied DEFAULT_ERR MoBasicReturn)
  | Some pd =>
      s ← get_state;
      error ← pd_remove_resource run_cb pd
                (make_res_id GPICAP_TYPE_MO (space_id (mo_component s)) mo_id);
      mret (replied error MoBasicReturn)
  end.

Definition mo_component_handle (magic : Z) (msg : MoMessage) (sender_badge : Z)
  : M server (handled MoReturnMessage) :=
  let invalid := replied DEFAULT_ERR MoNoReturn in
  if negb (magic =? MO_RPC_MAGIC) then mret invalid
  else if get_object_id_from_badge sender_badge =? BADGE_OBJ_ID_NULL then
    match msg with
    | MoAlloc num_pages page_bits phys_addr =>
        handle_mo_allocation_request sender_badge num_pages page_bits phys_addr
    | _ => mret invalid
    end
  else
    match msg with
    | MoDisconnect => handle_mo_disconnect_request sender_badge
    | _ => mret invalid
    end.

(** the default space of a core component, managed by the root task *)
Definition default_space (type : Z) : M server Z :=
  s ← get_state;
  r ← resspc_allocate sys (ResspcConfig type (server_ep_obj s) (rt_pd_id s)) (rt_pd_id s)
        BADGE_OBJ_ID_NULL false;
  let '(error, space_entry, _) := r : Z * option nat * Z in
  assert_ (error =? 0) ;;
  space_entry ← deref space_entry;
  sp ← space_load space_entry;
  mret (spc_id sp).

Definition mo_component_initialize : M server unit :=
  space ← default_space GPICAP_TYPE_MO;
  s ← get_state;
  resource_component_initialize mo_component set_mo_component GPICAP_TYPE_MO space
    (server_ep_obj s) CbMo.

(** seL4_GetCapPaddr of each capability *)
Fixpoint frame_paddrs_of (caps : list Z) : M server (list Z) :=
  match caps with
  | [] => mret []
  | c :: caps => p ← ext_val sys GetCapPaddr [c]; ps ← frame_paddrs_of caps; mret (p :: ps)
  end.

(** the error code, [*cap_ret] and [*mo_ret]; [frame_caps] has [num_pages] entries *)
Definition forge_mo_cap_from_frames (frame_caps : list Z) (client_pd_id : Z)
  : M server (Z * Z * option nat) :=
  r ← mo_allocate (MoNewArgs 0 0 0) client_pd_id true true;
  let '(error, new_entry, cap_ret) := r : Z * option nat * Z in
  if negb (error =? 0) then mret (error, cap_ret, None)
  else
    mo ← deref new_entry;
    caps ← calloc_array (Z.of_nat (length frame_caps));
    paddrs ← calloc_array (Z.of_nat (length frame_caps));
    assert_ (bool_decide (is_Some caps)) ;;
    assert_ (bool_decide (is_Some paddrs)) ;;
    paddrs ← frame_paddrs_of frame_caps;
    mo_store mo (fun m => set_num_pages (Z.of_nat (length frame_caps)) (set_mo_page_bits MO_PAGE_BITS
      (set_frame_paddrs (Some paddrs) (set_frame_caps_in_root_task (Some frame_caps) m)))) ;;
    m ← mo_load mo;
    s ← get_state;
    error ← pd_add_resource_by_id sys (rt_pd_id s)
              (make_res_id GPICAP_TYPE_MO (space_id (mo_component s)) (mo_id m))
              CapNull CapNull CapNull;
    mret (error, cap_ret, if error =? 0 then Some mo else None).
End Mo.

(** ** The frames of a memory object: lemmas *)
Section Frames.
Context `{UTHash} (sys : list xcall -> xcall -> Z * Z).
Implicit Types (s : server) (l : list xcall) (fs : list (Z * Z)).

(** the allocations as a function of the log: the error, the frames with their
    physical addresses, and the log afterwards *)
Fixpoint frames_from (bits : Z) l (todo : nat) : Z * list (Z * Z) * list xcall :=
  match todo with
  | O => (0, [], l)
  | S todo =>
      let call := (VkaAllocFrame, [bits]) in
      let '(error, cptr) := sys l call in
      if negb (error =? 0) then (error, [], call :: l)
      else
        let paddr := (VkaObjectPaddr, [cptr]) in
        let '(error, fs, l') := frames_from bits (paddr :: call :: l) todo in
        (error, (cptr, snd (sys (call :: l) paddr)) :: fs, l')
  end.

Fixpoint frames_at (bits curr : Z) l (todo : nat) : Z * list (Z * Z) * list xcall :=
  match todo with
  | O => (0, [], l)
  | S todo =>
      let call := (VkaAllocFrameAt, [bits; curr]) in
      let '(error, cptr) := sys l call in
      if negb (error =? 0) then (error, [], call :: l)
      else
        let '(error, fs, l') := frames_at bits (u64 (curr + 2 ^ bits)) (call :: l) todo in
        (error, (cptr, curr) :: fs, l')
  end.

(** the frames that the allocator has handed out, by the calls that asked for one *)
Fixpoint handed_out (l : list xcall) : list Z :=
  match l with
  | [] => []
  | (f, args) :: l =>
      let '(error, cptr) := sys l (f, args) in
      handed_out l ++
        match f with
        | VkaAllocFrame | VkaAllocFrameAt => if error =? 0 then [cptr] else []
        | _ => []
        end
  end.

Lemma handed_out_other f args l : match f with VkaAllocFrame | VkaAllocFrameAt => False | _ => True end ->
  handed_out ((f, args) :: l) = handed_out l.
Proof. simpl. destruct (sys l (f, args)). destruct f; (done || by rewrite app_nil_r). Qed.

Lemma frames_from_handed bits todo : forall l, let '(_, fs, l') := frames_from bits l todo in
  handed_out l' = handed_out l ++ (fst <$> fs).
Proof.
  induction todo as [|todo IH]; intros l; simpl; [by rewrite app_nil_r|].
  destruct (sys l (VkaAllocFrame, [bits])) as [error cptr] eqn:Es.
  destruct (error =? 0) eqn:E0; cbn [negb].
  - specialize (IH ((VkaObjectPaddr, [cptr]) :: (VkaAllocFrame, [bits]) :: l)).
    destruct (frames_from bits _ todo) as [[error' fs] l']. rewrite IH, handed_out_other by done.
    cbn [handed_out]. rewrite Es, E0, fmap_cons. by rewrite <- app_assoc.
  - cbn [handed_out]. by rewrite Es, E0.
Qed.

Lemma frames_at_handed bits todo : forall curr l, let '(_, fs, l') := frames_at bits curr l todo in
  handed_out l' = handed_out l ++ (fst <$> fs).
Proof.
  induction todo as [|todo IH]; intros curr l; simpl; [by rewrite app_nil_r|].
  destruct (sys l (VkaAllocFrameAt, [bits; curr])) as [error cptr] eqn:Es.
  destruct (error =? 0) eqn:E0; cbn [negb].
  - specialize (IH (u64 (curr + 2 ^ bits)) ((VkaAllocFrameAt, [bits; curr]) :: l)).
    destruct (frames_at bits _ _ todo) as [[error' fs] l']. rewrite IH.
    cbn [handed_out]. rewrite Es, E0, fmap_cons. by rewrite <- app_assoc.
  - cbn [handed_out]. by rewrite Es, E0.
Qed.

(** the three arrays: the frames so far, then the zeroes of calloc *)
Definition frame_arrays fs (rest : nat) (m : mo_t) : mo_t :=
  set_vka_objects (Some ((fst <$> fs) ++ repeat 0 rest))
    (set_frame_caps_in_root_task (Some ((fst <$> fs) ++ repeat 0 rest))
       (set_frame_paddrs (Some ((snd <$> fs) ++ repeat 0 rest)) m)).

(** the server with the arrays of the object at [a] filled, and the log at [l] *)
Definition with_frames s (a : nat) l fs (rest : nat) : server :=
  let r := rc_registry (mo_component s) in
  set_log l (rput mo_p (with_head (hash_upd (head r) a
    (fun n => with_payload (frame_arrays fs rest (payload n)) n)) r) s).

Lemma array_store_run (pre : list Z) v rest s :
  array_store (Some (pre ++ repeat 0 (S rest))) (length pre) v s =
    (Ok (Some ((pre ++ [v]) ++ repeat 0 rest)), s).
Proof.
  unfold array_store. rewrite (proj2 (Nat.ltb_lt _ _)) by (rewrite length_app; simpl; lia).
  simpl repeat. rewrite insert_app_r_alt, Nat.sub_diag by lia. by rewrite <- app_assoc.
Qed.

Lemma set_frame_run s a n l fs rest cptr paddr :
  node_at a (head (rc_registry (mo_component s))) = Some n ->
  set_frame a (length fs) cptr paddr (with_frames s a l fs (S rest)) =
    (Ok tt, with_frames s a l (fs ++ [(cptr, paddr)]) rest).
Proof.
  intros Hn. set (r := rc_registry (mo_component s)) in *.
  set (f := fun n : node mo_t => with_payload (frame_arrays fs (S rest) (payload n)) n).
  set (r1 := with_head (hash_upd (head r) a f) r).
  assert (rget mo_p (with_frames s a l fs (S rest)) = Some r1) as Hr1 by done.
  assert (node_at a (head r1) = Some (f n)) as Hn1 by (unfold r1; simpl; by rewrite node_at_upd_same, Hn).
  unfold set_frame, mo_load, mo_store.
  rewrite (bind_ok _ _ _ _ _ (obj_load_run mo_p a r1 (f n) _ Hr1 Hn1)).
  change (vka_objects (payload (f n))) with (Some ((fst <$> fs) ++ repeat 0 (S rest))).
  change (frame_caps_in_root_task (payload (f n))) with (Some ((fst <$> fs) ++ repeat 0 (S rest))).
  change (frame_paddrs (payload (f n))) with (Some ((snd <$> fs) ++ repeat 0 (S rest))).
  pose proof (array_store_run (fst <$> fs) cptr rest (with_frames s a l fs (S rest))) as Hc.
  pose proof (array_store_run (snd <$> fs) paddr rest (with_frames s a l fs (S rest))) as Hp.
  rewrite length_fmap in Hc, Hp.
  rewrite (bind_ok _ _ _ _ _ Hc), (bind_ok _ _ _ _ _ Hc), (bind_ok _ _ _ _ _ Hp).
  rewrite (obj_store_run mo_p a r1 (f n) _ _ Hr1 Hn1).
  unfold with_frames. fold r. unfold r1. simpl.
  rewrite hash_upd_upd by done. unfold frame_arrays. by rewrite !fmap_app.
Qed.

Lemma alloc_frames_run s a n bits todo : node_at a (head (rc_registry (mo_component s))) = Some n ->
  forall l fs, let '(error, fs', l') := frames_from bits l todo in
  alloc_frames sys a bits (length fs) todo (with_frames s a l fs todo) =
    (Ok error, with_frames s a l' (fs ++ fs') (todo - length fs')).
Proof.
  intros Hn. induction todo as [|todo IH]; intros l fs; simpl frames_from; [cbv beta iota; by rewrite app_nil_r|].
  destruct (sys l (VkaAllocFrame, [bits])) as [error cptr] eqn:Es.
  assert (ext sys VkaAllocFrame [bits] (with_frames s a l fs (S todo)) =
    (Ok (error, cptr), with_frames s a ((VkaAllocFrame, [bits]) :: l) fs (S todo))) as Hx.
  { rewrite ext_run. change (log (with_frames s a l fs (S todo))) with l. by rewrite Es. }
  destruct (error =? 0) eqn:E0; cbn [negb].
  - apply Z.eqb_eq in E0. subst error. set (paddr := snd (sys _ _)).
    specialize (IH ((VkaObjectPaddr, [cptr]) :: (VkaAllocFrame, [bits]) :: l) (fs ++ [(cptr, paddr)])).
    destruct (frames_from bits _ todo) as [[error fs'] l'] eqn:Ef.
    simpl alloc_frames. rewrite (bind_ok _ _ _ _ _ Hx). cbn [Z.eqb negb].
    assert (ext_val sys VkaObjectPaddr [cptr] (with_frames s a ((VkaAllocFrame, [bits]) :: l) fs (S todo)) =
      (Ok paddr, with_frames s a ((VkaObjectPaddr, [cptr]) :: (VkaAllocFrame, [bits]) :: l) fs (S todo)))
      as Hp by done.
    rewrite (bind_ok _ _ _ _ _ Hp).
    rewrite (bind_ok _ _ _ _ _ (set_frame_run s a n _ fs todo cptr paddr Hn)).
    rewrite length_app in IH. simpl in IH. rewrite Nat.add_1_r in IH. rewrite IH.
    by rewrite <- app_assoc.
  - simpl alloc_frames. rewrite (bind_ok _ _ _ _ _ Hx). rewrite E0. cbn [negb].
    by rewrite app_nil_r.
Qed.

Lemma alloc_frames_at_run s a n bits todo : 0 <= bits < 64 ->
  node_at a (head (rc_registry (mo_component s))) = Some n ->
  forall curr l fs, let '(error, fs', l') := frames_at bits curr l todo in
  alloc_frames_at_paddr sys a bits curr (length fs) todo (with_frames s a l fs todo) =
    (Ok error, with_frames s a l' (fs ++ fs') (todo - length fs')).
Proof.
  intros Hbits Hn. induction todo as [|todo IH]; intros curr l fs; simpl frames_at; [cbv beta iota; by rewrite app_nil_r|].
  destruct (sys l (VkaAllocFrameAt, [bits; curr])) as [error cptr] eqn:Es.
  assert (ext sys VkaAllocFrameAt [bits; curr] (with_frames s a l fs (S todo)) =
    (Ok (error, cptr), with_frames s a ((VkaAllocFrameAt, [bits; curr]) :: l) fs (S todo))) as Hx.
  { rewrite ext_run. change (log (with_frames s a l fs (S todo))) with l. by rewrite Es. }
  destruct (error =? 0) eqn:E0; cbn [negb].
  - apply Z.eqb_eq in E0. subst error.
    specialize (IH (u64 (curr + 2 ^ bits)) ((VkaAllocFrameAt, [bits; curr]) :: l) (fs ++ [(cptr, curr)])).
    destruct (frames_at bits _ _ todo) as [[error fs'] l'] eqn:Ef.
    simpl alloc_frames_at_paddr. rewrite (bind_ok _ _ _ _ _ Hx). cbn [Z.eqb negb].
    rewrite (bind_ok _ _ _ _ _ (set_frame_run s a n _ fs todo cptr curr Hn)).
    erewrite bind_ok by (unfold size_bits_to_bytes; by rewrite (proj2 (Z.ltb_lt bits 64)) by lia).
    rewrite length_app in IH. simpl in IH. rewrite Nat.add_1_r in IH. rewrite IH.
    by rewrite <- app_assoc.
  - simpl alloc_frames_at_paddr. rewrite (bind_ok _ _ _ _ _ Hx). rewrite E0. cbn [negb].
    by rewrite app_nil_r.
Qed.
End Frames.

(** ** A new memory object *)
Section NewMo.
Context `{UTHash} (sys : list xcall -> xcall -> Z * Z).
(** no external call fails *)
Hypothesis (Hsys : forall l c, fst (sys l c) = 0).
Implicit Types (s : server) (a b : nat) (e : pd_entry_t) (n : node mo_t).

(** the frames of a request: from any physical address, or from the given one *)
Definition frames_of (args : mo_new_args_t) (l : list xcall) : Z * list (Z * Z) * list xcall :=
  if arg_paddr args =? 0 then frames_from sys (arg_page_bits args) l (Z.to_nat (arg_num_pages args))
  else frames_at sys (arg_page_bits args) (arg_paddr args) l (Z.to_nat (arg_num_pages args)).

Lemma frames_from_ok bits todo : forall l,
  exists fs l', frames_from sys bits l todo = (0, fs, l') /\ length fs = todo.
Proof.
  induction todo as [|todo IH]; intros l; [by eexists _, _|]. simpl.
  pose proof (Hsys l (VkaAllocFrame, [bits])) as E. destruct (sys l _) as [error cptr]. simpl in E. subst error.
  destruct (IH ((VkaObjectPaddr, [cptr]) :: (VkaAllocFrame, [bits]) :: l)) as (fs & l' & -> & Hl).
  eexists _, _. split; [reflexivity|]. simpl. by rewrite Hl.
Qed.

Lemma frames_of_handed args l : let '(_, fs, l') := frames_of args l in
  handed_out sys l' = handed_out sys l ++ (fst <$> fs).
Proof. unfold frames_of. destruct (_ =? _); [apply frames_from_handed|apply frames_at_handed]. Qed.

(** consecutive physical addresses from [curr] *)
Lemma frames_at_ok bits todo : forall curr l, 0 <= curr < 2 ^ 64 ->
  exists fs l', frames_at sys bits curr l todo = (0, fs, l') /\ length fs = todo /\
    snd <$> fs = (fun k => u64 (curr + Z.of_nat k * 2 ^ bits)) <$> seq 0 todo.
Proof.
  induction todo as [|todo IH]; intros curr l Hc; [by eexists _, _|]. simpl.
  pose proof (Hsys l (VkaAllocFrameAt, [bits; curr])) as E. destruct (sys l _) as [error cptr]. simpl in E. subst error.
  destruct (IH (u64 (curr + 2 ^ bits)) ((VkaAllocFrameAt, [bits; curr]) :: l)) as (fs & l' & -> & Hl & Hp).
  { apply wrap_range. lia. }
  eexists _, _. split; [reflexivity|]. split; [simpl; by rewrite Hl|]. csimpl. rewrite Hp. f_equal.
  - unfold u64. rewrite wrap_small by lia. lia.
  - rewrite <- fmap_S_seq, <- list_fmap_compose. apply list_fmap_ext. intros i k _. simpl.
    unfold u64, wrap. rewrite Zplus_mod_idemp_l. f_equal. lia.
Qed.

Lemma frames_of_ok args l : 0 <= arg_num_pages args -> 0 <= arg_paddr args < 2 ^ 64 ->
  exists fs l', frames_of args l = (0, fs, l') /\ Z.of_nat (length fs) = arg_num_pages args /\
    (arg_paddr args <> 0 -> snd <$> fs =
       (fun k => u64 (arg_paddr args + Z.of_nat k * 2 ^ arg_page_bits args)) <$> seq 0 (length fs)).
Proof.
  intros Hn Hp. unfold frames_of. destruct (Z.eqb_spec (arg_paddr args) 0) as [E|E].
  - destruct (frames_from_ok (arg_page_bits args) (Z.to_nat (arg_num_pages args)) l) as (fs & l' & -> & Hl).
    eexists _, _. split; [reflexivity|]. split; [lia|done].
  - destruct (frames_at_ok (arg_page_bits args) (Z.to_nat (arg_num_pages args)) (arg_paddr args) l Hp)
      as (fs & l' & -> & Hl & Hps).
    eexists _, _. split; [reflexivity|]. split; [lia|]. intros _. by rewrite Hl.
Qed.

Lemma calloc_array_run k s : calloc_array sys k s = (Ok (Some (repeat 0 (Z.to_nat k))), after_calloc s).
Proof. unfold calloc_array. by rewrite (bind_ok _ _ _ _ _ (calloc_run sys s (Hsys _ _))). Qed.

(** the object that mo_new makes *)
Definition new_mo (args : mo_new_args_t) (fs : list (Z * Z)) (id : Z) : mo_t :=
  Mo id (Some (fst <$> fs)) (Some (fst <$> fs)) (Some (snd <$> fs)) (arg_num_pages args) (arg_page_bits args).

(** the server when only the object at [a] and the allocators have changed *)
Record mo_changed s a (m : mo_t) s' : Prop := {
  mc_pd : pd_component s' = pd_component s;
  mc_mo : mo_component s' = set_rc_registry
    (with_head (hash_upd (head (rc_registry (mo_component s))) a (with_payload m)) (rc_registry (mo_component s)))
    (mo_component s);
  mc_rt : rt_pd_id s' = rt_pd_id s;
  mc_addr : (next_addr s <= next_addr s')%nat
}.

Lemma hash_upd_compose {A} (l : list (node A)) a (f g : node A -> node A) :
  (forall m, n_addr (g m) = n_addr m) -> hash_upd (hash_upd l a g) a f = hash_upd l a (f ∘ g).
Proof.
  intros Hg. unfold hash_upd. rewrite <- list_fmap_compose. apply list_fmap_ext.
  intros i m _. simpl. destruct (Nat.eqb (n_addr m) a) eqn:E; [by rewrite Hg, E|by rewrite E].
Qed.

Lemma hash_upd_at {A} (l : list (node A)) a (m0 : node A) (f g : node A -> node A) :
  NoDup (n_addr <$> l) -> node_at a l = Some m0 -> f m0 = g m0 -> hash_upd l a f = hash_upd l a g.
Proof.
  intros Hnd Hn E. unfold hash_upd. apply list_fmap_ext. intros i m Hm%list_elem_of_lookup_2.
  destruct (Nat.eqb_spec (n_addr m) a) as [Ea|]; [|done].
  pose proof (node_at_elem l m Hnd Hm) as Hm'. rewrite Ea in Hm'. congruence.
Qed.

Lemma set_rc_registry_twice {A} (r r' : registry A CB) (x : rcc A) :
  set_rc_registry r (set_rc_registry r' x) = set_rc_registry r x.
Proof. done. Qed.

Lemma log_rput_mo s r : set_log (log s) (rput mo_p r s) = rput mo_p r s.
Proof. by destruct s. Qed.

(** the loops over the pages, from arrays of zeroes *)
Lemma alloc_of_run s a n args fs l' : node_at a (head (rc_registry (mo_component s))) = Some n ->
  0 <= arg_page_bits args < 64 -> frames_of args (log s) = (0, fs, l') ->
  let N := Z.to_nat (arg_num_pages args) in
  (if negb (arg_paddr args =? 0)
   then alloc_frames_at_paddr sys a (arg_page_bits args) (arg_paddr args) 0 N
   else alloc_frames sys a (arg_page_bits args) 0 N) (with_frames s a (log s) [] N) =
  (Ok 0, with_frames s a l' fs (N - length fs)).
Proof.
  intros Hn Hbits Hf N. unfold frames_of in Hf. fold N in Hf. destruct (arg_paddr args =? 0); cbn [negb].
  - pose proof (alloc_frames_run sys s a n (arg_page_bits args) N Hn (log s) []) as Hrun.
    by rewrite Hf in Hrun.
  - pose proof (alloc_frames_at_run sys s a n (arg_page_bits args) N Hbits Hn
      (arg_paddr args) (log s) []) as Hrun. by rewrite Hf in Hrun.
Qed.

Lemma mo_new_run s a n args : wf_registry (rc_registry (mo_component s)) ->
  node_at a (head (rc_registry (mo_component s))) = Some n ->
  0 <= arg_num_pages args -> 0 <= arg_paddr args < 2 ^ 64 -> 0 <= arg_page_bits args < 64 ->
  exists s' fs, mo_changed s a (new_mo args fs (mo_id (payload n))) s' /\
    Z.of_nat (length fs) = arg_num_pages args /\
    (arg_paddr args <> 0 -> snd <$> fs =
       (fun k => u64 (arg_paddr args + Z.of_nat k * 2 ^ arg_page_bits args)) <$> seq 0 (length fs)) /\
    handed_out sys (log s') = handed_out sys (log s) ++ (fst <$> fs) /\
    mo_new sys args a s =
      pd_add_resource_by_id sys (rt_pd_id s)
        (make_res_id GPICAP_TYPE_MO (space_id (mo_component s)) (mo_id (payload n))) CapNull CapNull CapNull s'.
Proof.
  intros Hwf Hn Hpages Hpaddr Hbits. set (N := Z.to_nat (arg_num_pages args)).
  set (r := rc_registry (mo_component s)) in *.
  set (f := fun n : node mo_t => with_payload (set_mo_page_bits (arg_page_bits args)
              (set_num_pages (arg_num_pages args) (payload n))) n).
  set (r1 := with_head (hash_upd (head r) a f) r). set (s1 := rput mo_p r1 s).
  set (s4 := after_calloc (after_calloc (after_calloc s1))).
  assert (node_at a (head r1) = Some (f n)) as Hn1 by (unfold r1; simpl; by rewrite node_at_upd_same, Hn).
  destruct (frames_of_ok args (log s4) Hpages Hpaddr) as (fs & l' & Hf & Hlen & Hphys).
  pose proof (frames_of_handed args (log s4)) as Hout. rewrite Hf in Hout.
  change (log s4) with (repeat (Calloc, []) 3 ++ log s) in Hout. cbn [repeat app] in Hout.
  rewrite !handed_out_other in Hout by done.
  exists (with_frames s4 a l' fs 0), fs. split; [|split; [done|split; [done|split; [done|]]]].
  - split; [done| |done|simpl; lia]. unfold with_frames, r1, with_head. simpl. rewrite set_rc_registry_twice.
    rewrite hash_upd_compose by done. do 2 f_equal.
    apply (hash_upd_at _ a n); [apply Hwf|done|]. unfold frame_arrays, new_mo, f. simpl. by rewrite !app_nil_r.
  - unfold mo_new, mo_store, mo_load.
    rewrite (bind_ok _ _ _ _ _ (obj_store_run mo_p a r n _ s eq_refl Hn)). fold f r1 s1.
    rewrite !(bind_ok _ _ _ _ _ (calloc_array_run _ _)). fold s4.
    assert (rget mo_p s4 = Some r1) as Hr1 by done.
    rewrite (bind_ok _ _ _ _ _ (obj_store_run mo_p a r1 (f n) _ s4 Hr1 Hn1)).
    rewrite <- log_rput_mo. change (set_log (log s4) _) with (with_frames s4 a (log s4) [] N).
    cbn [bool_decide orb]. rewrite !bool_decide_eq_false_2 by done. cbn [orb].
    unfold try_ at 1. rewrite (bind_ok _ _ _ _ _ (alloc_of_run s4 a (f n) args fs l' Hn1 Hbits Hf)).
    cbn [Z.eqb]. replace (Z.to_nat (arg_num_pages args) - length fs)%nat with 0%nat by lia.
    set (s5 := with_frames s4 a l' fs 0).
    set (F := fun n : node mo_t => with_payload (frame_arrays fs 0 (payload n)) n).
    assert (node_at a (hash_upd (head r1) a F) = Some (F (f n))) as Hn5 by (by rewrite node_at_upd_same, Hn1).
    rewrite (bind_ok _ _ _ _ _ (obj_load_run mo_p a (with_head (hash_upd (head r1) a F) r1) (F (f n)) s5
      eq_refl Hn5)).
    by erewrite (bind_ok get_state) by reflexivity.
Qed.
End NewMo.

(** ** Allocating a memory object *)
Section Allocation.
Context `{UTHash} (sys : list xcall -> xcall -> Z * Z).
Hypothesis (Hsys : forall l c, fst (sys l c) = 0).
Implicit Types (s : server) (a b : nat) (e : pd_entry_t) (n : node mo_t).

(** the memory object component as it is initialized, with the identifier [free]
    not taken *)
Record mo_ready s (free : Z) : Prop := {
  mr_wf : wf_registry (rc_registry (mo_component s));
  mr_max : max_object_id (rc_registry (mo_component s)) = BADGE_OBJ_ID_NULL - 1;
  mr_ctr : 0 <= id_counter (rc_registry (mo_component s)) <= BADGE_OBJ_ID_NULL - 1;
  mr_type : resource_type (mo_component s) = GPICAP_TYPE_MO;
  mr_space : space_ok (space_id (mo_component s));
  mr_free : 1 <= free <= BADGE_OBJ_ID_NULL - 1 /\ reg_abs (rc_registry (mo_component s)) !! free = None;
  mr_found : id_counter (rc_registry (mo_component s)) <= 1 \/ free <> id_counter (rc_registry (mo_component s));
  mr_addr : below (next_addr s) (rc_registry (mo_component s))
}.
Definition mo_rid s (id : Z) : gpi_res_id_t := make_res_id GPICAP_TYPE_MO (space_id (mo_component s)) id.

(** a PD that holds only memory objects that exist *)
Record mo_client s (pd_id : Z) b e : Prop := {
  cl_live : live_pd s pd_id b e;
  cl_addr : below (next_addr s) (hold_registry (pd e));
  cl_held : forall id, reg_abs (rc_registry (mo_component s)) !! id = None ->
              holds e !! compact (mo_rid s id) = None
}.

(** the entry of the registry, before [new_obj]: the new node is at [next_addr s] *)
Definition entry_added s (id : Z) (r : registry mo_t CB) s' : Prop :=
  s' = rput mo_p r (after_calloc s) /\ wf_registry r /\
  Node (next_addr s) id 1 (set_mo_id id mo_zero) ∈ head r /\ same_frame r (rc_registry (mo_component s)) /\
  reg_abs r = <[id := (1, set_mo_id id mo_zero)]> (reg_abs (rc_registry (mo_component s))).

Lemma entry_added_run s free : mo_ready s free ->
  exists id r s', 1 <= id <= BADGE_OBJ_ID_NULL - 1 /\
    reg_abs (rc_registry (mo_component s)) !! id = None /\ entry_added s id r s' /\
    forall k : nat -> Z -> M server (Z * option nat * Z),
    (reg_entry ← calloc sys;
     match reg_entry with
     | None => mret (1, None, CapNull)
     | Some a =>
         resource_id ← (id ← resource_registry_insert_new_id mo_p (Node a 0 0 mo_zero); mret (u32 id));
         obj_store mo_p a (set_mo_id resource_id) ;; k a resource_id
     end) s = k (next_addr s) id s'.
Proof.
  intros [Hwf Hmax Hctr Htype Hsp Hfree Hfound Haddr]. set (r := rc_registry (mo_component s)) in *.
  set (n := Node (next_addr s) 0 0 mo_zero).
  assert (BADGE_OBJ_ID_NULL - 1 < 2 ^ 32 - 1) as Hbig by (by vm_compute).
  destruct (insert_new_id_run mo_p r (after_calloc s) n free) as (id & Hrun & Hid & Hnew & Hwf' & Habs);
    [done|done|by apply below_fresh|rewrite Hmax; split; [by vm_compute|lia]|by rewrite Hmax
    |by rewrite Hmax|done|].
  rewrite Hmax in Hid.
  set (r1 := with_new r n id) in *. set (n1 := Node (next_addr s) id 1 mo_zero).
  assert (n1 ∈ head r1) as Hn1 by (apply elem_of_app; right; by left).
  set (f := fun n : node mo_t => with_payload (set_mo_id id (payload n)) n).
  set (r2 := with_head (hash_upd (head r1) (next_addr s) f) r1).
  assert (wf_registry r2) as Hwf2 by (apply (wf_with_payload r1 (next_addr s) (set_mo_id id) Hwf')).
  exists id, r2, (rput mo_p r2 (after_calloc s)). split; [done|]. split; [done|]. split.
  - split; [done|]. split; [done|]. split; [|split; [done|]].
    + apply hash_upd_elem. exists n1. split; [done|]. by rewrite Nat.eqb_refl.
    + unfold r2. change (next_addr s) with (n_addr n1). rewrite (reg_abs_upd r1 n1 f) by done.
      by rewrite Habs, insert_insert_eq.
  - intros k. rewrite (bind_ok _ _ _ _ _ (calloc_run sys s (Hsys _ _))).
    rewrite bind_assoc, (bind_ok _ _ _ _ _ Hrun). erewrite bind_ok by reflexivity.
    replace (u32 id) with id by (unfold u32; rewrite wrap_small; lia).
    rewrite (bind_ok _ _ _ _ _ (obj_store_run mo_p (next_addr s) r1 n1 _ (rput mo_p r1 (after_calloc s)) eq_refl
      (node_at_elem (head r1) n1 (wf_addr _ Hwf') Hn1))).
    done.
Qed.
End Allocation.

(** ** Allocating a memory object: the property *)
Section Allocate.
Context `{UTHash} (sys : list xcall -> xcall -> Z * Z).
Hypothesis (Hsys : forall l c, fst (sys l c) = 0).
Implicit Types (s : server) (a b : nat) (e : pd_entry_t) (n : node mo_t).

Lemma client_id_ok (badge : Z) : obj_ok (get_client_id_from_badge badge).
Proof.
  unfold obj_ok, get_client_id_from_badge. rewrite (Z.land_ones _ 20) by lia.
  pose proof (Z.mod_pos_bound (Z.shiftr badge 20) (2 ^ 20)). lia.
Qed.

(** a sensible request *)
Definition args_ok (args : mo_new_args_t) : Prop :=
  0 <= arg_num_pages args /\ 0 <= arg_page_bits args < 64 /\ 0 <= arg_paddr args < 2 ^ 64.

Lemma res_ok_mo s id : space_ok (space_id (mo_component s)) -> 1 <= id <= BADGE_OBJ_ID_NULL - 1 ->
  res_ok (mo_rid s id).
Proof.
  intros Hsp Hid. split; [|split; [done|]]; unfold type_ok, obj_ok, mo_rid, GPICAP_TYPE_MO, BADGE_OBJ_ID_NULL,
    BADGE_MAX_OBJ_ID in *; simpl; lia.
Qed.

(** [new_obj] on the entry that was added: the root task holds the object *)
Lemma mo_new_added s id r s3 args a' e' : entry_added s id r s3 -> args_ok args ->
  mo_client s (rt_pd_id s) a' e' -> reg_abs (rc_registry (mo_component s)) !! id = None ->
  res_ok (mo_rid s id) ->
  exists s4 s5 fs e1', mo_new sys args (next_addr s) s3 = (Ok 0, s5) /\
    mo_changed s3 (next_addr s) (new_mo args fs id) s4 /\
    Z.of_nat (length fs) = arg_num_pages args /\
    (arg_paddr args <> 0 -> snd <$> fs =
       (fun k => u64 (arg_paddr args + Z.of_nat k * 2 ^ arg_page_bits args)) <$> seq 0 (length fs)) /\
    handed_out sys (log s4) = handed_out sys (log s) ++ (fst <$> fs) /\
    holding_added s4 (rt_pd_id s) a' e' (mo_rid s id) (HoldNode 0 0 0 (mo_rid s id)) s5 e1'.
Proof.
  intros (-> & Hwf & Hin & _ & _) (Hp & Hb & Hpa) [Hl Hbelow Hheld] Hnew Hok.
  set (s3 := rput mo_p r (after_calloc s)). set (m := Node (next_addr s) id 1 (set_mo_id id mo_zero)).
  pose proof (node_at_elem (head r) m (wf_addr _ Hwf) Hin) as Hat.
  destruct (mo_new_run sys Hsys s3 (next_addr s) m args Hwf Hat Hp Hpa Hb)
    as (s4 & fs & Hch & Hlen & Hphys & Hout & Hrun). pose proof Hch as [Epd Emo Ert Eaddr].
  change (log s3) with ((Calloc, []) :: log s) in Hout. rewrite handed_out_other in Hout by done.
  assert (live_pd s4 (rt_pd_id s) a' e') as Hl4 by (by apply (live_pd_same s)).
  assert (below (next_addr s4) (hold_registry (pd e'))) as Hb4.
  { eapply below_mono; [exact Hbelow|]. simpl in Eaddr. lia. }
  destruct (holding_added_run sys s4 (rt_pd_id s) a' e' (mo_rid s id) 0 0 0 (Hsys _ _) Hl4 Hb4 (Hheld id Hnew) Hok)
    as (s5 & e1' & Hadd & Hha).
  exists s4, s5, fs, e1'. split; [by rewrite Hrun|]. by split_and!.
Qed.

Definition client_vka (p : pd_t) : Z := if pd_vka p =? 0 then server_vka else pd_vka p.

(** the capability is minted, and the client holds the object *)
Lemma mo_cap_added s5 s client id b e : live_pd s5 client b e -> obj_ok client ->
  space_ok (space_id (mo_component s)) -> 1 <= id <= BADGE_OBJ_ID_NULL - 1 ->
  resource_type (mo_component s5) = GPICAP_TYPE_MO ->
  space_id (mo_component s5) = space_id (mo_component s) ->
  server_ep (mo_component s5) = server_ep (mo_component s) ->
  exists cap, cap = snd (sys (log s5) (VkaCspaceAlloc, [client_vka (pd e)])) /\
    resource_component_make_badged_ep sys server_vka (pd_vka (pd e))
      (server_ep (mo_component s5)) (resource_type (mo_component s5)) (space_id (mo_component s5)) id client s5 =
    (Ok cap, minted (client_vka (pd e)) server_vka (server_ep (mo_component s)) cap
               (badge_of GPICAP_TYPE_MO client (space_id (mo_component s)) id) s5).
Proof.
  intros Hl Hc Hsp Hid -> -> ->.
  exists (snd (sys (log s5) (VkaCspaceAlloc, [client_vka (pd e)]))). split; [done|].
  apply make_badged_ep_run; [by vm_compute|done| |done|].
  - unfold obj_ok, BADGE_OBJ_ID_NULL, BADGE_MAX_OBJ_ID in *. lia.
  - fold (client_vka (pd e)). rewrite <- (Hsys (log s5) (VkaCspaceAlloc, [client_vka (pd e)])).
    by destruct (sys _ _).
Qed.

(** the allocation, from the runs of its parts *)
Lemma mo_allocate_eq s client id s3 s5 s6 s7 b e cap args :
  (forall k : nat -> Z -> M server (Z * option nat * Z),
    (reg_entry ← calloc sys;
     match reg_entry with
     | None => mret (1, None, CapNull)
     | Some a =>
         resource_id ← (id ← resource_registry_insert_new_id mo_p (Node a 0 0 mo_zero); mret (u32 id));
         obj_store mo_p a (set_mo_id resource_id) ;; k a resource_id
     end) s = k (next_addr s) id s3) ->
  mo_new sys args (next_addr s) s3 = (Ok 0, s5) -> live_pd s5 client b e ->
  resource_component_make_badged_ep sys server_vka (pd_vka (pd e))
    (server_ep (mo_component s5)) (resource_type (mo_component s5)) (space_id (mo_component s5)) id client s5 =
    (Ok cap, s6) ->
  rt_pd_id s6 = rt_pd_id s5 -> mo_component s6 = mo_component s5 ->
  rt_pd_id s5 = rt_pd_id s -> space_id (mo_component s5) = space_id (mo_component s) ->
  resource_type (mo_component s5) = GPICAP_TYPE_MO -> client <> rt_pd_id s ->
  pd_add_resource_by_id sys client (mo_rid s id) 0 cap 0 s6 = (Ok 0, s7) ->
  mo_allocate sys args client false true s = (Ok (0, Some (next_addr s), cap), s7).
Proof.
  intros Hrun Hmo Hlb5 Hcap Ert6 Emo6 Ert5 Esp5 Etype5 Hne Hadd.
  unfold mo_allocate, resource_component_allocate. rewrite Z.eqb_refl.
  etransitivity; [apply Hrun|]. cbv beta. rewrite (bind_ok _ _ _ _ _ Hmo). cbn [Z.eqb negb].
  rewrite bind_assoc, (bind_ok _ _ _ _ _ (pd_node_find _ _ _ _ (lp_node _ _ _ _ Hlb5))).
  rewrite bind_assoc. erewrite bind_ok by reflexivity.
  rewrite bind_assoc, (bind_ok _ _ _ _ _ (pd_load_run s5 b e (live_pd_at _ _ _ _ Hlb5))).
  rewrite bind_assoc, (bind_ok _ _ _ _ _ Hcap). erewrite (bind_ok (mret _)) by reflexivity.
  cbv beta iota. cbn [Z.eqb negb]. erewrite (bind_ok get_state) by reflexivity.
  rewrite Ert6, Emo6, Ert5, Esp5, Etype5, (proj2 (Z.eqb_neq _ _) Hne). cbn [andb negb].
  change (make_res_id _ _ _) with (mo_rid s id). by rewrite (bind_ok _ _ _ _ _ Hadd).
Qed.

(** what an allocation leaves: the new object, held by the two PDs *)
Record mo_allocated s client b e a e' args s' id cap (fs : list (Z * Z)) e1 e1' : Prop := {
  al_id : 1 <= id <= BADGE_OBJ_ID_NULL - 1;
  al_new : reg_abs (rc_registry (mo_component s)) !! id = None;
  al_at : node_at (next_addr s) (head (rc_registry (mo_component s'))) =
            Some (Node (next_addr s) id 1 (new_mo args fs id));
  al_wf : wf_registry (rc_registry (mo_component s'));
  al_frame : same_frame (rc_registry (mo_component s')) (rc_registry (mo_component s));
  al_same : resource_type (mo_component s') = resource_type (mo_component s) /\
            space_id (mo_component s') = space_id (mo_component s) /\ rt_pd_id s' = rt_pd_id s;
  al_abs : reg_abs (rc_registry (mo_component s')) =
             <[id := (1, new_mo args fs id)]> (reg_abs (rc_registry (mo_component s)));
  al_pages : Z.of_nat (length fs) = arg_num_pages args;
  al_phys : arg_paddr args <> 0 -> snd <$> fs =
       (fun k => u64 (arg_paddr args + Z.of_nat k * 2 ^ arg_page_bits args)) <$> seq 0 (length fs);
  al_client : live_pd s' client b e1;
  al_client_entry : e1 = on_pd (set_hold_registry (hold_registry (pd e1))) e;
  al_client_holds : holds e1 = <[compact (mo_rid s id) := (1, HoldNode cap 0 0 (mo_rid s id))]> (holds e);
  al_rt : live_pd s' (rt_pd_id s) a e1';
  al_rt_holds : holds e1' = <[compact (mo_rid s id) := (1, HoldNode 0 0 0 (mo_rid s id))]> (holds e');
  al_cap : exists l, cap = snd (sys l (VkaCspaceAlloc, [client_vka (pd e)])) /\
    log s' = [(Calloc, []); (VkaCnodeMint, [client_vka (pd e); cap; server_vka; server_ep (mo_component s);
                              badge_of GPICAP_TYPE_MO client (space_id (mo_component s)) id])] ++
             (VkaCspaceAlloc, [client_vka (pd e)]) :: l;
  al_taken : handed_out sys (log s') = handed_out sys (log s) ++ (fst <$> fs)
}.

Lemma mo_allocate_run s free client b e a' e' args : mo_ready s free -> args_ok args ->
  mo_client s client b e -> mo_client s (rt_pd_id s) a' e' -> obj_ok client ->
  client <> rt_pd_id s -> a' <> b ->
  exists s' id cap fs e1 e1',
    mo_allocate sys args client false true s = (Ok (0, Some (next_addr s), cap), s') /\
    mo_allocated s client b e a' e' args s' id cap fs e1 e1'.
Proof.
  intros Hready Hargs Hcl Hrt Hcid Hne Hab.
  destruct (entry_added_run sys Hsys s free Hready) as (id & r & s3 & Hid & Hnew & Hent & Hrun).
  pose proof (res_ok_mo s id (mr_space _ _ Hready) Hid) as Hok.
  destruct (mo_new_added s id r s3 args a' e' Hent Hargs Hrt Hnew Hok)
    as (s4 & s5 & fs & e1' & Hmo & [Epd Emo Ert Eaddr] & Hlen & Hphys & Hout & [Hl5 Hh5 Hoth5 Emo5 _ Ert5 Elog5 Eaddr5 _]).
  destruct Hent as (E3 & Hwf & Hin & Hfr & Habs). subst s3. set (s3 := rput mo_p r (after_calloc s)) in *. destruct Hcl as [Hl Hbelow Hheld].
  assert (live_pd s5 client b e) as Hlb5 by (apply (Hoth5 client b e Hab); by apply (live_pd_same s)).
  destruct (mo_cap_added s5 s client id b e Hlb5 Hcid (mr_space _ _ Hready) Hid) as (cap & Ecap & Hcap);
    [rewrite Emo5, Emo; apply Hready|by rewrite Emo5, Emo|by rewrite Emo5, Emo|].
  match type of Hcap with _ = (_, ?x) => set (s6 := x) in * end.
  assert (below (next_addr s6) (hold_registry (pd e))) as Hb6.
  { eapply below_mono; [exact Hbelow|]. change (next_addr s6) with (next_addr s5). simpl in Eaddr. lia. }
  destruct (holding_added_run sys s6 client b e (mo_rid s id) 0 cap 0 (Hsys _ _) (live_pd_same s5 s6 _ _ _ eq_refl Hlb5) Hb6
    (Hheld id Hnew) Hok) as (s7 & e1 & Hadd & [Hl7 Hh7 Hoth7 Emo7 _ Ert7 Elog7 Eaddr7 Ee7]).
  exists s7, id, cap, fs, e1, e1'.
  set (m := Node (next_addr s) id 1 (set_mo_id id mo_zero)) in *.
  assert (rc_registry (mo_component s7) =
    with_head (hash_upd (head r) (n_addr m) (with_payload (new_mo args fs id))) r) as E7
    by (rewrite Emo7; change (mo_component s6) with (mo_component s5); by rewrite Emo5, Emo).
  pose proof (wf_with_payload r (n_addr m) (fun _ => new_mo args fs id) Hwf) as Hwf7.
  assert (live_pd s7 (rt_pd_id s) a' e1') as Hrt7.
  { apply (Hoth7 _ _ _ (not_eq_sym Hab)). by apply (live_pd_same s5 s6). }
  split.
  { apply (mo_allocate_eq s client id s3 s5 s6 s7 b e cap args); try done;
      [by rewrite Ert5, Ert|by rewrite Emo5, Emo|by rewrite Emo5, Emo; apply Hready]. }
  split; try done.
  - rewrite E7. cbn [head with_head]. change (node_at (next_addr s)) with (@node_at mo_t (n_addr m)).
    rewrite node_at_upd_same by done. by rewrite (node_at_elem (head r) m (wf_addr _ Hwf) Hin).
  - by rewrite E7.
  - by rewrite E7.
  - rewrite Emo7, Ert7. change (mo_component s6) with (mo_component s5). change (rt_pd_id s6) with (rt_pd_id s5).
    by rewrite Emo5, Emo, Ert5, Ert.
  - rewrite E7, (reg_abs_upd r m); [|done|done|done|done]. by rewrite Habs, insert_insert_eq.
  - exists (log s5). by rewrite Elog7.
  - rewrite Elog7. change (log s6) with ([(VkaCnodeMint, [client_vka (pd e); cap; server_vka; server_ep (mo_component s);
      badge_of GPICAP_TYPE_MO client (space_id (mo_component s)) id]); (VkaCspaceAlloc, [client_vka (pd e)])] ++ log s5).
    rewrite Elog5. cbn [app]. by rewrite !handed_out_other by done.
Qed.

Lemma mo_allocation_run s free badge num_pages page_bits paddr b a e e' : mo_ready s free ->
  args_ok (MoNewArgs num_pages page_bits paddr) -> mo_client s (get_client_id_from_badge badge) b e ->
  mo_client s (rt_pd_id s) a e' -> get_client_id_from_badge badge <> rt_pd_id s -> a <> b ->
  exists s' id cap fs e1 e1',
    handle_mo_allocation_request sys badge num_pages page_bits paddr s =
      (Ok (replied 0 (MoAllocReturn id cap)), s') /\
    mo_allocated s (get_client_id_from_badge badge) b e a e' (MoNewArgs num_pages page_bits paddr)
      s' id cap fs e1 e1'.
Proof.
  intros Hready Hargs Hcl Hrt Hne Hab.
  destruct (mo_allocate_run s free _ b e a e' _ Hready Hargs Hcl Hrt (client_id_ok badge) Hne Hab)
    as (s' & id & cap & fs & e1 & e1' & Hrun & Hal).
  exists s', id, cap, fs, e1, e1'. split; [|done].
  unfold handle_mo_allocation_request. rewrite (bind_ok _ _ _ _ _ Hrun).
  cbv beta iota. cbn [Z.eqb negb deref]. erewrite bind_ok by reflexivity.
  unfold mo_load. by rewrite (bind_ok _ _ _ _ _ (obj_load_run mo_p _ _ _ s' eq_refl (al_at _ _ _ _ _ _ _ _ _ _ _ _ _ Hal))).
Qed.

(** C22: a request for a memory object does all of it, when no call to the kernel
    fails and an identifier is free: the object gets an identifier that was free,
    with as many frames as pages were asked for -- at consecutive physical
    addresses when one was given -- each recorded with its capability; the root
    task and the client each hold it once and everything else they held, and the
    client's slot in the reply has a capability minted with the badge of the object,
    its space and the client. *)
Theorem mo_allocation_succeeds s (free badge : Z) (num_pages page_bits paddr : Z) (b a : nat) (e e' : pd_entry_t)
  (Hready : mo_ready s free) (Hargs : args_ok (MoNewArgs num_pages page_bits paddr))
  (Hclient : mo_client s (get_client_id_from_badge badge) b e) (Hrt : mo_client s (rt_pd_id s) a e')
  (Hne : get_client_id_from_badge badge <> rt_pd_id s /\ a <> b) :
  let client := get_client_id_from_badge badge in
  exists s' id slot fs e1 e1',
    handle_mo_allocation_request sys badge num_pages page_bits paddr s =
      (Ok (replied 0 (MoAllocReturn id slot)), s') /\
    1 <= id /\ reg_abs (rc_registry (mo_component s)) !! id = None /\
    reg_abs (rc_registry (mo_component s')) =
      <[id := (1, Mo id (Some (fst <$> fs)) (Some (fst <$> fs)) (Some (snd <$> fs)) num_pages page_bits)]>
        (reg_abs (rc_registry (mo_component s))) /\
    Z.of_nat (length fs) = num_pages /\
    (paddr <> 0 -> snd <$> fs = (fun k => u64 (paddr + Z.of_nat k * 2 ^ page_bits)) <$> seq 0 (length fs)) /\
    live_pd s' client b e1 /\
    holds e1 = <[compact (mo_rid s id) := (1, HoldNode slot 0 0 (mo_rid s id))]> (holds e) /\
    live_pd s' (rt_pd_id s) a e1' /\
    holds e1' = <[compact (mo_rid s id) := (1, HoldNode 0 0 0 (mo_rid s id))]> (holds e') /\
    (VkaCnodeMint, [client_vka (pd e); slot; server_vka; server_ep (mo_component s);
                    badge_of GPICAP_TYPE_MO client (space_id (mo_component s)) id]) ∈ log s'.
Proof.
  intros client. destruct Hne as [Hne Hab].
  destruct (mo_allocation_run s free badge num_pages page_bits paddr b a e e' Hready Hargs Hclient Hrt Hne Hab)
    as (s' & id & slot & fs & e1 & e1' & Hrun & Hal).
  exists s', id, slot, fs, e1, e1'. split; [done|]. destruct Hal as [[Hid _]]. repeat (split; [done|]).
  destruct al_cap0 as (l & _ & ->). apply list_elem_of_further. by left.
Qed.
End Allocate.

(** ** Witness: two pages for the PD 1, at physical address 0x8000 *)
Section MoWitnesses.
Definition empty_holder (id : Z) (addr : nat) : node pd_entry_t :=
  Node addr id 1 (PdEntry (set_hold_registry (Registry [] (BADGE_MAX - 1) 0 (Some CbHeld) addr)
    (set_pd_vka 50 (set_pd_id id pd_zero))) (repeat (Some []) PdWorkAction_MAX)).
Definition alloc_server : server :=
  set_next_addr 20 (set_mo_component (Rcc GPICAP_TYPE_MO 4 (Registry [Node 15 1 1 mo_zero]
    (BADGE_OBJ_ID_NULL - 1) 1 (Some CbMo) 0) 0 9)
    (set_pd_component (Rcc GPICAP_TYPE_PD 2 (Registry [empty_holder 0 8; empty_holder 1 9] 100 1
                                               (Some CbPd) 0) 0 9) server_zero)).

Lemma alloc_server_client id addr : In (id, addr) [(0, 8%nat); (1, 9%nat)] ->
  mo_client alloc_server id addr (payload (empty_holder id addr)).
Proof.
  intros [[= <- <-]|[[= <- <-]|[]]]; (split; [|by apply Forall_nil_2|done]).
  all: split; [split; [split| |done]|split; [split|]; simpl|done];
    try (by apply (bool_decide_unpack _); vm_compute; exact I); try (by constructor).
  all: try (repeat (apply Forall_cons; split); [| |apply Forall_nil_2]; split; simpl; lia).
  - eexists. split; [left|done].
  - eexists. split; [right; left|done].
Qed.

Lemma alloc_server_ready : mo_ready alloc_server 2.
Proof.
  split; [apply wf_single; split; [simpl; lia|by vm_compute]|reflexivity|by vm_compute|reflexivity
    |unfold space_ok; simpl; lia|by vm_compute|left; simpl; lia|by repeat constructor].
Qed.

Lemma mo_allocation_succeeds_witness :
  exists s' id slot fs, handle_mo_allocation_request sys_demo (badge_of GPICAP_TYPE_MO 1 4 0xFFFFF) 2 12 0x8000
      alloc_server = (Ok (replied 0 (MoAllocReturn id slot)), s') /\
    length fs = 2%nat /\ snd <$> fs = [0x8000; 0x9000] /\
    reg_abs (rc_registry (mo_component s')) !! id =
      Some (1, Mo id (Some (fst <$> fs)) (Some (fst <$> fs)) (Some (snd <$> fs)) 2 12).
Proof.
  destruct (mo_allocation_succeeds sys_demo ltac:(done) alloc_server 2 (badge_of GPICAP_TYPE_MO 1 4 0xFFFFF)
    2 12 0x8000 9 8 (payload (empty_holder 1 9)) (payload (empty_holder 0 8)))
    as (s' & id & slot & fs & e1 & e1' & Hrun & _ & _ & Habs & Hlen & Hphys & _).
  - exact alloc_server_ready.
  - split; [simpl; lia|]. split; simpl; lia.
  - apply (alloc_server_client 1 9%nat). right. by left.
  - apply (alloc_server_client 0 8%nat). by left.
  - split; [by vm_compute|done].
  - exists s', id, slot, fs. split; [exact Hrun|].
    assert (length fs = 2%nat) as El by lia. split; [exact El|]. split.
    + rewrite Hphys by lia. by rewrite El.
    + rewrite Habs. by rewrite lookup_insert_eq.
Defined.
End MoWitnesses.
