(* ===== verification/Ads.v ===== *)
(** * Address spaces

    Model of [libsel4gpi/src/ads_obj.c] and [ads_component.c]: an address space
    keeps a registry of reservations keyed by their virtual address and a second
    one that gives each a short identifier; attaching a memory object to a
    reservation maps copies of its frame capabilities and counts as a reference to
    the object.  The virtual memory library (sel4utils) is external.  Loading ELF
    files and writing initial stacks is in the file Elf; deep copies, which nothing
    uses, are left out. *)

From stdpp Require Import base numbers list gmap.
From S2P Require Import Prelude Badge Registry State ResourceTypes Component PdResources Resspc Mo.

Definition ADS_RPC_MAGIC : Z := 0x414453.
Definition VMR_RPC_MAGIC : Z := 0x564d52.

(** the values of sel4utils_reservation_type_t, defined by the virtual memory library *)
Record reservation_types := ReservationTypes {
  RES_TYPE_NONE : Z;
  RES_TYPE_GENERIC : Z;
  RES_TYPE_SHARED_FRAMES : Z;
  RES_TYPE_DEVICE : Z;
  RES_TYPE_MAX : Z;
  RES_TYPE_CODE : Z;
  RES_TYPE_DATA : Z;
  RES_TYPE_STACK : Z;
  RES_TYPE_HEAP : Z;
  RES_TYPE_IPC_BUF : Z;
  RES_TYPE_OSM_DATA : Z
}.

(** seL4 constants *)
Definition seL4_DeleteFirst : Z := 8.
Definition seL4_CapASIDControl : Z := 5.
Definition seL4_CapInitThreadASIDPool : Z := 6.
Definition seL4_PageBits : Z := 12.
Definition seL4_AllRights : Z := 15.
Definition PAGE_SIZE_4K : Z := 4096.

(** messages *)
Inductive AdsMessage :=
| AdsAlloc
| AdsShallowCopy (pages type src_vaddr dest_vaddr : Z)
| AdsGetReservation (type : Z)
| AdsLoadElf (image_name : list Z)
| AdsDisconnect
| VmrReserve (vaddr type size page_bits : Z)
| VmrAttach (offset : Z)
| VmrDelete
| VmrAttachNoReserve (vaddr type : Z)
| VmrDeleteByVaddr (vaddr : Z)
| AdsUnknown.
Inductive AdsReturnMessage :=
| AdsNoReturn
| AdsBasicReturn
| AdsAllocReturn (slot id : Z)
| AdsGetReservationReturn (vaddr num_pages page_bits : Z)
| AdsLoadElfReturn (entry_point : Z)
| VmrReserveReturn (vaddr slot : Z)
| VmrAttachNoReserveReturn (vaddr : Z).

Section Ads.
Context `{UTHash} (sys : list xcall -> xcall -> Z * Z).
Context (run_cb : CB -> nat -> nat -> M server unit).
Context (GPI_CLEANUP_RS_DEPTH GPI_CLEANUP_PD_DEPTH : Z).
Context (T : reservation_types) (config_x86_64 : bool).

Definition ads_load (a : nat) : M server ads_t := obj_load ads_p a.
Definition ads_store (a : nat) (f : ads_t -> ads_t) : M server unit := obj_store ads_p a f.
(** an attach node of the address space at [ads] *)
Definition att_load (ads a : nat) : M server attach_node_t := obj_load (attach_p ads) a.
Definition att_store (ads a : nat) (f : attach_node_t -> attach_node_t) : M server unit :=
  obj_store (attach_p ads) a f.

(** ** ads_obj.c *)

(** the callback of the attach registry; [ads_v] is the address space *)
Definition on_attach_registry_delete (node ads_v : nat) : M server unit :=
  n ← att_load ads_v node;
  ads ← ads_load ads_v;
  ext_ sys FreeReservation [vspace ads; res n] ;;
  when (mo_attached n)
    (ext_ sys UnmapPages [vspace ads; att_vaddr n + mo_offset n; n_frames n; page_bits n] ;;
     match frame_caps n with
     | Some caps =>
         for_each (seq 0 (Z.to_nat (n_frames n))) (fun i =>
           match caps !! i with
           | Some cap =>
               ext_ sys VkaCnodeDelete [server_vka; cap] ;;
               ext_ sys VkaCspaceFree [server_vka; cap]
           | None => crash OutOfBounds
           end) ;;
         ext_ sys Free []
     | None => mret tt
     end ;;
     _ ← resource_component_dec run_cb mo_p (att_mo_id n);
     mret tt) ;;
  n ← att_load ads_v node;
  resource_registry_delete run_cb (attach_map_p ads_v) (map_entry n).

Definition ads_initialize (ads : nat) : M server Z :=
  ads_store ads (set_attach_registry
    (resource_registry_initialize (Some CbAttach) ads (BADGE_MAX - 1))) ;;
  ads_store ads (set_attach_id_to_vaddr_map
    (resource_registry_initialize None 0 (BADGE_OBJ_ID_NULL - 1))) ;;
  a ← ads_load ads;
  s ← get_state;
  pd_add_resource_by_id sys (rt_pd_id s)
    (make_res_id GPICAP_TYPE_ADS (space_id (ads_component s)) (ads_id a)) CapNull CapNull CapNull.

(** get_asid_pool and assign_asid_pool *)
Definition assign_asid_pool (asid_pool pd : Z) : M server Z :=
  ext_err sys AsidAssign [if asid_pool =? 0 then seL4_CapInitThreadASIDPool else asid_pool; pd].

(** the ASID of the new address space, from a new pool when the current one is full *)
Definition ads_assign_asid (root : Z) : M server Z :=
  s ← get_state;
  error ← assign_asid_pool (pool (ads_component s)) root;
  if error =? seL4_DeleteFirst then
    r ← ext sys VkaAllocUntyped [server_vka; seL4_PageBits];
    let '(error, ut) := r : Z * Z in
    if negb (error =? 0) then mret error else
    r ← ext sys VkaCspaceAlloc [server_vka];
    let '(error, dest) := r : Z * Z in
    if negb (error =? 0) then mret error else
    error ← ext_err sys MakePool [seL4_CapASIDControl; ut; dest];
    if negb (error =? 0) then mret error else
    modify (fun s => set_ads_component (set_pool dest (ads_component s)) s) ;;
    assign_asid_pool dest root
  else mret error.

(** what [err_goto] releases: the pointers that are not NULL *)
Definition ads_new_cleanup (vspace process root_object root alloc_data : Z) : M server unit :=
  when (negb (vspace =? 0)) (ext_ sys Free [vspace]) ;;
  when (negb (process =? 0)) (ext_ sys Free [process]) ;;
  when (negb (root_object =? 0)) (ext_ sys VkaFreeObject [root]) ;;
  when (negb (alloc_data =? 0)) (ext_ sys Free [alloc_data]).

Definition ads_new (ads : nat) : M server Z :=
  v ← calloc_handle sys;
  ads_store ads (set_vspace v) ;;
  if v =? 0 then mret DEFAULT_ERR else
  process ← calloc_handle sys;
  ads_store ads (set_process_for_cookies process) ;;
  if process =? 0 then ads_new_cleanup v 0 0 0 0 ;; mret DEFAULT_ERR else
  root_object ← calloc_handle sys;
  if root_object =? 0 then ads_new_cleanup v process 0 0 0 ;; mret DEFAULT_ERR else
  r ← ext sys VkaAllocVspaceRoot [server_vka];
  let '(error, root) := r : Z * Z in
  if negb (error =? 0) then ads_new_cleanup v process root_object 0 0 ;; mret error else
  alloc_data ← calloc_handle sys;
  if alloc_data =? 0 then ads_new_cleanup v process root_object root 0 ;; mret DEFAULT_ERR else
  error ← (if config_x86_64 then mret 0 else ads_assign_asid root);
  if negb (error =? 0) then ads_new_cleanup v process root_object root alloc_data ;; mret error else
  error ← ext_err sys GetVspace [v; alloc_data; root; process];
  if negb (error =? 0) then ads_new_cleanup v process root_object root alloc_data ;; mret error else
  ads_store ads (set_root_page_dir root) ;;
  ads_initialize ads.

(** the error code and [*ret_node].  The source jumps to [err_goto] over the
    initializations of [nodes_inserted], [attach_node] and
    [attach_node_map_entry] when the range cannot be reserved, and reads them
    there. *)
Definition ads_reserve (ads : nat) (vaddr num_pages size_bits vmr_type : Z) (cacheable : bool)
    (rights : Z) : M server (Z * option nat) :=
  let cacheable := if vmr_type =? RES_TYPE_DEVICE T then false else cacheable in
  a ← ads_load ads;
  page ← size_bits_to_bytes size_bits;
  let size := u64 (num_pages * page) in
  r ← (if vaddr =? 0 then
         ext sys ReserveRangeAligned [vspace a; size; size_bits; rights; Z.b2z cacheable]
       else
         r ← ext sys ReserveRangeAt [vspace a; vaddr; size; rights; Z.b2z cacheable];
         mret (fst r, vaddr));
  let '(res, vaddr) := r : Z * Z in
  if res =? 0 then crash Uninitialized else
  ext_ sys SetReservationType [res; vmr_type] ;;
  attach_node ← calloc sys;
  attach_node_map_entry ← calloc sys;
  match attach_node, attach_node_map_entry with
  | Some node, Some entry =>
      vmr_id ← resource_registry_insert_new_id (attach_map_p ads) (Node entry 0 0 (AttachMap vaddr));
      resource_registry_insert (attach_p ads)
        (Node node vaddr 0 (AttachNode vaddr entry res vmr_type num_pages size_bits cacheable rights
                              false 0 0 None 0)) ;;
      s ← get_state;
      a ← ads_load ads;
      error ← pd_add_resource_by_id sys (rt_pd_id s)
                (make_res_id GPICAP_TYPE_VMR (ads_id a) (u32 vmr_id)) CapNull CapNull CapNull;
      if error =? 0 then mret (0, Some node)
      else
        resource_registry_delete run_cb (attach_p ads) node ;;
        mret (error, None)
  | _, _ =>
      when (bool_decide (is_Some attach_node)) (ext_ sys Free []) ;;
      when (bool_decide (is_Some attach_node_map_entry)) (ext_ sys Free []) ;;
      mret (DEFAULT_ERR, None)
  end.

Definition ads_get_res_by_vaddr (ads : nat) (vaddr : Z) : M server (option nat) :=
  resource_registry_get_by_id (attach_p ads) vaddr.

Definition ads_get_res_by_id (ads : nat) (object_id : Z) : M server (option nat) :=
  map_entry ← resource_registry_get_by_id (attach_map_p ads) object_id;
  match map_entry with
  | None => mret None
  | Some e => m ← obj_load (attach_map_p ads) e; ads_get_res_by_vaddr ads (map_vaddr m)
  end.

(** the reservations of a type, in the order of the registry *)
Definition ads_get_res_by_type (src_ads : nat) (vmr_type_ : Z) : M server (list nat) :=
  found ← list_new sys;
  registry ← reg_load (attach_p src_ads);
  (fix loop (l : list (node attach_node_t)) (found : list nat) : M server (list nat) :=
     match l with
     | [] => mret found
     | current :: l =>
         if vmr_type (payload current) =? vmr_type_ then
           found ← list_insert sys found (n_addr current); loop l found
         else loop l found
     end) (head registry) found.

(** the error code and [dest_caps], which starts as zeroes *)
Fixpoint copy_frame_caps_for_mapping (src_caps : list Z) : M server (Z * list Z) :=
  match src_caps with
  | [] => mret (0, [])
  | c :: src_caps =>
      r ← ext sys VkaCspaceAlloc [server_vka];
      let '(error, to) := r : Z * Z in
      if negb (error =? 0) then mret (error, repeat 0 (S (length src_caps))) else
      error ← ext_err sys VkaCnodeCopy [server_vka; to; server_vka; c];
      if negb (error =? 0) then mret (error, repeat 0 (S (length src_caps))) else
      r ← copy_frame_caps_for_mapping src_caps;
      mret (fst r, to :: snd r)
  end.

(** [reservation] is an attach node of [ads], [mo] a memory object.  calloc is not
    checked: copying to a NULL array is a fault as soon as there is a frame. *)
Definition ads_attach_to_res (ads reservation : nat) (offset : Z) (mo : nat) : M server Z :=
  m ← mo_load mo;
  n ← att_load ads reservation;
  if negb (mo_page_bits m =? page_bits n) then mret DEFAULT_ERR else
  dest ← calloc_array sys (num_pages m);
  let dest : option (list Z) := dest in
  att_store ads reservation (set_frame_caps dest) ;;
  src ← deref (frame_caps_in_root_task m);
  when (bool_decide (dest = None) && negb (num_pages m =? 0)) (crash NullDeref) ;;
  r ← copy_frame_caps_for_mapping src;
  let '(error, caps) := r : Z * list Z in
  att_store ads reservation (set_frame_caps (if dest is Some _ then Some caps else None)) ;;
  if negb (error =? 0) then mret error else
  a ← ads_load ads;
  error ← ext_err sys MapPages ([vspace a; att_vaddr n + offset; num_pages m; mo_page_bits m; res n]
                                  ++ caps);
  if negb (error =? 0) then mret error else
  att_store ads reservation (fun n => set_n_frames (num_pages m) (set_att_mo_id (mo_id m)
    (set_mo_offset offset (set_mo_attached true n)))) ;;
  resource_component_inc mo_p (mo_id m).

(** the error code and [*ret_vaddr] *)
Definition ads_attach (ads : nat) (vaddr : Z) (mo : nat) (cacheable : bool) (rights vmr_type : Z)
  : M server (Z * option Z) :=
  m ← mo_load mo;
  r ← ads_reserve ads vaddr (num_pages m) (mo_page_bits m) vmr_type cacheable rights;
  let '(error, attach_node) := r : Z * option nat in
  if negb (error =? 0) then mret (1, None) else
  attach_node ← deref attach_node;
  error ← ads_attach_to_res ads attach_node 0 mo;
  if negb (error =? 0) then mret (1, None) else
  n ← att_load ads attach_node;
  mret (0, Some (att_vaddr n)).

(** a reservation of the virtual memory library: its handle, bounds and type *)
Record sel4utils_res_t := Sel4utilsRes { res_ptr : Z; res_start : Z; res_end : Z; res_type : Z }.

(** the error path frees the two nodes although they are in the registries: from
    then on the registries are dangling *)
Definition ads_forge_attach (ads : nat) (r : sel4utils_res_t) (mo : nat) : M server Z :=
  attach_node ← calloc sys;
  attach_node_map_entry ← calloc sys;
  match attach_node, attach_node_map_entry with
  | Some node, Some entry =>
      _ ← resource_registry_insert_new_id (attach_map_p ads)
            (Node entry 0 0 (AttachMap (res_start r)));
      m ← mo_load mo;
      resource_registry_insert (attach_p ads)
        (Node node (res_start r) 0 (AttachNode (res_start r) entry (res_ptr r) (res_type r)
           (num_pages m) (mo_page_bits m) false 0 true 0 (mo_id m) None 0)) ;;
      error ← resource_component_inc mo_p (mo_id m);
      if error =? 0 then mret 0 else crash UseAfterFree
  | _, _ =>
      when (bool_decide (is_Some attach_node)) (ext_ sys Free []) ;;
      when (bool_decide (is_Some attach_node_map_entry)) (ext_ sys Free []) ;;
      mret DEFAULT_ERR
  end.

Definition ads_rm (ads : nat) (vaddr : Z) : M server Z :=
  assert_ (negb (vaddr =? 0)) ;;
  node ← ads_get_res_by_vaddr ads vaddr;
  match node with
  | None => mret 1
  | Some node => resource_registry_delete run_cb (attach_p ads) node ;; mret 0
  end.

(** vmr_config_t of pd_creation.h *)
Record vmr_config_t := VmrConfig {
  share_mode : Z;
  cfg_type : Z;
  cfg_start : Z;
  cfg_dest_start : Z;
  region_pages : Z;
  cfg_page_bits : Z;
  cfg_mo : conn_t
}.

(** the copies, one per source node; [count] nodes in all *)
Fixpoint shallow_copy_loop (src_ads dst_ads : nat) (cfg : vmr_config_t) (count : nat) (l : list nat)
  : M server Z :=
  match l with
  | [] => mret 0
  | src_attach_node :: l =>
      n ← att_load src_ads src_attach_node;
      let attach_vaddr := if negb (cfg_dest_start cfg =? 0) && (count =? 1)%nat
                          then cfg_dest_start cfg else att_vaddr n in
      r ← ads_reserve dst_ads attach_vaddr (n_pages n) (page_bits n) (vmr_type n) (cacheable n)
            (rights n);
      let '(error, new_attach_node) := r : Z * option nat in
      if negb (error =? 0) then mret error else
      new_attach_node ← deref new_attach_node;
      n ← att_load src_ads src_attach_node;
      if negb (mo_attached n) then mret DEFAULT_ERR else
      old_mo ← resource_component_registry_get_by_id mo_p (att_mo_id n);
      match old_mo with
      | None => mret DEFAULT_ERR
      | Some old_mo =>
          error ← ads_attach_to_res dst_ads new_attach_node (mo_offset n) old_mo;
          if negb (error =? 0) then mret error
          else shallow_copy_loop src_ads dst_ads cfg count l
      end
  end.

Definition ads_shallow_copy (src_ads dst_ads : nat) (cfg : vmr_config_t) : M server Z :=
  if (cfg_type cfg <=? RES_TYPE_NONE T) || (RES_TYPE_MAX T <=? cfg_type cfg) then mret DEFAULT_ERR else
  r ← (if (cfg_start cfg =? 0) && negb (cfg_type cfg =? RES_TYPE_SHARED_FRAMES T)
            && negb (cfg_type cfg =? RES_TYPE_GENERIC T) then
         src_attaches ← ads_get_res_by_type src_ads (cfg_type cfg);
         mret (if (length src_attaches =? 0)%nat then None else Some src_attaches)
       else
         src_attaches ← list_new sys;
         attach_node ← ads_get_res_by_vaddr src_ads (cfg_start cfg);
         match attach_node with
         | None => mret None
         | Some a => l ← list_insert sys src_attaches a; mret (Some l)
         end);
  match r with
  | None => mret DEFAULT_ERR
  | Some src_attaches =>
      let count := length src_attaches in
      if (1 <? count)%nat && negb (cfg_dest_start cfg =? 0) then mret DEFAULT_ERR
      else shallow_copy_loop src_ads dst_ads cfg count src_attaches
  end.

Definition ads_destroy (ads : nat) : M server unit :=
  hash_iter (attach_p ads) (fun current => resource_registry_delete run_cb (attach_p ads) current) ;;
  a ← ads_load ads;
  ext_ sys VspaceTearDown [vspace a] ;;
  ext_ sys VkaFreeObject [root_page_dir a] ;;
  ext_ sys Free [process_for_cookies a] ;;
  ext_ sys Free [] ;;
  ext_ sys Free [root_page_dir a] ;;
  ext_ sys Free [vspace a].

(** ** ads_component.c *)

Definition on_ads_registry_delete (node arg : nat) : M server unit :=
  a ← ads_load node;
  resource_component_remove_from_rt run_cb ads_component (ads_id a) ;;
  a ← ads_load node;
  _ ← resource_component_dec run_cb resspc_p (ads_id a);
  ads_destroy node.

(** the error code and [*ret_space] *)
Definition create_vmr_space (client_id : Z) : M server (Z * option nat) :=
  s ← get_state;
  r ← resspc_allocate sys (ResspcConfig GPICAP_TYPE_VMR (server_ep_obj s) (rt_pd_id s)) (rt_pd_id s)
        BADGE_OBJ_ID_NULL false;
  let '(error, space_entry, _) := r : Z * option nat * Z in
  if negb (error =? 0) then mret (error, space_entry) else
  space_entry ← deref space_entry;
  sp ← space_load space_entry;
  s ← get_state;
  error ← (if negb (client_id =? rt_pd_id s) then
             client_pd_data ← pd_component_registry_get_entry_by_id client_id;
             match client_pd_data with
             | None => mret DEFAULT_ERR
             | Some client =>
                 pd_add_rde sys client GPICAP_TYPE_VMR [86; 77; 82] (spc_id sp)
                   (server_ep (ads_component s))
             end
           else mret 0);
  if negb (error =? 0) then mret (error, Some space_entry) else
  s ← get_state;
  error ← resspc_component_map_space sys (spc_id sp) (space_id (mo_component s));
  mret (error, Some space_entry).

Definition ads_allocate (client_id object_id : Z) (want_cap : bool) : M server (Z * option nat * Z) :=
  resource_component_allocate sys ads_component ads_p ads_zero set_ads_id ads_new client_id object_id
    false want_cap.

(** the error code, [*ret_ads] and [*ret_cap] *)
Definition ads_component_allocate (client_id : Z) (want_cap : bool) : M server (Z * option nat * Z) :=
  r ← create_vmr_space client_id;
  let '(error, space_entry) := r : Z * option nat in
  if negb (error =? 0) then mret (error, None, CapNull) else
  space_entry ← deref space_entry;
  sp ← space_load space_entry;
  r ← ads_allocate client_id (spc_id sp) want_cap;
  let '(error, new_entry, cap) := r : Z * option nat * Z in
  mret (error, if error =? 0 then new_entry else None, cap).

Definition ads_get_by_id (ads_id : Z) : M server (option nat) :=
  resource_component_registry_get_by_id ads_p ads_id.
Definition ads_get_by_badge (badge : Z) : M server (option nat) :=
  resource_component_registry_get_by_badge ads_p badge.
Definition mo_get_by_id (mo_id : Z) : M server (option nat) :=
  resource_component_registry_get_by_id mo_p mo_id.

(** the error code, and [*ret_vaddr] if it is set *)
Definition ads_component_attach (ads_id mo_id vmr_type vaddr : Z) : M server (Z * option Z) :=
  ads_entry ← ads_get_by_id ads_id;
  match ads_entry with None => mret (DEFAULT_ERR, None) | Some ads =>
  mo_reg ← mo_get_by_id mo_id;
  match mo_reg with None => mret (DEFAULT_ERR, None) | Some mo =>
  let vmr_type := if (vmr_type <=? RES_TYPE_NONE T) || (RES_TYPE_MAX T <=? vmr_type)
                  then RES_TYPE_GENERIC T else vmr_type in
  ads_attach ads vaddr mo true seL4_AllRights vmr_type
  end end.

(** there is no test of [attach_node]: the source tests [ads_entry] a second time *)
Definition ads_component_rm_by_id (ads_id vmr_id : Z) : M server Z :=
  ads_entry ← ads_get_by_id ads_id;
  match ads_entry with None => mret DEFAULT_ERR | Some ads =>
  attach_node ← ads_get_res_by_id ads vmr_id;
  attach_node ← deref attach_node;
  n ← att_load ads attach_node;
  ads_rm ads (att_vaddr n)
  end.

Definition ads_component_rm_by_vaddr (ads_id vaddr : Z) : M server Z :=
  ads_entry ← ads_get_by_id ads_id;
  match ads_entry with None => mret DEFAULT_ERR | Some ads => ads_rm ads vaddr end.

Definition ads_component_attach_to_rt (mo_id : Z) : M server (Z * option Z) :=
  s ← get_state;
  ads_component_attach (rt_ads_id s) mo_id (RES_TYPE_GENERIC T) 0.

Definition ads_component_remove_from_rt (vaddr : Z) : M server Z :=
  s ← get_state;
  ads_component_rm_by_vaddr (rt_ads_id s) vaddr.

(** ** ads_deep_copy of ads_obj.c, which uses the root task's own address space

    The error code, and what is copied in the memory of the root task: destination, source
    and size.  [src_ads] is the address space of the old region. *)
Definition ads_deep_copy (src_ads dst_ads src_mo new_attach_node old_attach_node : nat)
  : M server (Z * option (Z * Z * Z)) :=
  n ← att_load src_ads old_attach_node;
  let num_pages := i32 (n_pages n) in
  r ← mo_component_allocate_rt sys num_pages;
  let '(error, new_mo) := r : Z * option nat in
  if negb (error =? 0) then mret (error, None) else
  new_mo ← deref new_mo;
  n ← att_load src_ads old_attach_node;
  error ← ads_attach_to_res dst_ads new_attach_node (mo_offset n) new_mo;
  if negb (error =? 0) then mret (error, None) else
  m ← mo_load new_mo;
  _ ← resource_component_dec run_cb mo_p (mo_id m);
  m ← mo_load src_mo;
  r ← ads_component_attach_to_rt (mo_id m);
  let '(error, old_mo_va) := r : Z * option Z in
  if negb (error =? 0) then mret (error, None) else
  old_mo_va ← deref old_mo_va;
  m ← mo_load new_mo;
  r ← ads_component_attach_to_rt (mo_id m);
  let '(error, new_mo_va) := r : Z * option Z in
  if negb (error =? 0) then mret (error, None) else
  new_mo_va ← deref new_mo_va;
  let copied := Some (new_mo_va, old_mo_va, u64 (num_pages * 2 ^ MO_PAGE_BITS)) in
  error ← ads_component_remove_from_rt old_mo_va;
  if negb (error =? 0) then mret (error, copied) else
  error ← ads_component_remove_from_rt new_mo_va;
  mret (error, copied).
End Ads.

(** ** Reservations: lemmas *)
Section Reservations.
Context `{UTHash}.
Implicit Types (s : server) (a : nat) (x : ads_t).

(** [x] is the address space at address [a] *)
Definition ads_at s a x : Prop :=
  exists n, node_at a (head (rc_registry (ads_component s))) = Some n /\ payload n = x.

Lemma ads_load_run s a x : ads_at s a x -> ads_load a s = (Ok x, s).
Proof. intros (n & Hn & <-). by apply (obj_load_run ads_p a (rc_registry (ads_component s))). Qed.

Lemma attach_rget s a x : ads_at s a x -> rget (attach_p a) s = Some (attach_registry x).
Proof.
  intros (n & Hn & <-).
  change (rget _ s) with (n ← node_at a (head (rc_registry (ads_component s)));
                          Some (attach_registry (payload n))). by rewrite Hn.
Qed.
Lemma attach_map_rget s a x : ads_at s a x -> rget (attach_map_p a) s = Some (attach_id_to_vaddr_map x).
Proof.
  intros (n & Hn & <-).
  change (rget _ s) with (n ← node_at a (head (rc_registry (ads_component s)));
                          Some (attach_id_to_vaddr_map (payload n))). by rewrite Hn.
Qed.

Lemma ads_at_attach_put s a x r : ads_at s a x -> ads_at (rput (attach_p a) r s) a (set_attach_registry r x).
Proof.
  intros (n & Hn & <-). exists (with_payload (set_attach_registry r (payload n)) n). split; [|done].
  change (head (rc_registry (ads_component (rput (attach_p a) r s)))) with
    (hash_upd (head (rc_registry (ads_component s))) a (fun n => with_payload (set_attach_registry r (payload n)) n)).
  by rewrite node_at_upd_same, Hn.
Qed.
Lemma ads_at_map_put s a x r :
  ads_at s a x -> ads_at (rput (attach_map_p a) r s) a (set_attach_id_to_vaddr_map r x).
Proof.
  intros (n & Hn & <-). exists (with_payload (set_attach_id_to_vaddr_map r (payload n)) n). split; [|done].
  change (head (rc_registry (ads_component (rput (attach_map_p a) r s)))) with
    (hash_upd (head (rc_registry (ads_component s))) a (fun n => with_payload (set_attach_id_to_vaddr_map r (payload n)) n)).
  by rewrite node_at_upd_same, Hn.
Qed.
Lemma ads_at_same s s' a x : ads_component s' = ads_component s -> ads_at s a x -> ads_at s' a x.
Proof. unfold ads_at. by intros ->. Qed.

(** the two registries of an address space, as ads_initialize makes them: the node of
    each reservation names a node of the map, and the identifier [free] is not taken *)
Record ads_ready s a x (free : Z) : Prop := {
  ar_at : ads_at s a x;
  ar_wf : wf_registry (attach_registry x);
  ar_max : max_object_id (attach_registry x) = BADGE_MAX - 1;
  ar_addr : below (next_addr s) (attach_registry x);
  ar_map_wf : wf_registry (attach_id_to_vaddr_map x);
  ar_map_max : max_object_id (attach_id_to_vaddr_map x) = BADGE_OBJ_ID_NULL - 1;
  ar_map_ctr : 0 <= id_counter (attach_id_to_vaddr_map x) <= BADGE_OBJ_ID_NULL - 1;
  ar_map_addr : below (next_addr s) (attach_id_to_vaddr_map x);
  ar_free : 1 <= free <= BADGE_OBJ_ID_NULL - 1 /\ reg_abs (attach_id_to_vaddr_map x) !! free = None;
  ar_found : id_counter (attach_id_to_vaddr_map x) <= 1 \/ free <> id_counter (attach_id_to_vaddr_map x)
}.

(** finding a reservation by its identifier or its address *)
Lemma get_res_by_vaddr_run s a x n : ads_at s a x -> wf_registry (attach_registry x) ->
  n ∈ head (attach_registry x) -> ads_get_res_by_vaddr a (object_id n) s = (Ok (Some (n_addr n)), s).
Proof. intros Hx Hwf Hn. by apply (get_by_id_present (attach_p a) s _ n (attach_rget s a x Hx)). Qed.

Lemma get_res_by_id_run s a x m n : ads_at s a x -> wf_registry (attach_registry x) ->
  wf_registry (attach_id_to_vaddr_map x) -> m ∈ head (attach_id_to_vaddr_map x) ->
  n ∈ head (attach_registry x) -> map_vaddr (payload m) = object_id n ->
  ads_get_res_by_id a (object_id m) s = (Ok (Some (n_addr n)), s).
Proof.
  intros Hx Hwf Hwfm Hm Hn Ev. unfold ads_get_res_by_id.
  pose proof (get_by_id_present (attach_map_p a) s _ m (attach_map_rget s a x Hx) Hwfm Hm) as Hfind.
  unfold resource_component_registry_get_by_id in Hfind. rewrite (bind_ok _ _ _ _ _ Hfind).
  rewrite (bind_ok _ _ _ _ _ (obj_load_run (attach_map_p a) _ _ m s (attach_map_rget s a x Hx)
    (node_at_elem _ _ (wf_addr _ Hwfm) Hm))).
  rewrite Ev. by apply (get_res_by_vaddr_run s a x).
Qed.
End Reservations.

(** ** Reserving a range *)
Section Reserve.
Context `{UTHash} (sys : list xcall -> xcall -> Z * Z).
Context (run_cb : CB -> nat -> nat -> M server unit) (T : reservation_types).
Implicit Types (s : server) (a : nat) (x : ads_t).

(** the nodes of a new reservation *)
Definition new_map_node (addr : nat) (id vaddr : Z) : node attach_node_map_t :=
  Node addr id 1 (AttachMap vaddr).
Definition new_attach_node (addr : nat) (v : attach_node_t) : node attach_node_t :=
  Node addr (att_vaddr v) 1 v.

(** the address space with the reservation [v] under the identifier [id] *)
Record reserved s a x (id : Z) (na nm : nat) (v : attach_node_t) s' x' : Prop := {
  rv_at : ads_at s' a x';
  rv_id : ads_id x' = ads_id x;
  rv_wf : wf_registry (attach_registry x');
  rv_map_wf : wf_registry (attach_id_to_vaddr_map x');
  rv_in : new_attach_node na v ∈ head (attach_registry x');
  rv_map_in : new_map_node nm id (att_vaddr v) ∈ head (attach_id_to_vaddr_map x');
  rv_abs : reg_abs (attach_registry x') = <[att_vaddr v := (1, v)]> (reg_abs (attach_registry x));
  rv_map_abs : reg_abs (attach_id_to_vaddr_map x') =
    <[id := (1, AttachMap (att_vaddr v))]> (reg_abs (attach_id_to_vaddr_map x));
  rv_pd : pd_component s' = pd_component s;
  rv_rt : rt_pd_id s' = rt_pd_id s;
  rv_log : log s' = log s;
  rv_addr : next_addr s' = next_addr s
}.

(** the insertion of the two nodes *)
Lemma insert_reservation_run s0 s a x free (na nm : nat) v : ads_ready s0 a x free -> ads_at s a x ->
  na ∉ n_addr <$> head (attach_registry x) -> nm ∉ n_addr <$> head (attach_id_to_vaddr_map x) ->
  0 <= att_vaddr v <= BADGE_MAX - 1 -> reg_abs (attach_registry x) !! att_vaddr v = None ->
  exists id s1 s2 x', 1 <= id <= BADGE_OBJ_ID_NULL - 1 /\
    reg_abs (attach_id_to_vaddr_map x) !! id = None /\
    resource_registry_insert_new_id (attach_map_p a) (Node nm 0 0 (AttachMap (att_vaddr v))) s = (Ok id, s1) /\
    resource_registry_insert (attach_p a) (Node na (att_vaddr v) 0 v) s1 = (Ok tt, s2) /\
    reserved s a x id na nm v s2 x'.
Proof.
  intros [_ Hwf Hmax _ Hwfm Hmaxm Hctr _ Hfree Hfound] Hx Hna Hnm Hv Hnone.
  destruct (insert_new_id_run (attach_map_p a) (attach_id_to_vaddr_map x) s
    (Node nm 0 0 (AttachMap (att_vaddr v))) free) as (id & Hrun & Hid & Hnew & Hwf1 & Habs1);
    [by apply attach_map_rget|done|done|rewrite Hmaxm; by vm_compute|by rewrite Hmaxm|by rewrite Hmaxm|done|].
  rewrite Hmaxm in Hid. set (rm := with_new _ _ id) in *.
  pose proof (ads_at_map_put s a x rm Hx) as Hx1.
  set (ra := with_head (hash_add (head (attach_registry x)) (new_attach_node na v)) (attach_registry x)).
  assert (resource_registry_insert (attach_p a) (Node na (att_vaddr v) 0 v) (rput (attach_map_p a) rm s) =
    (Ok tt, rput (attach_p a) ra (rput (attach_map_p a) rm s))) as Hins.
  { apply (insert_run (attach_p a) _ _ (Node na (att_vaddr v) 0 v) (attach_rget _ a _ Hx1)). simpl. lia. }
  exists id, (rput (attach_map_p a) rm s), (rput (attach_p a) ra (rput (attach_map_p a) rm s)),
    (set_attach_registry ra (set_attach_id_to_vaddr_map rm x)).
  split; [done|]. split; [done|]. split; [exact Hrun|]. split; [exact Hins|].
  assert (node_ok (max_object_id (attach_registry x)) (new_attach_node na v)) as Hok by (split; simpl; lia).
  split; try done.
  - by apply ads_at_attach_put.
  - by apply (wf_hash_add _ (new_attach_node na v)).
  - apply elem_of_app. right. by left.
  - apply elem_of_app. right. by left.
  - by apply (reg_abs_add _ (new_attach_node na v)).
Qed.
End Reserve.

(** ** Reserving a range: the property *)
Section ReserveProperty.
Context `{UTHash} (sys : list xcall -> xcall -> Z * Z).
Context (run_cb : CB -> nat -> nat -> M server unit) (T : reservation_types).
Implicit Types (s : server) (a b : nat) (x : ads_t) (e : pd_entry_t).

(** the call that reserves the range, and its answer: the reservation, 0 when there is
    none, and the address *)
Definition range_call x (vaddr num_pages bits : Z) (cacheable : bool) (rights : Z) : xcall :=
  let size := u64 (num_pages * 2 ^ bits) in
  if vaddr =? 0 then (ReserveRangeAligned, [vspace x; size; bits; rights; Z.b2z cacheable])
  else (ReserveRangeAt, [vspace x; vaddr; size; rights; Z.b2z cacheable]).
Definition range_answer (l : list xcall) x (vaddr num_pages bits : Z) (cacheable : bool) (rights : Z) : Z * Z :=
  let r := sys l (range_call x vaddr num_pages bits cacheable rights) in
  if vaddr =? 0 then r else (fst r, vaddr).
(** device memory is not cached *)
Definition cached (type : Z) (cacheable : bool) : bool :=
  if type =? RES_TYPE_DEVICE T then false else cacheable.

(** the server after the calls before the insertions *)
Definition range_reserved s (call : xcall) (res type : Z) : server :=
  after_calloc (after_calloc (called (SetReservationType, [res; type]) (called call s))).

Lemma ads_reserve_run s a x vaddr num_pages bits type cacheable rights res at_ :
  (forall l, fst (sys l (Calloc, [])) = 0) -> ads_at s a x -> 0 <= bits < 64 ->
  range_answer (log s) x vaddr num_pages bits (cached type cacheable) rights = (res, at_) -> res <> 0 ->
  let v := AttachNode at_ (S (next_addr s)) res type num_pages bits (cached type cacheable) rights
             false 0 0 None 0 in
  ads_reserve sys run_cb T a vaddr num_pages bits type cacheable rights s =
    (vmr_id ← resource_registry_insert_new_id (attach_map_p a) (Node (S (next_addr s)) 0 0 (AttachMap at_));
     resource_registry_insert (attach_p a) (Node (next_addr s) at_ 0 v) ;;
     s' ← get_state;
     x' ← ads_load a;
     error ← pd_add_resource_by_id sys (rt_pd_id s')
               (make_res_id GPICAP_TYPE_VMR (ads_id x') (u32 vmr_id)) CapNull CapNull CapNull;
     if error =? 0 then mret (0, Some (next_addr s))
     else
       resource_registry_delete run_cb (attach_p a) (next_addr s) ;;
       mret (error, None))
    (range_reserved s (range_call x vaddr num_pages bits (cached type cacheable) rights) res type).
Proof.
  intros Hcalloc Hx Hbits Ha Hres v. unfold ads_reserve. fold (cached type cacheable).
  set (c := cached type cacheable) in *. set (call := range_call x vaddr num_pages bits c rights).
  rewrite (bind_ok _ _ _ _ _ (ads_load_run s a x Hx)).
  erewrite bind_ok by (unfold size_bits_to_bytes; by rewrite (proj2 (Z.ltb_lt bits 64)) by lia).
  assert ((if vaddr =? 0 then ext sys ReserveRangeAligned [vspace x; u64 (num_pages * 2 ^ bits); bits; rights; Z.b2z c]
           else r ← ext sys ReserveRangeAt [vspace x; vaddr; u64 (num_pages * 2 ^ bits); rights; Z.b2z c];
                mret (fst r, vaddr)) s = (Ok (res, at_), called call s)) as Hr.
  { unfold range_answer in Ha. fold call in Ha. unfold call, range_call in *.
    destruct (vaddr =? 0); [by rewrite ext_run, Ha|]. rewrite (bind_ok _ _ _ _ _ (ext_run sys _ _ s)).
    by injection Ha as -> ->. }
  rewrite (bind_ok _ _ _ _ _ Hr). rewrite (proj2 (Z.eqb_neq _ _) Hres).
  erewrite bind_ok by reflexivity.
  set (s2 := called (SetReservationType, [res; type]) (called call s)).
  rewrite (bind_ok _ _ _ _ _ (calloc_run sys s2 (Hcalloc _))).
  by rewrite (bind_ok _ _ _ _ _ (calloc_run sys (after_calloc s2) (Hcalloc _))).
Qed.

(** finding a reservation that was inserted *)
Lemma reserved_found s a x id na nm v s' x' s2 : reserved s a x id na nm v s' x' -> ads_at s2 a x' ->
  ads_get_res_by_id a id s2 = (Ok (Some na), s2) /\
  ads_get_res_by_vaddr a (att_vaddr v) s2 = (Ok (Some na), s2) /\ att_load a na s2 = (Ok v, s2).
Proof.
  intros [_ _ Hwf Hwfm Hin Hinm _ _ _ _ _ _] Hx. split; [|split].
  - by apply (get_res_by_id_run s2 a x' (new_map_node nm id (att_vaddr v)) (new_attach_node na v)).
  - by apply (get_res_by_vaddr_run s2 a x' (new_attach_node na v)).
  - apply (obj_load_run (attach_p a) na (attach_registry x') (new_attach_node na v)); [by apply attach_rget|].
    by apply (node_at_elem _ (new_attach_node na v) (wf_addr _ Hwf)).
Qed.

(** C23: a reservation is found again: when the virtual memory library grants the range
    and an identifier is free, reserving returns a node that is found afterwards both
    by its new identifier and by its address, with no memory object attached; device
    memory is never cached; the reservations that were there stay, under the same
    addresses and identifiers; and the root task holds the new reservation as a
    resource of the space of its address space. *)
Theorem ads_reserve_then_found s a x (free vaddr num_pages bits type res at_ : Z) (cacheable : bool)
  (rights : Z) b e (Hready : ads_ready s a x free) (Hbits : 0 <= bits < 64)
  (Hspace : space_ok (ads_id x)) (Hcalloc : forall l, fst (sys l (Calloc, [])) = 0)
  (Hrange : range_answer (log s) x vaddr num_pages bits (cached type cacheable) rights = (res, at_))
  (Hres : res <> 0) (Hat : 0 <= at_ <= BADGE_MAX - 1) (Hnew : reg_abs (attach_registry x) !! at_ = None)
  (Hrt : live_pd s (rt_pd_id s) b e) (Hbelow : below (next_addr s) (hold_registry (pd e)))
  (Hheld : forall id, reg_abs (attach_id_to_vaddr_map x) !! id = None ->
             holds e !! compact (make_res_id GPICAP_TYPE_VMR (ads_id x) id) = None) :
  exists s' id node entry x' e',
    let v := AttachNode at_ entry res type num_pages bits (cached type cacheable) rights false 0 0 None 0 in
    let rid := make_res_id GPICAP_TYPE_VMR (ads_id x) id in
    ads_reserve sys run_cb T a vaddr num_pages bits type cacheable rights s = (Ok (0, Some node), s') /\
    1 <= id <= BADGE_OBJ_ID_NULL - 1 /\ reg_abs (attach_id_to_vaddr_map x) !! id = None /\
    ads_get_res_by_id a id s' = (Ok (Some node), s') /\
    ads_get_res_by_vaddr a at_ s' = (Ok (Some node), s') /\ att_load a node s' = (Ok v, s') /\
    ads_at s' a x' /\ reg_abs (attach_registry x') = <[at_ := (1, v)]> (reg_abs (attach_registry x)) /\
    reg_abs (attach_id_to_vaddr_map x') =
      <[id := (1, AttachMap at_)]> (reg_abs (attach_id_to_vaddr_map x)) /\
    live_pd s' (rt_pd_id s) b e' /\ holds e' = <[compact rid := (1, HoldNode 0 0 0 rid)]> (holds e).
Proof.
  pose proof (ads_reserve_run s a x vaddr num_pages bits type cacheable rights res at_ Hcalloc
    (ar_at _ _ _ _ Hready) Hbits Hrange Hres) as Hrun. cbv zeta in Hrun.
  set (v := AttachNode at_ (S (next_addr s)) res type num_pages bits (cached type cacheable) rights false 0 0 None 0) in *.
  set (s4 := range_reserved _ _ _ _) in Hrun.
  assert (ads_at s4 a x) as Hx4 by (apply (ads_at_same s); [done|apply Hready]).
  destruct (insert_reservation_run s s4 a x free (next_addr s) (S (next_addr s)) v Hready Hx4)
    as (id & s5 & s6 & x' & Hid & Hfree & Hrun1 & Hrun2 & Hrv); [by apply below_fresh, Hready| |done|done|].
  { apply below_fresh. eapply below_mono; [apply Hready|lia]. }
  pose proof Hrv as [Hx' Eid _ _ _ _ Habs Habsm Epd Ert Elog Eaddr].
  set (rid := make_res_id GPICAP_TYPE_VMR (ads_id x) id).
  assert (res_ok rid) as Hok.
  { split; [|split; [done|]]; unfold type_ok, obj_ok, rid, GPICAP_TYPE_VMR, BADGE_OBJ_ID_NULL, BADGE_MAX_OBJ_ID in *;
      simpl; lia. }
  assert (live_pd s6 (rt_pd_id s) b e) as Hrt6 by (by apply (live_pd_same s)).
  assert (below (next_addr s6) (hold_registry (pd e))) as Hb6.
  { eapply below_mono; [exact Hbelow|]. rewrite Eaddr. simpl. lia. }
  destruct (holding_added_run sys s6 (rt_pd_id s) b e rid CapNull CapNull CapNull (Hcalloc _) Hrt6 Hb6 (Hheld id Hfree) Hok)
    as (s7 & e1 & Hadd & [Hl7 Hh7 _ _ Eads7 _ _ _]).
  destruct (reserved_found s4 a x id _ _ v s6 x' s7 Hrv (ads_at_same s6 s7 a x' Eads7 Hx')) as (F1 & F2 & F3).
  exists s7, id, (next_addr s), (S (next_addr s)), x', e1. cbv zeta. fold v rid.
  split; [|by repeat (split; [done || by apply (ads_at_same s6)|])].
  rewrite Hrun, (bind_ok _ _ _ _ _ Hrun1), (bind_ok _ _ _ _ _ Hrun2).
  erewrite (bind_ok get_state) by reflexivity. rewrite (bind_ok _ _ _ _ _ (ads_load_run s6 a x' Hx')), Ert, Eid.
  assert (BADGE_OBJ_ID_NULL - 1 < 2 ^ 32) as Hbig by (by vm_compute).
  replace (u32 id) with id by (unfold u32; rewrite wrap_small; lia).
  change (rt_pd_id s4) with (rt_pd_id s). fold rid. by rewrite (bind_ok _ _ _ _ _ Hadd).
Qed.
End ReserveProperty.

(** ** A range that is not granted *)
Section ReserveDenied.
Context `{UTHash} (sys : list xcall -> xcall -> Z * Z).
Context (run_cb : CB -> nat -> nat -> M server unit) (T : reservation_types).

(** when the virtual memory library does not grant the range -- as for an address
    that is in use, which a client may ask for -- the error path of a reservation
    reads variables that were never initialized. *)
Theorem ads_reserve_denied (s : server) (a : nat) (x : ads_t) (vaddr num_pages bits type : Z)
  (cacheable : bool) (rights : Z) (Hx : ads_at s a x) (Hbits : 0 <= bits < 64)
  (Hdenied : fst (range_answer sys (log s) x vaddr num_pages bits (cached T type cacheable) rights) = 0) :
  stops (ads_reserve sys run_cb T a vaddr num_pages bits type cacheable rights) s Uninitialized.
Proof.
  set (call := range_call x vaddr num_pages bits (cached T type cacheable) rights).
  exists (called call s). unfold ads_reserve. fold (cached T type cacheable).
  rewrite (bind_ok _ _ _ _ _ (ads_load_run s a x Hx)).
  erewrite bind_ok by (unfold size_bits_to_bytes; by rewrite (proj2 (Z.ltb_lt bits 64)) by lia).
  unfold range_answer in Hdenied. fold call in Hdenied. unfold call, range_call in *.
  destruct (vaddr =? 0).
  - rewrite (bind_ok _ _ _ _ _ (ext_run sys _ _ s)). destruct (sys _ _) as [r at_]. simpl in Hdenied. by subst r.
  - rewrite bind_assoc, (bind_ok _ _ _ _ _ (ext_run sys _ _ s)). erewrite bind_ok by reflexivity.
    simpl in Hdenied. by rewrite Hdenied.
Qed.
End ReserveDenied.

(** ** Witnesses: an address space with one reservation at 0x1000 *)
Section AdsWitnesses.
Definition types_T : reservation_types := ReservationTypes 0 1 2 3 20 4 5 6 7 8 9.
(** an allocator of ranges that never fails, and one that always does *)
Definition sys_ranges (l : list xcall) (c : xcall) : Z * Z :=
  match fst c with ReserveRangeAt => (77, 0) | _ => (0, Z.of_nat (length l) + 1) end.
Definition ads_demo : ads_t :=
  Ads 3 60 61 62
    (Registry [Node 11 0x1000 1 (AttachNode 0x1000 12 5 1 1 12 true 15 false 0 0 None 0)] (BADGE_MAX - 1) 0 (Some CbAttach) 10)
    (Registry [Node 12 1 1 (AttachMap 0x1000)] (BADGE_OBJ_ID_NULL - 1) 1 None 0).
Definition ads_server : server :=
  set_next_addr 20 (set_ads_component (Rcc GPICAP_TYPE_ADS 1 (Registry [Node 10 3 1 ads_demo] 1000 3 (Some CbAds) 0) 0 9)
    (set_pd_component (Rcc GPICAP_TYPE_PD 2 (Registry [empty_holder 0 8] 100 1 (Some CbPd) 0) 0 9) server_zero)).

Lemma ads_reserve_then_found_witness :
  exists s' id node, ads_reserve sys_ranges cb_demo types_T 10 0x5000 2 12 1 true 15 ads_server = (Ok (0, Some node), s') /\
    ads_get_res_by_id 10 id s' = (Ok (Some node), s') /\
    ads_get_res_by_vaddr 10 0x5000 s' = (Ok (Some node), s').
Proof.
  destruct (ads_reserve_then_found sys_ranges cb_demo types_T ads_server 10 ads_demo 2 0x5000 2 12 1 77 0x5000
    true 15 8 (payload (empty_holder 0 8))) as (s' & id & node & entry & x' & e' & Hrun & _ & _ & F1 & F2 & _).
  - split; [by eexists|apply wf_single; split; [simpl; lia|by vm_compute]|done|by repeat constructor
      |apply wf_single; split; [simpl; lia|by vm_compute]|done|by vm_compute|by repeat constructor
      |by vm_compute|left; simpl; lia].
  - lia.
  - unfold space_ok. simpl. lia.
  - done.
  - reflexivity.
  - done.
  - by vm_compute.
  - reflexivity.
  - split; [split; [|eexists; split; [left|done]|done]|split; [split|]|done]; simpl; try by constructor.
    apply wf_single. split; simpl; lia.
  - by apply Forall_nil_2.
  - done.
  - by exists s', id, node.
Defined.

Lemma ads_reserve_denied_witness :
  stops (ads_reserve sys_demo cb_demo types_T 10 0x1000 2 12 1 true 15) ads_server Uninitialized.
Proof. apply (ads_reserve_denied sys_demo cb_demo types_T ads_server 10 ads_demo); [by eexists|lia|reflexivity]. Defined.
End AdsWitnesses.
