(* ===== verification/AdsRequests.v ===== *)
(** * Requests to the address space component

    Model of the request handlers, the dispatchers, the initialization and the
    forging of address spaces of [libsel4gpi/src/ads_component.c].  Messages to
    the VMR interface arrive at the same component: a badge of type VMR redirects
    them to [vmr_component_handle].  Loading an ELF image is in the file Elf, and a
    parameter of the dispatcher here. *)

From stdpp Require Import base numbers list gmap.
From S2P Require Import Prelude Badge Registry State ResourceTypes Component PdResources Resspc Mo Ads.

Section AdsRequests.
Context `{UTHash} (sys : list xcall -> xcall -> Z * Z).
Context (run_cb : CB -> nat -> nat -> M server unit).
Context (GPI_CLEANUP_RS_DEPTH GPI_CLEANUP_PD_DEPTH : Z).
Context (T : reservation_types) (config_x86_64 : bool).
(** the error code and the entry point of loading an image into an ADS for a PD *)
Context (ads_load_elf : nat -> nat -> nat -> list Z -> M server (Z * Z)).

Definition basic_ads (error : Z) : handled AdsReturnMessage := replied error AdsBasicReturn.

Definition handle_ads_allocation (sender_badge : Z) : M server (handled AdsReturnMessage) :=
  r ← ads_component_allocate sys config_x86_64 (get_client_id_from_badge sender_badge) true;
  let '(error, ads, ret_cap) := r : Z * option nat * Z in
  if negb (error =? 0) then mret (replied error (AdsAllocReturn 0 0)) else
  ads ← deref ads;
  a ← ads_load ads;
  mret (replied 0 (AdsAllocReturn ret_cap (ads_id a))).

(** DIV_ROUND_UP on 64-bit words, stored to 32 bits *)
Definition num_pages_of (size page : Z) : Z := u32 (u64 (size + page - 1) / page).

Definition handle_vmr_reserve_req (sender_badge vaddr type size page_bits : Z)
  : M server (handled AdsReturnMessage) :=
  let failed error := replied error (VmrReserveReturn 0 0) in
  let client_id := get_client_id_from_badge sender_badge in
  page ← size_bits_to_bytes page_bits;
  let num_pages := num_pages_of size page in
  let ads_id := get_space_id_from_badge sender_badge in
  ads_entry ← ads_get_by_id ads_id;
  match ads_entry with None => mret (failed DEFAULT_ERR) | Some ads =>
  pd_data ← pd_component_registry_get_entry_by_id client_id;
  match pd_data with None => mret (failed DEFAULT_ERR) | Some pd_data =>
  r ← ads_reserve sys run_cb T ads vaddr num_pages page_bits type true seL4_AllRights;
  let '(error, reservation) := r : Z * option nat in
  if negb (error =? 0) then mret (failed error) else
  reservation ← deref reservation;
  n ← att_load ads reservation;
  e ← node_load (attach_map_p ads) (map_entry n);
  p ← pd_load pd_data;
  s ← get_state;
  ret_cap ← resource_component_make_badged_ep sys server_vka (pd_vka p)
              (server_ep (ads_component s)) GPICAP_TYPE_VMR ads_id (u32 (object_id e)) client_id;
  if ret_cap =? CapNull then mret (failed DEFAULT_ERR)
  else mret (replied 0 (VmrReserveReturn (att_vaddr n) ret_cap))
  end end.

(** the virtual address of the reply is the request's when the attach failed *)
Definition handle_vmr_attach_no_reserve_req (m : ipc) (sender_badge vaddr type : Z)
  : M server (handled AdsReturnMessage) :=
  if negb (sel4gpi_rpc_check_cap m GPICAP_TYPE_MO)
  then mret (replied DEFAULT_ERR (VmrAttachNoReserveReturn 0))
  else
    let mo_id := get_object_id_from_badge (GetBadge m 0) in
    let ads_id := get_space_id_from_badge sender_badge in
    r ← ads_component_attach sys run_cb T ads_id mo_id type vaddr;
    let '(error, ret_vaddr) := r : Z * option Z in
    mret (replied error (VmrAttachNoReserveReturn (default vaddr ret_vaddr))).

Definition handle_vmr_attach_req (m : ipc) (sender_badge offset : Z)
  : M server (handled AdsReturnMessage) :=
  if negb (sel4gpi_rpc_check_cap m GPICAP_TYPE_MO) then mret (basic_ads DEFAULT_ERR) else
  let reservation_id := get_object_id_from_badge sender_badge in
  let mo_id := get_object_id_from_badge (GetBadge m 0) in
  ads_entry ← ads_get_by_id (get_space_id_from_badge sender_badge);
  match ads_entry with None => mret (basic_ads DEFAULT_ERR) | Some ads =>
  mo_reg ← mo_get_by_id mo_id;
  reservation ← ads_get_res_by_id ads reservation_id;
  match mo_reg, reservation with
  | Some mo, Some reservation =>
      error ← ads_attach_to_res sys ads reservation offset mo;
      mret (basic_ads error)
  | _, _ => mret (basic_ads DEFAULT_ERR)
  end end.

Definition handle_vmr_delete_by_vaddr_req (sender_badge vaddr : Z)
  : M server (handled AdsReturnMessage) :=
  error ← ads_component_rm_by_vaddr run_cb (get_space_id_from_badge sender_badge) vaddr;
  mret (basic_ads error).

Definition handle_vmr_delete_req (sender_badge : Z) : M server (handled AdsReturnMessage) :=
  error ← ads_component_rm_by_id run_cb (get_space_id_from_badge sender_badge)
            (get_object_id_from_badge sender_badge);
  mret (basic_ads error).

(** assert(!"Not implemented") *)
Definition handle_vmr_disconnect_req (sender_badge : Z) : M server (handled AdsReturnMessage) :=
  assert_ false ;; mret (basic_ads 0).

Definition handle_copy_req (m : ipc) (sender_badge pages type src_vaddr dest_vaddr : Z)
  : M server (handled AdsReturnMessage) :=
  if negb (sel4gpi_rpc_check_cap m GPICAP_TYPE_ADS) then mret (basic_ads DEFAULT_ERR) else
  src_ads_data ← ads_get_by_badge sender_badge;
  match src_ads_data with None => mret (basic_ads DEFAULT_ERR) | Some src =>
  let dst_ads_badge := GetBadge m 0 in
  assert_ (get_cap_type_from_badge dst_ads_badge =? GPICAP_TYPE_ADS) ;;
  dst_ads_data ← ads_get_by_badge dst_ads_badge;
  match dst_ads_data with None => mret (basic_ads DEFAULT_ERR) | Some dst =>
  error ← ads_shallow_copy sys run_cb T src dst (VmrConfig 0 type src_vaddr dest_vaddr pages 0 conn_zero);
  mret (basic_ads error)
  end end.

Definition ads_component_load_elf (ads target_pd : nat) (image_name : list Z)
  : M server (Z * Z) :=
  s ← get_state;
  root_ads ← ads_get_by_id (rt_ads_id s);
  match root_ads with None => mret (DEFAULT_ERR, 0) | Some root_ads =>
  r ← ads_load_elf ads root_ads target_pd image_name;
  let '(error, entry_point) := r : Z * Z in
  if negb (error =? 0) then mret (error, entry_point) else
  pd_set_name target_pd image_name ;;
  mret (0, entry_point)
  end.

Definition handle_load_elf_request (m : ipc) (sender_badge : Z) (image_name : list Z)
  : M server (handled AdsReturnMessage) :=
  let failed error := replied error (AdsLoadElfReturn 0) in
  if negb (sel4gpi_rpc_check_cap m GPICAP_TYPE_PD) then mret (failed DEFAULT_ERR) else
  target_ads ← ads_get_by_badge sender_badge;
  match target_ads with None => mret (failed DEFAULT_ERR) | Some ads =>
  target_pd ← pd_component_registry_get_entry_by_id (get_object_id_from_badge (GetBadge m 0));
  match target_pd with None => mret (failed DEFAULT_ERR) | Some pd =>
  r ← ads_component_load_elf ads pd image_name;
  let '(error, entry_point) := r : Z * Z in
  if negb (error =? 0) then mret (failed error)
  else mret (replied 0 (AdsLoadElfReturn entry_point))
  end end.

(** no reservation of the type: the reply is zeroes, without an error *)
Definition handle_get_res_request (sender_badge type : Z) : M server (handled AdsReturnMessage) :=
  target_ads ← ads_get_by_badge sender_badge;
  match target_ads with
  | None => mret (replied DEFAULT_ERR (AdsGetReservationReturn 0 0 0))
  | Some ads =>
      found_res ← ads_get_res_by_type sys ads type;
      match found_res with
      | [] => mret (replied 0 (AdsGetReservationReturn 0 0 0))
      | res :: _ =>
          n ← att_load ads res;
          mret (replied 0 (AdsGetReservationReturn (att_vaddr n) (n_pages n) (page_bits n)))
      end
  end.

Definition handle_disconnect_request (sender_badge : Z) : M server (handled AdsReturnMessage) :=
  let ads_id := get_object_id_from_badge sender_badge in
  pd_data ← pd_component_registry_get_entry_by_id (get_client_id_from_badge sender_badge);
  match pd_data with
  | None => mret (basic_ads DEFAULT_ERR)
  | Some pd =>
      s ← get_state;
      error ← pd_remove_resource run_cb pd
                (make_res_id GPICAP_TYPE_ADS (space_id (ads_component s)) ads_id);
      mret (basic_ads error)
  end.

Definition vmr_component_handle (m : ipc) (magic : Z) (msg : AdsMessage) (sender_badge : Z)
  : M server (handled AdsReturnMessage) :=
  let invalid := replied DEFAULT_ERR AdsNoReturn in
  if negb (magic =? VMR_RPC_MAGIC) then mret invalid
  else if get_object_id_from_badge sender_badge =? BADGE_OBJ_ID_NULL then
    match msg with
    | VmrAttachNoReserve vaddr type =>
        h ← handle_vmr_attach_no_reserve_req m sender_badge vaddr type;
        mret (used_recv_cap true h)
    | VmrReserve vaddr type size page_bits =>
        handle_vmr_reserve_req sender_badge vaddr type size page_bits
    | VmrDeleteByVaddr vaddr => handle_vmr_delete_by_vaddr_req sender_badge vaddr
    | _ => mret invalid
    end
  else
    match msg with
    | VmrAttach offset =>
        h ← handle_vmr_attach_req m sender_badge offset;
        mret (used_recv_cap true h)
    | VmrDelete => handle_vmr_delete_req sender_badge
    | AdsDisconnect => handle_vmr_disconnect_req sender_badge
    | _ => mret invalid
    end.

Definition ads_component_handle (m : ipc) (magic : Z) (msg : AdsMessage) (sender_badge : Z)
  : M server (handled AdsReturnMessage) :=
  let invalid := replied DEFAULT_ERR AdsNoReturn in
  if get_cap_type_from_badge sender_badge =? GPICAP_TYPE_VMR then
    vmr_component_handle m magic msg sender_badge
  else if negb (magic =? ADS_RPC_MAGIC) then mret invalid
  else
    s ← get_state;
    if (get_object_id_from_badge sender_badge =? BADGE_OBJ_ID_NULL)
       && (get_space_id_from_badge sender_badge =? space_id (ads_component s)) then
      match msg with
      | AdsAlloc => handle_ads_allocation sender_badge
      | _ => mret invalid
      end
    else
      match msg with
      | AdsShallowCopy pages type src_vaddr dest_vaddr =>
          handle_copy_req m sender_badge pages type src_vaddr dest_vaddr
      | AdsLoadElf image_name => handle_load_elf_request m sender_badge image_name
      | AdsGetReservation type => handle_get_res_request sender_badge type
      | AdsDisconnect => handle_disconnect_request sender_badge
      | _ => mret invalid
      end.

(** ** Forging address spaces that exist *)

(** vspace_get_cap for each page of the range; [todo] pages remain.  The array has
    [num_frames] entries. *)
Fixpoint vspace_get_caps (vspace start num_frames : Z) (i todo : nat) : M server (list Z) :=
  match todo with
  | O => mret []
  | S todo =>
      cap ← ext_val sys VspaceGetCap [vspace; start];
      if Z.of_nat i <? num_frames then
        caps ← vspace_get_caps vspace (start + PAGE_SIZE_4K) num_frames (S i) todo;
        mret (cap :: caps)
      else crash OutOfBounds
  end.

Definition forge_ads_attachment_from_res (ads : nat) (res : sel4utils_res_t) (client_pd_id : Z)
  : M server Z :=
  let num_frames := u32 ((res_end res - res_start res) / PAGE_SIZE_4K) in
  frame_caps ← calloc sys;
  assert_ (bool_decide (is_Some frame_caps)) ;;
  a ← ads_load ads;
  caps ← vspace_get_caps (vspace a) (res_start res) num_frames 0
           (Z.to_nat ((res_end res - res_start res + PAGE_SIZE_4K - 1) / PAGE_SIZE_4K));
  r ← forge_mo_cap_from_frames sys caps client_pd_id;
  let '(error, _, mo_ret) := r : Z * Z * option nat in
  error ←
    (if negb (error =? 0) then mret error else
     mo ← deref mo_ret;
     error ← ads_forge_attach sys ads res mo;
     if negb (error =? 0) then mret error else
     s ← get_state;
     if client_pd_id =? rt_pd_id s then
       m ← mo_load mo;
       resource_component_dec run_cb mo_p (mo_id m)
     else mret 0);
  ext_ sys Free [] ;;
  mret error.

(** the reservations of the vspace library, in the order of its list *)
Fixpoint forge_ads_attachments_from_vspace (ads : nat) (reservations : list sel4utils_res_t)
    (client_pd_id : Z) : M server Z :=
  match reservations with
  | [] => mret 0
  | res :: reservations =>
      try_ (forge_ads_attachment_from_res ads res client_pd_id)
        (forge_ads_attachments_from_vspace ads reservations client_pd_id)
  end.

(** the error code, [*cap_ret] and [*id_ret]; [forge] is false, so that [new_obj]
    runs and initializes the object a first time *)
Definition forge_ads_cap_from_vspace (vspace_ : Z) (reservations : list sel4utils_res_t)
    (client_pd_id : Z) : M server (Z * Z * Z) :=
  r ← create_vmr_space sys client_pd_id;
  let '(error, space_entry) := r : Z * option nat in
  if negb (error =? 0) then mret (error, 0, 0) else
  space_entry ← deref space_entry;
  sp ← space_load space_entry;
  r ← ads_allocate sys config_x86_64 client_pd_id (spc_id sp) true;
  let '(error, new_entry, ret_cap) := r : Z * option nat * Z in
  if negb (error =? 0) then mret (error, 0, 0) else
  ads ← deref new_entry;
  error ← ads_initialize sys ads;
  if negb (error =? 0) then mret (error, 0, 0) else
  ads_store ads (set_vspace vspace_) ;;
  s ← get_state;
  error ← forge_ads_attachments_from_vspace ads reservations (rt_pd_id s);
  if negb (error =? 0) then mret (error, 0, 0) else
  a ← ads_load ads;
  mret (0, ret_cap, ads_id a).

Definition ads_component_initialize : M server unit :=
  space ← default_space sys GPICAP_TYPE_ADS;
  s ← get_state;
  resource_component_initialize ads_component set_ads_component GPICAP_TYPE_ADS space
    (server_ep_obj s) CbAds ;;
  modify (fun s => set_ads_component (set_pool seL4_CapInitThreadASIDPool (ads_component s)) s).
End AdsRequests.
