(* ===== verification/Elf.v ===== *)
(** * Loading images and writing initial stacks

    Model of [libsel4gpi/src/gpi_elf.c] and of the end of [ads_obj.c]: the segments of
    an ELF file become reservations of an address space, which are filled with memory
    objects that the root task maps for the copy; and the initial stack of a process
    is written below its stack's top.

    libelf is the record [elf_t] of what it answers about a file.  The memory of the
    root task, which holds the archive of images and the mappings made for the copy,
    is a byte for each address; it is passed along and not part of the server's
    state.  The sort (SGLIB) and the writing of words to a stack of another address
    space (sel4utils) are external. *)

From stdpp Require Import base numbers list gmap.
From S2P Require Import Prelude Badge Registry State ResourceTypes Component PdResources Resspc Mo Ads AdsRequests.

(** ** ELF files *)
Definition PF_X : Z := 1.
Definition PF_W : Z := 2.
Definition PF_R : Z := 4.
Definition PT_LOAD : Z := 1.

(** the program headers, the address of each segment in the file, the entry point,
    and the sections by name (address and size) *)
Record elf_t := Elf {
  elf_headers : list Elf_Phdr;
  elf_segment : nat -> Z;
  elf_entry_point : Z;
  elf_section : list Z -> option (Z * Z)
}.

(** seL4_CapRights_new, and its readers *)
Definition seL4_CapRights_new (grant_reply grant read write : bool) : Z :=
  8 * Z.b2z grant_reply + 4 * Z.b2z grant + 2 * Z.b2z read + Z.b2z write.
Definition capAllowRead (rights : Z) : bool := Z.testbit rights 1.
Definition capAllowWrite (rights : Z) : bool := Z.testbit rights 0.
Definition seL4_NoRights : Z := 0.
Definition seL4_ReadWrite : Z := seL4_CapRights_new false false true true.

(** sel4gpi_elf_region_t; the reservation is [None] while it is not initialized *)
Record sel4gpi_elf_region_t := ElfRegion {
  er_rights : Z;
  elf_vstart : Z;
  reservation_vstart : Z;
  er_size : Z;
  reservation_size : Z;
  reservation_pages : Z;
  reservation : option (option nat);
  er_cacheable : bool;
  segment_index : nat;
  executable : bool;
  er_src : Z;
  src_size : Z
}.
Definition set_reservation_layout (vstart size pages : Z) (x : sel4gpi_elf_region_t) : sel4gpi_elf_region_t :=
  ElfRegion (er_rights x) (elf_vstart x) vstart (er_size x) size pages (reservation x) (er_cacheable x)
    (segment_index x) (executable x) (er_src x) (src_size x).
Definition set_reservation_size (v : Z) (x : sel4gpi_elf_region_t) : sel4gpi_elf_region_t :=
  set_reservation_layout (reservation_vstart x) v (reservation_pages x) x.
Definition set_reservation (v : option nat) (x : sel4gpi_elf_region_t) : sel4gpi_elf_region_t :=
  ElfRegion (er_rights x) (elf_vstart x) (reservation_vstart x) (er_size x) (reservation_size x)
    (reservation_pages x) (Some v) (er_cacheable x) (segment_index x) (executable x) (er_src x) (src_size x).

(** PAGE_ALIGN_4K and ROUND_DOWN to pages, and ROUND_UP *)
Definition PAGE_ALIGN_4K (a : Z) : Z := Z.ldiff a 4095.
Definition ROUND_UP (x n : Z) : Z := u64 (x + (if x mod n =? 0 then 0 else n - x mod n)).

(** a difference of pointers *)
Definition i64 (z : Z) : Z := let u := u64 z in if u <? 2 ^ 63 then u else u - 2 ^ 64.

(** ** Regions *)
Definition rights_from_elf (permissions : Z) : Z :=
  let canRead := negb (Z.land permissions PF_R =? 0) || negb (Z.land permissions PF_X =? 0) in
  let canWrite := negb (Z.land permissions PF_W =? 0) in
  seL4_CapRights_new false false canRead canWrite.
Definition is_executable_segment (h : Elf_Phdr) : bool := negb (Z.land (p_flags h) PF_X =? 0).
Definition is_loadable_section (h : Elf_Phdr) : bool := p_type h =? PT_LOAD.
Definition count_loadable_regions (elf : elf_t) : nat :=
  length (List.filter is_loadable_section (elf_headers elf)).
Definition sel4gpi_elf_num_regions (elf : elf_t) : nat := count_loadable_regions elf.

(** the headers from index [i]; what the layout of the region will be is zero *)
Fixpoint read_headers (elf : elf_t) (i : nat) (headers : list Elf_Phdr) : list sel4gpi_elf_region_t :=
  match headers with
  | [] => []
  | h :: headers =>
      if is_loadable_section h then
        ElfRegion (rights_from_elf (p_flags h)) (p_vaddr h) 0 (u32 (p_memsz h)) 0 0 None true i
          (is_executable_segment h) (elf_segment elf i) (p_filesz h) :: read_headers elf (S i) headers
      else read_headers elf (S i) headers
  end.
(** the error code and the regions *)
Definition read_regions (elf : elf_t) (total_regions : nat) : Z * list sel4gpi_elf_region_t :=
  let regions := read_headers elf 0 (elf_headers elf) in
  (if (length regions =? total_regions)%nat then 0 else 1, regions).

(** the overlap of two segments is only logged *)
Definition compare_regions (a b : sel4gpi_elf_region_t) : Z :=
  if u64 (elf_vstart a + er_size a) <=? elf_vstart b then -1
  else if u64 (elf_vstart b + er_size b) <=? elf_vstart a then 1
  else 0.

(** the error code, and whether the frame is to be moved *)
Definition cap_writes_check_move_frame (a b : Z) : Z * bool :=
  if negb (capAllowRead a) || negb (capAllowRead b) then (-1, false)
  else (0, negb (capAllowWrite a) && capAllowWrite b).

Section Elf.
Context `{UTHash} (sys : list xcall -> xcall -> Z * Z).
Context (run_cb : CB -> nat -> nat -> M server unit).
Context (T : reservation_types) (config_arch_arm : bool) (STACK_CALL_ALIGNMENT : Z).
Context (sglib_quick_sort : (sel4gpi_elf_region_t -> sel4gpi_elf_region_t -> Z) ->
  list sel4gpi_elf_region_t -> list sel4gpi_elf_region_t).

(** the loop over the regions, with the start, the size and the rights of the
    reservation before; the result has the regions from here on ([None] after an
    error), and whether the last frame of the region before is to be taken from it *)
Fixpoint prepare_loop (regions : list sel4gpi_elf_region_t) (prev_res_start prev_res_size prev_rights : Z)
  : M server (option (bool * list sel4gpi_elf_region_t)) :=
  match regions with
  | [] => mret (Some (false, []))
  | region :: regions =>
      let start := PAGE_ALIGN_4K (elf_vstart region) in
      let top := ROUND_UP (u64 (elf_vstart region + er_size region)) PAGE_SIZE_4K in
      let size := u64 (top - start) in
      assert_ (size mod PAGE_SIZE_4K =? 0) ;;
      let prev_top := u64 (prev_res_start + prev_res_size) in
      (* the error, whether the frame moves, the start and the size *)
      let '(error, should_move, start, size) :=
        if start <? prev_top then
          let '(error, should_move) := cap_writes_check_move_frame prev_rights (er_rights region) in
          if should_move then (error, true, start, size)
          else let start := ROUND_UP (u64 (prev_top + 1)) PAGE_SIZE_4K in
               (error, false, start, u64 (top - start))
        else (0, false, start, size) in
      if negb (error =? 0) then mret None else
      rest ← prepare_loop regions start size (er_rights region);
      match rest with
      | None => mret None
      | Some (taken, regions) =>
          (* the number of pages is recorded before the next region takes a frame *)
          let region := set_reservation_layout start size (num_pages_of size PAGE_SIZE_4K) region in
          let region := if taken : bool then set_reservation_size (u64 (size - PAGE_SIZE_4K)) region else region in
          mret (Some (should_move, region :: regions))
      end
  end.
(** the error code and the regions *)
Definition prepare_reservations (regions : list sel4gpi_elf_region_t) : M server (Z * list sel4gpi_elf_region_t) :=
  r ← prepare_loop regions 0 0 seL4_NoRights;
  match r with Some (_, regions) => mret (0, regions) | None => mret (-1, regions) end.

(** [anywhere] has no effect on where the reservations are made *)
Fixpoint create_reservations (loadee : nat) (regions : list sel4gpi_elf_region_t) (anywhere : bool)
  : M server (Z * list sel4gpi_elf_region_t) :=
  match regions with
  | [] => mret (0, [])
  | region :: regions =>
      if reservation_size region =? 0 then
        r ← create_reservations loadee regions anywhere; mret (fst r, region :: snd r)
      else
        let type := if executable region then RES_TYPE_CODE T else RES_TYPE_DATA T in
        r ← ads_reserve sys run_cb T loadee (reservation_vstart region) (reservation_pages region) seL4_PageBits
              type (er_cacheable region) (er_rights region);
        let '(error, res) := r : Z * option nat in
        if negb (error =? 0) then mret (-1, region :: regions) else
        let region := set_reservation res region in
        region ← (if anywhere then
                    res ← deref res;
                    n ← att_load loadee res;
                    mret (set_reservation_layout (att_vaddr n) (reservation_size region) (reservation_pages region) region)
                  else mret region);
        r ← create_reservations loadee regions anywhere; mret (fst r, region :: snd r)
  end.

Definition elf_reserve_regions_in_ads (loadee : nat) (elf : elf_t) (num_regions : nat) (mapanywhere : bool)
  : M server (Z * list sel4gpi_elf_region_t) :=
  let '(error, regions) := read_regions elf num_regions in
  if negb (error =? 0) then mret (error, regions) else
  r ← prepare_reservations (sglib_quick_sort compare_regions regions);
  let '(error, regions) := r : Z * list sel4gpi_elf_region_t in
  if negb (error =? 0) then mret (error, regions) else create_reservations loadee regions mapanywhere.

(** ** Filling the regions *)

(** the bytes of the file that are left are all copied, whatever the length is *)
Definition copy_region (m : Z -> Z) (dest src src_file_size src_offset len : Z) : Z -> Z :=
  let len_from_src := u64 (src_file_size - src_offset) in
  let '(m, len, dest) :=
    if 0 <? len_from_src
    then (copied m dest (src + src_offset) len_from_src, u64 (len - len_from_src), u64 (dest + len_from_src))
    else (m, len, dest) in
  if 0 <? len then zeroed m dest len else m.

(** flushing the caches of the first [n] frames of two mappings *)
Definition frame_cap (ads attach : nat) (i : nat) : M server Z :=
  n ← att_load ads attach;
  caps ← deref (frame_caps n);
  match caps !! i with Some c => mret c | None => crash OutOfBounds end.
Definition unify_frames (loader_ads loader_attach loadee_ads loadee_attach n : nat) : M server unit :=
  for_each (seq 0 n) (fun i =>
    c ← frame_cap loader_ads loader_attach i; ext_ sys PageUnify [c] ;;
    c ← frame_cap loadee_ads loadee_attach i; ext_ sys PageUnify [c]).

(** what the body of load_segments leaves for the next region: the memory, and the
    overflow of this one *)
Record overflow := Overflow { overflow_bytes : Z; overflow_src_offset : Z }.

(** the copies into the mapping of a region at [loader_vaddr]; [None] when the
    regions are invalid *)
Definition write_region (m : Z -> Z) (prev : option sel4gpi_elf_region_t) (region : sel4gpi_elf_region_t)
    (next : option sel4gpi_elf_region_t) (o : overflow) (loader_vaddr : Z) : option ((Z -> Z) * overflow) :=
  (* the overflow of the region before *)
  let '(m, loader_ptr) :=
    if 0 <? overflow_bytes o then
      let p := default region prev in
      (copy_region m loader_vaddr (er_src p) (src_size p) (overflow_src_offset o) (overflow_bytes o),
       u64 (loader_vaddr + overflow_bytes o))
    else (m, loader_vaddr) in
  (* this region *)
  let underflow := i64 (reservation_vstart region - elf_vstart region) in
  let '(vaddr_to_write, size_to_write, src_offset) :=
    if 0 <? underflow then (loader_vaddr, u64 (er_size region - underflow), underflow)
    else if underflow <? 0 then (u64 (loader_vaddr - underflow), er_size region, 0)
    else (loader_vaddr, er_size region, 0) in
  let bytes := i64 (vaddr_to_write + size_to_write - (loader_vaddr + reservation_size region)) in
  let '(size_to_write, offset) :=
    if 0 <? bytes then (u64 (size_to_write - bytes), u64 (size_to_write - bytes))
    else (size_to_write, overflow_src_offset o) in
  let o := Overflow bytes offset in
  if vaddr_to_write <? loader_ptr then None else
  let m := copy_region m vaddr_to_write (er_src region) (src_size region) src_offset size_to_write in
  let loader_ptr := u64 (vaddr_to_write + size_to_write) in
  (* the underflow of the next region *)
  match next with
  | None => Some (m, o)
  | Some next =>
      let next_underflow := i64 (reservation_vstart next - elf_vstart next) in
      if 0 <? next_underflow then
        let vaddr_to_write := u64 (loader_vaddr + reservation_size region - next_underflow) in
        if vaddr_to_write <? loader_ptr then None
        else Some (copy_region m vaddr_to_write (er_src next) (src_size next) 0 next_underflow, o)
      else Some (m, o)
  end.

Definition seL4_InvalidArgument : Z := 1.

(** the error code and the memory *)
Fixpoint load_segments (loadee_ads loader_ads : nat) (m : Z -> Z) (prev : option sel4gpi_elf_region_t)
    (regions : list sel4gpi_elf_region_t) (o : overflow) : M server (Z * (Z -> Z)) :=
  match regions with
  | [] => mret (0, m)
  | region :: regions =>
      let leave error := mret (error, m) in
      if er_src region =? 0 then leave 1 else
      if er_size region <? src_size region then leave seL4_InvalidArgument else
      r ← mo_component_allocate_rt sys (reservation_pages region);
      let '(error, mo) := r : Z * option nat in
      if negb (error =? 0) then leave error else
      mo ← deref mo;
      res ← (match reservation region with Some res => deref res | None => crash Uninitialized end);
      error ← ads_attach_to_res sys loadee_ads res 0 mo;
      if negb (error =? 0) then leave error else
      r ← ads_attach sys run_cb T loader_ads 0 mo true seL4_ReadWrite (RES_TYPE_GENERIC T);
      let '(error, loader_vaddr) := r : Z * option Z in
      if negb (error =? 0) then leave error else
      let loader_vaddr := default 0 loader_vaddr in
      match write_region m prev region (List.head regions) o loader_vaddr with
      | None => leave seL4_InvalidArgument
      | Some (m, o) =>
          (if config_arch_arm then
             loader_attach ← ads_get_res_by_vaddr loader_ads loader_vaddr;
             loadee_attach ← ads_get_res_by_vaddr loadee_ads (PAGE_ALIGN_4K (elf_vstart region));
             if 0 <? reservation_pages region then
               a ← deref loader_attach; b ← deref loadee_attach;
               unify_frames loader_ads a loadee_ads b (Z.to_nat (reservation_pages region))
             else mret tt
           else mret tt) ;;
          error ← ads_rm run_cb loader_ads loader_vaddr;
          if negb (error =? 0) then mret (error, m) else
          x ← mo_load mo;
          error ← resource_component_dec run_cb mo_p (mo_id x);
          if negb (error =? 0) then mret (error, m) else
          load_segments loadee_ads loader_ads m (Some region) regions o
      end
  end.

(** ** Loading a file *)

(** 0 is NULL *)
Definition entry_point (elf : elf_t) : M server Z :=
  if negb (u32 (Z.shiftr (elf_entry_point elf) 32) =? 0) then mret 0
  else assert_ (negb (elf_entry_point elf =? 0)) ;; mret (elf_entry_point elf).

Definition sel4gpi_elf_load_record_regions (loadee loader : nat) (elf : elf_t) (mapanywhere : bool) (m : Z -> Z)
  : M server Z :=
  let num_regions := count_loadable_regions elf in
  r ← elf_reserve_regions_in_ads loadee elf num_regions mapanywhere;
  let '(error, regions) := r : Z * list sel4gpi_elf_region_t in
  if negb (error =? 0) then mret 0 else
  r ← load_segments loadee loader m None regions (Overflow 0 0);
  if negb (fst r =? 0) then mret 0 else entry_point elf.
Definition sel4gpi_elf_load (loadee loader : nat) (elf : elf_t) (m : Z -> Z) : M server Z :=
  sel4gpi_elf_load_record_regions loadee loader elf false m.

(** the address (0 is NULL) and the size *)
Definition sel4gpi_elf_get_section (elf : elf_t) (section_name : list Z) : Z * Z :=
  match elf_section elf section_name with Some (addr, size) => (addr, size) | None => (0, 0) end.
Definition vsyscall_name : list Z := [95; 95; 118; 115; 121; 115; 99; 97; 108; 108].
Definition sel4gpi_elf_get_vsyscall (elf : elf_t) (m : Z -> Z) : Z :=
  let addr := fst (sel4gpi_elf_get_section elf vsyscall_name) in
  if negb (addr =? 0) then load_word m addr else 0.
Definition sel4gpi_elf_num_phdrs (elf : elf_t) : Z := u32 (Z.of_nat (length (elf_headers elf))).
Definition sel4gpi_elf_read_phdrs (elf : elf_t) (max_phdrs : Z) : list Elf_Phdr :=
  take (Z.to_nat max_phdrs) (elf_headers elf).

(** the archive of images: a file that is not there, or not an ELF file, leaves
    [elf] uninitialized, and the result of elf_newFile is not tested *)
Context (elf_newFile : list Z -> option elf_t) (root_memory : Z -> Z).

(** the error code and the entry point; after an error the headers that the PD has
    are freed, and stay in the PD *)
Definition ads_load_elf (loadee loader pd : nat) (image_name : list Z) : M server (Z * Z) :=
  let failed entry :=
    (p ← pd_load pd; when (negb (elf_phdrs p =? 0)) (ext_ sys Free [elf_phdrs p]) ;; mret (1, entry)) in
  match elf_newFile image_name with
  | None => crash Uninitialized
  | Some elf =>
      entry ← sel4gpi_elf_load loadee loader elf root_memory;
      if entry =? 0 then failed entry else
      pd_store pd (set_sysinfo (sel4gpi_elf_get_vsyscall elf root_memory)) ;;
      pd_store pd (set_num_elf_phdrs (i32 (sel4gpi_elf_num_phdrs elf))) ;;
      phdrs ← calloc_handle sys;
      pd_store pd (set_elf_phdrs phdrs) ;;
      if phdrs =? 0 then failed entry else
      pd_store pd (set_elf_phdr_array (sel4gpi_elf_read_phdrs elf (i32 (sel4gpi_elf_num_phdrs elf)))) ;;
      pd_store pd (set_pagesz PAGE_SIZE_4K) ;;
      mret (0, entry)
  end.

(** ** Initial stacks *)

(** the fields of a program header *)
Definition phdr_words (h : Elf_Phdr) : list Z :=
  [p_type h; p_flags h; p_offset h; p_vaddr h; p_paddr h; p_filesz h; p_memsz h; p_align h].
Definition SIZEOF_PHDR : Z := 56.

(** sel4utils_stack_write, _write_constant and _copy_args: the error and the new
    stack pointer *)
Definition stack_write (space sp len : Z) (contents : list Z) : M server (Z * Z) :=
  ext sys StackWrite ([space; sp; len] ++ contents).
Definition stack_write_constant (space value sp : Z) : M server (Z * Z) :=
  ext sys StackWriteConstant [space; value; sp].
Definition stack_copy_args (space sp : Z) (args : list Z) : M server (Z * Z) :=
  ext sys StackCopyArgs ([space; sp] ++ args).

(** writes one after the other, as long as there is no error *)
Fixpoint stack_writes (writes : list (Z -> M server (Z * Z))) (sp : Z) : M server (Z * Z) :=
  match writes with
  | [] => mret (0, sp)
  | w :: writes =>
      r ← w sp;
      let '(error, sp) := r : Z * Z in
      if negb (error =? 0) then mret (error, sp) else stack_writes writes sp
  end.

(** the stack pointer for a block of [to_push] bytes that has to end aligned *)
Definition stack_align (sp to_push : Z) : Z :=
  let hypothetical := u64 (sp - to_push) in
  let rounded := Z.ldiff hypothetical (STACK_CALL_ALIGNMENT - 1) in
  u64 (sp - (hypothetical - rounded)).

(** elf.h *)
Definition AT_PHDR : Z := 3.
Definition AT_PHENT : Z := 4.
Definition AT_PHNUM : Z := 5.
Definition AT_PAGESZ : Z := 6.
Definition AT_SYSINFO : Z := 32.
(** sel4utils and sel4runtime *)
Context (AT_SEL4_IPC_BUFFER_PTR AT_SEL4_TCB AT_OSM_SHARED_DATA : Z).

(** the pairs of the auxiliary vector, for program headers at [at_phdr] *)
Definition auxv (p : pd_t) (at_phdr ipc_buf_addr : Z) : list Z :=
  [AT_PAGESZ; pagesz p; AT_PHDR; at_phdr; AT_PHNUM; num_elf_phdrs p; AT_PHENT; SIZEOF_PHDR;
   AT_SEL4_IPC_BUFFER_PTR; ipc_buf_addr; AT_SEL4_TCB; CapNull; AT_OSM_SHARED_DATA; shared_data_in_PD p]
  ++ (if negb (sysinfo p =? 0) then [AT_SYSINFO; sysinfo p] else []).

(** the error code and the initial stack pointer; the contents of the array of
    addresses of the arguments are known to the library only *)
Definition ads_write_stack_runtime (pd : nat) (loadee_vspace ipc_buf_addr stack_top : Z) (args : list Z)
  : M server (Z * Z) :=
  p ← pd_load pd;
  let argc := Z.of_nat (length args) in
  let space := loadee_vspace in
  (* the library reads the headers through the pointer *)
  when ((elf_phdrs p =? 0) && (0 <? num_elf_phdrs p)) (crash NullDeref) ;;
  r ← stack_write space (u64 (stack_top - 8)) (u64 (num_elf_phdrs p * SIZEOF_PHDR)) (elf_phdr_array p ≫= phdr_words);
  let '(error, at_phdr) := r : Z * Z in
  if negb (error =? 0) then mret (-1, 0) else
  let aux := auxv p at_phdr ipc_buf_addr in
  r ← stack_writes [fun sp => stack_copy_args space sp args; fun sp => stack_copy_args space sp []] at_phdr;
  let '(error, sp) := r : Z * Z in
  if negb (error =? 0) then mret (-1, 0) else
  let sp := stack_align sp (5 * 8 + 8 * Z.of_nat (length aux) + 8 * argc) in
  r ← stack_writes
    [stack_write_constant space 0; stack_write_constant space 0;
     fun sp => stack_write space sp (8 * Z.of_nat (length aux)) aux;
     stack_write_constant space 0;
     fun sp => stack_write space sp 0 [];
     stack_write_constant space 0;
     fun sp => stack_write space sp (8 * argc) [];
     stack_write_constant space argc] sp;
  let '(error, sp) := r : Z * Z in
  if negb (error =? 0) then mret (-1, 0) else
  assert_ (sp mod 16 =? 0) ;;
  mret (0, sp).

Definition ads_write_stack_args (target_ads : nat) (args : list Z) (stack_top : Z) : M server (Z * Z) :=
  a ← ads_load target_ads;
  let argc := Z.of_nat (length args) in
  let space := vspace a in
  r ← stack_copy_args space stack_top args;
  let '(error, sp) := r : Z * Z in
  if negb (error =? 0) then mret (error, 0) else
  let sp := stack_align sp (8 * 2 + 8 * argc) in
  r ← stack_writes
    [stack_write_constant space 0; fun sp => stack_write space sp (8 * argc) []; stack_write_constant space argc] sp;
  let '(error, sp) := r : Z * Z in
  if negb (error =? 0) then mret (error, 0) else mret (0, sp).
End Elf.

(** [lia], with divisions and remainders by constants *)
Ltac div_lia := Z.to_euclidean_division_equations; lia.

(** ** Properties: the layout of reservations *)
Section Layout.
Implicit Types (r a b : sel4gpi_elf_region_t) (l : list sel4gpi_elf_region_t) (s : server).

Definition page_floor (x : Z) : Z := x / 4096 * 4096.
Definition page_ceil (x : Z) : Z := page_floor (x + 4095).
(** the end of a segment *)
Definition segment_end r : Z := elf_vstart r + er_size r.
Definition segment_ok r : Prop :=
  0 <= elf_vstart r /\ 0 < er_size r < 2 ^ 32 /\ segment_end r <= 2 ^ 64 - 8192.

Lemma PAGE_ALIGN_4K_floor x : PAGE_ALIGN_4K x = page_floor x.
Proof.
  unfold PAGE_ALIGN_4K, page_floor. change 4095 with (Z.ones 12).
  by rewrite Z.ldiff_ones_r, Z.shiftl_mul_pow2, Z.shiftr_div_pow2.
Qed.
Lemma page_floor_range x : page_floor x <= x < page_floor x + 4096.
Proof. unfold page_floor. div_lia. Qed.
Lemma page_ceil_range x : x <= page_ceil x < x + 4096.
Proof. unfold page_ceil, page_floor. div_lia. Qed.
Lemma page_floor_mod x : page_floor x mod 4096 = 0.
Proof. by apply Z.mod_mul. Qed.
Lemma page_ceil_mod x : page_ceil x mod 4096 = 0.
Proof. by apply Z.mod_mul. Qed.
Lemma ROUND_UP_ceil x : 0 <= x <= 2 ^ 64 - 4096 -> ROUND_UP x PAGE_SIZE_4K = page_ceil x.
Proof.
  intros Hx. unfold ROUND_UP, PAGE_SIZE_4K, page_ceil, page_floor, u64.
  destruct (Z.eqb_spec (x mod 4096) 0); rewrite wrap_small; div_lia.
Qed.
Lemma num_pages_run k : 0 <= k < 2 ^ 32 -> num_pages_of (k * 4096) PAGE_SIZE_4K = k.
Proof.
  intros Hk. unfold num_pages_of, PAGE_SIZE_4K, u64, u32.
  rewrite (wrap_small 64) by lia. rewrite wrap_small; div_lia.
Qed.

(** the reservation of whole pages around a segment *)
Definition start_of r : Z := page_floor (elf_vstart r).
Definition top_of r : Z := page_ceil (segment_end r).
Definition pages_of r : Z := (top_of r - start_of r) / 4096.
Definition planned r : sel4gpi_elf_region_t := set_reservation_layout (start_of r) (top_of r - start_of r) (pages_of r) r.

Lemma layout_facts r : segment_ok r ->
  top_of r - start_of r = pages_of r * 4096 /\ 0 < pages_of r < 2 ^ 32 /\ 0 <= start_of r /\ top_of r < 2 ^ 64 /\
  PAGE_ALIGN_4K (elf_vstart r) = start_of r /\
  ROUND_UP (u64 (elf_vstart r + er_size r)) PAGE_SIZE_4K = top_of r.
Proof.
  intros (Hv & Hs & He). pose proof (page_floor_range (elf_vstart r)). pose proof (page_ceil_range (segment_end r)).
  unfold segment_end, pages_of, start_of, top_of, page_ceil, page_floor in *.
  rewrite PAGE_ALIGN_4K_floor. unfold u64. rewrite wrap_small by lia. rewrite ROUND_UP_ceil by lia.
  unfold page_floor, page_ceil, page_floor, segment_end. repeat split; div_lia.
Qed.

(** a step of the loop, up to the question whether the segment shares a frame with
    the one before *)
Lemma prepare_loop_cons r l ps pz pr s : segment_ok r ->
  prepare_loop (r :: l) ps pz pr s =
    (let prev_top := u64 (ps + pz) in
     let '(error, should_move, start) :=
       if start_of r <? prev_top then
         let '(error, should_move) := cap_writes_check_move_frame pr (er_rights r) in
         (error, should_move, if should_move then start_of r else ROUND_UP (u64 (prev_top + 1)) PAGE_SIZE_4K)
       else (0, false, start_of r) in
     let size := u64 (top_of r - start) in
     if negb (error =? 0) then mret None else
     rest ← prepare_loop l start size (er_rights r);
     match rest with
     | None => mret None
     | Some (taken, regions) =>
         let region := set_reservation_layout start size (num_pages_of size PAGE_SIZE_4K) r in
         let region := if taken : bool then set_reservation_size (u64 (size - PAGE_SIZE_4K)) region else region in
         mret (Some (should_move, region :: regions))
     end) s.
Proof.
  intros Hr. destruct (layout_facts r Hr) as (Hsize & Hp & H0 & Ht & Hfloor & Hceil).
  cbn [prepare_loop]. rewrite Hfloor, Hceil. unfold assert_.
  rewrite (proj2 (Z.eqb_eq _ _)).
  2: { unfold u64. rewrite wrap_small by lia. rewrite Hsize. by apply Z.mod_mul. }
  erewrite bind_ok by reflexivity. cbv zeta. destruct (start_of r <? u64 (ps + pz)); [|done].
  by destruct (cap_writes_check_move_frame pr (er_rights r)) as [error []].
Qed.

(** segments in order, of which no two share a page *)
Fixpoint segments_apart (from : Z) l : Prop :=
  match l with
  | [] => True
  | r :: l => segment_ok r /\ from <= start_of r /\ segments_apart (top_of r) l
  end.

Lemma prepare_loop_apart l s : forall ps pz pr from, u64 (ps + pz) = from -> segments_apart from l ->
  prepare_loop l ps pz pr s = (Ok (Some (false, planned <$> l)), s).
Proof.
  induction l as [|r l IH]; intros ps pz pr from Hfrom Hl; [done|]. destruct Hl as (Hr & Hle & Hl).
  destruct (layout_facts r Hr) as (Hsize & Hp & H0 & Ht & _ & _).
  rewrite (prepare_loop_cons r l ps pz pr s Hr). rewrite Hfrom. cbv zeta.
  rewrite (proj2 (Z.ltb_ge _ _)) by lia. change (negb (0 =? 0)) with false. cbv iota.
  assert (u64 (top_of r - start_of r) = top_of r - start_of r) as -> by (unfold u64; rewrite wrap_small; lia).
  erewrite bind_ok.
  2: { apply (IH _ _ _ (top_of r)); [|done]. unfold u64. rewrite wrap_small; lia. }
  unfold planned. cbn [fmap list_fmap]. rewrite Hsize, num_pages_run by lia. done.
Qed.

(** what a region is after its reservation was planned *)
Definition reserved_for r r' : Prop :=
  r' = set_reservation_layout (reservation_vstart r') (reservation_size r') (reservation_pages r') r /\
  reservation_vstart r' mod PAGE_SIZE_4K = 0 /\
  reservation_size r' = reservation_pages r' * PAGE_SIZE_4K /\
  elf_vstart r - PAGE_SIZE_4K < reservation_vstart r' <= elf_vstart r /\
  segment_end r <= reservation_vstart r' + reservation_size r' < segment_end r + PAGE_SIZE_4K.
Fixpoint reservations_apart l : Prop :=
  match l with
  | a :: ((b :: _) as l') => reservation_vstart a + reservation_size a <= reservation_vstart b /\ reservations_apart l'
  | _ => True
  end.

Lemma planned_reserved r : segment_ok r -> reserved_for r (planned r).
Proof.
  intros Hr. destruct (layout_facts r Hr) as (Hsize & _). unfold reserved_for, PAGE_SIZE_4K. simpl.
  pose proof (page_floor_range (elf_vstart r)). pose proof (page_ceil_range (segment_end r)).
  pose proof (page_floor_mod (elf_vstart r)). unfold start_of, top_of in *. repeat split; lia.
Qed.
Lemma planned_apart l : forall from, segments_apart from l -> reservations_apart (planned <$> l).
Proof.
  induction l as [|a [|b l] IH]; intros from Hl; [done|done|]. destruct Hl as (_ & _ & Hl).
  split; [|by apply (IH (top_of a))]. destruct Hl as (_ & Hle & _). simpl. lia.
Qed.

(** the reservations for the segments of an image whose segments share no page
    are whole pages, each around its segment with less than a page to spare on
    either side, and no two of them overlap. *)
Theorem prepare_reservations_cover l s (Hl : segments_apart 0 l) :
  exists l', prepare_reservations l s = (Ok (0, l'), s) /\ Forall2 reserved_for l l' /\ reservations_apart l'.
Proof.
  exists (planned <$> l). split; [|split].
  - unfold prepare_reservations. by rewrite (bind_ok _ _ _ _ _ (prepare_loop_apart l s 0 0 seL4_NoRights 0 eq_refl Hl)).
  - assert (Forall segment_ok l) as Hok.
    { revert Hl. generalize 0. induction l as [|r l IH]; intros from; [constructor|].
      intros (Hr & _ & Hl). constructor; [done|by eapply IH]. }
    clear Hl. induction Hok as [|r l Hr _ IH]; constructor; [by apply planned_reserved|done].
  - by apply (planned_apart l 0).
Qed.

(** two segments of which the second starts in the last page of the first *)
Definition share_a_page a b : Prop :=
  segment_ok a /\ segment_ok b /\ capAllowRead (er_rights a) = true /\ capAllowRead (er_rights b) = true /\
  segment_end a <= elf_vstart b /\ top_of a = start_of b + PAGE_SIZE_4K.

Lemma prepare_run l l' taken s : prepare_loop l 0 0 seL4_NoRights s = (Ok (Some (taken, l')), s) ->
  prepare_reservations l s = (Ok (0, l'), s).
Proof. intros Hl. unfold prepare_reservations. by rewrite (bind_ok _ _ _ _ _ Hl). Qed.

(** two segments: where the second reservation starts depends on the page *)
Lemma prepare_pair a b s move : segment_ok a -> segment_ok b -> start_of b < top_of a ->
  cap_writes_check_move_frame (er_rights a) (er_rights b) = (0, move) ->
  let start := if move then start_of b else ROUND_UP (u64 (top_of a + 1)) PAGE_SIZE_4K in
  let size := u64 (top_of b - start) in
  prepare_reservations [a; b] s =
    (Ok (0, [if move then set_reservation_size (top_of a - start_of a - PAGE_SIZE_4K) (planned a) else planned a;
             set_reservation_layout start size (num_pages_of size PAGE_SIZE_4K) b]), s).
Proof.
  intros Ha Hb Hlt Hcheck start size.
  destruct (layout_facts a Ha) as (Hsa & Hpa & H0a & Hta & _). destruct (layout_facts b Hb) as (_ & _ & H0b & _).
  assert (u64 (top_of a - start_of a) = top_of a - start_of a) as Hsize by (unfold u64; rewrite wrap_small; lia).
  assert (prepare_loop [b] (start_of a) (top_of a - start_of a) (er_rights a) s =
    (Ok (Some (move, [set_reservation_layout start size (num_pages_of size PAGE_SIZE_4K) b])), s)) as Hb1.
  { rewrite (prepare_loop_cons b _ _ _ _ s Hb). cbv zeta.
    replace (start_of a + (top_of a - start_of a)) with (top_of a) by lia.
    assert (u64 (top_of a) = top_of a) as -> by (unfold u64; rewrite wrap_small; lia).
    rewrite (proj2 (Z.ltb_lt _ _)), Hcheck by lia. reflexivity. }
  apply prepare_run with (taken := false). rewrite (prepare_loop_cons a _ _ _ _ s Ha). cbv zeta.
  change (u64 (0 + 0)) with 0. rewrite (proj2 (Z.ltb_ge _ _)) by lia. change (negb (0 =? 0)) with false. cbv iota.
  rewrite Hsize, (bind_ok _ _ _ _ _ Hb1). unfold planned. rewrite Hsa, num_pages_run by lia.
  destruct move; [|done]. unfold u64. rewrite wrap_small by (unfold PAGE_SIZE_4K; lia). done.
Qed.

(** the page moves to the second segment's reservation when only the second is
    writable; but the number of pages of the first reservation, which is what is
    reserved and loaded, still has it: the two overlap. *)
Lemma shared_page_reserved_twice a b s : share_a_page a b ->
  capAllowWrite (er_rights a) = false -> capAllowWrite (er_rights b) = true ->
  exists a' b', prepare_reservations [a; b] s = (Ok (0, [a'; b']), s) /\
    reservation_vstart a' + reservation_size a' = reservation_vstart b' /\
    reservation_vstart a' + reservation_pages a' * PAGE_SIZE_4K = reservation_vstart b' + PAGE_SIZE_4K.
Proof.
  intros (Ha & Hb & Hra & Hrb & Hord & Htop) Hwa Hwb. unfold PAGE_SIZE_4K in *.
  destruct (layout_facts a Ha) as (Hsa & _).
  eexists _, _. split; [apply (prepare_pair a b s true Ha Hb); [lia|]|simpl; unfold PAGE_SIZE_4K; lia].
  unfold cap_writes_check_move_frame. by rewrite Hra, Hrb, Hwa, Hwb.
Qed.

(** when the shared page stays with the first segment, the reservation of the
    second starts one page too late: the page that follows the shared one is in
    neither reservation, although it may hold the second segment; and a second
    segment that ends in the shared page has a reservation of nearly the whole
    address space. *)
Theorem shared_page_leaves_hole a b s (Hshare : share_a_page a b)
  (Hstay : capAllowWrite (er_rights a) = true \/ capAllowWrite (er_rights b) = false) :
  exists b', prepare_reservations [a; b] s = (Ok (0, [planned a; b']), s) /\
    reservation_vstart (planned a) + reservation_size (planned a) = top_of a /\
    reservation_vstart b' = top_of a + PAGE_SIZE_4K /\
    reservation_size b' = u64 (top_of b - (top_of a + PAGE_SIZE_4K)) /\
    (top_of b = top_of a -> reservation_size b' = 2 ^ 64 - PAGE_SIZE_4K).
Proof.
  destruct Hshare as (Ha & Hb & Hra & Hrb & Hord & Htop). unfold PAGE_SIZE_4K in *.
  destruct (layout_facts a Ha) as (Hsa & Hpa & H0a & Hta & _). destruct (layout_facts b Hb) as (Hsb & Hpb & H0b & Htb & _).
  assert (cap_writes_check_move_frame (er_rights a) (er_rights b) = (0, false)) as Hcheck.
  { unfold cap_writes_check_move_frame. rewrite Hra, Hrb. destruct Hstay as [-> | ->]; [done|by rewrite andb_false_r]. }
  assert (top_of a mod 4096 = 0) as Hm by apply page_ceil_mod.
  assert (top_of a <= 2 ^ 64 - 8192) as Ha2.
  { destruct Ha as (_ & _ & He). unfold top_of, page_ceil, page_floor. div_lia. }
  assert (ROUND_UP (u64 (top_of a + 1)) PAGE_SIZE_4K = top_of a + 4096) as Hstart.
  { unfold u64. rewrite wrap_small by lia. rewrite ROUND_UP_ceil by lia. unfold page_ceil, page_floor. div_lia. }
  eexists. split; [apply (prepare_pair a b s false Ha Hb); [lia|done]|]. simpl. rewrite Hstart.
  repeat split; [lia|]. intros ->. by replace (top_of a - (top_of a + 4096)) with (-4096) by lia.
Qed.
End Layout.

(** ** Properties: the contents of a mapping *)
Section Contents.
Implicit Types (m : Z -> Z) (r : sel4gpi_elf_region_t).

(** the bytes of the file from an offset, and zeroes up to the length *)
Definition filled m m' (dest src n len : Z) : Prop := forall a,
  m' a = if (dest <=? a) && (a <? dest + len) then (if a <? dest + n then m (src + (a - dest)) else 0) else m a.

Lemma copy_region_filled m dest src size off len : 0 <= dest -> dest + len < 2 ^ 64 -> 0 <= off ->
  off <= size < 2 ^ 64 -> size - off <= len -> filled m (copy_region m dest src size off len) dest (src + off) (size - off) len.
Proof.
  intros Hd Hlen Hoff Hsize Hn a. unfold copy_region, u64.
  rewrite (wrap_small 64 (size - off)), (wrap_small 64 (len - (size - off))), (wrap_small 64 (dest + _)) by lia.
  unfold copied, zeroed.
  destruct (Z.ltb_spec 0 (size - off)) as [H0|H0]; cbv zeta iota;
    repeat (case_bool; zify_bool); try lia; try done; try (f_equal; lia).
Qed.

(** when more of the file is left than is to be copied, it is copied all the same,
    and the length wraps around: the rest of the address space is set to zero *)
Lemma copy_region_overrun m dest src size off len : 0 <= dest -> 0 <= len < size - off ->
  dest + (size - off) < 2 ^ 64 ->
  (forall a, dest <= a < dest + (size - off) -> copy_region m dest src size off len a = m (src + off + (a - dest))) /\
  (forall a, dest + (size - off) <= a < 2 ^ 64 -> copy_region m dest src size off len a = 0).
Proof.
  intros Hd Hlen Hend. unfold copy_region, u64.
  rewrite (wrap_small 64 (size - off)), (wrap_small 64 (dest + _)) by lia.
  assert (wrap 64 (len - (size - off)) = 2 ^ 64 + (len - (size - off))) as ->.
  { unfold wrap. symmetry. apply (Z.mod_unique _ _ (-1)); lia. }
  rewrite (proj2 (Z.ltb_lt 0 (size - off))) by lia. cbv zeta iota. rewrite (proj2 (Z.ltb_lt 0 _)) by lia.
  unfold copied, zeroed. split; intros a Ha; repeat (case_bool; zify_bool); try lia; done.
Qed.

Lemma i64_small z : - 2 ^ 63 <= z < 2 ^ 63 -> i64 z = z.
Proof.
  intros Hz. unfold i64, u64, wrap. destruct (decide (0 <= z)).
  - rewrite Z.mod_small by lia. by rewrite (proj2 (Z.ltb_lt _ _)) by lia.
  - rewrite <- (Z.mod_unique z (2 ^ 64) (-1) (z + 2 ^ 64)) by lia. rewrite (proj2 (Z.ltb_ge _ _)) by lia. lia.
Qed.

(** loading a segment into the mapping of its reservation puts the bytes of the
    file at the place of the segment, followed by zeroes up to its size in memory;
    nothing else in the memory changes, and nothing is left for the next segment. *)
Theorem write_region_loads m r r' prev next o loader_vaddr
  (Hseg : segment_ok r) (Hres : reserved_for r r') (Hsrc : 0 <= src_size r <= er_size r)
  (Hloader : 0 <= loader_vaddr) (Hend : loader_vaddr + reservation_size r' < 2 ^ 63)
  (Hbefore : overflow_bytes o <= 0)
  (Hnext : forall n, next = Some n -> elf_vstart n - PAGE_SIZE_4K < reservation_vstart n <= elf_vstart n) :
  exists m' o', write_region m prev r' next o loader_vaddr = Some (m', o') /\ overflow_bytes o' <= 0 /\
    filled m m' (loader_vaddr + (elf_vstart r - reservation_vstart r')) (er_src r) (src_size r) (er_size r).
Proof.
  destruct Hres as (E & _ & _ & Hlow & Hhigh). destruct Hseg as (Hv & Hs & He). unfold PAGE_SIZE_4K, segment_end in *.
  set (pad := elf_vstart r - reservation_vstart r'). assert (0 <= pad < 4096) as Hpad by lia.
  assert (elf_vstart r' = elf_vstart r /\ er_size r' = er_size r /\ er_src r' = er_src r /\ src_size r' = src_size r)
    as (Ev & Es & Er & Ef) by (rewrite E; done).
  unfold write_region. rewrite (proj2 (Z.ltb_ge 0 (overflow_bytes o))) by lia. cbv zeta iota. rewrite Ev, Es, Er, Ef.
  rewrite (i64_small (reservation_vstart r' - elf_vstart r)) by lia. rewrite (proj2 (Z.ltb_ge 0 _)) by lia.
  assert ((if reservation_vstart r' - elf_vstart r <? 0
           then (u64 (loader_vaddr - (reservation_vstart r' - elf_vstart r)), er_size r, 0)
           else (loader_vaddr, er_size r, 0)) = (loader_vaddr + pad, er_size r, 0)) as ->.
  { unfold u64. destruct (Z.ltb_spec (reservation_vstart r' - elf_vstart r) 0); [rewrite wrap_small by lia|];
      do 2 f_equal; lia. }
  rewrite (i64_small (loader_vaddr + pad + er_size r - _)) by lia. rewrite (proj2 (Z.ltb_ge 0 _)) by lia.
  rewrite (proj2 (Z.ltb_ge (loader_vaddr + pad) loader_vaddr)) by lia.
  pose proof (copy_region_filled m (loader_vaddr + pad) (er_src r) (src_size r) 0 (er_size r)
    ltac:(lia) ltac:(lia) ltac:(lia) ltac:(lia) ltac:(lia)) as Hf. rewrite Z.add_0_r, Z.sub_0_r in Hf.
  destruct next as [n|].
  - specialize (Hnext n eq_refl). rewrite (i64_small (reservation_vstart n - elf_vstart n)) by lia.
    rewrite (proj2 (Z.ltb_ge 0 _)) by lia. eexists _, _. split; [reflexivity|]. split; [simpl; lia|exact Hf].
  - eexists _, _. split; [reflexivity|]. split; [simpl; lia|exact Hf].
Qed.
End Contents.

(** ** Properties: the initial stack *)
Section Stacks.
Context (sys : list xcall -> xcall -> Z * Z).
(** what the library documents: a write moves the stack pointer down by its length;
    copying arguments moves it somewhere *)
Record stack_library := StackLibrary {
  sl_write : forall l space sp len contents,
    sys l (StackWrite, [space; sp; len] ++ contents) = (0, u64 (sp - len));
  sl_constant : forall l space value sp, sys l (StackWriteConstant, [space; value; sp]) = (0, u64 (sp - 8));
  sl_args : forall l space sp args, fst (sys l (StackCopyArgs, [space; sp] ++ args)) = 0
}.
Context (HL : stack_library).

Definition moves_by (w : Z -> M server (Z * Z)) (n : Z) : Prop :=
  forall sp s, exists s', w sp s = (Ok (0, u64 (sp - n)), s').
Lemma stack_write_moves space len contents : moves_by (fun sp => stack_write sys space sp len contents) len.
Proof. intros sp s. eexists. unfold stack_write, ext. by rewrite (sl_write HL). Qed.
Lemma stack_write_constant_moves space value : moves_by (stack_write_constant sys space value) 8.
Proof. intros sp s. eexists. unfold stack_write_constant, ext. by rewrite (sl_constant HL). Qed.

Lemma stack_writes_run ws ns : Forall2 moves_by ws ns -> forall sp s, 0 <= sp < 2 ^ 64 ->
  exists s', stack_writes ws sp s = (Ok (0, u64 (sp - foldr Z.add 0 ns)), s').
Proof.
  induction 1 as [|w n ws ns Hw _ IH]; intros sp s Hsp; simpl.
  - exists s. unfold u64. by rewrite Z.sub_0_r, wrap_small.
  - destruct (Hw sp s) as [s1 H1]. destruct (IH (u64 (sp - n)) s1) as [s2 H2].
    { apply wrap_range. lia. }
    exists s2. rewrite (bind_ok _ _ _ _ _ H1). cbn [negb Z.eqb]. rewrite H2. do 3 f_equal.
    unfold u64, wrap. rewrite Zminus_mod_idemp_l. f_equal. lia.
Qed.

Lemma stack_align_pushed k sp n : 0 <= k < 64 ->
  u64 (stack_align (2 ^ k) sp n - n) mod 2 ^ k = 0.
Proof.
  intros Hk. unfold stack_align. set (h := u64 (sp - n)).
  assert (Z.ldiff h (2 ^ k - 1) = h / 2 ^ k * 2 ^ k) as ->.
  { replace (2 ^ k - 1) with (Z.ones k) by (rewrite Z.ones_equiv; lia).
    rewrite Z.ldiff_ones_r, Z.shiftl_mul_pow2, Z.shiftr_div_pow2 by lia. done. }
  assert (0 < 2 ^ k) as Hpos by (apply Z.pow_pos_nonneg; lia).
  assert (0 <= h < 2 ^ 64) as Hh by (apply wrap_range; lia).
  assert (0 <= h / 2 ^ k * 2 ^ k <= h) as Hr.
  { pose proof (Z.div_mod h (2 ^ k)). pose proof (Z.mod_pos_bound h (2 ^ k)).
    pose proof (Z.div_pos h (2 ^ k)). nia. }
  assert (u64 (u64 (sp - (h - h / 2 ^ k * 2 ^ k)) - n) = h / 2 ^ k * 2 ^ k) as ->; [|by apply Z.mod_mul; lia].
  unfold u64, wrap. rewrite Zminus_mod_idemp_l.
  replace (sp - (h - h / 2 ^ k * 2 ^ k) - n) with (sp - n - (h - h / 2 ^ k * 2 ^ k)) by lia.
  rewrite <- Zminus_mod_idemp_l. change ((sp - n) mod 2 ^ 64) with h. rewrite Z.mod_small; lia.
Qed.

Lemma stack_copy_args_run space sp args s :
  exists sp' s', stack_copy_args sys space sp args s = (Ok (0, sp'), s').
Proof.
  pose proof (sl_args HL (log s) space sp args) as Ha. unfold stack_copy_args, ext.
  destruct (sys (log s) (StackCopyArgs, [space; sp] ++ args)) as [e v]. simpl in Ha. subst e. by eexists _, _.
Qed.

(** when the library can write to the stack, the initial stack pointer of a
    process is aligned as the architecture asks, whatever the lengths of its program
    headers and arguments: the assertion at the end does not fail. *)
Theorem stack_runtime_aligned pd space ipc_buf_addr stack_top args s p k at1 at2 at3
  (Hp : pd_load pd s = (Ok p, s)) (Hphdrs : elf_phdrs p <> 0) (Hk : 4 <= k < 64) :
  returns (ads_write_stack_runtime sys (2 ^ k) at1 at2 at3 pd space ipc_buf_addr stack_top args) s
    (fun r _ => fst r = 0 /\ snd r mod 2 ^ k = 0).
Proof.
  unfold ads_write_stack_runtime. apply returns_bind. exists p, s. split; [done|]. cbv zeta.
  rewrite (proj2 (Z.eqb_neq _ _) Hphdrs). apply returns_bind, returns_ret.
  destruct (stack_write_moves space (u64 (num_elf_phdrs p * SIZEOF_PHDR)) (elf_phdr_array p ≫= phdr_words)
    (u64 (stack_top - 8)) s) as [s1 H1].
  apply returns_bind. eexists _, _. split; [exact H1|]. cbn [negb Z.eqb]. set (at_phdr := u64 (_ - _)).
  destruct (stack_copy_args_run space at_phdr args s1) as (sp2 & s2 & H2).
  destruct (stack_copy_args_run space sp2 [] s2) as (sp3 & s3 & H3).
  apply returns_bind. exists (0, sp3), s3. split.
  { cbn [stack_writes]. rewrite (bind_ok _ _ _ _ _ H2). cbn [negb Z.eqb]. by rewrite (bind_ok _ _ _ _ _ H3). }
  cbn [negb Z.eqb]. set (aux := auxv at1 at2 at3 p at_phdr ipc_buf_addr).
  set (n := 5 * 8 + 8 * Z.of_nat (length aux) + 8 * Z.of_nat (length args)).
  set (ws := [_; _; _; _; _; _; _; _]).
  destruct (stack_writes_run ws [8; 8; 8 * Z.of_nat (length aux); 8; 0; 8; 8 * Z.of_nat (length args); 8])
    with (sp := stack_align (2 ^ k) sp3 n) (s := s3) as [s4 H4].
  { repeat constructor; auto using stack_write_moves, stack_write_constant_moves. }
  { apply wrap_range. lia. }
  apply returns_bind. eexists _, _. split; [exact H4|]. cbn [negb Z.eqb].
  assert (foldr Z.add 0 [8; 8; 8 * Z.of_nat (length aux); 8; 0; 8; 8 * Z.of_nat (length args); 8] = n) as ->
    by (unfold n; simpl; lia).
  pose proof (stack_align_pushed k sp3 n ltac:(lia)) as Hm.
  assert (u64 (stack_align (2 ^ k) sp3 n - n) mod 16 = 0) as H16.
  { apply Z.mod_divide; [lia|]. apply Z.mod_divide in Hm; [|apply Z.pow_nonzero; lia].
    eapply Z.divide_trans; [|exact Hm]. exists (2 ^ (k - 4)). change 16 with (2 ^ 4).
    rewrite <- Z.pow_add_r by lia. f_equal. lia. }
  unfold assert_. rewrite H16. apply returns_bind, returns_ret, returns_ret. done.
Qed.
End Stacks.

(** ** Witnesses *)
Section ElfWitnesses.
Definition region_demo (rights vstart size : Z) : sel4gpi_elf_region_t :=
  ElfRegion rights vstart 0 size 0 0 None true 0 false 0x9000000 size.
Definition text_demo : sel4gpi_elf_region_t := region_demo 2 0x400000 0x1800.
Definition data_demo : sel4gpi_elf_region_t := region_demo 3 0x403100 0x2000.
Definition rodata_demo : sel4gpi_elf_region_t := region_demo 2 0x401900 0x2000.

Lemma segment_ok_demo rights vstart size : 0 <= vstart < 2 ^ 32 -> 0 < size < 2 ^ 32 -> segment_ok (region_demo rights vstart size).
Proof. unfold segment_ok, segment_end. simpl. lia. Qed.

Lemma prepare_reservations_cover_witness :
  exists l', prepare_reservations [text_demo; data_demo] server_demo = (Ok (0, l'), server_demo) /\
    Forall2 reserved_for [text_demo; data_demo] l' /\ reservations_apart l'.
Proof.
  apply prepare_reservations_cover. repeat split; try apply segment_ok_demo; vm_compute; intuition congruence.
Defined.

(** read-only data that begins in the last page of the code *)
Lemma shared_page_leaves_hole_witness :
  exists b', prepare_reservations [text_demo; rodata_demo] server_demo = (Ok (0, [planned text_demo; b']), server_demo) /\
    reservation_vstart (planned text_demo) + reservation_size (planned text_demo) = 0x402000 /\
    reservation_vstart b' = 0x403000 /\ reservation_size b' = 0x1000 /\
    (0x404000 = 0x402000 -> reservation_size b' = 2 ^ 64 - PAGE_SIZE_4K).
Proof.
  apply (shared_page_leaves_hole text_demo rodata_demo server_demo); [|by right].
  split; [by apply segment_ok_demo|]. split; [by apply segment_ok_demo|]. repeat split; by vm_compute.
Defined.

Lemma write_region_loads_witness :
  exists m' o', write_region (fun a => a mod 256) None (planned data_demo) None (Overflow 0 0) 0x10000000 = Some (m', o') /\
    overflow_bytes o' <= 0 /\ filled (fun a => a mod 256) m' (0x10000000 + 0x100) 0x9000000 0x2000 0x2000.
Proof.
  apply (write_region_loads (fun a => a mod 256) data_demo (planned data_demo) None None (Overflow 0 0) 0x10000000);
    [by apply segment_ok_demo|by apply planned_reserved, segment_ok_demo|..]; try (vm_compute; intuition congruence).
Defined.

Definition sys_stack (l : list xcall) (c : xcall) : Z * Z :=
  match c with
  | (StackWrite, space :: sp :: len :: _) => (0, u64 (sp - len))
  | (StackWriteConstant, space :: value :: sp :: _) => (0, u64 (sp - 8))
  | (StackCopyArgs, space :: sp :: args) => (0, u64 (sp - 2 * Z.of_nat (length args)))
  | _ => (1, 0)
  end.
Lemma stack_library_demo : stack_library sys_stack.
Proof. by split. Qed.

(** a PD with two program headers *)
Definition loaded_demo : pd_entry_t :=
  on_pd (fun p => set_elf_phdrs 12 (set_num_elf_phdrs 2 (set_elf_phdr_array
    [ElfPhdr 1 0 0x400000 0 0x1800 0x1800 5 4096; ElfPhdr 1 0x2000 0x403000 0 0x2000 0x2000 6 4096] p))) entry_demo.
Definition loaded_server : server :=
  set_pd_component (Rcc GPICAP_TYPE_PD 2 (Registry [Node 9 1 1 loaded_demo] 100 1 (Some CbPd) 0) 0 9) server_demo.

Lemma stack_runtime_aligned_witness :
  returns (ads_write_stack_runtime sys_stack (2 ^ 4) 64 65 66 9 3 0x60000 0x50000 [1; 2; 3]) loaded_server
    (fun r _ => fst r = 0 /\ snd r mod 2 ^ 4 = 0).
Proof.
  apply (stack_runtime_aligned sys_stack stack_library_demo 9 3 0x60000 0x50000 [1; 2; 3] loaded_server
    (pd loaded_demo) 4 64 65 66); [reflexivity|by vm_compute|lia].
Defined.
End ElfWitnesses.
