(* ===== verification/Cpu.v ===== *)
(** * CPUs

    Model of [libsel4gpi/src/cpu_obj.c], [cpu_component.c] and of reading the
    registers of a virtual CPU ([vcpu.c]).  A CPU object is a TCB with the memory
    object of its IPC buffer and the address space it is bound to, each counted
    as a reference.  The register context is known by its address only; what a
    request writes to registers is in the log of external calls.  cpu_dump_rr
    is in the file Dump. *)

From stdpp Require Import base numbers list gmap.
From S2P Require Import Prelude Badge Registry State Component PdResources Resspc Mo Ads.

Definition CPU_RPC_MAGIC : Z := 0x435055.
Definition seL4_CapInitThreadTCB : Z := 1.

Inductive CpuMessage :=
| CpuAlloc
| CpuStart
| CpuConfig (ipc_buf_addr fault_ep_cap cnode_guard prio : Z)
| CpuChangeVspace
| CpuTlsBase (tls_base_addr : Z)
| CpuElevatePrivilege
| CpuWriteRegisters (resume : bool) (reg_buf : list Z)
| CpuReadRegisters
| CpuSuspend
| CpuDisconnect
| CpuInjectIrq (virq prio group idx : Z)
| CpuAckVppi (irq : Z)
| CpuReadVcpu
| CpuResume
| CpuUnknown.

Inductive CpuReturnMessage :=
| CpuNoReturn
| CpuBasicReturn
| CpuAllocReturn (slot id : Z)
| CpuReadRegistersReturn (reg_buf_count : Z)
| CpuReadVcpuReturn (reg_buf : list Z).

Section Cpu.
Context `{UTHash} (sys : list xcall -> xcall -> Z * Z).
Context (run_cb : CB -> nat -> nat -> M server unit).
(** from the kernel's headers: the number of registers of a thread, and the
    indices of the virtual CPU's registers in the order of vcpu_regs_t *)
Context (SEL4_USER_CONTEXT_COUNT : Z) (vcpu_reg_indices : list Z).

Definition cpu_load (a : nat) : M server cpu_t := obj_load cpu_p a.
Definition cpu_store (a : nat) (f : cpu_t -> cpu_t) : M server unit := obj_store cpu_p a f.

(** ** cpu_obj.c *)

(** the result of the resume is ignored *)
Definition cpu_start (cpu : nat) : M server Z :=
  c ← cpu_load cpu; ext_ sys TcbResume [tcb c] ;; mret 0.
Definition cpu_stop (cpu : nat) : M server Z :=
  c ← cpu_load cpu; ext_err sys TcbSuspend [tcb c].
Definition cpu_resume (cpu : nat) : M server Z :=
  c ← cpu_load cpu; ext_err sys TcbResume [tcb c].

Definition cpu_config_vspace (cpu : nat) (vspace root_cnode cnode_guard fault_ep_
    ipc_buffer_frame ipc_buf_addr_ prio : Z) : M server Z :=
  vspace_root ← ext_val sys VspaceGetRoot [vspace];
  if vspace_root =? CapNull then mret DEFAULT_ERR else
  cpu_store cpu (fun c => set_ipc_frame_cap ipc_buffer_frame (set_ipc_buf_addr ipc_buf_addr_
    (set_fault_ep fault_ep_ (set_cspace_guard cnode_guard (set_cspace_root_cap root_cnode c))))) ;;
  c ← cpu_load cpu;
  try_ (ext_err sys TcbConfigure [tcb c; fault_ep_; root_cnode; cnode_guard; vspace_root; 0;
                                  ipc_buf_addr_; ipc_buffer_frame])
    (ext_err sys TcbSetPriority [tcb c; seL4_CapInitThreadTCB; prio]).

Definition cpu_change_vspace (cpu : nat) (vspace : Z) : M server Z :=
  vspace_root ← ext_val sys VspaceGetRoot [vspace];
  if vspace_root =? CapNull then mret DEFAULT_ERR else
  c ← cpu_load cpu;
  ext_err sys TcbConfigure [tcb c; fault_ep c; cspace_root_cap c; cspace_guard c; vspace_root; 0;
                            ipc_buf_addr c; ipc_frame_cap c].

Definition cpu_bind_notif (cpu : nat) (notif : Z) : M server Z :=
  c ← cpu_load cpu; ext_err sys TcbBindNotification [tcb c; notif].

Definition cpu_new (cpu : nat) : M server Z :=
  r ← ext sys VkaAllocTcb [server_vka];
  let '(error, t) := r : Z * Z in
  if negb (error =? 0) then mret error else
  cpu_store cpu (set_tcb t) ;;
  ctx ← calloc_handle sys;
  cpu_store cpu (set_reg_ctx ctx) ;;
  if ctx =? 0 then mret DEFAULT_ERR else
  cpu_store cpu (set_ipc_buf_mo 0) ;;
  mret 0.

Definition cpu_destroy (cpu : nat) : M server unit :=
  _ ← cpu_stop cpu;
  c ← cpu_load cpu;
  ext_ sys VkaFreeObject [tcb c] ;;
  when (negb (ipc_buf_mo c =? 0))
    (_ ← resource_component_dec run_cb mo_p (ipc_buf_mo c);
     cpu_store cpu (set_ipc_buf_mo 0)) ;;
  c ← cpu_load cpu;
  when (negb (binded_ads_id c =? 0))
    (_ ← resource_component_dec run_cb ads_p (binded_ads_id c);
     cpu_store cpu (set_binded_ads_id 0)) ;;
  c ← cpu_load cpu;
  when (negb (vcpu c =? CapNull)) (ext_ sys VkaFreeObject [vcpu c]) ;;
  ext_ sys Free [reg_ctx c].

Definition cpu_set_tls_base (cpu : nat) (tls_base_ : Z) (write_reg : bool) : M server Z :=
  cpu_store cpu (set_tls_base tls_base_) ;;
  c ← cpu_load cpu;
  try_ (ext_err sys InitContextTls [reg_ctx c; tls_base_])
    (if write_reg then ext_err sys TcbSetTLSBase [tcb c; tls_base_] else mret 0).

Definition cpu_set_pd_entry_regs (cpu : nat) (entry_point init_stack arg1 : Z) : M server Z :=
  c ← cpu_load cpu;
  try_ (ext_err sys InitContext [entry_point; init_stack; reg_ctx c])
  (ext_ sys SetArg1 [reg_ctx c; arg1] ;;
   ext_err sys TcbWriteRegisters [tcb c; 0; 0; SEL4_USER_CONTEXT_COUNT; reg_ctx c]).

Definition cpu_set_guest_entry_regs (cpu : nat) (kernel_entry arg0 : Z) : M server Z :=
  c ← cpu_load cpu;
  try_ (ext_err sys InitContextGuest [kernel_entry; arg0; reg_ctx c])
    (ext_err sys TcbWriteRegisters [tcb c; 0; 0; SEL4_USER_CONTEXT_COUNT; reg_ctx c]).

(** a second call replaces the handle of the first virtual CPU *)
Definition cpu_elevate (cpu : nat) : M server Z :=
  r ← ext sys VkaAllocVcpu [server_vka];
  let '(error, v) := r : Z * Z in
  if negb (error =? 0) then mret error else
  cpu_store cpu (set_vcpu v) ;;
  c ← cpu_load cpu;
  ext_err sys VcpuSetTCB [vcpu c; tcb c].

Definition cpu_read_registers (cpu : nat) : M server Z :=
  c ← cpu_load cpu; ext_err sys TcbReadRegisters [tcb c; 0; 0; SEL4_USER_CONTEXT_COUNT].

Definition cpu_write_registers (cpu : nat) (regs : list Z) (resume : bool) : M server Z :=
  let num_reg := Z.of_nat (length regs) in
  if SEL4_USER_CONTEXT_COUNT <? num_reg then mret 1 else
  c ← cpu_load cpu;
  ext_err sys TcbWriteRegisters ([tcb c; Z.b2z resume; 0; num_reg] ++ regs).

Definition cpu_inject_irq (cpu : nat) (virq prio group idx : Z) : M server Z :=
  c ← cpu_load cpu; ext_err sys VcpuInjectIRQ [vcpu c; virq; prio; group; idx].
Definition cpu_ack_vppi (cpu : nat) (irq : Z) : M server Z :=
  c ← cpu_load cpu; ext_err sys VcpuAckVPPI [vcpu c; irq].

(** vcpu.c: -1 for a register that could not be read *)
Definition vcpu_read_reg (vcpu reg : Z) : M server Z :=
  r ← ext sys VcpuReadRegs [vcpu; reg];
  mret (if fst r =? 0 then snd r else u64 (-1)).

Fixpoint vcpu_read_regs (vcpu : Z) (indices : list Z) : M server (list Z) :=
  match indices with
  | [] => mret []
  | reg :: indices =>
      v ← vcpu_read_reg vcpu reg; vs ← vcpu_read_regs vcpu indices; mret (v :: vs)
  end.

(** into a zeroed buffer *)
Definition cpu_read_vcpu_regs (cpu : nat) : M server (list Z) :=
  c ← cpu_load cpu;
  if negb (vcpu c =? CapNull) then vcpu_read_regs (vcpu c) vcpu_reg_indices
  else mret (repeat 0 (length vcpu_reg_indices)).

(** ** cpu_component.c *)
Definition on_cpu_registry_delete (node arg : nat) : M server unit :=
  c ← cpu_load node;
  resource_component_remove_from_rt run_cb cpu_component (cpu_id c) ;;
  cpu_destroy node.

(** the error code, [*ret_cpu] and [*ret_cap] *)
Definition cpu_component_allocate (client_id : Z) (want_cap : bool) : M server (Z * option nat * Z) :=
  r ← resource_component_allocate sys cpu_component cpu_p cpu_zero set_cpu_id cpu_new client_id
        BADGE_OBJ_ID_NULL false want_cap;
  let '(error, new_entry, cap) := r : Z * option nat * Z in
  mret (error, if error =? 0 then new_entry else None, cap).

Definition cpu_get_by_badge (badge : Z) : M server (option nat) :=
  resource_component_registry_get_by_badge cpu_p badge.

(** frame_caps_in_root_task[0] *)
Definition first_frame (mo : nat) : M server Z :=
  m ← mo_load mo;
  caps ← deref (frame_caps_in_root_task m);
  match caps with cap :: _ => mret cap | [] => crash OutOfBounds end.

(** the error of cpu_config_vspace is overwritten by the binding of the notification *)
Definition cpu_component_configure (cpu ads pd : nat) (cnode_guard fault_ep : Z)
    (ipc_buf_mo_ : option nat) (ipc_buf_addr prio : Z) : M server Z :=
  p ← pd_load pd;
  let cspace_root := cspace p in
  ipc_buf_frame ← match ipc_buf_mo_ with None => mret CapNull | Some mo => first_frame mo end;
  c ← cpu_load cpu;
  try_ (if negb (ipc_buf_mo c =? 0) then
          try_ (resource_component_dec run_cb mo_p (ipc_buf_mo c))
            (cpu_store cpu (set_ipc_buf_mo 0) ;; mret 0)
        else mret 0)
  (try_ (match ipc_buf_mo_ with
         | None => mret 0
         | Some mo =>
             m ← mo_load mo;
             try_ (resource_component_inc mo_p (mo_id m))
               (cpu_store cpu (set_ipc_buf_mo (mo_id m)) ;; mret 0)
         end)
  (c ← cpu_load cpu;
   try_ (if negb (binded_ads_id c =? 0) then
           try_ (resource_component_dec run_cb ads_p (binded_ads_id c))
             (cpu_store cpu (set_binded_ads_id 0) ;; mret 0)
         else mret 0)
  (a ← ads_load ads;
   _ ← resource_component_inc ads_p (ads_id a);
   a ← ads_load ads;
   _ ← cpu_config_vspace cpu (vspace a) cspace_root cnode_guard fault_ep ipc_buf_frame
         ipc_buf_addr prio;
   p ← pd_load pd;
   try_ (cpu_bind_notif cpu (notification p))
     (cpu_store cpu (set_binded_ads_id (ads_id a)) ;; mret 0)))).

Definition cpu_component_stop (cpu_id : Z) : M server Z :=
  cpu_data ← resource_component_registry_get_by_id cpu_p cpu_id;
  match cpu_data with None => mret DEFAULT_ERR | Some cpu => cpu_stop cpu end.

(** ** Requests *)
Definition basic_cpu (error : Z) : handled CpuReturnMessage := replied error CpuBasicReturn.

(** find the CPU of the badge, run the operation, reply with its error *)
Definition with_cpu (sender_badge : Z) (op : nat -> M server Z) : M server (handled CpuReturnMessage) :=
  cpu_data ← cpu_get_by_badge sender_badge;
  match cpu_data with
  | None => mret (basic_cpu DEFAULT_ERR)
  | Some cpu => error ← op cpu; mret (basic_cpu error)
  end.

Definition handle_cpu_allocation (sender_badge : Z) : M server (handled CpuReturnMessage) :=
  r ← cpu_component_allocate (get_client_id_from_badge sender_badge) true;
  let '(error, cpu, ret_cap) := r : Z * option nat * Z in
  if negb (error =? 0) then mret (replied error (CpuAllocReturn 0 0)) else
  cpu ← deref cpu;
  c ← cpu_load cpu;
  mret (replied 0 (CpuAllocReturn ret_cap (cpu_id c))).

Definition handle_start_req (sender_badge : Z) := with_cpu sender_badge cpu_start.

Definition handle_config_req (m : ipc) (sender_badge ipc_buf_addr fault_ep_cap cnode_guard prio : Z)
  : M server (handled CpuReturnMessage) :=
  if negb (sel4gpi_rpc_check_caps_2 m GPICAP_TYPE_PD GPICAP_TYPE_ADS)
  then mret (basic_cpu DEFAULT_ERR) else
  cpu_data ← cpu_get_by_badge sender_badge;
  match cpu_data with None => mret (basic_cpu DEFAULT_ERR) | Some cpu =>
  pd_data ← pd_component_registry_get_entry_by_badge (GetBadge m 0);
  match pd_data with None => mret (basic_cpu DEFAULT_ERR) | Some pd =>
  ads_data ← ads_get_by_badge (GetBadge m 1);
  match ads_data with None => mret (basic_cpu DEFAULT_ERR) | Some ads =>
  ipc_mo_data ← resource_component_registry_get_by_badge mo_p (GetBadge m 2);
  error ← cpu_component_configure cpu ads pd cnode_guard fault_ep_cap ipc_mo_data ipc_buf_addr prio;
  mret (basic_cpu error)
  end end end.

(** the references moved are those of the caller's ads_conn, not those of the
    address space the CPU was bound to *)
Definition handle_change_vspace_req (m : ipc) (sender_badge : Z) : M server (handled CpuReturnMessage) :=
  if negb (sel4gpi_rpc_check_cap m GPICAP_TYPE_ADS) then mret (basic_cpu DEFAULT_ERR) else
  client_data ← cpu_get_by_badge sender_badge;
  match client_data with None => mret (basic_cpu DEFAULT_ERR) | Some cpu =>
  pd_data ← pd_component_registry_get_entry_by_id (get_client_id_from_badge sender_badge);
  match pd_data with None => mret (basic_cpu DEFAULT_ERR) | Some pd =>
  ads_data ← ads_get_by_badge (GetBadge m 0);
  match ads_data with None => mret (basic_cpu DEFAULT_ERR) | Some ads =>
  a ← ads_load ads;
  error ← cpu_change_vspace cpu (vspace a);
  if negb (error =? 0) then mret (basic_cpu error) else
  sh ← shared_load pd;
  let old_ads_id := conn_id (ads_conn sh) in
  _ ← resource_component_dec run_cb ads_p old_ads_id;
  a ← ads_load ads;
  _ ← resource_component_inc ads_p (ads_id a);
  shared_store pd (fun sh => set_ads_conn (Conn (ads_id a) (conn_ep (ads_conn sh))) sh) ;;
  cpu_store cpu (set_binded_ads_id (ads_id a)) ;;
  mret (basic_cpu 0)
  end end end.

Definition handle_set_tls_req (sender_badge tls_base_addr : Z) :=
  with_cpu sender_badge (fun cpu => cpu_set_tls_base cpu tls_base_addr false).
Definition handle_elevate_req (sender_badge : Z) := with_cpu sender_badge cpu_elevate.
Definition handle_write_reg_req (sender_badge : Z) (resume : bool) (reg_buf : list Z) :=
  with_cpu sender_badge (fun cpu => cpu_write_registers cpu reg_buf resume).
Definition handle_resume_req (sender_badge : Z) := with_cpu sender_badge cpu_resume.

(** nothing is done, and 0 returned, for a CPU without a virtual CPU *)
Definition handle_inject_irq_req (sender_badge virq prio group idx : Z) :=
  with_cpu sender_badge (fun cpu =>
    c ← cpu_load cpu;
    if negb (vcpu c =? CapNull) then cpu_inject_irq cpu virq prio group idx else mret 0).
Definition handle_ack_vppi_req (sender_badge irq : Z) :=
  with_cpu sender_badge (fun cpu =>
    c ← cpu_load cpu;
    if negb (vcpu c =? CapNull) then cpu_ack_vppi cpu irq else mret 0).

Definition handle_read_registers_req (sender_badge : Z) : M server (handled CpuReturnMessage) :=
  cpu_data ← cpu_get_by_badge sender_badge;
  match cpu_data with
  | None => mret (replied DEFAULT_ERR (CpuReadRegistersReturn 0))
  | Some cpu =>
      error ← cpu_read_registers cpu;
      mret (replied error
        (CpuReadRegistersReturn (if error =? 0 then SEL4_USER_CONTEXT_COUNT else 0)))
  end.

Definition handle_read_vcpu_req (sender_badge : Z) : M server (handled CpuReturnMessage) :=
  cpu_data ← cpu_get_by_badge sender_badge;
  match cpu_data with
  | None => mret (replied DEFAULT_ERR (CpuReadVcpuReturn []))
  | Some cpu => regs ← cpu_read_vcpu_regs cpu; mret (replied 0 (CpuReadVcpuReturn regs))
  end.

(** the CPU's identifier is compared with the client's, a PD *)
Definition handle_suspend_req (sender_badge : Z) : M server (handled CpuReturnMessage) :=
  cpu_data ← cpu_get_by_badge sender_badge;
  match cpu_data with
  | None => mret (basic_cpu DEFAULT_ERR)
  | Some cpu =>
      error ← cpu_component_stop (get_object_id_from_badge sender_badge);
      c ← cpu_load cpu;
      if cpu_id c =? get_client_id_from_badge sender_badge
      then mret (Handled 0 CpuNoReturn false false)
      else mret (basic_cpu error)
  end.

Definition handle_disconnect_req (sender_badge : Z) : M server (handled CpuReturnMessage) :=
  let cpu_id := get_object_id_from_badge sender_badge in
  pd_data ← pd_component_registry_get_entry_by_id (get_client_id_from_badge sender_badge);
  match pd_data with
  | None => mret (basic_cpu DEFAULT_ERR)
  | Some pd =>
      s ← get_state;
      error ← pd_remove_resource run_cb pd
                (make_res_id GPICAP_TYPE_CPU (space_id (cpu_component s)) cpu_id);
      mret (basic_cpu error)
  end.

Definition cpu_component_handle (m : ipc) (magic : Z) (msg : CpuMessage) (sender_badge : Z)
  : M server (handled CpuReturnMessage) :=
  let invalid := replied DEFAULT_ERR CpuNoReturn in
  if negb (magic =? CPU_RPC_MAGIC) then mret invalid
  else if get_object_id_from_badge sender_badge =? BADGE_OBJ_ID_NULL then
    match msg with
    | CpuAlloc => handle_cpu_allocation sender_badge
    | _ => mret invalid
    end
  else
    match msg with
    | CpuStart => handle_start_req sender_badge
    | CpuConfig ipc_buf_addr fault_ep_cap cnode_guard prio =>
        handle_config_req m sender_badge ipc_buf_addr fault_ep_cap cnode_guard prio
    | CpuChangeVspace =>
        h ← handle_change_vspace_req m sender_badge;
        mret (used_recv_cap true h)
    | CpuTlsBase tls_base_addr => handle_set_tls_req sender_badge tls_base_addr
    | CpuElevatePrivilege => handle_elevate_req sender_badge
    | CpuWriteRegisters resume reg_buf => handle_write_reg_req sender_badge resume reg_buf
    | CpuReadRegisters => handle_read_registers_req sender_badge
    | CpuSuspend => handle_suspend_req sender_badge
    | CpuDisconnect => handle_disconnect_req sender_badge
    | CpuInjectIrq virq prio group idx => handle_inject_irq_req sender_badge virq prio group idx
    | CpuAckVppi irq => handle_ack_vppi_req sender_badge irq
    | CpuReadVcpu => handle_read_vcpu_req sender_badge
    | CpuResume => handle_resume_req sender_badge
    | CpuAlloc | CpuUnknown => mret invalid
    end.

Definition cpu_component_initialize : M server unit :=
  space ← default_space sys GPICAP_TYPE_CPU;
  s ← get_state;
  resource_component_initialize cpu_component set_cpu_component GPICAP_TYPE_CPU space
    (server_ep_obj s) CbCpu.
End Cpu.
