(* ===== verification/PdObj.v ===== *)
(** * Protection domains

    Model of the life of a PD, [libsel4gpi/src/pd_obj.c] (what a PD holds is in
    PdResources), with the interrupt handlers of [gpi_server.c]: the callbacks of
    its two registries, its creation with a new cspace and allocator, its
    destruction with the two sweeps that follow, sending capabilities to it, its
    core capabilities and the interrupt it may be bound to.

    [pd->shared_data] is the address at which the shared data of a PD is attached
    in the root task; its contents are the field [shared].  pd_dump is in
    the file Dump; printing is left out. *)

From stdpp Require Import base numbers list gmap.
From S2P Require Import Prelude Badge Registry State ResourceTypes Component PdResources Resspc Mo Ads Cpu.

Definition PD_CSPACE_SIZE_BITS : Z := 17.
Definition PD_TERMINATED_CODE : Z := 127.
Definition seL4_FailedLookup : Z := 6.
Definition seL4_WordBits : Z := 64.

Section PdObj.
Context `{UTHash} (sys : list xcall -> xcall -> Z * Z).
Context (run_cb : CB -> nat -> nat -> M server unit).
Context (T : reservation_types).
(** from the libraries: the slot of the root cnode in a new cspace, and the guard
    word of a cnode *)
Context (PD_CAP_ROOT : Z) (api_make_guard_skip_word : Z -> Z).

(** ** gpi_server.c: interrupt handlers *)

(** the entries of gen_irqs are pairs of a number and a handler *)
Definition find_irq_handler (irqs : list (Z * Z)) (irq : Z) : Z :=
  match List.find (fun e => fst e =? irq) irqs with
  | Some e => snd e
  | None => CapNull
  end.

Definition gpi_get_irq_handler (irq : Z) : M server Z :=
  s ← get_state;
  let handler_slot := find_irq_handler (gen_irqs s) irq in
  if handler_slot =? CapNull then
    r ← ext sys CopyIrqCap [server_vka; irq];
    let '(error, handler) := r : Z * Z in
    if negb (error =? 0) then mret CapNull
    else
      modify (fun s => set_gen_irqs (gen_irqs s ++ [(irq, handler)]) s) ;;
      mret handler
  else mret handler_slot.

(** ** Held resources and linked PDs are deleted *)

(** the space of a resource without a slot is looked up for a warning, and used
    without a test; the error of the revocation is overwritten *)
Definition pd_revoke_cap (pd hold_node : nat) : M server Z :=
  n ← obj_load (hold_p pd) hold_node;
  let cap := slot_in_PD_Debug n in
  p ← pd_load pd;
  if cap =? CapNull then
    s ← get_state;
    if negb (pd_id p =? rt_pd_id s) then
      space_entry ← resource_space_get_entry_by_id (rid_space (hold_res_id n));
      space_entry ← deref space_entry;
      _ ← space_load space_entry;
      mret 0
    else mret 0
  else
    _ ← ext_err sys VkaCnodeRevoke [pd_vka p; cap];
    ext_err sys VkaCnodeDelete [pd_vka p; cap].

(** the manager of a resource that is not of the core is told that it was freed *)
Definition pd_notify_free (pd : nat) (res_id : gpi_res_id_t) : M server unit :=
  p ← pd_load pd;
  if negb (to_delete p) then mret tt else
  space_data ← resource_space_get_entry_by_id (rid_space res_id);
  match space_data with
  | None => mret tt
  | Some space_data =>
      sp ← space_load space_data;
      if spc_to_delete sp || (spc_pd_id sp =? pd_id p) then mret tt else
      manager_pd_data ← pd_component_registry_get_entry_by_id (spc_pd_id sp);
      work_entry ← calloc sys;
      match work_entry with
      | None => mret tt
      | Some _ =>
          manager ← deref manager_pd_data;
          pd_component_queue_free_work sys manager (WorkEntry res_id 0 false)
      end
  end.

(** the callback of the registry of held resources; [pd_v] is the PD *)
Definition pd_held_resource_on_delete (node pd_v : nat) : M server unit :=
  n ← obj_load (hold_p pd_v) node;
  let res_id := hold_res_id n in
  p ← pd_load pd_v;
  s ← get_state;
  if pd_id p =? rt_pd_id s then mret tt else
  error ← (if negb (to_delete p) then pd_revoke_cap pd_v node else mret 0);
  if negb (error =? 0) then mret tt else
  if rid_type res_id =? GPICAP_TYPE_ADS then
    _ ← resource_component_dec run_cb ads_p (rid_object res_id); mret tt
  else if rid_type res_id =? GPICAP_TYPE_CPU then
    _ ← resource_component_dec run_cb cpu_p (rid_object res_id); mret tt
  else if rid_type res_id =? GPICAP_TYPE_MO then
    _ ← resource_component_dec run_cb mo_p (rid_object res_id); mret tt
  else if rid_type res_id =? GPICAP_TYPE_PD then mret tt
  else if rid_type res_id =? GPICAP_TYPE_VMR then
    _ ← ads_component_rm_by_id run_cb (rid_space res_id) (rid_object res_id); mret tt
  else if rid_type res_id =? GPICAP_TYPE_RESSPC then
    p ← pd_load pd_v;
    _ ← resspc_component_mark_delete (rid_object res_id) (deletion_depth p =? 0); mret tt
  else if rid_type res_id =? GPICAP_TYPE_EP then
    _ ← resource_component_dec run_cb ep_p (rid_object res_id); mret tt
  else pd_notify_free pd_v res_id.

(** the callback of the registry of linked PDs *)
Definition pd_linkage_on_delete (node pd_v : nat) : M server unit :=
  linked_pd ← obj_load (linked_p pd_v) node;
  pd_data ← pd_component_registry_get_entry_by_id (linked_pd_id linked_pd);
  match pd_data with
  | None => mret tt
  | Some pd =>
      pd_store pd (set_to_delete true) ;;
      pd_mark_linked_for_deletion run_cb pd
  end.

Definition pd_initialize_registries (pd : nat) : M server unit :=
  pd_store pd (set_hold_registry (resource_registry_initialize (Some CbHeld) pd (BADGE_MAX - 1))) ;;
  pd_store pd (set_linked_registry (resource_registry_initialize (Some CbLink) pd (BADGE_MAX - 1))).

(** ** Creation *)
Definition pd_bootstrap_allocator (pd : nat) (root start_slot end_slot size_bits guard_bits : Z)
  : M server Z :=
  a ← calloc_handle sys;
  pd_store pd (set_allocman_cspace a) ;;
  if a =? 0 then mret DEFAULT_ERR else
  allocator ← ext_val sys BootstrapAllocman [];
  error ← ext_err sys CspaceCreate [allocator; a; root; size_bits; guard_bits; start_slot; end_slot];
  if negb (error =? 0) then mret (-1) else
  error ← ext_err sys AttachCspace [allocator; a];
  if negb (error =? 0) then mret (-1) else
  v ← calloc_handle sys;
  pd_store pd (set_pd_vka v) ;;
  if v =? 0 then mret DEFAULT_ERR else
  ext_ sys MakeVka [v; allocator] ;;
  mret 0.

(** err_goto *)
Definition pd_setup_cspace_failed (pd : nat) : M server Z :=
  p ← pd_load pd;
  when (negb (cspace p =? 0)) (ext_ sys VkaFreeObject [cspace p]) ;;
  mret 1.

Definition pd_setup_cspace (pd : nat) : M server Z :=
  pd_store pd (set_cspace_size PD_CSPACE_SIZE_BITS) ;;
  let guard := api_make_guard_skip_word (seL4_WordBits - PD_CSPACE_SIZE_BITS) in
  pd_store pd (set_cnode_guard guard) ;;
  r ← ext sys VkaAllocCnode [server_vka; PD_CSPACE_SIZE_BITS];
  let '(error, cnode) := r : Z * Z in
  if negb (error =? 0) then pd_setup_cspace_failed pd else
  pd_store pd (set_cspace cnode) ;;
  shared_store pd (set_sd_cspace_root PD_CAP_ROOT) ;;
  let cspace_next_free := 1 in
  error ← ext_err sys VkaCnodeMint [cnode; cspace_next_free; server_vka; cnode; guard];
  if negb (error =? 0) then pd_setup_cspace_failed pd else
  error ← pd_bootstrap_allocator pd cnode (cspace_next_free + 1) (2 ^ PD_CSPACE_SIZE_BITS)
            PD_CSPACE_SIZE_BITS 0;
  if negb (error =? 0) then pd_setup_cspace_failed pd else mret 0.

(** the shared data is cleared by pd_new *)
Definition clear_shared (pd_id : Z) (sh : osm_pd_shared_data_t) : osm_pd_shared_data_t :=
  set_pd_conn (Conn pd_id (conn_ep (pd_conn sh))) (set_rde rde_zeroes (set_rde_count 0 sh)).

Definition pd_new (osm_data_mo : option nat) (pd : nat) : M server Z :=
  match osm_data_mo with
  | None => mret DEFAULT_ERR
  | Some mo =>
      m ← mo_load mo;
      pd_store pd (set_shared_data_mo_id (mo_id m)) ;;
      r ← ads_component_attach_to_rt sys run_cb T (mo_id m);
      let '(error, vaddr) := r : Z * option Z in
      match vaddr with Some v => pd_store pd (set_shared_data v) | None => mret tt end ;;
      if negb (error =? 0) then mret error else
      pd_initialize_registries pd ;;
      p ← pd_load pd;
      shared_store pd (clear_shared (pd_id p)) ;;
      error ← pd_setup_cspace pd;
      if negb (error =? 0) then mret error else
      pd_set_name pd [80; 68] ;;
      r ← ext sys VkaAllocNotification [server_vka];
      let '(error, ntfn) := r : Z * Z in
      if negb (error =? 0) then mret error else
      pd_store pd (set_notification ntfn) ;;
      r ← ext sys VkaCspaceAlloc [server_vka];
      let '(error, dest) := r : Z * Z in
      if negb (error =? 0) then mret error else
      error ← ext_err sys VkaCnodeMint [server_vka; dest; server_vka; ntfn; NOTIF_BADGE];
      if negb (error =? 0) then mret error else
      pd_store pd (set_badged_notification dest) ;;
      mret 0
  end.

(** ** Destruction *)

(** destroy the PDs that were marked, each as the root of its own deletion tree *)
Definition pd_component_sweep : M server unit :=
  hash_iter pd_p (fun current =>
    p ← pd_load current;
    if to_delete p && negb (deleting p) then
      s ← get_state;
      assert_ (negb (test_proc_id s =? pd_id p)) ;;
      pd_store current (fun p => set_deletion_depth 0 (set_exit_code PD_TERMINATED_CODE p)) ;;
      resource_registry_delete run_cb pd_p current
    else mret tt).

(** answer the client that waits on the PD; an error other than a failed lookup
    ends the destruction *)
Definition pd_reply_to_client (pd : nat) : M server Z :=
  sh ← shared_load pd;
  if reply_cap sh =? CapNull then mret 0 else
  p ← pd_load pd;
  slot ← ext_val sys VkaCspaceAlloc [server_vka];
  error ← ext_err sys VkaCnodeMove [server_vka; slot; pd_vka p; reply_cap sh];
  if error =? seL4_FailedLookup then mret 0
  else if negb (error =? 0) then mret error
  else ext_ sys Send [slot] ;; mret 0.

(** the objects of the PD, from its cnode to its name *)
Definition pd_free_objects (pd : nat) : M server unit :=
  p ← pd_load pd;
  ext_ sys VkaCnodeRevoke [server_vka; cspace p] ;;
  ext_ sys VkaFreeObject [cspace p] ;;
  ext_ sys VkaCnodeRevoke [server_vka; notification p] ;;
  ext_ sys VkaFreeObject [notification p] ;;
  ext_ sys VkaCspaceFree [server_vka; badged_notification p] ;;
  when (negb (bound_irq p =? 0))
    (irq_handler ← gpi_get_irq_handler (bound_irq p);
     ext_ sys IrqHandlerClear [irq_handler] ;;
     ext_ sys VkaCspaceFree [server_vka; badged_irq_ntfn p]) ;;
  when (negb (elf_phdrs p =? 0)) (ext_ sys Free [elf_phdrs p]) ;;
  ext_ sys Free [].

Definition pd_destroy (pd : nat) : M server unit :=
  p ← pd_load pd;
  let pd_id_ := pd_id p in
  pd_store pd (set_to_delete true) ;;
  pd_store pd (set_deleting true) ;;
  sh ← shared_load pd;
  error ← (if negb (conn_id (cpu_conn sh) =? 0) then cpu_component_stop sys (conn_id (cpu_conn sh))
           else mret 0);
  if negb (error =? 0) then mret tt else
  error ← pd_reply_to_client pd;
  if negb (error =? 0) then mret tt else
  sh ← shared_load pd;
  when (negb (conn_id (cpu_conn sh) =? 0))
    (_ ← resource_component_dec run_cb cpu_p (conn_id (cpu_conn sh)); mret tt) ;;
  sh ← shared_load pd;
  when (negb (conn_id (ads_conn sh) =? 0))
    (_ ← resource_component_dec run_cb ads_p (conn_id (ads_conn sh)); mret tt) ;;
  pd_free_objects pd ;;
  hash_iter (hold_p pd) (fun current => resource_registry_delete run_cb (hold_p pd) current) ;;
  pd_mark_linked_for_deletion run_cb pd ;;
  p ← pd_load pd;
  error ← ads_component_remove_from_rt run_cb (shared_data p);
  if negb (error =? 0) then mret tt else
  ext_ sys Free [pd_vka p] ;;
  ext_ sys Free [allocman_cspace p] ;;
  resspc_component_sweep run_cb ;;
  pd_component_sweep ;;
  s ← get_state;
  _ ← pd_component_resource_cleanup run_cb
        (make_res_id GPICAP_TYPE_PD (space_id (pd_component s)) pd_id_);
  mret tt.

(** ** Core capabilities *)
Definition pd_set_core_cap (pd : nat) (core_cap_badge core_cap : Z) : M server Z :=
  let cap_type := get_cap_type_from_badge core_cap_badge in
  let cap_id := get_object_id_from_badge core_cap_badge in
  if cap_type =? GPICAP_TYPE_ADS then
    sh ← shared_load pd;
    let old_cap_id := conn_id (ads_conn sh) in
    shared_store pd (set_ads_conn (Conn cap_id core_cap)) ;;
    when (0 <? old_cap_id) (_ ← resource_component_dec run_cb ads_p old_cap_id; mret tt) ;;
    mret 0
  else if cap_type =? GPICAP_TYPE_PD then
    shared_store pd (set_pd_conn (Conn cap_id core_cap)) ;;
    mret 0
  else if cap_type =? GPICAP_TYPE_CPU then
    sh ← shared_load pd;
    let old_cap_id := conn_id (cpu_conn sh) in
    shared_store pd (set_cpu_conn (Conn cap_id core_cap)) ;;
    when (0 <? old_cap_id) (_ ← resource_component_dec run_cb cpu_p old_cap_id; mret tt) ;;
    mret 0
  else if cap_type =? GPICAP_TYPE_EP then
    sh ← shared_load pd;
    if negb (conn_ep (fault_ep_conn sh) =? CapNull) then mret DEFAULT_ERR
    else
      shared_store pd (fun sh => set_fault_ep_conn (Conn (conn_id (fault_ep_conn sh)) core_cap) sh) ;;
      mret 0
  else mret DEFAULT_ERR.

(** ** Sending capabilities *)

(** what the switch on the type of the capability decides: mint from an endpoint,
    copy the capability, or return at once with an error *)
Inductive send_kind :=
| SendMint (src_cap : Z)
| SendCopy
| SendFail (error : Z).

Definition inc_if {A} (p : regptr server A CB) (inc_refcount : bool) (id : Z) : M server unit :=
  when inc_refcount (_ ← resource_component_inc p id; mret tt).

(** a resource of another server: that server is told; the boolean is [*pending_work] *)
Definition pd_send_managed (to_pd from_pd : nat) (from_slot : Z) : M server (send_kind * bool) :=
  current_cap ← pd_find_hold_node_by_cptr from_pd from_slot;
  match current_cap with
  | None => mret (SendCopy, false)
  | Some current_cap =>
      s ← get_state;
      if pending_send_resource s then mret (SendFail PdComponentError_OPERATION_IN_PROGRESS, false) else
      n ← obj_load (hold_p from_pd) current_cap;
      space_entry ← resource_space_get_entry_by_id (rid_space (hold_res_id n));
      match space_entry with None => mret (SendFail DEFAULT_ERR, false) | Some space_entry =>
      sp ← space_load space_entry;
      server_data ← pd_component_registry_get_entry_by_id (spc_pd_id sp);
      match server_data with None => mret (SendFail DEFAULT_ERR, false) | Some server_data =>
      work_entry ← calloc sys;
      match work_entry with None => mret (SendFail DEFAULT_ERR, false) | Some _ =>
      p ← pd_load to_pd;
      pd_component_queue_notify_send_work sys server_data
        (WorkEntry (hold_res_id n) (pd_id p) false) ;;
      mret (SendMint (spc_server_ep sp), true)
      end end end
  end.

(** [from_pd] may be NULL; the results are the error code, [*slot] if it was
    written, and whether [*pending_work] was set.  [slot] is not a NULL pointer,
    so the first test of the source never fails. *)
Definition pd_send_cap (to_pd : nat) (from_pd : option nat) (from_slot cap badge : Z)
    (inc_refcount update_core_cap : bool) : M server (Z * option Z * bool) :=
  let cap_type := get_cap_type_from_badge badge in
  let id := get_object_id_from_badge badge in
  s ← get_state;
  r ← (if cap_type =? GPICAP_TYPE_ADS then
         inc_if ads_p inc_refcount id ;; mret (SendMint (server_ep (ads_component s)), false)
       else if cap_type =? GPICAP_TYPE_MO then
         inc_if mo_p inc_refcount id ;; mret (SendMint (server_ep (mo_component s)), false)
       else if cap_type =? GPICAP_TYPE_CPU then
         inc_if cpu_p inc_refcount id ;; mret (SendMint (server_ep (cpu_component s)), false)
       else if cap_type =? GPICAP_TYPE_PD then
         inc_if pd_p inc_refcount id ;; mret (SendMint (server_ep (pd_component s)), false)
       else if cap_type =? GPICAP_TYPE_EP then
         inc_if ep_p inc_refcount id ;; mret (SendMint (server_ep (ep_component s)), false)
       else from_pd ← deref from_pd; pd_send_managed to_pd from_pd from_slot);
  let '(kind, pending_work) := r : send_kind * bool in
  match kind with
  | SendFail error => mret (error, None, pending_work)
  | SendMint src_cap =>
      r ← pd_badge_and_add_resource sys to_pd
            (make_res_id cap_type (get_space_id_from_badge badge) id) src_cap;
      let '(error, new_cap) := r : Z * Z in
      if new_cap =? CapNull then mret (DEFAULT_ERR, None, pending_work) else
      error ← (if update_core_cap then pd_set_core_cap to_pd badge new_cap else mret error);
      mret (error, Some new_cap, pending_work)
  | SendCopy =>
      p ← pd_load to_pd;
      r ← resource_component_transfer_cap sys server_vka (pd_vka p) cap false 0;
      let '(error, dest) := r : Z * option Z in
      if negb (error =? 0) then mret (error, None, pending_work)
      else mret (0, Some (default 0 dest), pending_work)
  end.

(** ** Interrupts: the error code and [*irq_handler] *)
Definition pd_irq_handler_bind (pd : nat) (irq badge : Z) : M server (Z * Z) :=
  if badge =? 0 then mret (DEFAULT_ERR, 0) else
  p ← pd_load pd;
  if negb (badged_irq_ntfn p =? CapNull) then mret (DEFAULT_ERR, 0) else
  handler_slot ← gpi_get_irq_handler irq;
  p ← pd_load pd;
  r ← ext sys VkaCspaceAlloc [server_vka];
  let '(error, slot) := r : Z * Z in
  if negb (error =? 0) then mret (error, 0) else
  let failed error := (when (negb (slot =? 0)) (ext_ sys VkaCspaceFree [server_vka; slot]) ;;
                       mret (error, 0)) : M server (Z * Z) in
  error ← ext_err sys VkaCnodeMint [server_vka; slot; server_vka; notification p; badge];
  if negb (error =? 0) then failed error else
  error ← ext_err sys IrqHandlerSetNotification [handler_slot; slot];
  if negb (error =? 0) then failed error else
  pd_store pd (set_badged_irq_ntfn slot) ;;
  pd_store pd (set_bound_irq irq) ;;
  mret (0, handler_slot).
End PdObj.
