(* ===== verification/Dump.v ===== *)
(** * Extraction of the model

    Model of ads_dump_rr (ads_obj.c), mo_dump_rr (mo_obj.c), cpu_dump_rr
    (cpu_obj.c), resspc_dump_rr (resource_space_component.c), and res_dump,
    pd_dump_internal and pd_dump of [libsel4gpi/src/pd_obj.c]: walking over what
    the PDs hold, and building the graph of the file ModelExport in the server.

    A PD is dumped when it is met among the held resources of another, so that the
    walk recurses; a PD that has a node is not entered again, and the fuel of
    [pd_dump] is the number of PDs.  The size of a block from calloc is not
    modelled. *)

From stdpp Require Import base numbers list gmap strings.
From S2P Require Import Prelude Strings Badge Registry State ResourceTypes ModelExport Component PdResources Resspc Mo Ads Cpu.

(** what the extraction takes from the build, the libraries, and from the memory
    that resource servers share with the root task *)
Record extraction_env := ExtractionEnv {
  human_readable_va_res_type : Z -> list Z;
  CONFIG_MAX_NUM_NODES : Z;
  sizeof_component : Z;
  (* the model state at an address, with the components that its pointers delimit;
     nothing when they lead out of the memory *)
  shared_model : list xcall -> Z -> option model_state_t
}.

Section Dump.
Context `{UTHash} (sys : list xcall -> xcall -> Z * Z) (X : extraction_env).

Abbreviation D := (M (server * model_state_t)).

Definition try_calloc : M server bool := a ← calloc sys; mret (bool_decide (is_Some a)).
Definition type_name : Z -> M server (list Z) := cap_type_to_str.

Definition add_edge (type : Z) (from to : nat) : D unit :=
  ModelExport.add_edge try_calloc (sizeof_component X) type from to.
Definition add_edge_by_id (type : Z) (from to : list Z) : D unit :=
  ModelExport.add_edge_by_id try_calloc (sizeof_component X) type from to.
Definition add_request_edge_by_id (from to : list Z) (req_type : Z) : D unit :=
  ModelExport.add_request_edge_by_id try_calloc (sizeof_component X) from to req_type.
Definition add_resource_node (res_id : gpi_res_id_t) (extracted : bool) : D nat :=
  ModelExport.add_resource_node try_calloc type_name (sizeof_component X) res_id extracted.
Definition get_resource_node (res_id : gpi_res_id_t) : D (option nat) :=
  ModelExport.get_resource_node type_name res_id.
Definition add_resource_space_node (resource_type res_space_id : Z) (extracted : bool) : D nat :=
  ModelExport.add_resource_space_node try_calloc type_name (sizeof_component X) resource_type res_space_id
    extracted.
Definition get_resource_space_node (resource_type res_space_id : Z) : D (option nat) :=
  ModelExport.get_resource_space_node type_name resource_type res_space_id.
Definition add_pd_node (pd_name : option (list Z)) (pd_id : Z) (extracted : bool) : D nat :=
  ModelExport.add_pd_node try_calloc (sizeof_component X) pd_name pd_id extracted.
Definition get_root_node : D nat := ModelExport.get_root_node try_calloc (sizeof_component X).

(** the server's state *)
Definition server_state : D server := host get_state.

(** the node that was found, or the one that is added *)
Definition or_add (node : option nat) (add : D nat) : D nat :=
  match node with Some a => mret a | None => add end.

(** dump what depends on a node, once *)
Definition extract_once (node : nat) (dump : D unit) : D unit :=
  n ← mnode_load node;
  if nd_extracted n then mret tt
  else dump ;; mnode_store node (set_nd_extracted true).

(** ** ads_obj.c *)
Definition attachment_text (res : attach_node_t) : list Z :=
  snprintf CSV_MAX_STRING_SIZE (fmt_p (att_vaddr res) ++ chars "_" ++
    human_readable_va_res_type X (vmr_type res) ++ chars "_" ++ fmt_u (n_pages res) ++ chars "_" ++
    fmt_u (page_bits res)).

Definition dump_attachment (ads : nat) (a : ads_t) (space pd_node : nat) (n : node attach_node_t) : D unit :=
  let res := payload n in
  map_node ← host (node_load (attach_map_p ads) (map_entry res));
  vmr_node ← add_resource_node (make_res_id GPICAP_TYPE_VMR (ads_id a) (u32 (object_id map_node))) true;
  add_edge GPI_EDGE_TYPE_SUBSET vmr_node space ;;
  add_edge GPI_EDGE_TYPE_HOLD pd_node vmr_node ;;
  set_node_extra vmr_node (attachment_text res) ;;
  when (mo_attached res) (
    s ← server_state;
    let mo_id := make_res_id GPICAP_TYPE_MO (space_id (mo_component s)) (att_mo_id res) in
    mo_node ← get_resource_node mo_id;
    mo_node ← or_add mo_node (add_resource_node mo_id false);
    add_edge GPI_EDGE_TYPE_MAP vmr_node mo_node).

Definition ads_dump_rr (ads pd_node : nat) : D nat :=
  a ← host (ads_load ads);
  node ← get_resource_space_node GPICAP_TYPE_ADS (ads_id a);
  ads_space_node ← or_add node (
    node ← add_resource_space_node GPICAP_TYPE_ADS (ads_id a) false;
    s ← server_state;
    mo_space_node ← add_resource_space_node GPICAP_TYPE_MO (space_id (mo_component s)) false;
    add_edge GPI_EDGE_TYPE_MAP node mo_space_node ;;
    mret node);
  extract_once ads_space_node (
    root ← get_root_node;
    add_edge GPI_EDGE_TYPE_HOLD root ads_space_node ;;
    for_each (head (attach_registry a)) (dump_attachment ads a ads_space_node pd_node)) ;;
  mret ads_space_node.

(** ** mo_obj.c *)

(** the pages that have a frame *)
Fixpoint count_frames (caps : list Z) (n : nat) : D Z :=
  match n, caps with
  | O, _ => mret 0
  | S n, [] => crash OutOfBounds
  | S n, cap :: caps => rest ← count_frames caps n; mret (if cap =? 0 then rest else rest + 1)
  end.

Definition mo_text (m : mo_t) : D (list Z) :=
  num_pages ← (if num_pages m =? 0 then mret 0 else
    caps ← deref (frame_caps_in_root_task m); count_frames caps (Z.to_nat (num_pages m)));
  paddrs ← deref (frame_paddrs m);
  match paddrs with
  | paddr :: _ =>
      mret (snprintf CSV_MAX_STRING_SIZE (chars "0x" ++ fmt_x paddr ++ chars "_" ++ fmt_u num_pages ++
        chars "_" ++ fmt_u (mo_page_bits m)))
  | [] => crash OutOfBounds
  end.

Definition mo_dump_rr (mo pd_node : nat) : D nat :=
  m ← host (obj_load mo_p mo);
  root_node ← get_root_node;
  s ← server_state;
  let space := space_id (mo_component s) in
  node ← get_resource_space_node GPICAP_TYPE_MO space;
  mo_space_node ← or_add node (
    node ← add_resource_space_node GPICAP_TYPE_MO space false;
    add_edge GPI_EDGE_TYPE_HOLD root_node node ;;
    mret node);
  let res := make_res_id GPICAP_TYPE_MO space (mo_id m) in
  node ← get_resource_node res;
  mo_node ← or_add node (add_resource_node res false);
  extract_once mo_node (
    add_edge GPI_EDGE_TYPE_HOLD pd_node mo_node ;;
    add_edge GPI_EDGE_TYPE_SUBSET mo_node mo_space_node ;;
    extra ← mo_text m;
    set_node_extra mo_node extra) ;;
  mret mo_node.

(** ** cpu_obj.c *)

(** the space of physical CPUs is looked up under the identifier of the virtual
    ones, so that the node that was just added is found *)
Definition cpu_dump_rr (cpu pd_node : nat) : D nat :=
  c ← host (cpu_load cpu);
  root_node ← get_root_node;
  s ← server_state;
  let space := space_id (cpu_component s) in
  node ← get_resource_space_node GPICAP_TYPE_CPU space;
  vcpu_space_node ← or_add node (
    node ← add_resource_space_node GPICAP_TYPE_CPU space false;
    add_edge GPI_EDGE_TYPE_HOLD root_node node ;;
    mret node);
  node ← get_resource_space_node GPICAP_TYPE_CPU space;
  pcpu_space_node ← or_add node (
    node ← add_resource_space_node GPICAP_TYPE_CPU space false;
    add_edge GPI_EDGE_TYPE_HOLD root_node node ;;
    add_edge GPI_EDGE_TYPE_MAP vcpu_space_node node ;;
    mret node);
  let res := make_res_id GPICAP_TYPE_CPU space (cpu_id c) in
  node ← get_resource_node res;
  cpu_node ← or_add node (add_resource_node res false);
  extract_once cpu_node (
    when (negb (vcpu c =? CapNull)) (set_node_extra cpu_node (chars "elevated")) ;;
    add_edge GPI_EDGE_TYPE_HOLD pd_node cpu_node ;;
    add_edge GPI_EDGE_TYPE_SUBSET cpu_node vcpu_space_node ;;
    affinity ← (if 1 <? CONFIG_MAX_NUM_NODES X then host (ext_val sys TcbGetAffinity [tcb c]) else mret 0);
    cpu_core_node ← add_resource_node (make_res_id GPICAP_TYPE_PCPU 1 (u32 affinity)) true;
    add_edge GPI_EDGE_TYPE_MAP cpu_node cpu_core_node ;;
    add_edge GPI_EDGE_TYPE_HOLD root_node cpu_core_node ;;
    add_edge GPI_EDGE_TYPE_SUBSET cpu_core_node pcpu_space_node) ;;
  mret cpu_node.

(** ** resource_space_component.c *)
Definition resspc_dump_rr (space : nat) : D nat :=
  sp ← host (obj_load resspc_p space);
  _ ← get_root_node;
  node ← get_resource_space_node (spc_resource_type sp) (spc_id sp);
  space_node ← or_add node (add_resource_space_node (spc_resource_type sp) (spc_id sp) false);
  extract_once space_node (
    for_each (map_spaces sp) (fun curr =>
      maps_to ← host (obj_load resspc_p curr);
      maps_to_id ← get_resource_space_id type_name (spc_resource_type maps_to) (spc_id maps_to);
      space_id ← node_str space_node;
      add_edge_by_id GPI_EDGE_TYPE_MAP space_id maps_to_id)) ;;
  mret space_node.

(** ** pd_obj.c *)

(** look up an object, dump it, and link it to its holder; an error when it is not found *)
Definition dump_and_hold (pd_node : nat) (lookup : M server (option nat)) (dump : nat -> D nat) : D Z :=
  entry ← host lookup;
  match entry with
  | None => mret DEFAULT_ERR
  | Some a =>
      res_node ← dump a;
      add_edge GPI_EDGE_TYPE_HOLD pd_node res_node ;;
      mret 0
  end.

(** ask the resource server [manager] for its part of the graph *)
Definition request_subgraph (manager : nat) (res_id : gpi_res_id_t) (client : Z) : D Z :=
  ok ← host try_calloc;
  if negb ok then mret DEFAULT_ERR
  else
    host (pd_component_queue_model_extraction_work sys manager (WorkEntry res_id client false)) ;;
    mret 0.

(** a resource of another server, when its node is new: the error code *)
Definition dump_server_resource (p : pd_t) (res_node : nat) (res_id : gpi_res_id_t) : D Z :=
  space_entry ← host (resource_space_get_entry_by_id (rid_space res_id));
  match space_entry with
  | None => mret DEFAULT_ERR
  | Some space =>
      sp ← host (obj_load resspc_p space);
      space_id ← get_resource_space_id type_name (spc_resource_type sp) (spc_id sp);
      id ← node_str res_node;
      add_edge_by_id GPI_EDGE_TYPE_SUBSET id space_id ;;
      manager ← host (pd_component_registry_get_entry_by_id (spc_pd_id sp));
      match manager with
      | None => mret DEFAULT_ERR
      | Some manager =>
          error ← (match map_spaces sp with
                   | [] => mret 0
                   | _ => request_subgraph manager res_id (pd_id p)
                   end);
          if negb (error =? 0) then mret error
          else mnode_store res_node (set_nd_extracted true) ;; mret 0
      end
  end.

(** [dump_pd] is pd_dump_internal, whose result is not used here *)
Definition res_dump (dump_pd : nat -> D (option Z)) (p : pd_t) (pd_node : nat) (res_id : gpi_res_id_t)
  : D Z :=
  let type := rid_type res_id in
  let id := rid_object res_id in
  if type =? GPICAP_TYPE_NONE then mret 0
  else if type =? GPICAP_TYPE_ADS then
    dump_and_hold pd_node (resource_component_registry_get_by_id ads_p id) (fun a => ads_dump_rr a pd_node)
  else if type =? GPICAP_TYPE_MO then
    s ← server_state;
    assert_ (rid_space res_id =? space_id (mo_component s)) ;;
    dump_and_hold pd_node (resource_component_registry_get_by_id mo_p id) (fun a => mo_dump_rr a pd_node)
  else if type =? GPICAP_TYPE_CPU then
    dump_and_hold pd_node (resource_component_registry_get_by_id cpu_p id) (fun a => cpu_dump_rr a pd_node)
  else if type =? GPICAP_TYPE_seL4 then mret 0
  else if type =? GPICAP_TYPE_PD then
    if id =? pd_id p then mret 0
    else
      pd_data ← host (pd_component_registry_get_entry_by_id id);
      match pd_data with
      | None => mret DEFAULT_ERR
      | Some a => _ ← dump_pd a; mret 0
      end
  else if type =? GPICAP_TYPE_RESSPC then
    dump_and_hold pd_node (resource_space_get_entry_by_id id) resspc_dump_rr
  else if type =? GPICAP_TYPE_VMR then mret 0
  else if type =? GPICAP_TYPE_EP then mret 0
  else
    node ← get_resource_node res_id;
    res_node ← or_add node (add_resource_node res_id false);
    n ← mnode_load res_node;
    error ← (if nd_extracted n then mret 0 else dump_server_resource p res_node res_id);
    if negb (error =? 0) then mret error
    else add_edge GPI_EDGE_TYPE_HOLD pd_node res_node ;; mret 0.

(** the loop over held resources stops with 1 at the first error *)
Fixpoint dump_held (dump : gpi_res_id_t -> D Z) (l : list (node pd_hold_node_t)) : D Z :=
  match l with
  | [] => mret 0
  | current_cap :: l =>
      error ← dump (hold_res_id (payload current_cap));
      if error =? 0 then dump_held dump l else mret 1
  end.

(** an entry of the resource directory; the entry of its server is not tested before it
    is used *)
Definition dump_rde (p : pd_t) (pd_node : nat) (r : osmosis_rde_t) : D Z :=
  if rde_type r =? GPICAP_TYPE_NONE then mret 0
  else
    rm ← host (resource_space_get_entry_by_id (rde_space_id r));
    match rm with
    | None => mret DEFAULT_ERR
    | Some rm =>
        space ← host (obj_load resspc_p rm);
        id ← node_str pd_node;
        add_request_edge_by_id id (get_pd_id (spc_pd_id space)) (rde_type r) ;;
        s ← server_state;
        if spc_pd_id space =? rt_pd_id s then mret 0
        else
          manager ← host (pd_component_registry_get_entry_by_id (spc_pd_id space));
          ok ← host try_calloc;
          if negb ok then mret DEFAULT_ERR
          else
            manager ← deref manager;
            host (pd_component_queue_model_extraction_work sys manager
              (WorkEntry (ResId (rde_type r) (rde_space_id r) BADGE_OBJ_ID_NULL) (pd_id p) false)) ;;
            mret 0
    end.

Definition rde_indices : list (nat * nat) :=
  i ← seq 0 (Z.to_nat GPICAP_TYPE_MAX); j ← seq 0 MAX_NS_PER_RDE; [(i, j)].

Fixpoint dump_rdes (pd : nat) (p : pd_t) (pd_node : nat) (l : list (nat * nat)) : D Z :=
  match l with
  | [] => mret 0
  | (i, j) :: l =>
      row ← host (rde_row pd (Z.of_nat i));
      match row !! j with
      | None => crash OutOfBounds
      | Some r =>
          error ← dump_rde p pd_node r;
          if error =? 0 then dump_rdes pd p pd_node l else mret error
      end
  end.

(** nothing is the value of [error] when it was not set, as after a dump without errors *)
Fixpoint pd_dump_internal (fuel : nat) (pd : nat) : D (option Z) :=
  match fuel with
  | O => no_fuel
  | S fuel =>
      p ← host (pd_load pd);
      node ← get_pd_node (pd_id p);
      match node with
      | Some _ => mret (Some 0)
      | None =>
          pd_node ← add_pd_node (Some (pd_name p)) (pd_id p) true;
          error ← dump_rdes pd p pd_node rde_indices;
          if negb (error =? 0) then mret (Some error) else
          hold ← host (reg_load (hold_p pd));
          error ← dump_held (res_dump (pd_dump_internal fuel) p pd_node) (head hold);
          mret (if error =? 0 then None else Some 1)
      end
  end.

Definition dump_fuel (s : server) : nat := S (length (head (rc_registry (pd_component s)))).

Definition pd_dump (pd : nat) : D Z :=
  rt_node ← get_root_node;
  s ← server_state;
  rt_entry ← host (pd_component_registry_get_entry_by_id (rt_pd_id s));
  assert_ (bool_decide (is_Some rt_entry)) ;;
  rt_pd ← deref rt_entry;
  p ← host (pd_load rt_pd);
  hold ← host (reg_load (hold_p rt_pd));
  error ← dump_held (res_dump (pd_dump_internal (dump_fuel s)) p rt_node) (head hold);
  if negb (error =? 0) then mret 1 else
  error ← pd_dump_internal (dump_fuel s) pd;
  match error with
  | Some error => mret error
  | None => crash Uninitialized
  end.

(** ** Extractions in the server *)

(** run a computation on a model state: the result and the model state *)
Definition on_model {A} (ms : model_state_t) (m : D A) : M server (A * model_state_t) := fun s =>
  match m (s, ms) with
  | (Ok a, (s', ms')) => (Ok (a, ms'), s')
  | (Crash f, (s', _)) => (Crash f, s')
  | (NoFuel, (s', _)) => (NoFuel, s')
  end.

(** print a finished model, and free it *)
Definition print_and_destroy (ms : model_state_t) : M server unit :=
  _ ← on_model ms (print_model_state type_name ;; destroy_model_state (ext_ sys Free []));
  mret tt.

(** the partial model of the extraction; it was freed if none is in progress *)
Definition partial_model : M server model_state_t :=
  s ← get_state;
  match model_state s with Some ms => mret ms | None => crash UseAfterFree end.

(** merge the model that a resource server left at [mo_vaddr] *)
Definition merge_shared_model (mo_vaddr : Z) : M server unit :=
  s ← get_state;
  match shared_model X (log s) mo_vaddr with
  | None => crash OutOfBounds
  | Some src =>
      ms ← partial_model;
      r ← on_model ms (combine_model_states try_calloc (sizeof_component X) src);
      modify (set_model_state (Some (snd r)))
  end.
End Dump.
