(* ===== verification/PdComponent.v ===== *)
(** * Requests to the PD component

    Model of [libsel4gpi/src/pd_component.c]: the callback of the registry of PDs,
    allocation and termination, the queues of work from which resource servers
    fetch what the server wants from them, and the request handlers with their
    dispatcher.

    A termination or a model extraction may have to wait for other PDs: the
    counters [pd_termination_n_missing] and [model_extraction_n_missing] count the
    answers that are missing, the capability to answer with is kept in the server's
    state, as is the part of the graph that was extracted (files ModelExport and
    Dump).  The two functions that write the initial stack are parameters of the
    requests, which the file Server instantiates with those of the file Elf. *)

From stdpp Require Import base numbers list gmap.
From S2P Require Import Prelude Badge Registry State ResourceTypes ModelExport Component PdResources Resspc Mo Ads Cpu PdObj Dump.

Definition PD_RPC_MAGIC : Z := 0x5044.
(** sizeof(reply_msg->msg.work.object_ids) / sizeof(...[0]) *)
Definition n_object_ids : nat := 16.

Inductive PdMessage :=
| PdAlloc
| PdTerminate
| PdNextSlot
| PdFreeSlot (slot : Z)
| PdClearSlot (slot : Z)
| PdSendCap (is_core_cap : bool) (slot : Z)
| PdDump
| PdShareRDE (res_type space_id : Z)
| PdRemoveRDE (res_type space_id : Z)
| PdGiveResource (pd_id space_id object_id : Z)
| PdExit (exit_code : Z)
| PdBenchIPC
| PdSetup (stack_top entry_point ipc_buf_addr osm_data_addr : Z) (args : list Z)
| PdShareResType (res_type : Z)
| PdGetWork
| PdSendSubgraph (has_data : bool) (n_requests : Z)
| PdFinishWork (work_type n_requests n_critical : Z)
| PdSetName (pd_name : list Z)
| PdLinkChild
| PdIrqHandlerBind (irq badge : Z) (copy_to_holder : bool)
| PdUnknown.

(** the work of a reply: (space, object, client PD) of each piece *)
Inductive PdReturnMessage :=
| PdNoReturn
| PdBasicReturn
| PdWorkReturn (action : nat) (work : list (Z * Z * Z)) (n_critical : Z)
| PdAllocReturn (slot id : Z)
| PdNextSlotReturn (slot : Z)
| PdSendCapReturn (slot : Z)
| PdGiveResourceReturn (slot : Z)
| PdIrqHandlerBindReturn (slot slot_holder : Z).

Section PdComponent.
Context `{UTHash} (sys : list xcall -> xcall -> Z * Z).
Context (run_cb : CB -> nat -> nat -> M server unit).
Context (T : reservation_types).
Context (PD_CAP_ROOT : Z) (api_make_guard_skip_word : Z -> Z).
Context (SEL4_USER_CONTEXT_COUNT OSM_PD_RUNTIME : Z).
(** CONFIG_DEBUG_BUILD *)
Context (config_debug_build : bool).
(** the error code and the initial stack pointer *)
Context (ads_write_stack_runtime : nat -> Z -> Z -> Z -> list Z -> M server (Z * Z)).
Context (ads_write_stack_args : nat -> list Z -> Z -> M server (Z * Z)).
(** for the extraction of models *)
Context (X : extraction_env).

(** ** The callback of the registry *)

(** a piece of work that is thrown away no longer counts *)
Definition forget_work (i : nat) (w : pd_work_entry_t) : M server unit :=
  when (is_critical w)
    (if (i =? PdWorkAction_EXTRACT)%nat then
       modify (fun s => set_model_extraction_n_missing (i32 (model_extraction_n_missing s - 1)) s)
     else when ((i =? PdWorkAction_DESTROY)%nat || (i =? PdWorkAction_FREE)%nat)
       (modify (fun s => set_pd_termination_n_missing (i32 (pd_termination_n_missing s - 1)) s))) ;;
  ext_ sys Free [].

Definition clear_pending_work (pd : nat) : M server unit :=
  for_each (seq 0 PdWorkAction_MAX) (fun i =>
    e ← obj_load pd_p pd;
    match pending_work e !! i with
    | Some (Some l) =>
        for_each l (forget_work i) ;;
        ext_ sys Free [] ;;
        obj_store pd_p pd (fun e => set_pending_work (<[i := Some []]> (pending_work e)) e)
    | Some None => crash NullDeref
    | None => crash OutOfBounds
    end).

Definition on_pd_registry_delete (node arg : nat) : M server unit :=
  p ← pd_load node;
  resource_component_remove_from_rt run_cb pd_component (pd_id p) ;;
  pd_destroy sys run_cb node ;;
  clear_pending_work node.

(** ** Allocation and termination *)

(** the error code, [*ret_pd] and [*ret_cap] *)
Definition pd_component_allocate (client_id : Z) (init_data_mo : option nat) (want_cap : bool)
  : M server (Z * option nat * Z) :=
  r ← resource_component_allocate sys pd_component pd_p pd_entry_zero
        (fun id => on_pd (set_pd_id id))
        (pd_new sys run_cb T PD_CAP_ROOT api_make_guard_skip_word init_data_mo)
        client_id BADGE_OBJ_ID_NULL false want_cap;
  let '(error, new_entry, cap) := r : Z * option nat * Z in
  if negb (error =? 0) then mret (error, None, cap) else
  new_entry ← deref new_entry;
  for_each (seq 0 PdWorkAction_MAX) (fun i =>
    l ← list_new sys;
    obj_store pd_p new_entry (fun e => set_pending_work (<[i := Some l]> (pending_work e)) e)) ;;
  mret (0, Some new_entry, cap).

Definition pd_component_terminate (pd_id : Z) : M server Z :=
  client_data ← pd_component_registry_get_entry_by_id pd_id;
  match client_data with
  | None => mret DEFAULT_ERR
  | Some client =>
      pd_store client (fun p => set_deletion_depth 0 (set_exit_code PD_TERMINATED_CODE p)) ;;
      resource_registry_delete run_cb pd_p client ;;
      mret 0
  end.

(** a slot for the reply capability of the caller *)
Definition save_reply : M server Z :=
  slot ← ext_val sys VkaCspaceAlloc [server_vka];
  ext_ sys SaveCaller [slot] ;;
  mret slot.

(** ** Requests *)
Definition basic_pd (error : Z) : handled PdReturnMessage := replied error PdBasicReturn.
Definition no_reply : handled PdReturnMessage := Handled 0 PdNoReturn false false.

(** find the PD of the badge, run the operation, reply with its error *)
Definition with_pd (sender_badge : Z) (op : nat -> M server Z) : M server (handled PdReturnMessage) :=
  pd_data ← pd_component_registry_get_entry_by_badge sender_badge;
  match pd_data with
  | None => mret (basic_pd DEFAULT_ERR)
  | Some pd => error ← op pd; mret (basic_pd error)
  end.

Definition handle_pd_allocation (m : ipc) (sender_badge : Z) : M server (handled PdReturnMessage) :=
  let failed error := replied error (PdAllocReturn 0 0) in
  if negb (sel4gpi_rpc_check_cap m GPICAP_TYPE_MO) then mret (failed DEFAULT_ERR) else
  osm_mo_entry ← resource_component_registry_get_by_badge mo_p (GetBadge m 0);
  match osm_mo_entry with None => mret (failed DEFAULT_ERR) | Some mo =>
  r ← pd_component_allocate (get_client_id_from_badge sender_badge) (Some mo) true;
  let '(error, pd, ret_cap) := r : Z * option nat * Z in
  if negb (error =? 0) then mret (failed error) else
  pd ← deref pd;
  p ← pd_load pd;
  mret (replied 0 (PdAllocReturn ret_cap (pd_id p)))
  end.

(** the boolean tells whether to reply *)
Definition terminate_and_wait (sender_badge : Z) : M server (Z * bool) :=
  modify (set_starting_termination true) ;;
  error ← pd_component_terminate (get_object_id_from_badge sender_badge);
  if negb (error =? 0) then mret (error, true) else
  s ← get_state;
  if 0 <? pd_termination_n_missing s then
    slot ← save_reply;
    modify (fun s => set_pending_termination true (set_pd_termination_reply slot s)) ;;
    mret (0, false)
  else mret (0, true).

(** the last test of the source is on the pointer [should_reply], so that the
    message is always written; it is sent when [*should_reply] *)
Definition handle_terminate_req (sender_badge : Z) : M server (handled PdReturnMessage) :=
  s ← get_state;
  r ← (if pending_termination s then mret (PdComponentError_OPERATION_IN_PROGRESS, true) else
       client_data ← pd_component_registry_get_entry_by_badge sender_badge;
       match client_data with
       | None => mret (DEFAULT_ERR, true)
       | Some _ => terminate_and_wait sender_badge
       end);
  let '(error, reply) := r : Z * bool in
  modify (set_starting_termination false) ;;
  mret (Handled error PdBasicReturn false reply).

Definition handle_next_slot_req (sender_badge : Z) : M server (handled PdReturnMessage) :=
  client_data ← pd_component_registry_get_entry_by_badge sender_badge;
  match client_data with
  | None => mret (replied DEFAULT_ERR (PdNextSlotReturn 0))
  | Some pd =>
      r ← pd_next_slot sys pd;
      mret (replied (fst r) (PdNextSlotReturn (snd r)))
  end.

(** the error of clearing the slot is ignored *)
Definition handle_free_slot_req (sender_badge slot : Z) :=
  with_pd sender_badge (fun pd => _ ← pd_clear_slot sys pd slot; pd_free_slot sys pd slot).

Definition handle_clear_slot_req (sender_badge slot : Z) :=
  with_pd sender_badge (fun pd => pd_clear_slot sys pd slot).

(** [slot] is not initialized: a send that fails before writing it makes the reply
    read it *)
Definition handle_send_cap_req (m : ipc) (sender_badge : Z) (is_core_cap : bool)
    (msg_slot received_cap : Z) : M server (handled PdReturnMessage) :=
  let failed error := replied error (PdSendCapReturn 0) in
  client_data ← pd_component_registry_get_entry_by_id (get_client_id_from_badge sender_badge);
  match client_data with None => mret (failed DEFAULT_ERR) | Some client =>
  target_data ← pd_component_registry_get_entry_by_id (get_object_id_from_badge sender_badge);
  match target_data with None => mret (failed DEFAULT_ERR) | Some target =>
  r ← pd_send_cap sys run_cb target (Some client) msg_slot received_cap (GetBadge m 0) true is_core_cap;
  let '(error, slot, requires_async_work) := r : Z * option Z * bool in
  if requires_async_work && (error =? 0) then
    modify (set_pending_send_resource true) ;;
    reply ← save_reply;
    modify (set_send_resource_reply reply) ;;
    mret no_reply
  else
    match slot with
    | Some slot => mret (replied error (PdSendCapReturn slot))
    | None => crash Uninitialized
    end
  end end.

Definition handle_dump_cap_req (sender_badge : Z) : M server (handled PdReturnMessage) :=
  s ← get_state;
  if pending_extraction s then mret (basic_pd PdComponentError_OPERATION_IN_PROGRESS) else
  client_data ← pd_component_registry_get_entry_by_badge sender_badge;
  match client_data with None => mret (basic_pd DEFAULT_ERR) | Some pd =>
  ok ← try_calloc sys;
  assert_ ok ;;
  modify (set_model_extraction_n_missing 0) ;;
  r ← on_model (init_model_state None) (pd_dump sys X pd);
  let '(error, ms) := r : Z * model_state_t in
  if negb (error =? 0) then mret (basic_pd error) else
  s ← get_state;
  if 0 <? model_extraction_n_missing s then
    modify (set_pending_extraction true) ;;
    modify (set_model_state (Some ms)) ;;
    reply ← save_reply;
    modify (set_model_extraction_reply reply) ;;
    mret (Handled 0 PdBasicReturn false false)
  else print_and_destroy sys ms ;; mret (basic_pd 0)
  end.

(** an entry that the target already has is no error *)
Definition handle_share_rde_req (sender_badge type space_id : Z) : M server (handled PdReturnMessage) :=
  client_data ← pd_component_registry_get_entry_by_id (get_client_id_from_badge sender_badge);
  match client_data with None => mret (basic_pd DEFAULT_ERR) | Some client =>
  target_data ← pd_component_registry_get_entry_by_badge sender_badge;
  match target_data with None => mret (basic_pd DEFAULT_ERR) | Some target =>
  rde ← pd_rde_get client type space_id;
  match rde with None => mret (basic_pd DEFAULT_ERR) | Some rde =>
  target_pd_rde ← pd_rde_get target type space_id;
  match target_pd_rde with Some _ => mret (basic_pd 0) | None =>
  resource_space_data ← resource_space_get_entry_by_id (rde_space_id rde);
  match resource_space_data with None => mret (basic_pd DEFAULT_ERR) | Some space =>
  sh ← shared_load client;
  type_name ← match type_names sh !! Z.to_nat type with
              | Some name => mret name
              | None => crash OutOfBounds
              end;
  sp ← space_load space;
  error ← pd_add_rde sys target type type_name (rde_space_id rde) (spc_server_ep sp);
  mret (basic_pd error)
  end end end end end.

Definition handle_remove_rde_req (sender_badge type space_id : Z) :=
  with_pd sender_badge (fun target => pd_remove_rde sys target type space_id).

Definition handle_give_resource_req (sender_badge recipient_id space_id resource_id : Z)
  : M server (handled PdReturnMessage) :=
  let failed error := replied error (PdGiveResourceReturn 0) in
  server_data ← pd_component_registry_get_entry_by_id (get_object_id_from_badge sender_badge);
  match server_data with None => mret (failed DEFAULT_ERR) | Some server_pd =>
  recipient_data ← pd_component_registry_get_entry_by_id recipient_id;
  match recipient_data with None => mret (failed DEFAULT_ERR) | Some recipient =>
  resource_space_data ← resource_space_get_entry_by_id space_id;
  match resource_space_data with None => mret (failed DEFAULT_ERR) | Some space =>
  sp ← space_load space;
  let res_id := make_res_id (spc_resource_type sp) space_id resource_id in
  resource_data ← pd_get_resource server_pd res_id;
  match resource_data with None => mret (failed DEFAULT_ERR) | Some _ =>
  r ← pd_badge_and_add_resource sys recipient res_id (spc_server_ep sp);
  let '(error, dest) := r : Z * Z in
  if negb (error =? 0) then mret (failed error)
  else mret (replied 0 (PdGiveResourceReturn dest))
  end end end end.

Definition handle_exit_req (sender_badge exit_code : Z) : M server (handled PdReturnMessage) :=
  client_data ← pd_component_registry_get_entry_by_badge sender_badge;
  match client_data with
  | None => mret no_reply
  | Some pd =>
      pd_store pd (fun p => set_deletion_depth 0 (set_exit_code exit_code p)) ;;
      ext_ sys MutexLock [] ;;
      resource_registry_delete run_cb pd_p pd ;;
      ext_ sys MutexUnlock [] ;;
      mret no_reply
  end.

Definition handle_ipc_bench_req (received_cap : Z) : M server (handled PdReturnMessage) :=
  error ← ext_err sys VkaCnodeDelete [server_vka; received_cap];
  mret (basic_pd error).

(** the errors of the first two cases are overwritten by the references taken at
    the end *)
Definition pd_component_runtime_setup (pd ads cpu : nat) (args : list Z)
    (stack_top entry_point ipc_buf_addr osm_shared_data : Z) : M server Z :=
  pd_store pd (set_shared_data_in_PD osm_shared_data) ;;
  p ← pd_load pd;
  c ← cpu_load cpu;
  let refs :=
    (a ← ads_load ads;
     try_ (resource_component_inc ads_p (ads_id a))
       (c ← cpu_load cpu; resource_component_inc cpu_p (cpu_id c))) : M server Z in
  if 0 <? num_elf_phdrs p then
    a ← ads_load ads;
    r ← ads_write_stack_runtime pd (vspace a) ipc_buf_addr stack_top args;
    let '(error, init_stack) := r : Z * Z in
    (if error =? 0 then
       _ ← cpu_set_pd_entry_regs sys SEL4_USER_CONTEXT_COUNT cpu entry_point init_stack OSM_PD_RUNTIME;
       mret tt
     else mret tt) ;;
    refs
  else if negb (vcpu c =? CapNull) then
    error ← cpu_elevate sys cpu;
    (if error =? 0 then
       _ ← cpu_set_guest_entry_regs sys SEL4_USER_CONTEXT_COUNT cpu entry_point (default 0 (args !! 0%nat));
       mret tt
     else mret tt) ;;
    refs
  else
    match args with
    | [] => mret DEFAULT_ERR
    | arg0 :: args =>
        r ← ads_write_stack_args ads args stack_top;
        let '(error, init_stack) := r : Z * Z in
        if negb (error =? 0) then mret error else
        _ ← cpu_set_pd_entry_regs sys SEL4_USER_CONTEXT_COUNT cpu entry_point init_stack arg0;
        refs
    end.

Definition handle_runtime_setup_req (m : ipc) (sender_badge stack_top entry_point ipc_buf_addr
    osm_data_addr : Z) (args : list Z) : M server (handled PdReturnMessage) :=
  if negb (sel4gpi_rpc_check_caps_2 m GPICAP_TYPE_ADS GPICAP_TYPE_CPU)
  then mret (basic_pd DEFAULT_ERR) else
  target_pd ← pd_component_registry_get_entry_by_badge sender_badge;
  match target_pd with None => mret (basic_pd DEFAULT_ERR) | Some pd =>
  target_ads ← ads_get_by_id (get_object_id_from_badge (GetBadge m 0));
  match target_ads with None => mret (basic_pd DEFAULT_ERR) | Some ads =>
  target_cpu ← resource_component_registry_get_by_id cpu_p (get_object_id_from_badge (GetBadge m 1));
  match target_cpu with None => mret (basic_pd DEFAULT_ERR) | Some cpu =>
  error ← pd_component_runtime_setup pd ads cpu args stack_top entry_point ipc_buf_addr osm_data_addr;
  mret (basic_pd error)
  end end end.

(** the list of resources is not initialized when a check fails, and tested at the
    end *)
Definition handle_share_resource_type_req (m : ipc) (sender_badge res_type : Z)
  : M server (handled PdReturnMessage) :=
  let failed : M server (handled PdReturnMessage) := crash Uninitialized in
  if negb (sel4gpi_rpc_check_cap m GPICAP_TYPE_PD) then failed else
  src_pd_data ← pd_component_registry_get_entry_by_badge sender_badge;
  match src_pd_data with None => failed | Some src =>
  dst_pd_data ← pd_component_registry_get_entry_by_badge (GetBadge m 0);
  match dst_pd_data with None => failed | Some dst =>
  ps ← pd_load src;
  pdst ← pd_load dst;
  if pd_id ps =? pd_id pdst then failed else
  if negb (res_type =? GPICAP_TYPE_MO) && (res_type <? GPICAP_TYPE_seL4) then failed else
  resources ← pd_get_resources_of_type sys src res_type;
  error ← pd_bulk_add_resource sys dst src resources 0;
  ext_ sys Free [] ;;
  mret (basic_pd error)
  end end.

(** the first queue that is not empty, in the order of PdWorkAction *)
Fixpoint first_work (i todo : nat) (queues : list (option (list pd_work_entry_t)))
  : M server (option (nat * list pd_work_entry_t)) :=
  match todo with
  | O => mret None
  | S todo =>
      match queues !! i with
      | Some (Some []) => first_work (S i) todo queues
      | Some (Some l) => mret (Some (i, l))
      | Some None => crash NullDeref
      | None => crash OutOfBounds
      end
  end.

Definition work_ids (w : pd_work_entry_t) : Z * Z * Z :=
  (rid_space (work_res_id w), rid_object (work_res_id w), client_pd_id w).
Definition count_critical_work (l : list pd_work_entry_t) : Z :=
  Z.of_nat (length (filter (fun w => is_critical w = true) l)).

Definition handle_get_work_req (sender_badge : Z) : M server (handled PdReturnMessage) :=
  let failed := replied DEFAULT_ERR (PdWorkReturn 0 [] 0) in
  pd_data ← pd_component_registry_get_entry_by_badge sender_badge;
  match pd_data with None => mret failed | Some pd =>
  if negb (get_client_id_from_badge sender_badge =? get_object_id_from_badge sender_badge)
  then mret failed else
  e ← obj_load pd_p pd;
  found ← first_work 0 PdWorkAction_MAX (pending_work e);
  match found with
  | None => mret (replied 0 (PdWorkReturn PdWorkAction_NO_WORK [] 0))
  | Some (i, l) =>
      let work := take n_object_ids l in
      for_each work (fun _ => ext_ sys Free []) ;;
      obj_store pd_p pd (fun e =>
        set_pending_work (<[i := Some (drop n_object_ids l)]> (pending_work e)) e) ;;
      mret (replied 0 (PdWorkReturn i (work_ids <$> work) (count_critical_work work)))
  end
  end.

(** answer a client whose reply capability was kept, and free the capability's slot *)
Definition reply_later (reply : Z) : M server unit :=
  r ← sel4gpi_rpc_reply sys;
  match snd r with
  | None => crash Uninitialized
  | Some len => ext_ sys Send [reply; len] ;; ext_ sys VkaCspaceFree [server_vka; reply]
  end.

(** the subgraph in the attached MO is merged with the extracted model *)
Definition take_subgraph (m : ipc) : M server Z :=
  if negb (sel4gpi_rpc_check_cap m GPICAP_TYPE_MO) then mret DEFAULT_ERR else
  r ← ads_component_attach_to_rt sys run_cb T (get_object_id_from_badge (GetBadge m 0));
  let '(error, mo_vaddr) := r : Z * option Z in
  if negb (error =? 0) then mret error else
  let vaddr := default 0 mo_vaddr in
  merge_shared_model sys X vaddr ;;
  ads_component_remove_from_rt run_cb vaddr.

Definition handle_send_subgraph_req (m : ipc) (sender_badge : Z) (has_data : bool) (n_requests : Z)
  : M server (handled PdReturnMessage) :=
  s ← get_state;
  if negb (pending_extraction s) then mret (basic_pd DEFAULT_ERR) else
  error ← (if has_data then take_subgraph m else mret 0);
  if negb (error =? 0) then mret (basic_pd error) else
  modify (fun s => set_model_extraction_n_missing
                     (i32 (model_extraction_n_missing s - n_requests)) s) ;;
  s ← get_state;
  when (model_extraction_n_missing s =? 0)
    (ms ← partial_model;
     print_and_destroy sys ms ;;
     modify (set_model_state None) ;;
     modify (set_pending_extraction false) ;; reply_later (model_extraction_reply s)) ;;
  mret (basic_pd 0).

(** the comparison is between an unsigned and a signed number *)
Definition finish_termination_work (n_critical : Z) : M server unit :=
  s ← get_state;
  if negb (pending_termination s) then mret tt else
  modify (fun s => set_pd_termination_n_missing
    (if u32 (pd_termination_n_missing s) <? n_critical then 0
     else i32 (pd_termination_n_missing s - n_critical)) s) ;;
  s ← get_state;
  when (pd_termination_n_missing s =? 0)
    (modify (set_pending_termination false) ;; reply_later (pd_termination_reply s)).

Definition handle_finish_work_req (work_type n_critical : Z) : M server (handled PdReturnMessage) :=
  if (work_type =? Z.of_nat PdWorkAction_FREE) || (work_type =? Z.of_nat PdWorkAction_DESTROY) then
    finish_termination_work n_critical ;;
    mret (basic_pd 0)
  else if work_type =? Z.of_nat PdWorkAction_SEND then
    s ← get_state;
    when (pending_send_resource s)
      (modify (set_pending_send_resource false) ;; reply_later (send_resource_reply s)) ;;
    mret (basic_pd 0)
  else mret (basic_pd DEFAULT_ERR).

Definition handle_set_name_req (sender_badge : Z) (pd_name : list Z) :=
  with_pd sender_badge (fun pd => pd_set_name pd pd_name ;; mret 0).

Definition handle_link_child_req (m : ipc) (sender_badge : Z) :=
  with_pd sender_badge (fun pd =>
    child_pd_data ← pd_component_registry_get_entry_by_badge (GetBadge m 0);
    match child_pd_data with
    | None => mret DEFAULT_ERR
    | Some _ => pd_add_linkage sys pd (get_object_id_from_badge (GetBadge m 0))
    end).

(** a second transfer that finds no slot leaves the first slot in [dest] *)
Definition handle_irq_handler_bind_req (sender_badge irq badge : Z) (copy_to_holder : bool)
  : M server (handled PdReturnMessage) :=
  let answer error slot holder := replied error (PdIrqHandlerBindReturn slot holder) in
  pd_data ← pd_component_registry_get_entry_by_id (get_object_id_from_badge sender_badge);
  match pd_data with None => mret (answer DEFAULT_ERR 0 0) | Some pd =>
  r ← pd_irq_handler_bind sys pd irq badge;
  let '(error, irq_handler_slot) := r : Z * Z in
  if negb (error =? 0) then mret (answer error 0 0) else
  p ← pd_load pd;
  r ← resource_component_transfer_cap sys server_vka (pd_vka p) irq_handler_slot false 0;
  let '(error, dest) := r : Z * option Z in
  if negb (error =? 0) then mret (answer error 0 0) else
  let slot := default 0 dest in
  if negb copy_to_holder then mret (answer 0 slot 0) else
  holder_data ← pd_component_registry_get_entry_by_id (get_client_id_from_badge sender_badge);
  match holder_data with None => mret (answer DEFAULT_ERR slot 0) | Some holder =>
  p ← pd_load holder;
  r ← resource_component_transfer_cap sys server_vka (pd_vka p) irq_handler_slot false 0;
  mret (answer (fst r) slot (default slot (snd r)))
  end end.

Definition pd_component_handle (m : ipc) (magic : Z) (msg : PdMessage) (sender_badge received_cap : Z)
  : M server (handled PdReturnMessage) :=
  let invalid := replied DEFAULT_ERR PdNoReturn in
  if negb (magic =? PD_RPC_MAGIC) then mret invalid
  else if get_object_id_from_badge sender_badge =? BADGE_OBJ_ID_NULL then
    match msg with
    | PdAlloc => handle_pd_allocation m sender_badge
    | _ => mret invalid
    end
  else
    match msg with
    | PdTerminate => handle_terminate_req sender_badge
    | PdNextSlot => handle_next_slot_req sender_badge
    | PdFreeSlot slot => handle_free_slot_req sender_badge slot
    | PdClearSlot slot => handle_clear_slot_req sender_badge slot
    | PdSendCap is_core_cap slot =>
        h ← handle_send_cap_req m sender_badge is_core_cap slot received_cap;
        mret (used_recv_cap true h)
    | PdDump => handle_dump_cap_req sender_badge
    | PdShareRDE res_type space_id => handle_share_rde_req sender_badge res_type space_id
    | PdRemoveRDE res_type space_id => handle_remove_rde_req sender_badge res_type space_id
    | PdGiveResource pd_id space_id object_id =>
        handle_give_resource_req sender_badge pd_id space_id object_id
    | PdExit exit_code => handle_exit_req sender_badge exit_code
    | PdBenchIPC => handle_ipc_bench_req received_cap
    | PdSetup stack_top entry_point ipc_buf_addr osm_data_addr args =>
        handle_runtime_setup_req m sender_badge stack_top entry_point ipc_buf_addr osm_data_addr args
    | PdShareResType res_type => handle_share_resource_type_req m sender_badge res_type
    | PdGetWork => handle_get_work_req sender_badge
    | PdSendSubgraph has_data n_requests =>
        handle_send_subgraph_req m sender_badge has_data n_requests
    | PdFinishWork work_type _ n_critical => handle_finish_work_req work_type n_critical
    | PdSetName pd_name =>
        if config_debug_build then handle_set_name_req sender_badge pd_name else mret invalid
    | PdLinkChild => handle_link_child_req m sender_badge
    | PdIrqHandlerBind irq badge copy_to_holder =>
        handle_irq_handler_bind_req sender_badge irq badge copy_to_holder
    | PdAlloc | PdUnknown => mret invalid
    end.

(** ** Initialization *)
Definition pd_component_initialize : M server unit :=
  space ← default_space sys GPICAP_TYPE_PD;
  s ← get_state;
  resource_component_initialize pd_component set_pd_component GPICAP_TYPE_PD space
    (server_ep_obj s) CbPd.

(** the root task has no shared data and no work queues *)
Definition forge_pd_for_root_task (rt_id : Z) : M server unit :=
  rt_entry ← calloc sys;
  rt_entry ← deref rt_entry;
  resource_registry_insert pd_p
    (Node rt_entry rt_id 0 (PdEntry (set_pd_vka server_vka (set_pd_id rt_id pd_zero))
                              (repeat None PdWorkAction_MAX))) ;;
  pd_initialize_registries rt_entry.

(** the badged endpoint of the IPC benchmark *)
Definition pd_component_create_ipc_bench_ep : M server Z :=
  badge ← gpi_new_badge GPICAP_TYPE_PD 0 0 0 0;
  s ← get_state;
  r ← resource_component_transfer_cap sys server_vka server_vka (server_ep_obj s) true badge;
  let '(error, dest) := r : Z * option Z in
  assert_ (negb (default 0 dest =? CapNull) && (error =? 0)) ;;
  mret (default 0 dest).
End PdComponent.

(** ** Pending work: lemmas and properties *)
Section Work.
Context `{UTHash} (sys : list xcall -> xcall -> Z * Z).
Implicit Types (s : server) (e : pd_entry_t) (l : list pd_work_entry_t).

Lemma pd_by_badge_run s n badge : wf_registry (rc_registry (pd_component s)) ->
  n ∈ head (rc_registry (pd_component s)) -> object_id n = get_object_id_from_badge badge ->
  pd_component_registry_get_entry_by_badge badge s = (Ok (Some (n_addr n)), s).
Proof.
  intros Hwf Hin E. change (resource_component_registry_get_by_id pd_p (get_object_id_from_badge badge) s
    = (Ok (Some (n_addr n)), s)). rewrite <- E. by apply (get_by_id_present pd_p s (rc_registry (pd_component s)) n).
Qed.

Lemma pd_by_badge_none s badge : wf_registry (rc_registry (pd_component s)) ->
  reg_abs (rc_registry (pd_component s)) !! get_object_id_from_badge badge = None ->
  pd_component_registry_get_entry_by_badge badge s = (Ok None, s).
Proof.
  intros Hwf Hk. by apply (get_by_id_absent pd_p s (rc_registry (pd_component s))).
Qed.

Lemma pd_at_elem s n : wf_registry (rc_registry (pd_component s)) ->
  n ∈ head (rc_registry (pd_component s)) -> pd_at s (n_addr n) (payload n).
Proof. intros Hwf Hin. exists n. split; [|done]. apply node_at_elem; [apply Hwf|done]. Qed.

(** the work a PD is given next: of the first action that has some *)
Fixpoint next_work (i : nat) (qs : list (list pd_work_entry_t))
  : option (nat * list pd_work_entry_t) :=
  match qs with
  | [] => None
  | [] :: qs => next_work (S i) qs
  | l :: qs => Some (i, l)
  end.

Lemma first_work_run s i todo (qs : list (list pd_work_entry_t)) : length qs = (i + todo)%nat ->
  first_work i todo (Some <$> qs) s = (Ok (next_work i (drop i qs)), s).
Proof.
  revert i. induction todo as [|todo IH]; intros i Hlen.
  - by rewrite drop_ge by lia.
  - destruct (lookup_lt_is_Some_2 qs i ltac:(lia)) as [q Hq].
    rewrite (drop_S _ _ _ Hq). simpl. rewrite list_lookup_fmap, Hq. simpl.
    destruct q as [|w q]; [|done]. apply IH. lia.
Qed.

Lemma next_work_Some i qs j l : next_work i qs = Some (j, l) ->
  l <> [] /\ (i <= j)%nat /\ qs !! (j - i)%nat = Some l /\
  forall k, (k < j - i)%nat -> qs !! k = Some [].
Proof.
  revert i. induction qs as [|[|w q] qs IH]; intros i; simpl; [done| |].
  - intros (Hl & Hj & Hq & Hb)%IH. split; [done|]. split; [lia|].
    replace (j - i)%nat with (S (j - S i)) by lia. split; [done|].
    intros [|k] Hk; [done|]. apply Hb. lia.
  - intros [= <- <-]. rewrite Nat.sub_diag. split; [done|]. split; [lia|]. split; [done|]. lia.
Qed.

(** calls to free *)
Definition frees {A} (l : list A) (s : server) : server := 
  set_log (replicate (length l) (Free, []) ++ log s) s.
Lemma frees_run {A} (l : list A) s : for_each l (fun _ => ext_ sys Free []) s = (Ok tt, frees l s).
Proof.
  revert s. induction l as [|x l IH]; intros s; [by destruct s|]. simpl. erewrite bind_ok by reflexivity.
  rewrite IH. unfold frees. simpl. rewrite app_comm_cons, replicate_cons_app, <- app_assoc. by destruct s.
Qed.
Lemma pd_at_frees {A} (l : list A) s a e : pd_at s a e -> pd_at (frees l s) a e.
Proof. done. Qed.

(** C25: a PD that asks for work gets, of the first kind of work for which it has
    any (in the order extract, send, free, destroy), the oldest pieces, at most 16,
    in the order in which they were queued, with the number of critical ones among
    them.  Exactly those leave the queue and are freed, and nothing else in the server
    changes.  Without any work the answer is NO_WORK, and a request from another PD, or
    for a PD that does not exist, is refused; neither has any effect. *)
Theorem get_work_fifo (s : server) (badge : Z)
  (Hwf : wf_registry (rc_registry (pd_component s))) :
  let refused := (Ok (replied DEFAULT_ERR (PdWorkReturn 0 [] 0)), s) in
  (reg_abs (rc_registry (pd_component s)) !! get_object_id_from_badge badge = None ->
   handle_get_work_req sys badge s = refused) /\
  forall n qs, n ∈ head (rc_registry (pd_component s)) ->
    object_id n = get_object_id_from_badge badge ->
    pending_work (payload n) = Some <$> qs -> length qs = PdWorkAction_MAX ->
    if get_client_id_from_badge badge =? get_object_id_from_badge badge then
      match next_work 0 qs with
      | None => handle_get_work_req sys badge s
                = (Ok (replied 0 (PdWorkReturn PdWorkAction_NO_WORK [] 0)), s)
      | Some (i, l) =>
          let work := take n_object_ids l in
          handle_get_work_req sys badge s =
            (Ok (replied 0 (PdWorkReturn i (work_ids <$> work) (count_critical_work work))),
             upd_entry (n_addr n) (fun e => set_pending_work (<[i := Some (drop n_object_ids l)]> (pending_work e)) e)
               (frees work s))
      end
    else handle_get_work_req sys badge s = refused.
Proof.
  intros refused. split.
  - intros Hnone. unfold handle_get_work_req.
    by rewrite (bind_ok _ _ _ _ _ (pd_by_badge_none s badge Hwf Hnone)).
  - intros n qs Hin Eid Hqs Hlen. unfold handle_get_work_req.
    pose proof (pd_by_badge_run s n badge Hwf Hin Eid) as Hfind.
    pose proof (pd_at_elem s n Hwf Hin) as He.
    rewrite !(bind_ok _ _ _ _ _ Hfind).
    destruct (get_client_id_from_badge badge =? get_object_id_from_badge badge); [|done].
    cbn [negb].
    pose proof (entry_load_run s _ _ He) as Hload.
    assert (first_work 0 PdWorkAction_MAX (pending_work (payload n)) s = (Ok (next_work 0 qs), s)) as Hfirst.
    { rewrite Hqs. by rewrite first_work_run. }
    rewrite !(bind_ok _ _ _ _ _ Hload), !(bind_ok _ _ _ _ _ Hfirst).
    destruct (next_work 0 qs) as [[i l]|]; [|done].
    rewrite (bind_ok _ _ _ _ _ (frees_run (take n_object_ids l) s)).
    by rewrite (bind_ok _ _ _ _ _ (entry_store_run _ _ _ _ (pd_at_frees _ _ _ _ He))).
Qed.
End Work.

(** ** The end of a termination *)
Section Termination.
Context `{UTHash} (sys : list xcall -> xcall -> Z * Z).

Lemma finish_idle s n : pending_termination s = false -> finish_termination_work sys n s = (Ok tt, s).
Proof.
  intros Hp. unfold finish_termination_work. erewrite bind_ok by reflexivity. by rewrite Hp.
Qed.

Lemma finish_all_idle s ns : pending_termination s = false ->
  for_each ns (finish_termination_work sys) s = (Ok tt, s).
Proof.
  intros Hp. induction ns as [|n ns IH]; [done|]. simpl.
  by rewrite (bind_ok _ _ _ _ _ (finish_idle s n Hp)).
Qed.

(** what reply_later logs, last call first *)
Definition reply_calls (reply len : Z) : list xcall :=
  [(VkaCspaceFree, [server_vka; reply]); (Send, [reply; len]); (PbEncode, [])].

Lemma reply_later_run s reply : fst (sys (log s) (PbEncode, [])) = 0 ->
  let len := message_words (snd (sys (log s) (PbEncode, []))) in
  reply_later sys reply s = (Ok tt, set_log (reply_calls reply len ++ log s) s).
Proof.
  intros He len. unfold len. unfold reply_later, sel4gpi_rpc_reply. rewrite bind_assoc.
  rewrite (bind_ok _ _ _ _ _ (ext_run sys _ _ s)).
  destruct (sys (log s) (PbEncode, [])) as [e b]. simpl in He. subst e. by destruct s.
Qed.

(** a message that leaves something missing *)
Lemma finish_some s n k : pending_termination s = true -> pd_termination_n_missing s = k ->
  0 <= n < k -> k < 2 ^ 31 ->
  finish_termination_work sys n s = (Ok tt, set_pd_termination_n_missing (k - n) s).
Proof.
  intros Hp Hk Hn Hb. unfold finish_termination_work. erewrite bind_ok by reflexivity.
  rewrite Hp. cbn [negb]. erewrite bind_ok by reflexivity. rewrite Hk.
  unfold u32. rewrite wrap_small by lia. rewrite (proj2 (Z.ltb_ge k n)) by lia.
  rewrite i32_small by lia. erewrite bind_ok by reflexivity.
  change (pd_termination_n_missing (set_pd_termination_n_missing (k - n) s)) with (k - n).
  by rewrite (proj2 (Z.eqb_neq _ _)) by lia.
Qed.

(** the message that completes the count *)
Lemma finish_last s n k : pending_termination s = true -> pd_termination_n_missing s = k ->
  0 < k <= n -> n < 2 ^ 32 -> k < 2 ^ 31 -> fst (sys (log s) (PbEncode, [])) = 0 ->
  exists s', finish_termination_work sys n s = (Ok tt, s') /\ pending_termination s' = false /\
    pd_termination_n_missing s' = 0 /\
    log s' = reply_calls (pd_termination_reply s)
               (message_words (snd (sys (log s) (PbEncode, [])))) ++ log s.
Proof.
  intros Hp Hk Hn Hb1 Hb He. unfold finish_termination_work. erewrite bind_ok by reflexivity.
  rewrite Hp. cbn [negb]. erewrite bind_ok by reflexivity. rewrite Hk.
  unfold u32. rewrite wrap_small by lia.
  assert ((if k <? n then 0 else i32 (k - n)) = 0) as ->.
  { destruct (Z.ltb_spec k n); [done|]. by rewrite i32_small by lia; lia. }
  erewrite bind_ok by reflexivity.
  change (pd_termination_n_missing (set_pd_termination_n_missing 0 s)) with 0. cbn [Z.eqb when].
  erewrite bind_ok by reflexivity.
  set (s1 := set_pending_termination false (set_pd_termination_n_missing 0 s)).
  change (pd_termination_reply (set_pd_termination_n_missing 0 s)) with (pd_termination_reply s).
  assert (log s1 = log s) as El by (by destruct s).
  rewrite (reply_later_run s1) by (by rewrite El). rewrite El.
  eexists. split; [reflexivity|]. by destruct s.
Qed.

(** C26: a termination that waits for [k] pieces of work is answered exactly once:
    while the "finish work" messages that arrived account for fewer than [k]
    pieces, nothing is sent and the count goes down; with the message that reaches
    [k] the client that asked is answered on the capability that was saved, its
    slot is freed and the termination is over; later messages do nothing. *)
Theorem termination_completes (s : server) (ns : list Z) (k : Z)
  (Hpending : pending_termination s = true) (Hk : pd_termination_n_missing s = k)
  (Hrange : 0 < k < 2 ^ 31) (Hns : Forall (fun n => 0 <= n < 2 ^ 32) ns)
  (Henc : fst (sys (log s) (PbEncode, [])) = 0) :
  exists s', for_each ns (finish_termination_work sys) s = (Ok tt, s') /\
    if foldr Z.add 0 ns <? k then
      pending_termination s' = true /\ pd_termination_n_missing s' = k - foldr Z.add 0 ns /\
      log s' = log s
    else
      pending_termination s' = false /\ pd_termination_n_missing s' = 0 /\
      log s' = reply_calls (pd_termination_reply s)
                 (message_words (snd (sys (log s) (PbEncode, [])))) ++ log s.
Proof.
  revert s k Hpending Hk Hrange Henc. induction ns as [|n ns IH]; intros s k Hp Hk Hr He.
  - exists s. split; [done|]. simpl. rewrite (proj2 (Z.ltb_lt 0 k)) by lia. split; [done|]. split; [lia|done].
  - apply Forall_cons in Hns as [Hn Hns]. simpl.
    assert (0 <= foldr Z.add 0 ns) as Hsum.
    { clear -Hns. induction Hns as [|m ns Hm Hns IH]; simpl; lia. }
    destruct (Z.ltb_spec n k) as [Hlt|Hge].
    + rewrite (bind_ok _ _ _ _ _ (finish_some s n k Hp Hk ltac:(lia) ltac:(lia))).
      destruct (IH Hns (set_pd_termination_n_missing (k - n) s) (k - n)) as (s' & Hrun & Hres);
        [exact Hp|done|lia|exact He|].
      exists s'. split; [exact Hrun|].
      replace (n + foldr Z.add 0 ns <? k) with (foldr Z.add 0 ns <? k - n); last first.
      { destruct (Z.ltb_spec (foldr Z.add 0 ns) (k - n)), (Z.ltb_spec (n + foldr Z.add 0 ns) k); lia. }
      destruct (foldr Z.add 0 ns <? k - n).
      * destruct Hres as (H1 & H2 & H3). split; [done|]. split; [lia|exact H3].
      * exact Hres.
    + destruct (finish_last s n k Hp Hk ltac:(lia) ltac:(lia) ltac:(lia) He) as (s1 & Hrun & Hp1 & Hm1 & Hlog).
      rewrite (bind_ok _ _ _ _ _ Hrun), (finish_all_idle s1 ns Hp1). exists s1. split; [done|].
      rewrite (proj2 (Z.ltb_ge _ _)) by lia. done.
Qed.
End Termination.

(** ** Witnesses *)
Section WorkWitnesses.
Definition work_demo (object : Z) (critical : bool) : pd_work_entry_t :=
  WorkEntry (ResId 10 8 object) 2 critical.
Definition queues_demo : list (list pd_work_entry_t) :=
  [[]; []; [work_demo 1 true; work_demo 2 false; work_demo 3 true]; [work_demo 4 true]].
Definition worker_demo : pd_entry_t := PdEntry (pd entry_demo) (Some <$> queues_demo).
Definition work_server : server :=
  set_pd_component (Rcc GPICAP_TYPE_PD 2 (Registry [Node 9 1 1 worker_demo] 100 1 (Some CbPd) 0) 0 9)
    server_zero.
(** the badge of PD 1 for itself *)
Definition badge_demo : Z := badge_of GPICAP_TYPE_PD 1 2 1.

Lemma get_work_fifo_witness :
  handle_get_work_req sys_demo badge_demo work_server =
    (Ok (replied 0 (PdWorkReturn PdWorkAction_FREE [(8, 1, 2); (8, 2, 2); (8, 3, 2)] 2)),
     upd_entry 9 (fun e => set_pending_work (<[2%nat := Some []]> (pending_work e)) e)
       (frees [work_demo 1 true; work_demo 2 false; work_demo 3 true] work_server)).
Proof.
  assert (wf_registry (rc_registry (pd_component work_server))) as Hwf
    by (apply wf_single; split; simpl; lia).
  destruct (get_work_fifo sys_demo work_server badge_demo Hwf) as [_ Hg].
  specialize (Hg (Node 9 1 1 worker_demo) queues_demo ltac:(by apply list_elem_of_singleton)
    eq_refl eq_refl eq_refl).
  change (get_client_id_from_badge badge_demo =? get_object_id_from_badge badge_demo) with true in Hg.
  exact Hg.
Defined.

Definition waiting_demo : server :=
  set_pd_termination_reply 70 (set_pd_termination_n_missing 3 (set_pending_termination true server_zero)).

Lemma termination_completes_witness :
  exists s', for_each [2; 1; 5] (finish_termination_work sys_demo) waiting_demo = (Ok tt, s') /\
    pending_termination s' = false /\ pd_termination_n_missing s' = 0 /\
    log s' = reply_calls 70 1.
Proof.
  destruct (termination_completes sys_demo waiting_demo [2; 1; 5] 3) as (s' & Hrun & Hres);
    [reflexivity|reflexivity|lia|repeat constructor; lia|reflexivity|].
  exists s'. split; [exact Hrun|]. exact Hres.
Defined.
End WorkWitnesses.
