(* ===== verification/Ep.v ===== *)
(** * Endpoints

    Model of [libsel4gpi/src/endpoint_component.c]: endpoint objects, allocated in
    the root task and copied to the cspace of their holder, and the requests on
    them. *)

From stdpp Require Import base numbers list gmap.
From S2P Require Import Prelude Badge Registry State Component PdResources Resspc Mo Ads PdObj.

Definition EP_RPC_MAGIC : Z := 0x4550.

Inductive EpMessage :=
| EpAlloc
| EpGet (for_other_PD : bool)
| EpForge
| EpDisconnect
| EpBadge (badge : Z) (is_core_cap : bool)
| EpUnknown.

(** the reply to a badge request carries the tag of an allocation: its two slots
    are read as those of EpAllocReturnMessage, which has the same layout *)
Inductive EpReturnMessage :=
| EpNoReturn
| EpAllocReturn (slot raw_ep_slot : Z)
| EpGetReturn (slot : Z).

Section Ep.
Context `{UTHash} (sys : list xcall -> xcall -> Z * Z).
Context (run_cb : CB -> nat -> nat -> M server unit).

Definition ep_load (a : nat) : M server ep_t := obj_load ep_p a.

Definition ep_new (ep : nat) : M server Z :=
  r ← ext sys VkaAllocEndpoint [server_vka];
  let '(error, cptr) := r : Z * Z in
  if negb (error =? 0) then mret error else
  obj_store ep_p ep (set_endpoint_in_RT cptr) ;; mret 0.

Definition ep_destroy (ep : nat) : M server unit :=
  e ← ep_load ep;
  ext_ sys VkaCnodeRevoke [server_vka; endpoint_in_RT e] ;;
  ext_ sys VkaFreeObject [endpoint_in_RT e].

Definition on_ep_registry_delete (node arg : nat) : M server unit :=
  e ← ep_load node;
  resource_component_remove_from_rt run_cb ep_component (ep_id e) ;;
  ep_destroy node.

Definition ep_allocate (client_id : Z) (forge : bool) : M server (Z * option nat * Z) :=
  resource_component_allocate sys ep_component ep_p ep_zero set_ep_id ep_new client_id
    BADGE_OBJ_ID_NULL forge true.

(** the error code, [*ret_ep_in_PD] if it was set, and [*ret_badged_ep] *)
Definition ep_component_allocate (client_pd : Z) : M server (Z * option Z * Z) :=
  pd_data ← pd_component_registry_get_entry_by_id client_pd;
  match pd_data with None => mret (DEFAULT_ERR, None, CapNull) | Some pd =>
  r ← ep_allocate client_pd false;
  let '(error, ep_entry, badged_ep) := r : Z * option nat * Z in
  if negb (error =? 0) || (badged_ep =? CapNull) then mret (DEFAULT_ERR, None, badged_ep) else
  ep ← deref ep_entry;
  p ← pd_load pd;
  e ← ep_load ep;
  r ← resource_component_transfer_cap sys server_vka (pd_vka p) (endpoint_in_RT e) false 0;
  let '(error, ep_in_pd) := r : Z * option Z in
  if negb (error =? 0) then mret (error, None, badged_ep)
  else mret (0, ep_in_pd, badged_ep)
  end.

Definition handle_ep_allocation (sender_badge : Z) : M server (handled EpReturnMessage) :=
  r ← ep_component_allocate (get_client_id_from_badge sender_badge);
  let '(error, ep_in_PD, badged_ep) := r : Z * option Z * Z in
  mret (replied error (EpAllocReturn badged_ep (default 0 ep_in_PD))).

Definition handle_ep_disconnect (sender_badge : Z) : M server (handled EpReturnMessage) :=
  let ep_id := get_object_id_from_badge sender_badge in
  pd_data ← pd_component_registry_get_entry_by_id (get_client_id_from_badge sender_badge);
  match pd_data with
  | None => mret (replied DEFAULT_ERR (EpGetReturn 0))
  | Some pd =>
      s ← get_state;
      error ← pd_remove_resource run_cb pd
                (make_res_id GPICAP_TYPE_EP (space_id (ep_component s)) ep_id);
      mret (replied error (EpGetReturn 0))
  end.

Definition ep_get_by_badge (badge : Z) : M server (option nat) :=
  resource_component_registry_get_by_badge ep_p badge.

Definition handle_get_raw_endpoint (m : ipc) (sender_badge : Z) (for_other_PD : bool)
  : M server (handled EpReturnMessage) :=
  let answer error slot := replied error (EpGetReturn slot) in
  if negb (sel4gpi_rpc_check_cap m GPICAP_TYPE_NONE) then mret (answer DEFAULT_ERR 0) else
  pd_data ← (if for_other_PD then resource_component_registry_get_by_badge pd_p (GetBadge m 0)
             else resource_component_registry_get_by_id pd_p (get_client_id_from_badge sender_badge));
  match pd_data with None => mret (answer DEFAULT_ERR 0) | Some pd =>
  ep_data ← ep_get_by_badge sender_badge;
  match ep_data with None => mret (answer DEFAULT_ERR 0) | Some ep =>
  p ← pd_load pd;
  e ← ep_load ep;
  r ← resource_component_transfer_cap sys server_vka (pd_vka p) (endpoint_in_RT e) false 0;
  let '(error, dest) := r : Z * option Z in
  if negb (error =? 0) then mret (answer error 0)
  else mret (answer 0 (default 0 dest))
  end end.

(** the object that is forged has no endpoint *)
Definition handle_forge_req (sender_badge : Z) : M server (handled EpReturnMessage) :=
  r ← ep_allocate (get_client_id_from_badge sender_badge) true;
  let '(error, _, badged_ep) := r : Z * option nat * Z in
  mret (replied error (EpAllocReturn badged_ep 0)).

Definition handle_badge_req (m : ipc) (sender_badge badge : Z) (is_core_cap : bool)
  : M server (handled EpReturnMessage) :=
  let failed error := replied error (EpAllocReturn 0 0) in
  ep_data ← ep_get_by_badge sender_badge;
  match ep_data with None => mret (failed DEFAULT_ERR) | Some ep =>
  dest_pd_data ← pd_component_registry_get_entry_by_badge (GetBadge m 0);
  match dest_pd_data with None => mret (failed DEFAULT_ERR) | Some dest_pd =>
  r ← pd_send_cap sys run_cb dest_pd None CapNull CapNull sender_badge true is_core_cap;
  let '(error, tracked_ep_slot, _) := r : Z * option Z * bool in
  if negb (error =? 0) then mret (failed DEFAULT_ERR) else
  p ← pd_load dest_pd;
  e ← ep_load ep;
  r ← resource_component_transfer_cap sys server_vka (pd_vka p) (endpoint_in_RT e) true badge;
  let '(error, dest) := r : Z * option Z in
  if negb (error =? 0) then mret (failed error)
  else mret (replied 0 (EpAllocReturn (default 0 tracked_ep_slot) (default 0 dest)))
  end end.

Definition ep_component_handle (m : ipc) (magic : Z) (msg : EpMessage) (sender_badge : Z)
  : M server (handled EpReturnMessage) :=
  let invalid := replied DEFAULT_ERR EpNoReturn in
  if negb (magic =? EP_RPC_MAGIC) then mret invalid
  else if (get_object_id_from_badge sender_badge =? BADGE_OBJ_ID_NULL)
          && match msg with EpAlloc | EpForge => false | _ => true end then mret invalid
  else
    match msg with
    | EpAlloc => handle_ep_allocation sender_badge
    | EpDisconnect => handle_ep_disconnect sender_badge
    | EpGet for_other_PD =>
        h ← handle_get_raw_endpoint m sender_badge for_other_PD;
        mret (used_recv_cap for_other_PD h)
    | EpForge => h ← handle_forge_req sender_badge; mret (used_recv_cap true h)
    | EpBadge badge is_core_cap => handle_badge_req m sender_badge badge is_core_cap
    | EpUnknown => mret invalid
    end.

Definition ep_component_initialize : M server unit :=
  space ← default_space sys GPICAP_TYPE_EP;
  s ← get_state;
  resource_component_initialize ep_component set_ep_component GPICAP_TYPE_EP space
    (server_ep_obj s) CbEp.
End Ep.
