(* ===== verification/Server.v ===== *)
(** * The GPI server

    Model of [libsel4gpi/src/gpi_server.c] and resource_component_handle of
    [resource_component_utils.c]: the order in which the components are
    initialized, the dispatch of a message to the component of its badge's type,
    the reply and the receive slot; and the recursion between the registries, whose
    callbacks delete entries of other registries.

    [call_cb n] runs a callback with [n] levels of callbacks under it. *)

From stdpp Require Import base numbers list gmap strings.
From S2P Require Import Prelude Strings Badge Registry LinkedList CapTracking State ResourceTypes Component PdResources Resspc Mo Ads AdsRequests Elf Cpu PdObj Dump PdComponent Ep.

Definition RT_PD_ID : Z := 0.
Definition GPI_SERVER_BADGE_PARENT_VALUE : Z := 0xdeadbeef.

(** the messages of a component *)
Definition request (c : component) : Type :=
  match c with
  | AdsComponent => AdsMessage
  | MoComponent => MoMessage
  | CpuComponent => CpuMessage
  | PdComponent => PdMessage
  | EpComponent => EpMessage
  | ResspcComponent => ResSpcMessage
  end.
Definition return_message (c : component) : Type :=
  match c with
  | AdsComponent => AdsReturnMessage
  | MoComponent => MoReturnMessage
  | CpuComponent => CpuReturnMessage
  | PdComponent => PdReturnMessage
  | EpComponent => EpReturnMessage
  | ResspcComponent => ResSpcReturnMessage
  end.

(** what the server takes from its build, the kernel and the libraries *)
Record platform := Platform {
  GPI_CLEANUP_RS_DEPTH : Z;
  GPI_CLEANUP_PD_DEPTH : Z;
  reservation_type : reservation_types;
  config_x86_64 : bool;
  config_debug_build : bool;
  PD_CAP_ROOT : Z;
  api_make_guard_skip_word : Z -> Z;
  SEL4_USER_CONTEXT_COUNT : Z;
  vcpu_reg_indices : list Z;
  OSM_PD_RUNTIME : Z;
  (* nanopb: the magic number and the message in an IPC buffer, or nothing *)
  pb_decode : forall c : component, list Z -> option (Z * request c);
  (* images: the architecture, SGLIB's sort, the archive and the memory of the root
     task, and the entries of the auxiliary vector *)
  config_arch_arm : bool;
  STACK_CALL_ALIGNMENT : Z;
  sglib_quick_sort : (sel4gpi_elf_region_t -> sel4gpi_elf_region_t -> Z) ->
    list sel4gpi_elf_region_t -> list sel4gpi_elf_region_t;
  elf_newFile : list Z -> option elf_t;
  root_memory : Z -> Z;
  AT_SEL4_IPC_BUFFER_PTR : Z;
  AT_SEL4_TCB : Z;
  AT_OSM_SHARED_DATA : Z;
  (* for the extraction of models *)
  extraction : extraction_env
}.

Section Server.
Context `{UTHash} (sys : list xcall -> xcall -> Z * Z) (P : platform).

(** ** Callbacks *)
Fixpoint call_cb (depth : nat) (cb : CB) (node arg : nat) : M server unit :=
  match depth with
  | O => no_fuel
  | S depth =>
      let run_cb := call_cb depth in
      match cb with
      | CbMo => on_mo_registry_delete sys run_cb node arg
      | CbAds => on_ads_registry_delete sys run_cb node arg
      | CbCpu => on_cpu_registry_delete sys run_cb node arg
      | CbPd => on_pd_registry_delete sys run_cb node arg
      | CbResspc => on_resspc_registry_delete sys run_cb (GPI_CLEANUP_RS_DEPTH P)
                      (GPI_CLEANUP_PD_DEPTH P) node arg
      | CbEp => on_ep_registry_delete sys run_cb node arg
      | CbAttach => on_attach_registry_delete sys run_cb node arg
      | CbHeld => pd_held_resource_on_delete sys run_cb node arg
      | CbLink => pd_linkage_on_delete run_cb node arg
      end
  end.

Context (run_cb : CB -> nat -> nat -> M server unit).

(** ** Requests *)

(** the switch of gpi_server_main *)
Definition component_of_badge (sender_badge : Z) : option component :=
  let cap_type := get_cap_type_from_badge sender_badge in
  if (cap_type =? GPICAP_TYPE_ADS) || (cap_type =? GPICAP_TYPE_VMR) then Some AdsComponent
  else if cap_type =? GPICAP_TYPE_MO then Some MoComponent
  else if cap_type =? GPICAP_TYPE_CPU then Some CpuComponent
  else if cap_type =? GPICAP_TYPE_PD then Some PdComponent
  else if cap_type =? GPICAP_TYPE_RESSPC then Some ResspcComponent
  else if cap_type =? GPICAP_TYPE_EP then Some EpComponent
  else None.

(** loading images and writing stacks, on the platform *)
Definition load_elf : nat -> nat -> nat -> list Z -> M server (Z * Z) :=
  ads_load_elf sys run_cb (reservation_type P) (config_arch_arm P) (sglib_quick_sort P) (elf_newFile P)
    (root_memory P).
Definition write_stack_runtime : nat -> Z -> Z -> Z -> list Z -> M server (Z * Z) :=
  ads_write_stack_runtime sys (STACK_CALL_ALIGNMENT P) (AT_SEL4_IPC_BUFFER_PTR P) (AT_SEL4_TCB P)
    (AT_OSM_SHARED_DATA P).
Definition write_stack_args : nat -> list Z -> Z -> M server (Z * Z) :=
  ads_write_stack_args sys (STACK_CALL_ALIGNMENT P).

(** the request handler of a component; [received_cap] is the receive slot *)
Definition request_handler (c : component) (m : ipc) (magic : Z)
  : request c -> Z -> Z -> M server (handled (return_message c)) :=
  match c with
  | AdsComponent => fun msg sender_badge received_cap =>
      ads_component_handle sys run_cb (reservation_type P) (config_x86_64 P) load_elf
        m magic msg sender_badge
  | MoComponent => fun msg sender_badge received_cap =>
      mo_component_handle sys run_cb magic msg sender_badge
  | CpuComponent => fun msg sender_badge received_cap =>
      cpu_component_handle sys run_cb (SEL4_USER_CONTEXT_COUNT P) (vcpu_reg_indices P)
        m magic msg sender_badge
  | PdComponent => fun msg sender_badge received_cap =>
      pd_component_handle sys run_cb (reservation_type P) (PD_CAP_ROOT P)
        (api_make_guard_skip_word P) (SEL4_USER_CONTEXT_COUNT P) (OSM_PD_RUNTIME P)
        (config_debug_build P) write_stack_runtime write_stack_args
        (extraction P) m magic msg sender_badge received_cap
  | EpComponent => fun msg sender_badge received_cap =>
      ep_component_handle sys run_cb m magic msg sender_badge
  | ResspcComponent => fun msg sender_badge received_cap =>
      resspc_component_handle sys run_cb m magic msg sender_badge
  end.

(** the error code and message that were sent, if a reply was, and the receive slot
    for the next message *)
Definition resource_component_handle (c : component) (m : ipc) (buffer : list Z)
    (sender_badge received_cap : Z) : M server (option (Z * return_message c) * Z) :=
  let decoded := pb_decode P c buffer in
  assert_ (sel4gpi_rpc_recv decoded =? 0) ;;
  decoded ← deref decoded;
  let '(magic, msg) := decoded : Z * request c in
  h ← request_handler c m magic msg sender_badge received_cap;
  (if should_reply h then
     r ← sel4gpi_rpc_reply sys;
     let '(error, len) := r : Z * option Z in
     assert_ (error =? 0) ;;
     ext_ sys ApiReply [default 0 len]
   else mret tt) ;;
  slot ← (if need_new_recv_cap h then
            r ← ext sys VkaCspaceAlloc [server_vka];
            let '(error, slot) := r : Z * Z in
            assert_ (error =? 0) ;;
            mret slot
          else mret received_cap);
  mret (if should_reply h then Some (errorCode h, reply_msg h) else None, slot).

(** the reply to a client: the component, the error code and the message *)
Definition reply : Type := {c : component & (Z * return_message c)%type}.

(** one iteration of the loop of gpi_server_main: the reply, and the receive slot
    of the next iteration *)
Definition gpi_server_step (received_cap : Z) (m : ipc) (buffer : list Z) (sender_badge : Z)
  : M server (option reply * Z) :=
  ext_ sys SetReceivePath [received_cap] ;;
  ext_ sys Recv [] ;;
  match component_of_badge sender_badge with
  | None => crash AssertFail    (* gpi_panic *)
  | Some c =>
      r ← resource_component_handle c m buffer sender_badge received_cap;
      let '(answer, slot) := r : option (Z * return_message c) * Z in
      mret (existT c <$> answer, slot)
  end.

(** before the loop: the parent is answered, and the first receive slot allocated *)
Definition gpi_server_start (sender_badge : Z) : M server Z :=
  ext_ sys Recv [] ;;
  assert_ (sender_badge =? GPI_SERVER_BADGE_PARENT_VALUE) ;;
  ext_ sys ApiReply [1] ;;
  r ← ext sys VkaCspaceAlloc [server_vka];
  let '(error, slot) := r : Z * Z in
  assert_ (error =? 0) ;;
  mret slot.

(** the server handles the messages it receives, one after the other *)
Fixpoint gpi_server_loop (received_cap : Z) (messages : list (ipc * list Z * Z))
  : M server (list (option reply)) :=
  match messages with
  | [] => mret []
  | (m, buffer, sender_badge) :: messages =>
      r ← gpi_server_step received_cap m buffer sender_badge;
      let '(answer, slot) := r : option reply * Z in
      answers ← gpi_server_loop slot messages;
      mret (answer :: answers)
  end.

(** ** Initialization *)

(** the components, the root task's PD and its ADS *)
Definition initialize_components (server_vspace : Z) (reservations : list sel4utils_res_t)
  : M server unit :=
  resource_types_initialize sys ;;
  s ← get_state;
  resspc_component_initialize sys (server_ep_obj s) ;;
  pd_component_initialize sys ;;
  ads_component_initialize sys ;;
  mo_component_initialize sys ;;
  cpu_component_initialize sys ;;
  ep_component_initialize sys ;;
  s ← get_state;
  forge_pd_for_root_task sys (rt_pd_id s) ;;
  r ← forge_ads_cap_from_vspace sys run_cb (config_x86_64 P) server_vspace reservations (rt_pd_id s);
  let '(error, _, id) := r : Z * Z * Z in
  when (error =? 0) (modify (set_rt_ads_id id)).

(** what the label out: undoes *)
Definition spawn_failed (badged_ep error : Z) : M server Z :=
  when (negb (badged_ep =? 0)) (ext_ sys VkaCspaceFree [server_vka; badged_ep]) ;;
  s ← get_state;
  ext_ sys VkaFreeObject [server_ep_obj s] ;;
  mret error.

(** the error code; the last call is answered by gpi_server_start *)
Definition gpi_server_parent_spawn_thread (irqs : list (Z * Z)) (server_vspace : Z)
    (reservations : list sel4utils_res_t) : M server Z :=
  modify (fun s => set_log (log s) (set_next_addr (next_addr s)
                     (set_gen_irqs irqs (set_rt_pd_id RT_PD_ID server_zero)))) ;;
  r ← ext sys VkaAllocEndpoint [server_vka];
  let '(error, ep) := r : Z * Z in
  if negb (error =? 0) then mret error else
  modify (set_server_ep_obj ep) ;;
  initialize_components server_vspace reservations ;;
  r ← ext sys MintObject [server_vka; ep; GPI_SERVER_BADGE_PARENT_VALUE];
  let '(error, badged_ep) := r : Z * Z in
  if negb (error =? 0) then spawn_failed badged_ep error else
  error ← ext_err sys ConfigureThread [ep];
  if negb (error =? 0) then spawn_failed badged_ep error else
  error ← ext_err sys StartThread [];
  if negb (error =? 0) then spawn_failed badged_ep error else
  error ← ext_err sys Call [badged_ep];
  if negb (error =? 0) then spawn_failed badged_ep error else mret 0.
End Server.

(** ** Releasing a memory object: lemmas *)
Section Release.
Context `{UTHash} (sys : list xcall -> xcall -> Z * Z) (P : platform).
Implicit Types (s : server) (a : nat) (e : pd_entry_t).

(** the root task drops a resource without touching its count *)
Lemma held_by_rt_run d s a e n : live_pd s (rt_pd_id s) a e -> n ∈ head (hold_registry (pd e)) ->
  call_cb sys P (S d) CbHeld (n_addr n) a s = (Ok tt, s).
Proof.
  intros Hl Hin. pose proof (live_pd_at _ _ _ _ Hl) as He. simpl call_cb.
  unfold pd_held_resource_on_delete.
  rewrite (bind_ok _ _ _ _ _ (obj_load_run (hold_p a) _ _ n s (hold_rget s a e He)
    (node_at_elem _ _ (wf_addr _ (proj1 (lp_hold _ _ _ _ Hl))) Hin))).
  rewrite (bind_ok _ _ _ _ _ (pd_load_run s a e He)).
  erewrite (bind_ok get_state) by reflexivity. by rewrite (pn_id _ _ _ _ (lp_node _ _ _ _ Hl)), Z.eqb_refl.
Qed.

Definition without (a : nat) {A} (r : registry A CB) : registry A CB := with_head (hash_del (head r) a) r.

Lemma rt_forgets {A} (get : server -> rcc A) d s a e rid n : live_pd s (rt_pd_id s) a e ->
  rid = make_res_id (resource_type (get s)) (space_id (get s)) (rid_object rid) -> res_ok rid ->
  n ∈ head (hold_registry (pd e)) -> object_id n = compact rid ->
  resource_component_remove_from_rt (call_cb sys P (S d)) get (rid_object rid) s =
    (Ok tt, rput (hold_p a) (without (n_addr n) (hold_registry (pd e))) s).
Proof.
  intros Hl Erid Hok Hin Ek. pose proof (live_pd_at _ _ _ _ Hl) as He.
  unfold resource_component_remove_from_rt. erewrite bind_ok by reflexivity. rewrite <- Erid.
  erewrite bind_ok; [reflexivity|]. unfold pd_component_remove_resource_from_rt.
  erewrite (bind_ok get_state) by reflexivity.
  rewrite (bind_ok _ _ _ _ _ (pd_node_find _ _ _ _ (lp_node _ _ _ _ Hl))).
  unfold pd_delete_resource. rewrite (bind_ok _ _ _ _ _ (res_compact_id_run rid s Hok)).
  pose proof (hold_find_present s a e n He (lp_hold _ _ _ _ Hl) Hin) as Hf. rewrite Ek in Hf.
  rewrite (bind_ok _ _ _ _ _ Hf). erewrite bind_ok; [reflexivity|].
  apply (delete_run _ (hold_p a) s s); [by apply hold_rget|apply Hl|done|].
  unfold cb_done. destruct (lp_cb _ _ _ _ Hl) as [-> ->].
  split; [by apply (held_by_rt_run d s a e)|by apply hold_rget].
Qed.

(** the log after the calls that free a list of objects *)
Definition freed (objs : list Z) s : server :=
  set_log (rev ((fun c => (VkaFreeObject, [c])) <$> objs) ++ log s) s.

Lemma set_log_id s : set_log (log s) s = s.
Proof. by destruct s. Qed.

Lemma free_objects_run objs : forall (pre : list Z) s,
  for_each (seq (length pre) (length objs)) (fun i =>
    match (pre ++ objs) !! i with
    | Some cptr => ext_ sys VkaFreeObject [cptr]
    | None => crash OutOfBounds
    end) s = (Ok tt, freed objs s).
Proof.
  induction objs as [|o objs IH]; intros pre s.
  - simpl. unfold freed. simpl. by rewrite set_log_id.
  - simpl. rewrite list_lookup_middle by done. erewrite bind_ok by reflexivity.
    specialize (IH (pre ++ [o]) (called (VkaFreeObject, [o]) s)).
    rewrite length_app in IH. simpl in IH. rewrite Nat.add_1_r, <- app_assoc in IH. simpl in IH.
    etransitivity; [exact IH|]. unfold freed. csimpl. by rewrite <- app_assoc.
Qed.

(** the frames and the three arrays of a memory object are freed *)
Definition mo_freed (objs : list Z) s : server :=
  set_log (repeat (Free, []) 3 ++ log (freed objs s)) (freed objs s).

Lemma mo_destroy_run s r n objs : rget mo_p s = Some r -> node_at (n_addr n) (head r) = Some n ->
  vka_objects (payload n) = Some objs -> num_pages (payload n) = Z.of_nat (length objs) ->
  mo_destroy sys (n_addr n) s = (Ok tt, mo_freed objs s).
Proof.
  intros Hr Hn Ho Hl. unfold mo_destroy, mo_load.
  rewrite (bind_ok _ _ _ _ _ (obj_load_run mo_p _ r n s Hr Hn)). rewrite Ho, Hl, Nat2Z.id.
  by rewrite (bind_ok _ _ _ _ _ (free_objects_run objs [] s)).
Qed.

(** what releases the last reference to a memory object *)
Record last_mo s (n : node mo_t) (objs : list Z) : Prop := {
  lm_wf : wf_registry (rc_registry (mo_component s));
  lm_cb : on_delete (rc_registry (mo_component s)) = Some CbMo;
  lm_in : n ∈ head (rc_registry (mo_component s));
  lm_id : object_id n = mo_id (payload n);
  lm_count : count n = 1;
  lm_objs : vka_objects (payload n) = Some objs;
  lm_pages : num_pages (payload n) = Z.of_nat (length objs)
}.
Definition mo_res s (n : node mo_t) : gpi_res_id_t :=
  make_res_id (resource_type (mo_component s)) (space_id (mo_component s)) (object_id n).

Lemma mo_dec_last_run d s a e n objs h : last_mo s n objs -> live_pd s (rt_pd_id s) a e ->
  res_ok (mo_res s n) -> h ∈ head (hold_registry (pd e)) -> object_id h = compact (mo_res s n) ->
  resource_component_dec (call_cb sys P (S (S d))) mo_p (object_id n) s =
    (Ok 0, rput mo_p (without (n_addr n) (rc_registry (mo_component s)))
             (mo_freed objs (rput (hold_p a) (without (n_addr h) (hold_registry (pd e))) s))).
Proof.
  intros [Hwf Hcb Hin Hid Hc Ho Hp] Hl Hok Hh Eh. set (r := rc_registry (mo_component s)) in *.
  unfold resource_component_dec.
  rewrite (bind_ok _ _ _ _ _ (get_by_id_present mo_p s r n eq_refl Hwf Hin)).
  set (r0 := with_head (hash_upd (head r) (n_addr n) (with_count 0)) r).
  set (s1 := mo_freed objs (rput (hold_p a) (without (n_addr h) (hold_registry (pd e))) (rput mo_p r0 s))).
  erewrite bind_ok; [|apply (dec_run_last _ mo_p s s1 r n); [done..|]].
  { unfold s1. reflexivity. }
  fold r0. unfold cb_done. change (on_delete r0) with (on_delete r). rewrite Hcb.
  split; [|done]. simpl call_cb. unfold on_mo_registry_delete.
  set (n0 := with_count 0 n).
  assert (node_at (n_addr n) (head r0) = Some n0) as Hn0.
  { unfold r0. simpl. rewrite node_at_upd_same by done. by rewrite node_at_elem by (done || apply Hwf). }
  unfold mo_load at 1.
  rewrite (bind_ok _ _ _ _ _ (obj_load_run mo_p _ r0 n0 (rput mo_p r0 s) eq_refl Hn0)).
  change (payload n0) with (payload n). rewrite <- Hid.
  change (object_id n) with (rid_object (mo_res s n)) at 1.
  rewrite (bind_ok _ _ _ _ _ (rt_forgets mo_component d (rput mo_p r0 s) a e (mo_res s n) h
    (live_pd_same s (rput mo_p r0 s) _ _ _ eq_refl Hl) eq_refl Hok Hh Eh)).
  by apply (mo_destroy_run _ r0 n0).
Qed.
End Release.

(** ** Releasing a memory object *)
Section Disconnect.
Context `{UTHash} (sys : list xcall -> xcall -> Z * Z) (P : platform).
Implicit Types (s : server) (a b : nat) (e : pd_entry_t).

(** the only reference to the memory object [n] is the client's, with slot [cap] *)
Record sole_holder s (n : node mo_t) e (h : node pd_hold_node_t) (cap : Z) : Prop := {
  sh_in : h ∈ head (hold_registry (pd e));
  sh_key : object_id h = compact (mo_res s n);
  sh_count : count h = 1;
  sh_res : hold_res_id (payload h) = mo_res s n;
  sh_cap : slot_in_PD_Debug (payload h) = cap /\ cap <> CapNull;
  sh_alive : to_delete (pd e) = false
}.
(** the revocation and the deletion of the client's capability *)
Definition cap_revoked (vka cap : Z) s : server :=
  called (VkaCnodeDelete, [vka; cap]) (called (VkaCnodeRevoke, [vka; cap]) s).

Lemma pd_revoke_cap_run s b e r h cap : pd_at s b e -> rget (hold_p b) s = Some r ->
  node_at (n_addr h) (head r) = Some h -> slot_in_PD_Debug (payload h) = cap -> cap <> CapNull ->
  pd_revoke_cap sys b (n_addr h) s =
    (Ok (fst (sys ((VkaCnodeRevoke, [pd_vka (pd e); cap]) :: log s) (VkaCnodeDelete, [pd_vka (pd e); cap]))),
     cap_revoked (pd_vka (pd e)) cap s).
Proof.
  intros He Hr Hh Hcap Hne. unfold pd_revoke_cap.
  rewrite (bind_ok _ _ _ _ _ (obj_load_run (hold_p b) _ r h s Hr Hh)), Hcap.
  rewrite (bind_ok _ _ _ _ _ (pd_load_run s b e He)).
  by rewrite (proj2 (Z.eqb_neq _ _) Hne).
Qed.

(** the last count of a memory object that a client holds: the callback *)
Lemma held_mo_run d s b e a e' n objs h h' cap r0 :
  resource_type (mo_component s) = GPICAP_TYPE_MO -> res_ok (mo_res s n) -> last_mo s n objs ->
  pd_at s b e -> live_pd s (rt_pd_id s) a e' -> a <> b -> pd_id (pd e) <> rt_pd_id s ->
  to_delete (pd e) = false -> hold_res_id (payload h) = mo_res s n ->
  slot_in_PD_Debug (payload h) = cap -> cap <> CapNull ->
  fst (sys ((VkaCnodeRevoke, [pd_vka (pd e); cap]) :: log s) (VkaCnodeDelete, [pd_vka (pd e); cap])) = 0 ->
  rget (hold_p b) s = Some r0 -> node_at (n_addr h) (head r0) = Some h ->
  h' ∈ head (hold_registry (pd e')) -> object_id h' = compact (mo_res s n) ->
  call_cb sys P (S (S (S d))) CbHeld (n_addr h) b s =
    (Ok tt, rput mo_p (without (n_addr n) (rc_registry (mo_component s)))
              (mo_freed objs (rput (hold_p a) (without (n_addr h') (hold_registry (pd e')))
                 (cap_revoked (pd_vka (pd e)) cap s)))).
Proof.
  intros Htype Hok Hlast He Hrt Hne Hid Halive Hres Hcap Hnull Hdel Hr Hh Hh' Eh'.
  change (call_cb sys P (S (S (S d))) CbHeld (n_addr h) b s) with
    (pd_held_resource_on_delete sys (call_cb sys P (S (S d))) (n_addr h) b s).
  unfold pd_held_resource_on_delete.
  rewrite (bind_ok _ _ _ _ _ (obj_load_run (hold_p b) _ r0 h s Hr Hh)).
  rewrite (bind_ok _ _ _ _ _ (pd_load_run s b e He)).
  erewrite (bind_ok get_state) by reflexivity.
  rewrite (proj2 (Z.eqb_neq _ _) Hid), Halive. cbn [negb].
  rewrite (bind_ok _ _ _ _ _ (pd_revoke_cap_run s b e r0 h cap He Hr Hh Hcap Hnull)), Hdel.
  rewrite Hres. change (rid_type (mo_res s n)) with (resource_type (mo_component s)). rewrite Htype.
  change (rid_object (mo_res s n)) with (object_id n).
  set (s1 := cap_revoked (pd_vka (pd e)) cap s).
  assert (last_mo s1 n objs) as Hlast1 by (by destruct Hlast).
  assert (live_pd s1 (rt_pd_id s1) a e') as Hrt1 by (by apply (live_pd_same s)).
  pose proof (mo_dec_last_run sys P d s1 a e' n objs h' Hlast1 Hrt1 Hok Hh' Eh') as Hdec.
  change (GPICAP_TYPE_MO =? GPICAP_TYPE_ADS) with false.
  change (GPICAP_TYPE_MO =? GPICAP_TYPE_CPU) with false. rewrite !Z.eqb_refl.
  cbn [negb]. by rewrite (bind_ok _ _ _ _ _ Hdec).
Qed.

Lemma holds_without e h : hold_ok e -> h ∈ head (hold_registry (pd e)) ->
  wf_registry (without (n_addr h) (hold_registry (pd e))) /\
  reg_abs (without (n_addr h) (hold_registry (pd e))) = delete (object_id h) (holds e).
Proof. intros [Hwf _] Hh. split; [by apply wf_hash_del|by apply reg_abs_del]. Qed.

(** the server when the callbacks are done: [r0] is the client's registry with the
    count at 0 *)
Definition mo_released s (n : node mo_t) (objs : list Z) b e (h : node pd_hold_node_t) a e'
    (h' : node pd_hold_node_t) (cap : Z) : server :=
  let r := hold_registry (pd e) in
  let r0 := with_head (hash_upd (head r) (n_addr h) (with_count 0)) r in
  rput mo_p (without (n_addr n) (rc_registry (mo_component s)))
    (mo_freed objs (rput (hold_p a) (without (n_addr h') (hold_registry (pd e')))
       (cap_revoked (pd_vka (pd e)) cap (rput (hold_p b) r0 s)))).

Section Sole.
Context (s : server) (client cap : Z) (n : node mo_t) (objs : list Z) (b a : nat) (e e' : pd_entry_t).
Context (h h' : node pd_hold_node_t).
Hypotheses (Hlast : last_mo s n objs) (Hok : res_ok (mo_res s n)).
Hypotheses (Htype : resource_type (mo_component s) = GPICAP_TYPE_MO).
Hypotheses (Hclient : live_pd s client b e) (Hrt : live_pd s (rt_pd_id s) a e').
Hypotheses (Hid : client <> rt_pd_id s) (Hab : a <> b).
Hypotheses (Hsole : sole_holder s n e h cap).
Hypotheses (Hh' : h' ∈ head (hold_registry (pd e'))) (Eh' : object_id h' = compact (mo_res s n)).
Let r0 := with_head (hash_upd (head (hold_registry (pd e))) (n_addr h) (with_count 0)) (hold_registry (pd e)).
Let s2 := rput (hold_p a) (without (n_addr h') (hold_registry (pd e')))
            (cap_revoked (pd_vka (pd e)) cap (rput (hold_p b) r0 s)).
Let s3 := mo_released s n objs b e h a e' h' cap.

Lemma released_client : pd_node s3 client b (on_pd (set_hold_registry r0) e).
Proof.
  pose proof (live_pd_at _ _ _ _ Hclient) as He.
  pose proof (live_pd_put_other s (rt_pd_id s) b a e e' r0 He Hrt (not_eq_sym Hab)) as Hrt0.
  apply (pd_node_same s2); [done|].
  apply (pd_node_put_other _ _ a b e'); [|by apply (pd_node_same (rput (hold_p b) r0 s)), pd_node_put, Hclient|done].
  by apply (live_pd_at _ (rt_pd_id s)), (live_pd_same (rput (hold_p b) r0 s)).
Qed.

Lemma released_rt : live_pd s3 (rt_pd_id s) a
  (on_pd (set_hold_registry (without (n_addr h') (hold_registry (pd e')))) e').
Proof.
  pose proof (live_pd_at _ _ _ _ Hclient) as He.
  pose proof (live_pd_put_other s (rt_pd_id s) b a e e' r0 He Hrt (not_eq_sym Hab)) as Hrt0.
  apply (live_pd_same s2); [done|].
  apply live_pd_put; [by apply (pd_node_same (rput (hold_p b) r0 s)), Hrt0| |apply Hrt|apply Hrt|apply Hrt].
  by apply (holds_without e' h'); [apply Hrt|].
Qed.

(** the client's last count goes, and everything with it *)
Lemma pd_remove_last_mo_run d :
  fst (sys ((VkaCnodeRevoke, [pd_vka (pd e); cap]) :: log s) (VkaCnodeDelete, [pd_vka (pd e); cap])) = 0 ->
  pd_remove_resource (call_cb sys P (S (S (S d)))) b (mo_res s n) s =
    (Ok 0, rput (hold_p b) (without (n_addr h) (hold_registry (pd e))) s3).
Proof.
  intros Hdel. destruct Hsole as [Hh Eh Hc Hres [Hcap Hnull] Halive].
  pose proof (live_pd_at _ _ _ _ Hclient) as He.
  assert (pd_at (rput (hold_p b) r0 s) b (on_pd (set_hold_registry r0) e)) as He0 by (by apply (hold_rput s b e)).
  unfold pd_remove_resource.
  rewrite (bind_ok _ _ _ _ _ (res_compact_id_run _ s Hok)), <- Eh.
  rewrite (bind_ok _ _ _ _ _ (hold_find_present s b e h He (lp_hold _ _ _ _ Hclient) Hh)).
  erewrite bind_ok; [reflexivity|].
  apply (dec_run_last _ (hold_p b) s s3 _ h); [by apply hold_rget|apply Hclient|done|done|].
  fold r0. unfold cb_done. destruct (lp_cb _ _ _ _ Hclient) as [Hcb Harg].
  change (on_delete r0) with (on_delete (hold_registry (pd e))).
  change (on_delete_arg r0) with (on_delete_arg (hold_registry (pd e))). rewrite Hcb, Harg.
  split; [|exact (hold_rget s3 b _ (pd_node_at s3 _ _ _ released_client))].
  assert (node_at (n_addr h) (head r0) = Some (with_count 0 h)) as Hh0.
  { unfold r0. simpl. rewrite node_at_upd_same by done.
    by rewrite (node_at_elem _ h (wf_addr _ (proj1 (lp_hold _ _ _ _ Hclient))) Hh). }
  apply (held_mo_run d (rput (hold_p b) r0 s) b (on_pd (set_hold_registry r0) e) a e' n objs
           (with_count 0 h) h' cap r0); try done.
  - by destruct Hlast.
  - by apply (live_pd_put_other s (rt_pd_id s) b a e e' r0 He Hrt), not_eq_sym.
  - change (pd_id (pd (on_pd (set_hold_registry r0) e))) with (pd_id (pd e)).
    by rewrite (pn_id _ _ _ _ (lp_node _ _ _ _ Hclient)).
  - exact (hold_rget _ b _ He0).
Qed.
End Sole.

(** what is left when the last reference was given back: the calls that were made, the
    objects [objs] freed in order, and what the client [e1] and the root task [e1'] hold *)
Record mo_disconnected s client cap (n : node mo_t) (objs : list Z) b a e e' s' e1 e1' : Prop := {
  di_log : log s' = repeat (Free, []) 3 ++ rev ((fun c => (VkaFreeObject, [c])) <$> objs) ++
             [(VkaCnodeDelete, [pd_vka (pd e); cap]); (VkaCnodeRevoke, [pd_vka (pd e); cap])] ++ log s;
  di_abs : reg_abs (rc_registry (mo_component s')) =
             delete (object_id n) (reg_abs (rc_registry (mo_component s)));
  di_client : live_pd s' client b e1;
  di_client_holds : holds e1 = delete (compact (mo_res s n)) (holds e);
  di_rt : live_pd s' (rt_pd_id s) a e1';
  di_rt_holds : holds e1' = delete (compact (mo_res s n)) (holds e')
}.

Lemma mo_disconnect_run (d : nat) s (badge cap : Z) (n : node mo_t) (objs : list Z)
  (b a : nat) (e e' : pd_entry_t) (h h' : node pd_hold_node_t) :
  resource_type (mo_component s) = GPICAP_TYPE_MO -> get_object_id_from_badge badge = object_id n ->
  last_mo s n objs -> res_ok (mo_res s n) ->
  live_pd s (get_client_id_from_badge badge) b e -> live_pd s (rt_pd_id s) a e' ->
  get_client_id_from_badge badge <> rt_pd_id s -> a <> b -> sole_holder s n e h cap ->
  h' ∈ head (hold_registry (pd e')) -> object_id h' = compact (mo_res s n) ->
  fst (sys ((VkaCnodeRevoke, [pd_vka (pd e); cap]) :: log s) (VkaCnodeDelete, [pd_vka (pd e); cap])) = 0 ->
  exists s' e1 e1', handle_mo_disconnect_request (call_cb sys P (S (S (S d)))) badge s =
      (Ok (replied 0 MoBasicReturn), s') /\
    mo_disconnected s (get_client_id_from_badge badge) cap n objs b a e e' s' e1 e1'.
Proof.
  intros Htype Hobj Hlast Hok Hclient Hrt Hid Hab Hsole Hh' Eh' Hdel.
  pose proof (sh_in _ _ _ _ _ Hsole) as Hh. pose proof (sh_key _ _ _ _ _ Hsole) as Eh.
  set (client := get_client_id_from_badge badge) in *.
  pose proof (released_client s client cap n objs b a e e' h h' Hclient Hrt Hab) as Hb3.
  pose proof (released_rt s client cap n objs b a e e' h h' Hclient Hrt Hab Hh') as Ha3.
  set (s3 := mo_released s n objs b e h a e' h' cap) in *.
  destruct (holds_without e h (lp_hold _ _ _ _ Hclient) Hh) as [Hwfb Habsb]. rewrite Eh in Habsb.
  destruct (holds_without e' h' (lp_hold _ _ _ _ Hrt) Hh') as [Hwfa Habsa]. rewrite Eh' in Habsa.
  exists (rput (hold_p b) (without (n_addr h) (hold_registry (pd e))) s3).
  eexists _, (on_pd (set_hold_registry (without (n_addr h') (hold_registry (pd e')))) e').
  split; [|split; [reflexivity|by apply reg_abs_del; apply Hlast|..]].
  - unfold handle_mo_disconnect_request.
    rewrite (bind_ok _ _ _ _ _ (pd_node_find _ _ _ _ (lp_node _ _ _ _ Hclient))).
    erewrite (bind_ok get_state) by reflexivity. rewrite Hobj, <- Htype.
    change (make_res_id _ _ _) with (mo_res s n).
    by rewrite (bind_ok _ _ _ _ _ (pd_remove_last_mo_run s client cap n objs b a e e' h h' Hlast Hok
      Htype Hclient Hrt Hid Hab Hsole Hh' Eh' d Hdel)).
  - apply live_pd_put; [exact Hb3|done|apply Hclient|apply Hclient|apply Hclient].
  - exact Habsb.
  - apply (live_pd_put_other s3 _ b a _ _ _ (pd_node_at s3 _ _ _ Hb3) Ha3), not_eq_sym, Hab.
  - exact Habsa.
Qed.

(** C2: giving back the last reference to a memory object releases everything about
    it, and the chain of deletion callbacks ends: the client's capability is revoked
    and deleted, every frame of the object is freed exactly once and in order, its
    arrays are freed, and the object is forgotten by the client, by the root task
    and by the registry of memory objects, while all else that the two PDs hold
    stays; the reply is a success. *)
Theorem mo_disconnect_releases (d : nat) s (badge cap : Z) (n : node mo_t) (objs : list Z)
  (b a : nat) (e e' : pd_entry_t) (h h' : node pd_hold_node_t)
  (Htype : resource_type (mo_component s) = GPICAP_TYPE_MO)
  (Hobj : get_object_id_from_badge badge = object_id n)
  (Hlast : last_mo s n objs) (Hok : res_ok (mo_res s n))
  (Hclient : live_pd s (get_client_id_from_badge badge) b e) (Hrt : live_pd s (rt_pd_id s) a e')
  (Hne : get_client_id_from_badge badge <> rt_pd_id s /\ a <> b)
  (Hsole : sole_holder s n e h cap)
  (Hrth : h' ∈ head (hold_registry (pd e')) /\ object_id h' = compact (mo_res s n))
  (Hdel : fst (sys ((VkaCnodeRevoke, [pd_vka (pd e); cap]) :: log s)
                 (VkaCnodeDelete, [pd_vka (pd e); cap])) = 0) :
  exists s' e1 e1', handle_mo_disconnect_request (call_cb sys P (S (S (S d)))) badge s =
      (Ok (replied 0 MoBasicReturn), s') /\
    log s' = repeat (Free, []) 3 ++ rev ((fun c => (VkaFreeObject, [c])) <$> objs) ++
             [(VkaCnodeDelete, [pd_vka (pd e); cap]); (VkaCnodeRevoke, [pd_vka (pd e); cap])] ++ log s /\
    reg_abs (rc_registry (mo_component s')) =
      delete (object_id n) (reg_abs (rc_registry (mo_component s))) /\
    live_pd s' (get_client_id_from_badge badge) b e1 /\
    holds e1 = delete (compact (mo_res s n)) (holds e) /\
    live_pd s' (rt_pd_id s) a e1' /\ holds e1' = delete (compact (mo_res s n)) (holds e').
Proof.
  destruct Hne as [Hid Hab], Hrth as [Hh' Eh'].
  destruct (mo_disconnect_run d s badge cap n objs b a e e' h h' Htype Hobj Hlast Hok Hclient Hrt Hid Hab Hsole
    Hh' Eh' Hdel) as (s' & e1 & e1' & Hrun & []).
  by exists s', e1, e1'.
Qed.
End Disconnect.

(** ** Requests that are rejected *)
Section Rejected.
Context `{UTHash} (sys : list xcall -> xcall -> Z * Z) (P : platform).
Context (run_cb : CB -> nat -> nat -> M server unit).
Implicit Types (s : server) (c : component).

(** the magic number that the handler of a badge expects *)
Definition expected_magic c (badge : Z) : Z :=
  match c with
  | AdsComponent => if get_cap_type_from_badge badge =? GPICAP_TYPE_VMR then VMR_RPC_MAGIC else ADS_RPC_MAGIC
  | MoComponent => MO_RPC_MAGIC
  | CpuComponent => CPU_RPC_MAGIC
  | PdComponent => PD_RPC_MAGIC
  | EpComponent => EP_RPC_MAGIC
  | ResspcComponent => RESSPC_RPC_MAGIC
  end.

(** the badge of the endpoint that allocates objects: it names no object *)
Definition allocation_endpoint s c (badge : Z) : bool :=
  (get_object_id_from_badge badge =? BADGE_OBJ_ID_NULL) &&
  match c with
  | AdsComponent => (get_cap_type_from_badge badge =? GPICAP_TYPE_VMR)
                    || (get_space_id_from_badge badge =? space_id (ads_component s))
  | _ => true
  end.

(** the requests it serves *)
Definition served_there c (badge : Z) : request c -> bool :=
  match c with
  | AdsComponent => fun msg =>
      if get_cap_type_from_badge badge =? GPICAP_TYPE_VMR then
        match msg with VmrReserve _ _ _ _ | VmrAttachNoReserve _ _ | VmrDeleteByVaddr _ => true | _ => false end
      else match msg with AdsAlloc => true | _ => false end
  | MoComponent => fun msg => match msg with MoAlloc _ _ _ => true | _ => false end
  | CpuComponent => fun msg => match msg with CpuAlloc => true | _ => false end
  | PdComponent => fun msg => match msg with PdAlloc => true | _ => false end
  | EpComponent => fun msg => match msg with EpAlloc | EpForge => true | _ => false end
  | ResspcComponent => fun msg => match msg with ResSpcAlloc _ _ => true | _ => false end
  end.

Definition rejected s c (badge magic : Z) (msg : request c) : bool :=
  negb (magic =? expected_magic c badge) ||
  (allocation_endpoint s c badge && negb (served_there c badge msg)).

Lemma rejected_run s c m magic (msg : request c) badge received_cap :
  rejected s c badge magic msg = true ->
  exists reply, request_handler sys P run_cb c m magic msg badge received_cap s =
    (Ok (replied DEFAULT_ERR reply), s).
Proof.
  unfold rejected, allocation_endpoint. intros Hr.
  destruct c; cbn [request_handler expected_magic served_there] in *;
    unfold ads_component_handle, vmr_component_handle, mo_component_handle, cpu_component_handle,
      pd_component_handle, ep_component_handle, resspc_component_handle;
    try (destruct (magic =? _) eqn:Em; cbn [negb orb] in *; [|by eexists];
         rewrite andb_true_r in Hr; apply andb_true_iff in Hr as [-> Hr];
         destruct msg; try discriminate; by eexists).
  destruct (get_cap_type_from_badge badge =? GPICAP_TYPE_VMR); cbn [orb] in Hr.
  - destruct (magic =? _); cbn [negb orb] in *; [|by eexists].
    rewrite andb_true_r in Hr. apply andb_true_iff in Hr as [-> Hr].
    destruct msg; try discriminate; by eexists.
  - destruct (magic =? _); cbn [negb orb] in *; [|by eexists].
    erewrite bind_ok by reflexivity. apply andb_true_iff in Hr as [-> Hr].
    destruct msg; try discriminate; by eexists.
Qed.

(** what the server receives before it handles a message *)
Definition received (received_cap : Z) s : server :=
  called (Recv, []) (called (SetReceivePath, [received_cap]) s).

Lemma rejected_reply_run s c m buffer badge received_cap magic (msg : request c) :
  pb_decode P c buffer = Some (magic, msg) -> rejected s c badge magic msg = true ->
  fst (sys (log s) (PbEncode, [])) = 0 ->
  exists reply len, resource_component_handle sys P run_cb c m buffer badge received_cap s =
    (Ok (Some (DEFAULT_ERR, reply), received_cap), called (ApiReply, [len]) (called (PbEncode, []) s)).
Proof.
  intros Hmsg Hbad Hencode.
  destruct (rejected_run s c m magic msg badge received_cap Hbad) as (reply & Hrun).
  destruct (sys (log s) (PbEncode, [])) as [error bytes] eqn:Es. simpl in Hencode. subst error.
  exists reply, (message_words bytes). unfold resource_component_handle. rewrite Hmsg.
  erewrite bind_ok by reflexivity. erewrite bind_ok by reflexivity. cbv beta iota.
  rewrite (bind_ok _ _ _ _ _ Hrun). cbn [should_reply replied need_new_recv_cap].
  assert (sel4gpi_rpc_reply sys s = (Ok (0, Some (message_words bytes)), called (PbEncode, []) s)) as Hreply.
  { unfold sel4gpi_rpc_reply. rewrite (bind_ok _ _ _ _ _ (ext_run sys _ _ s)). by rewrite Es. }
  rewrite bind_assoc, (bind_ok _ _ _ _ _ Hreply). reflexivity.
Qed.

(** C39: a request that its component does not serve has no effect: with a wrong
    magic number, or on an allocation endpoint with anything but what it serves,
    the client is answered with an error, the receive slot stays for the next
    message, and nothing of the server's state changes but the record of its calls. *)
Theorem invalid_request_no_effect s c (m : ipc) (buffer : list Z) (badge received_cap magic : Z)
  (msg : request c) (Hc : component_of_badge badge = Some c)
  (Hmsg : pb_decode P c buffer = Some (magic, msg)) (Hbad : rejected s c badge magic msg = true)
  (Hencode : fst (sys (log (received received_cap s)) (PbEncode, [])) = 0) :
  exists reply l, gpi_server_step sys P run_cb received_cap m buffer badge s =
    (Ok (Some (existT c (DEFAULT_ERR, reply)), received_cap), set_log l s).
Proof.
  destruct (rejected_reply_run (received received_cap s) c m buffer badge received_cap magic msg
    Hmsg Hbad Hencode) as (reply & len & Hrun).
  exists reply. eexists. unfold gpi_server_step. erewrite bind_ok by reflexivity.
  erewrite bind_ok by reflexivity. rewrite Hc.
  change (called (Recv, []) _) with (received received_cap s).
  rewrite (bind_ok _ _ _ _ _ Hrun). reflexivity.
Qed.

(** a message that cannot be decoded, or whose badge has the type of no
    component, stops the server: its assertion, or its panic, is on what the client
    sent. *)
Theorem malformed_message_stops s (m : ipc) (buffer : list Z) (badge received_cap : Z)
  (Hbad : match component_of_badge badge with
          | Some c => pb_decode P c buffer = None
          | None => True
          end) :
  stops (gpi_server_step sys P run_cb received_cap m buffer badge) s AssertFail.
Proof.
  exists (received received_cap s). unfold gpi_server_step. erewrite bind_ok by reflexivity.
  erewrite bind_ok by reflexivity. change (called (Recv, []) _) with (received received_cap s).
  destruct (component_of_badge badge) as [c|]; [|done].
  apply bind_crash. unfold resource_component_handle. rewrite Hbad. by apply bind_crash.
Qed.
End Rejected.

(** ** Witnesses *)
Section ServerWitnesses.
Definition platform_with (decode : forall c : component, list Z -> option (Z * request c)) : platform :=
  Platform (-1) (-1) (ReservationTypes 0 1 2 3 20 4 5 6 7 8 9) false true 1 (fun x => x) 36 [] 1 decode
    false 16 (fun _ l => l) (fun _ => None) (fun _ => 0) 64 65 66
    (ExtractionEnv (fun _ => chars "GENERIC") 1 376 (fun _ _ => None)).
Definition platform_demo : platform :=
  platform_with
    (fun c words => match c return option (Z * request c) with
                    | MoComponent => if bool_decide (words = []) then None else Some (MO_RPC_MAGIC, MoDisconnect)
                    | PdComponent => Some (0, PdGetWork)
                    | _ => None
                    end).

(** the PD [id] at [addr] holds the memory object 7 of space 4 once, with slot [slot] *)
Definition holder (id : Z) (addr : nat) (hold_addr : nat) (slot : Z) : node pd_entry_t :=
  Node addr id 1 (PdEntry (set_hold_registry
    (Registry [Node hold_addr (compact mo_id_demo) 1 (HoldNode slot 0 0 mo_id_demo)] (BADGE_MAX - 1) 0
       (Some CbHeld) addr) (set_pd_vka 50 (set_pd_id id pd_zero))) (repeat (Some []) PdWorkAction_MAX)).
Definition mo_node_demo : node mo_t := Node 15 7 1 (Mo 7 (Some [101; 102]) (Some [101; 102]) (Some [0; 4096]) 2 12).
Definition mo_server : server :=
  set_mo_component (Rcc GPICAP_TYPE_MO 4 (Registry [mo_node_demo] 1000 7 (Some CbMo) 0) 0 9)
    (set_pd_component (Rcc GPICAP_TYPE_PD 2 (Registry [holder 0 8 31 0; holder 1 9 32 30] 100 1
                                               (Some CbPd) 0) 0 9) server_zero).

Lemma holder_live id addr ha slot : In (id, addr, ha, slot) [(0, 8%nat, 31%nat, 0); (1, 9%nat, 32%nat, 30)] ->
  live_pd mo_server id addr (payload (holder id addr ha slot)).
Proof.
  intros [[= <- <- <- <-]|[[= <- <- <- <-]|[]]];
  (split; [split; [split| |reflexivity]|split; [apply wf_single; split; [simpl; lia|by vm_compute]|reflexivity]|by split]);
  try (by apply (bool_decide_unpack _); vm_compute; exact I).
  all: try (repeat (apply Forall_cons; split); [| |apply Forall_nil_2]; split; simpl; lia).
  - eexists. split; [left|done].
  - eexists. split; [right; left|done].
Qed.

Lemma mo_disconnect_releases_witness :
  exists s', handle_mo_disconnect_request (call_cb sys_demo platform_demo 3)
      (badge_of GPICAP_TYPE_MO 1 4 7) mo_server = (Ok (replied 0 MoBasicReturn), s') /\
    log s' = [(Free, []); (Free, []); (Free, []); (VkaFreeObject, [102]); (VkaFreeObject, [101]);
              (VkaCnodeDelete, [50; 30]); (VkaCnodeRevoke, [50; 30])].
Proof.
  destruct (mo_disconnect_releases sys_demo platform_demo 0 mo_server (badge_of GPICAP_TYPE_MO 1 4 7) 30
    mo_node_demo [101; 102] 9 8 (payload (holder 1 9 32 30)) (payload (holder 0 8 31 0))
    (Node 32 (compact mo_id_demo) 1 (HoldNode 30 0 0 mo_id_demo))
    (Node 31 (compact mo_id_demo) 1 (HoldNode 0 0 0 mo_id_demo)))
    as (s' & e1 & e1' & Hrun & Hlog & _).
  - reflexivity.
  - reflexivity.
  - split; [apply wf_single; split; [simpl; lia|by vm_compute]|reflexivity|left|reflexivity..].
  - exact mo_id_demo_ok.
  - apply holder_live. right. by left.
  - apply holder_live. by left.
  - split; [by vm_compute|done].
  - split; [left|reflexivity|reflexivity|reflexivity|split; [reflexivity|done]|reflexivity].
  - split; [left|reflexivity].
  - reflexivity.
  - exists s'. split; [exact Hrun|exact Hlog].
Defined.

(** a request with the wrong magic number *)
Lemma invalid_request_no_effect_witness :
  exists reply l, gpi_server_step sys_demo platform_demo cb_demo 5 (Ipc 0 []) [1] (badge_of GPICAP_TYPE_PD 1 2 1)
      mo_server = (Ok (Some (existT PdComponent (DEFAULT_ERR, reply)), 5), set_log l mo_server).
Proof.
  apply (invalid_request_no_effect sys_demo platform_demo cb_demo mo_server PdComponent (Ipc 0 []) [1]
    (badge_of GPICAP_TYPE_PD 1 2 1) 5 0 PdGetWork); reflexivity.
Defined.

(** an empty message to the memory object component *)
Lemma malformed_message_stops_witness :
  stops (gpi_server_step sys_demo platform_demo cb_demo 5 (Ipc 0 []) [] (badge_of GPICAP_TYPE_MO 1 4 7))
    mo_server AssertFail.
Proof. apply malformed_message_stops. reflexivity. Defined.
End ServerWitnesses.
