(* ===== verification/Invariant.v ===== *)
(** * The registries stay consistent: the invariant and the operations on registries

    [consistent] speaks of every registry of the server: the seven of the components
    and of the resource types, and those inside the objects, which are what every PD
    holds and the PDs it is linked to, and the attached regions of every address
    space and their map of identifiers.  Of each it says that the nodes are distinct
    allocations, that the maximum keeps to the width of the identifiers, and that
    every object carries the identifier it is registered under; and, where the code
    keeps them distinct, that identifiers are distinct and in range.  The code does
    not keep them distinct in three places ([reg_fit False] below): an address space
    is registered under the identifier of its VMR space, an attached region under an
    address that the virtual memory library has reserved, and the links of a PD all
    under identifier 0.  This file shows that the operations of the registries keep
    it, for a pointer to any registry of the server: a pointer is [Tracked], with
    what the invariant says of its registry, and so [Closed] under deletion and
    counting.  The file Preservation carries it through every request. *)

From stdpp Require Import base numbers list gmap.
From S2P Require Import Prelude Badge Registry State ResourceTypes Component PdResources.

(** ** The invariant *)
Section Fit.
Context {A : Type}.
Implicit Types (r : registry A CB) (n : node A) (fit : nat -> Z -> A -> Prop).

(** the node was allocated before [N], and its payload fits its identifier *)
Definition node_fit fit (N : nat) n : Prop := (n_addr n < N)%nat /\ fit N (object_id n) (payload n).

Definition ids_ok r : Prop :=
  NoDup (object_id <$> head r) /\ Forall (fun n => 0 <= object_id n <= max_object_id r) (head r).

Record reg_fit (unique : Prop) (bound : Z) fit (N : nat) r : Prop := {
  rf_addr : NoDup (n_addr <$> head r);
  rf_ids : unique -> ids_ok r;
  rf_max : max_object_id r < bound;
  rf_nodes : Forall (node_fit fit N) (head r)
}.

(** an object that has its identifier in a field *)
Definition named (get : A -> Z) (N : nat) (id : Z) (x : A) : Prop := get x = id.
End Fit.

(** a hold node is keyed by the compact identifier of its resource *)
Definition hold_fit (N : nat) (id : Z) (h : pd_hold_node_t) : Prop :=
  forall t, res_compact_id (hold_res_id h) t = (Ok id, t).
(** where the object itself does not carry the identifier: the name of a resource
    type, the address of an attached region, the PD of a link *)
Definition plain_fit {A} (N : nat) (id : Z) (x : A) : Prop := True.
Abbreviation type_fit := (@plain_fit (list Z)).

Record pd_fit (N : nat) (id : Z) (e : pd_entry_t) : Prop := {
  pf_id : pd_id (pd e) = id;
  pf_hold : reg_fit True (2 ^ 64) hold_fit N (hold_registry (pd e));
  pf_linked : reg_fit False (2 ^ 64) plain_fit N (linked_registry (pd e))
}.
Record ads_fit (N : nat) (id : Z) (a : ads_t) : Prop := {
  af_id : ads_id a = id;
  af_attach : reg_fit False (2 ^ 64) (named att_vaddr) N (attach_registry a);
  af_map : reg_fit True (2 ^ 32) plain_fit N (attach_id_to_vaddr_map a)
}.

Record all_fit (N : nat) (ads : registry ads_t CB) (mo : registry mo_t CB) (cpu : registry cpu_t CB)
    (pd : registry pd_entry_t CB) (spc : registry res_space_t CB) (ep : registry ep_t CB)
    (types : registry (list Z) CB) : Prop := {
  fit_ads : reg_fit False (2 ^ 32) ads_fit N ads;
  fit_mo : reg_fit True (2 ^ 32) (named mo_id) N mo;
  fit_cpu : reg_fit True (2 ^ 32) (named cpu_id) N cpu;
  fit_pd : reg_fit True (2 ^ 32) pd_fit N pd;
  fit_spc : reg_fit True (2 ^ 32) (named spc_id) N spc;
  fit_ep : reg_fit True (2 ^ 32) (named ep_id) N ep;
  fit_types : reg_fit True (2 ^ 32) type_fit N types
}.

Definition fits (N : nat) (s : server) : Prop :=
  all_fit N (rc_registry (ads_component s)) (rc_registry (mo_component s))
    (rc_registry (cpu_component s)) (rc_registry (pd_component s))
    (rc_registry (resspc_component s)) (rc_registry (ep_component s)) (resource_types s).

Definition consistent (s : server) : Prop := fits (next_addr s) s.
Abbreviation keeps m := (preserves consistent m).

(** ** Registries *)
Section RegFit.
Context {A : Type} (unique : Prop) (bound : Z) (fit : nat -> Z -> A -> Prop).
Implicit Types (r : registry A CB) (n : node A).

(** what the invariant sees of a node *)
Definition key n : nat * Z * A := (n_addr n, object_id n, payload n).

(** nodes are unlinked or counted, nothing else *)
Definition shrinks r r' : Prop :=
  max_object_id r' = max_object_id r /\ sublist (key <$> head r') (key <$> head r).

Lemma key_addr (l : list (node A)) : n_addr <$> l = (fst ∘ fst) <$> (key <$> l).
Proof. by rewrite <- list_fmap_compose. Qed.
Lemma key_id (l : list (node A)) : object_id <$> l = (snd ∘ fst) <$> (key <$> l).
Proof. by rewrite <- list_fmap_compose. Qed.

Lemma Forall_key (Q : nat -> Z -> A -> Prop) l l' : sublist (key <$> l') (key <$> l) ->
  Forall (fun n => Q (n_addr n) (object_id n) (payload n)) l ->
  Forall (fun n => Q (n_addr n) (object_id n) (payload n)) l'.
Proof.
  intros Hs Hl. apply Forall_forall. intros n Hn.
  assert (key n ∈ key <$> l) as (m & E & Hm)%list_elem_of_fmap.
  { apply (elem_of_sublist (key <$> l') _ _); [by apply list_elem_of_fmap_2|exact Hs]. }
  injection E as -> -> ->. by apply (proj1 (Forall_forall _ _) Hl).
Qed.

Lemma shrinks_addr r r' : shrinks r r' -> NoDup (n_addr <$> head r) -> NoDup (n_addr <$> head r').
Proof.
  intros [_ Hs]. rewrite !key_addr. intros Hnd. apply (sublist_NoDup _ _ Hnd). by apply fmap_sublist.
Qed.

Lemma reg_fit_shrinks N r r' : shrinks r r' -> reg_fit unique bound fit N r -> reg_fit unique bound fit N r'.
Proof.
  intros Hs [Ha Hi Hm Hn]. split.
  - by apply (shrinks_addr r).
  - intros Hu. destruct (Hi Hu) as [Hnd Hr]. destruct Hs as [Em Hs]. split.
    + rewrite key_id in *. apply (sublist_NoDup _ _ Hnd). by apply fmap_sublist.
    + rewrite Em. by apply (Forall_key (fun _ i _ => 0 <= i <= max_object_id r) (head r)).
  - destruct Hs as [-> _]. done.
  - destruct Hs as [_ Hs]. by apply (Forall_key (fun a i x => (a < N)%nat /\ fit N i x) (head r)).
Qed.

Lemma reg_fit_mono N N' r : (forall id x, fit N id x -> fit N' id x) -> (N <= N')%nat ->
  reg_fit unique bound fit N r -> reg_fit unique bound fit N' r.
Proof.
  intros Hfit Hle [Ha Hi Hm Hn]. split; try done. apply (Forall_impl _ _ _ Hn).
  intros n [? ?]. split; [lia|by apply Hfit].
Qed.

(** the payload of the nodes at an address is replaced *)
Lemma reg_fit_upd N r a f : (forall id x, fit N id x -> fit N id (f x)) ->
  reg_fit unique bound fit N r ->
  reg_fit unique bound fit N (with_head (hash_upd (head r) a (fun n => with_payload (f (payload n)) n)) r).
Proof.
  intros Hf [Ha Hi Hm Hn]. split; simpl; [by rewrite hash_upd_proj| |done|].
  - intros Hu. destruct (Hi Hu) as [Hnd Hr]. split; simpl; [by rewrite hash_upd_proj|].
    apply Forall_forall. intros n (m & Hin & ->)%hash_upd_elem.
    apply (proj1 (Forall_forall _ _) Hr) in Hin. by destruct (Nat.eqb _ _).
  - apply Forall_forall. intros n (m & Hin & ->)%hash_upd_elem.
    apply (proj1 (Forall_forall _ _) Hn) in Hin as [? ?].
    destruct (Nat.eqb _ _); split; simpl; auto.
Qed.

(** a node that was not in the registry, with an identifier that was free *)
Lemma reg_fit_add N N' r n : reg_fit unique bound fit N r ->
  (forall id x, fit N id x -> fit N' id x) -> (n_addr n ∉ (n_addr <$> head r)) ->
  (N <= N')%nat -> (n_addr n < N')%nat ->
  (unique -> (object_id n ∉ (object_id <$> head r)) /\ 0 <= object_id n <= max_object_id r) ->
  fit N' (object_id n) (payload n) ->
  reg_fit unique bound fit N' (with_head (head r ++ [n]) r).
Proof.
  intros [Ha Hi Hm Hn] Hmono Hout HN HN' Hid Hx. split; simpl; [| |done|].
  - rewrite fmap_app. apply NoDup_app. split; [done|]. csimpl. split; [|apply NoDup_singleton].
    by intros b Hb ->%list_elem_of_singleton.
  - intros Hu. destruct (Hi Hu) as [Hnd Hr], (Hid Hu) as [Hnew Hrange]. split; simpl.
    + rewrite fmap_app. apply NoDup_app. split; [done|]. csimpl. split; [|apply NoDup_singleton].
      by intros b Hb ->%list_elem_of_singleton.
    + apply Forall_app. split; [done|]. by apply Forall_singleton.
  - apply Forall_app. split; [|by apply Forall_singleton; split; [lia|]].
    apply (Forall_impl _ _ _ Hn). intros m [? ?]. split; [lia|by apply Hmono].
Qed.

Lemma reg_fit_empty N cb arg mx : mx < bound -> 0 <= mx ->
  reg_fit unique bound fit N (resource_registry_initialize cb arg mx).
Proof. intros. split; simpl; [constructor| |done|constructor]. intros _. split; simpl; constructor. Qed.

Lemma shrinks_del r a : shrinks r (with_head (hash_del (head r) a) r).
Proof.
  split; [done|]. simpl. apply fmap_sublist. apply sublist_filter.
Qed.

Lemma shrinks_count r a f : shrinks r (with_head (hash_upd (head r) a (fun n => with_count (f n) n)) r).
Proof.
  split; [done|]. simpl. rewrite hash_upd_proj by done. done.
Qed.

Lemma shrinks_counter r c : shrinks r (with_id_counter c r).
Proof. by split. Qed.
End RegFit.

(** ** Pointers to registries *)

(** a pointer to a registry that the invariant speaks about *)
Class Tracked {A} (p : regptr server A CB) (unique : Prop) (bound : Z) (fit : nat -> Z -> A -> Prop) := {
  tr_lawful :: LawfulPtr p;
  tr_next : forall r s, next_addr (rput p r s) = next_addr s;
  tr_mono : forall N N' id x, (N <= N')%nat -> fit N id x -> fit N' id x;
  tr_get : forall N s r, fits N s -> rget p s = Some r -> reg_fit unique bound fit N r;
  tr_put : forall N s r0 r, fits N s -> rget p s = Some r0 -> reg_fit unique bound fit N r ->
    fits N (rput p r s)
}.

(** nodes may be unlinked and counted through the pointer *)
Class Closed {A} (p : regptr server A CB) := closed_put : forall s r0 r,
  consistent s -> rget p s = Some r0 -> shrinks r0 r -> consistent (rput p r s).

#[export] Instance tracked_closed {A} (p : regptr server A CB) unique bound fit :
  Tracked p unique bound fit -> Closed p.
Proof.
  intros Hp s r0 r Hs Hr Hsh. unfold consistent. rewrite tr_next.
  apply (tr_put _ s r0); [done..|]. apply (reg_fit_shrinks _ _ _ _ r0); [done|]. by apply tr_get with s.
Qed.

Lemma pd_fit_mono N N' id e : (N <= N')%nat -> pd_fit N id e -> pd_fit N' id e.
Proof. intros Hle [Hid Hh Hl]. split; [done|..]; by apply (reg_fit_mono _ _ _ N). Qed.
Lemma ads_fit_mono N N' id a : (N <= N')%nat -> ads_fit N id a -> ads_fit N' id a.
Proof. intros Hle [Hid Ha Hm]. split; [done|..]; by apply (reg_fit_mono _ _ _ N). Qed.

Lemma fits_mono N N' s : (N <= N')%nat -> fits N s -> fits N' s.
Proof.
  intros Hle [? ? ? ? ? ? ?]. split; apply (reg_fit_mono _ _ _ N); try done.
  - intros id x. by apply ads_fit_mono.
  - intros id x. by apply pd_fit_mono.
Qed.

Ltac solve_tracked :=
  split; [apply _|done|done|by intros N s r [] [= <-]|by intros N s r0 r [] _ ?; split].

#[export] Instance ads_tracked : Tracked ads_p False (2 ^ 32) ads_fit.
Proof.
  split; [apply _|done|by intros; eapply ads_fit_mono|by intros N s r [] [= <-]
         |by intros N s r0 r [] _ ?; split].
Qed.
#[export] Instance mo_tracked : Tracked mo_p True (2 ^ 32) (named mo_id).
Proof. solve_tracked. Qed.
#[export] Instance cpu_tracked : Tracked cpu_p True (2 ^ 32) (named cpu_id).
Proof. solve_tracked. Qed.
#[export] Instance pd_tracked : Tracked pd_p True (2 ^ 32) pd_fit.
Proof.
  split; [apply _|done|by intros; eapply pd_fit_mono|by intros N s r [] [= <-]
         |by intros N s r0 r [] _ ?; split].
Qed.
#[export] Instance resspc_tracked : Tracked resspc_p True (2 ^ 32) (named spc_id).
Proof. solve_tracked. Qed.
#[export] Instance ep_tracked : Tracked ep_p True (2 ^ 32) (named ep_id).
Proof. solve_tracked. Qed.
#[export] Instance types_tracked : Tracked types_p True (2 ^ 32) type_fit.
Proof. solve_tracked. Qed.

(** a registry inside the objects of a tracked one *)
Lemma nested_tracked {A B} (p : regptr server A CB) unique bound fit `{!Tracked p unique bound fit}
    (get : A -> registry B CB) (put : registry B CB -> A -> A) a uniq bnd bfit
    `{!LawfulPtr (nested_ptr p a get put)} :
  (forall N N' id x, (N <= N')%nat -> bfit N id x -> bfit N' id x) ->
  (forall N id x, fit N id x -> reg_fit uniq bnd bfit N (get x)) ->
  (forall N id x r, fit N id x -> reg_fit uniq bnd bfit N r -> fit N id (put r x)) ->
  Tracked (nested_ptr p a get put) uniq bnd bfit.
Proof.
  intros Hmono Hget Hput. split; [done| |done| |].
  - intros r s. simpl. destruct (rget p s) as [ro|]; [apply tr_next|done].
  - intros N s r Hf. simpl. destruct (rget p s) as [ro|] eqn:Er; [|done]. simpl.
    destruct (node_at a (head ro)) as [n|] eqn:En; [|done]. intros [= <-].
    apply node_at_Some in En as [Hin _]. apply (Hget N (object_id n)).
    by destruct (proj1 (Forall_forall _ _) (rf_nodes _ _ _ _ _ (tr_get _ _ _ Hf Er)) n Hin).
  - intros N s r0 r Hf _ Hr. simpl. destruct (rget p s) as [ro|] eqn:Er; [|done].
    apply (tr_put _ s ro); [done..|].
    apply (reg_fit_upd unique bound fit N ro a (put r)); [|by apply (tr_get N s)].
    intros id x Hx. by apply Hput.
Qed.

Ltac solve_nested p unique fit :=
  apply (nested_tracked p unique (2 ^ 32) fit); [apply _|done|by intros N id x []|by intros N id x r [] ?; split].

#[export] Instance hold_tracked a : Tracked (hold_p a) True (2 ^ 64) hold_fit.
Proof. solve_nested pd_p True pd_fit. Qed.
#[export] Instance linked_tracked a : Tracked (linked_p a) False (2 ^ 64) plain_fit.
Proof. solve_nested pd_p True pd_fit. Qed.
#[export] Instance attach_tracked a : Tracked (attach_p a) False (2 ^ 64) (named att_vaddr).
Proof. solve_nested ads_p False ads_fit. Qed.
#[export] Instance attach_map_tracked a : Tracked (attach_map_p a) True (2 ^ 32) plain_fit.
Proof. solve_nested ads_p False ads_fit. Qed.

(** the objects of the component at a pointer keep what the invariant needs of them *)
Lemma consistent_upd {A} (p : regptr server A CB) unique bound fit `{!Tracked p unique bound fit} s r a f :
  consistent s -> rget p s = Some r ->
  (forall id x, fit (next_addr s) id x -> fit (next_addr s) id (f x)) ->
  consistent (rput p (with_head (hash_upd (head r) a (fun n => with_payload (f (payload n)) n)) r) s).
Proof.
  intros Hs Hr Hf. unfold consistent. rewrite tr_next. apply (tr_put _ s r); [done..|].
  apply reg_fit_upd; [done|]. by apply tr_get with s.
Qed.

(** ** Operations on registries *)
Section Operations.
Context `{UTHash} (sys : list xcall -> xcall -> Z * Z).
Context (run_cb : CB -> nat -> nat -> M server unit).
Context (Hcb : forall cb a b, keeps (run_cb cb a b)).

Lemma state_keeps : keeps (get_state : M server server).
Proof. by intros s. Qed.
Lemma try_keeps (e k : M server Z) : keeps e -> keeps k -> keeps (try_ e k).
Proof. intros He Hk. unfold try_. pres. Qed.

Lemma ext_keeps f args : keeps (ext sys f args).
Proof. intros s Hs. exact Hs. Qed.
Lemma ext_err_keeps f args : keeps (ext_err sys f args).
Proof. intros s Hs. exact Hs. Qed.
Lemma ext_val_keeps f args : keeps (ext_val sys f args).
Proof. intros s Hs. exact Hs. Qed.
Lemma ext__keeps f args : keeps (ext_ sys f args).
Proof. intros s Hs. exact Hs. Qed.

Lemma calloc_keeps : keeps (calloc sys).
Proof.
  intros s Hs. unfold calloc. rewrite (bind_ok _ _ _ _ _ (ext_err_run sys _ _ s)).
  erewrite (bind_ok get_state) by reflexivity. case_bool; [|exact Hs].
  apply (fits_mono (next_addr s)); [simpl; lia|exact Hs].
Qed.
Lemma calloc_handle_keeps : keeps (calloc_handle sys).
Proof. unfold calloc_handle. pose proof calloc_keeps. pres. Qed.

Section Pointer.
Context {A : Type} (p : regptr server A CB).

Lemma reg_load_keeps : keeps (reg_load p).
Proof. intros s Hs. unfold reg_load. by destruct (rget p s). Qed.
Lemma node_load_keeps a : keeps (node_load p a).
Proof. unfold node_load. pose proof reg_load_keeps. pres. Qed.
Lemma obj_load_keeps a : keeps (obj_load p a).
Proof. unfold obj_load. pose proof node_load_keeps. pres. Qed.
Lemma get_by_id_keeps id : keeps (resource_registry_get_by_id p id).
Proof. unfold resource_registry_get_by_id. pose proof reg_load_keeps. pres. Qed.

Lemma hash_iter_loop_keeps {B} fuel (body : nat -> M server (option B)) : (forall a, keeps (body a)) ->
  forall el tmp, keeps (hash_iter_loop fuel p body el tmp).
Proof.
  intros Hb. induction fuel as [|fuel IH]; intros [e|] tmp; simpl; pose proof reg_load_keeps; pres.
Qed.
Lemma hash_iter_until_keeps {B} (body : nat -> M server (option B)) :
  (forall a, keeps (body a)) -> keeps (hash_iter_until p body).
Proof.
  intros Hb. unfold hash_iter_until. apply preserves_bind; [apply reg_load_keeps|intros r].
  destruct (head r); [apply preserves_ret|by apply hash_iter_loop_keeps].
Qed.
Lemma hash_iter_keeps (body : nat -> M server unit) : (forall a, keeps (body a)) -> keeps (hash_iter p body).
Proof.
  intros Hb. unfold hash_iter. apply preserves_bind; [|intros ?; apply preserves_ret].
  apply hash_iter_until_keeps. intros a. pres.
Qed.

Context `{!Closed p}.

Lemma count_keeps a f : keeps (node_store p a (fun n => with_count (f n) n)).
Proof.
  intros s Hs. unfold node_store, node_load, reg_load, reg_store, mbind, M_bind.
  destruct (rget p s) as [r|] eqn:Er; [|done]. destruct (node_at a (head r)); [|done].
  cbn. rewrite Er. apply (closed_put s r); [done..|]. apply shrinks_count.
Qed.
Lemma unlink_keeps a :
  keeps (r ← reg_load p; n ← node_load p a; reg_store p (with_head (hash_del (head r) a) r)).
Proof.
  intros s Hs. unfold node_load, reg_load, reg_store, mbind, M_bind.
  destruct (rget p s) as [r|] eqn:Er; [|done]. rewrite Er. destruct (node_at a (head r)); [|done].
  cbn. apply (closed_put s r); [done..|]. apply shrinks_del.
Qed.
Lemma registry_inc_keeps a : keeps (resource_registry_inc p a).
Proof. apply count_keeps. Qed.
Lemma registry_delete_keeps a : keeps (resource_registry_delete run_cb p a).
Proof.
  unfold resource_registry_delete. apply preserves_bind; [apply reg_load_keeps|intros r].
  apply preserves_bind; [apply node_load_keeps|intros _].
  apply preserves_bind; [pres|intros _; apply unlink_keeps].
Qed.
Lemma registry_dec_keeps a : keeps (resource_registry_dec run_cb p a).
Proof.
  unfold resource_registry_dec. apply preserves_bind; [apply count_keeps|intros _].
  pose proof node_load_keeps. pose proof registry_delete_keeps. pres.
Qed.
End Pointer.

(** writing to an object through a tracked pointer *)
Lemma obj_store_tracked {A} (p : regptr server A CB) unique bound fit `{!Tracked p unique bound fit} a f :
  (forall N id x, fit N id x -> fit N id (f x)) -> keeps (obj_store p a f).
Proof.
  intros Hf s Hs. unfold obj_store, node_store, node_load, reg_load, reg_store, mbind, M_bind.
  destruct (rget p s) as [r|] eqn:Er; [|done]. destruct (node_at a (head r)); [|done].
  cbn. rewrite Er. apply (consistent_upd p unique bound fit); auto.
Qed.
End Operations.

(** ** Two registries in one object *)

(** inserting through one pointer leaves alone what is said through another *)
Lemma insert_new_id_frame `{UTHash} {A} (p : regptr server A CB) (I : server -> Prop) n :
  (forall r s, I s -> I (rput p r s)) -> preserves I (resource_registry_insert_new_id p n).
Proof.
  intros Hp. assert (preserves I (reg_load p)) as Hl by (intros s Hs; unfold reg_load; by destruct (rget p s)).
  assert (forall r, preserves I (reg_store p r)) as Hst by (intros r s Hs; by apply Hp).
  unfold resource_registry_insert_new_id, resource_registry_insert. pres.
Qed.

(** the attached regions are not reached by writing to the map of identifiers *)
Lemma attach_map_put_apart ads r s : rget (attach_p ads) (rput (attach_map_p ads) r s) = rget (attach_p ads) s.
Proof.
  simpl. set (l := head (rc_registry (ads_component s))).
  rewrite node_at_upd_same by done. by destruct (node_at ads l).
Qed.

(** ** Insertion: an allocation is used once *)
Section Insertion.
Context `{UTHash} (sys : list xcall -> xcall -> Z * Z).

(** [a] was allocated, and is in no registry *)
Definition fresh (a : nat) (s : server) : Prop := fits a s /\ (a < next_addr s)%nat.

Lemma fresh_consistent a s : fresh a s -> consistent s.
Proof. intros [Hf Hlt]. apply (fits_mono a); [lia|done]. Qed.

(** from [Q] to [R] when the computation returns, to a consistent state otherwise *)
Definition hoare {A} (Q : server -> Prop) (m : M server A) (R : A -> server -> Prop) : Prop :=
  forall s, Q s -> match m s with (Ok a, s') => R a s' | (_, s') => consistent s' end.

Lemma hoare_keeps {A} (m : M server A) : hoare consistent m (fun _ => consistent) -> keeps m.
Proof. intros Hm s Hs. specialize (Hm s Hs). by destruct (m s) as [[]]. Qed.
Lemma keeps_hoare {A} Q (m : M server A) : (forall s, Q s -> consistent s) -> keeps m ->
  hoare Q m (fun _ => consistent).
Proof. intros HQ Hm s Hs. specialize (Hm s (HQ s Hs)). by destruct (m s) as [[]]. Qed.

Lemma hoare_bind {A B} Q (m : M server A) (k : A -> M server B) R T :
  hoare Q m R -> (forall a, hoare (R a) (k a) T) -> hoare Q (m ≫= k) T.
Proof.
  intros Hm Hk s Hs. specialize (Hm s Hs). unfold mbind, M_bind.
  destruct (m s) as [[a| |] s']; [by apply Hk|done..].
Qed.

Lemma hoare_mono {A} Q (m : M server A) (R R' : A -> server -> Prop) :
  hoare Q m R -> (forall a s, R a s -> R' a s) -> hoare Q m R'.
Proof. intros Hm HR s Hs. specialize (Hm s Hs). destruct (m s) as [[a| |] s']; auto. Qed.

(** an invariant that a computation preserves besides what is known of it *)
Lemma hoare_frame {A} Q (I : server -> Prop) (m : M server A) (R : A -> server -> Prop) :
  hoare Q m R -> preserves I m -> hoare (fun s => Q s /\ I s) m (fun a s => R a s /\ I s).
Proof.
  intros Hm HI s [HQ Hs]. specialize (Hm s HQ). specialize (HI s Hs). by destruct (m s) as [[a| |] s'].
Qed.

(** the first two steps of three keep the invariant only together *)
Lemma hoare_two {A B} Q (m : M server A) (st : A -> M server unit) (k : A -> M server B) :
  hoare Q (m ≫= st) (fun _ => consistent) -> (forall a, keeps (k a)) ->
  hoare Q (m ≫= (fun a => st a ≫= fun _ => k a)) (fun _ => consistent).
Proof.
  intros Hm Hk s Hs. specialize (Hm s Hs). unfold mbind, M_bind in *.
  destruct (m s) as [[a| |] s1]; [|done..]. destruct (st a s1) as [[[]| |] s2]; [|done..].
  specialize (Hk a s2 Hm). by destruct (k a s2) as [[]].
Qed.

Lemma calloc_fresh : hoare consistent (calloc sys)
  (fun o s => match o with Some a => fresh a s | None => consistent s end).
Proof.
  intros s Hs. unfold calloc. rewrite (bind_ok _ _ _ _ _ (ext_err_run sys _ _ s)).
  erewrite (bind_ok get_state) by reflexivity. case_bool; [|exact Hs].
  split; [exact Hs|simpl; lia].
Qed.

Lemma calloc_then {B} (k : option nat -> M server B) :
  (forall a, hoare (fresh a) (k (Some a)) (fun _ => consistent)) -> keeps (k None) ->
  keeps (calloc sys ≫= k).
Proof.
  intros Ha Hn. apply hoare_keeps, (hoare_bind _ _ _ _ _ calloc_fresh). intros [a|]; [done|].
  by apply keeps_hoare.
Qed.

Lemma find_new_id_free {A} fuel (r : registry A CB) start : forall c id,
  find_new_id fuel r start c = Ok id -> 0 <= id /\ ~ occupied r id.
Proof.
  induction fuel as [|fuel IH]; intros c id; simpl; [done|].
  pose proof (wrap_range 64 (c + 1) ltac:(lia)) as Hw. fold (u64 (c + 1)) in Hw.
  destruct (max_object_id r <? u64 (c + 1)).
  - destruct (hash_find _ 1) eqn:Ef; [by apply IH|]. intros [= <-].
    split; [lia|by apply hash_find_free].
  - destruct (u64 (c + 1) =? start); [done|]. destruct (hash_find _ _) eqn:Ef; [by apply IH|].
    intros [= <-]. split; [lia|by apply hash_find_free].
Qed.

Section Tracked.
Context {A : Type} (p : regptr server A CB) (unique : Prop) (bound : Z) (fit : nat -> Z -> A -> Prop).
Context `{!Tracked p unique bound fit}.
Implicit Types (r : registry A CB) (s : server).

Definition free_id r (id : Z) : Prop := unique -> (id ∉ (object_id <$> head r)) /\ 0 <= id.

Lemma put_fresh a s r0 r : fresh a s -> rget p s = Some r0 -> shrinks r0 r -> fresh a (rput p r s).
Proof.
  intros [Hf Hlt] Hr Hsh. split; [|by rewrite tr_next]. apply (tr_put _ s r0); [done..|].
  apply (reg_fit_shrinks _ _ _ _ r0); [done|]. by apply tr_get with s.
Qed.

Lemma fresh_not_in a s r : fresh a s -> rget p s = Some r -> a ∉ (n_addr <$> head r).
Proof.
  intros [Hf _] Hr (n & -> & Hn)%list_elem_of_fmap.
  destruct (proj1 (Forall_forall _ _) (rf_nodes _ _ _ _ _ (tr_get _ _ _ Hf Hr)) n Hn). lia.
Qed.

(** [a] was allocated, and is not in the registry of [p] *)
Definition unlinked (a : nat) s : Prop :=
  (a < next_addr s)%nat /\ forall r, rget p s = Some r -> a ∉ (n_addr <$> head r).

Lemma fresh_unlinked a s : fresh a s -> unlinked a s.
Proof. intros Hf. split; [apply Hf|]. intros r. by apply fresh_not_in. Qed.

Lemma add_consistent s r n : consistent s -> unlinked (n_addr n) s -> rget p s = Some r ->
  free_id r (object_id n) -> object_id n <= max_object_id r ->
  fit (next_addr s) (object_id n) (payload n) ->
  consistent (rput p (with_head (head r ++ [n]) r) s).
Proof.
  intros Hc [Hlt Hout] Hr Hid Hmax Hn. unfold consistent. rewrite tr_next.
  apply (tr_put _ s r); [done..|].
  apply (reg_fit_add _ _ _ (next_addr s)); [by apply tr_get with s|done|by apply Hout|done..| |done].
  intros Hu. destruct (Hid Hu). split; [done|lia].
Qed.

(** a registry entry that fits when it is inserted *)
Lemma insert_unlinked a id c x : hoare
  (fun s => consistent s /\ unlinked a s /\
            forall r, rget p s = Some r -> free_id r id /\ fit (next_addr s) id x)
  (resource_registry_insert p (Node a id c x)) (fun _ => consistent).
Proof.
  intros s (Hc & Ha & Hid). unfold resource_registry_insert, reg_load, reg_store, mbind, M_bind, assert_.
  destruct (rget p s) as [r|] eqn:Er; [|done]. destruct (Hid r eq_refl) as [Hfree Hfit].
  simpl. destruct (Z.leb_spec id (max_object_id r)); [|done].
  by apply (add_consistent s r (Node a id 1 x)).
Qed.
Lemma insert_keeps a id c x : hoare
  (fun s => fresh a s /\ forall r, rget p s = Some r -> free_id r id /\ fit (next_addr s) id x)
  (resource_registry_insert p (Node a id c x)) (fun _ => consistent).
Proof.
  intros s [Hf Hid]. apply (insert_unlinked a id c x s).
  split; [by apply (fresh_consistent a)|]. split; [by apply fresh_unlinked|done].
Qed.

Lemma insert_new_id_keeps a c x : (forall N id, fit N id x) ->
  hoare (fresh a) (resource_registry_insert_new_id p (Node a 0 c x)) (fun _ => consistent).
Proof.
  intros Hfit s Hf. pose proof (fresh_consistent _ _ Hf) as Hc.
  unfold resource_registry_insert_new_id, mbind at 1, M_bind at 1, reg_load at 1.
  destruct (rget p s) as [r|] eqn:Er; [|done].
  destruct (find_new_id _ r _ _) as [id| |] eqn:Ei; [|done..].
  apply find_new_id_free in Ei as [Hid Hfree].
  unfold mbind at 1, M_bind at 1. simpl.
  assert (fresh a (rput p (with_id_counter id r) s)) as Hf' by (apply (put_fresh a s r); [done..|by split]).
  apply (hoare_bind _ _ _ (fun _ => consistent) (fun _ => consistent) (insert_keeps a id c x)
    (fun _ => keeps_hoare _ _ (fun _ h => h) (preserves_ret _ id))).
  split; [done|]. intros r' Hr'. rewrite (rget_rput _ _ _ Er) in Hr'. injection Hr' as <-.
  split; [|done]. intros _. split; [|done]. intros (n & -> & Hn)%list_elem_of_fmap. apply Hfree. by exists n.
Qed.

(** an entry that is inserted empty and then given its identifier *)
Context (zero : A) (set_id : Z -> A -> A) (Hzero : forall N id, fit N id (set_id id zero)).

Lemma upd_last (l : list (node A)) a id c f : a ∉ n_addr <$> l ->
  hash_upd (l ++ [Node a id c zero]) a f = l ++ [f (Node a id c zero)].
Proof.
  intros Ha. unfold hash_upd. rewrite fmap_app. csimpl. rewrite Nat.eqb_refl. f_equal.
  induction l as [|n l IH]; [done|]. csimpl in *. apply not_elem_of_cons in Ha as [Hne Ha].
  rewrite IH by done. destruct (Nat.eqb_spec (n_addr n) a); congruence.
Qed.

Lemma insert_named_keeps a id rid s r : fresh a s -> rget p s = Some r -> free_id r id ->
  (id <= max_object_id r -> rid = id) ->
  consistent ((resource_registry_insert p (Node a id 0 zero) ;; obj_store p a (set_id rid)) s).2.
Proof.
  intros Hf Hr Hid Hrid. pose proof (fresh_consistent _ _ Hf) as Hc.
  pose proof (fresh_not_in a s r Hf Hr) as Ha.
  unfold mbind, M_bind, resource_registry_insert, reg_load, mbind, M_bind. rewrite Hr.
  change (with_count 1 (Node a id 0 zero)) with (Node a id 1 zero).
  cbn [object_id]. unfold assert_. destruct (Z.leb_spec id (max_object_id r)) as [Hle|]; [|done].
  rewrite (Hrid Hle). cbn [mret M_ret reg_store modify].
  set (r' := with_head (hash_add (head r) (Node a id 1 zero)) r).
  assert (node_at a (head r') = Some (Node a id 1 zero)) as Hn.
  { unfold r', hash_add. simpl. clear - Ha. induction (head r) as [|n l IH]; csimpl in *.
    - by rewrite Nat.eqb_refl.
    - apply not_elem_of_cons in Ha as [Hne Ha]. destruct (Nat.eqb_spec (n_addr n) a); [congruence|].
      by apply IH. }
  rewrite (obj_store_run p a r' (Node a id 1 zero) _ (rput p r' s)); [|by apply (rget_rput r' s r)|done].
  simpl. rewrite rput_rput. unfold r', hash_add. simpl. rewrite upd_last by done.
  apply (add_consistent s r (Node a id 1 (set_id id zero))); [done|by apply fresh_unlinked|done..].
Qed.
End Tracked.
End Insertion.
