(* ===== verification/Preservation.v ===== *)
(** * The registries stay consistent: every request

    Every operation of the server keeps the invariant of the file Invariant,
    whatever the kernel, the allocators and the clients answer or send, and also
    when it stops the server.  The lemmas follow the files of the model in order;
    they are closed by walking through the code, with the lemma of each operation
    that is called.  The file Reachable draws the conclusion for the whole server. *)

From stdpp Require Import base numbers list gmap.
From S2P Require Import Prelude Strings Badge Registry LinkedList CapTracking State ResourceTypes ModelExport Component PdResources Resspc Mo Ads AdsRequests Elf Cpu PdObj Dump PdComponent Ep Server Invariant.

Abbreviation keeps m := (preserves consistent m).

#[export] Hint Resolve state_keeps try_keeps ext_keeps ext_err_keeps ext_val_keeps ext__keeps
  calloc_keeps calloc_handle_keeps reg_load_keeps node_load_keeps obj_load_keeps get_by_id_keeps
  hash_iter_until_keeps hash_iter_keeps registry_inc_keeps registry_delete_keeps registry_dec_keeps : gpi.

#[export] Hint Extern 1 (Closed _) => apply _ : gpi.

(** [keep] also enters loops over registries, and unfolds what has no lemma *)
Ltac unfold_head :=
  lazymatch goal with
  | |- preserves _ ?m =>
      let rec head t := lazymatch t with ?f _ => head f | ?f => f end in
      let f := head m in unfold f
  end.
Ltac keep_step :=
  lazymatch goal with
  | |- preserves _ (hash_iter _ _) => apply hash_iter_keeps; intros ?
  | |- preserves _ (hash_iter_until _ _) => apply hash_iter_until_keeps; intros ?
  | |- preserves _ (try_ _ _) => apply try_keeps
  | _ => first [pres_step | unfold_head]
  end.
Ltac keep := repeat (cbv beta zeta; keep_step).

(** a computation whose result does not depend on the state *)
Definition stateless {S A} (m : M S A) : Prop := exists r, forall s, m s = (r, s).

Lemma stateless_keeps {A} (m : M server A) : stateless m -> keeps m.
Proof. intros [r Hr] s Hs. by rewrite Hr. Qed.
Lemma stateless_ret {S A} (a : A) : stateless (mret a : M S A).
Proof. by exists (Ok a). Qed.
Lemma stateless_assert {S} b : stateless (assert_ b : M S unit).
Proof. destruct b; [by exists (Ok tt)|by exists (Crash AssertFail)]. Qed.
Lemma stateless_bind {S A B} (m : M S A) (k : A -> M S B) :
  stateless m -> (forall a, stateless (k a)) -> stateless (m ≫= k).
Proof.
  intros [r Hr] Hk. destruct r as [a|f|].
  - destruct (Hk a) as [r' Hr']. exists r'. intros s. by rewrite (bind_ok _ _ _ _ _ (Hr s)).
  - exists (Crash f). intros s. unfold mbind, M_bind. by rewrite Hr.
  - exists NoFuel. intros s. unfold mbind, M_bind. by rewrite Hr.
Qed.

Lemma new_badge_stateless {S} t q c sp o : stateless (gpi_new_badge t q c sp o : M S Z).
Proof.
  unfold gpi_new_badge, set_cap_type_to_badge, set_perms_to_badge, set_object_id_to_badge,
    set_client_id_to_badge, set_space_id_to_badge.
  repeat (apply stateless_bind; intros); auto using stateless_assert, stateless_ret.
Qed.

Lemma new_badge_keeps t q c sp o : keeps (gpi_new_badge t q c sp o).
Proof. apply stateless_keeps, new_badge_stateless. Qed.
Lemma compact_id_keeps id : keeps (res_compact_id id).
Proof. apply stateless_keeps, new_badge_stateless. Qed.
#[export] Hint Resolve new_badge_keeps compact_id_keeps : gpi.

(** a compact identifier that was computed is that of its resource *)
Lemma compact_id_fit id s c s' N h : res_compact_id id s = (Ok c, s') -> hold_res_id h = id ->
  s' = s /\ hold_fit N c h.
Proof.
  intros Hc <-. destruct (new_badge_stateless (S := server) (rid_type (hold_res_id h)) 0 0
    (rid_space (hold_res_id h)) (rid_object (hold_res_id h))) as [r Hr].
  pose proof (Hr s) as Hs. unfold res_compact_id, compact_res_id in Hc. rewrite Hs in Hc.
  injection Hc as -> <-. split; [done|]. exact Hr.
Qed.

Lemma compact_id_nonneg id s c s' : res_compact_id id s = (Ok c, s') -> 0 <= c.
Proof.
  unfold res_compact_id, compact_res_id, gpi_new_badge, set_space_id_to_badge. intros Hc.
  do 4 (apply bind_inv_ok in Hc as (? & ? & _ & Hc)). apply bind_inv_ok in Hc as (b & s5 & Hb & Hc).
  apply bind_inv_ok in Hb as (? & ? & _ & [= <- <-]). apply bind_inv_ok in Hc as (? & ? & _ & [= <- _]).
  apply Z.lor_nonneg. split; [apply Z.land_nonneg; by right|by apply wrap_range].
Qed.

(** ** Requests *)
Section Requests.
Context `{UTHash} (sys : list xcall -> xcall -> Z * Z).
Context (run_cb : CB -> nat -> nat -> M server unit).
Context (Hcb : forall cb a b, keeps (run_cb cb a b)).

(** *** Resource types *)
Lemma alloc_new_resource_type_keeps name : keeps (alloc_new_resource_type sys name).
Proof.
  unfold alloc_new_resource_type. apply calloc_then; [|by intros s Hs].
  intros a. by apply (insert_new_id_keeps types_p True (2 ^ 32) type_fit).
Qed.
Lemma lift_result_keeps {A} (r : result A) : keeps (lift_result r).
Proof. by intros s Hs. Qed.
#[local] Hint Resolve alloc_new_resource_type_keeps lift_result_keeps : gpi.
Lemma cap_type_to_str_keeps t : keeps (cap_type_to_str t).
Proof. keep. Qed.
Lemma get_resource_type_code_keeps name : keeps (get_resource_type_code sys name).
Proof. keep. Qed.
#[local] Hint Resolve cap_type_to_str_keeps get_resource_type_code_keeps : gpi.

(** *** What a PD holds *)

(** no node of the hold registry of the PD at [a] has the identifier *)
Definition not_held a (id : Z) s : Prop :=
  forall r, rget (hold_p a) s = Some r -> id ∉ (object_id <$> head r).

Lemma get_by_id_hoare a id : hoare consistent (resource_registry_get_by_id (hold_p a) id)
  (fun o s => consistent s /\ (o = None -> not_held a id s)).
Proof.
  intros s Hs. unfold resource_registry_get_by_id, reg_load, mbind, M_bind.
  destruct (rget (hold_p a) s) as [r|] eqn:Er; [|done]. cbn. split; [done|].
  intros Hn r' Hr'. rewrite Er in Hr'. injection Hr' as <-.
  destruct (hash_find (head r) id) as [n|] eqn:Ef; [done|].
  intros (n & -> & Hin)%list_elem_of_fmap. by apply (hash_find_complete _ _ _ Ef n).
Qed.

Lemma calloc_not_held a id : hoare (fun s => consistent s /\ not_held a id s) (calloc sys)
  (fun o s => match o with Some b => fresh b s /\ not_held a id s | None => consistent s end).
Proof.
  intros s [Hs Ha]. pose proof (calloc_fresh sys s Hs) as Hf. unfold calloc in *.
  rewrite (bind_ok _ _ _ _ _ (ext_err_run sys _ _ s)) in *.
  erewrite (bind_ok get_state) in * by reflexivity. destruct (_ =? 0); [|exact Hf].
  split; [exact Hf|exact Ha].
Qed.

Lemma pd_add_resource_keeps a id x y z : keeps (pd_add_resource sys a id x y z).
Proof.
  apply hoare_keeps. unfold pd_add_resource.
  apply (hoare_bind _ _ _ (fun c s => consistent s /\ 0 <= c /\ forall N, hold_fit N c (HoldNode y x z id))).
  { intros s Hs. destruct (res_compact_id id s) as [[c|f|] s'] eqn:Ec.
    - destruct (compact_id_fit id s c s' 0 (HoldNode y x z id) Ec eq_refl) as [-> Hfit].
      by pose proof (compact_id_nonneg _ _ _ _ Ec).
    - pose proof (compact_id_keeps id s Hs) as Hk. by rewrite Ec in Hk.
    - pose proof (compact_id_keeps id s Hs) as Hk. by rewrite Ec in Hk. }
  intros c s (Hs & Hc & Hfit). revert s Hs.
  apply (hoare_bind _ _ _ _ _ (get_by_id_hoare a c)). intros [n|].
  { intros s [Hs _]. revert s Hs. apply keeps_hoare; [done|pres]. }
  intros s [Hs Habs]. specialize (Habs eq_refl). revert s Hs Habs.
  enough (hoare (fun s => consistent s /\ not_held a c s) (node ← calloc sys;
    match node with
    | None => mret DEFAULT_ERR
    | Some b => resource_registry_insert (hold_p a) (Node b c 0 (HoldNode y x z id)) ;; mret 0
    end) (fun _ => consistent)) as Hh by (intros s Hs Ha; by apply Hh).
  apply (hoare_bind _ _ _ _ _ (calloc_not_held a c)). intros [b|]; [|by intros s Hs].
  intros s [Hf Habs]. revert s Hf Habs.
  enough (hoare (fun s => fresh b s /\ not_held a c s)
    (resource_registry_insert (hold_p a) (Node b c 0 (HoldNode y x z id)) ;; mret 0)
    (fun _ => consistent)) as Hh by (intros s Hf Ha; by apply Hh).
  apply (hoare_bind _ _ _ (fun _ => consistent)); [|by intros _ s Hs].
  intros s [Hf Habs]. apply (insert_keeps (hold_p a) True (2 ^ 64) hold_fit b c 0 _ s).
  split; [done|]. intros r Hr. split; [|by apply Hfit]. intros _. split; [by apply Habs|done].
Qed.

(** the stores of the PD component leave identifiers and hold registries alone *)
Lemma entry_store_keeps a f : (forall e, pd_id (pd (f e)) = pd_id (pd e)) ->
  (forall e, hold_registry (pd (f e)) = hold_registry (pd e)) ->
  (forall e, linked_registry (pd (f e)) = linked_registry (pd e)) -> keeps (obj_store pd_p a f).
Proof.
  intros Hid Hh Hl. apply (obj_store_tracked pd_p True (2 ^ 32) pd_fit). intros N id e [<- Hr Hlr].
  split; [by rewrite Hid|by rewrite Hh|by rewrite Hl].
Qed.
Lemma pd_store_keeps a f : (forall p, pd_id (f p) = pd_id p) ->
  (forall p, hold_registry (f p) = hold_registry p) ->
  (forall p, linked_registry (f p) = linked_registry p) -> keeps (pd_store a f).
Proof. intros Hid Hh Hl. apply entry_store_keeps; intros e; [apply Hid|apply Hh|apply Hl]. Qed.
Lemma shared_store_keeps a f : keeps (shared_store a f).
Proof. unfold shared_store. apply preserves_bind; [keep|intros _]. by apply pd_store_keeps. Qed.
Lemma initialize_registries_keeps a : keeps (pd_initialize_registries a).
Proof.
  unfold pd_initialize_registries. apply preserves_bind; [|intros _];
    apply (obj_store_tracked pd_p True (2 ^ 32) pd_fit); intros N id e [<- Hh Hl];
    split; try done; by apply reg_fit_empty.
Qed.
#[local] Hint Resolve pd_add_resource_keeps shared_store_keeps initialize_registries_keeps : gpi.
#[local] Hint Extern 2 (preserves _ (pd_store _ _)) => apply pd_store_keeps; reflexivity : gpi.
#[local] Hint Extern 2 (preserves _ (obj_store pd_p _ _)) => apply entry_store_keeps; reflexivity : gpi.

(** the registries of an object that was just allocated *)
Lemma reg_fit_zero {A} unique bound fit N : 0 < bound -> reg_fit unique bound fit N (registry_zero : registry A CB).
Proof. intros. split; simpl; [constructor|intros _; split; constructor|lia|constructor]. Qed.
Lemma pd_fit_zero N e : hold_registry (pd e) = registry_zero -> linked_registry (pd e) = registry_zero ->
  pd_fit N (pd_id (pd e)) e.
Proof. intros Eh El. split; [done|rewrite ?Eh, ?El; apply reg_fit_zero; lia..]. Qed.

(** a link: identifier 0, which other links may have *)
Lemma pd_add_linkage_keeps a b : keeps (pd_add_linkage sys a b).
Proof.
  unfold pd_add_linkage. apply preserves_bind; [keep|]. intros [n|]; [keep|].
  apply calloc_then; [|by intros s Hs]. intros c.
  apply (hoare_bind _ (deref (Some c)) _ (fun d s => d = c /\ fresh c s)); [done|intros d].
  apply (hoare_bind _ _ _ (fun _ => consistent)); [|by intros _ s Hs].
  intros s [-> Hf]. apply (insert_keeps (linked_p a) False (2 ^ 64) plain_fit c 0 0 _ s). by split.
Qed.
#[local] Hint Resolve pd_add_linkage_keeps : gpi.

(** *** Allocation *)
Section Allocate.
Context {A : Type} (get : server -> rcc A) (p : regptr server A CB) (zero : A) (set_id : Z -> A -> A).
Context (unique : Prop) (fit : nat -> Z -> A -> Prop) `{!Tracked p unique (2 ^ 32) fit}.
Context (Hzero : forall N id, fit N id (set_id id zero)).

(** the entry is inserted with a zero object, which then gets its identifier *)
Lemma new_entry_keeps a object_id : (unique -> object_id = BADGE_OBJ_ID_NULL) ->
  hoare (fresh a)
    ((if object_id =? BADGE_OBJ_ID_NULL then
        id ← resource_registry_insert_new_id p (Node a 0 0 zero); mret (u32 id)
      else resource_registry_insert p (Node a object_id 0 zero) ;; mret object_id)
     ≫= fun resource_id => obj_store p a (set_id resource_id))
    (fun _ => consistent).
Proof.
  intros Hu s Hf. pose proof (fresh_consistent _ _ Hf) as Hc.
  assert (forall B (m : M server B) t, consistent (m t).2 ->
    match m t with (Ok _, s') => consistent s' | (_, s') => consistent s' end) as Hany.
  { intros B m t Ht. by destruct (m t) as [[]]. }
  destruct (Z.eqb_spec object_id BADGE_OBJ_ID_NULL) as [_|Hne].
  - rewrite bind_assoc. unfold resource_registry_insert_new_id, reg_load. rewrite bind_assoc.
    unfold mbind at 1, M_bind at 1. destruct (rget p s) as [r|] eqn:Er; [|done].
    destruct (find_new_id _ r _ _) as [id| |] eqn:Ei; [|done..].
    apply find_new_id_free in Ei as [Hid Hfree]. rewrite bind_assoc.
    erewrite (bind_ok (reg_store _ _)) by reflexivity. rewrite bind_assoc. apply Hany.
    refine (insert_named_keeps p unique (2 ^ 32) fit zero set_id Hzero a id (u32 id) _
              (with_id_counter id r) _ _ _ _).
    + apply (put_fresh p unique (2 ^ 32) fit a s r); [done..|by split].
    + by apply (rget_rput _ _ r).
    + intros _. split; [|done]. intros (n & -> & Hn)%list_elem_of_fmap. apply Hfree. by exists n.
    + intros Hle. apply wrap_small. split; [done|]. simpl in Hle.
      pose proof (rf_max _ _ _ _ _ (tr_get _ _ _ Hc Er)). lia.
  - rewrite bind_assoc. apply Hany. destruct (rget p s) as [r|] eqn:Er.
    + refine (insert_named_keeps p unique (2 ^ 32) fit zero set_id Hzero a object_id object_id s r
                Hf Er _ _); [|done]. intros Hq. by destruct Hne, Hu.
    + unfold resource_registry_insert, reg_load. rewrite bind_assoc. unfold mbind at 1, M_bind at 1.
      by rewrite Er.
Qed.

Context (new_obj : nat -> M server Z) (Hnew : forall a, keeps (new_obj a)).

Lemma resource_component_allocate_keeps client object_id forge want_cap :
  (unique -> object_id = BADGE_OBJ_ID_NULL) ->
  keeps (resource_component_allocate sys get p zero set_id new_obj client object_id forge want_cap).
Proof.
  intros Hu. unfold resource_component_allocate. apply calloc_then; [|keep]. intros a.
  apply (hoare_two (fresh a) _ (fun rid => obj_store p a (set_id rid))).
  - by apply new_entry_keeps.
  - intros rid. keep.
Qed.
End Allocate.

(** the other components leave the identifiers of their objects alone *)
#[local] Hint Extern 2 (preserves _ (obj_store mo_p _ _)) =>
  apply (obj_store_tracked mo_p True (2 ^ 32) (named mo_id)); intros ? ? ? <-; reflexivity : gpi.
#[local] Hint Extern 2 (preserves _ (obj_store ads_p _ _)) =>
  apply (obj_store_tracked ads_p False (2 ^ 32) ads_fit); intros ? ? ? [<- ? ?]; by split : gpi.
#[local] Hint Extern 2 (preserves _ (obj_store cpu_p _ _)) =>
  apply (obj_store_tracked cpu_p True (2 ^ 32) (named cpu_id)); intros ? ? ? <-; reflexivity : gpi.
#[local] Hint Extern 2 (preserves _ (obj_store resspc_p _ _)) =>
  apply (obj_store_tracked resspc_p True (2 ^ 32) (named spc_id)); intros ? ? ? <-; reflexivity : gpi.
#[local] Hint Extern 2 (preserves _ (obj_store ep_p _ _)) =>
  apply (obj_store_tracked ep_p True (2 ^ 32) (named ep_id)); intros ? ? ? <-; reflexivity : gpi.

(** what allocates an object of each component *)
Section Entries.
Context (new_obj : nat -> M server Z) (Hnew : forall a, keeps (new_obj a)) (c o : Z) (f w : bool).
Abbreviation allocate get p zero set_id := (resource_component_allocate sys get p zero set_id new_obj c).
Lemma ads_entry_keeps : keeps (allocate ads_component ads_p ads_zero set_ads_id o f w).
Proof.
  apply (resource_component_allocate_keeps _ ads_p _ _ False ads_fit); [|done..].
  intros N id. split; [done|apply reg_fit_zero; lia..].
Qed.
Lemma mo_entry_keeps : keeps (allocate mo_component mo_p mo_zero set_mo_id BADGE_OBJ_ID_NULL f w).
Proof. by apply (resource_component_allocate_keeps _ mo_p _ _ True (named mo_id)). Qed.
Lemma cpu_entry_keeps : keeps (allocate cpu_component cpu_p cpu_zero set_cpu_id BADGE_OBJ_ID_NULL f w).
Proof. by apply (resource_component_allocate_keeps _ cpu_p _ _ True (named cpu_id)). Qed.
Lemma pd_entry_keeps : keeps (allocate pd_component pd_p pd_entry_zero (fun id => on_pd (set_pd_id id))
  BADGE_OBJ_ID_NULL f w).
Proof.
  apply (resource_component_allocate_keeps _ pd_p _ _ True pd_fit); [|done..].
  intros N id. by apply (pd_fit_zero N (on_pd (set_pd_id id) pd_entry_zero)).
Qed.
Lemma space_entry_keeps :
  keeps (allocate resspc_component resspc_p res_space_zero set_spc_id BADGE_OBJ_ID_NULL f w).
Proof. by apply (resource_component_allocate_keeps _ resspc_p _ _ True (named spc_id)). Qed.
Lemma ep_entry_keeps : keeps (allocate ep_component ep_p ep_zero set_ep_id BADGE_OBJ_ID_NULL f w).
Proof. by apply (resource_component_allocate_keeps _ ep_p _ _ True (named ep_id)). Qed.
End Entries.
#[local] Hint Resolve ads_entry_keeps mo_entry_keeps cpu_entry_keeps pd_entry_keeps space_entry_keeps
  ep_entry_keeps : gpi.

(** what the model takes from the platform *)
Context (T : reservation_types).
Context (load_elf : nat -> nat -> nat -> list Z -> M server (Z * Z)).
Context (write_runtime : nat -> Z -> Z -> Z -> list Z -> M server (Z * Z)).
Context (write_args : nat -> list Z -> Z -> M server (Z * Z)).
Context (X : extraction_env).
Context (Hload : forall a b c d, keeps (load_elf a b c d)).
Context (Hruntime : forall a b c d e, keeps (write_runtime a b c d e)).
Context (Hargs : forall a b c, keeps (write_args a b c)).

(** *** PdResources *)
Lemma pd_component_registry_get_entry_by_id_keeps a : keeps (pd_component_registry_get_entry_by_id a).
Proof. keep. Qed.
Lemma pd_component_registry_get_entry_by_badge_keeps a : keeps (pd_component_registry_get_entry_by_badge a).
Proof. keep. Qed.
Lemma resource_space_get_entry_by_id_keeps a : keeps (resource_space_get_entry_by_id a).
Proof. keep. Qed.
Lemma pd_badge_and_add_resource_keeps a b c : keeps (pd_badge_and_add_resource sys a b c).
Proof. keep. Qed.
Lemma pd_remove_resource_keeps a b : keeps (pd_remove_resource run_cb a b).
Proof. keep. Qed.
Lemma pd_get_resources_of_type_keeps a b : keeps (pd_get_resources_of_type sys a b).
Proof. 
  unfold pd_get_resources_of_type. apply preserves_bind; [keep|intros found]. apply preserves_bind; [keep|intros r].
  revert found. induction (head r) as [|n l IH]; intros found; keep.
 Qed.
#[local] Hint Resolve pd_component_registry_get_entry_by_id_keeps
  pd_component_registry_get_entry_by_badge_keeps resource_space_get_entry_by_id_keeps
  pd_badge_and_add_resource_keeps pd_remove_resource_keeps pd_get_resources_of_type_keeps : gpi.
Lemma pd_bulk_add_resource_keeps a b c d : keeps (pd_bulk_add_resource sys a b c d).
Proof. revert d. induction c as [|r c IH]; intros d; cbn [pd_bulk_add_resource]; keep. Qed.
Lemma rde_row_keeps a b : keeps (rde_row a b).
Proof. keep. Qed.
#[local] Hint Resolve pd_bulk_add_resource_keeps rde_row_keeps : gpi.
Lemma pd_add_rde_keeps a b c d e : keeps (pd_add_rde sys a b c d e).
Proof. keep. Qed.
Lemma pd_remove_rde_loop_keeps a b c d e : keeps (pd_remove_rde_loop sys a b c d e).
Proof. revert e. induction d as [|i d IH]; intros e; cbn [pd_remove_rde_loop]; keep. Qed.
Lemma pd_set_name_keeps a b : keeps (pd_set_name a b).
Proof. keep. Qed.
Lemma work_insert_keeps a b c : keeps (work_insert sys a b c).
Proof. keep. Qed.
Lemma notify_keeps a : keeps (notify sys a).
Proof. keep. Qed.
Lemma pd_add_resource_by_id_keeps a b c d e : keeps (pd_add_resource_by_id sys a b c d e).
Proof. keep. Qed.
Lemma pd_component_resource_cleanup_keeps a : keeps (pd_component_resource_cleanup run_cb a).
Proof. keep. Qed.
#[local] Hint Resolve pd_add_rde_keeps pd_remove_rde_loop_keeps pd_set_name_keeps
  work_insert_keeps notify_keeps pd_add_resource_by_id_keeps pd_component_resource_cleanup_keeps : gpi.

(** *** Resspc *)
Lemma space_load_keeps a : keeps (space_load a).
Proof. keep. Qed.
Lemma resspc_new_keeps a b : keeps (resspc_new a b).
Proof. keep. Qed.
#[local] Hint Resolve space_load_keeps resspc_new_keeps : gpi.
Lemma resspc_allocate_keeps a b d : keeps (resspc_allocate sys a b BADGE_OBJ_ID_NULL d).
Proof. keep. Qed.
Lemma resspc_component_map_space_keeps a b : keeps (resspc_component_map_space sys a b).
Proof. keep. Qed.
Lemma check_map_loop_keeps a b : keeps (check_map_loop a b).
Proof. induction b as [|x b IH]; cbn [check_map_loop]; keep. Qed.
Lemma pd_component_space_cleanup_keeps a b c d e g : keeps (pd_component_space_cleanup sys run_cb a b c d e g).
Proof. keep. Qed.
#[local] Hint Resolve resspc_allocate_keeps resspc_component_map_space_keeps check_map_loop_keeps
  pd_component_space_cleanup_keeps : gpi.
Lemma on_resspc_registry_delete_keeps a b c d : keeps (on_resspc_registry_delete sys run_cb a b c d).
Proof. keep. Qed.
Lemma handle_resspc_allocation_request_keeps a b c d : keeps (handle_resspc_allocation_request sys a b c d).
Proof. keep. Qed.
#[local] Hint Resolve on_resspc_registry_delete_keeps handle_resspc_allocation_request_keeps : gpi.
Lemma resspc_component_handle_keeps a b c d : keeps (resspc_component_handle sys run_cb a b c d).
Proof. keep. Qed.
#[local] Hint Resolve resspc_component_handle_keeps : gpi.

(** *** Mo *)
Lemma mo_load_keeps a : keeps (mo_load a).
Proof. keep. Qed.
#[local] Hint Resolve mo_load_keeps : gpi.
Lemma set_frame_keeps a b c d : keeps (set_frame a b c d).
Proof. keep. Qed.
#[local] Hint Resolve set_frame_keeps : gpi.
Lemma alloc_frames_keeps a b c d : keeps (alloc_frames sys a b c d).
Proof. revert c. induction d as [|d IH]; intros c; cbn [alloc_frames]; keep. Qed.
Lemma alloc_frames_at_paddr_keeps a b c d e : keeps (alloc_frames_at_paddr sys a b c d e).
Proof. revert c d. induction e as [|e IH]; intros c d; cbn [alloc_frames_at_paddr]; keep. Qed.
Lemma calloc_array_keeps a : keeps (calloc_array sys a).
Proof. keep. Qed.
#[local] Hint Resolve alloc_frames_keeps alloc_frames_at_paddr_keeps calloc_array_keeps : gpi.
Lemma mo_new_keeps a b : keeps (mo_new sys a b).
Proof. keep. Qed.
Lemma on_mo_registry_delete_keeps a b : keeps (on_mo_registry_delete sys run_cb a b).
Proof. keep. Qed.
#[local] Hint Resolve mo_new_keeps on_mo_registry_delete_keeps : gpi.
Lemma mo_allocate_keeps a b c d : keeps (mo_allocate sys a b c d).
Proof. keep. Qed.
#[local] Hint Resolve mo_allocate_keeps : gpi.
Lemma mo_component_handle_keeps a b c : keeps (mo_component_handle sys run_cb a b c).
Proof. keep. Qed.
Lemma default_space_keeps a : keeps (default_space sys a).
Proof. keep. Qed.
Lemma frame_paddrs_of_keeps a : keeps (frame_paddrs_of sys a).
Proof. induction a as [|x a IH]; cbn [frame_paddrs_of]; keep. Qed.
#[local] Hint Resolve mo_component_handle_keeps default_space_keeps frame_paddrs_of_keeps : gpi.

(** *** Ads *)
Lemma ads_load_keeps a : keeps (ads_load a).
Proof. keep. Qed.
Lemma att_load_keeps a b : keeps (att_load a b).
Proof. keep. Qed.
#[local] Hint Resolve ads_load_keeps att_load_keeps : gpi.
Lemma on_attach_registry_delete_keeps a b : keeps (on_attach_registry_delete sys run_cb a b).
Proof. keep. Qed.
Lemma ads_initialize_keeps a : keeps (ads_initialize sys a).
Proof.
  unfold ads_initialize. apply preserves_bind; [|intros _; apply preserves_bind; [|intros _; keep]];
    apply (obj_store_tracked ads_p False (2 ^ 32) ads_fit); intros N id x [<- Hx Hm];
    split; try done; by apply reg_fit_empty.
Qed.
#[local] Hint Resolve on_attach_registry_delete_keeps ads_initialize_keeps : gpi.

(** the two nodes of an attached region: the second goes into the map of identifiers,
    then the first into the registry of regions *)
Abbreviation region_node ads a := (unlinked (attach_p ads) a).

Lemma calloc_two {B} ads (k : option nat -> option nat -> M server B) :
  (forall a b, hoare (fun s => fresh b s /\ region_node ads a s) (k (Some a) (Some b)) (fun _ => consistent)) ->
  (forall a, keeps (k a None)) -> (forall b, keeps (k None b)) ->
  keeps (a ← calloc sys; b ← calloc sys; k a b).
Proof.
  intros Hk Ha Hb. apply calloc_then; [|by keep]. intros a.
  apply (hoare_bind _ _ _ (fun o s => match o with
    | Some b => fresh b s /\ region_node ads a s | None => consistent s end));
    [|intros [b|]; [apply Hk|by apply (keeps_hoare consistent)]].
  intros s Hs. pose proof (calloc_fresh sys s (fresh_consistent _ _ Hs)) as Hc.
  pose proof (fresh_unlinked (attach_p ads) False (2 ^ 64) (named att_vaddr) a s Hs) as [Hlt Hout].
  unfold calloc in *. rewrite (bind_ok _ _ _ _ _ (ext_err_run sys _ _ s)) in *.
  erewrite (bind_ok get_state) in * by reflexivity. destruct (_ =? 0); [|done].
  split; [exact Hc|]. split; [simpl; lia|exact Hout].
Qed.

Lemma region_entry_hoare ads a b v :
  hoare (fun s => fresh b s /\ region_node ads a s)
    (resource_registry_insert_new_id (attach_map_p ads) (Node b 0 0 (AttachMap v)))
    (fun _ s => consistent s /\ region_node ads a s).
Proof.
  apply (hoare_frame _ (region_node ads a)).
  - by apply (insert_new_id_keeps (attach_map_p ads) True (2 ^ 32) plain_fit).
  - apply (insert_new_id_frame (attach_map_p ads) (region_node ads a)). intros r s [Hlt Hout]. split.
    + by rewrite (tr_next (Tracked := attach_map_tracked ads)).
    + intros r'. rewrite attach_map_put_apart. apply Hout.
Qed.

Lemma obj_load_frame {A} (p : regptr server A CB) (I : server -> Prop) a : preserves I (obj_load p a).
Proof.
  intros s Hs. unfold obj_load, node_load, reg_load, mbind, M_bind.
  destruct (rget p s); [|done]. by destruct (node_at a _).
Qed.

Lemma region_node_hoare ads a v x : att_vaddr x = v ->
  hoare (fun s => consistent s /\ region_node ads a s)
    (resource_registry_insert (attach_p ads) (Node a v 0 x)) (fun _ => consistent).
Proof.
  intros Hx s [Hs Ha]. apply (insert_unlinked (attach_p ads) False (2 ^ 64) (named att_vaddr) a v 0 x s).
  by split_and!.
Qed.

Lemma att_store_keeps ads a f : (forall x, att_vaddr (f x) = att_vaddr x) -> keeps (att_store ads a f).
Proof.
  intros Hf. apply (obj_store_tracked (attach_p ads) False (2 ^ 64) (named att_vaddr)).
  intros N id x Hx. unfold named. by rewrite Hf.
Qed.
#[local] Hint Extern 2 (preserves _ (att_store _ _ _)) => apply att_store_keeps; reflexivity : gpi.
Lemma ads_new_keeps a b : keeps (ads_new sys a b).
Proof. keep. Qed.
Lemma ads_reserve_keeps a b c d e g h : keeps (ads_reserve sys run_cb T a b c d e g h).
Proof.
  unfold ads_reserve. cbv zeta. repeat (apply preserves_bind; [keep|intros ?]). destruct a2 as [r v].
  case_match; [keep|]. apply preserves_bind; [keep|intros _]. apply (calloc_two a); [|intros [?|]; keep|intros [?|]; keep].
  intros node entry. eapply hoare_bind; [apply region_entry_hoare|intros id].
  eapply hoare_bind; [by apply region_node_hoare|intros []]. apply keeps_hoare; [done|keep].
Qed.
Lemma ads_forge_attach_keeps a r m : keeps (ads_forge_attach sys a r m).
Proof.
  unfold ads_forge_attach. apply (calloc_two a); [|intros [?|]; keep|intros [?|]; keep].
  intros node entry. eapply hoare_bind; [apply region_entry_hoare|intros id].
  eapply hoare_bind; [|intros mo; eapply hoare_bind; [by apply (region_node_hoare a)|intros []]].
  - apply (hoare_frame _ (region_node a node) _ (fun _ => consistent)).
    + apply keeps_hoare; [done|keep].
    + apply obj_load_frame.
  - apply keeps_hoare; [done|keep].
Qed.
Lemma ads_get_res_by_vaddr_keeps a b : keeps (ads_get_res_by_vaddr a b).
Proof. keep. Qed.
Lemma ads_get_res_by_type_keeps a b : keeps (ads_get_res_by_type sys a b).
Proof. 
  unfold ads_get_res_by_type. apply preserves_bind; [keep|intros found]. apply preserves_bind; [keep|intros r].
  revert found. induction (head r) as [|n l IH]; intros found; keep.
 Qed.
Lemma copy_frame_caps_for_mapping_keeps a : keeps (copy_frame_caps_for_mapping sys a).
Proof. induction a as [|x a IH]; cbn [copy_frame_caps_for_mapping]; keep. Qed.
#[local] Hint Resolve ads_new_keeps ads_reserve_keeps ads_forge_attach_keeps ads_get_res_by_vaddr_keeps
  ads_get_res_by_type_keeps copy_frame_caps_for_mapping_keeps : gpi.
Lemma ads_attach_to_res_keeps a b c d : keeps (ads_attach_to_res sys a b c d).
Proof. keep. Qed.
#[local] Hint Resolve ads_attach_to_res_keeps : gpi.
Lemma shallow_copy_loop_keeps a b c d e : keeps (shallow_copy_loop sys run_cb T a b c d e).
Proof. induction e as [|x e IH]; cbn [shallow_copy_loop]; keep. Qed.
Lemma on_ads_registry_delete_keeps a b : keeps (on_ads_registry_delete sys run_cb a b).
Proof. keep. Qed.
Lemma create_vmr_space_keeps a : keeps (create_vmr_space sys a).
Proof. keep. Qed.
Lemma ads_get_by_id_keeps a : keeps (ads_get_by_id a).
Proof. keep. Qed.
Lemma ads_get_by_badge_keeps a : keeps (ads_get_by_badge a).
Proof. keep. Qed.
#[local] Hint Resolve shallow_copy_loop_keeps on_ads_registry_delete_keeps create_vmr_space_keeps
  ads_get_by_id_keeps ads_get_by_badge_keeps : gpi.
Lemma ads_component_attach_keeps a b c d : keeps (ads_component_attach sys run_cb T a b c d).
Proof. keep. Qed.
#[local] Hint Resolve ads_component_attach_keeps : gpi.

(** *** AdsRequests *)
Lemma handle_vmr_reserve_req_keeps a b c d e : keeps (handle_vmr_reserve_req sys run_cb T a b c d e).
Proof. keep. Qed.
#[local] Hint Resolve handle_vmr_reserve_req_keeps : gpi.
Lemma ads_component_handle_keeps a b c d e : keeps (ads_component_handle sys run_cb T a load_elf b c d e).
Proof. keep. Qed.
Lemma vspace_get_caps_keeps a b c d e : keeps (vspace_get_caps sys a b c d e).
Proof. revert b d. induction e as [|e IH]; intros b d; cbn [vspace_get_caps]; keep. Qed.
#[local] Hint Resolve ads_component_handle_keeps vspace_get_caps_keeps : gpi.
Lemma forge_ads_attachments_from_vspace_keeps a b c : keeps (forge_ads_attachments_from_vspace sys run_cb a b c).
Proof. induction b as [|x b IH]; cbn [forge_ads_attachments_from_vspace]; keep. Qed.
#[local] Hint Resolve forge_ads_attachments_from_vspace_keeps : gpi.
Lemma forge_ads_cap_from_vspace_keeps a b c d : keeps (forge_ads_cap_from_vspace sys run_cb a b c d).
Proof. keep. Qed.
#[local] Hint Resolve forge_ads_cap_from_vspace_keeps : gpi.

(** *** Elf *)
Section Images.
Context (arm : bool) (align : Z) (sort : (sel4gpi_elf_region_t -> sel4gpi_elf_region_t -> Z) ->
  list sel4gpi_elf_region_t -> list sel4gpi_elf_region_t) (image : list Z -> option elf_t) (mem : Z -> Z).
Lemma prepare_loop_keeps l : forall a b c, keeps (prepare_loop l a b c).
Proof. induction l as [|x l IH]; intros a b c; cbn [prepare_loop]; keep. Qed.
Lemma create_reservations_keeps a l b : keeps (create_reservations sys run_cb T a l b).
Proof. induction l as [|x l IH]; cbn [create_reservations]; keep. Qed.
#[local] Hint Resolve prepare_loop_keeps create_reservations_keeps : gpi.
Lemma elf_reserve_regions_in_ads_keeps a b c d : keeps (elf_reserve_regions_in_ads sys run_cb T sort a b c d).
Proof. keep. Qed.
Lemma load_segments_keeps a b l : forall m prev o, keeps (load_segments sys run_cb T arm a b m prev l o).
Proof. induction l as [|x l IH]; intros m prev o; cbn [load_segments]; keep. Qed.
#[local] Hint Resolve elf_reserve_regions_in_ads_keeps load_segments_keeps : gpi.
Lemma ads_load_elf_keeps a b c d : keeps (ads_load_elf sys run_cb T arm sort image mem a b c d).
Proof. keep. Qed.
Lemma stack_writes_keeps l : Forall (fun w => forall sp, keeps (w sp)) l -> forall sp, keeps (stack_writes l sp).
Proof. induction 1 as [|w l Hw _ IH]; intros sp; cbn [stack_writes]; keep. Qed.
#[local] Hint Extern 1 (preserves _ (stack_writes _ _)) =>
  apply stack_writes_keeps; repeat constructor; intros ?; keep : gpi.
Lemma ads_write_stack_runtime_keeps x y z a b c d e : keeps (ads_write_stack_runtime sys align x y z a b c d e).
Proof. keep. Qed.
Lemma ads_write_stack_args_keeps a b c : keeps (ads_write_stack_args sys align a b c).
Proof. keep. Qed.
End Images.

(** *** Cpu *)
Lemma cpu_load_keeps a : keeps (cpu_load a).
Proof. keep. Qed.
#[local] Hint Resolve cpu_load_keeps : gpi.
Lemma cpu_config_vspace_keeps a b c d e g h i : keeps (cpu_config_vspace sys a b c d e g h i).
Proof. keep. Qed.
Lemma cpu_new_keeps a : keeps (cpu_new sys a).
Proof. keep. Qed.
Lemma vcpu_read_regs_keeps a b : keeps (vcpu_read_regs sys a b).
Proof. induction b as [|x b IH]; cbn [vcpu_read_regs]; keep. Qed.
Lemma on_cpu_registry_delete_keeps a b : keeps (on_cpu_registry_delete sys run_cb a b).
Proof. keep. Qed.
Lemma cpu_get_by_badge_keeps a : keeps (cpu_get_by_badge a).
Proof. keep. Qed.
#[local] Hint Resolve cpu_config_vspace_keeps cpu_new_keeps vcpu_read_regs_keeps
  on_cpu_registry_delete_keeps cpu_get_by_badge_keeps : gpi.
Lemma cpu_component_configure_keeps a b c d e g h i : keeps (cpu_component_configure sys run_cb a b c d e g h i).
Proof. keep. Qed.
#[local] Hint Resolve cpu_component_configure_keeps : gpi.
Lemma cpu_component_handle_keeps a b c d e g : keeps (cpu_component_handle sys run_cb a b c d e g).
Proof. keep. Qed.
#[local] Hint Resolve cpu_component_handle_keeps : gpi.

(** *** PdObj *)
Lemma gpi_get_irq_handler_keeps a : keeps (gpi_get_irq_handler sys a).
Proof. keep. Qed.
Lemma pd_held_resource_on_delete_keeps a b : keeps (pd_held_resource_on_delete sys run_cb a b).
Proof. keep. Qed.
Lemma pd_linkage_on_delete_keeps a b : keeps (pd_linkage_on_delete run_cb a b).
Proof. keep. Qed.
Lemma pd_new_keeps a f b c : keeps (pd_new sys run_cb T a f b c).
Proof. keep. Qed.
#[local] Hint Resolve gpi_get_irq_handler_keeps pd_held_resource_on_delete_keeps
  pd_linkage_on_delete_keeps pd_new_keeps : gpi.
Lemma pd_destroy_keeps a : keeps (pd_destroy sys run_cb a).
Proof. keep. Qed.
Lemma pd_set_core_cap_keeps a b c : keeps (pd_set_core_cap run_cb a b c).
Proof. keep. Qed.
Lemma pd_send_managed_keeps a b c : keeps (pd_send_managed sys a b c).
Proof. keep. Qed.
#[local] Hint Resolve pd_destroy_keeps pd_set_core_cap_keeps pd_send_managed_keeps : gpi.
Lemma pd_send_cap_keeps a b c d e g h : keeps (pd_send_cap sys run_cb a b c d e g h).
Proof. keep. Qed.
#[local] Hint Resolve pd_send_cap_keeps : gpi.

(** *** ModelExport and Dump *)
Section Extraction.

(** the server's part of the state of an extraction *)
Definition extracting (t : server * model_state_t) : Prop := consistent (fst t).
Abbreviation keepsD m := (preserves extracting m).

Lemma host_keeps {A} (m : M server A) : keeps m -> keepsD (host m).
Proof.
  intros Hm [s ms] Hs. specialize (Hm s Hs). unfold host. simpl. by destruct (m s) as [r t].
Qed.
Lemma ms_gets_keeps {A} (f : model_state_t -> A) : keepsD (ms_gets f).
Proof. apply preserves_gets. Qed.
Lemma ms_modify_keeps f : keepsD (ms_modify f).
Proof. by intros [s ms] Hs. Qed.
Lemma read_str_keeps {S} (I : S -> Prop) array : preserves I (read_str array).
Proof. unfold read_str. pres. Qed.
#[local] Hint Resolve ms_gets_keeps ms_modify_keeps read_str_keeps : gpi.
Ltac keepD := repeat (cbv beta zeta; first [apply host_keeps | keep_step]).
Lemma try_calloc_keeps : keeps (try_calloc sys).
Proof. keep. Qed.
#[local] Hint Resolve try_calloc_keeps : gpi.
Lemma type_name_keeps a : keeps (type_name a).
Proof. keepD. Qed.
#[local] Hint Resolve type_name_keeps : gpi.
Lemma add_node_keepsD a b c d : keepsD (add_node (try_calloc sys) (sizeof_component X) a b c d).
Proof. keepD. Qed.
Lemma type_str_keepsD a : keepsD (type_str type_name a).
Proof. keepD. Qed.
Lemma add_edge_by_id_keepsD a b c d :
  keepsD (internal_add_edge_by_id (try_calloc sys) (sizeof_component X) a b c d).
Proof. keepD. Qed.
#[local] Hint Resolve add_node_keepsD type_str_keepsD add_edge_by_id_keepsD : gpi.
Lemma ads_dump_rr_keeps a b : keepsD (ads_dump_rr sys X a b).
Proof. keepD. Qed.
Lemma count_frames_keeps l n : keepsD (count_frames l n).
Proof. revert l. induction n as [|n IH]; intros [|x l]; cbn [count_frames]; keepD. Qed.
#[local] Hint Resolve count_frames_keeps : gpi.
Lemma mo_dump_rr_keeps a b : keepsD (mo_dump_rr sys X a b).
Proof. keepD. Qed.
Lemma cpu_dump_rr_keeps a b : keepsD (cpu_dump_rr sys X a b).
Proof. keepD. Qed.
Lemma resspc_dump_rr_keeps a : keepsD (resspc_dump_rr sys X a).
Proof. keepD. Qed.
#[local] Hint Resolve ads_dump_rr_keeps mo_dump_rr_keeps cpu_dump_rr_keeps resspc_dump_rr_keeps : gpi.
Lemma res_dump_keeps f a b c : (forall d, keepsD (f d)) -> keepsD (res_dump sys X f a b c).
Proof. intros Hf. keepD. Qed.
Lemma dump_held_keeps f l : (forall id, keepsD (f id)) -> keepsD (dump_held f l).
Proof. intros Hf. induction l as [|n l IH]; cbn [dump_held]; keepD. Qed.
Lemma dump_rdes_keeps a b c l : keepsD (dump_rdes sys X a b c l).
Proof. induction l as [|[i j] l IH]; cbn [dump_rdes]; keepD. Qed.
#[local] Hint Resolve res_dump_keeps dump_held_keeps dump_rdes_keeps : gpi.
Lemma pd_dump_internal_keeps fuel : forall a, keepsD (pd_dump_internal sys X fuel a).
Proof. induction fuel as [|fuel IH]; intros a; cbn [pd_dump_internal]; keepD. Qed.
#[local] Hint Resolve pd_dump_internal_keeps : gpi.
Lemma pd_dump_keeps a : keepsD (pd_dump sys X a).
Proof. keepD. Qed.
Lemma on_model_keeps {A} ms (m : M (server * model_state_t) A) : keepsD m -> keeps (on_model ms m).
Proof.
  intros Hm s Hs. specialize (Hm (s, ms) Hs). unfold on_model. by destruct (m (s, ms)) as [[a|f|] [s' ms']].
Qed.
#[local] Hint Resolve pd_dump_keeps on_model_keeps : gpi.
Lemma print_and_destroy_keeps ms : keeps (print_and_destroy sys ms).
Proof.
  unfold print_and_destroy. apply preserves_bind; [apply on_model_keeps|intros ?]; keepD. Qed.
Lemma combine_keepsD ms : keepsD (combine_model_states (try_calloc sys) (sizeof_component X) ms).
Proof. keepD. Qed.
#[local] Hint Resolve combine_keepsD : gpi.
Lemma merge_shared_model_keeps a : keeps (merge_shared_model sys X a).
Proof. keepD. Qed.
End Extraction.
#[local] Hint Resolve try_calloc_keeps pd_dump_keeps on_model_keeps print_and_destroy_keeps
  merge_shared_model_keeps : gpi.

(** *** PdComponent *)
Lemma on_pd_registry_delete_keeps a b : keeps (on_pd_registry_delete sys run_cb a b).
Proof. keep. Qed.
Lemma save_reply_keeps : keeps (save_reply sys).
Proof. keep. Qed.
Lemma pd_component_runtime_setup_keeps a b c d e g h i j k : keeps (pd_component_runtime_setup sys a b write_runtime write_args c d e g h i j k).
Proof. keep. Qed.
Lemma first_work_keeps a b c : keeps (first_work a b c).
Proof. revert a. induction b as [|b IH]; intros a; cbn [first_work]; keep. Qed.
Lemma reply_later_keeps a : keeps (reply_later sys a).
Proof. keep. Qed.
#[local] Hint Resolve on_pd_registry_delete_keeps save_reply_keeps
  pd_component_runtime_setup_keeps first_work_keeps reply_later_keeps : gpi.
Lemma pd_component_handle_keeps a f b c d e g h i j : keeps (pd_component_handle sys run_cb T a f b c d write_runtime write_args X e g h i j).
Proof. keep. Qed.
#[local] Hint Resolve pd_component_handle_keeps : gpi.

(** *** Ep *)
Lemma ep_load_keeps a : keeps (ep_load a).
Proof. keep. Qed.
Lemma ep_new_keeps a : keeps (ep_new sys a).
Proof. keep. Qed.
#[local] Hint Resolve ep_load_keeps ep_new_keeps : gpi.
Lemma on_ep_registry_delete_keeps a b : keeps (on_ep_registry_delete sys run_cb a b).
Proof. keep. Qed.
Lemma ep_component_handle_keeps a b c d : keeps (ep_component_handle sys run_cb a b c d).
Proof. keep. Qed.
#[local] Hint Resolve on_ep_registry_delete_keeps ep_component_handle_keeps : gpi.
End Requests.
