(* ===== verification/Reachable.v ===== *)
(** * The reachable states of the server

    The states in which the server can be between two messages: after boot, and
    after any number of messages from any clients, with any answers of the kernel
    and the allocators.  In all of them the registries are consistent, and a
    message that stops the server stops it in a consistent state.  Boot is the
    hard part: it inserts entries under fixed identifiers, which have to be free. *)

From stdpp Require Import base numbers list gmap.
From S2P Require Import Prelude Strings Badge Registry State ResourceTypes Component PdResources Resspc Mo Ads AdsRequests Elf Cpu PdObj Dump PdComponent Ep Server Invariant Preservation.

Abbreviation keeps m := (preserves consistent m).

(** ** Messages *)
Section Messages.
Context `{UTHash} (sys : list xcall -> xcall -> Z * Z) (P : platform).

Lemma call_cb_keeps depth : forall cb a b, keeps (call_cb sys P depth cb a b).
Proof.
  induction depth as [|depth IH]; intros cb a b; [apply preserves_no_fuel|]. destruct cb; simpl.
  - by apply on_mo_registry_delete_keeps.
  - by apply on_ads_registry_delete_keeps.
  - by apply on_cpu_registry_delete_keeps.
  - by apply on_pd_registry_delete_keeps.
  - by apply on_resspc_registry_delete_keeps.
  - by apply on_ep_registry_delete_keeps.
  - by apply on_attach_registry_delete_keeps.
  - by apply pd_held_resource_on_delete_keeps.
  - by apply pd_linkage_on_delete_keeps.
Qed.

Context (run_cb : CB -> nat -> nat -> M server unit) (Hcb : forall cb a b, keeps (run_cb cb a b)).

Lemma request_handler_keeps c m magic msg badge slot :
  keeps (request_handler sys P run_cb c m magic msg badge slot).
Proof.
  destruct c; simpl; unfold load_elf, write_stack_runtime, write_stack_args;
    auto using ads_load_elf_keeps, ads_write_stack_runtime_keeps, ads_write_stack_args_keeps, ads_component_handle_keeps, mo_component_handle_keeps,
    cpu_component_handle_keeps, pd_component_handle_keeps, ep_component_handle_keeps,
    resspc_component_handle_keeps.
Qed.
#[local] Hint Resolve request_handler_keeps : gpi.

Lemma gpi_server_step_keeps slot m buffer badge :
  keeps (gpi_server_step sys P run_cb slot m buffer badge).
Proof. keep. Qed.
End Messages.

(** ** Boot *)
Section Boot.
Context `{UTHash} (sys : list xcall -> xcall -> Z * Z).

(** the identifiers of the resource types *)
Definition type_ids (s : server) : list Z := object_id <$> head (resource_types s).

Lemma insert_resource_type_hoare id name (ids : list Z) : 0 <= id -> id ∉ ids ->
  hoare (fun s => consistent s /\ type_ids s = ids) (insert_resource_type sys id name)
    (fun _ s => consistent s /\ type_ids s = ids ++ [id]).
Proof.
  intros Hid Hnew s [Hs Hids]. pose proof (calloc_fresh sys s Hs) as Hc. unfold insert_resource_type.
  unfold mbind at 1, M_bind at 1.
  assert (type_ids (calloc sys s).2 = ids) as Hids'.
  { unfold calloc. rewrite (bind_ok _ _ _ _ _ (ext_err_run sys _ _ s)).
    erewrite (bind_ok get_state) by reflexivity. by destruct (_ =? 0). }
  destruct (calloc sys s) as [[[a|]| |] s1]; simpl in Hids'; [|exact Hc..].
  erewrite (bind_ok (deref (Some a))) by reflexivity.
  pose proof (insert_keeps types_p True (2 ^ 32) type_fit a id 0
    (strncpy name RESOURCE_TYPE_MAX_STRING_SIZE) s1) as Hi.
  unfold resource_registry_insert, reg_load, reg_store, assert_, mbind, M_bind in *. simpl in *.
  unfold type_ids in *. destruct (Z.leb_spec id (max_object_id (resource_types s1))).
  - split; [|change (object_id <$> (head (resource_types s1) ++ [Node a id 1 (strncpy name 16)]) = ids ++ [id]);
      by rewrite fmap_app, Hids'].
    apply Hi. split; [done|]. intros r [= <-]. split; [|done]. intros _. by rewrite Hids'.
  - apply Hi. split; [done|]. intros r [= <-]. split; [|done]. intros _. by rewrite Hids'.
Qed.

Ltac new_id := apply (bool_decide_unpack _); vm_compute; exact I.
Lemma resource_types_initialize_keeps : keeps (resource_types_initialize sys).
Proof.
  apply hoare_keeps. unfold resource_types_initialize.
  apply (hoare_bind _ _ _ (fun _ s => consistent s /\ type_ids s = [])).
  { intros s [? ? ? ? ? ? ?]. split; [|done]. split; try done. by apply reg_fit_empty. }
  intros _.
  do 9 (eapply hoare_bind; [apply insert_resource_type_hoare; [done|new_id]|intros ?; cbv beta]).
  eapply hoare_mono; [apply insert_resource_type_hoare; [done|new_id]|by intros ? ? [? _]].
Qed.
End Boot.

(** *** The components *)
Section Components.
Context `{UTHash} (sys : list xcall -> xcall -> Z * Z).

(** the registry has no entries *)
Definition empty_at {A} (p : regptr server A CB) (s : server) : Prop :=
  forall r, rget p s = Some r -> head r = [].

Lemma first_entry_keeps {A} (p : regptr server A CB) unique bound fit `{!Tracked p unique bound fit} a id c x :
  0 <= id -> (forall N, fit N id x) ->
  hoare (fun s => fresh a s /\ empty_at p s) (resource_registry_insert p (Node a id c x)) (fun _ => consistent).
Proof.
  intros Hid Hx s [Hf He]. apply (insert_keeps p unique bound fit a id c x s). split; [done|].
  intros r Hr. split; [|done]. intros _. rewrite (He r Hr). split; [apply not_elem_of_nil|done].
Qed.

(** a component starts with an empty registry *)
Lemma component_initialize_keeps {A} (get : server -> rcc A) put unique fit type space ep cb
    `{!Tracked (comp_ptr get put) unique (2 ^ 32) fit} :
  (forall c s, consistent s -> reg_fit unique (2 ^ 32) fit (next_addr s) (rc_registry c) ->
    consistent (put c s)) ->
  keeps (resource_component_initialize get put type space ep cb).
Proof.
  intros Hput. apply preserves_modify. intros s Hs. apply Hput; [done|]. simpl.
  destruct (_ =? _); by apply reg_fit_empty.
Qed.
Ltac initialized unique fit :=
  apply (component_initialize_keeps _ _ unique fit);
  [solve [apply ads_tracked|apply mo_tracked|apply cpu_tracked|apply pd_tracked|apply resspc_tracked|apply ep_tracked]
  |intros ? ? [] ?; by split].

Lemma resspc_component_initialize_keeps ep : keeps (resspc_component_initialize sys ep).
Proof.
  apply hoare_keeps. unfold resspc_component_initialize.
  apply (hoare_bind _ _ _ (fun _ s => consistent s /\ empty_at resspc_p s)).
  { intros s Hs. assert (keeps (resource_component_initialize resspc_component set_resspc_component
      GPICAP_TYPE_RESSPC RESSPC_SPACE_ID ep CbResspc)) as Hk by initialized True (named spc_id).
    split; [by apply (Hk s)|]. by intros r [= <-]. }
  intros _. eapply hoare_bind; [apply (hoare_frame _ (empty_at resspc_p) _ _ (calloc_fresh sys))|].
  { intros s Hs. unfold calloc. rewrite (bind_ok _ _ _ _ _ (ext_err_run sys _ _ s)).
    erewrite (bind_ok get_state) by reflexivity. by destruct (_ =? 0). }
  intros [a|]; [|by intros s [Hs _]].
  apply (first_entry_keeps resspc_p True (2 ^ 32) (named spc_id)); done.
Qed.
Lemma mo_component_initialize_keeps : keeps (mo_component_initialize sys).
Proof.
  unfold mo_component_initialize. apply preserves_bind; [by apply default_space_keeps|intros space].
  apply preserves_bind; [apply state_keeps|intros s0]. initialized True (named mo_id).
Qed.
Lemma pd_component_initialize_keeps : keeps (pd_component_initialize sys).
Proof.
  unfold pd_component_initialize. apply preserves_bind; [by apply default_space_keeps|intros space].
  apply preserves_bind; [apply state_keeps|intros s0]. initialized True pd_fit.
Qed.
Lemma cpu_component_initialize_keeps : keeps (cpu_component_initialize sys).
Proof.
  unfold cpu_component_initialize. apply preserves_bind; [by apply default_space_keeps|intros space].
  apply preserves_bind; [apply state_keeps|intros s0]. initialized True (named cpu_id).
Qed.
Lemma ep_component_initialize_keeps : keeps (ep_component_initialize sys).
Proof.
  unfold ep_component_initialize. apply preserves_bind; [by apply default_space_keeps|intros space].
  apply preserves_bind; [apply state_keeps|intros s0]. initialized True (named ep_id).
Qed.
Lemma ads_component_initialize_keeps : keeps (ads_component_initialize sys).
Proof.
  unfold ads_component_initialize. apply preserves_bind; [by apply default_space_keeps|intros space].
  apply preserves_bind; [apply state_keeps|intros s0]. apply preserves_bind; [initialized False ads_fit|intros _].
  apply preserves_modify. intros s []. by split.
Qed.
End Components.

(** *** The root task's PD *)
Section RootTask.
Context `{UTHash} (sys : list xcall -> xcall -> Z * Z).

(** no PD yet: the root task's has to be the first under its identifier *)
Definition no_pds (s : server) : Prop :=
  head (rc_registry (pd_component s)) = [] /\ rt_pd_id s = RT_PD_ID.
Abbreviation boots m := (preserves no_pds m).

Lemma ext_err_boots f args : boots (ext_err sys f args).
Proof. intros s Hs. exact Hs. Qed.
Lemma state_boots : boots (get_state : M server server).
Proof. by intros s. Qed.
#[local] Hint Resolve ext_err_boots state_boots : gpi.
Lemma calloc_boots : boots (calloc sys).
Proof. unfold calloc. pres. Qed.

(** what does not write the PD registry *)
Section Pointer.
Context {A : Type} (p : regptr server A CB) (Hp : forall r s, no_pds s -> no_pds (rput p r s)).
Lemma load_boots : boots (reg_load p).
Proof. intros s Hs. unfold reg_load. by destruct (rget p s). Qed.
Lemma store_boots r : boots (reg_store p r).
Proof. intros s Hs. by apply Hp. Qed.
#[local] Hint Resolve load_boots store_boots : gpi.
Lemma obj_load_boots a : boots (obj_load p a).
Proof. unfold obj_load, node_load. pres. Qed.
Lemma obj_store_boots a f : boots (obj_store p a f).
Proof. unfold obj_store, node_store, node_load. pres. Qed.
Lemma insert_boots n : boots (resource_registry_insert p n).
Proof. unfold resource_registry_insert. pres. Qed.
#[local] Hint Resolve insert_boots : gpi.
Lemma insert_new_id_boots n : boots (resource_registry_insert_new_id p n).
Proof. unfold resource_registry_insert_new_id. pres. Qed.
End Pointer.

Lemma resspc_put_boots r s : no_pds s -> no_pds (rput resspc_p r s).
Proof. exact id. Qed.
Lemma types_put_boots r s : no_pds s -> no_pds (rput types_p r s).
Proof. exact id. Qed.
#[local] Hint Resolve calloc_boots load_boots store_boots obj_load_boots obj_store_boots insert_boots
  insert_new_id_boots resspc_put_boots types_put_boots : gpi.

(** a PD is looked up, and there is none *)
Lemma add_resource_by_id_boots a id x y z : boots (pd_add_resource_by_id sys a id x y z).
Proof.
  intros s Hs. unfold pd_add_resource_by_id.
  assert (pd_component_registry_get_entry_by_id a s = (Ok None, s)) as Hn.
  { unfold pd_component_registry_get_entry_by_id, resource_component_registry_get_by_id,
      resource_registry_get_by_id. erewrite bind_ok by reflexivity. simpl.
    destruct Hs as [-> _]. destruct (hash_find [] a) as [n|] eqn:E; [|done].
    by apply hash_find_sound in E as [?%elem_of_nil _]. }
  by rewrite (bind_ok _ _ _ _ _ Hn).
Qed.
#[local] Hint Resolve add_resource_by_id_boots : gpi.

Lemma default_space_boots type : boots (default_space sys type).
Proof.
  unfold default_space, resspc_allocate, resource_component_allocate, space_load, resspc_new, space_store.
  pres.
Qed.
#[local] Hint Resolve default_space_boots : gpi.

Lemma resource_types_boots : boots (resource_types_initialize sys).
Proof.
  unfold resource_types_initialize, insert_resource_type. apply preserves_bind; [by intros s|intros _]. pres.
Qed.
Lemma components_boot ep : boots (resspc_component_initialize sys ep) /\
  boots (pd_component_initialize sys) /\ boots (ads_component_initialize sys) /\
  boots (mo_component_initialize sys) /\ boots (cpu_component_initialize sys) /\
  boots (ep_component_initialize sys).
Proof.
  unfold resspc_component_initialize, pd_component_initialize, ads_component_initialize,
    mo_component_initialize, cpu_component_initialize, ep_component_initialize,
    resource_component_initialize.
  refine (conj _ (conj _ (conj _ (conj _ (conj _ _))))); pres.
  all: apply preserves_modify; by intros s [? ?].
Qed.

Lemma forge_pd_keeps rt_id : 0 <= rt_id ->
  hoare (fun s => consistent s /\ no_pds s) (forge_pd_for_root_task sys rt_id) (fun _ => consistent).
Proof.
  intros Hid. unfold forge_pd_for_root_task.
  eapply hoare_bind; [apply (hoare_frame _ no_pds _ _ (calloc_fresh sys)), calloc_boots|].
  intros [a|]; [|by intros s [Hs _]].
  apply (hoare_bind _ (deref (Some a)) _ (fun b s => b = a /\ fresh a s /\ no_pds s)); [done|intros b].
  apply (hoare_bind _ _ _ (fun _ => consistent)).
  - intros s (-> & Hf & He & _). apply (first_entry_keeps pd_p True (2 ^ 32) pd_fit a rt_id 0 _ Hid).
    + intros N. by apply (pd_fit_zero N (PdEntry (set_pd_vka server_vka (set_pd_id rt_id pd_zero)) _)).
    + split; [done|]. by intros r [= <-].
  - intros _. apply keeps_hoare; [done|]. by apply initialize_registries_keeps.
Qed.
End RootTask.

(** *** Boot *)
Section Boot.
Context `{UTHash} (sys : list xcall -> xcall -> Z * Z) (P : platform).
Context (run_cb : CB -> nat -> nat -> M server unit) (Hcb : forall cb a b, keeps (run_cb cb a b)).

(** the state before the root task has a PD *)
Definition booting (s : server) : Prop := consistent s /\ no_pds s.

Lemma boot_step {A B} (m : M server A) (k : A -> M server B) R : keeps m -> preserves no_pds m ->
  (forall a, hoare booting (k a) R) -> hoare booting (m ≫= k) R.
Proof.
  intros Hm Hi Hk. apply (hoare_bind _ _ _ (fun _ => booting)); [|done].
  apply (hoare_frame consistent no_pds _ (fun _ => consistent)); [|done]. by apply keeps_hoare.
Qed.

Lemma initialize_components_keeps vspace reservations :
  hoare booting (initialize_components sys P run_cb vspace reservations) (fun _ => consistent).
Proof.
  unfold initialize_components. destruct (components_boot sys 0) as (_ & Hpd & Hads & Hmo & Hcpu & Hep).
  apply boot_step; [apply resource_types_initialize_keeps|apply resource_types_boots|intros _].
  apply boot_step; [apply state_keeps|apply state_boots|intros s0].
  apply boot_step; [apply resspc_component_initialize_keeps|apply components_boot|intros _].
  apply boot_step; [apply pd_component_initialize_keeps|done|intros _].
  apply boot_step; [apply ads_component_initialize_keeps|done|intros _].
  apply boot_step; [apply mo_component_initialize_keeps|done|intros _].
  apply boot_step; [apply cpu_component_initialize_keeps|done|intros _].
  apply boot_step; [apply ep_component_initialize_keeps|done|intros _].
  apply (hoare_bind _ _ _ (fun a t => a = t /\ booting t)); [by intros t|intros s1].
  apply (hoare_bind _ _ _ (fun _ => consistent)).
  { intros t [-> Ht]. apply (forge_pd_keeps sys); [by rewrite (proj2 (proj2 Ht))|done]. }
  intros _. apply keeps_hoare; [done|].
  apply preserves_bind; [by apply forge_ads_cap_from_vspace_keeps|]. intros [[error x] id].
  apply preserves_when, preserves_modify. by intros s [].
Qed.

Lemma spawn_failed_keeps ep error : keeps (spawn_failed sys ep error).
Proof. keep. Qed.

(** boot ends in a consistent state, from any state of the memory and the kernel *)
Lemma gpi_server_parent_spawn_thread_keeps irqs vspace reservations s :
  consistent (gpi_server_parent_spawn_thread sys P run_cb irqs vspace reservations s).2.
Proof.
  assert (hoare (fun _ => True) (gpi_server_parent_spawn_thread sys P run_cb irqs vspace reservations)
    (fun _ => consistent)) as Hh.
  { unfold gpi_server_parent_spawn_thread. apply (hoare_bind _ _ _ (fun _ => booting)).
    - intros t _. split; [|done]. split; by apply reg_fit_empty.
    - intros _. apply boot_step; [by apply ext_keeps|by intros t Ht|intros [error ep]].
      destruct (negb _); [by intros t [Ht _]|].
      apply boot_step; [by apply preserves_modify; intros t []|by intros t Ht|intros _].
      apply (hoare_bind _ _ _ (fun _ => consistent)); [apply initialize_components_keeps|intros _].
      apply keeps_hoare; [done|].
      pose proof spawn_failed_keeps. keep. }
  specialize (Hh s I). by destruct (gpi_server_parent_spawn_thread _ _ _ _ _ _ s) as [[]].
Qed.
End Boot.

(** ** Every reachable state *)
Section Reach.
Context `{UTHash} (sys : list xcall -> xcall -> Z * Z) (P : platform).

(** the server waits for a message in state [s], with [slot] as its receive slot; a
    message may nest callbacks to any depth *)
Inductive reachable : server -> Z -> Prop :=
| reach_start (s0 s1 s : server) (irqs : list (Z * Z)) (vspace : Z) (reservations : list sel4utils_res_t)
    (depth : nat) (badge slot : Z) :
    gpi_server_parent_spawn_thread sys P (call_cb sys P depth) irqs vspace reservations s0 = (Ok 0, s1) ->
    gpi_server_start sys badge s1 = (Ok slot, s) ->
    reachable s slot
| reach_message (s0 s : server) (m : ipc) (buffer : list Z) (depth : nat) (badge slot0 slot : Z)
    (answer : option reply) :
    reachable s0 slot0 ->
    gpi_server_step sys P (call_cb sys P depth) slot0 m buffer badge s0 = (Ok (answer, slot), s) ->
    reachable s slot.

Lemma gpi_server_start_keeps badge : keeps (gpi_server_start sys badge).
Proof. keep. Qed.

(** C1: in every state the server can reach, every registry (the seven of the address
    spaces, memory objects, CPUs, PDs, spaces, endpoints and resource types, what each
    PD holds and the PDs it is linked to, and the attached regions of each address
    space with the map of their identifiers) is consistent: its nodes are distinct
    allocations, its maximum keeps to the width of its identifiers, and every object
    is registered under the identifier it carries.  Identifiers are in range and used
    once, but in three kinds of registry of which this is not claimed: address spaces,
    attached regions and the links of a PD.  The next message, whoever sends it and
    whatever it says, keeps all this also when it stops the server. *)
Theorem reachable_consistent s slot (Hs : reachable s slot) :
  consistent s /\
  forall (m : ipc) (buffer : list Z) (badge : Z) (depth : nat),
    consistent (gpi_server_step sys P (call_cb sys P depth) slot m buffer badge s).2.
Proof.
  enough (consistent s) as Hc.
  { split; [done|]. intros m buffer badge depth. apply gpi_server_step_keeps; [|done].
    by apply call_cb_keeps. }
  induction Hs as [s0 s1 s irqs vspace reservations depth badge slot Hboot Hstart
                  |s0 s m buffer depth badge slot0 slot answer Hreach IH Hstep].
  - pose proof (gpi_server_parent_spawn_thread_keeps sys P _ (call_cb_keeps sys P depth) irqs
      vspace reservations s0) as Hb. rewrite Hboot in Hb.
    pose proof (gpi_server_start_keeps badge s1 Hb) as Hc. by rewrite Hstart in Hc.
  - pose proof (gpi_server_step_keeps sys P (call_cb sys P depth) (call_cb_keeps sys P depth)
      slot0 m buffer badge s0 IH) as Hc. by rewrite Hstep in Hc.
Qed.
End Reach.

(** ** Witnesses *)
Section ReachWitness.
(** the server boots, and answers a message from a PD *)
Definition booted : server :=
  (gpi_server_start sys_demo GPI_SERVER_BADGE_PARENT_VALUE
    (gpi_server_parent_spawn_thread sys_demo platform_demo (call_cb sys_demo platform_demo 4) [] 77 []
       server_zero).2).2.

Lemma reachable_consistent_witness :
  consistent (gpi_server_step sys_demo platform_demo (call_cb sys_demo platform_demo 4) 38 (Ipc 0 []) [1]
    (badge_of GPICAP_TYPE_PD 1 2 1) booted).2.
Proof.
  refine (proj2 (reachable_consistent sys_demo platform_demo booted 38 _) _ _ _ _).
  eapply (reach_start _ _ server_zero _ _ [] 77 [] 4 GPI_SERVER_BADGE_PARENT_VALUE); vm_compute; reflexivity.
Defined.
End ReachWitness.
