(* ===== verification/DumpSpec.v ===== *)
(** * The extraction of models: termination and completeness

    Walking over the PDs ends, although PDs may hold each other: a PD is entered
    only while the graph has no node for it, and the walk neither adds PDs nor
    removes nodes.  When the dump of a PD succeeds, the graph has an edge for
    everything that the PD holds, and for every entry of its resource directory. *)

From stdpp Require Import base numbers list gmap strings.
From S2P Require Import Prelude Strings Badge Registry State ResourceTypes ModelExport Component PdResources Resspc Mo Ads Cpu Dump Server.

(** ** Computations that do not run out of fuel *)

(** from a state with [I] the computation ends, and if it returns, then with [R] *)
Definition ends {S A} (I : (S -> Prop)%type) (m : M S A) (R : A -> S -> Prop) : Prop :=
  forall s, I s -> match m s with
                   | (Ok a, s') => R a s'
                   | (Crash _, _) => True
                   | (NoFuel, _) => False
                   end.

Abbreviation stays I m := (ends I m (fun _ => I%function)).

Section Ends.
Context {S : Type}.
Implicit Types (I : S -> Prop).

Lemma ends_ret {A} I (a : A) : stays I (mret a : M S A).
Proof. by intros s. Qed.
Lemma ends_ret_val {A} I (a : A) (R : A -> S -> Prop) : (forall s, I s -> R a s) -> ends I (mret a) R.
Proof. intros HR s. apply HR. Qed.
Lemma ends_crash {A} I f R : ends I (crash f : M S A) R.
Proof. by intros s. Qed.
Lemma ends_gets {A} I (f : S -> A) : ends I (gets f) (fun a s => a = f s /\ I s).
Proof. by intros s. Qed.
Lemma ends_assert I b : ends I (assert_ b : M S unit) (fun _ s => b = true /\ I s).
Proof. destruct b; by intros s. Qed.
Lemma ends_deref {A} I (o : option A) : ends I (deref o : M S A) (fun a s => o = Some a /\ I s).
Proof. destruct o; by intros s. Qed.
Lemma ends_bind {A B} I (m : M S A) (k : A -> M S B) R T :
  ends I m R -> (forall a, ends (R a) (k a) T) -> ends I (m ≫= k) T.
Proof.
  intros Hm Hk s Hs. specialize (Hm s Hs). unfold mbind, M_bind.
  destruct (m s) as [[a|f|] s']; [by apply Hk|done..].
Qed.
Lemma ends_mono {A} I I' (m : M S A) (R R' : A -> S -> Prop) : ends I m R ->
  (forall s, I' s -> I s) -> (forall a s, R a s -> R' a s) -> ends I' m R'.
Proof.
  intros Hm HI HR s Hs. specialize (Hm s (HI s Hs)). destruct (m s) as [[a| |] s']; auto.
Qed.
Lemma ends_weaken {A} I (m : M S A) R : ends I m R -> (forall a s, R a s -> I s) -> stays I m.
Proof. intros Hm HR. by apply (ends_mono I I m R (fun _ => I)). Qed.
Lemma ends_pure {A} (Q : Prop) I (m : M S A) R : (Q -> ends I m R) -> ends (fun s => Q /\ I s) m R.
Proof. intros Hm s [HQ Hs]. by apply Hm. Qed.
Lemma stays_bind {A B} I (m : M S A) (k : A -> M S B) R :
  stays I m -> (forall a, ends I (k a) R) -> ends I (m ≫= k) R.
Proof. apply ends_bind. Qed.
Lemma stays_modify I f : (forall s, I s -> I (f s)) -> stays I (modify f).
Proof. intros Hf s. apply Hf. Qed.
Lemma stays_when I b m : stays I m -> stays I (when b m).
Proof. destruct b; [done|]. by intros _ s. Qed.
Lemma stays_for_each {A} I (l : list A) (body : A -> M S unit) :
  (forall a, stays I (body a)) -> stays I (for_each l body).
Proof.
  intros Hb. induction l as [|x l IH]; simpl; [apply ends_ret|]. by apply stays_bind.
Qed.
End Ends.

Create HintDb ends discriminated.
#[export] Hint Constants Opaque : ends.
Lemma stays_gets {S A} I (f : S -> A) : stays I (gets f).
Proof. by intros s. Qed.
Lemma stays_assert {S} I b : stays I (assert_ b : M S unit).
Proof. destruct b; by intros s. Qed.
Lemma stays_deref {S A} I (o : option A) : stays I (deref o : M S A).
Proof. destruct o; by intros s. Qed.
#[export] Hint Resolve ends_ret ends_crash stays_gets stays_assert stays_deref : ends.

(** walk through a computation that keeps the invariant *)
Ltac stay_step :=
  lazymatch goal with
  | |- ends _ (mbind _ _) _ => apply stays_bind; [|intros ?]
  | |- ends _ (when _ _) _ => apply stays_when
  | |- ends _ (for_each _ _) _ => apply stays_for_each; intros ?
  | |- ends _ (if ?b then _ else _) _ => destruct b
  | |- ends _ (match ?x with _ => _ end) _ => destruct x
  | |- ends _ _ _ => solve [auto with ends]
  end.
Ltac stay := repeat (cbv beta zeta; stay_step).

(** ** What a dump leaves as it is *)

(** all of the server but for the queues of work of the PDs, the counter of missing
    answers, the allocator and the log: the PDs with their addresses and identifiers,
    and the server without these parts *)
Record skeleton_t := Skeleton {
  sk_ads : rcc ads_t;
  sk_mo : rcc mo_t;
  sk_cpu : rcc cpu_t;
  sk_pds : list (nat * Z * pd_t);
  sk_spaces : rcc res_space_t;
  sk_types : registry (list Z) CB;
  sk_rt_pd_id : Z;
  sk_counts : list Z;
  sk_server : server
}.
Definition pd_entries (s : server) : list (nat * Z * pd_t) :=
  (fun n => (n_addr n, object_id n, pd (payload n))) <$> head (rc_registry (pd_component s)).
Definition without_pds (c : rcc pd_entry_t) : rcc pd_entry_t :=
  set_rc_registry (with_head [] (rc_registry c)) c.
Definition skeleton (s : server) : skeleton_t :=
  Skeleton (ads_component s) (mo_component s) (cpu_component s) (pd_entries s) (resspc_component s)
    (resource_types s) (rt_pd_id s) (count <$> head (rc_registry (pd_component s)))
    (set_log [] (set_next_addr 0 (set_model_extraction_n_missing 0
      (set_pd_component (without_pds (pd_component s)) s)))).

(** nodes keep their identifiers, nothing leaves the tables *)
Record grown (ms ms' : model_state_t) : Prop := {
  gr_cells : forall a n, node_cell ms a = Some n -> exists n', node_cell ms' a = Some n' /\ nd_id n' = nd_id n;
  gr_nodes : forall a, a ∈ ms_nodes ms -> a ∈ ms_nodes ms';
  gr_edges : forall k, k ∈ edge_table ms -> k ∈ edge_table ms'
}.

Lemma grown_refl ms : grown ms ms.
Proof. split; [|done..]. intros a n Hn. by exists n. Qed.
Lemma grown_trans ms1 ms2 ms3 : grown ms1 ms2 -> grown ms2 ms3 -> grown ms1 ms3.
Proof.
  intros [Hc Hn He] [Hc' Hn' He']. split; [|by auto..]. intros a n Ha.
  destruct (Hc a n Ha) as (n1 & Ha1 & E1). destruct (Hc' a n1 Ha1) as (n2 & Ha2 & E2).
  exists n2. split; [done|congruence].
Qed.

(** the identifiers of the nodes *)
Definition known_ids (ms : model_state_t) : list (list Z) := (fun p => node_key (snd p)) <$> node_table ms.
Definition known (ms : model_state_t) (id : list Z) : Prop := id ∈ known_ids ms.

(** the node at an address has an identifier *)
Definition node_is (ms : model_state_t) (a : nat) (id : list Z) : Prop :=
  a ∈ ms_nodes ms /\ exists n, node_cell ms a = Some n /\ node_key n = id.

Lemma known_node_is ms id : known ms id <-> exists a, node_is ms a id.
Proof.
  unfold known, known_ids, node_is. rewrite list_elem_of_fmap. split.
  - intros ([a n] & -> & Hin). apply node_table_elem in Hin as [Ha Hn]. exists a. eauto.
  - intros (a & Ha & n & Hn & <-). exists (a, n). split; [done|]. by apply node_table_elem.
Qed.
Lemma node_is_grown ms ms' a id : grown ms ms' -> node_is ms a id -> node_is ms' a id.
Proof.
  intros [Hc Hn _] (Ha & n & Hcell & <-). destruct (Hc a n Hcell) as (n' & Hcell' & E).
  split; [by apply Hn|]. exists n'. split; [done|]. unfold node_key. by rewrite E.
Qed.
Lemma known_grown ms ms' id : grown ms ms' -> known ms id -> known ms' id.
Proof. intros Hg. rewrite !known_node_is. intros [a Ha]. exists a. by apply (node_is_grown ms). Qed.

(** a dump that started with the objects [K] and the graph [ms0] *)
Definition dumping (K : skeleton_t) (ms0 : model_state_t) (x : server * model_state_t) : Prop :=
  skeleton (fst x) = K /\ grown ms0 (snd x).

Lemma dumping_self s ms : dumping (skeleton s) ms (s, ms).
Proof. split; [done|apply grown_refl]. Qed.

Section Steps.
Context `{UTHash} (sys : list xcall -> xcall -> Z * Z) (K : skeleton_t) (ms0 : model_state_t).

Abbreviation unmoved := (fun s => skeleton s = K).
Abbreviation going := (dumping K ms0).

(** ** In the server *)
Lemma host_stays {A} (m : M server A) : stays unmoved m -> stays going (host m).
Proof.
  intros Hm [s ms] [Hs Hg]. specialize (Hm s Hs). unfold host. simpl.
  destruct (m s) as [[a| |] s']; [by split|done..].
Qed.
Lemma host_ends {A} (m : M server A) (R : A -> Prop) :
  ends unmoved m (fun a s => R a /\ skeleton s = K) -> ends going (host m) (fun a x => R a /\ going x).
Proof.
  intros Hm [s ms] [Hs Hg]. specialize (Hm s Hs). unfold host. simpl.
  destruct (m s) as [[a| |] s']; [|done..]. destruct Hm as [Ha Hs']. split; [done|by split].
Qed.

Lemma state_stays : stays unmoved get_state.
Proof. by intros s. Qed.
Lemma ext_stays f args : stays unmoved (ext sys f args).
Proof. by intros s. Qed.
Lemma ext_err_stays f args : stays unmoved (ext_err sys f args).
Proof. by intros s. Qed.
Lemma ext_val_stays f args : stays unmoved (ext_val sys f args).
Proof. by intros s. Qed.
Lemma ext__stays f args : stays unmoved (ext_ sys f args).
Proof. by intros s. Qed.
Lemma reg_load_stays {A} (p : regptr server A CB) : stays unmoved (reg_load p).
Proof. intros s Hs. unfold reg_load. by destruct (rget p s). Qed.
#[local] Hint Resolve state_stays ext_stays ext_err_stays ext_val_stays ext__stays reg_load_stays : ends.
Lemma node_load_stays {A} (p : regptr server A CB) a : stays unmoved (node_load p a).
Proof. unfold node_load. stay. Qed.
#[local] Hint Resolve node_load_stays : ends.
Lemma obj_load_stays {A} (p : regptr server A CB) a : stays unmoved (obj_load p a).
Proof. unfold obj_load. stay. Qed.
Lemma get_by_id_stays {A} (p : regptr server A CB) id : stays unmoved (resource_registry_get_by_id p id).
Proof. unfold resource_registry_get_by_id. stay. Qed.
Lemma calloc_stays : stays unmoved (calloc sys).
Proof.
  intros s Hs. unfold calloc. rewrite (bind_ok _ _ _ _ _ (ext_err_run sys _ _ s)).
  erewrite (bind_ok get_state) by reflexivity. by destruct (_ =? 0).
Qed.
#[local] Hint Resolve obj_load_stays get_by_id_stays calloc_stays : ends.
Lemma try_calloc_stays : stays unmoved (try_calloc sys).
Proof. unfold try_calloc. stay. Qed.
Lemma type_name_stays t : stays unmoved (type_name t).
Proof. unfold type_name, cap_type_to_str. stay. Qed.
Lemma pd_load_stays a : stays unmoved (pd_load a).
Proof. unfold pd_load. stay. Qed.
#[local] Hint Resolve pd_load_stays : ends.
Lemma rde_row_stays a t : stays unmoved (rde_row a t).
Proof. unfold rde_row, shared_load. stay. Qed.

(** changing an entry of a PD, but not the PD *)
Lemma entry_store_stays a f : (forall e, pd (f e) = pd e) -> stays unmoved (obj_store pd_p a f).
Proof.
  intros Hf s <-. unfold obj_store, node_store, node_load, reg_load, reg_store, mbind, M_bind. cbn.
  destruct (node_at a _); [|done]. cbn.
  unfold skeleton, pd_entries. cbn. unfold hash_upd. rewrite <- !list_fmap_compose. f_equal.
  - apply list_fmap_ext. intros i m _. simpl. case_bool; [|done]. simpl. by rewrite Hf.
  - apply list_fmap_ext. intros i m _. simpl. by case_bool.
Qed.
Lemma queue_stays a w : stays unmoved (pd_component_queue_model_extraction_work sys a w).
Proof.
  unfold pd_component_queue_model_extraction_work, work_insert, list_insert, notify.
  apply stays_bind; [|intros _].
  - apply stays_bind; [auto with ends|intros e]. destruct (_ !! _) as [[l|]|]; [|stay..].
    apply stays_bind; [stay|intros l']. by apply entry_store_stays.
  - apply stays_bind; [by apply stays_modify|intros _]. stay.
Qed.

(** ** In the graph *)
Lemma ms_gets_stays {A} (f : model_state_t -> A) : stays going (ms_gets f).
Proof. by intros x. Qed.
Lemma ms_gets_ends {A} (f : model_state_t -> A) :
  ends going (ms_gets f) (fun a x => a = f (snd x) /\ going x).
Proof. by intros x. Qed.
Lemma read_str_stays {S} (I : S -> Prop) array : stays I (read_str array).
Proof. unfold read_str. stay. Qed.
Lemma read_str_ends {S} (I : S -> Prop) array :
  ends I (read_str array) (fun str s => (str = cstring array /\ 0 ∈ array) /\ I s).
Proof. intros s Hs. unfold read_str. case_bool_decide; done. Qed.

Lemma ms_modify_stays f : (forall ms, grown ms (f ms)) -> stays going (ms_modify f).
Proof. intros Hf [s ms] [Hs Hg]. split; [done|]. by apply (grown_trans _ ms). Qed.

Lemma snoc_grown c ms : grown ms (with_mem (fun mem => mem ++ [c]) ms).
Proof.
  split; [|done|].
  - intros a n Hn. exists n. rewrite node_cell_snoc, decide_False by by apply (old_cell ms a n). done.
  - intros k. unfold edge_table. simpl. rewrite !list_elem_of_omap. intros (a & Ha & Hk).
    exists a. split; [done|]. rewrite edge_cell_snoc, decide_False by by apply (old_edge ms a k). done.
Qed.
Lemma free_grown free ms : grown ms (with_free free ms).
Proof. split; [|done..]. intros a n Hn. by exists n. Qed.
Lemma node_linked_grown a ms : grown ms (with_tables (ms_nodes ms ++ [a]) (ms_edges ms) ms).
Proof.
  split; [| |done]; [intros b n Hn; by exists n|]. intros b Hb. simpl. apply elem_of_app. by left.
Qed.
Lemma edge_linked_grown a ms : grown ms (with_tables (ms_nodes ms) (ms_edges ms ++ [a]) ms).
Proof.
  split; [by intros b n Hn; exists n|done|]. intros k. unfold edge_table. simpl. rewrite omap_app, elem_of_app.
  by left.
Qed.
Lemma stored_grown a n m ms : node_cell ms a = Some m -> nd_id n = nd_id m ->
  grown ms (with_mem <[a := GPI_MODEL_NODE n]> ms).
Proof.
  intros Ha Hid. change (grown ms (stored_node a n ms)). split; [|done|].
  - intros b m' Hb. rewrite node_cell_stored by eauto. case_decide; [subst|by exists m'].
    exists n. split; [done|]. congruence.
  - intros k. unfold edge_table. simpl. rewrite !list_elem_of_omap. intros (b & Hb & Hk).
    exists b. split; [done|]. by rewrite edge_cell_stored by eauto.
Qed.

Lemma mnode_load_stays a : stays going (mnode_load (S := server) a).
Proof. unfold mnode_load. apply stays_bind; [apply ms_gets_stays|intros [n|]]; stay. Qed.
Lemma mnode_store_stays a f : (forall n, nd_id (f n) = nd_id n) -> stays going (mnode_store (S := server) a f).
Proof.
  intros Hf [s ms] [Hs Hg]. unfold mnode_store, mnode_load, mbind, M_bind, ms_gets, gets. simpl.
  destruct (node_cell ms a) as [n|] eqn:En; [|done]. split; [done|].
  apply (grown_trans _ ms); [done|]. by apply (stored_grown a (f n) n).
Qed.
Lemma get_node_stays id : stays going (get_node (S := server) id).
Proof. apply ms_gets_stays. Qed.
End Steps.

#[export] Hint Resolve state_stays ext_stays ext_err_stays ext_val_stays ext__stays reg_load_stays
  node_load_stays obj_load_stays get_by_id_stays calloc_stays try_calloc_stays type_name_stays
  pd_load_stays rde_row_stays queue_stays ms_gets_stays read_str_stays mnode_load_stays
  get_node_stays : ends.
#[export] Hint Extern 2 (ends _ (host _) _) => apply host_stays : ends.
#[export] Hint Extern 2 (ends _ (mnode_store _ _) _) => apply mnode_store_stays; done : ends.
#[export] Hint Extern 2 (ends _ (ms_modify _) _) => apply ms_modify_stays; intros ? : ends.
#[export] Hint Resolve snoc_grown free_grown node_linked_grown edge_linked_grown : ends.

(** ** Facts about the graph that stay true *)
Definition monotone (Q : model_state_t -> Prop) : Prop := forall ms ms', grown ms ms' -> Q ms -> Q ms'.

(** the dump goes on, and the graph has what [Q] says *)
Definition going (K : skeleton_t) (Q : model_state_t -> Prop) (x : server * model_state_t) : Prop :=
  skeleton (fst x) = K /\ Q (snd x).

Lemma monotone_and Q Q' : monotone Q -> monotone Q' -> monotone (fun ms => Q ms /\ Q' ms).
Proof. intros H H' ms ms' Hg [? ?]. split; eauto. Qed.
Lemma monotone_imp (P : Prop) Q : monotone Q -> monotone (fun ms => P -> Q ms).
Proof. intros H ms ms' Hg Hq ?. eauto. Qed.
Lemma monotone_grown ms0 : monotone (grown ms0).
Proof. intros ms ms' Hg H. by apply (grown_trans _ ms). Qed.
Lemma monotone_edge k : monotone (fun ms => k ∈ edge_table ms).
Proof. intros ms ms' [_ _ He]. apply He. Qed.
Lemma monotone_node a id : monotone (fun ms => node_is ms a id).
Proof. intros ms ms'. apply node_is_grown. Qed.
Lemma monotone_known id : monotone (fun ms => known ms id).
Proof. intros ms ms'. apply known_grown. Qed.
Lemma monotone_pure (P : Prop) : monotone (fun _ => P).
Proof. by intros ms ms'. Qed.
#[export] Hint Resolve monotone_and monotone_imp monotone_grown monotone_edge monotone_node monotone_known
  monotone_pure : ends.

Section Going.
Context `{UTHash} (sys : list xcall -> xcall -> Z * Z) (X : extraction_env) (K : skeleton_t).
Implicit Types (Q : model_state_t -> Prop).

(** a computation that only lets the graph grow keeps what is known of it *)
Lemma going_stays {A} (m : M (server * model_state_t) A) Q : monotone Q ->
  (forall K ms0, stays (dumping K ms0) m) -> stays (going K Q) m.
Proof.
  intros HQ Hm [s ms] [Hs Hq]. specialize (Hm (skeleton s) ms (s, ms) (dumping_self s ms)).
  destruct (m (s, ms)) as [[a| |] [s' ms']]; [|done..]. destruct Hm as [Es Hg]. simpl in *.
  split; simpl; [congruence|]. by apply (HQ ms).
Qed.

(** the result of a computation in the server *)
Lemma going_host {A} (m : M server A) Q (R : A -> Prop) :
  ends (fun s => skeleton s = K) m (fun a s => R a /\ skeleton s = K) ->
  ends (going K Q) (host m) (fun a x => R a /\ going K Q x).
Proof.
  intros Hm [s ms] [Hs Hq]. specialize (Hm s Hs). unfold host. simpl.
  destruct (m s) as [[a| |] s']; [|done..]. destruct Hm as [Ha Hs']. split; [done|by split].
Qed.

(** binding a value that is known *)
Lemma going_bind {A B S} (I : S -> Prop) (m : M S A) (k : A -> M S B) (R : A -> Prop) T :
  ends I m (fun a s => R a /\ I s) -> (forall a, R a -> ends I (k a) T) -> ends I (m ≫= k) T.
Proof. intros Hm Hk. eapply ends_bind; [apply Hm|]. intros a. apply ends_pure, Hk. Qed.

(** ** Lookups in the server *)
Section Lookups.
Context {A : Type} (p : regptr server A CB) (r : registry A CB).
Context (Hr : forall s, skeleton s = K -> rget p s = Some r).
Abbreviation unmoved := (fun s => skeleton s = K).

Lemma get_by_id_ends id : ends unmoved (resource_registry_get_by_id p id)
  (fun o s => o = n_addr <$> hash_find (head r) id /\ skeleton s = K).
Proof.
  intros s Hs. unfold resource_registry_get_by_id, reg_load, mbind, M_bind. by rewrite (Hr s Hs).
Qed.
Lemma node_load_ends a : ends unmoved (node_load p a)
  (fun n s => node_at a (head r) = Some n /\ skeleton s = K).
Proof.
  intros s Hs. unfold node_load, reg_load, mbind, M_bind. rewrite (Hr s Hs). by destruct (node_at a (head r)).
Qed.
Lemma obj_load_ends a : ends unmoved (obj_load p a)
  (fun x s => payload <$> node_at a (head r) = Some x /\ skeleton s = K).
Proof.
  unfold obj_load. eapply ends_bind; [apply node_load_ends|]. intros n. apply ends_pure. intros ->.
  by apply ends_ret_val.
Qed.
End Lookups.

(** the object that is found under an identifier *)
Definition lookup_payload {A} (r : registry A CB) (id : Z) : option A :=
  n ← hash_find (head r) id; payload <$> node_at (n_addr n) (head r).

(** the name of a type *)
Definition type_name_of (t : Z) : list Z := cstring (default [] (lookup_payload (sk_types K) t)).

Lemma type_str_ends Q t : monotone Q ->
  ends (going K Q) (type_str type_name t) (fun str x => str = type_name_of t /\ going K Q x).
Proof.
  intros HQ. unfold type_str.
  apply (going_bind _ _ _ (fun cells => lookup_payload (sk_types K) t = Some cells)).
  - apply going_host. unfold type_name, cap_type_to_str.
    apply (going_bind _ _ _ (fun o => o = n_addr <$> hash_find (head (sk_types K)) t)).
    { apply get_by_id_ends. by intros s <-. }
    intros o ->. unfold lookup_payload. destruct (hash_find _ t) as [n|]; simpl; [|apply ends_crash].
    eapply ends_bind; [apply (node_load_ends types_p (sk_types K)); by intros s <-|].
    intros m. apply ends_pure. intros ->. by apply ends_ret_val.
  - intros cells Hc. eapply ends_mono; [apply read_str_ends|done|]. intros str x [[-> _] Hx].
    split; [|done]. unfold type_name_of. by rewrite Hc.
Qed.

(** the strings of spaces and resources *)
Definition space_str (type id : Z) : list Z :=
  make_node_id (snprintf CSV_MAX_STRING_SIZE (type_name_of type ++ chars "_SPACE")) id.
Definition res_str (type space object : Z) : list Z := make_node_id_2 (type_name_of type) space object.
Definition pd_str (id : Z) : list Z := get_pd_id id.

Lemma type_name_no_nul t : no_nul (type_name_of t).
Proof. apply cstring_no_nul. Qed.
Lemma space_str_fits t i : fits_csv (space_str t i).
Proof.
  apply make_node_id_fits, snprintf_fits, no_nul_app. split; [apply type_name_no_nul|by repeat constructor].
Qed.
Lemma res_str_fits t i j : fits_csv (res_str t i j).
Proof. apply make_node_id_2_fits, type_name_no_nul. Qed.
Lemma pd_str_fits i : fits_csv (pd_str i).
Proof. apply make_node_id_fits. by repeat constructor. Qed.

Lemma space_id_ends Q t i : monotone Q -> ends (going K Q) (get_resource_space_id type_name t i)
  (fun id x => id = space_str t i /\ going K Q x).
Proof.
  intros HQ. unfold get_resource_space_id. eapply going_bind; [by apply type_str_ends|].
  intros ? ->. by apply ends_ret_val.
Qed.
Lemma resource_id_ends Q r : monotone Q -> ends (going K Q) (get_resource_id type_name r)
  (fun id x => id = res_str (rid_type r) (rid_space r) (rid_object r) /\ going K Q x).
Proof.
  intros HQ. unfold get_resource_id. eapply going_bind; [by apply type_str_ends|].
  intros ? ->. by apply ends_ret_val.
Qed.

(** ** Nodes *)
Lemma get_node_ends Q id : ends (going K Q) (get_node id)
  (fun o x => going K Q x /\ match o with Some a => node_is (snd x) a id | None => ~ known (snd x) id end).
Proof.
  intros [s ms] [Hs Hq]. unfold get_node, ms_gets, gets. cbn [snd]. split; [done|].
  unfold find_node. destruct (hash_find_key _ _) as [[a n]|] eqn:E; simpl.
  - apply hash_find_key_sound in E as [Hin Hid%bool_decide_eq_true].
    apply node_table_elem in Hin as [Ha Hn]. split; [done|]. by exists n.
  - unfold known, known_ids. intros (p & -> & Hin)%list_elem_of_fmap.
    pose proof (hash_find_key_complete _ _ _ E p Hin) as Hf. by apply bool_decide_eq_false in Hf.
Qed.

(** a component is placed at the address that its links get *)
Lemma place_ends Q c {B} (k : nat -> M (server * model_state_t) B) R : monotone Q ->
  (forall a, ends (fun x => going K Q x /\ ms_mem (snd x) !! a = Some c) (k a) R) ->
  ends (going K Q) (ms ← ms_gets (fun ms => ms);
    match ms_free ms with
    | None => ok ← host (try_calloc sys); assert_ ok
    | Some rest =>
        assert_ (sizeof_component X <? rest) ;;
        ms_modify (with_free (Some (rest - sizeof_component X)))
    end ;;
    ms_modify (with_mem (fun mem => mem ++ [c])) ;; k (length (ms_mem ms))) R.
Proof.
  intros HQ Hk.
  apply (ends_bind _ _ _ (fun ms x => going K Q x /\ snd x = ms)); [by intros x Hx; split|intros ms].
  apply (ends_bind _ _ _ (fun _ x => going K Q x /\ length (ms_mem (snd x)) = length (ms_mem ms))).
  - destruct (ms_free ms).
    + apply (ends_bind _ _ _ (fun _ x => going K Q x /\ snd x = ms)); [apply stays_assert|intros _].
      intros [t ms'] [[Ht Hq] E]. simpl in *. subst ms'. split; [|done]. split; [done|].
      by apply (HQ ms); [apply free_grown|].
    + apply (ends_bind _ _ _ (fun _ x => going K Q x /\ snd x = ms)).
      * intros [t ms'] [[Ht Hq] E]. pose proof (try_calloc_stays sys K t Ht) as Hc. unfold host. simpl in *.
        by destruct (try_calloc sys t) as [[a| |] t'].
      * intros [|] x [Hx E]; [|done]. split; [done|]. by rewrite E.
  - intros _. apply (ends_bind _ _ _ (fun _ x => going K Q x /\ ms_mem (snd x) !! length (ms_mem ms) = Some c));
      [|intros _; apply Hk]. intros [t ms'] [[Ht Hq] E]. simpl in *. split; [split; [done|]|].
    + by apply (HQ ms'); [apply snoc_grown|].
    + rewrite <- E. by apply list_lookup_middle.
Qed.
End Going.

(** ** Every step only lets the graph grow *)
Section Stays.
Context `{UTHash} (sys : list xcall -> xcall -> Z * Z) (X : extraction_env) (K : skeleton_t) (ms0 : model_state_t).
Abbreviation going0 := (dumping K ms0).

Lemma server_state_stays : stays going0 server_state.
Proof. unfold server_state. auto with ends. Qed.
#[local] Hint Resolve server_state_stays : ends.
Lemma add_node_stays a b c d : stays going0 (add_node (try_calloc sys) (sizeof_component X) a b c d).
Proof. unfold add_node. stay. Qed.
Lemma type_str_stays t : stays going0 (type_str type_name t).
Proof. unfold type_str. stay. Qed.
#[local] Hint Resolve add_node_stays type_str_stays : ends.
Lemma space_id_stays a b : stays going0 (get_resource_space_id type_name a b).
Proof. unfold get_resource_space_id. stay. Qed.
Lemma resource_id_stays a : stays going0 (get_resource_id type_name a).
Proof. unfold get_resource_id. stay. Qed.
Lemma internal_add_edge_stays a b c d :
  stays going0 (internal_add_edge_by_id (try_calloc sys) (sizeof_component X) a b c d).
Proof. unfold internal_add_edge_by_id, copy_id. stay. Qed.
Lemma node_str_stays a : stays going0 (node_str (S := server) a).
Proof. unfold node_str. stay. Qed.
#[local] Hint Resolve space_id_stays resource_id_stays internal_add_edge_stays node_str_stays : ends.
Lemma add_resource_node_stays a b : stays going0 (add_resource_node sys X a b).
Proof. unfold add_resource_node, ModelExport.add_resource_node. stay. Qed.
Lemma get_resource_node_stays a : stays going0 (get_resource_node a).
Proof. unfold get_resource_node, ModelExport.get_resource_node. stay. Qed.
Lemma add_resource_space_node_stays a b c : stays going0 (add_resource_space_node sys X a b c).
Proof. unfold add_resource_space_node, ModelExport.add_resource_space_node. stay. Qed.
Lemma get_resource_space_node_stays a b : stays going0 (get_resource_space_node a b).
Proof. unfold get_resource_space_node, ModelExport.get_resource_space_node. stay. Qed.
Lemma add_pd_node_stays a b c : stays going0 (add_pd_node sys X a b c).
Proof. unfold add_pd_node, ModelExport.add_pd_node. stay. Qed.
Lemma get_root_node_stays : stays going0 (get_root_node sys X).
Proof. unfold get_root_node, ModelExport.get_root_node, ModelExport.add_pd_node. stay. Qed.
Lemma get_pd_node_stays a : stays going0 (get_pd_node (S := server) a).
Proof. unfold get_pd_node. stay. Qed.
Lemma dump_add_edge_stays a b c : stays going0 (add_edge sys X a b c).
Proof. unfold add_edge, ModelExport.add_edge, add_edge_private. stay. Qed.
Lemma add_edge_by_id_stays a b c : stays going0 (add_edge_by_id sys X a b c).
Proof. unfold add_edge_by_id, ModelExport.add_edge_by_id. stay. Qed.
Lemma add_request_edge_by_id_stays a b c : stays going0 (add_request_edge_by_id sys X a b c).
Proof. unfold add_request_edge_by_id, ModelExport.add_request_edge_by_id. stay. Qed.
Lemma set_node_extra_stays a b : stays going0 (set_node_extra (S := server) a b).
Proof. unfold set_node_extra. stay. Qed.
#[local] Hint Resolve add_resource_node_stays get_resource_node_stays add_resource_space_node_stays
  get_resource_space_node_stays add_pd_node_stays get_root_node_stays get_pd_node_stays dump_add_edge_stays
  add_edge_by_id_stays add_request_edge_by_id_stays set_node_extra_stays : ends.

Lemma or_add_stays o add : stays going0 add -> stays going0 (or_add o add).
Proof. intros Ha. destruct o; [apply ends_ret|done]. Qed.
Lemma extract_once_stays a dump : stays going0 dump -> stays going0 (extract_once a dump).
Proof. intros Hd. unfold extract_once. stay. Qed.

Lemma dump_attachment_stays a b c d e : stays going0 (dump_attachment sys X a b c d e).
Proof. unfold dump_attachment, or_add. stay. Qed.
#[local] Hint Resolve dump_attachment_stays : ends.
Lemma ads_dump_rr_stays a b : stays going0 (ads_dump_rr sys X a b).
Proof. unfold ads_dump_rr, or_add, extract_once, ads_load. stay. Qed.
Lemma count_frames_stays l n : stays going0 (count_frames l n).
Proof. revert l. induction n as [|n IH]; intros [|x l]; cbn [count_frames]; stay. Qed.
#[local] Hint Resolve count_frames_stays : ends.
Lemma mo_dump_rr_stays a b : stays going0 (mo_dump_rr sys X a b).
Proof. unfold mo_dump_rr, or_add, extract_once, mo_text. stay. Qed.
Lemma cpu_dump_rr_stays a b : stays going0 (cpu_dump_rr sys X a b).
Proof. unfold cpu_dump_rr, or_add, extract_once, cpu_load. stay. Qed.
Lemma resspc_dump_rr_stays a : stays going0 (resspc_dump_rr sys X a).
Proof. unfold resspc_dump_rr, or_add, extract_once. stay. Qed.
#[local] Hint Resolve ads_dump_rr_stays mo_dump_rr_stays cpu_dump_rr_stays resspc_dump_rr_stays : ends.
Lemma entry_by_id_stays a : stays (fun s => skeleton s = K) (pd_component_registry_get_entry_by_id a).
Proof. apply get_by_id_stays. Qed.
Lemma space_by_id_stays a : stays (fun s => skeleton s = K) (resource_space_get_entry_by_id a).
Proof. apply get_by_id_stays. Qed.
Lemma component_by_id_stays {A} (p : regptr server A CB) a :
  stays (fun s => skeleton s = K) (resource_component_registry_get_by_id p a).
Proof. apply get_by_id_stays. Qed.
#[local] Hint Resolve entry_by_id_stays space_by_id_stays component_by_id_stays : ends.
Lemma dump_server_resource_stays a b c : stays going0 (dump_server_resource sys X a b c).
Proof. unfold dump_server_resource, request_subgraph. stay. Qed.
#[local] Hint Resolve dump_server_resource_stays : ends.
Lemma res_dump_stays f a b c : (forall d, stays going0 (f d)) -> stays going0 (res_dump sys X f a b c).
Proof. intros Hf. unfold res_dump, dump_and_hold, or_add. stay. Qed.
Lemma dump_held_stays f l : (forall id, stays going0 (f id)) -> stays going0 (dump_held f l).
Proof. intros Hf. induction l as [|n l IH]; cbn [dump_held]; stay. Qed.
Lemma dump_rde_stays a b c : stays going0 (dump_rde sys X a b c).
Proof. unfold dump_rde. stay. Qed.
#[local] Hint Resolve dump_rde_stays : ends.
Lemma dump_rdes_stays a b c l : stays going0 (dump_rdes sys X a b c l).
Proof. induction l as [|[i j] l IH]; cbn [dump_rdes]; stay. Qed.
End Stays.
#[export] Hint Resolve server_state_stays add_node_stays type_str_stays space_id_stays resource_id_stays
  internal_add_edge_stays node_str_stays add_resource_node_stays get_resource_node_stays
  add_resource_space_node_stays get_resource_space_node_stays add_pd_node_stays get_root_node_stays
  get_pd_node_stays dump_add_edge_stays add_edge_by_id_stays add_request_edge_by_id_stays
  set_node_extra_stays or_add_stays extract_once_stays ads_dump_rr_stays mo_dump_rr_stays
  cpu_dump_rr_stays resspc_dump_rr_stays entry_by_id_stays space_by_id_stays component_by_id_stays
  dump_server_resource_stays dump_rde_stays dump_rdes_stays count_frames_stays dump_attachment_stays : ends.

(** ** Nodes and edges that are there after they were added *)
Section Added.
Context `{UTHash} (sys : list xcall -> xcall -> Z * Z) (X : extraction_env) (K : skeleton_t).
Implicit Types (Q : model_state_t -> Prop).

Lemma add_node_ends Q type id data extracted : monotone Q -> fits_csv id ->
  ends (going K Q) (add_node (try_calloc sys) (sizeof_component X) type id data extracted)
    (fun a => going K (fun ms => Q ms /\ node_is ms a id)).
Proof.
  intros HQ [Hnul Hlen]. unfold add_node. eapply ends_bind; [apply get_node_ends|]. intros [a|].
  - apply (ends_mono (going K (fun ms => Q ms /\ node_is ms a id)) _ _
      (fun b x => b = a /\ going K (fun ms => Q ms /\ node_is ms a id) x)).
    + eapply stays_bind; [apply going_stays; [auto with ends|intros; stay]|intros n].
      eapply stays_bind; [apply going_stays; [auto with ends|intros; stay]|intros old].
      eapply stays_bind; [apply going_stays; [auto with ends|intros; stay]|intros _]. by intros x.
    + intros [s ms] [[Hs Hq] Ha]. by split.
    + by intros ? x [-> Hx].
  - cbv zeta. apply (ends_mono (going K Q) _ _ (fun a => going K (fun ms => Q ms /\ node_is ms a id)));
      [|by intros x [? _]|done].
    apply (place_ends sys X K Q _ (fun a => _ ← read_str _;
      ms_modify (fun ms => with_tables (ms_nodes ms ++ [a]) (ms_edges ms) ms) ;; mret a)); [done|]. intros a.
    eapply ends_bind; [apply read_str_ends|]. intros str [s ms] [_ [[Hs Hq] Ha]]. simpl in *.
    split; [done|]. simpl. split; [apply (HQ ms); [apply node_linked_grown|done]|]. split.
    + apply elem_of_app. right. by apply elem_of_cons; left.
    + unfold node_cell. simpl. rewrite Ha. eexists. split; [done|]. unfold node_key. simpl. by apply cstring_strncpy.
Qed.

Lemma internal_add_edge_ends Q type from to req : monotone Q ->
  ends (going K Q) (internal_add_edge_by_id (try_calloc sys) (sizeof_component X) type from to req)
    (fun _ => going K (fun ms => Q ms /\ edge_key type from to req ∈ edge_table ms)).
Proof.
  intros HQ. unfold internal_add_edge_by_id.
  assert (forall id, ends (going K Q) (copy_id (S := server) id)
    (fun c x => c = strncpy id CSV_MAX_STRING_SIZE /\ going K Q x)) as Hcopy.
  { intros id. unfold copy_id. case_bool; [by apply ends_ret_val|apply ends_crash]. }
  eapply going_bind; [apply Hcopy|intros ? ->]. eapply going_bind; [apply Hcopy|intros ? ->].
  fold (edge_key type from to req). set (k := edge_key type from to req).
  apply (ends_bind _ _ _ (fun o x => going K Q x /\ o = hash_find_key (fun e => bool_decide (e = k)) (edge_table (snd x))));
    [by intros x Hx; split|].
  intros [e|].
  - intros [s ms] [[Hs Hq] E]. symmetry in E. apply hash_find_key_sound in E as [Hin ->%bool_decide_eq_true].
    by split.
  - cbv zeta. apply (ends_mono (going K Q) _ _ (fun _ => going K (fun ms => Q ms /\ k ∈ edge_table ms)));
      [|by intros x [? _]|done].
    apply (place_ends sys X K Q _ (fun a =>
      ms_modify (fun ms => with_tables (ms_nodes ms) (ms_edges ms ++ [a]) ms))); [done|].
    intros a [s ms] [[Hs Hq] Ha]. simpl in *. split; [done|]. simpl. split.
    + apply (HQ ms); [apply edge_linked_grown|done].
    + unfold edge_table. simpl. rewrite omap_app, elem_of_app. right. simpl.
      unfold edge_cell. simpl. rewrite Ha. by apply elem_of_cons; left.
Qed.

Lemma node_str_ends Q a id : (forall ms, Q ms -> node_is ms a id) ->
  ends (going K Q) (node_str a) (fun str x => str = id /\ going K Q x).
Proof.
  intros Ha [s ms] [Hs Hq]. destruct (Ha ms Hq) as (_ & n & Hn & <-).
  unfold node_str, mnode_load, ms_gets, gets, mbind, M_bind. simpl. rewrite Hn. simpl.
  unfold read_str. by case_bool_decide.
Qed.

Lemma add_edge_ends Q type a b ida idb : monotone Q ->
  (forall ms, Q ms -> node_is ms a ida /\ node_is ms b idb) ->
  ends (going K Q) (add_edge sys X type a b)
    (fun _ => going K (fun ms => Q ms /\ edge_key type ida idb GPICAP_TYPE_NONE ∈ edge_table ms)).
Proof.
  intros HQ Hab. unfold add_edge, ModelExport.add_edge, add_edge_private.
  eapply going_bind; [apply node_str_ends; intros ms Hms; by apply Hab|intros ? ->].
  eapply going_bind; [apply node_str_ends; intros ms Hms; by apply Hab|intros ? ->].
  by apply internal_add_edge_ends.
Qed.

(** the node that is found or added has the identifier *)
Lemma or_add_ends Q o id add : (forall x, going K Q x -> True) ->
  ends (going K Q) add (fun a => going K (fun ms => Q ms /\ node_is ms a id)) ->
  ends (fun x => going K Q x /\ match o with Some a => node_is (snd x) a id | None => ~ known (snd x) id end)
    (or_add o add) (fun a => going K (fun ms => Q ms /\ node_is ms a id)).
Proof.
  intros _ Hadd. destruct o as [a|]; simpl.
  - intros [s ms] [[Hs Hq] Ha]. by split.
  - apply (ends_mono (going K Q) _ _ (fun a => going K (fun ms => Q ms /\ node_is ms a id))); [done|by intros x [? _]|done].
Qed.

Lemma get_space_node_ends Q t i : monotone Q -> ends (going K Q) (get_resource_space_node t i)
  (fun o x => going K Q x /\
     match o with Some a => node_is (snd x) a (space_str K t i) | None => ~ known (snd x) (space_str K t i) end).
Proof.
  intros HQ. unfold get_resource_space_node, ModelExport.get_resource_space_node.
  eapply going_bind; [by apply space_id_ends|intros ? ->]. apply get_node_ends.
Qed.
Lemma get_resource_node_ends Q r : monotone Q ->
  let id := res_str K (rid_type r) (rid_space r) (rid_object r) in
  ends (going K Q) (get_resource_node r)
  (fun o x => going K Q x /\ match o with Some a => node_is (snd x) a id | None => ~ known (snd x) id end).
Proof.
  intros HQ. unfold get_resource_node, ModelExport.get_resource_node.
  eapply going_bind; [by apply resource_id_ends|intros ? ->]. apply get_node_ends.
Qed.
Lemma add_space_node_ends Q t i b : monotone Q -> ends (going K Q) (add_resource_space_node sys X t i b)
  (fun a => going K (fun ms => Q ms /\ node_is ms a (space_str K t i))).
Proof.
  intros HQ. unfold add_resource_space_node, ModelExport.add_resource_space_node.
  eapply going_bind; [by apply space_id_ends|intros ? ->].
  eapply going_bind; [by apply type_str_ends|intros ? ->]. apply add_node_ends; [done|apply space_str_fits].
Qed.
Lemma add_resource_node_ends Q r b : monotone Q -> ends (going K Q) (add_resource_node sys X r b)
  (fun a => going K (fun ms => Q ms /\ node_is ms a (res_str K (rid_type r) (rid_space r) (rid_object r)))).
Proof.
  intros HQ. unfold add_resource_node, ModelExport.add_resource_node.
  eapply going_bind; [by apply resource_id_ends|intros ? ->].
  eapply going_bind; [by apply type_str_ends|intros ? ->]. apply add_node_ends; [done|apply res_str_fits].
Qed.
Lemma add_pd_node_ends Q name i b : monotone Q -> ends (going K Q) (add_pd_node sys X name i b)
  (fun a => going K (fun ms => Q ms /\ node_is ms a (pd_str i))).
Proof. intros HQ. apply add_node_ends; [done|apply pd_str_fits]. Qed.
End Added.

(** ** Termination *)
Section Termination.
Context `{UTHash} (sys : list xcall -> xcall -> Z * Z) (X : extraction_env).

(** the PDs that have no node yet *)
Definition unseen (K : skeleton_t) (ms : model_state_t) : nat :=
  length (filter (fun e => get_pd_id (pd_id (snd e)) ∉ known_ids ms) (sk_pds K)).

Lemma filter_length_le {A} (P Q : A -> Prop) `{!forall x, Decision (P x), !forall x, Decision (Q x)} (l : list A) :
  (forall x, P x -> Q x) -> (length (filter P l) <= length (filter Q l))%nat.
Proof.
  intros HPQ. induction l as [|x l IH]; [done|]. rewrite !filter_cons.
  destruct (decide (P x)) as [HP|], (decide (Q x)) as [|HQ]; simpl; try lia. by destruct (HQ (HPQ x HP)).
Qed.
Lemma filter_length_lt {A} (P Q : A -> Prop) `{!forall x, Decision (P x), !forall x, Decision (Q x)} (l : list A) x :
  (forall x, P x -> Q x) -> x ∈ l -> Q x -> ~ P x -> (length (filter P l) < length (filter Q l))%nat.
Proof.
  intros HPQ. induction l as [|y l IH]; [by intros ?%elem_of_nil|]. rewrite !filter_cons.
  intros [->|Hin]%elem_of_cons HQx HPx.
  - rewrite decide_False, decide_True by done. simpl. pose proof (filter_length_le P Q l HPQ). lia.
  - specialize (IH Hin HQx HPx). destruct (decide (P y)) as [HP|], (decide (Q y)) as [|HQ]; simpl; try lia.
    by destruct (HQ (HPQ y HP)).
Qed.

Lemma unseen_grown K ms ms' : grown ms ms' -> (unseen K ms' <= unseen K ms)%nat.
Proof. intros Hg. apply filter_length_le. intros e Hn Hk. by apply Hn, (known_grown ms). Qed.
Lemma unseen_lt K ms ms' e : grown ms ms' -> e ∈ sk_pds K -> ~ known ms (get_pd_id (pd_id (snd e))) ->
  known ms' (get_pd_id (pd_id (snd e))) -> (unseen K ms' < unseen K ms)%nat.
Proof.
  intros Hg He Hn Hk. apply (filter_length_lt _ _ _ e); [|done|done|by intros []].
  intros e' Hn' Hk'. by apply Hn', (known_grown ms).
Qed.

Lemma pd_load_ends K a : ends (fun s => skeleton s = K) (pd_load a)
  (fun p s => (exists id, (a, id, p) ∈ sk_pds K) /\ skeleton s = K).
Proof.
  intros s <-. unfold pd_load, obj_load, node_load, reg_load, mbind, M_bind. cbn.
  destruct (node_at a _) as [n|] eqn:En; [|done]. cbn. split; [|done].
  apply node_at_Some in En as [Hin <-]. exists (object_id n).
  by apply (list_elem_of_fmap_2 (fun n => (n_addr n, object_id n, pd (payload n)))).
Qed.

(** continue from the graph that was reached *)
Lemma stays_from {A} K ms0 s1 ms1 (m : M (server * model_state_t) A) : skeleton s1 = K -> grown ms0 ms1 ->
  stays (dumping K ms1) m ->
  match m (s1, ms1) with (Ok _, x) => dumping K ms0 x | (Crash _, _) => True | (NoFuel, _) => False end.
Proof.
  intros Hs Hg Hm. specialize (Hm (s1, ms1) (conj Hs (grown_refl ms1))).
  destruct (m (s1, ms1)) as [[r| |] x]; [|done..]. destruct Hm as [Hs2 Hg2]. split; [done|].
  by apply (grown_trans _ ms1).
Qed.

Lemma pd_dump_internal_stays fuel : forall K ms0 a, (unseen K ms0 < fuel)%nat ->
  stays (dumping K ms0) (pd_dump_internal sys X fuel a).
Proof.
  induction fuel as [|fuel IH]; intros K ms0 a Hfuel; [lia|]. cbn [pd_dump_internal].
  eapply going_bind; [apply going_host, pd_load_ends|intros p [i Hin]].
  eapply ends_bind; [apply get_node_ends|]. intros [b|]; [by intros x [Hx _]|].
  (* the node that is added is that of a PD that was not seen *)
  intros [s1 ms1] [[Hs1 Hg1] Hnew]. simpl in Hs1, Hg1, Hnew.
  apply (stays_from K ms0 s1 ms1); [done..|].
  eapply ends_bind; [apply add_pd_node_ends; auto with ends|]. intros pd_node.
  intros [s2 ms2] [Hs2 [Hg2 Hpd]]. simpl in Hs2, Hg2, Hpd.
  assert (unseen K ms2 < fuel)%nat as Hless.
  { enough (unseen K ms2 < unseen K ms1)%nat by (pose proof (unseen_grown K ms0 ms1 Hg1); lia).
    apply (unseen_lt K ms1 ms2 (a, i, p)); [done|done|done|]. apply known_node_is. by exists pd_node. }
  apply (stays_from K ms1 s2 ms2); [done..|].
  pose proof (IH K ms2) as IH2. stay.
  apply dump_held_stays. intros id. apply res_dump_stays. intros d. by apply IH2.
Qed.

(** the PD has a node afterwards *)
Lemma pd_dump_internal_known fuel K ms0 a : (unseen K ms0 < fuel)%nat ->
  ends (dumping K ms0) (pd_dump_internal sys X fuel a)
    (fun _ x => dumping K ms0 x /\ exists i p, (a, i, p) ∈ sk_pds K /\ known (snd x) (get_pd_id (pd_id p))).
Proof.
  destruct fuel as [|fuel]; intros Hfuel; [lia|]. cbn [pd_dump_internal].
  eapply going_bind; [apply going_host, pd_load_ends|intros p [i Hin]].
  eapply ends_bind; [apply get_node_ends|]. intros [b|].
  { intros x [Hx Hb]. split; [done|]. exists i, p. split; [done|]. apply known_node_is. by exists b. }
  intros [s1 ms1] [[Hs1 Hg1] Hnew]. simpl in Hs1, Hg1, Hnew.
  pose proof (add_pd_node_ends sys X K (grown ms1) (Some (pd_name p)) (pd_id p) true (monotone_grown ms1)
    (s1, ms1) (conj Hs1 (grown_refl ms1))) as Hadd.
  unfold mbind at 1, M_bind at 1. destruct (add_pd_node _ _ _ _ _ _) as [[pd_node| |] [s2 ms2]]; [|done..].
  destruct Hadd as [Hs2 [Hg2 Hpd]]. simpl in Hs2, Hg2, Hpd.
  assert (known ms2 (get_pd_id (pd_id p))) as Hkn by (apply known_node_is; by exists pd_node).
  assert (unseen K ms2 < fuel)%nat as Hless.
  { enough (unseen K ms2 < unseen K ms1)%nat by (pose proof (unseen_grown K ms0 ms1 Hg1); lia).
    by apply (unseen_lt K ms1 ms2 (a, i, p)). }
  pose proof (pd_dump_internal_stays fuel K ms2) as IH2.
  lazymatch goal with |- match ?m (s2, ms2) with _ => _ end => assert (stays (dumping K ms2) m) as Hrest end.
  { stay. apply dump_held_stays. intros id. apply res_dump_stays. intros d. by apply IH2. }
  specialize (Hrest (s2, ms2) (conj Hs2 (grown_refl ms2))).
  lazymatch goal with |- match ?run with _ => _ end => destruct run as [[r| |] [s3 ms3]]; [|done..] end.
  destruct Hrest as [Hs3 Hg3]. simpl in Hs3, Hg3.
  split; [split; [done|by eapply grown_trans, grown_trans]|]. exists i, p. split; [done|].
  by apply (known_grown ms2).
Qed.

Lemma unseen_le s ms : (unseen (skeleton s) ms < dump_fuel s)%nat.
Proof.
  unfold unseen, dump_fuel. simpl. unfold pd_entries.
  eapply Nat.le_lt_trans; [apply length_filter|]. rewrite length_fmap. lia.
Qed.

(** C30: extracting the model of a PD ends, whatever the PDs hold of each other, and
    whether or not it succeeds: the fuel that the walk is given, one more than the
    number of PDs, is enough. *)
Theorem pd_dump_terminates pd s ms : fst (pd_dump sys X pd (s, ms)) <> NoFuel.
Proof.
  enough (stays (dumping (skeleton s) ms) (pd_dump sys X pd)) as Hd.
  { specialize (Hd (s, ms) (dumping_self s ms)). by destruct (pd_dump sys X pd (s, ms)) as [[]]. }
  unfold pd_dump. apply stays_bind; [auto with ends|intros rt_node].
  apply (going_bind _ _ _ (fun s' => skeleton s' = skeleton s)).
  { apply going_host. by intros s' Hs'. }
  intros s' Hs'. assert (unseen (skeleton s) ms < dump_fuel s')%nat as Hfuel.
  { rewrite <- Hs'. apply unseen_le. }
  assert (forall a, stays (dumping (skeleton s) ms) (pd_dump_internal sys X (dump_fuel s') a)) as Hi
    by (intros a; by apply pd_dump_internal_stays).
  assert (forall p n l, stays (dumping (skeleton s) ms)
    (dump_held (res_dump sys X (pd_dump_internal sys X (dump_fuel s')) p n) l)) as Hheld
    by (intros; apply dump_held_stays; intros; by apply res_dump_stays).
  stay.
Qed.
End Termination.

(** ** Completeness *)
Section Complete.
Context `{UTHash} (sys : list xcall -> xcall -> Z * Z) (X : extraction_env) (K : skeleton_t).
Implicit Types (Q : model_state_t -> Prop).

Lemma monotone_ex {A} (P : A -> model_state_t -> Prop) : (forall x, monotone (P x)) ->
  monotone (fun ms => exists x, P x ms).
Proof. intros HP ms ms' Hg [x Hx]. exists x. by apply (HP x ms). Qed.
Lemma monotone_all {A} (P : A -> model_state_t -> Prop) : (forall x, monotone (P x)) ->
  monotone (fun ms => forall x, P x ms).
Proof. intros HP ms ms' Hg Hx x. by apply (HP x ms). Qed.
Lemma monotone_unseen fuel : monotone (fun ms => (unseen K ms < fuel)%nat).
Proof. intros ms ms' Hg Hl. pose proof (unseen_grown K ms ms' Hg). lia. Qed.

(** the node that stands for a resource, when it is of a type that the graph shows *)
Definition in_model (type : Z) : bool :=
  negb ((type =? GPICAP_TYPE_NONE) || (type =? GPICAP_TYPE_seL4) || (type =? GPICAP_TYPE_PD) ||
        (type =? GPICAP_TYPE_VMR) || (type =? GPICAP_TYPE_EP)).
Definition target_of {A} (r : registry A CB) (object : Z) (str : A -> list Z) (id : list Z) : Prop :=
  exists x, lookup_payload r object = Some x /\ id = str x.
Definition hold_target (r : gpi_res_id_t) (id : list Z) : Prop :=
  if rid_type r =? GPICAP_TYPE_ADS then
    target_of (rc_registry (sk_ads K)) (rid_object r) (fun x => space_str K GPICAP_TYPE_ADS (ads_id x)) id
  else if rid_type r =? GPICAP_TYPE_MO then
    target_of (rc_registry (sk_mo K)) (rid_object r)
      (fun x => res_str K GPICAP_TYPE_MO (space_id (sk_mo K)) (mo_id x)) id
  else if rid_type r =? GPICAP_TYPE_CPU then
    target_of (rc_registry (sk_cpu K)) (rid_object r)
      (fun x => res_str K GPICAP_TYPE_CPU (space_id (sk_cpu K)) (cpu_id x)) id
  else if rid_type r =? GPICAP_TYPE_RESSPC then
    target_of (rc_registry (sk_spaces K)) (rid_object r) (fun x => space_str K (spc_resource_type x) (spc_id x)) id
  else id = res_str K (rid_type r) (rid_space r) (rid_object r).

(** a PD's node is linked to a node for what it holds *)
Definition holds_edge (pid : list Z) (r : gpi_res_id_t) (ms : model_state_t) : Prop :=
  in_model (rid_type r) = true ->
  exists id, hold_target r id /\ edge_key GPI_EDGE_TYPE_HOLD pid id GPICAP_TYPE_NONE ∈ edge_table ms.
(** ... a PD that it holds is shown by a node *)
Definition held_pd_shown (self : Z) (r : gpi_res_id_t) (ms : model_state_t) : Prop :=
  rid_type r = GPICAP_TYPE_PD -> rid_object r <> self ->
  exists a q, (a, rid_object r, q) ∈ sk_pds K /\ known ms (pd_str (pd_id q)).
Definition held_shown (p : pd_t) (r : gpi_res_id_t) (ms : model_state_t) : Prop :=
  holds_edge (pd_str (pd_id p)) r ms /\ held_pd_shown (pd_id p) r ms.
(** and to the server of every entry of its resource directory *)
Definition rde_edge (pid : list Z) (r : osmosis_rde_t) (ms : model_state_t) : Prop :=
  rde_type r <> GPICAP_TYPE_NONE ->
  exists x, lookup_payload (rc_registry (sk_spaces K)) (rde_space_id r) = Some x /\
    edge_key GPI_EDGE_TYPE_REQUEST pid (pd_str (spc_pd_id x)) (rde_type r) ∈ edge_table ms.

Lemma monotone_holds pid r : monotone (holds_edge pid r).
Proof. apply monotone_imp, monotone_ex. auto with ends. Qed.
Lemma monotone_held p r : monotone (held_shown p r).
Proof.
  apply monotone_and; [apply monotone_holds|]. do 2 apply monotone_imp. apply monotone_ex. intros a.
  apply monotone_ex. intros q ms ms' Hg [Hin Hk]. split; [done|]. by apply (known_grown ms).
Qed.
Lemma monotone_rde pid r : monotone (rde_edge pid r).
Proof. apply monotone_imp, monotone_ex. auto with ends. Qed.
#[local] Hint Resolve monotone_holds monotone_held monotone_rde monotone_unseen : ends.

(** ** Dumping one object *)
Lemma server_state_ends Q : ends (going K Q) server_state (fun s x => skeleton s = K /\ going K Q x).
Proof. apply going_host. by intros s. Qed.

(** find or add a node, let the graph grow, and return the node *)
Lemma dump_node_ends {A} Q id (get : M (server * model_state_t) (option nat)) add (rest : nat -> M (server * model_state_t) A) (T : A -> _) :
  monotone Q ->
  ends (going K Q) get (fun o x => going K Q x /\
    match o with Some a => node_is (snd x) a id | None => ~ known (snd x) id end) ->
  ends (going K Q) add (fun a => going K (fun ms => Q ms /\ node_is ms a id)) ->
  (forall n, ends (going K (fun ms => Q ms /\ node_is ms n id)) (rest n) T) ->
  ends (going K Q) (o ← get; n ← or_add o add; rest n) T.
Proof.
  intros HQ Hget Hadd Hrest. eapply ends_bind; [apply Hget|intros o].
  eapply ends_bind; [by apply or_add_ends|apply Hrest].
Qed.

(** a dump that returns a node with the identifier [str x] of the object [x] at [a] *)
Definition dumps {A} (r : registry A CB) (str : A -> list Z) (dump : nat -> M (server * model_state_t) nat) : Prop :=
  forall a Q, monotone Q -> ends (going K Q) (dump a) (fun n => going K (fun ms => Q ms /\
    exists x, payload <$> node_at a (head r) = Some x /\ node_is ms n (str x))).

Lemma finish_dump {A} (r : registry A CB) (str : A -> list Z) Q a n dump x id : monotone Q ->
  (forall K ms0, stays (dumping K ms0) dump) -> payload <$> node_at a (head r) = Some x -> id = str x ->
  ends (going K (fun ms => Q ms /\ node_is ms n id)) (extract_once n dump ;; mret n)
    (fun n => going K (fun ms => Q ms /\
      exists x, payload <$> node_at a (head r) = Some x /\ node_is ms n (str x))).
Proof.
  intros HQ Hd Hx ->. apply stays_bind.
  - apply going_stays; [auto with ends|]. intros. by apply extract_once_stays.
  - intros _ [t ms] [Ht [Hq Hn]]. split; [done|]. split; [done|]. by exists x.
Qed.

Lemma mo_dumps pd_node : dumps (rc_registry (sk_mo K))
  (fun x => res_str K GPICAP_TYPE_MO (space_id (sk_mo K)) (mo_id x)) (fun a => mo_dump_rr sys X a pd_node).
Proof.
  intros a Q HQ. unfold mo_dump_rr.
  eapply going_bind; [apply going_host, (obj_load_ends K mo_p (rc_registry (sk_mo K))); by intros s <-|intros x Hx].
  apply stays_bind; [by apply going_stays; auto with ends|intros root].
  eapply going_bind; [apply server_state_ends|intros s Hs].
  assert (mo_component s = sk_mo K) as -> by by rewrite <- Hs.
  apply stays_bind; [by apply going_stays; auto with ends|intros o].
  apply stays_bind; [apply going_stays; [done|intros; unfold or_add; stay]|intros space].
  eapply dump_node_ends; [done|by apply get_resource_node_ends|by apply add_resource_node_ends|intros n].
  eapply finish_dump; [done| |exact Hx|done].
  intros K' ms0. unfold mo_text. stay.
Qed.

Lemma ads_dumps pd_node : dumps (rc_registry (sk_ads K))
  (fun x => space_str K GPICAP_TYPE_ADS (ads_id x)) (fun a => ads_dump_rr sys X a pd_node).
Proof.
  intros a Q HQ. unfold ads_dump_rr, ads_load.
  eapply going_bind; [apply going_host, (obj_load_ends K ads_p (rc_registry (sk_ads K))); by intros s <-|intros x Hx].
  eapply dump_node_ends; [done|by apply get_space_node_ends| |intros n].
  - eapply ends_bind; [by apply add_space_node_ends|intros n].
    apply (ends_mono (going K (fun ms => Q ms /\ node_is ms n (space_str K GPICAP_TYPE_ADS (ads_id x)))) _ _
      (fun m y => m = n /\ going K (fun ms => Q ms /\ node_is ms n (space_str K GPICAP_TYPE_ADS (ads_id x))) y));
      [|done|by intros ? y [-> Hy]].
    apply stays_bind; [apply going_stays; auto with ends|intros s].
    apply stays_bind; [apply going_stays; auto with ends|intros m].
    apply stays_bind; [apply going_stays; auto with ends|intros _]. by apply ends_ret_val.
  - eapply finish_dump; [done| |exact Hx|done].
    intros K' ms0. stay.
Qed.

Lemma cpu_dumps pd_node : dumps (rc_registry (sk_cpu K))
  (fun x => res_str K GPICAP_TYPE_CPU (space_id (sk_cpu K)) (cpu_id x)) (fun a => cpu_dump_rr sys X a pd_node).
Proof.
  intros a Q HQ. unfold cpu_dump_rr, cpu_load.
  eapply going_bind; [apply going_host, (obj_load_ends K cpu_p (rc_registry (sk_cpu K))); by intros s <-|intros x Hx].
  apply stays_bind; [by apply going_stays; auto with ends|intros root].
  eapply going_bind; [apply server_state_ends|intros s Hs].
  assert (cpu_component s = sk_cpu K) as -> by by rewrite <- Hs.
  apply stays_bind; [by apply going_stays; auto with ends|intros o].
  apply stays_bind; [apply going_stays; [done|intros; unfold or_add; stay]|intros space].
  apply stays_bind; [by apply going_stays; auto with ends|intros o'].
  apply stays_bind; [apply going_stays; [done|intros; unfold or_add; stay]|intros space'].
  eapply dump_node_ends; [done|by apply get_resource_node_ends|by apply add_resource_node_ends|intros n].
  eapply finish_dump; [done| |exact Hx|done].
  intros K' ms0. stay.
Qed.

Lemma resspc_dumps : dumps (rc_registry (sk_spaces K))
  (fun x => space_str K (spc_resource_type x) (spc_id x)) (resspc_dump_rr sys X).
Proof.
  intros a Q HQ. unfold resspc_dump_rr.
  eapply going_bind; [apply going_host, (obj_load_ends K resspc_p (rc_registry (sk_spaces K))); by intros s <-|intros x Hx].
  apply stays_bind; [by apply going_stays; auto with ends|intros root].
  eapply dump_node_ends; [done|by apply get_space_node_ends|by apply add_space_node_ends|intros n].
  eapply finish_dump; [done| |exact Hx|done].
  intros K' ms0. stay.
Qed.

(** what is looked up, dumped and linked *)
Lemma dump_and_hold_ends {A} (p : regptr server A CB) (r : registry A CB) str dump Q pd_node pid object :
  (forall s, skeleton s = K -> rget p s = Some r) -> dumps r str dump -> monotone Q ->
  (forall ms, Q ms -> node_is ms pd_node pid) ->
  ends (going K Q) (dump_and_hold sys X pd_node (resource_registry_get_by_id p object) dump)
    (fun e => going K (fun ms => Q ms /\ (e = 0 -> exists id, target_of r object str id /\
       edge_key GPI_EDGE_TYPE_HOLD pid id GPICAP_TYPE_NONE ∈ edge_table ms))).
Proof.
  intros Hr Hd HQ Hpid. unfold dump_and_hold.
  eapply going_bind; [apply going_host, (get_by_id_ends _ p r); done|intros o ->].
  unfold target_of, lookup_payload. destruct (hash_find (head r) object) as [n|]; simpl; [|by intros [s ms] [Hs Hq]].
  eapply ends_bind; [by apply Hd|intros m]. intros [s ms] [Hs [Hq (x & Hx & Hm)]].
  eapply (ends_bind (going K (fun ms => Q ms /\ node_is ms m (str x)))); [|intros ?|by split].
  - apply (add_edge_ends _ _ _ _ _ _ _ pid (str x)); [auto with ends|]. intros ms' [Hq' Hm']. auto.
  - intros [s' ms'] [Hs' [[Hq' _] He]]. split; [done|]. split; [done|]. intros _. exists (str x). split; [|done].
    by exists x.
Qed.

(** ** Dumping a PD *)
Section OnePd.
Context (fuel pd_node : nat) (p : pd_t).
Abbreviation pid := (pd_str (pd_id p)).

(** what the walk needs while it dumps what [p] holds *)
Definition at_node (ms : model_state_t) : Prop := node_is ms pd_node pid /\ (unseen K ms < fuel)%nat.
Lemma monotone_at_node : monotone at_node.
Proof. apply monotone_and; auto with ends. Qed.

Lemma nested_dump_stays Q a : monotone Q -> (forall ms, Q ms -> (unseen K ms < fuel)%nat) ->
  stays (going K Q) (pd_dump_internal sys X fuel a).
Proof.
  intros HQ Hless [s ms] [Hs Hq]. simpl in Hs, Hq.
  pose proof (pd_dump_internal_stays sys X fuel K ms a (Hless ms Hq) (s, ms) (conj Hs (grown_refl ms))) as Hd.
  destruct (pd_dump_internal sys X fuel a (s, ms)) as [[r| |] [s' ms']]; [|done..].
  destruct Hd as [Hs' Hg]. split; [done|]. by apply (HQ ms).
Qed.

Lemma nested_dump_known Q a : monotone Q -> (forall ms, Q ms -> (unseen K ms < fuel)%nat) ->
  ends (going K Q) (pd_dump_internal sys X fuel a)
    (fun _ => going K (fun ms => Q ms /\ exists i q, (a, i, q) ∈ sk_pds K /\ known ms (pd_str (pd_id q)))).
Proof.
  intros HQ Hless [s ms] [Hs Hq]. simpl in Hs, Hq.
  pose proof (pd_dump_internal_known sys X fuel K ms a (Hless ms Hq) (s, ms) (conj Hs (grown_refl ms))) as Hd.
  destruct (pd_dump_internal sys X fuel a (s, ms)) as [[r| |] [s' ms']]; [|done..].
  destruct Hd as [[Hs' Hg] Hk]. split; [done|]. split; [by apply (HQ ms)|exact Hk].
Qed.

(** the PD that is registered under an identifier *)
Lemma pd_entry_ends id : ends (fun s => skeleton s = K) (pd_component_registry_get_entry_by_id id)
  (fun o s => (forall a, o = Some a -> exists q, (a, id, q) ∈ sk_pds K) /\ skeleton s = K).
Proof.
  intros s <-. unfold pd_component_registry_get_entry_by_id, resource_component_registry_get_by_id,
    resource_registry_get_by_id, reg_load, mbind, M_bind. cbn. split; [|done]. intros a Ha.
  destruct (hash_find _ id) as [n|] eqn:E; [|done]. apply hash_find_sound in E as [Hin <-]. injection Ha as <-.
  exists (pd (payload n)). by apply (list_elem_of_fmap_2 (fun n => (n_addr n, object_id n, pd (payload n)))).
Qed.

(** a loop body that establishes [D] of its element when it returns 0 *)
Definition establishes {A} (D : A -> model_state_t -> Prop) (f : A -> M (server * model_state_t) Z) : Prop :=
  forall x Q, monotone Q -> (forall ms, Q ms -> at_node ms) ->
    ends (going K Q) (f x) (fun e => going K (fun ms => Q ms /\ (e = 0 -> D x ms))).

(** nothing is to be established *)
Lemma establish_trivial Q (D : model_state_t -> Prop) e : (e = 0 -> forall ms, D ms) ->
  ends (going K Q) (mret e : M (server * model_state_t) Z) (fun e => going K (fun ms => Q ms /\ (e = 0 -> D ms))).
Proof. intros HD [s ms] [Hs Hq]. split; [done|]. split; [done|]. intros He. by apply HD. Qed.

Lemma not_in_model t (D : Prop) : in_model t = false -> in_model t = true -> D.
Proof. congruence. Qed.

(** everything but a PD *)
Lemma other_dump_establishes r : rid_type r <> GPICAP_TYPE_PD -> forall Q, monotone Q -> (forall ms, Q ms -> at_node ms) ->
  ends (going K Q) (res_dump sys X (pd_dump_internal sys X fuel) p pd_node r)
    (fun e => going K (fun ms => Q ms /\ (e = 0 -> holds_edge pid r ms))).
Proof.
  intros Hpd Q HQ Hat. assert (forall ms, Q ms -> node_is ms pd_node pid) as Hpid by (intros ms Hq; by apply Hat).
  unfold res_dump, holds_edge, hold_target, in_model.
  destruct (rid_type r =? GPICAP_TYPE_NONE) eqn:E0; [by apply establish_trivial|].
  destruct (rid_type r =? GPICAP_TYPE_ADS) eqn:E1.
  { eapply ends_mono; [apply (dump_and_hold_ends ads_p (rc_registry (sk_ads K))); [by intros s <-|apply ads_dumps|done|exact Hpid]|done|].
    intros e [s ms] [Hs [Hq He]]. split; [done|]. split; [done|]. intros ? _. by apply He. }
  destruct (rid_type r =? GPICAP_TYPE_MO) eqn:E2.
  { apply stays_bind; [by apply going_stays; auto with ends|intros s0].
    apply stays_bind; [by apply stays_assert|intros _].
    eapply ends_mono; [apply (dump_and_hold_ends mo_p (rc_registry (sk_mo K))); [by intros s <-|apply mo_dumps|done|exact Hpid]|done|].
    intros e [s ms] [Hs [Hq He]]. split; [done|]. split; [done|]. intros ? _. by apply He. }
  destruct (rid_type r =? GPICAP_TYPE_CPU) eqn:E3.
  { eapply ends_mono; [apply (dump_and_hold_ends cpu_p (rc_registry (sk_cpu K))); [by intros s <-|apply cpu_dumps|done|exact Hpid]|done|].
    intros e [s ms] [Hs [Hq He]]. split; [done|]. split; [done|]. intros ? _. by apply He. }
  destruct (rid_type r =? GPICAP_TYPE_seL4) eqn:E4; [by apply establish_trivial|].
  rewrite (proj2 (Z.eqb_neq _ _) Hpd).
  destruct (rid_type r =? GPICAP_TYPE_RESSPC) eqn:E6.
  { eapply ends_mono; [apply (dump_and_hold_ends resspc_p (rc_registry (sk_spaces K))); [by intros s <-|apply resspc_dumps|done|exact Hpid]|done|].
    intros e [s ms] [Hs [Hq He]]. split; [done|]. split; [done|]. intros ? _. by apply He. }
  destruct (rid_type r =? GPICAP_TYPE_VMR) eqn:E7; [by apply establish_trivial|].
  destruct (rid_type r =? GPICAP_TYPE_EP) eqn:E8; [by apply establish_trivial|].
  eapply dump_node_ends; [done|by apply get_resource_node_ends|by apply add_resource_node_ends|intros n].
  set (id := res_str K (rid_type r) (rid_space r) (rid_object r)).
  apply stays_bind; [apply going_stays; [auto with ends|intros; stay]|intros c].
  apply stays_bind; [apply going_stays; [auto with ends|intros; stay]|intros error].
  destruct (error =? 0) eqn:Ee; simpl.
  - eapply ends_bind; [apply (add_edge_ends _ _ _ _ _ _ _ pid id); [auto with ends|intros ms [Hq Hn]; auto]|].
    intros _ [s ms] [Hs [[Hq _] He]]. split; [done|]. split; [done|]. intros _ _. by exists id.
  - intros [s ms] [Hs [Hq _]]. split; [done|]. split; [done|]. intros ->. by rewrite Z.eqb_refl in Ee.
Qed.

(** a PD is dumped in turn *)
Lemma pd_dump_establishes r : rid_type r = GPICAP_TYPE_PD ->
  (forall a i q i' q', (a, i, q) ∈ sk_pds K -> (a, i', q') ∈ sk_pds K -> q = q') ->
  forall Q, monotone Q -> (forall ms, Q ms -> at_node ms) ->
  ends (going K Q) (res_dump sys X (pd_dump_internal sys X fuel) p pd_node r)
    (fun e => going K (fun ms => Q ms /\ (e = 0 -> held_pd_shown (pd_id p) r ms))).
Proof.
  intros Hpd Hfun Q HQ Hat. unfold res_dump, held_pd_shown. rewrite Hpd.
  change (GPICAP_TYPE_PD =? GPICAP_TYPE_NONE) with false. change (GPICAP_TYPE_PD =? GPICAP_TYPE_ADS) with false.
  change (GPICAP_TYPE_PD =? GPICAP_TYPE_MO) with false. change (GPICAP_TYPE_PD =? GPICAP_TYPE_CPU) with false.
  change (GPICAP_TYPE_PD =? GPICAP_TYPE_seL4) with false. rewrite Z.eqb_refl. cbv iota.
  destruct (Z.eqb_spec (rid_object r) (pd_id p)) as [E|E]; [by apply establish_trivial|].
  eapply going_bind; [apply going_host, pd_entry_ends|intros o Ho].
  destruct o as [a|]; [|by apply establish_trivial]. destruct (Ho a eq_refl) as [q Hq].
  eapply ends_bind; [apply nested_dump_known; [done|intros ms Hms; by apply Hat]|intros ?].
  intros [s ms] [Hs [Hms (i & q' & Hq' & Hk)]]. split; [done|]. split; [done|]. intros _ _ _.
  exists a, q. split; [done|]. by rewrite (Hfun a _ q _ q' Hq Hq').
Qed.

Lemma res_dump_establishes :
  (forall a i q i' q', (a, i, q) ∈ sk_pds K -> (a, i', q') ∈ sk_pds K -> q = q') ->
  establishes (held_shown p) (res_dump sys X (pd_dump_internal sys X fuel) p pd_node).
Proof.
  intros Hfun r Q HQ Hat. destruct (Z.eqb_spec (rid_type r) GPICAP_TYPE_PD) as [E|E].
  - eapply (ends_mono (going K Q)); [by apply pd_dump_establishes|done|]. intros e [s ms] [Hs [Hq Hd]].
    split; [done|]. split; [done|]. intros He. split; [|exact (Hd He)]. intros Hm. unfold in_model in Hm. by rewrite E in Hm.
  - eapply (ends_mono (going K Q)); [by apply other_dump_establishes|done|]. intros e [s ms] [Hs [Hq Hd]].
    split; [done|]. split; [done|]. intros He. split; [exact (Hd He)|]. by intros Hp.
Qed.

Lemma dump_rde_establishes : establishes (rde_edge pid) (dump_rde sys X p pd_node).
Proof.
  intros r Q HQ Hat. unfold dump_rde, rde_edge.
  destruct (Z.eqb_spec (rde_type r) GPICAP_TYPE_NONE) as [E|E]; [by apply establish_trivial|].
  eapply going_bind; [apply going_host, (get_by_id_ends K resspc_p (rc_registry (sk_spaces K))); by intros s <-|intros o ->].
  unfold lookup_payload. destruct (hash_find _ (rde_space_id r)) as [n|]; simpl; [|by apply establish_trivial].
  eapply going_bind; [apply going_host, (obj_load_ends K resspc_p (rc_registry (sk_spaces K))); by intros s <-|intros x Hx].
  eapply going_bind; [apply node_str_ends; intros ms Hq; by apply Hat|intros ? ->].
  eapply ends_bind; [by apply internal_add_edge_ends|intros ?].
  set (k := edge_key _ _ _ _).
  apply (ends_mono (going K (fun ms => Q ms /\ k ∈ edge_table ms)) _ _ (fun _ => going K (fun ms => Q ms /\ k ∈ edge_table ms)));
    [|done|].
  - apply stays_bind; [apply going_stays; auto with ends|intros s0]. case_bool; [apply ends_ret|].
    apply stays_bind; [apply going_stays; auto with ends|intros m].
    apply going_stays; [auto with ends|]. intros K' ms0. stay.
  - intros e [s ms] [Hs [Hq Hk]]. split; [done|]. split; [done|]. intros _ _. by exists x.
Qed.

(** the loops: everything is established when they return 0 *)
Lemma dump_held_establishes D f : (forall r, monotone (D r)) -> establishes D f ->
  establishes (fun l ms => forall n, n ∈ l -> D (hold_res_id (payload n)) ms) (dump_held f).
Proof.
  intros HD Hf l. induction l as [|n l IH]; intros Q HQ Hat; cbn [dump_held].
  - apply establish_trivial. by intros _ ms n ?%elem_of_nil.
  - eapply ends_bind; [by apply Hf|intros e].
    destruct (Z.eqb_spec e 0) as [->|Hne].
    + eapply ends_mono; [apply (IH (fun ms => Q ms /\ (0 = 0 -> D (hold_res_id (payload n)) ms)));
        [auto with ends|by intros ms [Hq _]; auto]|done|].
      intros e [s ms] [Hs [[Hq Hn] Hl]]. split; [done|]. split; [done|].
      intros He m [->|Hm]%elem_of_cons; [by apply Hn|by apply Hl].
    + intros [s ms] [Hs [Hq _]]. split; [done|]. by split.
Qed.

Lemma rde_row_ends a type : (forall i p', (a, i, p') ∈ sk_pds K -> p' = p) ->
  ends (fun s => skeleton s = K) (rde_row a type)
    (fun row s => rde (shared p) !! Z.to_nat type = Some row /\ skeleton s = K).
Proof.
  intros Hp. unfold rde_row, shared_load.
  eapply (going_bind _ _ _ (fun sh => sh = shared p)).
  - eapply going_bind; [apply pd_load_ends|intros p' [i Hin]]. rewrite (Hp i p' Hin).
    case_bool; [apply ends_crash|by apply ends_ret_val].
  - intros sh ->. destruct (rde (shared p) !! Z.to_nat type); [by apply ends_ret_val|apply ends_crash].
Qed.

Definition rde_at (i j : nat) : option osmosis_rde_t := row ← rde (shared p) !! i; row !! j.

Lemma dump_rdes_establishes a : (forall i p', (a, i, p') ∈ sk_pds K -> p' = p) ->
  establishes (fun l ms => forall i j r, (i, j) ∈ l -> rde_at i j = Some r -> rde_edge pid r ms)
    (dump_rdes sys X a p pd_node).
Proof.
  intros Hp l. induction l as [|[i j] l IH]; intros Q HQ Hat; cbn [dump_rdes].
  - apply establish_trivial. by intros _ ms i j r ?%elem_of_nil.
  - eapply going_bind; [apply going_host, rde_row_ends; done|intros row Hrow].
    rewrite Nat2Z.id in Hrow. destruct (row !! j) as [r|] eqn:Hr; [|apply ends_crash].
    eapply ends_bind; [by apply dump_rde_establishes|intros e].
    destruct (Z.eqb_spec e 0) as [->|Hne].
    + eapply ends_mono; [apply (IH (fun ms => Q ms /\ (0 = 0 -> rde_edge pid r ms)));
        [auto with ends|by intros ms [Hq _]; auto]|done|].
      intros e [s ms] [Hs [[Hq Hn] Hl]]. split; [done|]. split; [done|].
      intros He i' j' r' [[= -> ->]|Hin]%elem_of_cons Hr'; [|by apply (Hl He i' j')].
      unfold rde_at in Hr'. rewrite Hrow in Hr'. simpl in Hr'. simplify_eq. by apply Hn.
    + intros [s ms] [Hs [Hq _]]. split; [done|]. by split.
Qed.
End OnePd.
End Complete.

Section DumpProperties.
Context `{UTHash} (sys : list xcall -> xcall -> Z * Z) (X : extraction_env).

Lemma entries_functional s a i p i' p' : NoDup (n_addr <$> head (rc_registry (pd_component s))) ->
  (a, i, p) ∈ pd_entries s -> (a, i', p') ∈ pd_entries s -> p = p'.
Proof.
  intros Hnd (n & E & Hn)%list_elem_of_fmap (n' & E' & Hn')%list_elem_of_fmap.
  injection E as Ea _ Ep. injection E' as Ea' _ Ep'.
  assert (n = n') as ->; [|congruence]. apply (elem_of_inj n_addr (head (rc_registry (pd_component s)))); [done..|].
  congruence.
Qed.

Lemma hold_load_ends s a i p : NoDup (n_addr <$> head (rc_registry (pd_component s))) ->
  (a, i, p) ∈ pd_entries s -> ends (fun s' => skeleton s' = skeleton s) (reg_load (hold_p a))
    (fun r s' => r = hold_registry p /\ skeleton s' = skeleton s).
Proof.
  intros Hnd Hin s' Hs'. unfold reg_load. cbn. destruct (node_at a _) as [n|] eqn:En; [|done]. cbn.
  split; [|done]. apply node_at_Some in En as [Hn <-].
  assert ((n_addr n, object_id n, pd (payload n)) ∈ pd_entries s) as Hin'.
  { assert (pd_entries s' = pd_entries s) as <- by (by injection Hs').
    by apply (list_elem_of_fmap_2 (fun n => (n_addr n, object_id n, pd (payload n)))). }
  by rewrite (entries_functional s _ _ _ _ _ Hnd Hin Hin').
Qed.

(** the graph shows the PD [p] with everything that it can reach directly *)
Definition dumped (s : server) (p : pd_t) (ms : model_state_t) : Prop :=
  known ms (pd_str (pd_id p)) /\
  (forall i j r, (i, j) ∈ rde_indices -> rde_at p i j = Some r -> rde_edge (skeleton s) (pd_str (pd_id p)) r ms) /\
  (forall n, n ∈ head (hold_registry p) -> held_shown (skeleton s) p (hold_res_id (payload n)) ms).

Lemma dumped_after s a p i pd_node ms1 fuel : NoDup (n_addr <$> head (rc_registry (pd_component s))) ->
  (a, i, p) ∈ pd_entries s -> (unseen (skeleton s) ms1 <= fuel)%nat -> ~ known ms1 (pd_str (pd_id p)) ->
  ends (going (skeleton s) (fun ms => grown ms1 ms /\ node_is ms pd_node (pd_str (pd_id p))))
    (error ← dump_rdes sys X a p pd_node rde_indices;
     if negb (error =? 0) then mret (Some error) else
     hold ← host (reg_load (hold_p a));
     error ← dump_held (res_dump sys X (pd_dump_internal sys X fuel) p pd_node) (head hold);
     mret (if error =? 0 then None else Some 1))
    (fun r => going (skeleton s) (fun ms => grown ms1 ms /\ (r = None -> dumped s p ms))).
Proof.
  intros Hnd Hin Hfuel Hnew. set (Q := fun ms => grown ms1 ms /\ node_is ms pd_node (pd_str (pd_id p))).
  assert (forall ms, Q ms -> at_node (skeleton s) fuel pd_node p ms) as Hat.
  { intros ms [Hg Hn]. split; [done|]. eapply Nat.lt_le_trans; [|done].
    apply (unseen_lt _ ms1 ms (a, i, p)); [done|done|done|]. apply known_node_is. by exists pd_node. }
  assert (forall i' p', (a, i', p') ∈ sk_pds (skeleton s) -> p' = p) as Hp.
  { intros i' p' Hin'. by apply (entries_functional s a i' p' i p). }
  eapply ends_bind; [apply (dump_rdes_establishes sys X (skeleton s) fuel); [done|unfold Q; auto with ends|done]|].
  intros error. destruct (Z.eqb_spec error 0) as [->|Hne]; simpl.
  - eapply going_bind; [apply going_host; by apply (hold_load_ends s a i p)|intros hold ->].
    eapply ends_bind.
    { apply (dump_held_establishes (skeleton s) fuel pd_node p (held_shown (skeleton s) p)); [intros; apply monotone_held
        |apply res_dump_establishes; intros ? ? ? ? ?; by apply entries_functional|apply monotone_and; [unfold Q; auto with ends|]|by intros ms [Hq _]; auto].
      apply monotone_imp, monotone_all. intros j. apply monotone_all. intros k. apply monotone_all. intros r.
      do 2 apply monotone_imp. apply monotone_rde. }
    intros error. destruct (Z.eqb_spec error 0) as [->|Hne]; simpl.
    + intros [t ms] [Ht [[[Hg Hn] Hr] Hh]]. split; [done|]. split; [done|]. intros _.
      split; [apply known_node_is; by exists pd_node|]. split; [by apply Hr|by apply Hh].
    + intros [t ms] [Ht [[[Hg Hn] Hr] Hh]]. split; [done|]. by split.
  - intros [t ms] [Ht [[Hg Hn] Hr]]. split; [done|]. by split.
Qed.

(** C29: when the dump of a PD finds no error (the code then returns a variable that it
    never set), the graph has a node for the PD, a request edge for every entry of
    its resource directory, to the PD that serves the entry's space, a hold edge for
    every address space, memory object, CPU, resource space and resource of a resource
    server that it holds, and a node for every other PD that it holds; of memory
    regions, endpoints and kernel objects that it holds the code shows nothing.
    Nothing that was in the graph is lost.  The server is as it was but for the
    queues of work of the PDs, the counter of missing answers, the allocator and the
    log of calls to the kernel. *)
Theorem pd_dump_complete a s ms s' ms'
  (Hnd : NoDup (n_addr <$> head (rc_registry (pd_component s))))
  (Hrun : pd_dump_internal sys X (dump_fuel s) a (s, ms) = (Ok None, (s', ms'))) :
  skeleton s' = skeleton s /\ grown ms ms' /\
  exists i p, (a, i, p) ∈ pd_entries s /\ dumped s p ms'.
Proof.
  assert (ends (dumping (skeleton s) ms) (pd_dump_internal sys X (dump_fuel s) a)
    (fun r x => dumping (skeleton s) ms x /\
       (r = None -> exists i p, (a, i, p) ∈ pd_entries s /\ dumped s p (snd x)))) as Hends.
  { unfold dump_fuel. cbn [pd_dump_internal].
    eapply going_bind; [apply going_host, pd_load_ends|intros p [i Hin]].
    eapply ends_bind; [apply get_node_ends|]. intros [b|]; [by intros x [Hx _]|].
    intros [s1 ms1] [[Hs1 Hg1] Hnew]. simpl in Hs1, Hg1, Hnew.
    assert (unseen (skeleton s) ms1 <= length (head (rc_registry (pd_component s))))%nat as Hfuel.
    { pose proof (unseen_le s ms1). unfold dump_fuel in *. lia. }
    pose proof (ends_bind _ _ _ _ _ (add_pd_node_ends sys X (skeleton s) (grown ms1) (Some (pd_name p)) (pd_id p) true
      (monotone_grown ms1)) (fun n => dumped_after s a p i n ms1 _ Hnd Hin Hfuel Hnew)) as Hd.
    specialize (Hd (s1, ms1) (conj Hs1 (grown_refl ms1))).
    lazymatch type of Hd with match ?run with _ => _ end => destruct run as [[r|f|] [s2 ms2]] end; [|done..].
    destruct Hd as [Hs2 [Hg2 Hd]].
    split; [split; [done|by apply (grown_trans _ ms1)]|]. intros Er. exists i, p. split; [done|by apply Hd]. }
  specialize (Hends (s, ms) (dumping_self s ms)). rewrite Hrun in Hends.
  destruct Hends as [[Hs Hg] Hd]. split; [done|]. split; [done|]. by apply Hd.
Qed.
End DumpProperties.

(** ** Witness: a PD with one directory entry that holds one memory object *)
Section DumpWitness.
(** the PD 1 of the server, with its shared data *)
Definition dump_pd_demo : pd_t :=
  set_shared (set_rde (<[3%nat := <[0%nat := Rde 0 40 GPICAP_TYPE_MO 4]> (repeat rde_zero MAX_NS_PER_RDE)]> rde_zeroes)
    shared_zero) (set_shared_data 4096 (pd (payload (holder 1 9 32 30)))).
Definition dump_types_demo : registry (list Z) CB :=
  Registry [Node 50 GPICAP_TYPE_MO 1 (strncpy name_MO 16); Node 51 GPICAP_TYPE_RESSPC 1 (strncpy name_RESSPC 16)]
    255 0 None 0.
Definition dump_server_demo : server :=
  set_resource_types dump_types_demo
    (set_resspc_component (Rcc GPICAP_TYPE_RESSPC 1 (Registry [Node 60 4 1
       (ResSpace 4 GPICAP_TYPE_MO 0 [] 0 false false false 0 false)] 100 4 None 0) 0 9)
    (set_pd_component (Rcc GPICAP_TYPE_PD 2 (Registry [holder 0 8 31 0;
       Node 9 1 1 (PdEntry dump_pd_demo (repeat (Some []) PdWorkAction_MAX))] 100 1 (Some CbPd) 0) 0 9) mo_server)).
Definition env_demo : extraction_env := ExtractionEnv (fun _ => chars "GENERIC") 1 376 (fun _ _ => None).

Definition dump_run_demo : result (option Z) * (server * model_state_t) :=
  pd_dump_internal sys_demo env_demo (dump_fuel dump_server_demo) 9 (dump_server_demo, init_model_state None).

Lemma pd_dump_complete_witness :
  skeleton (fst (snd dump_run_demo)) = skeleton dump_server_demo /\
  grown (init_model_state None) (snd (snd dump_run_demo)) /\
  exists i p, (9%nat, i, p) ∈ pd_entries dump_server_demo /\ dumped dump_server_demo p (snd (snd dump_run_demo)).
Proof.
  apply (pd_dump_complete sys_demo env_demo 9 dump_server_demo (init_model_state None)).
  - by apply (bool_decide_unpack _); vm_compute.
  - vm_compute. reflexivity.
Defined.

(** the edges of the graph: the directory, then the memory object *)
Example dump_demo_edges :
  (fun k => (ek_type k, cstring (ek_from k), cstring (ek_to k))) <$> edge_table (snd (snd dump_run_demo)) =
    [(GPI_EDGE_TYPE_REQUEST, chars "PD_1", chars "PD_0"); (GPI_EDGE_TYPE_HOLD, chars "PD_0", chars "MO_SPACE_4");
     (GPI_EDGE_TYPE_HOLD, chars "PD_1", chars "MO_4_7"); (GPI_EDGE_TYPE_SUBSET, chars "MO_4_7", chars "MO_SPACE_4")].
Proof. vm_compute. reflexivity. Qed.
End DumpWitness.
