(* ===== verification/Client.v ===== *)
(** * The client library

    Model of the stubs that a PD calls to make a request of the GPI server:
    sel4gpi_rpc_call of [gpi_rpc.c] and the clientapi files for memory objects,
    address spaces and their reservations, CPUs, endpoints, PDs and resource spaces.
    Each stub fills in one message, makes the call, and on success copies what it
    needs out of the reply.

    A PD is a [process]: the state of the kernel it calls, the data it shares with
    the GPI server, its memory and the state of its own program.  The kernel is an
    interface, the class [Kernel]: the library is the same whether the calls go to
    an environment that answers at will or to the model of the server (the file
    EndToEnd).  An argument returned through a pointer is an option: [None] when the
    stub leaves it unset.  The encoding of messages is nanopb's, the record
    [nanopb]. *)

From stdpp Require Import base numbers list gmap.
From S2P Require Import Prelude Badge Registry State ResourceTypes Component PdResources Resspc Mo Ads AdsRequests Elf Cpu PdObj PdComponent Ep Server.

(** ** The process *)

(** the system calls of a PD *)
Class Kernel (K : Type) := {
  (* the slot, the words of the message, the capabilities: the label and the answer *)
  k_call : Z -> list Z -> list Z -> M K (Z * list Z);
  (* the endpoint: the badge of the sender and the words of the message *)
  k_recv : Z -> M K (Z * list Z);
  (* the slot of an endpoint or of a saved reply capability, and the words *)
  k_send : Z -> list Z -> M K unit;
  k_set_receive_path : Z -> M K unit;
  (* the error code *)
  k_save_caller : Z -> M K Z
}.

(** the memory is that of the process's address space, a byte for each address *)
Record process (K A : Type) := Process {
  kernel : K;
  my_shared_data : osm_pd_shared_data_t;
  reply_cap_slot : Z;
  memory : Z -> Z;
  program : A
}.
Arguments Process {K A}.
Arguments kernel {K A}.
Arguments my_shared_data {K A}.
Arguments reply_cap_slot {K A}.
Arguments memory {K A}.
Arguments program {K A}.

(** nanopb: messages in the words of an IPC buffer, or a failure *)
Record nanopb := Nanopb {
  encode_request : forall c : component, Z * request c -> option (list Z);
  decode_reply : forall c : component, list Z -> option (Z * return_message c)
}.

(** the zeroed reply buffer *)
Definition zero_reply (c : component) : return_message c :=
  match c with
  | AdsComponent => AdsNoReturn
  | MoComponent => MoNoReturn
  | CpuComponent => CpuNoReturn
  | PdComponent => PdNoReturn
  | EpComponent => EpNoReturn
  | ResspcComponent => ResSpcNoReturn
  end.

Section Process.
Context {K A : Type}.
Implicit Types (p : process K A).

Definition set_kernel (k : K) p : process K A :=
  Process k (my_shared_data p) (reply_cap_slot p) (memory p) (program p).
Definition set_my_shared_data (d : osm_pd_shared_data_t) p : process K A :=
  Process (kernel p) d (reply_cap_slot p) (memory p) (program p).
Definition set_reply_cap_slot (v : Z) p : process K A :=
  Process (kernel p) (my_shared_data p) v (memory p) (program p).
Definition set_memory (f : Z -> Z) p : process K A :=
  Process (kernel p) (my_shared_data p) (reply_cap_slot p) f (program p).
Definition set_program (a : A) p : process K A :=
  Process (kernel p) (my_shared_data p) (reply_cap_slot p) (memory p) a.

(** a system call *)
Definition syscall {B} (m : M K B) : M (process K A) B := fun p =>
  let '(r, k) := m (kernel p) in (r, set_kernel k p).
(** the state of the process's own program *)
Definition prog : M (process K A) A := gets program.
Definition prog_modify (f : A -> A) : M (process K A) unit := modify (fun p => set_program (f (program p)) p).

Definition memcpy (dst src n : Z) : M (process K A) unit :=
  modify (fun p => set_memory (copied (memory p) dst src n) p).
End Process.

Section Client.
Context {K A : Type} `{!Kernel K} (N : nanopb).
Abbreviation P := (M (process K A)).

(** ** gpi_rpc.c *)

(** the error code, and the reply when one was decoded; [encode] and [decode] stand
    for the descriptors of the environment *)
Definition sel4gpi_rpc_call {Request Reply} (encode : Request -> option (list Z))
    (decode : list Z -> option Reply) (ep : Z) (msg : Request) (caps : list Z) : P (Z * option Reply) :=
  match encode msg with
  | None => mret (1, None)
  | Some words =>
      r ← syscall (k_call ep words caps);
      let '(label, answer) := r : Z * list Z in
      if negb (label =? 0) then mret (1, None)
      else match decode answer with
           | None => mret (1, None)
           | Some reply => mret (0, Some reply)
           end
  end.
(** the environment of a component *)
Definition component_call (c : component) : Z -> Z * request c -> list Z -> P (Z * option (Z * return_message c)) :=
  sel4gpi_rpc_call (encode_request N c) (decode_reply N c).

(** what a stub does around its message, unless it makes the call itself: the call, the
    error of the call or of the reply, and the buffer of the reply *)
Definition transact (c : component) (ep : Z) (msg : Z * request c) (caps : list Z)
  : P (Z * return_message c) :=
  r ← component_call c ep msg caps;
  let '(error, ret_msg) := r : Z * option (Z * return_message c) in
  let '(errorCode, msg) := default (0, zero_reply c) ret_msg in
  mret (Z.lor error errorCode, msg).

(** ... when the reply has no content that is used *)
Definition command (c : component) (ep : Z) (msg : Z * request c) (caps : list Z) : P Z :=
  r ← transact c ep msg caps; mret (fst r).

(** ... when it has: [get] reads a member of the reply's union *)
Definition query {B} (c : component) (ep : Z) (msg : Z * request c) (caps : list Z)
    (get : return_message c -> P B) : P (Z * option B) :=
  r ← transact c ep msg caps;
  let '(error, msg) := r : Z * return_message c in
  if error =? 0 then b ← get msg; mret (0, Some b) else mret (error, None).

Definition other_member {B} : P B := crash OtherMember.

(** ** mo_clientapi.c *)

(** [msg.alloc] of a reply: a reply without content leaves the zeroed buffer *)
Definition mo_alloc_member (msg : MoReturnMessage) : P conn_t :=
  match msg with
  | MoAllocReturn id slot => mret (Conn id slot)
  | MoBasicReturn | MoNoReturn => mret conn_zero
  end.

Definition mo_connect (server_ep_cap num_pages page_bits paddr : Z) : P (Z * option conn_t) :=
  query MoComponent server_ep_cap (MO_RPC_MAGIC, MoAlloc num_pages (u32 page_bits) paddr) []
    mo_alloc_member.
Definition mo_component_client_connect (server_ep_cap num_pages page_bits : Z) : P (Z * option conn_t) :=
  mo_connect server_ep_cap num_pages page_bits 0.
Definition mo_component_client_connect_paddr (server_ep_cap num_pages page_bits paddr : Z)
  : P (Z * option conn_t) :=
  mo_connect server_ep_cap num_pages page_bits paddr.
Definition mo_component_client_disconnect (conn : conn_t) : P Z :=
  command MoComponent (conn_ep conn) (MO_RPC_MAGIC, MoDisconnect) [].

(** ** vmr_clientapi.c: reservations, through the address space component *)
Definition vmr_client_reserve (ep vaddr size page_bits vmr_type : Z) : P (Z * option (Z * Z)) :=
  query AdsComponent ep (VMR_RPC_MAGIC, VmrReserve vaddr vmr_type size (u32 page_bits)) []
    (fun msg => match msg with
                | VmrReserveReturn vaddr slot => mret (slot, vaddr)
                | AdsBasicReturn | AdsNoReturn => mret (0, 0)
                | _ => other_member
                end).
Definition vmr_client_attach (reservation_ep : Z) (mo : conn_t) (offset : Z) : P Z :=
  command AdsComponent reservation_ep (VMR_RPC_MAGIC, VmrAttach offset) [conn_ep mo].
Definition vmr_client_attach_no_reserve (vmr_rde vaddr : Z) (mo_cap : conn_t) (vmr_type : Z)
  : P (Z * option Z) :=
  query AdsComponent vmr_rde (VMR_RPC_MAGIC, VmrAttachNoReserve vaddr vmr_type) [conn_ep mo_cap]
    (fun msg => match msg with
                | VmrAttachNoReserveReturn vaddr => mret vaddr
                | AdsBasicReturn | AdsNoReturn => mret 0
                | _ => other_member
                end).
Definition vmr_client_delete (reservation_ep : Z) : P Z :=
  command AdsComponent reservation_ep (VMR_RPC_MAGIC, VmrDelete) [].
Definition vmr_client_delete_by_vaddr (vmr_rde vaddr : Z) : P Z :=
  command AdsComponent vmr_rde (VMR_RPC_MAGIC, VmrDeleteByVaddr vaddr) [].
Definition vmr_client_disconnect (reservation_ep : Z) : P Z :=
  command AdsComponent reservation_ep (VMR_RPC_MAGIC, VmrDelete) [].

(** ** ads_clientapi.c *)
Definition ads_component_client_connect (server_ep_cap : Z) : P (Z * option conn_t) :=
  query AdsComponent server_ep_cap (ADS_RPC_MAGIC, AdsAlloc) []
    (fun msg => match msg with
                | AdsAllocReturn slot id => mret (Conn id slot)
                | AdsBasicReturn | AdsNoReturn => mret conn_zero
                | _ => other_member
                end).
Definition ads_client_disconnect (conn : conn_t) : P Z :=
  command AdsComponent (conn_ep conn) (ADS_RPC_MAGIC, AdsDisconnect) [].
(** nothing to be done *)
Definition ads_client_bind_cpu (conn : conn_t) (cpu_cap : Z) : P Z := mret 0.

(** the fields of vmr_config_t that are read; the number of pages is sent in 32 bits *)
Definition ads_client_shallow_copy (src_ads dst_ads : conn_t) (region_pages type start dest_start : Z)
  : P Z :=
  command AdsComponent (conn_ep src_ads)
    (ADS_RPC_MAGIC, AdsShallowCopy (u32 region_pages) (u32 type) start dest_start) [conn_ep dst_ads].

(** the address, the number of pages and the bits of a page *)
Definition ads_client_get_reservation (ads : conn_t) (res_type : Z) : P (Z * option (Z * Z * Z)) :=
  query AdsComponent (conn_ep ads) (ADS_RPC_MAGIC, AdsGetReservation (u32 res_type)) []
    (fun msg => match msg with
                | AdsGetReservationReturn vaddr num_pages page_bits => mret (vaddr, num_pages, page_bits)
                | AdsBasicReturn | AdsNoReturn => mret (0, 0, 0)
                | _ => other_member
                end).

(** the size of the buffers of names in messages *)
Definition NAME_BUFFER : nat := 41.

Definition ads_client_load_elf (loadee_ads loadee_pd : conn_t) (image_name : list Z)
  : P (Z * option Z) :=
  assert_ (length image_name <? NAME_BUFFER)%nat ;;
  query AdsComponent (conn_ep loadee_ads) (ADS_RPC_MAGIC, AdsLoadElf image_name) [conn_ep loadee_pd]
    (fun msg => match msg with
                | AdsLoadElfReturn entry_point => mret entry_point
                | AdsBasicReturn | AdsNoReturn => mret 0
                | _ => other_member
                end).

(** ** cpu_clientapi.c *)
Definition cpu_component_client_connect (server_ep_cap : Z) : P (Z * option conn_t) :=
  query CpuComponent server_ep_cap (CPU_RPC_MAGIC, CpuAlloc) []
    (fun msg => match msg with
                | CpuAllocReturn slot id => mret (Conn id slot)
                | CpuBasicReturn | CpuNoReturn => mret conn_zero
                | _ => other_member
                end).
Definition cpu_command (conn : conn_t) (msg : CpuMessage) (caps : list Z) : P Z :=
  command CpuComponent (conn_ep conn) (CPU_RPC_MAGIC, msg) caps.
Definition cpu_component_client_disconnect (conn : conn_t) : P Z := cpu_command conn CpuDisconnect [].

(** [ipc_buf_mo] may be NULL, or a context without an endpoint *)
Definition cpu_client_config (cpu ads pd : conn_t) (ipc_buf_mo : option conn_t)
    (cnode_guard fault_ep_position ipc_buf_addr prio : Z) : P Z :=
  let msg := CpuConfig ipc_buf_addr fault_ep_position cnode_guard (u32 prio) in
  match ipc_buf_mo with
  | Some mo => if negb (conn_ep mo =? 0)
               then cpu_command cpu msg [conn_ep pd; conn_ep ads; conn_ep mo]
               else cpu_command cpu msg [conn_ep pd; conn_ep ads]
  | None => cpu_command cpu msg [conn_ep pd; conn_ep ads]
  end.
Definition cpu_client_change_vspace (conn ads_conn : conn_t) : P Z :=
  cpu_command conn CpuChangeVspace [conn_ep ads_conn].
Definition cpu_client_start (conn : conn_t) : P Z := cpu_command conn CpuStart [].
Definition cpu_client_elevate_privileges (conn : conn_t) : P Z := cpu_command conn CpuElevatePrivilege [].
Definition cpu_client_set_tls_base (cpu : conn_t) (tls_base : Z) : P Z :=
  cpu_command cpu (CpuTlsBase tls_base) [].
Definition cpu_client_suspend (cpu : conn_t) : P Z := cpu_command cpu CpuSuspend [].

(** the copy of the registers into the message, which has room for 36 *)
Definition MAX_REGS : nat := 36.
Definition cpu_client_write_registers (cpu : conn_t) (regs : list Z) (num_reg : nat) (resume : bool)
  : P Z :=
  if (num_reg <=? length regs)%nat && (num_reg <=? MAX_REGS)%nat
  then cpu_command cpu (CpuWriteRegisters resume (take num_reg regs)) []
  else crash OutOfBounds.
Definition cpu_client_inject_irq (cpu : conn_t) (virq prio group idx : Z) : P Z :=
  cpu_command cpu (CpuInjectIrq (u32 virq) (u32 prio) (u32 group) (u32 idx)) [].
(** the interrupt number is sent in 32 bits *)
Definition cpu_client_ack_vppi (cpu : conn_t) (irq : Z) : P Z := cpu_command cpu (CpuAckVppi (u32 irq)) [].
Definition cpu_client_resume (cpu : conn_t) : P Z := cpu_command cpu CpuResume [].

(** the registers of the virtual CPU; there is no return statement, so the error is
    lost and the result of the call is indeterminate.  The registers are copied when
    the call did not fail, whatever the error of the reply. *)
Definition cpu_client_read_vcpu_regs (cpu : conn_t) : P (option (list Z)) :=
  r ← component_call CpuComponent (conn_ep cpu) (CPU_RPC_MAGIC, CpuReadVcpu) [];
  let '(error, ret_msg) := r : Z * option (Z * CpuReturnMessage) in
  if negb (error =? 0) then mret None else
  match ret_msg with
  | Some (_, CpuReadVcpuReturn reg_buf) => mret (Some reg_buf)
  | Some (_, CpuBasicReturn) | Some (_, CpuNoReturn) => mret (Some [])
  | _ => other_member
  end.

(** the number of registers that are copied out of the reply, whatever its error
    (their values are not part of the model of the message) *)
Definition cpu_client_read_registers (cpu : conn_t) : P (Z * option Z) :=
  r ← component_call CpuComponent (conn_ep cpu) (CPU_RPC_MAGIC, CpuReadRegisters) [];
  let '(error, ret_msg) := r : Z * option (Z * CpuReturnMessage) in
  if negb (error =? 0) then mret (error, None) else
  match ret_msg with
  | Some (errorCode, CpuReadRegistersReturn reg_buf_count) => mret (errorCode, Some reg_buf_count)
  | Some (errorCode, CpuBasicReturn) | Some (errorCode, CpuNoReturn) => mret (errorCode, Some 0)
  | _ => other_member
  end.

(** ** endpoint_clientapi.c *)

(** ep_client_context_t *)
Record ep_conn_t := EpConn { ep_conn_ep : Z; raw_endpoint : Z }.

(** the two slots of [msg.alloc], and of [msg.badge], which has the same layout *)
Definition ep_alloc_member (msg : EpReturnMessage) : P ep_conn_t :=
  match msg with
  | EpAllocReturn slot raw_ep_slot => mret (EpConn slot raw_ep_slot)
  | EpNoReturn => mret (EpConn 0 0)
  | EpGetReturn _ => other_member
  end.
Definition ep_component_client_connect (server_ep_cap : Z) : P (Z * option ep_conn_t) :=
  query EpComponent server_ep_cap (EP_RPC_MAGIC, EpAlloc) [] ep_alloc_member.
Definition ep_component_client_disconnect (conn : ep_conn_t) : P Z :=
  command EpComponent (ep_conn_ep conn) (EP_RPC_MAGIC, EpDisconnect) [].
Definition get_raw_endpoint (ep_conn : ep_conn_t) (target_PD : option conn_t) : P (Z * option Z) :=
  query EpComponent (ep_conn_ep ep_conn) (EP_RPC_MAGIC, EpGet (bool_decide (is_Some target_PD)))
    (conn_ep <$> option_list target_PD)
    (fun msg => match msg with
                | EpGetReturn slot => mret slot
                | EpNoReturn => mret 0
                | EpAllocReturn _ _ => other_member
                end).
(** the error code, and the context with its raw endpoint set *)
Definition ep_client_get_raw_endpoint (ep_conn : ep_conn_t) : P (Z * ep_conn_t) :=
  r ← get_raw_endpoint ep_conn None;
  let '(error, raw_endpoint) := r : Z * option Z in
  mret (error, match raw_endpoint with
               | Some raw => EpConn (ep_conn_ep ep_conn) raw
               | None => ep_conn
               end).
Definition ep_client_get_raw_endpoint_in_PD (target_PD : option conn_t) (ep_conn : ep_conn_t)
  : P (Z * option Z) :=
  get_raw_endpoint ep_conn target_PD.
Definition ep_client_forge (server_ep_cap ep_to_forge : Z) : P (Z * option ep_conn_t) :=
  query EpComponent server_ep_cap (EP_RPC_MAGIC, EpForge) [ep_to_forge]
    (fun msg => conn ← ep_alloc_member msg; mret (EpConn (ep_conn_ep conn) ep_to_forge)).
Definition ep_client_badge (ep_conn : ep_conn_t) (dest_pd : conn_t) (badge : Z) (is_core_cap : bool)
  : P (Z * option ep_conn_t) :=
  query EpComponent (ep_conn_ep ep_conn) (EP_RPC_MAGIC, EpBadge badge is_core_cap) [conn_ep dest_pd]
    ep_alloc_member.

(** ** pd_clientapi.c *)

(** PdWorkReturnMessage: (space, object, client PD) of each piece of work *)
Record work_t := Work { work_action : nat; work_items : list (Z * Z * Z); work_n_critical : Z }.

Definition pd_command (conn : conn_t) (msg : PdMessage) (caps : list Z) : P Z :=
  command PdComponent (conn_ep conn) (PD_RPC_MAGIC, msg) caps.
Definition pd_query {B} (ep : Z) (msg : PdMessage) (caps : list Z) (get : PdReturnMessage -> P B)
  : P (Z * option B) :=
  query PdComponent ep (PD_RPC_MAGIC, msg) caps get.

Definition pd_component_client_connect (server_ep : Z) (osm_data_mo : conn_t) : P (Z * option conn_t) :=
  pd_query server_ep PdAlloc [conn_ep osm_data_mo]
    (fun msg => match msg with
                | PdAllocReturn slot id => mret (Conn id slot)
                | PdBasicReturn | PdNoReturn => mret conn_zero
                | _ => other_member
                end).
Definition pd_client_terminate (conn : conn_t) : P Z := pd_command conn PdTerminate [].
Definition pd_client_dump (conn : conn_t) : P Z := pd_command conn PdDump [].

Definition send_cap_req (conn : conn_t) (cap_to_send : Z) (is_core : bool) : P (Z * option Z) :=
  pd_query (conn_ep conn) (PdSendCap is_core cap_to_send) [cap_to_send]
    (fun msg => match msg with
                | PdSendCapReturn slot => mret slot
                | PdBasicReturn | PdNoReturn => mret 0
                | _ => other_member
                end).
Definition pd_client_send_cap (conn : conn_t) (cap_to_send : Z) : P (Z * option Z) :=
  send_cap_req conn cap_to_send false.
Definition pd_client_send_core_cap (conn : conn_t) (cap_to_send : Z) : P (Z * option Z) :=
  send_cap_req conn cap_to_send true.
Definition pd_client_next_slot (conn : conn_t) : P (Z * option Z) :=
  pd_query (conn_ep conn) PdNextSlot []
    (fun msg => match msg with
                | PdNextSlotReturn slot => mret slot
                | PdBasicReturn | PdNoReturn => mret 0
                | _ => other_member
                end).
(** the slot is not put into the message *)
Definition pd_client_free_slot (conn : conn_t) (slot : Z) : P Z := pd_command conn (PdFreeSlot 0) [].
Definition pd_client_clear_slot (conn : conn_t) (slot : Z) : P Z := pd_command conn (PdClearSlot slot) [].
Definition pd_client_share_rde (target_pd : conn_t) (cap_type space_id : Z) : P Z :=
  pd_command target_pd (PdShareRDE cap_type space_id) [].
Definition pd_client_give_resource (conn : conn_t) (res_space_id recipient_id resource_id : Z)
  : P (Z * option Z) :=
  pd_query (conn_ep conn) (PdGiveResource recipient_id res_space_id resource_id) []
    (fun msg => match msg with
                | PdGiveResourceReturn slot => mret slot
                | PdBasicReturn | PdNoReturn => mret 0
                | _ => other_member
                end).
Definition pd_client_get_work (conn : conn_t) : P (Z * option work_t) :=
  pd_query (conn_ep conn) PdGetWork []
    (fun msg => match msg with
                | PdWorkReturn action work n_critical => mret (Work action work n_critical)
                | PdBasicReturn | PdNoReturn => mret (Work PdWorkAction_EXTRACT [] 0)
                | _ => other_member
                end).
Definition pd_client_send_subgraph (conn : conn_t) (mo_conn : option conn_t) (has_data : bool)
    (n_requests : Z) : P Z :=
  let msg := PdSendSubgraph has_data (u32 n_requests) in
  if has_data then mo ← deref mo_conn; pd_command conn msg [conn_ep mo]
  else pd_command conn msg [].
Definition pd_client_finish_work (conn : conn_t) (work : work_t) : P Z :=
  pd_command conn (PdFinishWork (Z.of_nat (work_action work)) (Z.of_nat (length (work_items work)))
    (work_n_critical work)) [].
Definition pd_client_exit (conn : conn_t) (code : Z) : P unit :=
  _ ← component_call PdComponent (conn_ep conn) (PD_RPC_MAGIC, PdExit (u64 code)) []; mret tt.
Definition pd_client_remove_rde (conn : conn_t) (type space_id : Z) : P Z :=
  pd_command conn (PdRemoveRDE type space_id) [].
Definition pd_client_bench_ipc (conn : conn_t) (dummy_send_cap : Z) (cap_transfer : bool) : P Z :=
  pd_command conn PdBenchIPC (if cap_transfer then [dummy_send_cap] else []).

Definition PD_MAX_ARGC : Z := 8.
Definition pd_client_runtime_setup (target_pd target_ads target_cpu : conn_t) (stack_pos argc : Z)
    (args : list Z) (entry_point ipc_buf_addr osm_data_in_PD : Z) : P Z :=
  if PD_MAX_ARGC <? argc then mret 1
  else if (0 <=? argc) && (Z.to_nat argc <=? length args)%nat then
    pd_command target_pd (PdSetup stack_pos entry_point ipc_buf_addr osm_data_in_PD (take (Z.to_nat argc) args))
      [conn_ep target_ads; conn_ep target_cpu]
  else crash OutOfBounds.
Definition pd_client_share_resource_by_type (src_pd dest_pd : conn_t) (res_type : Z) : P Z :=
  pd_command src_pd (PdShareResType res_type) [conn_ep dest_pd].
Definition pd_client_link_child (parent child : conn_t) : P Z :=
  pd_command parent PdLinkChild [conn_ep child].
Definition pd_client_set_name (conn : conn_t) (name : list Z) : P Z :=
  assert_ (length name <? NAME_BUFFER)%nat ;; pd_command conn (PdSetName name) [].

(** the two slots are copied when the call did not fail, whatever the error of the
    reply *)
Definition pd_client_irq_handler_bind (pd : conn_t) (irq badge : Z) (copy_to_holder : bool)
  : P (Z * option (Z * Z)) :=
  r ← component_call PdComponent (conn_ep pd)
        (PD_RPC_MAGIC, PdIrqHandlerBind (u32 irq) badge copy_to_holder) [];
  let '(error, ret_msg) := r : Z * option (Z * PdReturnMessage) in
  if negb (error =? 0) then mret (error, None) else
  match ret_msg with
  | Some (errorCode, PdIrqHandlerBindReturn slot slot_holder) => mret (errorCode, Some (slot, slot_holder))
  | Some (errorCode, PdBasicReturn) | Some (errorCode, PdNoReturn) => mret (errorCode, Some (0, 0))
  | _ => other_member
  end.

(** ** resource_space_clientapi.c *)

(** resspc_client_context_t *)
Record resspc_conn_t := ResspcConn { resspc_conn_ep : Z; resspc_conn_id : Z; resspc_conn_type : Z }.

Definition resspc_command (conn : resspc_conn_t) (msg : ResSpcMessage) : P Z :=
  command ResspcComponent (resspc_conn_ep conn) (RESSPC_RPC_MAGIC, msg) [].
Definition resspc_client_connect (server_ep : Z) (resource_type : list Z) (resource_server_ep : ep_conn_t)
    (client_id : Z) : P (Z * option resspc_conn_t) :=
  assert_ (length resource_type <? NAME_BUFFER)%nat ;;
  query ResspcComponent server_ep (RESSPC_RPC_MAGIC, ResSpcAlloc resource_type (u32 client_id))
    [ep_conn_ep resource_server_ep]
    (fun msg => match msg with
                | ResSpcAllocReturn id type_code slot => mret (ResspcConn slot id type_code)
                | ResSpcBasicReturn | ResSpcNoReturn => mret (ResspcConn 0 0 0)
                end).
Definition resspc_client_map_space (conn : resspc_conn_t) (space_id : Z) : P Z :=
  resspc_command conn (ResSpcMap space_id).
Definition resspc_client_create_resource (conn : resspc_conn_t) (resource_id : Z) : P Z :=
  resspc_command conn (ResSpcCreateResource resource_id).
Definition resspc_client_delete_resource (conn : resspc_conn_t) (resource_id : Z) : P Z :=
  resspc_command conn (ResSpcDeleteResource resource_id).
Definition resspc_client_revoke_resource (conn : resspc_conn_t) (resource_id target_pd_id : Z) : P Z :=
  resspc_command conn (ResSpcRevokeResource resource_id target_pd_id).
Definition resspc_client_destroy (conn : resspc_conn_t) : P Z := resspc_command conn ResSpcDestroy.
End Client.
