(* ===== verification/EndToEnd.v ===== *)
(** * Clients on the server

    The composition of the two sides: a process whose kernel delivers its calls to
    the model of the GPI server.  seL4 is a record of functions: the badge of a
    capability in a slot is determined by the calls made so far, and so is what the
    server sees of the capabilities that come with a message.

    A call is an iteration of the server's loop: the client gets the error code and
    the message of the request handler, whatever the component.  With that, a client
    that asks for a memory object and gives it back finds the server as it was. *)

From stdpp Require Import base numbers list gmap.
From S2P Require Import Prelude Badge Registry State Component PdResources Resspc Mo Server Client.

(** ** The kernel *)

(** the calls so far, the cspace and the slot: the badge; the calls so far, the
    cspace and the slots of a message: what the receiver sees *)
Record seL4 := SeL4 {
  cap_badge : list xcall -> Z -> Z -> Z;
  transfer : list xcall -> Z -> list Z -> ipc
}.

(** the server, and its receive slot *)
Record gpi_system := GpiSystem { gs_server : server; receive_slot : Z }.

Section System.
Context `{UTHash} (sys : list xcall -> xcall -> Z * Z) (P : platform) (depth : nat) (K : seL4).
(** the cspace of the client, the encoding of replies *)
Context (cspace : Z) (encode_reply : forall c, Z * return_message c -> option (list Z)).

(** what the client gets from an iteration of the server: a client that is not
    answered waits; a call ends with the server when it stops *)
Definition delivered (slot : Z) (r : result (option reply * Z) * server) : result (Z * list Z) * gpi_system :=
  match r with
  | (Ok (Some (existT c answer), slot'), s) => (Ok (0, default [] (encode_reply c answer)), GpiSystem s slot')
  | (Ok (None, slot'), s) => (NoFuel, GpiSystem s slot')
  | (Crash f, s) => (Crash f, GpiSystem s slot)
  | (NoFuel, s) => (NoFuel, GpiSystem s slot)
  end.

Definition system_call (ep : Z) (words caps : list Z) : M gpi_system (Z * list Z) := fun g =>
  let s := gs_server g in
  delivered (receive_slot g)
    (gpi_server_step sys P (call_cb sys P depth) (receive_slot g) (transfer K (log s) cspace caps) words
      (cap_badge K (log s) cspace ep) s).

(** the calls of resource servers to each other are not answered here *)
#[export] Instance gpi_kernel : Kernel gpi_system := {|
  k_call := system_call;
  k_recv _ := no_fuel;
  k_send _ _ := mret tt;
  k_set_receive_path _ := mret tt;
  k_save_caller _ := mret 0
|}.
End System.

(** ** Calls *)

(** nanopb: what was encoded is decoded *)
Record nanopb_ok (P : platform) (N : nanopb)
    (encode_reply : forall c, Z * return_message c -> option (list Z)) : Prop := {
  request_decodes : forall c m words, encode_request N c m = Some words -> pb_decode P c words = Some m;
  reply_decodes : forall c r words, encode_reply c r = Some words -> decode_reply N c words = Some r
}.

Section Rpc.
Context `{UTHash} (sys : list xcall -> xcall -> Z * Z) (P : platform) (depth : nat) (K : seL4) (N : nanopb).
Context (cspace : Z) (encode_reply : forall c, Z * return_message c -> option (list Z)).
Context {A : Type}.
Hypothesis (Hsys : forall l c, fst (sys l c) = 0) (HN : nanopb_ok P N encode_reply).
Implicit Types (p : process gpi_system A) (s : server).
#[local] Existing Instance gpi_kernel.
#[local] Instance system : Kernel gpi_system := gpi_kernel sys P depth K cspace encode_reply.

(** what is recorded when the reply is sent *)
Definition sent (len : Z) (s : server) : server := called (ApiReply, [len]) (called (PbEncode, []) s).

Lemma reply_run s : exists len,
  (r ← sel4gpi_rpc_reply sys;
   let '(error, len) := r : Z * option Z in
   assert_ (error =? 0) ;; ext_ sys ApiReply [default 0 len]) s = (Ok tt, sent len s).
Proof.
  pose proof (Hsys (log s) (PbEncode, [])) as E. destruct (sys (log s) (PbEncode, [])) as [error bytes] eqn:Es.
  simpl in E. subst error. exists (message_words bytes).
  assert (sel4gpi_rpc_reply sys s = (Ok (0, Some (message_words bytes)), called (PbEncode, []) s)) as Hr.
  { unfold sel4gpi_rpc_reply. rewrite (bind_ok _ _ _ _ _ (ext_run sys _ _ s)). by rewrite Es. }
  rewrite (bind_ok _ _ _ _ _ Hr). reflexivity.
Qed.

(** the receive slot that follows *)
Lemma next_slot_run (b : bool) slot s : exists slot' l,
  (if b then
     r ← ext sys VkaCspaceAlloc [server_vka];
     let '(error, slot) := r : Z * Z in
     assert_ (error =? 0) ;; mret slot
   else mret slot) s = (Ok slot', set_log (l ++ log s) s) /\ (b = false -> slot' = slot /\ l = []).
Proof.
  destruct b.
  - pose proof (Hsys (log s) (VkaCspaceAlloc, [server_vka])) as E.
    destruct (sys (log s) (VkaCspaceAlloc, [server_vka])) as [error slot'] eqn:Es. simpl in E. subst error.
    exists slot', [(VkaCspaceAlloc, [server_vka])].
    rewrite (bind_ok _ _ _ _ _ (ext_run sys _ _ s)). by rewrite Es.
  - exists slot, []. simpl. by rewrite set_log_id.
Qed.

(** an iteration of the loop, from the run of the handler *)
Lemma step_run s c m words badge slot magic (msg : request c) h s1 :
  component_of_badge badge = Some c -> pb_decode P c words = Some (magic, msg) ->
  request_handler sys P (call_cb sys P depth) c m magic msg badge slot (received slot s) = (Ok h, s1) ->
  should_reply h = true ->
  exists len slot' l, gpi_server_step sys P (call_cb sys P depth) slot m words badge s =
      (Ok (Some (existT c (errorCode h, reply_msg h)), slot'), set_log (l ++ log (sent len s1)) s1) /\
    (need_new_recv_cap h = false -> slot' = slot /\ l = []).
Proof.
  intros Hc Hmsg Hrun Hreply. destruct (reply_run s1) as [len Hr].
  destruct (next_slot_run (need_new_recv_cap h) slot (sent len s1)) as (slot' & l & Hs & Hl).
  exists len, slot', l. split; [|exact Hl].
  unfold gpi_server_step. erewrite bind_ok by reflexivity. erewrite bind_ok by reflexivity. rewrite Hc.
  change (called (Recv, []) _) with (received slot s).
  unfold resource_component_handle. rewrite Hmsg. rewrite bind_assoc. erewrite bind_ok by reflexivity.
  rewrite bind_assoc. erewrite bind_ok by reflexivity. cbv beta iota.
  rewrite bind_assoc, (bind_ok _ _ _ _ _ Hrun), Hreply.
  rewrite bind_assoc, (bind_ok _ _ _ _ _ Hr).
  rewrite bind_assoc, (bind_ok _ _ _ _ _ Hs). reflexivity.
Qed.

(** the badge of a client's slot *)
Definition badge_in s (slot : Z) : Z := cap_badge K (log s) cspace slot.

Lemma syscall_run p ep words caps r g :
  system_call sys P depth K cspace encode_reply ep words caps (kernel p) = (r, g) ->
  syscall (k_call ep words caps) p = (r, set_kernel g p).
Proof.
  intros E. unfold syscall.
  change (k_call ep words caps (kernel p)) with
    (system_call sys P depth K cspace encode_reply ep words caps (kernel p)). by rewrite E.
Qed.

Lemma call_run p c ep magic (msg : request c) caps words answer h s1 :
  let s := gs_server (kernel p) in let slot := receive_slot (kernel p) in
  component_of_badge (badge_in s ep) = Some c -> encode_request N c (magic, msg) = Some words ->
  request_handler sys P (call_cb sys P depth) c (transfer K (log s) cspace caps) magic msg (badge_in s ep) slot
    (received slot s) = (Ok h, s1) ->
  should_reply h = true -> encode_reply c (errorCode h, reply_msg h) = Some answer ->
  exists len slot' l, component_call N c ep (magic, msg) caps p = (Ok (0, Some (errorCode h, reply_msg h)),
      set_kernel (GpiSystem (set_log (l ++ log (sent len s1)) s1) slot') p) /\
    (need_new_recv_cap h = false -> slot' = slot /\ l = []).
Proof.
  intros s slot Hc Henc Hrun Hreply Hans.
  destruct (step_run s c (transfer K (log s) cspace caps) words (badge_in s ep) slot magic msg h s1 Hc
    (request_decodes _ _ _ HN _ _ _ Henc) Hrun Hreply) as (len & slot' & l & Hstep & Hl).
  exists len, slot', l. split; [|done].
  unfold component_call, sel4gpi_rpc_call. rewrite Henc. erewrite bind_ok.
  2:{ apply syscall_run. unfold badge_in in Hstep. unfold system_call. exact (f_equal (delivered encode_reply slot) Hstep). }
  cbv beta iota. cbn [Z.eqb negb]. rewrite Hans. cbn [from_option id].
  by rewrite (reply_decodes _ _ _ HN _ _ _ Hans).
Qed.

(** what the stubs make of the answer to a call *)
Lemma transact_run p p' c ep msg caps e (r : return_message c) :
  component_call N c ep msg caps p = (Ok (0, Some (e, r)), p') -> transact N c ep msg caps p = (Ok (e, r), p').
Proof. intros E. unfold transact. by rewrite (bind_ok _ _ _ _ _ E). Qed.
Lemma stub_command_run p p' c ep msg caps e (r : return_message c) :
  component_call N c ep msg caps p = (Ok (0, Some (e, r)), p') -> command N c ep msg caps p = (Ok e, p').
Proof. intros E%transact_run. unfold command. by rewrite (bind_ok _ _ _ _ _ E). Qed.
Lemma query_run {B} p p' c ep msg caps e (r : return_message c) (get : return_message c -> M (process gpi_system A) B) :
  component_call N c ep msg caps p = (Ok (0, Some (e, r)), p') ->
  query N c ep msg caps get p = (if e =? 0 then b ← get r; mret (0, Some b) else mret (e, None)) p'.
Proof. intros E%transact_run. unfold query. by rewrite (bind_ok _ _ _ _ _ E). Qed.

(** C4: a call is transparent.  Whatever the component, when its handler answers a
    request -- it replies, the request and its answer can be encoded, and none of the
    server's calls to the kernel fails -- the call of the client (sel4gpi_rpc_call,
    which every stub makes) returns without an error and with the error code and the
    message of that answer; a stub without a result returns that error code, and one
    with a result reads it from that message when the code is 0, and only then.  (The
    four stubs that make the call themselves, cpu_client_read_vcpu_regs,
    cpu_client_read_registers, pd_client_irq_handler_bind and pd_client_exit, have
    neither of these two forms; what is shown for them is what the call returns.)  The
    server is left as the handler left it, up to the record of the calls to the kernel
    and the slot it receives the next capability in. *)
Theorem rpc_transparent p c ep magic (msg : request c) caps words answer h s1
  (Hc : component_of_badge (badge_in (gs_server (kernel p)) ep) = Some c)
  (Henc : encode_request N c (magic, msg) = Some words)
  (Hrun : request_handler sys P (call_cb sys P depth) c
     (transfer K (log (gs_server (kernel p))) cspace caps) magic msg (badge_in (gs_server (kernel p)) ep)
     (receive_slot (kernel p)) (received (receive_slot (kernel p)) (gs_server (kernel p))) = (Ok h, s1))
  (Hreply : should_reply h = true) (Hans : encode_reply c (errorCode h, reply_msg h) = Some answer) :
  exists l slot', let p' := set_kernel (GpiSystem (set_log (l ++ log s1) s1) slot') p in
    component_call N c ep (magic, msg) caps p = (Ok (0, Some (errorCode h, reply_msg h)), p') /\
    command N c ep (magic, msg) caps p = (Ok (errorCode h), p') /\
    forall B (get : return_message c -> M (process gpi_system A) B), query N c ep (magic, msg) caps get p =
      (if errorCode h =? 0 then b ← get (reply_msg h); mret (0, Some b) else mret (errorCode h, None)) p'.
Proof.
  destruct (call_run p c ep magic msg caps words answer h s1 Hc Henc Hrun Hreply Hans)
    as (len & slot' & l & Ht & _).
  exists (l ++ [(ApiReply, [len]); (PbEncode, [])]), slot'. cbv zeta. rewrite <- app_assoc.
  split; [exact Ht|]. split; [by apply (stub_command_run _ _ _ _ _ _ _ (reply_msg h))|].
  intros B get. by apply query_run.
Qed.
End Rpc.

(** ** Asking for a memory object and giving it back *)
Section Allocated.
Context `{UTHash} (sys : list xcall -> xcall -> Z * Z).
Context (s : server) (client : Z) (b a : nat) (e e' : pd_entry_t) (args : mo_new_args_t) (s' : server).
Context (id cap : Z) (fs : list (Z * Z)) (e1 e1' : pd_entry_t).
Hypothesis (Hal : mo_allocated sys s client b e a e' args s' id cap fs e1 e1').

(** the node of the new object *)
Definition new_node : node mo_t := Node (next_addr s) id 1 (new_mo args fs id).

Lemma new_node_res : resource_type (mo_component s) = GPICAP_TYPE_MO -> mo_res s' new_node = mo_rid s id.
Proof.
  intros Ht. destruct (al_same _ _ _ _ _ _ _ _ _ _ _ _ _ _ Hal) as (E1 & E2 & _).
  unfold mo_res, mo_rid. by rewrite E1, E2, Ht.
Qed.

Lemma new_node_last : on_delete (rc_registry (mo_component s)) = Some CbMo -> last_mo s' new_node (fst <$> fs).
Proof.
  intros Hcb. destruct Hal. split; try done.
  - destruct al_frame as (_ & -> & _). done.
  - by apply (node_at_Some _ (next_addr s)).
  - simpl. by rewrite length_fmap.
Qed.

(** a resource that is in what a PD holds is in a node of its registry *)
Lemma held_node e0 k c h : hold_ok e0 -> holds e0 !! k = Some (c, h) ->
  exists n, n ∈ head (hold_registry (pd e0)) /\ object_id n = k /\ count n = c /\ payload n = h.
Proof.
  intros [Hwf _] E. apply reg_abs_lookup in E as (n & Hin & Ek & [= <- <-]); [|done]. by exists n.
Qed.

Lemma new_node_sole : resource_type (mo_component s) = GPICAP_TYPE_MO -> to_delete (pd e) = false ->
  cap <> CapNull -> exists h, sole_holder s' new_node e1 h cap.
Proof.
  intros Ht Hd Hcap. pose proof (new_node_res Ht) as Er. destruct Hal.
  destruct (held_node e1 (compact (mo_rid s id)) 1 (HoldNode cap 0 0 (mo_rid s id)) (lp_hold _ _ _ _ al_client))
    as (h & Hin & Ek & Ec & Ep); [by rewrite al_client_holds, lookup_insert_eq|].
  exists h. split; rewrite ?Er, ?Ep; try done. by rewrite al_client_entry.
Qed.

Lemma new_node_rt : resource_type (mo_component s) = GPICAP_TYPE_MO ->
  exists h', h' ∈ head (hold_registry (pd e1')) /\ object_id h' = compact (mo_res s' new_node).
Proof.
  intros Ht. rewrite (new_node_res Ht). destruct Hal.
  destruct (held_node e1' (compact (mo_rid s id)) 1 (HoldNode 0 0 0 (mo_rid s id)) (lp_hold _ _ _ _ al_rt))
    as (h' & Hin & Ek & _); [by rewrite al_rt_holds, lookup_insert_eq|]. by exists h'.
Qed.
End Allocated.

(** seL4: a capability that was minted into a slot has its badge there, as long as no
    call changes capabilities *)
Definition keeps_caps (f : extfn) : bool :=
  match f with Calloc | Free | PbEncode | ApiReply | SetReceivePath | Recv => true | _ => false end.
Definition mints_badges (K : seL4) : Prop :=
  forall after vka slot src ep badge before, forallb (fun c : xcall => keeps_caps (fst c)) after = true ->
    cap_badge K (after ++ (VkaCnodeMint, [vka; slot; src; ep; badge]) :: before) vka slot = badge.

Section RoundTrip.
Context `{UTHash} (sys : list xcall -> xcall -> Z * Z) (P : platform) (d : nat) (K : seL4) (N : nanopb).
Context (encode_reply : forall c, Z * return_message c -> option (list Z)) {A : Type}.
Hypothesis (Hsys : forall l c, fst (sys l c) = 0).
(** slots of a cspace are not the null slot *)
Hypothesis (Hslots : forall l vka, snd (sys l (VkaCspaceAlloc, [vka])) <> CapNull).
Hypothesis (HN : nanopb_ok P N encode_reply) (HK : mints_badges K).
(** the messages fit their buffers *)
Hypothesis (Henc : forall num_pages page_bits paddr,
  is_Some (encode_request N MoComponent (MO_RPC_MAGIC, MoAlloc num_pages page_bits paddr))).
Hypothesis (Henc_disconnect : is_Some (encode_request N MoComponent (MO_RPC_MAGIC, MoDisconnect))).
Hypothesis (Hans : forall id slot, is_Some (encode_reply MoComponent (0, MoAllocReturn id slot))).
Hypothesis (Hans_disconnect : is_Some (encode_reply MoComponent (0, MoBasicReturn))).
Implicit Types (p : process gpi_system A) (s : server).

Section Client.
(** the client at [b], whose cspace is the one it calls from *)
Context (b : nat) (e : pd_entry_t).
Let depth := S (S (S d)).
#[local] Instance to_server : Kernel gpi_system :=
  gpi_kernel sys P depth K (client_vka (pd e)) encode_reply.
Abbreviation badge_at s slot := (badge_in K (client_vka (pd e)) s slot).

(** the state of the process after a call *)
Definition after_call len slot s' p : process gpi_system A :=
  set_kernel (GpiSystem (sent len s') slot) p.

Lemma connect_run p ep num_pages page_bits paddr free a e' :
  let s := gs_server (kernel p) in let badge := badge_at s ep in
  get_cap_type_from_badge badge = GPICAP_TYPE_MO -> get_object_id_from_badge badge = BADGE_OBJ_ID_NULL ->
  mo_ready s free -> args_ok (MoNewArgs num_pages page_bits paddr) ->
  mo_client s (get_client_id_from_badge badge) b e -> mo_client s (rt_pd_id s) a e' ->
  get_client_id_from_badge badge <> rt_pd_id s -> a <> b ->
  exists s' len id cap fs e1 e1',
    mo_connect N ep num_pages page_bits paddr p =
      (Ok (0, Some (Conn id cap)), after_call len (receive_slot (kernel p)) s' p) /\
    mo_allocated sys (received (receive_slot (kernel p)) s) (get_client_id_from_badge badge) b e a e'
      (MoNewArgs num_pages page_bits paddr) s' id cap fs e1 e1'.
Proof.
  intros s badge Htype Hobj Hready Hargs Hcl Hrt Hne Hab. set (slot := receive_slot (kernel p)).
  assert (page_bits = u32 page_bits) as Ebits.
  { destruct Hargs as (_ & Hb & _). simpl in Hb. unfold u32. rewrite wrap_small; lia. }
  destruct (mo_allocation_run sys Hsys (received slot s) free badge num_pages page_bits paddr b a e e')
    as (s' & id & cap & fs & e1 & e1' & Hrun & Hal); try done; [by destruct Hready|..].
  - destruct Hcl. split; [by apply (live_pd_same s)|done..].
  - destruct Hrt. split; [by apply (live_pd_same s)|done..].
  - destruct (Henc num_pages (u32 page_bits) paddr) as [words Hw]. destruct (Hans id cap) as [answer Ha].
    destruct (call_run sys P depth K N (client_vka (pd e)) encode_reply Hsys HN p MoComponent ep MO_RPC_MAGIC
      (MoAlloc num_pages (u32 page_bits) paddr) [] words answer (replied 0 (MoAllocReturn id cap)) s')
      as (len & slot' & l & Hcall & Hl); try done.
    + fold s. fold badge. unfold component_of_badge. by rewrite Htype.
    + fold s. fold badge. cbn [request_handler]. unfold mo_component_handle.
      rewrite Z.eqb_refl, Hobj, <- Ebits. exact Hrun.
    + destruct Hl as [-> ->]; [done|]. exists s', len, id, cap, fs, e1, e1'. split; [|done].
      unfold mo_connect. etransitivity; [eapply query_run; exact Hcall|reflexivity].
Qed.

(** the capability in the slot [cap] of the client is the only reference to [n] *)
Record sole_reference p client cap n objs a e1 e1' h h' : Prop := {
  sr_badge : let badge := badge_at (gs_server (kernel p)) cap in
    get_cap_type_from_badge badge = GPICAP_TYPE_MO /\ get_client_id_from_badge badge = client /\
    get_object_id_from_badge badge = object_id n;
  sr_object : object_id n <> BADGE_OBJ_ID_NULL;
  sr_type : resource_type (mo_component (gs_server (kernel p))) = GPICAP_TYPE_MO;
  sr_last : last_mo (gs_server (kernel p)) n objs;
  sr_ok : res_ok (mo_res (gs_server (kernel p)) n);
  sr_client : live_pd (gs_server (kernel p)) client b e1;
  sr_rt : live_pd (gs_server (kernel p)) (rt_pd_id (gs_server (kernel p))) a e1';
  sr_ne : client <> rt_pd_id (gs_server (kernel p)) /\ a <> b;
  sr_sole : sole_holder (gs_server (kernel p)) n e1 h cap;
  sr_held : h' ∈ head (hold_registry (pd e1')) /\ object_id h' = compact (mo_res (gs_server (kernel p)) n)
}.

Lemma disconnect_run p client (conn : conn_t) n objs a e1 e1' h h' :
  sole_reference p client (conn_ep conn) n objs a e1 e1' h h' ->
  exists s' len e2 e2', mo_component_client_disconnect N conn p =
      (Ok 0, after_call len (receive_slot (kernel p)) s' p) /\
    mo_disconnected (received (receive_slot (kernel p)) (gs_server (kernel p))) client (conn_ep conn) n objs
      b a e1 e1' s' e2 e2'.
Proof.
  intros [Hbadge Hnull Hmo Hlast Hok Hcl Hrt [Hne Hab] Hsole [Hin Ek]].
  destruct Hbadge as (Htype & <- & Hobj). set (slot := receive_slot (kernel p)).
  set (s := gs_server (kernel p)) in *. set (cap := conn_ep conn) in *. set (badge := badge_at s cap) in *.
  destruct (mo_disconnect_run sys P d (received slot s) badge cap n objs b a e1 e1' h h')
    as (s' & e2 & e2' & Hrun & Hdi); try done;
    [by destruct Hlast|by apply (live_pd_same s)|by apply (live_pd_same s)|by destruct Hsole|].
  destruct Henc_disconnect as [words Hw]. destruct Hans_disconnect as [answer Ha].
  destruct (call_run sys P depth K N (client_vka (pd e)) encode_reply Hsys HN p MoComponent cap MO_RPC_MAGIC
    MoDisconnect [] words answer (replied 0 MoBasicReturn) s') as (len & slot' & l & Hcall & Hl); try done.
  - fold s badge. unfold component_of_badge. by rewrite Htype.
  - fold s badge. cbn [request_handler]. unfold mo_component_handle.
    rewrite Z.eqb_refl, Hobj, (proj2 (Z.eqb_neq _ _) Hnull). exact Hrun.
  - destruct Hl as [-> ->]; [done|]. exists s', len, e2, e2'. split; [|done].
    unfold mo_component_client_disconnect. eapply stub_command_run. exact Hcall.
Qed.

(** after an allocation the new capability is the only reference *)
Lemma connected_sole s p client a e' args s1 len slot id cap fs e1 e1' free :
  mo_allocated sys (received slot s) client b e a e' args s1 id cap fs e1 e1' ->
  mo_ready s free -> on_delete (rc_registry (mo_component s)) = Some CbMo -> obj_ok client ->
  to_delete (pd e) = false -> client <> rt_pd_id s -> a <> b ->
  exists h h', sole_reference (after_call len slot s1 p) client cap
    (new_node (received slot s) args id fs) (fst <$> fs) a e1 e1' h h'.
Proof.
  intros Hal Hready Hcb Hc Halive Hne Hab.
  pose proof (new_node_res _ _ _ _ _ _ _ _ _ _ _ _ _ _ Hal (mr_type _ _ Hready)) as Er.
  pose proof (new_node_last _ _ _ _ _ _ _ _ _ _ _ _ _ _ Hal Hcb) as Hlast.
  pose proof Hal as [Hid _ _ _ _ (Emo & _ & Ert) _ _ _ Hl1 _ _ Hl1' _ (l & Ecap & Elog) _].
  assert (cap <> CapNull) as Hcap by (rewrite Ecap; apply Hslots).
  destruct (new_node_sole _ _ _ _ _ _ _ _ _ _ _ _ _ _ Hal (mr_type _ _ Hready) Halive Hcap) as (h & Hsole).
  destruct (new_node_rt _ _ _ _ _ _ _ _ _ _ _ _ _ _ Hal (mr_type _ _ Hready)) as (h' & Hin & Ek).
  set (n := new_node (received slot s) args id fs) in *. set (p1 := after_call len slot s1 p).
  pose proof (res_ok_mo s id (mr_space _ _ Hready) Hid) as Hok.
  destruct (badge_of_fields GPICAP_TYPE_MO client (space_id (mo_component s)) id (proj1 Hok) Hc
    (proj1 (proj2 Hok)) (proj2 (proj2 Hok))) as (Bt & _ & _ & Bc & Bo).
  assert (badge_at (gs_server (kernel p1)) cap =
    badge_of GPICAP_TYPE_MO client (space_id (mo_component s)) id) as Ebadge.
  { unfold badge_in. cbn [gs_server kernel p1 after_call set_kernel].
    change (log (sent len s1)) with ((ApiReply, [len]) :: (PbEncode, []) :: log s1).
    rewrite Elog. apply (HK [(ApiReply, [len]); (PbEncode, []); (Calloc, [])]). reflexivity. }
  exists h, h'. split; change (gs_server (kernel p1)) with (sent len s1) in *.
  - by rewrite Ebadge.
  - intros E. change (id = BADGE_OBJ_ID_NULL) in E. lia.
  - change (resource_type (mo_component s1) = GPICAP_TYPE_MO). rewrite Emo. apply Hready.
  - by destruct Hlast.
  - change (res_ok (mo_res s1 n)). by rewrite Er.
  - by apply (live_pd_same s1).
  - change (rt_pd_id (sent len s1)) with (rt_pd_id s1). rewrite Ert. by apply (live_pd_same s1).
  - change (rt_pd_id (sent len s1)) with (rt_pd_id s1). by rewrite Ert.
  - by destruct Hsole.
  - done.
Qed.
End Client.

(** C3: a client that asks for a memory object and gives it back finds everything as
    it was.  Through the stubs, the encoding of messages, the server's loop, the
    registries and the deletion callbacks: the first call yields a fresh object with
    exactly the frames that the allocator handed out meanwhile, one for each page,
    and a capability to it; the second one, on this capability, succeeds and calls
    the kernel and the allocators for these things and no others: it receives the
    message, revokes and deletes the client's capability, frees each of those frames
    once and in order, then the three arrays, and replies.  It leaves the registry of
    memory objects and what the client and the root task hold as before the first.
    No call to the kernel fails, and the messages fit their buffers. *)
Theorem mo_connect_disconnect_restores p ep num_pages page_bits paddr free b a e e'
  (Hep : get_cap_type_from_badge (badge_in K (client_vka (pd e)) (gs_server (kernel p)) ep) = GPICAP_TYPE_MO /\
         get_object_id_from_badge (badge_in K (client_vka (pd e)) (gs_server (kernel p)) ep) = BADGE_OBJ_ID_NULL)
  (Hready : mo_ready (gs_server (kernel p)) free)
  (Hcb : on_delete (rc_registry (mo_component (gs_server (kernel p)))) = Some CbMo)
  (Hargs : args_ok (MoNewArgs num_pages page_bits paddr))
  (Hclient : mo_client (gs_server (kernel p))
     (get_client_id_from_badge (badge_in K (client_vka (pd e)) (gs_server (kernel p)) ep)) b e)
  (Halive : to_delete (pd e) = false) (Hrt : mo_client (gs_server (kernel p)) (rt_pd_id (gs_server (kernel p))) a e')
  (Hne : get_client_id_from_badge (badge_in K (client_vka (pd e)) (gs_server (kernel p)) ep)
           <> rt_pd_id (gs_server (kernel p)) /\ a <> b) :
  let s := gs_server (kernel p) in
  let client := get_client_id_from_badge (badge_in K (client_vka (pd e)) s ep) in
  let to_server := gpi_kernel sys P (S (S (S d))) K (client_vka (pd e)) encode_reply in
  exists conn fs p1 p2 e2 e2' len,
    mo_connect N ep num_pages page_bits paddr p = (Ok (0, Some conn), p1) /\
    reg_abs (rc_registry (mo_component s)) !! conn_id conn = None /\
    reg_abs (rc_registry (mo_component (gs_server (kernel p1)))) =
      <[conn_id conn := (1, new_mo (MoNewArgs num_pages page_bits paddr) fs (conn_id conn))]>
        (reg_abs (rc_registry (mo_component s))) /\
    Z.of_nat (length fs) = num_pages /\
    handed_out sys (log (gs_server (kernel p1))) = handed_out sys (log s) ++ (fst <$> fs) /\
    mo_component_client_disconnect N conn p1 = (Ok 0, p2) /\
    log (gs_server (kernel p2)) =
      [(ApiReply, [len]); (PbEncode, []); (Free, []); (Free, []); (Free, [])] ++
      rev ((fun f => (VkaFreeObject, [fst f])) <$> fs) ++
      [(VkaCnodeDelete, [pd_vka (pd e); conn_ep conn]); (VkaCnodeRevoke, [pd_vka (pd e); conn_ep conn]);
       (Recv, []); (SetReceivePath, [receive_slot (kernel p)])] ++ log (gs_server (kernel p1)) /\
    reg_abs (rc_registry (mo_component (gs_server (kernel p2)))) = reg_abs (rc_registry (mo_component s)) /\
    live_pd (gs_server (kernel p2)) client b e2 /\ holds e2 = holds e /\
    live_pd (gs_server (kernel p2)) (rt_pd_id s) a e2' /\ holds e2' = holds e'.
Proof.
  intros s client to_server. destruct Hep as [Htype Hobj], Hne as [Hne Hab].
  destruct (connect_run b e p ep num_pages page_bits paddr free a e' Htype Hobj Hready Hargs Hclient Hrt Hne Hab)
    as (s1 & len1 & id & cap & fs & e1 & e1' & Hconnect & Hal). fold s client in Hal.
  set (slot := receive_slot (kernel p)) in *. set (p1 := after_call len1 slot s1 p) in *.
  destruct (connected_sole b e s p client a e' _ s1 len1 slot id cap fs e1 e1' free Hal Hready Hcb
    (client_id_ok _) Halive Hne Hab) as (h & h' & Hsole).
  pose proof (new_node_res _ _ _ _ _ _ _ _ _ _ _ _ _ _ Hal (mr_type _ _ Hready)) as Er.
  destruct Hal as [Hid Hnew _ _ _ (_ & _ & Ert) Habs Hlen _ _ Ee1 Hh1 _ Hh1' _ Hout].
  unfold received in Hout. cbn [log called set_log] in Hout. rewrite !handed_out_other in Hout by done.
  set (n := new_node (received slot s) (MoNewArgs num_pages page_bits paddr) id fs) in *.
  destruct (disconnect_run b e p1 client (Conn id cap) n (fst <$> fs) a e1 e1' h h' Hsole)
    as (s2 & len2 & e2 & e2' & Hdisc & [Hlog2 Habs2 Hl2 Hh2 Hl2' Hh2']).
  change (mo_res _ n) with (mo_res s1 n) in Hh2, Hh2'. rewrite Er in Hh2, Hh2'.
  exists (Conn id cap), fs, p1, (after_call len2 (receive_slot (kernel p1)) s2 p1), e2, e2', len2.
  split; [done|]. split; [done|]. split; [exact Habs|]. split; [done|].
  split; [|split; [done|split; [|split; [|split; [|split; [|split]]]]]].
  + transitivity (handed_out sys ((ApiReply, [len1]) :: (PbEncode, []) :: log s1)); [reflexivity|].
    by rewrite !handed_out_other.
  + transitivity ((ApiReply, [len2]) :: (PbEncode, []) :: log s2); [reflexivity|]. rewrite Hlog2.
    rewrite <- list_fmap_compose. by rewrite Ee1.
  + change (reg_abs (rc_registry (mo_component s2)) = reg_abs (rc_registry (mo_component s))).
    rewrite Habs2. change (mo_component (received _ _)) with (mo_component s1). rewrite Habs.
    by rewrite delete_insert_id.
  + by apply (live_pd_same s2).
  + rewrite Hh2, Hh1. rewrite delete_insert_id; [done|]. by apply Hclient.
  + change (rt_pd_id (received _ _)) with (rt_pd_id s1) in Hl2'. rewrite Ert in Hl2'. by apply (live_pd_same s2).
  + rewrite Hh2', Hh1'. rewrite delete_insert_id; [done|]. by apply Hrt.
Qed.
End RoundTrip.

(** ** Witnesses: the PD 1 asks for two pages at physical address 0x8000 *)
Section EndToEndWitnesses.

(** messages to the memory object component, a word for each field *)
Definition demo_nanopb : nanopb :=
  Nanopb
    (fun c => match c return Z * request c -> option (list Z) with
              | MoComponent => fun m => match m with
                  | (magic, MoAlloc n bits paddr) => Some [magic; n; bits; paddr]
                  | (magic, MoDisconnect) => Some [magic]
                  | _ => None
                  end
              | _ => fun _ => None
              end)
    (fun c words => match c return option (Z * return_message c) with
              | MoComponent => match words with
                  | [e; id; slot] => Some (e, MoAllocReturn id slot)
                  | [e] => Some (e, MoBasicReturn)
                  | _ => None
                  end
              | _ => None
              end).
Definition demo_decode (c : component) (words : list Z) : option (Z * request c) :=
  match c return option (Z * request c) with
  | MoComponent => match words with
      | [magic; n; bits; paddr] => Some (magic, MoAlloc n bits paddr)
      | [magic] => Some (magic, MoDisconnect)
      | _ => None
      end
  | _ => None
  end.
Definition demo_reply (c : component) : Z * return_message c -> option (list Z) :=
  match c return Z * return_message c -> option (list Z) with
  | MoComponent => fun m => match m with
      | (e, MoAllocReturn id slot) => Some [e; id; slot]
      | (e, MoBasicReturn) => Some [e]
      | _ => None
      end
  | _ => fun _ => None
  end.
Lemma demo_nanopb_ok : nanopb_ok (platform_with demo_decode) demo_nanopb demo_reply.
Proof.
  split; intros [] [z m] words; simpl; try done; destruct m; intros E; simplify_eq/=; reflexivity.
Qed.

(** the last badge that was minted into a slot; the slot 5 has the endpoint that
    allocates memory objects *)
Fixpoint last_minted (l : list xcall) (vka slot : Z) : Z :=
  match l with
  | [] => if slot =? 5 then badge_of GPICAP_TYPE_MO 1 4 BADGE_OBJ_ID_NULL else 0
  | (VkaCnodeMint, [vka'; slot'; _; _; badge]) :: l =>
      if (vka' =? vka) && (slot' =? slot) then badge else last_minted l vka slot
  | _ :: l => last_minted l vka slot
  end.
Definition demo_seL4 : seL4 := SeL4 last_minted (fun _ _ _ => Ipc 0 []).
Lemma demo_seL4_mints : mints_badges demo_seL4.
Proof.
  intros after vka slot src ep badge before. induction after as [|[f args] after IH]; simpl.
  - by rewrite !Z.eqb_refl.
  - destruct f; simpl; try discriminate; exact IH.
Qed.

Definition demo_process : process gpi_system unit :=
  Process (GpiSystem alloc_server 3) shared_zero 0 (fun _ => 0) tt.
Definition demo_kernel : Kernel gpi_system :=
  gpi_kernel sys_demo (platform_with demo_decode) 3 demo_seL4 50 demo_reply.

(** the allocation in the server, for any hash table *)
Lemma demo_allocation_run `{UTHash} : exists id cap s1,
  handle_mo_allocation_request sys_demo (badge_of GPICAP_TYPE_MO 1 4 BADGE_OBJ_ID_NULL) 2 12 0x8000
    (received 3 alloc_server) = (Ok (replied 0 (MoAllocReturn id cap)), s1).
Proof.
  destruct (mo_allocation_run sys_demo ltac:(done) (received 3 alloc_server) 2
    (badge_of GPICAP_TYPE_MO 1 4 BADGE_OBJ_ID_NULL) 2 12 0x8000 9 8 (payload (empty_holder 1 9))
    (payload (empty_holder 0 8))) as (s1 & id & cap & fs & e1 & e1' & Hrun & _); try done.
  - by destruct alloc_server_ready.
  - destruct (alloc_server_client 1 9) as [Hl Ha Hh]; [right; by left|]. split;
      [by apply (live_pd_same alloc_server)|done..].
  - destruct (alloc_server_client 0 8) as [Hl Ha Hh]; [by left|]. split; [by apply (live_pd_same alloc_server)|done..].
  - by exists id, cap, s1.
Qed.

Lemma rpc_transparent_witness :
  exists id cap l slot' s1,
    component_call (Kernel0 := demo_kernel) demo_nanopb MoComponent 5 (MO_RPC_MAGIC, MoAlloc 2 12 0x8000) []
      demo_process =
      (Ok (0, Some (0, MoAllocReturn id cap)), set_kernel (GpiSystem (set_log (l ++ log s1) s1) slot') demo_process).
Proof.
  destruct demo_allocation_run as (id & cap & s1 & Hrun). exists id, cap.
  destruct (rpc_transparent sys_demo (platform_with demo_decode) 3 demo_seL4 demo_nanopb 50 demo_reply
    ltac:(intros; exact eq_refl) demo_nanopb_ok demo_process MoComponent 5 MO_RPC_MAGIC (MoAlloc 2 12 0x8000) []
    [MO_RPC_MAGIC; 2; 12; 0x8000] [0; id; cap] (replied 0 (MoAllocReturn id cap)) s1) as (l & slot' & E & _);
    [reflexivity|reflexivity| |reflexivity|reflexivity|].
  { change (badge_in _ _ _ _) with (badge_of GPICAP_TYPE_MO 1 4 BADGE_OBJ_ID_NULL).
    cbn [request_handler]. unfold mo_component_handle. rewrite Z.eqb_refl.
    replace (get_object_id_from_badge _ =? _) with true by (by vm_compute). exact Hrun. }
  exists l, slot', s1. exact E.
Defined.

Lemma mo_connect_disconnect_restores_witness :
  exists conn (fs : list (Z * Z)) p1 p2,
    mo_connect (Kernel0 := demo_kernel) demo_nanopb 5 2 12 0x8000 demo_process = (Ok (0, Some conn), p1) /\
    Z.of_nat (length fs) = 2 /\
    mo_component_client_disconnect (Kernel0 := demo_kernel) demo_nanopb conn p1 = (Ok 0, p2) /\
    reg_abs (rc_registry (mo_component (gs_server (kernel p2)))) =
      reg_abs (rc_registry (mo_component alloc_server)).
Proof.
  destruct (mo_connect_disconnect_restores sys_demo (platform_with demo_decode) 0 demo_seL4 demo_nanopb demo_reply
    ltac:(done) ltac:(intros l vka; unfold sys_demo, CapNull; simpl; lia) demo_nanopb_ok demo_seL4_mints
    ltac:(by eexists) ltac:(by eexists) ltac:(by eexists) ltac:(by eexists) demo_process 5 2 12 0x8000 2 9 8
    (payload (empty_holder 1 9)) (payload (empty_holder 0 8)))
    as (conn & fs & p1 & p2 & e2 & e2' & len & H1 & _ & _ & Hlen & _ & H2 & _ & Habs & _).
  - by split.
  - exact alloc_server_ready.
  - reflexivity.
  - split; [simpl; lia|]. split; simpl; lia.
  - apply (alloc_server_client 1 9). right. by left.
  - reflexivity.
  - apply (alloc_server_client 0 8). by left.
  - split; [by vm_compute|done].
  - exists conn, fs, p1, p2. split; [exact H1|]. split; [exact Hlen|]. split; [exact H2|exact Habs].
Defined.
End EndToEndWitnesses.
