(* ===== verification/PdUtils.v ===== *)
(** * What a PD knows of itself

    Model of [libsel4gpi/src/pd_utils.c]: the data that the GPI server shares with a
    PD (its connections, its resource directory, the names of the resource types),
    the slot in which a server saves the reply capability of the request it is
    working on, and the helpers that allocate memory and endpoints with the client
    library.  Printing is left out. *)

From stdpp Require Import base numbers list gmap.
From S2P Require Import Prelude Strings Badge Registry State ResourceTypes Component PdResources Resspc Mo Ads AdsRequests Elf Cpu PdObj PdComponent Ep Server Client.

Section PdUtils.
Context {K A : Type} `{!Kernel K} (N : nanopb).
(** seL4_LargePageBits and SEL4UTILS_RES_TYPE_GENERIC *)
Context (MO_LARGE_PAGE_BITS SEL4UTILS_RES_TYPE_GENERIC : Z).
Abbreviation P := (M (process K A)).

(** ** The shared data *)
Definition sel4gpi_get_shared_data : P osm_pd_shared_data_t := gets my_shared_data.
Definition shared_modify (f : osm_pd_shared_data_t -> osm_pd_shared_data_t) : P unit :=
  modify (fun p => set_my_shared_data (f (my_shared_data p)) p).

Definition sel4gpi_get_pd_conn : P conn_t := d ← sel4gpi_get_shared_data; mret (pd_conn d).
Definition sel4gpi_get_ads_conn : P conn_t := d ← sel4gpi_get_shared_data; mret (ads_conn d).
Definition sel4gpi_get_cpu_conn : P conn_t := d ← sel4gpi_get_shared_data; mret (cpu_conn d).
Definition sel4gpi_get_fault_ep_conn : P conn_t := d ← sel4gpi_get_shared_data; mret (fault_ep_conn d).
Definition sel4gpi_get_binded_ads_id : P Z := d ← sel4gpi_get_shared_data; mret (conn_id (ads_conn d)).
Definition sel4gpi_get_cspace_root : P Z := d ← sel4gpi_get_shared_data; mret (sd_cspace_root d).

(** the loop over the names of the types, from code [i] *)
Fixpoint type_code_loop (type_name : list Z) (i : Z) (names : list (list Z)) : P Z :=
  match names with
  | [] => mret GPICAP_TYPE_NONE
  | name :: names =>
      same ← lift_result (strcmp_eq type_name name);
      if same : bool then mret i else type_code_loop type_name (i + 1) names
  end.
Definition sel4gpi_get_resource_type_code (type_name : list Z) : P Z :=
  d ← sel4gpi_get_shared_data; type_code_loop type_name 0 (type_names d).

(** the test lets the code GPICAP_TYPE_MAX through *)
Definition sel4gpi_get_resource_type_name (type : Z) : P (list Z) :=
  if (type <? 0) || (GPICAP_TYPE_MAX <? type) then mret name_NONE
  else
    d ← sel4gpi_get_shared_data;
    match type_names d !! Z.to_nat type with
    | Some name => mret name
    | None => crash OutOfBounds
    end.

(** an entry of the directory: both indices are unchecked in the code *)
Definition rde_at (type : Z) (i : nat) : P osmosis_rde_t :=
  d ← sel4gpi_get_shared_data;
  match (if 0 <=? type then rde d !! Z.to_nat type else None) ≫= (fun row => row !! i) with
  | Some e => mret e
  | None => crash OutOfBounds
  end.

Definition sel4gpi_get_rde (type : Z) : P Z :=
  if type =? GPICAP_TYPE_NONE then mret CapNull
  else e ← rde_at type 0; mret (rde_slot_in_PD e).
Definition sel4gpi_get_default_space_id (type : Z) : P Z :=
  e ← rde_at type 0; mret (rde_space_id e).

Definition sel4gpi_can_request_type (type_name : list Z) : P bool :=
  cap_type ← sel4gpi_get_resource_type_code type_name;
  if cap_type =? GPICAP_TYPE_NONE then mret false
  else slot ← sel4gpi_get_rde cap_type; mret (negb (slot =? CapNull)).

(** the loop over the [todo] entries of the row from index [i] *)
Fixpoint rde_space_loop (type space_id : Z) (i todo : nat) : P Z :=
  match todo with
  | O => mret CapNull
  | S todo =>
      e ← rde_at type i;
      if rde_space_id e =? space_id then mret (rde_slot_in_PD e)
      else rde_space_loop type space_id (S i) todo
  end.
Definition sel4gpi_get_rde_by_space_id (space_id type : Z) : P Z :=
  assert_ (negb (type =? GPICAP_TYPE_NONE) && negb (type =? GPICAP_TYPE_MAX)) ;;
  if space_id =? BADGE_SPACE_ID_NULL then sel4gpi_get_rde type
  else rde_space_loop type space_id 0 MAX_NS_PER_RDE.
Definition sel4gpi_get_bound_vmr_rde : P Z :=
  id ← sel4gpi_get_binded_ads_id; sel4gpi_get_rde_by_space_id id GPICAP_TYPE_VMR.

(** ** The reply capability of the request in work *)

(** the error of the kernel is ignored *)
Definition sel4gpi_store_reply_cap : P unit :=
  slot ← gets reply_cap_slot;
  _ ← syscall (k_save_caller slot);
  shared_modify (set_reply_cap slot).
Definition sel4gpi_get_reply_cap : P Z := d ← sel4gpi_get_shared_data; mret (reply_cap d).
Definition sel4gpi_clear_reply_cap : P unit :=
  pd ← sel4gpi_get_pd_conn;
  shared_modify (set_reply_cap CapNull) ;;
  slot ← gets reply_cap_slot;
  if slot =? CapNull then
    r ← pd_client_next_slot N pd;
    match snd r with
    | Some slot => modify (set_reply_cap_slot slot)
    | None => mret tt
    end
  else _ ← pd_client_clear_slot N pd slot; mret tt.

(** the exit callback of the C runtime *)
Definition sel4gpi_exit_cb (code : Z) : P unit :=
  pd ← sel4gpi_get_pd_conn; pd_client_exit N pd code.

(** ** Memory and endpoints *)

(** [None] is a context that the library left unset *)
Definition deref_conn {B} (o : option B) : P B :=
  match o with Some b => mret b | None => crash Uninitialized end.

(** the address (0 is NULL), and the memory object once it is mapped *)
Definition get_vmr (vmr_rde num_pages vaddr vmr_type page_bits paddr : Z) : P (Z * option conn_t) :=
  if num_pages <=? 0 then mret (0, None) else
  if negb (page_bits =? seL4_PageBits) && negb (page_bits =? MO_LARGE_PAGE_BITS) then mret (0, None) else
  mo_rde ← sel4gpi_get_rde GPICAP_TYPE_MO;
  if mo_rde =? CapNull then mret (0, None) else
  r ← (if negb (paddr =? 0) then mo_component_client_connect_paddr N mo_rde num_pages page_bits paddr
       else mo_component_client_connect N mo_rde num_pages page_bits);
  let '(error, mo) := r : Z * option conn_t in
  if negb (error =? 0) then mret (0, None) else
  mo ← deref_conn mo;
  r ← vmr_client_attach_no_reserve N vmr_rde vaddr mo vmr_type;
  let '(error, new_vaddr) := r : Z * option Z in
  if negb (error =? 0) then mret (0, None) else
  new_vaddr ← deref_conn new_vaddr;
  mret (new_vaddr, Some mo).
Definition sel4gpi_get_vmr (vmr_rde num_pages vaddr vmr_type page_bits : Z) : P (Z * option conn_t) :=
  get_vmr vmr_rde num_pages vaddr vmr_type page_bits 0.
Definition sel4gpi_get_vmr_at_paddr (vmr_rde num_pages vaddr vmr_type page_bits paddr : Z)
  : P (Z * option conn_t) :=
  get_vmr vmr_rde num_pages vaddr vmr_type page_bits paddr.

Definition sel4gpi_destroy_vmr (vmr_rde vaddr : Z) (mo : conn_t) : P Z :=
  error ← vmr_client_delete_by_vaddr N vmr_rde vaddr;
  if negb (error =? 0) then mret error else mo_component_client_disconnect N mo.

Definition sel4gpi_alloc_endpoint : P (Z * option ep_conn_t) :=
  ep_rde ← sel4gpi_get_rde GPICAP_TYPE_EP;
  if ep_rde =? CapNull then mret (1, None) else ep_component_client_connect N ep_rde.

(** [dest_vaddr] is NULL unless the attachment succeeded; the error of the
    detachment is only printed *)
Definition sel4gpi_copy_data_to_mo (vaddr size_bytes : Z) (dest_mo : conn_t) : P Z :=
  vmr_rde ← sel4gpi_get_bound_vmr_rde;
  r ← vmr_client_attach_no_reserve N vmr_rde 0 dest_mo SEL4UTILS_RES_TYPE_GENERIC;
  let '(error, dest_vaddr) := r : Z * option Z in
  if (default 0 dest_vaddr =? 0) || negb (error =? 0) then mret 1 else
  let dest_vaddr := default 0 dest_vaddr in
  memcpy dest_vaddr vaddr size_bytes ;;
  _ ← vmr_client_delete_by_vaddr N vmr_rde dest_vaddr;
  mret 0.
End PdUtils.

(** ** Calls that only answer *)

(** a kernel whose calls change nothing of it, such as one in which the GPI server is not
    modelled *)
Section PureCalls.
Context {K A : Type} `{!Kernel K} (N : nanopb) (gpi : Z -> list Z -> list Z -> Z * list Z).
Hypothesis Hpure : forall ep words caps k, k_call ep words caps k = (Ok (gpi ep words caps), k).
Implicit Types (p : process K A).

Lemma set_kernel_same p : set_kernel (kernel p) p = p.
Proof. by destruct p. Qed.
Lemma clear_slot_run conn slot p : exists error, pd_client_clear_slot N conn slot p = (Ok error, p).
Proof.
  unfold pd_client_clear_slot, pd_command, command, transact, component_call, sel4gpi_rpc_call.
  destruct (encode_request N _ _) as [words|]; [|by eexists].
  rewrite !bind_assoc. erewrite bind_ok. 2:{ unfold syscall. rewrite Hpure, set_kernel_same. reflexivity. }
  destruct (gpi _ _ _) as [label reply].
  destruct (label =? 0); simpl; [|by eexists]. destruct (decode_reply N _ reply) as [[? ?]|]; by eexists.
Qed.
Lemma clear_reply_run p : reply_cap_slot p <> CapNull ->
  sel4gpi_clear_reply_cap N p = (Ok tt, set_my_shared_data (set_reply_cap CapNull (my_shared_data p)) p).
Proof.
  intros Hslot. unfold sel4gpi_clear_reply_cap. erewrite bind_ok by reflexivity.
  erewrite bind_ok by reflexivity. erewrite bind_ok by reflexivity. simpl.
  rewrite (proj2 (Z.eqb_neq _ _) Hslot).
  destruct (clear_slot_run (pd_conn (my_shared_data p)) (reply_cap_slot p)
    (set_my_shared_data (set_reply_cap CapNull (my_shared_data p)) p)) as [error E].
  by rewrite (bind_ok _ _ _ _ _ E).
Qed.
End PureCalls.

(** ** Properties: the directory, as the PD and the server see it *)
Section Directory.
Context {K A : Type} `{UTHash}.
Implicit Types (p : process K A) (s : server).

Lemma rde_at_run p type row i e : 0 <= type -> rde (my_shared_data p) !! Z.to_nat type = Some row ->
  row !! i = Some e -> rde_at type i p = (Ok e, p).
Proof.
  intros Ht Hrow He. unfold rde_at. erewrite bind_ok by reflexivity.
  rewrite (proj2 (Z.leb_le 0 type) Ht), Hrow. simpl. by rewrite He.
Qed.

Lemma rde_space_loop_run p type space_id row todo : 0 <= type ->
  rde (my_shared_data p) !! Z.to_nat type = Some row -> forall i, length row = (i + todo)%nat ->
  space_id <> BADGE_SPACE_ID_NULL ->
  rde_space_loop type space_id i todo p =
    (Ok (default CapNull (rde_slot_in_PD <$> (rde_find type space_id i (drop i row) ≫= (row !!.)))), p).
Proof.
  intros Ht Hrow. induction todo as [|todo IH]; intros i Hlen Hsp; simpl.
  - by rewrite drop_ge by lia.
  - destruct (lookup_lt_is_Some_2 row i) as [e He]; [lia|].
    rewrite (bind_ok _ _ _ _ _ (rde_at_run p type row i e Ht Hrow He)).
    rewrite (drop_S row e i He). simpl. rewrite (proj2 (Z.eqb_neq _ _) Hsp). simpl.
    destruct (rde_space_id e =? space_id); [simpl; by rewrite He|]. apply IH; [lia|done].
Qed.

(** C36: a PD and the server agree on its resource directory: the slot that the PD's
    library finds for a type and a space is that of the entry the server finds,
    and the null slot when the server finds none. *)
Theorem directory_agrees s p a e type space_id row (He : pd_at s a e) (Ha : attached e)
  (Hshared : my_shared_data p = shared (pd e)) (Hrow : row_at e type row)
  (Hlen : length row = MAX_NS_PER_RDE) (Htype : 0 < type < GPICAP_TYPE_MAX)
  (Hspace : space_id <> BADGE_SPACE_ID_NULL) :
  exists o, pd_rde_get a type space_id s = (Ok o, s) /\
    sel4gpi_get_rde_by_space_id space_id type p = (Ok (default CapNull (rde_slot_in_PD <$> o)), p).
Proof.
  exists (idx ← rde_find type space_id 0 row; row !! idx). split; [by apply (pd_rde_get_run s a e)|].
  unfold sel4gpi_get_rde_by_space_id, assert_.
  rewrite (proj2 (Z.eqb_neq type GPICAP_TYPE_NONE)), (proj2 (Z.eqb_neq type GPICAP_TYPE_MAX)) by
    (unfold GPICAP_TYPE_NONE; lia).
  erewrite bind_ok by reflexivity. rewrite (proj2 (Z.eqb_neq _ _) Hspace).
  rewrite (rde_space_loop_run p type space_id row MAX_NS_PER_RDE) with (i := 0%nat); [done|lia| |by rewrite Hlen|done].
  by rewrite Hshared.
Qed.

(** ... but not for the default directory: when the first entry of a type was
    removed and another is left, the server finds the other one and the PD none. *)
Lemma default_directory_differs s p a e type row e0 e1 : pd_at s a e -> attached e ->
  my_shared_data p = shared (pd e) -> row_at e type row -> 0 < type ->
  row !! 0%nat = Some e0 -> rde_type e0 <> type -> rde_space_id e0 <> BADGE_SPACE_ID_NULL ->
  row !! 1%nat = Some e1 -> rde_type e1 = type ->
  pd_rde_get a type BADGE_SPACE_ID_NULL s = (Ok (Some e1), s) /\
  sel4gpi_get_rde type p = (Ok (rde_slot_in_PD e0), p).
Proof.
  intros He Ha Hsh Hrow Ht H0 Hn0 Hs0 H1 E1. destruct row as [|r0 [|r1 row]]; try done.
  injection H0 as ->. injection H1 as ->. split.
  - rewrite (pd_rde_get_run s a e _ _ _ He Ha Hrow). simpl.
    rewrite (proj2 (Z.eqb_neq _ _) Hn0), (proj2 (Z.eqb_neq _ _) Hs0). simpl. by rewrite (proj2 (Z.eqb_eq _ _) E1).
  - unfold sel4gpi_get_rde. rewrite (proj2 (Z.eqb_neq type GPICAP_TYPE_NONE)) by (unfold GPICAP_TYPE_NONE; lia).
    by rewrite (bind_ok _ _ _ _ _ (rde_at_run p type (e0 :: e1 :: row) 0 e0 ltac:(lia)
      ltac:(by rewrite Hsh) eq_refl)).
Qed.

(** ** Properties: the codes of types *)

(** the test of a type's code lets the number of types through: the name of
    that type is read past the end of the table. *)
Theorem type_name_past_the_table p (Hnames : length (type_names (my_shared_data p)) = Z.to_nat GPICAP_TYPE_MAX) :
  stops (sel4gpi_get_resource_type_name GPICAP_TYPE_MAX) p OutOfBounds.
Proof.
  exists p. unfold sel4gpi_get_resource_type_name. rewrite Z.ltb_irrefl. simpl.
  erewrite bind_ok by reflexivity. by rewrite lookup_ge_None_2 by (rewrite Hnames; lia).
Qed.
End Directory.

(** ** Witnesses *)
Section PdUtilsWitnesses.
(** a PD whose kernel is never called *)
Definition process_demo (d : osm_pd_shared_data_t) : process unit unit := Process tt d 0 (fun _ => 0) tt.

Lemma directory_agrees_witness :
  exists o, pd_rde_get 9 GPICAP_TYPE_MO 4 server_demo = (Ok o, server_demo) /\
    sel4gpi_get_rde_by_space_id 4 GPICAP_TYPE_MO (process_demo shared_demo) =
      (Ok (default CapNull (rde_slot_in_PD <$> o)), process_demo shared_demo).
Proof.
  apply (directory_agrees server_demo (process_demo shared_demo) 9 entry_demo GPICAP_TYPE_MO 4 row_demo);
    [exact pd_at_demo|exact attached_demo|reflexivity|reflexivity|reflexivity|by vm_compute|by vm_compute].
Defined.

Lemma type_name_past_the_table_witness :
  stops (sel4gpi_get_resource_type_name GPICAP_TYPE_MAX) (process_demo shared_zero) OutOfBounds.
Proof. apply type_name_past_the_table. reflexivity. Defined.
End PdUtilsWitnesses.
