(* ===== verification/ResourceServer.v ===== *)
(** * Resource servers

    Model of [libsel4gpi/src/resource_server_utils.c]: what a PD that serves
    resources of its own is built from.  Such a server registers a resource space
    with the GPI server, tells its parent about it, and then answers messages from
    clients; when it is woken by a notification it fetches the work that the GPI
    server has queued for it until there is none.

    The callbacks of a server ([init_fn], [request_handler], [work_handler]) and the
    place of its context in the state of its program are variables of the section;
    the file Ramdisk is an instance.  The model state of an extraction lives in the
    memory object that the server attaches; what is stored there is passed along. *)

From stdpp Require Import base numbers list gmap.
From S2P Require Import Prelude Strings Badge Registry State ResourceTypes ModelExport Component PdResources Resspc Mo Ads AdsRequests Elf Cpu PdObj PdComponent Ep Server Client PdUtils.

(** resource_server_context_t, less the callbacks and the RPC environment *)
Record resource_server_context_t := RsContext {
  resource_type_name : list Z;
  rs_resource_type : Z;
  default_space : resspc_conn_t;
  parent_pd_id : Z;
  mo_ep : Z;
  resspc_ep : Z;
  parent_ep : ep_conn_t;
  vmr_rde : Z;
  rs_pd_conn : conn_t;
  rs_server_ep : ep_conn_t
}.
Definition set_rs_type_and_space (type : Z) (space : option resspc_conn_t) (c : resource_server_context_t)
  : resource_server_context_t :=
  RsContext (resource_type_name c) type (default (default_space c) space) (parent_pd_id c) (mo_ep c)
    (resspc_ep c) (parent_ep c) (vmr_rde c) (rs_pd_conn c) (rs_server_ep c).
Definition set_parent_ep (ep : ep_conn_t) (c : resource_server_context_t) : resource_server_context_t :=
  RsContext (resource_type_name c) (rs_resource_type c) (default_space c) (parent_pd_id c) (mo_ep c)
    (resspc_ep c) ep (vmr_rde c) (rs_pd_conn c) (rs_server_ep c).
Definition set_rs_server_ep (ep : ep_conn_t) (c : resource_server_context_t) : resource_server_context_t :=
  RsContext (resource_type_name c) (rs_resource_type c) (default_space c) (parent_pd_id c) (mo_ep c)
    (resspc_ep c) (parent_ep c) (vmr_rde c) (rs_pd_conn c) ep.

Section ResourceServer.
Context {K A : Type} `{!Kernel K} (N : nanopb) (SEL4UTILS_RES_TYPE_GENERIC : Z).
Abbreviation P := (M (process K A)).
(** the context in the program of the process *)
Context (gen : A -> resource_server_context_t) (set_gen : resource_server_context_t -> A -> A).

Definition context : P resource_server_context_t := a ← prog; mret (gen a).
Definition context_modify (f : resource_server_context_t -> resource_server_context_t) : P unit :=
  prog_modify (fun a => set_gen (f (gen a)) a).

(** ** Slots *)
Definition resource_server_next_slot : P (Z * option Z) :=
  c ← context; pd_client_next_slot N (rs_pd_conn c).
Definition resource_server_free_slot (slot : Z) : P Z :=
  c ← context; pd_client_free_slot N (rs_pd_conn c) slot.
Definition resource_server_clear_slot (slot : Z) : P Z :=
  c ← context; pd_client_clear_slot N (rs_pd_conn c) slot.

(** ** Memory of clients *)
Definition resource_server_attach_mo (mo_cap : Z) : P (Z * option Z) :=
  if mo_cap =? 0 then mret (1, None) else
  c ← context;
  vmr_client_attach_no_reserve N (vmr_rde c) 0 (Conn 0 mo_cap) SEL4UTILS_RES_TYPE_GENERIC.
Definition resource_server_unattach (vaddr : Z) : P Z :=
  if vaddr =? 0 then mret 1 else
  c ← context; vmr_client_delete_by_vaddr N (vmr_rde c) vaddr.

(** ** Resources *)
Definition resource_server_create_resource (space_conn : option resspc_conn_t) (resource_id : Z) : P Z :=
  c ← context;
  resspc_client_create_resource N (default (default_space c) space_conn) resource_id.
Definition resource_server_give_resource (space_id resource_id client_id : Z) : P (Z * option Z) :=
  c ← context; pd_client_give_resource N (rs_pd_conn c) space_id client_id resource_id.

(** strlen of the array of the type's name: without a terminator it is left *)
Definition name_length_ok (name : list Z) : bool := bool_decide (0 ∈ name).

(** the error code (every error is -1), and [*ret_conn]; the type of the space
    becomes the type of the server *)
Definition resource_server_new_res_space (client_id : Z) : P (Z * option resspc_conn_t) :=
  c ← context;
  if negb (name_length_ok (resource_type_name c)) then crash OutOfBounds else
  r ← resspc_client_connect N (resspc_ep c) (cstring (resource_type_name c)) (rs_server_ep c) client_id;
  let '(error, space_conn) := r : Z * option resspc_conn_t in
  if negb (error =? 0) then mret (-1, None) else
  space_conn ← deref_conn space_conn;
  context_modify (set_rs_type_and_space (resspc_conn_type space_conn) None) ;;
  mret (0, Some space_conn).

(** *** The server's part of an extracted model *)

(** the error code, the memory object, and the address and contents of the model state *)
Definition resource_server_extraction_setup (sizeof_model_state n_pages : Z)
  : P (Z * option conn_t * option (Z * model_state_t)) :=
  let mem_size := u64 (2 ^ MO_PAGE_BITS * n_pages) in
  mo_rde ← sel4gpi_get_rde GPICAP_TYPE_MO;
  r ← mo_component_client_connect N mo_rde n_pages MO_PAGE_BITS;
  let '(error, mo) := r : Z * option conn_t in
  if negb (error =? 0) then mret (error, mo, None) else
  mo ← deref_conn mo;
  r ← resource_server_attach_mo (conn_ep mo);
  let '(error, mem_vaddr) := r : Z * option Z in
  if negb (error =? 0) then mret (error, Some mo, None) else
  mem_vaddr ← deref_conn mem_vaddr;
  mret (0, Some mo, Some (mem_vaddr, init_model_state (Some (u64 (mem_size - sizeof_model_state))))).

(** the model state is sent to the root task and given back; the tables, which are not
    in the shared memory, are dropped first *)
Definition resource_server_extraction_finish (mo : conn_t) (ms : Z * model_state_t) (n_requests : Z)
  : P (Z * model_state_t) :=
  let '(vaddr, ms) := ms in
  let ms := clean_model_state ms in
  pd ← sel4gpi_get_pd_conn;
  error ← pd_client_send_subgraph N pd (Some mo) true n_requests;
  if negb (error =? 0) then mret (error, ms) else
  error ← resource_server_unattach vaddr;
  if negb (error =? 0) then mret (error, ms) else
  error ← mo_component_client_disconnect N mo;
  mret (error, ms).

Definition resource_server_extraction_no_data (n_requests : Z) : P Z :=
  pd ← sel4gpi_get_pd_conn;
  pd_client_send_subgraph N pd None false n_requests.

(** ** The loop of a resource server *)
Context {Request Reply : Type}.
(** nanopb, for the messages of this server *)
Context (decode_request : list Z -> option Request) (encode_reply : Reply -> option (list Z)).
(** the callbacks; the request handler returns the reply and whether the receive
    slot was used *)
Context (init_fn : option (P Z)).
Context (request_handler : Request -> Z -> Z -> P (Reply * bool)).
Context (work_handler : work_t -> P Z).

(** the inner loop: work until there is none; the error code *)
Fixpoint pending_work_loop (fuel : nat) : P Z :=
  match fuel with
  | O => no_fuel
  | S fuel =>
      c ← context;
      r ← pd_client_get_work N (rs_pd_conn c);
      let '(error, work) := r : Z * option work_t in
      if negb (error =? 0) then mret (-1) else
      work ← deref_conn work;
      if (work_action work =? PdWorkAction_NO_WORK)%nat then mret 0
      else _ ← work_handler work; pending_work_loop fuel
  end.

Definition resource_server_reply (reply : list Z) : P unit :=
  cap ← sel4gpi_get_reply_cap; syscall (k_send cap reply).

(** an iteration of the loop of resource_server_main: an error code that is not 0
    ends the loop *)
Definition resource_server_step (fuel : nat) (receive_slot : Z) : P Z :=
  syscall (k_set_receive_path receive_slot) ;;
  c ← context;
  r ← syscall (k_recv (raw_endpoint (rs_server_ep c)));
  let '(sender_badge, words) := r : Z * list Z in
  if sender_badge =? NOTIF_BADGE then pending_work_loop fuel
  else
    sel4gpi_store_reply_cap ;;
    assert_ (bool_decide (is_Some (decode_request words))) ;;
    msg ← deref (decode_request words);
    r ← request_handler msg sender_badge receive_slot;
    let '(reply, need_new_receive_slot) := r : Reply * bool in
    assert_ (bool_decide (is_Some (encode_reply reply))) ;;
    words ← deref (encode_reply reply);
    resource_server_reply words ;;
    sel4gpi_clear_reply_cap N ;;
    if need_new_receive_slot : bool then
      error ← resource_server_clear_slot receive_slot;
      mret (if error =? 0 then 0 else -1)
    else mret 0.

(** [n] iterations; the loop ends with -1 *)
Fixpoint resource_server_loop (n fuel : nat) (receive_slot : Z) : P Z :=
  match n with
  | O => mret 0
  | S n =>
      error ← resource_server_step fuel receive_slot;
      if negb (error =? 0) then mret (-1) else resource_server_loop n fuel receive_slot
  end.

(** what comes before the loop: the default space, the server's initialization, the
    receive slot, and the message to the parent; the error code and the slot *)
Definition resource_server_setup : P (Z * Z) :=
  c ← context;
  r ← resource_server_new_res_space (parent_pd_id c);
  let '(error, space) := r : Z * option resspc_conn_t in
  if negb (error =? 0) then mret (-1, 0) else
  context_modify (fun c => set_rs_type_and_space (rs_resource_type c) space c) ;;
  error ← (match init_fn with Some init => init | None => mret 0 end);
  if negb (error =? 0) then mret (-1, 0) else
  r ← resource_server_next_slot;
  let '(error, slot) := r : Z * option Z in
  if negb (error =? 0) then mret (-1, 0) else
  slot ← deref_conn slot;
  syscall (k_set_receive_path slot) ;;
  c ← context;
  syscall (k_send (raw_endpoint (parent_ep c)) [resspc_conn_id (default_space c)]) ;;
  sel4gpi_clear_reply_cap N ;;
  mret (0, slot).

Definition resource_server_main (n fuel : nat) : P Z :=
  r ← resource_server_setup;
  let '(error, slot) := r : Z * Z in
  if negb (error =? 0) then mret (-1) else resource_server_loop n fuel slot.

(** the context is filled in, and the server's endpoint allocated *)
Definition resource_server_start (server_type : list Z) (parent_ep_slot parent_pd : Z) (n fuel : nat)
  : P Z :=
  mo ← sel4gpi_get_rde GPICAP_TYPE_MO;
  resspc ← sel4gpi_get_rde GPICAP_TYPE_RESSPC;
  vmr ← sel4gpi_get_bound_vmr_rde;
  pd ← sel4gpi_get_pd_conn;
  context_modify (fun c => RsContext (strncpy server_type RESOURCE_TYPE_MAX_STRING_SIZE)
    (rs_resource_type c) (default_space c) parent_pd mo resspc
    (EpConn parent_ep_slot (raw_endpoint (parent_ep c))) vmr pd (rs_server_ep c)) ;;
  c ← context;
  r ← ep_client_get_raw_endpoint N (parent_ep c);
  let '(error, ep) := r : Z * ep_conn_t in
  context_modify (set_parent_ep ep) ;;
  if negb (error =? 0) then mret error else
  r ← sel4gpi_alloc_endpoint N;
  let '(error, ep) := r : Z * option ep_conn_t in
  if negb (error =? 0) then mret error else
  ep ← deref_conn ep;
  context_modify (set_rs_server_ep ep) ;;
  resource_server_main n fuel.
End ResourceServer.
