(* ===== verification/Ramdisk.v ===== *)
(** * The RAM disk

    Model of [apps/ramdisk]: a resource server that hands out the blocks of a disk in
    memory.  The free blocks are a linked list of ranges on the heap; a client binds
    a page of memory that it shares with the server, allocates blocks, and reads and
    writes them through the page.  The first part is ramdisk_server.c with its list
    of free ranges, the second ramdisk_client.c.

    A node of the list is malloc'd: its address is a number that is used once, and a
    node that was freed is no longer in the heap. *)

From stdpp Require Import base numbers list gmap.
From S2P Require Import Prelude Badge Registry State ResourceTypes Component PdResources Resspc Mo Ads AdsRequests Elf Cpu PdObj PdComponent Ep Server Client PdUtils ResourceServer.

(** ramdisk_shared.h and ramdisk_server.h *)
Definition RD_RPC_MAGIC : Z := 0x5244.
Definition BLOCK_RESOURCE_TYPE_NAME : list Z := [66; 76; 79; 67; 75].
Definition RAMDISK_BLOCK_SIZE : Z := 4096.
Definition RAMDISK_SIZE_BYTES : Z := 2 ^ 22.
Definition RAMDISK_BLOCKS : Z := RAMDISK_SIZE_BYTES / RAMDISK_BLOCK_SIZE.
Definition MAX_CLIENT_ID : nat := 32.

Record ramdisk_block_node_t := BlockNode {
  blockno : Z;
  n_blocks : Z;
  next : option nat
}.

(** ramdisk_server_context_t, with the heap of block nodes and the number of calls of
    malloc so far *)
Record ramdisk_server_context_t := Ramdisk {
  gen : resource_server_context_t;
  ramdisk_buf : Z;
  ramdisk_mo : option conn_t;
  free_blocks : option nat;
  shared_mem : list Z;
  heap : gmap nat ramdisk_block_node_t;
  mallocs : nat
}.
Definition set_gen (v : resource_server_context_t) (x : ramdisk_server_context_t) : ramdisk_server_context_t :=
  Ramdisk v (ramdisk_buf x) (ramdisk_mo x) (free_blocks x) (shared_mem x) (heap x) (mallocs x).
Definition set_ramdisk_buf (v : Z) (x : ramdisk_server_context_t) : ramdisk_server_context_t :=
  Ramdisk (gen x) v (ramdisk_mo x) (free_blocks x) (shared_mem x) (heap x) (mallocs x).
Definition set_ramdisk_mo (v : option conn_t) (x : ramdisk_server_context_t) : ramdisk_server_context_t :=
  Ramdisk (gen x) (ramdisk_buf x) v (free_blocks x) (shared_mem x) (heap x) (mallocs x).
Definition set_free_blocks (v : option nat) (x : ramdisk_server_context_t) : ramdisk_server_context_t :=
  Ramdisk (gen x) (ramdisk_buf x) (ramdisk_mo x) v (shared_mem x) (heap x) (mallocs x).
Definition set_shared_mem (v : list Z) (x : ramdisk_server_context_t) : ramdisk_server_context_t :=
  Ramdisk (gen x) (ramdisk_buf x) (ramdisk_mo x) (free_blocks x) v (heap x) (mallocs x).
Definition set_heap (v : gmap nat ramdisk_block_node_t) (x : ramdisk_server_context_t) : ramdisk_server_context_t :=
  Ramdisk (gen x) (ramdisk_buf x) (ramdisk_mo x) (free_blocks x) (shared_mem x) v (mallocs x).
Definition set_mallocs (v : nat) (x : ramdisk_server_context_t) : ramdisk_server_context_t :=
  Ramdisk (gen x) (ramdisk_buf x) (ramdisk_mo x) (free_blocks x) (shared_mem x) (heap x) v.

(** ramdisk_rpc.proto *)
Inductive RamdiskAction := BIND | UNBIND | ALLOC | READ | WRITE | FREE | RamdiskOther.
Record RamdiskMessage := RdMessage { rd_magic : Z; rd_op : RamdiskAction }.
Inductive RamdiskReturn :=
| RamdiskBasicReturn
| RamdiskAllocReturn (slot block_id space_id : Z).
Record RamdiskReturnMessage := RdReturn { rd_errorCode : Z; rd_msg : RamdiskReturn }.
Definition RamdiskError_UNKNOWN : Z := 11.
Definition RamdiskError_NO_BLOCKS : Z := 12.

(** ** ramdisk_server.c *)
Section RamdiskServer.
Context {K : Type} `{!Kernel K} (N : nanopb) (SEL4UTILS_RES_TYPE_GENERIC : Z).
(** the allocator: which calls of malloc return NULL *)
Context (malloc_fails : nat -> bool).
Abbreviation P := (M (process K ramdisk_server_context_t)).

(** *** The heap *)
Definition node_get (a : nat) : P ramdisk_block_node_t :=
  s ← prog;
  match heap s !! a with Some n => mret n | None => crash UseAfterFree end.
Definition node_set (a : nat) (n : ramdisk_block_node_t) : P unit :=
  _ ← node_get a; prog_modify (fun s => set_heap (<[a := n]> (heap s)) s).
Definition node_free (a : nat) : P unit :=
  _ ← node_get a; prog_modify (fun s => set_heap (delete a (heap s)) s).
Definition malloc : P (option nat) :=
  s ← prog;
  prog_modify (set_mallocs (S (mallocs s))) ;;
  mret (if malloc_fails (mallocs s) then None else Some (mallocs s)).
(** the result of malloc is not tested: writing through NULL is a fault *)
Definition node_new (n : ramdisk_block_node_t) : P nat :=
  a ← malloc;
  a ← deref a;
  prog_modify (fun s => set_heap (<[a := n]> (heap s)) s) ;; mret a.

(** *** Blocks *)
Definition ramdisk_ptr (sector : Z) : P Z :=
  assert_ (sector <? RAMDISK_BLOCKS) ;;
  s ← prog; mret (ramdisk_buf s + u32 (sector * RAMDISK_BLOCK_SIZE)).

(** the error code, and [*blockno] *)
Definition alloc_block : P (Z * option Z) :=
  s ← prog;
  match free_blocks s with
  | None => mret (1, None)
  | Some old_node =>
      n ← node_get old_node;
      let b := blockno n in
      node_set old_node (BlockNode (u32 (b + 1)) (u32 (n_blocks n - 1)) (next n)) ;;
      n ← node_get old_node;
      when (n_blocks n <=? 0)
        (prog_modify (set_free_blocks (next n)) ;; node_free old_node) ;;
      mret (0, Some b)
  end.

(** a new node before [curr], after [prev] *)
Definition insert_node (prev : option nat) (b : Z) (curr : option nat) : P unit :=
  new_node ← node_new (BlockNode b 1 curr);
  match prev with
  | None => prog_modify (set_free_blocks (Some new_node))
  | Some prev => n ← node_get prev; node_set prev (BlockNode (blockno n) (n_blocks n) (Some new_node))
  end.

(** the loop of free_block: [prev] is never assigned, so it stays NULL *)
Fixpoint free_block_loop (fuel : nat) (b : Z) (prev curr : option nat) : P unit :=
  match fuel with
  | O => no_fuel
  | S fuel =>
      match curr with
      | None => insert_node prev b None
      | Some c =>
          n ← node_get c;
          if blockno n =? u32 (b + 1) then
            node_set c (BlockNode b (u32 (n_blocks n + 1)) (next n)) ;;
            match prev with
            | None => mret tt
            | Some prev =>
                p ← node_get prev;
                when (u32 (blockno p + n_blocks p) =? b)
                  (n ← node_get c;
                   node_set prev (BlockNode (blockno p) (u32 (n_blocks p + n_blocks n)) (next n)) ;;
                   node_free c)
            end
          else if u32 (blockno n + n_blocks n) =? b then
            node_set c (BlockNode (blockno n) (u32 (n_blocks n + 1)) (next n)) ;;
            match next n with
            | None => mret tt
            | Some d =>
                m ← node_get d;
                when (blockno m =? u32 (b + 1))
                  (node_set c (BlockNode (blockno n) (u32 (u32 (n_blocks n + 1) + n_blocks m)) (next m)) ;;
                   (* free(curr->next), after curr->next was moved on *)
                   match next m with None => mret tt | Some e => node_free e end)
            end
          else if b <? blockno n then insert_node prev b (Some c)
          else free_block_loop fuel b prev (next n)
      end
  end.
Definition free_block (b : Z) : P unit :=
  s ← prog; free_block_loop (S (size (heap s))) b None (free_blocks s).

Abbreviation create_resource := (resource_server_create_resource N gen).

(** *** Initialization: the errors of the creation of blocks are ignored *)
Definition ramdisk_init : P Z :=
  s ← prog;
  context ← malloc;
  r ← mo_component_client_connect N (mo_ep (gen s)) (RAMDISK_SIZE_BYTES / 2 ^ seL4_PageBits) seL4_PageBits;
  let '(error, mo) := r : Z * option conn_t in
  if negb (error =? 0) then mret error else
  _ ← deref context;
  mo ← deref_conn mo;
  prog_modify (set_ramdisk_mo (Some mo)) ;;
  r ← vmr_client_attach_no_reserve N (vmr_rde (gen s)) 0 mo SEL4UTILS_RES_TYPE_GENERIC;
  let '(error, buf) := r : Z * option Z in
  if negb (error =? 0) then mret error else
  buf ← deref_conn buf;
  prog_modify (set_ramdisk_buf buf) ;;
  head ← node_new (BlockNode 0 RAMDISK_BLOCKS None);
  prog_modify (set_free_blocks (Some head)) ;;
  for_each (seq 0 (Z.to_nat RAMDISK_BLOCKS)) (fun i => _ ← create_resource None (Z.of_nat i); mret tt) ;;
  mret 0.

(** *** Requests *)

(** the page that a client shares: the index is the client's identifier, unchecked *)
Definition shared_get (client_id : Z) : P Z :=
  s ← prog;
  match shared_mem s !! Z.to_nat client_id with Some a => mret a | None => crash OutOfBounds end.
Definition shared_put (client_id vaddr : Z) : P unit :=
  _ ← shared_get client_id;
  prog_modify (fun s => set_shared_mem (<[Z.to_nat client_id := vaddr]> (shared_mem s)) s).

Definition answer (error : Z) : RamdiskReturnMessage := RdReturn error RamdiskBasicReturn.

Definition handle_bind (client_id cap : Z) : P RamdiskReturnMessage :=
  r ← resource_server_attach_mo N SEL4UTILS_RES_TYPE_GENERIC gen cap;
  let '(error, mo_vaddr) := r : Z * option Z in
  if negb (error =? 0) then mret (answer error) else
  mo_vaddr ← deref_conn mo_vaddr;
  shared_put client_id mo_vaddr ;; mret (answer 0).
Definition handle_unbind (client_id : Z) : P RamdiskReturnMessage :=
  mo_vaddr ← shared_get client_id;
  error ← resource_server_unattach N gen mo_vaddr;
  if negb (error =? 0) then mret (answer error) else
  shared_put client_id 0 ;; mret (answer 0).
Definition handle_alloc (sender_badge : Z) : P RamdiskReturnMessage :=
  r ← alloc_block;
  let '(error, b) := r : Z * option Z in
  if negb (error =? 0) then mret (answer RamdiskError_NO_BLOCKS) else
  b ← deref_conn b;
  r ← resource_server_give_resource N gen (get_space_id_from_badge sender_badge) b
        (get_client_id_from_badge sender_badge);
  let '(error, dest) := r : Z * option Z in
  if negb (error =? 0) then mret (answer error) else
  dest ← deref_conn dest;
  s ← prog;
  mret (RdReturn 0 (RamdiskAllocReturn dest b (resspc_conn_id (default_space (gen s))))).
Definition handle_read (client_id obj_id : Z) : P RamdiskReturnMessage :=
  mo_vaddr ← shared_get client_id;
  if mo_vaddr =? 0 then mret (answer RamdiskError_UNKNOWN) else
  ramdisk_vaddr ← ramdisk_ptr obj_id;
  memcpy mo_vaddr ramdisk_vaddr RAMDISK_BLOCK_SIZE ;; mret (answer 0).
Definition handle_write (client_id obj_id : Z) : P RamdiskReturnMessage :=
  mo_vaddr ← shared_get client_id;
  if mo_vaddr =? 0 then mret (answer RamdiskError_UNKNOWN) else
  ramdisk_vaddr ← ramdisk_ptr obj_id;
  memcpy ramdisk_vaddr mo_vaddr RAMDISK_BLOCK_SIZE ;; mret (answer 0).
Definition handle_free (client_id obj_id : Z) : P RamdiskReturnMessage :=
  free_block obj_id ;;
  s ← prog;
  error ← resspc_client_revoke_resource N (default_space (gen s)) obj_id client_id;
  mret (answer (if error =? 0 then 0 else RamdiskError_UNKNOWN)).

(** the reply, and whether the receive slot was used *)
Definition ramdisk_request_handler (msg : RamdiskMessage) (sender_badge cap : Z)
  : P (RamdiskReturnMessage * bool) :=
  let basic (m : P RamdiskReturnMessage) := reply ← m; mret (reply, false) in
  let unknown := mret (answer RamdiskError_UNKNOWN, false) in
  if negb (rd_magic msg =? RD_RPC_MAGIC) then unknown else
  let client_id := get_client_id_from_badge sender_badge in
  let obj_id := get_object_id_from_badge sender_badge in
  let cap_type := get_cap_type_from_badge sender_badge in
  if sender_badge =? 0 then unknown else
  s ← prog;
  if negb (cap_type =? rs_resource_type (gen s)) then unknown else
  if obj_id =? BADGE_OBJ_ID_NULL then
    match rd_op msg with
    | BIND => reply ← handle_bind client_id cap; mret (reply, true)
    | UNBIND => basic (handle_unbind client_id)
    | ALLOC => basic (handle_alloc sender_badge)
    | _ => unknown
    end
  else
    match rd_op msg with
    | READ => basic (handle_read client_id obj_id)
    | WRITE => basic (handle_write client_id obj_id)
    | FREE => basic (handle_free client_id obj_id)
    | _ => unknown
    end.

(** *** Work from the root task *)

(** freeing the list, from [curr] *)
Fixpoint free_list (fuel : nat) (curr : option nat) : P unit :=
  match fuel with
  | O => no_fuel
  | S fuel =>
      match curr with
      | None => mret tt
      | Some c => n ← node_get c; node_free c ;; free_list fuel (next n)
      end
  end.

Definition check_work (space_id b : Z) : P unit :=
  s ← prog;
  assert_ (space_id =? resspc_conn_id (default_space (gen s))) ;;
  assert_ ((0 <=? b) && (b <? RAMDISK_BLOCKS)).

(** the body of the loop for PdWorkAction_DESTROY; an error ends it *)
Definition destroy_work (item : Z * Z * Z) : P Z :=
  let '(space_id, b, _) := item in
  check_work space_id b ;;
  if negb (b =? BADGE_OBJ_ID_NULL) then mret 0
  else
    s ← prog;
    error ← vmr_client_delete_by_vaddr N (vmr_rde (gen s)) (ramdisk_buf s);
    if negb (error =? 0) then mret RamdiskError_UNKNOWN else
    mo ← deref (ramdisk_mo s);
    error ← mo_component_client_disconnect N mo;
    if negb (error =? 0) then mret RamdiskError_UNKNOWN else
    s ← prog; free_list (S (size (heap s))) (free_blocks s) ;; mret 0.
Fixpoint destroy_loop (items : list (Z * Z * Z)) : P Z :=
  match items with
  | [] => mret 0
  | item :: items => error ← destroy_work item; if error =? 0 then destroy_loop items else mret error
  end.

Definition ramdisk_work_handler (work : work_t) : P Z :=
  s ← prog;
  if (work_action work =? PdWorkAction_EXTRACT)%nat then
    error ← resource_server_extraction_no_data N (Z.of_nat (length (work_items work)));
    mret (if error =? 0 then 0 else RamdiskError_UNKNOWN)
  else if (work_action work =? PdWorkAction_FREE)%nat then
    for_each (work_items work) (fun item =>
      let '(space_id, b, _) := item : Z * Z * Z in check_work space_id b ;; free_block b) ;;
    pd_client_finish_work N (rs_pd_conn (gen s)) work
  else if (work_action work =? PdWorkAction_DESTROY)%nat then
    error ← destroy_loop (work_items work);
    if negb (error =? 0) then mret error else pd_client_finish_work N (rs_pd_conn (gen s)) work
  else if (work_action work =? PdWorkAction_SEND)%nat then mret RamdiskError_UNKNOWN
  else mret 1.
End RamdiskServer.

(** ** ramdisk_client.c: the stubs of a client of the RAM disk *)
Section RamdiskClient.
Context {K A : Type} `{!Kernel K}.
Abbreviation P := (M (process K A)).
(** nanopb *)
Context (encode : RamdiskMessage -> option (list Z)) (decode : list Z -> option RamdiskReturnMessage).

(** ramdisk_client_context_t *)
Record ramdisk_client_context_t := RdClient { rd_ep : Z; rd_space_id : Z; rd_res_id : Z }.

(** [error || reply.errorCode] *)
Definition failed (error : Z) (reply : option RamdiskReturnMessage) : Z :=
  Z.b2z (negb (error =? 0) || negb (default 0 (rd_errorCode <$> reply) =? 0)).
Definition ramdisk_command (ep : Z) (op : RamdiskAction) (caps : list Z) : P Z :=
  r ← sel4gpi_rpc_call encode decode ep (RdMessage RD_RPC_MAGIC op) caps;
  mret (failed (fst r) (snd r)).

Definition ramdisk_client_bind (server_ep_cap : Z) (mo : conn_t) : P Z :=
  ramdisk_command server_ep_cap BIND [conn_ep mo].
Definition ramdisk_client_unbind (server_ep_cap : Z) : P Z := ramdisk_command server_ep_cap UNBIND [].
(** the zeroed reply of a failed call has no tag, so it is an error *)
Definition ramdisk_client_alloc_block (server_ep_cap : Z) : P (Z * option ramdisk_client_context_t) :=
  r ← sel4gpi_rpc_call encode decode server_ep_cap (RdMessage RD_RPC_MAGIC ALLOC) [];
  let '(error, reply) := r : Z * option RamdiskReturnMessage in
  match reply with
  | Some (RdReturn errorCode (RamdiskAllocReturn slot block_id space_id)) =>
      mret (failed error reply, Some (RdClient slot space_id block_id))
  | _ => mret (1, None)
  end.
Definition ramdisk_client_free_block (conn : ramdisk_client_context_t) : P Z :=
  ramdisk_command (rd_ep conn) FREE [].
Definition ramdisk_client_read (conn : ramdisk_client_context_t) : P Z :=
  ramdisk_command (rd_ep conn) READ [].
Definition ramdisk_client_write (conn : ramdisk_client_context_t) : P Z :=
  ramdisk_command (rd_ep conn) WRITE [].
Definition get_ramdisk_block_size : Z := RAMDISK_BLOCK_SIZE.
End RamdiskClient.

(** ** The list of free blocks: lemmas *)
Section FreeList.
Context {K : Type}.
Context (malloc_fails : nat -> bool).
Implicit Types (p : process K ramdisk_server_context_t) (s : ramdisk_server_context_t) (a : nat)
  (h : gmap nat ramdisk_block_node_t) (l : list (nat * (Z * Z))).

(** the list at a pointer: the address, the first block and the number of blocks of
    each node *)
Fixpoint chain h (q : option nat) l : Prop :=
  match l with
  | [] => q = None
  | (a, (b, n)) :: l => q = Some a /\ exists r, h !! a = Some (BlockNode b n r) /\ chain h r l
  end.

(** the blocks of a list of ranges *)
Definition blocks (rs : list (Z * Z)) : list Z := '(b, n) ← rs; seqZ b n.

(** ranges of blocks of the disk, in order and apart *)
Fixpoint ranges_ok (from : Z) (rs : list (Z * Z)) : Prop :=
  match rs with
  | [] => True
  | (b, n) :: rs => from <= b /\ 0 < n /\ b + n <= RAMDISK_BLOCKS /\ ranges_ok (b + n) rs
  end.

Record disk_ok s l : Prop := {
  dk_chain : chain (heap s) (free_blocks s) l;
  dk_nodup : NoDup l.*1;
  dk_alloc : Forall (fun a => a < mallocs s)%nat l.*1;
  dk_ranges : ranges_ok 0 l.*2
}.

Lemma chain_same h h' q l : (forall a, a ∈ l.*1 -> h' !! a = h !! a) -> chain h q l -> chain h' q l.
Proof.
  revert q. induction l as [|[a [b n]] l IH]; intros q Hh; [done|]. intros [-> (r & Ha & Hl)].
  split; [done|]. exists r. split; [by rewrite Hh by left|]. apply IH; [|done]. intros c Hc. apply Hh. by right.
Qed.

Lemma chain_insert h a n q l : a ∉ l.*1 -> chain h q l -> chain (<[a := n]> h) q l.
Proof. intros Ha. apply chain_same. intros c Hc. apply lookup_insert_ne. by intros ->. Qed.
Lemma chain_delete h a q l : a ∉ l.*1 -> chain h q l -> chain (delete a h) q l.
Proof. intros Ha. apply chain_same. intros c Hc. apply lookup_delete_ne. by intros ->. Qed.

(** the steps of the code *)
Definition with_heap h s : ramdisk_server_context_t := set_heap h s.
Definition in_prog (f : ramdisk_server_context_t -> ramdisk_server_context_t) p := set_program (f (program p)) p.

Lemma node_get_run p a n : heap (program p) !! a = Some n -> node_get a p = (Ok n, p).
Proof. intros Ha. unfold node_get. erewrite bind_ok by reflexivity. by rewrite Ha. Qed.
Lemma node_set_run p a n m : heap (program p) !! a = Some m ->
  node_set a n p = (Ok tt, in_prog (fun s => set_heap (<[a := n]> (heap s)) s) p).
Proof. intros Ha. unfold node_set. by rewrite (bind_ok _ _ _ _ _ (node_get_run p a m Ha)). Qed.
Lemma node_free_run p a m : heap (program p) !! a = Some m ->
  node_free a p = (Ok tt, in_prog (fun s => set_heap (delete a (heap s)) s) p).
Proof. intros Ha. unfold node_free. by rewrite (bind_ok _ _ _ _ _ (node_get_run p a m Ha)). Qed.
Lemma node_new_run p n : malloc_fails (mallocs (program p)) = false ->
  node_new malloc_fails n p =
    (Ok (mallocs (program p)),
     in_prog (fun s => set_heap (<[mallocs s := n]> (heap s)) (set_mallocs (S (mallocs s)) s)) p).
Proof.
  intros Hm. unfold node_new, malloc. rewrite bind_assoc. erewrite bind_ok by reflexivity.
  rewrite bind_assoc. erewrite bind_ok by reflexivity. rewrite Hm. reflexivity.
Qed.

Lemma blocks_cons b n rs : blocks ((b, n) :: rs) = seqZ b n ++ blocks rs.
Proof. done. Qed.
Lemma blocks_app rs rs' : blocks (rs ++ rs') = blocks rs ++ blocks rs'.
Proof. apply bind_app. Qed.

Lemma ranges_ok_weaken f f' rs : f' <= f -> ranges_ok f rs -> ranges_ok f' rs.
Proof. destruct rs as [|[b n] rs]; [done|]. simpl. intros ? (? & ? & ? & ?). split; [lia|done]. Qed.

Lemma blocks_range f rs b : ranges_ok f rs -> b ∈ blocks rs -> f <= b < RAMDISK_BLOCKS.
Proof.
  revert f. induction rs as [|[c n] rs IH]; intros f; [by intros _ ?%elem_of_nil|].
  intros (Hf & Hn & Hb & Hl) [Hin%elem_of_seqZ|Hin]%elem_of_app; [lia|]. apply (IH _ Hl) in Hin. lia.
Qed.

Lemma ranges_nodup f rs : ranges_ok f rs -> NoDup (blocks rs).
Proof.
  revert f. induction rs as [|[c n] rs IH]; intros f; [constructor|]. intros (Hf & Hn & Hb & Hl).
  rewrite blocks_cons. apply NoDup_app. split; [apply NoDup_seqZ|]. split; [|by eapply IH].
  intros x Hx%elem_of_seqZ Hin. apply (blocks_range _ _ _ Hl) in Hin. lia.
Qed.

(** only the list of free blocks changed *)
Definition list_changed s s' : Prop := exists q h k, s' = set_mallocs k (set_free_blocks q (set_heap h s)).

Lemma u32_block z : 0 <= z <= RAMDISK_BLOCKS + 1 -> u32 z = z.
Proof. intros Hz. apply wrap_small. unfold RAMDISK_BLOCKS in Hz. change (RAMDISK_SIZE_BYTES / RAMDISK_BLOCK_SIZE) with 1024 in Hz. lia. Qed.

Lemma seqZ_cons b n : 0 < n -> seqZ b n = b :: seqZ (b + 1) (n - 1).
Proof. intros Hn. rewrite seqZ_cons by lia. by rewrite Z.add_1_r, <- Z.sub_1_r. Qed.

(** the ranges after the first block of the first range was taken *)
Definition taken (b n : Z) (rs : list (Z * Z)) : list (Z * Z) := if n <=? 1 then rs else (b + 1, n - 1) :: rs.

Lemma blocks_taken b n rs : 0 < n -> b :: blocks (taken b n rs) = blocks ((b, n) :: rs).
Proof.
  intros Hn. rewrite blocks_cons, seqZ_cons by done. unfold taken. destruct (Z.leb_spec n 1); [|done].
  by replace (n - 1) with 0 by lia.
Qed.

(** the block at the front is taken, and the node freed when it was the last *)
Lemma alloc_block_run p a b n l : disk_ok (program p) ((a, (b, n)) :: l) ->
  exists s' l', alloc_block p = (Ok (0, Some b), set_program s' p) /\ disk_ok s' l' /\
    l'.*2 = taken b n l.*2 /\ list_changed (program p) s'.
Proof.
  intros [[Hq (r & Ha & Hl)] [Hnew Hnd]%NoDup_cons [Hlt Hall]%Forall_cons (Hb & Hn & Hend & Hrs)].
  set (s := program p) in *. simpl in Hb, Hn, Hend, Hrs, Hnew.
  set (m := BlockNode (b + 1) (n - 1) r). set (s1 := set_heap (<[a := m]> (heap s)) s).
  unfold alloc_block. erewrite bind_ok by reflexivity. fold s. rewrite Hq.
  rewrite (bind_ok _ _ _ _ _ (node_get_run p a _ Ha)). cbn [blockno n_blocks next].
  rewrite (bind_ok _ _ _ _ _ (node_set_run p a _ _ Ha)), !u32_block by lia.
  change (in_prog _ p) with (set_program s1 p).
  assert (heap (program (set_program s1 p)) !! a = Some m) as Hm by apply lookup_insert_eq.
  rewrite (bind_ok _ _ _ _ _ (node_get_run _ a m Hm)). cbn [n_blocks next m].
  destruct (Z.leb_spec (n - 1) 0) as [Hlast|Hmore]; cbn [when].
  - exists (set_free_blocks r (set_heap (delete a (heap s1)) s1)), l.
    split; [|split; [split|split]].
    + rewrite bind_assoc. erewrite bind_ok by reflexivity.
      by rewrite (bind_ok _ _ _ _ _ (node_free_run (set_program (set_free_blocks r s1) p) a m Hm)).
    + apply chain_delete; [done|]. by apply chain_insert.
    + done.
    + done.
    + by apply (ranges_ok_weaken (b + n)); [lia|].
    + unfold taken. by rewrite (proj2 (Z.leb_le n 1)) by lia.
    + by eexists r, _, (mallocs s).
  - exists s1, ((a, (b + 1, n - 1)) :: l). split; [done|]. split; [split|split]; simpl.
    + split; [done|]. exists r. split; [apply lookup_insert_eq|]. by apply chain_insert.
    + by constructor.
    + by constructor.
    + split; [lia|]. split; [lia|]. split; [lia|]. by replace (b + 1 + (n - 1)) with (b + n) by lia.
    + unfold taken. by rewrite (proj2 (Z.leb_gt n 1)) by lia.
    + by eexists _, _, (mallocs s).
Qed.

(** what free_block makes of the free ranges, with [pre] the ones the loop has passed;
    [None] when it frees a node that is still in the list *)
Fixpoint free_at (b : Z) (pre rs : list (Z * Z)) : option (list (Z * Z)) :=
  match rs with
  | [] => Some [(b, 1)]
  | (c, n) :: rs =>
      if c =? b + 1 then Some (pre ++ (b, n + 1) :: rs)
      else if c + n =? b then
        match rs with
        | (d, m) :: rs' => if d =? b + 1 then
                             match rs' with
                             | [] => Some (pre ++ [(c, n + 1 + m)])
                             | _ => None
                             end
                           else Some (pre ++ (c, n + 1) :: rs)
        | [] => Some (pre ++ [(c, n + 1)])
        end
      else if b <? c then Some ((b, 1) :: (c, n) :: rs)
      else free_at b (pre ++ [(c, n)]) rs
  end.

(** the loop is at [q], where the list is [l], with [pre] behind it *)
Record at_node s (b : Z) pre q l (g : Z) : Prop := {
  an_chain : chain (heap s) q l;
  an_frame : forall h' l', (forall a, a ∈ pre.*1 -> h' !! a = heap s !! a) -> chain h' q l' ->
    chain h' (free_blocks s) (pre ++ l');
  an_nodup : NoDup (pre ++ l).*1;
  an_alloc : Forall (fun a => a < mallocs s)%nat (pre ++ l).*1;
  an_end : 0 <= g <= b;
  an_ranges : ranges_ok g l.*2;
  an_pre : forall rs, ranges_ok g rs -> ranges_ok 0 (pre.*2 ++ rs)
}.

Lemma at_node_next s b pre a c n r l q g : at_node s b pre q ((a, (c, n)) :: l) g ->
  heap s !! a = Some (BlockNode c n r) -> c + n <= b -> at_node s b (pre ++ [(a, (c, n))]) r l (c + n).
Proof.
  intros [[Hq (r' & Ha' & Hl)] Hfr Hnd Hall Hg (Hc & Hn & Hend & Hrs) Hpre] Ha Hle.
  rewrite Ha in Ha'. injection Ha' as <-. split; try done.
  - intros h' l' Hh Hc'. rewrite <- app_assoc. apply Hfr.
    + intros x Hx. apply Hh. rewrite fmap_app. apply elem_of_app. by left.
    + split; [done|]. exists r. split; [|done]. rewrite Hh, Ha; [done|].
      rewrite fmap_app. apply elem_of_app. right. by left.
  - by rewrite <- app_assoc.
  - by rewrite <- app_assoc.
  - lia.
  - intros rs Hr. rewrite fmap_app, <- app_assoc. apply Hpre. by split.
Qed.

(** the node at the loop's place was written, and the rest of the list is [l'] *)
Lemma at_node_done s b pre a c n c' n' q l g h' r' l' : at_node s b pre q ((a, (c, n)) :: l) g ->
  (forall x, x ∈ pre.*1 -> h' !! x = heap s !! x) -> h' !! a = Some (BlockNode c' n' r') ->
  chain h' r' l' -> sublist l'.*1 l.*1 -> ranges_ok g ((c', n') :: l'.*2) ->
  disk_ok (set_heap h' s) (pre ++ (a, (c', n')) :: l').
Proof.
  intros [[Hq _] Hfr Hnd Hall Hg _ Hpre] Hh Ha Hl Hsub Hrs.
  assert (sublist (pre ++ (a, (c', n')) :: l').*1 (pre ++ (a, (c, n)) :: l).*1) as Hs.
  { rewrite !fmap_app. apply sublist_app; [done|]. csimpl. by apply sublist_skip. }
  split.
  - apply Hfr; [done|]. split; [done|]. by exists r'.
  - by apply (sublist_NoDup _ _ Hnd).
  - apply Forall_forall. intros x Hx. apply (proj1 (Forall_forall _ _) Hall). by apply (elem_of_sublist _ _ _ Hx).
  - rewrite fmap_app. by apply Hpre.
Qed.

(** a node that was made before the list at [q] *)
Lemma insert_node_run p b q l : malloc_fails (mallocs (program p)) = false -> 0 <= b < RAMDISK_BLOCKS ->
  chain (heap (program p)) q l -> NoDup l.*1 -> Forall (fun a => a < mallocs (program p))%nat l.*1 ->
  ranges_ok (b + 1) l.*2 ->
  exists s' l', insert_node malloc_fails None b q p = (Ok tt, set_program s' p) /\
    list_changed (program p) s' /\ disk_ok s' l' /\ l'.*2 = (b, 1) :: l.*2.
Proof.
  intros Hm Hb Hl Hnd Hall Hrs. set (s := program p) in *. set (a := mallocs s).
  exists (set_free_blocks (Some a) (set_heap (<[a := BlockNode b 1 q]> (heap s)) (set_mallocs (S a) s))),
    ((a, (b, 1)) :: l).
  assert (a ∉ l.*1) as Ha by (intros Hin; apply (proj1 (Forall_forall _ _) Hall) in Hin; unfold a in Hin; lia).
  split; [|split; [by eexists _, _, _|split; [split|done]]]; simpl.
  - unfold insert_node. by rewrite (bind_ok _ _ _ _ _ (node_new_run p _ Hm)).
  - split; [done|]. exists q. split; [apply lookup_insert_eq|]. by apply chain_insert.
  - by constructor.
  - constructor; [lia|]. apply (Forall_impl _ _ _ Hall). lia.
  - split; [lia|]. split; [lia|]. split; [lia|done].
Qed.

(** the two ways of growing a range *)
Lemma free_before_run s p b pre a n q l g r : program p = s -> at_node s b pre q ((a, (b + 1, n)) :: l) g ->
  heap s !! a = Some (BlockNode (b + 1) n r) -> 0 <= b -> u32 (n + 1) = n + 1 ->
  exists s', node_set a (BlockNode b (u32 (n + 1)) r) p = (Ok tt, set_program s' p) /\
    list_changed s s' /\ disk_ok s' (pre ++ (a, (b, n + 1)) :: l).
Proof.
  intros <- Hat Ha Hb Hu. pose proof Hat as [[Hq (r' & Ha' & Hl)] _ Hnd _ Hg (Hc & Hn & Hend & Hrs) _].
  rewrite Ha in Ha'. injection Ha' as <-. rewrite fmap_app in Hnd. apply NoDup_app in Hnd as (Hnd1 & Hdis & Hnd2).
  csimpl in *. apply NoDup_cons in Hnd2 as [Hnew Hnd2].
  exists (set_heap (<[a := BlockNode b (n + 1) r]> (heap (program p))) (program p)).
  split; [by rewrite (node_set_run p a _ _ Ha), Hu|]. split; [by eexists _, _, (mallocs (program p))|].
  apply (at_node_done _ b pre a (b + 1) n b (n + 1) q l g _ r l Hat).
  - intros x Hx. apply lookup_insert_ne. intros <-. apply (Hdis a Hx). by left.
  - apply lookup_insert_eq.
  - by apply chain_insert.
  - done.
  - simpl in *. split; [lia|]. split; [lia|]. split; [lia|]. by replace (b + (n + 1)) with (b + 1 + n) by lia.
Qed.

(** the range at the loop's place ends before [b] *)
Definition grow_after (b : Z) (c : nat) (n : ramdisk_block_node_t) : M (process K ramdisk_server_context_t) unit :=
  node_set c (BlockNode (blockno n) (u32 (n_blocks n + 1)) (next n)) ;;
  match next n with
  | None => mret tt
  | Some d =>
      m ← node_get d;
      when (blockno m =? u32 (b + 1))
        (node_set c (BlockNode (blockno n) (u32 (u32 (n_blocks n + 1) + n_blocks m)) (next m)) ;;
         match next m with None => mret tt | Some e => node_free e end)
  end.

Lemma grow_after_run p b pre a c n r q l g : at_node (program p) b pre q ((a, (c, n)) :: l) g ->
  heap (program p) !! a = Some (BlockNode c n r) -> c + n = b -> b < RAMDISK_BLOCKS -> b ∉ blocks l.*2 ->
  exists s', grow_after b a (BlockNode c n r) p = (Ok tt, set_program s' p) /\ list_changed (program p) s' /\
    forall rs, free_at b pre.*2 ((c, n) :: l.*2) = Some rs -> exists l', disk_ok s' l' /\ l'.*2 = rs.
Proof.
  intros Hat Ha Eb Hlt Hnb. pose proof Hat as [[Hq (r' & Ha' & Hl)] _ Hnd _ Hg (Hc & Hn & Hend & Hrs) _].
  rewrite Ha in Ha'. injection Ha' as <-. rewrite fmap_app in Hnd. apply NoDup_app in Hnd as (_ & Hdis & Hnd).
  csimpl in *. apply NoDup_cons in Hnd as [Hnew Hnd].
  assert (forall x, x ∈ pre.*1 -> x <> a) as Hpre by (intros x Hx ->; apply (Hdis a Hx); by left).
  set (s := program p) in *. set (h1 := <[a := BlockNode c (n + 1) r]> (heap s)).
  set (s1 := set_heap h1 s).
  assert (u32 (n + 1) = n + 1) as En.
  { apply u32_block. unfold RAMDISK_BLOCKS in *. change (RAMDISK_SIZE_BYTES / RAMDISK_BLOCK_SIZE) with 1024 in *. lia. }
  unfold grow_after. cbn [blockno n_blocks next]. rewrite (bind_ok _ _ _ _ _ (node_set_run p a _ _ Ha)), En.
  change (in_prog _ p) with (set_program s1 p).
  assert (list_changed s s1) as Hch by (by eexists _, _, (mallocs s)).
  assert (forall d, Some d = r -> d <> a /\ h1 !! d = heap s !! d) as Hd.
  { intros d <-. destruct l as [|[d' [bd m]] l]; [done|]. destruct Hl as [[= <-] _]. csimpl in *.
    apply not_elem_of_cons in Hnew as [Hne _]. split; [done|]. by apply lookup_insert_ne. }
  assert (ranges_ok g ((c, n + 1) :: l.*2)) as Hr1.
  { split; [lia|]. split; [lia|]. split; [lia|]. destruct l as [|[d [bd m]] l]; [done|].
    destruct Hrs as (Hbd & Hm & Hmend & Hrs). split; [|done]. csimpl in *.
    assert (b <> bd) by (intros ->; apply Hnb; apply elem_of_app; left; apply elem_of_seqZ; lia).
    lia. }
  assert (disk_ok s1 (pre ++ (a, (c, n + 1)) :: l)) as Hok1.
  { apply (at_node_done s b pre a c n c (n + 1) q l g h1 r l Hat); [|apply lookup_insert_eq|by apply chain_insert|done|done].
    intros x Hx. by apply lookup_insert_ne, not_eq_sym, Hpre. }
  simpl. rewrite (proj2 (Z.eqb_neq c (b + 1))) by lia. rewrite (proj2 (Z.eqb_eq _ _) Eb).
  destruct r as [d|].
  2:{ destruct l as [|[d [bd m]] l]; [|by destruct Hl]. exists s1. split; [done|]. split; [done|].
      intros rs [= <-]. eexists. split; [exact Hok1|]. by rewrite fmap_app. }
  destruct l as [|[d' [bd m]] l]; [done|]. destruct Hl as [[= <-] (r & Hd' & Hl)]. csimpl in *.
  destruct (Hd d eq_refl) as [Hne Hd1].
  assert (heap (program (set_program s1 p)) !! d = Some (BlockNode bd m r)) as Hd2 by (simpl; by rewrite Hd1).
  rewrite (bind_ok _ _ _ _ _ (node_get_run _ d _ Hd2)). cbn [blockno n_blocks next].
  rewrite (u32_block (b + 1)) by lia.
  destruct (Z.eqb_spec bd (b + 1)) as [->|Hbd]; cbn [when].
  2:{ exists s1. split; [done|]. split; [done|]. intros rs [= <-]. eexists. split; [exact Hok1|].
      by rewrite fmap_app. }
  destruct Hrs as (_ & Hm & Hmend & Hrs). destruct Hr1 as (Hc1 & _ & _ & _ & _ & _ & _).
  assert (u32 (n + 1 + m) = n + 1 + m) as Em by (apply u32_block; lia).
  assert (heap (program (set_program s1 p)) !! a = Some (BlockNode c (n + 1) (Some d))) as Ha1
    by apply lookup_insert_eq.
  rewrite (bind_ok _ _ _ _ _ (node_set_run _ a _ _ Ha1)), Em.
  set (h2 := <[a := BlockNode c (n + 1 + m) r]> h1). set (s2 := set_heap h2 s).
  change (in_prog _ _) with (set_program s2 p).
  assert (list_changed s s2) as Hch2 by (by eexists _, _, (mallocs s)).
  apply not_elem_of_cons in Hnew as [_ Hnew]. apply NoDup_cons in Hnd as [Hnewd Hnd].
  destruct r as [e|].
  - destruct l as [|[e' [be ne]] l]; [done|]. destruct Hl as [[= <-] (r & He & Hl)]. csimpl in *.
    apply not_elem_of_cons in Hnew as [Hae _].
    assert (heap (program (set_program s2 p)) !! e = Some (BlockNode be ne r)) as He2.
    { simpl. unfold h2, h1. by rewrite !lookup_insert_ne. }
    rewrite (node_free_run _ e _ He2). exists (set_heap (delete e h2) s2). split; [done|].
    split; [by exists (free_blocks s), (delete e h2), (mallocs s)|done].
  - destruct l as [|[? [? ?]] l]; [|by destruct Hl]. exists s2. split; [done|]. split; [done|].
    intros rs [= <-]. exists (pre ++ [(a, (c, n + 1 + m))]). split; [|by rewrite fmap_app].
    apply (at_node_done s b pre a c n c (n + 1 + m) q _ g h2 None [] Hat).
    + intros x Hx. unfold h2, h1. by rewrite !lookup_insert_ne by apply not_eq_sym, Hpre, Hx.
    + apply lookup_insert_eq.
    + done.
    + apply sublist_nil_l.
    + split; [lia|]. split; [lia|]. split; [lia|done].
Qed.

Lemma free_block_loop_run b l : forall fuel pre p q g, at_node (program p) b pre q l g ->
  (length l < fuel)%nat -> b < RAMDISK_BLOCKS -> b ∉ blocks l.*2 ->
  malloc_fails (mallocs (program p)) = false ->
  exists s', free_block_loop malloc_fails fuel b None q p = (Ok tt, set_program s' p) /\
    list_changed (program p) s' /\
    forall rs, free_at b pre.*2 l.*2 = Some rs -> exists l', disk_ok s' l' /\ l'.*2 = rs.
Proof.
  induction l as [|[a [c n]] l IH]; intros [|fuel] pre p q g Hat Hfuel Hlt Hnb Hm; try (simpl in Hfuel; lia);
    pose proof Hat as [Hch _ Hnd Hall [Hg0 Hg] Hrs _].
  - simpl in Hch. subst q.
    destruct (insert_node_run p b None [] Hm) as (s' & l' & Hrun & Hc & Hok & El); [lia|done|constructor|constructor|done|].
    exists s'. split; [exact Hrun|]. split; [done|]. intros rs [= <-]. by exists l'.
  - destruct Hch as [-> (r & Ha & Hl)]. pose proof Hrs as (Hc & Hn & Hend & Hrest).
    cbn [free_block_loop]. rewrite (bind_ok _ _ _ _ _ (node_get_run p a _ Ha)). cbn [blockno n_blocks next].
    rewrite !u32_block by lia. csimpl.
    destruct (Z.eqb_spec c (b + 1)) as [->|Hne].
    { destruct (free_before_run (program p) p b pre a n _ l g r eq_refl Hat Ha) as (s' & Hrun & Hchg & Hok);
        [lia|by apply u32_block; lia|]. rewrite u32_block in Hrun by lia. rewrite (bind_ok _ _ _ _ _ Hrun).
      exists s'. split; [done|]. split; [done|]. intros rs [= <-]. eexists. split; [exact Hok|]. by rewrite fmap_app. }
    destruct (Z.eqb_spec (c + n) b) as [Eb|Hnb'].
    { destruct (grow_after_run p b pre a c n r _ l g Hat Ha Eb Hlt) as (s' & Hrun & Hchg & Hok).
      { intros Hin. apply Hnb. apply elem_of_app. by right. }
      exists s'. unfold grow_after in Hrun. cbn [blockno n_blocks next] in Hrun.
      rewrite (u32_block (b + 1)), (u32_block (n + 1)) in Hrun by lia.
      split; [exact Hrun|]. split; [done|]. intros rs. simpl in Hok.
      rewrite (proj2 (Z.eqb_neq _ _) Hne), (proj2 (Z.eqb_eq _ _) Eb) in Hok. apply Hok. }
    destruct (Z.ltb_spec b c) as [Hbc|Hcb].
    { rewrite fmap_app in Hnd. apply NoDup_app in Hnd as (_ & _ & Hnd). rewrite fmap_app in Hall.
      apply Forall_app in Hall as [_ Hall].
      destruct (insert_node_run p b (Some a) ((a, (c, n)) :: l) Hm) as (s' & l' & Hrun & Hchg & Hok & El);
        [lia|by split; [|exists r]|done|done|simpl; split; [lia|done]|].
      exists s'. split; [exact Hrun|]. split; [done|]. intros rs [= <-]. by exists l'. }
    assert (c + n <= b).
    { destruct (Z.le_gt_cases (c + n) b) as [|Hin]; [done|]. destruct Hnb. apply elem_of_app. left.
      apply elem_of_seqZ. lia. }
    destruct (IH fuel (pre ++ [(a, (c, n))]) p r (c + n)) as (s' & Hrun & Hchg & Hok).
    + by apply (at_node_next _ b pre a c n r l (Some a) g).
    + simpl in Hfuel. lia.
    + done.
    + intros Hin. apply Hnb. apply elem_of_app. by right.
    + done.
    + exists s'. split; [exact Hrun|]. split; [done|]. intros rs Hf. apply Hok. by rewrite fmap_app.
Qed.

Lemma chain_length h q l : chain h q l -> NoDup l.*1 -> (length l <= size h)%nat.
Proof.
  revert h q. induction l as [|[a [b n]] l IH]; intros h q; simpl; [lia|].
  intros [-> (r & Ha & Hl)] [Hnew Hnd]%NoDup_cons.
  specialize (IH (delete a h) r (chain_delete h a r l Hnew Hl) Hnd).
  rewrite map_size_delete_Some in IH by done. 
  enough (size h <> 0)%nat by lia. intros Hz. apply map_size_empty_inv in Hz. by rewrite Hz, lookup_empty in Ha.
Qed.

Lemma free_block_run p b l : disk_ok (program p) l -> 0 <= b < RAMDISK_BLOCKS -> b ∉ blocks l.*2 ->
  malloc_fails (mallocs (program p)) = false ->
  exists s', free_block malloc_fails b p = (Ok tt, set_program s' p) /\ list_changed (program p) s' /\
    forall rs, free_at b [] l.*2 = Some rs -> exists l', disk_ok s' l' /\ l'.*2 = rs.
Proof.
  intros [Hch Hnd Hall Hrs] Hb Hnb Hm. unfold free_block. erewrite bind_ok by reflexivity.
  apply (free_block_loop_run b l _ [] p _ 0); [|by apply Nat.lt_succ_r, (chain_length _ _ _ Hch)|lia|done|done].
  split; try (done || lia).
Qed.
End FreeList.

(** ** The list of free blocks: properties *)
Section FreeBlocks.
Context {K : Type} (malloc_fails : nat -> bool).
Implicit Types (p : process K ramdisk_server_context_t) (l : list (nat * (Z * Z))).

(** C34: allocation takes the first free block: from a list of ranges the block at
    its head is returned, and is free no more, while the rest stays free and the list
    well-formed; with no free block there is an error and nothing changes. *)
Theorem ramdisk_alloc_refines p l (Hd : disk_ok (program p) l) :
  match blocks l.*2 with
  | [] => alloc_block p = (Ok (1, None), p)
  | b :: rest => exists s' l', alloc_block p = (Ok (0, Some b), set_program s' p) /\
      disk_ok s' l' /\ blocks l'.*2 = rest /\ b ∉ rest /\ list_changed (program p) s'
  end.
Proof.
  destruct l as [|[a [b n]] l].
  - destruct Hd as [Hc _ _ _]. unfold alloc_block. erewrite bind_ok by reflexivity. simpl in Hc. by rewrite Hc.
  - pose proof (ranges_nodup _ _ (dk_ranges _ _ Hd)) as Hnd.
    change (((a, (b, n)) :: l).*2) with ((b, n) :: l.*2) in *.
    destruct (alloc_block_run p a b n l Hd) as (s' & l' & Hrun & Hok & El & Hch).
    pose proof (dk_ranges _ _ Hd) as (_ & Hn & _ & _). rewrite <- blocks_taken in Hnd |- * by done.
    apply NoDup_cons in Hnd as [Hb _]. exists s', l'. by rewrite El.
Qed.

(** a block that was allocated and is given back right away is the next one to
    be allocated again: the list of free blocks is what it was. *)
Theorem ramdisk_alloc_free_roundtrip p l b rest (Hd : disk_ok (program p) l) (Hl : blocks l.*2 = b :: rest)
  (Hm : forall k, malloc_fails k = false) :
  exists p2 l2, (r ← alloc_block; free_block malloc_fails b ;; mret r) p = (Ok (0, Some b), p2) /\
    disk_ok (program p2) l2 /\ blocks l2.*2 = b :: rest.
Proof.
  destruct l as [|[a [c n]] l]; [done|]. change (((a, (c, n)) :: l).*2) with ((c, n) :: l.*2) in Hl.
  pose proof (dk_ranges _ _ Hd) as (Hc & Hn & Hend & Hrs).
  pose proof Hl as Hl'. rewrite <- blocks_taken in Hl' by done. injection Hl' as -> Hrest.
  destruct (alloc_block_run p a b n l Hd) as (s' & l' & Hrun & Hok & El & _).
  rewrite (bind_ok _ _ _ _ _ Hrun). set (p1 := set_program s' p).
  assert (b ∉ blocks l'.*2) as Hnb.
  { rewrite El. pose proof (ranges_nodup _ _ (dk_ranges _ _ Hd)) as Hnd.
    change (((a, (b, n)) :: l).*2) with ((b, n) :: l.*2) in Hnd. rewrite <- blocks_taken in Hnd by done. by apply NoDup_cons in Hnd as [? _]. }
  destruct (free_block_run malloc_fails p1 b l' Hok ltac:(lia) Hnb (Hm _)) as (s2 & Hfree & _ & Hspec).
  rewrite (bind_ok _ _ _ _ _ Hfree). exists (set_program s2 p1).
  enough (exists rs, free_at b [] l'.*2 = Some rs /\ blocks rs = b :: rest) as (rs & Hf & Hb).
  { destruct (Hspec rs Hf) as (l2 & Hok2 & <-). by exists l2. }
  rewrite El. unfold taken in *. destruct (Z.leb_spec n 1).
  - assert (n = 1) as -> by lia. destruct l as [|[a2 [d m]] l]; csimpl in *; [by eexists; split; [done|rewrite <- Hl]|].
    destruct Hrs as (Hd1 & Hm1 & Hend1 & Hrs). destruct (Z.eqb_spec d (b + 1)) as [->|Hne].
    + eexists. split; [done|]. cbn [app]. rewrite <- Hrest, !blocks_cons, (seqZ_cons b) by lia. cbn [app].
      by replace (m + 1 - 1) with m by lia.
    + rewrite (proj2 (Z.eqb_neq (d + m) b)), (proj2 (Z.ltb_lt b d)) by lia. eexists. split; [done|].
      by rewrite blocks_cons, <- Hrest.
  - simpl. rewrite Z.eqb_refl. eexists. split; [done|]. cbn [app]. rewrite <- Hl. by replace (n - 1 + 1) with n by lia.
Qed.

(** what is left of a list of ranges when a block far from all of them is freed *)
Lemma free_at_gap b rs : forall g pre, ranges_ok g rs -> (forall c n, (c, n) ∈ rs -> c <> b + 1 /\ c + n <> b) ->
  b ∉ blocks rs -> exists rs', free_at b pre rs = Some rs' /\ blocks rs' = b :: filter (Z.lt b) (blocks rs).
Proof.
  induction rs as [|[c n] rs IH]; intros g pre Hrs Hgap Hb; cbn [free_at]; [by eexists|].
  destruct Hrs as (Hc & Hn & Hend & Hrs). destruct (Hgap c n) as [H1 H2]; [by left|].
  rewrite (proj2 (Z.eqb_neq _ _) H1), (proj2 (Z.eqb_neq _ _) H2). rewrite blocks_cons in Hb |- *.
  destruct (Z.ltb_spec b c) as [Hbc|Hbc].
  - eexists. split; [done|]. rewrite blocks_cons, blocks_cons, list_filter_all; [done|].
    intros x [Hx%elem_of_seqZ|Hx]%elem_of_app; [lia|]. apply (blocks_range _ _ _ Hrs) in Hx. lia.
  - assert (c + n <= b) as Hle.
    { destruct (Z.le_gt_cases (c + n) b); [done|]. destruct Hb. apply elem_of_app. left. apply elem_of_seqZ. lia. }
    destruct (IH (c + n) (pre ++ [(c, n)]) Hrs) as (rs' & Hf & Hbl).
    + intros d m Hin. apply Hgap. by right.
    + intros Hin. apply Hb, elem_of_app. by right.
    + exists rs'. split; [done|]. rewrite Hbl, filter_app, (list_filter_none (Z.lt b) (seqZ c n)); [done|].
      intros x Hx%elem_of_seqZ. lia.
Qed.

(** the loop of free_block forgets where it came from: when a block is freed
    that is not next to a free range, every free block below it is lost, and will
    never be allocated again.  (Only a block below all free ranges loses nothing.) *)
Theorem ramdisk_free_loses_blocks p l b (Hd : disk_ok (program p) l) (Hb : 0 <= b < RAMDISK_BLOCKS)
  (Hnew : b ∉ blocks l.*2) (Hgap : forall c n, (c, n) ∈ l.*2 -> c <> b + 1 /\ c + n <> b)
  (Hm : malloc_fails (mallocs (program p)) = false) :
  exists s' l', free_block malloc_fails b p = (Ok tt, set_program s' p) /\ disk_ok s' l' /\
    blocks l'.*2 = b :: filter (Z.lt b) (blocks l.*2).
Proof.
  destruct (free_block_run malloc_fails p b l Hd Hb Hnew Hm) as (s' & Hrun & _ & Hspec).
  destruct (free_at_gap b l.*2 0 [] (dk_ranges _ _ Hd) Hgap Hnew) as (rs & Hf & Hbl).
  destruct (Hspec rs Hf) as (l' & Hok & <-). by exists s', l'.
Qed.
End FreeBlocks.

(** ** Reading and writing blocks *)
Section ReadWrite.
Context {K : Type} `{!Kernel K} (N : nanopb) (SEL4UTILS_RES_TYPE_GENERIC : Z) (malloc_fails : nat -> bool).
Implicit Types (p : process K ramdisk_server_context_t) (s : ramdisk_server_context_t).
Abbreviation handler := (ramdisk_request_handler N SEL4UTILS_RES_TYPE_GENERIC malloc_fails).

(** a request about block [b] from a client that shares the page [page] *)
Record may_access s (badge b page : Z) : Prop := {
  ma_badge : badge <> 0;
  ma_type : get_cap_type_from_badge badge = rs_resource_type (gen s);
  ma_block : get_object_id_from_badge badge = b;
  ma_range : 0 <= b < RAMDISK_BLOCKS;
  ma_page : shared_mem s !! Z.to_nat (get_client_id_from_badge badge) = Some page /\ page <> 0;
  ma_apart : page + RAMDISK_BLOCK_SIZE <= ramdisk_buf s \/ ramdisk_buf s + RAMDISK_SIZE_BYTES <= page
}.
Definition block_at s (b : Z) : Z := ramdisk_buf s + b * RAMDISK_BLOCK_SIZE.

Lemma ramdisk_ptr_run p b : 0 <= b < RAMDISK_BLOCKS -> ramdisk_ptr b p = (Ok (block_at (program p) b), p).
Proof.
  intros Hb. unfold ramdisk_ptr, assert_. rewrite (proj2 (Z.ltb_lt _ _)) by lia. erewrite bind_ok by reflexivity.
  erewrite bind_ok by reflexivity. unfold block_at, mret, M_ret. do 3 f_equal. apply wrap_small.
  unfold RAMDISK_BLOCKS, RAMDISK_BLOCK_SIZE, RAMDISK_SIZE_BYTES in *. change (2 ^ 22 / 4096) with 1024 in Hb. lia.
Qed.

Lemma shared_get_run p c page : shared_mem (program p) !! Z.to_nat c = Some page ->
  shared_get c p = (Ok page, p).
Proof. intros Hc. unfold shared_get. erewrite bind_ok by reflexivity. by rewrite Hc. Qed.

Lemma access_run p badge b page cap op : may_access (program p) badge b page -> op = READ \/ op = WRITE ->
  handler (RdMessage RD_RPC_MAGIC op) badge cap p =
    (Ok (answer 0, false),
     set_memory (match op with
                 | READ => copied (memory p) page (block_at (program p) b) RAMDISK_BLOCK_SIZE
                 | _ => copied (memory p) (block_at (program p) b) page RAMDISK_BLOCK_SIZE
                 end) p).
Proof.
  intros [Hb Ht Eb Hr [Hpage Hnz] _] Hop. unfold ramdisk_request_handler. cbn [rd_magic rd_op].
  rewrite Z.eqb_refl. cbn [negb]. rewrite (proj2 (Z.eqb_neq _ _) Hb). erewrite bind_ok by reflexivity.
  rewrite Ht, Z.eqb_refl, Eb. cbn [negb]. rewrite (proj2 (Z.eqb_neq b BADGE_OBJ_ID_NULL)).
  2:{ change RAMDISK_BLOCKS with 1024 in Hr. unfold BADGE_OBJ_ID_NULL, BADGE_MAX_OBJ_ID. lia. }
  destruct Hop as [-> | ->]; unfold handle_read, handle_write; rewrite bind_assoc;
    rewrite (bind_ok _ _ _ _ _ (shared_get_run _ _ _ Hpage)), (proj2 (Z.eqb_neq _ _) Hnz);
    by rewrite bind_assoc, (bind_ok _ _ _ _ _ (ramdisk_ptr_run p b Hr)).
Qed.

(** C35: what a client writes to a block is what is read from it afterwards, by any
    client that may: through the page that the reader shares with the server come
    the bytes that were in the page of the writer, as long as nobody else wrote into
    the disk's memory in between; and a write changes nothing but its block. *)
Theorem ramdisk_write_read p p2 badge badge2 b page page2 cap cap2
  (Hw : may_access (program p) badge b page) (Hr : may_access (program p) badge2 b page2)
  (p1 := (handler (RdMessage RD_RPC_MAGIC WRITE) badge cap p).2)
  (Hsame : program p2 = program p)
  (Hkept : forall i, 0 <= i < RAMDISK_BLOCK_SIZE ->
     memory p2 (block_at (program p) b + i) = memory p1 (block_at (program p) b + i)) :
  (forall a, ~ (block_at (program p) b <= a < block_at (program p) b + RAMDISK_BLOCK_SIZE) ->
     memory p1 a = memory p a) /\
  exists p3, handler (RdMessage RD_RPC_MAGIC READ) badge2 cap2 p2 = (Ok (answer 0, false), p3) /\
    forall i, 0 <= i < RAMDISK_BLOCK_SIZE -> memory p3 (page2 + i) = memory p (page + i).
Proof.
  pose proof (access_run p badge b page cap WRITE Hw (or_intror eq_refl)) as Hrun.
  unfold p1 in *. rewrite Hrun in *. cbn [snd] in *. clear p1 Hrun. simpl in *.
  set (block := block_at (program p) b) in *. split.
  - intros a Ha. unfold copied. destruct (Z.leb_spec block a), (Z.ltb_spec a (block + RAMDISK_BLOCK_SIZE)); simpl; lia.
  - rewrite <- Hsame in Hr. eexists. split; [by apply (access_run p2 badge2 b page2 cap2 READ Hr); left|].
    intros i Hi. simpl. rewrite Hsame. fold block. unfold copied.
    rewrite (proj2 (Z.leb_le page2 (page2 + i))), (proj2 (Z.ltb_lt (page2 + i) _)) by lia. simpl.
    replace (block + (page2 + i - page2)) with (block + i) by lia. rewrite Hkept by done. unfold copied.
    rewrite (proj2 (Z.leb_le block (block + i))), (proj2 (Z.ltb_lt (block + i) _)) by lia. simpl.
    f_equal. lia.
Qed.

(** the index of a client's page is not tested: a client whose PD has an identifier
    from 32 on makes the server leave the array. *)
Lemma ramdisk_client_out_of_bounds p badge cap op : badge <> 0 ->
  get_cap_type_from_badge badge = rs_resource_type (gen (program p)) ->
  get_object_id_from_badge badge <> BADGE_OBJ_ID_NULL -> op = READ \/ op = WRITE ->
  length (shared_mem (program p)) = MAX_CLIENT_ID -> Z.of_nat MAX_CLIENT_ID <= get_client_id_from_badge badge ->
  stops (handler (RdMessage RD_RPC_MAGIC op) badge cap) p OutOfBounds.
Proof.
  intros Hb Ht Ho Hop Hlen Hc. exists p. unfold ramdisk_request_handler. cbn [rd_magic rd_op].
  rewrite Z.eqb_refl. cbn [negb]. rewrite (proj2 (Z.eqb_neq _ _) Hb). erewrite bind_ok by reflexivity.
  rewrite Ht, Z.eqb_refl. cbn [negb]. rewrite (proj2 (Z.eqb_neq _ _) Ho).
  assert (shared_get (get_client_id_from_badge badge) p = (Crash OutOfBounds, p)) as Hs.
  { unfold shared_get. erewrite bind_ok by reflexivity.
    rewrite lookup_ge_None_2; [done|]. unfold MAX_CLIENT_ID in *. lia. }
  destruct Hop as [-> | ->]; unfold handle_read, handle_write; rewrite bind_assoc; by rewrite (bind_crash _ _ _ _ _ Hs).
Qed.

(** the work to destroy the whole disk stops the server: the identifier that
    stands for the space fails the test that is meant for blocks, before the code
    that frees the memory of the disk is reached. *)
Theorem ramdisk_destroy_space_stops p space client items n_critical
  (Hspace : space = resspc_conn_id (default_space (gen (program p)))) :
  stops (ramdisk_work_handler N malloc_fails
    (Work PdWorkAction_DESTROY ((space, BADGE_OBJ_ID_NULL, client) :: items) n_critical)) p AssertFail.
Proof.
  exists p. unfold ramdisk_work_handler. erewrite bind_ok by reflexivity. cbn [work_action].
  change ((PdWorkAction_DESTROY =? PdWorkAction_EXTRACT)%nat) with false.
  change ((PdWorkAction_DESTROY =? PdWorkAction_FREE)%nat) with false.
  change ((PdWorkAction_DESTROY =? PdWorkAction_DESTROY)%nat) with true. cbv iota.
  apply bind_crash. cbn [work_items destroy_loop]. apply bind_crash. unfold destroy_work. apply bind_crash.
  unfold check_work. erewrite bind_ok by reflexivity. unfold assert_. rewrite Hspace, Z.eqb_refl.
  by erewrite bind_ok by reflexivity.
Qed.
End ReadWrite.

(** ** Witnesses *)
Section RamdiskWitnesses.
(** a kernel that is not called *)
#[local] Instance no_kernel : Kernel unit :=
  { k_call _ _ _ := crash AssertFail; k_recv _ := crash AssertFail; k_send _ _ := crash AssertFail;
    k_set_receive_path _ := crash AssertFail; k_save_caller _ := crash AssertFail }.
Definition nanopb_none : nanopb := Nanopb (fun _ _ => None) (fun _ _ => None).

Definition gen_demo : resource_server_context_t :=
  RsContext BLOCK_RESOURCE_TYPE_NAME 17 (ResspcConn 3 8 17) 1 4 5 (EpConn 6 7) 8 (Conn 2 9) (EpConn 10 11).
(** the blocks 2, 3, 4 and 9 are free; PD 5 shares the page at 100000 *)
Definition disk_demo : process unit ramdisk_server_context_t :=
  Process tt shared_zero 0 (fun a => a mod 251)
    (Ramdisk gen_demo (2 ^ 24) None (Some 0%nat) (<[5%nat := 100000]> (repeat 0 MAX_CLIENT_ID))
       (<[0%nat := BlockNode 2 3 (Some 1%nat)]> (<[1%nat := BlockNode 9 1 None]> ∅)) 2).
Definition list_demo : list (nat * (Z * Z)) := [(0%nat, (2, 3)); (1%nat, (9, 1))].

Lemma disk_demo_ok : disk_ok (program disk_demo) list_demo.
Proof.
  split.
  - split; [done|]. exists (Some 1%nat). split; [done|]. split; [done|]. by exists None.
  - apply (bool_decide_unpack _). by vm_compute.
  - apply (bool_decide_unpack _). by vm_compute.
  - change RAMDISK_BLOCKS with 1024. simpl. change RAMDISK_BLOCKS with 1024. lia.
Qed.

Lemma ramdisk_alloc_refines_witness :
  exists s' l', alloc_block disk_demo = (Ok (0, Some 2), set_program s' disk_demo) /\
    disk_ok s' l' /\ blocks l'.*2 = [3; 4; 9] /\ 2 ∉ [3; 4; 9] /\ list_changed (program disk_demo) s'.
Proof. exact (ramdisk_alloc_refines disk_demo list_demo disk_demo_ok). Defined.

Lemma ramdisk_alloc_free_roundtrip_witness :
  exists p2 l2, (r ← alloc_block; free_block (fun _ => false) 2 ;; mret r) disk_demo = (Ok (0, Some 2), p2) /\
    disk_ok (program p2) l2 /\ blocks l2.*2 = [2; 3; 4; 9].
Proof.
  apply (ramdisk_alloc_free_roundtrip (fun _ => false) disk_demo list_demo 2 [3; 4; 9]);
    [exact disk_demo_ok|reflexivity|reflexivity].
Defined.

(** freeing block 7 loses the blocks 2, 3 and 4 *)
Lemma ramdisk_free_loses_blocks_witness :
  exists s' l', free_block (fun _ => false) 7 disk_demo = (Ok tt, set_program s' disk_demo) /\ disk_ok s' l' /\
    blocks l'.*2 = [7; 9].
Proof.
  apply (ramdisk_free_loses_blocks (fun _ => false) disk_demo list_demo 7);
    [exact disk_demo_ok|change RAMDISK_BLOCKS with 1024; lia| | |reflexivity].
  - apply (bool_decide_unpack _). by vm_compute.
  - intros c n [[= -> ->]|[[= -> ->]|[]%elem_of_nil]%elem_of_cons]%elem_of_cons; lia.
Defined.

Definition block_badge : Z := badge_of 17 5 8 3.
Lemma access_demo : may_access (program disk_demo) block_badge 3 100000.
Proof.
  split; try reflexivity; try (change RAMDISK_BLOCKS with 1024; lia); [done|by vm_compute|].
  left. simpl. unfold RAMDISK_BLOCK_SIZE. lia.
Qed.

Lemma ramdisk_write_read_witness :
  let p1 := (ramdisk_request_handler nanopb_none 1 (fun _ => false) (RdMessage RD_RPC_MAGIC WRITE) block_badge 0 disk_demo).2 in
  (forall a, ~ (2 ^ 24 + 3 * 4096 <= a < 2 ^ 24 + 3 * 4096 + 4096) -> memory p1 a = memory disk_demo a) /\
  exists p3, ramdisk_request_handler nanopb_none 1 (fun _ => false) (RdMessage RD_RPC_MAGIC READ) block_badge 0 p1 =
      (Ok (answer 0, false), p3) /\
    forall i, 0 <= i < 4096 -> memory p3 (100000 + i) = memory disk_demo (100000 + i).
Proof.
  intros p1. apply (ramdisk_write_read nanopb_none 1 (fun _ => false) disk_demo p1 block_badge block_badge 3 100000 100000 0 0);
    [exact access_demo|exact access_demo|reflexivity|reflexivity].
Defined.

Lemma ramdisk_destroy_space_stops_witness :
  stops (ramdisk_work_handler nanopb_none (fun _ => false)
    (Work PdWorkAction_DESTROY [(8, BADGE_OBJ_ID_NULL, 1)] 1)) disk_demo AssertFail.
Proof. apply ramdisk_destroy_space_stops. reflexivity. Defined.
End RamdiskWitnesses.
