(* ===== verification/Xv6Bio.v ===== *)
(** * The buffer cache of the xv6 file system

    Model of [apps/xv6fs/src/fs_server/bio.c], with the data structures of the file
    system ([fs.h], [file.h], [buf.h]).  The cache has [NBUF] buffers in an array, and
    a circular list of them, the most recently used first: the array is [bufs], the
    list is [lru], which holds indices.  The data of a block are the bytes of an
    array, a function of the offset; structures on the disk are read and written byte
    by byte, the lowest byte first.

    The blocks themselves belong to the program that the file system is linked into:
    an interface, the class [Disk].  The file FsServer implements it with the RAM
    disk.

    A buffer that was changed is never written back: nothing calls bwrite.  As long as
    no more than [NBUF] blocks are in use the cache is the disk, and reading and
    changing blocks are those of a map from block numbers to blocks ([holds]); when a
    31st block is read, the changes to another one are lost. *)

From stdpp Require Import base numbers list gmap.
From S2P Require Import Prelude Strings.

(** ** Bytes *)
Abbreviation bytes := (Z -> Z).

(** an unsigned integer of [n] bytes *)
Fixpoint get (n : nat) (f : bytes) (off : Z) : Z :=
  match n with
  | O => 0
  | S n => f off + 256 * get n f (off + 1)
  end.
Definition upd {A} (f : Z -> A) (k : Z) (a : A) : Z -> A := fun i => if i =? k then a else f i.
Fixpoint put (n : nat) (f : bytes) (off v : Z) : bytes :=
  match n with
  | O => f
  | S n => put n (upd f off (v mod 256)) (off + 1) (v / 256)
  end.
(** memmove(dst + d, src + s, n), of different arrays, and memset(dst + d, c, n) *)
Definition blit (dst : bytes) (d : Z) (src : bytes) (s n : Z) : bytes := fun i =>
  if (d <=? i) && (i <? d + n) then src (s + (i - d)) else dst i.
Definition fill (dst : bytes) (d n c : Z) : bytes := fun i =>
  if (d <=? i) && (i <? d + n) then c else dst i.
(** arrays of bytes and of 32-bit words *)
Definition to_list (n : nat) (f : bytes) (off : Z) : list Z := (fun i => f (off + Z.of_nat i)) <$> seq 0 n.
Definition of_list (l : list Z) : bytes := fun i => if i <? 0 then 0 else default 0 (l !! Z.to_nat i).
Definition get_words (n : nat) (f : bytes) (off : Z) : list Z :=
  (fun i => get 4 f (off + 4 * Z.of_nat i)) <$> seq 0 n.
Fixpoint put_words (f : bytes) (off : Z) (l : list Z) : bytes :=
  match l with
  | [] => f
  | w :: l => put_words (put 4 f off w) (off + 4) l
  end.

(** ** fs_shared.h and fs.h *)
Definition BSIZE : Z := 4096.
Definition FS_SIZE : Z := 2 ^ 22 / 4096 / 2.
Definition N_INODES : Z := 2 ^ 22 / 4096 / 2 / 2.
Definition ROOTDEV : Z := 1.
Definition NDEV : Z := 10.
Definition MAXOPBLOCKS : Z := 10.
Definition LOGSIZE : Z := 0.
Definition NBUF : nat := 30.
Definition MAXPATH : nat := 128.
Definition ROOTINO : Z := 1.
Definition FSMAGIC : Z := 0x10203040.
Definition NDIRECT : Z := 12.
Definition NINDIRECT : Z := BSIZE / 4.
Definition MAXFILE : Z := NDIRECT + NINDIRECT.
(** sizeof(struct dinode): four shorts, the size, and the addresses *)
Definition sizeof_dinode : Z := 64.
Definition IPB : Z := BSIZE / sizeof_dinode.
Definition BPB : Z := BSIZE * 8.
Definition DIRSIZ : nat := 14.
Definition sizeof_dirent : Z := 16.
(** defs.h *)
Definition T_DIR : Z := 1.
Definition T_FILE : Z := 2.
Definition T_DEVICE : Z := 3.
Definition T_SOCK : Z := 4.

Record superblock := Superblock {
  sb_magic : Z;
  sb_size : Z;
  sb_nblocks : Z;
  sb_ninodes : Z;
  sb_nlog : Z;
  sb_logstart : Z;
  sb_inodestart : Z;
  sb_bmapstart : Z
}.
Definition IBLOCK (i : Z) (sb : superblock) : Z := u32 (i / IPB + sb_inodestart sb).
Definition BBLOCK (b : Z) (sb : superblock) : Z := u32 (b / BPB + sb_bmapstart sb).

(** struct dinode at an offset of a block *)
Record dinode := Dinode {
  d_type : Z;
  d_major : Z;
  d_minor : Z;
  d_nlink : Z;
  d_size : Z;
  d_addrs : list Z
}.
Definition get_dinode (f : bytes) (off : Z) : dinode :=
  Dinode (i16 (get 2 f off)) (i16 (get 2 f (off + 2))) (i16 (get 2 f (off + 4))) (i16 (get 2 f (off + 6)))
    (get 4 f (off + 8)) (get_words 13 f (off + 12)).
Definition put_dinode (f : bytes) (off : Z) (d : dinode) : bytes :=
  put_words (put 4 (put 2 (put 2 (put 2 (put 2 f off (d_type d)) (off + 2) (d_major d)) (off + 4) (d_minor d))
    (off + 6) (d_nlink d)) (off + 8) (d_size d)) (off + 12) (d_addrs d).

(** struct dirent, in 16 bytes; the name is a cell for each byte of the array *)
Definition de_inum (de : bytes) : Z := get 2 de 0.
Definition de_name (de : bytes) : list Z := to_list DIRSIZ de 2.

(** ** buf.h, file.h and proc.h: the state *)
Record buf := Buf {
  b_valid : bool;
  b_dev : Z;
  b_blockno : Z;
  b_refcnt : Z;
  b_data : bytes
}.
Record bcache_t := Bcache { bufs : list buf; lru : list nat }.

(** struct inode *)
Record inode := Inode {
  i_dev : Z;
  i_inum : Z;
  i_ref : Z;
  i_valid : bool;
  i_type : Z;
  i_major : Z;
  i_minor : Z;
  i_nlink : Z;
  i_size : Z;
  i_ctime : Z;
  i_atime : Z;
  i_mtime : Z;
  i_addrs : list Z
}.
Definition inode_zero : inode := Inode 0 0 0 false 0 0 0 0 0 0 0 0 (repeat 0 13).

(** struct file; [f_major] is not set by what makes files *)
Inductive file_type := FD_NONE | FD_PIPE | FD_INODE | FD_DEVICE.
Record file := File {
  f_type : file_type;
  f_id : Z;
  f_ref : Z;
  f_readable : bool;
  f_writable : bool;
  f_ip : nat;
  f_off : Z;
  f_major : option Z;
  f_flags : Z
}.

(** what the files of the file system keep: the superblock, the cache, the table of
    inodes, the current directory, and the files on the heap.  An inode is known by its
    place in the table; the one after the table is null_inode. *)
Record xv6_t := Xv6 {
  sb : superblock;
  bcache : bcache_t;
  itable : list inode;
  cwd : option nat;
  files : gmap nat file;
  mallocs : nat
}.
Definition set_sb (v : superblock) (x : xv6_t) : xv6_t :=
  Xv6 v (bcache x) (itable x) (cwd x) (files x) (mallocs x).
Definition set_bcache (v : bcache_t) (x : xv6_t) : xv6_t :=
  Xv6 (sb x) v (itable x) (cwd x) (files x) (mallocs x).
Definition set_itable (v : list inode) (x : xv6_t) : xv6_t :=
  Xv6 (sb x) (bcache x) v (cwd x) (files x) (mallocs x).
Definition set_cwd (v : option nat) (x : xv6_t) : xv6_t :=
  Xv6 (sb x) (bcache x) (itable x) v (files x) (mallocs x).
Definition set_files (v : gmap nat file) (x : xv6_t) : xv6_t :=
  Xv6 (sb x) (bcache x) (itable x) (cwd x) v (mallocs x).
Definition set_mallocs (v : nat) (x : xv6_t) : xv6_t :=
  Xv6 (sb x) (bcache x) (itable x) (cwd x) (files x) v.

(** static storage *)
Definition buf_zero : buf := Buf false 0 0 0 (fun _ => 0).
Definition xv6_zero : xv6_t :=
  Xv6 (Superblock 0 0 0 0 0 0 0 0) (Bcache (repeat buf_zero NBUF) [])
    (repeat inode_zero (Z.to_nat N_INODES + 1)) None ∅ 0.

(** ** The disk *)

(** reading a block into a buffer with the given contents, and writing one *)
Class Disk (S : Type) := {
  xv6fs_bread : Z -> bytes -> M S bytes;
  xv6fs_bwrite : Z -> bytes -> M S unit
}.

Section Bio.
Context {S : Type} `{!Disk S}.

(** a computation with the state of the program and that of the file system *)
Abbreviation F := (M (S * xv6_t)).

Definition host {A} (m : M S A) : F A := fun s => let '(r, t) := m (fst s) in (r, (t, snd s)).
Definition fs : F xv6_t := gets snd.
Definition fs_modify (f : xv6_t -> xv6_t) : F unit := modify (fun s => (fst s, f (snd s))).

(** xv6fs_panic: a message, and a loop that never ends *)
Definition xv6fs_panic {A} : F A := crash Spin.

Definition buf_load (i : nat) : F buf :=
  x ← fs;
  match bufs (bcache x) !! i with Some b => mret b | None => crash OutOfBounds end.
Definition buf_store (i : nat) (b : buf) : F unit :=
  fs_modify (fun x => set_bcache (Bcache (<[i := b]> (bufs (bcache x))) (lru (bcache x))) x).
(** [b->data] *)
Definition buf_data (i : nat) : F bytes := b ← buf_load i; mret (b_data b).
Definition buf_set (i : nat) (data : bytes) : F unit :=
  b ← buf_load i; buf_store i (Buf (b_valid b) (b_dev b) (b_blockno b) (b_refcnt b) data).

(** ** bio.c *)

(** each buffer is put at the head of the list *)
Definition binit : F unit :=
  fs_modify (fun x => set_bcache (Bcache (bufs (bcache x)) (rev (seq 0 NBUF))) x).

Definition is_block (l : list buf) (dev blockno : Z) (i : nat) : bool :=
  match l !! i with
  | Some b => (b_dev b =? dev) && (b_blockno b =? blockno)
  | None => false
  end.
Definition is_unused (l : list buf) (i : nat) : bool :=
  match l !! i with Some b => b_refcnt b =? 0 | None => false end.

Definition bget (dev blockno : Z) : F nat :=
  x ← fs;
  match List.find (is_block (bufs (bcache x)) dev blockno) (lru (bcache x)) with
  | Some i =>
      b ← buf_load i;
      buf_store i (Buf (b_valid b) (b_dev b) (b_blockno b) (u32 (b_refcnt b + 1)) (b_data b)) ;; mret i
  | None =>
      match List.find (is_unused (bufs (bcache x))) (rev (lru (bcache x))) with
      | Some i => b ← buf_load i; buf_store i (Buf false dev blockno 1 (b_data b)) ;; mret i
      | None => xv6fs_panic
      end
  end.

(** fs_server.c *)
Definition disk_rw (i : nat) (write : bool) : F unit :=
  b ← buf_load i;
  if write then host (xv6fs_bwrite (b_blockno b) (b_data b))
  else data ← host (xv6fs_bread (b_blockno b) (b_data b)); buf_set i data.

Definition bread (dev blockno : Z) : F nat :=
  i ← bget dev blockno;
  b ← buf_load i;
  (if b_valid b then mret tt
   else
     disk_rw i false ;;
     b ← buf_load i;
     buf_store i (Buf true (b_dev b) (b_blockno b) (b_refcnt b) (b_data b))) ;;
  mret i.

Definition bwrite (i : nat) : F unit := disk_rw i true.

Definition brelse (i : nat) : F unit :=
  b ← buf_load i;
  let refcnt := u32 (b_refcnt b - 1) in
  buf_store i (Buf (b_valid b) (b_dev b) (b_blockno b) refcnt (b_data b)) ;;
  when (refcnt =? 0)
    (fs_modify (fun x => set_bcache (Bcache (bufs (bcache x))
       (i :: filter (fun j => j <> i) (lru (bcache x)))) x)).

Definition bpin (i : nat) : F unit :=
  b ← buf_load i; buf_store i (Buf (b_valid b) (b_dev b) (b_blockno b) (u32 (b_refcnt b + 1)) (b_data b)).
Definition bunpin (i : nat) : F unit :=
  b ← buf_load i; buf_store i (Buf (b_valid b) (b_dev b) (b_blockno b) (u32 (b_refcnt b - 1)) (b_data b)).
End Bio.

(** ** The cache is the disk *)

Lemma upd_same {A} (f : Z -> A) k a : upd f k a k = a.
Proof. unfold upd. by rewrite Z.eqb_refl. Qed.
Lemma upd_other {A} (f : Z -> A) k a i : i <> k -> upd f k a i = f i.
Proof. intros. unfold upd. by rewrite (proj2 (Z.eqb_neq _ _)). Qed.

(** the buffers in use are [held], with their blocks: a buffer of the file system's
    device has a block of [bs], each a different one, with its contents in [v]; all
    other blocks have theirs on the disk.  Buffers without a block come last. *)
Record cache_ok (bs : list Z) (n : Z) (held : list (nat * Z)) (v disk : Z -> bytes) (l : list buf) (r : list nat)
  : Prop := {
  ca_len : length l = NBUF;
  ca_lru : r ≡ₚ seq 0 NBUF;
  ca_refs : forall i b, l !! i = Some b -> b_refcnt b = Z.of_nat (length (filter (fun h => fst h = i) held));
  ca_tail : exists used free, filter (fun i => i ∉ held.*1) r = used ++ free /\
    (forall i b, i ∈ used -> l !! i = Some b -> b_dev b = ROOTDEV) /\
    (forall i b, i ∈ free -> l !! i = Some b -> b_dev b <> ROOTDEV);
  ca_held : forall i bno, (i, bno) ∈ held -> exists b, l !! i = Some b /\ b_dev b = ROOTDEV /\ b_blockno b = bno;
  ca_distinct : forall i j b b', l !! i = Some b -> l !! j = Some b' -> b_dev b = ROOTDEV ->
    b_dev b' = ROOTDEV -> b_blockno b = b_blockno b' -> i = j;
  ca_view : forall i b, l !! i = Some b -> b_dev b = ROOTDEV ->
    b_valid b = true /\ b_blockno b ∈ bs /\ forall k, b_data b k = v (b_blockno b) k;
  ca_disk : forall bno k, 0 <= bno < n ->
    (forall i b, l !! i = Some b -> b_dev b = ROOTDEV -> b_blockno b <> bno) -> disk bno k = v bno k
}.

Section CacheOk.
Context (bs : list Z) (n : Z).
Implicit Types (held : list (nat * Z)) (v disk : Z -> bytes) (l : list buf) (r : list nat).

Lemma insert_cases {A} (l : list A) i j (a b : A) : <[i := a]> l !! j = Some b ->
  (j = i /\ b = a /\ is_Some (l !! i)) \/ (j <> i /\ l !! j = Some b).
Proof.
  intros [(-> & <- & Hl)|[Hne E]]%list_lookup_insert_Some; [|by right].
  left. split; [done|]. split; [done|]. by apply lookup_lt_is_Some_2.
Qed.

(** the buffer of a cached block gets one more user *)
Lemma cache_hit held v disk l r i b : cache_ok bs n held v disk l r -> l !! i = Some b -> b_dev b = ROOTDEV ->
  cache_ok bs n ((i, b_blockno b) :: held) v disk
    (<[i := Buf (b_valid b) (b_dev b) (b_blockno b) (b_refcnt b + 1) (b_data b)]> l) r.
Proof.
  intros [Hlen Hlru Hrefs (used & free & Etail & Hused & Hfree) Hheld Hdist Hview Hdisk] Hi Hd.
  split.
  - by rewrite length_insert.
  - done.
  - intros j b' [(-> & -> & _)|[Hne Hj]]%insert_cases; rewrite filter_cons; simpl.
    + rewrite decide_True by done. simpl. rewrite (Hrefs i b Hi). lia.
    + rewrite decide_False by congruence. by apply Hrefs.
  - exists (filter (fun j => j <> i) used), free. split; [|split].
    + assert (i ∉ free) as Hif by (intros Hif; by apply (Hfree i b Hif Hi)).
      transitivity (filter (fun j => j <> i) (filter (fun j => j ∉ held.*1) r)).
      * rewrite list_filter_filter. apply list_filter_iff. intros j. csimpl. rewrite not_elem_of_cons. tauto.
      * rewrite Etail, filter_app. f_equal. apply list_filter_all. intros j Hj ->. done.
    + intros j b' [Hne Hj]%list_elem_of_filter [(-> & -> & _)|[_ Hl]]%insert_cases; [done|by eapply Hused].
    + intros j b' Hj [(-> & -> & _)|[_ Hl]]%insert_cases; [by destruct (Hfree i b Hj Hi)|by eapply Hfree].
  - intros j bno [[= -> ->]|Hj]%elem_of_cons.
    + eexists. rewrite list_lookup_insert_eq by by apply lookup_lt_Some in Hi. done.
    + destruct (Hheld j bno Hj) as (b' & Hl & Hb'). destruct (decide (j = i)) as [->|Hne].
      * simplify_eq. eexists. rewrite list_lookup_insert_eq by by apply lookup_lt_Some in Hi. done.
      * exists b'. by rewrite list_lookup_insert_ne by done.
  - intros j j' c c' Hc Hc' Hdc Hdc' E.
    apply insert_cases in Hc as [(-> & -> & _)|[Hne Hc]], Hc' as [(-> & -> & _)|[Hne' Hc']]; simpl in *;
      [done|by apply (Hdist i j' b c')|by apply (Hdist j i c b)|by apply (Hdist j j' c c')].
  - intros j c [(-> & -> & _)|[Hne Hc]]%insert_cases Hdc; [by apply (Hview i b)|by apply (Hview j c)].
  - intros bno k Hb Hno. apply Hdisk; [done|]. intros j c Hc Hdc. destruct (decide (j = i)) as [->|Hne].
    + simplify_eq. exact (Hno i _ (list_lookup_insert_eq _ _ _ (lookup_lt_Some _ _ _ Hi)) Hd).
    + apply (Hno j); [by rewrite list_lookup_insert_ne by done|done].
Qed.

(** a buffer that is in use is a buffer with users *)
Lemma unused_spec held v disk l r i : cache_ok bs n held v disk l r -> i ∈ r ->
  is_unused l i = true <-> i ∉ held.*1.
Proof.
  intros Hok Hi. assert (i < length l)%nat as Hlt.
  { rewrite (ca_len _ _ _ _ _ _ _ Hok). rewrite (ca_lru _ _ _ _ _ _ _ Hok) in Hi.
    apply elem_of_seq in Hi. lia. }
  apply lookup_lt_is_Some_2 in Hlt as [b Hb]. unfold is_unused.
  rewrite Hb, (ca_refs _ _ _ _ _ _ _ Hok i b Hb), Z.eqb_eq. split.
  - intros E [[j bno] [-> Hh]]%list_elem_of_fmap. simpl in *.
    assert ((j, bno) ∈ filter (fun h => h.1 = j) held) as Hf by by apply list_elem_of_filter.
    destruct (filter _ held); [by apply elem_of_nil in Hf|]. simpl in E. lia.
  - intros Hn. rewrite list_filter_none; [done|]. intros [j bno] Hh <-. apply Hn.
    by apply list_elem_of_fmap_2 with (f := fst) in Hh.
Qed.

Lemma find_head_filter {A} (f : A -> bool) (r : list A) :
  List.find f r = list.head (filter (fun x => f x = true) r).
Proof. induction r as [|x r IH]; [done|]. rewrite filter_cons. simpl. by destruct (f x). Qed.
Lemma filter_rev {A} (P : A -> Prop) `{forall x, Decision (P x)} (r : list A) :
  filter P (rev r) = rev (filter P r).
Proof.
  induction r as [|x r IH]; [done|]. simpl. rewrite filter_app, IH, !filter_cons.
  destruct (decide (P x)); [done|]. simpl. by rewrite app_nil_r.
Qed.

(** as long as the blocks in use fit into the cache, there is a buffer without one *)
Lemma victim held v disk l r b : cache_ok bs n held v disk l r -> NoDup bs -> (length bs <= NBUF)%nat -> b ∈ bs ->
  (forall j c, l !! j = Some c -> b_dev c = ROOTDEV -> b_blockno c <> b) ->
  exists i used free, List.find (is_unused l) (rev r) = Some i /\
    filter (fun i => i ∉ held.*1) r = used ++ free ++ [i] /\
    (forall i b, i ∈ used -> l !! i = Some b -> b_dev b = ROOTDEV) /\
    (forall j b, j ∈ free ++ [i] -> l !! j = Some b -> b_dev b <> ROOTDEV).
Proof.
  intros Hok Hnd Hbs Hb Hno. destruct (ca_tail _ _ _ _ _ _ _ Hok) as (used & free & Etail & Hused & Hfree).
  destruct free as [|i free _] using rev_ind.
  - exfalso. rewrite app_nil_r in Etail.
    assert (forall j c, l !! j = Some c -> b_dev c = ROOTDEV) as Hall.
    { intros j c Hc. destruct (decide (j ∈ held.*1)) as [[[j' bno] [-> Hh]]%list_elem_of_fmap|Hn].
      - destruct (ca_held _ _ _ _ _ _ _ Hok j' bno Hh) as (c' & Hc' & ? & _). simpl in Hc. by simplify_eq.
      - apply (Hused j c); [|done]. rewrite <- Etail. apply list_elem_of_filter. split; [done|].
        rewrite (ca_lru _ _ _ _ _ _ _ Hok). apply elem_of_seq. apply lookup_lt_Some in Hc.
        rewrite (ca_len _ _ _ _ _ _ _ Hok) in Hc. lia. }
    assert (NoDup (b :: (b_blockno <$> l))) as Hnd'.
    { apply NoDup_cons. split.
      - intros (c & -> & [j Hc]%list_elem_of_lookup)%list_elem_of_fmap. by apply (Hno j c Hc (Hall j c Hc)).
      - apply NoDup_alt. intros j j' x Hj Hj'. rewrite list_lookup_fmap in Hj, Hj'.
        apply fmap_Some in Hj as (c & Hc & ->), Hj' as (c' & Hc' & E).
        by apply (ca_distinct _ _ _ _ _ _ _ Hok j j' c c' Hc Hc' (Hall _ _ Hc) (Hall _ _ Hc')). }
    assert (b :: (b_blockno <$> l) ⊆ bs) as Hsub.
    { intros x [->|(c & -> & [j Hc]%list_elem_of_lookup)%list_elem_of_fmap]%elem_of_cons; [done|].
      apply (ca_view _ _ _ _ _ _ _ Hok j c Hc (Hall j c Hc)). }
    apply (NoDup_submseteq _ _ Hnd') in Hsub. apply submseteq_length in Hsub.
    simpl in Hsub. rewrite length_fmap, (ca_len _ _ _ _ _ _ _ Hok) in Hsub. lia.
  - exists i, used, free. split; [|done].
    rewrite find_head_filter, filter_rev.
    replace (filter (fun x => is_unused l x = true) r) with (filter (fun i => i ∉ held.*1) r).
    + by rewrite Etail, app_assoc, rev_unit.
    + clear Etail. assert (forall j, j ∈ r -> is_unused l j = true <-> j ∉ held.*1) as Hr
        by (intros j; by apply (unused_spec held v disk)).
      clear Hok. induction r as [|j r IH]; [done|]. rewrite !filter_cons.
      pose proof (Hr j ltac:(by left)) as Hj. rewrite IH by (intros k Hk; apply Hr; by right).
      do 2 case_decide; tauto.
Qed.

(** a buffer without a block gets one *)
Lemma cache_miss held v disk l r i used free b data : cache_ok bs n held v disk l r -> b ∈ bs -> 0 <= b < n ->
  (forall j c, l !! j = Some c -> b_dev c = ROOTDEV -> b_blockno c <> b) ->
  filter (fun i => i ∉ held.*1) r = used ++ free ++ [i] ->
  (forall i b, i ∈ used -> l !! i = Some b -> b_dev b = ROOTDEV) ->
  (forall j b, j ∈ free ++ [i] -> l !! j = Some b -> b_dev b <> ROOTDEV) ->
  (forall k, data k = disk b k) ->
  cache_ok bs n ((i, b) :: held) v disk (<[i := Buf true ROOTDEV b 1 data]> l) r.
Proof.
  intros [Hlen Hlru Hrefs _ Hheld Hdist Hview Hdisk] Hb Hn Hno Etail Hused Hfree Hdata.
  assert (i ∈ filter (fun i => i ∉ held.*1) r) as [Hi Hr]%list_elem_of_filter.
  { rewrite Etail, !elem_of_app. right. right. by left. }
  assert (i < length l)%nat as Hlt by (rewrite Hlru in Hr; apply elem_of_seq in Hr; lia).
  assert (NoDup (used ++ free ++ [i])) as Hnd.
  { rewrite <- Etail. apply NoDup_filter. rewrite Hlru. apply NoDup_seq. }
  split.
  - by rewrite length_insert.
  - done.
  - intros j c [(-> & -> & _)|[Hne Hj]]%insert_cases; rewrite filter_cons; simpl.
    + rewrite decide_True by done. rewrite list_filter_none; [done|]. intros [j bno] Hh E. apply Hi.
      simpl in E. subst. by apply list_elem_of_fmap_2 with (f := fst) in Hh.
    + rewrite decide_False by congruence. by apply Hrefs.
  - exists used, free. split; [|split].
    + transitivity (filter (fun j => j <> i) (filter (fun j => j ∉ held.*1) r)).
      * rewrite list_filter_filter. apply list_filter_iff. intros j. csimpl. rewrite not_elem_of_cons. tauto.
      * rewrite Etail, app_assoc, filter_app. rewrite app_assoc in Hnd.
        apply NoDup_app in Hnd as (_ & Hnd & _). rewrite list_filter_all.
        -- by rewrite filter_cons_False, filter_nil, app_nil_r by tauto.
        -- intros j Hj ->. apply (Hnd i Hj). by left.
    + intros j c Hj [(-> & -> & _)|[_ Hl]]%insert_cases; [done|by eapply Hused].
    + intros j c Hj [(-> & -> & _)|[_ Hl]]%insert_cases.
      * exfalso. apply NoDup_app in Hnd as (_ & _ & Hnd). apply NoDup_app in Hnd as (_ & Hnd & _).
        apply (Hnd i Hj). by left.
      * apply (Hfree j c); [|done]. apply elem_of_app. by left.
  - intros j bno [[= -> ->]|Hj]%elem_of_cons; [by eexists; rewrite list_lookup_insert_eq|].
    destruct (Hheld j bno Hj) as (c & Hl & Hc). exists c. rewrite list_lookup_insert_ne; [done|].
    intros ->. apply Hi. by apply list_elem_of_fmap_2 with (f := fst) in Hj.
  - intros j j' c c' Hc Hc' Hdc Hdc' E.
    apply insert_cases in Hc as [(-> & -> & _)|[Hne Hc]], Hc' as [(-> & -> & _)|[Hne' Hc']]; simpl in *;
      [done|by destruct (Hno j' c' Hc' Hdc')|by destruct (Hno j c Hc Hdc)|by apply (Hdist j j' c c')].
  - intros j c [(-> & -> & _)|[Hne Hc]]%insert_cases Hdc; [|by apply (Hview j c)]. simpl.
    split; [done|]. split; [done|]. intros k. by rewrite Hdata, Hdisk.
  - intros bno k Hbn Hno'. destruct (decide (bno = b)) as [->|Hne].
    + by destruct (Hno' i _ (list_lookup_insert_eq _ _ _ Hlt)).
    + apply Hdisk; [done|]. intros j c Hc Hdc. apply (Hno' j); [|done].
      rewrite list_lookup_insert_ne; [done|]. intros E. subst j. apply (Hfree i c); [|done..].
      apply elem_of_app. right. by left.
Qed.

(** what is stored in a buffer is the new contents of its block *)
Lemma cache_set held v disk l r i b B data : cache_ok bs n held v disk l r -> (i, b) ∈ held -> l !! i = Some B ->
  cache_ok bs n held (upd v b data) disk (<[i := Buf (b_valid B) (b_dev B) (b_blockno B) (b_refcnt B) data]> l) r.
Proof.
  intros [Hlen Hlru Hrefs (used & free & Etail & Hused & Hfree) Hheld Hdist Hview Hdisk] Hh Hi.
  destruct (Hheld i b Hh) as (B' & HB' & Hd & <-). simplify_eq.
  pose proof (lookup_lt_Some _ _ _ Hi) as Hlt. split.
  - by rewrite length_insert.
  - done.
  - intros j c [(-> & -> & _)|[Hne Hj]]%insert_cases; [exact (Hrefs i B Hi)|by apply Hrefs].
  - exists used, free. split; [done|]. split.
    + intros j c Hj [(-> & -> & _)|[_ Hl]]%insert_cases; [done|by eapply Hused].
    + intros j c Hj [(-> & -> & _)|[_ Hl]]%insert_cases; [by eapply (Hfree i B)|by eapply Hfree].
  - intros j bno Hj. destruct (Hheld j bno Hj) as (c & Hl & Hc). destruct (decide (j = i)) as [->|Hne].
    + simplify_eq. eexists. rewrite list_lookup_insert_eq by done. done.
    + exists c. by rewrite list_lookup_insert_ne by done.
  - intros j j' c c' Hc Hc' Hdc Hdc' E.
    apply insert_cases in Hc as [(-> & -> & _)|[Hne Hc]], Hc' as [(-> & -> & _)|[Hne' Hc']]; simpl in *;
      [done|by apply (Hdist i j' B c')|by apply (Hdist j i c B)|by apply (Hdist j j' c c')].
  - intros j c [(-> & -> & _)|[Hne Hc]]%insert_cases Hdc; simpl.
    + destruct (Hview i B Hi Hdc) as (? & ? & _). split; [done|]. split; [done|]. intros k. by rewrite upd_same.
    + destruct (Hview j c Hc Hdc) as (? & ? & Hv). split; [done|]. split; [done|]. intros k.
      rewrite upd_other; [done|]. intros E. apply Hne. by apply (Hdist j i c B).
  - intros bno k Hbn Hno. rewrite upd_other.
    + apply Hdisk; [done|]. intros j c Hc Hdc. destruct (decide (j = i)) as [->|Hne].
      * simplify_eq. exact (Hno i _ (list_lookup_insert_eq _ _ _ Hlt) Hd).
      * apply (Hno j); [by rewrite list_lookup_insert_ne by done|done].
    + intros ->. by apply (Hno i _ (list_lookup_insert_eq _ _ _ Hlt) Hd).
Qed.

(** a user is gone; after the last one the buffer is the most recently used *)
Lemma cache_release held v disk l r i b B : cache_ok bs n ((i, b) :: held) v disk l r -> l !! i = Some B ->
  let c := b_refcnt B - 1 in
  cache_ok bs n held v disk (<[i := Buf (b_valid B) (b_dev B) (b_blockno B) c (b_data B)]> l)
    (if c =? 0 then i :: filter (fun j => j <> i) r else r).
Proof.
  intros [Hlen Hlru Hrefs (used & free & Etail & Hused & Hfree) Hheld Hdist Hview Hdisk] Hi c.
  destruct (Hheld i b ltac:(by left)) as (B' & HB' & Hd & _). simplify_eq.
  pose proof (lookup_lt_Some _ _ _ Hi) as Hlt.
  assert (c = Z.of_nat (length (filter (fun h => h.1 = i) held))) as Ec.
  { unfold c. rewrite (Hrefs i B Hi), filter_cons. simpl. rewrite decide_True by done. simpl. lia. }
  assert (c = 0 <-> i ∉ held.*1) as Hc0.
  { rewrite Ec. split.
    - intros E [[j bno] [-> Hh]]%list_elem_of_fmap. simpl in *.
      assert ((j, bno) ∈ filter (fun h => h.1 = j) held) as Hf by by apply list_elem_of_filter.
      destruct (filter _ held); [by apply elem_of_nil in Hf|]. simpl in E. lia.
    - intros Hn. rewrite list_filter_none; [done|]. intros [j bno] Hh <-. apply Hn.
      by apply list_elem_of_fmap_2 with (f := fst) in Hh. }
  assert (NoDup r) as Hndr by (rewrite Hlru; apply NoDup_seq).
  assert (i ∈ r) as Hir by (rewrite Hlru; apply elem_of_seq; lia).
  split.
  - by rewrite length_insert.
  - destruct (c =? 0); [|done]. rewrite <- Hlru. symmetry.
    apply NoDup_Permutation; [done| |].
    + apply NoDup_cons. split; [|by apply NoDup_filter]. by intros [? _]%list_elem_of_filter.
    + intros j. rewrite elem_of_cons, list_elem_of_filter. destruct (decide (j = i)) as [->|]; tauto.
  - intros j e [(-> & -> & _)|[Hne Hj]]%insert_cases; [done|].
    rewrite (Hrefs j e Hj), filter_cons. simpl. by rewrite decide_False by congruence.
  - destruct (Z.eqb_spec c 0) as [E0|Hn0].
    + exists (i :: used), free. split; [|split].
      * rewrite filter_cons_True by (by apply Hc0). simpl. f_equal.
        rewrite list_filter_filter, <- Etail. apply list_filter_iff. intros j. csimpl.
        rewrite not_elem_of_cons. tauto.
      * intros j e Hj [(_ & -> & _)|[Hne Hl]]%insert_cases; [done|].
        apply elem_of_cons in Hj as [|Hj]; [done|by eapply Hused].
      * intros j e Hj [(-> & -> & _)|[_ Hl]]%insert_cases; [by destruct (Hfree i B Hj Hi)|by eapply Hfree].
    + exists used, free. split; [|split].
      * rewrite <- Etail. apply list_filter_iff. intros j. csimpl. rewrite not_elem_of_cons.
        split; [|tauto]. intros Hj. split; [|done]. intros ->. by apply Hn0, Hc0.
      * intros j e Hj [(-> & -> & _)|[_ Hl]]%insert_cases; [done|by eapply Hused].
      * intros j e Hj [(-> & -> & _)|[_ Hl]]%insert_cases; [by destruct (Hfree i B Hj Hi)|by eapply Hfree].
  - intros j bno Hj. destruct (Hheld j bno ltac:(by right)) as (e & Hl & He).
    destruct (decide (j = i)) as [->|Hne].
    + simplify_eq. eexists. rewrite list_lookup_insert_eq by done. done.
    + exists e. by rewrite list_lookup_insert_ne by done.
  - intros j j' e e' He He' Hde Hde' E.
    apply insert_cases in He as [(-> & -> & _)|[Hne He]], He' as [(-> & -> & _)|[Hne' He']]; simpl in *;
      [done|by apply (Hdist i j' B e')|by apply (Hdist j i e B)|by apply (Hdist j j' e e')].
  - intros j e [(-> & -> & _)|[Hne He]]%insert_cases Hde; [by apply (Hview i B)|by apply (Hview j e)].
  - intros bno k Hbn Hno. apply Hdisk; [done|]. intros j e He Hde. destruct (decide (j = i)) as [->|Hne].
    + simplify_eq. exact (Hno i _ (list_lookup_insert_eq _ _ _ Hlt) Hde).
    + apply (Hno j); [by rewrite list_lookup_insert_ne by done|done].
Qed.
End CacheOk.

(** a view of a disk: the contents of its blocks, and what is so while it is used *)
Record disk_view (S : Type) := DiskView { dv_content : S -> Z -> bytes; dv_ok : S -> Prop }.
Arguments DiskView {S}.
Arguments dv_content {S}.
Arguments dv_ok {S}.
Coercion dv_content : disk_view >-> Funclass.

(** a disk that returns what it has, for the blocks below [n] *)
Definition reads_back {S} `{!Disk S} (content : disk_view S) (n : Z) : Prop :=
  forall t b data, dv_ok content t -> 0 <= b < n -> exists data' t', xv6fs_bread b data t = (Ok data', t') /\
    (forall k, data' k = content t b k) /\ (forall b' k, 0 <= b' < n -> content t' b' k = content t b' k) /\
    dv_ok content t'.

(** the state of the file system is that of [x] but for the cache, in which the blocks
    of [bs] may be used; their contents are [v], and the buffers of [held] are in use *)
Record cached {S} (content : disk_view S) (n : Z) (bs : list Z) (held : list (nat * Z)) (v : Z -> bytes)
    (x : xv6_t) (s : S * xv6_t) : Prop := {
  cd_ok : cache_ok bs n held v (content (fst s)) (bufs (bcache (snd s))) (lru (bcache (snd s)));
  cd_rest : set_bcache (bcache x) (snd s) = x;
  cd_disk : dv_ok content (fst s)
}.

(** the blocks of [bs] are on the disk and fit into the cache *)
Record fits {S} `{!Disk S} (content : disk_view S) (n : Z) (bs : list Z) : Prop := {
  ft_disk : reads_back content n;
  ft_nodup : NoDup bs;
  ft_len : (length bs <= NBUF)%nat;
  ft_range : forall b, b ∈ bs -> 0 <= b < n
}.
Arguments ft_disk {_ _ _ _ _} _.
Arguments ft_nodup {_ _ _ _ _} _.
Arguments ft_len {_ _ _ _ _} _.
Arguments ft_range {_ _ _ _ _} _.

Section Cached.
Context {S : Type} `{!Disk S} {content : disk_view S} {n : Z} {bs : list Z}.
Hypothesis (Hfits : fits content n bs).
Implicit Types (held : list (nat * Z)) (v : Z -> bytes) (x : xv6_t) (s : S * xv6_t).

Lemma buf_load_run i B s : bufs (bcache (snd s)) !! i = Some B -> buf_load i s = (Ok B, s).
Proof. intros Hi. unfold buf_load. erewrite bind_ok by reflexivity. by rewrite Hi. Qed.

(** the state after a buffer was stored *)
Definition stored (i : nat) (B : buf) (s : S * xv6_t) : S * xv6_t :=
  (fst s, set_bcache (Bcache (<[i := B]> (bufs (bcache (snd s)))) (lru (bcache (snd s)))) (snd s)).

Lemma bcache_rest x y c : set_bcache (bcache x) y = x -> set_bcache (bcache x) (set_bcache c y) = x.
Proof. by intros <-. Qed.

(** reading a block into a fresh buffer *)
Lemma fill_run i b B s : dv_ok content (fst s) -> bufs (bcache (snd s)) !! i = Some B -> 0 <= b < n -> exists data s',
  (b0 ← buf_load i; buf_store i (Buf false ROOTDEV b 1 (b_data b0)) ;; mret i) s =
    (Ok i, stored i (Buf false ROOTDEV b 1 (b_data B)) s) /\
  (b0 ← buf_load i;
   (if b_valid b0 then mret tt
    else disk_rw i false ;; b0 ← buf_load i; buf_store i (Buf true (b_dev b0) (b_blockno b0) (b_refcnt b0) (b_data b0))) ;;
   mret i) (stored i (Buf false ROOTDEV b 1 (b_data B)) s) = (Ok i, s') /\
  snd s' = snd (stored i (Buf true ROOTDEV b 1 data) s) /\
  (forall k, data k = content (fst s) b k) /\
  (forall b' k, 0 <= b' < n -> content (fst s') b' k = content (fst s) b' k) /\ dv_ok content (fst s').
Proof.
  intros Hok Hi Hb. pose proof (lookup_lt_Some _ _ _ Hi) as Hlt.
  destruct (ft_disk Hfits (fst s) b (b_data B) Hok Hb) as (data & t' & Hrun & Hdata & Hsame & Hok').
  exists data, (t', snd (stored i (Buf true ROOTDEV b 1 data) s)).
  split; [by rewrite (bind_ok _ _ _ _ _ (buf_load_run i B s Hi))|]. split; [|done].
  set (B0 := Buf false ROOTDEV b 1 (b_data B)). set (s0 := stored i B0 s).
  assert (bufs (bcache (snd s0)) !! i = Some B0) as Hi0 by by apply list_lookup_insert_eq.
  set (B1 := Buf false ROOTDEV b 1 data). set (s1 := (t', snd (stored i B1 s0))).
  assert (disk_rw i false s0 = (Ok tt, s1)) as Hrw.
  { unfold disk_rw. rewrite (bind_ok _ _ _ _ _ (buf_load_run i B0 s0 Hi0)).
    rewrite (bind_ok _ _ _ data (t', snd s0)) by (unfold host; simpl; by rewrite Hrun).
    unfold buf_set. by rewrite (bind_ok _ _ _ _ _ (buf_load_run i B0 (t', snd s0) Hi0)). }
  assert (bufs (bcache (snd s1)) !! i = Some B1) as Hi1.
  { apply list_lookup_insert_eq. unfold s0, stored. simpl. by rewrite length_insert. }
  rewrite (bind_ok _ _ _ _ _ (buf_load_run i B0 s0 Hi0)). cbv iota beta. cbn [b_valid B0].
  rewrite bind_assoc, (bind_ok _ _ _ _ _ Hrw), bind_assoc.
  rewrite (bind_ok _ _ _ _ _ (buf_load_run i B1 s1 Hi1)). unfold buf_store.
  erewrite (bind_ok (fs_modify _)) by reflexivity. unfold mret, M_ret. do 2 f_equal.
  unfold s1, s0, stored. simpl. by rewrite !list_insert_insert_eq.
Qed.

Lemma is_block_spec l b i : is_block l ROOTDEV b i = true <->
  exists B, l !! i = Some B /\ b_dev B = ROOTDEV /\ b_blockno B = b.
Proof.
  unfold is_block. destruct (l !! i) as [B|] eqn:E.
  - rewrite andb_true_iff, !Z.eqb_eq. split; [by exists B|]. by intros (? & [= <-] & ? & ?).
  - by split; [|intros (? & ? & _)].
Qed.

Lemma cached_store held held' v v' x s t' i B r :
  cache_ok bs n held' v' (content t') (<[i := B]> (bufs (bcache (snd s)))) r -> dv_ok content t' ->
  cached content n bs held v x s ->
  cached content n bs held' v' x (t', set_bcache (Bcache (<[i := B]> (bufs (bcache (snd s)))) r) (snd s)).
Proof. intros Hok Hd [_ Hrest _]. by split; [|apply bcache_rest|]. Qed.

Lemma cached_len held v x s i B : cached content n bs held v x s -> bufs (bcache (snd s)) !! i = Some B ->
  i ∈ lru (bcache (snd s)).
Proof.
  intros [Hok _ _] Hi. rewrite (ca_lru _ _ _ _ _ _ _ Hok). apply elem_of_seq. apply lookup_lt_Some in Hi.
  rewrite (ca_len _ _ _ _ _ _ _ Hok) in Hi. lia.
Qed.

(** reading a block that a buffer has *)
Lemma bread_hit held v x s i B : cached content n bs held v x s -> Z.of_nat (length held) + 1 < 2 ^ 32 ->
  List.find (is_block (bufs (bcache (snd s))) ROOTDEV (b_blockno B)) (lru (bcache (snd s))) = Some i ->
  bufs (bcache (snd s)) !! i = Some B -> b_dev B = ROOTDEV ->
  exists s', bread ROOTDEV (b_blockno B) s = (Ok i, s') /\ cached content n bs ((i, b_blockno B) :: held) v x s'.
Proof.
  intros Hc Hsmall Efind Hi Hd. pose proof (cd_ok _ _ _ _ _ _ _ Hc) as Hok.
  unfold bread, bget. rewrite bind_assoc. erewrite bind_ok by reflexivity. rewrite Efind, bind_assoc,
    (bind_ok _ _ _ _ _ (buf_load_run i B s Hi)), bind_assoc.
  erewrite bind_ok by reflexivity. erewrite bind_ok by reflexivity.
  assert (u32 (b_refcnt B + 1) = b_refcnt B + 1) as ->.
  { apply wrap_small. rewrite (ca_refs _ _ _ _ _ _ _ Hok i B Hi).
    pose proof (length_filter (fun h => h.1 = i) held). lia. }
  erewrite bind_ok by (apply buf_load_run, list_lookup_insert_eq; by apply lookup_lt_Some in Hi).
  simpl. destruct (ca_view _ _ _ _ _ _ _ Hok i B Hi Hd) as [Hv _].
  rewrite Hv. eexists. split; [reflexivity|]. eapply cached_store; [|apply Hc|done]. rewrite <- Hv. by apply cache_hit.
Qed.

Lemma cache_disk_ext held v disk disk' l r : (forall b k, 0 <= b < n -> disk' b k = disk b k) ->
  cache_ok bs n held v disk l r -> cache_ok bs n held v disk' l r.
Proof. intros E [? ? ? ? ? ? ? Hd]. split; [done..|]. intros b k Hb Hno. rewrite E by done. by apply Hd. Qed.

(** reading any other block *)
Lemma bread_miss held v x s b : cached content n bs held v x s -> b ∈ bs ->
  List.find (is_block (bufs (bcache (snd s))) ROOTDEV b) (lru (bcache (snd s))) = None ->
  exists i s', bread ROOTDEV b s = (Ok i, s') /\ cached content n bs ((i, b) :: held) v x s'.
Proof.
  intros Hc Hb Efind. pose proof (cd_ok _ _ _ _ _ _ _ Hc) as Hok.
  pose proof (ft_range Hfits b Hb) as Hbn.
  assert (forall j c, bufs (bcache (snd s)) !! j = Some c -> b_dev c = ROOTDEV -> b_blockno c <> b) as Hno.
  { intros j c Hj Hd Hbc. apply (find_none _ _) with (x := j) in Efind;
      [|by eapply list_elem_of_In, cached_len].
    rewrite (proj2 (is_block_spec _ _ _)) in Efind; [done|]. by exists c. }
  destruct (victim _ _ held v _ _ _ b Hok (ft_nodup Hfits) (ft_len Hfits) Hb Hno) as (i & used & free & Ei & Etail & Hused & Hfree).
  assert (is_Some (bufs (bcache (snd s)) !! i)) as [B HB].
  { apply lookup_lt_is_Some. rewrite (ca_len _ _ _ _ _ _ _ Hok). apply find_some in Ei as [Ei _].
    rewrite <- in_rev in Ei. apply list_elem_of_In in Ei. rewrite (ca_lru _ _ _ _ _ _ _ Hok) in Ei.
    apply elem_of_seq in Ei. lia. }
  destruct (fill_run i b B s (cd_disk _ _ _ _ _ _ _ Hc) HB Hbn) as (data & s' & Hget & Hfill & Es' & Hdata & Hsame & Hd').
  unfold bread, bget. rewrite bind_assoc. erewrite bind_ok by reflexivity. rewrite Efind, Ei.
  rewrite (bind_ok _ _ _ _ _ Hget), Hfill. exists i, s'. split; [done|].
  destruct s' as [t' y]. simpl in *. subst y. eapply cached_store; [|done|done].
  eapply cache_disk_ext; [exact Hsame|]. by eapply cache_miss.
Qed.

(** reading a block of [bs] does not panic, and loses nothing *)
Lemma bread_run held v x s b : cached content n bs held v x s -> b ∈ bs -> Z.of_nat (length held) + 1 < 2 ^ 32 ->
  exists i s', bread ROOTDEV b s = (Ok i, s') /\ cached content n bs ((i, b) :: held) v x s'.
Proof.
  intros Hc Hb Hsmall. destruct (List.find (is_block (bufs (bcache (snd s))) ROOTDEV b) (lru (bcache (snd s)))) as [i|] eqn:E.
  - pose proof E as E'. apply find_some in E' as (_ & (B & Hi & Hd & <-)%is_block_spec).
    exists i. by apply bread_hit.
  - by apply bread_miss.
Qed.

Lemma held_buf held v x s i b : cached content n bs held v x s -> (i, b) ∈ held ->
  exists B, bufs (bcache (snd s)) !! i = Some B /\ forall k, b_data B k = v b k.
Proof.
  intros [Hok _ _] Hh. destruct (ca_held _ _ _ _ _ _ _ Hok i b Hh) as (B & HB & Hd & <-).
  exists B. split; [done|]. apply (ca_view _ _ _ _ _ _ _ Hok i B HB Hd).
Qed.

Lemma buf_data_run held v x s i b : cached content n bs held v x s -> (i, b) ∈ held ->
  exists d, buf_data i s = (Ok d, s) /\ forall k, d k = v b k.
Proof.
  intros Hc Hh. destruct (held_buf _ _ _ _ _ _ Hc Hh) as (B & HB & Hv). exists (b_data B). split; [|done].
  unfold buf_data. by rewrite (bind_ok _ _ _ _ _ (buf_load_run i B s HB)).
Qed.

Lemma buf_set_run held v x s i b d : cached content n bs held v x s -> (i, b) ∈ held ->
  exists s', buf_set i d s = (Ok tt, s') /\ cached content n bs held (upd v b d) x s'.
Proof.
  intros Hc Hh. destruct (held_buf _ _ _ _ _ _ Hc Hh) as (B & HB & _). unfold buf_set.
  rewrite (bind_ok _ _ _ _ _ (buf_load_run i B s HB)). eexists. split; [reflexivity|].
  eapply cached_store; [|apply Hc|done]. eapply cache_set; [apply Hc|done..].
Qed.

Lemma brelse_run held v x s i b : cached content n bs ((i, b) :: held) v x s -> Z.of_nat (length held) + 1 < 2 ^ 32 ->
  exists s', brelse i s = (Ok tt, s') /\ cached content n bs held v x s'.
Proof.
  intros Hc Hsmall. destruct (held_buf _ _ _ _ i b Hc ltac:(by left)) as (B & HB & _).
  pose proof (cd_ok _ _ _ _ _ _ _ Hc) as Hok. unfold brelse. rewrite (bind_ok _ _ _ _ _ (buf_load_run i B s HB)).
  erewrite bind_ok by reflexivity.
  assert (u32 (b_refcnt B - 1) = b_refcnt B - 1) as ->.
  { apply wrap_small. rewrite (ca_refs _ _ _ _ _ _ _ Hok i B HB), filter_cons. simpl. rewrite decide_True by done.
    pose proof (length_filter (fun h => h.1 = i) held). simpl. lia. }
  pose proof (cache_release _ _ held v _ _ _ i b B Hok HB) as Hrel. simpl in Hrel.
  unfold when. destruct (_ =? 0); (eexists; split; [reflexivity|]);
    exact (cached_store _ _ _ _ _ s (fst s) i _ _ Hrel (cd_disk _ _ _ _ _ _ _ Hc) Hc).
Qed.

(** the view is a function from bytes to bytes *)
Lemma cached_ext held v v' x s : (forall b k, v' b k = v b k) -> cached content n bs held v x s ->
  cached content n bs held v' x s.
Proof.
  intros E [[? ? ? ? ? ? Hv Hd] Hr Hdisk]. split; [|done..]. split; [done..| |].
  - intros i b Hi Hdev. destruct (Hv i b Hi Hdev) as (? & ? & Hk). do 2 (split; [done|]). intros k. by rewrite E.
  - intros b k Hb Hno. rewrite E. by apply Hd.
Qed.

(** changing anything else *)
Lemma cached_modify held v x s f : (forall y c, f (set_bcache c y) = set_bcache c (f y)) ->
  (forall y, bcache (f y) = bcache y) -> cached content n bs held v x s ->
  exists s', fs_modify f s = (Ok tt, s') /\ cached content n bs held v (f x) s'.
Proof.
  intros Hf Hb [Hok Hr Hk]. eexists. split; [reflexivity|]. split; simpl; [by rewrite Hb| |done].
  by rewrite Hb, <- Hf, Hr.
Qed.

(** the file system is as in [x], but for the cache *)
Lemma cached_fs held v x s : cached content n bs held v x s -> fs s = (Ok (snd s), s) /\
  sb (snd s) = sb x /\ itable (snd s) = itable x /\ cwd (snd s) = cwd x /\ files (snd s) = files x /\
  mallocs (snd s) = mallocs x.
Proof. intros [_ <- _]. by repeat split. Qed.
End Cached.

(** the cache at the start *)
Lemma cache_init bs n disk : cache_ok bs n [] disk disk (repeat buf_zero NBUF) (rev (seq 0 NBUF)).
Proof.
  assert (forall i b, repeat buf_zero NBUF !! i = Some b -> b = buf_zero) as Hz
    by (intros i b Hi; eapply repeat_spec, list_elem_of_In, list_elem_of_lookup_2, Hi).
  split; try done.
  - by rewrite <- Permutation_rev.
  - intros i b ->%Hz. done.
  - exists [], (rev (seq 0 NBUF)). split; [by rewrite list_filter_all by (intros ? _; apply not_elem_of_nil)|].
    split; [by intros ? ? ?%elem_of_nil|]. by intros i b _ ->%Hz.
  - by intros i b ?%elem_of_nil.
  - intros i j b b' ->%Hz. done.
  - intros i b ->%Hz. done.
Qed.

(** ** The specification of the cache: a map from block numbers to blocks *)
Inductive block_op :=
| BlockRead (b off : Z) (len : nat)
| BlockWrite (b off : Z) (data : list Z).

(** what the code does with a block: bread, memmove, brelse *)
Definition block_run {S} `{!Disk S} (op : block_op) : M (S * xv6_t) (list Z) :=
  match op with
  | BlockRead b off len =>
      bp ← bread ROOTDEV b; data ← buf_data bp;
      let r := to_list len data off in brelse bp ;; mret r
  | BlockWrite b off l =>
      bp ← bread ROOTDEV b; data ← buf_data bp;
      buf_set bp (blit data off (of_list l) 0 (Z.of_nat (length l))) ;; brelse bp ;; mret []
  end.
Fixpoint blocks_run {S} `{!Disk S} (ops : list block_op) : M (S * xv6_t) (list (list Z)) :=
  match ops with
  | [] => mret []
  | op :: ops => r ← block_run op; rs ← blocks_run ops; mret (r :: rs)
  end.

Definition block_of (op : block_op) : Z := match op with BlockRead b _ _ | BlockWrite b _ _ => b end.
Definition block_spec (v : Z -> bytes) (op : block_op) : list Z * (Z -> bytes) :=
  match op with
  | BlockRead b off len => (to_list len (v b) off, v)
  | BlockWrite b off l => ([], upd v b (blit (v b) off (of_list l) 0 (Z.of_nat (length l))))
  end.
Fixpoint blocks_spec (v : Z -> bytes) (ops : list block_op) : list (list Z) * (Z -> bytes) :=
  match ops with
  | [] => ([], v)
  | op :: ops => let '(r, v1) := block_spec v op in let '(rs, v2) := blocks_spec v1 ops in (r :: rs, v2)
  end.

Lemma to_list_ext n f g off : (forall k, f k = g k) -> to_list n f off = to_list n g off.
Proof. intros E. apply list_fmap_ext. intros _ i _. apply E. Qed.
Lemma blit_ext dst dst' d src src' s n : (forall k, dst k = dst' k) -> (forall k, src k = src' k) ->
  forall k, blit dst d src s n k = blit dst' d src' s n k.
Proof. intros E E' k. unfold blit. by rewrite E, E'. Qed.
Lemma fill_ext dst dst' d n c : (forall k, dst k = dst' k) -> forall k, fill dst d n c k = fill dst' d n c k.
Proof. intros E k. unfold fill. by rewrite E. Qed.
Lemma upd_ext (v : Z -> bytes) b d d' : (forall k, d k = d' k) -> forall b' k, upd v b d b' k = upd v b d' b' k.
Proof. intros E b' k. unfold upd. by destruct (b' =? b). Qed.

Lemma upd_ext2 (v v' : Z -> bytes) b d d' : (forall b k, v b k = v' b k) -> (forall k, d k = d' k) ->
  forall b' k, upd v b d b' k = upd v' b d' b' k.
Proof. intros Ev Ed b' k. unfold upd. by destruct (b' =? b). Qed.

Section Refinement.
Context {S : Type} `{!Disk S} {content : disk_view S} {n : Z} {bs : list Z}.
Hypothesis (Hfits : fits content n bs).

Lemma block_run_refines op v x s : cached content n bs [] v x s -> block_of op ∈ bs ->
  exists s', block_run op s = (Ok (fst (block_spec v op)), s') /\
    cached content n bs [] (snd (block_spec v op)) x s'.
Proof.
  intros Hc Hb. destruct (bread_run Hfits [] v x s _ Hc Hb) as (i & s1 & Hread & Hc1); [done|].
  destruct (buf_data_run _ v x s1 i (block_of op) Hc1) as (d & Hd & Ed); [by left|].
  destruct op as [b off len|b off l]; simpl in *;
    rewrite (bind_ok _ _ _ _ _ Hread), (bind_ok _ _ _ _ _ Hd).
  - destruct (brelse_run [] v x s1 i b Hc1) as (s2 & Hrel & Hc2); [done|].
    rewrite (bind_ok _ _ _ _ _ Hrel). exists s2. by rewrite (to_list_ext _ _ _ off Ed).
  - destruct (buf_set_run _ v x s1 i b (blit d off (of_list l) 0 (Z.of_nat (length l))) Hc1)
      as (s2 & Hset & Hc2); [by left|]. rewrite (bind_ok _ _ _ _ _ Hset).
    destruct (brelse_run [] _ x s2 i b Hc2) as (s3 & Hrel & Hc3); [done|].
    rewrite (bind_ok _ _ _ _ _ Hrel). exists s3. split; [done|].
    eapply cached_ext; [|done]. apply upd_ext, blit_ext; [|done]. by symmetry.
Qed.

Lemma blocks_run_refines ops v x s : cached content n bs [] v x s -> Forall (fun op => block_of op ∈ bs) ops ->
  exists s', blocks_run ops s = (Ok (fst (blocks_spec v ops)), s') /\
    cached content n bs [] (snd (blocks_spec v ops)) x s'.
Proof.
  intros Hc Hops. revert v s Hc. induction Hops as [|op ops Hop _ IH]; intros v s Hc; simpl; [by eexists|].
  destruct (block_run_refines op v x s Hc Hop) as (s1 & Hrun & Hc1).
  rewrite (bind_ok _ _ _ _ _ Hrun). destruct (block_spec v op) as [r v1]. simpl in *.
  destruct (IH v1 s1 Hc1) as (s2 & Hrun2 & Hc2). rewrite (bind_ok _ _ _ _ _ Hrun2).
  destruct (blocks_spec v1 ops) as [rs v2]. by eexists.
Qed.
End Refinement.

(** ** The cache at work *)

(** a disk as a map from block numbers to blocks *)
Definition plain_disk : Disk (Z -> bytes) := {|
  xv6fs_bread := fun b _ t => (Ok (t b), t);
  xv6fs_bwrite := fun b data t => (Ok tt, upd t b data)
|}.
Definition plain_view : disk_view (Z -> bytes) := DiskView (fun t => t) (fun _ => True).
Lemma plain_disk_fits n bs : NoDup bs -> (length bs <= NBUF)%nat -> (forall b, b ∈ bs -> 0 <= b < n) ->
  fits (Disk0 := plain_disk) plain_view n bs.
Proof. intros ???. split; [|done..]. intros t b data _ _. by exists (t b), t. Qed.

(** the state after binit *)
Definition booted {S} (t : S) : S * xv6_t := (t, set_bcache (Bcache (repeat buf_zero NBUF) (rev (seq 0 NBUF))) xv6_zero).

Lemma booted_cached {S} (content : disk_view S) n bs t : dv_ok content t ->
  cached content n bs [] (content t) xv6_zero (booted t).
Proof. by split; [apply cache_init|..]. Qed.

(** C9: Reading and changing blocks through the cache is reading and changing the blocks
    of a map that starts as the disk, for any sequence of reads and changes on at most
    [NBUF] different blocks of the disk.  Nothing panics, each read returns what was last
    written, and a block that is not in the cache is fetched from the disk. *)
Theorem cache_refines_blocks {S} `{!Disk S} (content : disk_view S) (n : Z) (bs : list Z) (t : S)
    (ops : list block_op) (Hfits : fits content n bs) (Ht : dv_ok content t) (Hops : Forall (fun op => block_of op ∈ bs) ops) :
  returns (binit ;; blocks_run ops) (t, xv6_zero) (fun r _ => r = fst (blocks_spec (content t) ops)).
Proof.
  destruct (blocks_run_refines Hfits ops (content t) xv6_zero (booted t) (booted_cached _ _ _ _ Ht) Hops)
    as (s' & Hrun & _).
  eexists _, s'. split; [|done]. by erewrite bind_ok by reflexivity.
Qed.

Definition demo_ops : list block_op :=
  [BlockWrite 7 0 [1; 2; 3]; BlockRead 8 4 2; BlockWrite 7 1 [9]; BlockRead 7 0 4].
Lemma cache_refines_blocks_witness :
  returns (binit ;; blocks_run (Disk0 := plain_disk) demo_ops) (fun b k => b + k, xv6_zero)
    (fun r _ => r = [[]; [12; 13]; []; [1; 9; 3; 10]]).
Proof.
  apply (cache_refines_blocks (Disk0 := plain_disk) plain_view 16 [7; 8]).
  - apply plain_disk_fits; [|vm_compute; lia|].
    + apply NoDup_cons. split; [|apply NoDup_singleton]. by intros ?%list_elem_of_singleton.
    + intros b [->|[->|[]%elem_of_nil]%elem_of_cons]%elem_of_cons; lia.
  - done.
  - repeat constructor; set_solver.
Defined.

(** A block is changed, then [NBUF] others are read: the change is lost, and the block
    is again as it is on the disk.  The cache takes the buffer of the block, which was not
    written back. *)
Theorem cache_loses_changes :
  let ops := BlockWrite 100 0 [1; 2; 3] :: ((fun b => BlockRead (Z.of_nat b) 0 1) <$> seq 0 NBUF) ++ [BlockRead 100 0 3] in
  let run := (binit ;; blocks_run (Disk0 := plain_disk) ops) (fun _ _ => 0, xv6_zero) in
  last (match fst run with Ok r => r | _ => [] end) = Some [0; 0; 0] /\
  last (fst (blocks_spec (fun _ _ => 0) ops)) = Some [1; 2; 3] /\
  fst (snd run) 100 0 = 0.
Proof. by vm_compute. Qed.

(** ** Steps of a run on the cache
    Each runs the first call of the goal, from a state described by the hypothesis [H]. *)
Tactic Notation "step_bread" constr(Hf) constr(b) hyp(H) "as" ident(i) ident(s1) ident(H1) :=
  let E := fresh in
  destruct (bread_run Hf _ _ _ _ b H) as (i & s1 & E & H1);
    [try done|try (simpl; lia)|rewrite (bind_ok _ _ _ _ _ E); clear E].
Tactic Notation "step_data" constr(b) hyp(H) "as" ident(d) ident(Ed) :=
  let E := fresh in
  match goal with |- context [(buf_data ?i ≫= _) _] =>
    destruct (buf_data_run _ _ _ _ i b H) as (d & E & Ed); [by left|rewrite (bind_ok _ _ _ _ _ E); clear E]
  end.
Tactic Notation "step_set" constr(b) hyp(H) "as" ident(s1) ident(H1) :=
  let E := fresh in
  match goal with |- context [(buf_set ?i ?d ≫= _) _] =>
    destruct (buf_set_run _ _ _ _ i b d H) as (s1 & E & H1); [by left|rewrite (bind_ok _ _ _ _ _ E); clear E]
  end.
Tactic Notation "step_brelse" hyp(H) "as" ident(s1) ident(H1) :=
  let E := fresh in
  destruct (brelse_run _ _ _ _ _ _ H) as (s1 & E & H1);
    [try (simpl; lia)|first [rewrite (bind_ok _ _ _ _ _ E)|rewrite E]; clear E].
