(* ===== verification/Xv6Fs.v ===== *)
(** * The core of the xv6 file system

    Model of [apps/xv6fs/src/fs_server/fs.c]: the allocator of blocks, inodes and the table
    of those in memory, the contents of files, directories and paths.  The table is
    [itable], an inode is known by its place in it; structures on the disk are in the
    blocks of the cache (Xv6Bio).  The locks of the file system do nothing.

    A path is the list of its characters, without the one that ends it; a name is an
    array of [DIRSIZ] characters. *)

From stdpp Require Import base numbers list gmap.
From S2P Require Import Prelude Strings Xv6Bio.

(** struct stat, what stati fills in *)
Record stat := Stat {
  st_dev : Z;
  st_ino : Z;
  st_nlink : Z;
  st_size : Z;
  st_blksize : Z;
  st_ctime : Z;
  st_atime : Z;
  st_mtime : Z
}.

Definition set_i_ref (v : Z) (ip : inode) : inode :=
  Inode (i_dev ip) (i_inum ip) v (i_valid ip) (i_type ip) (i_major ip) (i_minor ip) (i_nlink ip) (i_size ip)
    (i_ctime ip) (i_atime ip) (i_mtime ip) (i_addrs ip).
Definition set_i_valid (v : bool) (ip : inode) : inode :=
  Inode (i_dev ip) (i_inum ip) (i_ref ip) v (i_type ip) (i_major ip) (i_minor ip) (i_nlink ip) (i_size ip)
    (i_ctime ip) (i_atime ip) (i_mtime ip) (i_addrs ip).
Definition set_i_type (v : Z) (ip : inode) : inode :=
  Inode (i_dev ip) (i_inum ip) (i_ref ip) (i_valid ip) v (i_major ip) (i_minor ip) (i_nlink ip) (i_size ip)
    (i_ctime ip) (i_atime ip) (i_mtime ip) (i_addrs ip).
Definition set_i_nlink (v : Z) (ip : inode) : inode :=
  Inode (i_dev ip) (i_inum ip) (i_ref ip) (i_valid ip) (i_type ip) (i_major ip) (i_minor ip) v (i_size ip)
    (i_ctime ip) (i_atime ip) (i_mtime ip) (i_addrs ip).
Definition set_i_size (v : Z) (ip : inode) : inode :=
  Inode (i_dev ip) (i_inum ip) (i_ref ip) (i_valid ip) (i_type ip) (i_major ip) (i_minor ip) (i_nlink ip) v
    (i_ctime ip) (i_atime ip) (i_mtime ip) (i_addrs ip).
Definition set_i_addrs (v : list Z) (ip : inode) : inode :=
  Inode (i_dev ip) (i_inum ip) (i_ref ip) (i_valid ip) (i_type ip) (i_major ip) (i_minor ip) (i_nlink ip)
    (i_size ip) (i_ctime ip) (i_atime ip) (i_mtime ip) v.
Definition set_i_dinode (d : dinode) (ip : inode) : inode :=
  Inode (i_dev ip) (i_inum ip) (i_ref ip) (i_valid ip) (d_type d) (d_major d) (d_minor d) (d_nlink d) (d_size d)
    (i_ctime ip) (i_atime ip) (i_mtime ip) (d_addrs d).
(** what iupdate copies *)
Definition dinode_of (ip : inode) : dinode :=
  Dinode (i_type ip) (i_major ip) (i_minor ip) (i_nlink ip) (i_size ip) (i_addrs ip).

(** ** Names and paths *)

(** strncmp, on arrays that hold at least [n] characters or end before *)
Fixpoint strncmp (n : nat) (s t : list Z) : Z :=
  match n with
  | O => 0
  | S n =>
      let a := default 0 (head s) in let b := default 0 (head t) in
      if negb (a =? b) then a - b else if a =? 0 then 0 else strncmp n (tail s) (tail t)
  end.
Definition namecmp (s t : list Z) : Z := strncmp DIRSIZ s t.

Definition slash : Z := 47.
Fixpoint skip_slashes (path : list Z) : list Z :=
  match path with c :: rest => if c =? slash then skip_slashes rest else path | [] => [] end.
(** the characters before the next slash, and the rest *)
Fixpoint split_elem (path : list Z) : list Z * list Z :=
  match path with
  | c :: rest => if c =? slash then ([], path) else let '(e, r) := split_elem rest in (c :: e, r)
  | [] => ([], [])
  end.
(** the rest of the path and [name] as it is left; the characters of [name] after its end
    stay *)
Definition skipelem (path name : list Z) : option (list Z * list Z) :=
  match skip_slashes path with
  | [] => None
  | path =>
      let '(elem, rest) := split_elem path in
      let name :=
        if (DIRSIZ <=? length elem)%nat then take DIRSIZ elem
        else elem ++ 0 :: drop (S (length elem)) name in
      Some (skip_slashes rest, name)
  end.
(** char name[DIRSIZ], before it is set *)
Definition name_array : list Z := repeat 0 DIRSIZ.

(** ** Blocks and inodes *)

(** bit [bi] of a block of the bitmap *)
Definition bit_mask (bi : Z) : Z := Z.shiftl 1 (bi mod 8).
Definition bit_clear (data : bytes) (bi : Z) : bool := Z.land (data (bi / 8)) (bit_mask bi) =? 0.

(** the place of an inode in its block *)
Definition dinode_off (inum : Z) : Z := inum mod IPB * sizeof_dinode.

Section Fs.
Context {S : Type} `{!Disk S}.
Abbreviation F := (M (S * xv6_t)).

Definition inode_load (ip : nat) : F inode :=
  x ← fs;
  match itable x !! ip with Some i => mret i | None => crash OutOfBounds end.
Definition inode_modify (ip : nat) (f : inode -> inode) : F unit :=
  i ← inode_load ip; fs_modify (fun x => set_itable (<[ip := f i]> (itable x)) x).

Definition readsb (dev : Z) : F unit :=
  bp ← bread dev 1; data ← buf_data bp;
  let w i := get 4 data (4 * i) in
  fs_modify (set_sb (Superblock (w 0) (w 1) (w 2) (w 3) (w 4) (w 5) (w 6) (w 7))) ;;
  brelse bp.

Definition xv6fs_bzero (dev bno : Z) : F unit :=
  bp ← bread dev bno; data ← buf_data bp;
  buf_set bp (fill data 0 BSIZE 0) ;; brelse bp.

(** the loop over the blocks of the bitmap; [b] is the first block that the next one is
    about *)
Fixpoint balloc_loop (fuel : nat) (dev b : Z) : F Z :=
  match fuel with
  | O => no_fuel
  | Datatypes.S fuel =>
      x ← fs;
      let size := sb_size (sb x) in
      if u32 b <? size then
        bp ← bread dev (BBLOCK b (sb x)); data ← buf_data bp;
        match List.find (bit_clear data) (seqZ 0 (Z.min BPB (size - b))) with
        | Some bi =>
            buf_set bp (upd data (bi / 8) (Z.lor (data (bi / 8)) (bit_mask bi))) ;;
            brelse bp ;;
            xv6fs_bzero dev (b + bi) ;;
            mret (u32 (b + bi))
        | None => brelse bp ;; balloc_loop fuel dev (i32 (b + BPB))
        end
      else mret 0
  end.
Definition balloc (dev : Z) : F Z :=
  x ← fs; balloc_loop (Z.to_nat (sb_size (sb x) / BPB + 2)) dev 0.

Definition bfree (dev b : Z) : F unit :=
  x ← fs;
  bp ← bread dev (BBLOCK b (sb x)); data ← buf_data bp;
  let bi := b mod BPB in
  if bit_clear data bi then xv6fs_panic
  else
    buf_set bp (upd data (bi / 8) (Z.land (data (bi / 8)) (Z.lnot (bit_mask bi)))) ;;
    brelse bp.

(** [iget]: a place in the table for the inode *)
Definition is_inode (l : list inode) (dev inum : Z) (ip : nat) : bool :=
  match l !! ip with
  | Some i => (0 <? i_ref i) && (i_dev i =? dev) && (i_inum i =? inum)
  | None => false
  end.
Definition is_empty (l : list inode) (ip : nat) : bool :=
  match l !! ip with Some i => i_ref i =? 0 | None => false end.
Definition iget (dev inum : Z) : F nat :=
  x ← fs;
  let places := seq 0 (Z.to_nat N_INODES) in
  match List.find (is_inode (itable x) dev inum) places with
  | Some ip => inode_modify ip (fun i => set_i_ref (i32 (i_ref i + 1)) i) ;; mret ip
  | None =>
      match List.find (is_empty (itable x)) places with
      | Some ip =>
          inode_modify ip (fun i => Inode dev inum 1 false (i_type i) (i_major i) (i_minor i) (i_nlink i)
            (i_size i) (i_ctime i) (i_atime i) (i_mtime i) (i_addrs i)) ;;
          mret ip
      | None => xv6fs_panic
      end
  end.

Definition idup (ip : nat) : F nat :=
  inode_modify ip (fun i => set_i_ref (i32 (i_ref i + 1)) i) ;; mret ip.

(** [ialloc]: the loop from the inode [inum] *)
Fixpoint ialloc_loop (fuel : nat) (dev type inum : Z) : F (option nat) :=
  match fuel with
  | O => no_fuel
  | Datatypes.S fuel =>
      x ← fs;
      if u32 inum <? sb_ninodes (sb x) then
        bp ← bread dev (IBLOCK inum (sb x)); data ← buf_data bp;
        let off := dinode_off inum in
        if i16 (get 2 data off) =? 0 then
          buf_set bp (put 2 (fill data off sizeof_dinode 0) off type) ;;
          brelse bp ;;
          ip ← iget dev inum; mret (Some ip)
        else brelse bp ;; ialloc_loop fuel dev type (i32 (inum + 1))
      else mret None
  end.
Definition ialloc (dev type : Z) : F (option nat) :=
  x ← fs; ialloc_loop (Z.to_nat (sb_ninodes (sb x)) + 1) dev type 1.

Definition iupdate (ip : nat) : F unit :=
  i ← inode_load ip;
  x ← fs;
  bp ← bread (i_dev i) (IBLOCK (i_inum i) (sb x)); data ← buf_data bp;
  buf_set bp (put_dinode data (dinode_off (i_inum i)) (dinode_of i)) ;;
  brelse bp.

Definition ilock (ip : option nat) : F unit :=
  match ip with
  | None => xv6fs_panic
  | Some ip =>
      i ← inode_load ip;
      if i_ref i <? 1 then xv6fs_panic
      else if i_valid i then mret tt
      else
        x ← fs;
        bp ← bread (i_dev i) (IBLOCK (i_inum i) (sb x)); data ← buf_data bp;
        let d := get_dinode data (dinode_off (i_inum i)) in
        inode_modify ip (set_i_dinode d) ;;
        brelse bp ;;
        inode_modify ip (set_i_valid true) ;;
        if d_type d =? 0 then xv6fs_panic else mret tt
  end.
Definition iunlock (ip : option nat) : F unit :=
  match ip with
  | None => xv6fs_panic
  | Some ip => i ← inode_load ip; if i_ref i <? 1 then xv6fs_panic else mret tt
  end.

(** ** The contents of a file *)

(** [bmap]: the block of the file that has its [bn]th block, 0 if the disk is full.  An
    address that is missing is filled in. *)
Definition addr_or_alloc (ip : nat) (k : nat) : F Z :=
  i ← inode_load ip;
  match i_addrs i !! k with
  | None => crash OutOfBounds
  | Some addr =>
      if addr =? 0 then
        addr ← balloc (i_dev i);
        when (negb (addr =? 0)) (inode_modify ip (fun i => set_i_addrs (<[k := addr]> (i_addrs i)) i)) ;;
        mret addr
      else mret addr
  end.
Definition bmap (ip : nat) (bn : Z) : F Z :=
  if bn <? NDIRECT then addr_or_alloc ip (Z.to_nat bn)
  else
    let bn := bn - NDIRECT in
    if bn <? NINDIRECT then
      addr ← addr_or_alloc ip (Z.to_nat NDIRECT);
      if addr =? 0 then mret 0
      else
        i ← inode_load ip;
        bp ← bread (i_dev i) addr; a ← buf_data bp;
        let addr := get 4 a (4 * bn) in
        addr ← (if addr =? 0 then
                  addr ← balloc (i_dev i);
                  when (negb (addr =? 0)) (a ← buf_data bp; buf_set bp (put 4 a (4 * bn) addr)) ;;
                  mret addr
                else mret addr);
        brelse bp ;;
        mret addr
    else xv6fs_panic.

Definition bmap_noalloc (ip : nat) (bn : Z) : F Z :=
  i ← inode_load ip;
  if bn <? NDIRECT then
    match i_addrs i !! Z.to_nat bn with Some addr => mret addr | None => crash OutOfBounds end
  else
    let bn := bn - NDIRECT in
    if bn <? NINDIRECT then
      match i_addrs i !! Z.to_nat NDIRECT with
      | None => crash OutOfBounds
      | Some addr =>
          if addr =? 0 then mret 0
          else
            bp ← bread (i_dev i) addr; a ← buf_data bp;
            let addr := get 4 a (4 * bn) in
            brelse bp ;; mret addr
      end
    else xv6fs_panic.

(** [itrunc] *)
Definition itrunc_direct (ip : nat) (k : nat) : F unit :=
  i ← inode_load ip;
  match i_addrs i !! k with
  | None => crash OutOfBounds
  | Some addr =>
      when (negb (addr =? 0))
        (bfree (i_dev i) addr ;; inode_modify ip (fun i => set_i_addrs (<[k := 0]> (i_addrs i)) i))
  end.
Definition itrunc (ip : nat) : F unit :=
  for_each (seq 0 (Z.to_nat NDIRECT)) (itrunc_direct ip) ;;
  i ← inode_load ip;
  match i_addrs i !! Z.to_nat NDIRECT with
  | None => crash OutOfBounds
  | Some addr =>
      when (negb (addr =? 0))
        (bp ← bread (i_dev i) addr;
         for_each (seqZ 0 NINDIRECT) (fun j =>
           a ← buf_data bp;
           when (negb (get 4 a (4 * j) =? 0)) (bfree (i_dev i) (get 4 a (4 * j)))) ;;
         brelse bp ;;
         bfree (i_dev i) addr ;;
         inode_modify ip (fun i => set_i_addrs (<[Z.to_nat NDIRECT := 0]> (i_addrs i)) i))
  end ;;
  inode_modify ip (set_i_size 0) ;;
  iupdate ip.

Definition iput (ip : nat) : F unit :=
  i ← inode_load ip;
  when ((i_ref i =? 1) && i_valid i && (i_nlink i =? 0))
    (itrunc ip ;;
     inode_modify ip (set_i_type 0) ;;
     iupdate ip ;;
     inode_modify ip (set_i_valid false)) ;;
  inode_modify ip (fun i => set_i_ref (i32 (i_ref i - 1)) i).

Definition iunlockput (ip : nat) : F unit := iunlock (Some ip) ;; iput ip.

Definition stati (ip : nat) : F stat :=
  i ← inode_load ip;
  mret (Stat (i_dev i) (i_inum i) (i_nlink i) (i_size i) BSIZE (i_ctime i) (i_atime i) (i_mtime i)).

(** [readi]: the memory at [dst] is an array, [d] the place in it; the result is the number
    of bytes read and the array *)
Fixpoint readi_loop (fuel : nat) (ip : nat) (dst : bytes) (d off n tot : Z) : F (Z * bytes) :=
  match fuel with
  | O => no_fuel
  | Datatypes.S fuel =>
      if tot <? n then
        addr ← bmap ip (off / BSIZE);
        if addr =? 0 then mret (tot, dst)
        else
          i ← inode_load ip;
          bp ← bread (i_dev i) addr;
          let m := Z.min (n - tot) (BSIZE - off mod BSIZE) in
          data ← buf_data bp;
          let dst := blit dst d data (off mod BSIZE) m in
          brelse bp ;;
          readi_loop fuel ip dst (d + m) (u32 (off + m)) n (tot + m)
      else mret (tot, dst)
  end.
Definition readi (ip : nat) (dst : bytes) (d off n : Z) : F (Z * bytes) :=
  i ← inode_load ip;
  if (i_size i <? off) || (u32 (off + n) <? off) then mret (0, dst)
  else
    let n := if i_size i <? u32 (off + n) then i_size i - off else n in
    '(tot, dst) ← readi_loop (Z.to_nat (n / BSIZE + 3)) ip dst d off n 0;
    mret (i32 tot, dst).

(** [writei], from the place [s] of an array *)
Fixpoint writei_loop (fuel : nat) (ip : nat) (src : bytes) (s off n tot : Z) : F (Z * Z) :=
  match fuel with
  | O => no_fuel
  | Datatypes.S fuel =>
      if tot <? n then
        addr ← bmap ip (off / BSIZE);
        if addr =? 0 then mret (tot, off)
        else
          i ← inode_load ip;
          bp ← bread (i_dev i) addr;
          let m := Z.min (n - tot) (BSIZE - off mod BSIZE) in
          data ← buf_data bp;
          buf_set bp (blit data (off mod BSIZE) src s m) ;;
          brelse bp ;;
          writei_loop fuel ip src (s + m) (u32 (off + m)) n (tot + m)
      else mret (tot, off)
  end.
Definition writei (ip : nat) (src : bytes) (s off n : Z) : F Z :=
  i ← inode_load ip;
  if (i_size i <? off) || (u32 (off + n) <? off) then mret (-1)
  else if MAXFILE * BSIZE <? u32 (off + n) then mret (-1)
  else
    '(tot, off) ← writei_loop (Z.to_nat (n / BSIZE + 3)) ip src s off n 0;
    i ← inode_load ip;
    when (i_size i <? off) (inode_modify ip (set_i_size off)) ;;
    iupdate ip ;;
    mret (i32 tot).

(** ** Directories *)

(** an automatic struct dirent, before it is set *)
Definition dirent_array : bytes := fun _ => 0.

Definition read_dirent (dp : nat) (off : Z) : F bytes :=
  '(r, de) ← readi dp dirent_array 0 off sizeof_dirent;
  if negb (r =? sizeof_dirent) then xv6fs_panic else mret de.

(** the inode and the offset of its entry *)
Fixpoint dirlookup_loop (fuel : nat) (dp : nat) (name : list Z) (off : Z) : F (option (nat * Z)) :=
  match fuel with
  | O => no_fuel
  | Datatypes.S fuel =>
      d ← inode_load dp;
      if off <? i_size d then
        de ← read_dirent dp off;
        if de_inum de =? 0 then dirlookup_loop fuel dp name (u32 (off + sizeof_dirent))
        else if namecmp name (de_name de) =? 0 then
          ip ← iget (i_dev d) (de_inum de); mret (Some (ip, off))
        else dirlookup_loop fuel dp name (u32 (off + sizeof_dirent))
      else mret None
  end.
Definition dirlookup (dp : nat) (name : list Z) : F (option (nat * Z)) :=
  d ← inode_load dp;
  if negb (i_type d =? T_DIR) then xv6fs_panic
  else dirlookup_loop (Z.to_nat (i_size d / sizeof_dirent + 2)) dp name 0.

(** the place of null_inode *)
Definition null_inode : nat := Z.to_nat N_INODES.

(** the inode, and [de_name] as it is left *)
Definition dirlookup_idx (dp : nat) (idx : Z) (name : list Z) : F (option nat * list Z) :=
  d ← inode_load dp;
  if negb (i_type d =? T_DIR) then xv6fs_panic
  else
    let off := u32 (sizeof_dirent * idx) in
    if i_size d <=? off then mret (None, name)
    else
      de ← read_dirent dp off;
      if (de_inum de =? 0) || (default 0 (head (de_name de)) =? 0) then mret (Some null_inode, name)
      else
        ip ← iget (i_dev d) (de_inum de);
        mret (Some ip, strncpy (cstring (de_name de)) DIRSIZ).

(** the offset of the first entry that is not used *)
Fixpoint free_dirent (fuel : nat) (dp : nat) (off : Z) : F Z :=
  match fuel with
  | O => no_fuel
  | Datatypes.S fuel =>
      d ← inode_load dp;
      if u32 off <? i_size d then
        de ← read_dirent dp (u32 off);
        if de_inum de =? 0 then mret off else free_dirent fuel dp (i32 (off + sizeof_dirent))
      else mret off
  end.
Definition make_dirent (name : list Z) (inum : Z) : bytes :=
  put 2 (blit dirent_array 2 (of_list (strncpy (cstring name) DIRSIZ)) 0 (Z.of_nat DIRSIZ)) 0 inum.
Definition dirlink (dp : nat) (name : list Z) (inum : Z) : F Z :=
  found ← dirlookup dp name;
  match found with
  | Some (ip, _) => iput ip ;; mret (-1)
  | None =>
      d ← inode_load dp;
      off ← free_dirent (Z.to_nat (i_size d / sizeof_dirent + 2)) dp 0;
      r ← writei dp (make_dirent name inum) 0 (u32 off) sizeof_dirent;
      mret (if negb (r =? sizeof_dirent) then -1 else 0)
  end.

(** ** Paths *)

(** the inode, and [name] as it is left *)
Fixpoint namex_loop (fuel : nat) (ip : nat) (path : list Z) (nameiparent : bool) (name : list Z)
    : F (option nat * list Z) :=
  match fuel with
  | O => no_fuel
  | Datatypes.S fuel =>
      match skipelem path name with
      | None => if nameiparent then iput ip ;; mret (None, name) else mret (Some ip, name)
      | Some (path, name) =>
          ilock (Some ip) ;;
          i ← inode_load ip;
          if negb (i_type i =? T_DIR) then iunlockput ip ;; mret (None, name)
          else if nameiparent && (match path with [] => true | _ => false end) then
            iunlock (Some ip) ;; mret (Some ip, name)
          else
            next ← dirlookup ip name;
            match next with
            | None => iunlockput ip ;; mret (None, name)
            | Some (next, _) => iunlockput ip ;; namex_loop fuel next path nameiparent name
            end
      end
  end.
Definition namex (path : list Z) (nameiparent : bool) (name : list Z) : F (option nat * list Z) :=
  ip ← (if default 0 (head path) =? slash then iget ROOTDEV ROOTINO
        else x ← fs; dp ← deref (cwd x); idup dp);
  namex_loop (Datatypes.S (length path)) ip path nameiparent name.
Definition namei (path : list Z) : F (option nat) :=
  '(ip, _) ← namex path false name_array; mret ip.
Definition nameiparent (path : list Z) (name : list Z) : F (option nat * list Z) := namex path true name.

Definition fsinit (dev : Z) : F unit :=
  readsb dev ;;
  x ← fs;
  if negb (sb_magic (sb x) =? FSMAGIC) then xv6fs_panic
  else
    ip ← namei [slash];
    fs_modify (set_cwd ip).

(** [iblocknos]: the result and what is in the buffer *)
Fixpoint iblocknos_loop (fuel : nat) (ip : nat) (block_offset : Z) (buf : list Z) (buf_size : Z) : F (Z * list Z) :=
  match fuel with
  | O => no_fuel
  | Datatypes.S fuel =>
      i ← inode_load ip;
      if block_offset <? i_size i / BSIZE then
        blockno ← bmap_noalloc ip block_offset;
        if blockno =? 0 then iblocknos_loop fuel ip (block_offset + 1) buf buf_size
        else if Z.of_nat (length buf) <? buf_size then
          iblocknos_loop fuel ip (block_offset + 1) (buf ++ [i32 blockno]) buf_size
        else iunlock (Some ip) ;; mret (-1, buf)
      else iunlockput ip ;; mret (0, buf)
  end.
Definition iblocknos (dev inum buf_size : Z) : F (Z * list Z) :=
  ip ← iget dev inum;
  ilock (Some ip) ;;
  i ← inode_load ip;
  iblocknos_loop (Z.to_nat (i_size i / BSIZE + 1)) ip 0 [] buf_size.
End Fs.
