(* ===== verification/Xv6Paths.v ===== *)
(** * Paths and directories of the xv6 file system

    What skipelem makes of a path, against a definition of the elements of a path that
    does not know how it is read; when two names are the same for namecmp. *)

From stdpp Require Import base numbers list gmap strings.
From S2P Require Import Prelude Strings Xv6Bio Xv6Fs.

(** ** The elements of a path *)

(** the characters between slashes, empty ones included *)
Fixpoint split_slash (path : list Z) : list (list Z) :=
  match path with
  | [] => [[]]
  | c :: rest =>
      if c =? slash then [] :: split_slash rest
      else match split_slash rest with e :: es => (c :: e) :: es | [] => [[c]] end
  end.
Definition path_elems (path : list Z) : list (list Z) := filter (fun e => e <> []) (split_slash path).

(** the names that repeated calls of skipelem leave in an array, as strings *)
Fixpoint skip_all (fuel : nat) (path name : list Z) : option (list (list Z)) :=
  match fuel with
  | O => None
  | S fuel =>
      match skipelem path name with
      | None => Some []
      | Some (rest, name) => es ← skip_all fuel rest name; Some (cstring (take DIRSIZ name) :: es)
      end
  end.

Lemma split_slash_cons path : exists e es, split_slash path = e :: es.
Proof.
  destruct path as [|c path]; simpl; [by eauto|]. case_bool; [by eauto|]. destruct (split_slash path); eauto.
Qed.

Lemma path_elems_slashes path : path_elems (skip_slashes path) = path_elems path.
Proof.
  induction path as [|c path IH]; [done|]. simpl. destruct (Z.eqb_spec c slash) as [->|Hne]; [|done].
  rewrite IH. unfold path_elems. simpl. by rewrite filter_cons_False by tauto.
Qed.

Lemma split_elem_spec path e r : split_elem path = (e, r) ->
  path = e ++ r /\ Forall (fun c => c <> slash) e /\ (r = [] \/ exists r', r = slash :: r') /\
  split_slash path = e :: match r with [] => [] | _ :: r' => split_slash r' end.
Proof.
  revert e r. induction path as [|c path IH]; intros e r E; simpl in E; [by simplify_eq; eauto|].
  simpl split_slash. destruct (Z.eqb_spec c slash) as [->|Hne].
  - simplify_eq. split; [done|]. split; [done|]. eauto.
  - destruct (split_elem path) as [e0 r0]. simplify_eq. destruct (IH e0 r eq_refl) as (-> & He & Hr & ->).
    split; [done|]. split; [by constructor|]. done.
Qed.

Lemma skip_slashes_head path : match skip_slashes path with [] => True | c :: _ => c <> slash end.
Proof. induction path as [|c path IH]; [done|]. simpl. by destruct (Z.eqb_spec c slash). Qed.
Lemma skip_slashes_length path : (length (skip_slashes path) <= length path)%nat.
Proof. induction path as [|c path IH]; simpl; [done|]. case_bool; simpl; lia. Qed.
Lemma skip_slashes_no_nul path : no_nul path -> no_nul (skip_slashes path).
Proof.
  induction path as [|c path IH]; [done|]. simpl. intros [? ?]%Forall_cons. case_bool; [by apply IH|by constructor].
Qed.

Lemma cstring_app_nul s t : no_nul s -> cstring (s ++ 0 :: t) = s.
Proof.
  induction s as [|c s IH]; [done|]. intros [Hc Hs]%Forall_cons. simpl.
  by rewrite (proj2 (Z.eqb_neq _ _) Hc), IH.
Qed.
Lemma cstring_id s : no_nul s -> cstring s = s.
Proof.
  induction s as [|c s IH]; [done|]. intros [Hc Hs]%Forall_cons. simpl.
  by rewrite (proj2 (Z.eqb_neq _ _) Hc), IH.
Qed.

(** one call: the first element, cut to the size of a name, and the rest *)
Lemma skipelem_spec path name : no_nul path -> length name = DIRSIZ ->
  match skipelem path name with
  | None => path_elems path = []
  | Some (rest, name') => exists e, path_elems path = e :: path_elems rest /\ cstring (take DIRSIZ name') = take DIRSIZ e /\
      length name' = DIRSIZ /\ no_nul rest /\ (length rest < length path)%nat
  end.
Proof.
  intros Hno Hname. unfold skipelem. rewrite <- (path_elems_slashes path).
  pose proof (skip_slashes_head path) as Hhead. pose proof (skip_slashes_length path) as Hlen.
  pose proof (skip_slashes_no_nul path Hno) as Hno'. destruct (skip_slashes path) as [|c p] eqn:Ep; [done|].
  destruct (split_elem (c :: p)) as [e r] eqn:Es. destruct (split_elem_spec _ _ _ Es) as (Epath & He & Hr & Esplit).
  assert (e <> []) as Hne.
  { intros ->. simpl in Epath. subst r. destruct Hr as [|[r' ?]]; simplify_eq. }
  exists e. rewrite Epath in Hno'. apply no_nul_app in Hno' as [Hnoe Hnor].
  split; [|split; [|split; [|split]]].
  - rewrite path_elems_slashes. unfold path_elems. rewrite Esplit, filter_cons_True by done. f_equal.
    destruct Hr as [->|[r' ->]]; [done|]. simpl. by rewrite filter_cons_False by tauto.
  - destruct (Nat.leb_spec DIRSIZ (length e)) as [Hge|Hlt].
    + rewrite take_take, Nat.min_id. apply cstring_id. by apply no_nul_take.
    + rewrite take_app_ge by lia. rewrite (take_ge e) by lia.
      destruct (DIRSIZ - length e)%nat eqn:Ek; [lia|]. simpl. by apply cstring_app_nul.
  - destruct (Nat.leb_spec DIRSIZ (length e)) as [Hge|Hlt].
    + rewrite length_take. lia.
    + rewrite length_app. simpl length. rewrite length_drop. lia.
  - by apply skip_slashes_no_nul.
  - pose proof (skip_slashes_length r). apply (f_equal length) in Epath. rewrite length_app in Epath.
    simpl in *. destruct e; [done|]. simpl in *. lia.
Qed.

Lemma skip_all_S fuel path name : skip_all (S fuel) path name =
  match skipelem path name with
  | None => Some []
  | Some (rest, name) => es ← skip_all fuel rest name; Some (cstring (take DIRSIZ name) :: es)
  end.
Proof. done. Qed.

(** Taking elements off a path one after the other, as namex does, ends after at most as
    many calls as the path has characters, and yields the elements between the slashes in
    their order, each cut to the [DIRSIZ] characters of a name.  Leading, doubled and
    trailing slashes make no difference, and neither does what is in the array before. *)
Theorem skipelem_splits (path name : list Z) (Hpath : no_nul path) (Hname : length name = DIRSIZ) :
  skip_all (S (length path)) path name = Some (take DIRSIZ <$> path_elems path).
Proof.
  remember (length path) as len eqn:El. assert (length path <= len)%nat as Hle by lia. clear El.
  revert path name Hpath Hname Hle. induction len as [|len IH]; intros path name Hpath Hname Hle; rewrite skip_all_S.
  - destruct path; [done|simpl in Hle; lia].
  - pose proof (skipelem_spec path name Hpath Hname) as Hs. destruct (skipelem path name) as [[rest name']|]; [|by rewrite Hs].
    destruct Hs as (e & -> & Ee & Hn' & Hno & Hlt). cbv iota beta.
    rewrite (IH rest name' Hno Hn') by lia. simpl. by rewrite Ee.
Qed.
Definition demo_path : list Z := chars "//usr///a_name_that_is_too_long/bin/".
Lemma skipelem_splits_witness :
  skip_all (S (length demo_path)) demo_path name_array =
    Some [chars "usr"; chars "a_name_that_is"; chars "bin"].
Proof. apply (skipelem_splits demo_path name_array); [apply (bool_decide_unpack _); by vm_compute|done]. Defined.
