(* ===== verification/Xv6Content.v ===== *)
(** * The contents of the files of the xv6 file system

    The blocks of a file are found through the addresses in its inode and in its indirect
    block; the file system fills in those that are missing when a file is read or written.
    This file proves that, seen from outside, a file is an array of bytes: [contents] is
    that array, given the blocks of the disk, and readi and writei read and write it.

    A place for an address is a number ([slot]): 0 to 11 are the direct addresses, 12 is
    that of the indirect block, and 13 to 1036 are the entries of the indirect block. *)

From stdpp Require Import base numbers list gmap.
From S2P Require Import Prelude Strings Xv6Bio Xv6Fs.

(** ** Integers in bytes *)

Lemma put_other n : forall f off v k, k < off \/ off + Z.of_nat n <= k -> put n f off v k = f k.
Proof.
  induction n as [|n IH]; intros f off v k Hk; [done|]. simpl. rewrite IH by lia. apply upd_other. lia.
Qed.
Lemma get_ext n : forall f g off, (forall k, off <= k < off + Z.of_nat n -> f k = g k) -> get n f off = get n g off.
Proof. induction n as [|n IH]; intros f g off E; [done|]. simpl. rewrite E, (IH f g) by (intros; try apply E;
    lia). done. Qed.

Lemma put_ext n : forall f g off v, (forall k, f k = g k) -> forall k, put n f off v k = put n g off v k.
Proof. induction n as [|n IH]; intros f g off v E k; [apply E|]. cbn [put]. apply IH. intros k'. unfold upd.
    by rewrite E. Qed.

Lemma get_put n : forall f off v, get n (put n f off v) off = v mod 256 ^ Z.of_nat n.
Proof.
  induction n as [|n IH]; intros f off v; [by rewrite Z.mod_1_r|].
  cbn [put get]. rewrite put_other, upd_same, IH by lia.
  rewrite Nat2Z.inj_succ, Z.pow_succ_r by lia.
  rewrite (Z.rem_mul_r v 256) by lia. lia.
Qed.
Lemma get_put_other n m f off off' v : off' + Z.of_nat n <= off \/ off + Z.of_nat m <= off' ->
  get n (put m f off v) off' = get n f off'.
Proof. intros H. apply get_ext. intros k Hk. apply put_other. lia. Qed.

Lemma put_words_other l : forall f off k, k < off \/ off + 4 * Z.of_nat (length l) <= k -> put_words f off l k = f k.
Proof. induction l as [|w l IH]; intros f off k Hk; [done|]. cbn [put_words length] in *. rewrite IH by lia.
    apply put_other. lia. Qed.
Lemma get_put_words l : forall f off, Forall (fun w => 0 <= w < 2 ^ 32) l ->
  get_words (length l) (put_words f off l) off = l.
Proof.
  induction l as [|w l IH]; intros f off Hl; [done|]. apply Forall_cons in Hl as [Hw Hl].
  unfold get_words. cbn [length seq]. rewrite fmap_cons. f_equal.
  - replace (off + 4 * Z.of_nat 0) with off by lia. rewrite (get_ext _ _ (put 4 f off w)).
    + rewrite get_put. by apply Z.mod_small.
    + intros k Hk. cbn [put_words]. apply put_words_other. change (Z.of_nat 4) with 4 in *. lia.
  - rewrite <- seq_shift, <- list_fmap_compose. cbn [put_words]. rewrite <- (IH (put 4 f off w) (off + 4) Hl) at 2.
    apply list_fmap_ext. intros _ j _. cbn -[get]. f_equal. lia.
Qed.

Lemma put_words_ext l : forall f g off, (forall k, f k = g k) -> forall k, put_words f off l k = put_words g off l k.
Proof. induction l as [|w l IH]; intros f g off E; [done|]. cbn [put_words]. apply IH, put_ext, E. Qed.

Definition short_range (z : Z) : Prop := - 2 ^ 15 <= z < 2 ^ 15.
Lemma i16_mod z : short_range z -> i16 (z mod 2 ^ 16) = z.
Proof.
  intros H. unfold short_range in H. unfold i16, wrap.
  destruct (Z_lt_le_dec z 0).
  - replace (z mod 2 ^ 16) with (z + 2 ^ 16).
    + rewrite Z.mod_small by lia. destruct (Z.ltb_spec (z + 2 ^ 16) (2 ^ 15)); lia.
    + symmetry. rewrite <- (Z.mod_add z 1) by lia. rewrite Z.mod_small; lia.
  - rewrite !Z.mod_small by (rewrite ?Z.mod_small; lia). destruct (Z.ltb_spec z (2 ^ 15)); lia.
Qed.

(** the values that the fields of an inode can have *)
Record dinode_range (d : dinode) : Prop := {
  dr_type : short_range (d_type d);
  dr_major : short_range (d_major d);
  dr_minor : short_range (d_minor d);
  dr_nlink : short_range (d_nlink d);
  dr_size : 0 <= d_size d < 2 ^ 32;
  dr_addrs : length (d_addrs d) = 13%nat /\ Forall (fun a => 0 <= a < 2 ^ 32) (d_addrs d)
}.

Lemma get_put_dinode f off d : dinode_range d -> get_dinode (put_dinode f off d) off = d.
Proof.
  intros [? ? ? ? ? [Hlen Hl]]. destruct d as [ty ma mi nl sz addrs]. simpl in *. unfold get_dinode, put_dinode.
  simpl d_addrs. set (g := put 4 _ _ _).
  assert (forall m o, off <= o -> o + Z.of_nat m <= off + 12 ->
    get m (put_words g (off + 12) addrs) o = get m g o) as Eg
    by (intros m o ??; apply get_ext; intros; apply put_words_other; lia).
  rewrite !Eg by lia. unfold g. simpl d_type. simpl d_major. simpl d_minor. simpl d_nlink. simpl d_size. clear Eg.
  rewrite !(get_put_other 2 4), get_put by lia.
  rewrite (get_put_other 2 2 _ (off + 6) (off + 4)), (get_put_other 2 2 _ (off + 6) (off + 2)),
    (get_put_other 2 2 _ (off + 6) off), (get_put_other 2 2 _ (off + 4) (off + 2)),
    (get_put_other 2 2 _ (off + 4) off), (get_put_other 2 2 _ (off + 2) off), !get_put by lia.
  change (256 ^ Z.of_nat 2) with (2 ^ 16). change (256 ^ Z.of_nat 4) with (2 ^ 32).
  rewrite !i16_mod, Z.mod_small by done. f_equal. rewrite <- Hlen. by apply get_put_words.
Qed.

(** ** The bitmap *)

Lemma bit_clear_spec data bi : bit_clear data bi = negb (Z.testbit (data (bi / 8)) (bi mod 8)).
Proof.
  unfold bit_clear, bit_mask. rewrite Z.shiftl_1_l.
  pose proof (Z.mod_pos_bound bi 8 ltac:(lia)) as Hm.
  destruct (Z.testbit (data (bi / 8)) (bi mod 8)) eqn:E; simpl.
  - apply Z.eqb_neq. intros H. apply (f_equal (fun z => Z.testbit z (bi mod 8))) in H.
    rewrite Z.land_spec, Z.pow2_bits_true, E, Z.bits_0 in H by lia. done.
  - apply Z.eqb_eq, Z.bits_inj. intros j. rewrite Z.land_spec, Z.bits_0.
    destruct (decide (j = bi mod 8)) as [->|Hne]; [by rewrite E|].
    rewrite Z.pow2_bits_false by lia. apply andb_false_r.
Qed.

Definition mark (data : bytes) (b : Z) : bytes := upd data (b / 8) (Z.lor (data (b / 8)) (bit_mask b)).
Definition unmark (data : bytes) (b : Z) : bytes := upd data (b / 8) (Z.land (data (b / 8)) (Z.lnot (bit_mask b))).

Lemma same_bit b bi : bi / 8 = b / 8 -> bi mod 8 = b mod 8 -> bi = b.
Proof. intros E1 E2. rewrite (Z.div_mod bi 8), (Z.div_mod b 8) by lia. by rewrite E1, E2. Qed.

Lemma bit_clear_mark data b bi : bit_clear (mark data b) bi = bit_clear data bi && negb (bi =? b).
Proof.
  rewrite !bit_clear_spec. unfold mark, bit_mask. rewrite Z.shiftl_1_l.
  pose proof (Z.mod_pos_bound b 8 ltac:(lia)) as Hm. pose proof (Z.mod_pos_bound bi 8 ltac:(lia)) as Hm'.
  destruct (decide (bi / 8 = b / 8)) as [E|Hne].
  - rewrite E, upd_same, Z.lor_spec. destruct (Z.eqb_spec bi b) as [->|Hne].
    + rewrite Z.pow2_bits_true, orb_true_r by lia. by rewrite andb_false_r.
    + rewrite Z.pow2_bits_false by (intros ?; by apply Hne, same_bit). by rewrite orb_false_r, andb_true_r.
  - rewrite upd_other by done. destruct (Z.eqb_spec bi b) as [->|_]; [done|by rewrite andb_true_r].
Qed.

Lemma bit_clear_unmark data b bi : bit_clear (unmark data b) bi = bit_clear data bi || (bi =? b).
Proof.
  rewrite !bit_clear_spec. unfold unmark, bit_mask. rewrite Z.shiftl_1_l.
  pose proof (Z.mod_pos_bound b 8 ltac:(lia)) as Hm. pose proof (Z.mod_pos_bound bi 8 ltac:(lia)) as Hm'.
  destruct (decide (bi / 8 = b / 8)) as [E|Hne].
  - rewrite E, upd_same, Z.land_spec, Z.lnot_spec by lia. destruct (Z.eqb_spec bi b) as [->|Hne].
    + by rewrite Z.pow2_bits_true, andb_false_r, orb_true_r by lia.
    + rewrite Z.pow2_bits_false by (intros ?; by apply Hne, same_bit). by rewrite andb_true_r, orb_false_r.
  - rewrite upd_other by done. destruct (Z.eqb_spec bi b) as [->|_]; [done|by rewrite orb_false_r].
Qed.

Lemma bit_clear_ext data data' bi : (forall k, data k = data' k) -> bit_clear data bi = bit_clear data' bi.
Proof. intros E. unfold bit_clear. by rewrite E. Qed.
Lemma find_ext {A} (f g : A -> bool) l : (forall a, f a = g a) -> List.find f l = List.find g l.
Proof. intros E. induction l as [|a l IH]; simpl; [done|]. by rewrite E, IH. Qed.

(** the free blocks, the lowest first *)
Definition free_of (data : bytes) (size : Z) : list Z := filter (fun b => bit_clear data b = true) (seqZ 0 size).

Lemma find_free data size : List.find (bit_clear data) (seqZ 0 size) = head (free_of data size).
Proof. apply find_head_filter. Qed.

Lemma filter_tail `{EqDecision A} (P Q : A -> Prop) `{forall a, Decision (P a)} `{forall a, Decision (Q a)} l b p :
  NoDup l -> filter P l = b :: p -> (forall a, Q a <-> P a /\ a <> b) -> filter Q l = p.
Proof.
  intros Hnd E HQ. transitivity (filter (fun a => a <> b) (filter P l)).
  - rewrite list_filter_filter. apply list_filter_iff. intros a. rewrite HQ. tauto.
  - apply (NoDup_filter P) in Hnd. rewrite E in *. apply NoDup_cons in Hnd as [Hb _].
    rewrite filter_cons_False by tauto. apply list_filter_all. by intros a Ha ->.
Qed.
Lemma free_of_mark data size b p : free_of data size = b :: p -> free_of (mark data b) size = p.
Proof.
  intros E. eapply filter_tail; [apply NoDup_seqZ|exact E|]. intros a. simpl.
  rewrite bit_clear_mark, andb_true_iff, negb_true_iff, Z.eqb_neq. done.
Qed.
Lemma free_of_ext data data' size : (forall k, data k = data' k) -> free_of data size = free_of data' size.
Proof. intros E. apply list_filter_iff. intros b. by rewrite (bit_clear_ext data data'). Qed.
Lemma free_of_elem data size b : b ∈ free_of data size <-> 0 <= b < size /\ bit_clear data b = true.
Proof. unfold free_of. rewrite list_elem_of_filter, elem_of_seqZ. intuition lia. Qed.

(** ** Allocating and freeing blocks *)

(** where things are on the disk: one block of the bitmap, and blocks for files from
    [first] on *)
Record geometry (sb : superblock) (first : Z) (bs : list Z) : Prop := {
  ge_size : first <= sb_size sb <= BPB;
  ge_bmap : 0 <= sb_bmapstart sb < first;
  ge_bmap_in : sb_bmapstart sb ∈ bs
}.

(** the contents of the blocks after block [b] was allocated, and after it was freed *)
Definition alloc_view (bm : Z) (v : Z -> bytes) (b : Z) : Z -> bytes :=
  let v1 := upd v bm (mark (v bm) b) in upd v1 b (fill (v1 b) 0 BSIZE 0).
Definition free_view (bm : Z) (v : Z -> bytes) (b : Z) : Z -> bytes := upd v bm (unmark (v bm) b).

Lemma mark_ext d d' b : (forall k, d k = d' k) -> forall k, mark d b k = mark d' b k.
Proof. intros E k. unfold mark, upd. by rewrite !E. Qed.
Lemma unmark_ext d d' b : (forall k, d k = d' k) -> forall k, unmark d b k = unmark d' b k.
Proof. intros E k. unfold unmark, upd. by rewrite !E. Qed.

Section Alloc.
Context {S : Type} `{!Disk S} {content : disk_view S} {n : Z} {bs : list Z}.
Hypothesis (Hfits : fits content n bs).
Implicit Types (held : list (nat * Z)) (v : Z -> bytes) (x : xv6_t) (s : S * xv6_t).

Lemma fs_run {B} held v x s (k : xv6_t -> M (S * xv6_t) B) : cached content n bs held v x s ->
  (fs ≫= k) s = k (snd s) s.
Proof. done. Qed.

Lemma bzero_run held v x s b : cached content n bs held v x s -> b ∈ bs -> Z.of_nat (length held) + 1 < 2 ^ 32 ->
  exists s', xv6fs_bzero ROOTDEV b s = (Ok tt, s') /\
    cached content n bs held (upd v b (fill (v b) 0 BSIZE 0)) x s'.
Proof.
  intros Hc Hb Hsmall. unfold xv6fs_bzero. step_bread Hfits b Hc as i s1 Hc1. step_data b Hc1 as d Ed.
  step_set b Hc1 as s2 Hc2. step_brelse Hc2 as s3 Hc3.
  eexists. split; [done|]. eapply cached_ext; [|done]. by apply upd_ext, fill_ext.
Qed.

Lemma BBLOCK_first b sb first : geometry sb first bs -> 0 <= b < BPB -> BBLOCK b sb = sb_bmapstart sb.
Proof.
  intros [? ? ?] Hb. unfold BBLOCK, u32. rewrite Z.div_small by done. simpl. apply wrap_small.
  unfold BPB, BSIZE in *. lia.
Qed.

(** the lowest free block is marked, filled with zeros and returned *)
Lemma balloc_run held v x s first b p : cached content n bs held v x s -> geometry (sb x) first bs ->
  Z.of_nat (length held) + 1 < 2 ^ 32 ->
  free_of (v (sb_bmapstart (sb x))) (sb_size (sb x)) = b :: p -> b ∈ bs ->
  exists s', balloc ROOTDEV s = (Ok b, s') /\
    cached content n bs held (alloc_view (sb_bmapstart (sb x)) v b) x s'.
Proof.
  intros Hc Hg Hsmall Hfree Hb. unfold balloc.
  destruct (cached_fs _ _ _ _ Hc) as (_ & Esb & _). rewrite (fs_run _ _ _ _ _ Hc), Esb.
  destruct Hg as [Hsize Hbm Hin] eqn:Eg. clear Eg.
  assert (b ∈ free_of (v (sb_bmapstart (sb x))) (sb_size (sb x))) as [Hb0 _]%free_of_elem by (rewrite Hfree; by left).
  replace (Z.to_nat _) with (Datatypes.S (Z.to_nat (sb_size (sb x) / BPB + 1))) by
    (pose proof (Z.div_pos (sb_size (sb x)) BPB ltac:(lia) ltac:(done)); lia).
  cbn [balloc_loop]. rewrite (fs_run _ _ _ _ _ Hc), Esb. change (u32 0) with 0.
  rewrite (proj2 (Z.ltb_lt _ _)) by lia. rewrite (BBLOCK_first 0 _ first) by done.
  step_bread Hfits (sb_bmapstart (sb x)) Hc as i s1 Hc1. step_data (sb_bmapstart (sb x)) Hc1 as d Ed.
  rewrite Z.min_r, Z.sub_0_r by lia. rewrite (find_ext _ (bit_clear (v (sb_bmapstart (sb x))))) by
    (intros; by apply bit_clear_ext).
  rewrite find_free, Hfree. cbn [head].
  step_set (sb_bmapstart (sb x)) Hc1 as s2 Hc2. step_brelse Hc2 as s3 Hc3.
  rewrite Z.add_0_l. destruct (bzero_run _ _ _ _ b Hc3 Hb Hsmall) as (s4 & Hz & Hc4).
  rewrite (bind_ok _ _ _ _ _ Hz). unfold u32. rewrite wrap_small by (unfold BPB, BSIZE in *; lia).
  exists s4. split; [done|]. eapply cached_ext; [|done]. unfold alloc_view.
  apply upd_ext2; [|apply fill_ext]; apply upd_ext2; try apply mark_ext; intros; by rewrite ?Ed.
Qed.

(** no block is free *)
Lemma balloc_full held v x s first : cached content n bs held v x s -> geometry (sb x) first bs ->
  Z.of_nat (length held) + 1 < 2 ^ 32 -> free_of (v (sb_bmapstart (sb x))) (sb_size (sb x)) = [] ->
  exists s', balloc ROOTDEV s = (Ok 0, s') /\ cached content n bs held v x s'.
Proof.
  intros Hc Hg Hsmall Hfree. unfold balloc.
  destruct (cached_fs _ _ _ _ Hc) as (_ & Esb & _). rewrite (fs_run _ _ _ _ _ Hc), Esb.
  pose proof Hg as [Hsize Hbm Hin].
  replace (Z.to_nat _) with (Datatypes.S (Datatypes.S (Z.to_nat (sb_size (sb x) / BPB)))) by
    (pose proof (Z.div_pos (sb_size (sb x)) BPB ltac:(lia) ltac:(done)); lia).
  cbn [balloc_loop]. rewrite (fs_run _ _ _ _ _ Hc), Esb. change (u32 0) with 0.
  rewrite (proj2 (Z.ltb_lt _ _)) by lia. rewrite (BBLOCK_first 0 _ first) by done.
  step_bread Hfits (sb_bmapstart (sb x)) Hc as i s1 Hc1. step_data (sb_bmapstart (sb x)) Hc1 as d Ed.
  rewrite Z.min_r, Z.sub_0_r by lia. rewrite (find_ext _ (bit_clear (v (sb_bmapstart (sb x))))) by
    (intros; by apply bit_clear_ext).
  rewrite find_free, Hfree. cbn [head]. step_brelse Hc1 as s2 Hc2.
  destruct (cached_fs _ _ _ _ Hc2) as (_ & Esb2 & _).
  change (i32 (0 + BPB)) with BPB. rewrite (fs_run _ _ _ _ _ Hc2), Esb2. change (u32 BPB) with BPB.
  rewrite (proj2 (Z.ltb_ge _ _)) by lia. by eexists.
Qed.

(** a block that is in use becomes free *)
Lemma bfree_run held v x s first b : cached content n bs held v x s -> geometry (sb x) first bs ->
  Z.of_nat (length held) + 1 < 2 ^ 32 -> 0 <= b < BPB -> bit_clear (v (sb_bmapstart (sb x))) b = false ->
  exists s', bfree ROOTDEV b s = (Ok tt, s') /\ cached content n bs held (free_view (sb_bmapstart (sb x)) v b) x s'.
Proof.
  intros Hc Hg Hsmall Hb Hused. unfold bfree. destruct (cached_fs _ _ _ _ Hc) as (_ & Esb & _).
  rewrite (fs_run _ _ _ _ _ Hc), Esb, (BBLOCK_first b _ first), (Z.mod_small b) by done.
  step_bread Hfits (sb_bmapstart (sb x)) Hc as i s1 Hc1; [apply Hg|].
  step_data (sb_bmapstart (sb x)) Hc1 as d Ed.
  rewrite (bit_clear_ext _ _ _ Ed), Hused.
  step_set (sb_bmapstart (sb x)) Hc1 as s2 Hc2. step_brelse Hc2 as s3 Hc3. exists s3. split; [done|].
  eapply cached_ext; [|done]. apply upd_ext. intros k. unfold unmark, upd. by rewrite !Ed.
Qed.

(** a block that is free already: the server hangs *)
Lemma bfree_twice held v x s first b : cached content n bs held v x s -> geometry (sb x) first bs ->
  Z.of_nat (length held) + 1 < 2 ^ 32 -> 0 <= b < BPB -> bit_clear (v (sb_bmapstart (sb x))) b = true ->
  stops (bfree ROOTDEV b) s Spin.
Proof.
  intros Hc Hg Hsmall Hb Hfree. unfold bfree, stops. destruct (cached_fs _ _ _ _ Hc) as (_ & Esb & _).
  rewrite (fs_run _ _ _ _ _ Hc), Esb, (BBLOCK_first b _ first), (Z.mod_small b) by done.
  step_bread Hfits (sb_bmapstart (sb x)) Hc as i s1 Hc1; [apply Hg|].
  step_data (sb_bmapstart (sb x)) Hc1 as d Ed. rewrite (bit_clear_ext _ _ _ Ed), Hfree. by eexists.
Qed.

(** ** Inodes of the table *)
Lemma inode_load_run held v x s ip i : cached content n bs held v x s -> itable x !! ip = Some i ->
  inode_load ip s = (Ok i, s).
Proof.
  intros Hc Hi. destruct (cached_fs _ _ _ _ Hc) as (_ & _ & Et & _). unfold inode_load.
  rewrite (fs_run _ _ _ _ _ Hc), Et. by rewrite Hi.
Qed.
Definition with_inode (ip : nat) (i : inode) (x : xv6_t) : xv6_t := set_itable (<[ip := i]> (itable x)) x.
Lemma inode_modify_run held v x s ip i f : cached content n bs held v x s -> itable x !! ip = Some i ->
  exists s', inode_modify ip f s = (Ok tt, s') /\ cached content n bs held v (with_inode ip (f i) x) s'.
Proof.
  intros Hc Hi. unfold inode_modify. rewrite (bind_ok _ _ _ _ _ (inode_load_run _ _ _ _ _ _ Hc Hi)).
  eapply (cached_modify _ _ _ _ (fun x => set_itable (<[ip := f i]> (itable x)) x)); done.
Qed.
Lemma with_inode_lookup ip i i' x : itable x !! ip = Some i -> itable (with_inode ip i' x) !! ip = Some i'.
Proof. intros Hi. apply list_lookup_insert_eq. by eapply lookup_lt_Some. Qed.
Lemma with_inode_same ip i x : itable x !! ip = Some i -> with_inode ip i x = x.
Proof. intros Hi. unfold with_inode. rewrite list_insert_id by done. by destruct x. Qed.
Lemma with_inode_twice ip i i' x : with_inode ip i' (with_inode ip i x) = with_inode ip i' x.
Proof. unfold with_inode, set_itable. simpl. by rewrite list_insert_insert_eq. Qed.
End Alloc.


(** the address at a place, 0 when there is none *)
Definition slot_addr (v : Z -> bytes) (i : inode) (k : Z) : Z :=
  if k <? 13 then default 0 (i_addrs i !! Z.to_nat k)
  else
    let a := default 0 (i_addrs i !! 12%nat) in
    if a =? 0 then 0 else get 4 (v a) (4 * (k - 13)).
(** the place of the [bn]th block of a file *)
Definition slot_of (bn : Z) : Z := if bn <? NDIRECT then bn else bn + 1.
(** the bytes of the file; those of a block that is missing are zeros *)
Definition contents (v : Z -> bytes) (i : inode) (pos : Z) : Z :=
  let a := slot_addr v i (slot_of (pos / BSIZE)) in if a =? 0 then 0 else v a (pos mod BSIZE).

Definition slot (k : Z) : Prop := 0 <= k < 1037.
Definition position (pos : Z) : Prop := 0 <= pos < MAXFILE * BSIZE.

Lemma slot_of_slot bn : 0 <= bn < MAXFILE -> slot (slot_of bn) /\ slot_of bn <> 12.
Proof.
  unfold slot, slot_of, MAXFILE, NDIRECT, NINDIRECT, BSIZE. change (12 + 4096 / 4) with 1036.
  destruct (Z.ltb_spec bn 12); lia.
Qed.
Lemma slot_of_inj bn bn' : slot_of bn = slot_of bn' -> bn = bn'.
Proof. unfold slot_of, NDIRECT. destruct (Z.ltb_spec bn 12), (Z.ltb_spec bn' 12); lia. Qed.
Lemma position_block pos : position pos -> 0 <= pos / BSIZE < MAXFILE.
Proof.
  unfold position. intros [? ?]. split; [by apply Z.div_pos|]. apply Z.div_lt_upper_bound; [done|]. lia.
Qed.

(** the addresses of a file are those of blocks in use, each different *)
Record inode_ok (sb : superblock) (first : Z) (bs : list Z) (v : Z -> bytes) (i : inode) : Prop := {
  io_dev : i_dev i = ROOTDEV;
  io_len : length (i_addrs i) = 13%nat;
  io_data : forall k, slot k -> slot_addr v i k <> 0 -> first <= slot_addr v i k < sb_size sb /\
    slot_addr v i k ∈ bs /\ bit_clear (v (sb_bmapstart sb)) (slot_addr v i k) = false;
  io_inj : forall k k', slot k -> slot k' -> slot_addr v i k <> 0 -> slot_addr v i k = slot_addr v i k' -> k = k'
}.

Section Files.
Context (sb : superblock) (first : Z) (bs : list Z).
Hypothesis (Hg : geometry sb first bs).
Abbreviation bm := (sb_bmapstart sb).
Abbreviation size := (sb_size sb).
Implicit Types (v : Z -> bytes) (i : inode) (ks : list Z).

(** the addresses at the places [ks] were filled in with blocks that were free *)
Record extends v i v' i' ks : Prop := {
  ex_old : forall k, slot k -> k ∉ ks -> slot_addr v' i' k = slot_addr v i k;
  ex_new : forall k, k ∈ ks -> slot k /\ slot_addr v i k = 0 /\ slot_addr v' i' k ∈ free_of (v bm) size /\
    slot_addr v' i' k <> 0;
  ex_nodup : NoDup ks;
  ex_free : free_of (v' bm) size = drop (length ks) (free_of (v bm) size);
  ex_contents : forall pos, position pos -> contents v' i' pos = contents v i pos;
  ex_ok : inode_ok sb first bs v' i';
  ex_inode : i' = set_i_addrs (i_addrs i') i;
  ex_frame : forall b, b <> bm -> b ∉ free_of (v bm) size -> (forall k, slot k -> slot_addr v i k <> b) ->
    forall o, v' b o = v b o
}.

Lemma extends_refl v i : inode_ok sb first bs v i -> extends v i v i [].
Proof.
  intros Hok. split; try done.
  - by intros k ?%elem_of_nil.
  - apply NoDup_nil_2.
  - by destruct i.
Qed.

Lemma elem_of_drop {A} (l : list A) m a : a ∈ drop m l -> a ∈ l.
Proof. intros Ha. rewrite <- (take_drop m l). apply elem_of_app. by right. Qed.

Lemma extends_trans v i v' i' v'' i'' ks ks' : extends v i v' i' ks -> extends v' i' v'' i'' ks' ->
  extends v i v'' i'' (ks ++ ks').
Proof.
  intros [Ho Hn Hd Hf Hc Hok Hi Hfr] [Ho' Hn' Hd' Hf' Hc' Hok' Hi' Hfr'].
  assert (forall k, k ∈ ks -> k ∉ ks') as Hdis.
  { intros k Hk Hk'. destruct (Hn k Hk) as (_ & _ & _ & Hne). by destruct (Hn' k Hk') as (_ & ? & _). }
  assert (forall b, b ∈ free_of (v' bm) size -> b ∈ free_of (v bm) size) as Hsub
    by (intros b; rewrite Hf; apply elem_of_drop).
  split.
  - intros k Hk [??]%not_elem_of_app. by rewrite Ho', Ho.
  - intros k [Hk|Hk]%elem_of_app.
    + destruct (Hn k Hk) as (Hs & ? & ? & ?). rewrite (Ho' k Hs (Hdis k Hk)). done.
    + destruct (Hn' k Hk) as (Hs & Hz & Hin & ?). assert (k ∉ ks) as Hk' by (intros Hk2; by apply (Hdis k)).
      rewrite (Ho k Hs Hk') in Hz. auto.
  - apply NoDup_app. auto.
  - by rewrite Hf', Hf, drop_drop, length_app.
  - intros pos Hp. by rewrite Hc', Hc.
  - done.
  - rewrite Hi'. by rewrite Hi at 1.
  - intros b Hb Hnf Hns o. rewrite Hfr'; [by apply Hfr|done|auto|].
    intros k Hk. destruct (decide (k ∈ ks)) as [Hin|Hout].
    + destruct (Hn k Hin) as (_ & _ & Hin' & _). by intros <-.
    + rewrite Ho by done. by apply Hns.
Qed.

(** one address was filled in: what remains to show *)
Lemma extends_one v i v' i' k b p : inode_ok sb first bs v i -> slot k -> slot_addr v i k = 0 ->
  free_of (v bm) size = b :: p -> first <= b -> b ∈ bs ->
  slot_addr v' i' k = b -> (forall k', slot k' -> k' <> k -> slot_addr v' i' k' = slot_addr v i k') ->
  (forall o, v' bm o = mark (v bm) b o) -> (k <> 12 -> forall o, 0 <= o < BSIZE -> v' b o = 0) ->
  (forall a, a <> bm -> a <> b -> a <> slot_addr v i 12 -> forall o, v' a o = v a o) ->
  i' = set_i_addrs (i_addrs i') i -> length (i_addrs i') = 13%nat ->
  extends v i v' i' [k].
Proof.
  intros Hok Hk Hz Hf Hb Hbs Hnew Hold Hmark Hzero Hrest Hi' Hlen.
  assert (b ∈ free_of (v bm) size) as Hbf by (rewrite Hf; by left).
  pose proof (proj1 (free_of_elem _ _ _) Hbf) as [Hb1 Hb2].
  pose proof Hg as [Hsize Hbm _].
  assert (forall k', slot k' -> slot_addr v i k' <> b) as Hfresh.
  { intros k' Hk' E. destruct (io_data _ _ _ _ _ Hok k' Hk') as (_ & _ & Hc); [lia|]. rewrite E in Hc. congruence. }
  split.
  - intros k' Hk' [Hne _]%not_elem_of_cons. by apply Hold.
  - intros k' ->%list_elem_of_singleton. rewrite Hnew. repeat split; [apply Hk|apply Hk|done..|lia].
  - apply NoDup_singleton.
  - simpl. rewrite Hf. simpl. rewrite drop_0. rewrite (free_of_ext _ _ _ Hmark). by apply free_of_mark.
  - intros pos Hpos%position_block. unfold contents.
    destruct (slot_of_slot _ Hpos) as [Hs Hne]. set (k' := slot_of (pos / BSIZE)) in *.
    destruct (decide (k' = k)) as [->|Hkk].
    + rewrite Hnew, Hz. simpl. destruct (Z.eqb_spec b 0); [done|]. apply Hzero; [done|].
      by apply Z.mod_pos_bound.
    + rewrite Hold by done. destruct (Z.eqb_spec (slot_addr v i k') 0) as [|Hnz]; [done|].
      destruct (io_data _ _ _ _ _ Hok k' Hs Hnz) as ([??] & _). apply Hrest; [lia|by apply Hfresh|].
      intros E. apply Hne. by apply (io_inj _ _ _ _ _ Hok).
  - assert (forall k', slot k' -> slot_addr v' i' k' <> 0 -> first <= slot_addr v' i' k' < size /\
      slot_addr v' i' k' ∈ bs /\ bit_clear (v' bm) (slot_addr v' i' k') = false) as Hdata.
    { intros k' Hk' Hnz. rewrite (bit_clear_ext _ _ _ Hmark), bit_clear_mark.
      destruct (decide (k' = k)) as [->|Hne].
      - rewrite Hnew, Z.eqb_refl, andb_false_r. repeat split; [lia..|done].
      - rewrite Hold in * by done. destruct (io_data _ _ _ _ _ Hok k' Hk' Hnz) as (? & ? & ->). done. }
    split.
    + rewrite Hi'. apply Hok.
    + done.
    + done.
    + intros k1 k2 Hk1 Hk2 Hnz E. destruct (decide (k1 = k)) as [->|Hne1], (decide (k2 = k)) as [->|Hne2]; [done|..].
      * rewrite Hnew, Hold in E by done. symmetry in E. by apply Hfresh in E.
      * rewrite Hnew, Hold in E by done. by apply Hfresh in E.
      * rewrite Hold in * by done. rewrite Hold in E by done. by apply (io_inj _ _ _ _ _ Hok).
  - done.
  - intros a Ha Hnf Hns o. apply Hrest; [done| |].
    + by intros ->.
    + intros E. by apply (Hns 12).
Qed.

Lemma get_zero m : forall f off, (forall k, off <= k < off + Z.of_nat m -> f k = 0) -> get m f off = 0.
Proof. induction m as [|m IH]; intros f off Hz; [done|]. cbn [get]. rewrite Hz, IH by (intros; try apply Hz; lia). done. Qed.
#[local] Arguments get : simpl never.
#[local] Arguments put : simpl never.

Lemma slot_addr_12 v i : slot_addr v i 12 = default 0 (i_addrs i !! 12%nat).
Proof. done. Qed.
Lemma slot_addr_entry v i k : 13 <= k -> slot_addr v i k =
  if slot_addr v i 12 =? 0 then 0 else get 4 (v (slot_addr v i 12)) (4 * (k - 13)).
Proof. intros Hk. unfold slot_addr at 1. by rewrite (proj2 (Z.ltb_ge _ _)) by lia. Qed.
Lemma slot_addr_ext v v' i k : (forall o, v' (slot_addr v i 12) o = v (slot_addr v i 12) o) ->
  slot_addr v' i k = slot_addr v i k.
Proof.
  intros E. unfold slot_addr at 1 2. case_match; [done|]. rewrite <- (slot_addr_12 v).
  case_match; [done|]. by apply get_ext.
Qed.

Lemma alloc_view_at v b : b <> bm -> (forall o, alloc_view bm v b bm o = mark (v bm) b o) /\
  (forall o, 0 <= o < BSIZE -> alloc_view bm v b b o = 0) /\
  (forall a, a <> bm -> a <> b -> forall o, alloc_view bm v b a o = v a o).
Proof.
  intros Hb. unfold alloc_view. split; [|split].
  - intros o. by rewrite upd_other, upd_same by done.
  - intros o Ho. rewrite upd_same. unfold fill. case_bool; [done|]. zify_bool. lia.
  - intros a ?? o. by rewrite !upd_other by done.
Qed.

(** a block for a place in the inode itself *)
Lemma extends_direct v i k b p : inode_ok sb first bs v i -> 0 <= k < 13 -> slot_addr v i k = 0 ->
  free_of (v bm) size = b :: p -> first <= b -> b ∈ bs ->
  extends v i (alloc_view bm v b) (set_i_addrs (<[Z.to_nat k := b]> (i_addrs i)) i) [k].
Proof.
  intros Hok Hk Hz Hf Hb Hbs. pose proof Hg as [_ Hbm _].
  destruct (alloc_view_at v b) as (Hmark & Hzero & Hrest); [lia|].
  set (i' := set_i_addrs _ i).
  assert (forall k', 0 <= k' < 13 -> k' <> k -> default 0 (i_addrs i' !! Z.to_nat k') = default 0
      (i_addrs i !! Z.to_nat k')) as Hsame.
  { intros k' Hk' Hne. unfold i'. simpl. by rewrite list_lookup_insert_ne by lia. }
  assert (default 0 (i_addrs i' !! Z.to_nat k) = b) as Hnew.
  { unfold i'. simpl. rewrite list_lookup_insert_eq; [done|]. rewrite (io_len _ _ _ _ _ Hok). lia. }
  apply (extends_one _ _ _ _ _ b p); try done.
  - unfold slot. lia.
  - unfold slot_addr. by rewrite (proj2 (Z.ltb_lt _ _)) by lia.
  - intros k' Hk' Hne. destruct (Z_lt_le_dec k' 13) as [Hlt|Hge].
    + unfold slot_addr. rewrite (proj2 (Z.ltb_lt _ _)) by lia. apply Hsame; [|done]. unfold slot in Hk'. lia.
    + rewrite (slot_addr_entry v i), slot_addr_entry by done. unfold slot in Hk'. destruct (decide (k = 12)) as [->|Hk12].
      * rewrite Hz. simpl. rewrite slot_addr_12. change 12%nat with (Z.to_nat 12). rewrite Hnew.
        case_match; [done|]. apply get_zero. intros o Ho. apply Hzero. unfold BSIZE. lia.
      * assert (slot_addr (alloc_view bm v b) i' 12 = slot_addr v i 12) as ->.
        { rewrite !slot_addr_12. by apply (Hsame 12). }
        destruct (Z.eqb_spec (slot_addr v i 12) 0) as [|Hnz]; [done|]. apply get_ext. intros o _.
        destruct (io_data _ _ _ _ _ Hok 12) as ([??] & _ & Hc); [by unfold slot|done|]. apply Hrest; [lia|].
        intros E. rewrite E in Hc. assert (b ∈ free_of (v bm) size) as [_ ?]%free_of_elem by (rewrite Hf; by left).
        congruence.
  - intros a Ha Hab _ o. by apply Hrest.
  - unfold i'. simpl. rewrite length_insert. apply Hok.
Qed.

(** a block for an entry of the indirect block *)
Lemma extends_entry v i k b p : inode_ok sb first bs v i -> slot k -> 13 <= k -> slot_addr v i k = 0 ->
  slot_addr v i 12 <> 0 -> free_of (v bm) size = b :: p -> first <= b -> b ∈ bs -> b < 2 ^ 32 ->
  let a := slot_addr v i 12 in let v1 := alloc_view bm v b in
  extends v i (upd v1 a (put 4 (v1 a) (4 * (k - 13)) b)) i [k].
Proof.
  intros Hok Hk Hk13 Hz Ha Hf Hb Hbs Hb32 a v1. pose proof Hg as [_ Hbm _].
  destruct (alloc_view_at v b) as (Hmark & Hzero & Hrest); [lia|].
  destruct (io_data _ _ _ _ _ Hok 12) as ([??] & _ & Hc); [by unfold slot|done|].
  assert (a <> b) as Hab.
  { intros E. fold a in Hc. rewrite E in Hc.
    assert (b ∈ free_of (v bm) size) as [_ ?]%free_of_elem by (rewrite Hf; by left). congruence. }
  assert (a <> bm) as Habm by (unfold a; lia).
  unfold slot in Hk. apply (extends_one _ _ _ _ _ b p); try done.
  - rewrite slot_addr_entry, slot_addr_12 by done. rewrite <- (slot_addr_12 v). fold a.
    rewrite (proj2 (Z.eqb_neq _ _)) by done. rewrite upd_same, get_put. apply Z.mod_small.
    change (256 ^ Z.of_nat 4) with (2 ^ 32). lia.
  - intros k' Hk' Hne. destruct (Z_lt_le_dec k' 13) as [Hlt|Hge].
    + unfold slot_addr. by rewrite (proj2 (Z.ltb_lt _ _)) by lia.
    + rewrite (slot_addr_entry v), slot_addr_entry, slot_addr_12 by done. rewrite <- (slot_addr_12 v). fold a.
      case_match; [done|]. rewrite upd_same, get_put_other by lia. apply get_ext. intros o _. by apply Hrest.
  - intros o. rewrite upd_other by done. apply Hmark.
  - intros _ o Ho. rewrite upd_other by done. by apply Hzero.
  - intros a' ? ? Hne o. rewrite upd_other by done. by apply Hrest.
  - by destruct i.
  - apply Hok.
Qed.
End Files.

(** ** Missing blocks *)
Section Reserve.
Context (sb : superblock) (first : Z) (bs : list Z).
Abbreviation bm := (sb_bmapstart sb).
Abbreviation size := (sb_size sb).
Implicit Types (v : Z -> bytes) (i : inode) (ks l : list Z).

(** the number of missing addresses among the places [l] *)
Definition missing v i l : nat := length (filter (fun k => slot_addr v i k = 0) l).
(** the first [m] free blocks are for files *)
Definition reserved v (m : nat) : Prop :=
  (m <= length (free_of (v bm) size))%nat /\ forall b, b ∈ take m (free_of (v bm) size) -> first <= b /\ b ∈ bs.

Lemma reserved_mono v m m' : reserved v m -> (m' <= m)%nat -> reserved v m'.
Proof.
  intros [Hm Hb] Hle. split; [lia|]. intros b Hin. apply Hb.
  rewrite <- (take_drop m' (take m _)), take_take. apply elem_of_app. left. by rewrite Nat.min_l.
Qed.
Lemma reserved_one v m : reserved v (Datatypes.S m) ->
  exists b p, free_of (v bm) size = b :: p /\ first <= b /\ b ∈ bs.
Proof.
  intros [Hm Hb]. destruct (free_of (v bm) size) as [|b p]; simpl in *; [lia|].
  exists b, p. split; [done|]. apply Hb. by left.
Qed.
Lemma missing_sub v i l l' : l' ⊆+ l -> (missing v i l' <= missing v i l)%nat.
Proof.
  intros [r E]%submseteq_Permutation. unfold missing.
  rewrite (Permutation_length (filter_Permutation _ _ _ E)), filter_app, length_app. lia.
Qed.

Lemma missing_extends v i v' i' ks l : extends sb first bs v i v' i' ks -> NoDup l -> ks ⊆ l -> Forall slot l ->
  missing v i l = (length ks + missing v' i' l)%nat.
Proof.
  intros Hex Hnd Hks Hl. unfold missing. rewrite <- length_app. apply Permutation_length.
  rewrite Forall_forall in Hl. apply NoDup_Permutation.
  - by apply NoDup_filter.
  - apply NoDup_app. split; [apply Hex|]. split; [|by apply NoDup_filter].
    intros k Hk [Hz _]%list_elem_of_filter. by destruct (ex_new _ _ _ _ _ _ _ _ Hex k Hk) as (_ & _ & _ & ?).
  - intros k. rewrite elem_of_app, !list_elem_of_filter. destruct (decide (k ∈ ks)) as [Hk|Hk].
    + destruct (ex_new _ _ _ _ _ _ _ _ Hex k Hk) as (_ & ? & _). split; [by left|]. intros _. by split; [|apply Hks].
    + split.
      * intros [Hz Hin]. right. by rewrite (ex_old _ _ _ _ _ _ _ _ Hex k (Hl k Hin) Hk).
      * intros [?|[Hz Hin]]; [done|]. by rewrite (ex_old _ _ _ _ _ _ _ _ Hex k (Hl k Hin) Hk) in Hz.
Qed.

Lemma reserved_extends v i v' i' ks l : extends sb first bs v i v' i' ks -> NoDup l -> ks ⊆ l -> Forall slot l ->
  reserved v (missing v i l) -> reserved v' (missing v' i' l).
Proof.
  intros Hex Hnd Hks Hl [Hm Hb]. rewrite (missing_extends _ _ _ _ _ _ Hex Hnd Hks Hl) in *.
  unfold reserved. rewrite (ex_free _ _ _ _ _ _ _ _ Hex). split; [rewrite length_drop; lia|].
  intros b Hin. apply Hb. rewrite take_drop_commute in Hin. by apply elem_of_drop in Hin.
Qed.
End Reserve.

(** ** bmap *)
Section Bmap.
Context {S : Type} `{!Disk S} {content : disk_view S} {n : Z} {bs : list Z} {sb0 : superblock} {first : Z}.
Hypothesis (Hfits : fits content n bs) (Hg : geometry sb0 first bs).
Implicit Types (held : list (nat * Z)) (v : Z -> bytes) (x : xv6_t) (s : S * xv6_t) (i : inode).
Abbreviation bm := (sb_bmapstart sb0).
Abbreviation size := (sb_size sb0).

(** the file at the place [ip] of the table is [i], with the blocks [v] *)
Record file_state held v x ip i s : Prop := {
  fs_cached : cached content n bs held v x s;
  fs_sb : sb x = sb0;
  fs_inode : itable x !! ip = Some i;
  fs_ok : inode_ok sb0 first bs v i
}.

Lemma file_state_extends held v x ip i v' i' ks s : cached content n bs held v' (with_inode ip i' x) s ->
  sb x = sb0 -> itable x !! ip = Some i -> extends sb0 first bs v i v' i' ks ->
  file_state held v' (with_inode ip i' x) ip i' s.
Proof. intros Hc Hs Hi Hex. split; [done..| |apply Hex]. by eapply with_inode_lookup. Qed.

(** what bmap does to a file *)
Definition grown held v x ip i (l : list Z) s' v' i' ks : Prop :=
  file_state held v' (with_inode ip i' x) ip i' s' /\ extends sb0 first bs v i v' i' ks /\ ks ⊆ l.

Lemma balloc_file held v x s b p : cached content n bs held v x s -> sb x = sb0 ->
  Z.of_nat (length held) + 1 < 2 ^ 32 -> free_of (v bm) size = b :: p -> b ∈ bs ->
  exists s', balloc ROOTDEV s = (Ok b, s') /\ cached content n bs held (alloc_view bm v b) x s'.
Proof.
  intros Hc Hsb. pose proof (balloc_run Hfits held v x s first b p Hc) as H. rewrite Hsb in H. by apply H.
Qed.

Lemma addr_or_alloc_run held v x ip i s k : file_state held v x ip i s -> Z.of_nat (length held) + 1 < 2 ^ 32 ->
  0 <= k < 13 -> reserved sb0 first bs v (missing v i [k]) ->
  exists s' v' i' ks, addr_or_alloc ip (Z.to_nat k) s = (Ok (slot_addr v' i' k), s') /\ slot_addr v' i' k <> 0 /\
    grown held v x ip i [k] s' v' i' ks.
Proof.
  intros [Hc Hsb Hi Hok] Hsmall Hk Hres. unfold addr_or_alloc.
  rewrite (bind_ok _ _ _ _ _ (inode_load_run _ _ _ _ _ _ Hc Hi)).
  destruct (lookup_lt_is_Some_2 (i_addrs i) (Z.to_nat k)) as [a Ha]; [rewrite (io_len _ _ _ _ _ Hok); lia|].
  assert (slot_addr v i k = a) as Ea by (unfold slot_addr; rewrite (proj2 (Z.ltb_lt _ _)) by lia; by rewrite Ha).
  rewrite Ha. destruct (Z.eqb_spec a 0) as [->|Hnz].
  - unfold missing in Hres. rewrite filter_cons_True in Hres by done.
    destruct (reserved_one _ _ _ _ _ Hres) as (b & p & Hf & Hb & Hbs). rewrite (io_dev _ _ _ _ _ Hok).
    destruct (balloc_file held v x s b p Hc Hsb Hsmall Hf Hbs) as (s1 & Hba & Hc1).
    rewrite (bind_ok _ _ _ _ _ Hba). pose proof (ge_bmap _ _ _ Hg).
    destruct (Z.eqb_spec b 0) as [|Hb0]; [lia|]. cbn [negb when].
    destruct (inode_modify_run _ _ x _ ip i (fun i => set_i_addrs (<[Z.to_nat k := b]> (i_addrs i)) i) Hc1 Hi)
      as (s2 & Hmod & Hc2). rewrite (bind_ok _ _ _ _ _ Hmod).
    pose proof (extends_direct _ _ _ Hg v i k b p Hok Hk Ea Hf Hb Hbs) as Hex.
    assert (slot_addr (alloc_view bm v b) (set_i_addrs (<[Z.to_nat k := b]> (i_addrs i)) i) k = b) as E.
    { unfold slot_addr. rewrite (proj2 (Z.ltb_lt _ _)) by lia. simpl. rewrite list_lookup_insert_eq; [done|].
      by eapply lookup_lt_Some. }
    eexists s2, _, _, [k]. rewrite E. split; [reflexivity|]. split; [done|].
    split; [by eapply file_state_extends|by split].
  - exists s, v, i, []. rewrite Ea. split; [done|]. split; [done|]. split.
    + split; rewrite ?with_inode_same by done; done.
    + split; [by apply extends_refl|]. by intros ? ?%elem_of_nil.
Qed.

(** the places that the address of a block depends on *)
Definition bmap_slots (bn : Z) : list Z := if bn <? NDIRECT then [bn] else [12; slot_of bn].

Lemma bmap_slots_range bn : 0 <= bn < MAXFILE -> Forall slot (bmap_slots bn) /\ NoDup (bmap_slots bn).
Proof.
  intros Hbn. destruct (slot_of_slot bn Hbn) as [Hs Hne]. unfold bmap_slots.
  destruct (Z.ltb_spec bn NDIRECT) as [Hlt|Hge].
  - unfold slot_of in Hs. rewrite (proj2 (Z.ltb_lt _ _)) in Hs by done.
    split; [by apply Forall_singleton|apply NoDup_singleton].
  - split; [apply Forall_cons; split; [by unfold slot|by apply Forall_singleton]|].
    apply NoDup_cons. split; [|apply NoDup_singleton]. intros ?%list_elem_of_singleton. congruence.
Qed.

(** the entry of the indirect block *)
Lemma bmap_entry_run held v x ip i s bn : file_state held v x ip i s -> Z.of_nat (length held) + 2 < 2 ^ 32 ->
  0 <= bn < NINDIRECT -> slot_addr v i 12 <> 0 -> reserved sb0 first bs v (missing v i [13 + bn]) ->
  let addr := slot_addr v i 12 in
  exists s' v' i' ks, (i ← inode_load ip; bp ← bread (i_dev i) addr; a ← buf_data bp;
      let addr := get 4 a (4 * bn) in
      addr ← (if addr =? 0 then
                addr ← balloc (i_dev i);
                when (negb (addr =? 0)) (a ← buf_data bp; buf_set bp (put 4 a (4 * bn) addr)) ;;
                mret addr
              else mret addr);
      brelse bp ;; mret addr) s = (Ok (slot_addr v' i' (13 + bn)), s') /\ slot_addr v' i' (13 + bn) <> 0 /\
    grown held v x ip i [13 + bn] s' v' i' ks.
Proof.
  intros [Hc Hsb Hi Hok] Hsmall Hbn Ha Hres addr.
  rewrite (bind_ok _ _ _ _ _ (inode_load_run _ _ _ _ _ _ Hc Hi)), (io_dev _ _ _ _ _ Hok).
  destruct (io_data _ _ _ _ _ Hok 12) as ([Ha1 Ha2] & Hbs & Hused); [by unfold slot|done|]. fold addr in Hbs, Ha1, Ha2, Ha.
  assert (slot_addr v i (13 + bn) = get 4 (v addr) (4 * bn)) as Ek.
  { rewrite slot_addr_entry by lia. fold addr. rewrite (proj2 (Z.eqb_neq _ _)) by done. f_equal. lia. }
  step_bread Hfits addr Hc as bp s1 Hc1. step_data addr Hc1 as a Ed.
  rewrite (get_ext 4 a (v addr)) by (intros; apply Ed). cbv zeta.
  destruct (Z.eqb_spec (get 4 (v addr) (4 * bn)) 0) as [Hz|Hnz]; cbv iota.
  - unfold missing in Hres. rewrite filter_cons_True in Hres by (by rewrite Ek).
    destruct (reserved_one _ _ _ _ _ Hres) as (b & p & Hf & Hb & Hbsb). rewrite bind_assoc.
    destruct (balloc_file _ v x s1 b p Hc1 Hsb ltac:(simpl; lia) Hf Hbsb) as (s2 & Hba & Hc2).
    rewrite (bind_ok _ _ _ _ _ Hba). pose proof (ge_bmap _ _ _ Hg).
    destruct (Z.eqb_spec b 0) as [|Hb0]; [lia|]. cbn [negb when]. rewrite !bind_assoc.
    step_data addr Hc2 as a2 Ed2. step_set addr Hc2 as s3 Hc3.
    erewrite (bind_ok (mret _)) by reflexivity. step_brelse Hc3 as s4 Hc4.
    pose proof (extends_entry _ _ _ Hg v i (13 + bn) b p Hok) as Hex. cbv zeta in Hex.
    replace (4 * (13 + bn - 13)) with (4 * bn) in Hex by lia.
    assert (0 <= b < size) as Hbr.
    { apply (free_of_elem (v bm)). rewrite Hf. by left. }
    pose proof (ge_size _ _ _ Hg) as Hsize. unfold BPB, BSIZE in Hsize.
    unfold NINDIRECT, BSIZE in Hbn. change (4096 / 4) with 1024 in Hbn.
    specialize (Hex ltac:(unfold slot; lia) ltac:(lia) ltac:(by rewrite Ek) Ha Hf Hb Hbsb ltac:(lia)). fold addr in Hex.
    set (v' := upd (alloc_view bm v b) addr (put 4 (alloc_view bm v b addr) (4 * bn) b)) in *.
    assert (slot_addr v' i (13 + bn) = b) as E.
    { rewrite slot_addr_entry, slot_addr_12 by lia. rewrite <- (slot_addr_12 v). fold addr.
      rewrite (proj2 (Z.eqb_neq _ _)) by done. unfold v'. rewrite upd_same.
      replace (4 * (13 + bn - 13)) with (4 * bn) by lia. rewrite get_put. apply Z.mod_small.
      change (256 ^ Z.of_nat 4) with (2 ^ 32). lia. }
    exists s4, v', i, [13 + bn]. rewrite E. split; [done|]. split; [done|]. split; [|by split].
    eapply file_state_extends; [|done..]. rewrite with_inode_same by done.
    eapply cached_ext; [|done]. apply upd_ext. intros k. apply put_ext. intros k'. by rewrite Ed2.
  - erewrite (bind_ok (mret _)) by reflexivity. step_brelse Hc1 as s2 Hc2. exists s2, v, i, []. rewrite Ek. split;
      [done|]. split; [done|]. split.
    + split; rewrite ?with_inode_same by done; done.
    + split; [by apply extends_refl|]. by intros ? ?%elem_of_nil.
Qed.

Lemma reserved_elem v i k l : k ∈ l -> reserved sb0 first bs v (missing v i l) -> reserved sb0 first bs v (missing v i [k]).
Proof. intros Hk Hres. eapply reserved_mono; [done|]. apply missing_sub. by apply singleton_submseteq_l. Qed.

Lemma bmap_grown_trans held v x ip i l s1 v1 i1 ks1 s2 v2 i2 ks2 : grown held v x ip i l s1 v1 i1 ks1 ->
  grown held v1 (with_inode ip i1 x) ip i1 l s2 v2 i2 ks2 -> grown held v x ip i l s2 v2 i2 (ks1 ++ ks2).
Proof.
  intros (Hf1 & He1 & Hl1) (Hf2 & He2 & Hl2). split; [|split].
  - by rewrite with_inode_twice in Hf2.
  - by eapply extends_trans.
  - intros k [?|?]%elem_of_app; auto.
Qed.
Lemma grown_weaken held v x ip i l l' s' v' i' ks : grown held v x ip i l s' v' i' ks -> l ⊆ l' ->
  grown held v x ip i l' s' v' i' ks.
Proof. intros (? & ? & ?) ?. split; [done|]. split; [done|]. by etransitivity. Qed.

(** the address of a block of the file, for which room is reserved *)
Lemma bmap_run held v x ip i s bn l : file_state held v x ip i s -> Z.of_nat (length held) + 2 < 2 ^ 32 ->
  0 <= bn < MAXFILE -> NoDup l -> Forall slot l -> bmap_slots bn ⊆ l -> reserved sb0 first bs v (missing v i l) ->
  exists s' v' i' ks, bmap ip bn s = (Ok (slot_addr v' i' (slot_of bn)), s') /\ slot_addr v' i' (slot_of bn) <> 0 /\
    grown held v x ip i l s' v' i' ks /\ reserved sb0 first bs v' (missing v' i' l).
Proof.
  intros Hf Hsmall Hbn Hnd Hl Hsl Hres. unfold bmap. unfold bmap_slots in Hsl.
  destruct (Z.ltb_spec bn NDIRECT) as [Hlt|Hge].
  - assert (slot_of bn = bn) as -> by (unfold slot_of; by rewrite (proj2 (Z.ltb_lt _ _))).
    assert (bn ∈ l) as Hin by (apply Hsl; by left). unfold NDIRECT in Hlt.
    destruct (addr_or_alloc_run held v x ip i s bn Hf) as (s1 & v1 & i1 & ks & Hrun & Hnz & Hgr);
      [lia|lia|by eapply reserved_elem|].
    exists s1, v1, i1, ks. do 2 (split; [done|]).
    assert (grown held v x ip i l s1 v1 i1 ks) as Hgr'.
    { eapply grown_weaken; [done|]. by intros k ->%list_elem_of_singleton. }
    split; [done|]. destruct Hgr' as (_ & Hex & Hks). by eapply reserved_extends.
  - assert (12 ∈ l /\ slot_of bn ∈ l) as [Hin Hin'] by (split; apply Hsl; [by left|right; by left]).
    assert (bn - NDIRECT < NINDIRECT) as Hlt.
    { unfold MAXFILE in Hbn. lia. }
    rewrite (proj2 (Z.ltb_lt _ _)) by done. change (Z.to_nat NDIRECT) with (Z.to_nat 12).
    destruct (addr_or_alloc_run held v x ip i s 12 Hf) as (s1 & v1 & i1 & ks & Hrun & Hnz & Hgr);
      [lia|lia|by eapply reserved_elem|].
    rewrite (bind_ok _ _ _ _ _ Hrun), (proj2 (Z.eqb_neq _ _)) by done.
    assert (grown held v x ip i l s1 v1 i1 ks) as Hgr'.
    { eapply grown_weaken; [done|]. by intros k ->%list_elem_of_singleton. }
    clear Hgr. pose proof Hgr' as (Hf1 & Hex & Hks).
    assert (reserved sb0 first bs v1 (missing v1 i1 l)) as Hres1 by by eapply reserved_extends.
    assert (slot_of bn = 13 + (bn - NDIRECT)) as E.
    { unfold slot_of. rewrite (proj2 (Z.ltb_ge _ _)) by done. unfold NDIRECT. lia. }
    rewrite E in *.
    destruct (bmap_entry_run held v1 _ ip i1 s1 (bn - NDIRECT) Hf1) as (s2 & v2 & i2 & ks2 & Hrun2 & Hnz2 & Hgr2);
      [done|lia|done|by eapply reserved_elem|].
    exists s2, v2, i2, (ks ++ ks2). split; [exact Hrun2|]. split; [done|].
    assert (grown held v1 (with_inode ip i1 x) ip i1 l s2 v2 i2 ks2) as Hgr2'.
    { eapply grown_weaken; [done|]. by intros k ->%list_elem_of_singleton. }
    split; [by eapply bmap_grown_trans|]. destruct Hgr2' as (_ & Hex2 & Hks2). by eapply reserved_extends.
Qed.
End Bmap.

(** ** Reading *)

Lemma blit_none dst d src s k : blit dst d src s 0 k = dst k.
Proof. unfold blit. case_bool; [zify_bool; lia|done]. Qed.
Lemma blit_app dst d src s n n' k : 0 <= n -> 0 <= n' ->
  blit (blit dst d src s n) (d + n) src (s + n) n' k = blit dst d src s (n + n') k.
Proof.
  intros ??. unfold blit. repeat case_bool; zify_bool; try lia; try done; f_equal; lia.
Qed.
Lemma blit_same dst dst' d src src' s s' n k : (forall k, dst k = dst' k) ->
  (forall t, 0 <= t < n -> src (s + t) = src' (s' + t)) -> blit dst d src s n k = blit dst' d src' s' n k.
Proof. intros E E'. unfold blit. case_bool; [|done]. zify_bool. apply E'. lia. Qed.

(** the bytes of one block *)
Lemma block_position off t : 0 <= t -> off mod BSIZE + t < BSIZE ->
  (off + t) / BSIZE = off / BSIZE /\ (off + t) mod BSIZE = off mod BSIZE + t.
Proof.
  intros Ht Hlt. pose proof (Z.mod_pos_bound off BSIZE ltac:(done)).
  assert (off + t = (off mod BSIZE + t) + (off / BSIZE) * BSIZE) as E
    by (pose proof (Z.div_mod off BSIZE ltac:(done)); lia).
  rewrite E. rewrite Z.div_add, Z.mod_add, Z.div_small, Z.mod_small by (done || lia). lia.
Qed.
Lemma contents_block v i off t : 0 <= t -> off mod BSIZE + t < BSIZE ->
  let a := slot_addr v i (slot_of (off / BSIZE)) in
  contents v i (off + t) = if a =? 0 then 0 else v a (off mod BSIZE + t).
Proof. intros Ht Hlt. unfold contents. by destruct (block_position off t Ht Hlt) as [-> ->]. Qed.

(** enough fuel for [r] bytes from [off] on *)
Definition enough (fuel : nat) (off r : Z) : Prop :=
  (1 <= fuel)%nat /\ (0 < r -> r + off mod BSIZE <= BSIZE * (Z.of_nat fuel - 1)).
Lemma enough_start off n : 0 <= n -> enough (Z.to_nat (n / BSIZE + 3)) off n.
Proof.
  intros Hn. pose proof (Z.div_pos n BSIZE Hn ltac:(done)). split; [lia|]. intros _.
  pose proof (Z.mod_pos_bound off BSIZE ltac:(done)). pose proof (Z.mod_pos_bound n BSIZE ltac:(done)).
  pose proof (Z.div_mod n BSIZE ltac:(done)). rewrite Z2Nat.id by lia. lia.
Qed.
Lemma enough_next fuel off r m : enough (Datatypes.S fuel) off r -> 0 < r -> m = Z.min r (BSIZE - off mod BSIZE) ->
  enough fuel (off + m) (r - m).
Proof.
  intros [_ H] Hr ->. specialize (H Hr). rewrite Nat2Z.inj_succ in H.
  pose proof (Z.mod_pos_bound off BSIZE ltac:(done)) as Hm. unfold enough, BSIZE in *. split; [lia|]. intros Hlt.
  rewrite Z.min_r in * by lia.
  replace ((off + (4096 - off mod 4096)) mod 4096) with 0; [lia|].
  replace (off + (4096 - off mod 4096)) with ((off / 4096 + 1) * 4096) by (pose proof (Z.div_mod off 4096 ltac:(done)); lia).
  by rewrite Z.mod_mul.
Qed.
(** the places of the blocks of [n] bytes from [off] on *)
Definition covers (l : list Z) (off n : Z) : Prop :=
  forall pos, off <= pos < off + n -> bmap_slots (pos / BSIZE) ⊆ l.

Section Loops.
Context {S : Type} `{!Disk S} {content : disk_view S} {n : Z} {bs : list Z} {sb0 : superblock} {first : Z}.
Hypothesis (Hfits : fits content n bs) (Hg : geometry sb0 first bs).
Implicit Types (held : list (nat * Z)) (v : Z -> bytes) (x : xv6_t) (s : S * xv6_t) (i : inode).
Abbreviation bm := (sb_bmapstart sb0).
Abbreviation size := (sb_size sb0).
Abbreviation file_state := (@file_state S content n bs sb0 first).
Abbreviation extends := (extends sb0 first bs).
Abbreviation reserved := (reserved sb0 first bs).

(** the file after bytes were written: [m] bytes from [off] on are those of [src] at [p] *)
Record written v i v' i' (off : Z) (src : bytes) (p m : Z) : Prop := {
  wr_ok : inode_ok sb0 first bs v' i';
  wr_contents : forall pos, position pos -> contents v' i' pos = blit (contents v i) off src p m pos;
  wr_inode : i' = set_i_addrs (i_addrs i') i;
  wr_slots : forall k, slot k -> slot_addr v' i' k = slot_addr v i k \/ slot_addr v' i' k ∈ free_of (v bm) size;
  wr_free : forall b, b ∈ free_of (v' bm) size -> b ∈ free_of (v bm) size;
  wr_frame : forall b, b <> bm -> b ∉ free_of (v bm) size -> (forall k, slot k -> slot_addr v i k <> b) ->
    forall o, v' b o = v b o
}.

Lemma extends_written v i v' i' ks off src p : extends v i v' i' ks -> written v i v' i' off src p 0.
Proof.
  intros [Ho Hn Hd Hf Hc Hok Hi Hfr]. split; try done.
  - intros pos Hpos. rewrite blit_none. by apply Hc.
  - intros k Hk. destruct (decide (k ∈ ks)) as [Hin|Hout]; [right; by apply Hn|left; by apply Ho].
  - intros b. rewrite Hf. apply elem_of_drop.
Qed.

Lemma written_trans v i v1 i1 v2 i2 off src p m m' : 0 <= m -> 0 <= m' -> written v i v1 i1 off src p m ->
  written v1 i1 v2 i2 (off + m) src (p + m) m' -> written v i v2 i2 off src p (m + m').
Proof.
  intros Hm Hm' [Hok Hc Hi Hs Hf Hfr] [Hok' Hc' Hi' Hs' Hf' Hfr']. split; [done|..].
  - intros pos Hpos. rewrite Hc', <- blit_app by done. unfold blit at 1. unfold blit at 1. case_match; [done|]. by apply Hc.
  - rewrite Hi'. by rewrite Hi at 1.
  - intros k Hk. destruct (Hs' k Hk) as [->|?]; [by apply Hs|right; auto].
  - auto.
  - intros b Hb Hnf Hns o. rewrite Hfr'; [by apply Hfr|done|auto|].
    intros k Hk. destruct (Hs k Hk) as [->|?]; [by apply Hns|]. by intros <-.
Qed.

(** storing into a block of the file *)
Lemma block_written v i off src p m d : inode_ok sb0 first bs v i -> 0 <= off -> off < MAXFILE * BSIZE -> 0 <= m ->
  off mod BSIZE + m <= BSIZE ->
  let a := slot_addr v i (slot_of (off / BSIZE)) in a <> 0 -> (forall k, d k = v a k) ->
  written v i (upd v a (blit d (off mod BSIZE) src p m)) i off src p m /\
  forall k, slot k -> slot_addr (upd v a (blit d (off mod BSIZE) src p m)) i k = slot_addr v i k.
Proof.
  intros Hok Hoff Hmax Hm Hlt a Ha Ed. pose proof (position_block off ltac:(by unfold position)) as Hpb.
  destruct (slot_of_slot _ Hpb) as [Hslot Hne12]. set (k0 := slot_of (off / BSIZE)) in *.
  destruct (io_data _ _ _ _ _ Hok k0 Hslot Ha) as ([Ha1 Ha2] & Hin & Hused). fold a in Ha1, Ha2, Hin, Hused.
  pose proof Hg as [_ Hbm _]. set (v' := upd v a _).
  assert (forall k, slot k -> slot_addr v' i k = slot_addr v i k) as Hslots.
  { intros k Hk. apply slot_addr_ext. intros o. unfold v'. rewrite upd_other; [done|].
    intros E. destruct (decide (slot_addr v i 12 = 0)) as [E0|Hn0]; [congruence|].
    apply Hne12. symmetry. by apply (io_inj _ _ _ _ _ Hok); [by unfold slot|..]. }
  assert (forall o, v' bm o = v bm o) as Hbmv by (intros o; unfold v'; by rewrite upd_other by lia).
  split; [|done]. split; try done.
  - split; [apply Hok|apply Hok|..].
    + intros k Hk. rewrite Hslots, (bit_clear_ext _ _ _ Hbmv) by done. by apply Hok.
    + intros k k' Hk Hk'. rewrite !Hslots by done. by apply Hok.
  - intros pos Hpos. unfold contents at 1. destruct (slot_of_slot _ (position_block _ Hpos)) as [Hs _].
    rewrite Hslots by done. unfold blit. destruct (decide (pos / BSIZE = off / BSIZE)) as [E|Hne].
    + rewrite E. fold k0. fold a. rewrite (proj2 (Z.eqb_neq _ _)) by done. unfold v'. rewrite upd_same.
      unfold blit. pose proof (Z.div_mod pos BSIZE ltac:(done)). pose proof (Z.div_mod off BSIZE ltac:(done)).
      rewrite Ed. unfold contents. rewrite E. fold k0. fold a. rewrite (proj2 (Z.eqb_neq a 0)) by done.
      repeat case_bool; zify_bool; try (exfalso; lia); [f_equal; lia|done].
    + assert (slot_addr v i (slot_of (pos / BSIZE)) <> a \/ slot_addr v i (slot_of (pos / BSIZE)) = 0) as Hd.
      { destruct (decide (slot_addr v i (slot_of (pos / BSIZE)) = a)) as [E|]; [|by left]. exfalso.
        apply Hne, slot_of_inj. by apply (io_inj _ _ _ _ _ Hok); [..|congruence|]. }
      unfold contents. destruct ((off <=? pos) && (pos <? off + m)) eqn:Ein.
      * exfalso. zify_bool. apply Hne. replace pos with (off + (pos - off)) by lia.
        apply block_position; lia.
      * case_match; [done|]. unfold v'. rewrite upd_other; [done|]. destruct Hd as [|E0]; [done|]. zify_bool. lia.
  - by destruct i.
  - intros k Hk. left. by apply Hslots.
  - intros b. by rewrite (free_of_ext _ _ _ Hbmv).
  - intros b Hb Hnf Hns o. unfold v'. rewrite upd_other; [done|]. intros ->. by apply (Hns k0).
Qed.

Lemma max_file : MAXFILE * BSIZE < 2 ^ 32.
Proof. done. Qed.

Lemma max_file_int : MAXFILE * BSIZE < 2 ^ 31.
Proof. done. Qed.

Lemma covers_next l off r m : covers l off r -> 0 <= m <= r -> covers l (off + m) (r - m).
Proof. intros Hc Hm pos Hpos. apply Hc. lia. Qed.

(** the block of the next bytes: its address, and how much of it *)
Lemma loop_step held v x ip i s off r l : file_state held v x ip i s -> Z.of_nat (length held) + 2 < 2 ^ 32 ->
  0 <= off -> 0 < r -> off + r <= MAXFILE * BSIZE -> NoDup l -> Forall slot l -> covers l off r ->
  reserved v (missing v i l) ->
  exists s1 v1 i1 ks, bmap ip (off / BSIZE) s = (Ok (slot_addr v1 i1 (slot_of (off / BSIZE))), s1) /\
    slot_addr v1 i1 (slot_of (off / BSIZE)) <> 0 /\ grown (content := content) (n := n) (bs := bs) (sb0 := sb0)
        (first := first) held v x ip i l s1 v1 i1 ks /\
    reserved v1 (missing v1 i1 l) /\ slot_addr v1 i1 (slot_of (off / BSIZE)) ∈ bs /\ i_dev i1 = ROOTDEV /\
    itable (with_inode ip i1 x) !! ip = Some i1.
Proof.
  intros Hf Hsmall Hoff Hr Hmax Hnd Hl Hcov Hres.
  pose proof (position_block off ltac:(unfold position; lia)) as Hpb.
  destruct (bmap_run Hfits Hg held v x ip i s _ l Hf Hsmall Hpb Hnd Hl) as (s1 & v1 & i1 & ks & Hrun & Hnz & Hgr & Hres1);
    [apply Hcov; lia|done|].
  exists s1, v1, i1, ks. do 4 (split; [done|]). destruct Hgr as ([Hc1 _ Hi1 Hok1] & _ & _).
  split; [|split; [apply Hok1|done]]. apply Hok1; [|done]. by apply slot_of_slot.
Qed.

Lemma readi_loop_run fuel : forall held v x ip i s dst d off n0 tot l, file_state held v x ip i s ->
  Z.of_nat (length held) + 2 < 2 ^ 32 -> 0 <= off -> tot <= n0 -> off + (n0 - tot) <= MAXFILE * BSIZE ->
  NoDup l -> Forall slot l -> covers l off (n0 - tot) -> reserved v (missing v i l) -> enough fuel off (n0 - tot) ->
  exists s' v' i' ks dst', readi_loop fuel ip dst d off n0 tot s = (Ok (n0, dst'), s') /\
    grown (content := content) (n := n) (bs := bs) (sb0 := sb0) (first := first) held v x ip i l s' v' i' ks /\
    reserved v' (missing v' i' l) /\
    forall k, dst' k = blit dst d (contents v i) off (n0 - tot) k.
Proof.
  induction fuel as [|fuel IH]; intros held v x ip i s dst d off n0 tot l Hf Hsmall Hoff Htot Hmax Hnd Hl Hcov Hres Hfuel;
    [destruct Hfuel; lia|].
  cbn [readi_loop]. destruct (Z.ltb_spec tot n0) as [Hlt|Hge].
  - destruct (loop_step _ _ _ _ _ _ _ _ _ Hf Hsmall Hoff (proj2 (Z.lt_0_sub _ _) Hlt) Hmax Hnd Hl Hcov Hres)
      as (s1 & v1 & i1 & ks & Hrun & Hnz & Hgr & Hres1 & Hin & Hdev & Hi1).
    pose proof Hgr as ([Hc1 Hsb1 _ Hok1] & Hex & Hks). rewrite (bind_ok _ _ _ _ _ Hrun), (proj2 (Z.eqb_neq _ _)) by done.
    rewrite (bind_ok _ _ _ _ _ (inode_load_run _ _ _ _ _ _ Hc1 Hi1)), Hdev.
    set (a := slot_addr v1 i1 (slot_of (off / BSIZE))) in *. set (m := Z.min (n0 - tot) (BSIZE - off mod BSIZE)).
    pose proof (Z.mod_pos_bound off BSIZE ltac:(done)) as Hmod.
    assert (0 < m <= n0 - tot /\ off mod BSIZE + m <= BSIZE) as [Hm Hm'] by lia.
    assert (m = Z.min (n0 - tot) (BSIZE - off mod BSIZE)) as Em by done. clearbody m.
    step_bread Hfits a Hc1 as bp s2 Hc2. step_data a Hc2 as dd Ed. step_brelse Hc2 as s3 Hc3.
    assert (file_state held v1 (with_inode ip i1 x) ip i1 s3) as Hf3 by by split.
    assert (u32 (off + m) = off + m) as -> by  (apply wrap_small; pose proof max_file; lia).
    destruct (IH held v1 _ ip i1 s3 (blit dst d dd (off mod BSIZE) m) (d + m) (off + m) n0 (tot + m) l Hf3)
      as (s4 & v4 & i4 & ks4 & dst4 & Hrun4 & Hgr4 & Hres4 & Hdst4); [done|lia|lia|lia|done|done| |done| |].
    { replace (n0 - (tot + m)) with (n0 - tot - m) by lia. by apply covers_next; [|lia]. }
    { replace (n0 - (tot + m)) with (n0 - tot - m) by lia. by eapply enough_next; [done|lia|]. }
    exists s4, v4, i4, (ks ++ ks4), dst4. split; [exact Hrun4|]. split; [by eapply bmap_grown_trans|]. split; [done|].
    intros k. replace (n0 - tot) with (m + (n0 - (tot + m))) by lia.
    rewrite Hdst4, <- blit_app by lia. apply blit_same.
    + intros k'. apply blit_same; [done|]. intros t Ht. rewrite Ed.
      rewrite <- (ex_contents _ _ _ _ _ _ _ _ Hex) by (unfold position; lia).
      rewrite contents_block by lia. fold a. by rewrite (proj2 (Z.eqb_neq _ _)).
    + intros t Ht. apply (ex_contents _ _ _ _ _ _ _ _ Hex). unfold position. lia.
  - exists s, v, i, [], dst. replace tot with n0 by lia. split; [done|]. split; [|split; [done|]].
    + pose proof Hf as [Hc Hsb Hi Hok]. split; [split; rewrite ?with_inode_same by done; done|].
      split; [by apply extends_refl|]. by intros ? ?%elem_of_nil.
    + intros k. by rewrite Z.sub_diag, blit_none.
Qed.

Lemma missing_same v v' i l : Forall slot l -> (forall k, slot k -> slot_addr v' i k = slot_addr v i k) ->
  missing v' i l = missing v i l.
Proof.
  intros Hl E. unfold missing. f_equal. induction Hl as [|k l Hk _ IH]; [done|].
  rewrite !filter_cons, E, IH by done. done.
Qed.
Lemma reserved_same v v' m : (forall o, v' bm o = v bm o) -> reserved v m -> reserved v' m.
Proof. intros E. unfold Xv6Content.reserved. by rewrite (free_of_ext _ _ _ E). Qed.

Lemma writei_loop_run fuel : forall held v x ip i s src p off n0 tot l, file_state held v x ip i s ->
  Z.of_nat (length held) + 2 < 2 ^ 32 -> 0 <= off -> tot <= n0 -> off + (n0 - tot) <= MAXFILE * BSIZE ->
  NoDup l -> Forall slot l -> covers l off (n0 - tot) -> reserved v (missing v i l) -> enough fuel off (n0 - tot) ->
  exists s' v' i', writei_loop fuel ip src p off n0 tot s = (Ok (n0, off + (n0 - tot)), s') /\
    file_state held v' (with_inode ip i' x) ip i' s' /\ reserved v' (missing v' i' l) /\
    written v i v' i' off src p (n0 - tot).
Proof.
  induction fuel as [|fuel IH]; intros held v x ip i s src p off n0 tot l Hf Hsmall Hoff Htot Hmax Hnd Hl Hcov Hres Hfuel;
    [destruct Hfuel; lia|].
  cbn [writei_loop]. destruct (Z.ltb_spec tot n0) as [Hlt|Hge].
  - destruct (loop_step _ _ _ _ _ _ _ _ _ Hf Hsmall Hoff (proj2 (Z.lt_0_sub _ _) Hlt) Hmax Hnd Hl Hcov Hres)
      as (s1 & v1 & i1 & ks & Hrun & Hnz & Hgr & Hres1 & Hin & Hdev & Hi1).
    pose proof Hgr as ([Hc1 Hsb1 _ Hok1] & Hex & Hks). rewrite (bind_ok _ _ _ _ _ Hrun), (proj2 (Z.eqb_neq _ _)) by done.
    rewrite (bind_ok _ _ _ _ _ (inode_load_run _ _ _ _ _ _ Hc1 Hi1)), Hdev.
    pose proof (block_written v1 i1 off src p (Z.min (n0 - tot) (BSIZE - off mod BSIZE))) as Hbw. cbv zeta in Hbw.
    set (a := slot_addr v1 i1 (slot_of (off / BSIZE))) in *. set (m := Z.min (n0 - tot) (BSIZE - off mod BSIZE)) in *.
    pose proof (Z.mod_pos_bound off BSIZE ltac:(done)) as Hmod.
    assert (0 < m <= n0 - tot /\ off mod BSIZE + m <= BSIZE) as [Hm Hm'] by lia.
    assert (m = Z.min (n0 - tot) (BSIZE - off mod BSIZE)) as Em by done. clearbody m.
    step_bread Hfits a Hc1 as bp s2 Hc2. step_data a Hc2 as dd Ed. step_set a Hc2 as s3 Hc3.
    step_brelse Hc3 as s4 Hc4.
    destruct (Hbw dd Hok1 Hoff ltac:(lia) ltac:(lia) Hm' Hnz Ed) as [Hw1 Hslots].
    set (v2 := upd v1 a _) in *.
    assert (file_state held v2 (with_inode ip i1 x) ip i1 s4) as Hf4 by (split; [done..|apply Hw1]).
    assert (reserved v2 (missing v2 i1 l)) as Hres2.
    { rewrite (missing_same v1) by done. eapply reserved_same; [|done].
      pose proof (io_data _ _ _ _ _ Hok1 _ (proj1 (slot_of_slot _ (position_block off ltac:(unfold position;
          lia)))) Hnz) as ([??] & _).
      pose proof Hg as [_ Hbm _]. intros o. unfold v2. rewrite upd_other; [done|]. unfold a. lia. }
    assert (u32 (off + m) = off + m) as -> by (apply wrap_small; pose proof max_file; lia).
    destruct (IH held v2 _ ip i1 s4 src (p + m) (off + m) n0 (tot + m) l Hf4)
      as (s5 & v5 & i5 & Hrun5 & Hf5 & Hres5 & Hw5); [done|lia|lia|lia|done|done| |done| |].
    { replace (n0 - (tot + m)) with (n0 - tot - m) by lia. by apply covers_next; [|lia]. }
    { replace (n0 - (tot + m)) with (n0 - tot - m) by lia. by eapply enough_next; [done|lia|]. }
    exists s5, v5, i5. split; [rewrite Hrun5; do 3 f_equal; lia|]. rewrite with_inode_twice in Hf5.
    split; [done|]. split; [done|].
    replace (n0 - tot) with (0 + (m + (n0 - (tot + m)))) by lia.
    eapply written_trans; [lia|lia|by eapply extends_written|]. rewrite !Z.add_0_r.
    eapply written_trans; [lia|lia|exact Hw1|done].
  - exists s, v, i. pose proof Hf as [Hc Hsb Hi Hok]. replace (n0 - tot) with 0 by lia. replace tot with n0 by lia.
    split; [by rewrite Z.add_0_r|]. split; [split; rewrite ?with_inode_same by done; done|]. split; [done|].
    by eapply extends_written, extends_refl.
Qed.

(** ** The inode on the disk *)

(** the block with the inode [inum] *)
Record inode_place (inum : Z) : Prop := {
  ip_block : 0 <= IBLOCK inum sb0 < first;
  ip_other : IBLOCK inum sb0 <> bm;
  ip_in : IBLOCK inum sb0 ∈ bs
}.

(** changing a block that is not for files *)
Lemma meta_change v i b d : inode_ok sb0 first bs v i -> b < first -> b <> bm ->
  inode_ok sb0 first bs (upd v b d) i /\ (forall k, slot k -> slot_addr (upd v b d) i k = slot_addr v i k) /\
  (forall pos, position pos -> contents (upd v b d) i pos = contents v i pos).
Proof.
  intros Hok Hb Hbm.
  assert (forall k, slot k -> slot_addr v i k <> 0 -> slot_addr v i k <> b) as Hne.
  { intros k Hk Hnz. destruct (io_data _ _ _ _ _ Hok k Hk Hnz) as ([??] & _). lia. }
  assert (forall k, slot k -> slot_addr (upd v b d) i k = slot_addr v i k) as Hslots.
  { intros k Hk. destruct (decide (slot_addr v i 12 = 0)) as [E0|Hnz].
    - destruct (Z_lt_le_dec k 13); [unfold slot_addr; by rewrite (proj2 (Z.ltb_lt _ _))|].
      rewrite (slot_addr_entry v), (slot_addr_entry (upd v b d)) by done.
      rewrite (slot_addr_12 (upd v b d)), <- (slot_addr_12 v), E0. done.
    - apply slot_addr_ext. intros o. rewrite upd_other; [done|]. by apply Hne. }
  split; [|split; [done|]].
  - split; [apply Hok|apply Hok|..].
    + intros k Hk Hnz. rewrite Hslots in * by done. rewrite upd_other by done. by apply Hok.
    + intros k k' Hk Hk'. rewrite !Hslots by done. by apply Hok.
  - intros pos Hpos. unfold contents. destruct (slot_of_slot _ (position_block _ Hpos)) as [Hs _].
    rewrite Hslots by done. case_bool; [done|]. zify_bool. by rewrite upd_other by by apply Hne.
Qed.

Lemma iupdate_run held v x ip i s : file_state held v x ip i s -> Z.of_nat (length held) + 2 < 2 ^ 32 ->
  inode_place (i_inum i) ->
  let b := IBLOCK (i_inum i) sb0 in
  exists s', iupdate ip s = (Ok tt, s') /\
    file_state held (upd v b (put_dinode (v b) (dinode_off (i_inum i)) (dinode_of i))) x ip i s'.
Proof.
  intros [Hc Hsb Hi Hok] Hsmall [Hb1 Hb2 Hb3] b. unfold iupdate.
  rewrite (bind_ok _ _ _ _ _ (inode_load_run _ _ _ _ _ _ Hc Hi)).
  destruct (cached_fs _ _ _ _ Hc) as (_ & Esb & _). rewrite (fs_run _ _ _ _ _ Hc), Esb, Hsb, (io_dev _ _ _ _ _ Hok).
  fold b. step_bread Hfits b Hc as bp s1 Hc1. step_data b Hc1 as d Ed. step_set b Hc1 as s2 Hc2.
  step_brelse Hc2 as s3 Hc3. exists s3. split; [done|]. split; [|done|done|].
  - eapply cached_ext; [|done]. apply upd_ext. intros k. unfold put_dinode. apply put_words_ext.
    intros k'. repeat (apply put_ext; intros ?). by rewrite Ed.
  - by apply meta_change; [..|unfold b; lia|].
Qed.

(** the fields of an inode that a file can have *)
Record inode_range (i : inode) : Prop := {
  ir_type : short_range (i_type i);
  ir_major : short_range (i_major i);
  ir_minor : short_range (i_minor i);
  ir_nlink : short_range (i_nlink i);
  ir_size : 0 <= i_size i <= MAXFILE * BSIZE
}.
Lemma dinode_of_range v i : inode_ok sb0 first bs v i -> inode_range i -> dinode_range (dinode_of i).
Proof.
  intros Hok [????[??]]. split; [done..| |]; simpl.
  - pose proof max_file. lia.
  - split; [apply Hok|]. apply Forall_forall. intros a [k Hk]%list_elem_of_lookup.
    assert (slot_addr v i (Z.of_nat k) = a) as Ea.
    { unfold slot_addr. pose proof (lookup_lt_Some _ _ _ Hk) as Hlt. rewrite (io_len _ _ _ _ _ Hok) in Hlt.
      rewrite (proj2 (Z.ltb_lt _ _)), Nat2Z.id by lia. by rewrite Hk. }
    destruct (decide (a = 0)) as [->|Hnz]; [done|].
    pose proof (lookup_lt_Some _ _ _ Hk) as Hlt. rewrite (io_len _ _ _ _ _ Hok) in Hlt.
    destruct (io_data _ _ _ _ _ Hok (Z.of_nat k)) as ([??] & _); [unfold slot; lia|by rewrite Ea|].
    rewrite Ea in *. pose proof Hg as [Hsize Hbm _]. unfold BPB, BSIZE in Hsize. lia.
Qed.

(** ** readi and writei *)

(** a file that is not larger than a file may be, with room for the blocks at [l] *)
Record file_ready v i (l : list Z) : Prop := {
  fr_range : inode_range i;
  fr_place : inode_place (i_inum i);
  fr_nodup : NoDup l;
  fr_slots : Forall slot l;
  fr_room : reserved v (missing v i l)
}.

Lemma readi_run held v x ip i s dst d off n0 l : file_state held v x ip i s -> file_ready v i l ->
  Z.of_nat (length held) + 2 < 2 ^ 32 -> 0 <= off <= i_size i -> 0 <= n0 -> off + n0 < 2 ^ 32 -> covers l off n0 ->
  let m := Z.min n0 (i_size i - off) in
  exists s' v' i' ks dst', readi ip dst d off n0 s = (Ok (m, dst'), s') /\
    grown (content := content) (n := n) (bs := bs) (sb0 := sb0) (first := first) held v x ip i l s' v' i' ks /\
    reserved v' (missing v' i' l) /\ forall k, dst' k = blit dst d (contents v i) off m k.
Proof.
  intros Hf [[_ _ _ _ [Hs1 Hs2]] _ Hnd Hl Hres] Hsmall Hoff Hn0 Hover Hcov m. pose proof max_file as Hmax.
  unfold readi. pose proof Hf as [Hc Hsb Hi Hok].
  rewrite (bind_ok _ _ _ _ _ (inode_load_run _ _ _ _ _ _ Hc Hi)).
  assert (u32 (off + n0) = off + n0) as -> by (apply wrap_small; lia).
  rewrite (proj2 (Z.ltb_ge _ _)), (proj2 (Z.ltb_ge (off + n0) _)) by lia. simpl.
  assert ((if i_size i <? off + n0 then i_size i - off else n0) = m) as -> by (unfold m; case_bool; zify_bool; lia).
  assert (0 <= m) as Hm by lia.
  destruct (readi_loop_run (Z.to_nat (m / BSIZE + 3)) held v x ip i s dst d off m 0 l Hf)
    as (s' & v' & i' & ks & dst' & Hrun & Hgr & Hres' & Hdst); try done; [lia|rewrite Z.sub_0_r; lia| | |].
  { intros pos Hpos. apply Hcov. lia. }
  { rewrite Z.sub_0_r. by apply enough_start. }
  rewrite (bind_ok _ _ _ _ _ Hrun). exists s', v', i', ks, dst'. rewrite Z.sub_0_r in Hdst.
  split; [|done]. rewrite i32_small; [done|]. pose proof max_file_int. lia.
Qed.

Lemma written_missing held v x ip i s l v' : file_state held v x ip i s -> file_ready v i l ->
  (forall k, slot k -> slot_addr v' i k = slot_addr v i k) -> (forall o, v' bm o = v bm o) ->
  reserved v' (missing v' i l).
Proof.
  intros _ [_ _ _ Hl Hres] Hs Hb. rewrite (missing_same v) by done. by eapply reserved_same.
Qed.

Lemma set_size_ok v i z : inode_ok sb0 first bs v i -> inode_ok sb0 first bs v (set_i_size z i).
Proof. intros [????]. by split. Qed.

Lemma writei_run held v x ip i s src p off n0 l : file_state held v x ip i s -> file_ready v i l ->
  Z.of_nat (length held) + 2 < 2 ^ 32 -> 0 <= off <= i_size i -> 0 <= n0 -> off + n0 <= MAXFILE * BSIZE ->
  covers l off n0 ->
  exists s' v' i', writei ip src p off n0 s = (Ok n0, s') /\ file_state held v' (with_inode ip i' x) ip i' s' /\
    file_ready v' i' l /\ i' = set_i_size (Z.max (i_size i) (off + n0)) (set_i_addrs (i_addrs i') i) /\
    (forall pos, position pos -> contents v' i' pos = blit (contents v i) off src p n0 pos) /\
    get_dinode (v' (IBLOCK (i_inum i) sb0)) (dinode_off (i_inum i)) = dinode_of i' /\
    (forall b, b <> bm -> b <> IBLOCK (i_inum i) sb0 -> b ∉ free_of (v bm) size ->
      (forall k, slot k -> slot_addr v i k <> b) -> forall o, v' b o = v b o).
Proof.
  intros Hf Hr Hsmall Hoff Hn0 Hmax Hcov. pose proof Hr as [Hrange Hplace Hnd Hl Hres]. pose proof max_file as Hmf.
  unfold writei. pose proof Hf as [Hc Hsb Hi Hok].
  rewrite (bind_ok _ _ _ _ _ (inode_load_run _ _ _ _ _ _ Hc Hi)).
  assert (u32 (off + n0) = off + n0) as -> by (apply wrap_small; lia).
  rewrite (proj2 (Z.ltb_ge _ _)), (proj2 (Z.ltb_ge (off + n0) _)), (proj2 (Z.ltb_ge (MAXFILE * BSIZE) _)) by lia.
  cbn [orb].
  destruct (writei_loop_run (Z.to_nat (n0 / BSIZE + 3)) held v x ip i s src p off n0 0 l Hf)
    as (s1 & v1 & i1 & Hrun & Hf1 & Hres1 & Hw); try done; [lia|rewrite Z.sub_0_r; lia|by rewrite Z.sub_0_r| |].
  { rewrite Z.sub_0_r. by apply enough_start. }
  rewrite Z.sub_0_r in *. rewrite (bind_ok _ _ _ _ _ Hrun). cbv beta iota.
  pose proof Hf1 as [Hc1 Hsb1 Hi1 Hok1]. rewrite (bind_ok _ _ _ _ _ (inode_load_run _ _ _ _ _ _ Hc1 Hi1)).
  set (i2 := set_i_size (Z.max (i_size i) (off + n0)) i1).
  assert (i_size i1 = i_size i) as Es by (rewrite (wr_inode _ _ _ _ _ _ _ _ Hw); done).
  assert (exists s2, when (i_size i1 <? off + n0) (inode_modify ip (set_i_size (off + n0))) s1 = (Ok tt, s2) /\
    file_state held v1 (with_inode ip i2 x) ip i2 s2) as (s2 & Hrun2 & Hf2).
  { rewrite Es. destruct (Z.ltb_spec (i_size i) (off + n0)) as [Hlt|Hge]; simpl.
    - destruct (inode_modify_run held v1 _ s1 ip i1 (set_i_size (off + n0)) Hc1 Hi1) as (s2 & Hm & Hc2).
      exists s2. split; [done|]. rewrite with_inode_twice in Hc2. unfold i2. rewrite Z.max_r by lia.
      split; [done|done|by eapply with_inode_lookup|by apply set_size_ok].
    - exists s1. split; [done|]. assert (i2 = i1) as ->; [|done]. unfold i2. rewrite Z.max_l, <- Es by lia.
      by destruct i1. }
  rewrite (bind_ok _ _ _ _ _ Hrun2).
  assert (i_inum i2 = i_inum i) as En by (unfold i2; rewrite (wr_inode _ _ _ _ _ _ _ _ Hw); done).
  destruct (iupdate_run held v1 _ ip i2 s2 Hf2 Hsmall) as (s3 & Hrun3 & Hf3); [by rewrite En|].
  rewrite (bind_ok _ _ _ _ _ Hrun3). rewrite En in *.
  set (b := IBLOCK (i_inum i) sb0) in *. set (v3 := upd v1 b _) in *.
  assert (inode_ok sb0 first bs v1 i2) as Hok2 by apply Hf2.
  destruct (meta_change v1 i2 b (put_dinode (v1 b) (dinode_off (i_inum i)) (dinode_of i2)) Hok2) as
      (Hok3 & Hslots3 & Hcont3);
    [apply Hplace|apply Hplace|]. fold v3 in Hok3, Hslots3, Hcont3.
  assert (inode_range i2) as Hrange2.
  { unfold i2. rewrite (wr_inode _ _ _ _ _ _ _ _ Hw). destruct Hrange as [????[??]]. split; simpl; [done..|lia]. }
  exists s3, v3, i2. rewrite i32_small by (pose proof max_file_int; lia).
  split; [done|]. split; [done|]. split; [|split; [|split; [|split]]].
  - split; [done|by rewrite En|done|done|]. rewrite (missing_same v1) by done.
    eapply reserved_same; [|exact Hres1]. intros o. unfold v3. rewrite upd_other; [done|].
    intros E. by apply (ip_other _ Hplace).
  - unfold i2. rewrite (wr_inode _ _ _ _ _ _ _ _ Hw) at 1. done.
  - intros pos Hpos. rewrite Hcont3 by done. by apply (wr_contents _ _ _ _ _ _ _ _ Hw).
  - unfold v3. rewrite upd_same. apply get_put_dinode. by eapply dinode_of_range.
  - intros b' Hb1 Hb2 Hb3 Hb4 o. unfold v3. rewrite upd_other by done. by apply (wr_frame _ _ _ _ _ _ _ _ Hw).
Qed.
End Loops.

(** ** Files are arrays of bytes *)

(** Writing bytes to a file and reading them back gives the bytes, whatever blocks had to
    be allocated.  For any place in the file from which at most [MAXFILE] blocks are used,
    with enough free blocks for files, writei returns the number of bytes, readi returns
    it too, and the memory that was read into has the bytes that were written and is
    otherwise as before. *)
Theorem writei_readi_roundtrip {S} `{!Disk S} (content : disk_view S) (n : Z) (bs : list Z) (sb0 : superblock)
    (first : Z) (v : Z -> bytes) (x : xv6_t) (ip : nat) (i : inode) (s : S * xv6_t) (src dst : bytes)
    (p d off n0 : Z) (l : list Z)
    (Hfits : fits content n bs) (Hg : geometry sb0 first bs)
    (Hf : file_state (content := content) (n := n) (bs := bs) (sb0 := sb0) (first := first) [] v x ip i s)
    (Hr : file_ready (bs := bs) (sb0 := sb0) (first := first) v i l)
    (Hoff : 0 <= off <= i_size i) (Hn : 0 <= n0) (Hmax : off + n0 <= MAXFILE * BSIZE) (Hcov : covers l off n0) :
  returns (r ← writei ip src p off n0; out ← readi ip dst d off n0; mret (r, fst out, snd out)) s
    (fun out _ => let '(written, read, dst') := out in
      written = n0 /\ read = n0 /\ forall k, dst' k = blit dst d src p n0 k).
Proof.
  destruct (writei_run Hfits Hg [] v x ip i s src p off n0 l Hf Hr) as (s1 & v1 & i1 & Hw & Hf1 & Hr1 & Ei & Hc & _);
      try done.
  assert (i_size i1 = Z.max (i_size i) (off + n0)) as Es by by rewrite Ei.
  destruct (readi_run Hfits Hg [] v1 _ ip i1 s1 dst d off n0 l Hf1 Hr1) as (s2 & v2 & i2 & ks & dst' & Hrd & _ & _ & Hdst);
    [done|lia|done|pose proof max_file; lia|done|].
  assert (Z.min n0 (i_size i1 - off) = n0) as Em by lia. rewrite Em in *. exists (n0, n0, dst'), s2. split.
  - by rewrite (bind_ok _ _ _ _ _ Hw), (bind_ok _ _ _ _ _ Hrd).
  - do 2 (split; [done|]). intros k. rewrite Hdst. apply blit_same; [done|]. intros t Ht.
    rewrite Hc by (unfold position; lia). unfold blit.
    rewrite (proj2 (Z.leb_le _ _)), (proj2 (Z.ltb_lt _ _)) by lia. simpl. f_equal. lia.
Qed.

(** C11: what writei does to a file when there is room for the bytes, in the cache and on the
    disk: the bytes from [off] on are those that are written and all others are as before, the
    size grows to the end of them, and the inode on the disk is the one in memory.  Blocks that
    are neither free nor those of the file, the bitmap or of the inode stay as they are.  Room
    in the cache means that the blocks of the file, of its inode, of the bitmap and the free
    ones are among at most [NBUF] = 30 ([Hfits]): with more of them changes are lost, since no
    block is written back.  Room on the disk means that blocks are free for all the bytes
    ([Hr]), so that no write is short. *)
Theorem writei_changes_contents {S} `{!Disk S} (content : disk_view S) (n : Z) (bs : list Z) (sb0 : superblock)
    (first : Z) (v : Z -> bytes) (x : xv6_t) (ip : nat) (i : inode) (s : S * xv6_t) (src : bytes)
    (p off n0 : Z) (l : list Z)
    (Hfits : fits content n bs) (Hg : geometry sb0 first bs)
    (Hf : file_state (content := content) (n := n) (bs := bs) (sb0 := sb0) (first := first) [] v x ip i s)
    (Hr : file_ready (bs := bs) (sb0 := sb0) (first := first) v i l)
    (Hoff : 0 <= off <= i_size i) (Hn : 0 <= n0) (Hmax : off + n0 <= MAXFILE * BSIZE) (Hcov : covers l off n0) :
  exists s' v' i', writei ip src p off n0 s = (Ok n0, s') /\
    file_state (content := content) (n := n) (bs := bs) (sb0 := sb0) (first := first) [] v' (with_inode ip i' x) ip i' s' /\
    i_size i' = Z.max (i_size i) (off + n0) /\
    (forall pos, position pos -> contents v' i' pos = if (off <=? pos) && (pos <? off + n0) then src (p + (pos - off))
                                                   else contents v i pos) /\
    get_dinode (v' (IBLOCK (i_inum i) sb0)) (dinode_off (i_inum i)) = dinode_of i' /\
    (forall b, b <> sb_bmapstart sb0 -> b <> IBLOCK (i_inum i) sb0 -> b ∉ free_of (v (sb_bmapstart sb0)) (sb_size sb0) ->
      (forall k, slot k -> slot_addr v i k <> b) -> forall o, v' b o = v b o).
Proof.
  destruct (writei_run Hfits Hg [] v x ip i s src p off n0 l Hf Hr) as (s1 & v1 & i1 & Hw & Hf1 & Hr1 & Ei & Hc & Hd & Hfr);
    try done.
  exists s1, v1, i1. do 2 (split; [done|]). split; [by rewrite Ei|]. done.
Qed.

(** ** A file system with one empty file *)
Section ContentWitnesses.
(** 64 blocks, of which the first 10 are in use; the inode 3 is in block 3 *)
Definition demo_sb : superblock := Superblock FSMAGIC 64 54 64 0 2 3 4.
Definition demo_view : Z -> bytes := fun b k => if (b =? 4) && (k <? 2) then (if k =? 0 then 255 else 3) else 0.
Definition demo_inode : inode := Inode ROOTDEV 3 1 true T_FILE 0 0 1 0 0 0 0 (repeat 0 13).
Definition demo_state : (Z -> bytes) * xv6_t :=
  (demo_view, set_sb demo_sb (set_itable [demo_inode] (snd (booted demo_view)))).
Definition demo_blocks : list Z := seqZ 1 28.

Lemma demo_fits : fits (Disk0 := plain_disk) plain_view 64 demo_blocks.
Proof.
  apply plain_disk_fits; [apply NoDup_seqZ|vm_compute; lia|]. intros b Hb%elem_of_seqZ. lia.
Qed.
Lemma demo_geometry : geometry demo_sb 10 demo_blocks.
Proof. split; [done|done|]. apply elem_of_seqZ. simpl. lia. Qed.
Lemma demo_no_blocks k : slot_addr demo_view demo_inode k = 0.
Proof.
  unfold slot_addr. simpl i_addrs. assert (forall j, default 0 (repeat 0 13 !! j) = 0) as Hz.
  { intros j. destruct (repeat 0 13 !! j) eqn:E; [|done]. simpl. eapply repeat_spec, list_elem_of_In,
      list_elem_of_lookup_2, E. }
  by rewrite !Hz; case_bool.
Qed.
Lemma demo_file : file_state (content := plain_view) (n := 64) (bs := demo_blocks) (sb0 := demo_sb) (first := 10) []
  demo_view (snd demo_state) 0 demo_inode demo_state.
Proof.
  split; [|done|done|].
  - by split; [apply cache_init|..].
  - split; [done|done|..]; intros k; rewrite demo_no_blocks; done.
Qed.
Lemma demo_ready : file_ready (bs := demo_blocks) (sb0 := demo_sb) (first := 10) demo_view demo_inode [0; 1].
Proof.
  split.
  - by split; vm_compute.
  - split; [done|done|]. change (IBLOCK (i_inum demo_inode) demo_sb) with 3. apply elem_of_seqZ. lia.
  - apply NoDup_cons. split; [|apply NoDup_singleton]. by intros ?%list_elem_of_singleton.
  - apply Forall_cons. split; [by unfold slot|]. by apply Forall_singleton.
  - split; [apply (bool_decide_unpack _); by vm_compute|]. intros b Hb.
    assert (b ∈ [10; 11]) as Hb' by exact Hb. apply elem_of_cons in Hb' as [->|Hb'%list_elem_of_singleton]; [|subst b];
      (split; [lia|apply elem_of_seqZ; lia]).
Qed.
Lemma demo_covers n0 : 0 <= n0 <= 8192 -> covers [0; 1] 0 n0.
Proof.
  intros Hn pos Hpos. assert (pos / BSIZE = 0 \/ pos / BSIZE = 1) as [-> | ->].
  { unfold BSIZE. pose proof (Z.div_pos pos 4096 ltac:(lia) ltac:(lia)).
    pose proof (Z.div_lt_upper_bound pos 4096 2 ltac:(lia) ltac:(lia)). lia. }
  all: intros k ->%list_elem_of_singleton; rewrite elem_of_cons, list_elem_of_singleton; auto.
Qed.

Lemma writei_readi_roundtrip_witness :
  returns (r ← writei (Disk0 := plain_disk) 0 (fun k => k mod 251) 5 0 5000;
           out ← readi (Disk0 := plain_disk) 0 (fun _ => 0) 100 0 5000; mret (r, fst out, snd out)) demo_state
    (fun out _ => let '(written, read, dst') := out in
      written = 5000 /\ read = 5000 /\ forall k, dst' k = blit (fun _ => 0) 100 (fun k => k mod 251) 5 5000 k).
Proof.
  apply (writei_readi_roundtrip (Disk0 := plain_disk) plain_view 64 demo_blocks demo_sb 10 demo_view (snd demo_state)
    0 demo_inode demo_state (fun k => k mod 251) (fun _ => 0) 5 100 0 5000 [0; 1] demo_fits demo_geometry demo_file
    demo_ready); [simpl; lia|lia|by vm_compute|apply demo_covers; lia].
Defined.

Lemma writei_changes_contents_witness :
  exists s' v' i', writei (Disk0 := plain_disk) 0 (fun k => k mod 251) 5 0 5000 demo_state = (Ok 5000, s') /\
    i_size i' = 5000 /\ contents v' i' 4999 = 5004 mod 251 /\ get_dinode (v' 3) 192 = dinode_of i'.
Proof.
  destruct (writei_changes_contents (Disk0 := plain_disk) plain_view 64 demo_blocks demo_sb 10 demo_view (snd demo_state)
    0 demo_inode demo_state (fun k => k mod 251) 5 0 5000 [0; 1] demo_fits demo_geometry demo_file demo_ready)
    as (s' & v' & i' & Hw & _ & Hs & Hc & Hd & _); [simpl; lia|lia|by vm_compute|apply demo_covers; lia|].
  exists s', v', i'. split; [exact Hw|]. split; [exact Hs|]. split; [|exact Hd].
  assert (position 4999) as Hp by (split; [lia|reflexivity]).
  pose proof (Hc 4999 Hp) as E. rewrite E. reflexivity.
Defined.
End ContentWitnesses.
