(* ===== verification/Xv6Mkfs.v ===== *)
(** * Making a file system

    Model of [apps/xv6fs/src/fs_server/mkfs.c]: the server writes an empty file system to
    its disk when it starts.  The program writes blocks directly, without the cache. *)

From stdpp Require Import base numbers list gmap.
From S2P Require Import Prelude Strings Xv6Bio Xv6Fs.

(** the static variables *)
Definition nbitmap : Z := FS_SIZE / (BSIZE * 8) + 1.
Definition ninodeblocks : Z := N_INODES / IPB + 1.
Definition nlog : Z := LOGSIZE.
Definition zeroes : bytes := fun _ => 0.
Record mkfs_t := Mkfs {
  nmeta : Z;
  nblocks : Z;
  mkfs_sb : superblock;
  freeinode : Z;
  freeblock : Z
}.
Definition mkfs_start : mkfs_t := Mkfs 0 0 (Superblock 0 0 0 0 0 0 0 0) 1 0.
Definition set_freeinode (v : Z) (m : mkfs_t) : mkfs_t := Mkfs (nmeta m) (nblocks m) (mkfs_sb m) v (freeblock m).
Definition set_freeblock (v : Z) (m : mkfs_t) : mkfs_t := Mkfs (nmeta m) (nblocks m) (mkfs_sb m) (freeinode m) v.

(** the byte order of the disk, on a machine that has the same *)
Definition xshort (x : Z) : Z := get 2 (put 2 zeroes 0 x) 0.
Definition xint (x : Z) : Z := get 4 (put 4 zeroes 0 x) 0.

Section Mkfs.
Context {S : Type} `{!Disk S}.
Abbreviation D := (M (S * mkfs_t)).

Definition disk {A} (m : M S A) : D A := fun s => let '(r, t) := m (fst s) in (r, (t, snd s)).
Definition vars : D mkfs_t := gets snd.
Definition vars_modify (f : mkfs_t -> mkfs_t) : D unit := modify (fun s => (fst s, f (snd s))).

Definition wsect (sec : Z) (buf : bytes) : D unit := disk (xv6fs_bwrite sec buf).
Definition rsect (sec : Z) (buf : bytes) : D bytes := disk (xv6fs_bread sec buf).

(** char buf[BSIZE], before it is read *)
Definition block_array : bytes := zeroes.

Definition winode (inum : Z) (ip : dinode) : D unit :=
  m ← vars;
  let bn := IBLOCK inum (mkfs_sb m) in
  buf ← rsect bn block_array;
  wsect bn (put_dinode buf (dinode_off inum) ip).
Definition rinode (inum : Z) : D dinode :=
  m ← vars;
  buf ← rsect (IBLOCK inum (mkfs_sb m)) block_array;
  mret (get_dinode buf (dinode_off inum)).

Definition mkfs_ialloc (type : Z) : D Z :=
  m ← vars;
  let inum := freeinode m in
  vars_modify (set_freeinode (u32 (inum + 1))) ;;
  winode inum (Dinode (i16 (xshort type)) 0 0 (xshort 1) (xint 0) (repeat 0 13)) ;;
  mret inum.

(** the bits of the first blocks *)
Fixpoint mark_used (n : nat) (buf : bytes) : bytes :=
  match n with
  | O => buf
  | Datatypes.S n =>
      let buf := mark_used n buf in let i := Z.of_nat n in
      upd buf (i / 8) (Z.lor (buf (i / 8)) (Z.shiftl 1 (i mod 8)) mod 256)
  end.
Definition mkfs_balloc (used : Z) : D unit :=
  assert_ (used <? BSIZE * 8) ;;
  m ← vars;
  wsect (sb_bmapstart (mkfs_sb m)) (mark_used (Z.to_nat used) zeroes).

(** a block from [freeblock] when there is none *)
Definition take_block (addr : Z) : D Z :=
  if addr =? 0 then
    m ← vars; vars_modify (set_freeblock (u32 (freeblock m + 1))) ;; mret (xint (freeblock m))
  else mret addr.

(** the loop of iappend: the inode and the size *)
Fixpoint iappend_loop (fuel : nat) (din : dinode) (p : bytes) (s off n : Z) : D (dinode * Z) :=
  match fuel with
  | O => no_fuel
  | Datatypes.S fuel =>
      if 0 <? n then
        let fbn := off / BSIZE in
        assert_ (fbn <? MAXFILE) ;;
        let set_addr k a := Dinode (d_type din) (d_major din) (d_minor din) (d_nlink din) (d_size din)
          (<[k := a]> (d_addrs din)) in
        '(din, x) ← (if fbn <? NDIRECT then
                       let k := Z.to_nat fbn in
                       addr ← take_block (xint (default 0 (d_addrs din !! k)));
                       mret (set_addr k addr, addr)
                     else
                       let k := Z.to_nat NDIRECT in
                       addr ← take_block (xint (default 0 (d_addrs din !! k)));
                       indirect ← rsect addr block_array;
                       let e := 4 * (fbn - NDIRECT) in
                       x ← (if get 4 indirect e =? 0 then
                              x ← take_block 0;
                              wsect addr (put 4 indirect e x) ;; mret x
                            else mret (xint (get 4 indirect e)));
                       mret (set_addr k addr, x));
        let n1 := Z.min n (u32 ((fbn + 1) * BSIZE - off)) in
        buf ← rsect x block_array;
        wsect x (blit buf (off - fbn * BSIZE) p s n1) ;;
        iappend_loop fuel din p (s + n1) (u32 (off + n1)) (n - n1)
      else mret (din, off)
  end.
Definition iappend (inum : Z) (xp : bytes) (n : Z) : D unit :=
  din ← rinode inum;
  '(din, off) ← iappend_loop (Z.to_nat (n / BSIZE + 3)) din xp 0 (xint (d_size din)) n;
  winode inum (Dinode (d_type din) (d_major din) (d_minor din) (d_nlink din) (xint off) (d_addrs din)).

(** bzero, then the inode number and strcpy of the name *)
Definition mkfs_dirent (inum : Z) (name : list Z) : bytes :=
  blit (put 2 zeroes 0 (xshort inum)) 2 (of_list (name ++ [0])) 0 (Z.of_nat (length name) + 1).

Definition put_superblock (buf : bytes) (sb : superblock) : bytes :=
  put_words buf 0 [sb_magic sb; sb_size sb; sb_nblocks sb; sb_ninodes sb; sb_nlog sb; sb_logstart sb;
    sb_inodestart sb; sb_bmapstart sb].

Definition init_disk_file : D Z :=
  assert_ (BSIZE mod sizeof_dinode =? 0) ;;
  assert_ (BSIZE mod sizeof_dirent =? 0) ;;
  let nmeta := 2 + nlog + ninodeblocks + nbitmap in
  let nblocks := FS_SIZE - nmeta in
  let sb := Superblock FSMAGIC (xint FS_SIZE) (xint nblocks) (xint N_INODES) (xint nlog) (xint 2)
    (xint (2 + nlog)) (xint (2 + nlog + ninodeblocks)) in
  vars_modify (fun m => Mkfs nmeta nblocks sb (freeinode m) nmeta) ;;
  for_each (seqZ 0 FS_SIZE) (fun i => wsect i zeroes) ;;
  wsect 1 (put_superblock zeroes sb) ;;
  rootino ← mkfs_ialloc T_DIR;
  assert_ (rootino =? ROOTINO) ;;
  iappend rootino (mkfs_dirent rootino [46]) sizeof_dirent ;;
  iappend rootino (mkfs_dirent rootino [46; 46]) sizeof_dirent ;;
  din ← rinode rootino;
  let off := (xint (d_size din) / BSIZE + 1) * BSIZE in
  winode rootino (Dinode (d_type din) (d_major din) (d_minor din) (d_nlink din) (xint off) (d_addrs din)) ;;
  m ← vars;
  mkfs_balloc (freeblock m) ;;
  mret 0.
End Mkfs.

(** mkfs, then what the server does before it serves requests *)
Definition start_fs {S} `{!Disk S} : M (S * xv6_t) unit :=
  (fun s => let '(r, (t, _)) := init_disk_file (fst s, mkfs_start) in (r, (t, snd s))) ;;
  binit ;;
  fsinit ROOTDEV.
