(* ===== verification/Xv6Sys.v ===== *)
(** * Files and system calls of the xv6 file system

    Model of [apps/xv6fs/src/fs_server/file.c] and [sysfile.c].  A struct file is on the
    heap: [files] maps the number of the call of malloc that made it to the file; one that
    was freed is no longer there. *)

From stdpp Require Import base numbers list gmap.
From S2P Require Import Prelude Strings Xv6Bio Xv6Fs.

(** fcntl.h, errno.h and stdio.h *)
Definition O_RDONLY : Z := 0.
Definition O_WRONLY : Z := 1.
Definition O_RDWR : Z := 2.
Definition O_CREAT : Z := 64.
Definition O_APPEND : Z := 1024.
Definition O_NONBLOCK : Z := 2048.
Definition O_ASYNC : Z := 8192.
Definition F_SETFL : Z := 4.
Definition F_GETLK : Z := 5.
Definition F_UNLCK : Z := 2.
Definition ENOENT : Z := 2.
Definition NO_OFFSET : Z := u32 (-1).
Definition has_flag (flags bit : Z) : bool := negb (Z.land flags bit =? 0).
Inductive whence_t := SEEK_SET | SEEK_CUR | SEEK_END | SEEK_OTHER.

Definition dot : list Z := [46; 0].
Definition dot_dot : list Z := [46; 46; 0].

Definition set_f_ref (v : Z) (f : file) : file :=
  File (f_type f) (f_id f) v (f_readable f) (f_writable f) (f_ip f) (f_off f) (f_major f) (f_flags f).
Definition set_f_off (v : Z) (f : file) : file :=
  File (f_type f) (f_id f) (f_ref f) (f_readable f) (f_writable f) (f_ip f) v (f_major f) (f_flags f).
Definition set_f_flags (v : Z) (f : file) : file :=
  File (f_type f) (f_id f) (f_ref f) (f_readable f) (f_writable f) (f_ip f) (f_off f) (f_major f) v.
Definition set_i_mtime (v : Z) (ip : inode) : inode :=
  Inode (i_dev ip) (i_inum ip) (i_ref ip) (i_valid ip) (i_type ip) (i_major ip) (i_minor ip) (i_nlink ip)
    (i_size ip) (i_ctime ip) (i_atime ip) v (i_addrs ip).
Definition set_i_device (major minor nlink : Z) (ip : inode) : inode :=
  Inode (i_dev ip) (i_inum ip) (i_ref ip) (i_valid ip) (i_type ip) major minor nlink
    (i_size ip) (i_ctime ip) (i_atime ip) (i_mtime ip) (i_addrs ip).

Section Sys.
Context {S : Type} `{!Disk S}.
(** the allocator: which calls of malloc return NULL *)
Context (malloc_fails : nat -> bool).
Abbreviation F := (M (S * xv6_t)).

(** ** file.c *)
Definition file_load (f : nat) : F file :=
  x ← fs;
  match files x !! f with Some i => mret i | None => crash UseAfterFree end.
Definition file_modify (f : nat) (g : file -> file) : F unit :=
  i ← file_load f; fs_modify (fun x => set_files (<[f := g i]> (files x)) x).

(** the fields that are not set here are set by the caller *)
Definition filealloc : F (option nat) :=
  x ← fs;
  let f := mallocs x in
  fs_modify (set_mallocs (Datatypes.S f)) ;;
  if malloc_fails f then mret None
  else
    fs_modify (fun x => set_files (<[f := File FD_NONE 0 1 false false 0 0 None 0]> (files x)) x) ;;
    mret (Some f).

Definition filedup (f : nat) : F nat :=
  i ← file_load f;
  if f_ref i <? 1 then xv6fs_panic
  else file_modify f (set_f_ref (i32 (f_ref i + 1))) ;; mret f.

Definition is_fd_inode (i : file) : bool := match f_type i with FD_INODE => true | _ => false end.
Definition is_fd_device (i : file) : bool := match f_type i with FD_DEVICE => true | _ => false end.

Definition fileclose (f : nat) : F unit :=
  ff ← file_load f;
  if f_ref ff <? 1 then xv6fs_panic
  else
    file_modify f (set_f_ref (i32 (f_ref ff - 1))) ;;
    if 0 <? i32 (f_ref ff - 1) then mret tt
    else
      fs_modify (fun x => set_files (delete f (files x)) x) ;;
      when (is_fd_inode ff || is_fd_device ff) (iput (f_ip ff)).

(** the struct stat that is filled in is a local variable *)
Definition filestat (f : nat) : F Z :=
  i ← file_load f;
  if is_fd_inode i || is_fd_device i then
    ilock (Some (f_ip i)) ;; _ ← stati (f_ip i); iunlock (Some (f_ip i)) ;; mret 0
  else mret (-1).

(** [devsw] has no devices *)
Definition no_device (i : file) : F Z := match f_major i with Some _ => mret (-1) | None => crash Uninitialized end.

(** the result, and the memory at [addr] *)
Definition fileread (f : nat) (dst : bytes) (addr n : Z) : F (Z * bytes) :=
  i ← file_load f;
  if negb (f_readable i) then mret (-1, dst)
  else if is_fd_device i then r ← no_device i; mret (r, dst)
  else if is_fd_inode i then
    ilock (Some (f_ip i)) ;;
    '(r, dst) ← readi (f_ip i) dst addr (f_off i) (u32 n);
    when (0 <? r) (file_modify f (set_f_off (u32 (f_off i + r)))) ;;
    iunlock (Some (f_ip i)) ;;
    mret (r, dst)
  else xv6fs_panic.

Definition file_blocknos (f : nat) (buf_size : Z) : F (Z * list Z) :=
  i ← file_load f;
  if is_fd_inode i then
    ip ← inode_load (f_ip i);
    match f_major i with
    | Some major => iblocknos (u32 major) (i_inum ip) buf_size
    | None => crash Uninitialized
    end
  else xv6fs_panic.

Definition max_write : Z := (MAXOPBLOCKS - 1 - 1 - 2) / 2 * BSIZE.
Fixpoint filewrite_loop (fuel : nat) (f : nat) (src : bytes) (addr i n : Z) : F Z :=
  match fuel with
  | O => no_fuel
  | Datatypes.S fuel =>
      if i <? n then
        let n1 := Z.min (n - i) max_write in
        ff ← file_load f;
        ilock (Some (f_ip ff)) ;;
        r ← writei (f_ip ff) src (addr + i) (f_off ff) n1;
        when (0 <? r) (file_modify f (set_f_off (u32 (f_off ff + r)))) ;;
        iunlock (Some (f_ip ff)) ;;
        if negb (r =? n1) then mret i
        else filewrite_loop fuel f src addr (i + r) n
      else mret i
  end.
Definition filewrite (f : nat) (src : bytes) (addr n : Z) : F Z :=
  ff ← file_load f;
  if negb (f_writable ff) then mret (-1)
  else if is_fd_device ff then no_device ff
  else if is_fd_inode ff then
    i ← filewrite_loop (Z.to_nat (n / max_write + 2)) f src addr 0 n;
    mret (if i =? n then n else -1)
  else xv6fs_panic.

(** ** sysfile.c *)
Fixpoint isdirempty_loop (fuel : nat) (dp : nat) (off : Z) : F bool :=
  match fuel with
  | O => no_fuel
  | Datatypes.S fuel =>
      d ← inode_load dp;
      if u32 off <? i_size d then
        de ← read_dirent dp (u32 off);
        if negb (de_inum de =? 0) then mret false
        else isdirempty_loop fuel dp (i32 (off + sizeof_dirent))
      else mret true
  end.
Definition isdirempty (dp : nat) : F bool :=
  d ← inode_load dp;
  isdirempty_loop (Z.to_nat (i_size d / sizeof_dirent + 2)) dp (2 * sizeof_dirent).

(** the label fail *)
Definition create_fail (ip dp : nat) : F (option nat) :=
  inode_modify ip (set_i_nlink 0) ;;
  iupdate ip ;;
  iunlockput ip ;;
  iunlockput dp ;;
  mret None.
Definition create (path : list Z) (type major minor : Z) : F (option nat) :=
  '(dp, name) ← nameiparent path name_array;
  match dp with
  | None => mret None
  | Some dp =>
      ilock (Some dp) ;;
      found ← dirlookup dp name;
      match found with
      | Some (ip, _) =>
          iunlockput dp ;;
          ilock (Some ip) ;;
          i ← inode_load ip;
          if (type =? T_FILE) && ((i_type i =? T_FILE) || (i_type i =? T_DEVICE)) then mret (Some ip)
          else iunlockput ip ;; mret None
      | None =>
          d ← inode_load dp;
          ip ← ialloc (i_dev d) type;
          match ip with
          | None => iunlockput dp ;; mret None
          | Some ip =>
              ilock (Some ip) ;;
              inode_modify ip (set_i_device major minor 1) ;;
              iupdate ip ;;
              i ← inode_load ip;
              failed ← (if type =? T_DIR then
                          r ← dirlink ip dot (i_inum i);
                          if r <? 0 then mret true
                          else
                            d ← inode_load dp;
                            r ← dirlink ip dot_dot (i_inum d);
                            mret (r <? 0)
                        else mret false : F bool);
              if failed : bool then create_fail ip dp
              else
                r ← dirlink dp name (i_inum i);
                if r <? 0 then create_fail ip dp
                else
                  when (type =? T_DIR)
                    (inode_modify dp (fun d => set_i_nlink (i16 (i_nlink d + 1)) d) ;; iupdate dp) ;;
                  iunlockput dp ;;
                  mret (Some ip)
          end
      end
  end.

Definition xv6fs_file_ino (f : nat) : F Z := i ← file_load f; ip ← inode_load (f_ip i); mret (i_inum ip).

Definition open_inode (path : list Z) (omode : Z) : F (option nat) :=
  if has_flag omode O_CREAT then create path T_FILE 0 0
  else
    ip ← namei path;
    match ip with
    | None => mret None
    | Some ip =>
        ilock (Some ip) ;;
        i ← inode_load ip;
        if (i_type i =? T_DIR) && negb (omode =? O_RDONLY) then iunlockput ip ;; mret None
        else mret (Some ip)
    end.
Definition xv6fs_sys_open (path : list Z) (omode : Z) : F (option nat) :=
  ip ← open_inode path omode;
  match ip with
  | None => mret None
  | Some ip =>
      f ← filealloc;
      match f with
      | None => iunlockput ip ;; mret None
      | Some f =>
          iunlock (Some ip) ;;
          i ← inode_load ip;
          file_modify f (fun f => File FD_INODE (i_inum i) (f_ref f) (negb (has_flag omode O_WRONLY))
            (has_flag omode O_WRONLY || has_flag omode O_RDWR) ip 0 (f_major f) omode) ;;
          mret (Some f)
      end
  end.

Definition xv6fs_sys_fileclose (f : nat) : F Z := fileclose f ;; mret 0.

Definition xv6fs_sys_read (f : option nat) (dst : bytes) (buf sz off : Z) : F (Z * bytes) :=
  match f with
  | None => mret (-1, dst)
  | Some f => when (negb (off =? NO_OFFSET)) (file_modify f (set_f_off off)) ;; fileread f dst buf (i32 sz)
  end.
Definition xv6fs_sys_write (f : option nat) (src : bytes) (buf sz off : Z) : F Z :=
  match f with
  | None => mret (-1)
  | Some f => when (negb (off =? NO_OFFSET)) (file_modify f (set_f_off off)) ;; filewrite f src buf (i32 sz)
  end.
(** without a file the buffer and the size are not set *)
Definition xv6fs_sys_file_blocknos (f : option nat) (buf_size : Z) : F (Z * list Z) :=
  match f with None => mret (-1, []) | Some f => file_blocknos f buf_size end.
Definition xv6fs_sys_inode_blocknos (inum buf_size : Z) : F (Z * list Z) := iblocknos ROOTDEV (u32 inum) buf_size.

Definition xv6fs_sys_fstat (path : list Z) : F Z :=
  f ← xv6fs_sys_open path O_RDONLY;
  match f with
  | None => mret (-1)
  | Some f => r ← filestat f; fileclose f ;; mret r
  end.

Definition xv6fs_sys_readdirent (f : option nat) (e : bytes) (off : Z) : F (Z * bytes) :=
  match f with
  | None => mret (-1, e)
  | Some f =>
      ff ← file_load f;
      ip ← inode_load (f_ip ff);
      if negb (i_type ip =? T_DIR) then mret (-1, e)
      else if i_size ip <=? off then mret (0, e)
      else file_modify f (set_f_off off) ;; fileread f e 0 sizeof_dirent
  end.

Definition xv6fs_sys_truncate (path : list Z) : F Z :=
  f ← xv6fs_sys_open path O_RDWR;
  match f with
  | None => mret (-1)
  | Some f => ff ← file_load f; itrunc (f_ip ff) ;; fileclose f ;; mret 0
  end.

Definition make_node (type : Z) (path : list Z) : F Z :=
  ip ← create path type 0 0;
  match ip with None => mret (-1) | Some ip => iunlockput ip ;; mret 0 end.
Definition xv6fs_sys_mkdir (path : list Z) : F Z := make_node T_DIR path.
Definition xv6fs_sys_mksock (path : list Z) : F Z := make_node T_SOCK path.

Definition unlink_bad (dp : nat) (r : Z) : F Z := iunlock (Some dp) ;; mret r.
Definition unlink_de (dp : nat) (name : list Z) : F Z :=
  ilock (Some dp) ;;
  if (namecmp name dot =? 0) || (namecmp name dot_dot =? 0) then unlink_bad dp (-1)
  else
    found ← dirlookup dp name;
    match found with
    | None => unlink_bad dp ENOENT
    | Some (ip, off) =>
        ilock (Some ip) ;;
        i ← inode_load ip;
        if i_nlink i <? 1 then xv6fs_panic
        else
          full ← (if i_type i =? T_DIR then e ← isdirempty ip; mret (negb e) else mret false : F bool);
          if full : bool then iunlockput ip ;; unlink_bad dp (-1)
          else
            r ← writei dp dirent_array 0 off sizeof_dirent;
            if negb (r =? sizeof_dirent) then xv6fs_panic
            else
              i ← inode_load ip;
              when (i_type i =? T_DIR)
                (inode_modify dp (fun d => set_i_nlink (i16 (i_nlink d - 1)) d) ;; iupdate dp) ;;
              iunlock (Some dp) ;;
              inode_modify ip (fun i => set_i_nlink (i16 (i_nlink i - 1)) i) ;;
              iupdate ip ;;
              iunlockput ip ;;
              mret 0
    end.

(** the result, and [*inum] and [*was_last_link] when they are wanted *)
Definition xv6fs_sys_unlink (path : list Z) (want : bool) : F (Z * option (Z * bool)) :=
  '(dp, name) ← nameiparent path name_array;
  match dp with
  | None => mret (-1, None)
  | Some dp =>
      out ← (if want then
               found ← dirlookup dp name;
               let ip := fst <$> found in
               ilock ip ;;
               ip ← deref ip;
               i ← inode_load ip;
               iunlockput ip ;;
               mret (Some (i_inum i, i_nlink i =? 1))
             else mret None : F (option (Z * bool)));
      r ← unlink_de dp name;
      if negb (r =? 0) then iput dp ;; mret (-1, out) else mret (0, out)
  end.

(** the label bad *)
Definition dolink_bad (ip : nat) : F Z :=
  ilock (Some ip) ;;
  inode_modify ip (fun i => set_i_nlink (i16 (i_nlink i - 1)) i) ;;
  iupdate ip ;;
  iunlockput ip ;;
  mret (-1).
(** a link to the inode [ip], whose reference is given up *)
Definition dolink_inode (ip : nat) (new : list Z) : F Z :=
  ilock (Some ip) ;;
  i ← inode_load ip;
  if i_type i =? T_DIR then iunlockput ip ;; mret (-1)
  else
    inode_modify ip (fun i => set_i_nlink (i16 (i_nlink i + 1)) i) ;;
    iupdate ip ;;
    iunlock (Some ip) ;;
    '(dp, name) ← nameiparent new name_array;
    match dp with
    | None => dolink_bad ip
    | Some dp =>
        ilock (Some dp) ;;
        d ← inode_load dp;
        i ← inode_load ip;
        failed ← (if negb (i_dev d =? i_dev i) then mret true
                  else r ← dirlink dp name (i_inum i); mret (r <? 0) : F bool);
        if failed : bool then iunlockput dp ;; dolink_bad ip
        else iunlockput dp ;; iput ip ;; mret 0
    end.
Definition xv6fs_sys_dolink2 (old : nat) (new : list Z) : F Z := f ← file_load old; dolink_inode (f_ip f) new.
Definition xv6fs_sys_dolink (old new : list Z) : F Z :=
  ip ← namei old;
  match ip with None => mret (-1) | Some ip => dolink_inode ip new end.

Definition xv6fs_sys_rename (path1 path2 : list Z) : F Z :=
  '(r, _) ← xv6fs_sys_unlink path2 false;
  if (r =? 0) || (r =? ENOENT) then
    r ← xv6fs_sys_dolink path1 path2;
    if r =? 0 then '(r, _) ← xv6fs_sys_unlink path1 false; mret r else mret r
  else mret r.

Definition xv6fs_sys_utime (path : list Z) (time : Z) : F Z :=
  f ← xv6fs_sys_open path O_WRONLY;
  match f with
  | None => mret (-1)
  | Some f =>
      ff ← file_load f;
      ilock (Some (f_ip ff)) ;;
      inode_modify (f_ip ff) (set_i_mtime time) ;;
      iupdate (f_ip ff) ;;
      iunlock (Some (f_ip ff)) ;;
      fileclose f ;;
      mret 0
  end.

Definition xv6fs_sys_stat (f : nat) : F (Z * stat) :=
  ff ← file_load f;
  ilock (Some (f_ip ff)) ;;
  st ← stati (f_ip ff);
  iunlock (Some (f_ip ff)) ;;
  mret (0, st).

Definition xv6fs_sys_seek (f : option nat) (off : Z) (whence : whence_t) : F Z :=
  match f with
  | None => mret (-1)
  | Some f =>
      ff ← file_load f;
      match whence with
      | SEEK_SET => file_modify f (set_f_off (u32 off))
      | SEEK_CUR => file_modify f (set_f_off (u32 (f_off ff + off)))
      | SEEK_END => ip ← inode_load (f_ip ff); file_modify f (set_f_off (u32 (i_size ip + off)))
      | SEEK_OTHER => mret tt
      end ;;
      ff ← file_load f;
      mret (i32 (f_off ff))
  end.

(** the result, and what is stored in the struct flock at [arg]; the other commands do
    nothing *)
Definition xv6fs_sys_fcntl (f : nat) (cmd arg : Z) : F (Z * option Z) :=
  if cmd =? F_SETFL then
    let flags_mask := Z.lor O_APPEND (Z.lor O_ASYNC O_NONBLOCK) in
    file_modify f (fun ff => set_f_flags (Z.lor (Z.land (f_flags ff) (u64 (Z.lnot flags_mask))) (Z.land arg flags_mask)) ff) ;;
    mret (0, None)
  else if cmd =? F_GETLK then mret (0, Some F_UNLCK)
  else mret (0, None).

(** *** Walking through directories *)
Definition is_dot (name : list Z) : F bool :=
  b ← lift_result (strcmp_eq [46] name);
  if b : bool then mret true else lift_result (strcmp_eq [46; 46] name).

(** an array of [cap] elements *)
Definition push (cap : nat) (inums : list Z) (inum : Z) : F (list Z) :=
  if (length inums <? cap)%nat then mret (inums ++ [inum]) else crash OutOfBounds.

(** the loop over the entries of a directory: [body] is the rest of the iteration after
    ilock, given the entry and its name; it ends with iunlockput *)
Fixpoint walk_loop (fuel : nat) (body : nat -> list Z -> list Z -> F (list Z * list Z)) (dp : nat) (i : Z)
    (curr : option nat) (name : list Z) (inums : list Z) : F (list Z * list Z) :=
  match fuel with
  | O => no_fuel
  | Datatypes.S fuel =>
      match curr with
      | None => mret (inums, name)
      | Some ip =>
          c ← inode_load ip;
          '(inums, name) ← (if (i_type c =? 0) || (i_inum c =? 0) then mret (inums, name)
                            else
                              ilock (Some ip) ;;
                              r ← body ip name inums;
                              iunlockput ip ;; mret r : F (list Z * list Z));
          '(curr, name) ← dirlookup_idx dp (i32 (i + 1)) name;
          walk_loop fuel body dp (i32 (i + 1)) curr name inums
      end
  end.
Definition walk_dir (body : nat -> list Z -> list Z -> F (list Z * list Z)) (dp : nat) (name inums : list Z)
    : F (list Z * list Z) :=
  d ← inode_load dp;
  '(curr, name) ← dirlookup_idx dp 0 name;
  walk_loop (Z.to_nat (i_size d / sizeof_dirent + 3)) body dp 0 curr name inums.

(** an entry of a directory in the one that is walked through *)
Definition walk_inner (cap : nat) (ip : nat) (name inums : list Z) : F (list Z * list Z) :=
  d ← is_dot name;
  if d : bool then mret (inums, name)
  else
    c ← inode_load ip;
    if i_type c =? T_FILE then inums ← push cap inums (i_inum c); mret (inums, name)
    else if i_type c =? T_DIR then xv6fs_panic
    else mret (inums, name).
Definition walk_outer (cap : nat) (ip : nat) (name inums : list Z) : F (list Z * list Z) :=
  d ← is_dot name;
  if d : bool then mret (inums, name)
  else
    c ← inode_load ip;
    if i_type c =? T_FILE then inums ← push cap inums (i_inum c); mret (inums, name)
    else if i_type c =? T_DIR then walk_dir (walk_inner cap) ip name inums
    else mret (inums, name).

(** the result and the inodes found; the array has [cap] elements *)
Definition xv6fs_sys_walk (cap : nat) (path : list Z) : F (Z * list Z) :=
  ip ← namei path;
  match ip with
  | None => mret (-1, [])
  | Some ip =>
      ilock (Some ip) ;;
      i ← inode_load ip;
      if negb (i_type i =? T_DIR) then iunlockput ip ;; mret (-1, [])
      else
        '(inums, _) ← walk_dir (walk_outer cap) ip name_array [];
        iunlockput ip ;;
        mret (0, inums)
  end.

(** *** Deleting directories *)
Fixpoint clear_loop (fuel : nat) (ip : nat) (i : Z) (curr : option nat) (name : list Z) : F Z :=
  match fuel with
  | O => no_fuel
  | Datatypes.S fuel =>
      let next :=
        ilock (Some ip) ;;
        '(curr, name) ← dirlookup_idx ip (i32 (i + 1)) name;
        iunlock (Some ip) ;;
        clear_loop fuel ip (i32 (i + 1)) curr name in
      let unlink_next :=
        r ← unlink_de ip name;
        if negb (r =? 0) then mret (-1) else next in
      match curr with
      | None => mret 0
      | Some curr =>
          c ← inode_load curr;
          if (i_type c =? 0) || (i_inum c =? 0) then next
          else
            ilock (Some curr) ;;
            c ← inode_load curr;
            d ← is_dot name;
            if d : bool then iunlockput curr ;; next
            else if i_type c =? T_FILE then iunlockput curr ;; unlink_next
            else if i_type c =? T_DIR then
              iunlock (Some curr) ;;
              (* clear_dir(curr) *)
              ilock (Some curr) ;;
              c ← inode_load curr;
              r ← (if negb (i_type c =? T_DIR) then iunlockput curr ;; mret (-1)
                   else
                     '(first, sub) ← dirlookup_idx curr 0 name_array;
                     iunlock (Some curr) ;;
                     clear_loop fuel curr 0 first sub);
              iput curr ;;
              if negb (r =? 0) then mret (-1) else unlink_next
            else next
      end
  end.
(** the sum of the entries of all directories is less *)
Definition clear_fuel : nat := Z.to_nat (FS_SIZE * (BSIZE / sizeof_dirent) + 2 * N_INODES).
Definition clear_dir (ip : nat) : F Z :=
  ilock (Some ip) ;;
  c ← inode_load ip;
  if negb (i_type c =? T_DIR) then iunlockput ip ;; mret (-1)
  else
    '(first, name) ← dirlookup_idx ip 0 name_array;
    iunlock (Some ip) ;;
    clear_loop clear_fuel ip 0 first name.

Definition xv6fs_sys_rmdir (path : list Z) (delete_contents : bool) : F Z :=
  ip ← namei path;
  match ip with
  | None => mret (-1)
  | Some ip =>
      ilock (Some ip) ;;
      full ← (if delete_contents then mret false else e ← isdirempty ip; mret (negb e) : F bool);
      if full : bool then iunlockput ip ;; mret (-1)
      else
        iunlock (Some ip) ;;
        r ← clear_dir ip;
        if negb (r =? 0) then xv6fs_panic
        else
          iput ip ;;
          '(r, _) ← xv6fs_sys_unlink path false;
          mret r
  end.
End Sys.
