(* ===== verification/Xv6Dirs.v ===== *)
(** * Directories of the xv6 file system

    A directory is a file of entries of 16 bytes: the number of an inode, which is 0 when
    the entry is not in use, and a name.  Seen from outside it is a finite map from names to
    numbers of inodes, [dir_map]; names are compared by their first [DIRSIZ] characters, and
    the first entry of a name is the one that is found.  dirlookup is lookup in the map and
    dirlink is insertion. *)

From stdpp Require Import base numbers list gmap.
From S2P Require Import Prelude Strings Xv6Bio Xv6Fs Xv6Paths Xv6Content.

(** ** Names *)

(** the characters of a name that count *)
Definition key (name : list Z) : list Z := take DIRSIZ (cstring name).

Lemma strncmp_step (a b rest : Z) :
  (if negb (a =? b) then a - b else if a =? 0 then 0 else rest) = 0 <-> a = b /\ (a = 0 \/ rest = 0).
Proof. destruct (Z.eqb_spec a b), (Z.eqb_spec a 0); simpl; lia. Qed.
Lemma strncmp_spec n : forall s t, strncmp n s t = 0 <-> take n (cstring s) = take n (cstring t).
Proof.
  induction n as [|n IH]; intros s t; [done|]. cbn [strncmp]. rewrite strncmp_step, IH.
  destruct s as [|a s], t as [|b t]; cbn [head tail from_option id cstring].
  - split; [done|]. intros _. split; [done|by left].
  - destruct (Z.eqb_spec b 0) as [->|Hb]; cbn [take]; [by split; [|auto]|]. split; [lia|done].
  - destruct (Z.eqb_spec a 0) as [->|Ha]; cbn [take]; [by split; [|auto]|]. split; [lia|done].
  - destruct (Z.eqb_spec a 0) as [->|Ha], (Z.eqb_spec b 0) as [->|Hb]; cbn [take].
    + split; auto.
    + split; [lia|done].
    + split; [lia|done].
    + split; [intros [-> [?|E]]; [lia|by rewrite E]|]. intros [= -> E]. auto.
Qed.
Lemma namecmp_spec s t : namecmp s t = 0 <-> key s = key t.
Proof. apply strncmp_spec. Qed.

Lemma take_cstring_strncpy n : forall s, no_nul s -> take n (cstring (strncpy s n)) = take n s.
Proof.
  induction n as [|n IH]; intros s Hs; [done|]. unfold strncpy. destruct s as [|c s]; [done|].
  apply Forall_cons in Hs as [Hc Hs]. simpl. rewrite (proj2 (Z.eqb_neq _ _) Hc). simpl. f_equal. by apply IH.
Qed.
Lemma key_cut name : key (strncpy (cstring name) DIRSIZ) = key name.
Proof. apply take_cstring_strncpy, cstring_no_nul. Qed.

(** ** Entries *)

(** the entry at an offset of the contents, when it is in use *)
Definition dir_entry (c : bytes) (off : Z) : option (list Z * Z) :=
  let inum := get 2 c off in if inum =? 0 then None else Some (key (to_list DIRSIZ c (off + 2)), inum).
(** the entries in use of the [k] from [off] on *)
Fixpoint dir_list (c : bytes) (k : nat) (off : Z) : list (list Z * Z) :=
  match k with
  | O => []
  | S k => match dir_entry c off with Some e => e :: dir_list c k (off + sizeof_dirent) | None => dir_list c k
      (off + sizeof_dirent) end
  end.
Definition dir_size (i : inode) : nat := Z.to_nat (i_size i / sizeof_dirent).
Definition dir_map (v : Z -> bytes) (i : inode) : gmap (list Z) Z :=
  list_to_map (dir_list (contents v i) (dir_size i) 0).

(** the first entry of a name, and the first that is not in use *)
Fixpoint dir_find (c : bytes) (k : nat) (off : Z) (name : list Z) : option (Z * Z) :=
  match k with
  | O => None
  | S k => match dir_entry c off with
           | Some (nm, inum) => if decide (nm = name) then Some (off, inum) else dir_find c k (off + sizeof_dirent) name
           | None => dir_find c k (off + sizeof_dirent) name
           end
  end.
Fixpoint dir_free (c : bytes) (k : nat) (off : Z) : Z :=
  match k with
  | O => off
  | S k => match dir_entry c off with Some _ => dir_free c k (off + sizeof_dirent) | None => off end
  end.

Lemma dir_find_map c k name : forall off, snd <$> dir_find c k off name = (list_to_map (dir_list c k off) : gmap
    (list Z) Z) !! name.
Proof.
  induction k as [|k IH]; intros off; [done|]. simpl. destruct (dir_entry c off) as [[nm inum]|]; [|apply IH].
  simpl. destruct (decide (nm = name)) as [->|Hne]; [by rewrite lookup_insert_eq|by rewrite lookup_insert_ne].
Qed.

Lemma dir_entry_ext c c' off : (forall pos, off <= pos < off + sizeof_dirent -> c' pos = c pos) ->
  dir_entry c' off = dir_entry c off.
Proof.
  unfold sizeof_dirent. intros E. unfold dir_entry. rewrite (get_ext 2 c' c off) by (intros; apply E; lia).
  case_match; [done|]. do 3 f_equal. apply list_fmap_ext. intros j0 j [Ej Hj]%lookup_seq. apply E.
  unfold DIRSIZ in Hj. lia.
Qed.
Lemma dir_list_ext c c' k : forall off, (forall pos, off <= pos < off + sizeof_dirent * Z.of_nat k -> c' pos = c pos) ->
  dir_list c' k off = dir_list c k off.
Proof.
  induction k as [|k IH]; intros off E; [done|]. simpl. unfold sizeof_dirent in *.
  rewrite (dir_entry_ext c c'), IH by (unfold sizeof_dirent; intros; apply E; lia). done.
Qed.

Lemma dir_free_range c k : forall off, exists j, dir_free c k off = off + sizeof_dirent * Z.of_nat j /\ (j <= k)%nat.
Proof.
  induction k as [|k IH]; intros off; [by exists 0%nat; split; [simpl; lia|]|]. simpl.
  destruct (dir_entry c off); [|exists 0%nat; split; [simpl; lia|lia]].
  destruct (IH (off + sizeof_dirent)) as (j & -> & Hj). exists (S j). unfold sizeof_dirent. lia.
Qed.

(** storing an entry at the first place that is not in use *)
Lemma dir_entry_stored c d o e : dir_entry d 0 = Some e -> dir_entry (blit c o d 0 sizeof_dirent) o = Some e.
Proof.
  intros <-. unfold dir_entry, sizeof_dirent.
  assert (forall j, 0 <= j < 16 -> blit c o d 0 16 (o + j) = d j) as E.
  { intros j Hj. unfold blit. rewrite (proj2 (Z.leb_le _ _)), (proj2 (Z.ltb_lt _ _)) by lia. simpl. f_equal. lia. }
  assert (get 2 (blit c o d 0 16) o = get 2 d 0) as ->.
  { pose proof (E 0 ltac:(lia)) as E0. pose proof (E 1 ltac:(lia)) as E1. rewrite Z.add_0_r in E0.
    cbn [get]. by rewrite E0, E1. }
  case_match; [done|]. do 3 f_equal. apply list_fmap_ext. intros j0 j [Ej Hj]%lookup_seq. unfold DIRSIZ in Hj.
  rewrite <- E by lia. f_equal. lia.
Qed.
Lemma dir_list_insert c c' d e k : forall off, let o := dir_free c k off in
  (forall pos, off <= pos < off + sizeof_dirent * (Z.of_nat k + 1) -> c' pos = blit c o d 0 sizeof_dirent pos) ->
  dir_entry d 0 = Some e ->
  exists l1 l2, dir_list c k off = l1 ++ l2 /\
    dir_list c' (if o =? off + sizeof_dirent * Z.of_nat k then S k else k) off = l1 ++ e :: l2.
Proof.
  induction k as [|k IH]; intros off o Hc He.
  - exists [], []. split; [done|]. subst o. simpl in *. rewrite Z.add_0_r, Z.eqb_refl. simpl.
    rewrite (dir_entry_ext (blit c off d 0 sizeof_dirent) c') by (intros; apply Hc; unfold sizeof_dirent in *; lia).
    by rewrite (dir_entry_stored _ _ _ _ He).
  - cbn [dir_list dir_free] in *. destruct (dir_free_range c k (off + sizeof_dirent)) as (j & Ej & Hj).
    destruct (dir_entry c off) as [e0|] eqn:E0; subst o.
    + destruct (IH (off + sizeof_dirent)) as (l1 & l2 & El & El'); [|done|].
      { intros pos Hpos. apply Hc. unfold sizeof_dirent in *. lia. }
      exists (e0 :: l1), l2. rewrite El. split; [done|].
      replace (off + sizeof_dirent * Z.of_nat (S k)) with (off + sizeof_dirent + sizeof_dirent * Z.of_nat k)
        by (unfold sizeof_dirent; lia).
      assert (dir_entry c' off = Some e0) as E1.
      { rewrite <- E0. apply dir_entry_ext. intros pos Hpos. unfold sizeof_dirent in *. rewrite Hc by lia. unfold blit.
        rewrite Ej. rewrite (proj2 (Z.leb_gt _ _)) by lia. done. }
      case_match; cbn [dir_list]; rewrite E1; simpl; f_equal; exact El'.
    + exists [], (dir_list c k (off + sizeof_dirent)). split; [done|].
      rewrite (proj2 (Z.eqb_neq _ _)) by (unfold sizeof_dirent; lia). cbn [dir_list].
      rewrite (dir_entry_ext (blit c off d 0 sizeof_dirent) c') by (intros; apply Hc; unfold sizeof_dirent in *; lia).
      rewrite (dir_entry_stored _ _ _ _ He). simpl. f_equal. apply dir_list_ext. intros pos Hpos.
      unfold sizeof_dirent in *. rewrite Hc by lia. unfold blit. rewrite (proj2 (Z.ltb_ge _ _)) by lia.
      by rewrite andb_false_r.
Qed.
Lemma dir_map_insert (l1 l2 : list (list Z * Z)) nm inum : (list_to_map (l1 ++ l2) : gmap _ Z) !! nm = None ->
  (list_to_map (l1 ++ (nm, inum) :: l2) : gmap _ Z) = <[nm := inum]> (list_to_map (l1 ++ l2)).
Proof.
  induction l1 as [|[nm1 inum1] l1 IH]; simpl; [done|]. intros E. apply lookup_insert_None in E as [E Hne].
  rewrite IH by done. by apply insert_insert_ne.
Qed.

(** the entry that dirlink stores *)
Lemma stored_name cut inum : length cut = DIRSIZ ->
  to_list DIRSIZ (put 2 (blit dirent_array 2 (of_list cut) 0 (Z.of_nat DIRSIZ)) 0 inum) (0 + 2) = cut.
Proof.
  intros Hlen. apply list_eq. intros j. destruct (decide (j < DIRSIZ)%nat) as [Hj|Hj].
  - unfold to_list. rewrite list_lookup_fmap, lookup_seq_lt by done. cbn -[put].
    destruct (lookup_lt_is_Some_2 cut j) as [a Ha]; [by rewrite Hlen|]. rewrite Ha. f_equal.
    unfold DIRSIZ in Hj. rewrite (put_other 2) by (simpl; lia). unfold blit.
    rewrite (proj2 (Z.leb_le _ _)), (proj2 (Z.ltb_lt _ _)) by (unfold DIRSIZ; lia). simpl. unfold of_list.
    rewrite (proj2 (Z.ltb_ge _ _)) by lia. replace (Z.to_nat _) with j by lia. by rewrite Ha.
  - rewrite !lookup_ge_None_2; [done|lia|]. unfold to_list. rewrite length_fmap, length_seq. lia.
Qed.
Lemma make_dirent_entry name inum : 0 < inum < 2 ^ 16 -> dir_entry (make_dirent name inum) 0 = Some (key name, inum).
Proof.
  intros Hi. unfold dir_entry, make_dirent. rewrite (get_put 2), Z.mod_small by (simpl; lia).
  rewrite (proj2 (Z.eqb_neq _ _)) by lia. rewrite stored_name by apply strncpy_length. by rewrite key_cut.
Qed.

(** ** Places of the table *)
Section Table.
Context {S : Type} `{!Disk S} {content : disk_view S} {n : Z} {bs : list Z}.
Implicit Types (held : list (nat * Z)) (v : Z -> bytes) (x : xv6_t) (s : S * xv6_t).

Definition places : list nat := seq 0 (Z.to_nat N_INODES).
Lemma elem_of_places ip : ip ∈ places <-> (ip < Z.to_nat N_INODES)%nat.
Proof. unfold places. rewrite elem_of_seq. lia. Qed.

(** the place that iget takes: the one that has the inode, or the first that is empty *)
Definition iget_place (t : list inode) (dev inum : Z) : option nat :=
  match List.find (is_inode t dev inum) places with
  | Some ip => Some ip
  | None => List.find (is_empty t) places
  end.
(** ... and what is there then *)
Definition iget_inode (t : list inode) (dev inum : Z) (i : inode) : inode :=
  if (0 <? i_ref i) && (i_dev i =? dev) && (i_inum i =? inum) then set_i_ref (i32 (i_ref i + 1)) i
  else Inode dev inum 1 false (i_type i) (i_major i) (i_minor i) (i_nlink i) (i_size i) (i_ctime i) (i_atime i)
         (i_mtime i) (i_addrs i).

Lemma iget_run held v x s dev inum ip : cached content n bs held v x s -> iget_place (itable x) dev inum = Some ip ->
  exists i s', itable x !! ip = Some i /\ iget dev inum s = (Ok ip, s') /\
    cached content n bs held v (with_inode ip (iget_inode (itable x) dev inum i) x) s'.
Proof.
  intros Hc. unfold iget_place. destruct (cached_fs _ _ _ _ Hc) as (_ & _ & Et & _). unfold iget.
  rewrite (fs_run _ _ _ _ _ Hc), Et. change (seq 0 (Z.to_nat N_INODES)) with places.
  destruct (List.find (is_inode (itable x) dev inum) places) as [ip0|] eqn:Ef.
  - intros [= ->]. apply find_some in Ef as [_ Hi]. unfold is_inode in Hi.
    destruct (itable x !! ip) as [i|] eqn:E; [|done].
    destruct (inode_modify_run held v x s ip i (fun i => set_i_ref (i32 (i_ref i + 1)) i) Hc E) as (s' & Hm & Hc').
    exists i, s'. split; [done|]. rewrite (bind_ok _ _ _ _ _ Hm). split; [done|]. unfold iget_inode. by rewrite Hi.
  - intros He. rewrite He. pose proof He as He'. apply find_some in He' as [_ Hi]. unfold is_empty in Hi.
    destruct (itable x !! ip) as [i|] eqn:E; [|done].
    destruct (inode_modify_run held v x s ip i (fun i => Inode dev inum 1 false (i_type i) (i_major i) (i_minor i)
        (i_nlink i)
      (i_size i) (i_ctime i) (i_atime i) (i_mtime i) (i_addrs i)) Hc E) as (s' & Hm & Hc').
    exists i, s'. split; [done|]. rewrite (bind_ok _ _ _ _ _ Hm). split; [done|]. unfold iget_inode.
    apply Z.eqb_eq in Hi. by rewrite Hi.
Qed.

End Table.

(** no inode has two places *)
Record table_ok (t : list inode) : Prop := {
  tb_ref : forall ip i, ip ∈ places -> t !! ip = Some i -> 0 <= i_ref i;
  tb_unique : forall ip ip' i i', ip ∈ places -> ip' ∈ places -> t !! ip = Some i -> t !! ip' = Some i' ->
    0 < i_ref i -> 0 < i_ref i' -> i_dev i = i_dev i' -> i_inum i = i_inum i' -> ip = ip'
}.
(** the number of references to an inode *)
Definition refs (t : list inode) (dev inum : Z) : Z :=
  match List.find (is_inode t dev inum) places with
  | Some ip => match t !! ip with Some i => i_ref i | None => 0 end
  | None => 0
  end.

Lemma is_inode_spec t dev inum ip : is_inode t dev inum ip = true <->
  exists i, t !! ip = Some i /\ 0 < i_ref i /\ i_dev i = dev /\ i_inum i = inum.
Proof.
  unfold is_inode. destruct (t !! ip) as [i|]; [|by split; [|intros (? & ? & _)]].
  rewrite !andb_true_iff, Z.ltb_lt, !Z.eqb_eq. split.
  - intros [[? ?] ?]. by exists i.
  - by intros (? & [= <-] & ? & ? & ?).
Qed.
Lemma refs_place t ip i : table_ok t -> ip ∈ places -> t !! ip = Some i -> 0 < i_ref i ->
  List.find (is_inode t (i_dev i) (i_inum i)) places = Some ip /\ refs t (i_dev i) (i_inum i) = i_ref i.
Proof.
  intros Ht Hip Hi Hr. assert (List.find (is_inode t (i_dev i) (i_inum i)) places = Some ip) as E.
  { destruct (List.find _ places) as [ip'|] eqn:E.
    - apply find_some in E as [Hin%list_elem_of_In (i' & Hi' & Hr' & Hd & Hm)%is_inode_spec]. f_equal.
      by apply (tb_unique _ Ht ip' ip i' i).
    - apply find_none with (x := ip) in E; [|by apply list_elem_of_In].
      assert (is_inode t (i_dev i) (i_inum i) ip = true) by (apply is_inode_spec; by exists i). congruence. }
  split; [done|]. unfold refs. by rewrite E, Hi.
Qed.
Lemma refs_none t dev inum : (forall ip i, ip ∈ places -> t !! ip = Some i -> 0 < i_ref i -> i_dev i = dev ->
  i_inum i = inum -> False) -> List.find (is_inode t dev inum) places = None /\ refs t dev inum = 0.
Proof.
  intros Hno. assert (List.find (is_inode t dev inum) places = None) as E.
  { destruct (List.find _ places) as [ip|] eqn:E; [|done]. exfalso.
    apply find_some in E as [Hin%list_elem_of_In (i & Hi & Hr & Hd & Hm)%is_inode_spec]. by apply (Hno ip i). }
  split; [done|]. unfold refs. by rewrite E.
Qed.
Lemma refs_pos t dev inum : table_ok t -> 0 <= refs t dev inum.
Proof.
  intros Ht. unfold refs. destruct (List.find _ places) as [ip|] eqn:E; [|done].
  apply find_some in E as [Hin%list_elem_of_In _]. destruct (t !! ip) eqn:Ei; [|done]. by apply (tb_ref _ Ht ip).
Qed.

(** the place [ip] has the inode [i'] now, which no other place has *)
Lemma table_set t ip i i' : table_ok t -> ip ∈ places -> t !! ip = Some i -> 0 < i_ref i' ->
  (forall ip' j, ip' ∈ places -> ip' <> ip -> t !! ip' = Some j -> 0 < i_ref j -> i_dev j = i_dev i' ->
     i_inum j = i_inum i' -> False) ->
  (0 < i_ref i -> i_dev i = i_dev i' /\ i_inum i = i_inum i') ->
  table_ok (<[ip := i']> t) /\
  forall d m, refs (<[ip := i']> t) d m = if (d =? i_dev i') && (m =? i_inum i') then i_ref i' else refs t d m.
Proof.
  intros Ht Hip Hi Hr Hother Hsame. pose proof (lookup_lt_Some _ _ _ Hi) as Hlt.
  assert (table_ok (<[ip := i']> t)) as Ht'.
  { split.
    - intros ip1 j Hin Hj. apply list_lookup_insert_Some in Hj as [(-> & <- & _)|[Hne Hj]]; [lia|by apply (tb_ref _ Ht ip1)].
    - intros ip1 ip2 j1 j2 Hin1 Hin2 Hj1 Hj2 Hr1 Hr2 Hd Hm.
      apply list_lookup_insert_Some in Hj1 as [(-> & <- & _)|[Hne1 Hj1]], Hj2 as [(-> & <- & _)|[Hne2 Hj2]]; [done| | |].
      + exfalso. by apply (Hother ip2 j2).
      + exfalso. by apply (Hother ip1 j1).
      + by apply (tb_unique _ Ht ip1 ip2 j1 j2). }
  split; [done|]. intros d m. destruct ((d =? i_dev i') && (m =? i_inum i')) eqn:E.
  - apply andb_true_iff in E as [->%Z.eqb_eq ->%Z.eqb_eq]. apply (refs_place _ ip);
      [done..|by apply list_lookup_insert_eq|done].
  - apply andb_false_iff in E. rewrite !Z.eqb_neq in E.
    unfold refs. assert (List.find (is_inode (<[ip := i']> t) d m) places = List.find (is_inode t d m) places) as ->.
    { apply find_ext. intros ip'. unfold is_inode. destruct (decide (ip' = ip)) as [->|Hne].
      - rewrite list_lookup_insert_eq, Hi by done. destruct (Z.ltb_spec 0 (i_ref i)) as [Hri|]; simpl.
        + destruct (Hsame Hri) as [-> ->]. by rewrite (proj2 (Z.ltb_lt 0 (i_ref i'))) by lia.
        + rewrite (proj2 (Z.ltb_lt 0 (i_ref i'))) by lia. simpl. destruct (Z.eqb_spec (i_dev i') d), (Z.eqb_spec
            (i_inum i') m); simpl; lia.
      - by rewrite list_lookup_insert_ne by done. }
    destruct (List.find _ places) as [ip'|] eqn:Ef; [|done]. destruct (decide (ip' = ip)) as [->|Hne].
    + exfalso. apply find_some in Ef as [_ (j & Hj & Hrj & Hd & Hm)%is_inode_spec]. rewrite Hi in Hj. injection Hj as <-.
      destruct (Hsame Hrj). lia.
    + by rewrite list_lookup_insert_ne by done.
Qed.

Section Iget.
Context {S : Type} `{!Disk S} {content : disk_view S} {n : Z} {bs : list Z}.
Implicit Types (held : list (nat * Z)) (v : Z -> bytes) (x : xv6_t) (s : S * xv6_t).

(** iget counts a reference *)
Lemma iget_counts_run held v x s dev inum ip : cached content n bs held v x s -> table_ok (itable x) ->
  iget_place (itable x) dev inum = Some ip -> refs (itable x) dev inum < 2 ^ 31 - 1 ->
  exists s' i', iget dev inum s = (Ok ip, s') /\ cached content n bs held v (with_inode ip i' x) s' /\
    table_ok (itable (with_inode ip i' x)) /\ itable (with_inode ip i' x) !! ip = Some i' /\
    i_dev i' = dev /\ i_inum i' = inum /\ i_ref i' = refs (itable x) dev inum + 1 /\
    (i_ref i' = 1 -> i_valid i' = false) /\
    forall d m, refs (itable (with_inode ip i' x)) d m =
      if (d =? dev) && (m =? inum) then refs (itable x) dev inum + 1 else refs (itable x) d m.
Proof.
  intros Hc Ht Hp Hlt. destruct (iget_run held v x s dev inum ip Hc Hp) as (i & s' & Hi & Hrun & Hc').
  exists s', (iget_inode (itable x) dev inum i). split; [done|]. split; [done|].
  assert (ip ∈ places) as Hin.
  { unfold iget_place in Hp. destruct (List.find (is_inode _ _ _) _) as [ip'|] eqn:E.
    - injection Hp as ->. by apply find_some in E as [E%list_elem_of_In _].
    - by apply find_some in Hp as [E'%list_elem_of_In _]. }
  pose proof (tb_ref _ Ht ip i Hin Hi) as Hr0.
  set (i' := iget_inode (itable x) dev inum i).
  assert (i_dev i' = dev /\ i_inum i' = inum /\ i_ref i' = refs (itable x) dev inum + 1 /\
    (0 < i_ref i -> i_dev i = dev /\ i_inum i = inum) /\
    (forall ip' j, ip' ∈ places -> ip' <> ip -> itable x !! ip' = Some j -> 0 < i_ref j -> i_dev j = dev ->
      i_inum j = inum -> False)) as (Hd & Hm & Hr & Hsame & Hother).
  { unfold i', iget_inode. destruct ((0 <? i_ref i) && (i_dev i =? dev) && (i_inum i =? inum)) eqn:E; simpl.
    - apply andb_true_iff in E as [[Hpos%Z.ltb_lt <-%Z.eqb_eq]%andb_true_iff <-%Z.eqb_eq].
        destruct (refs_place _ ip i Ht Hin Hi Hpos) as [_ Er]. rewrite Er in *.
      repeat split; [rewrite i32_small; lia|]. intros ip' j Hin' Hne Hj Hrj Hdj Hmj. apply Hne.
      by apply (tb_unique _ Ht ip' ip j i).
    - rewrite !andb_false_iff, Z.ltb_ge, !Z.eqb_neq in E.
      unfold iget_place in Hp. destruct (List.find (is_inode _ _ _) _) as [ip'|] eqn:Ef.
      + injection Hp as ->. apply find_some in Ef as [_ (j & Hj & Hrj & Hd & Hm)%is_inode_spec]. rewrite Hi in Hj.
        injection Hj as <-. lia.
      + apply find_some in Hp as [_ He]. unfold is_empty in He. rewrite Hi in He. zify_bool.
        unfold refs. rewrite Ef. repeat split; try lia. intros ip' j Hin' Hne Hj Hrj Hdj Hmj.
        apply find_none with (x := ip') in Ef; [|by apply list_elem_of_In].
        assert (is_inode (itable x) dev inum ip' = true) by (apply is_inode_spec; by exists j). congruence. }
  pose proof (refs_pos _ dev inum Ht).
  destruct (table_set (itable x) ip i i' Ht Hin Hi) as [Ht' Hrefs]; [lia|by rewrite Hd, Hm|by rewrite Hd, Hm|].
  split; [done|]. split; [by eapply with_inode_lookup|]. do 3 (split; [done|]). split.
  { intros E1. rewrite E1 in Hr. assert (refs (itable x) dev inum = 0) as E0 by lia. unfold i', iget_inode.
    destruct ((0 <? i_ref i) && (i_dev i =? dev) && (i_inum i =? inum)) eqn:E; [|done]. exfalso.
    apply andb_true_iff in E as [[Hpos%Z.ltb_lt <-%Z.eqb_eq]%andb_true_iff <-%Z.eqb_eq].
    destruct (refs_place _ ip i Ht Hin Hi Hpos). lia. }
  intros d m. change (itable (with_inode ip i' x)) with (<[ip := i']> (itable x)). by rewrite Hrefs, Hd, Hm, Hr.
Qed.

(** a reference that is not the last of an inode without links is only counted *)
Lemma iput_counts_run held v x s ip i : cached content n bs held v x s -> itable x !! ip = Some i ->
  0 < i_ref i < 2 ^ 31 -> (i_ref i = 1 -> i_valid i = false) ->
  exists s', iput ip s = (Ok tt, s') /\ cached content n bs held v (with_inode ip (set_i_ref (i_ref i - 1) i) x) s'.
Proof.
  intros Hc Hi Hr Hvalid. unfold iput. rewrite (bind_ok _ _ _ _ _ (inode_load_run _ _ _ _ _ _ Hc Hi)).
  assert ((i_ref i =? 1) && i_valid i && (i_nlink i =? 0) = false) as ->.
  { destruct (Z.eqb_spec (i_ref i) 1); [|done]. by rewrite Hvalid. }
  destruct (inode_modify_run held v x s ip i (fun i => set_i_ref (i32 (i_ref i - 1)) i) Hc Hi) as (s' & Hm & Hc').
  exists s'. rewrite i32_small in Hc' by lia. done.
Qed.

(** C10: iget keeps the inode table well formed, no inode at two places, and counts: the
    number of references to the inode is one more and every other number is the same; the
    place has the device and the number of the inode.  When the inode is not in the table
    and no place is empty the server spins in panic. *)
Theorem iget_counts held v x s dev inum : cached content n bs held v x s -> table_ok (itable x) ->
  refs (itable x) dev inum < 2 ^ 31 - 1 ->
  match iget_place (itable x) dev inum with
  | None => stops (iget dev inum) s Spin
  | Some ip => exists s' i', iget dev inum s = (Ok ip, s') /\ cached content n bs held v (with_inode ip i' x) s' /\
      table_ok (itable (with_inode ip i' x)) /\ i_dev i' = dev /\ i_inum i' = inum /\
      forall d m, refs (itable (with_inode ip i' x)) d m =
        refs (itable x) d m + (if (d =? dev) && (m =? inum) then 1 else 0)
  end.
Proof.
  intros Hc Ht Hr. destruct (iget_place (itable x) dev inum) as [ip|] eqn:Hp.
  - destruct (iget_counts_run held v x s dev inum ip Hc Ht Hp Hr) as
      (s' & i' & Hrun & Hc' & Ht' & _ & Hd & Hm & _ & _ & Hrefs).
    exists s', i'. do 5 (split; [done|]). intros d m. rewrite Hrefs. case_bool; zify_bool; [|lia]. subst. lia.
  - unfold iget_place in Hp. destruct (cached_fs _ _ _ _ Hc) as (_ & _ & Et & _). unfold iget.
    eexists. rewrite (fs_run _ _ _ _ _ Hc), Et. change (seq 0 (Z.to_nat N_INODES)) with places.
    case_match; [done|]. by rewrite Hp.
Qed.
End Iget.

(** the reference, the device and the number are all that the table is searched by *)
Lemma table_same t ip i i' : t !! ip = Some i -> i_ref i' = i_ref i -> i_dev i' = i_dev i -> i_inum i' = i_inum i ->
  (forall d m, iget_place (<[ip := i']> t) d m = iget_place t d m) /\
  (forall d m, refs (<[ip := i']> t) d m = refs t d m) /\ (table_ok t -> table_ok (<[ip := i']> t)).
Proof.
  intros Hi Er Ed Em. pose proof (lookup_lt_Some _ _ _ Hi) as Hlt.
  assert (forall ip', exists f : inode -> inode, (forall j, t !! ip' = Some j -> <[ip := i']> t !! ip' = Some (f j) /\
    i_ref (f j) = i_ref j /\ i_dev (f j) = i_dev j /\ i_inum (f j) = i_inum j) /\
    (t !! ip' = None -> <[ip := i']> t !! ip' = None)) as Hf.
  { intros ip'. destruct (decide (ip' = ip)) as [->|Hne].
    - exists (fun _ => i'). rewrite list_lookup_insert_eq, Hi by done. split; [by intros j [= <-]|done].
    - exists id. rewrite list_lookup_insert_ne by done. by split. }
  assert (forall d m ip', is_inode (<[ip := i']> t) d m ip' = is_inode t d m ip') as Eis.
  { intros d m ip'. unfold is_inode. destruct (Hf ip') as (f & H1 & H2). destruct (t !! ip') as [j|]; [|by rewrite H2].
    by destruct (H1 j eq_refl) as (-> & -> & -> & ->). }
  assert (forall d m, List.find (is_inode (<[ip := i']> t) d m) places = List.find (is_inode t d m) places) as Efind
    by (intros; apply find_ext; auto).
  split; [|split].
  - intros d m. unfold iget_place. rewrite Efind. case_match; [done|]. apply find_ext. intros ip'. unfold is_empty.
    destruct (Hf ip') as (f & H1 & H2). destruct (t !! ip') as [j|]; [|by rewrite H2].
    by destruct (H1 j eq_refl) as (-> & -> & _).
  - intros d m. unfold refs. rewrite Efind. case_match; [|done]. destruct (Hf n) as (f & H1 & H2).
    destruct (t !! n) as [j|]; [|by rewrite H2]. by destruct (H1 j eq_refl) as (-> & -> & _).
  - intros [Hr Hu]. assert (forall ip' j', <[ip := i']> t !! ip' = Some j' -> exists j, t !! ip' = Some j /\
      i_ref j' = i_ref j /\ i_dev j' = i_dev j /\ i_inum j' = i_inum j) as Hb.
    { intros ip' j' Hj'. destruct (Hf ip') as (f & H1 & H2). destruct (t !! ip') as [j|] eqn:E; [|by rewrite H2 in Hj'].
      destruct (H1 j eq_refl) as (E1 & ? & ? & ?). rewrite E1 in Hj'. injection Hj' as <-. by exists j. }
    split.
    + intros ip' j' Hin Hj'. destruct (Hb _ _ Hj') as (j & Hj & -> & _). by apply (Hr ip').
    + intros ip1 ip2 j1' j2' Hin1 Hin2 Hj1 Hj2 Hr1 Hr2 Hd Hm.
      destruct (Hb _ _ Hj1) as (j1 & Hj1' & ? & ? & ?), (Hb _ _ Hj2) as (j2 & Hj2' & ? & ? & ?).
      apply (Hu ip1 ip2 j1 j2); try done; congruence.
Qed.

(** ** Reading entries *)
Section Dirs.
Context {S : Type} `{!Disk S} {content : disk_view S} {n : Z} {bs : list Z} {sb0 : superblock} {first : Z}.
Hypothesis (Hfits : fits content n bs) (Hg : geometry sb0 first bs).
(** the directory may grow to [room] entries; its blocks are at the places [l] *)
Context (l : list Z) (room : nat).
Implicit Types (v : Z -> bytes) (x : xv6_t) (s : S * xv6_t) (i : inode).
Abbreviation file_state := (@file_state S content n bs sb0 first []).
Abbreviation file_ready := (@file_ready bs sb0 first).

(** the directory [i] at [dp] has [k] entries *)
Record dir_state v x dp i (k : nat) s : Prop := {
  ds_state : file_state v x dp i s;
  ds_ready : file_ready v i l;
  ds_type : i_type i = T_DIR;
  ds_size : i_size i = sizeof_dirent * Z.of_nat k;
  ds_room : (k <= room)%nat;
  ds_max : sizeof_dirent * Z.of_nat room <= MAXFILE * BSIZE;
  ds_covers : covers l 0 (sizeof_dirent * Z.of_nat room)
}.
(** reading may allocate blocks for holes *)
Record dir_same v x dp i (k : nat) v' i' s' : Prop := {
  dm_state : dir_state v' (with_inode dp i' x) dp i' k s';
  dm_inode : i' = set_i_addrs (i_addrs i') i;
  dm_contents : forall pos, position pos -> contents v' i' pos = contents v i pos
}.

Lemma dir_same_refl v x dp i k s : dir_state v x dp i k s -> dir_same v x dp i k v i s.
Proof.
  intros Hd. pose proof (fs_inode _ _ _ _ _ _ (ds_state _ _ _ _ _ _ Hd)) as Hi.
  split; [by rewrite with_inode_same|by destruct i|done].
Qed.
Lemma dir_same_trans v x dp i k v1 i1 s1 v2 i2 s2 : dir_same v x dp i k v1 i1 s1 ->
  dir_same v1 (with_inode dp i1 x) dp i1 k v2 i2 s2 -> dir_same v x dp i k v2 i2 s2.
Proof.
  intros [_ E1 H1] [Hd E2 H2]. rewrite with_inode_twice in Hd. split; [done| |].
  - rewrite E2. by rewrite E1 at 1.
  - intros pos Hpos. by rewrite H2, H1.
Qed.

Lemma dir_position v x dp i k s pos : dir_state v x dp i k s -> 0 <= pos < sizeof_dirent * Z.of_nat room -> position pos.
Proof. intros Hd Hpos. pose proof (ds_max _ _ _ _ _ _ Hd). unfold position. lia. Qed.

(** the entries did not change *)
Lemma dir_same_list v x dp i k s v' i' s' : dir_state v x dp i k s -> dir_same v x dp i k v' i' s' ->
  forall off m, 0 <= off -> off + sizeof_dirent * Z.of_nat m <= sizeof_dirent * Z.of_nat room ->
  forall pos, off <= pos < off + sizeof_dirent * Z.of_nat m -> contents v' i' pos = contents v i pos.
Proof. intros Hd [_ _ Hc] off m Hoff Hm pos Hpos. apply Hc. eapply dir_position; [exact Hd|lia]. Qed.

Lemma read_dirent_run v x dp i k s j : dir_state v x dp i k s -> (j < k)%nat ->
  let off := sizeof_dirent * Z.of_nat j in
  exists v' i' s' de, read_dirent dp off s = (Ok de, s') /\ dir_same v x dp i k v' i' s' /\
    (forall p, de p = blit dirent_array 0 (contents v i) off sizeof_dirent p).
Proof.
  intros Hd Hj off. pose proof Hd as [Hst Hr Ht Hs Hk Hroom Hcov]. unfold sizeof_dirent in *. pose proof max_file.
  destruct (readi_run Hfits Hg [] v x dp i s dirent_array 0 off 16 l Hst Hr) as
      (s' & v' & i' & ks & de & Hrun & Hgr & Hres & Hde);
    [done|lia|done|lia|intros pos Hpos; apply Hcov; lia|].
  assert (Z.min 16 (i_size i - off) = 16) as Em by lia. rewrite Em in *.
  exists v', i', s', de. split; [|split; [|done]].
  - unfold read_dirent, sizeof_dirent. rewrite (bind_ok _ _ _ _ _ Hrun). cbv beta iota. by rewrite Z.eqb_refl.
  - destruct Hgr as (Hst' & Hex & _). pose proof (ex_inode _ _ _ _ _ _ _ _ Hex) as Ei.
    split; [|done|apply Hex]. split; try done; [|by rewrite Ei|by rewrite Ei].
    destruct Hr as [Hrange Hplace Hnd Hl _]. split; [|by rewrite Ei|done..]. rewrite Ei. by destruct Hrange.
Qed.

(** the entry that was read *)
Lemma read_entry c de off : (forall p, de p = blit dirent_array 0 c off sizeof_dirent p) ->
  dir_entry c off = if de_inum de =? 0 then None else Some (key (de_name de), de_inum de).
Proof.
  intros Hde. unfold dir_entry, de_inum, de_name.
  assert (forall p, 0 <= p < 16 -> de p = c (off + p)) as E.
  { intros p Hp. rewrite Hde. unfold blit, sizeof_dirent. rewrite (proj2 (Z.leb_le _ _)), (proj2 (Z.ltb_lt _ _)) by lia.
    simpl. f_equal. lia. }
  assert (get 2 de 0 = get 2 c off) as ->.
  { pose proof (E 0 ltac:(lia)) as E0. pose proof (E 1 ltac:(lia)) as E1. rewrite Z.add_0_r in E0. cbn [get].
    rewrite E0. change (0 + 1) with 1. by rewrite E1. }
  case_match; [done|]. do 3 f_equal. apply list_fmap_ext. intros j0 j [Ej Hj]%lookup_seq. unfold DIRSIZ in Hj.
  rewrite E by lia. f_equal. lia.
Qed.
Lemma dir_find_ext c c' k name : forall off, (forall pos, off <= pos < off + sizeof_dirent * Z.of_nat k -> c' pos = c pos) ->
  dir_find c' k off name = dir_find c k off name.
Proof.
  induction k as [|k IH]; intros off E; [done|]. simpl. unfold sizeof_dirent in *.
  rewrite (dir_entry_ext c c'), IH by (unfold sizeof_dirent; intros; apply E; lia). done.
Qed.
Lemma dir_free_ext c c' k : forall off, (forall pos, off <= pos < off + sizeof_dirent * Z.of_nat k -> c' pos = c pos) ->
  dir_free c' k off = dir_free c k off.
Proof.
  induction k as [|k IH]; intros off E; [done|]. simpl. unfold sizeof_dirent in *.
  rewrite (dir_entry_ext c c'), IH by (unfold sizeof_dirent; intros; apply E; lia). done.
Qed.

(** ** dirlookup *)
Lemma dirlookup_loop_run fuel : forall v x dp i k s j name, dir_state v x dp i k s -> (j <= k)%nat ->
  (k - j < fuel)%nat ->
  let off := sizeof_dirent * Z.of_nat j in
  exists v' i' s', dir_same v x dp i k v' i' s' /\
    dirlookup_loop fuel dp name off s =
      (match dir_find (contents v i) (k - j) off (key name) with
       | Some (o, inum) => ip ← iget (i_dev i) inum; mret (Some (ip, o))
       | None => mret None
       end) s'.
Proof.
  induction fuel as [|fuel IH]; intros v x dp i k s j name Hd Hj Hfuel off; [lia|].
  pose proof Hd as [Hst Hr Ht Hs Hk Hroom Hcov]. pose proof max_file.
  cbn [dirlookup_loop]. rewrite (bind_ok _ _ _ _ _ (inode_load_run _ _ _ _ _ _ (fs_cached _ _ _ _ _ _ Hst)
      (fs_inode _ _ _ _ _ _ Hst))).
  rewrite Hs. destruct (Z.ltb_spec off (sizeof_dirent * Z.of_nat k)) as [Hlt|Hge].
  - assert (j < k)%nat as Hjk by (unfold off, sizeof_dirent in *; lia).
    destruct (read_dirent_run v x dp i k s j Hd Hjk) as (v1 & i1 & s1 & de & Hrun & Hsame & Hde).
    fold off in Hrun, Hde. rewrite (bind_ok _ _ _ _ _ Hrun).
    pose proof (read_entry _ _ _ Hde) as Hent.
    replace (k - j)%nat with (Datatypes.S (k - Datatypes.S j)) by lia. cbn [dir_find]. rewrite Hent.
    assert (u32 (off + sizeof_dirent) = sizeof_dirent * Z.of_nat (Datatypes.S j)) as Eoff.
    { unfold u32. rewrite wrap_small; unfold off, sizeof_dirent in *; lia. }
    assert (off + sizeof_dirent = sizeof_dirent * Z.of_nat (Datatypes.S j)) as Eoff' by (unfold off, sizeof_dirent; lia).
    assert (exists v' i' s', dir_same v x dp i k v' i' s' /\
      dirlookup_loop fuel dp name (u32 (off + sizeof_dirent)) s1 =
      (match dir_find (contents v i) (k - Datatypes.S j) (off + sizeof_dirent) (key name) with
       | Some (o, inum) => ip ← iget (i_dev i) inum; mret (Some (ip, o))
       | None => mret None
       end) s') as Hnext.
    { destruct (IH v1 (with_inode dp i1 x) dp i1 k s1 (Datatypes.S j) name) as (v2 & i2 & s2 & Hsame2 & Hrun2);
        [apply Hsame|lia..|]. exists v2, i2, s2. split; [by eapply dir_same_trans|].
      rewrite Eoff, Hrun2, <- Eoff'. rewrite (dir_find_ext (contents v i)).
      - by rewrite (dm_inode _ _ _ _ _ _ _ _ Hsame).
      - apply (dir_same_list v x dp i k s v1 i1 s1 Hd Hsame); unfold off, sizeof_dirent in *; lia. }
    destruct (de_inum de =? 0) eqn:E0; [done|].
    destruct (decide (key (de_name de) = key name)) as [Hkey|Hkey].
    + rewrite (proj2 (Z.eqb_eq _ _)) by (by apply namecmp_spec). by exists v1, i1, s1.
    + rewrite (proj2 (Z.eqb_neq _ _)) by (by rewrite namecmp_spec). done.
  - exists v, i, s. split; [by apply dir_same_refl|]. assert (k - j = 0)%nat as ->
      by (unfold off, sizeof_dirent in *; lia). done.
Qed.

Lemma dirlookup_run v x dp i k s name : dir_state v x dp i k s ->
  exists v' i' s', dir_same v x dp i k v' i' s' /\
    dirlookup dp name s =
      (match dir_find (contents v i) k 0 (key name) with
       | Some (o, inum) => ip ← iget (i_dev i) inum; mret (Some (ip, o))
       | None => mret None
       end) s'.
Proof.
  intros Hd. pose proof Hd as [Hst Hr Ht Hs Hk Hroom Hcov].
  unfold dirlookup. rewrite (bind_ok _ _ _ _ _ (inode_load_run _ _ _ _ _ _ (fs_cached _ _ _ _ _ _ Hst)
      (fs_inode _ _ _ _ _ _ Hst))).
  rewrite Ht. cbn [negb Z.eqb Pos.eqb T_DIR].
  destruct (dirlookup_loop_run (Z.to_nat (i_size i / sizeof_dirent + 2)) v x dp i k s 0 name Hd) as
      (v' & i' & s' & Hsame & Hrun).
  - lia.
  - rewrite Hs. unfold sizeof_dirent. rewrite Z.mul_comm, Z.div_mul by lia. lia.
  - exists v', i', s'. split; [done|]. rewrite Nat.sub_0_r in Hrun. exact Hrun.
Qed.

(** ** dirlink *)
Lemma free_dirent_run fuel : forall v x dp i k s j, dir_state v x dp i k s -> (j <= k)%nat -> (k - j < fuel)%nat ->
  let off := sizeof_dirent * Z.of_nat j in
  exists v' i' s', dir_same v x dp i k v' i' s' /\
    free_dirent fuel dp off s = (Ok (dir_free (contents v i) (k - j) off), s').
Proof.
  induction fuel as [|fuel IH]; intros v x dp i k s j Hd Hj Hfuel off; [lia|].
  pose proof Hd as [Hst Hr Ht Hs Hk Hroom Hcov]. pose proof max_file. pose proof max_file_int.
  cbn [free_dirent]. rewrite (bind_ok _ _ _ _ _ (inode_load_run _ _ _ _ _ _ (fs_cached _ _ _ _ _ _ Hst)
      (fs_inode _ _ _ _ _ _ Hst))).
  assert (u32 off = off) as Eu by (unfold u32; rewrite wrap_small; unfold off, sizeof_dirent in *; lia). rewrite Eu.
  rewrite Hs. destruct (Z.ltb_spec off (sizeof_dirent * Z.of_nat k)) as [Hlt|Hge].
  - assert (j < k)%nat as Hjk by (unfold off, sizeof_dirent in *; lia).
    destruct (read_dirent_run v x dp i k s j Hd Hjk) as (v1 & i1 & s1 & de & Hrun & Hsame & Hde).
    fold off in Hrun, Hde. rewrite (bind_ok _ _ _ _ _ Hrun).
    pose proof (read_entry _ _ _ Hde) as Hent.
    replace (k - j)%nat with (Datatypes.S (k - Datatypes.S j)) by lia. cbn [dir_free]. rewrite Hent.
    destruct (de_inum de =? 0); [by exists v1, i1, s1|].
    assert (off + sizeof_dirent = sizeof_dirent * Z.of_nat (Datatypes.S j)) as Eoff by (unfold off, sizeof_dirent; lia).
    rewrite i32_small by (unfold off, sizeof_dirent in *; lia).
    destruct (IH v1 (with_inode dp i1 x) dp i1 k s1 (Datatypes.S j)) as (v2 & i2 & s2 & Hsame2 & Hrun2);
        [apply Hsame|lia..|].
    exists v2, i2, s2. split; [by eapply dir_same_trans|]. rewrite Eoff, Hrun2.
        rewrite (dir_free_ext (contents v i)); [done|].
    apply (dir_same_list v x dp i k s v1 i1 s1 Hd Hsame); unfold off, sizeof_dirent in *; lia.
  - exists v, i, s. split; [by apply dir_same_refl|]. assert (k - j = 0)%nat as ->
      by (unfold off, sizeof_dirent in *; lia). done.
Qed.

Lemma dir_size_state v x dp i k s : dir_state v x dp i k s -> dir_size i = k.
Proof.
  intros Hd. unfold dir_size. rewrite (ds_size _ _ _ _ _ _ Hd). unfold sizeof_dirent.
      rewrite Z.mul_comm, Z.div_mul by lia. lia.
Qed.
Lemma dir_map_find v x dp i k s name : dir_state v x dp i k s ->
  dir_map v i !! name = snd <$> dir_find (contents v i) k 0 name.
Proof. intros Hd. unfold dir_map. by rewrite (dir_size_state _ _ _ _ _ _ Hd), dir_find_map. Qed.
Lemma dir_same_map v x dp i k s v' i' s' : dir_state v x dp i k s -> dir_same v x dp i k v' i' s' ->
    dir_map v' i' = dir_map v i.
Proof.
  intros Hd Hs. unfold dir_map. rewrite (dir_size_state _ _ _ _ _ _ Hd), (dir_size_state _ _ _ _ _ _
      (dm_state _ _ _ _ _ _ _ _ Hs)).
  f_equal. apply dir_list_ext. pose proof (ds_room _ _ _ _ _ _ Hd). apply (dir_same_list _ _ _ _ _ _ _ _ _ Hd Hs);
      unfold sizeof_dirent; lia.
Qed.

Lemma dirlink_run v x dp i k s name inum : dir_state v x dp i k s -> (k < room)%nat -> 0 < inum < 2 ^ 16 ->
  dir_map v i !! key name = None ->
  exists v' i' k' s', dirlink dp name inum s = (Ok 0, s') /\ dir_state v' (with_inode dp i' x) dp i' k' s' /\
    (k <= k' <= k + 1)%nat /\ i' = set_i_size (sizeof_dirent * Z.of_nat k') (set_i_addrs (i_addrs i') i) /\
    dir_map v' i' = <[key name := inum]> (dir_map v i).
Proof.
  intros Hd Hk Hinum Habs. destruct (dirlookup_run v x dp i k s name Hd) as (v1 & i1 & s1 & Hsame1 & Hrun1).
  pose proof Habs as Habs'. rewrite (dir_map_find _ _ _ _ _ _ _ Hd) in Habs'.
  destruct (dir_find (contents v i) k 0 (key name)); [done|].
  unfold dirlink. rewrite (bind_ok _ _ _ _ _ Hrun1).
  pose proof (dm_state _ _ _ _ _ _ _ _ Hsame1) as Hd1. pose proof Hd1 as [Hst1 Hr1 Ht1 Hs1 _ _ _].
  rewrite (bind_ok _ _ _ _ _ (inode_load_run _ _ _ _ _ _ (fs_cached _ _ _ _ _ _ Hst1) (fs_inode _ _ _ _ _ _ Hst1))).
  destruct (free_dirent_run (Z.to_nat (i_size i1 / sizeof_dirent + 2)) v1 (with_inode dp i1 x) dp i1 k s1 0 Hd1)
    as (v2 & i2 & s2 & Hsame2 & Hrun2); [lia| |].
  { rewrite Hs1. unfold sizeof_dirent. rewrite Z.mul_comm, Z.div_mul by lia. lia. }
  rewrite Nat.sub_0_r in Hrun2. cbv zeta in Hrun2. change (sizeof_dirent * Z.of_nat 0) with 0 in Hrun2.
  pose proof (dir_same_trans _ _ _ _ _ _ _ _ _ _ _ Hsame1 Hsame2) as Hsame.
      pose proof (dm_state _ _ _ _ _ _ _ _ Hsame) as Hd2.
  rewrite <- (dir_same_map _ _ _ _ _ _ _ _ _ Hd Hsame) in *.
  assert (dir_free (contents v1 i1) k 0 = dir_free (contents v2 i2) k 0) as Efree.
  { symmetry. apply dir_free_ext. apply (dir_same_list _ _ _ _ _ _ _ _ _ Hd1 Hsame2); unfold sizeof_dirent; lia. }
  rewrite Efree in Hrun2.
  rewrite (bind_ok _ _ _ _ _ Hrun2). clear Hrun1 Hrun2 Hsame1 Hsame2 Hd1 Hst1 Hr1.
  destruct (dir_free_range (contents v2 i2) k 0) as (j & Ej & Hj).
  pose proof Hd2 as [Hst2 Hr2 Ht2 Hs2 _ Hmax Hcov]. pose proof max_file.
  assert (u32 (dir_free (contents v2 i2) k 0) = sizeof_dirent * Z.of_nat j) as Eu.
  { unfold u32. rewrite wrap_small; rewrite Ej; unfold sizeof_dirent in *; lia. }
  destruct (writei_run Hfits Hg [] v2 (with_inode dp i2 x) dp i2 s2 (make_dirent name inum) 0
      (sizeof_dirent * Z.of_nat j) sizeof_dirent l Hst2 Hr2)
    as (s3 & v3 & i3 & Hrun & Hst3 & Hr3 & Ei3 & Hc3 & _); [done|(unfold sizeof_dirent in *; lia)..| |].
  { intros pos Hpos. apply Hcov. unfold sizeof_dirent in *. lia. }
  set (k3 := (if j =? k then Datatypes.S k else k)%nat).
  assert (i_size i3 = sizeof_dirent * Z.of_nat k3) as Es3.
  { rewrite Ei3. cbn [i_size set_i_size]. rewrite Hs2. unfold k3, sizeof_dirent.
    destruct (Nat.eqb_spec j k); lia. }
  exists v3, i3, k3, s3. rewrite Eu, (bind_ok _ _ _ _ _ Hrun), Z.eqb_refl. split; [done|].
  assert (dir_state v3 (with_inode dp i3 x) dp i3 k3 s3) as Hd3.
  { rewrite with_inode_twice in Hst3. split; [done..|by rewrite Ei3|done|unfold k3; case_match; lia|done|done]. }
  split; [done|]. split; [unfold k3; case_match; lia|]. split.
  { rewrite <- Es3. rewrite Ei3. rewrite (dm_inode _ _ _ _ _ _ _ _ Hsame). done. }
  destruct (dir_list_insert (contents v2 i2) (contents v3 i3) (make_dirent name inum) (key name, inum) k 0)
    as (l1 & l2 & El1 & El2); [|by apply make_dirent_entry|].
  { intros pos Hpos. rewrite Ej. apply Hc3. eapply dir_position; [exact Hd2|unfold sizeof_dirent in *; lia]. }
  rewrite Ej in El2. unfold dir_map in *. rewrite (dir_size_state _ _ _ _ _ _ Hd2), El1 in *.
  rewrite (dir_size_state _ _ _ _ _ _ Hd3). rewrite <- dir_map_insert by done. f_equal. rewrite <- El2. f_equal.
  unfold k3, sizeof_dirent. destruct (Nat.eqb_spec j k), (Z.eqb_spec (0 + 16 * Z.of_nat j) (0 + 16 * Z.of_nat k));
      lia || done.
Qed.

(** ** The directory is the finite map *)
Lemma dirlookup_found v x dp i k s name inum ip : dir_state v x dp i k s -> table_ok (itable x) ->
  dir_map v i !! key name = Some inum -> iget_place (itable x) (i_dev i) inum = Some ip ->
  refs (itable x) (i_dev i) inum < 2 ^ 31 - 1 ->
  exists v' i' s1 s' off j, dir_same v x dp i k v' i' s1 /\ iget (i_dev i) inum s1 = (Ok ip, s') /\
    dirlookup dp name s = (Ok (Some (ip, off)), s') /\
    cached content n bs [] v' (with_inode ip j (with_inode dp i' x)) s' /\
    i_dev j = i_dev i /\ i_inum j = inum /\ i_ref j = refs (itable x) (i_dev i) inum + 1 /\
    itable (with_inode ip j (with_inode dp i' x)) !! ip = Some j /\
    (i_ref j = 1 -> i_valid j = false) /\ table_ok (itable (with_inode ip j (with_inode dp i' x))).
Proof.
  intros Hd Ht Hm Hp Hr. destruct (dirlookup_run v x dp i k s name Hd) as (v1 & i1 & s1 & Hsame & Hrun).
  rewrite (dir_map_find _ _ _ _ _ _ _ Hd) in Hm. destruct (dir_find _ _ _ _) as [[o inum0]|]; [|done].
  injection Hm as ->. pose proof (ds_state _ _ _ _ _ _ Hd) as Hst.
  assert (itable x !! dp = Some i) as Hi by apply Hst.
  pose proof (dm_inode _ _ _ _ _ _ _ _ Hsame) as E1.
  destruct (table_same (itable x) dp i i1 Hi) as (Hplace & Hrefs & Hok); [by rewrite E1..|].
  pose proof (fs_cached _ _ _ _ _ _ (ds_state _ _ _ _ _ _ (dm_state _ _ _ _ _ _ _ _ Hsame))) as Hc.
  destruct (iget_counts_run [] v1 (with_inode dp i1 x) s1 (i_dev i) inum ip Hc) as
      (s' & j & Hget & Hc' & Ht' & Hj & Hdev & Hinum & Href & Hvalid & _).
  - by apply Hok.
  - change (itable (with_inode dp i1 x)) with (<[dp := i1]> (itable x)). by rewrite Hplace.
  - change (itable (with_inode dp i1 x)) with (<[dp := i1]> (itable x)). by rewrite Hrefs.
  - exists v1, i1, s1, s', o, j. change (itable (with_inode dp i1 x)) with (<[dp := i1]> (itable x)) in Href.
    rewrite Hrefs in Href. split; [done|]. split; [done|]. rewrite Hrun, (bind_ok _ _ _ _ _ Hget). done.
Qed.

Lemma dirlookup_missing v x dp i k s name : dir_state v x dp i k s -> dir_map v i !! key name = None ->
  exists v' i' s', dirlookup dp name s = (Ok None, s') /\ dir_same v x dp i k v' i' s'.
Proof.
  intros Hd Hm. destruct (dirlookup_run v x dp i k s name Hd) as (v1 & i1 & s1 & Hsame & Hrun).
  rewrite (dir_map_find _ _ _ _ _ _ _ Hd) in Hm. destruct (dir_find _ _ _ _); [done|]. by exists v1, i1, s1.
Qed.

(** C8: dirlookup is lookup in the finite map of a directory: a name that is not in the map
    is not found, and for a name that is the result is the place of the inode table with
    the number the map has, which has one reference more; the directory stays the same. *)
Theorem dirlookup_refines v x dp i k s name : dir_state v x dp i k s -> table_ok (itable x) ->
  match dir_map v i !! key name with
  | None => exists v' i' s', dirlookup dp name s = (Ok None, s') /\ dir_same v x dp i k v' i' s' /\
      dir_map v' i' = dir_map v i
  | Some inum => forall ip, iget_place (itable x) (i_dev i) inum = Some ip -> refs (itable x) (i_dev i) inum < 2 ^ 31 - 1 ->
      exists v' i' s' off j, dirlookup dp name s = (Ok (Some (ip, off)), s') /\ dir_map v' i' = dir_map v i /\
        cached content n bs [] v' (with_inode ip j (with_inode dp i' x)) s' /\
        i_dev j = i_dev i /\ i_inum j = inum /\ i_ref j = refs (itable x) (i_dev i) inum + 1 /\
        table_ok (itable (with_inode ip j (with_inode dp i' x)))
  end.
Proof.
  intros Hd Ht. destruct (dir_map v i !! key name) as [inum|] eqn:Hm.
  - intros ip Hp Hr. destruct (dirlookup_found v x dp i k s name inum ip Hd Ht Hm Hp Hr)
      as (v' & i' & s1 & s' & off & j & Hsame & _ & Hrun & Hc & Hdev & Hinum & Href & _ & _ & Ht').
    exists v', i', s', off, j. split; [done|]. split; [by eapply dir_same_map|done].
  - destruct (dirlookup_missing v x dp i k s name Hd Hm) as (v' & i' & s' & Hrun & Hsame).
    exists v', i', s'. do 2 (split; [done|]). by eapply dir_same_map.
Qed.

(** C7: dirlink is insertion in the finite map of a directory: a name that is not in the map
    is added with its number, and 0 is returned; for a name that is in the map -1 is
    returned, and the directory and the references are as before. *)
Theorem dirlink_refines v x dp i k s name inum : dir_state v x dp i k s -> table_ok (itable x) -> (k < room)%nat ->
  0 < inum < 2 ^ 16 ->
  match dir_map v i !! key name with
  | None => exists v' i' k' s', dirlink dp name inum s = (Ok 0, s') /\ dir_state v' (with_inode dp i' x) dp i' k' s' /\
      (k <= k' <= k + 1)%nat /\ dir_map v' i' = <[key name := inum]> (dir_map v i)
  | Some inum' => forall ip, iget_place (itable x) (i_dev i) inum' = Some ip ->
      refs (itable x) (i_dev i) inum' < 2 ^ 31 - 1 ->
      exists v' i' s' j, dirlink dp name inum s = (Ok (-1), s') /\ dir_map v' i' = dir_map v i /\
        cached content n bs [] v' (with_inode ip j (with_inode dp i' x)) s' /\ i_ref j = refs (itable x) (i_dev i) inum'
  end.
Proof.
  intros Hd Ht Hk Hinum. destruct (dir_map v i !! key name) as [inum'|] eqn:Hm.
  - intros ip Hp Hr. destruct (dirlookup_found v x dp i k s name inum' ip Hd Ht Hm Hp Hr)
      as (v' & i' & s1 & s' & off & j & Hsame & _ & Hrun & Hc & Hdev & Hinum' & Href & Hj & Hvalid & Ht').
    unfold dirlink. rewrite (bind_ok _ _ _ _ _ Hrun). pose proof (refs_pos (itable x) (i_dev i) inum' Ht).
    destruct (iput_counts_run [] v' _ s' ip j Hc) as (s2 & Hput & Hc2); [done|lia|done|].
    rewrite (bind_ok _ _ _ _ _ Hput). rewrite with_inode_twice in Hc2. exists v', i', s2, (set_i_ref (i_ref j - 1) j).
    split; [done|]. split; [by eapply dir_same_map|]. split; [done|]. simpl. lia.
  - destruct (dirlink_run v x dp i k s name inum Hd Hk Hinum Hm) as (v' & i' & k' & s' & Hrun & Hd' & Hk' & _ & Hmap).
    by exists v', i', k', s'.
Qed.

(** a name that dirlink adds to a directory is found by dirlookup, and so is every name
    with the same first 14 characters: the inode at the place that dirlookup returns has
    the number that dirlink was given. *)
Theorem dirlink_dirlookup_roundtrip v x dp i k s name name' inum ip : dir_state v x dp i k s -> table_ok (itable x) ->
  (k < room)%nat -> 0 < inum < 2 ^ 16 -> dir_map v i !! key name = None -> key name' = key name ->
  iget_place (itable x) (i_dev i) inum = Some ip -> refs (itable x) (i_dev i) inum < 2 ^ 31 - 1 ->
  returns (r ← dirlink dp name inum; found ← dirlookup dp name'; mret (r, found)) s (fun out s' =>
    exists off j, out = (0, Some (ip, off)) /\ itable (snd s') !! ip = Some j /\ i_dev j = i_dev i /\ i_inum j = inum).
Proof.
  intros Hd Ht Hk Hinum Habs Hkey Hp Hr.
  destruct (dirlink_run v x dp i k s name inum Hd Hk Hinum Habs) as (v1 & i1 & k1 & s1 & Hrun & Hd1 & _ & Ei & Hmap).
  assert (itable x !! dp = Some i) as Hi by apply (ds_state _ _ _ _ _ _ Hd).
  destruct (table_same (itable x) dp i i1 Hi) as (Hplace & Hrefs & Hok); [by rewrite Ei..|].
  destruct (dirlookup_found v1 (with_inode dp i1 x) dp i1 k1 s1 name' inum ip Hd1)
    as (v2 & i2 & s2 & s3 & off & j & _ & _ & Hrun2 & Hc & Hdev & Hm & _ & Hj & _ & _).
  - by apply Hok.
  - rewrite Hmap, Hkey. apply lookup_insert_eq.
  - change (itable (with_inode dp i1 x)) with (<[dp := i1]> (itable x)). rewrite Hplace. by rewrite Ei.
  - change (itable (with_inode dp i1 x)) with (<[dp := i1]> (itable x)). rewrite Hrefs. by rewrite Ei.
  - exists (0, Some (ip, off)), s3. split; [by rewrite (bind_ok _ _ _ _ _ Hrun), (bind_ok _ _ _ _ _ Hrun2)|]. exists off, j.
    split; [done|]. destruct (cached_fs _ _ _ _ Hc) as (_ & _ & -> & _). split; [done|]. by rewrite Hdev, Ei.
Qed.
End Dirs.

(** ** An empty directory, and a directory with a file *)
Section DirWitnesses.
(** an inode table of which the first place has the directory [d] *)
Definition dir_inode : inode := Inode ROOTDEV 3 1 true T_DIR 0 0 1 0 0 0 0 (repeat 0 13).
Definition dir_table : list inode := dir_inode :: repeat inode_zero (Z.to_nat N_INODES).
Definition dir_demo : (Z -> bytes) * xv6_t :=
  (demo_view, set_sb demo_sb (set_itable dir_table (snd (booted demo_view)))).
Abbreviation demo_dir_state := (dir_state (content := plain_view) (n := 64) (bs := demo_blocks)
  (sb0 := demo_sb) (first := 10) [0; 1] 4).

Lemma dir_no_blocks k : slot_addr demo_view dir_inode k = 0.
Proof. apply demo_no_blocks. Qed.
Lemma dir_demo_state : demo_dir_state demo_view (snd dir_demo) 0 dir_inode 0 dir_demo.
Proof.
  destruct demo_ready as [_ Hplace Hnd Hslots Hroom].
  split; [split; [by split; [apply cache_init|..]|done|done|]|..]; try done; [..|apply demo_covers; by vm_compute].
  - split; [done|done|..]; intros k; rewrite dir_no_blocks; done.
  - lia.
Qed.
Lemma dir_table_lookup ip i : dir_table !! ip = Some i -> ip <> 0%nat -> i_ref i = 0.
Proof.
  destruct ip as [|ip]; [done|]. change (repeat inode_zero (Z.to_nat N_INODES) !! ip = Some i -> S ip <> 0%nat ->
      i_ref i = 0).
  intros Hi%list_elem_of_lookup_2%list_elem_of_In%repeat_spec _. by rewrite Hi.
Qed.
Lemma dir_table_ok : table_ok dir_table.
Proof.
  split.
  - intros ip i _ Hi. destruct (decide (ip = 0%nat)) as [->|Hne];
      [by injection Hi as <-|]. by rewrite (dir_table_lookup _ _ Hi Hne).
  - intros ip ip' i i' _ _ Hi Hi' Hr Hr' _ _.
    destruct (decide (ip = 0%nat)), (decide (ip' = 0%nat)); [congruence|..].
    all: try (rewrite (dir_table_lookup _ _ Hi') in Hr' by done; lia).
    all: try (rewrite (dir_table_lookup _ _ Hi) in Hr by done; lia).
Qed.

Lemma iget_counts_witness : exists s' i', iget ROOTDEV 7 dir_demo = (Ok 1%nat, s') /\
  table_ok (itable (with_inode 1 i' (snd dir_demo))) /\ i_inum i' = 7 /\
  refs (itable (with_inode 1 i' (snd dir_demo))) ROOTDEV 7 = 1 /\
      refs (itable (with_inode 1 i' (snd dir_demo))) ROOTDEV 3 = 1.
Proof.
  pose proof (iget_counts (content := plain_view) (n := 64) (bs := demo_blocks) [] demo_view
      (snd dir_demo) dir_demo ROOTDEV 7
    (fs_cached _ _ _ _ _ _ (ds_state _ _ _ _ _ _ _ _ dir_demo_state)) dir_table_ok) as H.
  assert (iget_place (itable (snd dir_demo)) ROOTDEV 7 = Some 1%nat) as Ep by by vm_compute. rewrite Ep in H.
  destruct H as (s' & i' & Hrun & _ & Ht & _ & Hm & Hrefs); [by vm_compute|].
  exists s', i'. do 3 (split; [done|]). split; rewrite Hrefs; by vm_compute.
Defined.
Lemma dirlookup_refines_witness : exists v' i' s',
  dirlookup (Disk0 := plain_disk) 0 [97; 0] dir_demo = (Ok None, s') /\ dir_map v' i' = ∅.
Proof.
  pose proof (dirlookup_refines (Disk0 := plain_disk) demo_fits demo_geometry [0;
      1] 4 demo_view (snd dir_demo) 0 dir_inode 0 dir_demo
    [97; 0] dir_demo_state dir_table_ok) as H.
  destruct H as (v' & i' & s' & Hrun & _ & Hmap). by exists v', i', s'.
Defined.
Lemma dirlink_refines_witness : exists v' i' s',
  dirlink (Disk0 := plain_disk) 0 [97; 0] 7 dir_demo = (Ok 0, s') /\ dir_map v' i' = {[ [97] := 7 ]}.
Proof.
  pose proof (dirlink_refines (Disk0 := plain_disk) demo_fits demo_geometry [0;
      1] 4 demo_view (snd dir_demo) 0 dir_inode 0 dir_demo
    [97; 0] 7 dir_demo_state dir_table_ok ltac:(lia) ltac:(lia)) as H.
  destruct H as (v' & i' & k' & s' & Hrun & _ & _ & Hmap). exists v', i', s'. split; [exact Hrun|].
  assert (dir_map demo_view dir_inode = ∅) as E by reflexivity. rewrite Hmap, E. reflexivity.
Defined.
Lemma dirlink_dirlookup_roundtrip_witness :
  returns (r ← dirlink (Disk0 := plain_disk) 0 [97; 98; 0] 7; found ← dirlookup (Disk0 := plain_disk) 0 [97; 98; 0;
      5]; mret (r, found))
    dir_demo (fun out s' => exists off j, out = (0, Some (1%nat, off)) /\ itable (snd s') !! 1%nat = Some j /\
      i_dev j = ROOTDEV /\ i_inum j = 7).
Proof.
  apply (dirlink_dirlookup_roundtrip (Disk0 := plain_disk) demo_fits demo_geometry [0;
      1] 4 demo_view (snd dir_demo) 0 dir_inode 0 dir_demo
    [97; 98; 0] [97; 98; 0; 5] 7 1 dir_demo_state dir_table_ok); [lia|lia|reflexivity|reflexivity|by vm_compute..].
Defined.
End DirWitnesses.
