(* ===== verification/Xv6Session.v ===== *)
(** * A file system from the start

    What mkfs puts on the disk is what the file system needs: after the server has made a
    file system, whatever the disk held, and has started, the root directory is a directory
    in the sense of [Xv6Dirs] and the free blocks are those after its own.  Then the
    system calls are run on it. *)

From stdpp Require Import base numbers list gmap.
From S2P Require Import Prelude Strings Xv6Bio Xv6Fs Xv6Paths Xv6Content Xv6Mkfs Xv6Dirs Xv6Sys.

(** ** Starting *)
Section Start.
Context {S : Type} `{!Disk S} {content : disk_view S} {n : Z} {bs : list Z}.
Hypothesis (Hfits : fits content n bs).
Implicit Types (held : list (nat * Z)) (v : Z -> bytes) (x : xv6_t) (s : S * xv6_t).

Definition get_superblock (f : bytes) : superblock :=
  Superblock (get 4 f 0) (get 4 f 4) (get 4 f 8) (get 4 f 12) (get 4 f 16) (get 4 f 20) (get 4 f 24) (get 4 f 28).

Lemma get_all k f g : (forall p, f p = g p) -> forall off, get k f off = get k g off.
Proof. intros E off. apply get_ext. auto. Qed.
Lemma get_dinode_all f g : (forall p, f p = g p) -> forall off, get_dinode f off = get_dinode g off.
Proof.
  intros E off. unfold get_dinode. rewrite !(get_all _ f g E). f_equal. unfold get_words.
  apply list_fmap_ext. intros; by apply get_all.
Qed.

Lemma readsb_run held v x s : cached content n bs held v x s -> 1 ∈ bs -> Z.of_nat (length held) + 1 < 2 ^ 32 ->
  exists s', readsb ROOTDEV s = (Ok tt, s') /\ cached content n bs held v (set_sb (get_superblock (v 1)) x) s'.
Proof.
  intros Hc Hin Hsmall. unfold readsb. step_bread Hfits 1 Hc as bp s1 Hc1. step_data 1 Hc1 as d Ed. cbv zeta.
  destruct (cached_modify _ _ _ _ (set_sb (get_superblock (v 1))) ltac:(done) ltac:(done) Hc1) as (s2 & Hrun2 & Hc2).
  assert (fs_modify (set_sb (Superblock (get 4 d (4 * 0)) (get 4 d (4 * 1)) (get 4 d (4 * 2)) (get 4 d (4 * 3))
    (get 4 d (4 * 4)) (get 4 d (4 * 5)) (get 4 d (4 * 6)) (get 4 d (4 * 7)))) s1 = (Ok tt, s2)) as Hrun.
  { rewrite <- Hrun2. unfold get_superblock. by rewrite !(get_all 4 d (v 1)) by done. }
  rewrite (bind_ok _ _ _ _ _ Hrun). step_brelse Hc2 as s3 Hc3. by exists s3.
Qed.

(** the inode is read when it is not loaded *)
Lemma ilock_load_run held v x s ip i : cached content n bs held v x s -> itable x !! ip = Some i -> 1 <= i_ref i ->
  i_valid i = false -> i_dev i = ROOTDEV -> IBLOCK (i_inum i) (sb x) ∈ bs -> Z.of_nat (length held) + 1 < 2 ^ 32 ->
  let d := get_dinode (v (IBLOCK (i_inum i) (sb x))) (dinode_off (i_inum i)) in d_type d <> 0 ->
  exists s', ilock (Some ip) s = (Ok tt, s') /\
    cached content n bs held v (with_inode ip (set_i_valid true (set_i_dinode d i)) x) s'.
Proof.
  intros Hc Hi Hr Hvalid Hdev Hin Hsmall d Hd. unfold ilock. rewrite (bind_ok _ _ _ _ _ (inode_load_run _ _ _ _ _ _ Hc Hi)).
  rewrite (proj2 (Z.ltb_ge _ _)), Hvalid by lia. destruct (cached_fs _ _ _ _ Hc) as (_ & Esb & _).
  rewrite (fs_run _ _ _ _ _ Hc), Esb, Hdev. step_bread Hfits (IBLOCK (i_inum i) (sb x)) Hc as bp s1 Hc1.
  step_data (IBLOCK (i_inum i) (sb x)) Hc1 as f Ef. rewrite (get_dinode_all _ _ Ef). fold d. cbv zeta.
  destruct (inode_modify_run _ v x s1 ip i (set_i_dinode d) Hc1 Hi) as (s2 & Hrun2 & Hc2). rewrite (bind_ok _ _ _ _ _ Hrun2).
  step_brelse Hc2 as s3 Hc3.
  destruct (inode_modify_run _ v _ s3 ip (set_i_dinode d i) (set_i_valid true) Hc3) as (s4 & Hrun4 & Hc4);
    [by eapply with_inode_lookup|]. rewrite (bind_ok _ _ _ _ _ Hrun4), (proj2 (Z.eqb_neq _ _)) by done.
  rewrite with_inode_twice in Hc4. by exists s4.
Qed.
End Start.

(** ** The file system that mkfs makes *)
Section Fresh.
#[local] Existing Instance plain_disk.

(** the disk after mkfs, when it was [t] *)
Definition fresh_disk (t : Z -> bytes) : Z -> bytes := fst (snd (init_disk_file (t, mkfs_start))).
Definition fresh_sb : superblock := Superblock FSMAGIC 512 504 256 0 2 2 7.
(** the blocks that are used here; the first for the contents of files is 8 *)
Definition fresh_blocks : list Z := seqZ 1 28.
Definition root_dinode : dinode := Dinode T_DIR 0 0 1 4096 (8 :: repeat 0 12).
Definition root_loaded (ref : Z) : inode := set_i_valid true (set_i_dinode root_dinode
    (Inode ROOTDEV ROOTINO ref false 0 0 0 0 0 0 0 0 (repeat 0 13))).

Lemma mkfs_succeeds t : fst (init_disk_file (t, mkfs_start)) = Ok 0.
Proof. by vm_compute. Qed.
Lemma fresh_superblock t : get_superblock (fresh_disk t 1) = fresh_sb.
Proof. by vm_compute. Qed.
Lemma fresh_root t : get_dinode (fresh_disk t 2) (dinode_off ROOTINO) = root_dinode.
Proof. by vm_compute. Qed.
Lemma fresh_free t : free_of (fresh_disk t 7) 512 = seqZ 9 503.
Proof. by vm_compute. Qed.
Lemma fresh_entries t : dir_list (fresh_disk t 8) 256 0 = [([46], 1); ([46; 46], 1)].
Proof. by vm_compute. Qed.

Lemma fresh_fits : fits plain_view 512 fresh_blocks.
Proof. apply plain_disk_fits; [apply NoDup_seqZ|vm_compute; lia|]. intros b Hb%elem_of_seqZ. lia. Qed.
Lemma fresh_geometry : geometry fresh_sb 8 fresh_blocks.
Proof. split; [by vm_compute|by vm_compute|]. apply elem_of_seqZ. simpl. lia. Qed.
Lemma fresh_root_blocks v r k : slot k -> slot_addr v (root_loaded r) k = if k =? 0 then 8 else 0.
Proof.
  intros [Hk _]. unfold slot_addr. simpl i_addrs. destruct (Z.eqb_spec k 0) as [->|Hne]; [done|].
  destruct (k <? 13); [|done]. destruct (Z.to_nat k) as [|j] eqn:E; [lia|]. simpl.
  do 12 (destruct j as [|j]; [done|]). done.
Qed.

(** the root, loaded, at a place of the table *)
Lemma fresh_root_state t r ip x s : cached plain_view 512 fresh_blocks [] (fresh_disk t) x s -> sb x = fresh_sb ->
  itable x !! ip = Some (root_loaded r) ->
  dir_state (content := plain_view) (n := 512) (bs := fresh_blocks) (sb0 := fresh_sb) (first := 8) [0; 1] 512
    (fresh_disk t) x ip (root_loaded r) 256 s.
Proof.
  intros Hc Hsb Hi. split; [split; [done..|]|split|done|by vm_compute|lia|by vm_compute|].
  - split; [done|done|..].
    + intros k Hk. rewrite fresh_root_blocks by done. destruct (Z.eqb_spec k 0) as [->|Hne]; [|done]. intros _.
      split; [by vm_compute|]. split; [apply elem_of_seqZ; lia|by vm_compute].
    + intros k k' Hk Hk'. rewrite !fresh_root_blocks by done. destruct (Z.eqb_spec k 0), (Z.eqb_spec k' 0); lia.
  - by split; vm_compute.
  - split; [by vm_compute|by vm_compute|]. change (IBLOCK (i_inum (root_loaded r)) fresh_sb) with 2. apply elem_of_seqZ. lia.
  - apply NoDup_cons. split; [|apply NoDup_singleton]. by intros ?%list_elem_of_singleton.
  - apply Forall_cons. split; [by unfold slot|]. by apply Forall_singleton.
  - assert (missing (fresh_disk t) (root_loaded r) [0; 1] = 1%nat) as -> by reflexivity.
    change (sb_bmapstart fresh_sb) with 7. change (sb_size fresh_sb) with 512. unfold reserved.
    change (sb_bmapstart fresh_sb) with 7. change (sb_size fresh_sb) with 512. rewrite fresh_free.
    split; [rewrite length_seqZ; lia|]. intros b Hb. change (take 1 (seqZ 9 503)) with [9] in Hb.
    apply list_elem_of_singleton in Hb as ->. split; [lia|apply elem_of_seqZ; lia].
  - apply demo_covers. by vm_compute.
Qed.
Lemma fresh_root_map t r : dir_map (fresh_disk t) (root_loaded r) = {[ [46] := 1; [46; 46] := 1 ]}.
Proof.
  unfold dir_map. change (dir_size (root_loaded r)) with 256%nat.
  rewrite (dir_list_ext (fresh_disk t 8)), fresh_entries; [done|].
  intros pos Hpos. change (0 <= pos < 4096) in Hpos. unfold contents.
  assert (pos / BSIZE = 0 /\ pos mod BSIZE = pos) as [-> ->].
  { unfold BSIZE. split; [apply Z.div_small; lia|apply Z.mod_small; lia]. }
  done.
Qed.

(** the inode table after the root was found: one reference, from the working directory *)
Definition fresh_table : list inode :=
  <[0%nat := Inode ROOTDEV ROOTINO 1 false 0 0 0 0 0 0 0 0 (repeat 0 13)]> (itable xv6_zero).

Lemma fresh_table_ok j : 0 <= i_ref j -> table_ok (<[0%nat := j]> (itable xv6_zero)).
Proof.
  intros Hj. assert (forall ip i, <[0%nat := j]> (itable xv6_zero) !! ip = Some i -> ip <> 0%nat -> i_ref i = 0) as Hrest.
  { intros ip i Hi Hne. rewrite list_lookup_insert_ne in Hi by done.
    apply list_elem_of_lookup_2, list_elem_of_In in Hi. change (itable xv6_zero) with (repeat inode_zero 257) in Hi.
    apply repeat_spec in Hi. by rewrite Hi. }
  split.
  - intros ip i _ Hi. destruct (decide (ip = 0%nat)) as [->|Hne]; [by injection Hi as <-|]. by rewrite (Hrest _ _ Hi Hne).
  - intros ip ip' i i' _ _ Hi Hi' Hr Hr' _ _.
    destruct (decide (ip = 0%nat)) as [->|Hne]; [|rewrite (Hrest _ _ Hi Hne) in Hr; lia].
    destruct (decide (ip' = 0%nat)) as [->|Hne]; [done|rewrite (Hrest _ _ Hi' Hne) in Hr'; lia].
Qed.
Lemma fsinit_run d : get_superblock (d 1) = fresh_sb -> exists x s, (binit ;; fsinit ROOTDEV) (d, xv6_zero) = (Ok tt, s) /\
  cached plain_view 512 fresh_blocks [] d x s /\ sb x = fresh_sb /\ itable x = fresh_table /\ cwd x = Some 0%nat.
Proof.
  intros Hsb. rewrite (bind_ok binit _ _ tt (booted d)) by reflexivity.
  assert (cached plain_view 512 fresh_blocks [] d xv6_zero (booted d)) as Hc
    by apply (booted_cached plain_view 512 fresh_blocks d I). unfold fsinit.
  destruct (readsb_run fresh_fits [] _ _ _ Hc) as (s1 & Hrun1 & Hc1); [apply elem_of_seqZ; lia|done|].
  rewrite (bind_ok _ _ _ _ _ Hrun1). rewrite Hsb in Hc1. destruct (cached_fs _ _ _ _ Hc1) as (_ & Esb & _).
  rewrite (fs_run _ _ _ _ _ Hc1), Esb. cbn [sb_magic fresh_sb sb set_sb]. rewrite Z.eqb_refl. cbn [negb].
  assert (iget_place (itable (set_sb fresh_sb xv6_zero)) ROOTDEV ROOTINO = Some 0%nat) as Hp by by vm_compute.
  destruct (iget_run [] _ _ _ _ _ _ Hc1 Hp) as (i & s2 & Hi & Hrun2 & Hc2).
  assert (namei [slash] s1 = (Ok (Some 0%nat), s2)) as Hname.
  { unfold namei, namex. cbn [head default Z.eqb]. rewrite Z.eqb_refl.
    assert ((ip ← iget ROOTDEV ROOTINO; namex_loop (Datatypes.S (length [slash])) ip [slash] false name_array) s1 =
      (Ok (Some 0%nat, name_array), s2)) as H1 by by rewrite (bind_ok _ _ _ _ _ Hrun2).
    by rewrite (bind_ok _ _ _ _ _ H1). }
  rewrite (bind_ok _ _ _ _ _ Hname). destruct (cached_modify _ _ _ _ (set_cwd (Some 0%nat)) ltac:(done) ltac:(done) Hc2)
    as (s3 & Hrun3 & Hc3). eexists _, s3. split; [exact Hrun3|]. split; [exact Hc3|]. split; [done|]. split; [|done].
  injection Hi as <-. reflexivity.
Qed.

(** C12: whatever the disk holds, after mkfs and the start of the server the file system has
    the superblock that mkfs wrote, its free blocks are those after the block of the root,
    and the root, once it is locked, is a directory with the entries "." and "..". *)
Theorem fresh_file_system t : returns (start_fs ;; ip ← iget ROOTDEV ROOTINO; ilock (Some ip) ;; mret ip) (t, xv6_zero)
  (fun ip s => exists v x i, dir_state (content := plain_view) (n := 512) (bs := fresh_blocks) (sb0 := fresh_sb) (first := 8)
      [0; 1] 512 v x ip i 256 s /\
    dir_map v i = {[ [46] := ROOTINO; [46; 46] := ROOTINO ]} /\ free_of (v 7) 512 = seqZ 9 503 /\
    table_ok (itable x) /\ refs (itable x) ROOTDEV ROOTINO = 2).
Proof.
  assert (exists x s, start_fs (t, xv6_zero) = (Ok tt, s) /\ cached plain_view 512 fresh_blocks [] (fresh_disk t) x s /\
    sb x = fresh_sb /\ itable x = fresh_table) as (x & s & Hrun & Hc & Hsb & Ht).
  { pose proof (mkfs_succeeds t) as Hok. pose proof (fresh_superblock t) as Hf. unfold fresh_disk in *.
    destruct (init_disk_file (t, mkfs_start)) as [r [t' m]] eqn:E. cbn [fst snd] in Hok, Hf. subst r.
    destruct (fsinit_run t' Hf) as (x & s & Hrun & Hc & Hsb & Ht & _). exists x, s.
    split; [|exact (conj Hc (conj Hsb Ht))]. rewrite <- Hrun. unfold start_fs.
    match goal with |- (?m ≫= ?k) ?s = _ => apply (bind_ok m k s 0 (t', xv6_zero)) end. cbv beta. cbn [fst snd].
        by rewrite E. }
  unfold returns. rewrite (bind_ok _ _ _ _ _ Hrun). clear Hrun. pose proof (fresh_root t) as Hroot.
      pose proof (fresh_root_state t 2) as Hstate. pose proof (fresh_root_map t 2) as Hmap.
  pose proof (fresh_free t) as Hfree. revert Hc Hroot Hstate Hmap Hfree. generalize (fresh_disk t) as v. clear t.
  intros v Hc Hroot Hstate Hmap Hfree.
  assert (table_ok (itable x)) as Hok by (rewrite Ht; by apply fresh_table_ok).
  assert (iget_place (itable x) ROOTDEV ROOTINO = Some 0%nat) as Hp by (rewrite Ht; by vm_compute).
  assert (refs (itable x) ROOTDEV ROOTINO = 1) as Hr by (rewrite Ht; by vm_compute).
  destruct (iget_run [] _ _ _ _ _ _ Hc Hp) as (i0 & s1 & Hi & Hrun1 & Hc1). rewrite (bind_ok _ _ _ _ _ Hrun1).
  rewrite Ht in Hi. injection Hi as <-.
  set (i := Inode ROOTDEV ROOTINO 2 false 0 0 0 0 0 0 0 0 (repeat 0 13)).
  assert (cached plain_view 512 fresh_blocks [] v (with_inode 0 i x) s1) as Hc1' by exact Hc1.
  assert (itable (with_inode 0 i x) !! 0%nat = Some i) as Hi by (eapply with_inode_lookup; by rewrite Ht).
  assert (IBLOCK (i_inum i) (sb (with_inode 0 i x)) = 2) as Eb by (simpl; rewrite Hsb; reflexivity).
  destruct (ilock_load_run fresh_fits [] _ _ s1 0 i Hc1' Hi) as (s2 & Hrun2 & Hc2); [simpl; lia|done|done| |done| |].
  { rewrite Eb. apply elem_of_seqZ. lia. }
  { rewrite Eb. change (i_inum i) with ROOTINO. by rewrite Hroot. }
  rewrite (bind_ok _ _ _ _ _ Hrun2). exists 0%nat, s2. split; [done|].
  rewrite Eb in Hc2. change (i_inum i) with ROOTINO in Hc2. rewrite Hroot, with_inode_twice in Hc2.
  exists v, (with_inode 0 (root_loaded 2) x), (root_loaded 2). split.
  { apply Hstate; [exact Hc2|exact Hsb|]. eapply with_inode_lookup. by rewrite Ht. }
  split; [exact Hmap|]. split; [exact Hfree|].
  change (itable (with_inode 0 (root_loaded 2) x)) with (<[0%nat := root_loaded 2]> (itable x)). rewrite Ht.
  unfold fresh_table. rewrite list_insert_insert_eq. split; [by apply fresh_table_ok|by vm_compute].
Qed.
End Fresh.

(** ** Sessions
    Programs that are run on a file system that was just made. *)
Section Sessions.
#[local] Existing Instance plain_disk.
(** malloc does not fail *)
Abbreviation open_path := (xv6fs_sys_open (fun _ => false)).
Abbreviation F := (M ((Z -> bytes) * xv6_t)).
Definition path_a : list Z := [47; 97].
Definition path_b : list Z := [47; 98].
Definition close_file (f : option nat) : F Z := match f with Some f => xv6fs_sys_fileclose f | None => mret (-1) end.
Definition touch (path : list Z) : F Z := f ← open_path path (Z.lor O_CREAT O_RDWR); close_file f.
Definition free_blocks : F (list Z) :=
  bp ← bread ROOTDEV 7; d ← buf_data bp; brelse bp ;; mret (free_of d 512).
(** a file is made, written, closed, opened, read, closed and removed; then it is looked for *)
Definition lifecycle (src : bytes) : F (list Z * (Z * Z) * list Z * option nat * list Z) :=
  before ← free_blocks;
  f ← open_path path_a (Z.lor O_CREAT O_RDWR);
  written ← xv6fs_sys_write f src 0 5000 0;
  _ ← close_file f;
  f ← open_path path_a O_RDWR;
  '(read, dst) ← xv6fs_sys_read f (fun _ => 0) 0 5000 0;
  _ ← close_file f;
  '(removed, _) ← xv6fs_sys_unlink path_a true;
  f ← open_path path_a O_RDWR;
  after ← free_blocks;
  mret (before, (written, removed), dst <$> seqZ 0 5000, f, after).

(** On a new file system, whatever the disk held before, a file can be made, written,
    closed, opened and read: the bytes are those that were written.  After it was removed
    it is not found, and its blocks are free again. *)
Theorem file_lifecycle t src : returns (start_fs ;; lifecycle src) (t, xv6_zero) (fun out _ =>
  out = (seqZ 9 503, (5000, 0), src <$> seqZ 0 5000, None, seqZ 9 503)).
Proof.
  assert (fst ((start_fs ;; lifecycle src) (t, xv6_zero)) =
    Ok (seqZ 9 503, (5000, 0), src <$> seqZ 0 5000, None, seqZ 9 503)) as E by by vm_compute.
  revert E. unfold returns. destruct ((start_fs ;; lifecycle src) (t, xv6_zero)) as [r s]. cbn [fst]. intros ->.
  exists (seqZ 9 503, (5000, 0), src <$> seqZ 0 5000, None, seqZ 9 503), s. done.
Qed.

(** the result of a program on a new file system *)
Definition on_new_disk {A} (m : F A) : result A := fst ((start_fs ;; m) (fun _ _ => 0, xv6_zero)).

(** renaming fails when there is no file with the new name: ENOENT of unlink has become -1 *)
Lemma rename_needs_target : on_new_disk (touch path_a ;; xv6fs_sys_rename path_a path_b) = Ok (-1) /\
  on_new_disk (touch path_a ;; touch path_b ;; xv6fs_sys_rename path_a path_b) = Ok 0.
Proof. split; by vm_compute. Qed.
(** removing a file that does not exist spins in panic, when the number of the inode is wanted *)
Lemma unlink_missing_spins : on_new_disk (xv6fs_sys_unlink path_a true) = Crash Spin /\
  on_new_disk (xv6fs_sys_unlink path_a false) = Ok (-1, None).
Proof. split; by vm_compute. Qed.
(** removing a file leaves one reference to the directory *)
Lemma unlink_keeps_parent :
  on_new_disk (touch path_a ;; xv6fs_sys_unlink path_a true ;; x ← fs; mret (refs (itable x) ROOTDEV ROOTINO)) = Ok 2 /\
  on_new_disk (touch path_a ;; x ← fs; mret (refs (itable x) ROOTDEV ROOTINO)) = Ok 1.
Proof. split; by vm_compute. Qed.
(** two names with the same first 14 characters are one file *)
Lemma long_names_collide :
  on_new_disk (touch (47 :: repeat 120 14 ++ [97]) ;; f ← open_path (47 :: repeat 120 14 ++ [98]) O_RDWR;
    mret (bool_decide (is_Some f))) = Ok true.
Proof. by vm_compute. Qed.
End Sessions.
