(* ===== verification/Xv6Files.v ===== *)
(** * Open files of the xv6 file system

    Reading and writing through an open file ([file.c]): the file is an array of bytes with
    a current place.  filewrite writes in pieces of at most [max_write] bytes; a call leaves
    the place after the bytes that were read or written. *)

From stdpp Require Import base numbers list gmap.
From S2P Require Import Prelude Strings Xv6Bio Xv6Fs Xv6Content Xv6Sys.

Section OpenFiles.
Context {S : Type} `{!Disk S} {content : disk_view S} {n : Z} {bs : list Z} {sb0 : superblock} {first : Z}.
Hypothesis (Hfits : fits content n bs) (Hg : geometry sb0 first bs).
Implicit Types (v : Z -> bytes) (x : xv6_t) (s : S * xv6_t) (i : inode) (ff : file).
Abbreviation file_state := (@file_state S content n bs sb0 first []).
Abbreviation file_ready := (@file_ready bs sb0 first).

(** [f] is an open file of the inode [i] at [ip], which has been read from the disk; the
    blocks at the places [l] can be used *)
Record open_file (l : list Z) v x f ff ip i s : Prop := {
  of_state : file_state v x ip i s;
  of_ready : file_ready v i l;
  of_file : files x !! f = Some ff;
  of_type : f_type ff = FD_INODE;
  of_ip : f_ip ff = ip;
  of_loaded : 1 <= i_ref i /\ i_valid i = true
}.

Lemma file_load_run l v x f ff ip i s : open_file l v x f ff ip i s -> file_load f s = (Ok ff, s).
Proof.
  intros [[Hc _ _ _] _ Hf _ _ _]. destruct (cached_fs _ _ _ _ Hc) as (Hfs & _ & _ & _ & Ef & _). unfold file_load.
  rewrite (bind_ok _ _ _ _ _ Hfs), Ef. by rewrite Hf.
Qed.

Definition with_file (f : nat) ff x : xv6_t := set_files (<[f := ff]> (files x)) x.
Lemma file_modify_run l v x f ff ip i s g : open_file l v x f ff ip i s -> f_type (g ff) = FD_INODE -> f_ip (g ff) = ip ->
  exists s', file_modify f g s = (Ok tt, s') /\ open_file l v (with_file f (g ff) x) f (g ff) ip i s'.
Proof.
  intros Ho Ht Hip. pose proof Ho as [[Hc Hsb Hi Hok] Hr Hf _ _ Hl]. unfold file_modify.
  rewrite (bind_ok _ _ _ _ _ (file_load_run _ _ _ _ _ _ _ _ Ho)).
  destruct (cached_modify [] v x s (with_file f (g ff)) ltac:(done) ltac:(done) Hc) as (s' & Hm & Hc').
  assert (fs_modify (fun x => set_files (<[f := g ff]> (files x)) x) s = (Ok tt, s')) as E by exact Hm.
  exists s'. split; [exact E|]. split; [by split|done|apply lookup_insert_eq|done..].
Qed.

(** locking an inode that is in memory does nothing *)
Lemma ilock_run l v x f ff ip i s : open_file l v x f ff ip i s -> ilock (Some ip) s = (Ok tt, s).
Proof.
  intros [[Hc _ Hi _] _ _ _ _ [Href Hv]]. unfold ilock.
  rewrite (bind_ok _ _ _ _ _ (inode_load_run _ _ _ _ _ _ Hc Hi)), (proj2 (Z.ltb_ge _ _)) by lia. by rewrite Hv.
Qed.
Lemma iunlock_run l v x f ff ip i s : open_file l v x f ff ip i s -> iunlock (Some ip) s = (Ok tt, s).
Proof.
  intros [[Hc _ Hi _] _ _ _ _ [Href Hv]]. unfold iunlock.
  by rewrite (bind_ok _ _ _ _ _ (inode_load_run _ _ _ _ _ _ Hc Hi)), (proj2 (Z.ltb_ge _ _)) by lia.
Qed.

(** what a write does to the file: [m] bytes at [off] *)
Record file_written v i v' i' (off : Z) (src : bytes) (p m : Z) : Prop := {
  fw_size : i_size i' = Z.max (i_size i) (off + m);
  fw_contents : forall pos, position pos -> contents v' i' pos = blit (contents v i) off src p m pos
}.
Lemma file_written_none v i off src p : off <= i_size i -> file_written v i v i off src p 0.
Proof. intros Ho. split; [lia|]. intros pos _. by rewrite blit_none. Qed.
Lemma file_written_trans v i v1 i1 v2 i2 off src p m m' : 0 <= m -> 0 <= m' -> file_written v i v1 i1 off src p m ->
  file_written v1 i1 v2 i2 (off + m) src (p + m) m' -> file_written v i v2 i2 off src p (m + m').
Proof.
  intros Hm Hm' [Es Hc] [Es' Hc']. split; [lia|]. intros pos Hpos.
  rewrite Hc', <- blit_app by done. unfold blit at 1. unfold blit at 1. case_match; [done|]. by apply Hc.
Qed.

(** writing through the file, at its place *)
Lemma file_writei_run l v x f ff ip i s src p m : open_file l v x f ff ip i s ->
  0 <= f_off ff <= i_size i -> 0 <= m -> f_off ff + m <= MAXFILE * BSIZE -> covers l (f_off ff) m ->
  exists s' v' x' i', writei ip src p (f_off ff) m s = (Ok m, s') /\ open_file l v' x' f ff ip i' s' /\
    file_written v i v' i' (f_off ff) src p m.
Proof.
  intros [Hst Hr Hf Ht Hip [Href Hv]] Hoff Hm Hmax Hcov.
  destruct (writei_run Hfits Hg [] v x ip i s src p (f_off ff) m l Hst Hr) as (s' & v' & i' & Hw & Hst' & Hr' & Ei & Hc & _);
    try done.
  exists s', v', (with_inode ip i' x), i'. split; [done|]. split; [|split; [by rewrite Ei|done]].
  split; try done. by rewrite Ei.
Qed.

Lemma set_f_off_same ff : set_f_off (f_off ff) ff = ff.
Proof. by destruct ff. Qed.
Lemma set_f_off_twice a b ff : set_f_off a (set_f_off b ff) = set_f_off a ff.
Proof. done. Qed.

(** the place is moved by [m] bytes *)
Lemma advance_run l v x f ff ip i s m : open_file l v x f ff ip i s -> 0 <= f_off ff -> 0 <= m ->
  f_off ff + m <= MAXFILE * BSIZE ->
  exists s' x', when (0 <? m) (file_modify f (set_f_off (u32 (f_off ff + m)))) s = (Ok tt, s') /\
    open_file l v x' f (set_f_off (f_off ff + m) ff) ip i s'.
Proof.
  intros Ho Hoff Hm Hmax. pose proof max_file. destruct (Z.ltb_spec 0 m) as [Hpos|Hz]; cbn [when].
  - assert (u32 (f_off ff + m) = f_off ff + m) as -> by (apply wrap_small; lia).
    destruct (file_modify_run l v x f ff ip i s (set_f_off (f_off ff + m)) Ho) as (s' & Hrun & Ho'); [by destruct Ho..|].
    by eexists _, _.
  - exists s, x. split; [done|]. assert (f_off ff + m = f_off ff) as -> by lia. by rewrite set_f_off_same.
Qed.

Lemma filewrite_loop_run fuel : forall l v x f ff ip i s src addr k n0, open_file l v x f ff ip i s ->
  0 <= k <= n0 -> 0 <= f_off ff <= i_size i -> f_off ff + (n0 - k) <= MAXFILE * BSIZE ->
  covers l (f_off ff) (n0 - k) -> (1 <= fuel)%nat -> n0 - k <= max_write * (Z.of_nat fuel - 1) ->
  exists s' v' x' i', filewrite_loop fuel f src addr k n0 s = (Ok n0, s') /\
    open_file l v' x' f (set_f_off (f_off ff + (n0 - k)) ff) ip i' s' /\
    file_written v i v' i' (f_off ff) src (addr + k) (n0 - k).
Proof.
  induction fuel as [|fuel IH]; intros l v x f ff ip i s src addr k n0 Ho Hk Hoff Hmax Hcov Hfuel Hlt; [lia|].
  cbn [filewrite_loop]. destruct (Z.ltb_spec k n0) as [Hmore|Hdone].
  - set (m := Z.min (n0 - k) max_write). assert (0 < m <= n0 - k) as Hm by (unfold m; change max_write with 12288; lia).
    rewrite (bind_ok _ _ _ _ _ (file_load_run _ _ _ _ _ _ _ _ Ho)), (of_ip _ _ _ _ _ _ _ _ Ho).
    rewrite (bind_ok _ _ _ _ _ (ilock_run _ _ _ _ _ _ _ _ Ho)).
    destruct (file_writei_run l v x f ff ip i s src (addr + k) m Ho Hoff) as (s1 & v1 & x1 & i1 & Hw & Ho1 & Hfw1);
      [lia|lia|intros pos Hpos; apply Hcov; lia|].
    rewrite (bind_ok _ _ _ _ _ Hw).
    destruct (advance_run l v1 x1 f ff ip i1 s1 m Ho1) as (s2 & x2 & Ha & Ho2); [lia..|].
    rewrite (bind_ok _ _ _ _ _ Ha), (bind_ok _ _ _ _ _ (iunlock_run _ _ _ _ _ _ _ _ Ho2)), Z.eqb_refl. cbn [negb].
    destruct (IH l v1 x2 f (set_f_off (f_off ff + m) ff) ip i1 s2 src addr (k + m) n0 Ho2)
      as (s3 & v3 & x3 & i3 & Hrun & Ho3 & Hfw3); simpl in *.
    + lia.
    + rewrite (fw_size _ _ _ _ _ _ _ _ Hfw1). lia.
    + lia.
    + intros pos Hpos. apply Hcov. lia.
    + destruct fuel; [|lia]. simpl in Hlt. lia.
    + unfold m. change max_write with 12288 in *. lia.
    + exists s3, v3, x3, i3. split; [done|]. rewrite set_f_off_twice in Ho3.
      replace (f_off ff + m + (n0 - (k + m))) with (f_off ff + (n0 - k)) in Ho3 by lia. split; [done|].
      replace (n0 - k) with (m + (n0 - (k + m))) by lia. eapply file_written_trans; [lia..|exact Hfw1|].
      by replace (addr + k + m) with (addr + (k + m)) by lia.
  - exists s, v, x, i. assert (n0 = k) as -> by lia. rewrite Z.sub_diag, Z.add_0_r, set_f_off_same.
    split; [done|]. split; [done|]. apply file_written_none. lia.
Qed.

(** the place is given with the call *)
Lemma seek_run l v x f ff ip i s off : open_file l v x f ff ip i s -> 0 <= off <= i_size i ->
  exists s' x', when (negb (off =? NO_OFFSET)) (file_modify f (set_f_off off)) s = (Ok tt, s') /\
    open_file l v x' f (set_f_off off ff) ip i s'.
Proof.
  intros Ho Hoff. pose proof (ir_size _ (fr_range _ _ _ (of_ready _ _ _ _ _ _ _ _ Ho))) as Hs.
  assert (off <> NO_OFFSET) as Hne.
  { intros ->. change NO_OFFSET with 4294967295 in Hoff. change (MAXFILE * BSIZE) with 4243456 in Hs. lia. }
  rewrite (proj2 (Z.eqb_neq _ _) Hne). cbn [negb when].
  destruct (file_modify_run l v x f ff ip i s (set_f_off off) Ho) as (s' & Hrun & Ho'); [by destruct Ho..|].
  by eexists _, _.
Qed.

(** writing at a place of an open file *)
Lemma sys_write_run l v x f ff ip i s src addr off n0 : open_file l v x f ff ip i s -> f_writable ff = true ->
  0 <= off <= i_size i -> 0 <= n0 -> off + n0 <= MAXFILE * BSIZE -> covers l off n0 ->
  exists s' v' x' i', xv6fs_sys_write (Some f) src addr n0 off s = (Ok n0, s') /\
    open_file l v' x' f (set_f_off (off + n0) ff) ip i' s' /\ file_written v i v' i' off src addr n0.
Proof.
  intros Ho Hwr Hoff Hn Hmax Hcov. unfold xv6fs_sys_write.
  destruct (seek_run l v x f ff ip i s off Ho Hoff) as (s1 & x1 & Hs & Ho1). rewrite (bind_ok _ _ _ _ _ Hs).
  pose proof max_file_int. rewrite i32_small by lia. unfold filewrite.
  rewrite (bind_ok _ _ _ _ _ (file_load_run _ _ _ _ _ _ _ _ Ho1)).
      change (f_writable (set_f_off off ff)) with (f_writable ff). rewrite Hwr. cbn [negb].
  unfold is_fd_device, is_fd_inode. rewrite (of_type _ _ _ _ _ _ _ _ Ho1).
  destruct (filewrite_loop_run (Z.to_nat (n0 / max_write + 2)) l v x1 f (set_f_off off ff) ip i s1 src addr 0 n0 Ho1)
    as (s2 & v2 & x2 & i2 & Hrun & Ho2 & Hfw); [lia|done|simpl; lia|by rewrite Z.sub_0_r|..].
  - pose proof (Z.div_pos n0 max_write Hn ltac:(done)). lia.
  - pose proof (Z.div_pos n0 max_write Hn ltac:(done)). rewrite Z2Nat.id by lia.
    pose proof (Z.div_mod n0 max_write ltac:(done)). pose proof (Z.mod_pos_bound n0 max_write ltac:(done)). lia.
  - rewrite Z.sub_0_r in *. rewrite Z.add_0_r in Hfw. rewrite (bind_ok _ _ _ _ _ Hrun), Z.eqb_refl.
    by exists s2, v2, x2, i2.
Qed.

(** reading changes nothing of a file *)
Definition file_same v i v' i' : Prop :=
  i_size i' = i_size i /\ forall pos, position pos -> contents v' i' pos = contents v i pos.
Lemma grown_open l v x f ff ip i s v' i' ks s' : open_file l v x f ff ip i s ->
  grown (content := content) (n := n) (bs := bs) (sb0 := sb0) (first := first) [] v x ip i l s' v' i' ks ->
  reserved sb0 first bs v' (missing v' i' l) ->
  open_file l v' (with_inode ip i' x) f ff ip i' s' /\ file_same v i v' i'.
Proof.
  intros [Hst [Hrange Hplace Hnd Hl Hres] Hf Ht Hip Hl'] (Hst' & Hex & _) Hres'.
  pose proof (ex_inode _ _ _ _ _ _ _ _ Hex) as Ei. split.
  - split; [done| |done..|by rewrite Ei]. split; [|by rewrite Ei|done..]. rewrite Ei. by destruct Hrange.
  - split; [by rewrite Ei|]. intros pos Hpos. by apply (ex_contents _ _ _ _ _ _ _ _ Hex).
Qed.

(** reading at a place of an open file *)
Lemma sys_read_run l v x f ff ip i s dst buf off n0 : open_file l v x f ff ip i s -> f_readable ff = true ->
  0 <= off <= i_size i -> 0 <= n0 -> off + n0 <= MAXFILE * BSIZE -> covers l off n0 ->
  let m := Z.min n0 (i_size i - off) in
  exists s' v' x' i' dst', xv6fs_sys_read (Some f) dst buf n0 off s = (Ok (m, dst'), s') /\
    open_file l v' x' f (set_f_off (off + m) ff) ip i' s' /\ file_same v i v' i' /\
    forall k, dst' k = blit dst buf (contents v i) off m k.
Proof.
  intros Ho Hrd Hoff Hn Hmax Hcov m. unfold xv6fs_sys_read. pose proof max_file. pose proof max_file_int.
  destruct (seek_run l v x f ff ip i s off Ho Hoff) as (s1 & x1 & Hs & Ho1). rewrite (bind_ok _ _ _ _ _ Hs).
  rewrite i32_small by lia. unfold fileread.
  rewrite (bind_ok _ _ _ _ _ (file_load_run _ _ _ _ _ _ _ _ Ho1)).
      change (f_readable (set_f_off off ff)) with (f_readable ff). rewrite Hrd. cbn [negb].
  unfold is_fd_device, is_fd_inode. rewrite (of_type _ _ _ _ _ _ _ _ Ho1), (of_ip _ _ _ _ _ _ _ _ Ho1).
  rewrite (bind_ok _ _ _ _ _ (ilock_run _ _ _ _ _ _ _ _ Ho1)). change (f_off (set_f_off off ff)) with off.
  assert (u32 n0 = n0) as -> by (apply wrap_small; lia).
  pose proof Ho1 as [Hst Hr _ _ _ _].
  destruct (readi_run Hfits Hg [] v x1 ip i s1 dst buf off n0 l Hst Hr) as
      (s2 & v2 & i2 & ks & dst' & Hrun & Hgr & Hres & Hdst);
    [done|lia|done|lia|done|].
  rewrite (bind_ok _ _ _ _ _ Hrun). cbv beta iota.
  destruct (grown_open _ _ _ _ _ _ _ _ _ _ _ _ Ho1 Hgr Hres) as [Ho2 Hsame]. fold m in Hdst |- *.
  assert (f_off (set_f_off off ff) = off) as Eoff by done.
  destruct (advance_run l v2 _ f (set_f_off off ff) ip i2 s2 m Ho2) as (s3 & x3 & Ha & Ho3); [lia..|].
  rewrite Eoff in Ha, Ho3. rewrite (bind_ok _ _ _ _ _ Ha).
  rewrite (bind_ok _ _ _ _ _ (iunlock_run _ _ _ _ _ _ _ _ Ho3)). by exists s3, v2, x3, i2, dst'.
Qed.

(** what was written is read back *)
Lemma sys_write_read_run l v x f ff ip i s src dst p d off n0 : open_file l v x f ff ip i s ->
  f_writable ff = true -> f_readable ff = true -> 0 <= off <= i_size i -> 0 <= n0 -> off + n0 <= MAXFILE * BSIZE ->
  covers l off n0 ->
  returns (r ← xv6fs_sys_write (Some f) src p n0 off; out ← xv6fs_sys_read (Some f) dst d n0 off;
           mret (r, fst out, snd out)) s
    (fun out _ => let '(written, read, dst') := out in
      written = n0 /\ read = n0 /\ forall k, dst' k = blit dst d src p n0 k).
Proof.
  intros Ho Hw Hr Hoff Hn Hmax Hcov.
  destruct (sys_write_run l v x f ff ip i s src p off n0 Ho Hw Hoff Hn Hmax Hcov) as
      (s1 & v1 & x1 & i1 & Hrun & Ho1 & [Es Hc]).
  destruct (sys_read_run l v1 x1 f _ ip i1 s1 dst d off n0 Ho1 Hr) as (s2 & v2 & x2 & i2 & dst' & Hrun2 & _ & _ & Hdst);
    [lia|done..|].
  assert (Z.min n0 (i_size i1 - off) = n0) as Em by lia. rewrite Em in *.
  exists (n0, n0, dst'), s2. split; [by rewrite (bind_ok _ _ _ _ _ Hrun), (bind_ok _ _ _ _ _ Hrun2)|].
  do 2 (split; [done|]). intros k. rewrite Hdst. apply blit_same; [done|]. intros t Ht.
  rewrite Hc by (unfold position; lia). unfold blit.
  rewrite (proj2 (Z.leb_le _ _)), (proj2 (Z.ltb_lt _ _)) by lia. simpl. f_equal. lia.
Qed.
End OpenFiles.
