(* ===== verification/FsServer.v ===== *)
(** * The file server

    Model of [apps/xv6fs/src/fs_server/fs_server.c] and [main.c]: the resource server
    around the file system of the files Xv6Bio to Xv6Sys.  It keeps the blocks of a RAM
    disk, which it reads and writes through a page that it shares with that server; a
    registry of open files, by the number of their inode; and a registry of namespaces,
    which are directories with resource spaces of their own.

    The shared page is changed by the RAM disk, so it is part of the state outside of the
    process ([shared_page]).  Relations between files and blocks are not tracked
    ([TRACK_MAP_RELATIONS] is 0). *)

From stdpp Require Import base numbers list gmap strings.
From S2P Require Import Prelude Strings Badge Registry State ResourceTypes ModelExport Component PdResources Resspc Mo Ads AdsRequests Elf Cpu PdObj PdComponent Ep Server Client PdUtils ResourceServer Ramdisk Xv6Bio Xv6Fs Xv6Mkfs Xv6Sys.

Definition FILE_RESOURCE_TYPE_NAME : list Z := [70; 73; 76; 69].
Definition FS_RPC_MAGIC : Z := 0x4653.
Definition ROOT_DIR : list Z := [slash].

(** fs_rpc.proto; a path is the string in the message's array *)
Definition FsError_UNKNOWN : Z := 11.
Definition FsError_BADGE : Z := 12.
Definition FsError_NO_FILE : Z := 13.
Definition FsError_NO_NS : Z := 14.
Inductive FsRequest :=
| FsCreate (flags : Z) (path : list Z)
| FsLink (path : list Z)
| FsRead (n offset : Z)
| FsWrite (n offset : Z)
| FsClose
| FsUnlink (path : list Z)
| FsStat
| FsNs
| FsDeleteNs
| FsNone.
Record FsMessage := FsMsg { fs_magic : Z; fs_msg : FsRequest }.
Inductive FsReturn :=
| FsBasicReturn
| FsCreateReturn (slot : Z)
| FsReadReturn (n : Z)
| FsWriteReturn (n : Z)
| FsNsReturn (space_id : Z).
Record FsReturnMessage := FsReply { fs_errorCode : Z; fs_ret : FsReturn }.

(** the deletion callbacks *)
Inductive fs_cb := file_registry_entry_on_delete_cb | ns_registry_entry_on_delete_cb.

(** fs_namespace_entry_t, less its node *)
Record fs_namespace_t := FsNamespace { res_space_conn : resspc_conn_t; ns_prefix : list Z }.

(** xv6fs_server_context_t; a node of [file_registry] has an open file.  The static
    variables of the file system are [xv6]. *)
Record xv6fs_server_context_t := Xv6Server {
  fs_gen : resource_server_context_t;
  fs_rd_ep : Z;
  file_registry : registry nat fs_cb;
  ns_registry : registry fs_namespace_t fs_cb;
  fs_shared_mem : option conn_t;
  shared_mem_vaddr : Z;
  fs_blocks : list ramdisk_client_context_t;
  xv6 : xv6_t
}.
Definition set_fs_gen (v : resource_server_context_t) (x : xv6fs_server_context_t) : xv6fs_server_context_t :=
  Xv6Server v (fs_rd_ep x) (file_registry x) (ns_registry x) (fs_shared_mem x) (shared_mem_vaddr x) (fs_blocks x) (xv6 x).
Definition set_fs_rd_ep (v : Z) (x : xv6fs_server_context_t) : xv6fs_server_context_t :=
  Xv6Server (fs_gen x) v (file_registry x) (ns_registry x) (fs_shared_mem x) (shared_mem_vaddr x) (fs_blocks x) (xv6 x).
Definition set_file_registry (v : registry nat fs_cb) (x : xv6fs_server_context_t) : xv6fs_server_context_t :=
  Xv6Server (fs_gen x) (fs_rd_ep x) v (ns_registry x) (fs_shared_mem x) (shared_mem_vaddr x) (fs_blocks x) (xv6 x).
Definition set_ns_registry (v : registry fs_namespace_t fs_cb) (x : xv6fs_server_context_t) : xv6fs_server_context_t :=
  Xv6Server (fs_gen x) (fs_rd_ep x) (file_registry x) v (fs_shared_mem x) (shared_mem_vaddr x) (fs_blocks x) (xv6 x).
Definition set_fs_shared (mo : option conn_t) (vaddr : Z) (x : xv6fs_server_context_t) : xv6fs_server_context_t :=
  Xv6Server (fs_gen x) (fs_rd_ep x) (file_registry x) (ns_registry x) mo vaddr (fs_blocks x) (xv6 x).
Definition set_fs_blocks (v : list ramdisk_client_context_t) (x : xv6fs_server_context_t) : xv6fs_server_context_t :=
  Xv6Server (fs_gen x) (fs_rd_ep x) (file_registry x) (ns_registry x) (fs_shared_mem x) (shared_mem_vaddr x) v (xv6 x).
Definition set_xv6 (v : xv6_t) (x : xv6fs_server_context_t) : xv6fs_server_context_t :=
  Xv6Server (fs_gen x) (fs_rd_ep x) (file_registry x) (ns_registry x) (fs_shared_mem x) (shared_mem_vaddr x) (fs_blocks x) v.

(** [pt->"/ns%u"] *)
Definition make_ns_prefix (nsid : Z) : list Z := snprintf MAXPATH (chars "/ns" ++ fmt_u nsid).
Definition apply_prefix (prefix path : list Z) : list Z :=
  if default 0 (List.head path) =? slash then snprintf MAXPATH (prefix ++ path)
  else snprintf MAXPATH (prefix ++ slash :: path).

(** ** The disk *)
Section Blocks.
Context {K : Type} `{!Kernel K}.
(** nanopb, for the messages of the RAM disk *)
Context (rd_encode : RamdiskMessage -> option (list Z)) (rd_decode : list Z -> option RamdiskReturnMessage).
(** the contents of the page that is shared with the RAM disk *)
Context (shared_page : K -> bytes) (set_shared_page : bytes -> K -> K).
Abbreviation P := (M (process K xv6fs_server_context_t)).

Definition block_conn (blockno : Z) : P ramdisk_client_context_t :=
  s ← prog;
  match fs_blocks s !! Z.to_nat blockno with Some c => mret c | None => crash OutOfBounds end.
(** memcpy to the buffer of a block: nothing of what was there is left *)
Definition whole_block (page : bytes) : bytes := blit (fun _ => 0) 0 page 0 RAMDISK_BLOCK_SIZE.
(** the error code, and the buffer *)
Definition block_read (blockno : Z) (buf : bytes) : P (Z * bytes) :=
  conn ← block_conn blockno;
  error ← ramdisk_client_read rd_encode rd_decode conn;
  if error =? 0 then page ← syscall (gets shared_page); mret (error, whole_block page)
  else mret (error, buf).
Definition block_write (blockno : Z) (buf : bytes) : P Z :=
  syscall (modify (fun k => set_shared_page (blit (shared_page k) 0 buf 0 RAMDISK_BLOCK_SIZE) k)) ;;
  conn ← block_conn blockno;
  ramdisk_client_write rd_encode rd_decode conn.

(** xv6fs_bread and xv6fs_bwrite: errors are ignored *)
#[global] Instance server_disk : Disk (process K xv6fs_server_context_t) := {|
  xv6fs_bread := fun blockno buf => r ← block_read blockno buf; mret (snd r);
  xv6fs_bwrite := fun blockno buf => _ ← block_write blockno buf; mret tt
|}.
End Blocks.

(** ** fs_server.c *)
Section FsServer.
Context {K : Type} `{!Kernel K} `{!UTHash} (N : nanopb) (SEL4UTILS_RES_TYPE_GENERIC SEL4UTILS_RES_TYPE_SHARED_FRAMES : Z).
(** the blocks of the disk *)
Context `{!Disk (process K xv6fs_server_context_t)}.
Context (rd_encode : RamdiskMessage -> option (list Z)) (rd_decode : list Z -> option RamdiskReturnMessage).
(** the allocator; the layout of struct stat; the capabilities of the message at work; the
    sizes of the structs of a model state *)
Context (malloc_fails : nat -> bool) (put_stat : stat -> bytes -> Z -> bytes) (received : K -> ipc).
Context (sizeof_model_state sizeof_component : Z).
Abbreviation P := (M (process K xv6fs_server_context_t)).

(** a call of the file system *)
Definition on_fs {B} (m : M (process K xv6fs_server_context_t * xv6_t) B) : P B := fun p =>
  let '(r, (p', y)) := m (p, xv6 (program p)) in (r, set_program (set_xv6 y (program p')) p').
Definition fs_malloc : P (option nat) :=
  s ← prog;
  let a := mallocs (xv6 s) in
  prog_modify (set_xv6 (set_mallocs (S a) (xv6 s))) ;;
  mret (if malloc_fails a then None else Some a).

Definition files_p : regptr (process K xv6fs_server_context_t) nat fs_cb :=
  RegPtr (fun p => Some (file_registry (program p))) (fun r p => set_program (set_file_registry r (program p)) p).
Definition ns_p : regptr (process K xv6fs_server_context_t) fs_namespace_t fs_cb :=
  RegPtr (fun p => Some (ns_registry (program p))) (fun r p => set_program (set_ns_registry r (program p)) p).

(** *** Deletion callbacks *)
Definition file_registry_entry_on_delete (a : nat) : P unit :=
  n ← node_load files_p a;
  _ ← on_fs (xv6fs_sys_fileclose (payload n));
  let inum := u32 (object_id n) in
  s ← prog;
  error ← resspc_client_delete_resource N (default_space (fs_gen s)) inum;
  if negb (error =? 0) then mret tt
  else
    _ ← hash_iter_until (B := unit) ns_p (fun a =>
      ns ← node_load ns_p a;
      error ← resspc_client_delete_resource N (res_space_conn (payload ns)) inum;
      mret (if error =? 0 then None else Some tt));
    mret tt.
Definition run_fs_cb (cb : fs_cb) (a arg : nat) : P unit :=
  match cb with
  | file_registry_entry_on_delete_cb => file_registry_entry_on_delete a
  | ns_registry_entry_on_delete_cb => mret tt
  end.

(** *** Initialization *)

(** from block [i] on; the blocks so far are in the array *)
Fixpoint init_blocks_loop (todo : nat) : P Z :=
  match todo with
  | O => mret 0
  | S todo =>
      s ← prog;
      r ← ramdisk_client_alloc_block rd_encode rd_decode (fs_rd_ep s);
      let '(error, conn) := r : Z * option ramdisk_client_context_t in
      if negb (error =? 0) then mret error
      else
        conn ← deref conn;
        prog_modify (fun s => set_fs_blocks (fs_blocks s ++ [conn]) s) ;;
        init_blocks_loop todo
  end.
Definition init_blocks : P Z := init_blocks_loop (Z.to_nat FS_SIZE).

(** the static variables of mkfs.c are not used again *)
Definition run_init_disk_file : P Z := fun p =>
  let '(r, (p', _)) := init_disk_file (p, mkfs_start) in (r, p').

Definition xv6fs_init : P Z :=
  s ← prog;
  mo ← fs_malloc;
  r ← mo_component_client_connect N (mo_ep (fs_gen s)) 1 MO_PAGE_BITS;
  let '(error, conn) := r : Z * option conn_t in
  if negb (error =? 0) then mret error else
  _ ← deref mo;
  conn ← deref_conn conn;
  prog_modify (set_fs_shared (Some conn) 0) ;;
  r ← vmr_client_attach_no_reserve N (vmr_rde (fs_gen s)) 0 conn SEL4UTILS_RES_TYPE_SHARED_FRAMES;
  let '(error, vaddr) := r : Z * option Z in
  if negb (error =? 0) then mret error else
  vaddr ← deref_conn vaddr;
  prog_modify (set_fs_shared (Some conn) vaddr) ;;
  error ← ramdisk_client_bind rd_encode rd_decode (fs_rd_ep s) conn;
  if negb (error =? 0) then mret error else
  block_cap_type ← sel4gpi_get_resource_type_code BLOCK_RESOURCE_TYPE_NAME;
  space ← sel4gpi_get_default_space_id block_cap_type;
  _ ← resspc_client_map_space N (default_space (fs_gen s)) space;
  error ← init_blocks;
  if negb (error =? 0) then mret error else
  error ← run_init_disk_file;
  if negb (error =? 0) then mret error else
  on_fs binit ;;
  on_fs (fsinit ROOTDEV) ;;
  prog_modify (set_file_registry (resource_registry_initialize (Some file_registry_entry_on_delete_cb) 0
    (BADGE_OBJ_ID_NULL - 1))) ;;
  prog_modify (set_ns_registry (resource_registry_initialize (Some ns_registry_entry_on_delete_cb) 0
    (BADGE_SPACE_ID_NULL - 1))) ;;
  mret 0.

(** *** Namespaces and files *)
Definition destroy_ns (ns_id : Z) (notify_rt : bool) : P Z :=
  ns ← resource_registry_get_by_id ns_p ns_id;
  match ns with
  | None => mret FsError_NO_NS
  | Some ns =>
      n ← node_load ns_p ns;
      error ← on_fs (xv6fs_sys_rmdir (ns_prefix (payload n)) true);
      if negb (error =? 0) then mret FsError_UNKNOWN else
      error ← (if notify_rt then resspc_client_destroy N (res_space_conn (payload n)) else mret 0);
      if negb (error =? 0) then mret FsError_UNKNOWN else
      resource_registry_delete run_fs_cb ns_p ns ;;
      mret 0
  end.
Definition delete_file (inum : Z) : P Z :=
  reg_entry ← resource_registry_get_by_id files_p (Z.land inum 0xFFFFFFFF);
  match reg_entry with
  | Some a => resource_registry_delete run_fs_cb files_p a
  | None => mret tt
  end ;;
  mret 0.

(** the namespace of a request: nothing for the default space, and an error when it does
    not exist *)
Definition find_ns (ns_id : Z) : P (option (option nat)) :=
  s ← prog;
  if ns_id =? resspc_conn_id (default_space (fs_gen s)) then mret (Some None)
  else
    ns ← resource_registry_get_by_id ns_p ns_id;
    mret (match ns with Some a => Some (Some a) | None => None end).
(** the path in the whole file system *)
Definition ns_path (ns : option nat) (path : list Z) : P (list Z) :=
  match ns with
  | None => mret path
  | Some a => n ← node_load ns_p a; mret (apply_prefix (ns_prefix (payload n)) path)
  end.
Definition ns_conn (ns : option nat) : P resspc_conn_t :=
  match ns with
  | None => s ← prog; mret (default_space (fs_gen s))
  | Some a => n ← node_load ns_p a; mret (res_space_conn (payload n))
  end.

(** *** Requests *)
Abbreviation create_resource := (resource_server_create_resource N fs_gen).
Definition fs_answer (error : Z) : P FsReturnMessage := mret (FsReply error FsBasicReturn).

Definition handle_ns (client_id : Z) : P FsReturnMessage :=
  r ← resource_server_new_res_space N fs_gen set_fs_gen client_id;
  let '(error, conn) := r : Z * option resspc_conn_t in
  if negb (error =? 0) then fs_answer FsError_UNKNOWN else
  conn ← deref_conn conn;
  s ← prog;
  _ ← resspc_client_map_space N conn (resspc_conn_id (default_space (fs_gen s)));
  a ← fs_malloc;
  match a with
  | None => fs_answer FsError_UNKNOWN
  | Some a =>
      let prefix := make_ns_prefix (resspc_conn_id conn) in
      resource_registry_insert ns_p (Node a (resspc_conn_id conn) 0 (FsNamespace conn prefix)) ;;
      error ← on_fs (xv6fs_sys_mkdir prefix);
      if negb (error =? 0) then fs_answer FsError_UNKNOWN
      else mret (FsReply 0 (FsNsReturn (resspc_conn_id conn)))
  end.

(** the open file for the registry: the file, or an error *)
Definition register_file (f : nat) : P (option nat) :=
  fl ← on_fs (file_load f);
  reg_entry ← resource_registry_get_by_id files_p (f_id fl);
  match reg_entry with
  | None =>
      a ← fs_malloc;
      match a with
      | None => mret None
      | Some a => resource_registry_insert files_p (Node a (f_id fl) 0 f) ;; mret (Some f)
      end
  | Some a =>
      resource_registry_inc files_p a ;;
      _ ← on_fs (xv6fs_sys_fileclose f);
      n ← node_load files_p a;
      on_fs (filedup (payload n)) ;;
      mret (Some (payload n))
  end.
Definition handle_create (ns_id client_id open_flags : Z) (path : list Z) : P FsReturnMessage :=
  ns ← find_ns ns_id;
  match ns with
  | None => fs_answer FsError_NO_NS
  | Some ns =>
      path ← ns_path ns path;
      file ← on_fs (xv6fs_sys_open malloc_fails path (i32 open_flags));
      match file with
      | None => fs_answer FsError_NO_FILE
      | Some file =>
          file ← register_file file;
          match file with
          | None => fs_answer FsError_UNKNOWN
          | Some file =>
              fl ← on_fs (file_load file);
              error ← create_resource None (f_id fl);
              if negb (error =? 0) then fs_answer error else
              space_conn ← ns_conn ns;
              error ← (match ns with
                       | Some _ => create_resource (Some space_conn) (f_id fl)
                       | None => mret 0
                       end);
              if negb (error =? 0) then fs_answer error else
              r ← resource_server_give_resource N fs_gen (resspc_conn_id space_conn) (f_id fl) client_id;
              let '(error, dest) := r : Z * option Z in
              if negb (error =? 0) then fs_answer error else
              dest ← deref_conn dest;
              mret (FsReply 0 (FsCreateReturn dest))
          end
      end
  end.
Definition handle_link (ns_id : Z) (path : list Z) : P FsReturnMessage :=
  s ← prog;
  m ← syscall (gets received);
  if negb (sel4gpi_rpc_check_cap m (rs_resource_type (fs_gen s))) then fs_answer FsError_BADGE else
  ns ← find_ns ns_id;
  match ns with
  | None => fs_answer FsError_NO_NS
  | Some ns =>
      path ← ns_path ns path;
      reg_entry ← resource_registry_get_by_badge files_p (GetBadge m 0);
      match reg_entry with
      | None => fs_answer FsError_BADGE
      | Some a =>
          n ← node_load files_p a;
          error ← on_fs (xv6fs_sys_dolink2 (payload n) path);
          fs_answer (if error =? 0 then 0 else FsError_UNKNOWN)
      end
  end.
Definition handle_unlink (ns_id : Z) (path : list Z) : P FsReturnMessage :=
  ns ← find_ns ns_id;
  match ns with
  | None => fs_answer FsError_NO_NS
  | Some ns =>
      path ← ns_path ns path;
      r ← on_fs (xv6fs_sys_unlink path true);
      let '(error, out) := r : Z * option (Z * bool) in
      if negb (error =? 0) then fs_answer FsError_UNKNOWN else
      out ← deref out;
      let '(inum, was_last_link) := out : Z * bool in
      error ← (match ns with
               | Some _ => conn ← ns_conn ns; resspc_client_delete_resource N conn inum
               | None => mret 0
               end);
      if negb (error =? 0) then fs_answer FsError_UNKNOWN else
      error ← (if was_last_link then delete_file inum else mret 0);
      fs_answer (if error =? 0 then 0 else FsError_UNKNOWN)
  end.

(** the requests on an open file, the node at [a] *)
Definition store_memory (dst : bytes) : P unit := modify (set_memory dst).
Definition serve_read (a : nat) (cap n offset : Z) : P FsReturnMessage :=
  r ← resource_server_attach_mo N SEL4UTILS_RES_TYPE_GENERIC fs_gen cap;
  let '(error, mo_vaddr) := r : Z * option Z in
  if negb (error =? 0) then fs_answer error else
  mo_vaddr ← deref_conn mo_vaddr;
  node ← node_load files_p a;
  mem ← gets memory;
  r ← on_fs (xv6fs_sys_read (Some (payload node)) mem mo_vaddr (i32 n) (u32 offset));
  let '(n_bytes_ret, mem) := r : Z * bytes in
  store_memory mem ;;
  error ← resource_server_unattach N fs_gen mo_vaddr;
  if negb (error =? 0) then fs_answer error else
  mret (FsReply 0 (FsReadReturn (u32 n_bytes_ret))).
Definition serve_write (a : nat) (cap n offset : Z) : P FsReturnMessage :=
  r ← resource_server_attach_mo N SEL4UTILS_RES_TYPE_GENERIC fs_gen cap;
  let '(error, mo_vaddr) := r : Z * option Z in
  if negb (error =? 0) then fs_answer error else
  mo_vaddr ← deref_conn mo_vaddr;
  node ← node_load files_p a;
  mem ← gets memory;
  n_bytes_ret ← on_fs (xv6fs_sys_write (Some (payload node)) mem mo_vaddr (i32 n) (u32 offset));
  error ← resource_server_unattach N fs_gen mo_vaddr;
  if negb (error =? 0) then fs_answer error else
  mret (FsReply 0 (FsWriteReturn (u32 n_bytes_ret))).
Definition handle_stat (a : nat) (cap : Z) : P FsReturnMessage :=
  r ← resource_server_attach_mo N SEL4UTILS_RES_TYPE_GENERIC fs_gen cap;
  let '(error, mo_vaddr) := r : Z * option Z in
  if negb (error =? 0) then fs_answer error else
  mo_vaddr ← deref_conn mo_vaddr;
  node ← node_load files_p a;
  r ← on_fs (xv6fs_sys_stat (payload node));
  mem ← gets memory;
  store_memory (put_stat (snd r) mem mo_vaddr) ;;
  error ← resource_server_unattach N fs_gen mo_vaddr;
  fs_answer error.
Definition handle_close (a : nat) (ns_id obj_id client_id : Z) : P FsReturnMessage :=
  resource_registry_dec run_fs_cb files_p a ;;
  ns ← find_ns ns_id;
  match ns with
  | None => fs_answer FsError_NO_NS
  | Some ns =>
      conn ← ns_conn ns;
      error ← resspc_client_revoke_resource N conn obj_id client_id;
      fs_answer error
  end.

(** the reply, and whether the receive slot was used *)
Definition xv6fs_request_handler (msg : FsMessage) (sender_badge cap : Z) : P (FsReturnMessage * bool) :=
  let basic (m : P FsReturnMessage) := reply ← m; mret (reply, false) in
  let with_cap (m : P FsReturnMessage) := reply ← m; mret (reply, true) in
  if negb (fs_magic msg =? FS_RPC_MAGIC) then basic (fs_answer FsError_UNKNOWN) else
  let client_id := get_client_id_from_badge sender_badge in
  let obj_id := get_object_id_from_badge sender_badge in
  let ns_id := get_space_id_from_badge sender_badge in
  let cap_type := get_cap_type_from_badge sender_badge in
  if sender_badge =? 0 then basic (fs_answer FsError_UNKNOWN) else
  s ← prog;
  if negb (cap_type =? rs_resource_type (fs_gen s)) then basic (fs_answer FsError_UNKNOWN) else
  if obj_id =? BADGE_OBJ_ID_NULL then
    match fs_msg msg with
    | FsNs => basic (handle_ns client_id)
    | FsCreate flags path => basic (handle_create ns_id client_id flags path)
    | FsLink path => basic (handle_link ns_id path)
    | FsUnlink path => basic (handle_unlink ns_id path)
    | FsDeleteNs => basic (error ← destroy_ns ns_id true; fs_answer (if error =? 0 then 0 else FsError_UNKNOWN))
    | _ => basic (fs_answer 0)
    end
  else
    reg_entry ← resource_registry_get_by_badge files_p sender_badge;
    match reg_entry with
    | None => basic (fs_answer FsError_BADGE)
    | Some a =>
        match fs_msg msg with
        | FsRead n offset => with_cap (serve_read a cap n offset)
        | FsWrite n offset => with_cap (serve_write a cap n offset)
        | FsClose => basic (handle_close a ns_id obj_id client_id)
        | FsStat => with_cap (handle_stat a cap)
        | _ => basic (fs_answer FsError_UNKNOWN)
        end
    end.

(** *** Extraction: the graph of the files, in the memory of the model state *)
Abbreviation G := (M (process K xv6fs_server_context_t * model_state_t)).
(** the memory of the model state is its own; calloc is not used *)
Definition no_calloc : P bool := mret false.
Definition ms_add_edge (type : Z) (from to : nat) : G unit :=
  ModelExport.add_edge no_calloc sizeof_component type from to.
Definition ms_add_edge_by_id (type : Z) (from to : list Z) : G unit :=
  ModelExport.add_edge_by_id no_calloc sizeof_component type from to.
Definition ms_add_resource_node (res_id : gpi_res_id_t) : G nat :=
  ModelExport.add_resource_node no_calloc sel4gpi_get_resource_type_name sizeof_component res_id true.
Definition ms_node_id (a : nat) : G (list Z) := n ← mnode_load a; read_str (nd_id n).

(** the size of the array of inodes *)
Definition MAX_INUMS : nat := 16.

(** the edges from a file to its blocks *)
Definition extract_blocks (file_node : nat) (block_cap_type block_space_id : Z) (blocknos : list Z) : G unit :=
  for_each blocknos (fun blockno =>
    conn ← ModelExport.host (block_conn blockno);
    block_id ← ModelExport.get_resource_id sel4gpi_get_resource_type_name
                 (ResId block_cap_type block_space_id (rd_res_id conn));
    id ← ms_node_id file_node;
    ms_add_edge_by_id GPI_EDGE_TYPE_MAP id block_id).

(** a file that was found, in the space [space_id]; the error code and what is left of the
    buffer for block numbers, whose size is that of the file before *)
Definition extract_file (space_id : Z) (fs_pd client_pd file_space file_ns_space : list Z)
    (block_cap_type block_space_id n_blocknos inum : Z) : G (Z * Z) :=
  s ← ModelExport.host prog;
  let type := rs_resource_type (fs_gen s) in
  let default_id := resspc_conn_id (default_space (fs_gen s)) in
  file_node ← ms_add_resource_node (ResId type default_id inum);
  id ← ms_node_id file_node;
  ms_add_edge_by_id GPI_EDGE_TYPE_SUBSET id file_space ;;
  ms_add_edge_by_id GPI_EDGE_TYPE_HOLD fs_pd id ;;
  (if negb (space_id =? default_id) then
     file_ns_node ← ms_add_resource_node (ResId type space_id inum);
     ns_id ← ms_node_id file_ns_node;
     ms_add_edge_by_id GPI_EDGE_TYPE_SUBSET ns_id file_ns_space ;;
     ms_add_edge GPI_EDGE_TYPE_MAP file_ns_node file_node ;;
     ms_add_edge_by_id GPI_EDGE_TYPE_HOLD fs_pd ns_id ;;
     ms_add_edge_by_id GPI_EDGE_TYPE_HOLD client_pd ns_id
   else ms_add_edge_by_id GPI_EDGE_TYPE_HOLD client_pd id) ;;
  r ← ModelExport.host (on_fs (xv6fs_sys_inode_blocknos (i32 inum) n_blocknos));
  let '(error, blocknos) := r : Z * list Z in
  if negb (error =? 0) then mret (FsError_UNKNOWN, Z.of_nat (length blocknos))
  else extract_blocks file_node block_cap_type block_space_id blocknos ;; mret (0, Z.of_nat (length blocknos)).
Fixpoint extract_files (space_id : Z) (fs_pd client_pd file_space file_ns_space : list Z)
    (block_cap_type block_space_id n_blocknos : Z) (inums : list Z) : G Z :=
  match inums with
  | [] => mret 0
  | inum :: inums =>
      r ← extract_file space_id fs_pd client_pd file_space file_ns_space block_cap_type block_space_id n_blocknos inum;
      let '(error, n) := r : Z * Z in
      if negb (error =? 0) then mret error
      else extract_files space_id fs_pd client_pd file_space file_ns_space block_cap_type block_space_id n inums
  end.

(** one item of the work *)
Definition extract_item (item : Z * Z * Z) : G Z :=
  let '(space_id, fileno, client_pd_id) := item in
  if negb (fileno =? BADGE_OBJ_ID_NULL) then mret 0
  else
    ns ← ModelExport.host (find_ns space_id);
    match ns with
    | None => mret FsError_NO_NS
    | Some ns =>
        path ← ModelExport.host (ns_path ns ROOT_DIR);
        r ← ModelExport.host (on_fs (xv6fs_sys_walk MAX_INUMS path));
        let '(error, inums) := r : Z * list Z in
        if negb (error =? 0) then mret FsError_UNKNOWN else
        pd ← ModelExport.host sel4gpi_get_pd_conn;
        s ← ModelExport.host prog;
        let type := rs_resource_type (fs_gen s) in
        file_space ← ModelExport.get_resource_space_id sel4gpi_get_resource_type_name type
                       (resspc_conn_id (default_space (fs_gen s)));
        file_ns_space ← ModelExport.get_resource_space_id sel4gpi_get_resource_type_name type space_id;
        block_cap_type ← ModelExport.host (sel4gpi_get_resource_type_code BLOCK_RESOURCE_TYPE_NAME);
        block0 ← ModelExport.host (block_conn 0);
        blocknos ← ModelExport.host fs_malloc;
        when (bool_decide (blocknos = None /\ inums <> [])) (crash NullDeref) ;;
        extract_files space_id (get_pd_id (conn_id pd)) (get_pd_id client_pd_id) file_space file_ns_space
          block_cap_type (rd_space_id block0) 100 inums
    end.
Fixpoint extract_items (items : list (Z * Z * Z)) : G Z :=
  match items with
  | [] => mret 0
  | item :: items => error ← extract_item item; if error =? 0 then extract_items items else mret error
  end.

Definition on_model_state {B} (ms : model_state_t) (m : G B) : P (B * model_state_t) := fun p =>
  match m (p, ms) with
  | (Ok b, (p', ms')) => (Ok (b, ms'), p')
  | (Crash f, (p', _)) => (Crash f, p')
  | (NoFuel, (p', _)) => (NoFuel, p')
  end.

Definition handle_extract (items : list (Z * Z * Z)) : P Z :=
  r ← resource_server_extraction_setup N SEL4UTILS_RES_TYPE_GENERIC fs_gen sizeof_model_state 4;
  let '(error, mo, ms) := r : Z * option conn_t * option (Z * model_state_t) in
  if negb (error =? 0) then mret FsError_UNKNOWN else
  ms ← deref ms;
  r ← on_model_state (snd ms) (extract_items items);
  let '(error, ms') := r : Z * model_state_t in
  if negb (error =? 0) then mret error else
  mo ← deref mo;
  r ← resource_server_extraction_finish N fs_gen mo (fst ms, ms') (Z.of_nat (length items));
  mret (if fst r =? 0 then 0 else FsError_UNKNOWN).

(** *** Other work *)

(** the open file of an item, if there is one *)
Definition work_file (item : Z * Z * Z) : P (option nat) :=
  let '(_, file_id, _) := item in resource_registry_get_by_id files_p file_id.

Definition free_file (item : Z * Z * Z) : P unit :=
  a ← work_file item;
  match a with
  | None => mret tt
  | Some a => resource_registry_dec run_fs_cb files_p a
  end.

(** freeing the blocks of the disk; the error ends it when the disk can still be used *)
Fixpoint free_blocks_loop (blocks : list ramdisk_client_context_t) : P Z :=
  match blocks with
  | [] => mret 0
  | conn :: blocks =>
      error ← ramdisk_client_free_block rd_encode rd_decode conn;
      if error =? 0 then free_blocks_loop blocks
      else
        ok ← sel4gpi_can_request_type BLOCK_RESOURCE_TYPE_NAME;
        mret (if ok : bool then FsError_UNKNOWN else 0)
  end.
Definition destroy_item (item : Z * Z * Z) : P Z :=
  let '(space_id, file_id, _) := item in
  if negb (file_id =? BADGE_OBJ_ID_NULL) then
    a ← work_file item;
    match a with
    | None => mret 0
    | Some a => resource_registry_delete run_fs_cb files_p a ;; mret 0
    end
  else
    s ← prog;
    if space_id =? resspc_conn_id (default_space (fs_gen s)) then
      ok ← sel4gpi_can_request_type BLOCK_RESOURCE_TYPE_NAME;
      if ok : bool then free_blocks_loop (fs_blocks s) else mret 0
    else
      error ← destroy_ns space_id false;
      mret (if error =? 0 then 0 else FsError_UNKNOWN).
Fixpoint destroy_items (items : list (Z * Z * Z)) : P Z :=
  match items with
  | [] => mret 0
  | item :: items => error ← destroy_item item; if error =? 0 then destroy_items items else mret error
  end.
Fixpoint send_loop (items : list (Z * Z * Z)) : P Z :=
  match items with
  | [] => mret 0
  | item :: items =>
      a ← work_file item;
      match a with
      | None => mret FsError_UNKNOWN
      | Some a => resource_registry_inc files_p a ;; send_loop items
      end
  end.

Definition xv6fs_work_handler (work : work_t) : P Z :=
  s ← prog;
  let finish := pd_client_finish_work N (rs_pd_conn (fs_gen s)) work in
  if (work_action work =? PdWorkAction_EXTRACT)%nat then handle_extract (work_items work)
  else if (work_action work =? PdWorkAction_FREE)%nat then for_each (work_items work) free_file ;; finish
  else if (work_action work =? PdWorkAction_DESTROY)%nat then
    error ← destroy_items (work_items work);
    if error =? 0 then finish else mret error
  else if (work_action work =? PdWorkAction_SEND)%nat then
    error ← send_loop (work_items work);
    if error =? 0 then finish else mret error
  else mret 1.

(** ** main.c: the arguments are the endpoint and the identifier of the parent *)
Context (fs_decode : list Z -> option FsMessage) (fs_encode : FsReturnMessage -> option (list Z)).
Definition fs_main (args : list Z) (n fuel : nat) : P Z :=
  type ← sel4gpi_get_resource_type_code BLOCK_RESOURCE_TYPE_NAME;
  ramdisk_ep ← sel4gpi_get_rde type;
  match args with
  | [parent_ep; parent_pd_id] =>
      prog_modify (set_fs_rd_ep ramdisk_ep) ;;
      resource_server_start N fs_gen set_fs_gen fs_decode fs_encode (Some xv6fs_init) xv6fs_request_handler
        xv6fs_work_handler FILE_RESOURCE_TYPE_NAME parent_ep parent_pd_id n fuel
  | _ => crash AssertFail
  end.
End FsServer.
