(* ===== verification/FsClient.v ===== *)
(** * The client of the file server

    Model of [apps/xv6fs/src/fs_client/fs_client.c]: the functions that the C library of a
    PD calls for files.  The client keeps a table of open files and a page that it shares
    with the server, through which data go; offsets into files are kept here.

    The page is changed by the server, so it is part of the state outside of the process
    ([shared_page]); other buffers are in the memory of the process. *)

From stdpp Require Import base numbers list gmap strings.
From S2P Require Import Prelude Strings Badge Registry State ResourceTypes ModelExport Component PdResources Resspc Mo Ads AdsRequests Elf Cpu PdObj PdComponent Ep Server Client PdUtils ResourceServer Ramdisk Xv6Bio Xv6Fs Xv6Sys FsServer.

Definition FD_TABLE_SIZE : nat := 32.
Definition DEV_NULL_PATH : list Z := chars "/dev/null".
(** errno.h and fcntl.h *)
Definition EINVAL : Z := 22.
Definition AT_FDCWD : Z := -100.
Definition AT_SYMLINK_NOFOLLOW : Z := 256.
Definition R_OK : Z := 4.
Definition W_OK : Z := 2.
Definition F_GETFL : Z := 3.

(** xv6fs_client_context_t *)
Record fd_t := Fd { fd_ep : Z; fd_offset : Z; fd_flags : Z }.
Definition xv6fs_null_client_context : fd_t := Fd 0 0 0.

(** global_xv6fs_client_context_t, less the allocator, with the table of open files *)
Record fs_client_t := FsClientState {
  file_cap_type : Z;
  c_space_id : Z;
  c_server_ep : Z;
  c_shared_mem : option conn_t;
  c_shared_mem_vaddr : Z;
  fd_table : list fd_t;
  dev_null_fd : Z;
  c_mallocs : nat
}.
Definition set_fd_table (v : list fd_t) (c : fs_client_t) : fs_client_t :=
  FsClientState (file_cap_type c) (c_space_id c) (c_server_ep c) (c_shared_mem c) (c_shared_mem_vaddr c) v
    (dev_null_fd c) (c_mallocs c).
Definition set_c_namespace (id ep : Z) (c : fs_client_t) : fs_client_t :=
  FsClientState (file_cap_type c) id ep (c_shared_mem c) (c_shared_mem_vaddr c) (fd_table c) (dev_null_fd c) (c_mallocs c).
Definition set_file_cap_type (v : Z) (c : fs_client_t) : fs_client_t :=
  FsClientState v (c_space_id c) (c_server_ep c) (c_shared_mem c) (c_shared_mem_vaddr c) (fd_table c) (dev_null_fd c)
    (c_mallocs c).
Definition set_c_shared (mo : option conn_t) (vaddr : Z) (c : fs_client_t) : fs_client_t :=
  FsClientState (file_cap_type c) (c_space_id c) (c_server_ep c) mo vaddr (fd_table c) (dev_null_fd c) (c_mallocs c).
Definition set_c_mallocs (v : nat) (c : fs_client_t) : fs_client_t :=
  FsClientState (file_cap_type c) (c_space_id c) (c_server_ep c) (c_shared_mem c) (c_shared_mem_vaddr c) (fd_table c)
    (dev_null_fd c) v.

Section FsClient.
Context {K : Type} `{!Kernel K} (N : nanopb) (SEL4UTILS_RES_TYPE_SHARED_FRAMES : Z).
(** nanopb, for the messages of the file server; the shared page; the allocator; and the
    size of struct stat *)
Context (fs_encode : FsMessage -> option (list Z)) (fs_decode : list Z -> option FsReturnMessage).
Context (shared_page : K -> bytes) (set_shared_page : bytes -> K -> K).
Context (malloc_fails : nat -> bool) (sizeof_stat : Z).
Abbreviation P := (M (process K fs_client_t)).

(** ** The table of open files *)
Definition fd_init : P unit :=
  prog_modify (fun c => FsClientState (file_cap_type c) (c_space_id c) (c_server_ep c) (c_shared_mem c)
    (c_shared_mem_vaddr c) (repeat xv6fs_null_client_context FD_TABLE_SIZE) 4 (c_mallocs c)).

Definition fd_free (table : list fd_t) (i : nat) : bool :=
  match table !! i with Some f => fd_ep f =? 0 | None => false end.
(** the flags stay *)
Definition fd_bind (file_cap : Z) : P Z :=
  c ← prog;
  match List.find (fd_free (fd_table c)) (seq 5 (FD_TABLE_SIZE - 5)) with
  | Some i =>
      prog_modify (fun c => set_fd_table (alter (fun f => Fd file_cap 0 (fd_flags f)) i (fd_table c)) c) ;;
      mret (Z.of_nat i)
  | None => mret (-1)
  end.

Definition fd_valid (fd : Z) : bool := (0 <=? fd) && (fd <? Z.of_nat FD_TABLE_SIZE).
Definition fd_get (fd : Z) : P (option nat) :=
  c ← prog;
  mret (if fd_valid fd && negb (fd_free (fd_table c) (Z.to_nat fd)) then Some (Z.to_nat fd) else None).
Definition fd_close (fd : Z) : P unit :=
  when (fd_valid fd)
    (prog_modify (fun c => set_fd_table (<[Z.to_nat fd := xv6fs_null_client_context]> (fd_table c)) c)).

(** the file that fd_get found *)
Definition fd_load (i : nat) : P fd_t :=
  c ← prog;
  match fd_table c !! i with Some f => mret f | None => crash OutOfBounds end.
Definition fd_modify (i : nat) (g : fd_t -> fd_t) : P unit :=
  prog_modify (fun c => set_fd_table (alter g i (fd_table c)) c).
Definition fd_seek (i : nat) (offset : Z) : P unit := fd_modify i (fun f => Fd (fd_ep f) offset (fd_flags f)).

(** ** Requests *)

(** the error of the call, and the reply; the one that is zeroed has no error *)
Definition fs_call (ep : Z) (msg : FsRequest) (caps : list Z) : P (Z * FsReturnMessage) :=
  r ← sel4gpi_rpc_call fs_encode fs_decode ep (FsMsg FS_RPC_MAGIC msg) caps;
  let '(error, reply) := r : Z * option FsReturnMessage in
  mret (error, default (FsReply 0 FsBasicReturn) reply).
Definition fs_failed (error : Z) (reply : FsReturnMessage) : bool :=
  negb (error =? 0) || negb (fs_errorCode reply =? 0).
(** members of the union of the reply, which has no other members with content *)
Definition create_slot (reply : FsReturnMessage) : P Z :=
  match fs_ret reply with FsCreateReturn slot => mret slot | FsBasicReturn => mret 0 | _ => crash OtherMember end.
Definition ret_n (reply : FsReturnMessage) : P Z :=
  match fs_ret reply with
  | FsReadReturn n | FsWriteReturn n => mret n
  | FsBasicReturn => mret 0
  | _ => crash OtherMember
  end.

Definition shared_mem_ep : P Z := c ← prog; mo ← deref (c_shared_mem c); mret (conn_ep mo).
(** memcpy to and from the page.  [size] is the size of the buffer at [buf]: copying more
    writes over what the process has after it, the table of open files included, and from
    there on nothing is known of it *)
Definition copy_from_page (buf size n : Z) : P unit :=
  if size <? n then crash OutOfBounds else
  page ← syscall (gets shared_page);
  modify (fun p => set_memory (blit (memory p) buf page 0 n) p).
Definition copy_to_page (buf n : Z) : P unit :=
  mem ← gets memory;
  syscall (modify (fun k => set_shared_page (blit (shared_page k) 0 mem buf n) k)).
Definition put_page (l : list Z) : P unit :=
  syscall (modify (fun k => set_shared_page (blit (shared_page k) 0 (of_list l) 0 (Z.of_nat (length l))) k)).

(** strncpy into an array that has a zero after it *)
Definition message_path (pathname : list Z) : list Z := take MAXPATH pathname.

Definition xv6fs_client_set_namespace (ns_id : Z) : P Z :=
  c ← prog;
  server_ep ← sel4gpi_get_rde_by_space_id ns_id (file_cap_type c);
  prog_modify (set_c_namespace ns_id server_ep) ;;
  mret 0.

(** the result, and [*file_ep] *)
Definition xv6fs_client_get_file (fd : Z) : P (Z * option Z) :=
  file ← fd_get fd;
  match file with
  | None => mret (-1, None)
  | Some i => f ← fd_load i; mret (0, Some (fd_ep f))
  end.

Definition xv6fs_client_link_file (file : Z) (pathname : list Z) : P Z :=
  assert_ (length pathname <=? MAXPATH)%nat ;;
  c ← prog;
  r ← fs_call (c_server_ep c) (FsLink (message_path pathname)) [file];
  mret (Z.b2z (fs_failed (fst r) (snd r))).

Definition xv6fs_libc_open (pathname : list Z) (flags modes : Z) : P Z :=
  assert_ (length pathname <=? MAXPATH)%nat ;;
  c ← prog;
  if bool_decide (pathname = DEV_NULL_PATH) then mret (dev_null_fd c)
  else
    r ← fs_call (c_server_ep c) (FsCreate (u64 flags) (message_path pathname)) [];
    if fs_failed (fst r) (snd r) then mret (-1)
    else dest ← create_slot (snd r); fd_bind dest.

(** the number of bytes that the server answers is not compared with [count], the size
    of the buffer of the caller *)
Definition xv6fs_libc_pread (fd buf count offset : Z) : P Z :=
  if RAMDISK_BLOCK_SIZE <? u32 count then mret (-1)
  else
    c ← prog;
    if fd =? dev_null_fd c then mret (-1)
    else
      file ← fd_get fd;
      match file with
      | None => mret (-1)
      | Some i =>
          ep ← shared_mem_ep;
          f ← fd_load i;
          r ← fs_call (fd_ep f) (FsRead (u32 count) (u32 offset)) [ep];
          if fs_failed (fst r) (snd r) then mret (-1)
          else
            n ← ret_n (snd r);
            let bytes_read := i32 n in
            when (0 <? bytes_read) (copy_from_page buf (u32 count) bytes_read) ;;
            mret bytes_read
      end.
Definition xv6fs_libc_read (fd buf count : Z) : P Z :=
  file ← fd_get fd;
  match file with
  | None => mret (-1)
  | Some i =>
      f ← fd_load i;
      bytes_read ← xv6fs_libc_pread fd buf count (i32 (fd_offset f));
      when (0 <? bytes_read) (fd_modify i (fun f => Fd (fd_ep f) (u64 (fd_offset f + bytes_read)) (fd_flags f))) ;;
      mret bytes_read
  end.

Definition xv6fs_libc_write (fd buf count : Z) : P Z :=
  c ← prog;
  if fd =? dev_null_fd c then mret 0
  else if RAMDISK_BLOCK_SIZE <? u32 count then mret (-1)
  else
    file ← fd_get fd;
    match file with
    | None => mret (-1)
    | Some i =>
        when (0 <? count) (copy_to_page buf count) ;;
        ep ← shared_mem_ep;
        f ← fd_load i;
        r ← fs_call (fd_ep f) (FsWrite (u32 count) (u32 (fd_offset f))) [ep];
        if fs_failed (fst r) (snd r) then mret (-1)
        else
          n ← ret_n (snd r);
          let bytes_written := i32 n in
          when (0 <? bytes_written)
            (fd_modify i (fun f => Fd (fd_ep f) (u64 (fd_offset f + bytes_written)) (fd_flags f))) ;;
          mret bytes_written
    end.

Definition xv6fs_libc_close (fd : Z) : P Z :=
  c ← prog;
  if fd =? dev_null_fd c then mret 0
  else
    file ← fd_get fd;
    match file with
    | None => mret (-1)
    | Some i =>
        f ← fd_load i;
        r ← fs_call (fd_ep f) FsClose [];
        if fs_failed (fst r) (snd r) then mret (-1)
        else fd_close fd ;; mret (fst r)
    end.

Definition xv6fs_libc_lseek (fd offset : Z) (whence : whence_t) : P Z :=
  file ← fd_get fd;
  match file with
  | None => mret (-1)
  | Some i =>
      f ← fd_load i;
      match whence with
      | SEEK_SET => fd_seek i (u64 offset) ;; mret (i32 offset)
      | SEEK_CUR => fd_seek i (u64 (fd_offset f + offset)) ;; mret (i32 (fd_offset f + offset))
      | SEEK_END | SEEK_OTHER => mret (-1)
      end
  end.

(** strncpy of the name of the root; the result is the buffer *)
Definition xv6fs_libc_getcwd (buf size : Z) : P Z :=
  modify (fun p => set_memory (blit (memory p) buf (of_list (strncpy ROOT_DIR (Z.to_nat size))) 0 size) p) ;;
  mret buf.

Definition xv6fs_libc_fstat (fd buf : Z) : P Z :=
  file ← fd_get fd;
  match file with
  | None => mret (-1)
  | Some i =>
      ep ← shared_mem_ep;
      f ← fd_load i;
      r ← fs_call (fd_ep f) FsStat [ep];
      if fs_failed (fst r) (snd r) then mret (-1)
      else copy_from_page buf sizeof_stat sizeof_stat ;; mret 0
  end.
Definition xv6fs_libc_stat (pathname : list Z) (buf : Z) : P Z :=
  fd ← xv6fs_libc_open pathname O_RDWR 0;
  if fd =? -1 then mret (- ENOENT)
  else
    error ← xv6fs_libc_fstat fd buf;
    _ ← xv6fs_libc_close fd;
    mret error.

(** the result is always 0; F_GETLK stores F_UNLCK at [arg], which is returned *)
Definition xv6fs_libc_fcntl (fd cmd arg : Z) : P (Z * option Z) :=
  file ← fd_get fd;
  match file with
  | None => mret (-1, None)
  | Some i =>
      if cmd =? F_SETFL then
        let flags_mask := Z.lor O_APPEND (Z.lor O_ASYNC O_NONBLOCK) in
        fd_modify i (fun f => Fd (fd_ep f) (fd_offset f)
          (Z.lor (Z.land (fd_flags f) (u64 (Z.lnot flags_mask))) (Z.land arg flags_mask))) ;;
        mret (0, None)
      else if cmd =? F_GETLK then mret (0, Some F_UNLCK)
      else mret (0, None)
  end.

Definition xv6fs_libc_unlink (pathname : list Z) : P Z :=
  assert_ (length pathname <=? MAXPATH)%nat ;;
  put_page (pathname ++ [0]) ;;
  c ← prog;
  r ← fs_call (c_server_ep c) (FsUnlink (message_path pathname)) [];
  mret (if fs_failed (fst r) (snd r) then -1 else 0).

(** the file is closed twice *)
Definition xv6fs_libc_access (pathname : list Z) (amode : Z) : P Z :=
  let flags := if has_flag amode R_OK && has_flag amode W_OK then O_RDWR else O_RDONLY in
  fd ← xv6fs_libc_open pathname flags 0;
  _ ← xv6fs_libc_close fd;
  (if negb (fd =? -1) then _ ← xv6fs_libc_close fd; mret tt else mret tt) ;;
  mret (Z.b2z (negb (fd =? -1))).
Definition xv6fs_libc_faccessat (dirfd : Z) (filename : list Z) (amode flags : Z) : P Z :=
  if negb (dirfd =? AT_FDCWD) then mret (- EINVAL)
  else if negb (flags =? 0) && negb (flags =? AT_SYMLINK_NOFOLLOW) then mret (- EINVAL)
  else xv6fs_libc_access filename amode.

(** nothing is done *)
Definition xv6fs_libc_fsync (fd : Z) : P Z := mret 0.
Definition xv6fs_libc_fchmod (fd mode : Z) : P Z := mret 0.
Definition xv6fs_libc_chown (path : list Z) (uid gid : Z) : P Z := mret 0.
Definition xv6fs_libc_geteuid : P Z := mret 1.

(** the error, and [*ns_id] *)
Definition xv6fs_client_new_ns : P (Z * option Z) :=
  c ← prog;
  r ← fs_call (c_server_ep c) FsNs [];
  let error := Z.lor (fst r) (fs_errorCode (snd r)) in
  if error =? 0 then
    match fs_ret (snd r) with
    | FsNsReturn id => mret (0, Some id)
    | FsBasicReturn => mret (0, Some 0)
    | _ => crash OtherMember
    end
  else mret (error, None).
Definition xv6fs_client_delete_ns (ns_ep : Z) : P Z :=
  r ← fs_call ns_ep FsDeleteNs []; mret (Z.lor (fst r) (fs_errorCode (snd r))).

(** ** Entry points of the C library
    The others pass their arguments on. *)
Definition xv6fs_muslcsys_openat (dirfd : Z) (pathname : list Z) (flags mode : Z) : P Z :=
  if negb (dirfd =? AT_FDCWD) then mret (- EINVAL) else xv6fs_libc_open pathname flags mode.
Definition xv6fs_muslcsys_fstatat (dirfd : Z) (path : list Z) (buf flags : Z) : P Z :=
  if negb (dirfd =? AT_FDCWD) then mret (- EINVAL)
  else if negb (flags =? 0) && negb (flags =? AT_SYMLINK_NOFOLLOW) then mret (- EINVAL)
  else xv6fs_libc_stat path buf.
Definition xv6fs_muslcsys_getcwd (buf size : Z) : P Z :=
  r ← xv6fs_libc_getcwd buf size; mret (Z.b2z (negb (r =? 0))).
Definition xv6fs_muslcsys_unlinkat (dirfd : Z) (path : list Z) (flags : Z) : P Z :=
  if negb (dirfd =? AT_FDCWD) then mret (- EINVAL)
  else if negb (flags =? 0) then mret (- EINVAL)
  else xv6fs_libc_unlink path.

(** installing the entry points is not modelled *)
Definition xv6fs_client_init : P Z :=
  c ← prog;
  if negb (c_shared_mem_vaddr c =? 0) then mret 0
  else
    type ← sel4gpi_get_resource_type_code FILE_RESOURCE_TYPE_NAME;
    prog_modify (set_file_cap_type type) ;;
    _ ← xv6fs_client_set_namespace BADGE_SPACE_ID_NULL;
    c ← prog;
    prog_modify (set_c_mallocs (S (c_mallocs c))) ;;
    mo_rde ← sel4gpi_get_rde GPICAP_TYPE_MO;
    r ← mo_component_client_connect N mo_rde 1 MO_PAGE_BITS;
    let '(error, conn) := r : Z * option conn_t in
    if negb (error =? 0) then mret error else
    when (malloc_fails (c_mallocs c)) (crash NullDeref) ;;
    conn ← deref_conn conn;
    prog_modify (set_c_shared (Some conn) 0) ;;
    vmr_rde ← sel4gpi_get_bound_vmr_rde;
    r ← vmr_client_attach_no_reserve N vmr_rde 0 conn SEL4UTILS_RES_TYPE_SHARED_FRAMES;
    let '(error, vaddr) := r : Z * option Z in
    if negb (error =? 0) then mret error else
    vaddr ← deref_conn vaddr;
    prog_modify (set_c_shared (Some conn) vaddr) ;;
    fd_init ;;
    mret 0.
End FsClient.
