(* ===== verification/FdTable.v ===== *)
(** * The table of open files of a client of the file server

    Every function of the client that returns keeps the table well formed, whatever the
    server answers: it has 32 entries, the first five are never given to a file, so the descriptor of
    /dev/null is not one of a file, and offsets fit in a machine word.  Seen from outside
    the table is a finite map from descriptors to files, [fd_file].  A function does not
    return when the server claims to have read more than was asked for: the client then
    writes over the end of the buffer of its caller ([pread_overrun]). *)

From stdpp Require Import base numbers list gmap strings.
From S2P Require Import Prelude Strings State Component Client PdUtils Ramdisk Xv6Bio Xv6Fs Xv6Sys FsServer FsClient.

(** ** Well-formed tables *)

Definition fd_ok (f : fd_t) : Prop := 0 <= fd_offset f < 2 ^ 64.
Record fds_ok (c : fs_client_t) : Prop := {
  fds_length : length (fd_table c) = FD_TABLE_SIZE;
  fds_null : dev_null_fd c = 4;
  fds_standard : forall i, (i < 5)%nat -> fd_free (fd_table c) i = true;
  fds_offsets : Forall fd_ok (fd_table c)
}.

Lemma fd_free_alter g table i j : (i = j -> fd_free table i = true ->
    fd_ep (g (default xv6fs_null_client_context (table !! i))) = 0) ->
  fd_free table j = true -> fd_free (alter g i table) j = true.
Proof.
  intros Hg Hj. destruct (decide (i = j)) as [<-|Hne].
  - unfold fd_free in *. rewrite list_lookup_alter_eq. destruct (table !! i) as [f|] eqn:E; [|done].
    apply Z.eqb_eq. by apply Hg.
  - unfold fd_free in *. by rewrite list_lookup_alter_ne.
Qed.

(** an entry is changed to one that is in order, and a free one among the first stays free *)
Lemma fds_ok_alter g i c : fds_ok c -> (forall f, fd_ok f -> fd_ok (g f)) ->
  ((i < 5)%nat -> forall f, fd_ep f = 0 -> fd_ep (g f) = 0) -> fds_ok (set_fd_table (alter g i (fd_table c)) c).
Proof.
  intros [Hl Hn Hs Ho] Hg Hfree. split; simpl; [by rewrite length_alter|done|..].
  - intros j Hj. apply fd_free_alter; [|by apply Hs]. intros -> Hi. apply Hfree; [done|].
    unfold fd_free in Hi. destruct (fd_table c !! j); [|done]. by apply Z.eqb_eq.
  - apply Forall_alter; [done|]. intros f _. apply Hg.
Qed.
Lemma fds_ok_free i c : fds_ok c -> fds_ok (set_fd_table (<[i := xv6fs_null_client_context]> (fd_table c)) c).
Proof.
  intros [Hl Hn Hs Ho]. split; simpl; [by rewrite length_insert|done|..].
  - intros j Hj. specialize (Hs j Hj). unfold fd_free in *. destruct (decide (i = j)) as [<-|Hne].
    + destruct (fd_table c !! i) eqn:E; [|done]. rewrite list_lookup_insert_eq; [done|]. by eapply lookup_lt_Some.
    + by rewrite list_lookup_insert_ne.
  - apply Forall_insert; [done|]. by split.
Qed.

Section FdTable.
Context {K : Type} `{!Kernel K} (fs_encode : FsMessage -> option (list Z)) (fs_decode : list Z -> option FsReturnMessage).
Context (shared_page : K -> bytes) (set_shared_page : bytes -> K -> K) (sizeof_stat : Z).
Abbreviation P := (M (process K fs_client_t)).
Definition table_ok (p : process K fs_client_t) : Prop := fds_ok (program p).

Lemma keeps_syscall {B} (m : M K B) : preserves table_ok (syscall m).
Proof. intros p Hp. unfold syscall. by destruct (m (kernel p)). Qed.
Lemma keeps_call ep msg caps : preserves table_ok (fs_call fs_encode fs_decode ep msg caps).
Proof. unfold fs_call, sel4gpi_rpc_call. pose proof (@keeps_syscall). pres. Qed.
Lemma keeps_memory g : preserves table_ok (modify (fun p => set_memory (g p) p)).
Proof. by intros p Hp. Qed.
Lemma keeps_prog : preserves table_ok prog.
Proof. apply preserves_gets. Qed.
Hint Resolve keeps_syscall keeps_call keeps_memory keeps_prog : gpi.
Lemma keeps_get fd : preserves table_ok (fd_get fd).
Proof. unfold fd_get. pres. Qed.
Lemma keeps_bind_fd file_cap : preserves table_ok (fd_bind file_cap).
Proof.
  unfold fd_bind. apply preserves_bind; [by intros p|]. intros c.
  destruct (List.find _ _) as [i|] eqn:E; [|apply preserves_ret].
  apply preserves_bind; [|intros _; apply preserves_ret]. apply preserves_modify. intros p Hp. apply fds_ok_alter;
      [done|by intros|].
  intros Hi. apply find_some in E as [Hin%list_elem_of_In _]. apply elem_of_seq in Hin. lia.
Qed.
Lemma keeps_close fd : preserves table_ok (fd_close fd).
Proof. unfold fd_close. apply preserves_when, preserves_modify. intros p Hp. by apply fds_ok_free. Qed.
Lemma keeps_modify i g : (forall f, 0 <= fd_offset (g f) < 2 ^ 64 \/ fd_offset (g f) = fd_offset f) ->
  (forall f, fd_ep (g f) = fd_ep f) -> preserves table_ok (fd_modify i g).
Proof.
  intros Hg Hep. apply preserves_modify. intros p Hp. apply fds_ok_alter; [done|..].
  - intros f Hf. destruct (Hg f) as [?|E]; [done|]. unfold fd_ok. by rewrite E.
  - intros _ f Hf. by rewrite Hep.
Qed.
Lemma u64_range z : 0 <= u64 z < 2 ^ 64.
Proof. apply Z.mod_pos_bound. lia. Qed.

(** ** The functions of the client *)
Inductive client_call :=
| COpen (pathname : list Z) (flags modes : Z)
| CPread (fd buf count offset : Z)
| CRead (fd buf count : Z)
| CWrite (fd buf count : Z)
| CClose (fd : Z)
| CLseek (fd offset : Z) (whence : whence_t)
| CGetcwd (buf size : Z)
| CFstat (fd buf : Z)
| CStat (pathname : list Z) (buf : Z)
| CFcntl (fd cmd arg : Z)
| CUnlink (pathname : list Z)
| CAccess (dirfd : Z) (filename : list Z) (amode flags : Z)
| CGetFile (fd : Z)
| CLinkFile (file : Z) (pathname : list Z)
| CNewNs
| CDeleteNs (ns_ep : Z).
Definition run_client (call : client_call) : P Z :=
  match call with
  | COpen pathname flags modes => xv6fs_libc_open fs_encode fs_decode pathname flags modes
  | CPread fd buf count offset => xv6fs_libc_pread fs_encode fs_decode shared_page fd buf count offset
  | CRead fd buf count => xv6fs_libc_read fs_encode fs_decode shared_page fd buf count
  | CWrite fd buf count => xv6fs_libc_write fs_encode fs_decode shared_page set_shared_page fd buf count
  | CClose fd => xv6fs_libc_close fs_encode fs_decode fd
  | CLseek fd offset whence => xv6fs_libc_lseek fd offset whence
  | CGetcwd buf size => xv6fs_libc_getcwd buf size
  | CFstat fd buf => xv6fs_libc_fstat fs_encode fs_decode shared_page sizeof_stat fd buf
  | CStat pathname buf => xv6fs_libc_stat fs_encode fs_decode shared_page sizeof_stat pathname buf
  | CFcntl fd cmd arg => r ← xv6fs_libc_fcntl fd cmd arg; mret (fst r)
  | CUnlink pathname => xv6fs_libc_unlink fs_encode fs_decode shared_page set_shared_page pathname
  | CAccess dirfd filename amode flags => xv6fs_libc_faccessat fs_encode fs_decode dirfd filename amode flags
  | CGetFile fd => r ← xv6fs_client_get_file fd; mret (fst r)
  | CLinkFile file pathname => xv6fs_client_link_file fs_encode fs_decode file pathname
  | CNewNs => r ← xv6fs_client_new_ns fs_encode fs_decode; mret (fst r)
  | CDeleteNs ns_ep => xv6fs_client_delete_ns fs_encode fs_decode ns_ep
  end.
(** the state after calls that returned, with an error or without; between them the rest
    of the system does something *)
Inductive client_steps : process K fs_client_t -> process K fs_client_t -> Prop :=
| steps_init p : client_steps p (snd (fd_init p))
| steps_call p p' call r p'' : client_steps p p' -> run_client call p' = (Ok r, p'') -> client_steps p p''
| steps_kernel p p' k : client_steps p p' -> client_steps p (set_kernel k p').

Lemma keeps_load i : preserves table_ok (fd_load i).
Proof. unfold fd_load. pres. Qed.
Lemma keeps_page : preserves table_ok shared_mem_ep.
Proof. unfold shared_mem_ep. pres. Qed.
Lemma keeps_from_page buf size n : preserves table_ok (copy_from_page shared_page buf size n).
Proof. unfold copy_from_page. pres. Qed.
Lemma keeps_to_page buf n : preserves table_ok (copy_to_page shared_page set_shared_page buf n).
Proof. unfold copy_to_page. pres. Qed.
Lemma keeps_slot reply : preserves table_ok (create_slot reply).
Proof. unfold create_slot. pres. Qed.
Lemma keeps_n reply : preserves table_ok (ret_n reply).
Proof. unfold ret_n. pres. Qed.
Hint Resolve keeps_get keeps_bind_fd keeps_close keeps_load keeps_page keeps_from_page keeps_to_page keeps_slot
    keeps_n : gpi.
Ltac keeps := pres; try (apply keeps_modify; intros f; simpl; [first [by right|left; apply u64_range]|done]).

Lemma keeps_open pathname flags modes : preserves table_ok (xv6fs_libc_open fs_encode fs_decode pathname flags modes).
Proof. unfold xv6fs_libc_open. keeps. Qed.
Lemma keeps_pread fd buf count offset :
  preserves table_ok (xv6fs_libc_pread fs_encode fs_decode shared_page fd buf count offset).
Proof. unfold xv6fs_libc_pread. keeps. Qed.
Lemma keeps_libc_close fd : preserves table_ok (xv6fs_libc_close fs_encode fs_decode fd).
Proof. unfold xv6fs_libc_close. keeps. Qed.
Lemma keeps_fstat fd buf : preserves table_ok (xv6fs_libc_fstat fs_encode fs_decode shared_page sizeof_stat fd buf).
Proof. unfold xv6fs_libc_fstat. keeps. Qed.
Hint Resolve keeps_open keeps_pread keeps_libc_close keeps_fstat : gpi.

Lemma keeps_table call : preserves table_ok (run_client call).
Proof.
  destruct call; simpl; try solve [eauto with gpi nocore].
  all: unfold xv6fs_libc_read, xv6fs_libc_write, xv6fs_libc_lseek, fd_seek, xv6fs_libc_getcwd, xv6fs_libc_stat,
    xv6fs_libc_fcntl, xv6fs_libc_unlink, put_page, xv6fs_libc_faccessat, xv6fs_libc_access, xv6fs_client_get_file,
    xv6fs_client_link_file, xv6fs_client_new_ns, xv6fs_client_delete_ns; keeps.
Qed.
Lemma fd_init_ok (p : process K fs_client_t) : fds_ok (program (snd (fd_init p))).
Proof.
  split; simpl; [done|done|..].
  - intros i Hi. do 5 (destruct i as [|i]; [done|]). lia.
  - repeat (apply Forall_cons; split; [by split|]). by apply Forall_nil.
Qed.

(** a server that answers more bytes than were asked for makes the client write past the
    end of the buffer *)
Lemma pread_overrun p fd i f mo buf count offset n words answer k' :
  0 <= count <= RAMDISK_BLOCK_SIZE -> fd <> dev_null_fd (program p) -> fd_valid fd = true -> i = Z.to_nat fd ->
  fd_table (program p) !! i = Some f -> fd_ep f <> 0 -> c_shared_mem (program p) = Some mo ->
  fs_encode (FsMsg FS_RPC_MAGIC (FsRead count (u32 offset))) = Some words ->
  k_call (fd_ep f) words [conn_ep mo] (kernel p) = (Ok (0, answer), k') ->
  fs_decode answer = Some (FsReply 0 (FsReadReturn n)) -> count < n < 2 ^ 31 ->
  stops (xv6fs_libc_pread fs_encode fs_decode shared_page fd buf count offset) p OutOfBounds.
Proof.
  intros Hc Hnull Hv -> Hf Hep Hmo Henc Hcall Hdec Hn. unfold RAMDISK_BLOCK_SIZE in *. exists (set_kernel k' p).
  assert (u32 count = count) as Eu by (apply wrap_small; lia).
  unfold xv6fs_libc_pread. rewrite Eu. unfold RAMDISK_BLOCK_SIZE. rewrite (proj2 (Z.ltb_ge _ _)) by lia.
  erewrite (bind_ok prog) by reflexivity. rewrite (proj2 (Z.eqb_neq _ _) Hnull).
  assert (fd_get fd p = (Ok (Some (Z.to_nat fd)), p)) as Hget.
  { unfold fd_get. erewrite (bind_ok prog) by reflexivity. unfold fd_free. by rewrite Hv, Hf, (proj2 (Z.eqb_neq _ _) Hep). }
  rewrite (bind_ok _ _ _ _ _ Hget).
  assert (shared_mem_ep p = (Ok (conn_ep mo), p)) as Hep'.
  { unfold shared_mem_ep. erewrite (bind_ok prog) by reflexivity. by rewrite Hmo. }
  rewrite (bind_ok _ _ _ _ _ Hep').
  assert (fd_load (Z.to_nat fd) p = (Ok f, p)) as Hload.
  { unfold fd_load. erewrite (bind_ok prog) by reflexivity. by rewrite Hf. }
  rewrite (bind_ok _ _ _ _ _ Hload).
  assert (fs_call fs_encode fs_decode (fd_ep f) (FsRead count (u32 offset)) [conn_ep mo] p =
    (Ok (0, FsReply 0 (FsReadReturn n)), set_kernel k' p)) as Hfs.
  { unfold fs_call, sel4gpi_rpc_call. rewrite Henc.
    assert (syscall (k_call (fd_ep f) words [conn_ep mo]) p = (Ok (0, answer), set_kernel k' p)) as Hs
      by (unfold syscall; by rewrite Hcall).
    unfold mbind, M_bind. rewrite Hs. cbv beta iota zeta. by rewrite Hdec. }
  rewrite (bind_ok _ _ _ _ _ Hfs). cbn [fst snd fs_failed fs_errorCode negb Z.eqb orb]. unfold ret_n. cbn [fs_ret].
  erewrite (bind_ok (mret n)) by reflexivity.
  assert (i32 n = n) as -> by (apply i32_small; lia).
  rewrite (proj2 (Z.ltb_lt 0 n)) by lia. cbn [when]. apply bind_crash. unfold copy_from_page.
  by rewrite (proj2 (Z.ltb_lt _ _)) by lia.
Qed.

(** C13: from its initialization on, whatever functions of the client are called in whatever
    order, with any arguments and any answers of the file server, as long as they return,
    with an error or without, the table of open files has 32 entries with offsets of 64
    bits, and neither the standard descriptors nor the one of /dev/null are ever given to
    a file.  This does not cover what follows a read for which the server claims more
    bytes than were asked for: such a call runs over the buffer of the caller and does not
    return. *)
Theorem client_table_wellformed p p' : client_steps p p' -> fds_ok (program p').
Proof.
  induction 1 as [p|p p' call r p'' _ IH Hrun|p p' k _ IH]; [apply fd_init_ok| |done].
  pose proof (keeps_table call p' IH) as Hk. by rewrite Hrun in Hk.
Qed.

(** ** Opening and closing *)

(** the file of a descriptor: its capability and the offset *)
Definition fd_file (p : process K fs_client_t) (i : nat) : option (Z * Z) :=
  match fd_table (program p) !! i with
  | Some f => if fd_ep f =? 0 then None else Some (fd_ep f, fd_offset f)
  | None => None
  end.
(** the file server answers [r] to the message *)
Definition answers (ep : Z) (msg : FsRequest) (k : K) (r : FsReturnMessage) (k' : K) : Prop :=
  exists words answer, fs_encode (FsMsg FS_RPC_MAGIC msg) = Some words /\
    k_call ep words [] k = (Ok (0, answer), k') /\ fs_decode answer = Some r.

Lemma fs_call_run ep msg p r k' : answers ep msg (kernel p) r k' ->
  fs_call fs_encode fs_decode ep msg [] p = (Ok (0, r), set_kernel k' p).
Proof.
  intros (words & answer & He & Hc & Hd). unfold fs_call, sel4gpi_rpc_call. rewrite He.
  assert (syscall (k_call ep words []) p = (Ok (0, answer), set_kernel k' p)) as Hs by (unfold syscall; by rewrite Hc).
  unfold mbind, M_bind. rewrite Hs. cbv beta iota zeta. rewrite Hd. done.
Qed.

(** C14: a file that is opened gets the lowest descriptor from 5 on that no file has, and
    the capability that the server sent with offset 0; the other descriptors are as before.
    When the descriptor is closed, whatever the rest of the system did, the open files are
    the same as before the file was opened. *)
Theorem open_close_roundtrip p pathname flags modes slot i k1 : fds_ok (program p) ->
  (length pathname <= MAXPATH)%nat -> pathname <> DEV_NULL_PATH ->
  answers (c_server_ep (program p)) (FsCreate (u64 flags) (message_path pathname)) (kernel p) (FsReply 0
      (FsCreateReturn slot)) k1 ->
  slot <> 0 -> List.find (fd_free (fd_table (program p))) (seq 5 (FD_TABLE_SIZE - 5)) = Some i ->
  returns (xv6fs_libc_open fs_encode fs_decode pathname flags modes) p (fun fd p1 =>
    fd = Z.of_nat i /\ (5 <= i < FD_TABLE_SIZE)%nat /\ fd_file p i = None /\ fd_file p1 i = Some (slot, 0) /\
    (forall j, j <> i -> fd_file p1 j = fd_file p j) /\
    forall k k2, answers slot FsClose k (FsReply 0 FsBasicReturn) k2 ->
      returns (xv6fs_libc_close fs_encode fs_decode fd) (set_kernel k p1) (fun error p2 =>
        error = 0 /\ forall j, fd_file p2 j = fd_file p j)).
Proof.
  intros [Hl Hn Hs Ho] Hlen Hnull Hans Hslot Hfind.
  pose proof Hfind as [Hin%list_elem_of_In Hfree]%find_some. apply elem_of_seq in Hin.
  assert (i < FD_TABLE_SIZE)%nat as Hlt by (unfold FD_TABLE_SIZE in *; lia).
  destruct (lookup_lt_is_Some_2 (fd_table (program p)) i) as [f Hf]; [by rewrite Hl|].
  set (p1 := set_program (set_fd_table (alter (fun f => Fd slot 0 (fd_flags f)) i (fd_table (program p)))
      (program p)) (set_kernel k1 p)).
  assert (fd_table (program p1) !! i = Some (Fd slot 0 (fd_flags f))) as Hf1.
  { simpl. by rewrite list_lookup_alter_eq, Hf. }
  assert (forall j, j <> i -> fd_file p1 j = fd_file p j) as Hother.
  { intros j Hj. unfold fd_file. simpl. by rewrite list_lookup_alter_ne. }
  assert (fd_file p i = None) as Hnone.
  { unfold fd_file, fd_free in *. rewrite Hf in *. by rewrite Hfree. }
  exists (Z.of_nat i), p1. split.
  { unfold xv6fs_libc_open. rewrite (proj2 (Nat.leb_le _ _)) by done. cbn [assert_].
    rewrite (bind_ok _ _ p tt p) by done. rewrite (bind_ok prog _ p (program p) p) by done.
    rewrite bool_decide_eq_false_2 by done. rewrite (bind_ok _ _ _ _ _ (fs_call_run _ _ _ _ _ Hans)).
    unfold create_slot. cbn [fst snd fs_failed fs_errorCode negb Z.eqb orb fs_ret].
    rewrite (bind_ok (mret slot) _ _ slot (set_kernel k1 p)) by done. unfold fd_bind.
    rewrite (bind_ok prog _ _ (program p) (set_kernel k1 p)) by done. by rewrite Hfind. }
  split; [done|]. split; [lia|]. split; [done|]. split.
  { unfold fd_file. rewrite Hf1. cbn [fd_ep fd_offset]. by rewrite (proj2 (Z.eqb_neq _ _)). }
  split; [done|]. intros k k2 Hclose.
  assert (fd_get (Z.of_nat i) (set_kernel k p1) = (Ok (Some i), set_kernel k p1)) as Hget.
  { unfold fd_get. rewrite (bind_ok prog _ _ (program p1) (set_kernel k p1)) by done.
    unfold fd_valid. rewrite (proj2 (Z.leb_le _ _)), (proj2 (Z.ltb_lt _ _)), Nat2Z.id by (unfold FD_TABLE_SIZE in *; lia).
    unfold fd_free. rewrite Hf1. cbn [fd_ep]. by rewrite (proj2 (Z.eqb_neq _ _)). }
  set (p2 := set_program (set_fd_table (<[i := xv6fs_null_client_context]> (fd_table (program p1))) (program p1))
      (set_kernel k2 p1)).
  exists 0, p2. split.
  { unfold xv6fs_libc_close. rewrite (bind_ok prog _ _ (program p1) (set_kernel k p1)) by done.
    assert (dev_null_fd (program p1) = 4) as -> by exact Hn. rewrite (proj2 (Z.eqb_neq _ _)) by lia.
        rewrite (bind_ok _ _ _ _ _ Hget).
    assert (fd_load i (set_kernel k p1) = (Ok (Fd slot 0 (fd_flags f)), set_kernel k p1)) as Hload.
    { unfold fd_load. rewrite (bind_ok prog _ _ (program p1) (set_kernel k p1)) by done. by rewrite Hf1. }
    rewrite (bind_ok _ _ _ _ _ Hload). cbn [fd_ep].
    rewrite (bind_ok _ _ _ _ _ (fs_call_run slot FsClose (set_kernel k p1) _ _ Hclose)).
    cbn [fst snd fs_failed fs_errorCode negb Z.eqb orb]. unfold fd_close, fd_valid.
    rewrite (proj2 (Z.leb_le _ _)), (proj2 (Z.ltb_lt _ _)), Nat2Z.id by (unfold FD_TABLE_SIZE in *; lia). done. }
  split; [done|]. intros j. destruct (decide (j = i)) as [->|Hj].
  - rewrite Hnone. unfold fd_file. simpl. rewrite list_lookup_insert_eq; [done|]. rewrite length_alter. lia.
  - rewrite <- Hother by done. unfold fd_file. simpl. by rewrite list_lookup_insert_ne by done.
Qed.
End FdTable.

(** ** A server that answers as it is told *)
Section TableWitnesses.
(** the answers to come, and the page *)
Record scripted := Scripted { to_come : list (Z * list Z); s_page : bytes }.
#[local] Instance scripted_kernel : Kernel scripted := {
  k_call _ _ _ := fun s => match to_come s with
                           | r :: l => (Ok r, Scripted l (s_page s))
                           | [] => (Ok (1, []), s)
                           end;
  k_recv _ := (mret (0, []) : M scripted _);
  k_send _ _ := (mret tt : M scripted _);
  k_set_receive_path _ := (mret tt : M scripted _);
  k_save_caller _ := (mret 0 : M scripted _)
}.
(** an encoding of the two answers *)
Definition demo_encode (msg : FsMessage) : option (list Z) := Some [].
Definition demo_decode (words : list Z) : option FsReturnMessage :=
  match words with [slot] => Some (FsReply 0 (FsCreateReturn slot)) | _ => Some (FsReply 0 FsBasicReturn) end.
Definition demo_client (answers : list (Z * list Z)) : process scripted fs_client_t :=
  snd (fd_init (Process (Scripted answers (fun _ => 0)) shared_zero 0 (fun _ => 0) (FsClientState 9 0 70 None 0 [] 0 0))).

Lemma client_table_wellformed_witness :
  let p := demo_client [(0, [81]); (0, [])] in
  fds_ok (program (snd (run_client demo_encode demo_decode s_page (fun d k => Scripted (to_come k) d) 88 (CClose 5)
    (snd (run_client demo_encode demo_decode s_page (fun d k => Scripted (to_come k) d) 88 (COpen [97] 0 0) p))))).
Proof.
  intros p. eapply (client_table_wellformed demo_encode demo_decode s_page (fun d k => Scripted (to_come k) d) 88).
  assert (forall A B (r : A) (x : result A * B), fst x = Ok r -> x = (Ok r, snd x)) as Hpair
    by (intros A B r [y z] E; simpl in *; by rewrite E).
  eapply (steps_call _ _ _ _ _ _ _ _ 0); [eapply (steps_call _ _ _ _ _ _ _ _ 5); [apply steps_init|]|];
    apply Hpair; vm_compute; reflexivity.
Defined.

Lemma open_close_roundtrip_witness :
  returns (xv6fs_libc_open demo_encode demo_decode [97] 0 0) (demo_client [(0, [81])]) (fun fd p1 =>
    fd = 5 /\ fd_file p1 5 = Some (81, 0) /\
    returns (xv6fs_libc_close demo_encode demo_decode fd) (set_kernel (Scripted [(0, [])] (fun _ => 1)) p1) (fun error p2 =>
      error = 0 /\ forall j, fd_file p2 j = fd_file (demo_client [(0, [81])]) j)).
Proof.
  destruct (open_close_roundtrip demo_encode demo_decode (demo_client [(0, [81])]) [97] 0 0 81 5 (Scripted [] (fun _ => 0)))
    as (fd & p1 & Hrun & Hfd & _ & _ & Hopen & _ & Hclose).
  - apply fd_init_ok.
  - by apply Nat.leb_le.
  - done.
  - by exists [], [81].
  - done.
  - reflexivity.
  - exists fd, p1. split; [exact Hrun|]. split; [exact Hfd|]. split; [exact Hopen|].
    apply (Hclose _ (Scripted [] (fun _ => 1))). by exists [], [].
Defined.
End TableWitnesses.
