(* ===== verification/KvStore.v ===== *)
(** * The key-value store

    Model of [apps/kvstore/src/server/kvstore_server.c] and [main.c].  The server is a resource
    server that keeps each store in a table of one database file on the file server; it is a
    client of the file server.

    SQLite is a parameter, the class [Sqlite]: its functions run in the process and may use
    the C library's files.  What the server relies on is the class [SqliteTables]: a
    statement that succeeds has the effect that SQL gives it on the tables, and one that
    fails has none. *)

From stdpp Require Import base numbers list gmap strings.
From S2P Require Import Prelude Strings Badge Registry State ResourceTypes ModelExport Component PdResources Resspc Mo Ads AdsRequests Elf Cpu PdObj PdComponent Ep Server Client PdUtils ResourceServer Xv6Bio Xv6Fs Xv6Sys FsServer FsClient.

(** ** SQLite *)
Definition SQLITE_OK : Z := 0.
Definition SQLITE_ROW : Z := 100.

Class Sqlite (S : Type) := {
  (* the database is the one that was opened; error codes *)
  sqlite3_open : list Z -> M S Z;
  sqlite3_exec : list Z -> M S Z;
  (* the error code, and the statement *)
  sqlite3_prepare_v2 : list Z -> M S (Z * Z);
  sqlite3_step : Z -> M S Z;
  (* a column of the row as text, or NULL *)
  sqlite3_column_text : Z -> Z -> M S (option (list Z));
  sqlite3_finalize : Z -> M S Z;
  sqlite3_close : M S Z;
  sqlite3_shutdown : M S Z
}.

(** ** stdio.h and stdlib.h *)

(** [%ld] *)
Definition fmt_d (v : Z) : list Z := if v <? 0 then 45 :: fmt_u (- v) else fmt_u v.
(** the digits at the head of a string *)
Fixpoint leading_digits (l : list Z) : list Z :=
  match l with
  | c :: l => if (48 <=? c) && (c <? 58) then c :: leading_digits l else []
  | [] => []
  end.
(** atoi, for a string without white space; nothing when an int cannot hold the number, for
    which its behaviour is not defined *)
Definition atoi (l : list Z) : option Z :=
  let v := match l with 45 :: l => - value 10 (leading_digits l) | _ => value 10 (leading_digits l) end in
  if (- 2 ^ 31 <=? v) && (v <? 2 ^ 31) then Some v else None.

(** ** The server *)
Definition KVSTORE_RESOURCE_NAME : list Z := chars "KVSTORE".
Definition KVSTORE_RPC_MAGIC : Z := 0x4b56.
Definition MAX_KVSTORE_DBS_IN_FS : nat := 10.
Definition cmdlen : nat := 128.
Definition F_OK : Z := 0.

(** kvstore_server_rpc.proto *)
Definition KvstoreError_UNKNOWN : Z := 11.
Definition KvstoreError_KEY : Z := 12.
Inductive KvstoreRequest := KvCreate | KvSet (key val : Z) | KvGet (key : Z) | KvNone.
Record KvstoreMessage := KvMsg { kv_magic : Z; kv_msg : KvstoreRequest }.
Inductive KvstoreReturn := KvBasicReturn | KvAllocReturn (dest : Z) | KvGetReturn (val : Z).
Record KvstoreReturnMessage := KvReply { kv_errorCode : Z; kv_ret : KvstoreReturn }.

(** the formats of the statements *)
Definition create_table_cmd (id : Z) : list Z :=
  chars "create table kvstore_" ++ fmt_u (u32 id) ++ chars " (key bigint unsigned not null primary key, val bigint unsigned);".
Definition delete_table_cmd (id : Z) : list Z := chars "drop table kvstore_" ++ fmt_u (u32 id) ++ chars ";".
Definition insert_format (id key val : Z) : list Z :=
  chars "insert or replace into kvstore_" ++ fmt_u (u32 id) ++ chars "(key, val) values (" ++ fmt_d (i64 key) ++
  chars ", " ++ fmt_d (i64 val) ++ chars ");".
Definition select_format (id key : Z) : list Z :=
  chars "select val from kvstore_" ++ fmt_u (u32 id) ++ chars " where key == " ++ fmt_d (i64 key) ++ chars ";".
Definition KVSTORE_DB_FILE_FORMAT (i : Z) : list Z := chars "kvstore_" ++ fmt_u i ++ chars ".db".

Inductive kv_cb := on_kvstore_registry_delete_cb.
(** kvstore_server_context_t; the nodes of the registry are the bare ones.  The static
    variables of the client of the file server are [kv_files], [kv_mallocs] counts the
    calls of calloc *)
Record kvstore_server_context_t := Kvstore {
  kv_gen : resource_server_context_t;
  kvstore_registry : registry unit kv_cb;
  db_filename : list Z;
  kv_files : fs_client_t;
  kv_mallocs : nat
}.
Definition set_kv_gen (v : resource_server_context_t) (x : kvstore_server_context_t) : kvstore_server_context_t :=
  Kvstore v (kvstore_registry x) (db_filename x) (kv_files x) (kv_mallocs x).
Definition set_kvstore_registry (v : registry unit kv_cb) (x : kvstore_server_context_t) : kvstore_server_context_t :=
  Kvstore (kv_gen x) v (db_filename x) (kv_files x) (kv_mallocs x).
Definition set_db_filename (v : list Z) (x : kvstore_server_context_t) : kvstore_server_context_t :=
  Kvstore (kv_gen x) (kvstore_registry x) v (kv_files x) (kv_mallocs x).
Definition set_kv_files (v : fs_client_t) (x : kvstore_server_context_t) : kvstore_server_context_t :=
  Kvstore (kv_gen x) (kvstore_registry x) (db_filename x) v (kv_mallocs x).
Definition set_kv_mallocs (v : nat) (x : kvstore_server_context_t) : kvstore_server_context_t :=
  Kvstore (kv_gen x) (kvstore_registry x) (db_filename x) (kv_files x) v.

Section KvStore.
Context {K : Type} `{!Kernel K} `{!UTHash} (N : nanopb) (SEL4UTILS_RES_TYPE_GENERIC SEL4UTILS_RES_TYPE_SHARED_FRAMES : Z).
Context `{!Sqlite (process K fs_client_t)}.
(** nanopb, for the messages of the file server; the page that is shared with it *)
Context (fs_encode : FsMessage -> option (list Z)) (fs_decode : list Z -> option FsReturnMessage).
Context (shared_page : K -> bytes) (set_shared_page : bytes -> K -> K).
(** the allocator; the size of a model state; the value of a variable that was not set, or
    of a function that ended without one *)
Context (malloc_fails : nat -> bool) (sizeof_model_state indeterminate : Z).
Abbreviation P := (M (process K kvstore_server_context_t)).

(** calls of SQLite and of the C library's files *)
Definition on_files {B} (m : M (process K fs_client_t) B) : P B := fun p =>
  let '(r, q) := m (Process (kernel p) (my_shared_data p) (reply_cap_slot p) (memory p) (kv_files (program p))) in
  (r, Process (kernel q) (my_shared_data q) (reply_cap_slot q) (memory q) (set_kv_files (program q) (program p))).
Definition kvstores_p : regptr (process K kvstore_server_context_t) unit kv_cb :=
  RegPtr (fun p => Some (kvstore_registry (program p))) (fun r p => set_program (set_kvstore_registry r (program p)) p).
Definition kv_calloc : P (option nat) :=
  s ← prog;
  prog_modify (set_kv_mallocs (S (kv_mallocs s))) ;;
  mret (if malloc_fails (kv_mallocs s) then None else Some (kv_mallocs s)).

(** SQL_EXEC: the error code; the message of the error is printed *)
Definition SQL_EXEC (text : list Z) : P Z := on_files (sqlite3_exec (snprintf cmdlen text)).

Definition on_kvstore_registry_delete (a : nat) : P unit :=
  n ← node_load kvstores_p a;
  ok ← sel4gpi_can_request_type FILE_RESOURCE_TYPE_NAME;
  if negb ok then mret tt
  else _ ← SQL_EXEC (delete_table_cmd (object_id n)); mret tt.
Definition run_kv_cb (cb : kv_cb) (a arg : nat) : P unit := on_kvstore_registry_delete a.

(** access and unlink of the C library call what the client of the file server installed *)
Definition access_file (name : list Z) : P Z := on_files (xv6fs_libc_faccessat fs_encode fs_decode AT_FDCWD name F_OK 0).
Definition unlink_file (name : list Z) : P Z :=
  on_files (xv6fs_muslcsys_unlinkat fs_encode fs_decode shared_page set_shared_page AT_FDCWD name 0).

(** the names are tried from [i] on *)
Fixpoint find_db_filename (todo : nat) (i : Z) : P unit :=
  match todo with
  | O => mret tt
  | S todo =>
      prog_modify (set_db_filename (snprintf cmdlen (KVSTORE_DB_FILE_FORMAT i))) ;;
      s ← prog;
      r ← access_file (db_filename s);
      if negb (r =? 0) then find_db_filename todo (i + 1) else mret tt
  end.
Definition kvstore_server_init : P Z :=
  _ ← on_files (xv6fs_client_init N SEL4UTILS_RES_TYPE_SHARED_FRAMES malloc_fails);
  find_db_filename MAX_KVSTORE_DBS_IN_FS 0 ;;
  s ← prog;
  error ← on_files (sqlite3_open (db_filename s));
  if negb (error =? 0) then mret KvstoreError_UNKNOWN
  else
    prog_modify (set_kvstore_registry (resource_registry_initialize (Some on_kvstore_registry_delete_cb) 0
      (BADGE_MAX_OBJ_ID - 1))) ;;
    mret 0.
(** nothing is returned *)
Definition kvstore_init : P Z :=
  error ← kvstore_server_init;
  (if negb (error =? 0) then mret tt
   else
     s ← prog;
     type ← sel4gpi_get_resource_type_code FILE_RESOURCE_TYPE_NAME;
     space ← sel4gpi_get_default_space_id type;
     _ ← resspc_client_map_space N (default_space (kv_gen s)) space;
     mret tt) ;;
  mret indeterminate.

(** the error code, and the identifier of the store *)
Definition kvstore_create_store : P (Z * option Z) :=
  a ← kv_calloc;
  a ← deref a;
  id ← resource_registry_insert_new_id kvstores_p (Node a 0 0 tt);
  error ← SQL_EXEC (create_table_cmd (u32 id));
  if negb (error =? 0) then mret (KvstoreError_UNKNOWN, None) else mret (0, Some (u32 id)).
Definition kvstore_server_set (store_id key value : Z) : P Z :=
  error ← SQL_EXEC (insert_format store_id key value);
  mret (if negb (error =? 0) then KvstoreError_UNKNOWN else 0).
(** the error code, and the value when it is found *)
Definition kvstore_server_get (store_id key : Z) : P (Z * option Z) :=
  r ← on_files (sqlite3_prepare_v2 (snprintf cmdlen (select_format store_id key)));
  let '(error, stmt) := r : Z * Z in
  if negb (error =? 0) then mret (KvstoreError_UNKNOWN, None)
  else
    res ← on_files (sqlite3_step stmt);
    if negb (res =? SQLITE_ROW) then
      error ← on_files (sqlite3_finalize stmt);
      mret (if negb (error =? 0) then KvstoreError_UNKNOWN else KvstoreError_KEY, None)
    else
      val_s ← on_files (sqlite3_column_text stmt 0);
      match val_s with
      | None => mret (KvstoreError_KEY, None)
      | Some val_s =>
          match atoi val_s with
          | None => crash IntOverflow
          | Some v =>
              error ← on_files (sqlite3_finalize stmt);
              mret (if negb (error =? 0) then KvstoreError_UNKNOWN else 0, Some (u64 v))
          end
      end.

(** *** Requests *)
Definition kv_answer (error : Z) : P KvstoreReturnMessage := mret (KvReply error KvBasicReturn).
Definition kv_create (client_id : Z) : P KvstoreReturnMessage :=
  r ← kvstore_create_store;
  let '(error, store_id) := r : Z * option Z in
  if negb (error =? 0) then kv_answer KvstoreError_UNKNOWN else
  store_id ← deref store_id;
  error ← resource_server_create_resource N kv_gen None store_id;
  if negb (error =? 0) then kv_answer KvstoreError_UNKNOWN else
  s ← prog;
  r ← resource_server_give_resource N kv_gen (resspc_conn_id (default_space (kv_gen s))) store_id client_id;
  let '(error, dest) := r : Z * option Z in
  if negb (error =? 0) then kv_answer KvstoreError_UNKNOWN else
  dest ← deref_conn dest;
  mret (KvReply 0 (KvAllocReturn dest)).
(** the reply to a get has the variable for the value, set or not *)
Definition kvstore_request_handler (msg : KvstoreMessage) (sender_badge cap : Z) : P (KvstoreReturnMessage * bool) :=
  let basic (m : P KvstoreReturnMessage) := reply ← m; mret (reply, false) in
  if negb (kv_magic msg =? KVSTORE_RPC_MAGIC) then basic (kv_answer KvstoreError_UNKNOWN) else
  if sender_badge =? 0 then basic (kv_answer KvstoreError_UNKNOWN) else
  s ← prog;
  if negb (get_cap_type_from_badge sender_badge =? rs_resource_type (kv_gen s)) then basic
      (kv_answer KvstoreError_UNKNOWN) else
  let store_id := get_object_id_from_badge sender_badge in
  if store_id =? BADGE_OBJ_ID_NULL then
    match kv_msg msg with
    | KvCreate => basic (kv_create (get_client_id_from_badge sender_badge))
    | _ => basic (kv_answer KvstoreError_UNKNOWN)
    end
  else
    match kv_msg msg with
    | KvSet key val => basic (error ← kvstore_server_set store_id key val; kv_answer error)
    | KvGet key =>
        basic (r ← kvstore_server_get store_id key;
               mret (KvReply (fst r) (KvGetReturn (default indeterminate (snd r)))))
    | _ => basic (kv_answer KvstoreError_UNKNOWN)
    end.

(** *** Work *)

(** nothing is known of single stores *)
Definition kv_extract (n_requests : Z) : P Z :=
  r ← resource_server_extraction_setup N SEL4UTILS_RES_TYPE_GENERIC kv_gen sizeof_model_state 4;
  let '(error, mo, ms) := r : Z * option conn_t * option (Z * model_state_t) in
  if negb (error =? 0) then mret KvstoreError_UNKNOWN else
  ms ← deref ms;
  mo ← deref mo;
  r ← resource_server_extraction_finish N kv_gen mo ms n_requests;
  mret (if fst r =? 0 then 0 else KvstoreError_UNKNOWN).
Fixpoint kv_free_loop (items : list (Z * Z * Z)) : P Z :=
  match items with
  | [] => mret 0
  | (_, kvstore_id, _) :: items =>
      node ← resource_registry_get_by_id kvstores_p kvstore_id;
      match node with
      | None => mret KvstoreError_UNKNOWN
      | Some a => resource_registry_dec run_kv_cb kvstores_p a ;; kv_free_loop items
      end
  end.
(** closing the database and removing its file *)
Definition destroy_db : P Z :=
  error ← on_files sqlite3_close;
  if negb (error =? 0) then mret KvstoreError_UNKNOWN else
  error ← on_files sqlite3_shutdown;
  if negb (error =? 0) then mret KvstoreError_UNKNOWN else
  s ← prog;
  error ← unlink_file (db_filename s);
  ok ← sel4gpi_can_request_type FILE_RESOURCE_TYPE_NAME;
  mret (if negb ok then 0 else if negb (error =? 0) then KvstoreError_UNKNOWN else 0).
Fixpoint kv_destroy_loop (items : list (Z * Z * Z)) : P Z :=
  match items with
  | [] => mret 0
  | (_, kvstore_id, _) :: items =>
      error ← (if negb (kvstore_id =? BADGE_OBJ_ID_NULL) then
                 node ← resource_registry_get_by_id kvstores_p kvstore_id;
                 match node with
                 | None => mret KvstoreError_UNKNOWN
                 | Some a => resource_registry_delete run_kv_cb kvstores_p a ;; mret 0
                 end
               else destroy_db);
      if error =? 0 then kv_destroy_loop items else mret error
  end.
Definition kvstore_work_handler (work : work_t) : P Z :=
  s ← prog;
  let finish := pd_client_finish_work N (rs_pd_conn (kv_gen s)) work in
  if (work_action work =? PdWorkAction_EXTRACT)%nat then kv_extract (Z.of_nat (length (work_items work)))
  else if (work_action work =? PdWorkAction_FREE)%nat then
    error ← kv_free_loop (work_items work);
    if error =? 0 then finish else mret error
  else if (work_action work =? PdWorkAction_DESTROY)%nat then
    error ← kv_destroy_loop (work_items work);
    if error =? 0 then finish else mret error
  else mret 1.

(** ** Starting *)
Context (kv_decode : list Z -> option KvstoreMessage) (kv_encode : KvstoreReturnMessage -> option (list Z)).
Definition kvstore_server_main (parent_ep parent_pd_id : Z) (n fuel : nat) : P Z :=
  resource_server_start N kv_gen set_kv_gen kv_decode kv_encode (Some kvstore_init) kvstore_request_handler
    kvstore_work_handler KVSTORE_RESOURCE_NAME parent_ep parent_pd_id n fuel.
(** main.c *)
Definition kv_main (args : list Z) (n fuel : nat) : P Z :=
  match args with
  | [parent_ep; parent_pd_id] => kvstore_server_main parent_ep (u32 parent_pd_id) n fuel
  | _ => crash AssertFail
  end.
End KvStore.
