(* ===== verification/KvTables.v ===== *)
(** * The key-value store is a finite map

    The statements that the server prints are read back as the statements that are meant
    ([sql_parse]), within the buffer of 128 bytes; with a SQLite in which statements have
    their effect on tables ([SqliteTables]), set and get are insertion and lookup in the
    finite map of a store. *)

From stdpp Require Import base numbers list gmap strings.
From S2P Require Import Prelude Strings Registry State Elf Resspc Client PdUtils ResourceServer FsClient KvStore.

(** ** Statements *)
Inductive sql :=
| SqlCreate (table : Z)
| SqlDrop (table : Z)
| SqlInsert (table key val : Z)
| SqlSelect (table key : Z).

(** reading what a statement is made of: given text, a number without leading zeros *)
Fixpoint strip (text l : list Z) : option (list Z) :=
  match text, l with
  | [], _ => Some l
  | c :: text, d :: l => if c =? d then strip text l else None
  | _ :: _, [] => None
  end.
Definition read_number (l : list Z) : option (Z * list Z) :=
  let d := leading_digits l in
  if bool_decide (d = fmt_u (value 10 d)) then Some (value 10 d, drop (length d) l) else None.
Definition read_signed (l : list Z) : option (Z * list Z) :=
  match l with
  | 45 :: l => '(v, l) ← read_number l; Some (- v, l)
  | _ => read_number l
  end.
Definition read_end (text l : list Z) : option unit := l ← strip text l; match l with [] => Some tt | _ => None end.

Definition parse_create (l : list Z) : option sql :=
  l ← strip (chars "create table kvstore_") l; '(t, l) ← read_number l;
  _ ← read_end (chars " (key bigint unsigned not null primary key, val bigint unsigned);") l; Some (SqlCreate t).
Definition parse_drop (l : list Z) : option sql :=
  l ← strip (chars "drop table kvstore_") l; '(t, l) ← read_number l; _ ← read_end (chars ";") l; Some (SqlDrop t).
Definition parse_insert (l : list Z) : option sql :=
  l ← strip (chars "insert or replace into kvstore_") l; '(t, l) ← read_number l;
  l ← strip (chars "(key, val) values (") l; '(k, l) ← read_signed l;
  l ← strip (chars ", ") l; '(v, l) ← read_signed l;
  _ ← read_end (chars ");") l; Some (SqlInsert t k v).
Definition parse_select (l : list Z) : option sql :=
  l ← strip (chars "select val from kvstore_") l; '(t, l) ← read_number l;
  l ← strip (chars " where key == ") l; '(k, l) ← read_signed l; _ ← read_end (chars ";") l; Some (SqlSelect t k).
Definition sql_parse (l : list Z) : option sql :=
  match parse_create l, parse_drop l, parse_insert l with
  | Some q, _, _ | None, Some q, _ | None, None, Some q => Some q
  | None, None, None => parse_select l
  end.

(** *** Numbers *)
Definition decimal (c : Z) : Prop := 48 <= c < 58.
Lemma number_decimal fuel : forall v, Forall decimal (number fuel 10 v).
Proof.
  induction fuel as [|fuel IH]; intros v; [constructor|]. cbn [number]. apply Forall_app. split.
  - destruct (_ =? 0); [constructor|]. apply IH.
  - apply Forall_singleton. unfold decimal, digit. pose proof (Z.mod_pos_bound v 10 ltac:(lia)). case_bool; zify_bool; lia.
Qed.
Lemma fmt_u_decimal v : Forall decimal (fmt_u v).
Proof. apply number_decimal. Qed.
Lemma fmt_u_value v : 0 <= v < 2 ^ 64 -> value 10 (fmt_u v) = v.
Proof. intros Hv. apply value_number; [lia|]. assert (2 ^ 64 <= 10 ^ Z.of_nat 64) by (vm_compute; discriminate). lia. Qed.
Lemma fmt_u_length v : 0 <= v < 2 ^ 64 -> (length (fmt_u v) <= 20)%nat.
Proof.
  intros Hv. apply (number_length 10 ltac:(lia) 19). assert (2 ^ 64 <= 10 ^ Z.of_nat 20) by (vm_compute; discriminate). lia.
Qed.
Lemma fmt_u_length_32 v : 0 <= v < 2 ^ 32 -> (length (fmt_u v) <= 10)%nat.
Proof.
  intros Hv. apply (number_length 10 ltac:(lia) 9). assert (2 ^ 32 <= 10 ^ Z.of_nat 10) by (vm_compute; discriminate). lia.
Qed.
Lemma fmt_d_length v : - 2 ^ 63 <= v < 2 ^ 63 -> (length (fmt_d v) <= 21)%nat.
Proof.
  intros Hv. unfold fmt_d. destruct (Z.ltb_spec v 0).
  - cbn [length]. pose proof (fmt_u_length (- v) ltac:(lia)). lia.
  - pose proof (fmt_u_length v ltac:(lia)). lia.
Qed.

(** what follows the number is not a digit *)
Definition no_digit (l : list Z) : Prop := match l with c :: _ => c < 48 \/ 58 <= c | [] => True end.
Lemma leading_digits_app d l : Forall decimal d -> no_digit l -> leading_digits (d ++ l) = d.
Proof.
  intros Hd Hl. induction Hd as [|c d Hc _ IH]; simpl.
  - destruct l as [|c l]; [done|]. simpl in *. case_bool; [zify_bool; lia|done].
  - unfold decimal in Hc. rewrite (proj2 (Z.leb_le _ _)), (proj2 (Z.ltb_lt _ _)) by lia. simpl. by rewrite IH.
Qed.
Lemma read_number_fmt v l : 0 <= v < 2 ^ 64 -> no_digit l -> read_number (fmt_u v ++ l) = Some (v, l).
Proof.
  intros Hv Hl. unfold read_number. rewrite leading_digits_app by (done || apply fmt_u_decimal).
  rewrite fmt_u_value by done. rewrite bool_decide_eq_true_2 by done. by rewrite drop_app_length.
Qed.
Lemma read_signed_fmt v l : - 2 ^ 63 <= v < 2 ^ 63 -> no_digit l -> read_signed (fmt_d v ++ l) = Some (v, l).
Proof.
  intros Hv Hl. unfold fmt_d. destruct (Z.ltb_spec v 0).
  - simpl. rewrite read_number_fmt by (done || lia). simpl. by rewrite Z.opp_involutive.
  - rewrite <- (read_number_fmt v l) by (done || lia). unfold read_signed.
    pose proof (fmt_u_decimal v) as Hd. assert (fmt_u v <> []) as Hne.
    { unfold fmt_u. change 64%nat with (S 63). cbn [number]. by intros [_ ?]%app_eq_nil. }
    destruct (fmt_u v) as [|c d]; [done|]. apply Forall_cons in Hd as [Hc _]. simpl. unfold decimal in Hc.
    destruct c as [|c|c]; [done| |done]. repeat (destruct c as [c|c|]; try done; try (exfalso; lia)).
Qed.
Lemma strip_app text l : strip text (text ++ l) = Some l.
Proof. induction text as [|c text IH]; simpl; [done|]. by rewrite Z.eqb_refl. Qed.
Lemma read_end_self text : read_end text text = Some tt.
Proof. unfold read_end. rewrite <- (app_nil_r text) at 2. by rewrite strip_app. Qed.

(** *** The statements that are printed *)
Lemma u32_range z : 0 <= u32 z < 2 ^ 32.
Proof. apply Z.mod_pos_bound. lia. Qed.
Lemma i64_range z : - 2 ^ 63 <= i64 z < 2 ^ 63.
Proof.
  unfold i64, u64, wrap. pose proof (Z.mod_pos_bound z (2 ^ 64) ltac:(lia)). case_bool; zify_bool; lia.
Qed.
Lemma kv_snprintf_fits n text : (length text < n)%nat -> snprintf n text = text.
Proof. intros Hn. apply take_ge. lia. Qed.

(** printed statements are short, and each piece is read back *)
Ltac fits := unfold cmdlen; rewrite ?length_app; simpl length; lia.
Ltac read_back := repeat first [rewrite strip_app | rewrite read_number_fmt by (first [lia|vm_compute;
    first [by left|by right]])
  | rewrite read_signed_fmt by (first [lia|vm_compute; first [by left|by right]]) | rewrite read_end_self | progress
      cbn [mbind option_bind]].

Section Statements.
Context (id key val : Z).
Let Hid : 0 <= u32 id < 2 ^ 32 := u32_range id.
Let Hid' : (length (fmt_u (u32 id)) <= 10)%nat := fmt_u_length_32 _ (u32_range id).
Let Hkey : (length (fmt_d (i64 key)) <= 21)%nat := fmt_d_length _ (i64_range key).
Let Hval : (length (fmt_d (i64 val)) <= 21)%nat := fmt_d_length _ (i64_range val).
Let Hk : - 2 ^ 63 <= i64 key < 2 ^ 63 := i64_range key.
Let Hv : - 2 ^ 63 <= i64 val < 2 ^ 63 := i64_range val.

Lemma create_parses : sql_parse (snprintf cmdlen (create_table_cmd id)) = Some (SqlCreate (u32 id)).
Proof.
  rewrite kv_snprintf_fits by (unfold create_table_cmd; fits). unfold create_table_cmd, sql_parse, parse_create. by read_back.
Qed.
Lemma drop_parses : sql_parse (snprintf cmdlen (delete_table_cmd id)) = Some (SqlDrop (u32 id)).
Proof.
  rewrite kv_snprintf_fits by (unfold delete_table_cmd; fits). unfold delete_table_cmd, sql_parse.
  assert (forall l, parse_create (chars "drop table kvstore_" ++ l) = None) as -> by reflexivity.
  unfold parse_drop. by read_back.
Qed.
Lemma insert_parses : sql_parse (snprintf cmdlen (insert_format id key val)) = Some (SqlInsert (u32 id) (i64 key) (i64 val)).
Proof.
  rewrite kv_snprintf_fits by (unfold insert_format; fits). unfold insert_format, sql_parse.
  assert (forall l, parse_create (chars "insert or replace into kvstore_" ++ l) = None) as -> by reflexivity.
  assert (forall l, parse_drop (chars "insert or replace into kvstore_" ++ l) = None) as -> by reflexivity.
  unfold parse_insert. by read_back.
Qed.
Lemma select_parses : sql_parse (snprintf cmdlen (select_format id key)) = Some (SqlSelect (u32 id) (i64 key)).
Proof.
  rewrite kv_snprintf_fits by (unfold select_format; fits). unfold select_format, sql_parse.
  assert (forall l, parse_create (chars "select val from kvstore_" ++ l) = None) as -> by reflexivity.
  assert (forall l, parse_drop (chars "select val from kvstore_" ++ l) = None) as -> by reflexivity.
  assert (forall l, parse_insert (chars "select val from kvstore_" ++ l) = None) as -> by reflexivity.
  unfold parse_select. by read_back.
Qed.
End Statements.

Lemma atoi_fmt_d v : - 2 ^ 63 <= v < 2 ^ 63 ->
  atoi (fmt_d v) = if (- 2 ^ 31 <=? v) && (v <? 2 ^ 31) then Some v else None.
Proof.
  intros Hv. assert (forall u, 0 <= u < 2 ^ 64 -> value 10 (leading_digits (fmt_u u)) = u) as Hd.
  { intros u Hu. rewrite <- (app_nil_r (fmt_u u)). rewrite (leading_digits_app (fmt_u u) [] (fmt_u_decimal u) I).
    by apply fmt_u_value. }
  unfold atoi, fmt_d. destruct (Z.ltb_spec v 0) as [Hneg|Hpos].
  - rewrite Hd by lia. by rewrite Z.opp_involutive.
  - assert (match fmt_u v with 45 :: l => - value 10 (leading_digits l) | _ => value 10 (leading_digits
      (fmt_u v)) end = v) as E.
    { pose proof (fmt_u_decimal v) as Hdec. transitivity (value 10 (leading_digits (fmt_u v))); [|apply Hd; lia].
      destruct (fmt_u v) as [|c d]; [done|].
      apply Forall_cons in Hdec as [Hc _]. unfold decimal in Hc.
      destruct c as [|c|c]; [done| |done]. repeat (destruct c as [c|c|]; try done; try (exfalso; lia)). }
    destruct (fmt_u v) as [|c d]; cbv zeta in *; by rewrite E.
Qed.

(** ** Tables *)
Abbreviation tables_t := (gmap Z (gmap Z Z)).
Definition sql_effect (q : sql) (T : tables_t) : option tables_t :=
  match q with
  | SqlCreate t => match T !! t with Some _ => None | None => Some (<[t := ∅]> T) end
  | SqlDrop t => match T !! t with Some _ => Some (delete t T) | None => None end
  | SqlInsert t k v => m ← T !! t; Some (<[t := <[k := v]> m]> T)
  | SqlSelect t k => Some T
  end.
(** a statement that selects: what it selects, or that its evaluation failed *)
Inductive stmt_state := Selects (r : option Z) | StepFailed.

(** What SQLite promises, where the memory suffices for the text of a number: a statement
    that succeeds has its effect, one that fails has none; a selected row is there when it
    is; finalizing returns the error of a failed evaluation. *)
Class SqliteTables {S} `{!Sqlite S} (tables : S -> tables_t) (stmts : S -> Z -> option stmt_state) : Prop := {
  exec_law p text q : sql_parse text = Some q -> exists e p', sqlite3_exec text p = (Ok e, p') /\
    (if e =? SQLITE_OK then sql_effect q (tables p) = Some (tables p') else tables p' = tables p);
  prepare_law p text t k m : sql_parse text = Some (SqlSelect t k) -> tables p !! t = Some m ->
    exists e stmt p', sqlite3_prepare_v2 text p = (Ok (e, stmt), p') /\ tables p' = tables p /\
      (e = SQLITE_OK -> stmts p' stmt = Some (Selects (m !! k)));
  step_law p stmt r : stmts p stmt = Some (Selects r) -> exists e p', sqlite3_step stmt p = (Ok e, p') /\
    tables p' = tables p /\
    (if e =? SQLITE_ROW then is_Some r /\ stmts p' stmt = Some (Selects r)
     else stmts p' stmt = Some (Selects r) /\ r = None \/ stmts p' stmt = Some StepFailed);
  column_law p stmt v : stmts p stmt = Some (Selects (Some v)) -> exists p',
    sqlite3_column_text stmt 0 p = (Ok (Some (fmt_d v)), p') /\ tables p' = tables p /\
    stmts p' stmt = Some (Selects (Some v));
  finalize_law p stmt r : stmts p stmt = Some r -> exists e p', sqlite3_finalize stmt p = (Ok e, p') /\
    tables p' = tables p /\ (r = StepFailed -> e <> SQLITE_OK)
}.

(** ** Set and get *)
Section Refinement.
Context {K : Type} `{!Sqlite (process K fs_client_t)} {tables : process K fs_client_t -> tables_t}
  {stmts : process K fs_client_t -> Z -> option stmt_state} `{!SqliteTables tables stmts}.
Implicit Types (p : process K kvstore_server_context_t) (T : tables_t).

(** the process as the client of the file server sees it *)
Definition files_of p : process K fs_client_t :=
  Process (kernel p) (my_shared_data p) (reply_cap_slot p) (memory p) (kv_files (program p)).
Definition stores p : tables_t := tables (files_of p).

Lemma on_files_run {B} (m : M (process K fs_client_t) B) p r q : m (files_of p) = (r, q) ->
  exists p', on_files m p = (r, p') /\ files_of p' = q.
Proof. intros E. eexists. unfold on_files. fold (files_of p). rewrite E. split; [done|]. by destruct q. Qed.
Lemma SQL_EXEC_run p text q : sql_parse (snprintf cmdlen text) = Some q -> exists e p', SQL_EXEC text p = (Ok e, p') /\
  (if e =? SQLITE_OK then sql_effect q (stores p) = Some (stores p') else stores p' = stores p).
Proof.
  intros Hq. destruct (exec_law (files_of p) _ q Hq) as (e & p1 & Hrun & He).
  destruct (on_files_run _ _ _ _ Hrun) as (p' & Hrun' & E). exists e, p'. split; [done|]. unfold stores. by rewrite E.
Qed.

Lemma kvstore_server_set_run p id key val m : stores p !! u32 id = Some m -> exists e p',
  kvstore_server_set id key val p = (Ok e, p') /\
  (e = 0 /\ stores p' = <[u32 id := <[i64 key := i64 val]> m]> (stores p) \/
   e = KvstoreError_UNKNOWN /\ stores p' = stores p).
Proof.
  intros Hm. destruct (SQL_EXEC_run p _ _ (insert_parses id key val)) as (e & p' & Hrun & He).
  unfold kvstore_server_set. rewrite (bind_ok _ _ _ _ _ Hrun). eexists _, p'. split; [reflexivity|].
  unfold SQLITE_OK in He. destruct (e =? 0); [left|by right]. split; [done|]. simpl in He. rewrite Hm in He. simpl in He.
  by injection He.
Qed.

(** a value that an int can hold *)
Definition is_int (v : Z) : Prop := - 2 ^ 31 <= v < 2 ^ 31.
Lemma kvstore_server_get_run p id key m : stores p !! u32 id = Some m ->
  (forall v, m !! i64 key = Some v -> - 2 ^ 63 <= v < 2 ^ 63) -> exists r p',
  kvstore_server_get id key p = (r, p') /\ stores p' = stores p /\
  (r = Ok (KvstoreError_UNKNOWN, None) \/ r = Ok (KvstoreError_UNKNOWN, u64 <$> m !! i64 key) \/
   match m !! i64 key with
   | None => r = Ok (KvstoreError_KEY, None)
   | Some v => if (- 2 ^ 31 <=? v) && (v <? 2 ^ 31) then r = Ok (0, Some (u64 v)) else r = Crash IntOverflow
   end).
Proof.
  intros Hm Hrange. destruct (prepare_law (files_of p) _ _ _ m (select_parses id key 0) Hm) as
      (e & stmt & q1 & Hrun1 & Ht1 & Hs1).
  destruct (on_files_run _ _ _ _ Hrun1) as (p1 & Hp1 & E1). unfold kvstore_server_get. rewrite (bind_ok _ _ _ _ _ Hp1).
  assert (stores p1 = stores p) as S1 by (unfold stores; by rewrite E1). cbv beta iota.
  destruct (Z.eqb_spec e 0) as [->|]; [|exists (Ok (KvstoreError_UNKNOWN, None)), p1; auto]. cbn [negb].
  rewrite <- E1 in Hs1. destruct (step_law (files_of p1) stmt (m !! i64 key) (Hs1 eq_refl)) as (c & q2 & Hrun2 & Ht2 & Hs2).
  destruct (on_files_run _ _ _ _ Hrun2) as (p2 & Hp2 & E2). rewrite (bind_ok _ _ _ _ _ Hp2).
  assert (stores p2 = stores p) as S2 by (unfold stores at 1; by rewrite E2, Ht2). rewrite <- E2 in Hs2.
  destruct (Z.eqb_spec c SQLITE_ROW) as [->|Hc]; cbn [negb].
  - destruct Hs2 as [[v Hv] Hs2]. rewrite Hv in Hs2 |- *.
    destruct (column_law (files_of p2) stmt v Hs2) as (q3 & Hrun3 & Ht3 & Hs3).
    destruct (on_files_run _ _ _ _ Hrun3) as (p3 & Hp3 & E3). rewrite (bind_ok _ _ _ _ _ Hp3). cbv beta iota.
    assert (stores p3 = stores p) as S3 by (unfold stores at 1; by rewrite E3, Ht3). rewrite <- E3 in Hs3.
    rewrite atoi_fmt_d by by apply Hrange. destruct ((- 2 ^ 31 <=? v) && (v <? 2 ^ 31)); [|eexists _, p3; eauto].
    destruct (finalize_law (files_of p3) stmt _ Hs3) as (e & q4 & Hrun4 & Ht4 & _).
    destruct (on_files_run _ _ _ _ Hrun4) as (p4 & Hp4 & E4). rewrite (bind_ok _ _ _ _ _ Hp4).
    eexists _, p4. split; [reflexivity|]. split; [unfold stores at 1; by rewrite E4, Ht4|]. destruct (e =? 0); auto.
  - destruct (stmts (files_of p2) stmt) as [st|] eqn:Est; [|by destruct Hs2 as [[? ?]|?]].
    destruct (finalize_law (files_of p2) stmt st Est) as (e & q3 & Hrun3 & Ht3 & Hfail).
    destruct (on_files_run _ _ _ _ Hrun3) as (p3 & Hp3 & E3). rewrite (bind_ok _ _ _ _ _ Hp3).
    eexists _, p3. split; [reflexivity|]. split; [unfold stores at 1; by rewrite E3, Ht3|].
    destruct (Z.eqb_spec e 0) as [->|]; [|auto]. right. right.
    destruct Hs2 as [[[= ->] ->]|[= ->]]; [done|]. by destruct (Hfail eq_refl).
Qed.

(** *** Any sequence of sets and gets *)
Inductive kv_op := StoreSet (id key val : Z) | StoreGet (id key : Z).
Definition store_of (op : kv_op) : Z := match op with StoreSet id _ _ | StoreGet id _ => id end.
(** what is set is a value that an int can hold *)
Definition op_ok (op : kv_op) : Prop := match op with StoreSet _ _ val => is_int (i64 val) | StoreGet _ _ => True end.
(** the error code, and the value *)
Definition run_op (op : kv_op) : M (process K kvstore_server_context_t) (Z * option Z) :=
  match op with
  | StoreSet id key val => error ← kvstore_server_set id key val; mret (error, None)
  | StoreGet id key => kvstore_server_get id key
  end.
Fixpoint run_ops (ops : list kv_op) : M (process K kvstore_server_context_t) (list (Z * option Z)) :=
  match ops with
  | [] => mret []
  | op :: ops => r ← run_op op; rs ← run_ops ops; mret (r :: rs)
  end.

(** stores as finite maps: the result of an operation and the stores after it *)
Inductive kv_step T : kv_op -> Z * option Z -> tables_t -> Prop :=
| step_set id key val m : T !! u32 id = Some m ->
    kv_step T (StoreSet id key val) (0, None) (<[u32 id := <[i64 key := i64 val]> m]> T)
| step_get id key m v : T !! u32 id = Some m -> m !! i64 key = Some v -> kv_step T (StoreGet id key) (0, Some (u64 v)) T
| step_missing id key m : T !! u32 id = Some m -> m !! i64 key = None ->
    kv_step T (StoreGet id key) (KvstoreError_KEY, None) T
| step_fails op val : kv_step T op (KvstoreError_UNKNOWN, val) T.
Inductive kv_steps : tables_t -> list kv_op -> list (Z * option Z) -> tables_t -> Prop :=
| steps_nil T : kv_steps T [] [] T
| steps_cons T op r T1 ops rs T2 : kv_step T op r T1 -> kv_steps T1 ops rs T2 -> kv_steps T (op :: ops) (r :: rs) T2.

Definition all_ints T : Prop := forall t m k v, T !! t = Some m -> m !! k = Some v -> is_int v.

Lemma step_keeps T op r T' : kv_step T op r T' -> op_ok op -> all_ints T -> all_ints T' /\
  forall t, is_Some (T !! t) -> is_Some (T' !! t).
Proof.
  intros Hs Hop HT. destruct Hs as [id key val m Hm| | |]; [|done..]. split.
  - intros t m' k v Ht Hk. apply lookup_insert_Some in Ht as [[<- <-]|[_ Ht]]; [|by eapply HT].
    apply lookup_insert_Some in Hk as [[<- <-]|[_ Hk]]; [done|by eapply HT].
  - intros t Ht. destruct (decide (t = u32 id)) as [->|Hne]; [by rewrite lookup_insert_eq|by rewrite lookup_insert_ne].
Qed.
Lemma run_op_step op p : is_Some (stores p !! u32 (store_of op)) -> op_ok op -> all_ints (stores p) ->
  exists r p', run_op op p = (Ok r, p') /\ kv_step (stores p) op r (stores p').
Proof.
  intros [m Hm] Hop HT. destruct op as [id key val|id key]; simpl in *.
  - destruct (kvstore_server_set_run p id key val m Hm) as (e & p' & Hrun & He). eexists _, p'.
    rewrite (bind_ok _ _ _ _ _ Hrun). split; [reflexivity|]. destruct He as [[-> ->]|[-> ->]]; econstructor; eauto.
  - destruct (kvstore_server_get_run p id key m Hm) as (r & p' & Hrun & Hst & Hr).
    { intros v Hv. pose proof (HT _ _ _ _ Hm Hv) as Hi. unfold is_int in Hi. lia. }
    destruct Hr as [->|[->|Hr]]; [eexists _, p'; split; [exact Hrun|]; rewrite Hst; constructor..|].
    destruct (m !! i64 key) as [v|] eqn:Hv.
    + pose proof (HT _ _ _ _ Hm Hv) as [Hi1 Hi2].
      rewrite (proj2 (Z.leb_le _ _)), (proj2 (Z.ltb_lt _ _)) in Hr by lia. simpl in Hr. subst r.
      eexists _, p'. split; [exact Hrun|]. rewrite Hst. by eapply step_get.
    + subst r. eexists _, p'. split; [exact Hrun|]. rewrite Hst. by eapply step_missing.
Qed.

(** set and get of the key-value store are insertion and lookup in finite maps.  For any
    sequence of them on stores that exist, with values that an int can hold, and any
    failures of SQLite, each operation either fails with the error for that and changes
    nothing, or sets the value of the key, or returns the value that was last set, as an
    unsigned word, or says that the key is missing when it is. *)
Theorem kv_refines_map ops p : Forall (fun op => is_Some (stores p !! u32 (store_of op)) /\ op_ok op) ops ->
  all_ints (stores p) -> returns (run_ops ops) p (fun rs p' => kv_steps (stores p) ops rs (stores p')).
Proof.
  revert p. induction ops as [|op ops IH]; intros p Hops HT; [by eexists _, p; split; [|constructor]|].
  apply Forall_cons in Hops as [[Hex Hop] Hops]. destruct (run_op_step op p Hex Hop HT) as (r & p1 & Hrun & Hstep).
  destruct (step_keeps _ _ _ _ Hstep Hop HT) as [HT1 Hkeep].
  destruct (IH p1) as (rs & p2 & Hrun2 & Hsteps); [|done|].
  { apply (Forall_impl _ _ _ Hops). intros op' [? ?]. auto. }
  exists (r :: rs), p2. split; [|by econstructor]. simpl. by rewrite (bind_ok _ _ _ _ _ Hrun), (bind_ok _ _ _ _ _ Hrun2).
Qed.

(** a value that no int can hold is lost: it can be set, and a get of its key never
    returns it.  Either SQLite fails, or the conversion of its text by atoi has no defined
    result. *)
Theorem large_value_lost p id key m v : stores p !! u32 id = Some m -> m !! i64 key = Some v ->
  - 2 ^ 63 <= v < 2 ^ 63 -> ~ is_int v ->
  exists p', kvstore_server_get id key p = (Crash IntOverflow, p') \/
    exists val, kvstore_server_get id key p = (Ok (KvstoreError_UNKNOWN, val), p').
Proof.
  intros Hm Hv Hrange Hint. destruct (kvstore_server_get_run p id key m Hm) as (r & p' & Hrun & _ & Hr).
  { intros v' Hv'. by simplify_eq. }
  exists p'. rewrite Hrun. rewrite Hv in Hr. destruct Hr as [->|[->|Hr]]; [right; eauto..|left].
  assert ((- 2 ^ 31 <=? v) && (v <? 2 ^ 31) = false) as E.
  { unfold is_int in Hint. apply andb_false_iff. rewrite Z.leb_gt, Z.ltb_ge. lia. }
  rewrite E in Hr. by rewrite Hr.
Qed.
End Refinement.

(** ** A database in memory *)

(** the tables, and the statements that were prepared; they are in a part of the kernel *)
Abbreviation memory_db := (tables_t * list stmt_state)%type.
Section MemoryDb.
Context {K : Type} (db : K -> memory_db) (set_db : memory_db -> K -> K) (Hdb : forall d k, db (set_db d k) = d).
Abbreviation db_process := (process K fs_client_t).
Definition put_db (d : memory_db) (p : db_process) : db_process := set_kernel (set_db d (kernel p)) p.
Definition memory_tables (p : db_process) : tables_t := fst (db (kernel p)).
Definition memory_stmts (p : db_process) (stmt : Z) : option stmt_state := snd (db (kernel p)) !! Z.to_nat stmt.
Definition memory_sqlite : Sqlite db_process := {|
  sqlite3_open _ := mret 0;
  sqlite3_exec text := fun p =>
    match sql_parse text ≫= (fun q => sql_effect q (memory_tables p)) with
    | Some T => (Ok 0, put_db (T, snd (db (kernel p))) p)
    | None => (Ok 1, p)
    end;
  sqlite3_prepare_v2 text := fun p =>
    match sql_parse text with
    | Some (SqlSelect t k) =>
        match memory_tables p !! t with
        | Some m => (Ok (0, Z.of_nat (length (snd (db (kernel p))))),
                     put_db (memory_tables p, snd (db (kernel p)) ++ [Selects (m !! k)]) p)
        | None => (Ok (1, 0), p)
        end
    | _ => (Ok (1, 0), p)
    end;
  sqlite3_step stmt := fun p =>
    match memory_stmts p stmt with
    | Some (Selects (Some _)) => (Ok SQLITE_ROW, p)
    | _ => (Ok 101, p)
    end;
  sqlite3_column_text stmt _ := fun p =>
    match memory_stmts p stmt with
    | Some (Selects (Some v)) => (Ok (Some (fmt_d v)), p)
    | _ => (Ok None, p)
    end;
  sqlite3_finalize stmt := fun p =>
    match memory_stmts p stmt with Some (Selects _) => (Ok 0, p) | _ => (Ok 1, p) end;
  sqlite3_close := mret 0;
  sqlite3_shutdown := mret 0
|}.
Lemma put_tables d p : memory_tables (put_db d p) = fst d.
Proof. unfold memory_tables. simpl. by rewrite Hdb. Qed.
Lemma memory_sqlite_tables : @SqliteTables _ memory_sqlite memory_tables memory_stmts.
Proof.
  split.
  - intros p text q Hq. cbn -[sql_effect]. rewrite Hq. cbn -[sql_effect].
    destruct (sql_effect q (memory_tables p)) as [T|] eqn:E.
    + exists 0, (put_db (T, snd (db (kernel p))) p). split; [done|]. by rewrite put_tables.
    + exists 1, p. by split.
  - intros p text t k m Hq Hm. simpl. rewrite Hq, Hm. eexists _, _, _. split; [reflexivity|].
    unfold memory_tables, memory_stmts. simpl. rewrite Hdb, Nat2Z.id. split; [done|].
    intros _. simpl. by rewrite lookup_app_r, Nat.sub_diag by lia.
  - intros p stmt r Hr. simpl. rewrite Hr. destruct r as [v|].
    + exists SQLITE_ROW, p. rewrite Z.eqb_refl. eauto.
    + exists 101, p. simpl. eauto.
  - intros p stmt v Hv. simpl. rewrite Hv. eauto.
  - intros p stmt r Hr. simpl. rewrite Hr. destruct r; eexists _, p; split; try done.
Qed.
End MemoryDb.

Section KvWitnesses.
#[local] Instance plain_sqlite : Sqlite (process memory_db fs_client_t) := memory_sqlite id (fun d _ => d).
#[local] Instance plain_tables : SqliteTables (memory_tables id) (memory_stmts id) :=
  memory_sqlite_tables id (fun d _ => d) (fun _ _ => eq_refl).

Definition kv_server_demo : kvstore_server_context_t :=
    (Kvstore (RsContext [] 0 (ResspcConn 0 0 0) 0 0 0 (EpConn 0 0) 0 (Conn 0 0) (EpConn 0 0))
        (resource_registry_initialize None 0 9) []
      (FsClientState 0 0 0 None 0 [] 0 0) 0).
Definition kv_demo (T : tables_t) : process memory_db kvstore_server_context_t :=
  Process (T, []) shared_zero 0 (fun _ => 0) kv_server_demo.

Lemma kv_refines_map_witness :
  returns (run_ops [StoreSet 1 5 77; StoreGet 1 5; StoreGet 1 6; StoreSet 1 5 (2 ^ 64 - 3);
      StoreGet 1 5]) (kv_demo {[ 1 := ∅ ]})
    (fun rs p' => kv_steps {[ 1 := ∅ ]} [StoreSet 1 5 77; StoreGet 1 5; StoreGet 1 6; StoreSet 1 5 (2 ^ 64 - 3);
        StoreGet 1 5]
      rs (stores (tables := memory_tables id) p')).
Proof.
  apply (kv_refines_map (tables := memory_tables id) (stmts := memory_stmts id)).
  - repeat constructor; try (by eexists); by vm_compute.
  - intros t m k v. change (stores (kv_demo {[1 := ∅]})) with ({[1 := ∅]} : tables_t).
    intros [<- <-]%lookup_singleton_Some Hk. done.
Defined.
Lemma large_value_lost_witness : exists p',
  kvstore_server_get 1 5 (kv_demo {[ 1 := {[ 5 := 2 ^ 31 ]} ]}) = (Crash IntOverflow, p') \/
  exists val, kvstore_server_get 1 5 (kv_demo {[ 1 := {[ 5 := 2 ^ 31 ]} ]}) = (Ok (KvstoreError_UNKNOWN, val), p').
Proof.
  apply (large_value_lost (tables := memory_tables id) (stmts := memory_stmts id) _ 1 5 {[ 5 := 2 ^ 31 ]} (2 ^ 31));
    [by vm_compute|by vm_compute|lia|unfold is_int; lia].
Defined.
End KvWitnesses.
