(* ===== verification/FsOnRamdisk.v ===== *)
(** * The file server on the RAM disk

    The composition of three components: the file system (Xv6Fs), the part of the file
    server that reads and writes its blocks (FsServer), and the process of the RAM disk
    (Ramdisk) with its loop (ResourceServer).  A call of the file server to a capability of
    the RAM disk is an iteration of that server: the message with the badge of the
    capability is in its mail, and the answer comes out of it.  Other calls get any answer.

    The disk of the file server is then a map from block numbers to blocks, and what is
    proved of the file system on such a disk holds for the processes. *)

From stdpp Require Import base numbers list gmap.
From S2P Require Import Prelude Strings Badge Registry State ResourceTypes Component PdResources Resspc Mo Ads AdsRequests Elf Cpu PdObj PdComponent Ep Server Client PdUtils ResourceServer Ramdisk Xv6Bio Xv6Fs Xv6Content Xv6Mkfs Xv6Sys Xv6Files FsServer.

(** ** The kernel *)

(** a message for a server with the badge of its sender, and the answer *)
Record mail := Mail { inbox : option (Z * list Z); outbox : option (list Z) }.

Definition receive : M mail (Z * list Z) :=
  m ← gets inbox;
  match m with Some message => modify (fun m => Mail None (outbox m)) ;; mret message | None => no_fuel end.
(** calls to the GPI server get the answers of [gpi] *)
Definition mail_kernel (gpi : Z -> list Z -> list Z -> Z * list Z) : Kernel mail := {|
  k_call ep words caps := mret (gpi ep words caps);
  k_recv _ := receive;
  k_send _ words := modify (fun m => Mail (inbox m) (Some words));
  k_set_receive_path _ := mret tt;
  k_save_caller _ := mret 0
|}.

(** the process of the RAM disk, at the end of its mail *)
Abbreviation ramdisk_process := (process mail ramdisk_server_context_t).

(** nanopb, for the messages of the RAM disk *)
Record rd_codec := RdCodec {
  rd_encode : RamdiskMessage -> option (list Z);
  rd_decode : list Z -> option RamdiskMessage;
  rd_encode_reply : RamdiskReturnMessage -> option (list Z);
  rd_decode_reply : list Z -> option RamdiskReturnMessage
}.
(** what was encoded is decoded, and messages without content can be encoded *)
Record rd_codec_ok (C : rd_codec) : Prop := {
  rc_request : forall m words, rd_encode C m = Some words -> rd_decode C words = Some m;
  rc_reply : forall r words, rd_encode_reply C r = Some words -> rd_decode_reply C words = Some r;
  rc_command : forall op, is_Some (rd_encode C (RdMessage RD_RPC_MAGIC op));
  rc_answer : forall error, is_Some (rd_encode_reply C (answer error))
}.

Section Composition.
Context (N : nanopb) (generic : Z) (malloc_fails : nat -> bool) (C : rd_codec).
Context (gpi : Z -> list Z -> list Z -> Z * list Z).
(** the badges of the capabilities of the RAM disk in the cspace of the file server; the
    receive slot of the RAM disk; the shared page in its address space *)
Context (rd_badge : Z -> option Z) (receive_slot page : Z).
#[local] Existing Instance mail_kernel.
#[local] Instance to_gpi : Kernel mail := mail_kernel gpi.

(** an iteration of the loop of the RAM disk *)
Definition serve (badge : Z) (words : list Z) : M ramdisk_process (Z * list Z) :=
  modify (set_kernel (Mail (Some (badge, words)) None)) ;;
  _ ← resource_server_step N gen (rd_decode C) (rd_encode_reply C) (ramdisk_request_handler N generic malloc_fails)
        (ramdisk_work_handler N malloc_fails) 0 receive_slot;
  m ← gets kernel;
  match outbox m with Some reply => mret (0, reply) | None => no_fuel end.

#[local] Instance to_ramdisk : Kernel ramdisk_process := {|
  k_call ep words caps := match rd_badge ep with
                          | Some badge => serve badge words
                          | None => mret (gpi ep words caps)
                          end;
  k_recv _ := no_fuel;
  k_send _ _ := mret tt;
  k_set_receive_path _ := mret tt;
  k_save_caller _ := mret 0
|}.

(** the page as the file server sees it *)
Definition page_bytes (r : ramdisk_process) : bytes := fun i => memory r (page + i).
Definition set_page_bytes (f : bytes) (r : ramdisk_process) : ramdisk_process :=
  set_memory (blit (memory r) page f 0 RAMDISK_BLOCK_SIZE) r.

Abbreviation file_server := (process ramdisk_process xv6fs_server_context_t).
Definition the_disk : Disk file_server := server_disk (rd_encode C) (rd_decode_reply C) page_bytes set_page_bytes.
#[local] Existing Instance the_disk.
Implicit Types (t : file_server) (r : ramdisk_process) (b : Z).

(** ** The disk as a map *)

(** the number of the block of the RAM disk that has block [b] of the file system *)
Definition disk_block t b : option Z :=
  conn ← fs_blocks (program t) !! Z.to_nat b; badge ← rd_badge (rd_ep conn); Some (get_object_id_from_badge badge).
Definition block_bytes t b : bytes :=
  whole_block (fun i => memory (kernel t) (block_at (program (kernel t)) (default 0 (disk_block t b)) + i)).

(** the file server may use the first [n] of its blocks, which are different, through the
    page *)
Record disk_ready (n : Z) t : Prop := {
  dr_access : forall b, 0 <= b < n -> exists conn badge, fs_blocks (program t) !! Z.to_nat b = Some conn /\
    rd_badge (rd_ep conn) = Some badge /\ badge <> NOTIF_BADGE /\
    may_access (program (kernel t)) badge (get_object_id_from_badge badge) page;
  dr_distinct : forall b b', 0 <= b < n -> 0 <= b' < n -> disk_block t b = disk_block t b' -> b = b';
  dr_reply_slot : reply_cap_slot (kernel t) <> CapNull
}.
Definition ramdisk_view (n : Z) : disk_view file_server := DiskView block_bytes (disk_ready n).

(** ** The RAM disk serves a request *)
Hypothesis (HC : rd_codec_ok C).

(** a call to the GPI server changes nothing here *)
Lemma to_gpi_pure ep words caps (m : mail) : k_call ep words caps m = (Ok (gpi ep words caps), m).
Proof. done. Qed.

(** the iteration that answers [msg], when the handler changes the memory only *)
Lemma server_step_run r badge words msg reply answer m : badge <> NOTIF_BADGE -> rd_decode C words = Some msg ->
  kernel r = Mail (Some (badge, words)) None -> reply_cap_slot r <> CapNull ->
  (forall r0, program r0 = program r -> memory r0 = memory r ->
     ramdisk_request_handler N generic malloc_fails msg badge receive_slot r0 = (Ok (reply, false), set_memory m r0)) ->
  rd_encode_reply C reply = Some answer ->
  exists r1, resource_server_step N gen (rd_decode C) (rd_encode_reply C)
      (ramdisk_request_handler N generic malloc_fails) (ramdisk_work_handler N malloc_fails) 0 receive_slot r = (Ok 0, r1) /\
    outbox (kernel r1) = Some answer /\ program r1 = program r /\ reply_cap_slot r1 = reply_cap_slot r /\ memory r1 = m.
Proof.
  intros Hn Hw Hk Hslot Hrun Hans. unfold resource_server_step.
  do 2 erewrite bind_ok by reflexivity.
  erewrite bind_ok. 2:{ unfold syscall. simpl. unfold receive. simpl. rewrite Hk. reflexivity. }
  cbv beta iota. rewrite (proj2 (Z.eqb_neq _ _) Hn).
  erewrite bind_ok by reflexivity. rewrite Hw.
  do 2 erewrite bind_ok by reflexivity.
  erewrite bind_ok. 2:{ apply Hrun; reflexivity. }
  cbv beta iota. rewrite Hans. do 3 erewrite bind_ok by reflexivity.
  erewrite bind_ok. 2:{ apply (clear_reply_run N gpi to_gpi_pure). exact Hslot. }
  eexists. split; [reflexivity|]. done.
Qed.

(** what a request for a block does to the memory of the RAM disk *)
Definition after_request (op : RamdiskAction) (block : Z) (m : Z -> Z) : Z -> Z :=
  match op with
  | READ => copied m page block RAMDISK_BLOCK_SIZE
  | _ => copied m block page RAMDISK_BLOCK_SIZE
  end.
Lemma serve_run r badge b op words : may_access (program r) badge b page -> badge <> NOTIF_BADGE ->
  op = READ \/ op = WRITE -> rd_encode C (RdMessage RD_RPC_MAGIC op) = Some words -> reply_cap_slot r <> CapNull ->
  exists reply r', serve badge words r = (Ok (0, reply), r') /\ rd_decode_reply C reply = Some (answer 0) /\
    program r' = program r /\ reply_cap_slot r' = reply_cap_slot r /\
    memory r' = after_request op (block_at (program r) b) (memory r).
Proof.
  intros Ha Hn Hop Hw Hslot. destruct (rc_answer C HC 0) as [reply Hreply].
  set (r0 := set_kernel (Mail (Some (badge, words)) None) r).
  destruct (server_step_run r0 badge words (RdMessage RD_RPC_MAGIC op) (answer 0) reply (after_request op (block_at
      (program r) b) (memory r))
    Hn (rc_request C HC _ _ Hw) eq_refl Hslot) as (r1 & Hstep & Hout & Hp & Hs & Hm).
  { intros r2 Hp Hm. rewrite (access_run N generic malloc_fails r2 badge b page receive_slot op); [|by rewrite Hp|done].
    rewrite Hp, Hm. by destruct Hop as [-> | ->]. }
  { exact Hreply. }
  exists reply, r1. unfold serve. erewrite bind_ok by reflexivity. fold r0. rewrite (bind_ok _ _ _ _ _ Hstep).
  erewrite bind_ok by reflexivity. rewrite Hout. split; [done|]. split; [|done]. by apply (rc_reply C HC).
Qed.

(** ** The blocks of the file server *)

(** a request of the file server *)
Lemma command_run n t b op : disk_ready n t -> 0 <= b < n -> op = READ \/ op = WRITE ->
  exists conn k r', fs_blocks (program t) !! Z.to_nat b = Some conn /\ disk_block t b = Some k /\
    0 <= k < RAMDISK_BLOCKS /\
    (page + RAMDISK_BLOCK_SIZE <= ramdisk_buf (program (kernel t)) \/
     ramdisk_buf (program (kernel t)) + RAMDISK_SIZE_BYTES <= page) /\
    ramdisk_command (rd_encode C) (rd_decode_reply C) (rd_ep conn) op [] t = (Ok 0, set_kernel r' t) /\
    program r' = program (kernel t) /\ reply_cap_slot r' = reply_cap_slot (kernel t) /\
    memory r' = after_request op (block_at (program (kernel t)) k) (memory (kernel t)).
Proof.
  intros [Hacc _ Hslot] Hb Hop. destruct (Hacc b Hb) as (conn & badge & Hconn & Hbadge & Hn & Ha).
  destruct (rc_command C HC op) as [words Hw].
  destruct (serve_run (kernel t) badge _ op words Ha Hn Hop Hw Hslot) as (reply & r' & Hs & Hr & Hp & Hs' & Hm).
  exists conn, (get_object_id_from_badge badge), r'. split; [done|]. split.
  { unfold disk_block. rewrite Hconn. simpl. by rewrite Hbadge. }
  split; [apply Ha|]. split; [apply Ha|]. split; [|done].
  unfold ramdisk_command, sel4gpi_rpc_call. rewrite Hw.
  erewrite bind_ok. 2:{ erewrite bind_ok. 2:{ unfold syscall. simpl. rewrite Hbadge, Hs. reflexivity. }
    cbv beta iota. simpl. rewrite Hr. reflexivity. }
  reflexivity.
Qed.

(** the state of the file server after the RAM disk has served a request *)
Lemma disk_ready_kernel n t r' : disk_ready n t -> program r' = program (kernel t) ->
  reply_cap_slot r' = reply_cap_slot (kernel t) -> disk_ready n (set_kernel r' t).
Proof.
  intros [Hacc Hd Hs] Hp Hs'. split; simpl.
  - intros b Hb. rewrite Hp. by apply Hacc.
  - exact Hd.
  - by rewrite Hs'.
Qed.

Lemma whole_block_at f i : whole_block f i = if (0 <=? i) && (i <? RAMDISK_BLOCK_SIZE) then f i else 0.
Proof. unfold whole_block, blit. by rewrite Z.sub_0_r. Qed.
Lemma block_bytes_at t b k : disk_block t b = Some k -> forall i, block_bytes t b i =
  if (0 <=? i) && (i <? RAMDISK_BLOCK_SIZE) then memory (kernel t) (block_at (program (kernel t)) k + i) else 0.
Proof. intros Hk i. unfold block_bytes. by rewrite whole_block_at, Hk. Qed.

(** a block of the disk is not in the page, and blocks do not overlap *)
Lemma block_apart s k i : 0 <= k < RAMDISK_BLOCKS -> 0 <= i < RAMDISK_BLOCK_SIZE ->
  ramdisk_buf s <= block_at s k + i < ramdisk_buf s + RAMDISK_SIZE_BYTES.
Proof.
  unfold block_at, RAMDISK_BLOCKS, RAMDISK_BLOCK_SIZE, RAMDISK_SIZE_BYTES. change (2 ^ 22 / 4096) with 1024. lia.
Qed.
Lemma block_at_other s k k' i : 0 <= i < RAMDISK_BLOCK_SIZE -> k <> k' ->
  ~ (block_at s k' <= block_at s k + i < block_at s k' + RAMDISK_BLOCK_SIZE).
Proof. unfold block_at, RAMDISK_BLOCK_SIZE. lia. Qed.

Lemma copied_at m dst src n i : 0 <= i < n -> copied m dst src n (dst + i) = m (src + i).
Proof.
  intros Hi. unfold copied. rewrite (proj2 (Z.leb_le _ _)), (proj2 (Z.ltb_lt _ _)) by lia. simpl. f_equal. lia.
Qed.
Lemma page_written r data i : 0 <= i < RAMDISK_BLOCK_SIZE ->
  memory (set_page_bytes (blit (page_bytes r) 0 data 0 RAMDISK_BLOCK_SIZE) r) (page + i) = data i.
Proof.
  intros Hi. simpl. unfold blit. rewrite (proj2 (Z.leb_le page _)), (proj2 (Z.ltb_lt (page + i) _)) by lia. simpl.
  rewrite (proj2 (Z.leb_le _ _)), (proj2 (Z.ltb_lt _ _)) by lia. simpl. f_equal. lia.
Qed.

Lemma block_conn_run t b conn : fs_blocks (program t) !! Z.to_nat b = Some conn -> block_conn b t = (Ok conn, t).
Proof. intros Hc. unfold block_conn. erewrite bind_ok by reflexivity. by rewrite Hc. Qed.

Lemma disk_read_run n t b data : disk_ready n t -> 0 <= b < n -> exists data' t', xv6fs_bread b data t = (Ok data', t') /\
  (forall i, data' i = block_bytes t b i) /\ (forall b' i, 0 <= b' < n -> block_bytes t' b' i = block_bytes t b' i) /\
  disk_ready n t'.
Proof.
  intros Hr Hb. destruct (command_run n t b READ Hr Hb) as (conn & k & r' & Hconn & Hk & Hrange & Hap & Hrun & Hp & Hs & Hm);
    [by left|].
  exists (whole_block (page_bytes r')), (set_kernel r' t). split.
  { cbn [xv6fs_bread the_disk server_disk]. unfold block_read, ramdisk_client_read.
    erewrite (bind_ok _ _ _ (0, _)); [reflexivity|]. rewrite (bind_ok _ _ _ _ _ (block_conn_run t b conn Hconn)).
    rewrite (bind_ok _ _ _ _ _ Hrun). cbn [Z.eqb]. by erewrite bind_ok by reflexivity. }
  split; [|split; [|by apply disk_ready_kernel]].
  - intros i. rewrite (block_bytes_at t b k Hk). rewrite whole_block_at. case_match eqn:Ei;
      [|done]. unfold page_bytes. rewrite Hm. zify_bool. apply copied_at. lia.
  - intros b' i Hb'. destruct (dr_access _ _ Hr b' Hb') as (conn' & badge' & Hconn' & Hbadge' & _ & Ha').
    assert (disk_block t b' = Some (get_object_id_from_badge badge')) as Hk'
      by (unfold disk_block; rewrite Hconn'; simpl; by rewrite Hbadge').
    rewrite (block_bytes_at t b' _ Hk'), (block_bytes_at (set_kernel r' t) b' _ Hk'). case_match eqn:Ei; [|done].
    simpl. rewrite Hp, Hm. unfold after_request, copied. zify_bool.
    pose proof (block_apart (program (kernel t)) _ i (ma_range _ _ _ _ Ha') ltac:(lia)).
    case_bool; [|done]. exfalso. zify_bool. lia.
Qed.

Lemma disk_write_run n t b data : disk_ready n t -> 0 <= b < n -> exists t', xv6fs_bwrite b data t = (Ok tt, t') /\
  (forall b' i, 0 <= b' < n -> block_bytes t' b' i = upd (block_bytes t) b (whole_block data) b' i) /\
  disk_ready n t'.
Proof.
  intros Hr Hb. set (t1 := set_kernel (set_page_bytes (blit (page_bytes (kernel t)) 0 data 0 RAMDISK_BLOCK_SIZE)
      (kernel t)) t).
  assert (disk_ready n t1) as Hr1 by by apply disk_ready_kernel.
  destruct (command_run n t1 b WRITE Hr1 Hb) as (conn & k & r' & Hconn & Hk & Hrange & Hap & Hrun & Hp & Hs & Hm);
    [by right|].
  exists (set_kernel r' t1). split.
  { cbn [xv6fs_bwrite the_disk server_disk]. unfold block_write, ramdisk_client_write.
    erewrite (bind_ok _ _ _ 0); [reflexivity|]. rewrite (bind_ok _ _ t tt t1) by reflexivity.
    rewrite (bind_ok _ _ _ _ _ (block_conn_run t1 b conn Hconn)). exact Hrun. }
  split; [|by apply disk_ready_kernel].
  intros b' i Hb'. destruct (dr_access _ _ Hr b' Hb') as (conn' & badge' & Hconn' & Hbadge' & _ & Ha').
  assert (disk_block t b' = Some (get_object_id_from_badge badge')) as Hk'
    by (unfold disk_block; rewrite Hconn'; simpl; by rewrite Hbadge').
  rewrite (block_bytes_at (set_kernel r' t1) b' _ Hk'). simpl. rewrite Hp, Hm. simpl. unfold upd.
  pose proof (ma_range _ _ _ _ Ha') as Hrange'. set (k' := get_object_id_from_badge badge') in *.
  destruct (Z.eqb_spec b' b) as [->|Hne].
  - assert (k' = k) as -> by (change (disk_block t b = Some k) in Hk; congruence).
    rewrite whole_block_at. case_match eqn:Ei; [|done]. zify_bool.
    change (program (kernel t1)) with (program (kernel t)). rewrite copied_at by lia. apply (page_written (kernel t)). lia.
  - rewrite (block_bytes_at t b' _ Hk'). case_match eqn:Ei; [|done]. zify_bool.
    assert (k' <> k) as Hkk.
    { intros E. apply Hne, (dr_distinct _ _ Hr); [done..|]. change (disk_block t b = Some k) in Hk. congruence. }
    pose proof (block_apart (program (kernel t)) _ i Hrange' ltac:(lia)).
    pose proof (block_at_other (program (kernel t)) k' k i ltac:(lia) Hkk) as Ho.
    change (ramdisk_buf (program (kernel t1))) with (ramdisk_buf (program (kernel t))) in Hap.
    unfold copied. case_bool; [exfalso; zify_bool; lia|]. unfold blit. case_bool; [exfalso; zify_bool; lia|done].
Qed.

Lemma ramdisk_fits n bs : NoDup bs -> (length bs <= NBUF)%nat -> (forall b, b ∈ bs -> 0 <= b < n) ->
  fits (Disk0 := the_disk) (ramdisk_view n) n bs.
Proof. intros ???. split; [|done..]. intros t b data Hr Hb. by apply disk_read_run. Qed.

(** C6: the file server's blocks are a map.  Through the messages, the loop of the RAM disk
    and the shared page, reading a block returns its contents whatever was in the buffer, and
    changes none; writing one changes that block to the bytes of the buffer and no other.
    The processes stay as they must be for the next request. *)
Theorem server_disk_refines n t b data (Hr : disk_ready n t) (Hb : 0 <= b < n) :
  (exists data' t', xv6fs_bread b data t = (Ok data', t') /\ (forall i, data' i = block_bytes t b i) /\
     (forall b' i, 0 <= b' < n -> block_bytes t' b' i = block_bytes t b' i) /\ disk_ready n t') /\
  (exists t', xv6fs_bwrite b data t = (Ok tt, t') /\
     (forall b' i, 0 <= b' < n -> block_bytes t' b' i = upd (block_bytes t) b (whole_block data) b' i) /\
     disk_ready n t').
Proof. split; [by apply disk_read_run|by apply disk_write_run]. Qed.

(** C5: what the file server writes to an open file it reads back.  The composition of the
    system calls, the file system with its cache, the messages and the RAM disk: for a file
    system whose blocks are on the RAM disk, xv6fs_sys_write of bytes at a place of a file, up
    to its end, followed by xv6fs_sys_read returns the bytes, in however many pieces they are
    written, and whatever blocks are allocated for them and fetched on the way.  This holds as
    long as all the blocks that are touched, those of the file, its inode, the bitmap and the
    free ones that may be allocated, are among at most [NBUF] = 30 blocks, as many as the cache
    has buffers: the cache never writes back, so with more blocks changes are lost (see
    [cache_loses_changes] in the file Xv6Bio).  There must be free blocks for what is
    written. *)
Theorem file_on_ramdisk_roundtrip (n : Z) (bs : list Z) (sb0 : superblock) (first : Z) (v : Z -> bytes) (x : xv6_t)
    (f ip : nat) (ff : file) (i : inode) (s : file_server * xv6_t) (src dst : bytes) (p d off n0 : Z) (l : list Z)
    (Hnd : NoDup bs) (Hlen : (length bs <= NBUF)%nat) (Hbs : forall b, b ∈ bs -> 0 <= b < n)
    (Hg : geometry sb0 first bs)
    (Ho : open_file (content := ramdisk_view n) (n := n) (bs := bs) (sb0 := sb0) (first := first) l v x f ff ip i s)
    (Hw : f_writable ff = true) (Hr : f_readable ff = true)
    (Hoff : 0 <= off <= i_size i) (Hn : 0 <= n0) (Hmax : off + n0 <= MAXFILE * BSIZE) (Hcov : covers l off n0) :
  returns (r ← xv6fs_sys_write (Some f) src p n0 off; out ← xv6fs_sys_read (Some f) dst d n0 off;
           mret (r, fst out, snd out)) s
    (fun out _ => let '(written, read, dst') := out in
      written = n0 /\ read = n0 /\ forall k, dst' k = blit dst d src p n0 k).
Proof. by eapply (sys_write_read_run (ramdisk_fits n bs Hnd Hlen Hbs) Hg). Qed.
End Composition.

(** ** A file server and a RAM disk *)
Section Witnesses.
(** a message is a number: the operation, or the error of an answer *)
Definition op_code (op : RamdiskAction) : Z :=
  match op with BIND => 0 | UNBIND => 1 | ALLOC => 2 | READ => 3 | WRITE => 4 | FREE => 5 | RamdiskOther => 6 end.
Definition code_op (c : Z) : RamdiskAction :=
  if c =? 0 then BIND else if c =? 1 then UNBIND else if c =? 2 then ALLOC else if c =? 3 then READ
  else if c =? 4 then WRITE else if c =? 5 then FREE else RamdiskOther.
Definition codec_demo : rd_codec := RdCodec
  (fun m => Some [rd_magic m; op_code (rd_op m)])
  (fun words => match words with [magic; c] => Some (RdMessage magic (code_op c)) | _ => None end)
  (fun r => match rd_msg r with RamdiskBasicReturn => Some [rd_errorCode r] | _ => None end)
  (fun words => match words with [error] => Some (answer error) | _ => None end).
Lemma codec_demo_ok : rd_codec_ok codec_demo.
Proof.
  split; try by eexists.
  - intros [magic op] words [= <-]. simpl. by destruct op.
  - intros [error msg] words. simpl. destruct msg; [|done]. by intros [= <-].
Qed.
Definition gpi_demo (ep : Z) (words caps : list Z) : Z * list Z := (1, []).

(** the slots from 100 on have the blocks of the RAM disk from block 10 on; the file server
    is PD 5 and shares the page at 100000 with it *)
Definition slots_demo (ep : Z) : option Z :=
  if (100 <=? ep) && (ep <? 164) then Some (badge_of 17 5 8 (ep - 90)) else None.
(** the disk has the file system of 64 blocks, in which the first 10 are in use *)
Definition ramdisk_demo : ramdisk_process :=
  Process (Mail None None) shared_zero 12
    (fun a => let k := a - 2 ^ 24 - 10 * RAMDISK_BLOCK_SIZE in demo_view (k / RAMDISK_BLOCK_SIZE) (k mod RAMDISK_BLOCK_SIZE))
    (Ramdisk gen_demo (2 ^ 24) None None (<[5%nat := 100000]> (repeat 0 MAX_CLIENT_ID)) ∅ 0).
Definition file_demo : file := File FD_INODE 3 1 true true 0 0 None O_RDWR.
Definition xv6_demo : xv6_t := set_files {[0%nat := file_demo]} (snd demo_state).
Definition server_demo : process ramdisk_process xv6fs_server_context_t :=
  Process ramdisk_demo shared_zero 0 (fun _ => 0)
    (Xv6Server gen_demo 9 (resource_registry_initialize None 0 0) (resource_registry_initialize None 0 0) None 0
       ((fun i => RdClient (100 + Z.of_nat i) 8 (10 + Z.of_nat i)) <$> seq 0 64) xv6_demo).
Abbreviation demo_bytes := (block_bytes slots_demo).

Lemma blocks_demo b : 0 <= b < 64 ->
  fs_blocks (program server_demo) !! Z.to_nat b = Some (RdClient (100 + b) 8 (10 + b)) /\
  slots_demo (100 + b) = Some (badge_of 17 5 8 (10 + b)).
Proof.
  intros Hb. split.
  - cbn [program fs_blocks server_demo]. rewrite list_lookup_fmap, lookup_seq_lt by lia. simpl. do 2 f_equal; lia.
  - unfold slots_demo. rewrite (proj2 (Z.leb_le _ _)), (proj2 (Z.ltb_lt _ _)) by lia. simpl. do 2 f_equal. lia.
Qed.
Lemma badges_demo b : 0 <= b < 64 -> let badge := badge_of 17 5 8 (10 + b) in
  badge <> NOTIF_BADGE /\ badge <> 0 /\ get_cap_type_from_badge badge = 17 /\ get_client_id_from_badge badge = 5 /\
  get_object_id_from_badge badge = 10 + b.
Proof.
  intros Hb badge.
  destruct (badge_of_fields 17 5 8 (10 + b)) as (Et & _ & _ & Ec & Eo);
    [by vm_compute..|unfold obj_ok; change (2 ^ 20) with 1048576; lia|].
  repeat split; [apply badge_of_not_notif; try by vm_compute|..|done|done|done].
  - unfold obj_ok. change (2 ^ 20) with 1048576. lia.
  - intros E. fold badge in Et. by rewrite E in Et.
Qed.
Lemma server_demo_ready : disk_ready slots_demo 100000 64 server_demo.
Proof.
  split; [| |done].
  - intros b Hb. destruct (blocks_demo b Hb) as [Hc Hs]. destruct (badges_demo b Hb) as (Hn & H0 & Ht & Hcl & Ho).
    exists (RdClient (100 + b) 8 (10 + b)), (badge_of 17 5 8 (10 + b)). do 3 (split; [done|]).
    rewrite Ho. split; try done.
    + change RAMDISK_BLOCKS with 1024. lia.
    + by rewrite Hcl.
    + left. simpl. unfold RAMDISK_BLOCK_SIZE. lia.
  - intros b b' Hb Hb'. unfold disk_block. destruct (blocks_demo b Hb) as [-> Hs], (blocks_demo b' Hb') as [-> Hs'].
    simpl. rewrite Hs, Hs'. simpl. destruct (badges_demo b Hb) as (_ & _ & _ & _ & ->), (badges_demo b' Hb') as
        (_ & _ & _ & _ & ->).
    intros [= E]. lia.
Qed.

Definition nanopb_silent : nanopb := Nanopb (fun _ _ => None) (fun _ _ => None).
Abbreviation disk_demo := (the_disk nanopb_silent 1 (fun _ => false) codec_demo gpi_demo slots_demo 2 100000).
Lemma server_disk_refines_witness :
  (exists data' t', xv6fs_bread (Disk := disk_demo) 4 (fun _ => 7) server_demo = (Ok data', t') /\
     (forall i, data' i = demo_bytes server_demo 4 i) /\
     (forall b' i, 0 <= b' < 64 -> demo_bytes t' b' i = demo_bytes server_demo b' i) /\
         disk_ready slots_demo 100000 64 t') /\
  (exists t', xv6fs_bwrite (Disk := disk_demo) 4 (fun _ => 7) server_demo = (Ok tt, t') /\
     (forall b' i, 0 <= b' < 64 -> demo_bytes t' b' i = upd (demo_bytes server_demo) 4 (whole_block (fun _ => 7)) b' i) /\
     disk_ready slots_demo 100000 64 t').
Proof.
  apply (server_disk_refines nanopb_silent 1 (fun _ => false) codec_demo gpi_demo slots_demo 2 100000 codec_demo_ok
    64 server_demo 4 (fun _ => 7) server_demo_ready). lia.
Defined.

(** the file with the inode 3 is open *)
Definition state_demo : process ramdisk_process xv6fs_server_context_t * xv6_t := (server_demo, xv6_demo).
Lemma file_demo_open : open_file (content := ramdisk_view slots_demo 100000 64) (n := 64) (bs := demo_blocks)
  (sb0 := demo_sb) (first := 10) [0; 1] (demo_bytes server_demo) xv6_demo 0 file_demo 0 demo_inode state_demo.
Proof.
  assert (forall k, slot_addr (demo_bytes server_demo) demo_inode k = 0) as Hz.
  { intros k. unfold slot_addr. simpl i_addrs. assert (forall j, default 0 (repeat 0 13 !! j) = 0) as H0.
    { intros j. destruct (repeat 0 13 !! j) eqn:E; [|done]. simpl.
        eapply repeat_spec, list_elem_of_In, list_elem_of_lookup_2, E. }
    by rewrite !H0; case_bool. }
  destruct demo_ready as [Hrange Hplace Hnd Hl _]. split; try done.
  - split; [|done|done|].
    + split; [apply cache_init|done|exact server_demo_ready].
    + split; [done|done|..]; intros k; rewrite Hz; done.
  - split; [done..|]. split; [apply (bool_decide_unpack _); by vm_compute|]. intros b Hb.
    assert (b ∈ [10; 11]) as Hb' by (revert Hb; vm_compute; done).
    apply elem_of_cons in Hb' as [->|Hb'%list_elem_of_singleton]; [|subst b];
      (split; [lia|apply elem_of_seqZ; lia]).
Qed.
Lemma file_on_ramdisk_roundtrip_witness :
  returns (r ← xv6fs_sys_write (Disk0 := disk_demo) (Some 0%nat) (fun k => k mod 251) 5 8000 0;
           out ← xv6fs_sys_read (Disk0 := disk_demo) (Some 0%nat) (fun _ => 0) 100 8000 0;
               mret (r, fst out, snd out)) state_demo
    (fun out _ => let '(written, read, dst') := out in
      written = 8000 /\ read = 8000 /\ forall k, dst' k = blit (fun _ => 0) 100 (fun k => k mod 251) 5 8000 k).
Proof.
  apply (file_on_ramdisk_roundtrip nanopb_silent 1 (fun _ => false) codec_demo gpi_demo slots_demo 2 100000 codec_demo_ok
    64 demo_blocks demo_sb 10 (demo_bytes server_demo) xv6_demo 0 0 file_demo demo_inode state_demo
    (fun k => k mod 251) (fun _ => 0) 5 100 0 8000 [0; 1]); try done; try (simpl; lia).
  - apply NoDup_seqZ.
  - vm_compute. lia.
  - intros b Hb%elem_of_seqZ. lia.
  - exact demo_geometry.
  - exact file_demo_open.
  - apply demo_covers. lia.
Defined.
End Witnesses.
