(* ===== verification/PdCreation.v ===== *)
(** * Creating a PD

    Model of [libsel4gpi/src/pd_creation.c]: the library with which a PD assembles
    another one from a configuration.  The configuration says which regions the new
    address space has, which directory entries and types of resources the new PD is
    given, and how its CPU starts; sel4gpi_prepare_pd works through it with the
    stubs of the client library.

    The lists of a configuration are the lists that the linked lists represent (the
    file LinkedList).  A configuration is updated while it is worked through (it
    records the addresses and memory objects that were chosen), so the functions
    that take a pointer to one also return it; the pointers from the runtime context
    into the list of regions are positions in it.  The allocator (calloc) and the C
    runtime (sel4runtime) are parameters. *)

From stdpp Require Import base numbers list gmap.
From S2P Require Import Prelude Badge Registry State ResourceTypes Component PdResources Resspc Mo Ads AdsRequests Elf Cpu PdObj PdComponent Ep Server Client PdUtils.

(** ** pd_creation.h *)
Definition DEFAULT_STACK_PAGES : Z := 16.
Definition DEFAULT_HEAP_PAGES : Z := 100.

(** sel4gpi_runnable_t *)
Record sel4gpi_runnable_t := Runnable { rn_pd : conn_t; rn_ads : conn_t; rn_cpu : conn_t }.
Definition set_rn_pd (v : conn_t) (x : sel4gpi_runnable_t) : sel4gpi_runnable_t := Runnable v (rn_ads x) (rn_cpu x).
Definition set_rn_ads (v : conn_t) (x : sel4gpi_runnable_t) : sel4gpi_runnable_t := Runnable (rn_pd x) v (rn_cpu x).
Definition set_rn_cpu (v : conn_t) (x : sel4gpi_runnable_t) : sel4gpi_runnable_t := Runnable (rn_pd x) (rn_ads x) v.

(** gpi_share_degree_t *)
Definition GPI_SHARED : Z := 1.
Definition GPI_DISJOINT : Z := 2.

(** vmr_config_t is that of the file Ads; a memory object without an endpoint is none *)
Definition set_cfg_start (v : Z) (x : vmr_config_t) : vmr_config_t :=
  VmrConfig (share_mode x) (cfg_type x) v (cfg_dest_start x) (region_pages x) (cfg_page_bits x) (cfg_mo x).
Definition set_cfg_mo (v : conn_t) (x : vmr_config_t) : vmr_config_t :=
  VmrConfig (share_mode x) (cfg_type x) (cfg_start x) (cfg_dest_start x) (region_pages x) (cfg_page_bits x) v.

(** runtime_context_t; the two configurations are positions in the list of regions *)
Record runtime_context_t := RuntimeContext {
  entry_point : Z;
  osm_data : Z;
  stack_cfg : option nat;
  ipc_buf_cfg : option nat;
  loaded_elf : bool
}.
Definition runtime_context_zero : runtime_context_t := RuntimeContext 0 0 None None false.
Definition set_entry_point (v : Z) (x : runtime_context_t) : runtime_context_t :=
  RuntimeContext v (osm_data x) (stack_cfg x) (ipc_buf_cfg x) (loaded_elf x).
Definition set_osm_data (v : Z) (x : runtime_context_t) : runtime_context_t :=
  RuntimeContext (entry_point x) v (stack_cfg x) (ipc_buf_cfg x) (loaded_elf x).
Definition set_stack_cfg (v : option nat) (x : runtime_context_t) : runtime_context_t :=
  RuntimeContext (entry_point x) (osm_data x) v (ipc_buf_cfg x) (loaded_elf x).
Definition set_ipc_buf_cfg (v : option nat) (x : runtime_context_t) : runtime_context_t :=
  RuntimeContext (entry_point x) (osm_data x) (stack_cfg x) v (loaded_elf x).
Definition set_loaded_elf (v : bool) (x : runtime_context_t) : runtime_context_t :=
  RuntimeContext (entry_point x) (osm_data x) (stack_cfg x) (ipc_buf_cfg x) v.

(** ads_config_t: the name and the list may be NULL *)
Record ads_config_t := AdsConfig {
  image_name : option (list Z);
  ac_entry_point : Z;
  vmr_cfgs : option (list vmr_config_t)
}.
Definition set_vmr_cfgs (v : option (list vmr_config_t)) (x : ads_config_t) : ads_config_t :=
  AdsConfig (image_name x) (ac_entry_point x) v.

(** rde_config_t *)
Record rde_config_t := RdeConfig { rc_type : Z; rc_space_id : Z }.

(** pd_config_t, less the member that nothing uses *)
Record pd_config_t := PdConfig {
  osm_data_mo : conn_t;
  ads_cfg : ads_config_t;
  rde_cfg : option (list rde_config_t);
  gpi_res_type_cfg : option (list Z);
  elevated_cpu : bool;
  link_with_current : bool;
  pc_fault_ep : ep_conn_t;
  fault_ep_badge : Z;
  cpu_prio : Z
}.
Definition ep_conn_zero : ep_conn_t := EpConn 0 0.
Definition pd_config_zero : pd_config_t :=
  PdConfig conn_zero (AdsConfig None 0 None) None None false false ep_conn_zero 0 0.
Definition set_osm_data_mo (v : conn_t) (x : pd_config_t) : pd_config_t :=
  PdConfig v (ads_cfg x) (rde_cfg x) (gpi_res_type_cfg x) (elevated_cpu x) (link_with_current x)
    (pc_fault_ep x) (fault_ep_badge x) (cpu_prio x).
Definition set_ads_cfg (v : ads_config_t) (x : pd_config_t) : pd_config_t :=
  PdConfig (osm_data_mo x) v (rde_cfg x) (gpi_res_type_cfg x) (elevated_cpu x) (link_with_current x)
    (pc_fault_ep x) (fault_ep_badge x) (cpu_prio x).
Definition set_rde_cfg (v : option (list rde_config_t)) (x : pd_config_t) : pd_config_t :=
  PdConfig (osm_data_mo x) (ads_cfg x) v (gpi_res_type_cfg x) (elevated_cpu x) (link_with_current x)
    (pc_fault_ep x) (fault_ep_badge x) (cpu_prio x).
Definition set_gpi_res_type_cfg (v : option (list Z)) (x : pd_config_t) : pd_config_t :=
  PdConfig (osm_data_mo x) (ads_cfg x) (rde_cfg x) v (elevated_cpu x) (link_with_current x)
    (pc_fault_ep x) (fault_ep_badge x) (cpu_prio x).
Definition set_link_with_current (v : bool) (x : pd_config_t) : pd_config_t :=
  PdConfig (osm_data_mo x) (ads_cfg x) (rde_cfg x) (gpi_res_type_cfg x) (elevated_cpu x) v
    (pc_fault_ep x) (fault_ep_badge x) (cpu_prio x).
Definition set_pc_fault_ep (v : ep_conn_t) (x : pd_config_t) : pd_config_t :=
  PdConfig (osm_data_mo x) (ads_cfg x) (rde_cfg x) (gpi_res_type_cfg x) (elevated_cpu x)
    (link_with_current x) v (fault_ep_badge x) (cpu_prio x).

(** sel4runtime: the size of the thread-local storage; writing its image at an
    address, which gives the thread pointer; setting one of the two variables *)
Inductive tls_variable := sel4_ipc_buffer | sel4gpi_osm_data.
Record runtime := Runtime {
  get_tls_size : Z;
  write_tls_image : Z -> (Z -> Z) -> Z * (Z -> Z);
  set_tls_variable : Z -> tls_variable -> Z -> (Z -> Z) -> (Z -> Z)
}.

(** ALIGN_DOWN(x, n), for a power of two *)
Definition ALIGN_DOWN (x n : Z) : Z := Z.ldiff x (n - 1).

Section PdCreation.
Context {K A : Type} `{!Kernel K} (N : nanopb) (R : reservation_types) (L : runtime).
(** seL4_LargePageBits, PD_HEAP_LOC, the guard of a PD's CNode, the address of the
    entry point _start, and STACK_CALL_ALIGNMENT *)
Context (MO_LARGE_PAGE_BITS PD_HEAP_LOC pd_cnode_guard start_addr STACK_CALL_ALIGNMENT : Z).
(** calloc: whether it succeeds *)
Context (try_calloc : A -> bool * A).
Abbreviation P := (M (process K A)).

Definition calloc : P bool :=
  a ← prog; let '(ok, a') := try_calloc a in prog_modify (fun _ => a') ;; mret ok.
(** ... and its assertion *)
Definition calloc_assert : P unit := ok ← calloc; assert_ ok.

(** linked_list_new and linked_list_insert *)
Definition new_list {B} : P (list B) := calloc_assert ;; mret [].
Definition insert_list {B} (l : list B) (x : B) : P (list B) := calloc_assert ;; mret (l ++ [x]).
Fixpoint insert_many {B} (l : list B) (xs : list B) : P (list B) :=
  match xs with
  | [] => mret l
  | x :: xs => l ← insert_list l x; insert_many l xs
  end.

(** ** Stacks *)

(** the top of the stack (0 is NULL), and the memory object *)
Definition sel4gpi_new_sized_stack (vmr_rde n_pages : Z) : P (Z * option conn_t) :=
  mo_rde ← sel4gpi_get_rde GPICAP_TYPE_MO;
  if mo_rde =? CapNull then mret (0, None) else
  let res_size := u64 (u64 (n_pages + 1) * 2 ^ seL4_PageBits) in
  r ← vmr_client_reserve N vmr_rde 0 res_size seL4_PageBits (RES_TYPE_STACK R);
  let '(error, reservation) := r : Z * option (Z * Z) in
  if negb (error =? 0) then mret (0, None) else
  reservation ← deref_conn reservation;
  let '(slot, vaddr) := reservation : Z * Z in
  r ← mo_component_client_connect N mo_rde n_pages seL4_PageBits;
  let '(error, mo) := r : Z * option conn_t in
  if negb (error =? 0) then mret (0, None) else
  mo ← deref_conn mo;
  error ← vmr_client_attach N slot mo (2 ^ seL4_PageBits);
  if negb (error =? 0) then mret (0, None) else
  mret (u64 (vaddr + res_size), Some mo).

(** ** Configurations *)

(** [None] is NULL; the runnable is filled in as far as it goes *)
Definition sel4gpi_new_runnable (new_ads new_cpu : bool) (runnable : sel4gpi_runnable_t)
  : P (option pd_config_t * sel4gpi_runnable_t) :=
  pd_rde ← sel4gpi_get_rde GPICAP_TYPE_PD;
  if pd_rde =? CapNull then mret (None, runnable) else
  mo_rde ← sel4gpi_get_rde GPICAP_TYPE_MO;
  if mo_rde =? CapNull then mret (None, runnable) else
  r ← mo_component_client_connect N mo_rde 1 seL4_PageBits;
  let '(error, mo) := r : Z * option conn_t in
  if negb (error =? 0) then mret (None, runnable) else
  mo ← deref_conn mo;
  r ← pd_component_client_connect N pd_rde mo;
  let '(error, pd) := r : Z * option conn_t in
  if negb (error =? 0) then mret (None, runnable) else
  pd ← deref_conn pd;
  let runnable := set_rn_pd pd runnable in
  r ← (if new_ads then
         ads_rde ← sel4gpi_get_rde GPICAP_TYPE_ADS;
         if ads_rde =? CapNull then mret (1, runnable) else
         r ← ads_component_client_connect N ads_rde;
         let '(error, ads) := r : Z * option conn_t in
         mret (error, match ads with Some ads => set_rn_ads ads runnable | None => runnable end)
       else mret (0, runnable));
  let '(error, runnable) := r : Z * sel4gpi_runnable_t in
  if negb (error =? 0) then mret (None, runnable) else
  r ← (if new_cpu then
         cpu_rde ← sel4gpi_get_rde GPICAP_TYPE_CPU;
         if cpu_rde =? CapNull then mret (1, runnable) else
         r ← cpu_component_client_connect N cpu_rde;
         let '(error, cpu) := r : Z * option conn_t in
         mret (error, match cpu with Some cpu => set_rn_cpu cpu runnable | None => runnable end)
       else mret (0, runnable));
  let '(error, runnable) := r : Z * sel4gpi_runnable_t in
  if negb (error =? 0) then mret (None, runnable) else
  (* the result of calloc is not tested *)
  ok ← calloc;
  if ok : bool then mret (Some (set_osm_data_mo mo pd_config_zero), runnable) else crash NullDeref.

Definition disjoint_vmr (type start pages : Z) : vmr_config_t :=
  VmrConfig GPI_DISJOINT type start 0 pages 0 conn_zero.

Definition sel4gpi_generate_proc_config (proc_cfg : pd_config_t) (name : list Z) (stack_pages heap_pages : Z)
  : P pd_config_t :=
  vmrs ← new_list;
  calloc_assert ;; calloc_assert ;; calloc_assert ;; calloc_assert ;;
  vmrs ← insert_many vmrs
    [disjoint_vmr (RES_TYPE_CODE R) 0 0; disjoint_vmr (RES_TYPE_HEAP R) PD_HEAP_LOC heap_pages;
     disjoint_vmr (RES_TYPE_STACK R) 0 stack_pages; disjoint_vmr (RES_TYPE_IPC_BUF R) 0 1];
  rdes ← new_list;
  calloc_assert ;; calloc_assert ;;
  rdes ← insert_many rdes
    [RdeConfig GPICAP_TYPE_MO BADGE_SPACE_ID_NULL; RdeConfig GPICAP_TYPE_RESSPC BADGE_SPACE_ID_NULL];
  mret (set_rde_cfg (Some rdes)
    (set_ads_cfg (AdsConfig (Some name) (ac_entry_point (ads_cfg proc_cfg)) (Some vmrs)) proc_cfg)).

(** the sizes are arguments, and not used *)
Definition sel4gpi_configure_process (name : list Z) (stack_pages heap_pages : Z) (runnable : sel4gpi_runnable_t)
  : P (option pd_config_t * sel4gpi_runnable_t) :=
  r ← sel4gpi_new_runnable true true runnable;
  let '(proc_cfg, runnable) := r : option pd_config_t * sel4gpi_runnable_t in
  match proc_cfg with
  | None => mret (None, runnable)
  | Some proc_cfg =>
      proc_cfg ← sel4gpi_generate_proc_config proc_cfg name DEFAULT_STACK_PAGES DEFAULT_HEAP_PAGES;
      calloc_assert ;;
      rdes ← deref (rde_cfg proc_cfg);
      rdes ← insert_list rdes (RdeConfig GPICAP_TYPE_VMR (conn_id (rn_ads runnable)));
      mret (Some (set_rde_cfg (Some rdes) proc_cfg), runnable)
  end.

(** without memory the entry is left out *)
Definition sel4gpi_add_rde_config (cfg : pd_config_t) (rde_type space_id : Z) : P pd_config_t :=
  rdes ← (match rde_cfg cfg with Some l => mret l | None => new_list end);
  ok ← calloc;
  if ok : bool then
    rdes ← insert_list rdes (RdeConfig rde_type space_id); mret (set_rde_cfg (Some rdes) cfg)
  else mret (set_rde_cfg (Some rdes) cfg).

Definition sel4gpi_add_vmr_config (cfg : ads_config_t) (mode type start dest pages page_bits : Z)
    (mo : option conn_t) : P ads_config_t :=
  vmrs ← (match vmr_cfgs cfg with Some l => mret l | None => new_list end);
  calloc_assert ;;
  vmrs ← insert_list vmrs (VmrConfig mode type start dest pages page_bits (default conn_zero mo));
  mret (set_vmr_cfgs (Some vmrs) cfg).

Definition sel4gpi_add_res_type_config (cfg : pd_config_t) (resource_type : Z) : P pd_config_t :=
  types ← (match gpi_res_type_cfg cfg with Some l => mret l | None => new_list end);
  types ← insert_list types resource_type;
  mret (set_gpi_res_type_cfg (Some types) cfg).

(** the two loops over the directory: an entry from index [j], with [todo] left of
    its row, and a row from type [i]; every entry also allocates a configuration
    that is never used *)
Fixpoint share_row (cfg : pd_config_t) (i : Z) (j todo : nat) : P pd_config_t :=
  match todo with
  | O => mret cfg
  | S todo =>
      e ← rde_at i j;
      cfg ← (if negb (rde_type e =? GPICAP_TYPE_NONE) then
               _ ← calloc; sel4gpi_add_rde_config cfg (rde_type e) (rde_space_id e)
             else mret cfg);
      share_row cfg i (S j) todo
  end.
Fixpoint share_rows (cfg : pd_config_t) (i : Z) (todo : nat) : P pd_config_t :=
  match todo with
  | O => mret cfg
  | S todo => cfg ← share_row cfg i 0 MAX_NS_PER_RDE; share_rows cfg (i + 1) todo
  end.
Definition sel4gpi_config_pd_share_all_rdes (cfg : pd_config_t) : P pd_config_t :=
  rdes ← (match rde_cfg cfg with Some l => mret l | None => new_list end);
  share_rows (set_rde_cfg (Some rdes) cfg) (GPICAP_TYPE_NONE + 1)
    (Z.to_nat (GPICAP_TYPE_MAX - (GPICAP_TYPE_NONE + 1))).

Definition sel4gpi_generate_thread_config (cfg : pd_config_t) (thread_fn : Z) (fault_ep : option ep_conn_t)
  : P pd_config_t :=
  let cfg := match fault_ep with Some ep => set_pc_fault_ep ep cfg | None => cfg end in
  let cfg := set_link_with_current true cfg in
  vmrs ← new_list;
  calloc_assert ;; calloc_assert ;;
  vmrs ← insert_many vmrs
    [disjoint_vmr (RES_TYPE_STACK R) 0 DEFAULT_STACK_PAGES; disjoint_vmr (RES_TYPE_IPC_BUF R) 0 1];
  let cfg := set_ads_cfg (AdsConfig (image_name (ads_cfg cfg)) thread_fn (Some vmrs)) cfg in
  cfg ← sel4gpi_config_pd_share_all_rdes cfg;
  sel4gpi_add_res_type_config cfg GPICAP_TYPE_MO.

Definition sel4gpi_configure_thread (thread_fn : Z) (fault_ep : option ep_conn_t) (runnable : sel4gpi_runnable_t)
  : P (option pd_config_t * sel4gpi_runnable_t) :=
  r ← sel4gpi_new_runnable false true runnable;
  let '(cfg, runnable) := r : option pd_config_t * sel4gpi_runnable_t in
  match cfg with
  | None => mret (None, runnable)
  | Some cfg =>
      ads ← sel4gpi_get_ads_conn;
      cfg ← sel4gpi_generate_thread_config cfg thread_fn fault_ep;
      mret (Some cfg, set_rn_ads ads runnable)
  end.

(** ** Thread-local storage *)

(** the base and the thread pointer *)
Definition write_tls_values (stack_top ipc_buffer_addr osm_shared_data : Z) : P (Z * Z) :=
  let tls_base := u64 (stack_top - get_tls_size L) in
  p ← get_state;
  let '(tp, m) := write_tls_image L tls_base (memory p) in
  modify (set_memory m) ;;
  when (negb (ipc_buffer_addr =? 0))
    (modify (fun p => set_memory (set_tls_variable L tp sel4_ipc_buffer ipc_buffer_addr (memory p)) p)) ;;
  modify (fun p => set_memory (set_tls_variable L tp sel4gpi_osm_data osm_shared_data (memory p)) p) ;;
  mret (tls_base, tp).

(** a pointer from the runtime context into the list of regions *)
Definition cfg_at (vmrs : list vmr_config_t) (pos : option nat) : P vmr_config_t := deref (pos ≫= (vmrs !!.)).

(** the error code; the stack pointer and the thread pointer in the target *)
Definition setup_tls_in_stack (target_ads : conn_t) (ctx : runtime_context_t) (vmrs : list vmr_config_t)
  : P (Z * option (Z * Z)) :=
  stack ← cfg_at vmrs (stack_cfg ctx);
  let stack_pages := region_pages stack in
  if stack_pages =? 0 then mret (1, None) else
  if cfg_start stack =? 0 then mret (1, None) else
  if u64 (stack_pages * PAGE_SIZE_4K) / 8 <? get_tls_size L then mret (1, None) else
  id ← sel4gpi_get_binded_ads_id;
  if negb (conn_id target_ads =? id) then
    vmr_rde ← sel4gpi_get_bound_vmr_rde;
    r ← vmr_client_attach_no_reserve N vmr_rde 0 (cfg_mo stack) (RES_TYPE_GENERIC R);
    let '(error, local_stack_bottom) := r : Z * option Z in
    if negb (error =? 0) then mret (error, None) else
    let local_stack_bottom := default 0 local_stack_bottom in
    let local_stack_top := u64 (local_stack_bottom + u64 (stack_pages * 2 ^ seL4_PageBits)) in
    ipc ← cfg_at vmrs (ipc_buf_cfg ctx);
    r ← write_tls_values local_stack_top (cfg_start ipc) (osm_data ctx);
    let '(tls_base, tp) := r : Z * Z in
    let remote_tls_base := u64 (cfg_start stack - u64 (local_stack_top - tls_base)) in
    let remote_tp := u64 (cfg_start stack - u64 (local_stack_top - tp)) in
    _ ← vmr_client_delete_by_vaddr N vmr_rde local_stack_bottom;
    mret (0, Some (ALIGN_DOWN remote_tls_base STACK_CALL_ALIGNMENT, remote_tp))
  else
    ipc ← cfg_at vmrs (ipc_buf_cfg ctx);
    r ← write_tls_values (cfg_start stack) (cfg_start ipc) (osm_data ctx);
    let '(tls_base, tp) := r : Z * Z in
    mret (0, Some (ALIGN_DOWN tls_base STACK_CALL_ALIGNMENT, tp)).

(** ** The address space *)

(** what the body of the loop over the regions leaves: an error code when the loop
    is left, the region, the runtime context, and the entry point that was found *)
Definition vmr_step : Type := option Z * vmr_config_t * option runtime_context_t * Z.

(** the switch on the sharing of a region *)
Definition vmr_switch (cfg : ads_config_t) (runnable : sel4gpi_runnable_t) (vmr_rde : Z) (vmr : vmr_config_t)
    (ctx : option runtime_context_t) (auto_entry_point : Z) : P vmr_step :=
  let leave error := mret (Some error, vmr, ctx, auto_entry_point) in
  if share_mode vmr =? GPI_SHARED then
    current_ads_id ← sel4gpi_get_binded_ads_id;
    if negb (current_ads_id =? conn_id (rn_ads runnable)) then
      self ← sel4gpi_get_ads_conn;
      error ← ads_client_shallow_copy N self (rn_ads runnable) (region_pages vmr) (cfg_type vmr)
        (cfg_start vmr) (cfg_dest_start vmr);
      if negb (error =? 0) then leave error else mret (None, vmr, ctx, auto_entry_point)
    else mret (None, vmr, ctx, auto_entry_point)
  else if share_mode vmr =? GPI_DISJOINT then
    if negb (conn_ep (cfg_mo vmr) =? 0) then
      r ← vmr_client_attach_no_reserve N vmr_rde (cfg_start vmr) (cfg_mo vmr) (cfg_type vmr);
      let '(error, vmr_addr) := r : Z * option Z in
      if negb (error =? 0) then leave error
      else mret (None, set_cfg_start (default 0 vmr_addr) vmr, ctx, auto_entry_point)
    else if cfg_type vmr =? RES_TYPE_CODE R then
      name ← deref (image_name cfg);
      r ← ads_client_load_elf N (rn_ads runnable) (rn_pd runnable) name;
      let '(error, entry) := r : Z * option Z in
      if negb (error =? 0) then leave error else
      ctx ← deref ctx;
      mret (None, vmr, Some (set_loaded_elf true ctx), default auto_entry_point entry)
    else if cfg_type vmr =? RES_TYPE_STACK R then
      r ← sel4gpi_new_sized_stack vmr_rde (region_pages vmr);
      let '(stack, mo) := r : Z * option conn_t in
      let vmr := set_cfg_mo (default conn_zero mo) (set_cfg_start stack vmr) in
      (* the test leaves the loop, without an error *)
      mret (if stack =? 0 then Some 0 else None, vmr, ctx, auto_entry_point)
    else
      r ← sel4gpi_get_vmr N MO_LARGE_PAGE_BITS vmr_rde (i32 (region_pages vmr)) (cfg_start vmr) (cfg_type vmr)
        (if cfg_page_bits vmr =? 0 then seL4_PageBits else cfg_page_bits vmr);
      let '(vmr_addr, mo) := r : Z * option conn_t in
      if vmr_addr =? 0 then leave 0
      else mret (None, set_cfg_mo (default conn_zero mo) (set_cfg_start vmr_addr vmr), ctx, auto_entry_point)
  else leave 1.

(** the regions from position [i]; [vmrs] is the whole list *)
Fixpoint vmr_loop (cfg : ads_config_t) (runnable : sel4gpi_runnable_t) (vmr_rde : Z)
    (vmrs : list vmr_config_t) (i todo : nat) (ctx : option runtime_context_t) (auto_entry_point : Z)
  : P (option Z * list vmr_config_t * option runtime_context_t * Z) :=
  match todo with
  | O => mret (None, vmrs, ctx, auto_entry_point)
  | S todo =>
      vmr ← deref (vmrs !! i);
      r ← vmr_switch cfg runnable vmr_rde vmr ctx auto_entry_point;
      let '(out, vmr, ctx, auto_entry_point) := r : vmr_step in
      let vmrs := <[i := vmr]> vmrs in
      match out with
      | Some error => mret (Some error, vmrs, ctx, auto_entry_point)
      | None =>
          let ctx := (fun ctx => if cfg_type vmr =? RES_TYPE_IPC_BUF R then set_ipc_buf_cfg (Some i) ctx else ctx) <$> ctx in
          let ctx := (fun ctx => if cfg_type vmr =? RES_TYPE_STACK R then set_stack_cfg (Some i) ctx else ctx) <$> ctx in
          vmr_loop cfg runnable vmr_rde vmrs (S i) todo ctx auto_entry_point
      end
  end.

(** the error code, the updated configuration and the updated context *)
Definition sel4gpi_ads_configure (cfg : ads_config_t) (runnable : sel4gpi_runnable_t)
    (data_mo : option conn_t) (ctx : option runtime_context_t)
  : P (Z * ads_config_t * option runtime_context_t) :=
  vmr_rde ← sel4gpi_get_rde_by_space_id (conn_id (rn_ads runnable)) GPICAP_TYPE_VMR;
  r ← (match data_mo with
       | Some mo =>
           if negb (conn_ep mo =? 0) then
             r ← vmr_client_attach_no_reserve N vmr_rde 0 mo (RES_TYPE_OSM_DATA R);
             let '(error, addr) := r : Z * option Z in
             if negb (error =? 0) then mret (error, ctx)
             else mret (0, set_osm_data (default 0 addr) <$> ctx)
           else mret (0, ctx)
       | None => mret (0, ctx)
       end);
  let '(error, ctx) := r : Z * option runtime_context_t in
  if negb (error =? 0) then mret (error, cfg, ctx) else
  r ← (match vmr_cfgs cfg with
       | Some vmrs =>
           r ← vmr_loop cfg runnable vmr_rde vmrs 0 (length vmrs) ctx 0;
           let '(out, vmrs, ctx, auto_entry_point) := r : option Z * list vmr_config_t * option runtime_context_t * Z in
           mret (out, set_vmr_cfgs (Some vmrs) cfg, ctx, auto_entry_point)
       | None => mret (None, cfg, ctx, 0)
       end);
  let '(out, cfg, ctx, auto_entry_point) := r : option Z * ads_config_t * option runtime_context_t * Z in
  match out with
  | Some error => mret (error, cfg, ctx)
  | None =>
      mret (0, cfg,
        set_entry_point (if ac_entry_point cfg =? 0 then auto_entry_point else ac_entry_point cfg) <$> ctx)
  end.

(** ** The PD *)

(** the loop of rde_configure: the error is that of the last entry *)
Fixpoint share_rdes (pd : conn_t) (rdes : list rde_config_t) (error : Z) : P Z :=
  match rdes with
  | [] => mret error
  | rde :: rdes => error ← pd_client_share_rde N pd (rc_type rde) (rc_space_id rde); share_rdes pd rdes error
  end.
Definition rde_configure (cfg : pd_config_t) (runnable : sel4gpi_runnable_t) : P Z :=
  share_rdes (rn_pd runnable) (default [] (rde_cfg cfg)) 0.

Definition find_vmr_cfg_by_type (cfg : ads_config_t) (type : Z) : option vmr_config_t :=
  vmrs ← vmr_cfgs cfg; List.find (fun vmr => cfg_type vmr =? type) vmrs.

(** the fault endpoint: the error code, the configuration, and the endpoint in the
    new PD *)
Definition fault_ep_configure (cfg : pd_config_t) (runnable : sel4gpi_runnable_t) : P (Z * pd_config_t * ep_conn_t) :=
  r ← (if ep_conn_ep (pc_fault_ep cfg) =? 0 then
         r ← sel4gpi_alloc_endpoint N;
         let '(error, ep) := r : Z * option ep_conn_t in
         let cfg := match ep with Some ep => set_pc_fault_ep ep cfg | None => cfg end in
         mret (if negb (error =? 0) || (ep_conn_ep (pc_fault_ep cfg) =? 0) then 1 else 0, cfg)
       else mret (0, cfg));
  let '(error, cfg) := r : Z * pd_config_t in
  if negb (error =? 0) then mret (error, cfg, ep_conn_zero) else
  if negb (fault_ep_badge cfg =? 0) then
    r ← ep_client_badge N (pc_fault_ep cfg) (rn_pd runnable) (fault_ep_badge cfg) true;
    let '(error, ep) := r : Z * option ep_conn_t in
    mret (error, cfg, default ep_conn_zero ep)
  else
    r ← pd_client_send_core_cap N (rn_pd runnable) (ep_conn_ep (pc_fault_ep cfg));
    let '(error, slot) := r : Z * option Z in
    if negb (error =? 0) then mret (error, cfg, ep_conn_zero) else
    r ← ep_client_get_raw_endpoint_in_PD N (Some (rn_pd runnable)) (pc_fault_ep cfg);
    let '(error, raw) := r : Z * option Z in
    mret (error, cfg, EpConn (default 0 slot) (default 0 raw)).

(** the steps of sel4gpi_prepare_pd up to the fault endpoint, with the errors that
    go to the end of the function *)
Definition prepare_resources (cfg : pd_config_t) (runnable : sel4gpi_runnable_t)
  : P (Z * pd_config_t * runtime_context_t * ep_conn_t) :=
  self_pd ← sel4gpi_get_pd_conn;
  r ← sel4gpi_ads_configure (ads_cfg cfg) runnable (Some (osm_data_mo cfg)) (Some runtime_context_zero);
  let '(error, ads_cfg, ctx) := r : Z * ads_config_t * option runtime_context_t in
  let cfg := set_ads_cfg ads_cfg cfg in
  let ctx := default runtime_context_zero ctx in
  let leave error := mret (error, cfg, ctx, ep_conn_zero) in
  if negb (error =? 0) then leave error else
  error ← rde_configure cfg runnable;
  if negb (error =? 0) then leave error else
  r ← pd_client_send_core_cap N (rn_pd runnable) (conn_ep (rn_cpu runnable));
  if negb (fst r =? 0) then leave (fst r) else
  r ← pd_client_send_core_cap N (rn_pd runnable) (conn_ep (rn_ads runnable));
  if negb (fst r =? 0) then leave (fst r) else
  r ← pd_client_send_core_cap N (rn_pd runnable) (conn_ep (rn_pd runnable));
  if negb (fst r =? 0) then leave (fst r) else
  for_each (default [] (gpi_res_type_cfg cfg)) (fun type =>
    _ ← pd_client_share_resource_by_type N self_pd (rn_pd runnable) type; mret tt) ;;
  r ← fault_ep_configure cfg runnable;
  let '(error, cfg, ep) := r : Z * pd_config_t * ep_conn_t in
  mret (error, cfg, ctx, ep).

(** the arguments of the start code: the entry point the user gave comes first *)
Definition start_args (entry : Z) (argc : Z) (args : option (list Z)) : P (list Z) :=
  calloc_assert ;;
  if argc <? 0 then crash OutOfBounds else
  if argc =? 0 then mret [entry] else
  args ← deref args;
  if (Z.to_nat argc <=? length args)%nat then mret (entry :: take (Z.to_nat argc) args) else crash OutOfBounds.

(** the error code, and the updated configuration.  The variable for the copy of the
    arguments is declared after the steps above, and freed at the end of the
    function, where their errors go: it is read uninitialized. *)
Definition sel4gpi_prepare_pd (cfg : pd_config_t) (runnable : sel4gpi_runnable_t) (argc : Z)
    (args : option (list Z)) : P (Z * pd_config_t) :=
  assert_ ((argc =? 0) || bool_decide (is_Some args)) ;;
  r ← prepare_resources cfg runnable;
  let '(error, cfg, ctx, fault_ep) := r : Z * pd_config_t * runtime_context_t * ep_conn_t in
  if negb (error =? 0) then crash Uninitialized else
  self_pd ← sel4gpi_get_pd_conn;
  (if link_with_current cfg then _ ← pd_client_link_child N self_pd (rn_pd runnable); mret tt else mret tt) ;;
  let vmrs := default [] (vmr_cfgs (ads_cfg cfg)) in
  let start_of pos := default 0 (cfg_start <$> (pos ≫= (vmrs !!.))) in
  (* the error, the stack pointer, the entry point and the arguments *)
  r ← (if elevated_cpu cfg then
         _ ← cpu_client_elevate_privileges N (rn_cpu runnable);
         mret (0, start_of (stack_cfg ctx), entry_point ctx, argc, args)
       else if negb (loaded_elf ctx) then
         r ← setup_tls_in_stack (rn_ads runnable) ctx vmrs;
         let '(error, sp_tp) := r : Z * option (Z * Z) in
         let '(sp, tp) := default (start_of (stack_cfg ctx), 0) sp_tp in
         if negb (error =? 0) then mret (error, sp, entry_point ctx, argc, args) else
         error ← cpu_client_set_tls_base N (rn_cpu runnable) tp;
         if negb (error =? 0) then mret (error, sp, entry_point ctx, argc, args) else
         args ← start_args (entry_point ctx) argc args;
         mret (0, sp, start_addr, argc + 1, Some args)
       else mret (0, start_of (stack_cfg ctx), entry_point ctx, argc, args));
  let '(error, init_stack_ptr, entry, argc, args) := r : Z * Z * Z * Z * option (list Z) in
  if negb (error =? 0) then mret (error, cfg) else
  let ipc_buf_addr := start_of (ipc_buf_cfg ctx) in
  error ← pd_client_runtime_setup N (rn_pd runnable) (rn_ads runnable) (rn_cpu runnable) init_stack_ptr argc
    (default [] args) entry ipc_buf_addr (osm_data ctx);
  if negb (error =? 0) then mret (error, cfg) else
  error ← cpu_client_config N (rn_cpu runnable) (rn_ads runnable) (rn_pd runnable)
    (if ipc_buf_addr =? 0 then None else cfg_mo <$> (ipc_buf_cfg ctx ≫= (vmrs !!.)))
    pd_cnode_guard (raw_endpoint fault_ep) ipc_buf_addr (cpu_prio cfg);
  mret (error, cfg).

Definition sel4gpi_start_pd (runnable : sel4gpi_runnable_t) : P Z := cpu_client_start N (rn_cpu runnable).
End PdCreation.

(** ** Properties: the directory of a thread *)
Section Directories.
Context {K A : Type} (R : reservation_types) (try_calloc : A -> bool * A).
Implicit Types (p : process K A) (cfg : pd_config_t).
Context (Hcalloc : forall a, (try_calloc a).1 = true).

(** what stays the same when only the allocator was called *)
Definition allocated p p' : Prop :=
  kernel p' = kernel p /\ my_shared_data p' = my_shared_data p /\ memory p' = memory p.

Lemma allocated_trans p1 p2 p3 : allocated p1 p2 -> allocated p2 p3 -> allocated p1 p3.
Proof. intros (? & ? & ?) (? & ? & ?). repeat split; congruence. Qed.

Lemma calloc_cell_run p : returns (calloc try_calloc) p (fun ok p' => ok = true /\ allocated p p').
Proof.
  pose proof (Hcalloc (program p)) as Hc. destruct (try_calloc (program p)) as [ok a] eqn:E.
  simpl in Hc. subst ok. exists true, (set_program a p). split; [|done].
  unfold calloc. erewrite bind_ok by reflexivity. by rewrite E.
Qed.
Lemma calloc_assert_run p : returns (calloc_assert try_calloc) p (fun _ p' => allocated p p').
Proof.
  destruct (calloc_cell_run p) as (ok & p1 & H & E & Ha). subst ok. exists tt, p1. split; [|done].
  unfold calloc_assert. by rewrite (bind_ok _ _ _ _ _ H).
Qed.
Lemma insert_list_run {B} (l : list B) x p :
  returns (insert_list try_calloc l x) p (fun l' p' => l' = l ++ [x] /\ allocated p p').
Proof.
  apply returns_bind. eapply returns_mono; [apply calloc_assert_run|]. intros ? p' Ha. by apply returns_ret.
Qed.

(** the configuration of a directory entry, and those of the entries in use *)
Definition rde_config_of (e : osmosis_rde_t) : rde_config_t := RdeConfig (rde_type e) (rde_space_id e).
Definition in_use (e : osmosis_rde_t) : bool := negb (rde_type e =? GPICAP_TYPE_NONE).
Definition configs_of (es : list osmosis_rde_t) : list rde_config_t := rde_config_of <$> List.filter in_use es.

Lemma add_rde_config_run cfg l type space p : rde_cfg cfg = Some l ->
  returns (sel4gpi_add_rde_config try_calloc cfg type space) p (fun cfg' p' =>
    cfg' = set_rde_cfg (Some (l ++ [RdeConfig type space])) cfg /\ allocated p p').
Proof.
  intros Hl. unfold sel4gpi_add_rde_config. rewrite Hl. apply returns_bind, returns_ret, returns_bind.
  eapply returns_mono; [apply calloc_cell_run|]. intros ok p1 [-> H1]. apply returns_bind.
  eapply returns_mono; [apply insert_list_run|]. intros l' p2 [-> H2]. apply returns_ret.
  split; [done|by eapply allocated_trans].
Qed.

Lemma share_row_run i row todo : 0 <= i -> forall cfg l j p,
  rde (my_shared_data p) !! Z.to_nat i = Some row -> length row = (j + todo)%nat -> rde_cfg cfg = Some l ->
  returns (share_row try_calloc cfg i j todo) p (fun cfg' p' =>
    cfg' = set_rde_cfg (Some (l ++ configs_of (drop j row))) cfg /\ allocated p p').
Proof.
  intros Hi. induction todo as [|todo IH]; intros cfg l j p Hrow Hlen Hl; simpl.
  - apply returns_ret. rewrite drop_ge, app_nil_r by lia. split; [|done]. destruct cfg; simpl in *; by rewrite Hl.
  - destruct (lookup_lt_is_Some_2 row j) as [e He]; [lia|].
    apply returns_bind. exists e, p. split; [by apply (rde_at_run p i row j e)|].
    rewrite (drop_S row e j He). unfold configs_of. simpl. unfold in_use at 1.
    destruct (negb (rde_type e =? GPICAP_TYPE_NONE)); simpl.
    + apply returns_bind, returns_bind. eapply returns_mono; [apply calloc_cell_run|]. intros ? p1 [_ H1].
      eapply returns_mono; [by apply (add_rde_config_run cfg l)|]. intros cfg1 p2 [-> H2].
      pose proof (allocated_trans _ _ _ H1 H2) as H12.
      eapply returns_mono; [apply (IH _ (l ++ [rde_config_of e]) (S j))|].
      * by rewrite (proj1 (proj2 H12)).
      * lia.
      * done.
      * intros cfg3 p3 [-> H3]. split; [|by eapply allocated_trans].
        unfold configs_of. by rewrite <- app_assoc.
    + apply returns_bind, returns_ret. apply IH; [done|lia|done].
Qed.

Lemma share_rows_run rows : forall cfg l i p, 0 <= i ->
  drop (Z.to_nat i) (rde (my_shared_data p)) = rows -> Forall (fun row => length row = MAX_NS_PER_RDE) rows ->
  rde_cfg cfg = Some l ->
  returns (share_rows try_calloc cfg i (length rows)) p (fun cfg' p' =>
    cfg' = set_rde_cfg (Some (l ++ configs_of (concat rows))) cfg /\ allocated p p').
Proof.
  induction rows as [|row rows IH]; intros cfg l i p Hi Hrows Hlen Hl; simpl.
  - apply returns_ret. rewrite app_nil_r. split; [|done]. destruct cfg; simpl in *; by rewrite Hl.
  - apply Forall_cons in Hlen as [Hr Hlen].
    assert (rde (my_shared_data p) !! Z.to_nat i = Some row) as Hrow.
    { rewrite <- (Nat.add_0_r (Z.to_nat i)), <- lookup_drop, Hrows. done. }
    apply returns_bind. eapply returns_mono; [by apply (share_row_run i row MAX_NS_PER_RDE Hi cfg l 0 p)|].
    intros cfg1 p1 [-> H1]. rewrite drop_0.
    eapply returns_mono; [apply (IH _ (l ++ configs_of row) (i + 1) p1)|]; try done; try lia.
    + rewrite (proj1 (proj2 H1)). replace (Z.to_nat (i + 1)) with (Z.to_nat i + 1)%nat by lia.
      by rewrite <- drop_drop, Hrows.
    + intros cfg2 p2 [-> H2]. split; [|by eapply allocated_trans].
      unfold configs_of. by rewrite List.filter_app, fmap_app, <- app_assoc.
Qed.

(** the configuration of a thread shares the whole directory of its creator: an
    entry for each entry in use of every type, in order, after those that the
    configuration has already, and nothing else of the configuration changes. *)
Theorem share_all_rdes_spec cfg p (Hlen : length (rde (my_shared_data p)) = Z.to_nat GPICAP_TYPE_MAX)
  (Hrows : Forall (fun row => length row = MAX_NS_PER_RDE) (rde (my_shared_data p))) :
  returns (sel4gpi_config_pd_share_all_rdes try_calloc cfg) p (fun cfg' p' =>
    cfg' = set_rde_cfg (Some (default [] (rde_cfg cfg) ++ configs_of (concat (tail (rde (my_shared_data p)))))) cfg
    /\ allocated p p').
Proof.
  unfold sel4gpi_config_pd_share_all_rdes. apply returns_bind.
  eapply returns_mono with (Q := fun l p1 => l = default [] (rde_cfg cfg) /\ allocated p p1).
  { destruct (rde_cfg cfg); [by apply returns_ret|]. apply returns_bind.
    eapply returns_mono; [apply calloc_assert_run|]. intros ? p1 H1. by apply returns_ret. }
  intros l p1 [-> H1]. pose proof (proj1 (proj2 H1)) as Hs.
  assert (tail (rde (my_shared_data p)) = drop 1 (rde (my_shared_data p1))) as Ht by (rewrite Hs; by destruct (rde _)).
  replace (Z.to_nat (GPICAP_TYPE_MAX - (GPICAP_TYPE_NONE + 1))) with (length (tail (rde (my_shared_data p)))).
  - eapply returns_mono; [apply (share_rows_run (tail (rde (my_shared_data p)))); try done|].
    + rewrite Ht. by apply Forall_drop; rewrite Hs.
    + intros cfg' p' [-> H2]. split; [by destruct cfg|by eapply allocated_trans].
  - rewrite Ht, length_drop, Hs, Hlen. reflexivity.
Qed.
End Directories.

(** ** Properties: thread-local storage *)
Section ThreadLocal.
Context {K A : Type} `{!Kernel K} (N : nanopb) (R : reservation_types) (L : runtime) (STACK_CALL_ALIGNMENT : Z).
Implicit Types (p : process K A) (ctx : runtime_context_t) (vmrs : list vmr_config_t).

Lemma write_tls_values_run stack_top ipc data p : exists m,
  write_tls_values L stack_top ipc data p =
    (Ok (u64 (stack_top - get_tls_size L), (write_tls_image L (u64 (stack_top - get_tls_size L)) (memory p)).1),
     set_memory m p).
Proof.
  unfold write_tls_values. erewrite bind_ok by reflexivity.
  destruct (write_tls_image L _ (memory p)) as [tp m]. destruct (negb (ipc =? 0)); by eexists.
Qed.

Lemma ALIGN_DOWN_spec x k : 0 <= k -> 0 <= x ->
  ALIGN_DOWN x (2 ^ k) mod 2 ^ k = 0 /\ x - 2 ^ k < ALIGN_DOWN x (2 ^ k) <= x.
Proof.
  intros Hk Hx. assert (ALIGN_DOWN x (2 ^ k) = x / 2 ^ k * 2 ^ k) as ->.
  { unfold ALIGN_DOWN. replace (2 ^ k - 1) with (Z.ones k) by (rewrite Z.ones_equiv; lia).
    by rewrite Z.ldiff_ones_r, Z.shiftl_mul_pow2, Z.shiftr_div_pow2. }
  assert (0 < 2 ^ k) by (apply Z.pow_pos_nonneg; lia). split; [by apply Z.mod_mul; lia|].
  pose proof (Z.div_mod x (2 ^ k)). pose proof (Z.mod_pos_bound x (2 ^ k)). lia.
Qed.

(** both ways of setting up the storage place it at the top of the stack *)
Definition tls_placed (k tp_offset : Z) (stack : vmr_config_t) (sp tp : Z) : Prop :=
  tp = cfg_start stack - get_tls_size L + tp_offset /\ sp mod 2 ^ k = 0 /\
  cfg_start stack - get_tls_size L - 2 ^ k < sp <= cfg_start stack - get_tls_size L /\
  cfg_start stack - region_pages stack * PAGE_SIZE_4K < sp.

Lemma tls_placed_intro k tp_offset stack : 0 <= k <= 9 -> 0 < region_pages stack ->
  region_pages stack * PAGE_SIZE_4K <= cfg_start stack < 2 ^ 64 ->
  0 <= get_tls_size L <= region_pages stack * PAGE_SIZE_4K / 8 ->
  tls_placed k tp_offset stack (ALIGN_DOWN (u64 (cfg_start stack - get_tls_size L)) (2 ^ k))
    (cfg_start stack - get_tls_size L + tp_offset).
Proof.
  intros Hk Hp Hs Ht. unfold PAGE_SIZE_4K in *.
  pose proof (Z.mul_div_le (region_pages stack * 4096) 8 ltac:(lia)) as Hd.
  assert (2 ^ k <= 2 ^ 9) by (apply Z.pow_le_mono_r; lia).
  unfold u64. rewrite wrap_small by lia.
  destruct (ALIGN_DOWN_spec (cfg_start stack - get_tls_size L) k) as [Hm Hr]; [lia|lia|].
  unfold tls_placed, PAGE_SIZE_4K. change (2 ^ 9) with 512 in *. repeat split; try done; lia.
Qed.

Lemma u64_add a b : u64 (u64 a + b) = u64 (a + b).
Proof. unfold u64, wrap. by rewrite Z.add_mod_idemp_l. Qed.
Lemma u64_sub a b : u64 (a - u64 b) = u64 (a - b).
Proof. unfold u64, wrap. by rewrite Zminus_mod_idemp_r. Qed.

(** the storage of a thread that starts in the C runtime is set up at the top of
    its stack, in its own address space or in another one that the stack is mapped
    into for the purpose: the thread pointer it is given is where the image is in the
    target, and the stack pointer is aligned, below the storage, and inside the
    stack. *)
Theorem setup_tls_placed target_ads ctx vmrs stack ipc p k tp_offset
  (Hstack : stack_cfg ctx ≫= (vmrs !!.) = Some stack) (Hipc : ipc_buf_cfg ctx ≫= (vmrs !!.) = Some ipc)
  (Hpages : 0 < region_pages stack)
  (Hstart : region_pages stack * PAGE_SIZE_4K <= cfg_start stack < 2 ^ 64)
  (Htls : 0 <= get_tls_size L <= region_pages stack * PAGE_SIZE_4K / 8)
  (Hk : 0 <= k <= 9) (Halign : STACK_CALL_ALIGNMENT = 2 ^ k) (Hoff : 0 <= tp_offset < get_tls_size L)
  (Himage : forall a m, (write_tls_image L a m).1 = a + tp_offset)
  (Hattach : conn_id target_ads <> conn_id (ads_conn (my_shared_data p)) ->
     exists vmr_rde bottom p1, sel4gpi_get_bound_vmr_rde p = (Ok vmr_rde, p) /\
       vmr_client_attach_no_reserve N vmr_rde 0 (cfg_mo stack) (RES_TYPE_GENERIC R) p = (Ok (0, Some bottom), p1) /\
       forall m, exists error p2,
         vmr_client_delete_by_vaddr N vmr_rde bottom (set_memory m p1) = (Ok error, p2)) :
  returns (setup_tls_in_stack N R L STACK_CALL_ALIGNMENT target_ads ctx vmrs) p (fun r _ =>
    exists sp tp, r = (0, Some (sp, tp)) /\ tls_placed k tp_offset stack sp tp).
Proof.
  pose proof (tls_placed_intro k tp_offset stack Hk Hpages Hstart Htls) as Hplaced.
  assert (0 < PAGE_SIZE_4K) as H4 by done.
  pose proof (Z.mul_div_le (region_pages stack * PAGE_SIZE_4K) 8 ltac:(lia)) as Hd.
  unfold setup_tls_in_stack, cfg_at. rewrite Hstack. apply returns_bind, returns_ret.
  rewrite (proj2 (Z.eqb_neq _ 0)), (proj2 (Z.eqb_neq (cfg_start stack) 0)) by nia.
  rewrite (proj2 (Z.ltb_ge _ _)) by (unfold u64; rewrite wrap_small by nia; lia).
  apply returns_bind, returns_bind, returns_ret, returns_ret.
  destruct (Z.eqb_spec (conn_id target_ads) (conn_id (ads_conn (my_shared_data p)))) as [E|E]; cbn [negb];
    rewrite Halign, Hipc.
  - apply returns_bind, returns_ret, returns_bind.
    destruct (write_tls_values_run (cfg_start stack) (cfg_start ipc) (osm_data ctx) p) as [m Hm].
    eexists _, _. split; [exact Hm|]. apply returns_ret. eexists _, _. split; [reflexivity|].
    rewrite Himage. unfold u64 at 2. rewrite wrap_small by lia. exact Hplaced.
  - destruct (Hattach E) as (vmr_rde & bottom & p1 & Hrde & Hatt & Hdet).
    apply returns_bind. eexists _, _. split; [exact Hrde|]. apply returns_bind. eexists _, _. split; [exact Hatt|].
    cbn [negb Z.eqb]. change (default 0 (Some bottom)) with bottom. apply returns_bind, returns_ret, returns_bind.
    destruct (write_tls_values_run (u64 (bottom + u64 (region_pages stack * 2 ^ seL4_PageBits)))
      (cfg_start ipc) (osm_data ctx) p1) as [m Hm].
    eexists _, _. split; [exact Hm|]. destruct (Hdet m) as (error & p2 & Hp2).
    apply returns_bind. eexists _, _. split; [exact Hp2|]. apply returns_ret. eexists _, _. split; [reflexivity|].
    rewrite Himage. set (top := u64 (bottom + _)) in *.
    assert (forall x, u64 (cfg_start stack - u64 (top - (u64 (top - get_tls_size L) + x))) =
      u64 (cfg_start stack - get_tls_size L + x)) as Ht.
    { intros x. unfold u64, wrap. rewrite Zminus_mod_idemp_r.
      rewrite <- (Zminus_mod_idemp_r _ (top - _)), <- (Zminus_mod_idemp_r top (_ + x)), Z.add_mod_idemp_l by done.
      rewrite (Zminus_mod_idemp_r top), Zminus_mod_idemp_r. f_equal. lia. }
    rewrite Ht. pose proof (Ht 0) as H0. rewrite !Z.add_0_r in H0. rewrite H0.
    unfold u64 at 2. rewrite wrap_small by lia. exact Hplaced.
Qed.
End ThreadLocal.

(** ** Properties: errors *)
Section CreationErrors.
Context {K A : Type} `{!Kernel K} (N : nanopb) (R : reservation_types) (L : runtime).
Context (MO_LARGE_PAGE_BITS pd_cnode_guard start_addr STACK_CALL_ALIGNMENT : Z) (try_calloc : A -> bool * A).
Implicit Types (p : process K A) (vmrs : list vmr_config_t).

Abbreviation loop := (vmr_loop N R MO_LARGE_PAGE_BITS).

Lemma vmr_loop_app cfg runnable vmr_rde n m : forall vmrs i ctx entry p vmrs1 ctx1 entry1 p1,
  loop cfg runnable vmr_rde vmrs i n ctx entry p = (Ok (None, vmrs1, ctx1, entry1), p1) ->
  loop cfg runnable vmr_rde vmrs i (n + m) ctx entry p = loop cfg runnable vmr_rde vmrs1 (i + n) m ctx1 entry1 p1.
Proof.
  induction n as [|n IH]; intros vmrs i ctx entry p vmrs1 ctx1 entry1 p1 H; simpl in H |- *.
  - injection H as -> -> -> ->. by rewrite Nat.add_0_r.
  - apply bind_inv_ok in H as (vmr & p2 & H2 & H). rewrite (bind_ok _ _ _ _ _ H2).
    apply bind_inv_ok in H as ([[[out vmr'] ctx'] entry'] & p3 & H3 & H). rewrite (bind_ok _ _ _ _ _ H3).
    destruct out; [done|]. rewrite (IH _ _ _ _ _ _ _ _ _ H). f_equal. lia.
Qed.

(** a region that cannot be allocated *)
Definition allocation_fails (vmr_rde : Z) (vmr : vmr_config_t) p p1 : Prop :=
  share_mode vmr = GPI_DISJOINT /\ conn_ep (cfg_mo vmr) = 0 /\ cfg_type vmr <> RES_TYPE_CODE R /\
  if cfg_type vmr =? RES_TYPE_STACK R
  then sel4gpi_new_sized_stack N R vmr_rde (region_pages vmr) p = (Ok (0, None), p1)
  else sel4gpi_get_vmr N MO_LARGE_PAGE_BITS vmr_rde (i32 (region_pages vmr)) (cfg_start vmr) (cfg_type vmr)
         (if cfg_page_bits vmr =? 0 then seL4_PageBits else cfg_page_bits vmr) p = (Ok (0, None), p1).

Lemma vmr_switch_fails cfg runnable vmr_rde vmr ctx entry p p1 : allocation_fails vmr_rde vmr p p1 ->
  exists vmr', vmr_switch N R MO_LARGE_PAGE_BITS cfg runnable vmr_rde vmr ctx entry p = (Ok (Some 0, vmr', ctx, entry), p1).
Proof.
  intros (Hs & He & Hc & Hf). unfold vmr_switch. rewrite Hs, He. change (negb (0 =? 0)) with false.
  change (GPI_DISJOINT =? GPI_SHARED) with false. change (GPI_DISJOINT =? GPI_DISJOINT) with true.
  rewrite (proj2 (Z.eqb_neq _ _) Hc). cbv iota.
  destruct (cfg_type vmr =? RES_TYPE_STACK R); rewrite (bind_ok _ _ _ _ _ Hf); by eexists.
Qed.

(** a region of the new address space that cannot be allocated, the stack or any
    other, is not an error of sel4gpi_ads_configure: it returns 0, leaves out the
    regions that follow, and does not set the entry point. *)
Theorem ads_configure_hides_failure cfg runnable ctx p vmr_rde vmrs n vmrs1 ctx1 entry1 vmr p1 p2
  (Hrde : sel4gpi_get_rde_by_space_id (conn_id (rn_ads runnable)) GPICAP_TYPE_VMR p = (Ok vmr_rde, p))
  (Hvmrs : vmr_cfgs cfg = Some vmrs) (Hn : (n < length vmrs)%nat)
  (Hbefore : loop cfg runnable vmr_rde vmrs 0 n ctx 0 p = (Ok (None, vmrs1, ctx1, entry1), p1))
  (Hvmr : vmrs1 !! n = Some vmr) (Hfail : allocation_fails vmr_rde vmr p1 p2) :
  exists vmr', sel4gpi_ads_configure N R MO_LARGE_PAGE_BITS cfg runnable None ctx p =
    (Ok (0, set_vmr_cfgs (Some (<[n := vmr']> vmrs1)) cfg, ctx1), p2).
Proof.
  destruct (vmr_switch_fails cfg runnable vmr_rde vmr ctx1 entry1 p1 p2 Hfail) as [vmr' Hsw]. exists vmr'.
  assert (loop cfg runnable vmr_rde vmrs 0 (length vmrs) ctx 0 p =
    (Ok (Some 0, <[n := vmr']> vmrs1, ctx1, entry1), p2)) as Hloop.
  { replace (length vmrs) with (n + S (length vmrs - S n))%nat by lia.
    rewrite (vmr_loop_app _ _ _ _ _ _ _ _ _ _ _ _ _ _ Hbefore). simpl. rewrite Hvmr.
    erewrite bind_ok by reflexivity. by rewrite (bind_ok _ _ _ _ _ Hsw). }
  unfold sel4gpi_ads_configure. rewrite (bind_ok _ _ _ _ _ Hrde). erewrite bind_ok by reflexivity.
  cbn [Z.eqb negb]. rewrite Hvmrs, bind_assoc. by rewrite (bind_ok _ _ _ _ _ Hloop).
Qed.
End CreationErrors.

(** ** Witnesses *)
Section CreationWitnesses.
(** a kernel in which every call fails, and one that gives answers from a list *)
#[local] Instance silent_kernel : Kernel unit := {
  k_call _ _ _ := mret (1, []);
  k_recv _ := mret (0, []);
  k_send _ _ := mret tt;
  k_set_receive_path _ := mret tt;
  k_save_caller _ := mret 0
}.
#[local] Instance script_kernel : Kernel (list (Z * list Z)) := {
  k_call _ _ _ := fun answers => (Ok (List.hd (1, []) answers), tail answers);
  k_recv _ := mret (0, []);
  k_send _ _ := mret tt;
  k_set_receive_path _ := mret tt;
  k_save_caller _ := mret 0
}.
(** replies to attach requests, as one word *)
Definition nanopb_demo : nanopb :=
  Nanopb (fun _ _ => Some [])
    (fun c words => match c with
                    | AdsComponent => match words with
                                      | [vaddr] => Some (0, VmrAttachNoReserveReturn vaddr)
                                      | _ => Some (0, AdsBasicReturn)
                                      end
                    | c => Some (0, zero_reply c)
                    end).
Definition runtime_demo : runtime := Runtime 256 (fun a m => (a + 16, m)) (fun _ _ _ m => m).
Definition process_of {K} (k : K) (d : osm_pd_shared_data_t) : process K unit := Process k d 0 (fun _ => 0) tt.
Definition stack_demo : vmr_config_t := disjoint_vmr 6 0x50000 4.
Definition ipc_demo : vmr_config_t := disjoint_vmr 8 0x60000 1.
Definition context_demo : runtime_context_t := RuntimeContext 0 0 (Some 0%nat) (Some 1%nat) false.

Lemma share_all_rdes_spec_witness :
  returns (sel4gpi_config_pd_share_all_rdes (fun u => (true, u)) pd_config_zero) (process_of tt shared_demo)
    (fun cfg' p' => cfg' = set_rde_cfg (Some ([] ++ configs_of (concat (tail (rde shared_demo))))) pd_config_zero /\
       allocated (process_of tt shared_demo) p').
Proof.
  apply (share_all_rdes_spec (fun u => (true, u)) (fun _ => eq_refl) pd_config_zero (process_of tt shared_demo));
    [reflexivity|by vm_compute; repeat constructor].
Defined.

(** the storage of a process in another address space, whose stack is mapped at
    0x7000 meanwhile *)
Lemma setup_tls_placed_witness :
  returns (setup_tls_in_stack nanopb_demo types_T runtime_demo 16 (Conn 5 0) context_demo [stack_demo; ipc_demo])
    (process_of [(0, [0x7000]); (0, [])] shared_zero)
    (fun r _ => exists sp tp, r = (0, Some (sp, tp)) /\ tls_placed runtime_demo 4 16 stack_demo sp tp).
Proof.
  apply (setup_tls_placed nanopb_demo types_T runtime_demo 16 (Conn 5 0) context_demo
    [stack_demo; ipc_demo] stack_demo ipc_demo _ 4 16);
    try reflexivity; try (vm_compute; intuition congruence).
  intros _. exists 0, 0x7000, (process_of [(0, [])] shared_zero). split; [reflexivity|]. split; [reflexivity|].
  intros m. by exists 0, (set_memory m (process_of [] shared_zero)).
Defined.

(** a PD without a directory entry for memory objects *)
Lemma ads_configure_hides_failure_witness :
  exists vmr', sel4gpi_ads_configure nanopb_demo types_T 21 (AdsConfig None 0 (Some [stack_demo; ipc_demo]))
      (Runnable conn_zero (Conn 5 0) conn_zero) None (Some runtime_context_zero) (process_of tt shared_zero) =
    (Ok (0, AdsConfig None 0 (Some [vmr'; ipc_demo]), Some runtime_context_zero), process_of tt shared_zero).
Proof.
  apply (ads_configure_hides_failure nanopb_demo types_T 21 (AdsConfig None 0 (Some [stack_demo; ipc_demo]))
    (Runnable conn_zero (Conn 5 0) conn_zero) (Some runtime_context_zero) (process_of tt shared_zero) 0
    [stack_demo; ipc_demo] 0 [stack_demo; ipc_demo] (Some runtime_context_zero) 0 stack_demo
    (process_of tt shared_zero) (process_of tt shared_zero)); try reflexivity.
  - simpl. lia.
  - repeat split; discriminate.
Defined.
End CreationWitnesses.
