(* ===== verification/StartServer.v ===== *)
(** * Starting resource servers

    Model of [libsel4gpi/src/resource_server_clientapi.c] and of the functions of the client
    libraries that start a server: [start_ramdisk_pd] of the RAM disk, [start_xv6fs_pd] of
    the file server, and [kvstore_server_start_thread] of the key-value store.  A parent
    makes a PD or a thread, sends it an endpoint, and waits on it until the server says that
    it is ready. *)

From stdpp Require Import base numbers list strings.
From S2P Require Import Prelude Strings Badge Registry State ResourceTypes Component PdResources Resspc Mo Ads AdsRequests Elf Cpu PdObj PdComponent Ep Server Client PdUtils ResourceServer Ramdisk Xv6Bio FsServer KvStore PdCreation.

Definition runnable_zero : sel4gpi_runnable_t := Runnable conn_zero conn_zero conn_zero.

Section StartServer.
Context {K A : Type} `{!Kernel K} (N : nanopb) (R : reservation_types) (L : runtime).
Context (MO_LARGE_PAGE_BITS PD_HEAP_LOC pd_cnode_guard start_addr STACK_CALL_ALIGNMENT : Z).
Context (try_calloc : A -> bool * A).
(** the label of the message that was received last *)
Context (received_label : K -> Z).
Abbreviation P := (M (process K A)).

(** seL4_Recv, without the badge: the label and the words of the message *)
Definition seL4_Recv (ep : Z) : P (Z * list Z) :=
  r ← syscall (k_recv ep);
  label ← gets (fun p => received_label (kernel p));
  mret (label, snd r).

Abbreviation prepare_pd := (sel4gpi_prepare_pd N R L MO_LARGE_PAGE_BITS pd_cnode_guard start_addr STACK_CALL_ALIGNMENT
  try_calloc).

(** the error code, [*server_pd] and [*space_id]; the configuration is only freed *)
Definition start_resource_server_pd_args (rde_type rde_id : Z) (image_name args_input : list Z)
  : P (Z * option conn_t * option Z) :=
  current_pd ← sel4gpi_get_pd_conn;
  r ← sel4gpi_alloc_endpoint N;
  let '(error, ep_conn) := r : Z * option ep_conn_t in
  if negb (error =? 0) then mret (error, None, None) else
  ep_conn ← deref_conn ep_conn;
  r ← sel4gpi_configure_process N R PD_HEAP_LOC try_calloc image_name DEFAULT_STACK_PAGES DEFAULT_HEAP_PAGES runnable_zero;
  let '(cfg, runnable) := r : option pd_config_t * sel4gpi_runnable_t in
  match cfg with
  | None => mret (1, None, None)
  | Some cfg =>
      let server_pd := Some (rn_pd runnable) in
      r ← pd_client_send_cap N (rn_pd runnable) (ep_conn_ep ep_conn);
      let '(error, parent_ep_slot) := r : Z * option Z in
      if negb (error =? 0) then mret (error, server_pd, None) else
      parent_ep_slot ← deref_conn parent_ep_slot;
      cfg ← (if negb (rde_id =? 0) then sel4gpi_add_rde_config try_calloc cfg rde_type rde_id else mret cfg);
      cfg ← sel4gpi_add_rde_config try_calloc cfg GPICAP_TYPE_EP BADGE_SPACE_ID_NULL;
      let args := parent_ep_slot :: conn_id current_pd :: args_input in
      r ← prepare_pd cfg runnable (Z.of_nat (length args)) (Some args);
      if negb (fst r =? 0) then mret (fst r, server_pd, None) else
      error ← sel4gpi_start_pd N runnable;
      if negb (error =? 0) then mret (error, server_pd, None) else
      tag ← seL4_Recv (raw_endpoint ep_conn);
      let '(label, words) := tag : Z * list Z in
      if negb (i32 label =? 0) then mret (i32 label, server_pd, None) else
      space_id ← deref_conn (List.hd_error words);
      error ← ep_component_client_disconnect N ep_conn;
      mret (error, server_pd, Some (u32 space_id))
  end.
Definition start_resource_server_pd (rde_type rde_id : Z) (image_name : list Z) : P (Z * option conn_t * option Z) :=
  start_resource_server_pd_args rde_type rde_id image_name [].

(** *** The servers of the applications *)
Definition RAMDISK_APP : list Z := chars "ramdisk_server".
Definition FS_APP : list Z := chars "fs_server".

(** an error is -1 *)
Definition start_ramdisk_pd : P (Z * option conn_t * option Z) :=
  r ← start_resource_server_pd GPICAP_TYPE_NONE 0 RAMDISK_APP;
  let '(error, ramdisk_pd, ramdisk_id) := r : Z * option conn_t * option Z in
  mret (if error =? 0 then 0 else -1, ramdisk_pd, ramdisk_id).
Definition start_xv6fs_pd (rd_id : Z) : P (Z * option conn_t * option Z) :=
  type ← sel4gpi_get_resource_type_code BLOCK_RESOURCE_TYPE_NAME;
  start_resource_server_pd type rd_id FS_APP.

(** ** The key-value store in a thread of its parent *)

(** the address of kvstore_server_main_thread *)
Context (kvstore_server_main_thread : Z).
(** the error code, and [*kvstore_ep]; the slot of the endpoint is passed on whether or not
    the message that moves it succeeded *)
Definition kvstore_server_start_thread : P (Z * option Z) :=
  pd_rde ← sel4gpi_get_rde GPICAP_TYPE_PD;
  if pd_rde =? CapNull then mret (1, None) else
  r ← sel4gpi_configure_thread N R try_calloc kvstore_server_main_thread None runnable_zero;
  let '(cfg, runnable) := r : option pd_config_t * sel4gpi_runnable_t in
  match cfg with
  | None => mret (1, None)
  | Some cfg =>
      cfg ← sel4gpi_add_rde_config try_calloc cfg GPICAP_TYPE_EP BADGE_SPACE_ID_NULL;
      r ← sel4gpi_alloc_endpoint N;
      let '(error, ep_conn) := r : Z * option ep_conn_t in
      if negb (error =? 0) then mret (KvstoreError_UNKNOWN, None) else
      ep_conn ← deref_conn ep_conn;
      r ← pd_client_send_cap N (rn_pd runnable) (ep_conn_ep ep_conn);
      temp_ep_in_PD ← deref_conn (snd r);
      self ← sel4gpi_get_pd_conn;
      let args := [temp_ep_in_PD; conn_id self] in
      r ← prepare_pd cfg runnable 2 (Some args);
      if negb (fst r =? 0) then mret (KvstoreError_UNKNOWN, None) else
      error ← sel4gpi_start_pd N runnable;
      if negb (error =? 0) then mret (KvstoreError_UNKNOWN, None) else
      tag ← seL4_Recv (raw_endpoint ep_conn);
      if negb (i32 (fst tag) =? 0) then mret (KvstoreError_UNKNOWN, None) else
      kvstore_type_code ← sel4gpi_get_resource_type_code KVSTORE_RESOURCE_NAME;
      if kvstore_type_code =? GPICAP_TYPE_NONE then mret (KvstoreError_UNKNOWN, None) else
      kvstore_ep ← sel4gpi_get_rde kvstore_type_code;
      mret (if kvstore_ep =? CapNull then KvstoreError_UNKNOWN else 0, Some kvstore_ep)
  end.
End StartServer.
