(* ===== verification/KvClient.v ===== *)
(** * The client of the key-value store

    Model of [apps/kvstore/src/client/kvstore_client.c].  The store is in the caller, in a
    second address space of the caller, in a thread of the caller, or in another process.

    In the second mode the thread moves to the other address space for each operation.  An
    address space has its own copy of the static variables and of the memory; the stack, the
    IPC buffer, the code and the data of the GPI server are the same memory in both.  What an
    address space has for itself stays as it is while the thread is in another one, since its
    pages are mapped nowhere else: this is an assumption on the kernel that is a part of the
    model, in [enter_ads], and nothing that the theorems show.  The pointers of the caller to
    which an operation writes its results are used in the address space of the store: a result
    reaches the caller only through memory that both share, such as the stack. *)

From stdpp Require Import base numbers list gmap.
From S2P Require Import Prelude Strings Badge Registry State ResourceTypes Component PdResources Resspc Mo Ads AdsRequests Elf Cpu PdObj PdComponent Ep Server Client PdUtils ResourceServer FsServer FsClient KvStore PdCreation StartServer.

Inductive kvstore_mode_t := SAME_THREAD | SEPARATE_ADS | SEPARATE_THREAD | SEPARATE_PROC.

(** the static variables: those of the server, with the client of the file server, and those
    of this file *)
Record kv_statics := KvStatics {
  kc_server : kvstore_server_context_t;
  kc_mode : kvstore_mode_t;
  server_ep : Z;
  kvserv_ads : conn_t;
  client_ads_conn : conn_t;
  self_cpu_conn : conn_t
}.
Definition set_kc_server (v : kvstore_server_context_t) (x : kv_statics) : kv_statics :=
  KvStatics v (kc_mode x) (server_ep x) (kvserv_ads x) (client_ads_conn x) (self_cpu_conn x).
Definition set_kc_mode (v : kvstore_mode_t) (x : kv_statics) : kv_statics :=
  KvStatics (kc_server x) v (server_ep x) (kvserv_ads x) (client_ads_conn x) (self_cpu_conn x).
Definition set_server_ep (v : Z) (x : kv_statics) : kv_statics :=
  KvStatics (kc_server x) (kc_mode x) v (kvserv_ads x) (client_ads_conn x) (self_cpu_conn x).
Definition set_kvserv_ads (v : conn_t) (x : kv_statics) : kv_statics :=
  KvStatics (kc_server x) (kc_mode x) (server_ep x) v (client_ads_conn x) (self_cpu_conn x).
Definition set_client_ads_conn (v : conn_t) (x : kv_statics) : kv_statics :=
  KvStatics (kc_server x) (kc_mode x) (server_ep x) (kvserv_ads x) v (self_cpu_conn x).
Definition set_self_cpu_conn (v : conn_t) (x : kv_statics) : kv_statics :=
  KvStatics (kc_server x) (kc_mode x) (server_ep x) (kvserv_ads x) (client_ads_conn x) v.

(** what an address space that the thread is not in holds; the static variables include that
    of [pd_utils.c] *)
Record address_space := AddressSpace { as_statics : kv_statics; as_reply_cap_slot : Z; as_memory : Z -> Z }.
(** the variables where the thread is, and the other address spaces by their identifiers *)
Record kv_client_t := KvClient { statics : kv_statics; spaces : gmap Z address_space }.

Section KvClient.
Context {K : Type} `{!Kernel K} `{!UTHash} (N : nanopb) (R : reservation_types) (L : runtime).
Context (MO_LARGE_PAGE_BITS PD_HEAP_LOC pd_cnode_guard start_addr STACK_CALL_ALIGNMENT : Z).
Context `{!Sqlite (process K fs_client_t)}.
(** nanopb, for the messages of the file server and of the key-value store *)
Context (fs_encode : FsMessage -> option (list Z)) (fs_decode : list Z -> option FsReturnMessage).
Context (kv_encode_request : KvstoreMessage -> option (list Z)) (kv_decode_reply : list Z -> option KvstoreReturnMessage).
Context (malloc_fails : nat -> bool).
(** the kernel: the label of the last message, the address space that a slot names; the
    addresses that the address spaces share; that of the data of the GPI server *)
Context (received_label : K -> Z) (ads_of_slot : K -> Z -> Z) (shared_address : Z -> bool) (osm_shared_data_addr : Z).
(** the address of kvstore_server_main_thread; whether ZF_LOGF stops the program *)
Context (kvstore_server_main_thread : Z) (zf_logf_aborts : bool).
Abbreviation P := (M (process K kv_client_t)).

Definition with_statics (f : kv_statics -> kv_statics) : P unit :=
  prog_modify (fun c => KvClient (f (statics c)) (spaces c)).
Definition get_statics : P kv_statics := gets (fun p => statics (program p)).
(** calloc *)
Definition kc_try_calloc (c : kv_client_t) : bool * kv_client_t :=
  let s := kc_server (statics c) in
  (negb (malloc_fails (kv_mallocs s)),
   KvClient (set_kc_server (set_kv_mallocs (S (kv_mallocs s)) s) (statics c)) (spaces c)).

(** a function of the server, in the address space of the caller *)
Definition on_server {B} (m : M (process K kvstore_server_context_t) B) : P B := fun p =>
  let c := program p in
  let '(r, q) := m (Process (kernel p) (my_shared_data p) (reply_cap_slot p) (memory p) (kc_server (statics c))) in
  (r, Process (kernel q) (my_shared_data q) (reply_cap_slot q) (memory q)
        (KvClient (set_kc_server (program q) (statics c)) (spaces c))).

(** ** Address spaces *)
Definition set_ads_conn_id (id : Z) (d : osm_pd_shared_data_t) : osm_pd_shared_data_t :=
  set_ads_conn (Conn id (conn_ep (ads_conn d))) d.
(** the memory that a thread sees after a move from [here] to [there]: an address that is
    shared is backed by the same frames in both, and holds what was last written to it; what
    another address shows are the frames of [there] *)
Definition moved_memory (here there : Z -> Z) : Z -> Z := fun a => if shared_address a then here a else there a.
(** What a granted move does to the thread: it is in the address space that a slot names, and
    the GPI server has put its identifier in the data that it shares with the PD.  The
    variables and the memory that it had in the old one are kept for the next move there.
    Nothing of the program is mapped in an address space that was not set up for it. *)
Definition enter_ads (slot : Z) : P unit :=
  p ← get_state;
  let id := ads_of_slot (kernel p) slot in
  let old := conn_id (ads_conn (my_shared_data p)) in
  if id =? old then mret tt else
  let c := program p in
  match spaces c !! id with
  | None => crash NullDeref
  | Some s =>
      modify (fun p => Process (kernel p) (set_ads_conn_id id (my_shared_data p)) (as_reply_cap_slot s)
        (moved_memory (memory p) (as_memory s))
        (KvClient (as_statics s)
           (<[old := AddressSpace (statics c) (reply_cap_slot p) (memory p)]> (delete id (spaces c)))))
  end.
Definition change_vspace (cpu ads : conn_t) : P Z :=
  error ← cpu_client_change_vspace N cpu ads;
  if negb (error =? 0) then mret error else enter_ads (conn_ep ads) ;; mret 0.

(** to the address space of the store, and to that of the application *)
Definition kvstore_client_swap_ads_lib : P Z := s ← get_statics; change_vspace (self_cpu_conn s) (kvserv_ads s).
Definition kvstore_client_swap_ads_app : P Z := s ← get_statics; change_vspace (self_cpu_conn s) (client_ads_conn s).

(** the variables and the memory are copied into the objects that the new address space gets *)
Definition copy_space : P address_space :=
  gets (fun p => AddressSpace (statics (program p)) (reply_cap_slot p) (memory p)).
Definition new_space (ads : conn_t) (s : address_space) : P unit :=
  k ← gets kernel;
  prog_modify (fun c => KvClient (statics c) (<[ads_of_slot k (conn_ep ads) := s]> (spaces c))).

(** *** Configuration *)

(** the regions of the second address space; the error code, the configuration, and what is
    copied: the address, the size and the object of the heap and of the static variables *)
Definition separate_ads_regions (mo_rde : Z) (self_ads_conn : conn_t) : P (Z * ads_config_t * list (Z * Z * conn_t)) :=
  let none := AdsConfig None 0 None in
  let add := sel4gpi_add_vmr_config kc_try_calloc in
  r ← mo_component_client_connect N mo_rde DEFAULT_HEAP_PAGES MO_PAGE_BITS;
  let '(error, heap_mo) := r : Z * option conn_t in
  if negb (error =? 0) then mret (error, none, []) else
  heap_mo ← deref_conn heap_mo;
  cfg ← add none GPI_DISJOINT (RES_TYPE_HEAP R) PD_HEAP_LOC 0 DEFAULT_HEAP_PAGES MO_PAGE_BITS (Some heap_mo);
  cfg ← add cfg GPI_SHARED (RES_TYPE_GENERIC R) osm_shared_data_addr 0 1 MO_PAGE_BITS None;
  r ← ads_client_get_reservation N self_ads_conn (RES_TYPE_DATA R);
  let '(error, elf_data) := r : Z * option (Z * Z * Z) in
  if negb (error =? 0) then mret (error, cfg, []) else
  let '(elf_data_va, elf_data_pages, elf_page_bits) := default (0, 0, 0) elf_data in
  r ← mo_component_client_connect N mo_rde elf_data_pages elf_page_bits;
  let '(error, elf_data_mo) := r : Z * option conn_t in
  if negb (error =? 0) then mret (error, cfg, []) else
  elf_data_mo ← deref_conn elf_data_mo;
  cfg ← add cfg GPI_DISJOINT (RES_TYPE_DATA R) elf_data_va 0 elf_data_pages elf_page_bits (Some elf_data_mo);
  cfg ← add cfg GPI_SHARED (RES_TYPE_CODE R) 0 0 0 0 None;
  cfg ← add cfg GPI_SHARED (RES_TYPE_STACK R) 0 0 0 0 None;
  cfg ← add cfg GPI_SHARED (RES_TYPE_IPC_BUF R) 0 0 0 0 None;
  mret (0, cfg, [(PD_HEAP_LOC, u64 (DEFAULT_HEAP_PAGES * 2 ^ MO_PAGE_BITS), heap_mo);
                 (elf_data_va, u64 (elf_data_pages * 2 ^ elf_page_bits), elf_data_mo)]).
(** what is copied first to last *)
Fixpoint copy_regions (l : list (Z * Z * conn_t)) : P Z :=
  match l with
  | [] => mret 0
  | (vaddr, size, mo) :: l =>
      error ← sel4gpi_copy_data_to_mo N (RES_TYPE_GENERIC R) vaddr size mo;
      if negb (error =? 0) then mret error else copy_regions l
  end.
(** xv6fs_client is cleared; the table of open files is not a part of it *)
Definition cleared_files (f : fs_client_t) : fs_client_t :=
  FsClientState 0 0 0 None 0 (fd_table f) (dev_null_fd f) (c_mallocs f).
(** the start of the server in its address space *)
Definition start_in_separate_ads : P Z :=
  with_statics (fun s => set_kc_server (set_kv_files (cleared_files (kv_files (kc_server s))) (kc_server s)) s) ;;
  error ← on_server (kvstore_server_init N (RES_TYPE_SHARED_FRAMES R) fs_encode fs_decode malloc_fails);
  if negb (error =? 0) then mret error else
  ads ← sel4gpi_get_ads_conn;
  with_statics (set_client_ads_conn ads) ;;
  cpu ← sel4gpi_get_cpu_conn;
  with_statics (set_self_cpu_conn cpu) ;;
  error ← change_vspace cpu ads;
  assert_ (error =? 0) ;;
  mret 0.
Definition configure_separate_ads : P Z :=
  ads_rde ← sel4gpi_get_rde GPICAP_TYPE_ADS;
  if ads_rde =? CapNull then mret 1 else
  mo_rde ← sel4gpi_get_rde GPICAP_TYPE_MO;
  if mo_rde =? CapNull then mret 1 else
  self_ads_conn ← sel4gpi_get_ads_conn;
  r ← ads_component_client_connect N ads_rde;
  let '(error, ads) := r : Z * option conn_t in
  if negb (error =? 0) then mret error else
  ads ← deref_conn ads;
  r ← separate_ads_regions mo_rde self_ads_conn;
  let '(error, cfg, copied) := r : Z * ads_config_t * list (Z * Z * conn_t) in
  if negb (error =? 0) then mret error else
  error ← copy_regions copied;
  if negb (error =? 0) then mret error else
  s ← copy_space;
  r ← sel4gpi_ads_configure N R MO_LARGE_PAGE_BITS cfg (Runnable conn_zero ads conn_zero) None None;
  let '(error, _, _) := r : Z * ads_config_t * option runtime_context_t in
  if negb (error =? 0) then mret error else
  new_space ads s ;;
  with_statics (set_kvserv_ads ads) ;;
  cpu ← sel4gpi_get_cpu_conn;
  with_statics (set_self_cpu_conn cpu) ;;
  error ← change_vspace cpu ads;
  if negb (error =? 0) then mret error else start_in_separate_ads.

Definition kvstore_client_configure (kvstore_mode : kvstore_mode_t) (ep : Z) : P Z :=
  with_statics (set_kc_mode kvstore_mode) ;;
  match kvstore_mode with
  | SAME_THREAD => on_server (kvstore_server_init N (RES_TYPE_SHARED_FRAMES R) fs_encode fs_decode malloc_fails)
  | SEPARATE_ADS => configure_separate_ads
  | SEPARATE_THREAD =>
      r ← kvstore_server_start_thread N R L MO_LARGE_PAGE_BITS pd_cnode_guard start_addr STACK_CALL_ALIGNMENT
            kc_try_calloc received_label kvstore_server_main_thread;
      let '(error, ep) := r : Z * option Z in
      (match ep with Some ep => with_statics (set_server_ep ep) | None => mret tt end) ;;
      mret error
  | SEPARATE_PROC => with_statics (set_server_ep ep) ;; mret 0
  end.

(** ** Operations *)

(** a message to the server, or to the endpoint of a store: the error of the call or of the
    reply, and the reply *)
Definition kv_request (ep : Z) (request : KvstoreRequest) : P (Z * option KvstoreReturn) :=
  r ← sel4gpi_rpc_call kv_encode_request kv_decode_reply ep (KvMsg KVSTORE_RPC_MAGIC request) [];
  let '(error, reply) := r : Z * option KvstoreReturnMessage in
  mret (Z.lor error (default 0 (kv_errorCode <$> reply)), kv_ret <$> reply).
(** the operation in the address space of the store, between two moves; the error of the
    second one is only printed.  [outputs] has the addresses to which the operation writes its
    results.  Where they are not shared, it overwrites something of the address space of the
    store instead of the variables of the caller. *)
Definition in_separate_ads {B} (failed : Z -> B) (outputs : B -> list Z) (m : M
    (process K kvstore_server_context_t) B) : P B :=
  error ← kvstore_client_swap_ads_lib;
  if negb (error =? 0) then mret (failed error) else
  r ← on_server m;
  when (negb (forallb shared_address (outputs r))) (crash OutOfBounds) ;;
  swap_err ← kvstore_client_swap_ads_app;
  when (negb (swap_err =? 0) && zf_logf_aborts) (crash AssertFail) ;;
  mret r.

(** the bytes of a result, when there is one, at an address *)
Definition written_to {B} (ptr size : Z) (r : Z * option B) : list Z :=
  match snd r with Some _ => seqZ ptr size | None => [] end.

(** the error code, [*dest] and [*store_id]; [store_id] is the address *)
Definition kvstore_client_create_kvstore (store_id : Z) : P (Z * option Z * option Z) :=
  s ← get_statics;
  let create := kvstore_create_store malloc_fails in
  match kc_mode s with
  | SEPARATE_PROC | SEPARATE_THREAD =>
      r ← kv_request (server_ep s) KvCreate;
      let '(error, reply) := r : Z * option KvstoreReturn in
      if error =? 0 then
        match reply with
        | Some (KvAllocReturn dest) => mret (0, Some dest, None)
        | _ => crash OtherMember
        end
      else mret (error, None, None)
  | SEPARATE_ADS =>
      r ← in_separate_ads (fun error => (error, None)) (written_to store_id 4) create; mret (fst r, None, snd r)
  | SAME_THREAD => r ← on_server create; mret (fst r, None, snd r)
  end.

Definition kvstore_client_set (kvstore_ep store_id key value : Z) : P Z :=
  s ← get_statics;
  match kc_mode s with
  | SEPARATE_PROC | SEPARATE_THREAD => r ← kv_request kvstore_ep (KvSet key value); mret (fst r)
  | SEPARATE_ADS => in_separate_ads id (fun _ => []) (kvstore_server_set store_id key value)
  | SAME_THREAD => on_server (kvstore_server_set store_id key value)
  end.

(** the error code, and [*value]; [value] is the address; the key is written to the member for a set, where the key
    of a get is *)
Definition kvstore_client_get (kvstore_ep store_id key value : Z) : P (Z * option Z) :=
  s ← get_statics;
  match kc_mode s with
  | SEPARATE_PROC | SEPARATE_THREAD =>
      r ← kv_request kvstore_ep (KvGet key);
      let '(error, reply) := r : Z * option KvstoreReturn in
      if error =? 0 then
        match reply with
        | Some (KvGetReturn val) => mret (0, Some val)
        | _ => crash OtherMember
        end
      else mret (error, None)
  | SEPARATE_ADS => in_separate_ads (fun error => (error, None)) (written_to value 8) (kvstore_server_get store_id key)
  | SAME_THREAD => on_server (kvstore_server_get store_id key)
  end.

End KvClient.
