(* ===== verification/KvModes.v ===== *)
(** * The key-value store through its client

    The operations of the client library refine the finite maps of the file KvTables when the
    store is in a second address space of the caller, and when it is in another process.

    In the first case the thread moves to the other address space and back for each
    operation.
    In the second case an operation is a message that goes through an iteration of the
    server's loop to its request handler, and a reply. *)

From stdpp Require Import base numbers list gmap strings.
From S2P Require Import Prelude Strings Badge Registry State ResourceTypes Component PdResources Resspc Mo Ads AdsRequests Elf Cpu PdObj PdComponent Ep Server Client PdUtils ResourceServer FsServer FsClient KvStore KvTables FsOnRamdisk PdCreation StartServer KvClient.

(** two processes that differ in how their memory is represented at most *)
Definition same_process {K A} (p q : process K A) : Prop :=
  kernel p = kernel q /\ my_shared_data p = my_shared_data q /\ reply_cap_slot p = reply_cap_slot q /\
  (forall a, memory p a = memory q a) /\ program p = program q.

(** ** Sequences of operations *)

(** through the client library; [ep_of] has the endpoints of stores, [value_at] is the address
    of the variable for the results of gets *)
Section Operations.
Context {K : Type} `{!Kernel K} (N : nanopb) `{!Sqlite (process K fs_client_t)}.
Context (kv_encode_request : KvstoreMessage -> option (list Z)) (kv_decode_reply : list Z -> option KvstoreReturnMessage).
Context (ads_of_slot : K -> Z -> Z) (shared_address : Z -> bool) (zf_logf_aborts : bool) (ep_of : Z -> Z) (value_at : Z).

Definition client_op (op : kv_op) : M (process K kv_client_t) (Z * option Z) :=
  match op with
  | StoreSet sid key val =>
      error ← kvstore_client_set N kv_encode_request kv_decode_reply ads_of_slot shared_address zf_logf_aborts
        (ep_of sid) sid key val;
      mret (error, None)
  | StoreGet sid key =>
      kvstore_client_get N kv_encode_request kv_decode_reply ads_of_slot shared_address zf_logf_aborts (ep_of sid) sid key
        value_at
  end.
Fixpoint client_ops (ops : list kv_op) : M (process K kv_client_t) (list (Z * option Z)) :=
  match ops with
  | [] => mret []
  | op :: ops => r ← client_op op; rs ← client_ops ops; mret (r :: rs)
  end.
End Operations.

(** what SQLite's functions preserve, the operations of the server do *)
Section Preserved.
Context {K : Type} `{!Sqlite (process K fs_client_t)} (I : process K fs_client_t -> Prop).

Record sqlite_preserves : Prop := {
  exec_preserves text : preserves I (sqlite3_exec text : M (process K fs_client_t) Z);
  prepare_preserves text : preserves I (sqlite3_prepare_v2 text : M (process K fs_client_t) (Z * Z));
  step_preserves stmt : preserves I (sqlite3_step stmt : M (process K fs_client_t) Z);
  column_preserves stmt i : preserves I (sqlite3_column_text stmt i : M (process K fs_client_t) _);
  finalize_preserves stmt : preserves I (sqlite3_finalize stmt : M (process K fs_client_t) Z)
}.
Context (HI : sqlite_preserves).
Abbreviation I' := (fun t : process K kvstore_server_context_t => I (files_of t)).

Lemma on_files_preserves {B} (m : M (process K fs_client_t) B) : preserves I m -> preserves I' (on_files m).
Proof.
  intros Hm t Ht. unfold on_files. specialize (Hm (files_of t) Ht). fold (files_of t). destruct (m _) as [r q].
  by destruct q.
Qed.
Ltac preserved := pres; apply on_files_preserves; first [apply exec_preserves | apply prepare_preserves
  | apply step_preserves | apply column_preserves | apply finalize_preserves]; exact HI.
Lemma set_preserves sid key val : preserves I' (kvstore_server_set sid key val).
Proof. unfold kvstore_server_set, SQL_EXEC. preserved. Qed.
Lemma get_preserves sid key : preserves I' (kvstore_server_get sid key).
Proof. unfold kvstore_server_get. preserved. Qed.
End Preserved.

(** ** A second address space *)
Section SeparateAds.
Context {K : Type} `{!Kernel K} (N : nanopb) `{!Sqlite (process K fs_client_t)}
  {tables : process K fs_client_t -> tables_t} {stmts : process K fs_client_t -> Z -> option stmt_state}
  `{!SqliteTables tables stmts}.
Context (kv_encode_request : KvstoreMessage -> option (list Z)) (kv_decode_reply : list Z -> option KvstoreReturnMessage).
Context (ads_of_slot : K -> Z -> Z) (shared_address : Z -> bool) (zf_logf_aborts : bool) (ep_of : Z -> Z) (value_at : Z).
(** the address spaces of the application and of the library *)
Context (app lib : Z).
Implicit Types (p : process K kv_client_t) (q : process K fs_client_t) (t : process K kvstore_server_context_t).

(** what a process knows of address spaces: the one it is in, and those that its slots name *)
Definition sees {A} (f : Z -> Z) (a : Z) (p : process K A) : Prop :=
  conn_id (ads_conn (my_shared_data p)) = a /\ forall slot, ads_of_slot (kernel p) slot = f slot.

(** SQLite does not move the thread *)
Definition sqlite_stays : Prop := forall f a, sqlite_preserves (sees f a).
(** The GPI server answers a request to move to one of the two address spaces, with an error
    code when it does not grant the move; the way back to the application is granted.  It
    changes no files, and what slots name. *)
Definition moves_answered : Prop := forall p cpu ads, let id := ads_of_slot (kernel p) (conn_ep ads) in
  id = app \/ id = lib -> exists e k, cpu_client_change_vspace N cpu ads p = (Ok e, set_kernel k p) /\
    (id = app -> e = 0) /\ (forall slot, ads_of_slot k slot = ads_of_slot (kernel p) slot) /\
    forall q, kernel q = kernel p -> tables (set_kernel k q) = tables q.

Hypothesis Hstays : sqlite_stays.
Hypothesis Hmove : moves_answered.
(** the results of gets go to the stack *)
Hypothesis Hstack : Forall (fun a => shared_address a = true) (seqZ value_at 8).
Hypothesis Htables : forall q q', same_process q q' -> tables q = tables q'.

(** *** Moving *)

(** the process of the server once the thread is in its address space *)
Definition in_lib p (s : address_space) : process K kvstore_server_context_t :=
  Process (kernel p) (set_ads_conn_id lib (my_shared_data p)) (as_reply_cap_slot s)
    (moved_memory shared_address (memory p) (as_memory s)) (kc_server (as_statics s)).
(** the stores of a client *)
Definition client_stores p : tables_t := match spaces (program p) !! lib with Some s => stores (tables := tables)
    (in_lib p s) | None => ∅ end.

(** after SEPARATE_ADS was configured: the thread is in the address space of the application *)
Record separated p : Prop := {
  sp_mode : kc_mode (statics (program p)) = SEPARATE_ADS;
  sp_app : conn_id (ads_conn (my_shared_data p)) = app;
  sp_lib : ads_of_slot (kernel p) (conn_ep (kvserv_ads (statics (program p)))) = lib;
  sp_distinct : app <> lib;
  sp_back : exists s, spaces (program p) !! lib = Some s /\
    ads_of_slot (kernel p) (conn_ep (client_ads_conn (as_statics s))) = app
}.
(** a process after a move to an address space *)
Definition moved p (k : K) (id : Z) (s : address_space) : process K kv_client_t :=
  Process k (set_ads_conn_id id (my_shared_data p)) (as_reply_cap_slot s)
    (moved_memory shared_address (memory p) (as_memory s))
    (KvClient (as_statics s) (<[conn_id (ads_conn (my_shared_data p)) :=
       AddressSpace (statics (program p)) (reply_cap_slot p) (memory p)]> (delete id (spaces (program p))))).
Lemma change_vspace_run p cpu ads id s : id = app \/ id = lib -> ads_of_slot (kernel p) (conn_ep ads) = id ->
  conn_id (ads_conn (my_shared_data p)) <> id -> spaces (program p) !! id = Some s ->
  exists e k, change_vspace N ads_of_slot shared_address cpu ads p =
      (Ok e, if e =? 0 then moved p k id s else set_kernel k p) /\
    (id = app -> e = 0) /\ (forall slot, ads_of_slot k slot = ads_of_slot (kernel p) slot) /\
    forall q, kernel q = kernel p -> tables (set_kernel k q) = tables q.
Proof.
  intros Hid Hads Hne Hs. destruct (Hmove p cpu ads) as (e & k & Hrun & He & Hslots & Hq).
  { rewrite Hads. done. }
  exists e, k. rewrite Hads in He. split; [|done]. unfold change_vspace. rewrite (bind_ok _ _ _ _ _ Hrun).
  destruct (Z.eqb_spec e 0) as [->|Hne0]; simpl; [|done].
  erewrite bind_ok; [reflexivity|]. unfold enter_ads. erewrite bind_ok by reflexivity. cbv zeta. cbn [kernel set_kernel].
  rewrite Hslots, Hads. cbn [my_shared_data set_kernel program]. rewrite (proj2 (Z.eqb_neq _ _)) by congruence.
  by rewrite Hs.
Qed.

(** an operation of the server in its address space, unless the way there is refused *)
Lemma in_separate_ads_run {B} (failed : Z -> B) outputs (m : M (process K kvstore_server_context_t) B) p :
  separated p -> (forall f a, preserves (sees f a) m) ->
  (exists e p', in_separate_ads N ads_of_slot shared_address zf_logf_aborts failed outputs m p = (Ok (failed e), p') /\
     e <> 0 /\ separated p' /\ client_stores p' = client_stores p) \/
  exists t, stores (tables := tables) t = client_stores p /\
    forall r t', m t = (Ok r, t') -> forallb shared_address (outputs r) = true -> exists p',
      in_separate_ads N ads_of_slot shared_address zf_logf_aborts failed outputs m p = (Ok r, p') /\
      separated p' /\ client_stores p' = stores (tables := tables) t'.
Proof.
  intros [Hmode Happ Hlib Hne (s & Hs & Hback)] Hm.
  destruct (change_vspace_run p (self_cpu_conn (statics (program p))) (kvserv_ads (statics (program p))) lib s) as
    (e & k & Hrun & _ & Hslots & Hk); [by right|done|congruence|done|].
  assert (stores (tables := tables) (in_lib (set_kernel k p) s) = stores (tables := tables) (in_lib p s)) as Ht.
  { apply (Hk (files_of (in_lib p s))). done. }
  destruct (Z.eqb_spec e 0) as [->|He].
  2:{ left. exists e, (set_kernel k p). split; [|split; [done|split]].
    - unfold in_separate_ads, kvstore_client_swap_ads_lib.
      erewrite bind_ok. 2:{ erewrite bind_ok by reflexivity. exact Hrun. }
      by rewrite (proj2 (Z.eqb_neq _ _) He).
    - split; try done; simpl; [congruence|]. exists s. split; [done|]. congruence.
    - unfold client_stores. simpl. by rewrite Hs. }
  right. set (p1 := moved p k lib s) in *. set (t := in_lib (set_kernel k p) s) in *.
  exists t. split; [by unfold client_stores; rewrite Hs|]. intros r t' Hmt Hout.
  assert (sees (ads_of_slot (kernel p)) lib t') as [Hat Hslots'].
  { specialize (Hm (ads_of_slot (kernel p)) lib t). rewrite Hmt in Hm. apply Hm. by split. }
  set (p2 := Process (kernel t') (my_shared_data t') (reply_cap_slot t') (memory t')
    (KvClient (set_kc_server (program t') (as_statics s)) (spaces (program p1)))).
  set (back := AddressSpace (statics (program p)) (reply_cap_slot p) (memory p)).
  destruct (change_vspace_run p2 (self_cpu_conn (as_statics s)) (client_ads_conn (as_statics s)) app back) as
    (e' & k' & Hrun' & He' & Hslots2 & Hk'); [by left| | | |].
  { simpl. by rewrite Hslots'. }
  { simpl. congruence. }
  { simpl. rewrite Happ. apply lookup_insert_eq. }
  rewrite (He' eq_refl) in Hrun'. simpl in Hrun'.
  exists (moved p2 k' app back). split.
  { unfold in_separate_ads, kvstore_client_swap_ads_lib, kvstore_client_swap_ads_app.
    erewrite bind_ok. 2:{ erewrite bind_ok by reflexivity. exact Hrun. }
    cbn [Z.eqb negb]. erewrite bind_ok.
    2:{ unfold on_server. cbv zeta. change (Process _ _ _ _ _) with t at 1. rewrite Hmt. reflexivity. }
    rewrite Hout. erewrite bind_ok by reflexivity.
    erewrite bind_ok. 2:{ erewrite bind_ok by reflexivity. exact Hrun'. }
    done. }
  assert (spaces (program (moved p2 k' app back)) !! lib = Some
    (AddressSpace (set_kc_server (program t') (as_statics s)) (reply_cap_slot t') (memory t'))) as Hs'.
  { simpl. rewrite Hat. apply lookup_insert_eq. }
  split.
  - split; try done.
    + simpl. rewrite Hslots2. simpl. by rewrite Hslots'.
    + eexists. split; [exact Hs'|]. simpl. rewrite Hslots2. simpl. by rewrite Hslots'.
  - unfold client_stores. rewrite Hs'. unfold stores. rewrite <- (Hk' (files_of t')) by done. apply Htables.
    repeat split; simpl.
    + destruct (my_shared_data t') as [? [? ?]]; simpl in *. by subst.
    + intros a. unfold moved_memory. by destruct (shared_address a).
Qed.

(** *** Any sequence of operations *)

Abbreviation the_op := (client_op N kv_encode_request kv_decode_reply ads_of_slot shared_address zf_logf_aborts ep_of
    value_at).
Abbreviation the_ops := (client_ops N kv_encode_request kv_decode_reply ads_of_slot shared_address zf_logf_aborts
    ep_of value_at).
(** what an operation does to finite maps, or the refusal of the move to the store *)
Inductive moved_step T : kv_op -> Z * option Z -> tables_t -> Prop :=
| moved_there op r T' : kv_step T op r T' -> moved_step T op r T'
| move_refused op e : e <> 0 -> moved_step T op (e, None) T.
Inductive moved_steps : tables_t -> list kv_op -> list (Z * option Z) -> tables_t -> Prop :=
| moved_nil T : moved_steps T [] [] T
| moved_cons T op r T1 ops rs T2 : moved_step T op r T1 -> moved_steps T1 ops rs T2 ->
    moved_steps T (op :: ops) (r :: rs) T2.
Lemma moved_step_keeps T op r T' : moved_step T op r T' -> op_ok op -> all_ints T -> all_ints T' /\
  forall n, is_Some (T !! n) -> is_Some (T' !! n).
Proof. intros [] **; [by eapply step_keeps|done]. Qed.

Lemma client_op_step op p : separated p -> is_Some (client_stores p !! u32 (store_of op)) -> op_ok op ->
  all_ints (client_stores p) -> exists r p', the_op op p = (Ok r, p') /\ separated p' /\
    moved_step (client_stores p) op r (client_stores p').
Proof.
  intros Hsep Hex Hop HT. pose proof (sp_mode _ Hsep) as Hmode. destruct op as [sid key val|sid key].
  - destruct (in_separate_ads_run id (fun _ => []) (kvstore_server_set sid key val) p Hsep) as
      [(e & p' & Hp & He & Hsep' & Ht')|(t & Ht & Hrun)]; [intros f a; exact (set_preserves _ (Hstays f a) sid key val)| |].
    + eexists _, p'. rewrite Ht'. split; [|split; [done|by apply (move_refused _ _ e)]].
        unfold client_op, kvstore_client_set.
      erewrite bind_ok; [reflexivity|]. erewrite bind_ok by reflexivity. rewrite Hmode. exact Hp.
    + rewrite <- Ht in *. destruct (run_op_step _ t Hex Hop HT) as (r & t' & Hr & Hstep).
      simpl in Hr. inv_bind Hr as error t1 Hset. injection Hr as <- <-.
      destruct (Hrun _ _ Hset eq_refl) as (p' & Hp & Hsep' & Ht').
      eexists _, p'. rewrite Ht'. split; [|split; [done|by apply moved_there]]. unfold client_op, kvstore_client_set.
      erewrite bind_ok; [reflexivity|]. erewrite bind_ok by reflexivity. rewrite Hmode. exact Hp.
  - destruct (in_separate_ads_run (fun error => (error, None)) (written_to value_at 8)
      (kvstore_server_get sid key) p Hsep) as
      [(e & p' & Hp & He & Hsep' & Ht')|(t & Ht & Hrun)]; [intros f a; exact (get_preserves _ (Hstays f a) sid key)| |].
    + exists (e, None), p'. rewrite Ht'. split; [|split; [done|by apply move_refused]]. unfold client_op, kvstore_client_get.
      erewrite bind_ok by reflexivity. rewrite Hmode. exact Hp.
    + rewrite <- Ht in *. destruct (run_op_step _ t Hex Hop HT) as (r & t' & Hr & Hstep).
      destruct (Hrun _ _ Hr) as (p' & Hp & Hsep' & Ht').
      { apply forallb_forall. intros a Ha. unfold written_to in Ha. case_match; [|done].
        rewrite Forall_forall in Hstack. apply Hstack, list_elem_of_In, Ha. }
      exists r, p'. rewrite Ht'. split; [|split; [done|by apply moved_there]]. unfold client_op, kvstore_client_get.
      erewrite bind_ok by reflexivity. rewrite Hmode. exact Hp.
Qed.

(** C16: a store in a second address space is a finite map for the application.  The thread
    is in the address space of the application, and gets write their results to the stack.
    For any sequence of sets and gets through the client library, on stores that exist and
    with values that fit an int, with the thread moving to the address space of the store and
    back for each: a refused move there is returned as an error and nothing has changed;
    otherwise the result and the stores are those of finite maps, whatever fails in SQLite.
    After the sequence the thread is in the address space of the application again.  It is
    assumed that the GPI server grants the moves back, and that SQLite does not move the
    thread. *)
Theorem separate_ads_refines_map ops p : separated p ->
  Forall (fun op => is_Some (client_stores p !! u32 (store_of op)) /\ op_ok op) ops -> all_ints (client_stores p) ->
  returns (the_ops ops) p (fun rs p' => moved_steps (client_stores p) ops rs (client_stores p') /\ separated p').
Proof.
  revert p. induction ops as [|op ops IH]; intros p Hsep Hops HT.
  { eexists _, p. split; [reflexivity|]. split; [constructor|done]. }
  apply Forall_cons in Hops as [[Hex Hop] Hops].
  destruct (client_op_step op p Hsep Hex Hop HT) as (r & p1 & Hrun & Hsep1 & Hstep).
  destruct (moved_step_keeps _ _ _ _ Hstep Hop HT) as [HT1 Hkeep].
  destruct (IH p1 Hsep1) as (rs & p2 & Hrun2 & Hsteps & Hsep2); [|done|].
  { apply (Forall_impl _ _ _ Hops). intros op' [? ?]. auto. }
  exists (r :: rs), p2. simpl. rewrite (bind_ok _ _ _ _ _ Hrun), (bind_ok _ _ _ _ _ Hrun2). split; [done|].
  split; [by econstructor|done].
Qed.
End SeparateAds.

(** ** Another process *)

(** nanopb, for the messages of the key-value store: what was encoded is decoded, and
    messages whose numbers are words can be encoded *)
Record kv_codec := KvCodec {
  kv_encode_request : KvstoreMessage -> option (list Z);
  kv_decode_request : list Z -> option KvstoreMessage;
  kv_encode_return : KvstoreReturnMessage -> option (list Z);
  kv_decode_return : list Z -> option KvstoreReturnMessage
}.
Definition is_word (v : Z) : Prop := 0 <= v < 2 ^ 64.
Definition request_words (m : KvstoreRequest) : Prop :=
  match m with KvSet key val => is_word key /\ is_word val | KvGet key => is_word key | _ => True end.
Definition return_words (r : KvstoreReturn) : Prop :=
  match r with KvAllocReturn v | KvGetReturn v => is_word v | KvBasicReturn => True end.
Record kv_codec_ok (C : kv_codec) : Prop := {
  kc_request m words : kv_encode_request C m = Some words -> kv_decode_request C words = Some m;
  kc_return r words : kv_encode_return C r = Some words -> kv_decode_return C words = Some r;
  kc_requests m : request_words m -> is_Some (kv_encode_request C (KvMsg KVSTORE_RPC_MAGIC m));
  kc_returns e r : return_words r -> is_Some (kv_encode_return C (KvReply e r))
}.

Section Remote.
(** the kernel of the server has its mail, and a world in which the files are; calls to the
    GPI server get the answers of [gpi] *)
Context {W : Type} (N : nanopb) (gpi : Z -> list Z -> list Z -> Z * list Z).
Definition on_mail {B} (m : M mail B) : M (mail * W) B := fun k => let '(r, m') := m (fst k) in (r, (m', snd k)).
#[local] Instance server_kernel : Kernel (mail * W) := {|
  k_call ep words caps := mret (gpi ep words caps);
  k_recv _ := on_mail receive;
  k_send _ words := on_mail (modify (fun m => Mail (inbox m) (Some words)));
  k_set_receive_path _ := mret tt;
  k_save_caller _ := mret 0
|}.
Abbreviation server := (process (mail * W) kvstore_server_context_t).
Context `{!UTHash} `{!Sqlite (process (mail * W) fs_client_t)}
  {tables : process (mail * W) fs_client_t -> tables_t} {stmts : process (mail * W) fs_client_t -> Z -> option stmt_state}
  `{!SqliteTables tables stmts}.
Context (C : kv_codec) (malloc_fails : nat -> bool) (indeterminate receive_slot : Z) (work_handler : work_t -> M server Z).
(** the badges of the capabilities of the store in the cspace of the client *)
Context (kv_badge : Z -> option Z).

(** an iteration of the loop of the server *)
Definition serve_kv (badge : Z) (words : list Z) : M server (Z * list Z) :=
  modify (fun t => set_kernel (Mail (Some (badge, words)) None, snd (kernel t)) t) ;;
  _ ← resource_server_step N kv_gen (kv_decode_request C) (kv_encode_return C)
        (kvstore_request_handler N malloc_fails indeterminate) work_handler 0 receive_slot;
  k ← gets kernel;
  match outbox (fst k) with Some reply => mret (0, reply) | None => no_fuel end.
#[local] Instance to_server : Kernel server := {|
  k_call ep words caps := match kv_badge ep with
                          | Some badge => serve_kv badge words
                          | None => mret (gpi ep words caps)
                          end;
  k_recv _ := no_fuel;
  k_send _ _ := mret tt;
  k_set_receive_path _ := mret tt;
  k_save_caller _ := mret 0
|}.
Implicit Types (t : server) (p : process server kv_client_t) (q : process (mail * W) fs_client_t).
Abbreviation the_stores := (stores (tables := tables)).

(** the files are in the world: mail and the data of the PD are not part of them *)
Hypothesis Htables : forall q q', snd (kernel q) = snd (kernel q') -> memory q = memory q' -> program q = program q' ->
  tables q = tables q'.
(** the server has the slot for reply capabilities *)
Hypothesis Hslot : sqlite_preserves (fun q => reply_cap_slot q <> CapNull).
Hypothesis HC : kv_codec_ok C.
Hypothesis Hindeterminate : is_word indeterminate.

Lemma server_pure ep words caps (k : mail * W) : k_call ep words caps k = (Ok (gpi ep words caps), k).
Proof. done. Qed.
Lemma stores_same t t' : snd (kernel t) = snd (kernel t') -> memory t = memory t' ->
    kv_files (program t) = kv_files (program t') ->
  the_stores t = the_stores t'.
Proof. intros ???. by apply Htables. Qed.

(** *** An iteration of the server *)

(** the handler runs with the message taken from the mail, and its reply is the answer *)
Abbreviation the_handler := (kvstore_request_handler N malloc_fails indeterminate).
Lemma kv_serve_run t badge words msg : badge <> NOTIF_BADGE -> kv_decode_request C words = Some msg ->
  exists t0, the_stores t0 = the_stores t /\ program t0 = program t /\ reply_cap_slot t0 = reply_cap_slot t /\
    forall reply answer t1, the_handler msg badge receive_slot t0 = (Ok (reply, false), t1) ->
      reply_cap_slot t1 <> CapNull -> kv_encode_return C reply = Some answer ->
      exists t2, serve_kv badge words t = (Ok (0, answer), t2) /\ the_stores t2 = the_stores t1 /\
        program t2 = program t1 /\ reply_cap_slot t2 = reply_cap_slot t1.
Proof.
  intros Hn Hw. set (world := snd (kernel t)).
  exists (Process (Mail None None, world) (set_reply_cap (reply_cap_slot t) (my_shared_data t)) (reply_cap_slot t) (memory t)
    (program t)).
  split; [by apply stores_same|]. split; [done|]. split; [done|]. intros reply answer t1 Hrun Hslot1 Hans.
  set (sent := set_kernel (Mail (inbox (fst (kernel t1))) (Some answer), snd (kernel t1)) t1).
  exists (set_my_shared_data (set_reply_cap CapNull (my_shared_data sent)) sent). split; [|split;
      [by apply stores_same|done]].
  unfold serve_kv. erewrite bind_ok by reflexivity. rewrite (bind_ok _ _ _ 0 (set_my_shared_data
      (set_reply_cap CapNull (my_shared_data sent)) sent)); [done|].
  unfold resource_server_step. do 2 erewrite bind_ok by reflexivity. erewrite bind_ok by reflexivity.
  cbv beta iota. rewrite (proj2 (Z.eqb_neq _ _) Hn). erewrite bind_ok by reflexivity. rewrite Hw.
  do 2 erewrite bind_ok by reflexivity. erewrite bind_ok. 2:{ exact Hrun. }
  cbv beta iota. rewrite Hans. do 2 erewrite bind_ok by reflexivity.
  erewrite bind_ok by reflexivity. rewrite (bind_ok _ _ _ _ _ (clear_reply_run N gpi server_pure sent Hslot1)). done.
Qed.

(** *** Requests for a store *)
Definition request_of (op : kv_op) : KvstoreRequest :=
  match op with StoreSet _ key val => KvSet key val | StoreGet _ key => KvGet key end.
Definition return_of (op : kv_op) (v : option Z) : KvstoreReturn :=
  match op with StoreSet _ _ _ => KvBasicReturn | StoreGet _ _ => KvGetReturn (default indeterminate v) end.
(** the endpoint of a client for the store of an operation *)
Definition store_endpoint (type : Z) (ep : Z -> Z) (op : kv_op) : Prop :=
  exists badge, kv_badge (ep (store_of op)) = Some badge /\ badge <> NOTIF_BADGE /\ badge <> 0 /\
    get_cap_type_from_badge badge = type /\ get_object_id_from_badge badge = store_of op /\
    store_of op <> BADGE_OBJ_ID_NULL.
Lemma handler_run t op badge e v t1 : badge <> 0 ->
  get_cap_type_from_badge badge = rs_resource_type (kv_gen (program t)) ->
  get_object_id_from_badge badge = store_of op -> store_of op <> BADGE_OBJ_ID_NULL -> run_op op t = (Ok (e, v), t1) ->
  the_handler (KvMsg KVSTORE_RPC_MAGIC (request_of op)) badge receive_slot t = (Ok (KvReply e (return_of op v), false), t1).
Proof.
  intros Hb Htype Hobj Hnull Hrun. unfold kvstore_request_handler. cbn [kv_magic kv_msg]. rewrite Z.eqb_refl.
  cbn [negb]. rewrite (proj2 (Z.eqb_neq _ _) Hb). erewrite bind_ok by reflexivity. rewrite Htype, Z.eqb_refl. cbn [negb].
  rewrite Hobj. cbv zeta. rewrite (proj2 (Z.eqb_neq _ _) Hnull). destruct op as [sid key val|sid key]; simpl in *.
  - inv_bind Hrun as error t2 Hset. injection Hrun as <- <- <-. rewrite !bind_assoc. by rewrite (bind_ok _ _ _ _ _ Hset).
  - rewrite !bind_assoc. by rewrite (bind_ok _ _ _ _ _ Hrun).
Qed.
Lemma run_op_slot op t r t1 : reply_cap_slot t <> CapNull -> run_op op t = (Ok r, t1) -> reply_cap_slot t1 <> CapNull.
Proof.
  intros Ht Hrun. destruct op as [sid key val|sid key]; simpl in Hrun.
  - inv_bind Hrun as error t2 Hset. injection Hrun as _ <-. pose proof (set_preserves _ Hslot sid key val t Ht) as Hp.
    by rewrite Hset in Hp.
  - pose proof (get_preserves _ Hslot sid key t Ht) as Hp. by rewrite Hrun in Hp.
Qed.
Lemma on_files_gen {B} g (m : M (process (mail * W) fs_client_t) B) : preserves (fun t => kv_gen (program t) = g)
    (on_files m).
Proof. intros t Ht. unfold on_files. by destruct (m _). Qed.
Lemma run_op_gen op g : preserves (fun t => kv_gen (program t) = g) (run_op op).
Proof.
  destruct op; simpl; [unfold kvstore_server_set, SQL_EXEC|unfold kvstore_server_get]; pres; apply on_files_gen.
Qed.

(** *** Operations of the client *)
Context {client_sqlite : Sqlite (process server fs_client_t)}.
Context (ads_of_slot : server -> Z -> Z) (shared_address : Z -> bool) (zf_logf_aborts : bool) (ep_of : Z ->
    Z) (value_at : Z).
Abbreviation the_op := (client_op N (kv_encode_request C) (kv_decode_return C) ads_of_slot shared_address
    zf_logf_aborts ep_of value_at).
Abbreviation the_ops := (client_ops N (kv_encode_request C) (kv_decode_return C) ads_of_slot shared_address
    zf_logf_aborts ep_of value_at).

(** the store is in another process, which serves resources of a type *)
Record remote (type : Z) p : Prop := {
  rm_mode : kc_mode (statics (program p)) = SEPARATE_PROC;
  rm_slot : reply_cap_slot (kernel p) <> CapNull;
  rm_type : rs_resource_type (kv_gen (program (kernel p))) = type
}.
Definition op_words (op : kv_op) : Prop := request_words (request_of op).
(** what the client makes of the results of the server *)
Definition client_result (op : kv_op) (e : Z) (v : option Z) : Z * option Z :=
  match op with
  | StoreSet _ _ _ => (e, None)
  | StoreGet _ _ => if e =? 0 then (0, Some (default indeterminate v)) else (e, None)
  end.

(** the number in a reply is a word *)
Lemma get_is_word sid key t e v t1 : kvstore_server_get sid key t = (Ok (e, Some v), t1) -> is_word v.
Proof.
  unfold kvstore_server_get. intros Hrun. inv_bind Hrun as r t2 H1. destruct r as [error stmt].
  destruct (negb (error =? 0)); [done|]. inv_bind Hrun as res t3 H2. destruct (negb (res =? SQLITE_ROW)).
  { by inv_bind Hrun as error' t4 H3. }
  inv_bind Hrun as val_s t4 H3. destruct val_s as [val_s|]; [|done]. destruct (atoi val_s) as [x|]; [|done].
  inv_bind Hrun as error' t5 H4. injection Hrun as _ <- _. apply (wrap_range 64). lia.
Qed.
Lemma run_op_word op t e v t1 : run_op op t = (Ok (e, v), t1) -> return_words (return_of op v).
Proof.
  destruct op as [sid key val|sid key]; simpl; [done|]. intros Hrun. destruct v as [v|]; [|done]. by eapply get_is_word.
Qed.
Lemma client_op_run type op p : remote type p -> store_endpoint type ep_of op -> op_words op ->
  (forall t, the_stores t = the_stores (kernel p) -> exists e v t1, run_op op t = (Ok (e, v), t1)) ->
  exists t e v t1 p', the_stores t = the_stores (kernel p) /\ run_op op t = (Ok (e, v), t1) /\
    the_op op p = (Ok (client_result op e v), p') /\ remote type p' /\ the_stores (kernel p') = the_stores t1.
Proof.
  intros [Hmode Hs Htype] (badge & Hbadge & Hn & Hb & Hty & Hobj & Hnull) Hwords Hruns.
  destruct (kc_requests C HC (request_of op) Hwords) as [words Hw].
  destruct (kv_serve_run (kernel p) badge words _ Hn (kc_request C HC _ _ Hw)) as (t & Ht & Hprog & Hslot0 & Hserve).
  destruct (Hruns t Ht) as (e & v & t1 & Hrun). destruct (kc_returns C HC e _
      (run_op_word op t e v t1 Hrun)) as [answer Hans].
  destruct (Hserve (KvReply e (return_of op v)) answer t1) as (t2 & Hsrv & Hst & Hp2 & Hslot2); [| |done|].
  { apply handler_run; try done. congruence. }
  { eapply run_op_slot; [|exact Hrun]. congruence. }
  exists t, e, v, t1, (set_kernel t2 p). split; [done|]. split; [done|].
  assert (remote type (set_kernel t2 p)) as Hrem.
  { split; simpl; [done| |].
    - rewrite Hslot2. eapply run_op_slot; [|exact Hrun]. congruence.
    - pose proof (run_op_gen op (kv_gen (program t)) t eq_refl) as Hg. rewrite Hrun in Hg. simpl in Hg. congruence. }
  assert (kv_request (kv_encode_request C) (kv_decode_return C) (ep_of (store_of op)) (request_of op) p =
    (Ok (e, Some (return_of op v)), set_kernel t2 p)) as Hreq.
  { unfold kv_request, sel4gpi_rpc_call. rewrite Hw. erewrite bind_ok.
    2:{ erewrite bind_ok. 2:{ unfold syscall. simpl. rewrite Hbadge, Hsrv. reflexivity. }
        cbv beta iota. simpl. rewrite (kc_return C HC _ _ Hans). reflexivity. }
    done. }
  split; [|by split]. destruct op as [sid key val|sid key]; simpl in Hreq |- *;
      unfold kvstore_client_set, kvstore_client_get.
  - erewrite bind_ok; [reflexivity|]. erewrite bind_ok by reflexivity. rewrite Hmode. by rewrite (bind_ok _ _ _ _ _ Hreq).
  - erewrite bind_ok by reflexivity. rewrite Hmode. rewrite (bind_ok _ _ _ _ _ Hreq). cbv beta iota.
    by destruct (e =? 0).
Qed.

Lemma client_result_step T op e v T' : kv_step T op (e, v) T' -> kv_step T op (client_result op e v) T'.
Proof.
  inversion 1; subst; simpl; [by econstructor..|]. destruct op; simpl; constructor.
Qed.

(** C15: a store in another process is a finite map for its clients, for values that an int can
    hold.  The stores hold such values only, and so do the sets of the sequence; other values
    are lost (see [large_value_lost] in the file KvTables).  For any such sequence of sets and
    gets through the client library, on stores that exist, each a message through the endpoint
    of a store, an iteration of the loop of the server, the statement that its handler prints
    and runs, and the reply: the results and the stores are those of finite maps, whatever
    fails in SQLite.  nanopb decodes what it encoded. *)
Theorem remote_refines_map type ops p : remote type p ->
  Forall (fun op => is_Some (the_stores (kernel p) !! u32 (store_of op)) /\ op_ok op /\ op_words op /\
    store_endpoint type ep_of op) ops -> all_ints (the_stores (kernel p)) ->
  returns (the_ops ops) p (fun rs p' =>
    kv_steps (the_stores (kernel p)) ops rs (the_stores (kernel p')) /\ remote type p').
Proof.
  revert p. induction ops as [|op ops IH]; intros p Hrem Hops HT.
  { eexists _, p. split; [reflexivity|]. split; [constructor|done]. }
  apply Forall_cons in Hops as [(Hex & Hop & Hwords & Hep) Hops].
  destruct (client_op_run type op p Hrem Hep Hwords) as (t & e & v & t1 & p1 & Ht & Hrun & Hp & Hrem1 & Hst).
  { intros t Ht. rewrite <- Ht in *. destruct (run_op_step op t Hex Hop HT) as ([e v] & t1 & Hrun & _). eauto. }
  assert (kv_step (the_stores (kernel p)) op (client_result op e v) (the_stores (kernel p1))) as Hstep.
  { rewrite Hst, <- Ht in *. destruct (run_op_step op t Hex Hop HT) as ([e' v'] & t1' & Hrun' & Hstep).
    apply client_result_step. congruence. }
  destruct (step_keeps _ _ _ _ Hstep Hop HT) as [HT1 Hkeep].
  destruct (IH p1 Hrem1) as (rs & p2 & Hrun2 & Hsteps & Hrem2); [|done|].
  { apply (Forall_impl _ _ _ Hops). intros op' (? & ? & ? & ?). auto. }
  exists (client_result op e v :: rs), p2. simpl. rewrite (bind_ok _ _ _ _ _ Hp), (bind_ok _ _ _ _ _ Hrun2).
  split; [done|]. split; [by econstructor|done].
Qed.
End Remote.

(** ** Witnesses: a database in memory *)
Section KvModesWitnesses.
Lemma memory_preserves {K} (db : K -> memory_db) set_db (I : process K fs_client_t -> Prop) :
  (forall d p, I p -> I (put_db set_db d p)) -> @sqlite_preserves K (memory_sqlite db set_db) I.
Proof. intros HI. split; intros * p Hp; simpl; repeat case_match; simpl; auto. Qed.

Definition agreeing_nanopb : nanopb := Nanopb (fun _ _ => Some []) (fun c _ => Some (0, zero_reply c)).
#[local] Instance agreeing_kernel : Kernel memory_db := {|
  k_call _ _ _ := mret (0, []);
  k_recv _ := no_fuel;
  k_send _ _ := mret tt;
  k_set_receive_path _ := mret tt;
  k_save_caller _ := mret 0
|}.
#[local] Instance modes_sqlite : Sqlite (process memory_db fs_client_t) := memory_sqlite id (fun d _ => d).
#[local] Instance modes_tables : SqliteTables (memory_tables id) (memory_stmts id) :=
  memory_sqlite_tables id (fun d _ => d) (fun _ _ => eq_refl).

(** slots name the address spaces with their numbers; the application is in 1 *)
Definition separate_demo (T : tables_t) : process memory_db kv_client_t :=
  Process (T, []) (set_ads_conn (Conn 1 1) shared_zero) 0 (fun _ => 0)
    (KvClient (KvStatics kv_server_demo SEPARATE_ADS 0 (Conn 2 2) conn_zero conn_zero)
      {[ 2 := AddressSpace (KvStatics kv_server_demo SEPARATE_ADS 0 conn_zero (Conn 1 1) conn_zero) 0 (fun _ => 0) ]}).
Definition stack_address (a : Z) : bool := 4096 <=? a.

Lemma separate_ads_refines_map_witness :
  let ops := [StoreSet 1 5 77; StoreGet 1 5; StoreGet 1 6] in
  let stores_of := client_stores (tables := memory_tables id) stack_address 2 in
  let p := separate_demo {[ 1 := ∅ ]} in
  returns (client_ops agreeing_nanopb (fun _ => None) (fun _ => None) (fun _ slot => slot) stack_address true
      (fun _ => 0) 8000 ops) p
    (fun rs p' => moved_steps (stores_of p) ops rs (stores_of p') /\ separated (fun _ slot => slot) 1 2 p').
Proof.
  apply (separate_ads_refines_map agreeing_nanopb (tables := memory_tables id) (stmts := memory_stmts id)).
  - intros f a. apply memory_preserves. intros d q Hq. exact Hq.
  - intros p cpu ads id _. exists 0, (kernel p). split; [by destruct p as [[? ?] ? ? ? ?]|].
    split; [done|]. split; [done|]. by intros q <-.
  - repeat constructor.
  - intros q q' (Hk & _). unfold memory_tables. by rewrite Hk.
  - split; [done..|]. eexists. split; [reflexivity|done].
  - repeat constructor; try (by eexists); by vm_compute.
  - intros t m k v Ht Hk. change (_ !! t) with (({[1 := ∅]} : tables_t) !! t) in Ht.
    apply lookup_singleton_Some in Ht as [<- <-]. done.
Defined.

(** an encoding of the messages *)
Definition kv_codec_demo : kv_codec := {|
  kv_encode_request m := Some (kv_magic m :: match kv_msg m with
    KvCreate => [0] | KvSet key val => [1; key; val] | KvGet key => [2; key] | KvNone => [3] end);
  kv_decode_request words := match words with
    | [m; 0] => Some (KvMsg m KvCreate) | [m; 1; key; val] => Some (KvMsg m (KvSet key val))
    | [m; 2; key] => Some (KvMsg m (KvGet key)) | [m; 3] => Some (KvMsg m KvNone) | _ => None end;
  kv_encode_return r := Some (kv_errorCode r :: match kv_ret r with
    KvBasicReturn => [0] | KvAllocReturn dest => [1; dest] | KvGetReturn val => [2; val] end);
  kv_decode_return words := match words with
    | [e; 0] => Some (KvReply e KvBasicReturn) | [e; 1; dest] => Some (KvReply e (KvAllocReturn dest))
    | [e; 2; val] => Some (KvReply e (KvGetReturn val)) | _ => None end
|}.
Lemma kv_codec_demo_ok : kv_codec_ok kv_codec_demo.
Proof. split; [by intros [? []] ? [= <-]|by intros [? []] ? [= <-]|by eexists|by eexists]. Qed.

(** a server of resources of type 20, and a client with an endpoint for its store 1 *)
#[local] Instance server_sqlite : Sqlite (process (mail * memory_db) fs_client_t) := memory_sqlite snd (fun d k =>
    (fst k, d)).
#[local] Instance server_tables : SqliteTables (memory_tables snd) (memory_stmts snd) :=
  memory_sqlite_tables snd (fun d k => (fst k, d)) (fun _ _ => eq_refl).
Abbreviation demo_server := (process (mail * memory_db) kvstore_server_context_t).
#[local] Instance no_sqlite : Sqlite (process demo_server fs_client_t) := memory_sqlite (fun _ => (∅, [])) (fun _ k => k).
Definition remote_server (T : tables_t) : demo_server :=
  Process (Mail None None, (T, [])) shared_zero 3 (fun _ => 0)
    (set_kv_gen (RsContext [] 20 (ResspcConn 0 0 0) 0 0 0 (EpConn 0 0) 0 (Conn 0 0) (EpConn 0 0)) kv_server_demo).
Definition remote_demo (T : tables_t) : process demo_server kv_client_t :=
  Process (remote_server T) shared_zero 0 (fun _ => 0)
    (KvClient (KvStatics kv_server_demo SEPARATE_PROC 4 conn_zero conn_zero conn_zero) ∅).
Definition badge_demo (ep : Z) : option Z := if ep =? 9 then Some (20 * 2 ^ 56 + 1) else None.
Definition gpi_demo (ep : Z) (words caps : list Z) : Z * list Z := (0, []).
Definition demo_work (work : work_t) : M demo_server Z := mret 0.
Definition demo_kernel : Kernel demo_server :=
  to_server agreeing_nanopb gpi_demo kv_codec_demo (fun _ => false) 0 8 demo_work badge_demo.

Lemma remote_refines_map_witness :
  let ops := [StoreSet 1 5 77; StoreGet 1 5; StoreGet 1 6] in
  let stores_of p := stores (tables := memory_tables snd) (kernel p) in
  let p := remote_demo {[ 1 := ∅ ]} in
  returns (@client_ops _ demo_kernel agreeing_nanopb _ (kv_encode_request kv_codec_demo) (kv_decode_return kv_codec_demo)
    (fun _ slot => slot) stack_address true (fun _ => 9) 8000 ops) p
    (fun rs p' => kv_steps (stores_of p) ops rs (stores_of p') /\ remote 20 p').
Proof.
  apply (remote_refines_map agreeing_nanopb gpi_demo (tables := memory_tables snd) (stmts := memory_stmts snd)).
  - intros q q' Hk _ _. unfold memory_tables. by rewrite Hk.
  - apply memory_preserves. by intros d q Hq.
  - exact kv_codec_demo_ok.
  - done.
  - done.
  - repeat constructor; try (by eexists); try (by vm_compute).
    all: exists (20 * 2 ^ 56 + 1); repeat split; by vm_compute.
  - intros t m k v Ht Hk. change (({[1 := ∅]} : tables_t) !! t = Some m) in Ht.
    apply lookup_singleton_Some in Ht as [<- <-]. done.
Defined.
End KvModesWitnesses.
