(* ===== verification/SampleServer.v ===== *)
(** * The template of a resource server

    Model of [apps/sample-resource-server]: a server with one number per resource, from which
    new servers are made, and its client library.  What its comments leave to be inserted is
    nothing here. *)

From stdpp Require Import base numbers list strings.
From S2P Require Import Prelude Strings Badge Registry State ResourceTypes ModelExport Component PdResources Resspc Mo Ads AdsRequests Elf Cpu PdObj PdComponent Ep Server Client PdUtils ResourceServer Xv6Bio FsClient PdCreation StartServer.

Definition SAMPLE_RPC_MAGIC : Z := 0x53414D50.
Definition SAMPLE_RESOURCE_TYPE_NAME : list Z := chars "SAMPLE".
Definition SAMPLE_SERVER_APP : list Z := chars "sample_server".

(** sample_rpc.proto; the array for the string has a place for the terminator *)
Definition SampleError_UNKNOWN : Z := 11.
Definition SampleError_BAD_ARG : Z := 12.
Definition SampleError_SERVER_ERR : Z := 13.
Inductive SampleRequest := SampleAlloc | SampleFree | SampleInvoke (x y : Z) | SampleNone.
Record SampleMessage := SampleMsg { sample_magic : Z; sample_msg : SampleRequest }.
Inductive SampleReturn := SampleBasicReturn | SampleAllocReturn (dest : Z) | SampleInvokeReturn (z : list Z).
Record SampleReturnMessage := SampleReply { sample_errorCode : Z; sample_ret : SampleReturn }.
Definition sizeof_z : nat := 41.

(** ** The server *)
Inductive sample_cb := on_resource_registry_entry_delete_cb.
(** sample_server_context_t; the payload of a node of the registry is [x]; [sample_mallocs]
    counts the calls of calloc *)
Record sample_server_context_t := SampleServer {
  sample_gen : resource_server_context_t;
  sample_registry : registry Z sample_cb;
  sample_mallocs : nat
}.
Definition set_sample_gen (v : resource_server_context_t) (x : sample_server_context_t) : sample_server_context_t :=
  SampleServer v (sample_registry x) (sample_mallocs x).
Definition set_sample_registry (v : registry Z sample_cb) (x : sample_server_context_t) : sample_server_context_t :=
  SampleServer (sample_gen x) v (sample_mallocs x).
Definition set_sample_mallocs (v : nat) (x : sample_server_context_t) : sample_server_context_t :=
  SampleServer (sample_gen x) (sample_registry x) v.

Section SampleServer.
Context {K : Type} `{!Kernel K} `{!UTHash} (N : nanopb) (SEL4UTILS_RES_TYPE_GENERIC : Z).
(** the allocator; the size of a model state *)
Context (malloc_fails : nat -> bool) (sizeof_model_state : Z).
Abbreviation P := (M (process K sample_server_context_t)).

Definition samples_p : regptr (process K sample_server_context_t) Z sample_cb :=
  RegPtr (fun p => Some (sample_registry (program p))) (fun r p => set_program (set_sample_registry r (program p)) p).
Definition sample_calloc : P (option nat) :=
  s ← prog;
  prog_modify (set_sample_mallocs (S (sample_mallocs s))) ;;
  mret (if malloc_fails (sample_mallocs s) then None else Some (sample_mallocs s)).

Definition on_resource_registry_entry_delete (a arg : nat) : P unit := mret tt.
Definition run_sample_cb (cb : sample_cb) (a arg : nat) : P unit := on_resource_registry_entry_delete a arg.
Definition sample_init : P Z :=
  prog_modify (set_sample_registry (resource_registry_initialize (Some on_resource_registry_entry_delete_cb) 0
    (BADGE_MAX_OBJ_ID - 1))) ;;
  mret 0.

(** *** Requests *)
Definition sample_answer (error : Z) : P SampleReturnMessage := mret (SampleReply error SampleBasicReturn).
Definition sample_alloc (sender_badge : Z) : P SampleReturnMessage :=
  a ← sample_calloc;
  match a with
  | None => sample_answer SampleError_SERVER_ERR
  | Some a =>
      id ← resource_registry_insert_new_id samples_p (Node a 0 0 0);
      error ← resource_server_create_resource N sample_gen None (u32 id);
      if negb (error =? 0) then sample_answer SampleError_UNKNOWN else
      r ← resource_server_give_resource N sample_gen (get_space_id_from_badge sender_badge) (u32 id)
            (get_client_id_from_badge sender_badge);
      let '(error, dest) := r : Z * option Z in
      if negb (error =? 0) then sample_answer SampleError_UNKNOWN else
      dest ← deref_conn dest;
      mret (SampleReply 0 (SampleAllocReturn dest))
  end.
Definition sample_invoke (node : nat) (x y : Z) : P SampleReturnMessage :=
  node_store samples_p node (with_payload x) ;;
  mret (SampleReply 0 (SampleInvokeReturn (snprintf sizeof_z (chars "0x" ++ fmt_x (u64 (x + y)))))).
Definition sample_free (node : nat) (obj_id client_id : Z) : P SampleReturnMessage :=
  n ← node_load samples_p node;
  s ← prog;
  let space := default_space (sample_gen s) in
  error ← (if count n =? 1 then resspc_client_delete_resource N space obj_id
           else resspc_client_revoke_resource N space obj_id client_id);
  if negb (error =? 0) then sample_answer SampleError_UNKNOWN else
  resource_registry_dec run_sample_cb samples_p node ;;
  sample_answer 0.
Definition sample_request_handler (msg : SampleMessage) (sender_badge cap : Z) : P (SampleReturnMessage * bool) :=
  let basic (m : P SampleReturnMessage) := reply ← m; mret (reply, false) in
  if negb (sample_magic msg =? SAMPLE_RPC_MAGIC) then basic (sample_answer SampleError_BAD_ARG) else
  if sender_badge =? 0 then basic (sample_answer SampleError_UNKNOWN) else
  s ← prog;
  if negb (get_cap_type_from_badge sender_badge =? rs_resource_type (sample_gen s)) then
    basic (sample_answer SampleError_UNKNOWN) else
  let obj_id := get_object_id_from_badge sender_badge in
  if obj_id =? BADGE_OBJ_ID_NULL then
    match sample_msg msg with
    | SampleAlloc => basic (sample_alloc sender_badge)
    | _ => basic (sample_answer SampleError_BAD_ARG)
    end
  else
    node ← resource_registry_get_by_id samples_p obj_id;
    match node with
    | None => basic (sample_answer SampleError_SERVER_ERR)
    | Some node =>
        match sample_msg msg with
        | SampleInvoke x y => basic (sample_invoke node x y)
        | SampleFree => basic (sample_free node obj_id (get_client_id_from_badge sender_badge))
        | _ => basic (sample_answer SampleError_BAD_ARG)
        end
    end.

(** *** Work *)

(** nothing is known of single resources; the error of the last step is returned as it is *)
Definition sample_extract (n_requests : Z) : P Z :=
  r ← resource_server_extraction_setup N SEL4UTILS_RES_TYPE_GENERIC sample_gen sizeof_model_state 4;
  let '(error, mo, ms) := r : Z * option conn_t * option (Z * model_state_t) in
  if negb (error =? 0) then mret SampleError_UNKNOWN else
  ms ← deref ms;
  mo ← deref mo;
  r ← resource_server_extraction_finish N sample_gen mo ms n_requests;
  mret (fst r).
(** what FREE and SEND do with the node of each item *)
Fixpoint sample_items (f : nat -> P unit) (items : list (Z * Z * Z)) : P Z :=
  match items with
  | [] => mret 0
  | (space_id, object_id, _) :: items =>
      s ← prog;
      assert_ (space_id =? resspc_conn_id (default_space (sample_gen s))) ;;
      node ← resource_registry_get_by_id samples_p object_id;
      match node with
      | None => mret SampleError_SERVER_ERR
      | Some node => f node ;; sample_items f items
      end
  end.
Definition sample_destroy_item (item : Z * Z * Z) : P unit :=
  let '(space_id, object_id, _) := item in
  s ← prog;
  assert_ (space_id =? resspc_conn_id (default_space (sample_gen s))) ;;
  assert_ (object_id =? BADGE_OBJ_ID_NULL).
Definition sample_work_handler (work : work_t) : P Z :=
  s ← prog;
  let finish := pd_client_finish_work N (rs_pd_conn (sample_gen s)) work in
  let then_finish (m : P Z) := error ← m; if error =? 0 then finish else mret error in
  if (work_action work =? PdWorkAction_EXTRACT)%nat then sample_extract (Z.of_nat (length (work_items work)))
  else if (work_action work =? PdWorkAction_FREE)%nat then
    then_finish (sample_items (resource_registry_dec run_sample_cb samples_p) (work_items work))
  else if (work_action work =? PdWorkAction_DESTROY)%nat then for_each (work_items work) sample_destroy_item ;; finish
  else if (work_action work =? PdWorkAction_SEND)%nat then
    then_finish (sample_items (resource_registry_inc samples_p) (work_items work))
  else mret 1.

(** main.c *)
Context (sample_decode : list Z -> option SampleMessage) (sample_encode : SampleReturnMessage -> option (list Z)).
Definition sample_main (args : list Z) (n fuel : nat) : P Z :=
  match args with
  | [parent_ep; parent_pd_id] =>
      resource_server_start N sample_gen set_sample_gen sample_decode sample_encode (Some sample_init)
        sample_request_handler sample_work_handler SAMPLE_RESOURCE_TYPE_NAME parent_ep (u32 parent_pd_id) n fuel
  | _ => crash AssertFail
  end.
End SampleServer.

(** ** The client *)
Section SampleClient.
Context {K A : Type} `{!Kernel K} (N : nanopb) (R : reservation_types) (L : runtime).
Context (MO_LARGE_PAGE_BITS PD_HEAP_LOC pd_cnode_guard start_addr STACK_CALL_ALIGNMENT : Z).
Context (try_calloc : A -> bool * A) (received_label : K -> Z).
Context (sample_encode_request : SampleMessage -> option (list Z)) (sample_decode_reply : list Z -> option SampleReturnMessage).
Abbreviation P := (M (process K A)).

(** every error is 1 *)
Definition start_sample_server_proc : P (Z * option conn_t * option Z) :=
  r ← start_resource_server_pd N R L MO_LARGE_PAGE_BITS PD_HEAP_LOC pd_cnode_guard start_addr STACK_CALL_ALIGNMENT
        try_calloc received_label GPICAP_TYPE_NONE 0 SAMPLE_SERVER_APP;
  let '(error, pd, space) := r : Z * option conn_t * option Z in
  mret (if error =? 0 then 0 else 1, pd, space).
Definition sample_call (ep : Z) (request : SampleRequest) : P (Z * option SampleReturnMessage) :=
  sel4gpi_rpc_call sample_encode_request sample_decode_reply ep (SampleMsg SAMPLE_RPC_MAGIC request) [].
(** [error || reply.errorCode]; the reply is zero when there is none *)
Definition sample_error (error : Z) (reply : option SampleReturnMessage) : Z :=
  Z.b2z (negb (error =? 0) || negb (default 0 (sample_errorCode <$> reply) =? 0)).
(** the error code, and the endpoint of the resource *)
Definition sample_client_alloc (server_ep : Z) : P (Z * option Z) :=
  r ← sample_call server_ep SampleAlloc;
  let '(error, reply) := r : Z * option SampleReturnMessage in
  match sample_ret <$> reply with
  | Some (SampleAllocReturn dest) => mret (sample_error error reply, Some dest)
  | _ => mret (1, None)
  end.
Definition sample_client_free (ep : Z) : P Z :=
  r ← sample_call ep SampleFree; mret (sample_error (fst r) (snd r)).
(** the error code, and the 40 bytes of the response *)
Definition sample_client_invoke (ep x y : Z) : P (Z * option (list Z)) :=
  r ← sample_call ep (SampleInvoke x y);
  let '(error, reply) := r : Z * option SampleReturnMessage in
  let error := Z.lor error (default 0 (sample_errorCode <$> reply)) in
  if negb (error =? 0) then mret (error, None) else
  match sample_ret <$> reply with
  | Some (SampleInvokeReturn z) => mret (0, Some (strncpy z 40))
  | _ => crash OtherMember
  end.
End SampleClient.
