(* ===== verification/GuestFault.v ===== *)
(** * Faults of a guest: registers and the emulation of an access

    The state of the virtual machine monitor [apps/vmm], the interface through which it acts
    on a guest ([gpivmm/vmm.h], the class [VmOps]), and the functions of
    [arch/aarch64/fault.c] that decode a fault and emulate the instruction that caused it.

    A guest has one virtual CPU.  The monitor is a computation on [W * vmm_t], where [W] is
    what the operations on a guest act on: Vmm has the instance whose operations are requests
    to the GPI server. *)

From stdpp Require Import base numbers list.
From S2P Require Import Prelude.

(** ** Data *)

(** seL4_UserContext of AArch64: x0 to x30 are a list of 31 words *)
Record seL4_UserContext := UserContext {
  uc_pc : Z; uc_sp : Z; uc_spsr : Z; uc_x : list Z; uc_tpidr_el0 : Z; uc_tpidrro_el0 : Z
}.
Definition set_pc (v : Z) (u : seL4_UserContext) : seL4_UserContext :=
  UserContext v (uc_sp u) (uc_spsr u) (uc_x u) (uc_tpidr_el0 u) (uc_tpidrro_el0 u).
Definition set_x (v : list Z) (u : seL4_UserContext) : seL4_UserContext :=
  UserContext (uc_pc u) (uc_sp u) (uc_spsr u) v (uc_tpidr_el0 u) (uc_tpidrro_el0 u).
Definition SEL4_USER_CONTEXT_SIZE : Z := 0x24.

(** a pointer to the context of a guest, which may be NULL *)
Definition vm_ptr : Type := option nat.
Definition GUEST_VCPU_ID : Z := 0.
Definition GUEST_NUM_VCPUS : nat := 1.

(** *** virq.h *)

(** virq_ack_fn_t: pointers to vppi_event_ack and sgi_ack of [virq.c], and to the function
    that the monitor passes to vmm_init_virq *)
Inductive virq_ack_fn_t := VppiEventAck | SgiAck | SerialAck.
#[export] Instance virq_ack_fn_eq_dec : EqDecision virq_ack_fn_t.
Proof. solve_decision. Defined.

Record virq_handle := VirqHandle { virq : Z; ack_fn : option virq_ack_fn_t; ack_data : Z }.
Definition VIRQ_INVALID : Z := -1.
#[export] Instance virq_handle_eq_dec : EqDecision virq_handle.
Proof. solve_decision. Defined.

(** struct virq_handle *: into the handles of a CPU or into those of the SPIs *)
Inductive handle_ptr := LocalVirq (vcpu i : nat) | Vspi (i : nat).
#[export] Instance handle_ptr_eq_dec : EqDecision handle_ptr.
Proof. solve_decision. Defined.

Record irq_queue := IrqQueue { irqs : list (option handle_ptr); head : Z; tail : Z }.
Record vgic_vcpu_t := VgicVcpu {
  lr_shadow : list virq_handle;
  vcpu_irq_queue : irq_queue;
  local_virqs : list virq_handle
}.
Definition set_lr_shadow (v : list virq_handle) (c : vgic_vcpu_t) : vgic_vcpu_t :=
  VgicVcpu v (vcpu_irq_queue c) (local_virqs c).
Definition set_irq_queue (v : irq_queue) (c : vgic_vcpu_t) : vgic_vcpu_t :=
  VgicVcpu (lr_shadow c) v (local_virqs c).
Definition set_local_virqs (v : list virq_handle) (c : vgic_vcpu_t) : vgic_vcpu_t :=
  VgicVcpu (lr_shadow c) (vcpu_irq_queue c) v.

(** [registers] is NULL or points to [dist]: the words of a struct gic_dist_map *)
Record vgic_t := Vgic {
  registers : option (Z -> Z);
  vspis : list virq_handle;
  vgic_vcpu : list vgic_vcpu_t
}.
Definition set_registers (v : option (Z -> Z)) (g : vgic_t) : vgic_t := Vgic v (vspis g) (vgic_vcpu g).
Definition set_vspis (v : list virq_handle) (g : vgic_t) : vgic_t := Vgic (registers g) v (vgic_vcpu g).
Definition set_vgic_vcpu (v : list vgic_vcpu_t) (g : vgic_t) : vgic_t := Vgic (registers g) (vspis g) v.

(** *** fault.c *)
Record vm_exception_handler := VmExceptionHandler {
  veh_base : Z; veh_end : Z; veh_callback : Z; veh_data : Z
}.
Definition MAX_VM_EXCEPTION_HANDLERS : nat := 16.

(** the static variables of the monitor that do not depend on how it runs its guests *)
Record vmm_t := Vmm {
  vgic : vgic_t;
  wzr : Z;
  registered_vm_exception_handlers : list vm_exception_handler;
  vm_exception_handler_index : Z
}.
Definition set_vgic (v : vgic_t) (m : vmm_t) : vmm_t :=
  Vmm v (wzr m) (registered_vm_exception_handlers m) (vm_exception_handler_index m).
Definition set_wzr (v : Z) (m : vmm_t) : vmm_t :=
  Vmm (vgic m) v (registered_vm_exception_handlers m) (vm_exception_handler_index m).
Definition set_handlers (v : list vm_exception_handler) (i : Z) (m : vmm_t) : vmm_t :=
  Vmm (vgic m) (wzr m) v i.

(** ** The interface to a guest *)
Class VmOps (W : Type) := {
  vm_get_id : vm_ptr -> M W Z;
  vm_suspend : vm_ptr -> M W unit;
  (* resume the guest, the registers, their number: the error code *)
  vm_write_registers : vm_ptr -> bool -> seL4_UserContext -> Z -> M W Z;
  (* suspend the guest, the number of registers: the error code and the registers *)
  vm_read_registers : vm_ptr -> bool -> Z -> M W (Z * seL4_UserContext);
  vm_dump_registers : vm_ptr -> M W unit;
  vm_dump_vcpu_registers : vm_ptr -> M W unit;
  (* the interrupt, its priority, its group, the list register *)
  vm_inject_irq : vm_ptr -> Z -> Z -> Z -> Z -> M W Z;
  vm_ack_vppi : vm_ptr -> Z -> M W Z;
  (* functions behind pointers: serial_ack, a handler of an exception *)
  vm_serial_ack : vm_ptr -> Z -> Z -> M W unit;
  exception_callback : Z -> Z -> Z -> Z -> seL4_UserContext -> Z -> M W (bool * seL4_UserContext)
}.

(** ** Decoding *)
Definition HSR_SYNDROME_VALID : Z := Z.shiftl 1 24.
Definition HSR_IS_SYNDROME_VALID (hsr : Z) : bool := negb (Z.land hsr HSR_SYNDROME_VALID =? 0).
Definition HSR_SYNDROME_WIDTH (x : Z) : Z := Z.land (Z.shiftr x 22) 0x3.
Definition HSR_SYNDROME_RT (x : Z) : Z := Z.land (Z.shiftr x 16) 0x1f.
Definition HSR_MAX_EXCEPTION : Z := 0x3f.
Definition HSR_EXCEPTION_CLASS (hsr : Z) : Z := Z.shiftr (Z.land hsr (Z.shiftl HSR_MAX_EXCEPTION 26)) 26.

Inductive fault_width := WIDTH_DOUBLEWORD | WIDTH_WORD | WIDTH_HALFWORD | WIDTH_BYTE.
(** [None] is -1 *)
Definition fault_get_width (fsr : Z) : option fault_width :=
  if HSR_IS_SYNDROME_VALID fsr then
    match HSR_SYNDROME_WIDTH fsr with
    | 0 => Some WIDTH_BYTE
    | 1 => Some WIDTH_HALFWORD
    | 2 => Some WIDTH_WORD
    | _ => Some WIDTH_DOUBLEWORD
    end
  else None.

Definition fault_is_write (fsr : Z) : bool := negb (Z.land fsr (Z.shiftl 1 6) =? 0).
Definition fault_is_read (fsr : Z) : bool := negb (fault_is_write fsr).

(** 8 times the offset of an address in its word *)
Definition byte_shift (addr : Z) : Z := Z.land addr 0x3 * 8.

Definition fault_get_data_mask {S} (addr fsr : Z) : M S Z :=
  let shifted mask := mret (u64 (Z.shiftl mask (byte_shift addr))) in
  match fault_get_width fsr with
  | Some WIDTH_BYTE => shifted 0xff
  | Some WIDTH_HALFWORD => assert_ (Z.land addr 0x1 =? 0) ;; shifted 0xffff
  | Some WIDTH_WORD => assert_ (Z.land addr 0x3 =? 0) ;; shifted 0xffffffff
  | Some WIDTH_DOUBLEWORD => shifted (Z.ones 64)
  | None => crash AssertFail
  end.

(** the result of an access to [addr]: what a load leaves in the register [reg], what a
    store leaves in the word [reg] of the device *)
Definition fault_emulate {S} (reg addr fsr reg_val : Z) : M S Z :=
  let s := byte_shift addr in
  m ← fault_get_data_mask addr fsr;
  mret (if fault_is_read fsr
        then Z.lor (Z.land reg (Z.lnot (Z.shiftr m s))) (Z.shiftr (Z.land reg_val m) s)
        else Z.lor (Z.land reg (Z.lnot m)) (Z.land (u64 (Z.shiftl reg_val s)) m)).

(** ** The registers of the guest *)
Definition get_rt {S} (fsr : Z) : M S Z :=
  assert_ (HSR_IS_SYNDROME_VALID fsr) ;; mret (HSR_SYNDROME_RT fsr).

(** a pointer to a register, or to the static variable [wzr] *)
Inductive reg_ptr := RegX (i : nat) | RegWzr.
Definition decode_rt (reg : Z) : option reg_ptr :=
  if (0 <=? reg) && (reg <? 31) then Some (RegX (Z.to_nat reg))
  else if reg =? 31 then Some RegWzr else None.

Section Emulation.
Context {W : Type} `{!VmOps W}.
Abbreviation V := (M (W * vmm_t)).

Definition on_vm {B} (m : M W B) : V B := fun s =>
  let '(r, w) := m s.1 in (r, (w, s.2)).
Definition vmm_gets {B} (f : vmm_t -> B) : V B := gets (fun s => f s.2).
Definition vmm_modify (f : vmm_t -> vmm_t) : V unit := modify (fun s => (s.1, f s.2)).

Definition read_reg (p : reg_ptr) (regs : seL4_UserContext) : V Z :=
  match p with
  | RegX i => match uc_x regs !! i with Some v => mret v | None => crash OutOfBounds end
  | RegWzr => vmm_gets wzr
  end.
Definition write_reg (p : reg_ptr) (v : Z) (regs : seL4_UserContext) : V seL4_UserContext :=
  match p with
  | RegX i => mret (set_x (<[i := v]> (uc_x regs)) regs)
  | RegWzr => vmm_modify (set_wzr v) ;; mret regs
  end.

Definition fault_get_data (regs : seL4_UserContext) (fsr : Z) : V Z :=
  rt ← get_rt fsr; p ← deref (decode_rt rt); read_reg p regs.

(** the next instruction; no caller reads the registers afterwards *)
Definition fault_advance_vcpu (vm : vm_ptr) (regs : seL4_UserContext) : V bool :=
  error ← on_vm (vm_write_registers vm true (set_pc (u64 (uc_pc regs + 4)) regs) SEL4_USER_CONTEXT_SIZE);
  mret (error =? 0).

Definition fault_emulate_write (regs : seL4_UserContext) (addr fsr reg_val : Z) : V seL4_UserContext :=
  rt ← get_rt fsr;
  p ← deref (decode_rt rt);
  reg ← read_reg p regs;
  v ← fault_emulate reg addr fsr reg_val;
  write_reg p v regs.
(** the same, and the next instruction *)
Definition fault_advance (vm : vm_ptr) (regs : seL4_UserContext) (addr fsr reg_val : Z) : V bool :=
  rt ← get_rt fsr;
  p ← deref (decode_rt rt);
  reg ← read_reg p regs;
  v ← fault_emulate reg addr fsr reg_val;
  regs ← write_reg p v regs;
  fault_advance_vcpu vm regs.
End Emulation.
