(* ===== verification/Vgic.v ===== *)
(** * The virtual interrupt controller

    Model of [gpivmm/vgic/{virq,vdist,vgic_v2}.h], [vgic/{vgic,vgic_v2,virq}.c]: the handles
    of interrupts, the list registers of the virtual CPU with the queue of those that wait
    for one, and the registers of the distributor (GICv2), which the guest reads and writes
    through faults. *)

From stdpp Require Import base numbers list.
From S2P Require Import Prelude GuestFault.

(** ** struct gic_dist_map *)
Module Dist.
Inductive dist_field :=
| ctlr | typer | iidr | res1
| irq_group0 | irq_group | enable_set0 | enable_set | enable_clr0 | enable_clr
| pending_set0 | pending_set | pending_clr0 | pending_clr
| active0 | active | active_clr0 | active_clr | priority0 | priority | res3
| targets0 | targets | res4 | config
| spi | res5 | res6 | legacy_int | res7 | match_d | enable_d | res8
| sgir | res9 | sgi_pending_clr | sgi_pending_set | res10 | periph_id | component_id.
#[export] Instance dist_field_eq_dec : EqDecision dist_field.
Proof. solve_decision. Defined.

(** the members in their order, with the number of their words; there is one virtual CPU *)
Definition members : list (dist_field * Z) :=
  let n := Z.of_nat GUEST_NUM_VCPUS in
  [(ctlr, 1); (typer, 1); (iidr, 1); (res1, 29);
   (irq_group0, n); (irq_group, 31); (enable_set0, n); (enable_set, 31); (enable_clr0, n); (enable_clr, 31);
   (pending_set0, n); (pending_set, 31); (pending_clr0, n); (pending_clr, 31);
   (active0, n); (active, 31); (active_clr0, n); (active_clr, 31); (priority0, n * 8); (priority, 247); (res3, 1);
   (targets0, n * 8); (targets, 247); (res4, 1); (config, 64);
   (spi, 32); (res5, 20); (res6, 1); (legacy_int, 1); (res7, 2); (match_d, 1); (enable_d, 1); (res8, 70);
   (sgir, 1); (res9, 3); (sgi_pending_clr, n * 4); (sgi_pending_set, n * 4); (res10, 40);
   (periph_id, 12); (component_id, 4)].

(** the position of the first word of a member, and the number of its words *)
Fixpoint place_from (f : dist_field) (at_ : Z) (l : list (dist_field * Z)) : Z * Z :=
  match l with
  | [] => (at_, 0)
  | (g, n) :: l' => if decide (f = g) then (at_, n) else place_from f (at_ + n) l'
  end.
Definition place (f : dist_field) : Z * Z := place_from f 0 members.
Definition words : Z := fold_right (fun m acc => m.2 + acc) 0 members.
End Dist.

Definition GIC_ENABLED : Z := 1.
Definition GIC_DIST_SIZE : Z := 0x1000.
Definition NUM_SGI_VIRQS : Z := 16.
Definition NUM_PPI_VIRQS : Z := 16.
Definition NUM_VCPU_LOCAL_VIRQS : Z := NUM_SGI_VIRQS + NUM_PPI_VIRQS.
Definition NUM_SLOTS_SPI_VIRQ : nat := 200.
Definition NUM_LIST_REGS : nat := 4.
Definition MAX_IRQ_QUEUE_LEN : Z := 64.
Definition IRQ_QUEUE_NEXT (i : Z) : Z := Z.land (i + 1) (MAX_IRQ_QUEUE_LEN - 1).

Definition IRQ_IDX (irq : Z) : Z := irq / 32.
Definition IRQ_BIT (irq : Z) : Z := Z.shiftl 1 (irq mod 32).
(** [RANGE32(a, b)]: the offsets of the words from [a] to [b] *)
Definition RANGE32 (a b offset : Z) : bool := (a <=? offset) && (offset <=? b + 3).
Definition GIC_DIST_REGN (offset reg : Z) : Z := (offset - reg) / 4.

(** __builtin_ctz of a number that is not 0 *)
Fixpoint pos_ctz (p : positive) : Z :=
  match p with
  | xO p' => 1 + pos_ctz p'
  | _ => 0
  end.
Definition CTZ (x : Z) : Z := match x with Zpos p => pos_ctz p | _ => 0 end.

Section Vgic.
Context {W : Type} `{!VmOps W}.
(** the base of the distributor and the interrupt of the serial device, which depend on the
    board, and the number of nodes of the kernel's configuration *)
Context (GIC_DIST_PADDR SERIAL_IRQ : Z) (CONFIG_MAX_NUM_NODES : nat).
Abbreviation V := (M (W * vmm_t)).

Definition vgic_modify (f : vgic_t -> vgic_t) : V unit := vmm_modify (fun m => set_vgic (f (vgic m)) m).

(** ** Words of the distributor *)

(** vgic_get_dist(vgic->registers), followed *)
Definition vgic_get_dist : V (Z -> Z) := r ← vmm_gets (fun m => registers (vgic m)); deref r.
Definition dist_word (f : Dist.dist_field) (i : Z) : V Z :=
  let '(first, n) := Dist.place f in
  if (0 <=? i) && (i <? n) then mret (first + i) else crash OutOfBounds.
Definition dist_load (f : Dist.dist_field) (i : Z) : V Z :=
  d ← vgic_get_dist; w ← dist_word f i; mret (d w).
Definition dist_store (f : Dist.dist_field) (i v : Z) : V unit :=
  d ← vgic_get_dist;
  w ← dist_word f i;
  vgic_modify (set_registers (Some (fun w' => if w' =? w then u32 v else d w'))).
Definition dist_update (f : Dist.dist_field) (i : Z) (g : Z -> Z) : V unit :=
  v ← dist_load f i; dist_store f i (g v).

(** a word that is read at a distance in bytes from the first word of a member *)
Definition load_unaligned (f : Dist.dist_field) (distance : Z) : V Z :=
  d ← vgic_get_dist;
  let offset := 4 * (Dist.place f).1 + distance in
  if (0 <=? offset) && (offset + 4 <=? 4 * Dist.words) then
    let byte a := Z.land (Z.shiftr (d (a / 4)) (8 * (a mod 4))) 0xff in
    mret (Z.lor (byte offset) (Z.lor (Z.shiftl (byte (offset + 1)) 8)
            (Z.lor (Z.shiftl (byte (offset + 2)) 16) (Z.shiftl (byte (offset + 3)) 24))))
  else crash OutOfBounds.

Definition vgic_dist_is_enabled : V bool := v ← dist_load Dist.ctlr 0; mret (v =? GIC_ENABLED).
Definition vgic_dist_enable : V unit := dist_store Dist.ctlr 0 GIC_ENABLED.
Definition vgic_dist_disable : V unit := dist_store Dist.ctlr 0 0.

(** *** The bit of an interrupt *)
Definition set_bit_of (set : bool) (irq v : Z) : Z :=
  if set then Z.lor v (IRQ_BIT irq) else Z.land v (Z.lnot (IRQ_BIT irq)).
Definition has_bit_of (irq v : Z) : bool := negb (Z.land v (IRQ_BIT irq) =? 0).

Definition set_sgi_ppi_pending (irq : Z) (set_pending : bool) (vcpu_id : Z) : V unit :=
  dist_update Dist.pending_set0 vcpu_id (set_bit_of set_pending irq) ;;
  dist_update Dist.pending_clr0 vcpu_id (set_bit_of set_pending irq).
Definition set_spi_pending (irq : Z) (set_pending : bool) : V unit :=
  dist_update Dist.pending_set (IRQ_IDX irq) (set_bit_of set_pending irq) ;;
  dist_update Dist.pending_clr (IRQ_IDX irq) (set_bit_of set_pending irq).
Definition set_pending (irq : Z) (set : bool) (vcpu_id : Z) : V unit :=
  if irq <? NUM_VCPU_LOCAL_VIRQS then set_sgi_ppi_pending irq set vcpu_id else set_spi_pending irq set.

Definition is_sgi_ppi_pending (irq vcpu_id : Z) : V bool :=
  v ← dist_load Dist.pending_set0 vcpu_id; mret (has_bit_of irq v).
Definition is_spi_pending (irq : Z) : V bool :=
  v ← dist_load Dist.pending_set (IRQ_IDX irq); mret (has_bit_of irq v).
Definition is_pending (irq vcpu_id : Z) : V bool :=
  if irq <? NUM_VCPU_LOCAL_VIRQS then is_sgi_ppi_pending irq vcpu_id else is_spi_pending irq.

Definition set_sgi_ppi_enable (irq : Z) (set_enable : bool) (vcpu_id : Z) : V unit :=
  dist_update Dist.enable_set0 vcpu_id (set_bit_of set_enable irq) ;;
  dist_update Dist.enable_clr0 vcpu_id (set_bit_of set_enable irq).
Definition set_spi_enable (irq : Z) (set_enable : bool) : V unit :=
  dist_update Dist.enable_set (IRQ_IDX irq) (set_bit_of set_enable irq) ;;
  dist_update Dist.enable_clr (IRQ_IDX irq) (set_bit_of set_enable irq).
Definition set_enable (irq : Z) (set : bool) (vcpu_id : Z) : V unit :=
  if irq <? NUM_VCPU_LOCAL_VIRQS then set_sgi_ppi_enable irq set vcpu_id else set_spi_enable irq set.

Definition is_sgi_ppi_enabled (irq vcpu_id : Z) : V bool :=
  v ← dist_load Dist.enable_set0 vcpu_id; mret (has_bit_of irq v).
Definition is_spi_enabled (irq : Z) : V bool :=
  v ← dist_load Dist.enable_set (IRQ_IDX irq); mret (has_bit_of irq v).
Definition is_enabled (irq vcpu_id : Z) : V bool :=
  if irq <? NUM_VCPU_LOCAL_VIRQS then is_sgi_ppi_enabled irq vcpu_id else is_spi_enabled irq.

Definition is_sgi_ppi_active (irq vcpu_id : Z) : V bool :=
  v ← dist_load Dist.active0 vcpu_id; mret (has_bit_of irq v).
Definition is_spi_active (irq : Z) : V bool :=
  v ← dist_load Dist.active (IRQ_IDX irq); mret (has_bit_of irq v).
Definition is_active (irq vcpu_id : Z) : V bool :=
  if irq <? NUM_VCPU_LOCAL_VIRQS then is_sgi_ppi_active irq vcpu_id else is_spi_active irq.

(** ** Handles: virq.h *)
Definition get_vgic_vcpu (vcpu_id : Z) : V vgic_vcpu_t :=
  assert_ ((0 <=? vcpu_id) && (vcpu_id <? Z.of_nat GUEST_NUM_VCPUS)) ;;
  cs ← vmm_gets (fun m => vgic_vcpu (vgic m));
  match cs !! Z.to_nat vcpu_id with Some c => mret c | None => crash OutOfBounds end.
Definition put_vgic_vcpu (vcpu_id : Z) (c : vgic_vcpu_t) : V unit :=
  vgic_modify (fun g => set_vgic_vcpu (<[Z.to_nat vcpu_id := c]> (vgic_vcpu g)) g).

(** what a pointer to a handle points to *)
Definition handle_of (g : vgic_t) (p : handle_ptr) : option virq_handle :=
  match p with
  | LocalVirq vcpu i => c ← vgic_vcpu g !! vcpu; local_virqs c !! i
  | Vspi i => vspis g !! i
  end.
Definition handle_at (p : handle_ptr) : V virq_handle :=
  g ← vmm_gets vgic;
  match handle_of g p with Some h => mret h | None => crash OutOfBounds end.

(** [ack_fn] called; the functions of [virq.c] *)
Definition vppi_event_ack (vm : vm_ptr) (irq cookie : Z) : V unit := _ ← on_vm (vm_ack_vppi vm irq); mret tt.
Definition sgi_ack (vm : vm_ptr) (irq cookie : Z) : V unit := mret tt.
Definition virq_ack (vm : vm_ptr) (h : virq_handle) : V unit :=
  match ack_fn h with
  | None => crash AssertFail
  | Some VppiEventAck => vppi_event_ack vm (virq h) (ack_data h)
  | Some SgiAck => sgi_ack vm (virq h) (ack_data h)
  | Some SerialAck => on_vm (vm_serial_ack vm (virq h) (ack_data h))
  end.

Definition is_invalid (h : virq_handle) : bool := virq h =? VIRQ_INVALID.

Definition virq_get_sgi_ppi (vcpu_id irq : Z) : V handle_ptr :=
  c ← get_vgic_vcpu vcpu_id;
  assert_ ((0 <=? irq) && (irq <? Z.of_nat (length (local_virqs c)))) ;;
  mret (LocalVirq (Z.to_nat vcpu_id) (Z.to_nat irq)).
Definition spi_slot_of (irq : Z) (hs : list virq_handle) : option nat :=
  fst <$> list_find (fun h => virq h ≠ VIRQ_INVALID /\ virq h = irq) hs.
Definition virq_find_spi_irq_data (irq : Z) : V (option handle_ptr) :=
  g ← vmm_gets vgic; mret (Vspi <$> spi_slot_of irq (vspis g)).
Definition virq_find_irq_data (vcpu_id irq : Z) : V (option handle_ptr) :=
  if irq <? NUM_VCPU_LOCAL_VIRQS then p ← virq_get_sgi_ppi vcpu_id irq; mret (Some p)
  else virq_find_spi_irq_data irq.

Definition virq_spi_add (h : virq_handle) : V bool :=
  g ← vmm_gets vgic;
  match fst <$> list_find (fun h => virq h = VIRQ_INVALID) (vspis g) with
  | Some i => vgic_modify (fun g => set_vspis (<[i := h]> (vspis g)) g) ;; mret true
  | None => mret false
  end.
Definition virq_sgi_ppi_add (vcpu_id : Z) (h : virq_handle) : V bool :=
  c ← get_vgic_vcpu vcpu_id;
  assert_ ((0 <=? virq h) && (virq h <? Z.of_nat (length (local_virqs c)))) ;;
  match local_virqs c !! Z.to_nat (virq h) with
  | None => crash OutOfBounds
  | Some slot =>
      if negb (is_invalid slot) then mret false
      else put_vgic_vcpu vcpu_id (set_local_virqs (<[Z.to_nat (virq h) := h]> (local_virqs c)) c) ;; mret true
  end.
Definition virq_add (vcpu_id : Z) (h : virq_handle) : V bool :=
  if virq h <? NUM_VCPU_LOCAL_VIRQS then virq_sgi_ppi_add vcpu_id h else virq_spi_add h.

(** *** The queue and the list registers *)
Definition vgic_irq_enqueue (vcpu_id : Z) (irq : handle_ptr) : V bool :=
  c ← get_vgic_vcpu vcpu_id;
  let q := vcpu_irq_queue c in
  if IRQ_QUEUE_NEXT (tail q) =? head q then mret false
  else if (Z.to_nat (tail q) <? length (irqs q))%nat then
    put_vgic_vcpu vcpu_id (set_irq_queue
      (IrqQueue (<[Z.to_nat (tail q) := Some irq]> (irqs q)) (head q) (IRQ_QUEUE_NEXT (tail q))) c) ;;
    mret true
  else crash OutOfBounds.
Definition vgic_irq_dequeue (vcpu_id : Z) : V (option handle_ptr) :=
  c ← get_vgic_vcpu vcpu_id;
  let q := vcpu_irq_queue c in
  if head q =? tail q then mret None
  else match irqs q !! Z.to_nat (head q) with
       | None => crash OutOfBounds
       | Some v => put_vgic_vcpu vcpu_id (set_irq_queue (IrqQueue (irqs q) (IRQ_QUEUE_NEXT (head q)) (tail q)) c) ;;
                   mret v
       end.

(** [None] is -1 *)
Definition empty_list_reg (lrs : list virq_handle) : option nat :=
  fst <$> list_find (fun h => virq h = VIRQ_INVALID) lrs.
Definition vgic_find_empty_list_reg (vcpu_id : Z) : V (option nat) :=
  c ← get_vgic_vcpu vcpu_id; mret (empty_list_reg (lr_shadow c)).
Definition vgic_vcpu_load_list_reg (vm : vm_ptr) (vcpu_id : Z) (idx : nat) (group : Z) (p : handle_ptr) : V bool :=
  c ← get_vgic_vcpu vcpu_id;
  assert_ (idx <? length (lr_shadow c))%nat ;;
  h ← handle_at p;
  err ← on_vm (vm_inject_irq vm (virq h) 0 group (Z.of_nat idx));
  if negb (err =? 0) then mret false else
  h ← handle_at p;
  c ← get_vgic_vcpu vcpu_id;
  put_vgic_vcpu vcpu_id (set_lr_shadow (<[idx := h]> (lr_shadow c)) c) ;; mret true.

(** ** vdist.h: interrupts *)
Definition vgic_dist_enable_irq (vm : vm_ptr) (vcpu_id irq : Z) : V unit :=
  set_enable irq true vcpu_id ;;
  virq_data ← virq_find_irq_data vcpu_id irq;
  match virq_data with
  | None => mret tt
  | Some p =>
      h ← handle_at p;
      if negb (is_invalid h) then
        pending ← is_pending (virq h) vcpu_id;
        when (negb pending) (virq_ack vm h)
      else mret tt
  end.
Definition vgic_dist_disable_irq (vcpu_id irq : Z) : V unit :=
  when (NUM_SGI_VIRQS <=? irq) (set_enable irq false vcpu_id).

(** the first condition of the function, and what is printed then, which looks at all three
    parts of it again *)
Definition set_pending_refused (h : virq_handle) (vcpu_id irq : Z) : V bool :=
  dist_enabled ← vgic_dist_is_enabled;
  if is_invalid h || negb dist_enabled then _ ← is_enabled irq vcpu_id; mret true
  else enabled ← is_enabled irq vcpu_id; mret (negb enabled).

Definition GIC_GROUP : Z := 0.
(** the end of the function: the interrupt is put into the queue, and the first of the queue
    into a list register *)
Definition enqueue_and_load (vm : vm_ptr) (vcpu_id : Z) (virq_data : handle_ptr) : V bool :=
  success ← vgic_irq_enqueue vcpu_id virq_data;
  assert_ success ;;
  idx ← vgic_find_empty_list_reg vcpu_id;
  match idx with
  | None => mret true
  | Some idx =>
      virq ← vgic_irq_dequeue vcpu_id;
      virq ← deref virq;
      h ← handle_at virq;
      assert_ (negb (is_invalid h)) ;;
      vgic_vcpu_load_list_reg vm vcpu_id idx GIC_GROUP virq
  end.
Definition vgic_dist_set_pending_irq (vm : vm_ptr) (vcpu_id irq : Z) : V bool :=
  virq_data ← virq_find_irq_data vcpu_id irq;
  virq_data ← deref virq_data;
  h ← handle_at virq_data;
  refused ← set_pending_refused h vcpu_id irq;
  if (refused : bool) then mret false else
  pending ← is_pending (virq h) vcpu_id;
  if (pending : bool) then mret true else
  set_pending (virq h) true vcpu_id ;; enqueue_and_load vm vcpu_id virq_data.
Definition vgic_dist_clr_pending_irq (vcpu_id irq : Z) : V unit := set_pending irq false vcpu_id.

(** ** vdist.h: reading a register *)

(** the register at an offset; [None] when there is none *)
Definition reg_at (m : V Z) : V (option Z) := v ← m; mret (Some v).
Definition dist_reg (vcpu_id offset : Z) : V (option Z) :=
  let per_cpu f := reg_at (dist_load f vcpu_id) in
  let array f first := reg_at (dist_load f (GIC_DIST_REGN offset first)) in
  let per_cpu_array f n first := reg_at (dist_load f (vcpu_id * n + GIC_DIST_REGN offset first)) in
  let reserved := mret (Some 0) in
  if RANGE32 0x000 0x000 offset then reg_at (dist_load Dist.ctlr 0)
  else if RANGE32 0x004 0x004 offset then reg_at (dist_load Dist.typer 0)
  else if RANGE32 0x008 0x008 offset then reg_at (dist_load Dist.iidr 0)
  else if RANGE32 0x00C 0x01C offset then reserved
  else if RANGE32 0x020 0x03C offset then reserved
  else if RANGE32 0x040 0x07C offset then reserved
  else if RANGE32 0x080 0x080 offset then per_cpu Dist.irq_group0
  else if RANGE32 0x084 0x0FC offset then array Dist.irq_group 0x084
  else if RANGE32 0x100 0x100 offset then per_cpu Dist.enable_set0
  else if RANGE32 0x104 0x17C offset then array Dist.enable_set 0x104
  else if RANGE32 0x180 0x180 offset then per_cpu Dist.enable_clr0
  else if RANGE32 0x184 0x1fC offset then array Dist.enable_clr 0x184
  else if RANGE32 0x200 0x200 offset then per_cpu Dist.pending_set0
  else if RANGE32 0x204 0x27C offset then array Dist.pending_set 0x204
  else if RANGE32 0x280 0x280 offset then per_cpu Dist.pending_clr0
  else if RANGE32 0x284 0x2FC offset then array Dist.pending_clr 0x284
  else if RANGE32 0x300 0x300 offset then per_cpu Dist.active0
  else if RANGE32 0x304 0x37C offset then array Dist.active 0x304
  else if RANGE32 0x380 0x380 offset then per_cpu Dist.active_clr0
  else if RANGE32 0x384 0x3FC offset then array Dist.active_clr 0x384
  else if RANGE32 0x400 0x41C offset then per_cpu_array Dist.priority0 8 0x400
  else if RANGE32 0x420 0x7F8 offset then array Dist.priority 0x420
  else if RANGE32 0x7FC 0x7FC offset then reserved
  else if RANGE32 0x800 0x81C offset then per_cpu_array Dist.targets0 8 0x800
  else if RANGE32 0x820 0xBF8 offset then array Dist.targets 0x820
  else if RANGE32 0xBFC 0xBFC offset then reserved
  else if RANGE32 0xC00 0xCFC offset then array Dist.config 0xC00
  else if RANGE32 0xD00 0xDE4 offset then reg_at (load_unaligned Dist.spi (offset - 0xD00))
  else if RANGE32 0xDE8 0xEFC offset then reserved
  else if RANGE32 0xF00 0xF00 offset then reg_at (dist_load Dist.sgir 0)
  else if RANGE32 0xF04 0xF0C offset then reserved
  else if RANGE32 0xF10 0xF1C offset then per_cpu_array Dist.sgi_pending_clr 4 0xF10
  else if RANGE32 0xF20 0xF2C offset then per_cpu_array Dist.sgi_pending_set 4 0xF20
  else if RANGE32 0xF30 0xFBC offset then reserved
  else if RANGE32 0xFC0 0xFFB offset then reg_at (load_unaligned Dist.periph_id (offset - 0xFC0))
  else mret None.

Definition vgic_dist_reg_read (vm : vm_ptr) (vcpu_id offset fsr : Z) (regs : seL4_UserContext) : V bool :=
  reg ← dist_reg vcpu_id offset;
  success ← match reg with
            | None => fault_advance_vcpu vm regs
            | Some reg =>
                mask ← fault_get_data_mask (GIC_DIST_PADDR + offset) fsr;
                fault_advance vm regs (GIC_DIST_PADDR + offset) fsr (Z.land reg (u32 mask))
            end;
  assert_ success ;; mret success.

(** ** vdist.h: writing a register *)
Definition emulate_reg_write_access (regs : seL4_UserContext) (addr fsr : Z) (f : Dist.dist_field) (i : Z) : V unit :=
  reg ← dist_load f i;
  data ← fault_get_data regs fsr;
  v ← fault_emulate reg addr fsr data;
  dist_store f i v.

(** [while (data)]: the lowest bit is cleared, and [body] is run for its position *)
Fixpoint bits_loop (fuel : nat) (data : Z) (body : Z -> V unit) : V unit :=
  if data =? 0 then mret tt else
  match fuel with
  | O => no_fuel
  | S fuel =>
      let bit := CTZ data in
      body bit ;; bits_loop fuel (Z.land data (Z.lnot (Z.shiftl 1 bit))) body
  end.
(** the interrupts whose bits are written to a register that is a set of bits *)
Definition for_bits (regs : seL4_UserContext) (offset fsr mask first : Z) (body : Z -> V unit) : V unit :=
  data ← fault_get_data regs fsr;
  bits_loop 32 (Z.land (u32 data) mask) (fun bit => body (bit + (offset - first) * 8)).

(** [Some tt]: [break]; the end of the function is [ignore_fault] in any case *)
Definition sgir_write (vm : vm_ptr) (vcpu_id fsr : Z) (regs : seL4_UserContext) : V unit :=
  data ← fault_get_data regs fsr;
  let mode := Z.shiftr (Z.land (u32 data) (Z.shiftl 0x3 24)) 24 in
  let irq := Z.land (u32 data) 0xF in
  if mode =? 3 then mret tt
  else success ← vgic_dist_set_pending_irq vm vcpu_id irq; assert_ success.

Definition vgic_dist_reg_write (vm : vm_ptr) (vcpu_id offset fsr : Z) (regs : seL4_UserContext) : V bool :=
  let addr := GIC_DIST_PADDR + offset in
  mask ← fault_get_data_mask addr fsr;
  let mask := u32 mask in
  let emulate f i := emulate_reg_write_access regs addr fsr f i in
  let ignored := mret tt in
  (if RANGE32 0x000 0x000 offset then
     data ← fault_get_data regs fsr;
     if u32 data =? GIC_ENABLED then vgic_dist_enable
     else if u32 data =? 0 then vgic_dist_disable else ignored
   else if RANGE32 0x004 0x004 offset then ignored
   else if RANGE32 0x008 0x008 offset then ignored
   else if RANGE32 0x00C 0x01C offset then ignored
   else if RANGE32 0x020 0x03C offset then ignored
   else if RANGE32 0x040 0x07C offset then ignored
   else if RANGE32 0x080 0x080 offset then emulate Dist.irq_group0 vcpu_id
   else if RANGE32 0x084 0x0FC offset then emulate Dist.irq_group (GIC_DIST_REGN offset 0x084)
   else if RANGE32 0x100 0x17C offset then
     for_bits regs offset fsr mask 0x100 (vgic_dist_enable_irq vm vcpu_id)
   else if RANGE32 0x180 0x1fC offset then
     for_bits regs offset fsr mask 0x180 (vgic_dist_disable_irq vcpu_id)
   else if RANGE32 0x200 0x27C offset then
     for_bits regs offset fsr mask 0x200
       (fun irq => _ ← vgic_dist_set_pending_irq vm vcpu_id irq; mret tt)
   else if RANGE32 0x280 0x2FC offset then
     for_bits regs offset fsr mask 0x280 (vgic_dist_clr_pending_irq vcpu_id)
   else if RANGE32 0x300 0x300 offset then emulate Dist.active0 vcpu_id
   else if RANGE32 0x304 0x37C offset then emulate Dist.active (GIC_DIST_REGN offset 0x304)
   else if RANGE32 0x380 0x380 offset then emulate Dist.active_clr0 vcpu_id
   else if RANGE32 0x384 0x3FC offset then emulate Dist.active_clr (GIC_DIST_REGN offset 0x384)
   else if RANGE32 0x400 0x7F8 offset then ignored
   else if RANGE32 0x7FC 0x7FC offset then ignored
   else if RANGE32 0x800 0xBF8 offset then ignored
   else if RANGE32 0xBFC 0xBFC offset then ignored
   else if RANGE32 0xC00 0xCFC offset then emulate Dist.config (GIC_DIST_REGN offset 0xC00)
   else if RANGE32 0xD00 0xDFC offset then ignored
   else if RANGE32 0xE00 0xEFC offset then ignored
   else if RANGE32 0xF00 0xF00 offset then sgir_write vm vcpu_id fsr regs
   else if RANGE32 0xF04 0xF0C offset then ignored
   else if RANGE32 0xF10 0xF2C offset then crash AssertFail
   else if RANGE32 0xF30 0xFBC offset then ignored
   else if RANGE32 0xFC0 0xFFC offset then ignored
   else crash AssertFail) ;;
  success ← fault_advance_vcpu vm regs;
  assert_ success ;; mret success.

(** ** vgic_v2.c *)
Definition dist_writes (l : list (Dist.dist_field * Z * Z)) : V unit :=
  for_each l (fun x => dist_store (fst (fst x)) (snd (fst x)) (snd x)).

Definition vgic_dist_reset : V unit :=
  dist_writes [(Dist.typer, 0, 0x0000fce7); (Dist.iidr, 0, 0x0200043b)] ;;
  for_each (seqZ 0 (Z.of_nat CONFIG_MAX_NUM_NODES)) (fun i =>
    dist_writes [(Dist.enable_set0, i, 0x0000ffff); (Dist.enable_clr0, i, 0x0000ffff)]) ;;
  dist_writes [(Dist.config, 0, 0xaaaaaaaa); (Dist.config, 1, 0x55540000)] ;;
  for_each (seqZ 2 14) (fun i => dist_store Dist.config i 0x55555555) ;;
  for_each (seqZ 0 (Z.of_nat CONFIG_MAX_NUM_NODES)) (fun i =>
    for_each (seqZ 0 8) (fun j =>
      for_each (seqZ 0 4) (fun irq =>
        dist_update Dist.targets0 (i * 8 + j) (fun v => Z.lor v (Z.shiftl (Z.shiftl 1 i) (irq * 8)))))) ;;
  for_each (seqZ 0 247) (fun i => dist_store Dist.targets i 0x1010101) ;;
  dist_writes [(Dist.periph_id, 4, 0x00000004); (Dist.periph_id, 8, 0x00000090); (Dist.periph_id, 9, 0x000000b4);
    (Dist.periph_id, 10, 0x0000002b); (Dist.component_id, 0, 0x0000000d); (Dist.component_id, 1, 0x000000f0);
    (Dist.component_id, 2, 0x00000005); (Dist.component_id, 3, 0x000000b1)].

Definition no_handle : virq_handle := VirqHandle VIRQ_INVALID None 0.
(** after the memset and the loops: the handles, the list registers and the queue are empty *)
Definition vgic_vcpu_initial : vgic_vcpu_t :=
  VgicVcpu (replicate NUM_LIST_REGS no_handle)
    (IrqQueue (replicate (Z.to_nat MAX_IRQ_QUEUE_LEN) None) 0 0)
    (replicate (Z.to_nat NUM_VCPU_LOCAL_VIRQS) no_handle).
Definition vgic_initial : vgic_t :=
  Vgic (Some (fun _ => 0)) (replicate NUM_SLOTS_SPI_VIRQ no_handle) [vgic_vcpu_initial].
Definition vgic_init : V unit := vgic_modify (fun _ => vgic_initial) ;; vgic_dist_reset.

(** ** vgic.c *)

(** [idx] is the word of the message *)
Definition fault_handle_vgic_maintenance (vm : vm_ptr) (vcpu_id mr_idx : Z) : V bool :=
  let idx := i32 mr_idx in
  assert_ (0 <=? idx) ;;
  c ← get_vgic_vcpu vcpu_id;
  assert_ (idx <? Z.of_nat (length (lr_shadow c))) ;;
  match lr_shadow c !! Z.to_nat idx with
  | None => crash OutOfBounds
  | Some lr_virq =>
      assert_ (negb (is_invalid lr_virq)) ;;
      put_vgic_vcpu vcpu_id (set_lr_shadow (<[Z.to_nat idx := no_handle]> (lr_shadow c)) c) ;;
      set_pending (virq lr_virq) false vcpu_id ;;
      virq_ack vm lr_virq ;;
      virq ← vgic_irq_dequeue vcpu_id;
      match virq with
      | Some p => vgic_vcpu_load_list_reg vm vcpu_id (Z.to_nat idx) GIC_GROUP p
      | None => mret true
      end
  end.

Definition vgic_register_irq (vcpu_id virq_num : Z) (fn : option virq_ack_fn_t) (data : Z) : V bool :=
  assert_ ((0 <=? virq_num) && negb (virq_num =? VIRQ_INVALID)) ;;
  virq_add vcpu_id (VirqHandle virq_num fn data).
Definition vgic_inject_irq (vm : vm_ptr) (vcpu_id irq : Z) : V bool := vgic_dist_set_pending_irq vm vcpu_id irq.

Definition handle_vgic_dist_fault (vm : vm_ptr) (vcpu_id fault_addr fsr : Z) (regs : seL4_UserContext) : V bool :=
  assert_ (GIC_DIST_PADDR <=? fault_addr) ;;
  assert_ (fault_addr - GIC_DIST_PADDR <? GIC_DIST_SIZE) ;;
  let offset := fault_addr - GIC_DIST_PADDR in
  success ← (if fault_is_read fsr then vgic_dist_reg_read vm vcpu_id offset fsr regs
             else vgic_dist_reg_write vm vcpu_id offset fsr regs);
  assert_ success ;; mret success.

(** ** virq.c *)
Definition SGI_RESCHEDULE_IRQ : Z := 0.
Definition SGI_FUNC_CALL : Z := 1.
Definition PPI_VTIMER_IRQ : Z := 27.

Definition virq_controller_init (boot_vcpu_id : Z) : V bool :=
  vgic_init ;;
  success ← vgic_register_irq boot_vcpu_id PPI_VTIMER_IRQ (Some VppiEventAck) 0;
  if negb success then mret false else
  success ← vgic_register_irq boot_vcpu_id SGI_RESCHEDULE_IRQ (Some SgiAck) 0;
  if negb success then mret false else
  vgic_register_irq boot_vcpu_id SGI_FUNC_CALL (Some SgiAck) 0.
Definition virq_inject (vm : vm_ptr) (vcpu_id irq : Z) : V bool := vgic_inject_irq vm vcpu_id irq.
(** the number is converted to an int *)
Definition virq_register (vcpu_id virq_num : Z) (fn : option virq_ack_fn_t) (data : Z) : V bool :=
  vgic_register_irq vcpu_id (i32 virq_num) fn data.

(** ** vmm_helpers.c *)
Definition vmm_init_virq (vcpu_id : Z) (serial_ack_fn : option virq_ack_fn_t) (cookie : Z) : V Z :=
  success ← virq_controller_init vcpu_id;
  if negb success then mret 1 else
  success ← virq_register vcpu_id SERIAL_IRQ serial_ack_fn cookie;
  mret (if negb success then 1 else 0).
End Vgic.

(** the places of the registers are those that the guest sees, up to [res10], which has four
    words more than the comment beside it says *)
Lemma dist_layout :
  (fun f => 4 * (Dist.place f).1) <$>
    [Dist.ctlr; Dist.typer; Dist.iidr; Dist.irq_group0; Dist.enable_set0; Dist.enable_clr0; Dist.pending_set0;
     Dist.pending_clr0; Dist.active0; Dist.active_clr0; Dist.priority0; Dist.targets0; Dist.config; Dist.spi;
     Dist.sgir; Dist.sgi_pending_clr; Dist.sgi_pending_set; Dist.periph_id; Dist.component_id] =
  [0x000; 0x004; 0x008; 0x080; 0x100; 0x180; 0x200; 0x280; 0x300; 0x380; 0x400; 0x800; 0xC00; 0xD00;
   0xF00; 0xF10; 0xF20; 0xFC0 + 16; 0xFF0 + 16].
Proof. by vm_compute. Qed.
Lemma dist_size : 4 * Dist.words = GIC_DIST_SIZE + 16.
Proof. by vm_compute. Qed.
