(* ===== verification/VgicSpec.v ===== *)
(** * The interrupt controller refines a queue

    What a virtual CPU sees of its interrupts: list registers, a queue of those that wait,
    and sets of pending and enabled interrupts ([irq_state]).  The operations of Vgic refine
    those of [irq_state], which keep the list registers filled and deliver in order; what
    happens when the guest clears a pending bit itself. *)

From stdpp Require Import base numbers list gmap.
From S2P Require Import Prelude GuestFault Vgic.

(** ** Bits of a register *)
Lemma has_bit_testbit irq v : has_bit_of irq v = Z.testbit v (irq mod 32).
Proof.
  assert (0 <= irq mod 32 < 32) by (apply Z.mod_pos_bound; lia).
  unfold has_bit_of, IRQ_BIT. destruct (Z.testbit v (irq mod 32)) eqn:E.
  - apply negb_true_iff, Z.eqb_neq. intros H0.
    apply (f_equal (fun x => Z.testbit x (irq mod 32))) in H0.
    rewrite Z.land_spec, E, Z.shiftl_spec, Z.sub_diag, Z.bits_0 in H0 by lia. done.
  - apply negb_false_iff, Z.eqb_eq, Z.bits_inj'. intros n Hn.
    rewrite Z.land_spec, Z.bits_0, Z.shiftl_1_l, Z.pow2_bits_eqb by lia.
    destruct (Z.eqb_spec (irq mod 32) n) as [<-|]; [by rewrite E|apply andb_false_r].
Qed.

Lemma set_bit_testbit b irq v n : 0 <= n ->
  Z.testbit (set_bit_of b irq v) n = if decide (n = irq mod 32) then b else Z.testbit v n.
Proof.
  intros Hn. assert (0 <= irq mod 32 < 32) by (apply Z.mod_pos_bound; lia).
  unfold set_bit_of, IRQ_BIT. destruct b;
    rewrite ?Z.lor_spec, ?Z.land_spec, ?Z.lnot_spec, Z.shiftl_1_l, Z.pow2_bits_eqb by lia;
    case_decide; subst; rewrite ?Z.eqb_refl, ?orb_true_r, ?andb_false_r; try done;
    rewrite (proj2 (Z.eqb_neq _ _)) by congruence; by rewrite ?orb_false_r, ?andb_true_r.
Qed.

Lemma u32_testbit v n : 0 <= n < 32 -> Z.testbit (u32 v) n = Z.testbit v n.
Proof. intros Hn. unfold u32, wrap. apply Z.mod_pow2_bits_low. lia. Qed.

(** ** Flags: a bit for each interrupt, in the words of a member and of its first word *)
Definition upd (d : Z -> Z) (w v : Z) : Z -> Z := fun w' => if w' =? w then u32 v else d w'.
Definition flag_word (a b irq : Z) : Z := if irq <? 32 then a else b + irq / 32.
Definition flag (a b irq : Z) (d : Z -> Z) : bool := Z.testbit (d (flag_word a b irq)) (irq mod 32).
Definition set_flag (a b irq : Z) (v : bool) (d : Z -> Z) : Z -> Z :=
  upd d (flag_word a b irq) (set_bit_of v irq (d (flag_word a b irq))).

(** an interrupt that has a bit in the registers *)
Definition irq_ok (irq : Z) : Prop := 0 <= irq < 992.

Lemma flag_word_range a b irq : irq_ok irq -> flag_word a b irq = a \/ b < flag_word a b irq <= b + 30.
Proof.
  unfold irq_ok, flag_word. intros H. destruct (Z.ltb_spec irq 32); [auto|right].
  assert (1 <= irq / 32 <= 30); [|lia].
  split; [apply Z.div_le_lower_bound; lia|apply Z.lt_succ_r, Z.div_lt_upper_bound; lia].
Qed.

Lemma flag_word_inj a b irq irq' : a <= b -> irq_ok irq -> irq_ok irq' ->
  flag_word a b irq = flag_word a b irq' -> irq mod 32 = irq' mod 32 -> irq = irq'.
Proof.
  unfold irq_ok, flag_word. intros Hab H H' E Em.
  pose proof (Z.div_mod irq 32 ltac:(lia)). pose proof (Z.div_mod irq' 32 ltac:(lia)).
  assert (irq < 32 -> irq / 32 = 0) by (intros; apply Z.div_small; lia).
  assert (irq' < 32 -> irq' / 32 = 0) by (intros; apply Z.div_small; lia).
  assert (32 <= irq -> 1 <= irq / 32) by (intros; apply Z.div_le_lower_bound; lia).
  assert (32 <= irq' -> 1 <= irq' / 32) by (intros; apply Z.div_le_lower_bound; lia).
  destruct (Z.ltb_spec irq 32), (Z.ltb_spec irq' 32); lia.
Qed.

Lemma flag_set_same a b irq irq' v d : a <= b -> irq_ok irq -> irq_ok irq' ->
  flag a b irq' (set_flag a b irq v d) = if decide (irq' = irq) then v else flag a b irq' d.
Proof.
  intros Hab H H'. unfold flag, set_flag, upd.
  assert (0 <= irq' mod 32 < 32) by (apply Z.mod_pos_bound; lia).
  destruct (Z.eqb_spec (flag_word a b irq') (flag_word a b irq)) as [E|E].
  - rewrite u32_testbit, set_bit_testbit, <- E by lia. repeat case_decide; try done.
    + exfalso. eauto using flag_word_inj.
    + by subst.
  - case_decide; [by subst|done].
Qed.

(** words of one flag are not those of another *)
Definition apart (a b a' b' : Z) : Prop :=
  a <= b /\ a' <= b' /\ (b + 30 < a' \/ b' + 30 < a).
Lemma flag_set_other a b a' b' irq irq' v d : apart a b a' b' -> irq_ok irq -> irq_ok irq' ->
  flag a b irq' (set_flag a' b' irq v d) = flag a b irq' d.
Proof.
  intros Hap H H'. unfold flag, set_flag, upd.
  destruct (Z.eqb_spec (flag_word a b irq') (flag_word a' b' irq)) as [E|]; [|done].
  pose proof (flag_word_range a b irq' H'). pose proof (flag_word_range a' b' irq H). unfold apart in *. lia.
Qed.
Lemma word_set_flag a b irq v d w : a <= b -> irq_ok irq -> (w < a \/ b + 30 < w) ->
  set_flag a b irq v d w = d w.
Proof.
  intros Hab H Hw. unfold set_flag, upd. destruct (Z.eqb_spec w (flag_word a b irq)) as [->|]; [|done].
  pose proof (flag_word_range a b irq H). lia.
Qed.

Definition pending_bit : Z -> (Z -> Z) -> bool := flag 128 129.
Definition enabled_bit : Z -> (Z -> Z) -> bool := flag 64 65.
Definition set_pending_bits (irq : Z) (v : bool) (d : Z -> Z) : Z -> Z :=
  set_flag 160 161 irq v (set_flag 128 129 irq v d).
Definition set_enabled_bits (irq : Z) (v : bool) (d : Z -> Z) : Z -> Z :=
  set_flag 96 97 irq v (set_flag 64 65 irq v d).

Section Bits.
Context (irq irq' : Z) (v : bool) (d : Z -> Z) (H : irq_ok irq) (H' : irq_ok irq').

Lemma pending_set_pending :
  pending_bit irq' (set_pending_bits irq v d) = if decide (irq' = irq) then v else pending_bit irq' d.
Proof.
  unfold pending_bit, set_pending_bits. rewrite flag_set_other by (unfold apart; first [done|lia]).
  apply flag_set_same; [lia|done..].
Qed.
Lemma enabled_set_pending : enabled_bit irq' (set_pending_bits irq v d) = enabled_bit irq' d.
Proof. unfold enabled_bit, set_pending_bits. by rewrite !flag_set_other by (unfold apart; first [done|lia]). Qed.
Lemma enabled_set_enabled :
  enabled_bit irq' (set_enabled_bits irq v d) = if decide (irq' = irq) then v else enabled_bit irq' d.
Proof.
  unfold enabled_bit, set_enabled_bits. rewrite flag_set_other by (unfold apart; first [done|lia]).
  apply flag_set_same; [lia|done..].
Qed.
Lemma pending_set_enabled : pending_bit irq' (set_enabled_bits irq v d) = pending_bit irq' d.
Proof. unfold pending_bit, set_enabled_bits. by rewrite !flag_set_other by (unfold apart; first [done|lia]). Qed.
Lemma ctlr_set_pending : set_pending_bits irq v d 0 = d 0.
Proof. unfold set_pending_bits. by rewrite !word_set_flag by (first [done|lia]). Qed.
Lemma ctlr_set_enabled : set_enabled_bits irq v d 0 = d 0.
Proof. unfold set_enabled_bits. by rewrite !word_set_flag by (first [done|lia]). Qed.
End Bits.

(** ** The specification *)
Record irq_state := IrqState {
  s_lrs : list (option Z);      (* what each list register holds *)
  s_queue : list Z;             (* what waits for a list register *)
  s_pending : gset Z;
  s_enabled : gset Z;
  s_registered : gset Z;
  s_on : bool                   (* the distributor *)
}.
Definition s_set_lists (lrs : list (option Z)) (q : list Z) (st : irq_state) : irq_state :=
  IrqState lrs q (s_pending st) (s_enabled st) (s_registered st) (s_on st).
Definition s_set_pending (x : gset Z) (st : irq_state) : irq_state :=
  IrqState (s_lrs st) (s_queue st) x (s_enabled st) (s_registered st) (s_on st).
Definition s_set_enabled (x : gset Z) (st : irq_state) : irq_state :=
  IrqState (s_lrs st) (s_queue st) (s_pending st) x (s_registered st) (s_on st).

Definition in_flight (st : irq_state) : list Z := omap id (s_lrs st) ++ s_queue st.

Definition s_accepts (irq : Z) (st : irq_state) : bool :=
  bool_decide (irq ∈ s_registered st) && s_on st && bool_decide (irq ∈ s_enabled st).
(** the first list register without an interrupt *)
Definition s_empty_lr (lrs : list (option Z)) : option nat := fst <$> list_find (fun o => o = None) lrs.

(** an accepted interrupt waits, and the first that waits goes to a free list register *)
Definition s_deliver (irq : Z) (st : irq_state) : irq_state :=
  let q := s_queue st ++ [irq] in
  match s_empty_lr (s_lrs st), q with
  | Some i, x :: q' => s_set_lists (<[i := Some x]> (s_lrs st)) q' st
  | _, _ => s_set_lists (s_lrs st) q st
  end.
Definition s_arrives (irq : Z) (st : irq_state) : irq_state :=
  if s_accepts irq st && negb (bool_decide (irq ∈ s_pending st))
  then s_deliver irq (s_set_pending ({[irq]} ∪ s_pending st) st) else st.
(** the guest has handled the interrupt of a list register *)
Definition s_maintained (idx : nat) (st : irq_state) : irq_state :=
  match s_lrs st !! idx with
  | Some (Some irq) =>
      let st := s_set_pending (s_pending st ∖ {[irq]}) st in
      match s_queue st with
      | [] => s_set_lists (<[idx := None]> (s_lrs st)) [] st
      | x :: q => s_set_lists (<[idx := Some x]> (s_lrs st)) q st
      end
  | _ => st
  end.
Definition s_enable (irq : Z) (st : irq_state) : irq_state := s_set_enabled ({[irq]} ∪ s_enabled st) st.
Definition s_disable (irq : Z) (st : irq_state) : irq_state :=
  if NUM_SGI_VIRQS <=? irq then s_set_enabled (s_enabled st ∖ {[irq]}) st else st.
Definition s_switch (on : bool) (st : irq_state) : irq_state :=
  IrqState (s_lrs st) (s_queue st) (s_pending st) (s_enabled st) (s_registered st) on.
Definition s_clear (irq : Z) (st : irq_state) : irq_state := s_set_pending (s_pending st ∖ {[irq]}) st.

(** what happens to the interrupts of a guest *)
Inductive vgic_event :=
| Arrives (irq : Z)          (* from the host, or from the guest itself *)
| Maintained (idx : nat)     (* the interrupt of a list register was handled *)
| Enabled (irq : Z)
| Disabled (irq : Z)
| Cleared (irq : Z)          (* the guest clears a pending bit *)
| Switched (on : bool).      (* the guest switches the distributor *)
Definition s_event (e : vgic_event) : irq_state -> irq_state :=
  match e with
  | Arrives irq => s_arrives irq
  | Maintained idx => s_maintained idx
  | Enabled irq => s_enable irq
  | Disabled irq => s_disable irq
  | Cleared irq => s_clear irq
  | Switched on => s_switch on
  end.
Definition s_events (es : list vgic_event) (st : irq_state) : irq_state := foldl (fun st e => s_event e st) st es.

(** the events that can happen; an interrupt without a handle must be one of the CPU's own *)
Definition can_happen (st : irq_state) (e : vgic_event) : Prop :=
  match e with
  | Arrives irq => irq_ok irq /\ (irq < NUM_VCPU_LOCAL_VIRQS \/ irq ∈ s_registered st) /\
      (s_accepts irq st = true -> irq ∉ s_pending st -> (length (s_queue st) < 63)%nat)
  | Maintained idx => exists irq, s_lrs st !! idx = Some (Some irq)
  | Enabled irq | Disabled irq | Cleared irq => irq_ok irq
  | Switched _ => True
  end.
Fixpoint can_happen_all (st : irq_state) (es : list vgic_event) : Prop :=
  match es with
  | [] => True
  | e :: es => can_happen st e /\ can_happen_all (s_event e st) es
  end.

(** ** The relation between the controller and the specification *)

(** the queue holds pointers, in the order in which they will be taken *)
Definition queue_holds (q : irq_queue) (ps : list handle_ptr) : Prop :=
  length (irqs q) = 64%nat /\ 0 <= head q < 64 /\ (length ps < 64)%nat /\
  tail q = (head q + Z.of_nat (length ps)) mod 64 /\
  forall k p, ps !! k = Some p -> irqs q !! Z.to_nat ((head q + Z.of_nat k) mod 64) = Some (Some p).

(** a handle of an interrupt *)
Definition handles (irq : Z) (h : virq_handle) : Prop := virq h = irq /\ irq_ok irq /\ is_Some (ack_fn h).
Definition lr_holds (h : virq_handle) (o : option Z) : Prop :=
  match o with Some irq => handles irq h | None => virq h = VIRQ_INVALID end.
Definition points_to (g : vgic_t) (p : handle_ptr) (irq : Z) : Prop := exists h, handle_of g p = Some h /\ handles irq h.

(** the handles of the CPU's own interrupts are at their numbers; those of SPIs anywhere *)
Record wf_handles (c : vgic_vcpu_t) (spis : list virq_handle) : Prop := WfHandles {
  wf_local_length : length (local_virqs c) = 32%nat;
  wf_local : forall i h, local_virqs c !! i = Some h -> virq h = VIRQ_INVALID \/ handles (Z.of_nat i) h;
  wf_spi : forall i h, spis !! i = Some h -> virq h = VIRQ_INVALID \/ handles (virq h) h /\ 32 <= virq h
}.
Definition find_handle (g : vgic_t) (irq : Z) : option handle_ptr :=
  if irq <? NUM_VCPU_LOCAL_VIRQS then Some (LocalVirq 0 (Z.to_nat irq)) else Vspi <$> spi_slot_of irq (vspis g).
Definition registered (g : vgic_t) (irq : Z) : Prop := exists p, find_handle g irq = Some p /\ points_to g p irq.

(** with the words of the distributor, the CPU and the pointers of the queue *)
Record refines_at (g : vgic_t) (st : irq_state) (d : Z -> Z) (c : vgic_vcpu_t) (ps : list handle_ptr) : Prop :=
  RefinesAt {
  ra_registers : registers g = Some d;
  ra_on : s_on st = (d 0 =? GIC_ENABLED);
  ra_pending : forall irq, irq_ok irq -> pending_bit irq d = bool_decide (irq ∈ s_pending st);
  ra_enabled : forall irq, irq_ok irq -> enabled_bit irq d = bool_decide (irq ∈ s_enabled st);
  ra_cpu : vgic_vcpu g = [c];
  ra_handles : wf_handles c (vspis g);
  ra_lr_length : length (lr_shadow c) = NUM_LIST_REGS;
  ra_lrs : Forall2 lr_holds (lr_shadow c) (s_lrs st);
  ra_queue : queue_holds (vcpu_irq_queue c) ps;
  ra_points : Forall2 (points_to g) ps (s_queue st);
  ra_registered : forall irq, irq_ok irq -> irq ∈ s_registered st <-> registered g irq
}.
Definition vgic_refines (g : vgic_t) (st : irq_state) : Prop := exists d c ps, refines_at g st d c ps.

(** *** The ring *)
Lemma next_mod i : 0 <= i -> IRQ_QUEUE_NEXT i = (i + 1) mod 64.
Proof.
  intros Hi. unfold IRQ_QUEUE_NEXT. change (MAX_IRQ_QUEUE_LEN - 1) with (Z.ones 6).
  by rewrite Z.land_ones by lia.
Qed.
Lemma ring_slot_inj h k k' : 0 <= k < 64 -> 0 <= k' < 64 -> (h + k) mod 64 = (h + k') mod 64 -> k = k'.
Proof. intros. pose proof (Z.div_mod (h + k) 64). pose proof (Z.div_mod (h + k') 64). lia. Qed.

Lemma queue_empty q ps : queue_holds q ps -> (head q =? tail q) = bool_decide (ps = []).
Proof.
  intros (_ & Hh & Hl & -> & _). destruct ps as [|p ps].
  - change (Z.of_nat (length [])) with 0. rewrite Z.add_0_r, Z.mod_small by lia. rewrite Z.eqb_refl.
      by rewrite bool_decide_true.
  - rewrite bool_decide_false by done. apply Z.eqb_neq. intros E.
    rewrite <- (Z.mod_small (head q) 64) in E at 1 by lia. rewrite <- (Z.add_0_r (head q)) in E at 1.
    apply ring_slot_inj in E; simpl in *; lia.
Qed.
Lemma queue_full q ps : queue_holds q ps ->
  (IRQ_QUEUE_NEXT (tail q) =? head q) = bool_decide (length ps = 63%nat).
Proof.
  intros (_ & Hh & Hl & -> & _). rewrite next_mod by (apply Z.mod_pos_bound; lia).
  rewrite Zplus_mod_idemp_l, <- Z.add_assoc.
  destruct (decide (length ps = 63%nat)) as [E|E].
  - rewrite bool_decide_true by done. apply Z.eqb_eq. rewrite E.
    change (Z.of_nat 63 + 1) with (1 * 64). rewrite Z.mod_add, Z.mod_small; lia.
  - rewrite bool_decide_false by done. apply Z.eqb_neq. intros E'.
    rewrite <- (Z.mod_small (head q) 64) in E' at 2 by lia. rewrite <- (Z.add_0_r (head q)) in E' at 2.
    apply ring_slot_inj in E'; lia.
Qed.

(** putting at the tail, and taking from the head *)
Lemma queue_put q ps p : queue_holds q ps -> (length ps < 63)%nat ->
  queue_holds (IrqQueue (<[Z.to_nat (tail q) := Some p]> (irqs q)) (head q) (IRQ_QUEUE_NEXT (tail q))) (ps ++ [p]) /\
  (Z.to_nat (tail q) < length (irqs q))%nat.
Proof.
  intros (Hi & Hh & Hl & Ht & Hat) Hfree.
  assert (0 <= tail q < 64) as Htr by (rewrite Ht; apply Z.mod_pos_bound; lia).
  split; [|lia]. unfold queue_holds. cbn [irqs head tail]. rewrite length_insert, length_app. cbn [length].
  split; [done|]. split; [done|]. split; [lia|]. split.
  { rewrite next_mod, Ht, Zplus_mod_idemp_l by lia. f_equal. lia. }
  intros k x Hk. assert (k < length (ps ++ [p]))%nat as Hkl by (by eapply lookup_lt_Some).
  rewrite length_app in Hkl. cbn [length] in Hkl.
  destruct (decide (k = length ps)) as [->|Hne].
  - rewrite lookup_app_r, Nat.sub_diag in Hk by lia. injection Hk as <-.
    rewrite <- Ht. apply list_lookup_insert_eq. lia.
  - rewrite lookup_app_l in Hk by lia. rewrite list_lookup_insert_ne; [by apply Hat|].
    intros E. apply Hne. rewrite Ht in E. apply Z2Nat.inj in E; [|apply Z.mod_pos_bound; lia..].
    apply ring_slot_inj in E; lia.
Qed.
Lemma queue_take q p ps : queue_holds q (p :: ps) ->
  irqs q !! Z.to_nat (head q) = Some (Some p) /\
  queue_holds (IrqQueue (irqs q) (IRQ_QUEUE_NEXT (head q)) (tail q)) ps.
Proof.
  intros (Hi & Hh & Hl & Ht & Hat). cbn [length] in *. split.
  { specialize (Hat O p eq_refl). by rewrite Z.add_0_r, Z.mod_small in Hat by lia. }
  unfold queue_holds. cbn [irqs head tail]. rewrite next_mod by lia.
  split; [done|]. split; [apply Z.mod_pos_bound; lia|]. split; [lia|]. split.
  { rewrite Ht, Zplus_mod_idemp_l. f_equal. lia. }
  intros k x Hk. rewrite Zplus_mod_idemp_l. replace (head q + 1 + Z.of_nat k) with (head q + Z.of_nat (S k)) by lia.
  by apply Hat.
Qed.

(** ** Runs of the operations *)

(** the states in which the operations on a guest can be used *)
Class Alive (W : Type) := alive : W -> Prop.

Section Runs.
Context {W : Type} `{!VmOps W, !Alive W}.
Abbreviation V := (M (W * vmm_t)).

(** from a controller [g] the computation returns [a] and leaves [g'], in any state of the
    guest in which it can be used, and it still can *)
Definition acts {A} (op : V A) (g : vgic_t) (a : A) (g' : vgic_t) : Prop :=
  forall w m, alive w -> vgic m = g -> exists w', op (w, m) = (Ok a, (w', set_vgic g' m)) /\ alive w'.
(** an operation on a guest that returns [a] and leaves it usable *)
Definition vm_acts {A} (op : M W A) (a : A) : Prop :=
  forall w, alive w -> exists w', op w = (Ok a, w') /\ alive w'.

Lemma set_vgic_same m g : vgic m = g -> set_vgic g m = m.
Proof. intros <-. by destruct m. Qed.

Lemma acts_ret {A} (a : A) g : acts (mret a) g a g.
Proof. intros w m Hw Hm. exists w. by rewrite (set_vgic_same m g Hm). Qed.
Lemma acts_bind {A B} (op : V A) (k : A -> V B) g a g1 b g2 :
  acts op g a g1 -> acts (k a) g1 b g2 -> acts (op ≫= k) g b g2.
Proof.
  intros H1 H2 w m Hw Hm. destruct (H1 w m Hw Hm) as (w1 & E1 & Hw1).
  destruct (H2 w1 (set_vgic g1 m) Hw1 eq_refl) as (w2 & E2 & Hw2). exists w2. by rewrite (bind_ok _ _ _ _ _ E1), E2.
Qed.
Lemma acts_gets {A} (f : vmm_t -> A) g a : (forall m, vgic m = g -> f m = a) -> acts (vmm_gets f) g a g.
Proof.
  intros H w m Hw Hm. exists w. rewrite (set_vgic_same m g Hm). unfold vmm_gets, gets. cbn [snd]. by rewrite (H m Hm).
Qed.
Lemma acts_modify f g : acts (vgic_modify f) g tt (f g).
Proof. intros w m Hw Hm. exists w. unfold vgic_modify, vmm_modify, modify. cbn [fst snd]. by rewrite Hm. Qed.
Lemma acts_assert b g : b = true -> acts (assert_ b) g tt g.
Proof. intros ->. apply acts_ret. Qed.
Lemma acts_deref {A} (o : option A) a g : o = Some a -> acts (deref o) g a g.
Proof. intros ->. apply acts_ret. Qed.
Lemma acts_on_vm {A} (op : M W A) a g : vm_acts op a -> acts (on_vm op) g a g.
Proof.
  intros H w m Hw Hm. destruct (H w Hw) as (w' & E & Hw'). exists w'. unfold on_vm. cbn [fst snd].
  by rewrite E, (set_vgic_same m g Hm).
Qed.

Create HintDb acts discriminated.
Hint Resolve acts_ret acts_assert acts_deref : acts.

(** *** Words and bits *)
Lemma dist_load_acts f i g d first n : registers g = Some d -> Dist.place f = (first, n) -> 0 <= i < n ->
  acts (dist_load f i) g (d (first + i)) g.
Proof.
  intros Hd Hf Hi. unfold dist_load, vgic_get_dist.
  eapply acts_bind. { eapply acts_bind; [by apply acts_gets; intros m ->|]. by apply acts_deref. }
  eapply acts_bind; [|apply acts_ret]. unfold dist_word. rewrite Hf.
  rewrite (proj2 (Z.leb_le _ _)), (proj2 (Z.ltb_lt _ _)) by lia. apply acts_ret.
Qed.
Lemma dist_store_acts f i v g d first n : registers g = Some d -> Dist.place f = (first, n) -> 0 <= i < n ->
  acts (dist_store f i v) g tt (set_registers (Some (upd d (first + i) v)) g).
Proof.
  intros Hd Hf Hi. unfold dist_store, vgic_get_dist.
  eapply acts_bind. { eapply acts_bind; [by apply acts_gets; intros m ->|]. by apply acts_deref. }
  eapply acts_bind; [|apply acts_modify]. unfold dist_word. rewrite Hf.
  rewrite (proj2 (Z.leb_le _ _)), (proj2 (Z.ltb_lt _ _)) by lia. apply acts_ret.
Qed.
Lemma dist_update_acts f i h g d first n : registers g = Some d -> Dist.place f = (first, n) -> 0 <= i < n ->
  acts (dist_update f i h) g tt (set_registers (Some (upd d (first + i) (h (d (first + i))))) g).
Proof.
  intros Hd Hf Hi. unfold dist_update. eapply acts_bind; [by eapply dist_load_acts|by eapply dist_store_acts].
Qed.

Lemma irq_idx_range irq : irq_ok irq -> 32 <= irq -> 0 <= IRQ_IDX irq < 31.
Proof.
  unfold irq_ok, IRQ_IDX. intros. split; [apply Z.div_pos; lia|apply Z.div_lt_upper_bound; lia].
Qed.

(** a flag is set in the words of both of its registers *)
Lemma set_flags_acts f0 f c0 c irq b g d a1 a2 c1 c2 :
  Dist.place f0 = (a1, 1) -> Dist.place f = (a2, 31) -> Dist.place c0 = (c1, 1) -> Dist.place c = (c2, 31) ->
  registers g = Some d -> irq_ok irq ->
  acts (if irq <? NUM_VCPU_LOCAL_VIRQS
        then dist_update f0 0 (set_bit_of b irq) ;; dist_update c0 0 (set_bit_of b irq)
        else dist_update f (IRQ_IDX irq) (set_bit_of b irq) ;; dist_update c (IRQ_IDX irq) (set_bit_of b irq))
    g tt (set_registers (Some (set_flag c1 c2 irq b (set_flag a1 a2 irq b d))) g).
Proof.
  intros Hf0 Hf Hc0 Hc Hd Hirq. change NUM_VCPU_LOCAL_VIRQS with 32. unfold set_flag, flag_word.
  destruct (Z.ltb_spec irq 32).
  - pose proof (dist_update_acts f0 0 (set_bit_of b irq) g d _ _ Hd Hf0 ltac:(lia)) as H1.
    rewrite Z.add_0_r in H1. eapply acts_bind; [exact H1|]. rewrite <- (Z.add_0_r c1).
    apply (dist_update_acts _ _ _ (set_registers (Some _) g) _ _ _ eq_refl Hc0). lia.
  - pose proof (irq_idx_range irq Hirq ltac:(lia)).
    eapply acts_bind; [eapply dist_update_acts; [done..|lia]|].
    by apply (dist_update_acts _ _ _ (set_registers (Some _) g) _ _ _ eq_refl Hc).
Qed.
Lemma is_flag_acts f0 f irq g d a1 a2 :
  Dist.place f0 = (a1, 1) -> Dist.place f = (a2, 31) -> registers g = Some d -> irq_ok irq ->
  acts (if irq <? NUM_VCPU_LOCAL_VIRQS
        then v ← dist_load f0 0; mret (has_bit_of irq v)
        else v ← dist_load f (IRQ_IDX irq); mret (has_bit_of irq v)) g (flag a1 a2 irq d) g.
Proof.
  intros Hf0 Hf Hd Hirq. change NUM_VCPU_LOCAL_VIRQS with 32. unfold flag, flag_word. destruct (Z.ltb_spec irq 32).
  - eapply acts_bind; [eapply dist_load_acts; [done..|lia]|]. rewrite has_bit_testbit, Z.add_0_r. apply acts_ret.
  - pose proof (irq_idx_range irq Hirq ltac:(lia)).
    eapply acts_bind; [by eapply dist_load_acts|]. rewrite has_bit_testbit. apply acts_ret.
Qed.

Section Flags.
Context (irq : Z) (g : vgic_t) (d : Z -> Z) (Hd : registers g = Some d) (Hirq : irq_ok irq).
Lemma set_pending_acts b : acts (set_pending irq b 0) g tt (set_registers (Some (set_pending_bits irq b d)) g).
Proof. by apply set_flags_acts. Qed.
Lemma set_enable_acts b : acts (set_enable irq b 0) g tt (set_registers (Some (set_enabled_bits irq b d)) g).
Proof. by apply set_flags_acts. Qed.
Lemma is_pending_acts : acts (is_pending irq 0) g (pending_bit irq d) g.
Proof. by apply is_flag_acts. Qed.
Lemma is_enabled_acts : acts (is_enabled irq 0) g (enabled_bit irq d) g.
Proof. by apply is_flag_acts. Qed.
Lemma dist_is_enabled_acts : acts vgic_dist_is_enabled g (d 0 =? GIC_ENABLED) g.
Proof. eapply acts_bind; [by eapply dist_load_acts|]. apply acts_ret. Qed.
End Flags.

(** *** Handles, the queue and the list registers *)
Section Cpu.
Context (g : vgic_t) (c : vgic_vcpu_t) (Hc : vgic_vcpu g = [c]).

Lemma get_vcpu_acts : acts (get_vgic_vcpu 0) g c g.
Proof.
  unfold get_vgic_vcpu. eapply acts_bind; [by apply acts_assert|].
  eapply acts_bind; [apply acts_gets; by intros m ->|]. apply acts_ret.
Qed.
Lemma put_vcpu_acts c' : acts (put_vgic_vcpu 0 c') g tt (set_vgic_vcpu [c'] g).
Proof.
  unfold put_vgic_vcpu. pose proof (acts_modify (fun g => set_vgic_vcpu (<[Z.to_nat 0 := c']> (vgic_vcpu g)) g) g) as H.
  cbv beta in H. by rewrite Hc in H.
Qed.
Lemma handle_at_acts p h : handle_of g p = Some h -> acts (handle_at p) g h g.
Proof.
  intros Hp. unfold handle_at. eapply acts_bind; [by apply acts_gets|]. rewrite Hp. apply acts_ret.
Qed.
Lemma find_irq_data_acts irq : 0 <= irq -> length (local_virqs c) = 32%nat ->
  acts (virq_find_irq_data 0 irq) g (find_handle g irq) g.
Proof.
  intros Hirq Hl. unfold virq_find_irq_data, find_handle. destruct (Z.ltb_spec irq NUM_VCPU_LOCAL_VIRQS) as [Hlt|].
  - eapply acts_bind; [|apply acts_ret]. unfold virq_get_sgi_ppi. eapply acts_bind; [apply get_vcpu_acts|].
    eapply acts_bind; [|apply acts_ret]. apply acts_assert. rewrite Hl.
    change NUM_VCPU_LOCAL_VIRQS with 32 in Hlt. apply andb_true_iff. split; [apply Z.leb_le|apply Z.ltb_lt]; lia.
  - unfold virq_find_spi_irq_data. eapply acts_bind; [by apply acts_gets|]. apply acts_ret.
Qed.

Definition with_queue (q : irq_queue) : vgic_t := set_vgic_vcpu [set_irq_queue q c] g.

Lemma enqueue_acts ps p : queue_holds (vcpu_irq_queue c) ps -> (length ps < 63)%nat ->
  exists q, acts (vgic_irq_enqueue 0 p) g true (with_queue q) /\ queue_holds q (ps ++ [p]).
Proof.
  intros Hq Hl. destruct (queue_put _ _ p Hq Hl) as [Hput Hslot]. eexists. split; [|exact Hput].
  unfold vgic_irq_enqueue. eapply acts_bind; [apply get_vcpu_acts|]. cbv zeta.
  rewrite (queue_full _ _ Hq), bool_decide_false by lia. rewrite (proj2 (Nat.ltb_lt _ _) Hslot).
  eapply acts_bind; [apply put_vcpu_acts|]. apply acts_ret.
Qed.
Lemma dequeue_none_acts : queue_holds (vcpu_irq_queue c) [] -> acts (vgic_irq_dequeue 0) g None g.
Proof.
  intros Hq. unfold vgic_irq_dequeue. eapply acts_bind; [apply get_vcpu_acts|]. cbv zeta.
  rewrite (queue_empty _ _ Hq), bool_decide_true by done. apply acts_ret.
Qed.
Lemma dequeue_acts p ps : queue_holds (vcpu_irq_queue c) (p :: ps) ->
  exists q, acts (vgic_irq_dequeue 0) g (Some p) (with_queue q) /\ queue_holds q ps.
Proof.
  intros Hq. destruct (queue_take _ _ _ Hq) as [Hp Htake]. eexists. split; [|exact Htake].
  unfold vgic_irq_dequeue. eapply acts_bind; [apply get_vcpu_acts|]. cbv zeta.
  rewrite (queue_empty _ _ Hq), bool_decide_false by done. rewrite Hp.
  eapply acts_bind; [apply put_vcpu_acts|]. apply acts_ret.
Qed.
Lemma find_empty_acts : acts (vgic_find_empty_list_reg 0) g (empty_list_reg (lr_shadow c)) g.
Proof. unfold vgic_find_empty_list_reg. eapply acts_bind; [apply get_vcpu_acts|]. apply acts_ret. Qed.
End Cpu.

(** *** The guest takes what is injected, and what is acknowledged returns *)
Record guest_runs (vm : vm_ptr) : Prop := GuestRuns {
  gr_inject : forall irq idx, vm_acts (vm_inject_irq vm irq 0 GIC_GROUP idx) 0;
  gr_vppi : forall irq, vm_acts (_ ← vm_ack_vppi vm irq; mret tt) tt;
  gr_serial : forall irq data, vm_acts (vm_serial_ack vm irq data) tt
}.
Context (vm : vm_ptr) (HG : guest_runs vm).

(** an operation whose result is dropped *)
Lemma on_vm_dropped {B} (op : M W B) s : (_ ← on_vm op; mret tt) s = on_vm (_ ← op; mret tt) s.
Proof. unfold on_vm, mbind, M_bind. cbn [fst snd]. by destruct (op s.1) as [[]]. Qed.

Lemma ack_acts h g : is_Some (ack_fn h) -> acts (virq_ack vm h) g tt g.
Proof.
  intros [fn E]. unfold virq_ack. rewrite E. destruct fn.
  - intros w m. unfold vppi_event_ack. rewrite on_vm_dropped. revert w m. apply acts_on_vm, (gr_vppi _ HG).
  - apply acts_ret.
  - apply acts_on_vm, (gr_serial _ HG).
Qed.
Lemma load_list_reg_acts idx p h g c : vgic_vcpu g = [c] -> (idx < length (lr_shadow c))%nat ->
  handle_of g p = Some h ->
  acts (vgic_vcpu_load_list_reg vm 0 idx GIC_GROUP p) g true
    (set_vgic_vcpu [set_lr_shadow (<[idx := h]> (lr_shadow c)) c] g).
Proof.
  intros Hc Hidx Hp. unfold vgic_vcpu_load_list_reg. eapply acts_bind; [by apply get_vcpu_acts|].
  eapply acts_bind; [by apply acts_assert, Nat.ltb_lt|]. eapply acts_bind; [by apply handle_at_acts|].
  eapply acts_bind; [apply acts_on_vm, (gr_inject _ HG)|]. cbn [Z.eqb negb].
  eapply acts_bind; [by apply handle_at_acts|]. eapply acts_bind; [by apply get_vcpu_acts|].
  eapply acts_bind; [by eapply put_vcpu_acts|]. apply acts_ret.
Qed.

(** *** Keeping the relation *)

Lemma handle_of_cpu g c c' p : vgic_vcpu g = [c] -> local_virqs c' = local_virqs c ->
  handle_of (set_vgic_vcpu [c'] g) p = handle_of g p.
Proof. intros Hc Hl. destruct p as [[|n] i|i]; cbn; rewrite ?Hc; cbn; by rewrite ?Hl. Qed.

(** the sets of interrupts are changed *)
Lemma refines_dist g st d c ps d' pend en : refines_at g st d c ps -> d' 0 = d 0 ->
  (forall irq, irq_ok irq -> pending_bit irq d' = bool_decide (irq ∈ pend)) ->
  (forall irq, irq_ok irq -> enabled_bit irq d' = bool_decide (irq ∈ en)) ->
  refines_at (set_registers (Some d') g) (s_set_enabled en (s_set_pending pend st)) d' c ps.
Proof.
  intros [] H0 Hp He. constructor; try done. cbn [s_on s_set_enabled s_set_pending]. by rewrite H0.
Qed.
(** the list registers and the queue are changed *)
Lemma refines_lists g st d c ps c' ps' lrs q : refines_at g st d c ps -> local_virqs c' = local_virqs c ->
  length (lr_shadow c') = NUM_LIST_REGS -> Forall2 lr_holds (lr_shadow c') lrs ->
  queue_holds (vcpu_irq_queue c') ps' -> Forall2 (points_to g) ps' q ->
  refines_at (set_vgic_vcpu [c'] g) (s_set_lists lrs q st) d c' ps'.
Proof.
  intros [Hr Hon Hp He Hc [Hl1 Hl2 Hl3] ? ? ? ? Hreg] Hl Hlen Hlrs Hq Hps.
  assert (forall p irq, points_to (set_vgic_vcpu [c'] g) p irq <-> points_to g p irq) as Hpt
    by (intros p irq; unfold points_to; by rewrite (handle_of_cpu g c c' p Hc Hl)).
  constructor; try done.
  - split; [by rewrite Hl|by rewrite Hl|done].
  - eapply Forall2_impl; [exact Hps|]. intros p irq. apply Hpt.
  - intros irq Hirq. rewrite (Hreg irq Hirq). unfold registered.
    split; intros (p & Hf & H); exists p; (split; [exact Hf|]); by apply Hpt.
Qed.

Lemma empty_lr_same hs lrs : Forall2 lr_holds hs lrs -> empty_list_reg hs = s_empty_lr lrs.
Proof.
  unfold empty_list_reg, s_empty_lr. induction 1 as [|h o hs lrs Ho _ IH]; [done|]. cbn [list_find].
  destruct o as [irq|]; unfold lr_holds in Ho.
  - destruct Ho as (Ev & Hirq & _). rewrite (decide_False (P := virq h = VIRQ_INVALID))
      by (unfold irq_ok, VIRQ_INVALID in *; lia). rewrite (decide_False (P := Some irq = None)) by done.
    revert IH. destruct (list_find (fun h => virq h = VIRQ_INVALID) hs) as [[]|],
      (list_find (fun o : option Z => o = None) lrs) as [[]|]; cbn; congruence.
  - by rewrite decide_True, decide_True by done.
Qed.
Lemma s_empty_lr_Some lrs i : s_empty_lr lrs = Some i -> lrs !! i = Some None.
Proof.
  unfold s_empty_lr. intros ([j o] & Hf & ->)%fmap_Some. by apply list_find_Some in Hf as (? & -> & _).
Qed.
Lemma s_empty_lr_None lrs : s_empty_lr lrs = None -> Forall is_Some lrs.
Proof.
  unfold s_empty_lr. intros Hn%fmap_None. apply list_find_None in Hn.
  eapply Forall_impl; [exact Hn|]. intros [x|] Hx; [done|]. by destruct Hx.
Qed.

(** a pointer to put in, and the list registers filled: the part of the operations behind
    their checks *)
Lemma deliver_acts g st d c ps p irq : refines_at g st d c ps -> points_to g p irq ->
  (length (s_queue st) < 63)%nat ->
  exists g', acts (enqueue_and_load vm 0 p) g true g' /\ vgic_refines g' (s_deliver irq st).
Proof.
  intros HR Hp Hlen. pose proof HR as []. rewrite <- (Forall2_length _ _ _ ra_points0) in Hlen.
  destruct (enqueue_acts g c ra_cpu0 ps p ra_queue0 Hlen) as (q1 & Hen & Hq1).
  assert (refines_at (with_queue g c q1) (s_set_lists (s_lrs st) (s_queue st ++ [irq]) st) d
            (set_irq_queue q1 c) (ps ++ [p])) as HR1.
  { apply (refines_lists g st d c ps); try done. apply Forall2_app; [done|]. by repeat constructor. }
  unfold s_deliver. rewrite <- (empty_lr_same (lr_shadow c)) by done.
  destruct (empty_list_reg (lr_shadow c)) as [i|] eqn:Ei.
  2:{ eexists. split; [|by eexists _, _, _]. eapply acts_bind; [exact Hen|]. eapply acts_bind; [by apply acts_assert|].
      eapply acts_bind; [by eapply find_empty_acts|]. cbn [lr_shadow set_irq_queue]. rewrite Ei. apply acts_ret. }
  assert (i < NUM_LIST_REGS)%nat as Hi.
  { rewrite (empty_lr_same _ _ ra_lrs0) in Ei. apply s_empty_lr_Some in Ei. apply lookup_lt_Some in Ei.
    by rewrite <- (Forall2_length _ _ _ ra_lrs0), ra_lr_length0 in Ei. }
  pose proof (ra_points _ _ _ _ _ HR1) as Hpts. cbn [s_queue s_set_lists] in Hpts.
  destruct (s_queue st ++ [irq]) as [|x qs] eqn:Eq; [by destruct (s_queue st)|].
  destruct (ps ++ [p]) as [|p1 ps1] eqn:Ep; [by inversion Hpts|].
  apply Forall2_cons in Hpts as [(h & Hh & Hx) Hpts].
  destruct (dequeue_acts (with_queue g c q1) (set_irq_queue q1 c) eq_refl p1 ps1 Hq1) as (q2 & Hde & Hq2).
      cbn [set_irq_queue vcpu_irq_queue] in Hde.
  set (c2 := set_irq_queue q2 (set_irq_queue q1 c)) in *.
  assert (handle_of (with_queue (with_queue g c q1) (set_irq_queue q1 c) q2) p1 = Some h) as Hh2.
  { unfold with_queue at 1. by rewrite (handle_of_cpu _ (set_irq_queue q1 c)). }
  eexists. split.
  - eapply acts_bind; [exact Hen|]. eapply acts_bind; [by apply acts_assert|].
    eapply acts_bind; [by eapply find_empty_acts|]. cbn [lr_shadow set_irq_queue]. rewrite Ei.
    eapply acts_bind; [exact Hde|]. eapply acts_bind; [by apply acts_deref|].
    eapply acts_bind; [by eapply handle_at_acts|]. eapply acts_bind.
    { apply acts_assert. destruct Hx as (<- & Hok & _). apply negb_true_iff, Z.eqb_neq.
        unfold irq_ok, VIRQ_INVALID in *. lia. }
    eapply (load_list_reg_acts i p1 h _ c2); [done| |done]. cbn. lia.
  - eexists d, _, ps1. change (s_set_lists (<[i:=Some x]> (s_lrs st)) qs st) with
      (s_set_lists (<[i:=Some x]> (s_lrs st)) qs (s_set_lists (s_lrs st) (x :: qs) st)).
    apply (refines_lists _ _ _ _ _ (set_lr_shadow (<[i := h]> (lr_shadow c2)) c2) ps1 _ _ HR1); try done.
    + cbn. by rewrite length_insert.
    + cbn. by apply Forall2_insert.
Qed.

(** *** Each event *)
Lemma handles_valid irq h : handles irq h -> is_invalid h = false.
Proof. intros (<- & Hok & _). apply Z.eqb_neq. unfold irq_ok, VIRQ_INVALID in *. lia. Qed.

Lemma found_handle g st d c ps irq : refines_at g st d c ps -> irq_ok irq ->
  irq < NUM_VCPU_LOCAL_VIRQS \/ irq ∈ s_registered st ->
  exists p h, find_handle g irq = Some p /\ handle_of g p = Some h /\
    is_invalid h = negb (bool_decide (irq ∈ s_registered st)) /\ (irq ∈ s_registered st -> handles irq h).
Proof.
  intros [] Hok Hirq. destruct (decide (irq ∈ s_registered st)) as [Hin|Hout].
  - destruct (proj1 (ra_registered0 irq Hok) Hin) as (p & Hf & h & Hh & Hx).
    exists p, h. rewrite bool_decide_true by done. split; [done|]. split; [done|].
    split; [by eapply handles_valid|done].
  - destruct Hirq as [Hlt|]; [|done]. destruct ra_handles0 as [Hl Hlocal _].
    change NUM_VCPU_LOCAL_VIRQS with 32 in Hlt. unfold irq_ok in Hok.
    destruct (lookup_lt_is_Some_2 (local_virqs c) (Z.to_nat irq)) as [h Hh]; [lia|].
    assert (find_handle g irq = Some (LocalVirq 0 (Z.to_nat irq))) as Hf.
    { unfold find_handle. change NUM_VCPU_LOCAL_VIRQS with 32. by rewrite (proj2 (Z.ltb_lt irq _) Hlt). }
    assert (handle_of g (LocalVirq 0 (Z.to_nat irq)) = Some h) as Hp by (cbn; by rewrite ra_cpu0).
    exists (LocalVirq 0 (Z.to_nat irq)), h. rewrite bool_decide_false by done.
    split; [done|]. split; [done|]. split; [|done].
    destruct (Hlocal _ _ Hh) as [E|Hx]; [by apply Z.eqb_eq|]. destruct Hout. apply ra_registered0; [done|].
    exists (LocalVirq 0 (Z.to_nat irq)). split; [done|]. exists h. split; [done|].
    by rewrite Z2Nat.id in Hx by lia.
Qed.

Lemma find_handle_some g st d c ps irq p : refines_at g st d c ps -> irq_ok irq -> find_handle g irq = Some p ->
  exists h, handle_of g p = Some h /\ (is_invalid h = true \/ handles irq h).
Proof.
  intros [] Hok. destruct ra_handles0 as [Hl Hlocal Hspi]. unfold find_handle.
  change NUM_VCPU_LOCAL_VIRQS with 32. unfold irq_ok in Hok. destruct (Z.ltb_spec irq 32).
  - intros [= <-]. destruct (lookup_lt_is_Some_2 (local_virqs c) (Z.to_nat irq)) as [h Hh]; [lia|].
    exists h. split; [by cbn; rewrite ra_cpu0|]. destruct (Hlocal _ _ Hh) as [E|Hx]; [left; by apply Z.eqb_eq|right].
    by rewrite Z2Nat.id in Hx by lia.
  - intros (i0 & ([i h] & Hi & ->)%fmap_Some & ->)%fmap_Some. apply list_find_Some in Hi as (Hh & [Hv Hirq] & _).
    exists h. split; [done|]. right. destruct (Hspi _ _ Hh) as [|[Hx _]]; [done|]. by rewrite Hirq in Hx.
Qed.

Lemma refused_acts g st d c ps irq h : refines_at g st d c ps -> irq_ok irq ->
  is_invalid h = negb (bool_decide (irq ∈ s_registered st)) ->
  acts (set_pending_refused h 0 irq) g (negb (s_accepts irq st)) g.
Proof.
  intros [] Hok Hh. unfold set_pending_refused, s_accepts. rewrite Hh, ra_on0.
  eapply acts_bind; [by apply dist_is_enabled_acts|].
  pose proof (is_enabled_acts irq g d ra_registers0 Hok) as Hen. rewrite (ra_enabled0 irq Hok) in Hen.
  destruct (bool_decide (irq ∈ s_registered st)); [|eapply acts_bind; [exact Hen|apply acts_ret]].
  destruct (d 0 =? GIC_ENABLED); (eapply acts_bind; [exact Hen|apply acts_ret]).
Qed.

Lemma s_set_enabled_same st : s_set_enabled (s_enabled st) st = st.
Proof. by destruct st. Qed.
(** a set in which an interrupt was set or cleared *)
Lemma in_changed (X : gset Z) irq (b : bool) x :
  bool_decide (x ∈ (if b then {[irq]} ∪ X else X ∖ {[irq]})) = if decide (x = irq) then b else bool_decide (x ∈ X).
Proof.
  destruct b, (decide (x = irq)) as [->|Hne];
    [apply bool_decide_eq_true|apply bool_decide_ext|apply bool_decide_eq_false|apply bool_decide_ext]; set_solver.
Qed.
Lemma set_pending_refines g st d c ps irq b : refines_at g st d c ps -> irq_ok irq ->
  refines_at (set_registers (Some (set_pending_bits irq b d)) g)
    (s_set_pending (if b then {[irq]} ∪ s_pending st else s_pending st ∖ {[irq]}) st) (set_pending_bits irq b d) c ps.
Proof.
  intros HR Hok. pose proof HR as [].
  rewrite <- (s_set_enabled_same (s_set_pending _ st)). cbn [s_enabled s_set_pending].
  apply (refines_dist g st d c ps); [done|by apply ctlr_set_pending| |].
  - intros x Hx. rewrite pending_set_pending, ra_pending0 by done.
    by rewrite in_changed.
  - intros x Hx. by rewrite enabled_set_pending, ra_enabled0 by done.
Qed.
Lemma set_enable_refines g st d c ps irq b : refines_at g st d c ps -> irq_ok irq ->
  refines_at (set_registers (Some (set_enabled_bits irq b d)) g)
    (s_set_enabled (if b then {[irq]} ∪ s_enabled st else s_enabled st ∖ {[irq]}) st) (set_enabled_bits irq b d) c ps.
Proof.
  intros HR Hok. pose proof HR as [].
  replace st with (s_set_pending (s_pending st) st) at 2 by (by destruct st).
  apply (refines_dist g st d c ps); [done|by apply ctlr_set_enabled| |].
  - intros x Hx. by rewrite pending_set_enabled, ra_pending0 by done.
  - intros x Hx. rewrite enabled_set_enabled, ra_enabled0 by done.
    by rewrite in_changed.
Qed.

Ltac start := unfold vgic_dist_set_pending_irq; (eapply acts_bind; [eassumption|]);
  (eapply acts_bind; [by apply acts_deref|]); (eapply acts_bind; [by apply handle_at_acts|]);
  (eapply acts_bind; [eassumption|]).
Lemma arrives_acts g st irq : vgic_refines g st -> can_happen st (Arrives irq) ->
  exists g', acts (vgic_dist_set_pending_irq vm 0 irq) g (s_accepts irq st) g' /\ vgic_refines g' (s_arrives irq st).
Proof.
  intros (d & c & ps & HR) (Hok & Hirq & Hroom). pose proof HR as [].
  destruct (found_handle _ _ _ _ _ irq HR Hok Hirq) as (p & h & Hf & Hp & Hinv & Hhas).
  unfold s_arrives.
  pose proof (find_irq_data_acts g c ra_cpu0 irq (proj1 Hok) (wf_local_length _ _ ra_handles0)) as Hfind.
  rewrite Hf in Hfind. pose proof (refused_acts _ _ _ _ _ irq h HR Hok Hinv) as Href.
  destruct (s_accepts irq st) eqn:Eacc; cbn [negb andb] in *.
  2:{ exists g. split; [|by exists d, c, ps]. start. apply acts_ret. }
  assert (irq ∈ s_registered st) as Hin.
  { unfold s_accepts in Eacc. apply andb_true_iff in Eacc as [[Hin _]%andb_true_iff _].
      by apply bool_decide_eq_true in Hin. }
  destruct (Hhas Hin) as (Ev & Hx). pose proof (is_pending_acts irq g d ra_registers0 Hok) as Hpend.
  rewrite (ra_pending0 irq Hok) in Hpend. rewrite <- Ev in Hpend at 1.
  destruct (bool_decide (irq ∈ s_pending st)) eqn:Ep; cbn [negb].
  { exists g. split; [|by exists d, c, ps]. start. eapply acts_bind; [exact Hpend|]. apply acts_ret. }
  apply bool_decide_eq_false in Ep. pose proof (set_pending_refines _ _ _ _ _ irq true HR Hok) as HR1.
  destruct (deliver_acts _ _ _ _ _ p irq HR1) as (g' & Hact & Hg').
  { exists h. split; [by destruct p|]. by split. }
  { by apply Hroom. }
  exists g'. split; [|done]. start. eapply acts_bind; [exact Hpend|].
  rewrite Ev. eapply acts_bind; [by apply set_pending_acts|]. exact Hact.
Qed.

Lemma maintained_acts g st idx irq : vgic_refines g st -> s_lrs st !! idx = Some (Some irq) ->
  exists g', acts (fault_handle_vgic_maintenance vm 0 (Z.of_nat idx)) g true g' /\ vgic_refines g' (s_maintained idx st).
Proof.
  intros (d & c & ps & HR) Hidx. pose proof HR as [].
  destruct (Forall2_lookup_r _ _ _ _ _ ra_lrs0 Hidx) as (h & Hlr & Hh). pose proof (lookup_lt_Some _ _ _ Hlr) as Hlt.
  rewrite ra_lr_length0 in Hlt. unfold NUM_LIST_REGS in Hlt. pose proof (handles_valid _ _ Hh) as Hvalid.
      destruct Hh as (Ev & Hok & Hack).
  set (c1 := set_lr_shadow (<[idx := no_handle]> (lr_shadow c)) c).
  assert (refines_at (set_vgic_vcpu [c1] g) (s_set_lists (<[idx := None]> (s_lrs st)) (s_queue st) st) d c1 ps) as HR1.
  { apply (refines_lists g st d c ps); try done; [by cbn; rewrite length_insert|]. by apply Forall2_insert. }
  apply (set_pending_refines _ _ _ _ _ irq false) in HR1 as HR2; [|done].
  set (g2 := set_registers (Some (set_pending_bits irq false d)) (set_vgic_vcpu [c1] g)) in *.
  assert (forall b g', acts (virq ← vgic_irq_dequeue 0;
            match virq with
            | Some p => vgic_vcpu_load_list_reg vm 0 idx GIC_GROUP p
            | None => mret true
            end) g2 b g' -> acts (fault_handle_vgic_maintenance vm 0 (Z.of_nat idx)) g b g') as Hstart.
  { intros b g' Hrest. unfold fault_handle_vgic_maintenance. rewrite i32_small by lia. rewrite Nat2Z.id.
    eapply acts_bind; [apply acts_assert, Z.leb_le; lia|]. eapply acts_bind; [by eapply get_vcpu_acts|].
    eapply acts_bind; [apply acts_assert, Z.ltb_lt; rewrite ra_lr_length0; unfold NUM_LIST_REGS; lia|]. rewrite Hlr.
    eapply acts_bind; [by apply acts_assert; rewrite Hvalid|].
    eapply acts_bind; [by eapply put_vcpu_acts|]. rewrite Ev. eapply acts_bind; [by apply set_pending_acts|].
    eapply acts_bind; [by apply ack_acts|]. exact Hrest. }
  unfold s_maintained. rewrite Hidx. cbn [s_queue s_lrs s_set_pending]. pose proof (ra_queue _ _ _ _ _ HR2) as Hq2.
  pose proof (ra_points _ _ _ _ _ HR2) as Hp2. cbn [s_queue s_set_lists s_set_pending] in Hp2.
  destruct (s_queue st) as [|x q].
  - apply Forall2_nil_inv_r in Hp2. subst ps. exists g2. split; [|eexists _, _, _; exact HR2].
    apply Hstart. eapply acts_bind; [by apply (dequeue_none_acts g2 c1)|]. apply acts_ret.
  - destruct ps as [|p ps]; [by inversion Hp2|]. apply Forall2_cons in Hp2 as [(h' & Hh' & Hx) Hp2].
    destruct (dequeue_acts g2 c1 eq_refl p ps Hq2) as (q2 & Hde & Hq2').
    eexists. split.
    + apply Hstart. eapply acts_bind; [exact Hde|].
      eapply (load_list_reg_acts idx p h' _ (set_irq_queue q2 c1)); [done|by cbn; rewrite length_insert, ra_lr_length0|].
      unfold with_queue. by rewrite (handle_of_cpu g2 c1).
    + eexists _, _, ps. change (set_vgic_vcpu ?l (with_queue g2 c1 q2)) with (set_vgic_vcpu l g2).
      apply (refines_lists _ _ _ _ _ _ ps (<[idx := Some x]> (s_lrs st)) q HR2); try done.
      * cbn. by rewrite !length_insert.
      * cbn. rewrite list_insert_insert_eq. by apply Forall2_insert.
Qed.

Lemma enable_acts g st irq : vgic_refines g st -> irq_ok irq ->
  exists g', acts (vgic_dist_enable_irq vm 0 irq) g tt g' /\ vgic_refines g' (s_enable irq st).
Proof.
  intros (d & c & ps & HR) Hok. apply (set_enable_refines _ _ _ _ _ irq true) in HR as HR1; [|done].
  pose proof HR as []. pose proof HR1 as []. eexists. split; [|by eexists _, _, ps].
  unfold vgic_dist_enable_irq. eapply acts_bind; [by apply set_enable_acts|].
  eapply acts_bind; [eapply find_irq_data_acts; [done|by destruct Hok|by destruct ra_handles0]|].
  destruct (find_handle _ irq) as [p|] eqn:Ef; [|apply acts_ret].
  destruct (find_handle_some _ _ _ _ _ irq p HR1 Hok Ef) as (h & Hh & Hx).
  eapply acts_bind; [by apply handle_at_acts|]. destruct (is_invalid h); cbn [negb]; [apply acts_ret|].
  destruct Hx as [|(Ev & _ & Hack)]; [done|].
  eapply acts_bind; [rewrite Ev; by apply is_pending_acts|]. destruct (pending_bit _ _); cbn [negb when]; [apply acts_ret|].
  by apply ack_acts.
Qed.
Lemma disable_acts g st irq : vgic_refines g st -> irq_ok irq ->
  exists g', acts (vgic_dist_disable_irq 0 irq) g tt g' /\ vgic_refines g' (s_disable irq st).
Proof.
  intros (d & c & ps & HR) Hok. unfold vgic_dist_disable_irq, s_disable. destruct (NUM_SGI_VIRQS <=? irq).
  - apply (set_enable_refines _ _ _ _ _ irq false) in HR as HR1; [|done]. pose proof HR as [].
    eexists. split; [by apply set_enable_acts|by eexists _, _, ps].
  - exists g. split; [apply acts_ret|by exists d, c, ps].
Qed.
Lemma clear_acts g st irq : vgic_refines g st -> irq_ok irq ->
  exists g', acts (vgic_dist_clr_pending_irq 0 irq) g tt g' /\ vgic_refines g' (s_clear irq st).
Proof.
  intros (d & c & ps & HR) Hok. apply (set_pending_refines _ _ _ _ _ irq false) in HR as HR1; [|done].
  pose proof HR as []. eexists. split; [by apply set_pending_acts|by eexists _, _, ps].
Qed.

Lemma switch_acts (on : bool) g st : vgic_refines g st ->
  exists g', acts (if on then vgic_dist_enable else vgic_dist_disable) g tt g' /\ vgic_refines g' (s_switch on st).
Proof.
  intros (d & c & ps & HR). pose proof HR as [].
  assert (forall v, acts (dist_store Dist.ctlr 0 v) g tt (set_registers (Some (upd d 0 v)) g)) as Hact.
  { intros v. by apply (dist_store_acts Dist.ctlr 0 v g d 0 1). }
  assert (forall v a b irq, 0 < a <= b -> irq_ok irq -> flag a b irq (upd d 0 v) = flag a b irq d) as Hflag.
  { intros v a b irq Hab Hok. unfold flag, upd. pose proof (flag_word_range a b irq Hok).
    by rewrite (proj2 (Z.eqb_neq (flag_word a b irq) 0)) by lia. }
  assert (forall v, u32 v = v -> (v =? GIC_ENABLED) = on -> vgic_refines (set_registers (Some (upd d 0 v)) g)
      (s_switch on st)) as HR'.
  { intros v Hv Hon. exists (upd d 0 v), c, ps. constructor; try done.
    - change (on = (u32 v =? GIC_ENABLED)). by rewrite Hv, Hon.
    - intros irq Hok. unfold pending_bit. rewrite Hflag by (done || lia). by apply ra_pending0.
    - intros irq Hok. unfold enabled_bit. rewrite Hflag by (done || lia). by apply ra_enabled0. }
  destruct on; eexists; (split; [apply Hact|by apply HR']).
Qed.

(** the function that handles an event *)
Definition handle_event (e : vgic_event) : V unit :=
  match e with
  | Arrives irq => _ ← vgic_inject_irq vm 0 irq; mret tt
  | Maintained idx => _ ← fault_handle_vgic_maintenance vm 0 (Z.of_nat idx); mret tt
  | Enabled irq => vgic_dist_enable_irq vm 0 irq
  | Disabled irq => vgic_dist_disable_irq 0 irq
  | Cleared irq => vgic_dist_clr_pending_irq 0 irq
  | Switched on => if on then vgic_dist_enable else vgic_dist_disable
  end.
Definition handle_events (es : list vgic_event) : V unit := for_each es handle_event.

Lemma event_acts e g st : vgic_refines g st -> can_happen st e ->
  exists g', acts (handle_event e) g tt g' /\ vgic_refines g' (s_event e st).
Proof.
  intros HR He. destruct e; cbn [handle_event s_event can_happen] in *;
      auto using enable_acts, disable_acts, clear_acts, switch_acts.
  - destruct (arrives_acts _ _ _ HR He) as (g' & Hact & HR'). exists g'. split; [|done].
    eapply acts_bind; [exact Hact|apply acts_ret].
  - destruct He as [irq Hidx]. destruct (maintained_acts _ _ _ _ HR Hidx) as (g' & Hact & HR').
    exists g'. split; [|done]. eapply acts_bind; [exact Hact|apply acts_ret].
Qed.
Lemma events_acts es g st : vgic_refines g st -> can_happen_all st es ->
  exists g', acts (handle_events es) g tt g' /\ vgic_refines g' (s_events es st).
Proof.
  revert g st. induction es as [|e es IH]; intros g st HR Hes; [exists g; split; [apply acts_ret|done]|].
  destruct Hes as [He Hes]. destruct (event_acts e g st HR He) as (g1 & Hact & HR1).
  destruct (IH g1 _ HR1 Hes) as (g2 & Hacts & HR2). exists g2. split; [|done].
  by eapply acts_bind.
Qed.
End Runs.
