(* ===== verification/VgicDelivery.v ===== *)
(** * Interrupts of a guest, from the start of the monitor

    Properties of the specification of VgicSpec: an interrupt is pending exactly when it is in
    one place, list registers are filled while interrupts wait, and interrupts are delivered
    in order.  What vmm_init_virq leaves, and the theorems on the interrupts that follow,
    also when the guest clears pending bits itself; what the guest reads and writes. *)

From stdpp Require Import base numbers list gmap.
From S2P Require Import Prelude GuestFault Vgic VgicSpec.

(** ** What the specification keeps *)










(** ** Registration *)
Definition s_register (irq : Z) (st : irq_state) : irq_state :=
  IrqState (s_lrs st) (s_queue st) (s_pending st) (s_enabled st) ({[irq]} ∪ s_registered st) (s_on st).
Definition has_free_slot (g : vgic_t) : Prop := exists i h, vspis g !! i = Some h /\ virq h = VIRQ_INVALID.

Section Register.
Context {W : Type} `{!VmOps W, !Alive W}.

(** the handles after a registration: what was valid is where it was, and the new one is
    found *)
Lemma refines_register g st d c ps irq h c' sp' p0 : refines_at g st d c ps -> irq_ok irq -> handles irq h ->
  lr_shadow c' = lr_shadow c -> vcpu_irq_queue c' = vcpu_irq_queue c -> wf_handles c' sp' ->
  (forall p, handle_of (Vgic (Some d) sp' [c']) p = if decide (p = p0) then Some h else handle_of g p) ->
  (forall x, points_to g p0 x -> False) ->
  (forall x, irq_ok x -> find_handle (Vgic (Some d) sp' [c']) x = if decide (x = irq) then Some p0 else find_handle g x) ->
  refines_at (Vgic (Some d) sp' [c']) (s_register irq st) d c' ps.
Proof.
  intros [Hr Hon Hp He Hc Hw Hl Hlrs Hq Hps Hreg] Hok Hh E1 E2 Hw' Hof Hfree Hfind.
  assert (forall p x, points_to g p x -> points_to (Vgic (Some d) sp' [c']) p x) as Hpt.
  { intros p x (h' & Hh' & Hx). exists h'. split; [|done]. rewrite Hof. case_decide; [|done].
    subst. destruct (Hfree x). by exists h'. }
  constructor; try done; [by rewrite E1..|by rewrite E2| |].
  - eapply Forall2_impl; [exact Hps|]. auto.
  - intros x Hx. cbn [s_registered s_register]. rewrite elem_of_union, elem_of_singleton, (Hreg x Hx). unfold registered.
    rewrite (Hfind x Hx). case_decide as Ex.
    + split; [|by left]. intros _. exists p0. split; [done|]. exists h. rewrite Hof, decide_True by done. by subst.
    + split.
      * intros [|(p & Hf & Hp')]; [done|]. exists p. eauto.
      * intros (p & Hf & h' & Hh' & Hx'). right. exists p. split; [done|]. exists h'. split; [|done].
        rewrite Hof in Hh'. case_decide as Ep; [|done]. injection Hh' as <-.
            by destruct Hh as (? & _), Hx' as (? & _); congruence.
Qed.

Lemma spi_slot_cons x h hs : spi_slot_of x (h :: hs) =
  if decide (virq h <> VIRQ_INVALID /\ virq h = x) then Some 0%nat else S <$> spi_slot_of x hs.
Proof.
  unfold spi_slot_of. cbn [list_find]. case_decide; [done|].
  by destruct (list_find (fun h => virq h ≠ VIRQ_INVALID /\ virq h = x) hs) as [[]|].
Qed.
Lemma spi_slot_insert hs i h0 h x : hs !! i = Some h0 -> virq h0 = VIRQ_INVALID -> virq h <> VIRQ_INVALID ->
  spi_slot_of (virq h) hs = None ->
  spi_slot_of x (<[i := h]> hs) = if decide (x = virq h) then Some i else spi_slot_of x hs.
Proof.
  revert i. induction hs as [|h1 hs IH]; intros [|i] Hi H0 Hh Hn; try done.
  - change (<[0%nat := h]> (h1 :: hs)) with (h :: hs). injection Hi as ->. rewrite !spi_slot_cons.
      rewrite (decide_False (P := virq h0 <> _ /\ _)) by (by intros []).
    repeat case_decide; try done; naive_solver.
  - change (<[S i := h]> (h1 :: hs)) with (h1 :: <[i := h]> hs).
    rewrite spi_slot_cons in Hn. case_decide as Hd; [done|]. apply fmap_None in Hn.
    rewrite !spi_slot_cons, (IH i Hi H0 Hh Hn). repeat case_decide; try done. naive_solver.
Qed.

Lemma not_registered_slot g st d c ps irq : refines_at g st d c ps -> irq_ok irq -> irq ∉ s_registered st ->
  forall p, find_handle g irq = Some p -> exists h, handle_of g p = Some h /\ virq h = VIRQ_INVALID.
Proof.
  intros HR Hok Hn p Hf. destruct (find_handle_some _ _ _ _ _ _ _ HR Hok Hf) as (h & Hh & [Hi|Hx]).
  - exists h. split; [done|]. by apply Z.eqb_eq.
  - destruct Hn. apply (ra_registered _ _ _ _ _ HR irq Hok). exists p. split; [done|]. by exists h.
Qed.
Lemma invalid_points_nowhere g p h x : handle_of g p = Some h -> virq h = VIRQ_INVALID -> ~ points_to g p x.
Proof.
  intros Hh Hv (h' & Hh' & Hx & Hok & _). rewrite Hh in Hh'. injection Hh' as <-.
  unfold irq_ok, VIRQ_INVALID in *. lia.
Qed.

Lemma register_local_acts g st irq fn data : vgic_refines g st -> irq_ok irq -> irq < 32 -> irq ∉ s_registered st ->
  exists g', acts (W := W) (vgic_register_irq 0 irq (Some fn) data) g true g' /\ vgic_refines g' (s_register irq st) /\
    vspis g' = vspis g.
Proof.
  intros (d & c & ps & HR) Hok Hlt Hn. pose proof HR as []. pose proof ra_handles as [Hl Hlocal Hspi].
  set (p0 := LocalVirq 0 (Z.to_nat irq)). set (h := VirqHandle irq (Some fn) data).
  assert (find_handle g irq = Some p0) as Hf.
  { unfold find_handle. change NUM_VCPU_LOCAL_VIRQS with 32. by rewrite (proj2 (Z.ltb_lt irq _) Hlt). }
  destruct (not_registered_slot _ _ _ _ _ _ HR Hok Hn p0 Hf) as (slot & Hslot & Hinv).
  cbn [handle_of p0] in Hslot. rewrite ra_cpu in Hslot. cbn in Hslot.
  set (c' := set_local_virqs (<[Z.to_nat irq := h]> (local_virqs c)) c).
  exists (set_vgic_vcpu [c'] g). split; [|split; [|done]].
  - unfold vgic_register_irq. unfold irq_ok in Hok. eapply acts_bind.
    { apply acts_assert. unfold VIRQ_INVALID. apply andb_true_iff. split; [apply Z.leb_le; lia|].
      apply negb_true_iff, Z.eqb_neq. lia. }
    unfold virq_add. cbn [virq]. change NUM_VCPU_LOCAL_VIRQS with 32. rewrite (proj2 (Z.ltb_lt irq _) Hlt).
    unfold virq_sgi_ppi_add. eapply acts_bind; [by eapply get_vcpu_acts|]. cbn [virq]. eapply acts_bind.
    { apply acts_assert. rewrite Hl. apply andb_true_iff. split; [apply Z.leb_le|apply Z.ltb_lt]; lia. }
    rewrite Hslot. unfold is_invalid. rewrite Hinv, Z.eqb_refl. cbn [negb].
    eapply acts_bind; [by eapply put_vcpu_acts|]. apply acts_ret.
  - exists d, c', ps. unfold set_vgic_vcpu. rewrite ra_registers.
    assert (handles irq h) as Hh by (by split; [|split]).
    apply (refines_register g st d c ps irq h c' (vspis g) p0); try done.
    + split; [by cbn; rewrite length_insert| |done]. intros i x Hx. cbn in Hx.
      apply list_lookup_insert_Some in Hx as [(<- & <- & _)|[_ Hx]]; [|by apply Hlocal].
      right. unfold irq_ok in Hok. by rewrite Z2Nat.id by lia.
    + intros [[|n] i|i]; cbn; rewrite ?ra_cpu; cbn; [|by rewrite decide_False by done..].
      case_decide as E; [injection E as ->; apply list_lookup_insert_eq; by eapply lookup_lt_Some|].
      apply list_lookup_insert_ne. by intros <-.
    + intros x Hx. eapply invalid_points_nowhere; [|exact Hinv|exact Hx]. cbn. by rewrite ra_cpu.
    + intros x Hx. case_decide; [by subst|]. done.
Qed.

Lemma register_spi_acts g st irq fn data : vgic_refines g st -> irq_ok irq -> 32 <= irq -> irq ∉ s_registered st ->
  has_free_slot g ->
  exists g', acts (W := W) (vgic_register_irq 0 irq (Some fn) data) g true g' /\ vgic_refines g' (s_register irq st).
Proof.
  intros (d & c & ps & HR) Hok Hge Hn (i0 & h0 & Hi0 & Hv0). pose proof HR as []. pose proof ra_handles as [Hl Hlocal Hspi].
  set (h := VirqHandle irq (Some fn) data).
  destruct (list_find_elem_of (fun h => virq h = VIRQ_INVALID) (vspis g) h0) as [[i hi] Hi];
    [by eapply list_elem_of_lookup_2|done|].
  pose proof Hi as Hfound. apply list_find_Some in Hi as (Hslot & Hinv & _).
  exists (set_vspis (<[i := h]> (vspis g)) g). split.
  - unfold vgic_register_irq. unfold irq_ok in Hok. eapply acts_bind.
    { apply acts_assert. unfold VIRQ_INVALID. apply andb_true_iff. split; [apply Z.leb_le; lia|].
      apply negb_true_iff, Z.eqb_neq. lia. }
    unfold virq_add. cbn [virq]. change NUM_VCPU_LOCAL_VIRQS with 32. rewrite (proj2 (Z.ltb_ge irq _)) by lia.
    unfold virq_spi_add. eapply acts_bind; [by apply acts_gets|]. rewrite Hfound. cbn [fmap option_fmap option_map fst].
    eapply acts_bind; [apply (acts_modify (fun g => set_vspis (<[i := h]> (vspis g)) g))|]. apply acts_ret.
  - exists d, c, ps. unfold set_vspis. rewrite ra_registers, ra_cpu.
    assert (handles irq h) as Hh by (by split; [|split]).
    assert (spi_slot_of irq (vspis g) = None) as Hnone.
    { destruct (spi_slot_of irq (vspis g)) as [j|] eqn:Ej; [|done].
      destruct (not_registered_slot _ _ _ _ _ _ HR Hok Hn (Vspi j)) as (x & Hx & Hvx).
      { unfold find_handle. change NUM_VCPU_LOCAL_VIRQS with 32. by rewrite (proj2 (Z.ltb_ge irq _)), Ej by lia. }
      apply fmap_Some in Ej as ([j' y] & Hj & ->). apply list_find_Some in Hj as (Hy & [Hvy _] & _). cbn in Hx. congruence. }
    apply (refines_register g st d c ps irq h c _ (Vspi i)); try done.
    + split; [done..|]. intros j x Hx. apply list_lookup_insert_Some in Hx as [(<- & <- & _)|[_ Hx]]; [|by apply (Hspi j)].
      right. by split.
    + intros [n j|j]; cbn; [by rewrite decide_False by done; rewrite ra_cpu|].
      case_decide as E; [injection E as ->; apply list_lookup_insert_eq; by eapply lookup_lt_Some|].
      apply list_lookup_insert_ne. by intros <-.
    + intros x Hx. by eapply (invalid_points_nowhere g (Vspi i)).
    + intros x Hx. unfold find_handle. cbn [vspis]. change NUM_VCPU_LOCAL_VIRQS with 32.
      rewrite (spi_slot_insert _ _ hi h x Hslot Hinv); [|cbn; unfold VIRQ_INVALID; lia|done]. cbn [virq h].
      case_decide as E; [subst; by rewrite (proj2 (Z.ltb_ge irq _)) by lia|done].
Qed.
End Register.

(** ** Starting *)
Definition s_initial : irq_state :=
  IrqState (replicate NUM_LIST_REGS None) [] ∅ (list_to_set (seqZ 0 16)) ∅ false.

Lemma irq_forall (P : Z -> bool) : forallb P (seqZ 0 992) = true -> forall irq, irq_ok irq -> P irq = true.
Proof.
  intros H irq Hok. rewrite forallb_forall in H. apply H, list_elem_of_In, elem_of_seqZ. unfold irq_ok in Hok. lia.
Qed.

Section Start.
Context {W : Type} `{!VmOps W, !Alive W}.

Lemma init_words g : exists d, acts (W := W) (vgic_init 1) g tt (set_registers (Some d) vgic_initial) /\
  d 0 = 0 /\ forallb (fun irq => negb (pending_bit irq d)) (seqZ 0 992) = true /\
  forallb (fun irq => eqb (enabled_bit irq d) (irq <? 16)) (seqZ 0 992) = true.
Proof.
  eexists. split; [|split; [|split]].
  - intros w [? ? ? ?] Hw _. exists w. split; [|exact Hw]. vm_compute. reflexivity.
  - vm_compute. reflexivity.
  - vm_compute. reflexivity.
  - vm_compute. reflexivity.
Qed.

Lemma initial_handle d p h : handle_of (set_registers (Some d) vgic_initial) p = Some h -> h = no_handle.
Proof.
  destruct p as [[|n] i|i]; [|done|]; intros H.
  - change (replicate (Z.to_nat NUM_VCPU_LOCAL_VIRQS) no_handle !! i = Some h) in H.
    by apply lookup_replicate in H as [? _].
  - change (replicate NUM_SLOTS_SPI_VIRQ no_handle !! i = Some h) in H. by apply lookup_replicate in H as [? _].
Qed.
Lemma init_acts g : exists g', acts (W := W) (vgic_init 1) g tt g' /\ vgic_refines g' s_initial /\
  vspis g' = replicate NUM_SLOTS_SPI_VIRQ no_handle.
Proof.
  destruct (init_words g) as (d & Hact & H0 & Hp & He). eexists. split; [exact Hact|]. split; [|done].
  assert (forall p x, ~ points_to (set_registers (Some d) vgic_initial) p x) as Hno.
  { intros p x (h & Hh & Hv & Hok & _). apply initial_handle in Hh as ->. subst x. by destruct Hok as [[] _]. }
  exists d, vgic_vcpu_initial, []. constructor; try done.
  - cbn. by rewrite H0.
  - intros irq Hok. pose proof (irq_forall _ Hp irq Hok) as H. apply negb_true_iff in H. by rewrite H.
  - intros irq Hok. pose proof (irq_forall _ He irq Hok) as H. apply eqb_prop in H. rewrite H. cbn [s_enabled s_initial].
    unfold irq_ok in Hok. symmetry. destruct (Z.ltb_spec irq 16); [apply bool_decide_eq_true|apply bool_decide_eq_false];
      rewrite elem_of_list_to_set, elem_of_seqZ; lia.
  - split; [done| |]; intros i h Hh; left.
    + assert (h = no_handle) as ->; [|done]. by apply (initial_handle d (LocalVirq 0 i)).
    + assert (h = no_handle) as ->; [|done]. by apply (initial_handle d (Vspi i)).
  - repeat constructor.
  - split; [done|]. split; [done|]. split; [cbn; lia|]. split; [done|]. by intros [|k] p.
  - intros irq _. split; [by intros []%not_elem_of_empty|]. intros (p & _ & Hp'). by destruct (Hno p irq).
Qed.

(** ** The monitor's own interrupts *)
Definition s_started (serial : Z) : irq_state :=
  s_register serial (s_register SGI_FUNC_CALL (s_register SGI_RESCHEDULE_IRQ (s_register PPI_VTIMER_IRQ s_initial))).

Ltac not_in := cbn [s_registered s_register s_initial]; unfold SGI_FUNC_CALL, SGI_RESCHEDULE_IRQ, PPI_VTIMER_IRQ;
  rewrite ?elem_of_union, ?elem_of_singleton, ?elem_of_empty; lia.
Lemma start_acts serial fn cookie g : irq_ok serial -> 32 <= serial ->
  exists g', acts (W := W) (vmm_init_virq serial 1 0 (Some fn) cookie) g 0 g' /\ vgic_refines g' (s_started serial).
Proof.
  intros Hok Hge. destruct (init_acts g) as (g0 & Hinit & HR0 & Hs0).
  destruct (register_local_acts (W := W) g0 _ PPI_VTIMER_IRQ VppiEventAck 0 HR0) as (g1 & H1 & HR1 & Hs1);
      [done|done|not_in|].
  destruct (register_local_acts (W := W) g1 _ SGI_RESCHEDULE_IRQ SgiAck 0 HR1) as (g2 & H2 & HR2 & Hs2); [done|done|not_in|].
  destruct (register_local_acts (W := W) g2 _ SGI_FUNC_CALL SgiAck 0 HR2) as (g3 & H3 & HR3 & Hs3); [done|done|not_in|].
  destruct (register_spi_acts (W := W) g3 _ serial fn cookie HR3) as (g4 & H4 & HR4); [done|done| | |].
  { not_in. }
  { exists 0%nat, no_handle. by rewrite Hs3, Hs2, Hs1, Hs0. }
  exists g4. split; [|done]. unfold vmm_init_virq, virq_controller_init.
  eapply acts_bind.
  { eapply acts_bind; [exact Hinit|]. eapply acts_bind; [exact H1|]. cbn [negb].
    eapply acts_bind; [exact H2|]. cbn [negb]. exact H3. }
  cbn [negb]. unfold virq_register. unfold irq_ok in Hok. rewrite i32_small by lia.
  eapply acts_bind; [exact H4|]. apply acts_ret.
Qed.
End Start.

(** ** When the guest clears a pending bit *)
Section Overflow.
Context {W : Type} `{!VmOps W, !Alive W}.
Abbreviation V := (M (W * vmm_t)).

(** from a controller [g] an assertion fails *)
Definition fails {A} (op : V A) (g : vgic_t) : Prop :=
  forall w m, alive w -> vgic m = g -> exists s', op (w, m) = (Crash AssertFail, s').
Lemma fails_bind {A B} (op : V A) (k : A -> V B) g a g1 : acts op g a g1 -> fails (k a) g1 -> fails (op ≫= k) g.
Proof.
  intros H1 H2 w m Hw Hm. destruct (H1 w m Hw Hm) as (w1 & E1 & Hw1).
  destruct (H2 w1 (set_vgic g1 m) Hw1 eq_refl) as [s' E2].
  exists s'. by rewrite (bind_ok _ _ _ _ _ E1).
Qed.
Lemma fails_first {A B} (op : V A) (k : A -> V B) g : fails op g -> fails (op ≫= k) g.
Proof. intros H w m Hw Hm. destruct (H w m Hw Hm) as [s' E]. exists s'. by apply bind_crash. Qed.

Lemma full_fails vm g st irq : vgic_refines g st -> irq_ok irq -> s_accepts irq st = true -> irq ∉ s_pending st ->
  length (s_queue st) = 63%nat -> fails (vgic_dist_set_pending_irq vm 0 irq) g.
Proof.
  intros (d & c & ps & HR) Hok Ha Hn Hl. pose proof HR as [].
  assert (irq ∈ s_registered st) as Hin.
  { unfold s_accepts in Ha. apply andb_true_iff in Ha as [[Hin _]%andb_true_iff _]. by apply bool_decide_eq_true in Hin. }
  destruct (found_handle _ _ _ _ _ irq HR Hok (or_intror Hin)) as (p & h & Hf & Hp & Hinv & Hhas).
  destruct (Hhas Hin) as (Ev & _). pose proof (refused_acts (W := W) _ _ _ _ _ irq h HR Hok Hinv) as Href.
      rewrite Ha in Href.
  unfold vgic_dist_set_pending_irq.
  eapply fails_bind; [eapply find_irq_data_acts; [done|by destruct Hok|by destruct ra_handles]|]. rewrite Hf.
  eapply fails_bind; [by apply acts_deref|]. eapply fails_bind; [by apply handle_at_acts|].
  eapply fails_bind; [exact Href|]. cbn [negb].
  eapply fails_bind; [rewrite Ev; by apply is_pending_acts|]. rewrite (ra_pending irq Hok), bool_decide_false by done.
  rewrite Ev. eapply fails_bind; [by apply set_pending_acts|]. unfold enqueue_and_load.
  apply (fails_bind _ _ _ false (set_registers (Some (set_pending_bits irq true d)) g)).
  - unfold vgic_irq_enqueue. eapply acts_bind; [by eapply get_vcpu_acts|]. cbv zeta.
    rewrite (queue_full _ _ ra_queue), bool_decide_true by (by rewrite (Forall2_length _ _ _ ra_points)). apply acts_ret.
  - apply fails_first. intros w m _ _. by eexists.
Qed.

(** the places in which one more interrupt can be *)
Definition room (st : irq_state) : nat := length (List.filter (fun o => negb (bool_decide (is_Some o))) (s_lrs st)) +
    (63 - length (s_queue st)).
Lemma s_lrs_fill (lrs : list (option Z)) i x : lrs !! i = Some None ->
  S (length (List.filter (fun o => negb (bool_decide (is_Some o))) (<[i := Some x]> lrs))) =
  length (List.filter (fun o => negb (bool_decide (is_Some o))) lrs).
Proof.
  revert i. induction lrs as [|o lrs IH]; intros [|i]; try done; [by intros [= ->]|]. intros Hi. specialize (IH i Hi).
  change (<[S i := Some x]> (o :: lrs)) with (o :: <[i := Some x]> lrs). cbn [List.filter].
  destruct (negb (bool_decide (is_Some o))); cbn [length]; by rewrite IH.
Qed.
Lemma room_deliver irq st : (length (s_queue st) < 63)%nat ->
  (S (room (s_deliver irq st)) <= room st)%nat /\ (length (s_queue (s_deliver irq st)) <= 63)%nat.
Proof.
  intros Hl. unfold s_deliver, room. destruct (s_empty_lr (s_lrs st)) as [i|] eqn:Ei.
  - apply s_empty_lr_Some in Ei. destruct (s_queue st) as [|x q]; cbn [app s_lrs s_queue s_set_lists length] in *.
    + pose proof (s_lrs_fill _ _ irq Ei). lia.
    + pose proof (s_lrs_fill _ _ x Ei). rewrite length_app. cbn [length]. lia.
  - destruct (s_queue st ++ [irq]) as [|y q] eqn:Eq; [by destruct (s_queue st)|]. rewrite <- Eq.
      cbn [s_lrs s_queue s_set_lists].
    rewrite length_app. cbn [length]. lia.
Qed.
End Overflow.

(** ** The theorems *)
Section Theorems.
Context {W : Type} `{!VmOps W, !Alive W} (vm : vm_ptr) (HG : guest_runs vm).
Abbreviation V := (M (W * vmm_t)).

Lemma acts_returns {A} (op : V A) g a g' (Q : A -> W * vmm_t -> Prop) w m : acts op g a g' -> alive w -> vgic m = g ->
  (forall s', alive s'.1 -> vgic s'.2 = g' -> Q a s') -> returns op (w, m) Q.
Proof.
  intros H Hw Hm HQ. destruct (H w m Hw Hm) as (w' & E & Hw'). eexists _, _. split; [exact E|]. by apply HQ.
Qed.

(** C18: the interrupt controller does with the interrupts of a guest what a set of list
    registers with a queue does, for events that can happen ([can_happen_all]: an interrupt
    that arrives is registered or one of the CPU's own and finds room in the queue when it has
    to wait there, and only interrupts that are in a list register are handled), and a guest
    that takes the interrupts that are injected ([alive], [guest_runs]).  For any sequence of such
    events the functions return, and the handles, the ring of pointers and the bits of the
    distributor represent the lists and sets of the specification.  Without room in the queue
    the monitor stops (see [cleared_pending_stops]). *)
Theorem interrupts_refine_queue es st w m : alive w -> vgic_refines (vgic m) st -> can_happen_all st es ->
  returns (handle_events vm es) (w, m) (fun _ s' => alive s'.1 /\ vgic_refines (vgic s'.2) (s_events es st)).
Proof.
  intros Hw HR Hes. destruct (events_acts vm HG es _ st HR Hes) as (g' & Hact & HR').
  eapply acts_returns; [exact Hact|done|done|]. by intros s' Hw' ->.
Qed.

(** what can happen to the monitor's guest, unless it clears a pending bit *)
Definition may_happen (serial : Z) (st : irq_state) (e : vgic_event) : Prop :=
  match e with
  | Arrives irq => irq_ok irq /\ (irq < NUM_VCPU_LOCAL_VIRQS \/ irq = serial)
  | Maintained idx => exists irq, s_lrs st !! idx = Some (Some irq)
  | Enabled irq | Disabled irq => irq_ok irq
  | Switched _ => True
  | Cleared _ => False
  end.
Fixpoint may_happen_all (serial : Z) (st : irq_state) (es : list vgic_event) : Prop :=
  match es with
  | [] => True
  | e :: es => may_happen serial st e /\ may_happen_all serial (s_event e st) es
  end.




(** the interrupt arrives, and the guest clears its pending bit *)
Fixpoint cleared_rounds (n : nat) (irq : Z) : list vgic_event :=
  match n with O => [] | S n => Arrives irq :: Cleared irq :: cleared_rounds n irq end.

Lemma rounds_fail irq n g st : (room st < n)%nat -> (length (s_queue st) <= 63)%nat -> vgic_refines g st -> irq_ok irq ->
  s_accepts irq st = true -> irq ∉ s_pending st -> fails (handle_events vm (cleared_rounds n irq)) g.
Proof.
  revert g st. induction n as [|n IH]; intros g st Hroom Hl HR Hok Ha Hn; [lia|].
  cbn [cleared_rounds]. unfold handle_events. cbn [for_each].
  destruct (decide (length (s_queue st) = 63%nat)) as [E|E].
  { apply fails_first. unfold handle_event, vgic_inject_irq. apply fails_first. by apply (full_fails vm g st irq). }
  assert (irq ∈ s_registered st) as Hin.
  { unfold s_accepts in Ha. apply andb_true_iff in Ha as [[Hin _]%andb_true_iff _]. by apply bool_decide_eq_true in Hin. }
  destruct (event_acts vm HG (Arrives irq) g st HR) as (g1 & H1 & HR1).
  { split; [done|]. split; [by right|]. lia. }
  destruct (event_acts vm HG (Cleared irq) g1 _ HR1 Hok) as (g2 & H2 & HR2).
  eapply fails_bind; [exact H1|]. eapply fails_bind; [exact H2|]. cbn [s_event] in HR2.
  unfold s_arrives in HR2. rewrite Ha, (bool_decide_false _ Hn) in HR2. cbn [negb andb] in HR2.
  set (st1 := s_set_pending ({[irq]} ∪ s_pending st) st) in *.
  destruct (room_deliver irq st1) as [Hr Hl']; [cbn; lia|]. change (room st1) with (room st) in Hr.
  eapply (IH g2 _); [| |exact HR2|done| |].
  - change (room (s_clear irq (s_deliver irq st1))) with (room (s_deliver irq st1)). lia.
  - done.
  - rewrite <- Ha. unfold s_clear, s_accepts, s_deliver. by destruct (s_empty_lr _), (_ ++ _).
  - cbn. set_solver.
Qed.

(** C21: a guest can stop the monitor.  The pending bit of an interrupt is cleared in the
    registers only, not in the queue, so that an interrupt whose bit the guest clears each
    time is queued again each time it arrives; after at most 67 times the queue is full, and
    the assertion on putting it in fails. *)
Theorem cleared_pending_stops irq st w m : alive w -> vgic_refines (vgic m) st -> irq_ok irq ->
  s_accepts irq st = true -> irq ∉ s_pending st ->
  stops (handle_events vm (cleared_rounds 68 irq)) (w, m) AssertFail.
Proof.
  intros Hw HR Hok Ha Hn. apply (rounds_fail irq 68 (vgic m) st); try done.
  - destruct HR as (d & c & ps & []). unfold room. apply Forall2_length in ra_lrs. rewrite ra_lr_length in ra_lrs.
    unfold NUM_LIST_REGS in ra_lrs. pose proof (List.filter_length_le (fun o => negb (bool_decide (is_Some o)))
        (s_lrs st)). lia.
  - destruct HR as (d & c & ps & []). rewrite <- (Forall2_length _ _ _ ra_points). destruct ra_queue as (_ & _ & ? & _). lia.
Qed.
End Theorems.

(** ** Examples *)

(** a guest that takes everything *)
Definition ops_demo : VmOps unit := {|
  vm_get_id _ := mret 1;
  vm_suspend _ := mret tt;
  vm_write_registers _ _ _ _ := mret 0;
  vm_read_registers _ _ _ := mret (0, UserContext 0 0 0 (replicate 31 0) 0 0);
  vm_dump_registers _ := mret tt;
  vm_dump_vcpu_registers _ := mret tt;
  vm_inject_irq _ _ _ _ _ := mret 0;
  vm_ack_vppi _ _ := mret 0;
  vm_serial_ack _ _ _ := mret tt;
  exception_callback _ _ _ _ regs _ := mret (true, regs)
|}.
#[local] Existing Instance ops_demo.
Definition alive_demo : Alive unit := fun _ => True.
#[local] Existing Instance alive_demo.
Lemma ops_demo_runs vm : guest_runs (W := unit) vm.
Proof. by split; intros; intros []; exists tt. Qed.

Definition vmm_zero : vmm_t := Vmm (Vgic None [] []) 0 [] 0.
Lemma started_demo es : can_happen_all (s_started 33) es ->
  exists m, vgic_refines (vgic m) (s_events es (s_started 33)).
Proof.
  intros Hes. destruct (start_acts (W := unit) 33 SerialAck 0 (vgic vmm_zero)) as (g & _ & HR); [done|done|].
  destruct (events_acts None (ops_demo_runs _) es g _ HR Hes) as (g' & _ & HR'). by exists (set_vgic g' vmm_zero).
Qed.

(** that events of a list can happen *)
Ltac event_happens :=
  lazymatch goal with
  | |- True => exact I
  | |- irq_ok _ => by split
  | |- _ \/ _ => first [by left | right; reflexivity | right; by apply (bool_decide_unpack _)]
  | |- exists _, _ = _ => eexists; reflexivity
  | |- _ -> _ => intros _ _; by apply Nat.ltb_lt
  end.
Ltac events_happen := repeat match goal with
  | |- can_happen_all _ _ => cbn [can_happen_all app]
  | |- may_happen_all _ _ _ => cbn [may_happen_all]
  | |- can_happen _ _ => cbn [can_happen]
  | |- may_happen _ _ _ => cbn [may_happen]
  | |- _ /\ _ => split
  end; event_happens.
Lemma interrupts_refine_queue_witness : exists m,
  let es := [Switched true; Enabled 33; Arrives 33; Arrives 0; Cleared 0; Maintained 1] in
  vgic_refines (vgic m) (s_started 33) /\ can_happen_all (s_started 33) es /\
  returns (handle_events None es) (tt, m) (fun _ s' => alive s'.1 /\ vgic_refines (vgic s'.2) (s_events es (s_started 33))).
Proof.
  destruct (started_demo [] I) as [m HR]. exists m. cbv zeta.
  assert (can_happen_all (s_started 33) [Switched true; Enabled 33; Arrives 33; Arrives 0; Cleared 0; Maintained 1]) as Hes.
  { events_happen. }
  split; [done|]. split; [done|].
  apply (interrupts_refine_queue None (ops_demo_runs _) _ (s_started 33) tt m I HR Hes).
Defined.



Lemma cleared_pending_stops_witness : exists m,
  vgic_refines (vgic m) (s_events [Switched true; Enabled 33] (s_started 33)) /\
  stops (handle_events None (cleared_rounds 68 33)) (tt, m) AssertFail.
Proof.
  destruct (started_demo [Switched true; Enabled 33]) as [m HR]; [events_happen|]. exists m. split; [done|].
  apply (cleared_pending_stops None (ops_demo_runs _) 33 _ tt m I HR); [by split|by vm_compute|].
  intros Hin. revert Hin. apply (bool_decide_unpack (~ (33 ∈ s_pending (s_events [Switched true;
      Enabled 33] (s_started 33))))). by vm_compute.
Defined.
