(* ===== verification/VgicRegisters.v ===== *)
(** * Accesses of a guest to the distributor

    A load or store of the guest merges the bytes that it accesses; a store to a register that
    is a set of bits is the events of the interrupts whose bits are set; what the guest reads
    back of the interrupts of devices is one register off. *)

From stdpp Require Import base numbers list gmap.
From S2P Require Import Prelude GuestFault Vgic VgicSpec VgicDelivery.

(** ** The loop over the bits of a word *)
Definition bits_of (data : Z) : list Z := List.filter (Z.testbit data) (seqZ 0 32).

Lemma CTZ_spec x : 0 < x -> Z.testbit x (CTZ x) = true /\ 0 <= CTZ x /\ forall i, i < CTZ x -> Z.testbit x i = false.
Proof.
  intros Hx. destruct x as [|p|p]; try lia. cbn [CTZ]. clear Hx. induction p as [p IH|p IH|]; cbn [pos_ctz].
  - split; [done|]. split; [done|]. intros i Hi. by apply Z.testbit_neg_r.
  - destruct IH as (H1 & H2 & H3). rewrite Pos2Z.inj_xO. replace (1 + pos_ctz p) with (Z.succ (pos_ctz p)) by lia.
    split; [by rewrite Z.double_bits_succ|]. split; [lia|]. intros i Hi.
    destruct (decide (i <= 0)) as [Hi0|Hi0].
    + destruct (decide (i = 0)) as [->|]; [by rewrite Z.testbit_even_0|]. apply Z.testbit_neg_r. lia.
    + rewrite <- (Z.succ_pred i), Z.double_bits_succ. apply H3. lia.
  - split; [done|]. split; [done|]. intros i Hi. by apply Z.testbit_neg_r.
Qed.
Lemma CTZ_first x b : 0 < x -> Z.testbit x b = true -> (forall i, Z.testbit x i = true -> b <= i) -> CTZ x = b.
Proof.
  intros Hx Hb Hmin. destruct (CTZ_spec x Hx) as (H1 & _ & H3). apply Hmin in H1.
  destruct (decide (b < CTZ x)) as [Hlt|]; [|lia]. rewrite H3 in Hb by lia. done.
Qed.

Section Loop.
Context {W : Type}.
Abbreviation V := (M (W * vmm_t)).

Lemma bits_loop_from n fuel data (body : Z -> V unit) s : (n <= fuel)%nat -> (n <= 32)%nat -> 0 <= data ->
  (forall i, Z.testbit data i = true -> 32 - Z.of_nat n <= i < 32) ->
  bits_loop fuel data body s = for_each (List.filter (Z.testbit data) (seqZ (32 - Z.of_nat n) (Z.of_nat n))) body s.
Proof.
  revert fuel data s. induction n as [|n IH]; intros fuel data s Hf Hn Hd Hb.
  { assert (data = 0) as ->; [|by destruct fuel]. apply Z.bits_inj'. intros i _. rewrite Z.bits_0.
    destruct (Z.testbit data i) eqn:E; [|done]. apply Hb in E. lia. }
  rewrite seqZ_cons by lia. replace (Z.pred (Z.of_nat (S n))) with (Z.of_nat n) by lia.
  replace (Z.succ (32 - Z.of_nat (S n))) with (32 - Z.of_nat n) by lia. set (b := 32 - Z.of_nat (S n)) in *.
  cbn [List.filter]. destruct (Z.testbit data b) eqn:Eb.
  - assert (0 < data) as Hpos. { destruct (decide (data = 0)) as [->|]; [by rewrite Z.bits_0 in Eb|lia]. }
    destruct fuel as [|fuel]; [lia|]. cbn [bits_loop for_each]. rewrite (proj2 (Z.eqb_neq data 0)) by lia.
    rewrite (CTZ_first data b) by (done || (intros i Hi; apply Hb in Hi; lia)).
    unfold mbind, M_bind. destruct (body b s) as [[a|f|] s']; try done.
    assert (forall i, 0 <= i -> Z.testbit (Z.land data (Z.lnot (Z.shiftl 1 b))) i = Z.testbit data i && negb
        (b =? i)) as Hclear.
    { intros i Hi. rewrite Z.land_spec, Z.lnot_spec, Z.shiftl_1_l, Z.pow2_bits_eqb by lia. done. }
    rewrite (IH fuel); [| lia | lia | | ].
    + f_equal. apply List.filter_ext_in. intros i Hi%list_elem_of_In%elem_of_seqZ. rewrite Hclear by lia.
      rewrite (proj2 (Z.eqb_neq b i)) by lia. apply andb_true_r.
    + apply Z.land_nonneg. by left.
    + intros i Hi. destruct (decide (0 <= i)) as [Hi0|]; [|by rewrite Z.testbit_neg_r in Hi by lia].
      rewrite Hclear in Hi by done. apply andb_true_iff in Hi as [Hi Hne%negb_true_iff%Z.eqb_neq].
      apply Hb in Hi. lia.
  - apply IH; [lia|lia|done|]. intros i Hi. pose proof (Hb i Hi) as Hr.
    destruct (decide (i = b)) as [->|]; [by rewrite Eb in Hi|lia].
Qed.
(** the loop ends within its fuel, and runs for the set bits in their order *)
Lemma bits_loop_run data (body : Z -> V unit) s : 0 <= data < 2 ^ 32 ->
  bits_loop 32 data body s = for_each (bits_of data) body s.
Proof.
  intros Hd. apply (bits_loop_from 32 32); [lia|lia|lia|]. intros i Hi.
  destruct (decide (0 <= i)) as [Hi0|]; [|by rewrite Z.testbit_neg_r in Hi by lia]. split; [lia|].
  destruct (decide (i < 32)); [done|]. rewrite <- (Z.mod_small data (2 ^ 32)) in Hi by lia.
  by rewrite Z.mod_pow2_bits_high in Hi by lia.
Qed.
End Loop.

(** ** The bytes of an access *)

(** the bits of an access of a byte, a halfword or a word *)
Definition access_width (fsr : Z) : option Z :=
  match fault_get_width fsr with
  | Some WIDTH_BYTE => Some 8
  | Some WIDTH_HALFWORD => Some 16
  | Some WIDTH_WORD => Some 32
  | _ => None
  end.
Definition aligned (addr n : Z) : Prop := addr mod (n / 8) = 0.

Lemma byte_shift_mod addr : byte_shift addr = addr mod 4 * 8.
Proof. unfold byte_shift. change 0x3 with (Z.ones 2). by rewrite Z.land_ones by lia. Qed.
Lemma data_mask {S} addr fsr n (s : S) : access_width fsr = Some n -> aligned addr n ->
  fault_get_data_mask addr fsr s = (Ok (Z.shiftl (Z.ones n) (byte_shift addr)), s) /\
  0 < n /\ 0 <= byte_shift addr /\ byte_shift addr + n <= 32.
Proof.
  assert (0 <= addr mod 4 < 4) as Hm by (apply Z.mod_pos_bound; lia).
  assert (forall n, 0 <= n -> byte_shift addr + n <= 56 ->
    u64 (Z.shiftl (Z.ones n) (byte_shift addr)) = Z.shiftl (Z.ones n) (byte_shift addr)) as Hu.
  { intros m Hm0 Hm1. rewrite byte_shift_mod in Hm1 |- *. unfold u64. apply wrap_small. rewrite Z.shiftl_mul_pow2 by lia.
    rewrite Z.ones_equiv. pose proof (Z.pow_pos_nonneg 2 (addr mod 4 * 8) ltac:(lia) ltac:(lia)).
    pose proof (Z.pow_pos_nonneg 2 m ltac:(lia) ltac:(lia)).
    assert (2 ^ m * 2 ^ (addr mod 4 * 8) <= 2 ^ 56) by (rewrite <- Z.pow_add_r by lia; apply Z.pow_le_mono_r; lia).
    split; [nia|]. assert (2 ^ 56 < 2 ^ 64) by done. nia. }
  unfold access_width, fault_get_data_mask, aligned. intros Hn Ha.
  destruct (fault_get_width fsr) as [[]|]; try done; injection Hn as <-.
  - change (32 / 8) with 4 in Ha. change 0x3 with (Z.ones 2). rewrite Z.land_ones by lia. change (2 ^ 2) with 4.
    rewrite Ha. cbn [Z.eqb assert_]. change 0xffffffff with (Z.ones 32).
    assert (byte_shift addr = 0) as Hs by (rewrite byte_shift_mod, Ha; lia).
    split; [by rewrite Hu by lia|lia].
  - change (16 / 8) with 2 in Ha. change 0x1 with (Z.ones 1). rewrite Z.land_ones by lia. change (2 ^ 1) with 2.
    rewrite Ha. cbn [Z.eqb assert_]. change 0xffff with (Z.ones 16).
    assert (addr mod 4 <> 3) as H3.
    { intros E. pose proof (Z.div_mod addr 4 ltac:(lia)). pose proof (Z.div_mod addr 2 ltac:(lia)). lia. }
    split; [by rewrite Hu by (rewrite ?byte_shift_mod; lia)|rewrite byte_shift_mod; lia].
  - change 0xff with (Z.ones 8). split; [by rewrite Hu by (rewrite ?byte_shift_mod; lia)|rewrite byte_shift_mod; lia].
Qed.

Lemma testbit_window n sh i : 0 <= n -> 0 <= i -> 0 <= sh ->
  Z.testbit (Z.shiftl (Z.ones n) sh) i = (sh <=? i) && (i <? sh + n).
Proof.
  intros. rewrite Z.shiftl_spec by lia. destruct (Z.leb_spec sh i); cbn [andb].
  - rewrite Z.testbit_ones by lia. rewrite (proj2 (Z.leb_le _ _)) by lia. cbn [andb].
    destruct (Z.ltb_spec (i - sh) n), (Z.ltb_spec i (sh + n)); lia || done.
  - by apply Z.testbit_neg_r; lia.
Qed.

(** an access of the guest merges exactly the bytes that it accesses.  A load of a byte,
    a halfword or a word of the device leaves in the register of the guest the bits of the
    bytes at the address, and the rest of the register as it was; a store leaves in the word
    of the device the low bits of the register at the bytes of the address, and the other
    bytes as they were. *)
Theorem fault_emulate_merges {S} reg addr fsr val n (s : S) : access_width fsr = Some n -> aligned addr n ->
  exists v, fault_emulate reg addr fsr val s = (Ok v, s) /\ forall i, 0 <= i ->
    Z.testbit v i =
      if fault_is_read fsr then
        if i <? n then Z.testbit val (i + byte_shift addr) else Z.testbit reg i
      else
        if (byte_shift addr <=? i) && (i <? byte_shift addr + n) then Z.testbit val (i - byte_shift addr)
        else Z.testbit reg i.
Proof.
  intros Hn Ha. destruct (data_mask addr fsr n s Hn Ha) as (Hm & Hpos & Hs0 & Hs1).
  set (sh := byte_shift addr) in *. eexists. split.
  { unfold fault_emulate. fold sh. erewrite bind_ok by exact Hm. reflexivity. }
  intros i Hi. destruct (fault_is_read fsr).
  - rewrite Z.lor_spec, Z.land_spec, Z.lnot_spec, !Z.shiftr_spec, Z.land_spec, testbit_window by lia.
    replace (sh <=? i + sh) with true by lia. replace (i + sh <? sh + n) with (i <? n) by lia. cbn [andb].
    destruct (i <? n); cbn [negb]; by rewrite ?andb_false_r, ?andb_true_r, ?orb_false_r.
  - rewrite Z.lor_spec, !Z.land_spec, Z.lnot_spec, testbit_window by lia.
    destruct ((sh <=? i) && (i <? sh + n)) eqn:E; cbn [negb]; rewrite ?andb_false_r, ?andb_true_r, ?orb_false_r; [|done].
    apply andb_true_iff in E as [E1%Z.leb_le E2%Z.ltb_lt]. cbn [orb]. unfold u64, wrap.
    by rewrite Z.mod_pow2_bits_low, Z.shiftl_spec by lia.
Qed.

(** ** Stores to the registers that are sets of bits *)

(** the first of each kind of register, and what a bit means for its interrupt *)
Definition set_registers_events : list (Z * (Z -> vgic_event)) :=
  [(0x100, Enabled); (0x180, Disabled); (0x200, Arrives); (0x280, Cleared)].
(** the register of the guest that is stored *)
Definition stored (regs : seL4_UserContext) (fsr : Z) : option Z :=
  if HSR_IS_SYNDROME_VALID fsr then
    decode_rt (HSR_SYNDROME_RT fsr) ≫= fun p => match p with RegX i => uc_x regs !! i | RegWzr => None end
  else None.

Lemma RANGE32_true a b offset : a <= offset <= b + 3 -> RANGE32 a b offset = true.
Proof. intros. unfold RANGE32. apply andb_true_iff. split; apply Z.leb_le; lia. Qed.
Lemma RANGE32_false a b offset : offset < a \/ b + 3 < offset -> RANGE32 a b offset = false.
Proof. intros [H|H]; unfold RANGE32; [rewrite (proj2 (Z.leb_gt a _))|rewrite (proj2 (Z.leb_gt _
    (b + 3))), andb_false_r]; done. Qed.
Ltac ranges := repeat match goal with
  | |- context [RANGE32 ?a ?b ?o] =>
      first [rewrite (RANGE32_false a b o) by lia | rewrite (RANGE32_true a b o) by lia]; cbv iota
  end.

Section Stores.
Context {W : Type} `{!VmOps W} (GIC_DIST_PADDR : Z) (vm : vm_ptr) (regs : seL4_UserContext) (fsr data : Z).
Context (Haligned : GIC_DIST_PADDR mod 4 = 0) (Hword : access_width fsr = Some 32) (Hstored : stored regs fsr = Some data).
Abbreviation V := (M (W * vmm_t)).

Lemma for_each_fmap {A B S} (f : A -> B) (body : B -> M S unit) (l : list A) s :
  for_each (f <$> l) body s = for_each l (fun x => body (f x)) s.
Proof.
  revert s. induction l as [|x l IH]; intros s; [done|]. cbn. unfold mbind, M_bind.
  by destruct (body (f x) s) as [[]].
Qed.

Lemma for_each_ext {A S} (body body' : A -> M S unit) (l : list A) s :
  (forall x, body x = body' x) -> for_each l body s = for_each l body' s.
Proof.
  intros E. revert s. induction l as [|x l IH]; intros s; [done|]. cbn. rewrite E. unfold mbind, M_bind.
  by destruct (body' x s) as [[]].
Qed.
Lemma get_data_run (s : W * vmm_t) : fault_get_data regs fsr s = (Ok data, s).
Proof.
  revert Hstored. unfold stored, fault_get_data, get_rt. destruct (HSR_IS_SYNDROME_VALID fsr); [|done].
  destruct (decode_rt (HSR_SYNDROME_RT fsr)) as [[i|]|] eqn:Ed; cbn; try done. intros E.
  erewrite bind_ok by reflexivity. rewrite Ed. erewrite bind_ok by reflexivity. unfold read_reg. by rewrite E.
Qed.
Lemma for_bits_run offset first k (body : Z -> V unit) s : offset = first + 4 * k -> 0 <= k < 32 ->
  for_bits regs offset fsr (Z.ones 32) first body s = for_each ((fun b => b + 32 * k) <$> bits_of (u32 data)) body s.
Proof.
  intros -> Hk. unfold for_bits. rewrite (bind_ok _ _ _ _ _ (get_data_run s)).
  assert (0 <= u32 data < 2 ^ 32) as Hr by (apply wrap_range; lia).
  rewrite Z.land_ones, Z.mod_small by lia. rewrite (bits_loop_run _ _ _ Hr), for_each_fmap. apply for_each_ext.
  intros b. f_equal. lia.
Qed.

(** A store to the registers of the distributor that enable, disable, set or clear
    interrupts is a sequence of events.  A store of a word to register [k] of these runs the
    function of the interrupts [32 * k + b] for each bit [b] that is set in the register of
    the guest, the lowest first, and the guest goes on at its next instruction. *)
Theorem guest_stores_are_events first ev k s : (first, ev) ∈ set_registers_events -> 0 <= k < 32 ->
  vgic_dist_reg_write GIC_DIST_PADDR vm 0 (first + 4 * k) fsr regs s =
  (handle_events vm (ev <$> ((fun b => b + 32 * k) <$> bits_of (u32 data))) ;;
   success ← fault_advance_vcpu vm regs; assert_ success ;; mret success) s.
Proof.
  intros Hev Hk. unfold vgic_dist_reg_write.
  assert (aligned (GIC_DIST_PADDR + (first + 4 * k)) 32 /\ byte_shift (GIC_DIST_PADDR + (first + 4 * k)) = 0) as [Ha Hs].
  { rewrite byte_shift_mod. unfold aligned. change (32 / 8) with 4.
    assert ((GIC_DIST_PADDR + (first + 4 * k)) mod 4 = 0) as ->; [|done].
    replace (GIC_DIST_PADDR + (first + 4 * k)) with (GIC_DIST_PADDR + first + k * 4) by lia. rewrite Z.mod_add by lia.
    rewrite <- Zplus_mod_idemp_l, Haligned. revert Hev. unfold set_registers_events.
    rewrite !elem_of_cons, elem_of_nil. by intros [[= ->]|[[= ->]|[[= ->]|[[= ->]|[]]]]]. }
  destruct (data_mask (GIC_DIST_PADDR + (first + 4 * k)) fsr 32 s Hword Ha) as (Hm & _).
  rewrite (bind_ok _ _ _ _ _ Hm), Hs. cbv zeta. change (u32 (Z.shiftl (Z.ones 32) 0)) with (Z.ones 32).
  assert (forall (m m' : V unit) (r : unit -> V bool), m s = m' s -> (m ≫= r) s = (m' ≫= r) s) as Hbind.
  { intros m m' r E. unfold mbind, M_bind. by rewrite E. }
  apply Hbind. unfold handle_events. rewrite for_each_fmap. revert Hev. unfold set_registers_events.
  rewrite !elem_of_cons, elem_of_nil.
  intros [[= -> ->]|[[= -> ->]|[[= -> ->]|[[= -> ->]|[]]]]]; ranges; by rewrite (for_bits_run _ _ k) by lia.
Qed.

(** a store of 1 or 0 to the control register *)
Lemma store_switches (on : bool) s : u32 data = (if on then GIC_ENABLED else 0) ->
  vgic_dist_reg_write GIC_DIST_PADDR vm 0 0 fsr regs s =
  (handle_events vm [Switched on] ;; success ← fault_advance_vcpu vm regs; assert_ success ;; mret success) s.
Proof.
  intros Hd. unfold vgic_dist_reg_write.
  assert (aligned (GIC_DIST_PADDR + 0) 32) as Ha by (unfold aligned; change (32 / 8) with 4; by rewrite Z.add_0_r).
  destruct (data_mask _ fsr 32 s Hword Ha) as (Hm & _). rewrite (bind_ok _ _ _ _ _ Hm). cbv zeta. ranges.
  unfold handle_events. cbn [for_each handle_event].
  assert (forall (m m' : V unit) (r : unit -> V bool), m s = m' s -> (m ≫= r) s = (m' ≫= r) s) as Hbind.
  { intros m m' r E. unfold mbind, M_bind. by rewrite E. }
  apply Hbind. rewrite (bind_ok _ _ _ _ _ (get_data_run s)), Hd. cbn [fmap list_fmap].
  destruct on; unfold mbind, M_bind; cbn -[vgic_dist_enable vgic_dist_disable];
    [by destruct (vgic_dist_enable s) as [[[]|f|] ?]|by destruct (vgic_dist_disable s) as [[[]|f|] ?]].
Qed.
End Stores.

(** ** Loads *)
Section Loads.
Context {W : Type} `{!VmOps W, !Alive W} (GIC_DIST_PADDR : Z) (vm : vm_ptr) (g : vgic_t) (d : Z -> Z).
Context (Hd : registers g = Some d).

Lemma reg_at_acts (m : M (W * vmm_t) Z) v : acts m g v g -> exists r, acts (reg_at m) g r g.
Proof. intros H. eexists. unfold reg_at. eapply acts_bind; [exact H|]. apply acts_ret. Qed.
Lemma dist_load_reads f i first n : Dist.place f = (first, n) -> 0 <= i < n ->
  exists r, acts (reg_at (dist_load f i)) g r g.
Proof. intros Hf Hi. eapply reg_at_acts. by apply (dist_load_acts f i g d first n). Qed.
Lemma load_unaligned_reads f distance first n : Dist.place f = (first, n) ->
  0 <= 4 * first + distance -> 4 * first + distance + 4 <= 4 * Dist.words ->
  exists r, acts (reg_at (load_unaligned f distance)) g r g.
Proof.
  intros Hf H1 H2. eapply reg_at_acts. unfold load_unaligned. eapply acts_bind.
  { unfold vgic_get_dist. eapply acts_bind; [by apply acts_gets; intros m ->|]. by apply acts_deref. }
  rewrite Hf. cbn [fst]. rewrite (proj2 (Z.leb_le _ _)), (proj2 (Z.leb_le _ _)) by lia. apply acts_ret.
Qed.

(** every register of the distributor can be read, in whatever state *)
Lemma dist_reg_acts offset : 0 <= offset < GIC_DIST_SIZE -> offset mod 4 = 0 ->
  exists r, acts (dist_reg 0 offset) g r g.
Proof.
  intros Ho Hal. unfold dist_reg, GIC_DIST_REGN, GIC_DIST_SIZE in *. cbv zeta.
  repeat match goal with
  | |- context [if RANGE32 ?a ?b ?o then _ else _] =>
      let E := fresh "E" in destruct (RANGE32 a b o) eqn:E;
      [apply andb_true_iff in E as [?%Z.leb_le ?%Z.leb_le] | clear E]
  end; try (eexists; apply acts_ret);
  first [eapply dist_load_reads; [vm_compute; reflexivity|]; Z.to_euclidean_division_equations; lia
        |eapply load_unaligned_reads; [vm_compute; reflexivity| |]; change (4 * Dist.words) with 4112;
         Z.to_euclidean_division_equations; lia].
Qed.

(** a load of a word into a register of the guest changes nothing of the controller *)
Lemma load_acts regs fsr val offset : GIC_DIST_PADDR mod 4 = 0 -> access_width fsr = Some 32 ->
  stored regs fsr = Some val -> 0 <= offset < GIC_DIST_SIZE -> offset mod 4 = 0 ->
  (forall regs, acts (fault_advance_vcpu vm regs) g true g) ->
  acts (vgic_dist_reg_read GIC_DIST_PADDR vm 0 offset fsr regs) g true g.
Proof.
  intros HG Hw Hst Ho Hal Hadv. destruct (dist_reg_acts offset Ho Hal) as [r Hr]. unfold vgic_dist_reg_read.
  assert (aligned (GIC_DIST_PADDR + offset) 32) as Ha.
  { unfold aligned. change (32 / 8) with 4. by rewrite Zplus_mod, HG, Hal. }
  assert (forall mask, acts (fault_advance vm regs (GIC_DIST_PADDR + offset) fsr mask) g true g) as Hrest.
  { intros mask. revert Hst. unfold stored, fault_advance, get_rt. destruct (HSR_IS_SYNDROME_VALID fsr); [|done].
    destruct (decode_rt (HSR_SYNDROME_RT fsr)) as [[i|]|] eqn:Ed; cbn [mbind option_bind]; try done. intros Hi.
    eapply acts_bind; [eapply acts_bind; [by apply acts_assert|apply acts_ret]|]. rewrite Ed.
    eapply acts_bind; [by apply acts_deref|]. cbn [read_reg]. rewrite Hi. eapply acts_bind; [apply acts_ret|].
    eapply acts_bind; [|eapply acts_bind; [apply acts_ret|apply Hadv]].
    intros w m Hw' Hm. exists w. destruct (data_mask (GIC_DIST_PADDR + offset) fsr 32 (w, m) Hw Ha) as (Hmask & _).
    unfold fault_emulate. rewrite (bind_ok _ _ _ _ _ Hmask), (set_vgic_same m g Hm). split; [reflexivity|done]. }
  eapply acts_bind; [exact Hr|]. apply (acts_bind _ _ _ true g); [|eapply acts_bind; [by apply acts_assert|apply acts_ret]].
  destruct r as [reg|]; [|apply Hadv]. eapply acts_bind; [|apply Hrest].
  intros w m Hw' Hm. exists w. destruct (data_mask (GIC_DIST_PADDR + offset) fsr 32 (w, m) Hw Ha) as (Hmask & _).
  rewrite Hmask, (set_vgic_same m g Hm). by split.
Qed.
End Loads.

(** ** What the guest reads back *)

(** The enabled bits of the interrupts from [32 * k] on are kept in the word behind the one
    that the guest reads for them: what it reads are those of the 32 interrupts before. *)
Theorem spi_enabled_reads_elsewhere {W} `{!Alive W} g st k b (Hk : 2 <= k < 31) (Hb : 0 <= b < 32) : vgic_refines g st ->
  exists v, acts (W := W) (dist_reg 0 (0x100 + 4 * k)) g (Some v) g /\
    Z.testbit v b = bool_decide (32 * (k - 1) + b ∈ s_enabled st).
Proof.
  intros (d & c & ps & []). exists (d (65 + (k - 1))). split.
  - unfold dist_reg. ranges. unfold reg_at. eapply acts_bind; [|apply acts_ret].
    replace (GIC_DIST_REGN (0x100 + 4 * k) 0x104) with (k - 1).
    + by apply (dist_load_acts Dist.enable_set (k - 1) g d 65 31 ra_registers eq_refl ltac:(lia)).
    + unfold GIC_DIST_REGN. replace (0x100 + 4 * k - 0x104) with ((k - 1) * 4) by lia. by rewrite Z.div_mul.
  - rewrite <- ra_enabled by (unfold irq_ok; lia). unfold enabled_bit, flag, flag_word.
    rewrite (proj2 (Z.ltb_ge _ 32)) by lia.
    replace (32 * (k - 1) + b) with (b + (k - 1) * 32) by lia. rewrite Z.div_add, Z.mod_add by lia.
    by rewrite Z.div_small, Z.mod_small by lia.
Qed.

(** ** An example *)
#[local] Existing Instance ops_demo.
(** the guest stores x3, a word, to the second register that enables interrupts *)
Lemma guest_stores_are_events_witness (s := (tt, Vmm (Vgic None [] []) 0 [] 0)) :
  let regs := UserContext 0 0 0 [0; 0; 0; 0x80000002] 0 0 in
  let fsr := 0x1830040 in
  vgic_dist_reg_write 0x8000000 None 0 (0x100 + 4 * 1) fsr regs s =
  (handle_events None (Enabled <$> ((fun b => b + 32 * 1) <$> bits_of (u32 0x80000002))) ;;
   success ← fault_advance_vcpu None regs; assert_ success ;; mret success) s.
Proof.
  apply (guest_stores_are_events 0x8000000 None (UserContext 0 0 0 [0; 0; 0; 0x80000002] 0 0) 0x1830040 0x80000002);
    [reflexivity|reflexivity|reflexivity|by left|lia].
Defined.
