(* ===== verification/GuestExceptions.v ===== *)
(** * The exceptions of a guest

    Model of the handlers of [arch/aarch64/fault.c], and of [smc.c] and [psci.c]: what the
    monitor does with each fault message of the kernel, up to the register of the guest that
    it changes and the instruction at which the guest goes on. *)

From stdpp Require Import base numbers list.
From S2P Require Import Prelude GuestFault Vgic.

(** a fault message, with the words of it that are used; other labels are unknown *)
Inductive fault_message :=
| VMFault (addr fsr ip prefetch : Z)
| UnknownSyscall (syscall fault_ip : Z)
| UserException (fault_ip number : Z)
| VGICMaintenance (idx : Z)
| VCPUFault (hsr : Z)
| VPPIEvent (irq : Z)
| OtherFault (label : Z).

Definition HSR_WFx_EXCEPTION : Z := 0x1.
Definition HSR_SMC_64_EXCEPTION : Z := 0x17.

(** ** smc.c *)
Inductive smc_call_id_t :=
| SMC_CALL_ARM_ARCH | SMC_CALL_CPU_SERVICE | SMC_CALL_SIP_SERVICE | SMC_CALL_OEM_SERVICE
| SMC_CALL_STD_SERVICE | SMC_CALL_STD_HYP_SERVICE | SMC_CALL_VENDOR_HYP_SERVICE
| SMC_CALL_TRUSTED_APP | SMC_CALL_TRUSTED_OS | SMC_CALL_RESERVED.
#[export] Instance smc_call_id_eq_dec : EqDecision smc_call_id_t.
Proof. solve_decision. Defined.

(** the service has 6 bits, so the assertion on it holds *)
Definition smc_get_call (func_id : Z) : smc_call_id_t :=
  let service := Z.land (Z.shiftr func_id 24) 0x3F in
  match service with
  | 0 => SMC_CALL_ARM_ARCH
  | 1 => SMC_CALL_CPU_SERVICE
  | 2 => SMC_CALL_SIP_SERVICE
  | 3 => SMC_CALL_OEM_SERVICE
  | 4 => SMC_CALL_STD_SERVICE
  | 5 => SMC_CALL_STD_HYP_SERVICE
  | 6 => SMC_CALL_VENDOR_HYP_SERVICE
  | _ => if service <? 48 then SMC_CALL_RESERVED
         else if service <? 50 then SMC_CALL_TRUSTED_APP
         else if service <? 64 then SMC_CALL_TRUSTED_OS
         else SMC_CALL_RESERVED
  end.

Definition get_x (i : nat) (u : seL4_UserContext) : Z := default 0 (uc_x u !! i).
Definition put_x (i : nat) (v : Z) (u : seL4_UserContext) : seL4_UserContext := set_x (<[i := v]> (uc_x u)) u.

Definition smc_get_function_number (regs : seL4_UserContext) : Z := Z.land (get_x 0 regs) 0xFFFF.
Definition smc_set_return_value (val : Z) (u : seL4_UserContext) : seL4_UserContext := put_x 0 (u64 val) u.
Definition smc_get_arg (u : seL4_UserContext) (arg : Z) : Z :=
  if (1 <=? arg) && (arg <=? 6) then get_x (Z.to_nat arg) u else 0.
Definition smc_set_arg (arg val : Z) (u : seL4_UserContext) : seL4_UserContext :=
  if (1 <=? arg) && (arg <=? 6) then put_x (Z.to_nat arg) val u else u.

(** ** psci.c *)
Definition PSCI_VERSION : Z := 0x0.
Definition PSCI_CPU_ON : Z := 0x3.
Definition PSCI_MIGRATE_INFO_TYPE : Z := 0x6.
Definition PSCI_SYSTEM_RESET : Z := 0x9.
Definition PSCI_FEATURES : Z := 0xa.
Definition PSCI_MAX : Z := 0x1f.
Definition PSCI_NOT_SUPPORTED : Z := -1.
Definition PSCI_INVALID_PARAMETERS : Z := -2.
Definition PSCI_ALREADY_ON : Z := -4.
Definition PSCI_MAJOR_VERSION (v : Z) : Z := Z.shiftl v 16.
Definition PSCI_MINOR_VERSION (v : Z) : Z := Z.land v (Z.shiftl 1 16 - 1).

(** whether the call was handled, and the registers *)
Definition handle_psci (vcpu_id : Z) (regs : seL4_UserContext) (fn_number : Z) : bool * seL4_UserContext :=
  if fn_number =? PSCI_VERSION then
    (true, smc_set_return_value (Z.lor (PSCI_MAJOR_VERSION 1) (PSCI_MINOR_VERSION 2)) regs)
  else if fn_number =? PSCI_CPU_ON then
    (true, smc_set_return_value (if smc_get_arg regs 1 =? vcpu_id then PSCI_ALREADY_ON else PSCI_INVALID_PARAMETERS) regs)
  else if fn_number =? PSCI_MIGRATE_INFO_TYPE then (true, smc_set_return_value 2 regs)
  else if fn_number =? PSCI_FEATURES then (true, smc_set_return_value PSCI_NOT_SUPPORTED regs)
  else if fn_number =? PSCI_SYSTEM_RESET then (true, regs)
  else (false, regs).

Definition handle_smc (vcpu_id : Z) (regs : seL4_UserContext) : bool * seL4_UserContext :=
  let fn_number := smc_get_function_number regs in
  if decide (smc_get_call (get_x 0 regs) = SMC_CALL_STD_SERVICE) then
    if fn_number <? PSCI_MAX then handle_psci vcpu_id regs fn_number else (false, regs)
  else (false, regs).

Section Exceptions.
Context {W : Type} `{!VmOps W}.
Context (GIC_DIST_PADDR : Z).
Abbreviation V := (M (W * vmm_t)).

(** the registers, with the error asserted to be none *)
Definition read_registers (vm : vm_ptr) : V seL4_UserContext :=
  r ← on_vm (vm_read_registers vm false SEL4_USER_CONTEXT_SIZE);
  assert_ (fst r =? 0) ;; mret (snd r).

(** ** fault.c *)
Definition fault_handle_vcpu_exception (vm : vm_ptr) (mr_hsr : Z) : V bool :=
  let hsr_ec_class := HSR_EXCEPTION_CLASS (u32 mr_hsr) in
  regs ← read_registers vm;
  if hsr_ec_class =? HSR_SMC_64_EXCEPTION then
    let '(handled, regs) := handle_smc GUEST_VCPU_ID regs in
    if (handled : bool) then fault_advance_vcpu vm regs else mret false
  else mret (hsr_ec_class =? HSR_WFx_EXCEPTION).

Definition fault_handle_vppi_event (vm : vm_ptr) (ppi_irq : Z) : V bool :=
  success ← vgic_inject_irq vm GUEST_VCPU_ID (i32 ppi_irq);
  when (negb success) (_ ← on_vm (vm_ack_vppi vm ppi_irq); mret tt) ;;
  mret true.

Definition fault_handle_user_exception (vm : vm_ptr) : V bool := on_vm (vm_dump_registers vm) ;; mret true.

Definition SYSCALL_PA_TO_IPA : Z := 65.
Definition SYSCALL_NOP : Z := 67.
Definition fault_handle_unknown_syscall (vm : vm_ptr) (syscall : Z) : V bool :=
  if (syscall =? SYSCALL_PA_TO_IPA) || (syscall =? SYSCALL_NOP) then
    regs ← read_registers vm; fault_advance_vcpu vm regs
  else mret false.

(** the last of the 16 places is never used *)
Definition fault_register_vm_exception_handler (base size callback data : Z) : V bool :=
  i ← vmm_gets vm_exception_handler_index;
  if i =? Z.of_nat MAX_VM_EXCEPTION_HANDLERS - 1 then mret false
  else if negb (base mod 0x1000 =? 0) then mret false
  else vmm_modify (fun m =>
         set_handlers (<[Z.to_nat i := VmExceptionHandler base (u64 (base + size)) callback data]>
                         (registered_vm_exception_handlers m)) (i + 1) m) ;;
       mret true.

(** the first handler of the address; whether there is one, and the registers *)
Fixpoint find_exception_handler (addr : Z) (hs : list vm_exception_handler) : option vm_exception_handler :=
  match hs with
  | [] => None
  | h :: hs => if (veh_base h <=? addr) && (addr <? veh_end h) then Some h else find_exception_handler addr hs
  end.
Definition fault_handle_registered_vm_exceptions (vcpu_id addr fsr : Z) (regs : seL4_UserContext)
  : V (bool * seL4_UserContext) :=
  hs ← vmm_gets registered_vm_exception_handlers;
  match find_exception_handler addr hs with
  | None => mret (false, regs)
  | Some h =>
      r ← on_vm (exception_callback (veh_callback h) vcpu_id (addr - veh_base h) fsr regs (veh_data h));
      mret (true, snd r)
  end.

(** the range of the distributor has its end in it *)
Definition fault_handle_vm_exception (vm : vm_ptr) (addr fsr : Z) : V bool :=
  regs ← read_registers vm;
  if (GIC_DIST_PADDR <=? addr) && (addr <=? GIC_DIST_PADDR + GIC_DIST_SIZE) then
    handle_vgic_dist_fault GIC_DIST_PADDR vm GUEST_VCPU_ID addr fsr regs
  else
    id ← on_vm (vm_get_id vm);
    r ← fault_handle_registered_vm_exceptions id addr fsr regs;
    let '(success, regs) := r : bool * seL4_UserContext in
    when success (_ ← fault_advance_vcpu vm regs; mret tt) ;;
    mret success.

Definition fault_handle (vm : vm_ptr) (msg : fault_message) : V bool :=
  success ← match msg with
            | VMFault addr fsr _ _ => fault_handle_vm_exception vm addr fsr
            | UnknownSyscall syscall _ => fault_handle_unknown_syscall vm syscall
            | UserException _ _ => fault_handle_user_exception vm
            | VGICMaintenance idx => fault_handle_vgic_maintenance vm GUEST_VCPU_ID idx
            | VCPUFault hsr => fault_handle_vcpu_exception vm hsr
            | VPPIEvent irq => fault_handle_vppi_event vm irq
            | OtherFault _ => _ ← on_vm (vm_get_id vm); on_vm (vm_suspend vm) ;; mret false
            end;
  when (negb success) (on_vm (vm_dump_registers vm) ;; on_vm (vm_dump_vcpu_registers vm)) ;;
  mret success.
End Exceptions.

(** ** Faults at the edges *)
Section Edges.
Context {W : Type} `{!VmOps W} (GIC_DIST_PADDR : Z).

(** An access to the first address behind the distributor is taken to be one to the
    distributor, whose assertion on the range then fails. *)
Lemma access_past_distributor_stops vm fsr ip prefetch regs w w' m :
  vm_read_registers vm false SEL4_USER_CONTEXT_SIZE w = (Ok (0, regs), w') ->
  stops (fault_handle GIC_DIST_PADDR vm (VMFault (GIC_DIST_PADDR + GIC_DIST_SIZE) fsr ip prefetch)) (w, m) AssertFail.
Proof.
  intros Hr. exists (w', m). unfold fault_handle, fault_handle_vm_exception, read_registers.
  apply bind_crash. erewrite bind_ok.
  2:{ erewrite bind_ok by (unfold on_vm; cbn [fst snd]; rewrite Hr; reflexivity). reflexivity. }
  rewrite (proj2 (Z.leb_le _ _)), (proj2 (Z.leb_le _ _)) by (unfold GIC_DIST_SIZE; lia). cbn [andb].
  unfold handle_vgic_dist_fault. rewrite (proj2 (Z.leb_le _ _)) by (unfold GIC_DIST_SIZE; lia).
  erewrite bind_ok by reflexivity. rewrite (proj2 (Z.ltb_ge _ _)) by lia. by apply bind_crash.
Qed.

(** What a load leaves in the zero register is what a store of the zero register writes. *)
Lemma zero_register_keeps regs addr fsr val n (s : W * vmm_t) :
  HSR_IS_SYNDROME_VALID fsr = true -> HSR_SYNDROME_RT fsr = 31 ->
  fault_emulate (wzr s.2) addr fsr val s = (Ok n, s) ->
  exists s', fault_emulate_write regs addr fsr val s = (Ok regs, s') /\ fault_get_data regs fsr s' = (Ok n, s').
Proof.
  intros Hv Hrt He. exists (s.1, set_wzr n s.2).
  unfold fault_emulate_write, fault_get_data, get_rt. rewrite Hv, Hrt. split; [|reflexivity].
  erewrite bind_ok by reflexivity. erewrite bind_ok by reflexivity. erewrite bind_ok by reflexivity.
  by rewrite (bind_ok _ _ _ _ _ He).
Qed.
End Edges.
