(* ===== verification/Vmm.v ===== *)
(** * The virtual machine monitor as a PD

    Model of [osm-vmm/vmm.c], [linux.c], [vmm_helpers.c] and of the headers with the addresses
    of the boards: the monitor is a PD whose main thread makes guests, which are PDs with an
    elevated CPU, and whose second thread waits for their faults.  The operations on a guest
    are requests to the GPI server about its CPU, an instance of [VmOps].

    The two threads have the static variables in common; each function here is run by one of
    them, which has its own slots. *)

From stdpp Require Import base numbers list strings.
From S2P Require Import Prelude Strings Badge Registry State ResourceTypes Component PdResources Resspc Mo Ads AdsRequests Elf Cpu PdObj PdComponent Ep Server Client PdUtils ResourceServer PdCreation GuestFault Vgic GuestExceptions.

(** ** vmm.h *)
Inductive board := Qemu | Odroidc4.
#[export] Instance board_eq_dec : EqDecision board.
Proof. solve_decision. Defined.
Definition on_board (b : board) (qemu odroidc4 : Z) : Z := match b with Qemu => qemu | Odroidc4 => odroidc4 end.
Definition GUEST_RAM_SIZE (b : board) : Z := on_board b 0x20000000 0x10000000.
Definition GUEST_RAM_VADDR (b : board) : Z := on_board b 0x40000000 0x20000000.
Definition GUEST_DTB_VADDR (b : board) : Z := on_board b 0x4d000000 0x2d000000.
Definition GUEST_INIT_RAM_DISK_VADDR (b : board) : Z := on_board b 0x4d700000 0x2d700000.
Definition GIC_PADDR (b : board) : Z := on_board b 0x8040000 0xffc06000.
Definition LINUX_GIC_PADDR (b : board) : Z := on_board b 0x8010000 0xffc02000.
Definition GIC_DIST_PADDR (b : board) : Z := on_board b 0x8000000 0xffc01000.
Definition SERIAL_IRQ (b : board) : Z := on_board b 33 225.
Definition SERIAL_PADDR : Z := 0x9000000.
Definition QEMU_VM_RESERVE_PADDR : Z := 0x40000000.
Definition ODROID_BUS1 : Z := 0xff600000.
Definition ODROID_BUS2 : Z := 0xff800000.
Definition ODROID_BUS3 : Z := 0xffd00000.

Definition MAX_GUEST_COUNT : nat := 5.
Definition SERIAL_IRQ_BIT : Z := 1.
Definition FAULT_BADGE_FLAG : Z := Z.shiftl 1 63.
Definition HELLO_KERNEL_NAME : list Z := chars "hellokernel.bin".
Definition HELLO_KERNEL_PC_OFFSET : Z := 0x1000000.
Definition LINUX_KERNEL_NAME : list Z := chars "linux".
Definition LINUX_DTB_NAME : list Z := chars "linux.dtb".
Definition LINUX_INITRD_NAME : list Z := chars "rootfs.cpio.gz".

(** strstr(s, t) != NULL *)
Fixpoint contains (t s : list Z) : bool :=
  bool_decide (take (length t) s = t) || match s with [] => false | _ :: s => contains t s end.

(** ** osm-vmm.h and the static variables of vmm.c *)
Record vm_context_t := VmContext { vm_id : Z; vm_runnable : sel4gpi_runnable_t }.
Record vmon_context_t := VmonContext {
  vm_fault_ep : ep_conn_t;
  fault_thread_runnable : sel4gpi_runnable_t;
  serial_irq_handler : Z;
  guest_id_counter : Z
}.
Record vmon_fault_context_t := VmonFaultContext {
  fault_vm_fault_ep : ep_conn_t;
  fault_serial_irq_handler : Z;
  guests : list vm_ptr
}.
(** with the contexts that were allocated, which are never freed, and the calls to calloc *)
Record osm_vmm := OsmVmm {
  vmon_ctxt : vmon_context_t;
  vmon_fault_ctxt : vmon_fault_context_t;
  vms : list vm_context_t;
  vmm_mallocs : nat
}.
Definition runnable_none : sel4gpi_runnable_t := Runnable conn_zero conn_zero conn_zero.
Definition vmon_context_zero : vmon_context_t := VmonContext ep_conn_zero runnable_none 0 0.
Definition set_vmon_ctxt (f : vmon_context_t -> vmon_context_t) (x : osm_vmm) : osm_vmm :=
  OsmVmm (f (vmon_ctxt x)) (vmon_fault_ctxt x) (vms x) (vmm_mallocs x).
Definition set_vmon_fault_ctxt (f : vmon_fault_context_t -> vmon_fault_context_t) (x : osm_vmm) : osm_vmm :=
  OsmVmm (vmon_ctxt x) (f (vmon_fault_ctxt x)) (vms x) (vmm_mallocs x).
Definition set_vms (f : list vm_context_t -> list vm_context_t) (x : osm_vmm) : osm_vmm :=
  OsmVmm (vmon_ctxt x) (vmon_fault_ctxt x) (f (vms x)) (vmm_mallocs x).
Definition set_vm_fault_ep (v : ep_conn_t) (x : vmon_context_t) : vmon_context_t :=
  VmonContext v (fault_thread_runnable x) (serial_irq_handler x) (guest_id_counter x).
Definition set_fault_thread (v : sel4gpi_runnable_t) (x : vmon_context_t) : vmon_context_t :=
  VmonContext (vm_fault_ep x) v (serial_irq_handler x) (guest_id_counter x).
Definition set_serial_irq_handler (v : Z) (x : vmon_context_t) : vmon_context_t :=
  VmonContext (vm_fault_ep x) (fault_thread_runnable x) v (guest_id_counter x).
Definition set_guest_id_counter (v : Z) (x : vmon_context_t) : vmon_context_t :=
  VmonContext (vm_fault_ep x) (fault_thread_runnable x) (serial_irq_handler x) v.
Definition set_listening_ep (v : ep_conn_t) (x : vmon_fault_context_t) : vmon_fault_context_t :=
  VmonFaultContext v (fault_serial_irq_handler x) (guests x).
Definition set_fault_serial (v : Z) (x : vmon_fault_context_t) : vmon_fault_context_t :=
  VmonFaultContext (fault_vm_fault_ep x) v (guests x).
Definition set_guests (v : list vm_ptr) (x : vmon_fault_context_t) : vmon_fault_context_t :=
  VmonFaultContext (fault_vm_fault_ep x) (fault_serial_irq_handler x) v.

(** members of a configuration *)
Definition set_cpu_prio (v : Z) (x : pd_config_t) : pd_config_t :=
  PdConfig (osm_data_mo x) (ads_cfg x) (rde_cfg x) (gpi_res_type_cfg x) (elevated_cpu x) (link_with_current x)
    (pc_fault_ep x) (fault_ep_badge x) v.
Definition set_elevated (v : bool) (x : pd_config_t) : pd_config_t :=
  PdConfig (osm_data_mo x) (ads_cfg x) (rde_cfg x) (gpi_res_type_cfg x) v (link_with_current x)
    (pc_fault_ep x) (fault_ep_badge x) (cpu_prio x).
Definition set_fault_ep_badge (v : Z) (x : pd_config_t) : pd_config_t :=
  PdConfig (osm_data_mo x) (ads_cfg x) (rde_cfg x) (gpi_res_type_cfg x) (elevated_cpu x) (link_with_current x)
    (pc_fault_ep x) v (cpu_prio x).
Definition set_ac_entry_point (v : Z) (x : ads_config_t) : ads_config_t := AdsConfig (image_name x) v (vmr_cfgs x).

(** ** linux.c and dtb.h *)
Definition LINUX_IMAGE_MAGIC : Z := 0x644d5241.
Definition DTB_MAGIC : Z := 0xEDFE0DD0.
Definition read_u32 (f : Z -> Z) (a : Z) : Z := load_word f a mod 2 ^ 32.
(** the members of struct linux_image_header *)
Definition header_text_offset (f : Z -> Z) (header : Z) : Z := load_word f (header + 8).
Definition header_magic (f : Z -> Z) (header : Z) : Z := read_u32 f (header + 56).
Definition dtb_check_magic (f : Z -> Z) (h : Z) : bool := read_u32 f h =? DTB_MAGIC.

(** two ranges of addresses, each with its end *)
Definition disjoint_ranges (start1 end1 start2 end2 : Z) : bool := (end2 <=? start1) || (end1 <=? start2).

Section Images.
Context {K A : Type} (b : board).
(** libcpio: the address and the size of a file in the archive, 0 and 0 when there is none *)
Context (cpio_get_file : list Z -> Z * Z).
Abbreviation P := (M (process K A)).

(** a struct at an address that may be NULL *)
Definition deref_address (a : Z) : P (Z -> Z) := if a =? 0 then crash NullDeref else gets memory.

(** the address of the kernel, or 0 *)
Definition linux_setup_images (ram_start kernel kernel_size dtb_src dtb_dest dtb_size initrd_src initrd_dest initrd_size : Z)
  : P Z :=
  let dtb_end := u64 (dtb_dest + dtb_size) in
  let kernel_end := u64 (kernel + kernel_size) in
  let initrd_end := u64 (initrd_dest + initrd_size) in
  if negb (disjoint_ranges dtb_dest dtb_end kernel kernel_end) then mret 0 else
  if negb (disjoint_ranges initrd_dest initrd_end kernel kernel_end) then mret 0 else
  if negb (disjoint_ranges initrd_dest initrd_end dtb_dest dtb_end) then mret 0 else
  f ← deref_address kernel;
  assert_ (header_magic f kernel =? LINUX_IMAGE_MAGIC) ;;
  let kernel_dest := u64 (ram_start + header_text_offset f kernel) in
  assert_ (Z.land ram_start (Z.shiftl 1 20 - 1) =? 0) ;;
  memcpy kernel_dest kernel kernel_size ;;
  f ← deref_address dtb_src;
  assert_ (dtb_check_magic f dtb_src) ;;
  assert_ (dtb_size <=? Z.shiftl 1 21) ;;
  assert_ (dtb_dest mod 0x8 =? 0) ;;
  memcpy dtb_dest dtb_src dtb_size ;;
  memcpy initrd_dest initrd_src initrd_size ;;
  mret kernel_dest.

(** ** vmm_helpers.c *)
Definition linux_copy_kernel_image (guest_ram_curr_vspace : Z) (kernel_image_name : list Z) (offset : Z) : P Z :=
  let '(kernel, kernel_size) := cpio_get_file kernel_image_name in
  let '(dtb, dtb_size) := cpio_get_file LINUX_DTB_NAME in
  let '(initrd, initrd_size) := cpio_get_file LINUX_INITRD_NAME in
  let dtb_dest := u64 (guest_ram_curr_vspace + (GUEST_DTB_VADDR b - GUEST_RAM_VADDR b)) in
  let initrd_dest := u64 (guest_ram_curr_vspace + (GUEST_INIT_RAM_DISK_VADDR b - GUEST_RAM_VADDR b)) in
  pc ← linux_setup_images guest_ram_curr_vspace kernel kernel_size dtb dtb_dest dtb_size initrd initrd_dest initrd_size;
  mret (u64 (GUEST_RAM_VADDR b + (pc - guest_ram_curr_vspace))).
Definition generic_copy_kernel_image (guest_ram_curr_vspace : Z) (kernel_image_name : list Z) (offset : Z) : P Z :=
  let '(kernel, kernel_size) := cpio_get_file kernel_image_name in
  memcpy (u64 (guest_ram_curr_vspace + offset)) kernel kernel_size ;;
  mret (u64 (GUEST_RAM_VADDR b + offset)).
End Images.

Section Vmm.
Context {K : Type} `{!Kernel K} (N : nanopb) (R : reservation_types) (L : runtime).
Context (MO_LARGE_PAGE_BITS pd_cnode_guard start_addr STACK_CALL_ALIGNMENT : Z).
Context (b : board) (cpio_get_file : list Z -> Z * Z) (CONFIG_MAX_NUM_NODES : nat).
(** calloc; BYTES_TO_SIZE_BITS_PAGES of libutils; the words of a seL4_UserContext *)
Context (malloc_fails : nat -> bool) (bytes_to_size_bits_pages : Z -> Z -> Z) (regs_words : seL4_UserContext -> list Z).
(** the kernel: the registers and the fault in the message that was received last, the
    acknowledgement of an interrupt, the answer to a fault *)
Context (received_registers : K -> seL4_UserContext) (received_fault : K -> fault_message).
Context (irq_handler_ack : Z -> M K Z) (seL4_Reply : M K unit).
(** the address of handle_fault *)
Context (handle_fault_addr : Z).
Abbreviation P := (M (process K osm_vmm)).
Abbreviation V := (M (process K osm_vmm * vmm_t)).

Definition vmm_try_calloc (a : osm_vmm) : bool * osm_vmm :=
  (negb (malloc_fails (vmm_mallocs a)), OsmVmm (vmon_ctxt a) (vmon_fault_ctxt a) (vms a) (S (vmm_mallocs a))).
Definition get_ctxt : P vmon_context_t := gets (fun p => vmon_ctxt (program p)).
Definition get_fault_ctxt : P vmon_fault_context_t := gets (fun p => vmon_fault_ctxt (program p)).
Definition with_ctxt (f : vmon_context_t -> vmon_context_t) : P unit := prog_modify (set_vmon_ctxt f).
Definition with_fault_ctxt (f : vmon_fault_context_t -> vmon_fault_context_t) : P unit :=
  prog_modify (set_vmon_fault_ctxt f).

(** the context of a guest *)
Definition deref_vm (vm : vm_ptr) : P vm_context_t :=
  i ← deref vm;
  l ← gets (fun p => vms (program p));
  match l !! i with Some c => mret c | None => crash UseAfterFree end.
Definition vm_cpu (vm : vm_ptr) : P conn_t := c ← deref_vm vm; mret (rn_cpu (vm_runnable c)).
Definition put_vm (i : nat) (c : vm_context_t) : P unit := prog_modify (set_vms (fun l => <[i := c]> l)).

(** ** Operations on a guest *)
Definition osm_vm_resume (vm : vm_ptr) : P unit := cpu ← vm_cpu vm; _ ← cpu_client_resume N cpu; mret tt.
Definition osm_vm_suspend (vm : vm_ptr) : P unit := cpu ← vm_cpu vm; _ ← cpu_client_suspend N cpu; mret tt.
Definition osm_vm_write_registers (vm : vm_ptr) (resume : bool) (regs : seL4_UserContext) (num_regs : Z) : P Z :=
  cpu ← vm_cpu vm; cpu_client_write_registers N cpu (regs_words regs) (Z.to_nat num_regs) resume.
(** the registers when the call did not fail; neither argument but the guest is used *)
Definition osm_vm_read_registers (vm : vm_ptr) (suspend : bool) (num_regs : Z) : P (Z * seL4_UserContext) :=
  cpu ← vm_cpu vm;
  r ← cpu_client_read_registers N cpu;
  k ← gets kernel;
  mret (fst r, received_registers k).
Definition osm_vm_dump_registers (vm : vm_ptr) : P unit := cpu ← vm_cpu vm; _ ← cpu_client_read_registers N cpu; mret tt.
Definition osm_vm_dump_vcpu_registers (vm : vm_ptr) : P unit :=
  cpu ← vm_cpu vm; _ ← cpu_client_read_vcpu_regs N cpu; mret tt.
Definition osm_vm_get_id (vm : vm_ptr) : P Z := c ← deref_vm vm; mret (vm_id c).
Definition osm_vm_inject_irq (vm : vm_ptr) (virq prio group idx : Z) : P Z :=
  cpu ← vm_cpu vm; cpu_client_inject_irq N cpu virq prio group idx.
Definition osm_vm_ack_vppi (vm : vm_ptr) (irq : Z) : P Z := cpu ← vm_cpu vm; cpu_client_ack_vppi N cpu irq.

(** the cookie says which thread runs it *)
Definition serial_ack (vm : vm_ptr) (irq cookie : Z) : P unit :=
  c ← get_ctxt;
  f ← get_fault_ctxt;
  _ ← syscall (irq_handler_ack (if negb (cookie =? 0) then fault_serial_irq_handler f else serial_irq_handler c));
  mret tt.

(** no handler of exceptions is registered *)
#[export] Instance osm_vm_ops : VmOps (process K osm_vmm) := {|
  vm_get_id := osm_vm_get_id;
  vm_suspend := osm_vm_suspend;
  vm_write_registers := osm_vm_write_registers;
  vm_read_registers := osm_vm_read_registers;
  vm_dump_registers := osm_vm_dump_registers;
  vm_dump_vcpu_registers := osm_vm_dump_vcpu_registers;
  vm_inject_irq := osm_vm_inject_irq;
  vm_ack_vppi := osm_vm_ack_vppi;
  vm_serial_ack := serial_ack;
  exception_callback _ _ _ _ _ _ := crash NullDeref
|}.

(** ** The thread that handles faults *)

(** one message; [vm] is the guest of the last fault *)
Definition handle_fault_message (vm : vm_ptr) (badge : Z) : V vm_ptr :=
  if negb (Z.land FAULT_BADGE_FLAG badge =? 0) then
    let vm_id := u32 (Z.land badge (Z.lnot FAULT_BADGE_FLAG)) in
    if (vm_id =? 0) || (Z.of_nat MAX_GUEST_COUNT <=? vm_id) then mret vm else
    f ← on_vm get_fault_ctxt;
    k ← gets (fun s => kernel s.1);
    match guests f !! Z.to_nat vm_id with
    | None => crash OutOfBounds
    | Some vm =>
        assert_ (bool_decide (is_Some vm)) ;;
        _ ← fault_handle (GIC_DIST_PADDR b) vm (received_fault k);
        on_vm (syscall seL4_Reply) ;;
        mret vm
    end
  else if negb (Z.land badge SERIAL_IRQ_BIT =? 0) then
    _ ← virq_inject vm GUEST_VCPU_ID (SERIAL_IRQ b); mret vm
  else mret vm.
(** [n] rounds of the loop, which never ends *)
Fixpoint handle_fault_loop (n : nat) (vm : vm_ptr) : V vm_ptr :=
  match n with
  | O => mret vm
  | S n =>
      f ← on_vm get_fault_ctxt;
      r ← on_vm (syscall (k_recv (raw_endpoint (fault_vm_fault_ep f))));
      vm ← handle_fault_message vm (fst r);
      handle_fault_loop n vm
  end.
Definition handle_fault (n : nat) : V unit :=
  f ← on_vm get_fault_ctxt;
  r ← on_vm (ep_client_get_raw_endpoint N (fault_vm_fault_ep f));
  let '(error, ep) := r : Z * ep_conn_t in
  on_vm (with_fault_ctxt (set_listening_ep ep)) ;;
  if negb (error =? 0) then mret tt else _ ← handle_fault_loop n None; mret tt.

(** ** Starting the monitor *)

(** ep_client_context_t in the data of the GPI server: its second member is [conn_id] *)
Definition fault_handler_ep : P ep_conn_t := c ← sel4gpi_get_fault_ep_conn; mret (EpConn (conn_ep c) (conn_id c)).

Abbreviation prepare_pd := (sel4gpi_prepare_pd N R L MO_LARGE_PAGE_BITS pd_cnode_guard start_addr STACK_CALL_ALIGNMENT
  vmm_try_calloc).

(** the thread with its endpoint and its interrupt *)
Definition start_fault_thread : P Z :=
  ep ← fault_handler_ep;
  c ← get_ctxt;
  r ← sel4gpi_configure_thread N R vmm_try_calloc handle_fault_addr (Some ep) (fault_thread_runnable c);
  let '(t_cfg, runnable) := r : option pd_config_t * sel4gpi_runnable_t in
  with_ctxt (set_fault_thread runnable) ;;
  match t_cfg with
  | None => mret 1
  | Some t_cfg =>
      r ← pd_client_send_cap N (rn_pd runnable) (ep_conn_ep (vm_fault_ep c));
      let '(error, slot) := r : Z * option Z in
      (match slot with
       | Some slot => with_fault_ctxt (fun f => set_listening_ep (EpConn slot (raw_endpoint (fault_vm_fault_ep f))) f)
       | None => mret tt
       end) ;;
      if negb (error =? 0) then mret error else
      r ← prepare_pd (set_cpu_prio 1 t_cfg) runnable 0 None;
      if negb (fst r =? 0) then mret (fst r) else
      error ← sel4gpi_start_pd N runnable;
      if negb (error =? 0) then mret error else
      r ← pd_client_irq_handler_bind N (rn_pd runnable) (SERIAL_IRQ b) SERIAL_IRQ_BIT true;
      let '(error, slots) := r : Z * option (Z * Z) in
      (match slots with
       | Some (slot, slot_holder) =>
           with_fault_ctxt (set_fault_serial slot) ;; with_ctxt (set_serial_irq_handler slot_holder)
       | None => mret tt
       end) ;;
      mret error
  end.
Definition osm_vmm_init : V Z :=
  on_vm (with_ctxt (fun _ => set_guest_id_counter 1 vmon_context_zero)) ;;
  error ← vmm_init_virq (SERIAL_IRQ b) CONFIG_MAX_NUM_NODES GUEST_VCPU_ID (Some SerialAck) 1;
  if negb (error =? 0) then mret error else
  ep_rde ← on_vm (sel4gpi_get_rde GPICAP_TYPE_EP);
  r ← on_vm (ep_component_client_connect N ep_rde);
  let '(error, ep) := r : Z * option ep_conn_t in
  (match ep with Some ep => on_vm (with_ctxt (set_vm_fault_ep ep)) | None => mret tt end) ;;
  if negb (error =? 0) then mret error else on_vm start_fault_thread.

(** ** Making a guest *)
Abbreviation add_vmr := (sel4gpi_add_vmr_config vmm_try_calloc).
(** a region of a device: its memory object, and its place in the guest; only on one of the
    boards is the error looked at *)
Definition add_device (cfg : ads_config_t) (mo_rde type vaddr paddr pages : Z) (checked : bool) : P (Z * ads_config_t) :=
  r ← mo_component_client_connect_paddr N mo_rde pages MO_PAGE_BITS paddr;
  let '(error, mo) := r : Z * option conn_t in
  if checked && negb (error =? 0) then mret (error, cfg) else
  cfg ← add_vmr cfg GPI_DISJOINT type vaddr 0 pages MO_PAGE_BITS (Some (default conn_zero mo));
  mret (error, cfg).
Definition add_board_devices (cfg : ads_config_t) (mo_rde : Z) : P (Z * ads_config_t) :=
  match b with
  | Qemu => add_device cfg mo_rde (RES_TYPE_GENERIC R) SERIAL_PADDR SERIAL_PADDR 1 false
  | Odroidc4 =>
      let two_mb_pages := bytes_to_size_bits_pages (2 * 2 ^ 20) MO_PAGE_BITS in
      let one_mb_pages := bytes_to_size_bits_pages (2 ^ 20) MO_PAGE_BITS in
      let device cfg paddr pages := add_device cfg mo_rde (RES_TYPE_DEVICE R) paddr paddr pages true in
      r ← device cfg ODROID_BUS1 two_mb_pages;
      let '(error, cfg) := r : Z * ads_config_t in
      if negb (error =? 0) then mret (error, cfg) else
      r ← device cfg ODROID_BUS2 two_mb_pages;
      let '(error, cfg) := r : Z * ads_config_t in
      if negb (error =? 0) then mret (error, cfg) else device cfg ODROID_BUS3 one_mb_pages
  end.
(** the RAM of the guest, as it is in the address space of the monitor *)
Definition get_guest_ram (vmr_rde pages : Z) : P (Z * option conn_t) :=
  match b with
  | Qemu => sel4gpi_get_vmr_at_paddr N MO_LARGE_PAGE_BITS vmr_rde pages 0 (RES_TYPE_GENERIC R) MO_LARGE_PAGE_BITS
              QEMU_VM_RESERVE_PADDR
  | Odroidc4 => sel4gpi_get_vmr N MO_LARGE_PAGE_BITS vmr_rde pages (GUEST_RAM_VADDR b) (RES_TYPE_GENERIC R)
                  MO_LARGE_PAGE_BITS
  end.
(** the error is that of the devices, which on one board is not looked at *)
Definition configure_guest_pd (vm_cfg : option pd_config_t) (kernel_img_name : list Z) (kernel_img_offset : Z)
    (kernel_img_cp_fn : Z -> list Z -> Z -> P Z) (guest_id : Z) : P (Z * option pd_config_t) :=
  mo_rde ← sel4gpi_get_rde GPICAP_TYPE_MO;
  if mo_rde =? CapNull then mret (1, vm_cfg) else
  vmr_rde ← sel4gpi_get_bound_vmr_rde;
  if vmr_rde =? CapNull then mret (1, vm_cfg) else
  let guest_ram_pages := bytes_to_size_bits_pages (GUEST_RAM_SIZE b) MO_LARGE_PAGE_BITS in
  r ← get_guest_ram vmr_rde guest_ram_pages;
  let '(guest_ram_curr_vspace, guest_ram_mo) := r : Z * option conn_t in
  if guest_ram_curr_vspace =? 0 then mret (1, vm_cfg) else
  kernel_pc_vm_vspace ← kernel_img_cp_fn guest_ram_curr_vspace kernel_img_name kernel_img_offset;
  cfg ← deref vm_cfg;
  let ending r := let '(error, ads) := r : Z * ads_config_t in (error, Some (set_ads_cfg ads cfg)) in
  r ← add_board_devices (ads_cfg cfg) mo_rde;
  let '(error, ads) := r : Z * ads_config_t in
  if bool_decide (b = Odroidc4) && negb (error =? 0) then mret (ending r) else
  r ← (if decide (kernel_img_name = LINUX_KERNEL_NAME)
       then add_device ads mo_rde (RES_TYPE_DEVICE R) (LINUX_GIC_PADDR b) (GIC_PADDR b) 1 true
       else mret r);
  let '(gic_error, ads) := r : Z * ads_config_t in
  if bool_decide (kernel_img_name = LINUX_KERNEL_NAME) && negb (gic_error =? 0) then mret (ending r) else
  ads ← add_vmr ads GPI_DISJOINT (RES_TYPE_GENERIC R) (GUEST_RAM_VADDR b) 0 guest_ram_pages MO_LARGE_PAGE_BITS guest_ram_mo;
  c ← get_ctxt;
  let cfg := set_ads_cfg (set_ac_entry_point kernel_pc_vm_vspace ads) cfg in
  let cfg := set_fault_ep_badge (Z.lor FAULT_BADGE_FLAG guest_id) (set_pc_fault_ep (vm_fault_ep c)
      (set_elevated true cfg)) in
  mret (gic_error, Some (set_link_with_current true (set_cpu_prio 1 cfg))).

(** a slot of the main thread is replaced by one of the thread for faults *)
Definition give_to_fault_thread (conn : conn_t) : P (Z * conn_t) :=
  c ← get_ctxt;
  r ← pd_client_send_cap N (rn_pd (fault_thread_runnable c)) (conn_ep conn);
  mret (fst r, match snd r with Some slot => Conn (conn_id conn) slot | None => conn end).

(** the guest is entered, and its slots replaced *)
Definition enter_guest (vm : nat) (guest_id : Z) : P Z :=
  f ← get_fault_ctxt;
  if (Z.to_nat guest_id <? length (guests f))%nat then
    with_fault_ctxt (set_guests (<[Z.to_nat guest_id := Some vm]> (guests f))) ;;
    with_ctxt (fun c => set_guest_id_counter (u32 (guest_id_counter c + 1)) c) ;;
    v ← deref_vm (Some vm);
    let run := vm_runnable v in
    cpu ← give_to_fault_thread (rn_cpu run);
    ads ← give_to_fault_thread (rn_ads run);
    pd ← give_to_fault_thread (rn_pd run);
    put_vm vm (VmContext guest_id (Runnable (snd pd) (snd ads) (snd cpu))) ;;
    mret (Z.lor (Z.lor (fst cpu) (fst ads)) (fst pd))
  else crash OutOfBounds.

(** the error; the argument of a Linux guest is in a variable of a block that was left, and
    is taken to be still there *)
Definition make_guest (vm : nat) (guest_id : Z) (kernel_image : list Z) (vm_cfg : option pd_config_t) : P Z :=
  let linux := contains (chars "linux") kernel_image in
  let offset := if linux then 0 else if decide (kernel_image = HELLO_KERNEL_NAME) then HELLO_KERNEL_PC_OFFSET else 0 in
  let cp_fn := if linux then linux_copy_kernel_image b cpio_get_file else generic_copy_kernel_image b cpio_get_file in
  r ← configure_guest_pd vm_cfg kernel_image offset cp_fn guest_id;
  let '(error, vm_cfg) := r : Z * option pd_config_t in
  if negb (error =? 0) then mret error else
  cfg ← deref vm_cfg;
  v ← deref_vm (Some vm);
  r ← (if linux then prepare_pd cfg (vm_runnable v) 1 (Some [GUEST_DTB_VADDR b])
       else prepare_pd cfg (vm_runnable v) 0 None);
  if negb (fst r =? 0) then mret (fst r) else
  serial_ack (Some vm) (SERIAL_IRQ b) 0 ;;
  error ← sel4gpi_start_pd N (vm_runnable v);
  if negb (error =? 0) then mret error else enter_guest vm guest_id.
(** the identifier of the guest, or 0.  When there are too many guests the configuration that
    is destroyed at the end is read before it is set; a context without memory is written *)
Definition osm_new_guest (kernel_image : list Z) : P Z :=
  c ← get_ctxt;
  let guest_id := guest_id_counter c in
  if Z.of_nat MAX_GUEST_COUNT <=? guest_id then crash Uninitialized else
  ok ← calloc vmm_try_calloc;
  if negb ok then crash NullDeref else
  vm ← gets (fun p => length (vms (program p)));
  prog_modify (set_vms (fun l => l ++ [VmContext 0 runnable_none])) ;;
  r ← sel4gpi_new_runnable N vmm_try_calloc true true runnable_none;
  let '(vm_cfg, runnable) := r : option pd_config_t * sel4gpi_runnable_t in
  put_vm vm (VmContext 0 runnable) ;;
  error ← make_guest vm guest_id kernel_image vm_cfg;
  (* sel4gpi_config_destroy *)
  _ ← deref vm_cfg;
  mret (if error =? 0 then guest_id else 0).
End Vmm.

(** ** Limits *)
Section Limits.
Context {K : Type} `{!Kernel K} (N : nanopb) (R : reservation_types) (L : runtime).
Context (MO_LARGE_PAGE_BITS pd_cnode_guard start_addr STACK_CALL_ALIGNMENT : Z) (b : board).
Context (cpio_get_file : list Z -> Z * Z) (malloc_fails : nat -> bool) (bytes_to_size_bits_pages : Z -> Z -> Z).
Context (irq_handler_ack : Z -> M K Z).

(** The request for a guest beyond the last reads a variable that it has not set. *)
Lemma one_guest_too_many kernel_image p :
  Z.of_nat MAX_GUEST_COUNT <= guest_id_counter (vmon_ctxt (program p)) ->
  stops (osm_new_guest N R L MO_LARGE_PAGE_BITS pd_cnode_guard start_addr STACK_CALL_ALIGNMENT b cpio_get_file
           malloc_fails bytes_to_size_bits_pages irq_handler_ack kernel_image) p Uninitialized.
Proof.
  intros Hc. exists p. unfold osm_new_guest. erewrite bind_ok by reflexivity.
  by rewrite (proj2 (Z.leb_le _ _) Hc).
Qed.
End Limits.
