(* ===== verification/VmmLoop.v ===== *)
(** * The loop of the monitor

    What the thread for faults does with the messages it receives: each message of a guest,
    or of the serial device, is events of the interrupt controller, and through its requests
    to the GPI server the monitor does with a sequence of messages what the queue of VgicSpec
    does with their events. *)

From stdpp Require Import base numbers list gmap.
From S2P Require Import Prelude Badge Registry State ResourceTypes Component PdResources Resspc Mo Ads AdsRequests Elf Cpu PdObj PdComponent Ep Server Client PdUtils ResourceServer PdCreation GuestFault Vgic VgicSpec VgicDelivery VgicRegisters GuestExceptions Vmm.

(** ** Messages and their events *)

(** what the thread for faults receives: the serial interrupt, or a fault of the guest, with the
    registers that the guest has then *)
Inductive occurrence := SerialInterrupt | GuestFault (f : fault_message) (regs : seL4_UserContext).
Definition is_fault (o : occurrence) : bool := match o with GuestFault _ _ => true | _ => false end.

Section Events.
Context (b : board).

(** the events of a store of a word: of 1 or 0 to the control register, or to the registers
    that are sets of interrupts *)
Definition store_events (offset data : Z) : option (list vgic_event) :=
  if offset =? 0 then
    if data =? GIC_ENABLED then Some [Switched true] else if data =? 0 then Some [Switched false] else None
  else
    '(first, ev) ← List.find (fun r => (fst r <=? offset) && (offset <? fst r + 0x80)) set_registers_events;
    let k := (offset - first) / 4 in
    if offset =? first + 4 * k then Some (ev <$> ((fun bit => bit + 32 * k) <$> bits_of data)) else None.
(** the events of a message; [None] for those that are about something else, and for accesses
    to the distributor that are not of a word or not with one of the registers x0 to x30 *)
Definition message_events (o : occurrence) : option (list vgic_event) :=
  match o with
  | SerialInterrupt => Some [Arrives (SERIAL_IRQ b)]
  | GuestFault (VGICMaintenance idx) _ => if (0 <=? idx) && (idx <? 2 ^ 31) then Some [Maintained (Z.to_nat idx)] else None
  | GuestFault (VPPIEvent irq) _ => Some [Arrives irq]
  | GuestFault (VMFault addr fsr _ _) regs =>
      let offset := addr - GIC_DIST_PADDR b in
      if bool_decide (access_width fsr = Some 32) && (0 <=? offset) && (offset <? GIC_DIST_SIZE) && (offset mod 4 =? 0) then
        data ← stored regs fsr; if fault_is_write fsr then store_events offset (u32 data) else Some []
      else None
  | GuestFault (VCPUFault hsr) _ => if HSR_EXCEPTION_CLASS (u32 hsr) =? HSR_WFx_EXCEPTION then Some [] else None
  | _ => None
  end.
Definition messages_events (l : list occurrence) : option (list vgic_event) :=
  @concat vgic_event <$> mapM message_events l.
End Events.

Lemma can_happen_app st es es' : can_happen_all st (es ++ es') <-> can_happen_all st es /\
    can_happen_all (s_events es st) es'.
Proof.
  revert st. induction es as [|e es IH]; intros st; cbn; [tauto|]. rewrite IH. unfold s_events. cbn. tauto.
Qed.
Lemma s_events_app es es' st : s_events (es ++ es') st = s_events es' (s_events es st).
Proof. apply foldl_app. Qed.

(** ** The thread and its environment *)
Section Loop.
Context {K : Type} `{!Kernel K} (N : nanopb) (b : board).
Context (regs_words : seL4_UserContext -> list Z) (received_registers : K -> seL4_UserContext).
Context (received_fault : K -> fault_message) (irq_handler_ack : Z -> M K Z) (seL4_Reply : M K unit).
(** the guest: its identifier, its place among the contexts, and the slots of its CPU and of
    the endpoint of the thread *)
Context (guest_id : Z) (vm : nat) (cpu fault_ep : Z).
Abbreviation PROC := (process K osm_vmm).
#[local] Instance the_ops : VmOps PROC := osm_vm_ops N regs_words received_registers irq_handler_ack.

Definition badge_of (o : occurrence) : Z :=
  match o with SerialInterrupt => SERIAL_IRQ_BIT | GuestFault _ _ => Z.lor FAULT_BADGE_FLAG guest_id end.

(** the requests that handling a message makes *)
Definition served (m : CpuMessage) : Prop :=
  match m with CpuInjectIrq _ _ _ _ | CpuAckVppi _ | CpuWriteRegisters _ _ | CpuReadRegisters => True | _ => False end.

(** a kernel in which [waiting l] holds has the messages [l], in this order; in one in which
    [during o l] holds the message [o] was received, which for a fault has to be answered
    before the messages [l] come; requests about the CPU of the guest are answered without
    an error *)
Record environment (waiting : list occurrence -> K -> Prop) (during : occurrence -> list occurrence -> K -> Prop) : Prop :=
  Environment {
  env_recv : forall o l k, waiting (o :: l) k -> exists words k',
    k_recv fault_ep k = (Ok (badge_of o, words), k') /\ during o l k' /\
    match o with GuestFault f _ => received_fault k' = f | SerialInterrupt => True end;
  env_call : forall o l k m, during o l k -> served m -> exists words answer reply k',
    encode_request N CpuComponent (CPU_RPC_MAGIC, m) = Some words /\ k_call cpu words [] k = (Ok (0, answer), k') /\
    decode_reply N CpuComponent answer = Some (0, reply) /\ during o l k' /\
    (m = CpuReadRegisters -> exists n, reply = CpuReadRegistersReturn n /\
       match o with GuestFault _ regs => received_registers k' = regs | SerialInterrupt => True end);
  env_reply : forall f regs l k, during (GuestFault f regs) l k -> exists k', seL4_Reply k = (Ok tt, k') /\ waiting l k';
  env_no_reply : forall l k, during SerialInterrupt l k -> waiting l k;
  env_ack : forall o l k slot, during o l k -> exists e k', irq_handler_ack slot k = (Ok e, k') /\ during o l k';
  env_words : forall regs, length (regs_words regs) = 36%nat
}.
Context (waiting : list occurrence -> K -> Prop) (during : occurrence -> list occurrence -> K -> Prop).
Context (HE : environment waiting during).

(** the guest is entered, its CPU has its slot, the thread its endpoint *)
Definition guest_known (a : osm_vmm) : Prop := exists c,
  vms a !! vm = Some c /\ conn_ep (rn_cpu (vm_runnable c)) = cpu /\
  guests (vmon_fault_ctxt a) !! Z.to_nat guest_id = Some (Some vm) /\
  raw_endpoint (fault_vm_fault_ep (vmon_fault_ctxt a)) = fault_ep.
Definition in_message (o : occurrence) (l : list occurrence) (p : PROC) : Prop :=
  during o l (kernel p) /\ guest_known (program p).
(** between messages *)
Definition at_recv (l : list occurrence) (p : PROC) : Prop := waiting l (kernel p) /\ guest_known (program p).

Section Message.
Context (o : occurrence) (l : list occurrence).
#[local] Instance in_message_alive : Alive PROC := in_message o l.

(** a system call after which the kernel is at the same message *)
Lemma syscall_alive {B} (m : M K B) (r : B) k' (p : PROC) : m (kernel p) = (Ok r, k') -> during o l k' ->
  alive p -> syscall m p = (Ok r, set_kernel k' p) /\ alive (set_kernel k' p).
Proof. intros Hm Hd [_ Hg]. split; [|by split]. unfold syscall. by rewrite Hm. Qed.
Lemma call_runs conn m (p : PROC) : conn_ep conn = cpu -> served m -> alive p -> exists reply p',
  component_call N CpuComponent (conn_ep conn) (CPU_RPC_MAGIC, m) [] p = (Ok (0, Some (0, reply)), p') /\ alive p' /\
  (m = CpuReadRegisters -> exists n, reply = CpuReadRegistersReturn n /\
     match o with GuestFault _ regs => received_registers (kernel p') = regs | SerialInterrupt => True end).
Proof.
  intros Hc Hm Hp. destruct (env_call _ _ HE o l (kernel p) m (proj1 Hp) Hm) as
      (words & answer & reply & k' & Henc & Hk & Hdec & Hd & Hr).
  destruct (syscall_alive _ _ _ p Hk Hd Hp) as [Hs Hp']. exists reply, (set_kernel k' p). split; [|by split].
  unfold component_call, sel4gpi_rpc_call. rewrite Henc, Hc, (bind_ok _ _ _ _ _ Hs). cbn [Z.eqb negb]. by rewrite Hdec.
Qed.
Lemma command_runs conn m : conn_ep conn = cpu -> served m -> vm_acts (cpu_command N conn m []) 0.
Proof.
  intros Hc Hm p Hp. destruct (call_runs conn m p Hc Hm Hp) as (reply & p' & Hcall & Hp' & _). exists p'. split; [|done].
  unfold cpu_command, command, transact. rewrite bind_assoc, (bind_ok _ _ _ _ _ Hcall). reflexivity.
Qed.
Lemma vm_cpu_runs {B} (k : conn_t -> M PROC B) r : (forall conn, conn_ep conn = cpu -> vm_acts (k conn) r) ->
  vm_acts (c ← vm_cpu (Some vm); k c) r.
Proof.
  intros H p Hp. pose proof (proj2 Hp) as (c & Hvm & Hcpu & _). destruct (H _ Hcpu p Hp) as (p' & E & Hp').
  exists p'. split; [|done]. unfold vm_cpu, deref_vm. rewrite !bind_assoc. erewrite bind_ok by reflexivity.
  rewrite bind_assoc. erewrite bind_ok by reflexivity. cbv beta. by rewrite Hvm.
Qed.

Lemma osm_inject irq idx : vm_acts (vm_inject_irq (Some vm) irq 0 GIC_GROUP idx) 0.
Proof. apply vm_cpu_runs. intros conn Hc. by apply command_runs. Qed.
Lemma osm_write resume regs : vm_acts (vm_write_registers (Some vm) resume regs SEL4_USER_CONTEXT_SIZE) 0.
Proof.
  apply vm_cpu_runs. intros conn Hc. unfold cpu_client_write_registers. rewrite (env_words _ _ HE).
  by apply command_runs.
Qed.
Lemma osm_runs : guest_runs (Some vm).
Proof.
  split; [apply osm_inject| |].
  - intros irq p Hp. destruct (vm_cpu_runs (fun conn => cpu_client_ack_vppi N conn irq) 0) with p as (p' & E & Hp').
    { intros conn Hc. by apply command_runs. }
    { done. }
    exists p'. split; [|done]. by rewrite (bind_ok _ _ _ _ _ E).
  - intros irq data p Hp. cbn [vm_serial_ack the_ops osm_vm_ops]. unfold serial_ack.
    erewrite bind_ok by reflexivity. erewrite bind_ok by reflexivity. cbv beta.
    match goal with |- context [irq_handler_ack ?slot] =>
      destruct (env_ack _ _ HE o l (kernel p) slot (proj1 Hp)) as (e & k' & Hk & Hd) end.
    destruct (syscall_alive _ _ _ p Hk Hd Hp) as [Hs Hp']. exists (set_kernel k' p). split; [|done].
    by rewrite (bind_ok _ _ _ _ _ Hs).
Qed.

Lemma advance_acts regs g : acts (fault_advance_vcpu (Some vm) regs) g true g.
Proof.
  unfold fault_advance_vcpu. eapply acts_bind; [apply acts_on_vm, osm_write|]. apply acts_ret.
Qed.
Lemma read_acts f regs g : o = GuestFault f regs -> acts (read_registers (Some vm)) g regs g.
Proof.
  intros Ho. unfold read_registers. eapply acts_bind.
  - apply acts_on_vm. apply (vm_cpu_runs (fun conn => r ← cpu_client_read_registers N conn; k ← gets kernel;
      mret (fst r, received_registers k)) (0, regs)).
    intros conn Hc p Hp. destruct (call_runs conn CpuReadRegisters p Hc I Hp) as (reply & p' & Hcall & Hp' & Hr).
    destruct (Hr eq_refl) as (n & -> & Hregs). rewrite Ho in Hregs. exists p'. split; [|done].
    unfold cpu_client_read_registers. rewrite bind_assoc, (bind_ok _ _ _ _ _ Hcall). cbn [Z.eqb negb].
    erewrite bind_ok by reflexivity. erewrite bind_ok by reflexivity. cbn [fst]. by rewrite Hregs.
  - cbn [fst snd]. eapply acts_bind; [by apply acts_assert|]. apply acts_ret.
Qed.

(** *** The messages of the guest *)
Lemma store_acts g st fsr regs data offset es : access_width fsr = Some 32 -> stored regs fsr = Some data ->
  store_events offset (u32 data) = Some es -> 0 <= offset ->
  vgic_refines g st -> can_happen_all st es ->
  exists g', acts (vgic_dist_reg_write (GIC_DIST_PADDR b) (Some vm) 0 offset fsr regs) g true g' /\
    vgic_refines g' (s_events es st).
Proof.
  intros Hw Hst Hes Ho HR Hcan.
  assert (GIC_DIST_PADDR b mod 4 = 0) as Hb by (by destruct b).
  destruct (events_acts (Some vm) osm_runs es g st HR Hcan) as (g' & Hact & HR'). exists g'. split; [|done].
  assert (acts (handle_events (Some vm) es ;; success ← fault_advance_vcpu (Some vm) regs; assert_ success ;; mret success)
    g true g') as Hrun.
  { eapply acts_bind; [exact Hact|]. eapply acts_bind; [apply advance_acts|].
    eapply acts_bind; [by apply acts_assert|apply acts_ret]. }
  intros p m Hp Hm. destruct (Hrun p m Hp Hm) as (p' & Erun & Hp'). exists p'. split; [|done].
  rewrite <- Erun. clear Erun. unfold store_events in Hes. destruct (Z.eqb_spec offset 0) as [->|].
  - destruct (Z.eqb_spec (u32 data) GIC_ENABLED) as [E|].
    { injection Hes as <-. by apply (store_switches (GIC_DIST_PADDR b) (Some vm) regs fsr data Hb Hw Hst true). }
    destruct (Z.eqb_spec (u32 data) 0) as [E|]; [|done]. injection Hes as <-.
    by apply (store_switches (GIC_DIST_PADDR b) (Some vm) regs fsr data Hb Hw Hst false).
  - destruct (List.find _ set_registers_events) as [[first ev]|] eqn:Ef; [|done]. cbn [mbind option_bind] in Hes.
    apply List.find_some in Ef as [Hin [H1%Z.leb_le H2%Z.ltb_lt]%andb_true_iff]. cbn [fst] in *.
    destruct (Z.eqb_spec offset (first + 4 * ((offset - first) / 4))) as [E|]; [|done]. injection Hes as <-.
    rewrite E at 1. apply (guest_stores_are_events (GIC_DIST_PADDR b) (Some vm) regs fsr data Hb Hw Hst first ev);
      [by apply list_elem_of_In|]. Z.to_euclidean_division_equations; lia.
Qed.

Lemma distributor_acts g st f regs addr fsr ip prefetch es : o = GuestFault f regs -> f = VMFault addr fsr ip prefetch ->
  message_events b o = Some es -> vgic_refines g st -> can_happen_all st es ->
  exists g', acts (fault_handle_vm_exception (GIC_DIST_PADDR b) (Some vm) addr fsr) g true g' /\
    vgic_refines g' (s_events es st).
Proof.
  intros Ho -> Hes HR Hcan. rewrite Ho in Hes. cbn [message_events] in Hes.
  set (offset := addr - GIC_DIST_PADDR b) in *. destruct (_ && _ && _ && _) eqn:Ec in Hes; [|done].
  apply andb_true_iff in Ec as [[[Hw%bool_decide_eq_true H0%Z.leb_le]%andb_true_iff H1%Z.ltb_lt]%andb_true_iff
    H2%Z.eqb_eq].
  destruct (stored regs fsr) as [data|] eqn:Hst; [|done]. cbn [mbind option_bind] in Hes.
  assert (exists g', acts (handle_vgic_dist_fault (GIC_DIST_PADDR b) (Some vm) 0 addr fsr regs) g true g' /\
    vgic_refines g' (s_events es st)) as (g' & Hact & HR').
  { enough (exists g', acts (if fault_is_read fsr
        then vgic_dist_reg_read (GIC_DIST_PADDR b) (Some vm) 0 offset fsr regs
        else vgic_dist_reg_write (GIC_DIST_PADDR b) (Some vm) 0 offset fsr regs) g true g' /\
        vgic_refines g' (s_events es st)) as (g' & Hact & HR').
    { exists g'. split; [|done]. unfold handle_vgic_dist_fault. eapply acts_bind; [apply acts_assert, Z.leb_le; lia|].
      eapply acts_bind; [apply acts_assert, Z.ltb_lt; lia|]. fold offset. cbv zeta.
      eapply acts_bind; [exact Hact|]. eapply acts_bind; [by apply acts_assert|apply acts_ret]. }
    unfold fault_is_read. destruct (fault_is_write fsr); cbn [negb].
    - by apply (store_acts g st fsr regs data offset es).
    - injection Hes as <-. exists g. split; [|done]. destruct HR as (d & c & ps & []).
      apply (load_acts _ (Some vm) g d ra_registers regs fsr data offset); try done; [by destruct b|].
      intros regs'. apply advance_acts. }
  exists g'. split; [|done]. unfold fault_handle_vm_exception.
  eapply acts_bind; [by eapply read_acts|]. rewrite (proj2 (Z.leb_le _ _)), (proj2 (Z.leb_le addr _)) by lia. exact Hact.
Qed.

Lemma fault_acts g st f regs es : o = GuestFault f regs -> message_events b o = Some es ->
  vgic_refines g st -> can_happen_all st es ->
  exists g', acts (fault_handle (GIC_DIST_PADDR b) (Some vm) f) g true g' /\ vgic_refines g' (s_events es st).
Proof.
  intros Ho Hes HR Hcan.
  enough (exists g', acts (match f with
    | VMFault addr fsr _ _ => fault_handle_vm_exception (GIC_DIST_PADDR b) (Some vm) addr fsr
    | UnknownSyscall syscall _ => fault_handle_unknown_syscall (Some vm) syscall
    | UserException _ _ => fault_handle_user_exception (Some vm)
    | VGICMaintenance idx => fault_handle_vgic_maintenance (Some vm) GUEST_VCPU_ID idx
    | VCPUFault hsr => fault_handle_vcpu_exception (Some vm) hsr
    | VPPIEvent irq => fault_handle_vppi_event (Some vm) irq
    | OtherFault _ => _ ← on_vm (vm_get_id (Some vm)); on_vm (vm_suspend (Some vm)) ;; mret false
    end) g true g' /\ vgic_refines g' (s_events es st)) as (g' & Hact & HR').
  { exists g'. split; [|done]. unfold fault_handle. eapply acts_bind; [exact Hact|]. cbn [negb when].
    eapply acts_bind; apply acts_ret. }
  destruct f as [addr fsr ip prefetch| | |idx|hsr|irq|]; try (rewrite Ho in Hes; discriminate).
  - by eapply distributor_acts.
  - rewrite Ho in Hes. cbn [message_events] in Hes. destruct (_ && _) eqn:Ec in Hes; [|done]. injection Hes as <-.
    apply andb_true_iff in Ec as [H0%Z.leb_le H1%Z.ltb_lt]. destruct Hcan as [[irq Hidx] _].
    destruct (maintained_acts (Some vm) osm_runs g st _ _ HR Hidx) as (g' & Hact & HR'). rewrite Z2Nat.id in Hact by done.
    by exists g'.
  - rewrite Ho in Hes. cbn [message_events] in Hes. destruct (_ =? _) eqn:Ec in Hes; [|done]. injection Hes as <-.
    exists g. split; [|done]. unfold fault_handle_vcpu_exception. eapply acts_bind; [by eapply read_acts|]. cbv zeta.
    rewrite Ec. apply Z.eqb_eq in Ec. rewrite Ec. apply acts_ret.
  - rewrite Ho in Hes. injection Hes as <-. destruct Hcan as [Hc _].
    destruct (arrives_acts (Some vm) osm_runs g st irq HR Hc) as (g' & Hact & HR'). exists g'. split; [|done].
    destruct Hc as (Hok & _). unfold irq_ok in Hok. unfold fault_handle_vppi_event.
    rewrite i32_small by lia. eapply acts_bind; [exact Hact|]. eapply acts_bind; [|apply acts_ret].
    destruct (s_accepts irq st); cbn [negb when]; [apply acts_ret|].
    intros p m. rewrite on_vm_dropped. revert p m. apply acts_on_vm, (gr_vppi _ osm_runs).
Qed.

Abbreviation handle_message := (handle_fault_message N b regs_words received_registers received_fault irq_handler_ack
    seL4_Reply).
Context (Hid : 1 <= guest_id < Z.of_nat MAX_GUEST_COUNT).

Lemma guest_badge : negb (Z.land FAULT_BADGE_FLAG (Z.lor FAULT_BADGE_FLAG guest_id) =? 0) = true /\
  u32 (Z.land (Z.lor FAULT_BADGE_FLAG guest_id) (Z.lnot FAULT_BADGE_FLAG)) = guest_id.
Proof.
  unfold MAX_GUEST_COUNT in Hid. assert (guest_id = 1 \/ guest_id = 2 \/ guest_id = 3 \/ guest_id = 4) as Hc by lia.
  destruct Hc as [E|[E|[E|E]]]; rewrite E; by vm_compute.
Qed.
Lemma message_runs v p m st es : in_message o l p -> is_fault o = true \/ v = Some vm ->
  (match o with GuestFault f _ => received_fault (kernel p) = f | SerialInterrupt => True end) ->
  message_events b o = Some es -> vgic_refines (vgic m) st -> can_happen_all st es ->
  returns (handle_message v (badge_of o)) (p, m) (fun v' s' =>
    v' = Some vm /\ at_recv l s'.1 /\ vgic_refines (vgic s'.2) (s_events es st)).
Proof.
  intros Hp Hv Hrec Hes HR Hcan. destruct o as [|f regs] eqn:Eo; cbn [badge_of].
  - destruct Hv as [?|Hv]; [done|]; subst v. injection Hes as <-. destruct Hcan as [Hc _].
    destruct (arrives_acts (Some vm) osm_runs _ st _ HR Hc) as (g' & Hact & HR').
    destruct (Hact p m) as (p' & E & Hp'); [by unfold alive, in_message_alive; rewrite Eo|done|].
    exists (Some vm), (p', set_vgic g' m). split; [|split; [done|]; split; [|exact HR']].
    + unfold handle_fault_message. change (negb (Z.land FAULT_BADGE_FLAG SERIAL_IRQ_BIT =? 0)) with false.
      change (negb (Z.land SERIAL_IRQ_BIT SERIAL_IRQ_BIT =? 0)) with true. cbv iota.
      unfold virq_inject, vgic_inject_irq. rewrite (bind_ok _ _ _ _ _ E). reflexivity.
    + unfold alive, in_message_alive in Hp'. rewrite Eo in Hp'. destruct Hp' as [Hd Hg].
      split; [by apply (env_no_reply _ _ HE)|done].
  - rewrite <- Eo in Hp, Hes. destruct (fault_acts _ st f regs es Eo Hes HR Hcan) as (g' & Hact & HR').
    destruct (Hact p m) as (p' & E & [Hd Hg]); [done..|].
    rewrite Eo in Hd. destruct (env_reply _ _ HE _ _ _ _ Hd) as (k' & Hk & Hd').
    exists (Some vm), (set_kernel k' p', set_vgic g' m). split; [|split; [reflexivity|]; split; [|exact HR']].
    + unfold handle_fault_message. destruct guest_badge as [E1 E2]. rewrite E1, E2.
      rewrite (proj2 (Z.eqb_neq _ _)), (proj2 (Z.leb_gt _ _)) by lia. cbn [orb].
      erewrite bind_ok by reflexivity. erewrite bind_ok by reflexivity. cbn [fst].
      cbv beta zeta.
      destruct (proj2 Hp) as (c & _ & _ & Hguest & _). unfold vm_ptr in Hguest |- *. rewrite Hguest.
      erewrite bind_ok by reflexivity. rewrite Hrec, (bind_ok _ _ _ _ _ E).
      erewrite bind_ok by (unfold on_vm; cbn [fst snd]; unfold syscall; rewrite Hk; reflexivity). reflexivity.
    + by split.
Qed.
End Message.

Abbreviation fault_loop := (handle_fault_loop N b regs_words received_registers received_fault irq_handler_ack seL4_Reply).
Context (Hid : 1 <= guest_id < Z.of_nat MAX_GUEST_COUNT).

(** C17: the thread of the monitor, with its requests to the GPI server, is the queue of
    interrupts.  For a sequence of messages of the serial device and of a guest that have a
    meaning as events ([message_events]) - interrupts that the guest has handled, timer events,
    waiting for an interrupt, word loads from the registers of the distributor and word stores
    to those that enable, disable, set and clear - and whose events can happen one after the
    other ([can_happen_all]: the queue has room, and the interrupts are registered or the
    CPU's own): each round of the loop receives one, handles it, and lets the guest go on; and
    after all of them the interrupt controller is what the specification makes of their events.
    The GPI server answers the requests about the CPU of the guest without an error.  Nothing
    is said about other messages - generated interrupts, accesses that are not of a word,
    unknown faults - some of which stop the monitor. *)
Theorem monitor_loop_refines_queue v l es st p m : at_recv l p ->
  match l with [] => True | o1 :: _ => is_fault o1 = true \/ v = Some vm end ->
  messages_events b l = Some es -> vgic_refines (vgic m) st -> can_happen_all st es ->
  returns (fault_loop (length l) v) (p, m) (fun _ s' =>
    vgic_refines (vgic s'.2) (s_events es st) /\ at_recv [] s'.1).
Proof.
  revert v es st p m. induction l as [|o1 l IH]; intros v es st p m Hp Hv Hes HR Hcan.
  - injection Hes as <-. eexists _, _. split; [reflexivity|]. by split.
  - unfold messages_events in Hes. cbn [mapM] in Hes. destruct (message_events b o1) as [es1|] eqn:E1; [|done].
    cbn [mbind option_bind] in Hes. destruct (mapM (message_events b) l) as [ess|] eqn:E2; [|done].
    injection Hes as <-. cbn [concat] in *. apply can_happen_app in Hcan as [Hc1 Hc2]. rewrite s_events_app.
    destruct Hp as [Hd Hg]. destruct (env_recv _ _ HE _ _ _ Hd) as (words & k' & Hk & Hd' & Hrec).
    assert (in_message o1 l (set_kernel k' p)) as Hp1 by (by split).
    cbn [length handle_fault_loop]. destruct Hg as (c & _ & _ & _ & Hep).
    apply returns_bind. eexists _, _. split; [reflexivity|]. cbn [fst snd]. apply returns_bind. eexists _, _. split.
    { unfold on_vm, syscall. cbn [fst snd]. rewrite Hep, Hk. reflexivity. }
    apply returns_bind. eapply returns_mono; [by apply (message_runs o1 l Hid)|].
    intros v' [p' m'] (-> & Hp' & HR'). eapply IH; [exact Hp'| |by unfold messages_events; rewrite E2|done|done].
    destruct l; [done|by right].
Qed.
End Loop.

(** ** An example *)

(** an environment with a script: the message that is handled, and those after it *)
Definition script : Type := occurrence * list occurrence.
Definition script_recv : M script (Z * list Z) := fun k =>
  match snd k with
  | o :: l => (Ok (badge_of 1 o, []), (o, l))
  | [] => (Ok (0, []), k)
  end.
#[local] Instance script_kernel : Kernel script := {|
  k_call _ _ _ := mret (0, []);
  k_recv _ := script_recv;
  k_send _ _ := mret tt;
  k_set_receive_path _ := mret tt;
  k_save_caller _ := mret 0
|}.
Definition script_nanopb : nanopb := Nanopb (fun _ _ => Some [])
  (fun c _ => Some (0, match c return return_message c with CpuComponent => CpuReadRegistersReturn 36 | c =>
      zero_reply c end)).
Definition no_registers : seL4_UserContext := UserContext 0 0 0 (replicate 31 0) 0 0.
Definition script_registers (k : script) : seL4_UserContext :=
  match fst k with GuestFault _ regs => regs | SerialInterrupt => no_registers end.
Definition script_fault (k : script) : fault_message :=
  match fst k with GuestFault f _ => f | SerialInterrupt => OtherFault 0 end.
Lemma script_environment : environment script_nanopb (fun _ => replicate 36 0) script_registers script_fault
  (fun _ => mret 0) (mret tt) 1 7 8 (fun l k => snd k = l) (fun o l k => k = (o, l)).
Proof.
  split; try done.
  - intros o l [o0 l0] [= ->]. exists [], (o, l). by destruct o.
  - intros o l k m -> Hm. exists [], [], (CpuReadRegistersReturn 36), (o, l). do 4 (split; [done|]).
    intros _. exists 36. by destruct o.
  - intros f regs l k ->. by eexists.
  - by intros l k ->.
  - intros o l k slot ->. by eexists _, _.
Qed.

(** a guest switches its distributor on, enables the serial interrupt, reads a register, gets
    a timer event that it has not enabled and the serial interrupt, waits, and handles it *)
Definition guest_session : list occurrence :=
  let store x := UserContext 0 0 0 (replicate 3 0 ++ [x]) 0 0 in
  [GuestFault (VMFault 0x8000000 0x1830040 0 0) (store 1); GuestFault (VMFault 0x8000104 0x1830040 0 0) (store 2);
   GuestFault (VMFault 0x8000fe8 0x1830000 0 0) (store 0); GuestFault (VPPIEvent 27) no_registers; SerialInterrupt;
   GuestFault (VCPUFault 0x4000000) no_registers; GuestFault (VGICMaintenance 0) no_registers].
Definition session_process : process script osm_vmm :=
  Process (SerialInterrupt, guest_session) shared_zero 0 (fun _ => 0)
    (OsmVmm vmon_context_zero (VmonFaultContext (EpConn 3 8) 0 [None; Some 0%nat; None; None; None])
       [VmContext 1 (Runnable conn_zero conn_zero (Conn 5 7))] 0).

Lemma monitor_loop_refines_queue_witness : exists m,
  let es := [Switched true; Enabled 33; Arrives 27; Arrives 33; Maintained 0] in
  vgic_refines (vgic m) (s_started 33) /\ messages_events Qemu guest_session = Some es /\
  returns (handle_fault_loop script_nanopb Qemu (fun _ => replicate 36 0) script_registers script_fault
             (fun _ => mret 0) (mret tt) (length guest_session) None) (session_process, m)
    (fun _ s' => vgic_refines (vgic s'.2) (s_events es (s_started 33)) /\
       at_recv 1 0 7 8 (fun l k => snd k = l) [] s'.1).
Proof.
  destruct (started_demo [] I) as [m HR]. exists m. cbv zeta. split; [done|]. split; [reflexivity|].
  apply (monitor_loop_refines_queue script_nanopb Qemu (fun _ => replicate 36 0) script_registers script_fault
    (fun _ => mret 0) (mret tt) 1 0 7 8 _ _ script_environment ltac:(by split) None); [|by left|done|done|].
  - split; [done|]. eexists. by split.
  - events_happen.
Defined.
